(* ===== verification/_CoqProject ===== *)
-Q . S2P
Prelude.v
LinkedList.v
CString.v
CStringSpec.v
SprintfSpec.v
PageDefs.v
Bootmem.v
BootmemSpec.v
Blocks.v
Palloc.v
BuddyInv.v
BuddySteps.v
BuddyMerge.v
PageAlloc.v
PageSource.v
Boot.v
PageClaims.v
Slab.v
SlabInv.v
SlabSpec.v
HeapClaims.v
Ptable.v
EntryBits.v
HeapClient.v
PtableSpec.v
HeapGrow.v
Spare.v
Tty.v
Vfs.v
VfsSpec.v
VmSpec.v
VmClaims.v
Task.v
TaskSpec.v
TaskCreate.v
TaskClaims.v
TaskTypes.v
Multiboot.v
MultibootSpec.v
BootEntry.v
StartUp.v
Interrupts.v
InterruptClaims.v
Cpu.v
ContextSwitch.v
ContextSwitchSpec.v
Console.v
ConsoleSpec.v
Logging.v
LoggingSpec.v
ArchInit.v
ArchInitSpec.v
FirstTick.v
FromLoader.v
ShellTasks.v
DebugPrint.v
DebugPrintSpec.v
DebugReports.v
Shell.v
ShellSpec.v
ShellSession.v
