(* ===== verification/Prelude.v ===== *)
(** * Rotary: a verification library for the kernel

    Rotary is a small 32-bit x86 kernel in C.  This library translates its core
    into executable Rocq functions and proves what makes them correct.  Paths
    below are relative to src/.

    ** The program and the files that model it

    - The start-up assembly (arch/x86/boot/boot.asm; BootEntry.v) runs instruction
      by instruction from the loader's jump to [_start] to the first instruction of
      [kernel_main], with every fetch and access through the processor's
      translation.
    - Memory comes up in stages.  [multiboot_parse] (arch/x86/kernel/multiboot.c;
      Multiboot.v, MultibootSpec.v) walks the boot loader's memory map and
      registers regions with the boot allocator (kernel/mm/bootmem.c; Bootmem.v,
      BootmemSpec.v).  [paging_init] (arch/x86/kernel/paging.c; Ptable.v,
      VmSpec.v) takes early memory from it for the kernel's page directory,
      [buddy_init] for the page array, and [bootmem_mark_free] (Boot.v) gives the
      rest to the page allocator.  StartUp.v composes these steps.
    - [arch_init] and [kernel_main] (arch/x86/kernel/init.c, kernel/core/main.c):
      ArchInit.v is the whole sequence of stages with their messages and early
      returns, on one state that holds all components; ArchInitSpec.v shows what
      it leaves, FirstTick.v what the first timer tick does from there, and
      FromLoader.v joins assembly, start-up and tick on one memory.
    - The buddy page allocator (kernel/mm/palloc.c): Palloc.v is the code, over
      the list heads and nodes of include/rotary/list.h (LinkedList.v) and the
      macros of paging.h, ptable.h and palloc.h (PageDefs.v).  Blocks.v is the
      geometry of aligned blocks, BuddyInv.v the invariant, BuddySteps.v and
      BuddyMerge.v the primitives on it, PageAlloc.v the two operations,
      PageClaims.v the theorems.
    - [PageSource] (PageSource.v) is what every client of the page allocator may
      rely on; the buddy allocator is an instance.  The slab allocator and kmalloc
      (kernel/mm/slab.c, kmalloc.c; Slab.v, SlabInv.v, SlabSpec.v, HeapClaims.v),
      page tables and address spaces (kernel/mm/ptable.c, vm.c; Ptable.v,
      PtableSpec.v, VmSpec.v, VmClaims.v; the bit fields of the entries in
      EntryBits.v) and the scheduler are modelled and proved against it.
      HeapClient.v says what a client of kmalloc may write without disturbing the
      heap, HeapGrow.v how the heap grows over a run of allocations, Spare.v how
      many more requests it has room for.
    - Tasks (kernel/sched/task.c, arch/x86/kernel/task.c): Task.v, TaskSpec.v,
      TaskCreate.v, TaskClaims.v, TaskTypes.v (the types of its data over all
      runs). The assembly around them (the interrupt stubs and the common entry
      and exit of arch/x86/kernel/isr.asm, the switch of context-switch.asm) and
      the system calls run on a register file and a stack in ContextSwitch.v,
      ContextSwitchSpec.v.  Terminals (kernel/drivers/tty/tty.c): Tty.v. The file
      system registry, super blocks and the test root (kernel/fs): Vfs.v,
      VfsSpec.v.  All three keep their objects in the kernel heap.
    - Interrupts, descriptor tables, timer, keyboard, spinlocks
      (arch/x86/kernel/interrupts.c, gdt.c, cpu.c, pic8259.c, timer.c,
      keyboard.c, sync.c, kernel/drivers/input/keyboard): Interrupts.v,
      InterruptClaims.v; per-processor data and GS: Cpu.v.
    - Text: C strings and sprintf (kernel/core/string.c, kernel/util/math.c;
      CString.v, CStringSpec.v, SprintfSpec.v), the text screen and the serial
      port (arch/x86/kernel/vga.c, serial.c; Console.v, ConsoleSpec.v), the log
      and panics (kernel/core/logging.c, panic.c; Logging.v, LoggingSpec.v), the
      debug printers of all components (DebugPrint.v, DebugPrintSpec.v,
      DebugReports.v).
    - The shell (kernel/core/shell.c) is the client of all of them: Shell.v is the
      line editor, the keyboard callback and every command, run on the state of the
      whole kernel; ShellTasks.v has the two commands that start tasks, ShellSpec.v
      the editor and the commands one by one, ShellSession.v a session from scan
      codes to the bytes on the serial port.

    ** How code becomes definitions

    Stateful code is in the monad [ST S A] of this file: a function from a state
    to a result and a state, or to [None].  [None] is a fault or a computation
    that never returns: a read of memory that holds nothing, a write through
    NULL, taking a held lock on the only processor, or fuel that ran out.  Every
    functional theorem says that the code returns ([Some]), so none of these
    happens.  Each component has its state as a record and one definition per C
    function, named after it; a function of one component used by another works
    on a lens of the caller's state.  A machine word is a [Z] in range and every
    operation that can leave the range is wrapped ([u8], [u16], [u32], [u64],
    [i32]).  Pointers are addresses, with [0] or [None] for NULL; list nodes
    embedded in structures are in a node heap under the address of their owner.
    Structures of the heap are words of kernel memory at the offsets of their
    header files, so that aliasing and use after free show.

    Loops that are not structural take fuel: loops over a list the number of
    nodes in the node heap, loops over a string the size of the memory, digit
    loops 33 (65 for 64-bit numbers), a merge or split the number of orders.  The
    theorems show that this is enough, because they state that the code returns.

    Code outside the repository and the hardware are arguments: port reads come
    from a list, cpuid from a function, literals and local arrays are at addresses
    the theorems take as given.  [mmu_walk] (Ptable.v) is the processor's page
    walk, written from the architecture's rules and not from the code;
    [gdt_base] and [gate_target] (Interrupts.v) read a descriptor and a gate as
    the processor does, and so do [segment_address] (Cpu.v) for a load through a
    segment register and [interrupt_raise] and [iret] (ContextSwitch.v) for an
    interrupt and the return from it.

    ** What the theorems show

    - Page allocator: an allocation returns a fresh aligned block or fails with
      nothing changed, succeeds whenever a free aligned run of the size exists,
      freeing merges fully and undoes an allocation, any run of a well-behaved
      client keeps live blocks apart, and boot establishes the invariant with
      exactly the registered pages free.
    - Boot allocator: memory is carved out for good, registration keeps clear of
      the kernel image and loses no byte.
    - Heap: a fresh object of the smallest fitting cache, disjoint from all live
      ones, whose contents both operations keep.
    - Page tables: access through the bit fields is access to the word; each
      operation changes the processor's translation of exactly the pages it names;
      a fault inside a mapping is resolved with a fresh page; the kernel directory
      maps low memory linearly.
    - Scheduler: start-up installs the idle task, creation builds a task whose
      address space and stacks are its own, the next runnable task in list order
      (and exactly when the search for it ends), round-robin fairness, killing
      and purging; every operation keeps the types of the tasks, and a killed task
      never runs again; spinlock exclusion over all interleavings.
    - Start-up: the assembly reaches [kernel_main] with the loader's two values as
      its arguments and exactly the first 4 MiB mapped twice; on a machine with
      enough memory [arch_init] goes through all its stages and leaves every
      component well-formed in one state with room for more requests; the first
      timer tick then starts the shell's first instruction, and the three compose
      from the loader's jump to the running shell; the tasks the shell starts get
      the pages of their mapping by page faults; without the loader's magic number
      nothing but the console changes.
    - Interrupts and switches: dispatch runs one handler and acknowledges; entry
      and exit restore every register, a switch away and back resumes a task where
      it left off, a new task's first switch enters its entry point in its own
      mode, and a system call returns its result in EAX.  Descriptors and gates
      decode to what was asked for.  Returning to user mode clears GS, which the
      entry path does not load again: an interrupt of a user task faults in
      [cpu_get_local].
    - Text: conversions and their inverse, what they do on overflow, sprintf
      against a reference formatter, the screen against an abstract terminal, the
      log and panics from format string to screen and serial line, a session of
      the shell, as scan codes, against what its lines ask of the tasks, the heap,
      the file systems and the log; the debug printers report exactly the data
      they walk, and their texts fit their arrays.
    - Registry of file systems against an abstract list; new terminals.

    ** Not modelled

    usermode-test.asm (an endless loop, which nothing maps for the task that is to
    run it), and the effects of single instructions after start-up (loading CR3,
    the descriptor registers, the TLB), which are events or no-ops of the models.
    The debug messages that routines of the memory system, the drivers and the
    stages of [arch_init] send while they work are left out: their only effect is
    on the serial port.  No interrupt arrives between the STI in [arch_init] and
    its return.  The loader's structures are a memory of their own, which
    [multiboot_parse] only reads. The unit tests (kernel/test/ktest.c, test/)
    check the routines proved here and are left out; the shell commands that start
    them take them as arguments.  The ARM port, the user program and the empty
    stubs (kernel/core/descriptor.c, kernel/loaders/elf.c,
    kernel/drivers/block/ata.c, vfs_mount and namei in kernel/fs/vfs) hold no
    logic of their own.  Time is not modelled: busy loops on hardware (serial, PIC
    waits) are as long as their input says. *)

From stdpp Require Import base numbers list gmap.
From Stdlib Require Import ZArith Lia.

#[local] Open Scope Z_scope.

(** ** Machine integers

    A [w]-bit unsigned C integer is a [Z] in [0 <= x < 2^w]; every operation of
    the source that can leave that range is followed by the corresponding
    wrap-around. *)

Definition u8 (x : Z) : Z := x mod 256.

Definition u16 (x : Z) : Z := x mod 65536.

Definition u32 (x : Z) : Z := x mod 4294967296.

Definition u64 (x : Z) : Z := x mod 18446744073709551616.

(** The signed reading of a 32-bit pattern ([(int32_t)x]). *)
Definition i32 (x : Z) : Z :=
  if u32 x <? 2147483648 then u32 x else u32 x - 4294967296.

Lemma u32_range x : 0 <= u32 x < 4294967296.
Proof. unfold u32. apply Z.mod_pos_bound. lia. Qed.

Lemma u32_small x : 0 <= x < 4294967296 -> u32 x = x.
Proof. unfold u32. apply Z.mod_small. Qed.

Lemma u32_idem x : u32 (u32 x) = u32 x.
Proof. apply u32_small, u32_range. Qed.

Lemma u8_range x : 0 <= u8 x < 256.
Proof. unfold u8. apply Z.mod_pos_bound. lia. Qed.

Lemma u8_small x : 0 <= x < 256 -> u8 x = x.
Proof. unfold u8. apply Z.mod_small. Qed.

(** ** Result codes and the C conventions of include/rotary/core.h *)

Definition E_SUCCESS : Z := 0.

Definition E_ERROR : Z := -1.

(** [SUCCESS(value)]: the signed value is not negative. *)
Definition SUCCESS (value : Z) : bool := 0 <=? value.

(** [TEST_BIT], [SET_BIT] and [CLEAR_BIT] on 32-bit flag words. *)
Definition TEST_BIT (flags bit : Z) : bool := negb (Z.land flags bit =? 0).

Definition SET_BIT (flags bit : Z) : Z := Z.lor flags bit.

Definition CLEAR_BIT (flags bit : Z) : Z := Z.land flags (u32 (Z.lnot bit)).

(** ** The state-and-fault monad

    [ST S A] is a C function over the state [S]: [None] is an execution that
    does not return normally (a NULL or wild pointer dereference, a spin on a
    lock that nobody can release, a kernel panic), [Some (a, s)] a normal
    return. *)

Definition ST (S A : Type) : Type := S -> option (A * S).

Definition ret {S A} (a : A) : ST S A := fun s => Some (a, s).

Definition fault {S A} : ST S A := fun _ => None.

Definition bind {S A B} (m : ST S A) (k : A -> ST S B) : ST S B :=
  fun s => match m s with
           | Some (a, s') => k a s'
           | None => None
           end.

Definition gets {S A} (f : S -> A) : ST S A := fun s => Some (f s, s).

Definition modify {S} (f : S -> S) : ST S unit := fun s => Some (tt, f s).

(** A value that must be present: dereferencing a pointer. *)
Definition deref {S A} (o : option A) : ST S A :=
  match o with Some a => ret a | None => fault end.

Declare Scope st_scope.
Delimit Scope st_scope with st.

Notation "x <- m ;; k" := (bind m (fun x => k))
  (at level 100, m at next level, k at level 200, right associativity) : st_scope.

Notation "m ;; k" := (bind m (fun _ => k))
  (at level 100, k at level 200, right associativity) : st_scope.

Lemma bind_some {S A B} (m : ST S A) (k : A -> ST S B) s a s' :
  m s = Some (a, s') -> bind m k s = k a s'.
Proof. unfold bind. intros ->. reflexivity. Qed.

Lemma bind_ret {S A B} (a : A) (k : A -> ST S B) s : bind (ret a) k s = k a s.
Proof. reflexivity. Qed.

Lemma gets_run {S A} (f : S -> A) s : gets f s = Some (f s, s).
Proof. reflexivity. Qed.

Lemma bind_inv {S A B} (m : ST S A) (k : A -> ST S B) s r :
  bind m k s = Some r -> exists a s', m s = Some (a, s') /\ k a s' = Some r.
Proof. unfold bind. destruct (m s) as [[a s']|]; [eauto | discriminate]. Qed.

Lemma bind_assoc {S A B C} (f : ST S A) (g : A -> ST S B) (h : B -> ST S C) s :
  bind f (fun a => bind (g a) h) s = bind (bind f g) h s.
Proof. unfold bind. by destruct (f s) as [[a s']|]. Qed.

(** One step of a monadic computation whose head is known to return. *)
Ltac st_step H := rewrite (bind_some _ _ _ _ _ H); cbn beta.

(** Case analysis on a boolean test of the code, with its arithmetic meaning. *)
Ltac bool_cases :=
  repeat match goal with
  | H : context [ ?a =? ?b ] |- _ => destruct (Z.eqb_spec a b)
  | H : context [ ?a <? ?b ] |- _ => destruct (Z.ltb_spec a b)
  | H : context [ ?a <=? ?b ] |- _ => destruct (Z.leb_spec a b)
  | |- context [ ?a =? ?b ] => destruct (Z.eqb_spec a b)
  | |- context [ ?a <? ?b ] => destruct (Z.ltb_spec a b)
  | |- context [ ?a <=? ?b ] => destruct (Z.leb_spec a b)
  end; cbn [andb orb negb] in *; try lia; try discriminate.

(** ** Bit-level lemmas shared by the allocators and the page tables *)

Lemma u32_land_ones x : u32 x = Z.land x (Z.ones 32).
Proof. unfold u32. rewrite Z.land_ones by lia. reflexivity. Qed.

Lemma land_u32_r x y : 0 <= x < 4294967296 -> Z.land x (u32 y) = Z.land x y.
Proof.
  intros Hx. rewrite u32_land_ones, Z.land_assoc, Z.land_comm, Z.land_assoc.
  f_equal. rewrite Z.land_comm, <- u32_land_ones. by apply u32_small.
Qed.

(** [x & ~(2^k - 1)] rounds down to a multiple of [2^k]. *)
Lemma land_lnot_ones x k :
  0 <= k -> Z.land x (Z.lnot (2 ^ k - 1)) = x - x mod 2 ^ k.
Proof.
  intros Hk. rewrite <- Z.ldiff_land. replace (2 ^ k - 1) with (Z.ones k) by (rewrite Z.ones_equiv; lia).
  rewrite Z.ldiff_ones_r, Z.shiftl_mul_pow2, Z.shiftr_div_pow2 by lia.
  assert (0 < 2 ^ k) by (apply Z.pow_pos_nonneg; lia).
  rewrite (Z.mod_eq x (2 ^ k)) by lia. lia.
Qed.

Lemma land_range x y n : 0 <= n -> 0 <= y < 2 ^ n -> 0 <= Z.land x y < 2 ^ n.
Proof.
  intros Hn Hy. split; [apply Z.land_nonneg; lia|].
  rewrite <- (Z.mod_small y (2 ^ n)), <- Z.land_ones, Z.land_assoc, Z.land_ones by lia.
  apply Z.mod_pos_bound. lia.
Qed.

Lemma testbit_add_pow2 p k : 0 <= k -> p mod 2 ^ (k + 1) = p mod 2 ^ k + Z.b2z (Z.testbit p k) * 2 ^ k.
Proof.
  intros Hk. assert (0 < 2 ^ k) by (apply Z.pow_pos_nonneg; lia).
  rewrite Z.pow_add_r, Z.pow_1_r, Z.rem_mul_r by lia.
  rewrite Z.testbit_spec' by lia. lia.
Qed.

(** Flipping or clearing bit [k]. *)
Lemma lxor_pow2 p k :
  0 <= k -> Z.lxor p (2 ^ k) = if Z.testbit p k then p - 2 ^ k else p + 2 ^ k.
Proof.
  intros Hk. destruct (Z.testbit p k) eqn:E.
  - rewrite (Z.sub_nocarry_ldiff p (2 ^ k)).
    + apply Z.bits_inj'. intros n Hn. rewrite Z.lxor_spec, Z.ldiff_spec.
      destruct (Z.eqb_spec n k) as [->|Hnk].
      * by rewrite Z.pow2_bits_true, E by lia.
      * rewrite Z.pow2_bits_false by lia. by destruct (Z.testbit p n).
    + apply Z.bits_inj'. intros n Hn. rewrite Z.ldiff_spec, Z.bits_0.
      destruct (Z.eqb_spec n k) as [->|Hnk].
      * by rewrite Z.pow2_bits_true, E by lia.
      * by rewrite Z.pow2_bits_false by lia.
  - rewrite Z.add_nocarry_lxor; [done|].
    apply Z.bits_inj'. intros n Hn. rewrite Z.land_spec, Z.bits_0.
    destruct (Z.eqb_spec n k) as [->|Hnk].
    + by rewrite E.
    + rewrite Z.pow2_bits_false by lia. by rewrite andb_false_r.
Qed.

Lemma land_lnot_pow2 p k :
  0 <= k -> Z.land p (Z.lnot (2 ^ k)) = if Z.testbit p k then p - 2 ^ k else p.
Proof.
  intros Hk. rewrite <- Z.ldiff_land. destruct (Z.testbit p k) eqn:E.
  - symmetry. apply Z.sub_nocarry_ldiff. apply Z.bits_inj'. intros n Hn. rewrite Z.ldiff_spec, Z.bits_0.
    destruct (Z.eqb_spec n k) as [->|Hnk].
    + by rewrite Z.pow2_bits_true, E by lia.
    + by rewrite Z.pow2_bits_false by lia.
  - apply Z.bits_inj'. intros n Hn. rewrite Z.ldiff_spec.
    destruct (Z.eqb_spec n k) as [->|Hnk].
    + by rewrite E.
    + rewrite Z.pow2_bits_false by lia. by rewrite andb_true_r.
Qed.

(** A word whose low [k] bits are clear, merged with a flag field below them. *)
Lemma lor_disjoint a b k :
  0 <= k -> a mod 2 ^ k = 0 -> 0 <= b < 2 ^ k -> Z.lor a b = a + b.
Proof.
  intros Hk Ha Hb. rewrite <- Z.add_nocarry_lor; [done|].
  apply Z.bits_inj'. intros n Hn. rewrite Z.land_spec, Z.bits_0.
  destruct (Z.ltb_spec n k).
  - rewrite <- (Z.mod_pow2_bits_low a k n), Ha, Z.bits_0 by lia. done.
  - assert (Z.testbit b n = false) as ->; [|by rewrite andb_false_r].
    rewrite <- (Z.mod_small b (2 ^ k)) by lia. apply Z.mod_pow2_bits_high. lia.
Qed.

(** Distinct keys of a map are at most as many as its entries: the bound behind
    every walk that takes the size of a memory as its fuel. *)
Lemma keys_length {A} (m : gmap Z A) (l : list Z) :
  NoDup l -> (forall x, x ∈ l -> is_Some (m !! x)) -> (length l <= size m)%nat.
Proof.
  intros ND Hk. rewrite <- size_dom, <- (size_list_to_set (C := gset Z) l) by done.
  apply subseteq_size. intros x Hx. apply elem_of_dom, Hk. by apply elem_of_list_to_set in Hx.
Qed.
