(* ===== verification/LinkedList.v ===== *)
(** * Intrusive doubly-linked lists (include/rotary/list.h)

    The list nodes embedded in the kernel's structures live in a heap that maps
    a node's address to its two pointers.  The type of node addresses [K] is a
    parameter: the buddy allocator uses the list heads of its orders and the
    nodes inside [struct page], the scheduler the nodes inside [struct task].
    A C pointer is an [option K] with [None] for NULL; dereferencing NULL or an
    address outside the heap is a fault of the monad.

    [clist h hd l] says that [hd] is the head of a well-formed circular list
    whose members, in order, are [l]; [llist h hd l] is the NULL-terminated
    form.  Each operation of list.h is proved to implement the corresponding
    operation on the mathematical list and to leave all other nodes alone. *)

From stdpp Require Import base numbers list gmap.
From Stdlib Require Import ZArith Lia.
From S2P Require Import Prelude.

Record lnode (K : Type) : Type := LNode { next : option K; prev : option K }.

Arguments LNode {K} _ _.
Arguments next {K} _.
Arguments prev {K} _.

Section Operations.
  Context {K : Type} `{Countable K}.

  #[local] Abbreviation lheap := (gmap K (lnode K)).

(** [p->next], [p->prev] and the stores to them. *)
Definition load_next (p : option K) : ST lheap (option K) :=
  fun h => match p ≫= (h !!.) with
           | Some n => Some (next n, h)
           | None => None
           end.

Definition load_prev (p : option K) : ST lheap (option K) :=
  fun h => match p ≫= (h !!.) with
           | Some n => Some (prev n, h)
           | None => None
           end.

Definition store_next (p v : option K) : ST lheap unit :=
  fun h => match p with
           | Some k => match h !! k with
                       | Some n => Some (tt, <[k := LNode v (prev n)]> h)
                       | None => None
                       end
           | None => None
           end.

Definition store_prev (p v : option K) : ST lheap unit :=
  fun h => match p with
           | Some k => match h !! k with
                       | Some n => Some (tt, <[k := LNode (next n) v]> h)
                       | None => None
                       end
           | None => None
           end.

Definition is_null (p : option K) : bool :=
  match p with None => true | Some _ => false end.

(** ** Circular lists *)

Definition clist_init (first_node : option K) : ST lheap unit :=
  (if is_null first_node then ret tt else
   store_next first_node first_node ;;
   store_prev first_node first_node)%st.

Definition clist_add (node_head node_new : option K) : ST lheap unit :=
  (hn <- load_next node_head ;;
   (if is_null hn then ret tt else store_prev hn node_new) ;;
   hn <- load_next node_head ;;
   store_next node_new hn ;;
   store_prev node_new node_head ;;
   store_next node_head node_new)%st.

Definition clist_add_before (node_ref node_new : option K) : ST lheap unit :=
  (if is_null node_ref || is_null node_new then ret tt else
   store_next node_new node_ref ;;
   rp <- load_prev node_ref ;;
   store_prev node_new rp ;;
   store_prev node_ref node_new ;;
   np <- load_prev node_new ;;
   store_next np node_new)%st.

Definition clist_add_after (node_ref node_new : option K) : ST lheap unit :=
  (if is_null node_ref || is_null node_new then ret tt else
   rn <- load_next node_ref ;;
   store_next node_new rn ;;
   store_prev node_new node_ref ;;
   store_next node_ref node_new ;;
   nn <- load_next node_new ;;
   store_prev nn node_new)%st.

Definition clist_delete_node (node : option K) : ST lheap unit :=
  (if is_null node then ret tt else
   p <- load_prev node ;;
   n <- load_next node ;;
   store_next p n ;;
   n <- load_next node ;;
   p <- load_prev node ;;
   store_prev n p)%st.

(** The traversal of [clist_for_each] from [cur] up to the head: the nodes
    visited, in order.  [None] when [fuel] nodes are not enough. *)
Fixpoint clist_nodes (fuel : nat) (head : K) (cur : option K) (h : lheap) : option (list K) :=
  match fuel with
  | O => None
  | S f =>
      match cur with
      | None => None
      | Some c =>
          if decide (c = head) then Some []
          else match h !! c with
               | None => None
               | Some n => (c ::.) <$> clist_nodes f head (next n) h
               end
      end
  end.

(** ** Linear lists *)

Definition llist_init (first_node : option K) : ST lheap unit :=
  (if is_null first_node then ret tt else
   store_next first_node None ;;
   store_prev first_node None)%st.

Definition llist_add (node_head node_new : option K) : ST lheap unit :=
  (hn <- load_next node_head ;;
   (if is_null hn then ret tt else store_prev hn node_new) ;;
   hn <- load_next node_head ;;
   store_next node_new hn ;;
   store_prev node_new node_head ;;
   store_next node_head node_new)%st.

Definition llist_add_before (node_ref node_new : option K) : ST lheap unit :=
  (if is_null node_ref || is_null node_new then ret tt else
   store_next node_new node_ref ;;
   rp <- load_prev node_ref ;;
   store_prev node_new rp ;;
   rp <- load_prev node_ref ;;
   (if is_null rp then ret tt else store_next rp node_new) ;;
   store_prev node_ref node_new)%st.

Definition llist_add_after (node_ref node_new : option K) : ST lheap unit :=
  (if is_null node_ref || is_null node_new then ret tt else
   rn <- load_next node_ref ;;
   store_next node_new rn ;;
   store_prev node_new node_ref ;;
   rn <- load_next node_ref ;;
   (if is_null rn then ret tt else store_prev rn node_new) ;;
   store_next node_ref node_new)%st.

Definition llist_delete_node (node : option K) : ST lheap unit :=
  (if is_null node then ret tt else
   p <- load_prev node ;;
   (if is_null p then ret tt else
    n <- load_next node ;; store_next p n) ;;
   n <- load_next node ;;
   (if is_null n then ret tt else
    p <- load_prev node ;; store_prev n p))%st.

(** [llist_length] counts in a [uint32_t] and returns an [int32_t]. *)
Fixpoint llist_length_loop (fuel : nat) (current_node : option K) (count : Z) (h : lheap) : option Z :=
  match current_node with
  | None => Some count
  | Some c =>
      match fuel with
      | O => None
      | S f =>
          match h !! c with
          | None => None
          | Some n => llist_length_loop f (next n) (u32 (count + 1)) h
          end
      end
  end.

Definition llist_length (start_node : option K) (h : lheap) : option Z :=
  i32 <$> llist_length_loop (S (size h)) start_node 0 h.

(** [llist_get_last] returns [(list_node_t* )E_ERROR] on an empty list: [inl]. *)
Fixpoint llist_get_last_loop (fuel : nat) (current_node : option K) (h : lheap) : option (Z + K) :=
  match current_node with
  | None => Some (inl E_ERROR)
  | Some c =>
      match fuel with
      | O => None
      | S f =>
          match h !! c with
          | None => None
          | Some n =>
              match next n with
              | None => Some (inr c)
              | Some _ => llist_get_last_loop f (next n) h
              end
          end
      end
  end.

Definition llist_get_last (start_node : option K) : ST lheap (Z + K) :=
  fun h => match llist_get_last_loop (S (size h)) start_node h with
           | Some r => Some (r, h)
           | None => None
           end.

Definition llist_add_end (node_ref node_new : option K) : ST lheap unit :=
  (if is_null node_new then ret tt else
   if is_null node_ref then llist_init node_new else
   last_node <- llist_get_last node_ref ;;
   match last_node with
   | inl _ => ret tt
   | inr l => llist_add_after (Some l) node_new
   end)%st.

(** ** Well-formed lists *)

Definition nxt (h : lheap) (k : K) : option (option K) := next <$> h !! k.

Definition prv (h : lheap) (k : K) : option (option K) := prev <$> h !! k.

(** Consecutive members point at each other. *)
Fixpoint links (h : lheap) (l : list K) : Prop :=
  match l with
  | a :: (b :: _) as t =>
      nxt h a = Some (Some b) /\ prv h b = Some (Some a) /\ links h t
  | _ => True
  end.

Definition clist (h : lheap) (hd : K) (l : list K) : Prop :=
  NoDup (hd :: l) /\ links h (hd :: l ++ [hd]).

Definition llist (h : lheap) (hd : K) (l : list K) : Prop :=
  NoDup (hd :: l) /\ links h (hd :: l) /\
  (forall z, last (hd :: l) = Some z -> nxt h z = Some None).

End Operations.

(** ** Pointer-level lemmas *)

Section Facts.
  Context {K : Type} `{Countable K}.

  #[local] Abbreviation lheap := (gmap K (lnode K)).

  Implicit Types (h : lheap) (k a b x : K) (l : list K) (v : option K).

Definition set_next k v h : lheap := alter (fun n => LNode v (prev n)) k h.

Definition set_prev k v h : lheap := alter (fun n => LNode (next n) v) k h.

Lemma load_next_nxt h k v : nxt h k = Some v -> load_next (Some k) h = Some (v, h).
Proof.
  unfold nxt, load_next. cbn. destruct (h !! k) as [n|]; cbn; [|discriminate].
  intros [= <-]. reflexivity.
Qed.

Lemma load_prev_prv h k v : prv h k = Some v -> load_prev (Some k) h = Some (v, h).
Proof.
  unfold prv, load_prev. cbn. destruct (h !! k) as [n|]; cbn; [|discriminate].
  intros [= <-]. reflexivity.
Qed.

Lemma alter_insert_some (f : lnode K -> lnode K) h k n :
  h !! k = Some n -> alter f k h = <[k := f n]> h.
Proof.
  intros E. apply map_eq. intros j. destruct (decide (k = j)) as [->|].
  - rewrite lookup_alter, lookup_insert_eq, decide_True by done. rewrite E. done.
  - rewrite lookup_alter_ne, lookup_insert_ne by done. done.
Qed.

Lemma store_next_ok h k v : is_Some (h !! k) -> store_next (Some k) v h = Some (tt, set_next k v h).
Proof.
  intros [n E]. unfold store_next, set_next. rewrite E.
  by rewrite (alter_insert_some _ _ _ _ E).
Qed.

Lemma store_prev_ok h k v : is_Some (h !! k) -> store_prev (Some k) v h = Some (tt, set_prev k v h).
Proof.
  intros [n E]. unfold store_prev, set_prev. rewrite E.
  by rewrite (alter_insert_some _ _ _ _ E).
Qed.

Lemma is_Some_set_next h k v j : is_Some (set_next k v h !! j) <-> is_Some (h !! j).
Proof. unfold set_next. rewrite lookup_alter_is_Some. done. Qed.

Lemma is_Some_set_prev h k v j : is_Some (set_prev k v h !! j) <-> is_Some (h !! j).
Proof. unfold set_prev. rewrite lookup_alter_is_Some. done. Qed.

Lemma nxt_set_next h k v j :
  is_Some (h !! k) -> nxt (set_next k v h) j = if decide (j = k) then Some v else nxt h j.
Proof.
  intros [n E]. unfold nxt, set_next. rewrite lookup_alter. case_decide; subst.
  - rewrite E, decide_True by done. done.
  - rewrite decide_False by done. done.
Qed.

Lemma prv_set_next h k v j : prv (set_next k v h) j = prv h j.
Proof.
  unfold prv, set_next. rewrite lookup_alter. case_decide; subst; [|done].
  by destruct (h !! j).
Qed.

Lemma prv_set_prev h k v j :
  is_Some (h !! k) -> prv (set_prev k v h) j = if decide (j = k) then Some v else prv h j.
Proof.
  intros [n E]. unfold prv, set_prev. rewrite lookup_alter. case_decide; subst.
  - rewrite E, decide_True by done. done.
  - rewrite decide_False by done. done.
Qed.

Lemma nxt_set_prev h k v j : nxt (set_prev k v h) j = nxt h j.
Proof.
  unfold nxt, set_prev. rewrite lookup_alter. case_decide; subst; [|done].
  by destruct (h !! j).
Qed.

Lemma lookup_set_next_ne h k v j : j <> k -> set_next k v h !! j = h !! j.
Proof. intros. unfold set_next. by rewrite lookup_alter_ne. Qed.

Lemma lookup_set_prev_ne h k v j : j <> k -> set_prev k v h !! j = h !! j.
Proof. intros. unfold set_prev. by rewrite lookup_alter_ne. Qed.

Lemma nxt_is_Some h k v : nxt h k = Some v -> is_Some (h !! k).
Proof. unfold nxt. destruct (h !! k); [eauto | discriminate]. Qed.

Lemma prv_is_Some h k v : prv h k = Some v -> is_Some (h !! k).
Proof. unfold prv. destruct (h !! k); [eauto | discriminate]. Qed.

Lemma is_Some_nxt h k : is_Some (h !! k) -> exists v, nxt h k = Some v.
Proof. intros [n E]. exists (next n). unfold nxt. by rewrite E. Qed.

Lemma is_Some_prv h k : is_Some (h !! k) -> exists v, prv h k = Some v.
Proof. intros [n E]. exists (prev n). unfold prv. by rewrite E. Qed.

Lemma dom_set_next h k v : dom (set_next k v h) = dom h.
Proof. apply set_eq. intros j. rewrite !elem_of_dom. apply is_Some_set_next. Qed.

Lemma dom_set_prev h k v : dom (set_prev k v h) = dom h.
Proof. apply set_eq. intros j. rewrite !elem_of_dom. apply is_Some_set_prev. Qed.

(** ** Chains of links *)

Lemma links_app h l1 a l2 :
  links h (l1 ++ a :: l2) <-> links h (l1 ++ [a]) /\ links h (a :: l2).
Proof.
  induction l1 as [|x l1 IH]; [cbn; tauto|].
  destruct l1 as [|y l1]; [cbn; tauto|].
  change (links h (x :: (y :: l1 ++ a :: l2)) <->
          links h (x :: (y :: l1 ++ [a])) /\ links h (a :: l2)).
  change (y :: l1 ++ a :: l2) with ((y :: l1) ++ a :: l2).
  change (y :: l1 ++ [a]) with ((y :: l1) ++ [a]).
  cbn [links app] in *. tauto.
Qed.

Lemma links_ext h h' l :
  (forall j, j ∈ removelast l -> nxt h' j = nxt h j) ->
  (forall j, j ∈ tail l -> prv h' j = prv h j) ->
  links h l -> links h' l.
Proof.
  induction l as [|a l IH]; [done|].
  destruct l as [|b l]; [done|]. intros Hn Hp (E1 & E2 & E3). split_and!.
  - rewrite Hn; [done|]. cbn. set_solver.
  - rewrite Hp; [done|]. cbn. set_solver.
  - apply IH; [| |done].
    + intros j Hj. apply Hn. change (j ∈ a :: removelast (b :: l)). set_solver.
    + intros j Hj. apply Hp. cbn in *. set_solver.
Qed.

Lemma links_prefix_ext h h' l a :
  (forall j, j ∈ l -> nxt h' j = nxt h j) ->
  (forall j, j ∈ tail (l ++ [a]) -> prv h' j = prv h j) ->
  links h (l ++ [a]) -> links h' (l ++ [a]).
Proof. intros Hn Hp. apply links_ext; [|done]. by rewrite removelast_last. Qed.

Lemma links_suffix_ext h h' a l :
  (forall j, j ∈ removelast (a :: l) -> nxt h' j = nxt h j) ->
  (forall j, j ∈ l -> prv h' j = prv h j) ->
  links h (a :: l) -> links h' (a :: l).
Proof. intros Hn Hp. by apply links_ext. Qed.

Lemma links_is_Some h l j : links h l -> (2 <= length l)%nat -> j ∈ l -> is_Some (h !! j).
Proof.
  intros L Hlen Hj. apply list_elem_of_split in Hj as (l1 & l2 & ->).
  apply links_app in L as [L1 L2]. destruct l2 as [|b l2].
  - destruct l1 as [|c l1] using rev_ind; [cbn in Hlen; lia|].
    rewrite <- app_assoc in L1. apply links_app in L1 as [_ (_ & E & _)].
    by eapply prv_is_Some.
  - destruct L2 as (E & _). by eapply nxt_is_Some.
Qed.

(** Splicing [x] between two neighbours, and cutting it out again. *)
Lemma links_insert h h' l1 a x b l2 :
  links h (l1 ++ a :: b :: l2) ->
  (forall j, nxt h' j = if decide (j = a) then Some (Some x)
                        else if decide (j = x) then Some (Some b) else nxt h j) ->
  (forall j, prv h' j = if decide (j = b) then Some (Some x)
                        else if decide (j = x) then Some (Some a) else prv h j) ->
  x <> a -> x <> b -> x ∉ l1 -> x ∉ l2 ->
  a ∉ l1 -> a ∉ removelast (b :: l2) -> b ∉ tail (l1 ++ [a]) -> b ∉ l2 ->
  links h' (l1 ++ a :: x :: b :: l2).
Proof.
  intros L Hn Hp Hxa Hxb Hx1 Hx2 Ha1 Ha2 Hb1 Hb2.
  apply links_app in L as [L1 (E1 & E2 & L2)].
  apply links_app. split.
  - revert L1. apply links_prefix_ext.
    + intros j Hj. rewrite Hn, !decide_False; [done|intros ->; done..].
    + intros j Hj. rewrite Hp, !decide_False; [done| |intros ->; done].
      intros ->. apply Hx1. destruct l1; cbn in Hj; [by apply not_elem_of_nil in Hj|set_solver].
  - repeat split.
    + by rewrite Hn, decide_True.
    + by rewrite Hp, decide_False, decide_True.
    + by rewrite Hn, decide_False, decide_True.
    + by rewrite Hp, decide_True.
    + revert L2. apply links_suffix_ext.
      * intros j Hj. rewrite Hn, !decide_False; [done| |intros ->; done].
        intros ->. assert (x ∈ b :: l2); [|set_solver].
        clear -Hj. revert b Hj. induction l2 as [|c l2 IH]; intros b Hj; cbn in Hj; set_solver.
      * intros j Hj. rewrite Hp, !decide_False; [done|intros ->; done..].
Qed.

Lemma links_delete h h' l1 a x b l2 :
  links h (l1 ++ a :: x :: b :: l2) ->
  (forall j, nxt h' j = if decide (j = a) then Some (Some b) else nxt h j) ->
  (forall j, prv h' j = if decide (j = b) then Some (Some a) else prv h j) ->
  a ∉ l1 -> a ∉ removelast (b :: l2) -> b ∉ tail (l1 ++ [a]) -> b ∉ l2 ->
  links h' (l1 ++ a :: b :: l2).
Proof.
  intros L Hn Hp Ha1 Ha2 Hb1 Hb2.
  apply links_app in L as [L1 (E1 & E2 & E3 & E4 & L2)].
  apply links_app. split.
  - revert L1. apply links_prefix_ext.
    + intros j Hj. rewrite Hn, decide_False; [done|intros ->; done].
    + intros j Hj. rewrite Hp, decide_False; [done|intros ->; done].
  - split_and!.
    + by rewrite Hn, decide_True.
    + by rewrite Hp, decide_True.
    + revert L2. apply links_suffix_ext.
      * intros j Hj. rewrite Hn, decide_False; [done|intros ->; done].
      * intros j Hj. rewrite Hp, decide_False; [done|intros ->; done].
Qed.

(** ** Circular lists: splitting at a position *)

(** Where [l1] meets [l2] in the ring: the two neighbours and what their
    position in the ring excludes. *)
Definition joint hd l1 l2 (A : list K) a b (B : list K) : Prop :=
  hd :: l1 = A ++ [a] /\ l2 ++ [hd] = b :: B /\
  (a ∉ A) /\ (a ∉ removelast (b :: B)) /\ (b ∉ tail (A ++ [a])) /\ (b ∉ B).

Lemma joint_exists hd l1 l2 :
  NoDup (hd :: l1 ++ l2) -> exists A a b B, joint hd l1 l2 A a b B.
Proof.
  intros ND. apply NoDup_cons in ND as [Hhd ND]. apply NoDup_app in ND as (N1 & D & N2).
  destruct (exists_last (l := hd :: l1)) as (A & a & EA); [done|].
  destruct (l2 ++ [hd]) as [|b B] eqn:EB; [by destruct l2|].
  exists A, a, b, B. unfold joint. rewrite <- EB, <- EA, removelast_last.
  assert (Ha : a ∈ hd :: l1) by (rewrite EA; set_solver).
  assert (Hb : b ∈ l2 ++ [hd]) by (rewrite EB; set_solver).
  assert (NA : NoDup (A ++ [a])).
  { rewrite <- EA. constructor; [set_solver|done]. }
  assert (NB : NoDup (b :: B)).
  { rewrite <- EB. apply NoDup_app. split_and!; [done|set_solver|apply NoDup_singleton]. }
  apply NoDup_app in NA as (_ & DA & _). apply NoDup_cons in NB as [HbB _].
  split_and!; [done|done| | | |done].
  - intros HaA. apply (DA a HaA). set_solver.
  - intros Ha2. apply elem_of_cons in Ha as [->|Ha]; [set_solver|]. by apply (D a).
  - cbn. intros Hb1. apply elem_of_app in Hb as [Hb|Hb]; [by apply (D b)|set_solver].
Qed.

Lemma clist_joint h hd l1 l2 :
  clist h hd (l1 ++ l2) ->
  exists A a b B, joint hd l1 l2 A a b B /\ nxt h a = Some (Some b) /\ prv h b = Some (Some a).
Proof.
  intros [ND L]. destruct (joint_exists _ _ _ ND) as (A & a & b & B & J).
  exists A, a, b, B. split; [done|]. destruct J as (EA & EB & _).
  rewrite <- app_assoc, EB in L. change (hd :: l1 ++ b :: B) with ((hd :: l1) ++ b :: B) in L.
  rewrite EA, <- app_assoc in L. apply links_app in L as [_ (E1 & E2 & _)]. done.
Qed.

Lemma clist_insert_at h h' hd l1 l2 A a b B x :
  clist h hd (l1 ++ l2) -> joint hd l1 l2 A a b B -> x ∉ hd :: l1 ++ l2 ->
  (forall j, nxt h' j = if decide (j = a) then Some (Some x)
                        else if decide (j = x) then Some (Some b) else nxt h j) ->
  (forall j, prv h' j = if decide (j = b) then Some (Some x)
                        else if decide (j = x) then Some (Some a) else prv h j) ->
  clist h' hd (l1 ++ x :: l2).
Proof.
  intros [ND L] (EA & EB & Ha1 & Ha2 & Hb1 & Hb2) Hx Hn Hp. split.
  { assert (hd :: l1 ++ x :: l2 ≡ₚ x :: hd :: l1 ++ l2) as -> by solve_Permutation.
    by constructor. }
  assert (HA : forall y, y ∈ A ++ [a] -> y ∈ hd :: l1 ++ l2).
  { rewrite <- EA. set_solver. }
  assert (HB : forall y, y ∈ b :: B -> y ∈ hd :: l1 ++ l2).
  { rewrite <- EB. set_solver. }
  rewrite <- app_assoc in *. cbn [app]. rewrite EB in *.
  change (links h ((hd :: l1) ++ b :: B)) in L. change (links h' ((hd :: l1) ++ x :: b :: B)).
  rewrite EA, <- app_assoc in *. cbn [app] in *.
  eapply (links_insert h h' A a x b B); try done; intros E; apply Hx.
  - subst. apply HA. set_solver.
  - subst. apply HB. set_solver.
  - apply HA. set_solver.
  - apply HB. set_solver.
Qed.

Lemma clist_delete_at h h' hd l1 l2 A a b B x :
  clist h hd (l1 ++ x :: l2) -> joint hd l1 l2 A a b B ->
  (forall j, nxt h' j = if decide (j = a) then Some (Some b) else nxt h j) ->
  (forall j, prv h' j = if decide (j = b) then Some (Some a) else prv h j) ->
  clist h' hd (l1 ++ l2).
Proof.
  intros [ND L] (EA & EB & Ha1 & Ha2 & Hb1 & Hb2) Hn Hp. split.
  { assert (hd :: l1 ++ x :: l2 ≡ₚ x :: hd :: l1 ++ l2) as E by solve_Permutation.
    rewrite E in ND. by apply NoDup_cons in ND as [_ ?]. }
  rewrite <- app_assoc in *. cbn [app] in L. rewrite EB in *.
  change (links h ((hd :: l1) ++ x :: b :: B)) in L. change (links h' ((hd :: l1) ++ b :: B)).
  rewrite EA, <- app_assoc in *. cbn [app] in *.
  by eapply (links_delete h h' A a x b B).
Qed.

(** The neighbours of a member. *)
Lemma clist_member h hd l1 l2 x :
  clist h hd (l1 ++ x :: l2) ->
  exists A a b B, joint hd l1 l2 A a b B /\ a <> x /\ b <> x /\
    nxt h a = Some (Some x) /\ prv h x = Some (Some a) /\
    nxt h x = Some (Some b) /\ prv h b = Some (Some x).
Proof.
  intros [ND L].
  assert (ND' : NoDup (x :: hd :: l1 ++ l2)).
  { assert (x :: hd :: l1 ++ l2 ≡ₚ hd :: l1 ++ x :: l2) as -> by solve_Permutation. done. }
  apply NoDup_cons in ND' as [Hx ND'].
  destruct (joint_exists _ _ _ ND') as (A & a & b & B & J).
  exists A, a, b, B. split; [done|]. destruct J as (EA & EB & _).
  assert (Ha : a ∈ hd :: l1) by (rewrite EA; set_solver).
  assert (Hb : b ∈ l2 ++ [hd]) by (rewrite EB; set_solver).
  rewrite <- app_assoc in L. cbn [app] in L. rewrite EB in L.
  change (links h ((hd :: l1) ++ x :: b :: B)) in L. rewrite EA, <- app_assoc in L.
  apply links_app in L as [_ (E1 & E2 & E3 & E4 & _)].
  split_and!; [set_solver|set_solver|done..].
Qed.

Definition frame h h' (s : list K) : Prop :=
  dom h' = dom h /\ forall j, j ∉ s -> h' !! j = h !! j.

Lemma clist_ext h h' hd l : (forall j, j ∈ hd :: l -> h' !! j = h !! j) -> clist h hd l -> clist h' hd l.
Proof.
  intros F [ND L]. split; [done|]. revert L. apply links_ext.
  - intros j Hj. unfold nxt. rewrite F; [done|].
    change (hd :: l ++ [hd]) with ((hd :: l) ++ [hd]) in Hj. by rewrite removelast_last in Hj.
  - intros j Hj. unfold prv. rewrite F; [done|]. cbn in Hj. set_solver.
Qed.

Lemma clist_frame h h' s hd l :
  frame h h' s -> (forall j, j ∈ hd :: l -> j ∉ s) -> clist h hd l -> clist h' hd l.
Proof. intros [_ F] D. apply clist_ext. intros j Hj. by apply F, D. Qed.

Lemma clist_is_Some h hd l j : clist h hd l -> j ∈ hd :: l -> is_Some (h !! j).
Proof.
  intros [_ L] Hj. eapply links_is_Some; [exact L| |].
  - cbn. rewrite length_app. cbn. lia.
  - set_solver.
Qed.

End Facts.

(** The domain of an updated heap, and reading through the updates. *)
Ltac heap_dom := repeat first [rewrite is_Some_set_next | rewrite is_Some_set_prev]; done.

Ltac heap_lookup :=
  repeat first
    [ rewrite nxt_set_next by heap_dom | rewrite prv_set_prev by heap_dom
    | rewrite nxt_set_prev | rewrite prv_set_next ].

(** ** The operations on circular lists *)

Section CircularSpecs.
  Context {K : Type} `{Countable K}.

  #[local] Abbreviation lheap := (gmap K (lnode K)).

  Implicit Types (h : lheap) (hd x : K) (l : list K).

Lemma frame_dom_elem h h' s j : frame h h' s -> is_Some (h' !! j) <-> is_Some (h !! j).
Proof. intros [D _]. rewrite <- !elem_of_dom, D. done. Qed.

Lemma clist_init_spec h hd :
  is_Some (h !! hd) ->
  exists h', clist_init (Some hd) h = Some (tt, h') /\ clist h' hd [] /\ frame h h' [hd].
Proof.
  intros Hhd. unfold clist_init. cbn [is_null].
  st_step (store_next_ok h hd (Some hd) Hhd).
  rewrite store_prev_ok by by rewrite is_Some_set_next.
  eexists. split; [reflexivity|]. split.
  - split; [apply NoDup_singleton|]. cbn. heap_lookup. by rewrite !decide_True.
  - split; [by rewrite dom_set_prev, dom_set_next|].
    intros j Hj. rewrite lookup_set_prev_ne, lookup_set_next_ne by set_solver. done.
Qed.

Lemma clist_add_spec h hd x l :
  clist h hd l -> x ∉ hd :: l -> is_Some (h !! x) ->
  exists h', clist_add (Some hd) (Some x) h = Some (tt, h') /\
    clist h' hd (x :: l) /\ frame h h' (hd :: x :: l).
Proof.
  intros C Hx Hsx. destruct (clist_joint h hd [] l C) as (A & a & b & B & J & Ea & Eb).
  assert (a = hd) as ->.
  { destruct J as (EA & _). destruct A as [|? [|]]; by simplify_eq/=. }
  assert (Hb : b ∈ hd :: l).
  { destruct J as (_ & EB & _). assert (b ∈ l ++ [hd]) by (rewrite EB; set_solver). set_solver. }
  assert (Hshd := nxt_is_Some _ _ _ Ea). assert (Hsb := prv_is_Some _ _ _ Eb).
  assert (b <> x) by set_solver. assert (hd <> x) by set_solver.
  unfold clist_add. st_step (load_next_nxt _ _ _ Ea). cbn [is_null].
  st_step (store_prev_ok h b (Some x) Hsb).
  st_step (load_next_nxt (set_prev b (Some x) h) hd (Some b) ltac:(by heap_lookup)).
  erewrite bind_some by (apply store_next_ok; by rewrite is_Some_set_prev).
  erewrite bind_some by (apply store_prev_ok; by rewrite is_Some_set_next, is_Some_set_prev).
  rewrite store_next_ok by (by rewrite is_Some_set_prev, is_Some_set_next, is_Some_set_prev).
  eexists. split; [reflexivity|]. split.
  - eapply (clist_insert_at h _ hd [] l A hd b B x); [done..| |]; intros j; heap_lookup.
    + done.
    + repeat case_decide; congruence.
  - split; [by rewrite dom_set_next, dom_set_prev, dom_set_next, dom_set_prev|].
    intros j Hj. rewrite lookup_set_next_ne, lookup_set_prev_ne, lookup_set_next_ne,
      lookup_set_prev_ne by set_solver. done.
Qed.

Lemma clist_delete_node_spec h hd l1 x l2 :
  clist h hd (l1 ++ x :: l2) ->
  exists h', clist_delete_node (Some x) h = Some (tt, h') /\
    clist h' hd (l1 ++ l2) /\ frame h h' (hd :: l1 ++ l2).
Proof.
  intros C. destruct (clist_member h hd l1 l2 x C)
    as (A & a & b & B & J & Hax & Hbx & Ea & Epx & Enx & Eb).
  assert (Hsa := nxt_is_Some _ _ _ Ea). assert (Hsb := prv_is_Some _ _ _ Eb).
  unfold clist_delete_node. cbn [is_null].
  st_step (load_prev_prv _ _ _ Epx). st_step (load_next_nxt _ _ _ Enx).
  st_step (store_next_ok h a (Some b) Hsa).
  erewrite bind_some by (apply load_next_nxt; heap_lookup; by rewrite decide_False).
  erewrite bind_some by (apply load_prev_prv; heap_lookup; exact Epx).
  rewrite store_prev_ok by by rewrite is_Some_set_next.
  eexists. split; [reflexivity|]. split.
  - eapply (clist_delete_at h _ hd l1 l2 A a b B x); [done..| |]; intros j; by heap_lookup.
  - assert (a ∈ hd :: l1) by (destruct J as (-> & _); set_solver).
    assert (b ∈ l2 ++ [hd]) by (destruct J as (_ & -> & _); set_solver).
    split; [by rewrite dom_set_prev, dom_set_next|].
    intros j Hj. rewrite lookup_set_prev_ne, lookup_set_next_ne by set_solver. done.
Qed.

(** [head->prev] is the last member, or the head itself when the list is empty. *)
Lemma clist_last h hd l :
  clist h hd l -> prv h hd = Some (Some (default hd (last l))).
Proof.
  intros [_ L]. destruct l as [|y l _] using rev_ind; cbn in *.
  - by destruct L as (_ & ? & _).
  - rewrite last_snoc. cbn. rewrite <- app_assoc in L. cbn in L.
    change (links h ((hd :: l) ++ y :: [hd])) in L.
    by apply links_app in L as [_ (_ & ? & _)].
Qed.

Lemma clist_first h hd l :
  clist h hd l -> nxt h hd = Some (Some (default hd (head l))).
Proof. intros [_ L]. destruct l as [|y l]; cbn in *; by destruct L as (? & _). Qed.

Lemma clist_next h hd l1 x l2 :
  clist h hd (l1 ++ x :: l2) -> nxt h x = Some (Some (default hd (head l2))).
Proof.
  intros C. destruct (clist_member h hd l1 l2 x C) as (A & a & b & B & J & _ & _ & _ & _ & E & _).
  rewrite E. destruct J as (_ & EB & _). destruct l2; cbn in *; congruence.
Qed.

(** The traversal visits exactly the members, in order, given as much fuel as
    there are members and one for the head. *)
Lemma clist_nodes_from h hd l1 l2 fuel :
  clist h hd (l1 ++ l2) -> (length l2 < fuel)%nat ->
  clist_nodes fuel hd (Some (default hd (head l2))) h = Some l2.
Proof.
  revert l1 fuel. induction l2 as [|x l2 IH]; intros l1 fuel C Hf;
    destruct fuel as [|fuel]; cbn in Hf; try lia; cbn [clist_nodes head default from_option id].
  - by rewrite decide_True.
  - destruct (clist_member h hd l1 l2 x C) as (A & a & b & B & J & _ & _ & _ & _ & Enx & _).
    assert (x <> hd). { destruct C as [ND _]. apply NoDup_cons in ND as [ND _]. set_solver. }
    rewrite decide_False by done.
    assert (b = default hd (head l2)) as ->.
    { destruct J as (_ & EB & _). destruct l2; cbn in *; congruence. }
    unfold nxt in Enx. destruct (h !! x) as [n|]; [|discriminate]. cbn in Enx.
    injection Enx as ->. rewrite (IH (l1 ++ [x])); [done| |lia].
    by rewrite <- app_assoc.
Qed.

Lemma clist_nodes_spec h hd l fuel :
  clist h hd l -> (length l < fuel)%nat ->
  clist_nodes fuel hd (Some (default hd (head l))) h = Some l.
Proof. intros C. apply (clist_nodes_from h hd [] l fuel C). Qed.

(** A ring fits in its heap, so the heap's size is fuel enough. *)
Lemma clist_length_size h hd l : clist h hd l -> (length l < size h)%nat.
Proof.
  intros C. assert (NoDup (hd :: l)) as ND by apply C.
  rewrite <- size_dom. change (length l < size (dom h))%nat with (length (hd :: l) <= size (dom h))%nat.
  rewrite <- (size_list_to_set (C := gset K) (hd :: l)) by done.
  apply subseteq_size. intros j Hj. apply elem_of_list_to_set in Hj.
  apply elem_of_dom. by eapply clist_is_Some.
Qed.

End CircularSpecs.

(** ** The operations on linear lists *)

Section LinearSpecs.
  Context {K : Type} `{Countable K}.

  #[local] Abbreviation lheap := (gmap K (lnode K)).

  Implicit Types (h : lheap) (hd x : K) (l : list K).

Lemma llist_nil h hd : nxt h hd = Some None -> llist h hd [].
Proof.
  intros E. split; [apply NoDup_singleton|]. split; [done|].
  cbn. by intros z [= <-].
Qed.

Lemma llist_init_spec h hd : is_Some (h !! hd) -> exists h', llist_init (Some hd) h = Some (tt, h') /\ llist h' hd [].
Proof.
  intros [x Ex]. unfold llist_init. cbn [is_null]. unfold store_next, store_prev, bind. rewrite Ex. rewrite lookup_insert_eq.
  eexists. split; [reflexivity|]. apply llist_nil. unfold nxt. by rewrite lookup_insert_eq.
Qed.

(** The member (or head) [a] before position [l2], and its link forward. *)
Lemma llist_joint h hd l1 l2 :
  llist h hd (l1 ++ l2) ->
  exists A a, hd :: l1 = A ++ [a] /\ (a ∉ A) /\ (a ∉ l2) /\
    nxt h a = Some (head l2) /\ (forall b, head l2 = Some b -> prv h b = Some (Some a)).
Proof.
  intros (ND & L & Z). destruct (exists_last (l := hd :: l1)) as (A & a & EA); [done|].
  exists A, a. change (hd :: l1 ++ l2) with ((hd :: l1) ++ l2) in *. rewrite EA in *.
  apply NoDup_app in ND as (NA & D & _). apply NoDup_app in NA as (_ & DA & _).
  split_and!; [done|set_solver|apply D; set_solver| |].
  - destruct l2 as [|b l2]; cbn.
    + apply Z. rewrite app_nil_r. apply last_snoc.
    + rewrite <- app_assoc in L. by apply links_app in L as [_ (? & _)].
  - destruct l2 as [|b l2]; cbn; [done|]. intros ? [= <-].
    rewrite <- app_assoc in L. by apply links_app in L as [_ (_ & ? & _)].
Qed.

Lemma llist_insert_at h h' hd l1 l2 A a x :
  llist h hd (l1 ++ l2) -> hd :: l1 = A ++ [a] -> a ∉ A -> a ∉ l2 -> x ∉ hd :: l1 ++ l2 ->
  (forall j, nxt h' j = if decide (j = a) then Some (Some x)
                        else if decide (j = x) then Some (head l2) else nxt h j) ->
  (forall j, prv h' j = if decide (Some j = head l2) then Some (Some x)
                        else if decide (j = x) then Some (Some a) else prv h j) ->
  llist h' hd (l1 ++ x :: l2).
Proof.
  intros (ND & L & Z) EA Ha1 Ha2 Hx Hn Hp.
  assert (HA : forall y, y ∈ A ++ [a] -> y ∈ hd :: l1 ++ l2) by (rewrite <- EA; set_solver).
  assert (Hax : a <> x) by (intros ->; apply Hx, HA; set_solver).
  split_and!.
  - assert (hd :: l1 ++ x :: l2 ≡ₚ x :: hd :: l1 ++ l2) as -> by solve_Permutation.
    by constructor.
  - change (hd :: l1 ++ x :: l2) with ((hd :: l1) ++ x :: l2).
    change (hd :: l1 ++ l2) with ((hd :: l1) ++ l2) in *. rewrite EA in *.
    rewrite <- app_assoc in *. cbn [app] in *. destruct l2 as [|b l2].
    + apply links_app. split.
      * revert L. apply links_prefix_ext.
        -- intros j Hj. rewrite Hn, !decide_False; [done|set_solver..].
        -- intros j Hj. rewrite Hp, decide_False, decide_False; [done| |done].
           intros ->. apply Hx. destruct A; cbn in *; set_solver.
      * cbn. by rewrite Hn, Hp, decide_True, decide_False, decide_True.
    + assert (HND : (b ∉ A ++ [a]) /\ (b ∉ l2)).
      { change (a :: b :: l2) with ([a] ++ b :: l2) in ND. rewrite app_assoc in ND.
        apply NoDup_app in ND as (_ & D & NB). apply NoDup_cons in NB as [? _].
        split; [|done]. intros E. apply (D b E). set_solver. }
      destruct HND as [Hb1 Hb2].
      eapply (links_insert h h' A a x b l2); try done.
      * intros j. rewrite Hp. repeat case_decide; cbn in *; congruence.
      * set_solver.
      * set_solver.
      * set_solver.
      * intros Ha. apply Ha2. clear -Ha. revert b Ha.
        induction l2 as [|c l2 IH]; intros b Ha; cbn in Ha; set_solver.
      * intros Hb. apply Hb1. destruct A; cbn in *; set_solver.
  - intros z Hz. change (hd :: l1 ++ x :: l2) with ((hd :: l1) ++ x :: l2) in Hz.
    rewrite last_app_cons in Hz. rewrite Hn. destruct l2 as [|b l2].
    + cbn in Hz. injection Hz as <-. by rewrite decide_False, decide_True.
    + rewrite last_cons_cons in Hz. assert (z ∈ b :: l2) by by apply last_Some_elem_of.
      rewrite !decide_False by set_solver. apply Z.
      change (hd :: l1 ++ b :: l2) with ((hd :: l1) ++ b :: l2). by rewrite last_app_cons.
Qed.

Lemma llist_add_spec h hd x l :
  llist h hd l -> x ∉ hd :: l -> is_Some (h !! x) ->
  exists h', llist_add (Some hd) (Some x) h = Some (tt, h') /\
    llist h' hd (x :: l) /\ frame h h' (hd :: x :: l).
Proof.
  intros C Hx Hsx. destruct (llist_joint h hd [] l C) as (A & a & EA & Ha1 & Ha2 & Ea & Eb).
  assert (a = hd) as -> by (destruct A as [|? [|]]; by simplify_eq/=).
  assert (Hshd := nxt_is_Some _ _ _ Ea).
  unfold llist_add. st_step (load_next_nxt _ _ _ Ea). destruct l as [|b l]; cbn [head is_null] in *.
  - rewrite bind_ret. st_step (load_next_nxt _ _ _ Ea).
    st_step (store_next_ok h x None Hsx).
    erewrite bind_some by (apply store_prev_ok; heap_dom).
    rewrite store_next_ok by heap_dom. eexists. split; [reflexivity|]. split.
    + eapply (llist_insert_at h _ hd [] [] A hd x); [done..| |]; intros j; heap_lookup; done.
    + split; [by rewrite dom_set_next, dom_set_prev, dom_set_next|]. intros j Hj.
      rewrite lookup_set_next_ne, lookup_set_prev_ne, lookup_set_next_ne by set_solver. done.
  - specialize (Eb b eq_refl). assert (Hsb := prv_is_Some _ _ _ Eb).
    st_step (store_prev_ok h b (Some x) Hsb).
    erewrite bind_some by (apply load_next_nxt; heap_lookup; exact Ea).
    erewrite bind_some by (apply store_next_ok; heap_dom).
    erewrite bind_some by (apply store_prev_ok; heap_dom).
    rewrite store_next_ok by heap_dom. eexists. split; [reflexivity|]. split.
    + eapply (llist_insert_at h _ hd [] (b :: l) A hd x); [done..| |]; intros j; heap_lookup; [done|].
      assert (b <> x) by set_solver. cbn. repeat case_decide; congruence.
    + split; [by rewrite dom_set_next, dom_set_prev, dom_set_next, dom_set_prev|]. intros j Hj.
      rewrite lookup_set_next_ne, lookup_set_prev_ne, lookup_set_next_ne, lookup_set_prev_ne
        by set_solver. done.
Qed.

Lemma llist_add_after_spec h hd l1 x l2 a :
  llist h hd (l1 ++ l2) -> last (hd :: l1) = Some a -> x ∉ hd :: l1 ++ l2 -> is_Some (h !! x) ->
  exists h', llist_add_after (Some a) (Some x) h = Some (tt, h') /\
    llist h' hd (l1 ++ x :: l2) /\ frame h h' (hd :: x :: l1 ++ l2).
Proof.
  intros C Hla Hx Hsx. destruct (llist_joint h hd l1 l2 C) as (A & a' & EA & Ha1 & Ha2 & Ea & Eb).
  assert (a' = a) as -> by (rewrite EA, last_snoc in Hla; congruence).
  assert (Hsa := nxt_is_Some _ _ _ Ea).
  assert (Ha : a ∈ hd :: l1) by (rewrite EA; set_solver).
  assert (Hax : a <> x) by set_solver.
  unfold llist_add_after. cbn [is_null orb]. st_step (load_next_nxt _ _ _ Ea).
  st_step (store_next_ok h x (head l2) Hsx).
  erewrite bind_some by (apply store_prev_ok; heap_dom).
  erewrite bind_some by (apply load_next_nxt; heap_lookup; rewrite decide_False by done; exact Ea).
  destruct l2 as [|b l2]; cbn [head is_null] in *.
  - rewrite bind_ret, store_next_ok by heap_dom. eexists. split; [reflexivity|]. split.
    + eapply (llist_insert_at h _ hd l1 [] A a x); [done..| |]; intros j; heap_lookup; done.
    + split; [by rewrite dom_set_next, dom_set_prev, dom_set_next|]. intros j Hj.
      rewrite lookup_set_next_ne, lookup_set_prev_ne, lookup_set_next_ne by set_solver. done.
  - specialize (Eb b eq_refl). assert (Hsb := prv_is_Some _ _ _ Eb).
    erewrite bind_some by (apply store_prev_ok; heap_dom).
    rewrite store_next_ok by heap_dom. eexists. split; [reflexivity|]. split.
    + eapply (llist_insert_at h _ hd l1 (b :: l2) A a x); [done..| |]; intros j; heap_lookup; [done|].
      cbn. repeat case_decide; congruence.
    + split; [by rewrite dom_set_next, dom_set_prev, dom_set_prev, dom_set_next|]. intros j Hj.
      rewrite lookup_set_next_ne, lookup_set_prev_ne, lookup_set_prev_ne, lookup_set_next_ne
        by set_solver. done.
Qed.

Lemma llist_delete_at h h' hd l1 l2 A a x :
  llist h hd (l1 ++ x :: l2) -> hd :: l1 = A ++ [a] -> a ∉ A -> a ∉ l2 ->
  (forall j, nxt h' j = if decide (j = a) then Some (head l2) else nxt h j) ->
  (forall j, prv h' j = if decide (Some j = head l2) then Some (Some a) else prv h j) ->
  llist h' hd (l1 ++ l2).
Proof.
  intros (ND & L & Z) EA Ha1 Ha2 Hn Hp.
  assert (E : hd :: l1 ++ x :: l2 ≡ₚ x :: hd :: l1 ++ l2) by solve_Permutation.
  assert (ND' := ND). rewrite E in ND'. apply NoDup_cons in ND' as [Hx ND']. split_and!; [done| |].
  - change (hd :: l1 ++ x :: l2) with ((hd :: l1) ++ x :: l2) in *.
    change (hd :: l1 ++ l2) with ((hd :: l1) ++ l2) in *. rewrite EA in *.
    rewrite <- app_assoc in *. cbn [app] in *. destruct l2 as [|b l2].
    + apply links_app in L as [L _]. revert L. apply links_prefix_ext.
      * intros j Hj. rewrite Hn, decide_False; [done|set_solver].
      * intros j Hj. by rewrite Hp, decide_False.
    + assert (HND : (b ∉ A ++ [a]) /\ (b ∉ l2)).
      { change (a :: b :: l2) with ([a] ++ b :: l2) in ND'. rewrite app_assoc in ND'.
        apply NoDup_app in ND' as (_ & D & NB). apply NoDup_cons in NB as [? _].
        split; [|done]. intros F. apply (D b F). set_solver. }
      destruct HND as [Hb1 Hb2]. eapply (links_delete h h' A a x b l2); try done.
      * intros j. rewrite Hp. repeat case_decide; cbn in *; congruence.
      * intros Ha. apply Ha2. clear -Ha. revert b Ha.
        induction l2 as [|c l2 IH]; intros b Ha; cbn in Ha; set_solver.
      * intros Hb. apply Hb1. destruct A; cbn in *; set_solver.
  - intros z Hz. change (hd :: l1 ++ x :: l2) with ((hd :: l1) ++ x :: l2) in Z.
    change (hd :: l1 ++ l2) with ((hd :: l1) ++ l2) in Hz. rewrite last_app_cons in Z. rewrite Hn.
    destruct l2 as [|b l2].
    + rewrite app_nil_r, EA, last_snoc in Hz. injection Hz as <-. by rewrite decide_True.
    + rewrite last_app_cons in Hz. assert (z ∈ b :: l2) by by apply last_Some_elem_of.
      rewrite decide_False by set_solver. apply Z. by rewrite last_cons_cons.
Qed.

Lemma llist_delete_node_spec h hd l1 x l2 :
  llist h hd (l1 ++ x :: l2) ->
  exists h', llist_delete_node (Some x) h = Some (tt, h') /\
    llist h' hd (l1 ++ l2) /\ frame h h' (hd :: l1 ++ l2).
Proof.
  intros C. destruct (llist_joint h hd l1 (x :: l2) C) as (A & a & EA & Ha1 & Ha2 & Ea & Eb).
  specialize (Eb x eq_refl). cbn in Ea.
  destruct (llist_joint h hd (l1 ++ [x]) l2) as (A' & x' & EA' & Hx1 & Hx2 & Enx & Eb').
  { by rewrite <- app_assoc. }
  assert (x' = x) as ->.
  { change (hd :: l1 ++ [x]) with ((hd :: l1) ++ [x]) in EA'. by apply app_inj_tail in EA' as [_ ->]. }
  assert (Hax : a <> x) by set_solver. assert (Hsa := nxt_is_Some _ _ _ Ea).
  assert (Ha : a ∈ hd :: l1) by (rewrite EA; set_solver).
  unfold llist_delete_node. cbn [is_null]. st_step (load_prev_prv _ _ _ Eb). cbn [is_null].
  erewrite (bind_some (bind _ _)) by
    (rewrite (bind_some _ _ _ _ _ (load_next_nxt _ _ _ Enx)); apply store_next_ok, Hsa).
  erewrite bind_some by (apply load_next_nxt; heap_lookup; rewrite decide_False by done; exact Enx).
  destruct l2 as [|b l2]; cbn [head is_null] in *.
  - eexists. split; [reflexivity|]. split.
    + eapply (llist_delete_at h _ hd l1 [] A a x); [done..|set_solver| |]; intros j; heap_lookup; done.
    + split; [by rewrite dom_set_next|]. intros j Hj. rewrite lookup_set_next_ne by set_solver. done.
  - specialize (Eb' b eq_refl). assert (Hsb := prv_is_Some _ _ _ Eb').
    erewrite bind_some by (apply load_prev_prv; heap_lookup; exact Eb).
    rewrite store_prev_ok by heap_dom. eexists. split; [reflexivity|]. split.
    + eapply (llist_delete_at h _ hd l1 (b :: l2) A a x); [done..|set_solver| |]; intros j; heap_lookup; [done|].
      cbn. repeat case_decide; congruence.
    + split; [by rewrite dom_set_prev, dom_set_next|]. intros j Hj.
      rewrite lookup_set_prev_ne, lookup_set_next_ne by set_solver. done.
Qed.

(** ** The two traversals of list.h *)

Lemma llist_next h hd l1 x l2 : llist h hd (l1 ++ x :: l2) -> nxt h x = Some (head l2).
Proof.
  intros C. destruct (llist_joint h hd (l1 ++ [x]) l2) as (A' & x' & EA' & _ & _ & Enx & _).
  { by rewrite <- app_assoc. }
  change (hd :: l1 ++ [x]) with ((hd :: l1) ++ [x]) in EA'. by apply app_inj_tail in EA' as [_ ->].
Qed.

Lemma llist_length_loop_spec h hd l1 l2 fuel count :
  llist h hd (l1 ++ l2) -> (length l2 <= fuel)%nat ->
  llist_length_loop fuel (head l2) (u32 count) h = Some (u32 (count + Z.of_nat (length l2))).
Proof.
  revert l1 fuel count. induction l2 as [|x l2 IH]; intros l1 fuel count C Hf.
  - destruct fuel; cbn; repeat f_equal; lia.
  - destruct fuel as [|fuel]; cbn in Hf; [lia|]. assert (E := llist_next h hd l1 x l2 C).
    unfold nxt in E. cbn [llist_length_loop head]. destruct (h !! x) as [n|]; [|discriminate].
    cbn in E. injection E as ->.
    replace (u32 (u32 count + 1)) with (u32 (count + 1)) by
      (unfold u32; rewrite Zplus_mod_idemp_l; done).
    rewrite (IH (l1 ++ [x])); [|by rewrite <- app_assoc|lia]. do 2 f_equal. cbn [length]. lia.
Qed.

Lemma llist_get_last_loop_spec h hd l1 x l2 fuel :
  llist h hd (l1 ++ x :: l2) -> (length l2 < fuel)%nat ->
  llist_get_last_loop fuel (Some x) h = inr <$> last (x :: l2).
Proof.
  revert l1 x fuel. induction l2 as [|y l2 IH]; intros l1 x fuel C Hf;
    (destruct fuel as [|fuel]; cbn in Hf; [lia|]); assert (E := llist_next h hd l1 x _ C);
    unfold nxt in E; cbn [llist_get_last_loop]; destruct (h !! x) as [n|]; try discriminate;
    cbn in E; injection E as ->.
  - done.
  - rewrite (IH (l1 ++ [x])); [by rewrite last_cons_cons|by rewrite <- app_assoc|lia].
Qed.

Lemma llist_is_Some h hd l j : llist h hd l -> j ∈ hd :: l -> is_Some (h !! j).
Proof.
  intros C Hj. apply elem_of_cons in Hj as [->|Hj].
  - destruct (llist_joint h hd [] l C) as (A & a & EA & _ & _ & Ea & _).
    assert (a = hd) as -> by (destruct A as [|? [|]]; by simplify_eq/=). by eapply nxt_is_Some.
  - apply list_elem_of_split in Hj as (l1 & l2 & ->). eapply nxt_is_Some, llist_next, C.
Qed.

Lemma llist_length_size h hd l : llist h hd l -> (length l < size h)%nat.
Proof.
  intros C. assert (NoDup (hd :: l)) as ND by apply C.
  rewrite <- size_dom. change (length l < size (dom h))%nat with (length (hd :: l) <= size (dom h))%nat.
  rewrite <- (size_list_to_set (C := gset K) (hd :: l)) by done.
  apply subseteq_size. intros j Hj. apply elem_of_list_to_set in Hj.
  apply elem_of_dom. by eapply llist_is_Some.
Qed.

Lemma llist_ext h h' hd l : (forall j, j ∈ hd :: l -> h' !! j = h !! j) -> llist h hd l -> llist h' hd l.
Proof.
  intros F (ND & L & Z). split_and!; [done| |].
  - revert L. apply links_ext.
    + intros j Hj. unfold nxt. rewrite F; [done|]. clear -Hj.
      revert hd Hj. induction l as [|c l IH]; intros hd Hj; cbn in Hj; set_solver.
    + intros j Hj. unfold prv. rewrite F; [done|]. cbn in Hj. set_solver.
  - intros z Hz. unfold nxt. rewrite F; [by apply Z|]. by apply last_Some_elem_of.
Qed.

Lemma llist_frame h h' s hd l :
  frame h h' s -> (forall j, j ∈ hd :: l -> j ∉ s) -> llist h hd l -> llist h' hd l.
Proof. intros [_ F] D. apply llist_ext. intros j Hj. apply F, D, Hj. Qed.

End LinearSpecs.
