(* ===== verification/CString.v ===== *)
(** * C strings (kernel/core/string.c, kernel/util/math.c)

    Byte memory maps an address to a byte; reading an address that holds nothing
    is a fault.  Each loop of the source is a recursion of its own: loops whose
    length the memory bounds (they end at a NUL byte) get the size of the memory
    as fuel, loops over the digits of a 32-bit number get 33, more than any such
    number has.  [char] is signed: a byte is promoted to [int] through [schar].
    [int] arithmetic wraps around as the compiler's output does. *)

From stdpp Require Import base numbers list gmap.
From Stdlib Require Import ZArith Lia.
From S2P Require Import Prelude.

#[local] Open Scope Z_scope.

Abbreviation bytes := (gmap Z Z).

Definition MAX_STRING_LEN : Z := 512.

Definition schar (b : Z) : Z := if b <? 128 then b else b - 256.

(** [*p] and [*p = v] *)
Definition rd (a : Z) : ST bytes Z :=
  fun m => match m !! a with Some b => Some (b, m) | None => None end.

Definition wr (a v : Z) : ST bytes unit := modify <[a := u8 v]>.

(** The fuel of loops that stop at a NUL byte. *)
Definition str_fuel (m : bytes) : nat := S (size m).

(** ** Blocks of memory *)

Fixpoint memset_loop (n : nat) (ptr value : Z) : ST bytes unit :=
  match n with
  | O => ret tt
  | S k => (wr ptr value ;; memset_loop k (ptr + 1) value)%st
  end.

Definition memset (dest value n : Z) : ST bytes Z := (memset_loop (Z.to_nat n) dest value ;; ret dest)%st.

Fixpoint memcpy_loop (n : nat) (d s : Z) : ST bytes unit :=
  match n with
  | O => ret tt
  | S k => (b <- rd s ;; wr d b ;; memcpy_loop k (d + 1) (s + 1))%st
  end.

Definition memcpy (dest src n : Z) : ST bytes Z := (memcpy_loop (Z.to_nat n) dest src ;; ret dest)%st.

(** ** Numbers to text *)

(** The loop that exchanges [dest[start]] and [dest[end]]. *)
Fixpoint swap_loop (fuel : nat) (dest start en : Z) : ST bytes unit :=
  match fuel with
  | O => fault
  | S f =>
      (if start <? en then
         temp <- rd (dest + start) ;;
         b <- rd (dest + en) ;;
         wr (dest + start) b ;;
         wr (dest + en) temp ;;
         swap_loop f dest (start + 1) (en - 1)
       else ret tt)%st
  end.

Definition reverse (str length : Z) : ST bytes unit :=
  swap_loop (S (Z.to_nat length)) str 0 (length - 1).

(** The digit loop of [int_to_str] and [uint_to_str]; C's [%] and [/] truncate. *)
Fixpoint digit_loop (fuel : nat) (num dest i : Z) : ST bytes Z :=
  match fuel with
  | O => fault
  | S f =>
      (if negb (num =? 0) then
         let rem := Z.rem num 10 in
         wr (dest + i) (rem + 48) ;;
         digit_loop f (Z.quot num 10) dest (i + 1)
       else ret i)%st
  end.

Definition int_to_str (num dest : Z) : ST bytes unit :=
  (if num =? 0 then
     wr dest 48 ;; wr (dest + 1) 0
   else
     let isNegative := num <? 0 in
     let num := if isNegative then i32 (- num) else num in
     i <- digit_loop 33 num dest 0 ;;
     i <- (if isNegative then wr (dest + i) 45 ;; ret (i + 1) else ret i) ;;
     wr (dest + i) 0 ;;
     swap_loop (S (Z.to_nat i)) dest 0 (i - 1))%st.

Definition uint_to_str (num dest : Z) : ST bytes unit :=
  (if num =? 0 then
     wr dest 48 ;; wr (dest + 1) 0
   else
     i <- digit_loop 33 num dest 0 ;;
     wr (dest + i) 0 ;;
     swap_loop (S (Z.to_nat i)) dest 0 (i - 1))%st.

(** [hex_digits[d]] *)
Definition hex_digit (d : Z) : Z := if d <? 10 then 48 + d else 87 + d.

(** The characters [int_to_hex_str] collects in [temp], from digit [j] down. *)
Fixpoint hex_temp (n : nat) (num : Z) (leading : bool) : list Z :=
  match n with
  | O => []
  | S j =>
      let digit := hex_digit (Z.land (Z.shiftr num (Z.of_nat j * 4)) 0xF) in
      if negb (digit =? 48) || negb leading then digit :: hex_temp j num false
      else hex_temp j num leading
  end.

(** ** Copying and comparing *)

(** A loop that copies characters up to and including the NUL from a reader. *)
Fixpoint copy_loop (fuel : nat) (get : Z -> ST bytes Z) (d i : Z) : ST bytes unit :=
  match fuel with
  | O => fault
  | S f =>
      (b <- get i ;;
       wr (d + i) b ;;
       if b =? 0 then ret tt else copy_loop f get d (i + 1))%st
  end.

Definition strcpy (dest src : Z) : ST bytes Z :=
  (fuel <- gets str_fuel ;;
   copy_loop fuel (fun i => rd (src + i)) dest 0 ;;
   ret dest)%st.

(** The characters of a local array or a literal, NUL-terminated. *)
Definition lit (s : list Z) (i : Z) : ST bytes Z := deref ((s ++ [0]) !! Z.to_nat i).

Definition int_to_hex_str (num dest : Z) : ST bytes unit :=
  (if num =? 0 then
     wr dest 48 ;; wr (dest + 1) 0
   else
     let temp := hex_temp 8 num true in
     copy_loop (S (length temp)) (lit temp) dest 0)%st.

(** [strncpy]: copying up to [n] characters, then padding with NUL bytes. *)
Fixpoint strncpy_loop (n : nat) (dest src i : Z) : ST bytes (Z * nat) :=
  match n with
  | O => ret (i, O)
  | S k =>
      (b <- rd (src + i) ;;
       if b =? 0 then ret (i, n) else
       wr (dest + i) b ;;
       strncpy_loop k dest src (i + 1))%st
  end.

Definition strncpy (dest src n : Z) : ST bytes Z :=
  (r <- strncpy_loop (Z.to_nat n) dest src 0 ;;
   memset_loop r.2 (dest + r.1) 0 ;;
   ret dest)%st.

Fixpoint strlen_loop (n : nat) (string i : Z) : ST bytes Z :=
  match n with
  | O => ret i
  | S k => (b <- rd (string + i) ;; if b =? 0 then ret i else strlen_loop k string (i + 1))%st
  end.

Definition strlen (string : Z) : ST bytes Z := strlen_loop (Z.to_nat MAX_STRING_LEN) string 0.

Fixpoint strcat_loop (fuel : nat) (get : Z -> ST bytes Z) (d i : Z) : ST bytes unit :=
  match fuel with
  | O => fault
  | S f =>
      (b <- get i ;;
       if b =? 0 then wr (d + i) 0 else
       b <- get i ;;
       wr (d + i) b ;;
       strcat_loop f get d (i + 1))%st
  end.

(** [strcat] with its second argument as a reader. *)
Definition strcat_from (fuel : nat) (str1 : Z) (get : Z -> ST bytes Z) : ST bytes Z :=
  (str1_len <- strlen str1 ;;
   strcat_loop fuel get (str1 + str1_len) 0 ;;
   ret str1)%st.

Definition strcat (str1 str2 : Z) : ST bytes Z :=
  (fuel <- gets str_fuel ;;
   strcat_from fuel str1 (fun i => rd (str2 + i)))%st.

Fixpoint strcmp_loop (fuel : nat) (s1 s2 : Z) : ST bytes Z :=
  match fuel with
  | O => fault
  | S f =>
      (a <- rd s1 ;;
       same <- (if a =? 0 then ret false else b <- rd s2 ;; ret (a =? b)) ;;
       if same then strcmp_loop f (s1 + 1) (s2 + 1)
       else a <- rd s1 ;; b <- rd s2 ;; ret (a - b))%st
  end.

Definition strcmp (s1 s2 : Z) : ST bytes Z :=
  (fuel <- gets str_fuel ;;
   strcmp_loop fuel s1 s2)%st.

(** ** Text to numbers and sizes *)

Fixpoint itoa_loop (n : nat) (num divisor dec_string i : Z) : ST bytes Z :=
  match n with
  | O => ret i
  | S k =>
      (let digit := num / divisor in
       i <- (if negb (digit =? 0) || (0 <? i) then wr (dec_string + i) (digit + 48) ;; ret (i + 1) else ret i) ;;
       itoa_loop k (num mod divisor) (divisor / 10) dec_string i)%st
  end.

(** The divisor takes the ten values 1000000000, ..., 1. *)
Definition itoa (num dec_string : Z) : ST bytes unit :=
  (if num =? 0 then
     wr dec_string 48 ;; wr (dec_string + 1) 0
   else
     i <- itoa_loop 10 num 1000000000 dec_string 0 ;;
     wr (dec_string + i) 0)%st.

Fixpoint atoi_loop (fuel : nat) (str i res : Z) : ST bytes Z :=
  match fuel with
  | O => fault
  | S f =>
      (b <- rd (str + i) ;;
       if b =? 0 then ret res else
       atoi_loop f str (i + 1) (i32 (res * 10 + (schar b - 48))))%st
  end.

Definition atoi (str : Z) : ST bytes Z :=
  (b <- rd str ;;
   fuel <- gets str_fuel ;;
   let sign := if b =? 45 then -1 else 1 in
   let i := if b =? 45 then 1 else if b =? 43 then 1 else 0 in
   res <- atoi_loop fuel str i 0 ;;
   ret (i32 (sign * res)))%st.

(** The suffixes "B", "KB", "MB", "GB" and "TB". *)
Definition suffixes : list (list Z) := [[66]; [75; 66]; [77; 66]; [71; 66]; [84; 66]].

Fixpoint format_size_loop (n : nat) (byte_count : Z) (suffix_index : nat) : Z * nat :=
  match n with
  | O => (byte_count, suffix_index)
  | S k => if 1024 <=? byte_count then format_size_loop k (byte_count / 1024) (S suffix_index)
           else (byte_count, suffix_index)
  end.

Definition format_size (byte_count dest : Z) : ST bytes unit :=
  (let '(byte_count, suffix_index) := format_size_loop 4 byte_count 0 in
   let whole_part := byte_count in
   let fraction_part := (u32 (byte_count * 1024) mod 1024) * 10 / 1024 in
   int_to_str (i32 whole_part) dest ;;
   len <- strlen dest ;;
   len <- (if 0 <? fraction_part then
             wr (dest + len) 46 ;; wr (dest + (len + 1)) (48 + fraction_part) ;; ret (len + 2)
           else ret len) ;;
   wr (dest + len) 0 ;;
   s <- deref (suffixes !! suffix_index) ;;
   strcat_from (S (length s)) dest (lit s) ;;
   ret tt)%st.

(** [log2]: the number of times [n] can be halved before it is 0. *)
Fixpoint log2_loop (fuel : nat) (n result : Z) : Z :=
  match fuel with
  | O => result
  | S f => if Z.shiftr n 1 =? 0 then result else log2_loop f (Z.shiftr n 1) (result + 1)
  end.

Definition log2 (n : Z) : Z := log2_loop 32 n 0.

(** ** Formatting

    [sprintf] reads its variable arguments from the list [args]; taking one that
    is not there is a fault.  [num], its 32-byte local buffer, is a memory of
    its own, cleared for every conversion. *)

Definition num_buffer : bytes := list_to_map ((fun i => (Z.of_nat i, 0)) <$> seq 0 32).

(** Run a conversion on the cleared [num] at address 0. *)
Definition on_num {A} (f : ST bytes A) : ST bytes bytes :=
  match f num_buffer with Some (_, num) => ret num | None => fault end.

(** [fill_buffer]; the result is the new [dest_index]. *)
Fixpoint fill_buffer (n : nat) (dest_buf dest_index c : Z) : ST bytes Z :=
  match n with
  | O => ret dest_index
  | S k => (wr (dest_buf + dest_index) c ;; fill_buffer k dest_buf (dest_index + 1) c)%st
  end.

(** The loops that append the characters at a pointer up to the NUL byte. *)
Fixpoint emit_loop (fuel : nat) (get : Z -> ST bytes Z) (p dest_buf dest_index : Z) : ST bytes Z :=
  match fuel with
  | O => fault
  | S f =>
      (b <- get p ;;
       if b =? 0 then ret dest_index else
       wr (dest_buf + dest_index) b ;;
       emit_loop f get (p + 1) dest_buf (dest_index + 1))%st
  end.

(** Padding with '0' up to [padding] characters, then the characters of [num]. *)
Definition emit_num (num : bytes) (padding dest_buf dest_index : Z) : ST bytes Z :=
  (match strlen 0 num with
   | Some (length, _) =>
       dest_index <- (if length <? padding then fill_buffer (Z.to_nat (padding - length)) dest_buf dest_index 48
                      else ret dest_index) ;;
       emit_loop 33 (fun p => deref (num !! p)) 0 dest_buf dest_index
   | None => fault
   end)%st.

(** The literal text [format_str[processed]], ..., [format_str[index - 1]]. *)
Fixpoint copy_literal (n : nat) (format_str processed dest_buf dest_index : Z) : ST bytes Z :=
  match n with
  | O => ret dest_index
  | S k =>
      (b <- rd (format_str + processed) ;;
       wr (dest_buf + dest_index) b ;;
       copy_literal k format_str (processed + 1) dest_buf (dest_index + 1))%st
  end.

Fixpoint padding_loop (fuel : nat) (format_str index padding : Z) : ST bytes (Z * Z) :=
  match fuel with
  | O => fault
  | S f =>
      (b <- rd (format_str + index) ;;
       if (48 <=? schar b) && (schar b <=? 57)
       then padding_loop f format_str (index + 1) (i32 (padding * 10 + (b - 48)))
       else ret (index, padding))%st
  end.

(** One conversion with the specifier character [c]: the new [dest_index] and
    the remaining arguments. *)
Definition convert (c padding dest_buf dest_index : Z) (args : list Z) : ST bytes (Z * list Z) :=
  (if c =? 115 then
     str_arg <- deref (head args) ;;
     length <- strlen str_arg ;;
     dest_index <- (if length <? padding then fill_buffer (Z.to_nat (padding - length)) dest_buf dest_index 48
                    else ret dest_index) ;;
     fuel <- gets str_fuel ;;
     dest_index <- emit_loop fuel rd str_arg dest_buf dest_index ;;
     ret (dest_index, tail args)
   else if c =? 100 then
     arg <- deref (head args) ;;
     num <- on_num (int_to_str (i32 arg) 0) ;;
     dest_index <- emit_num num padding dest_buf dest_index ;;
     ret (dest_index, tail args)
   else if c =? 117 then
     arg <- deref (head args) ;;
     num <- on_num (uint_to_str (u32 arg) 0) ;;
     dest_index <- emit_num num padding dest_buf dest_index ;;
     ret (dest_index, tail args)
   else if c =? 120 then
     arg <- deref (head args) ;;
     num <- on_num (int_to_hex_str (u32 arg) 0) ;;
     dest_index <- emit_num num padding dest_buf dest_index ;;
     ret (dest_index, tail args)
   else if c =? 99 then
     dest_index <- (if 1 <? padding then fill_buffer (Z.to_nat (padding - 1)) dest_buf dest_index 48
                    else ret dest_index) ;;
     arg <- deref (head args) ;;
     wr (dest_buf + dest_index) arg ;;
     ret (dest_index + 1, tail args)
   else
     wr (dest_buf + dest_index) c ;;
     ret (dest_index + 1, args))%st.

Fixpoint sprintf_loop (fuel : nat) (dest_buf format_str index processed dest_index : Z) (args : list Z)
  : ST bytes (Z * Z * Z) :=
  match fuel with
  | O => fault
  | S f =>
      (b <- rd (format_str + index) ;;
       if b =? 0 then ret (index, processed, dest_index) else
       if b =? 37 then
         dest_index <- copy_literal (Z.to_nat (index - processed)) format_str processed dest_buf dest_index ;;
         fuel' <- gets str_fuel ;;
         ip <- padding_loop fuel' format_str (index + 1) 0 ;;
         c <- rd (format_str + ip.1) ;;
         r <- convert c ip.2 dest_buf dest_index args ;;
         sprintf_loop f dest_buf format_str (ip.1 + 1) (ip.1 + 1) r.1 r.2
       else sprintf_loop f dest_buf format_str (index + 1) processed dest_index args)%st
  end.

Definition sprintf (dest_buf format_str : Z) (args : list Z) : ST bytes Z :=
  (fuel <- gets str_fuel ;;
   r <- sprintf_loop fuel dest_buf format_str 0 0 0 args ;;
   let '(index, processed, dest_index) := r in
   dest_index <- copy_literal (Z.to_nat (index - processed)) format_str processed dest_buf dest_index ;;
   wr (dest_buf + dest_index) 0 ;;
   ret (i32 dest_index))%st.
