(* ===== verification/CStringSpec.v ===== *)
(** * Correctness of the string functions

    [str_at m a s]: the NUL-terminated string [s] is in memory at [a].  The
    conversions write the text of their number, the comparison decides
    lexicographic order, concatenation appends. *)

From stdpp Require Import base numbers list gmap.
From Stdlib Require Import ZArith Lia.
From S2P Require Import Prelude CString.

#[local] Open Scope Z_scope.

Implicit Types (m : bytes) (l s t : list Z).

(** ** Segments of memory *)

Definition seg m (a : Z) l : Prop := forall i c, l !! i = Some c -> m !! (a + Z.of_nat i) = Some c.

Definition byte_list l : Prop := Forall (fun c => 0 <= c < 256) l.

Definition str_at m (a : Z) s : Prop := seg m a (s ++ [0]) /\ Forall (fun c => 0 < c < 256) s.

(** Nothing outside [n] bytes from [a] on changed. *)
Definition only m m' (a n : Z) : Prop := forall x, ~ (a <= x < a + n) -> m' !! x = m !! x.

Lemma rd_some m a b : m !! a = Some b -> rd a m = Some (b, m).
Proof. unfold rd. by intros ->. Qed.

Lemma wr_run m a v : wr a v m = Some (tt, <[a := u8 v]> m).
Proof. done. Qed.

Lemma seg_cons m a c l : seg m a (c :: l) <-> m !! a = Some c /\ seg m (a + 1) l.
Proof.
  split.
  - intros Hs. split; [by rewrite <- (Hs 0%nat c eq_refl); f_equal; lia|].
    intros i d E. rewrite <- (Hs (S i) d E). f_equal. lia.
  - intros [E Hs] [|i] d Ei; cbn in Ei; [injection Ei as <-; rewrite <- E; f_equal; lia|].
    rewrite <- (Hs i d Ei). f_equal. lia.
Qed.

Lemma seg_app m a l1 l2 : seg m a (l1 ++ l2) <-> seg m a l1 /\ seg m (a + Z.of_nat (length l1)) l2.
Proof.
  revert a. induction l1 as [|c l1 IH]; intros a; cbn [app length].
  - replace (a + Z.of_nat 0) with a by lia. split; [by intros|by intros [_ ?]].
  - rewrite !seg_cons, IH. replace (a + 1 + Z.of_nat (length l1)) with (a + Z.of_nat (S (length l1))) by lia. tauto.
Qed.

Lemma seg_nil m a : seg m a [].
Proof. intros i c E. discriminate E. Qed.

Lemma seg_insert m a x v l : ~ (a <= x < a + Z.of_nat (length l)) -> seg m a l -> seg (<[x := v]> m) a l.
Proof.
  intros Hx Hs i c E. apply lookup_lt_Some in E as Hi. rewrite lookup_insert_ne by lia. by apply Hs.
Qed.

Lemma seg_same m m' a l : (forall x, a <= x < a + Z.of_nat (length l) -> m' !! x = m !! x) -> seg m a l -> seg m' a l.
Proof. intros Hm Hs i c E. apply lookup_lt_Some in E as Hi. rewrite Hm by lia. by apply Hs. Qed.

Lemma seg_size m a l : seg m a l -> (length l <= size m)%nat.
Proof.
  intros Hs. rewrite <- (length_seq (length l) 0), <- (length_fmap (fun i => a + Z.of_nat i)).
  apply keys_length.
  - apply NoDup_fmap_2; [intros i j E; lia|apply NoDup_seq].
  - intros x (i & -> & Hi)%list_elem_of_fmap. apply elem_of_seq in Hi.
    destruct (lookup_lt_is_Some_2 l i) as [c E]; [lia|]. exists c. by apply Hs.
Qed.

(** ** Reversal in place *)

Lemma swap_loop_spec fuel : forall dest l m start,
  seg m (dest + start) l -> byte_list l -> (length l < fuel)%nat ->
  exists m', swap_loop fuel dest start (start + Z.of_nat (length l) - 1) m = Some (tt, m') /\
    seg m' (dest + start) (rev l) /\ only m m' (dest + start) (Z.of_nat (length l)).
Proof.
  induction fuel as [|fuel IH]; intros dest l m start Hs Hb Hf; [lia|]. cbn [swap_loop].
  destruct l as [|x l]; [|destruct l as [|y l _] using rev_ind].
  - exists m. cbn. bool_cases. split_and!; [done|apply seg_nil|done].
  - exists m. cbn. bool_cases. split_and!; [done|done|done].
  - change (x :: l ++ [y]) with ([x] ++ l ++ [y]) in *. rewrite !length_app. cbn [length]. bool_cases.
    apply seg_app in Hs as [Hx Hs]. apply seg_app in Hs as [Hl Hy]. cbn [length] in Hl, Hy.
    apply seg_cons in Hx as [Ex _]. apply seg_cons in Hy as [Ey _].
    replace (dest + start + Z.of_nat 1 + Z.of_nat (length l)) with (dest + (start + Z.of_nat (1 + (length l + 1)) - 1)) in Ey by lia.
    unfold byte_list in Hb. rewrite !Forall_app, !Forall_singleton in Hb. destruct Hb as (Hbx & Hbl & Hby).
    set (en := start + Z.of_nat (1 + (length l + 1)) - 1) in *.
    rewrite (bind_some _ _ _ _ _ (rd_some m _ x Ex)), (bind_some _ _ _ _ _ (rd_some m _ y Ey)).
    rewrite (bind_some _ _ _ _ _ (wr_run _ _ _)), (bind_some _ _ _ _ _ (wr_run _ _ _)), !u8_small by lia.
    set (m1 := <[dest + en := x]> _).
    destruct (IH dest l m1 (start + 1)) as (m' & E & Hr & Ho); [|done|rewrite !length_app in Hf; cbn in Hf; lia|].
    { unfold m1. apply seg_insert; [lia|]. apply seg_insert; [lia|].
      replace (dest + (start + 1)) with (dest + start + Z.of_nat 1) by lia. done. }
    replace (start + 1 + Z.of_nat (length l) - 1) with (en - 1) in E by lia. exists m'. split; [done|].
    assert (Ex' : m' !! (dest + en) = Some x) by (rewrite Ho by lia; unfold m1; by rewrite lookup_insert_eq).
    assert (Ey' : m' !! (dest + start) = Some y).
    { rewrite Ho by lia. unfold m1. by rewrite lookup_insert_ne, lookup_insert_eq by lia. }
    split.
    + rewrite !rev_app_distr. cbn [rev app]. apply seg_cons. split; [done|]. apply seg_app. split.
      * by replace (dest + start + 1) with (dest + (start + 1)) by lia.
      * rewrite length_rev. apply seg_cons. split; [rewrite <- Ex'; f_equal; lia|apply seg_nil].
    + intros a Ha. rewrite Ho by lia. unfold m1. by rewrite !lookup_insert_ne by lia.
Qed.

(** ** Decimal text *)

(** The digits of a positive number, least significant first. *)
Fixpoint digits (fuel : nat) (n : Z) : list Z :=
  match fuel with
  | O => []
  | S f => if n =? 0 then [] else (n mod 10 + 48) :: digits f (n / 10)
  end.

Definition is_digit (c : Z) : Prop := 48 <= c <= 57.

(** The value of a digit string read from the left, after [acc]. *)
Fixpoint value (acc : Z) l : Z :=
  match l with
  | [] => acc
  | c :: r => value (acc * 10 + (c - 48)) r
  end.

Lemma value_app acc l1 l2 : value acc (l1 ++ l2) = value (value acc l1) l2.
Proof. revert acc. induction l1 as [|c l1 IH]; intros acc; [done|]. apply IH. Qed.

Lemma value_mono l : forall acc, 0 <= acc -> Forall is_digit l -> acc <= value acc l.
Proof.
  induction l as [|c l IH]; intros acc Ha Hl; cbn; [lia|]. apply Forall_cons in Hl as [Hc Hl]. unfold is_digit in Hc.
  specialize (IH (acc * 10 + (c - 48)) ltac:(lia) Hl). lia.
Qed.

Lemma digits_digit fuel : forall n, Forall is_digit (digits fuel n).
Proof.
  induction fuel as [|f IH]; intros n; cbn; [constructor|]. destruct (n =? 0); [constructor|].
  constructor; [|apply IH]. unfold is_digit. pose proof (Z.mod_pos_bound n 10). lia.
Qed.

Lemma digits_value fuel : forall n, 0 <= n < 10 ^ Z.of_nat fuel -> value 0 (rev (digits fuel n)) = n.
Proof.
  induction fuel as [|f IH]; intros n Hn; [change (10 ^ Z.of_nat 0) with 1 in Hn; cbn; lia|]. cbn [digits].
  destruct (Z.eqb_spec n 0) as [->|Hne]; [done|]. cbn [rev]. rewrite value_app, IH.
  - cbn. pose proof (Z.div_mod n 10). lia.
  - rewrite Nat2Z.inj_succ, Z.pow_succ_r in Hn by lia. split; [apply Z.div_pos; lia|apply Z.div_lt_upper_bound; lia].
Qed.

Lemma digits_length fuel : forall n k, 0 <= n < 10 ^ Z.of_nat k -> (length (digits fuel n) <= k)%nat.
Proof.
  induction fuel as [|f IH]; intros n k Hn; cbn; [lia|]. destruct (Z.eqb_spec n 0); [cbn; lia|].
  destruct k as [|k]; [change (10 ^ Z.of_nat 0) with 1 in Hn; lia|]. cbn.
  rewrite Nat2Z.inj_succ, Z.pow_succ_r in Hn by lia. specialize (IH (n / 10) k).
  assert (0 <= n / 10 < 10 ^ Z.of_nat k) by (split; [apply Z.div_pos; lia|apply Z.div_lt_upper_bound; lia]). specialize (IH H). lia.
Qed.

(** No leading zero. *)
Lemma digits_lead fuel : forall n, 0 < n < 10 ^ Z.of_nat fuel -> exists c r, rev (digits fuel n) = c :: r /\ 49 <= c <= 57.
Proof.
  induction fuel as [|f IH]; intros n Hn; [change (10 ^ Z.of_nat 0) with 1 in Hn; lia|]. cbn [digits].
  destruct (Z.eqb_spec n 0); [lia|]. cbn [rev]. rewrite Nat2Z.inj_succ, Z.pow_succ_r in Hn by lia.
  destruct (decide (n / 10 = 0)) as [E|E].
  - rewrite E. assert (n < 10) by (apply Z.div_small_iff in E; lia). destruct f; cbn; exists (n mod 10 + 48), []; rewrite Z.mod_small by lia; split; (done || lia).
  - destruct (IH (n / 10)) as (c & r & -> & Hc); [|by exists c, (r ++ [n mod 10 + 48])].
    split; [pose proof (Z.div_pos n 10); lia|apply Z.div_lt_upper_bound; lia].
Qed.

Lemma digit_loop_spec fuel : forall num dest i m,
  0 <= num < 10 ^ Z.of_nat fuel ->
  exists m', digit_loop (S fuel) num dest i m = Some (i + Z.of_nat (length (digits fuel num)), m') /\
    seg m' (dest + i) (digits fuel num) /\ only m m' (dest + i) (Z.of_nat (length (digits fuel num))).
Proof.
  induction fuel as [|f IH]; intros num dest i m Hn.
  { change (10 ^ Z.of_nat 0) with 1 in Hn. assert (num = 0) as -> by lia. exists m. cbn.
    split_and!; [by rewrite Z.add_0_r|apply seg_nil|done]. }
  cbn [digits]. destruct (Z.eqb_spec num 0) as [->|Hne].
  { exists m. cbn. split_and!; [by rewrite Z.add_0_r|apply seg_nil|done]. }
  set (fu := S f). cbn [digit_loop]. assert ((num =? 0) = false) as -> by by apply Z.eqb_neq. cbn [negb].
  rewrite (bind_some _ _ _ _ _ (wr_run _ _ _)). rewrite Z.rem_mod_nonneg, Z.quot_div_nonneg by lia.
  rewrite Nat2Z.inj_succ, Z.pow_succ_r in Hn by lia. pose proof (Z.mod_pos_bound num 10 ltac:(lia)). rewrite u8_small by lia.
  destruct (IH (num / 10) dest (i + 1) (<[dest + i := num mod 10 + 48]> m)) as (m' & E & Hs & Ho).
  { split; [apply Z.div_pos; lia|apply Z.div_lt_upper_bound; lia]. }
  exists m'. split_and!.
  - unfold fu. rewrite E. cbn [length]. do 2 f_equal. lia.
  - apply seg_cons. split; [rewrite Ho by lia; by rewrite lookup_insert_eq|]. by replace (dest + i + 1) with (dest + (i + 1)) by lia.
  - intros a Ha. cbn [length] in Ha. rewrite Ho by lia. by rewrite lookup_insert_ne by lia.
Qed.

(** The text [int_to_str] writes. *)
Definition decimal (n : Z) : list Z :=
  if n =? 0 then [48]
  else if n <? 0 then 45 :: rev (digits 32 (- n)) else rev (digits 32 n).

Lemma decimal_chars n : Forall (fun c => 0 < c < 256) (decimal n).
Proof.
  assert (Hd : forall k, Forall (fun c => 0 < c < 256) (rev (digits 32 k))).
  { intros k. apply Forall_rev. eapply Forall_impl; [apply digits_digit|]. unfold is_digit. cbn. intros; lia. }
  unfold decimal. destruct (n =? 0); [repeat constructor|]. destruct (n <? 0); [|done]. constructor; [lia|done].
Qed.

Lemma digits_32 n : 0 <= n < 2147483648 -> 0 <= n < 10 ^ Z.of_nat 10 /\ 0 <= n < 10 ^ Z.of_nat 32.
Proof. change (10 ^ Z.of_nat 10) with 10000000000. assert (10000000000 < 10 ^ Z.of_nat 32) by done. lia. Qed.

Lemma decimal_length n : -2147483648 < n < 2147483648 -> (length (decimal n) <= 11)%nat.
Proof.
  intros Hn. unfold decimal. destruct (Z.eqb_spec n 0); [cbn; lia|]. destruct (Z.ltb_spec n 0); cbn [length]; rewrite length_rev.
  - pose proof (digits_length 32 (- n) 10 (proj1 (digits_32 (- n) ltac:(lia)))). lia.
  - pose proof (digits_length 32 n 10 (proj1 (digits_32 n ltac:(lia)))). lia.
Qed.

Lemma str_byte_list s : Forall (fun c => 0 < c < 256) s -> byte_list s.
Proof. intros Hs. eapply Forall_impl; [exact Hs|]. cbn. intros; lia. Qed.

(** What follows the digit loop: the NUL byte, then the reversal. *)
Lemma finish_number l dest m :
  seg m dest l -> Forall (fun c => 0 < c < 256) l ->
  exists m', (wr (dest + Z.of_nat (length l)) 0 ;; swap_loop (S (Z.to_nat (Z.of_nat (length l)))) dest 0 (Z.of_nat (length l) - 1))%st m
      = Some (tt, m') /\
    str_at m' dest (rev l) /\ only m m' dest (Z.of_nat (length l) + 1).
Proof.
  intros Hs Hc. rewrite (bind_some _ _ _ _ _ (wr_run _ _ _)). change (u8 0) with 0. rewrite Nat2Z.id.
  destruct (swap_loop_spec (S (length l)) dest l (<[dest + Z.of_nat (length l) := 0]> m) 0) as (m' & E & Hr & Ho).
  - rewrite Z.add_0_r. apply seg_insert; [lia|done].
  - by apply str_byte_list.
  - lia.
  - rewrite Z.add_0_l in E. rewrite Z.add_0_r in Hr, Ho. exists m'. split_and!; [done| |].
    + split; [|by apply Forall_rev]. apply seg_app. split; [done|]. rewrite length_rev. apply seg_cons. split; [|apply seg_nil].
      rewrite Ho by lia. by rewrite lookup_insert_eq.
    + intros a Ha. rewrite Ho by lia. by rewrite lookup_insert_ne by lia.
Qed.

Lemma only_trans m m1 m' a n : only m m1 a n -> only m1 m' a n -> only m m' a n.
Proof. intros H1 H2 x Hx. by rewrite H2, H1. Qed.

Lemma only_mono m m' a n n' : n <= n' -> only m m' a n -> only m m' a n'.
Proof. intros Hn Ho x Hx. apply Ho. lia. Qed.

Lemma int_to_str_spec num dest m :
  -2147483648 < num < 2147483648 ->
  exists m', int_to_str num dest m = Some (tt, m') /\ str_at m' dest (decimal num) /\ only m m' dest 12.
Proof.
  intros Hn. unfold int_to_str, decimal. destruct (Z.eqb_spec num 0) as [->|Hne].
  { eexists. split; [done|]. change (u8 48) with 48. change (u8 0) with 0. split; [split|].
    - apply seg_cons. split; [by rewrite lookup_insert_ne, lookup_insert_eq by lia|]. apply seg_cons.
      split; [by rewrite lookup_insert_eq|apply seg_nil].
    - repeat constructor.
    - intros a Ha. by rewrite !lookup_insert_ne by lia. }
  set (k := if num <? 0 then i32 (- num) else num). assert (Ek : k = Z.abs num).
  { unfold k. destruct (Z.ltb_spec num 0); [|lia]. unfold i32. rewrite u32_small by lia. destruct (Z.ltb_spec (- num) 2147483648); lia. }
  clearbody k. destruct (digits_32 k ltac:(lia)) as [Hk10 Hk]. pose proof (digits_length 32 k 10 Hk10) as Hlen.
  destruct (digit_loop_spec 32 k dest 0 m Hk) as (m1 & E & Hs & Ho). rewrite Z.add_0_r in Hs, Ho. rewrite Z.add_0_l in E.
  rewrite (bind_some _ _ _ _ _ E). set (d := digits 32 k) in *.
  assert (Hd : Forall (fun c => 0 < c < 256) d).
  { eapply Forall_impl; [apply digits_digit|]. unfold is_digit. cbn. intros; lia. }
  assert (Ho12 : only m m1 dest 12) by (eapply only_mono; [|exact Ho]; lia).
  destruct (Z.ltb_spec num 0) as [Hneg|Hpos].
  - assert (E2 : (wr (dest + Z.of_nat (length d)) 45 ;; ret (Z.of_nat (length d) + 1))%st m1 =
      Some (Z.of_nat (length (d ++ [45])), <[dest + Z.of_nat (length d) := 45]> m1)).
    { unfold bind, ret. rewrite wr_run. do 2 f_equal. rewrite length_app. cbn. lia. }
    rewrite (bind_some _ _ _ _ _ E2).
    destruct (finish_number (d ++ [45]) dest (<[dest + Z.of_nat (length d) := 45]> m1)) as (m' & E3 & Hr & Hf).
    { apply seg_app. split; [apply seg_insert; [lia|done]|]. apply seg_cons. split; [by rewrite lookup_insert_eq|apply seg_nil]. }
    { apply Forall_app. split; [done|]. repeat constructor. }
    exists m'. split; [exact E3|]. rewrite rev_app_distr in Hr. cbn [rev app] in Hr. assert (- num = k) as -> by lia. split; [done|].
    apply (only_trans _ (<[dest + Z.of_nat (length d) := 45]> m1)).
    + intros a Ha. rewrite lookup_insert_ne by lia. apply Ho12. lia.
    + eapply only_mono; [|exact Hf]. rewrite length_app. cbn [length]. lia.
  - rewrite bind_ret. destruct (finish_number d dest m1 Hs Hd) as (m' & E3 & Hr & Hf).
    exists m'. split; [exact E3|]. assert (num = k) as -> by lia. split; [done|].
    apply (only_trans _ m1); [done|]. eapply only_mono; [|exact Hf]. lia.
Qed.

(** ** Reading a number back *)

Lemma i32_small x : -2147483648 <= x < 2147483648 -> i32 x = x.
Proof.
  intros Hx. unfold i32. destruct (Z.leb_spec 0 x).
  - rewrite u32_small by lia. destruct (Z.ltb_spec x 2147483648); lia.
  - assert (u32 x = x + 4294967296) as ->.
    { unfold u32. rewrite <- (Z.mod_add x 1) by lia. rewrite Z.mul_1_l. apply Z.mod_small. lia. }
    destruct (Z.ltb_spec (x + 4294967296) 2147483648); lia.
Qed.

Lemma atoi_loop_spec l : forall fuel str i res m,
  seg m (str + i) (l ++ [0]) -> Forall is_digit l -> (length l < fuel)%nat -> 0 <= res -> value res l < 2147483648 ->
  atoi_loop fuel str i res m = Some (value res l, m).
Proof.
  induction l as [|c l IH]; intros [|fuel] str i res m Hs Hd Hf Hr Hv; cbn in Hf; try lia; cbn [atoi_loop app value] in *;
    apply seg_cons in Hs as [Ec Hs]; rewrite (bind_some _ _ _ _ _ (rd_some _ _ _ Ec)); [done|].
  apply Forall_cons in Hd as [Hc Hd]. unfold is_digit in Hc. assert ((c =? 0) = false) as -> by (apply Z.eqb_neq; lia).
  assert (Hm := value_mono l (res * 10 + (c - 48)) ltac:(lia) Hd).
  assert (schar c = c) as -> by (unfold schar; destruct (Z.ltb_spec c 128); lia).
  rewrite i32_small by lia. apply IH; [|done|lia|lia|done]. by replace (str + (i + 1)) with (str + i + 1) by lia.
Qed.

Lemma atoi_decimal num str m :
  -2147483648 < num < 2147483648 -> str_at m str (decimal num) -> atoi str m = Some (num, m).
Proof.
  intros Hn [Hs _]. pose proof (seg_size _ _ _ Hs) as Hsz. rewrite length_app in Hsz. cbn in Hsz. unfold atoi, decimal in *.
  destruct (Z.eqb_spec num 0) as [->|Hne].
  { pose proof (proj1 (proj1 (seg_cons _ _ _ _) Hs)) as Ec. rewrite (bind_some _ _ _ _ _ (rd_some _ _ _ Ec)).
    change (48 =? 45) with false. change (48 =? 43) with false. unfold bind at 1, gets. cbv zeta.
    rewrite (bind_some _ _ _ _ _ (atoi_loop_spec [48] (str_fuel m) str 0 0 m ltac:(by rewrite Z.add_0_r)
      ltac:(constructor; [unfold is_digit; lia|constructor]) ltac:(unfold str_fuel; cbn; cbn in Hsz; lia) ltac:(lia) ltac:(cbn; lia))). done. }
  destruct (digits_32 (Z.abs num) ltac:(lia)) as [_ Hk].
  destruct (digits_lead 32 (Z.abs num) ltac:(lia)) as (c & r & Ed & Hc).
  pose proof (digits_value 32 _ Hk) as Hv.
  assert (Hdig : Forall is_digit (c :: r)) by (rewrite <- Ed; apply Forall_rev, digits_digit). rewrite Ed in Hv.
  destruct (Z.ltb_spec num 0) as [Hneg|Hpos].
  - assert (- num = Z.abs num) as Ea by lia. rewrite Ea, Ed in Hs, Hsz. cbn [app] in Hs. apply seg_cons in Hs as [Em Hs].
    rewrite (bind_some _ _ _ _ _ (rd_some _ _ _ Em)). change (45 =? 45) with true. unfold bind at 1, gets. cbv zeta.
    rewrite (bind_some _ _ _ _ _ (atoi_loop_spec (c :: r) (str_fuel m) str 1 0 m Hs Hdig
      ltac:(unfold str_fuel; cbn in *; lia) ltac:(lia) ltac:(lia))).
    rewrite Hv. unfold ret. rewrite i32_small by lia. do 2 f_equal. lia.
  - assert (num = Z.abs num) as Ea by lia. rewrite Ea, Ed in Hs, Hsz. pose proof (proj1 (proj1 (seg_cons _ _ _ _) Hs)) as Ec.
    rewrite (bind_some _ _ _ _ _ (rd_some _ _ _ Ec)). assert ((c =? 45) = false) as -> by (apply Z.eqb_neq; lia).
    assert ((c =? 43) = false) as -> by (apply Z.eqb_neq; lia). unfold bind at 1, gets. cbv zeta.
    rewrite (bind_some _ _ _ _ _ (atoi_loop_spec (c :: r) (str_fuel m) str 0 0 m ltac:(by rewrite Z.add_0_r) Hdig
      ltac:(unfold str_fuel; cbn in *; lia) ltac:(lia) ltac:(lia))).
    rewrite Hv. unfold ret. rewrite Z.mul_1_l, i32_small by lia. do 2 f_equal. lia.
Qed.

(** ** Overflow *)

Lemma u32_i32 x : u32 (i32 x) = u32 x.
Proof. unfold i32. destruct (_ <? _); [apply u32_idem|]. unfold u32. rewrite <- (Z.mod_add (x mod 4294967296 - 4294967296) 1) by lia. rewrite Z.mul_1_l, Z.sub_add. by apply Z.mod_mod. Qed.

Lemma i32_congr x y : u32 x = u32 y -> i32 x = i32 y.
Proof. unfold i32. by intros ->. Qed.

Lemma i32_mul_add x a b : i32 (i32 x * a + b) = i32 (x * a + b).
Proof.
  apply i32_congr. pose proof (u32_i32 x) as E. unfold u32 in *. rewrite (Z.add_mod (i32 x * a)), (Z.mul_mod (i32 x)), E, <- Z.mul_mod, <- Z.add_mod by lia. done.
Qed.

Lemma atoi_loop_wraps l : forall fuel str i acc m,
  seg m (str + i) (l ++ [0]) -> Forall is_digit l -> (length l < fuel)%nat -> atoi_loop fuel str i (i32 acc) m = Some (i32 (value acc l), m).
Proof.
  induction l as [|c l IH]; intros [|fuel] str i acc m Hs Hd Hf; cbn in Hf; try lia; cbn [atoi_loop app value] in *;
    apply seg_cons in Hs as [Ec Hs]; rewrite (bind_some _ _ _ _ _ (rd_some _ _ _ Ec)); [done|].
  apply Forall_cons in Hd as [Hc Hd]. unfold is_digit in Hc. assert ((c =? 0) = false) as -> by (apply Z.eqb_neq; lia).
  assert (schar c = c) as -> by (unfold schar; destruct (Z.ltb_spec c 128); lia).
  rewrite i32_mul_add. apply IH; [|done|lia]. by replace (str + (i + 1)) with (str + i + 1) by lia.
Qed.

(** ** Comparison *)

(** Lexicographic order on strings. *)
Inductive lex_lt : list Z -> list Z -> Prop :=
  | lex_nil c t : lex_lt [] (c :: t)
  | lex_head c d s t : c < d -> lex_lt (c :: s) (d :: t)
  | lex_tail c s t : lex_lt s t -> lex_lt (c :: s) (c :: t).

Lemma str_at_cons m a c s : str_at m a (c :: s) -> m !! a = Some c /\ 0 < c < 256 /\ str_at m (a + 1) s.
Proof. intros [Hs Hc]. apply seg_cons in Hs as [E Hs]. apply Forall_cons in Hc as [? Hc]. split_and!; try done; lia. Qed.

Lemma str_at_nil m a : str_at m a [] -> m !! a = Some 0.
Proof. intros [Hs _]. by apply seg_cons in Hs as [E _]. Qed.

Lemma str_at_head m a s : str_at m a s -> exists c, m !! a = Some c /\ 0 <= c < 256 /\ c = match s with [] => 0 | d :: _ => d end.
Proof.
  destruct s as [|d s]; intros Hs; [exists 0; split; [by apply str_at_nil|done]|].
  destruct (str_at_cons _ _ _ _ Hs) as (E & Hd & _). exists d. split; [done|]. split; [lia|done].
Qed.

(** The result of the comparison. *)
Definition compares (r : Z) s t : Prop := (r = 0 <-> s = t) /\ (r < 0 <-> lex_lt s t) /\ (0 < r <-> lex_lt t s).

Lemma compares_tail r c s t : compares r s t -> compares r (c :: s) (c :: t).
Proof.
  assert (Hl : forall s t, lex_lt (c :: s) (c :: t) <-> lex_lt s t).
  { intros s' t'. split; [|by constructor]. intros HL. inversion HL; subst; [lia|done]. }
  intros (H1 & H2 & H3). split_and!; [rewrite H1; split; congruence|by rewrite H2, Hl|by rewrite H3, Hl].
Qed.

Lemma compares_head s t c d :
  c = match s with [] => 0 | x :: _ => x end -> d = match t with [] => 0 | x :: _ => x end ->
  Forall (fun x => 0 < x < 256) s -> Forall (fun x => 0 < x < 256) t -> (c = d -> s = [] /\ t = []) -> compares (c - d) s t.
Proof.
  intros Hc Hd Fs Ft Hcd.
  assert (Hno : forall s, ~ lex_lt s []) by (intros s' HL; inversion HL).
  assert (Hhd : forall x y s t, x <> y -> lex_lt (x :: s) (y :: t) <-> x < y).
  { intros x y s' t' Hne. split; [intros HL; inversion HL; subst; [done|lia]|by constructor]. }
  destruct s as [|x s], t as [|y t]; subst c d; try apply Forall_cons in Fs as [Fx _]; try apply Forall_cons in Ft as [Fy _].
  - split_and!; split; (done || lia || (intros HL; by apply Hno in HL)).
  - split_and!; split; (done || lia || constructor || (intros HL; by apply Hno in HL)).
  - split_and!; split; (done || lia || constructor || (intros HL; by apply Hno in HL)).
  - assert (Hne : x <> y) by (intros E; by destruct (Hcd E)).
    split_and!; [split; [lia|congruence]|rewrite Hhd by done; lia|rewrite Hhd by lia; lia].
Qed.

Lemma strcmp_loop_spec s : forall fuel a b m t,
  str_at m a s -> str_at m b t -> (length s < fuel)%nat ->
  exists r, strcmp_loop fuel a b m = Some (r, m) /\ compares r s t.
Proof.
  induction s as [|c s IH]; intros [|fuel] a b m t Hs Ht Hf; cbn in Hf; try lia; cbn [strcmp_loop];
    destruct (str_at_head _ _ _ Ht) as (d & Ed & Hd & Hdt); destruct Ht as [Ht Ft].
  - pose proof (str_at_nil _ _ Hs) as Ea. rewrite (bind_some _ _ _ _ _ (rd_some _ _ _ Ea)). change (0 =? 0) with true. cbv iota.
    rewrite bind_ret, (bind_some _ _ _ _ _ (rd_some _ _ _ Ea)), (bind_some _ _ _ _ _ (rd_some _ _ _ Ed)).
    exists (0 - d). split; [done|]. apply compares_head; try done. intros <-. destruct t as [|y t]; [done|].
    apply Forall_cons in Ft as [? _]. lia.
  - destruct (str_at_cons _ _ _ _ Hs) as (Ea & Hc & Hs'). rewrite (bind_some _ _ _ _ _ (rd_some _ _ _ Ea)).
    assert ((c =? 0) = false) as -> by (apply Z.eqb_neq; lia).
    assert (Eb : (b0 <- rd b ;; ret (c =? b0))%st m = Some (c =? d, m)) by (by rewrite (bind_some _ _ _ _ _ (rd_some _ _ _ Ed))).
    rewrite (bind_some _ _ _ _ _ Eb). destruct (Z.eqb_spec c d) as [->|Hne].
    + destruct t as [|y t]; [lia|]. subst y. apply seg_cons in Ht as [_ Ht]. apply Forall_cons in Ft as [_ Ft].
      destruct (IH fuel (a + 1) (b + 1) m t Hs') as (r & E & Hr); [done|lia|]. exists r. split; [done|by apply compares_tail].
    + rewrite (bind_some _ _ _ _ _ (rd_some _ _ _ Ea)), (bind_some _ _ _ _ _ (rd_some _ _ _ Ed)).
      exists (c - d). split; [done|]. apply compares_head; try done. apply Hs.
Qed.

(** ** Length and concatenation *)

Lemma strlen_loop_spec s : forall n a i m,
  str_at m (a + i) s -> (length s < n)%nat -> strlen_loop n a i m = Some (i + Z.of_nat (length s), m).
Proof.
  induction s as [|c s IH]; intros [|n] a i m Hs Hn; cbn in Hn; try lia; cbn [strlen_loop].
  - pose proof (str_at_nil _ _ Hs) as Ea. rewrite (bind_some _ _ _ _ _ (rd_some _ _ _ Ea)). cbn. by rewrite Z.add_0_r.
  - destruct (str_at_cons _ _ _ _ Hs) as (Ea & Hc & Hs'). rewrite (bind_some _ _ _ _ _ (rd_some _ _ _ Ea)).
    assert ((c =? 0) = false) as -> by (apply Z.eqb_neq; lia). rewrite IH; [cbn [length]; do 2 f_equal; lia| |lia].
    by replace (a + (i + 1)) with (a + i + 1) by lia.
Qed.

Lemma strcat_loop_spec t : forall fuel b d i m,
  str_at m (b + i) t -> (length t < fuel)%nat ->
  (b + i + Z.of_nat (length t) < d + i \/ d + i + Z.of_nat (length t) < b + i) ->
  exists m', strcat_loop fuel (fun i => rd (b + i)) d i m = Some (tt, m') /\ seg m' (d + i) (t ++ [0]) /\
    only m m' (d + i) (Z.of_nat (length t) + 1).
Proof.
  induction t as [|c t IH]; intros [|fuel] b d i m Ht Hf Hd; cbn [length] in *; try lia; cbn [strcat_loop].
  - pose proof (str_at_nil _ _ Ht) as Ea. rewrite (bind_some _ _ _ _ _ (rd_some _ _ _ Ea)). change (0 =? 0) with true.
    eexists. split; [done|]. change (u8 0) with 0. split.
    + apply seg_cons. split; [by rewrite lookup_insert_eq|apply seg_nil].
    + intros x Hx. by rewrite lookup_insert_ne by lia.
  - destruct (str_at_cons _ _ _ _ Ht) as (Ea & Hc & Ht'). rewrite (bind_some _ _ _ _ _ (rd_some _ _ _ Ea)).
    assert ((c =? 0) = false) as -> by (apply Z.eqb_neq; lia).
    rewrite (bind_some _ _ _ _ _ (rd_some _ _ _ Ea)), (bind_some _ _ _ _ _ (wr_run _ _ _)), u8_small by lia.
    destruct (IH fuel b d (i + 1) (<[d + i := c]> m)) as (m' & E & Hs & Ho); [|lia|lia|].
    { replace (b + (i + 1)) with (b + i + 1) by lia. destruct Ht' as [Ht' Ft]. split; [|done].
      apply seg_insert; [rewrite length_app; cbn [length]; lia|done]. }
    exists m'. split; [done|]. split.
    + apply seg_cons. split; [rewrite Ho by lia; by rewrite lookup_insert_eq|]. by replace (d + i + 1) with (d + (i + 1)) by lia.
    + intros x Hx. rewrite Ho by lia. by rewrite lookup_insert_ne by lia.
Qed.

(** ** Hexadecimal text *)

(** The value of a lower-case hexadecimal character. *)
Definition hex_char (c : Z) : option Z :=
  if (48 <=? c) && (c <=? 57) then Some (c - 48) else if (97 <=? c) && (c <=? 102) then Some (c - 87) else None.

Fixpoint hex_value (acc : Z) l : option Z :=
  match l with
  | [] => Some acc
  | c :: r => match hex_char c with Some d => hex_value (acc * 16 + d) r | None => None end
  end.

Lemma hex_char_digit d : 0 <= d < 16 -> hex_char (hex_digit d) = Some d.
Proof.
  intros Hd. unfold hex_digit, hex_char. destruct (Z.ltb_spec d 10).
  - destruct (Z.leb_spec 48 (48 + d)), (Z.leb_spec (48 + d) 57); cbn [andb]; try lia. f_equal. lia.
  - destruct (Z.leb_spec 48 (87 + d)), (Z.leb_spec (87 + d) 57); cbn [andb]; try lia.
    destruct (Z.leb_spec 97 (87 + d)), (Z.leb_spec (87 + d) 102); cbn [andb]; try lia. f_equal. lia.
Qed.

Lemma hex_nibble num j : 0 <= num -> 0 <= j -> Z.land (Z.shiftr num (j * 4)) 0xF = num / 16 ^ j mod 16.
Proof.
  intros Hn Hj. rewrite Z.shiftr_div_pow2 by lia. change 0xF with (Z.ones 4). rewrite Z.land_ones by lia.
  rewrite Z.mul_comm, Z.pow_mul_r by lia. done.
Qed.

Lemma nibble_split num j : 0 <= j -> num mod 16 ^ (j + 1) = num / 16 ^ j mod 16 * 16 ^ j + num mod 16 ^ j.
Proof.
  intros Hj. assert (0 < 16 ^ j) by (apply Z.pow_pos_nonneg; lia).
  rewrite Z.pow_add_r, Z.pow_1_r, Z.rem_mul_r by lia. lia.
Qed.

Lemma hex_temp_value n : forall num leading acc,
  0 <= num -> (leading = true -> acc = 0) ->
  hex_value acc (hex_temp n num leading) = Some (acc * 16 ^ Z.of_nat n + num mod 16 ^ Z.of_nat n).
Proof.
  induction n as [|n IH]; intros num leading acc Hn Hl; cbn [hex_temp].
  { change (16 ^ Z.of_nat 0) with 1. rewrite Z.mod_1_r. cbn. f_equal. lia. }
  rewrite hex_nibble by lia. pose proof (Z.mod_pos_bound (num / 16 ^ Z.of_nat n) 16 ltac:(lia)) as Hd.
  set (d := num / 16 ^ Z.of_nat n mod 16) in *.
  replace (Z.of_nat (S n)) with (Z.of_nat n + 1) by lia. rewrite nibble_split by lia. fold d. rewrite Z.pow_add_r, Z.pow_1_r by lia.
  destruct (negb (hex_digit d =? 48) || negb leading) eqn:E.
  - cbn [hex_value]. rewrite hex_char_digit, IH by (done || lia). f_equal. lia.
  - apply orb_false_iff in E as [E1 E2]. apply negb_false_iff in E1, E2. apply Z.eqb_eq in E1. subst leading.
    rewrite (Hl eq_refl) in *. assert (d = 0) as ->. { unfold hex_digit in E1. destruct (Z.ltb_spec d 10); lia. }
    rewrite IH by done. f_equal; lia.
Qed.

Lemma hex_temp_chars n : forall num leading, 0 <= num -> Forall (fun c => 0 < c < 256) (hex_temp n num leading) /\
  (length (hex_temp n num leading) <= n)%nat.
Proof.
  induction n as [|n IH]; intros num leading Hn; cbn [hex_temp]; [split; [constructor|done]|].
  rewrite hex_nibble by lia. pose proof (Z.mod_pos_bound (num / 16 ^ Z.of_nat n) 16 ltac:(lia)) as Hd.
  destruct (IH num false Hn), (IH num leading Hn). destruct (_ || _); [|split; [done|lia]]. cbn [length]. split; [|lia].
  constructor; [|done]. unfold hex_digit. destruct (Z.ltb_spec (num / 16 ^ Z.of_nat n mod 16) 10); lia.
Qed.

(** A text copied from a local array. *)
Lemma copy_lit_spec s : forall fuel pre dest m,
  Forall (fun c => 0 < c < 256) s -> (length s < fuel)%nat ->
  exists m', copy_loop fuel (lit (pre ++ s)) dest (Z.of_nat (length pre)) m = Some (tt, m') /\
    seg m' (dest + Z.of_nat (length pre)) (s ++ [0]) /\ only m m' (dest + Z.of_nat (length pre)) (Z.of_nat (length s) + 1).
Proof.
  induction s as [|c s IH]; intros [|fuel] pre dest m Hs Hf; cbn [length] in *; try lia; cbn [copy_loop].
  - assert (E : lit (pre ++ []) (Z.of_nat (length pre)) m = Some (0, m)).
    { unfold lit. rewrite app_nil_r, Nat2Z.id, lookup_app_r, Nat.sub_diag by lia. done. }
    rewrite (bind_some _ _ _ _ _ E), (bind_some _ _ _ _ _ (wr_run _ _ _)). change (u8 0) with 0. change (0 =? 0) with true.
    eexists. split; [done|]. split; [apply seg_cons; split; [by rewrite lookup_insert_eq|apply seg_nil]|].
    intros x Hx. by rewrite lookup_insert_ne by lia.
  - apply Forall_cons in Hs as [Hc Hs].
    assert (E : lit (pre ++ c :: s) (Z.of_nat (length pre)) m = Some (c, m)).
    { unfold lit. rewrite <- app_assoc, Nat2Z.id, lookup_app_r, Nat.sub_diag by lia. done. }
    rewrite (bind_some _ _ _ _ _ E), (bind_some _ _ _ _ _ (wr_run _ _ _)), u8_small by lia.
    assert ((c =? 0) = false) as -> by (apply Z.eqb_neq; lia).
    destruct (IH fuel (pre ++ [c]) dest (<[dest + Z.of_nat (length pre) := c]> m) Hs ltac:(lia)) as (m' & E' & Hr & Ho).
    rewrite <- app_assoc in E'. rewrite length_app in E', Hr, Ho. cbn [length app] in E', Hr, Ho. rewrite Nat2Z.inj_add in E', Hr, Ho.
    change (Z.of_nat 1) with 1 in *. exists m'. split; [exact E'|]. split.
    + apply seg_cons. split; [rewrite Ho by lia; by rewrite lookup_insert_eq|].
      by replace (dest + Z.of_nat (length pre) + 1) with (dest + (Z.of_nat (length pre) + 1)) by lia.
    + intros x Hx. rewrite Ho by lia. by rewrite lookup_insert_ne by lia.
Qed.

(** The text of a number written by [int_to_hex_str]: no leading zeroes. *)
Definition hexadecimal (n : Z) : list Z := if n =? 0 then [48] else hex_temp 8 n true.

(** It denotes the number. *)
Lemma hexadecimal_value n : 0 <= n < 4294967296 -> hex_value 0 (hexadecimal n) = Some n.
Proof.
  intros Hn. unfold hexadecimal. destruct (Z.eqb_spec n 0) as [->|_]; [done|].
  rewrite (hex_temp_value 8 n true 0) by (done || lia). change (16 ^ Z.of_nat 8) with 4294967296. rewrite Z.mod_small by lia. done.
Qed.

Lemma hexadecimal_chars n : 0 <= n -> Forall (fun c => 0 < c < 256) (hexadecimal n) /\ (length (hexadecimal n) <= 8)%nat.
Proof.
  intros Hn. unfold hexadecimal. destruct (n =? 0); [|by apply hex_temp_chars].
  split; [constructor; [lia|constructor]|cbn; lia].
Qed.

(** A single "0" and its terminator. *)
Lemma write_zero dest m : exists m', (wr dest 48 ;; wr (dest + 1) 0)%st m = Some (tt, m') /\ str_at m' dest [48] /\ only m m' dest 2.
Proof.
  eexists. split; [done|]. change (u8 48) with 48. change (u8 0) with 0. split; [split|].
  - apply seg_cons. split; [by rewrite lookup_insert_ne, lookup_insert_eq by lia|].
    apply seg_cons. split; [by rewrite lookup_insert_eq|apply seg_nil].
  - constructor; [lia|constructor].
  - intros x Hx. by rewrite !lookup_insert_ne by lia.
Qed.

(** For every 32-bit number [int_to_hex_str] writes its hexadecimal text, at most
    eight digits and a NUL byte, and changes nothing else. *)
Lemma int_to_hex_str_spec num dest m :
  0 <= num < 4294967296 ->
  exists m', int_to_hex_str num dest m = Some (tt, m') /\ str_at m' dest (hexadecimal num) /\ only m m' dest 9.
Proof.
  intros Hn. unfold int_to_hex_str. destruct (hexadecimal_chars num ltac:(lia)) as [Hc Hl].
  unfold hexadecimal in *. destruct (Z.eqb_spec num 0) as [->|Hne].
  { destruct (write_zero dest m) as (m' & E & Hs & Ho). exists m'. split_and!; [done|done|]. eapply only_mono; [|exact Ho]. lia. }
  destruct (copy_lit_spec (hex_temp 8 num true) (S (length (hex_temp 8 num true))) [] dest m Hc ltac:(lia)) as (m' & E & Hs & Ho).
  cbn [length app] in E, Hs, Ho. change (Z.of_nat 0) with 0 in *. rewrite Z.add_0_r in Hs, Ho.
  set (s := hex_temp 8 num true) in *. clearbody s. exists m'. split; [exact E|]. split; [done|].
  eapply only_mono; [|exact Ho]. lia.
Qed.

(** [uint_to_str] writes the decimal text of every unsigned 32-bit number. *)
Lemma uint_to_str_spec num dest m :
  0 <= num < 4294967296 ->
  exists m', uint_to_str num dest m = Some (tt, m') /\ str_at m' dest (decimal num) /\ only m m' dest 11.
Proof.
  intros Hn. unfold uint_to_str, decimal. destruct (Z.eqb_spec num 0) as [->|Hne].
  { destruct (write_zero dest m) as (m' & E & Hs & Ho). exists m'. split_and!; [done|done|]. eapply only_mono; [|exact Ho]. lia. }
  assert (Hk : 0 <= num < 10 ^ Z.of_nat 32) by (assert (4294967296 < 10 ^ Z.of_nat 32) by done; lia).
  assert (Hlen : (length (digits 32 num) <= 10)%nat).
  { apply digits_length. assert (4294967296 < 10 ^ Z.of_nat 10) by done. lia. }
  destruct (digit_loop_spec 32 num dest 0 m Hk) as (m1 & E & Hs & Ho). rewrite Z.add_0_r in Hs, Ho. rewrite Z.add_0_l in E.
  rewrite (bind_some _ _ _ _ _ E). set (d := digits 32 num) in *.
  assert (Hd : Forall (fun c => 0 < c < 256) d).
  { eapply Forall_impl; [apply digits_digit|]. unfold is_digit. cbn. intros; lia. }
  destruct (Z.ltb_spec num 0); [lia|]. destruct (finish_number d dest m1 Hs Hd) as (m' & E3 & Hr & Hf).
  exists m'. split_and!; [exact E3|exact Hr|]. apply (only_trans _ m1); (eapply only_mono; [|eassumption]); lia.
Qed.

(** ** Theorems *)

(** C23: decimal text round trip.  For every 32-bit number other than the most
    negative one, [int_to_str] writes a NUL-terminated text within twelve bytes
    of the buffer (an optional minus sign and digits without leading zeroes),
    changes nothing else, and [atoi] reads the same number back. *)
Theorem int_to_str_atoi_roundtrip (num dest : Z) m :
  -2147483648 < num < 2147483648 ->
  exists m', int_to_str num dest m = Some (tt, m') /\ str_at m' dest (decimal num) /\ only m m' dest 12 /\
    atoi dest m' = Some (num, m').
Proof.
  intros Hn. destruct (int_to_str_spec num dest m Hn) as (m' & E & Hs & Ho).
  exists m'. split_and!; try done. by apply atoi_decimal.
Qed.

Lemma int_to_str_atoi_roundtrip_witness : exists m', int_to_str (-4093) 100 ∅ = Some (tt, m') /\ atoi 100 m' = Some (-4093, m').
Proof.
  destruct (int_to_str_atoi_roundtrip (-4093) 100 ∅) as (m' & E & _ & _ & Ea); [lia|]. exists m'. split; [exact E|exact Ea].
Defined.

(** The most negative number.  Negating it overflows, every remainder is
    then negative, and the text written has no digit in it at all: "-./,),(-*,("
    stands for -2147483648. *)
Theorem int_to_str_min : exists m' s, int_to_str (-2147483648) 100 ∅ = Some (tt, m') /\
  str_at m' 100 (45 :: s) /\ length s = 10%nat /\ Forall (fun c => ~ is_digit c) s.
Proof.
  destruct (int_to_str (-2147483648) 100 ∅) as [[[] m']|] eqn:E; [|vm_compute in E; discriminate E].
  exists m', [46; 47; 44; 41; 44; 40; 45; 42; 44; 40]. split; [reflexivity|]. split; [|split; [reflexivity|]].
  - vm_compute in E. injection E as <-. split; [|repeat constructor]. do 12 (apply seg_cons; split; [vm_compute; reflexivity|]). apply seg_nil.
  - repeat (constructor; [unfold is_digit; lia|]). constructor.
Qed.

(** [strcmp] decides the order of strings: its result is zero exactly for
    equal strings, negative exactly when the first is lexicographically
    smaller, positive exactly when it is larger; it always returns and changes
    nothing. *)
Theorem strcmp_correct (a b : Z) m s t :
  str_at m a s -> str_at m b t -> exists r, strcmp a b m = Some (r, m) /\ compares r s t.
Proof.
  intros Hs Ht. unfold strcmp, gets, bind. apply strcmp_loop_spec; [done..|].
  destruct Hs as [Hs _]. apply seg_size in Hs. rewrite length_app in Hs. cbn [length] in Hs. unfold str_fuel. lia.
Qed.

Lemma strcmp_correct_witness : exists r, strcmp 0 10 (<[0 := 65]> (<[1 := 0]> (<[10 := 66]> (<[11 := 0]> ∅)))) =
  Some (r, <[0 := 65]> (<[1 := 0]> (<[10 := 66]> (<[11 := 0]> ∅)))) /\ compares r [65] [66].
Proof.
  apply (strcmp_correct 0 10).
  - split; [|constructor; [lia|constructor]]. apply seg_cons. split; [reflexivity|]. apply seg_cons. split; [reflexivity|apply seg_nil].
  - split; [|constructor; [lia|constructor]]. apply seg_cons. split; [reflexivity|]. apply seg_cons. split; [reflexivity|apply seg_nil].
Defined.

Lemma strcat_spec (a b : Z) m s t :
  str_at m a s -> str_at m b t -> Z.of_nat (length s) < MAX_STRING_LEN ->
  (b + Z.of_nat (length t) < a + Z.of_nat (length s) \/ a + Z.of_nat (length s) + Z.of_nat (length t) < b) ->
  exists m', strcat a b m = Some (a, m') /\ str_at m' a (s ++ t) /\
    only m m' (a + Z.of_nat (length s)) (Z.of_nat (length t) + 1).
Proof.
  intros Hs Ht Hl Hd. unfold strcat, strcat_from. unfold gets, bind at 1.
  assert (El : strlen a m = Some (Z.of_nat (length s), m)).
  { unfold strlen. rewrite (strlen_loop_spec s _ a 0 m); [by rewrite Z.add_0_l|by rewrite Z.add_0_r|unfold MAX_STRING_LEN in *; lia]. }
  rewrite (bind_some _ _ _ _ _ El). pose proof Ht as [Htz Ft]. apply seg_size in Htz. rewrite length_app in Htz. cbn [length] in Htz.
  destruct (strcat_loop_spec t (str_fuel m) b (a + Z.of_nat (length s)) 0 m) as (m' & E & Hr & Ho);
    [by rewrite Z.add_0_r|unfold str_fuel; lia|lia|].
  rewrite (bind_some _ _ _ _ _ E). rewrite Z.add_0_r in Hr, Ho. exists m'. split; [done|]. split; [|done].
  destruct Hs as [Hs Fs]. split; [|by apply Forall_app]. rewrite <- app_assoc. apply seg_app. split; [|done].
  apply seg_app in Hs as [Hs _]. apply (seg_same m); [|done]. intros x Hx. apply Ho. lia.
Qed.

(** Concatenation.  When the destination holds a string shorter than
    [MAX_STRING_LEN] and the second string lies outside the bytes written,
    [strcat] leaves their concatenation in the destination, returns it, and
    changes only the bytes from the old terminator to the new one. *)
Theorem strcat_correct (a b : Z) m s t :
  str_at m a s -> str_at m b t -> Z.of_nat (length s) < MAX_STRING_LEN ->
  (b + Z.of_nat (length t) < a + Z.of_nat (length s) \/ a + Z.of_nat (length s) + Z.of_nat (length t) < b) ->
  exists m', strcat a b m = Some (a, m') /\ str_at m' a (s ++ t) /\
    only m m' (a + Z.of_nat (length s)) (Z.of_nat (length t) + 1).
Proof. apply strcat_spec. Qed.

Lemma strcat_correct_witness : exists m', strcat 0 10 (<[0 := 65]> (<[1 := 0]> (<[10 := 66]> (<[11 := 0]> ∅)))) = Some (0, m') /\
  str_at m' 0 [65; 66].
Proof.
  destruct (strcat_correct 0 10 (<[0 := 65]> (<[1 := 0]> (<[10 := 66]> (<[11 := 0]> ∅)))) [65] [66]) as (m' & E & Hs & _).
  - split; [|constructor; [lia|constructor]]. apply seg_cons. split; [reflexivity|]. apply seg_cons. split; [reflexivity|apply seg_nil].
  - split; [|constructor; [lia|constructor]]. apply seg_cons. split; [reflexivity|]. apply seg_cons. split; [reflexivity|apply seg_nil].
  - reflexivity.
  - right. cbn. lia.
  - exists m'. split; [exact E|exact Hs].
Defined.

(** The number a sign and digits stand for. *)
Definition signed_value (sign l : list Z) : Z := if decide (sign = [45]) then - value 0 l else value 0 l.

(** C24: [atoi] on any number of digits.  With an optional sign in front, the
    result is the number modulo 2^32, read as a signed [int]; it is the number
    itself exactly when that fits. *)
Theorem atoi_wraps (sign l : list Z) (str : Z) m :
  sign = [] \/ sign = [45] \/ sign = [43] -> l <> [] -> Forall is_digit l -> seg m str (sign ++ l ++ [0]) ->
  exists r, atoi str m = Some (r, m) /\ -2147483648 <= r < 2147483648 /\ (r - signed_value sign l) mod 4294967296 = 0 /\
    (r = signed_value sign l <-> -2147483648 <= signed_value sign l < 2147483648).
Proof.
  intros Hsg Hne Hd Hs. exists (i32 (signed_value sign l)). assert (Hrange : forall x, -2147483648 <= i32 x < 2147483648).
  { intros x. unfold i32. pose proof (u32_range x). destruct (Z.ltb_spec (u32 x) 2147483648); lia. }
  split; [|split; [apply Hrange|split]].
  - pose proof (seg_size _ _ _ Hs) as Hsz. rewrite !length_app in Hsz. cbn [length] in Hsz. unfold atoi, signed_value. assert (Hf : (length l < str_fuel m)%nat) by (unfold str_fuel; lia).
    assert (Hrun : forall i, seg m (str + i) (l ++ [0]) -> atoi_loop (str_fuel m) str i 0 m = Some (i32 (value 0 l), m)) by (intros i Hi; exact (atoi_loop_wraps l (str_fuel m) str i 0 m Hi Hd Hf)).
    destruct Hsg as [-> | [-> | ->]]; cbn [app] in Hs.
    + destruct l as [|c l]; [done|]. pose proof (proj1 (proj1 (seg_cons _ _ _ _) Hs)) as Ec. rewrite (bind_some _ _ _ _ _ (rd_some _ _ _ Ec)).
      apply Forall_cons in Hd as Hd'. destruct Hd' as [Hc _]. unfold is_digit in Hc.
      assert ((c =? 45) = false /\ (c =? 43) = false) as [-> ->] by (split; apply Z.eqb_neq; lia). unfold bind at 1, gets. cbv zeta.
      rewrite (bind_some _ _ _ _ _ (Hrun 0 ltac:(by rewrite Z.add_0_r))).
      unfold ret. do 2 f_equal. pose proof (i32_mul_add (value 0 (c :: l)) 1 0) as E. rewrite !Z.mul_1_r, !Z.add_0_r in E. by rewrite Z.mul_1_l.
    + apply seg_cons in Hs as [Em Hs]. rewrite (bind_some _ _ _ _ _ (rd_some _ _ _ Em)). change (45 =? 45) with true. unfold bind at 1, gets. cbv zeta.
      rewrite (bind_some _ _ _ _ _ (Hrun 1 Hs)). unfold ret. do 2 f_equal.
      pose proof (i32_mul_add (value 0 l) (-1) 0) as E. rewrite !Z.add_0_r in E. rewrite Z.mul_comm, E, decide_True by done. f_equal. lia.
    + apply seg_cons in Hs as [Em Hs]. rewrite (bind_some _ _ _ _ _ (rd_some _ _ _ Em)). change (43 =? 45) with false. change (43 =? 43) with true.
      unfold bind at 1, gets. cbv zeta. rewrite (bind_some _ _ _ _ _ (Hrun 1 Hs)). unfold ret. do 2 f_equal.
      pose proof (i32_mul_add (value 0 l) 1 0) as E. rewrite !Z.mul_1_r, !Z.add_0_r in E. by rewrite Z.mul_1_l.
  - pose proof (u32_i32 (signed_value sign l)) as E. unfold u32 in E. rewrite Zminus_mod, E, Z.sub_diag. done.
  - split; [intros <-; apply Hrange|apply i32_small].
Qed.

(** The text of 4294967297 reads as 1. *)
Lemma atoi_wraps_witness : exists m, atoi 0 m = Some (1, m).
Proof.
  exists (list_to_map (zip (seqZ 0 11) [52; 50; 57; 52; 57; 54; 55; 50; 57; 55; 0])).
  destruct (atoi_wraps [] [52; 50; 57; 52; 57; 54; 55; 50; 57; 55] 0 (list_to_map (zip (seqZ 0 11) [52; 50; 57; 52; 57; 54; 55; 50; 57; 55; 0])))
    as (r & E & Hr & Hm & _).
  - by left.
  - discriminate.
  - repeat constructor; unfold is_digit; lia.
  - intros i c Ei. do 11 (destruct i as [|i]; [injection Ei as <-; reflexivity|]). discriminate Ei.
  - rewrite E. do 2 f_equal. change (signed_value [] [52; 50; 57; 52; 57; 54; 55; 50; 57; 55]) with 4294967297 in Hm.
    apply Z.mod_divide in Hm; [|lia]. destruct Hm as [z Hz]. lia.
Defined.
