(* ===== verification/SprintfSpec.v ===== *)
(** * sprintf against a reference formatter

    [format] is printf on lists: a structural recursion over the characters of
    the format string that reads an optional field width and one conversion
    character after each '%'.  The theorem states that [sprintf], which works on
    memory with three running indices, leaves exactly that text. *)

From stdpp Require Import base numbers list gmap.
From Stdlib Require Import ZArith Lia.
From S2P Require Import Prelude CString CStringSpec.

#[local] Open Scope Z_scope.

Implicit Types (m : bytes) (l s t : list Z).

(** ** The reference *)

(** A text filled up with zeroes on the left. *)
Definition padded (padding : Z) s : list Z := replicate (Z.to_nat (padding - Z.of_nat (length s))) 48 ++ s.

Section Reference.
  (** The strings behind the pointers among the arguments. *)
  Context (string_at : Z -> option (list Z)).

(** The text of one conversion and the arguments that are left.  The most
    negative number has no decimal text (see [int_to_str_min]). *)
Definition conversion (c padding : Z) (args : list Z) : option (list Z * list Z) :=
  if c =? 115 then
    match args with a :: r => (fun s => (padded padding s, r)) <$> string_at a | [] => None end
  else if c =? 100 then
    match args with a :: r => if i32 a =? -2147483648 then None else Some (padded padding (decimal (i32 a)), r) | [] => None end
  else if c =? 117 then
    match args with a :: r => Some (padded padding (decimal (u32 a)), r) | [] => None end
  else if c =? 120 then
    match args with a :: r => Some (padded padding (hexadecimal (u32 a)), r) | [] => None end
  else if c =? 99 then
    match args with a :: r => Some (padded padding [u8 a], r) | [] => None end
  else Some ([c], args).

Definition digit_char (c : Z) : bool := (48 <=? c) && (c <=? 57).

(** [width] is the field width read so far inside a conversion.  A format that
    ends inside a conversion has no result. *)
Fixpoint format (f : list Z) (width : option Z) (args : list Z) : option (list Z) :=
  match f with
  | [] => match width with None => Some [] | Some _ => None end
  | c :: r =>
      match width with
      | None => if c =? 37 then format r (Some 0) args else (c ::.) <$> format r None args
      | Some p =>
          if digit_char c then format r (Some (i32 (p * 10 + (c - 48)))) args
          else match conversion c p args with
               | Some (out, args') => (out ++.) <$> format r None args'
               | None => None
               end
      end
  end.

End Reference.

(** ** What the loops write *)

Section Sprintf.
  (** The destination, its room, the format string and the string arguments. *)
  Context (dest room fmt : Z) (string_at : Z -> option (list Z)).

(** [f] appends [l] at index [di] of the destination. *)
Definition appends (f : ST bytes Z) m (di : Z) l : Prop :=
  exists m', f m = Some (di + Z.of_nat (length l), m') /\ seg m' (dest + di) l /\ only m m' (dest + di) (Z.of_nat (length l)).

Lemma appends_nil m di : appends (ret di) m di [].
Proof using. exists m. cbn. split_and!; [by rewrite Z.add_0_r|apply seg_nil|done]. Qed.

Lemma only_step m m' a n c : 0 <= n -> only (<[a := c]> m) m' (a + 1) n -> only m m' a (n + 1).
Proof using. intros Hn Ho x Hx. rewrite Ho by lia. by rewrite lookup_insert_ne by lia. Qed.

(** One character, then the rest. *)
Lemma appends_cons f g m di c l :
  f m = g (<[dest + di := c]> m) -> appends g (<[dest + di := c]> m) (di + 1) l -> appends f m di (c :: l).
Proof using.
  intros Ef (m' & E & Hs & Ho). replace (dest + (di + 1)) with (dest + di + 1) in Hs, Ho by lia. exists m'. cbn [length]. split_and!.
  - rewrite Ef, E. do 2 f_equal. lia.
  - apply seg_cons. split; [|done]. rewrite Ho by lia. by rewrite lookup_insert_eq.
  - replace (Z.of_nat (S (length l))) with (Z.of_nat (length l) + 1) by lia. by apply only_step with c; [lia|].
Qed.

(** Two appending steps in sequence. *)
Lemma appends_bind f (g : Z -> ST bytes Z) m di l1 l2 :
  appends f m di l1 ->
  (forall m1, only m m1 (dest + di) (Z.of_nat (length l1)) -> appends (g (di + Z.of_nat (length l1))) m1 (di + Z.of_nat (length l1)) l2) ->
  appends (bind f g) m di (l1 ++ l2).
Proof using.
  intros (m1 & E1 & Hs1 & Ho1) Hg. destruct (Hg m1 Ho1) as (m2 & E2 & Hs2 & Ho2).
  replace (dest + (di + Z.of_nat (length l1))) with (dest + di + Z.of_nat (length l1)) in Hs2, Ho2 by lia.
  exists m2. rewrite length_app, Nat2Z.inj_add. split_and!.
  - st_step E1. rewrite E2. do 2 f_equal. lia.
  - apply seg_app. split; [|done]. apply (seg_same m1); [|done]. intros x Hx. apply Ho2. lia.
  - intros x Hx. rewrite Ho2, Ho1 by lia. done.
Qed.

Lemma fill_appends c n : 0 <= c < 256 -> forall m di, appends (fill_buffer n dest di c) m di (replicate n c).
Proof using.
  intros Hc. induction n as [|n IH]; intros m di; [apply appends_nil|]. cbn [replicate]. eapply appends_cons; [|apply IH].
  cbn [fill_buffer]. by rewrite (bind_some _ _ _ _ _ (wr_run _ _ _)), u8_small by done.
Qed.

(** The zeroes in front of a text. *)
Lemma pad_appends padding (len : nat) m di :
  appends (if Z.of_nat len <? padding then fill_buffer (Z.to_nat (padding - Z.of_nat len)) dest di 48 else ret di) m di
    (replicate (Z.to_nat (padding - Z.of_nat len)) 48).
Proof using.
  destruct (Z.ltb_spec (Z.of_nat len) padding); [apply fill_appends; lia|].
  replace (Z.to_nat (padding - Z.of_nat len)) with 0%nat by lia. apply appends_nil.
Qed.

(** A reader that yields the characters of [s] at [p] while only the destination
    changes. *)
Definition reads (g : Z -> ST bytes Z) m (p di : Z) s : Prop :=
  forall m', only m m' (dest + di) (Z.of_nat (length s)) -> forall i c, (s ++ [0]) !! i = Some c -> g (p + Z.of_nat i) m' = Some (c, m').

Lemma emit_appends s : forall fuel g p m di,
  Forall (fun c => 0 < c < 256) s -> (length s < fuel)%nat -> reads g m p di s -> appends (emit_loop fuel g p dest di) m di s.
Proof using.
  induction s as [|c s IH]; intros [|fuel] g p m di Hs Hf Hr; cbn in Hf; try lia.
  - pose proof (Hr m ltac:(done) 0%nat 0 eq_refl) as E. rewrite Z.add_0_r in E. destruct (appends_nil m di) as (m' & E' & H).
    exists m'. split; [|done]. cbn [emit_loop]. by st_step E.
  - apply Forall_cons in Hs as [Hc Hs]. eapply appends_cons.
    + pose proof (Hr m ltac:(done) 0%nat c eq_refl) as Ec. rewrite Z.add_0_r in Ec.
      cbn [emit_loop]. st_step Ec. destruct (Z.eqb_spec c 0); [lia|].
      rewrite (bind_some _ _ _ _ _ (wr_run _ _ _)), u8_small by lia. reflexivity.
    + apply IH; [done|lia|].
      intros m' Ho i d Ei. replace (p + 1 + Z.of_nat i) with (p + Z.of_nat (S i)) by lia. apply Hr; [|done].
      cbn [length]. replace (Z.of_nat (S (length s))) with (Z.of_nat (length s) + 1) by lia. apply only_step with c; [lia|].
      by replace (dest + di + 1) with (dest + (di + 1)) by lia.
Qed.

Lemma strlen_spec a m s : str_at m a s -> Z.of_nat (length s) < MAX_STRING_LEN -> strlen a m = Some (Z.of_nat (length s), m).
Proof using.
  intros Hs Hl. unfold strlen. rewrite (strlen_loop_spec s _ a 0 m); [by rewrite Z.add_0_l|by rewrite Z.add_0_r|].
  unfold MAX_STRING_LEN in *. lia.
Qed.

(** The characters of a conversion buffer. *)
Lemma num_appends num padding m di s :
  str_at num 0 s -> (length s <= 32)%nat -> appends (emit_num num padding dest di) m di (padded padding s).
Proof using.
  intros Hs Hl. unfold emit_num. rewrite (strlen_spec 0 num s Hs) by (unfold MAX_STRING_LEN; lia).
  apply appends_bind; [apply pad_appends|]. intros m1 _. apply emit_appends; [apply Hs|lia|].
  intros m' _ i c E. rewrite Z.add_0_l. pose proof (proj1 Hs i c E) as En. rewrite Z.add_0_l in En. unfold deref. by rewrite En.
Qed.

(** A conversion of a number. *)
Lemma conv_appends (f : ST bytes unit) padding m di s :
  (exists num, f num_buffer = Some (tt, num) /\ str_at num 0 s) -> (length s <= 32)%nat ->
  appends (num <- on_num f ;; emit_num num padding dest di)%st m di (padded padding s).
Proof using.
  intros (num & E & Hs) Hl. destruct (num_appends num padding m di s Hs Hl) as (m' & E' & H). exists m'. split; [|done].
  unfold on_num. by rewrite E.
Qed.

(** The characters of memory the loops read stay outside the destination. *)
Definition away (a n : Z) : Prop := a + n <= dest \/ dest + room <= a.

Lemma seg_away m m' a l di n :
  seg m a l -> away a (Z.of_nat (length l)) -> 0 <= di -> di + n <= room -> only m m' (dest + di) n -> seg m' a l.
Proof using. intros Hs Ha Hd Hn Ho. apply (seg_same m); [|done]. intros x Hx. apply Ho. unfold away in Ha. lia. Qed.

Lemma literal_appends l : forall p m di,
  seg m (fmt + p) l -> byte_list l -> away (fmt + p) (Z.of_nat (length l)) -> 0 <= di -> di + Z.of_nat (length l) <= room ->
  appends (copy_literal (length l) fmt p dest di) m di l.
Proof using.
  induction l as [|c l IH]; intros p m di Hs Hb Ha Hd Hr; cbn [length] in *; [apply appends_nil|].
  apply seg_cons in Hs as [Ec Hs]. apply Forall_cons in Hb as [Hc Hb]. eapply appends_cons.
  - cbn [copy_literal]. rewrite (bind_some _ _ _ _ _ (rd_some _ _ _ Ec)).
    rewrite (bind_some _ _ _ _ _ (wr_run _ _ _)), u8_small by done. reflexivity.
  - apply IH; [|done|unfold away in *; lia|lia|lia].
    replace (fmt + (p + 1)) with (fmt + p + 1) by lia. apply seg_insert; [|done]. unfold away in Ha. lia.
Qed.

(** ** One conversion *)

(** The string arguments are in memory, shorter than the limit of [strlen]. *)
Definition strings_in m : Prop := forall a s, string_at a = Some s ->
  str_at m a s /\ Z.of_nat (length s) < MAX_STRING_LEN /\ away a (Z.of_nat (length s) + 1).

Lemma strings_away m m' di n : strings_in m -> 0 <= di -> di + n <= room -> only m m' (dest + di) n -> strings_in m'.
Proof using.
  intros Hm Hd Hn Ho a s E. destruct (Hm a s E) as ((Hs & Hc) & Hl & Ha). split_and!; try done. split; [|done].
  eapply seg_away; [done| |done..]. rewrite length_app. cbn [length]. by replace (Z.of_nat (length s + 1)) with (Z.of_nat (length s) + 1) by lia.
Qed.

Lemma i32_range x : -2147483648 <= i32 x < 2147483648.
Proof using. unfold i32. pose proof (u32_range x). destruct (Z.ltb_spec (u32 x) 2147483648); lia. Qed.

(** The %s conversion. *)
Lemma string_appends a s padding m di :
  string_at a = Some s -> strings_in m -> 0 <= di -> di + Z.of_nat (length (padded padding s)) <= room ->
  appends (length <- strlen a ;;
           dest_index <- (if length <? padding then fill_buffer (Z.to_nat (padding - length)) dest di 48 else ret di) ;;
           fuel <- gets str_fuel ;; emit_loop fuel rd a dest dest_index)%st m di (padded padding s).
Proof using.
  intros E Hm Hd Hr. destruct (Hm a s E) as (Hs & Hl & Ha). pose proof (strlen_spec a m s Hs Hl) as El.
  unfold padded in *. rewrite length_app, length_replicate in Hr.
  set (k := Z.to_nat (padding - Z.of_nat (length s))) in *.
  assert (HA : appends (dest_index <- (if Z.of_nat (length s) <? padding then fill_buffer (Z.to_nat (padding - Z.of_nat (length s))) dest di 48 else ret di) ;;
           fuel <- gets str_fuel ;; emit_loop fuel rd a dest dest_index)%st m di (replicate k 48 ++ s)).
  { apply appends_bind; [apply pad_appends|]. rewrite length_replicate. intros m1 Ho.
    destruct (strings_away m m1 di (Z.of_nat k) Hm Hd ltac:(lia) Ho a s E) as (Hs1 & _).
    assert (Hf : (length s < str_fuel m1)%nat).
    { destruct Hs1 as [Hs1 _]. apply seg_size in Hs1. rewrite length_app in Hs1. cbn in Hs1. unfold str_fuel. lia. }
    destruct (emit_appends s (str_fuel m1) rd a m1 (di + Z.of_nat k) (proj2 Hs) Hf) as (m2 & E2 & H2); [|by exists m2].
    intros m' Ho' i c Ei. apply rd_some. apply (seg_away m1 m' a (s ++ [0]) (di + Z.of_nat k) (Z.of_nat (length s))); try lia; try done; [apply Hs1|].
    rewrite length_app. cbn [length]. by replace (Z.of_nat (length s + 1)) with (Z.of_nat (length s) + 1) by lia. }
  destruct HA as (m' & E' & H). exists m'. split; [|done]. by st_step El.
Qed.

(** The result of one conversion: the new index and the arguments left. *)
Definition converts (f : ST bytes (Z * list Z)) m (di : Z) l (args : list Z) : Prop :=
  exists m', f m = Some ((di + Z.of_nat (length l), args), m') /\ seg m' (dest + di) l /\ only m m' (dest + di) (Z.of_nat (length l)).

Lemma converts_intro f (g : ST bytes (Z * list Z)) m di l args :
  appends f m di l -> g m = (di' <- f ;; ret (di', args))%st m -> converts g m di l args.
Proof using. intros (m' & E & H) Eg. exists m'. split; [|done]. rewrite Eg. by st_step E. Qed.

Lemma int_conv x : i32 x <> -2147483648 -> exists num, int_to_str (i32 x) 0 num_buffer = Some (tt, num) /\ str_at num 0 (decimal (i32 x)).
Proof using.
  intros Hx. pose proof (i32_range x). destruct (int_to_str_spec (i32 x) 0 num_buffer) as (num & E & Hs & _); [lia|]. by exists num.
Qed.

Lemma decimal_width n : -2147483648 < n < 4294967296 -> (length (decimal n) <= 32)%nat.
Proof using.
  intros Hn. unfold decimal. assert (4294967296 < 10 ^ Z.of_nat 10) by done. destruct (n =? 0); [cbn; lia|].
  destruct (Z.ltb_spec n 0); cbn [length]; rewrite length_rev; [pose proof (digits_length 32 (- n) 10)|pose proof (digits_length 32 n 10)]; lia.
Qed.

(** Each conversion appends what the reference says. *)
Lemma convert_spec c padding args m di out rest :
  0 < c < 256 -> conversion string_at c padding args = Some (out, rest) -> strings_in m -> 0 <= di -> di + Z.of_nat (length out) <= room ->
  converts (convert c padding dest di args) m di out rest.
Proof using.
  intros Hc E Hm Hd Hr. unfold conversion in E. unfold convert.
  destruct (c =? 115).
  { destruct args as [|a r]; [discriminate E|]. destruct (string_at a) as [s|] eqn:Es; [|discriminate E]. injection E as <- <-.
    eapply converts_intro; [by apply (string_appends a s padding)|]. cbn [head deref tail]. rewrite bind_ret.
    unfold bind. destruct (strlen a m) as [[n m1]|]; [|done]. set (X := if n <? padding then _ else _). by destruct (X m1) as [[d m2]|]. }
  destruct (c =? 100).
  { destruct args as [|a r]; [discriminate E|]. destruct (Z.eqb_spec (i32 a) (-2147483648)); [discriminate E|]. injection E as <- <-.
    eapply converts_intro; [apply conv_appends; [by apply int_conv|apply decimal_width; pose proof (i32_range a); lia]|].
    cbn [head deref tail]. by rewrite bind_ret, bind_assoc. }
  destruct (c =? 117).
  { destruct args as [|a r]; [discriminate E|]. injection E as <- <-. pose proof (u32_range a).
    eapply converts_intro; [apply conv_appends; [|apply decimal_width; lia]|cbn [head deref tail]; by rewrite bind_ret, bind_assoc].
    destruct (uint_to_str_spec (u32 a) 0 num_buffer) as (num & E & Hs & _); [done|by exists num]. }
  destruct (c =? 120).
  { destruct args as [|a r]; [discriminate E|]. injection E as <- <-. pose proof (u32_range a). destruct (hexadecimal_chars (u32 a)) as [_ Hl]; [lia|].
    eapply converts_intro; [apply conv_appends; [|lia]|cbn [head deref tail]; by rewrite bind_ret, bind_assoc].
    destruct (int_to_hex_str_spec (u32 a) 0 num_buffer) as (num & E & Hs & _); [done|by exists num]. }
  destruct (c =? 99).
  { destruct args as [|a r]; [discriminate E|]. injection E as <- <-. cbn [head deref tail].
    eapply (converts_intro (bind _ (fun d => wr (dest + d) a ;; ret (d + 1))%st)).
    - apply (appends_bind _ _ _ _ _ [u8 a]); [apply (pad_appends padding 1)|]. intros m1 _. rewrite length_replicate.
      eapply (appends_cons _ (ret _)); [rewrite (bind_some _ _ _ _ _ (wr_run _ _ _)); reflexivity|apply appends_nil].
    - change (Z.of_nat 1) with 1. rewrite <- bind_assoc. unfold bind. set (X := if 1 <? padding then _ else _). destruct (X m) as [[d m1]|]; reflexivity. }
  injection E as <- <-. eapply (converts_intro (wr (dest + di) c ;; ret (di + 1))%st); [|done].
  eapply (appends_cons _ (ret _)); [|apply appends_nil]. rewrite (bind_some _ _ _ _ _ (wr_run _ _ _)), u8_small by lia. done.
Qed.

(** ** The loop *)

Lemma digit_test c : 0 < c < 256 -> (48 <=? schar c) && (schar c <=? 57) = digit_char c.
Proof using. intros Hc. unfold schar, digit_char. destruct (Z.ltb_spec c 128); [done|]. bool_cases. Qed.

(** The field width and the conversion character after a '%'. *)
Lemma padding_spec f : forall fuel idx p args out m,
  seg m (fmt + idx) (f ++ [0]) -> Forall (fun c => 0 < c < 256) f -> format string_at f (Some p) args = Some out -> (length f < fuel)%nat ->
  exists k c r pad o args' out', f = k ++ c :: r /\ padding_loop fuel fmt idx p m = Some ((idx + Z.of_nat (length k), pad), m) /\
    conversion string_at c pad args = Some (o, args') /\ format string_at r None args' = Some out' /\ out = o ++ out'.
Proof using.
  induction f as [|c f IH]; intros [|fuel] idx p args out m Hs Hb E Hf; cbn [length] in Hf; try lia; [discriminate E|].
  apply seg_cons in Hs as [Ec Hs]. apply Forall_cons in Hb as [Hc Hb]. cbn [format] in E. cbn [padding_loop].
  rewrite (bind_some _ _ _ _ _ (rd_some _ _ _ Ec)), digit_test by done. destruct (digit_char c) eqn:Ed.
  - destruct (IH fuel (idx + 1) (i32 (p * 10 + (c - 48))) args out m) as (k & d & r & pad & o & args' & out' & -> & Ep & H);
      [by replace (fmt + (idx + 1)) with (fmt + idx + 1) by lia|done|done|lia|].
    exists (c :: k), d, r, pad, o, args', out'. split; [done|]. split; [|done]. rewrite Ep. cbn [length]. do 3 f_equal. lia.
  - destruct (conversion string_at c p args) as [[o args']|] eqn:Ev; [|discriminate E].
    destruct (format string_at f None args') as [out'|] eqn:Ef; [|discriminate E]. injection E as <-.
    exists [], c, f, p, o, args', out'. cbn [length]. rewrite Z.add_0_r. by split_and!.
Qed.

(** What the loop has done when it ends: [w] is written, [q] is left to copy. *)
Definition loop_result m (processed di : Z) (out : list Z) (r : option (Z * Z * Z * bytes)) : Prop :=
  exists q w p' m', r = Some ((p' + Z.of_nat (length q), p', di + Z.of_nat (length w)), m') /\ w ++ q = out /\
    seg m' (fmt + p') q /\ byte_list q /\ away (fmt + p') (Z.of_nat (length q)) /\
    seg m' (dest + di) w /\ only m m' (dest + di) (Z.of_nat (length w)).

(** Text written before the rest of the loop. *)
Lemma loop_result_after m m1 p0 p1 di l out r :
  seg m1 (dest + di) l -> only m m1 (dest + di) (Z.of_nat (length l)) ->
  loop_result m1 p1 (di + Z.of_nat (length l)) out r -> loop_result m p0 di (l ++ out) r.
Proof using.
  intros Hs Ho (q & w & p' & m' & E & <- & Hq & Hb & Ha & Hw & Hwo).
  replace (dest + (di + Z.of_nat (length l))) with (dest + di + Z.of_nat (length l)) in * by lia.
  exists q, (l ++ w), p', m'. rewrite length_app, Nat2Z.inj_add. split_and!; try done.
  - rewrite E. do 3 f_equal. lia.
  - by rewrite app_assoc.
  - apply seg_app. split; [|done]. apply (seg_same m1); [|done]. intros x Hx. apply Hwo. lia.
  - intros x Hx. rewrite Hwo, Ho by lia. done.
Qed.

(** The hypotheses on the rest [f] of the format string at index [idx]. *)
Record rest_ok m (idx : Z) (f : list Z) : Prop := RestOk {
  rest_seg : seg m (fmt + idx) (f ++ [0]);
  rest_chars : Forall (fun c => 0 < c < 256) f;
  rest_away : away (fmt + idx) (Z.of_nat (length f) + 1)
}.

Lemma rest_tail m idx c f : rest_ok m idx (c :: f) -> m !! (fmt + idx) = Some c /\ 0 < c < 256 /\ rest_ok m (idx + 1) f.
Proof using.
  intros [Hs Hb Ha]. cbn [app] in Hs. apply seg_cons in Hs as [E Hs]. apply Forall_cons in Hb as [Hc Hb]. cbn [length] in Ha.
  split_and!; [done|lia|lia|]. split; [by replace (fmt + (idx + 1)) with (fmt + idx + 1) by lia|done|unfold away in *; lia].
Qed.

Lemma rest_skip m k : forall idx f, rest_ok m idx (k ++ f) -> rest_ok m (idx + Z.of_nat (length k)) f.
Proof using.
  induction k as [|c k IH]; intros idx f HR; cbn [length]; [by rewrite Z.add_0_r|].
  destruct (rest_tail _ _ _ _ HR) as (_ & _ & HR'). replace (idx + Z.of_nat (S (length k))) with (idx + 1 + Z.of_nat (length k)) by lia.
  by apply IH.
Qed.

Lemma rest_only m m' idx f di n : rest_ok m idx f -> 0 <= di -> di + n <= room -> only m m' (dest + di) n -> rest_ok m' idx f.
Proof using.
  intros [Hs Hb Ha] Hd Hn Ho. split; [|done|done]. apply (seg_away m m' (fmt + idx) (f ++ [0]) di n); try done.
  rewrite length_app. cbn [length]. by replace (Z.of_nat (length f + 1)) with (Z.of_nat (length f) + 1) by lia.
Qed.

(** The literal text [p] at [proc], seen but not yet copied. *)
Record pending m (proc : Z) (p : list Z) : Prop := Pending {
  pend_seg : seg m (fmt + proc) p;
  pend_bytes : byte_list p;
  pend_away : away (fmt + proc) (Z.of_nat (length p))
}.

Lemma loop_end fuel p proc di args m :
  pending m proc p -> rest_ok m (proc + Z.of_nat (length p)) [] ->
  loop_result m proc di (p ++ []) (sprintf_loop (S fuel) dest fmt (proc + Z.of_nat (length p)) proc di args m).
Proof using.
  intros [Hs Hb Ha] [H0 _ _]. apply seg_cons in H0 as [E0 _]. cbn [sprintf_loop]. rewrite (bind_some _ _ _ _ _ (rd_some _ _ _ E0)).
  exists p, [], proc, m. cbn. rewrite Z.add_0_r. split_and!; try done; by rewrite app_nil_r.
Qed.

(** A conversion: the pending text and the text of the conversion are written,
    and the loop goes on behind the conversion character. *)
Lemma loop_percent fuel f p proc di args out m :
  pending m proc p -> rest_ok m (proc + Z.of_nat (length p)) (37 :: f) -> format string_at f (Some 0) args = Some out ->
  strings_in m -> 0 <= di -> di + Z.of_nat (length (p ++ out)) <= room ->
  exists r o args' out' np m', (length r < length f)%nat /\ out = o ++ out' /\ format string_at r None args' = Some out' /\
    sprintf_loop (S fuel) dest fmt (proc + Z.of_nat (length p)) proc di args m =
      sprintf_loop fuel dest fmt np np (di + Z.of_nat (length (p ++ o))) args' m' /\
    seg m' (dest + di) (p ++ o) /\ only m m' (dest + di) (Z.of_nat (length (p ++ o))) /\ rest_ok m' np r /\ strings_in m'.
Proof using.
  intros [Hp Hpb Hpa] HR E Hm Hd Hr. destruct (rest_tail _ _ _ _ HR) as (Ec & _ & HR'). rewrite length_app in Hr.
  destruct (literal_appends p proc m di Hp Hpb Hpa Hd ltac:(lia)) as (m1 & E1 & Hs1 & Ho1).
  pose proof (rest_only m m1 _ _ di (Z.of_nat (length p)) HR' Hd ltac:(lia) Ho1) as HR1.
  pose proof (strings_away m m1 di (Z.of_nat (length p)) Hm Hd ltac:(lia) Ho1) as Hm1.
  assert (Hfu : (length f < str_fuel m1)%nat).
  { pose proof (seg_size _ _ _ (rest_seg _ _ _ HR1)) as Hz. rewrite length_app in Hz. cbn in Hz. unfold str_fuel. lia. }
  destruct (padding_spec f (str_fuel m1) _ 0 args out m1 (rest_seg _ _ _ HR1) (rest_chars _ _ _ HR1) E Hfu)
    as (k & d & r & pad & o & args' & out' & -> & Ep & Ev & Ef & ->). rewrite length_app in Hr.
  pose proof (rest_skip _ _ _ _ HR1) as HR2. destruct (rest_tail _ _ _ _ HR2) as (Ecd & Hcd & HR3).
  destruct (convert_spec d pad args m1 (di + Z.of_nat (length p)) o args' Hcd Ev Hm1 ltac:(lia) ltac:(lia)) as (m2 & E2 & Hs2 & Ho2).
  eexists r, o, args', out', _, m2. split_and!; [rewrite length_app; cbn; lia|done|done| | | | |].
  - cbn [sprintf_loop]. rewrite (bind_some _ _ _ _ _ (rd_some _ _ _ Ec)). change (37 =? 0) with false. change (37 =? 37) with true. cbv iota.
    replace (Z.to_nat (proc + Z.of_nat (length p) - proc)) with (length p) by lia. st_step E1. rewrite (bind_some _ _ _ _ _ (gets_run _ _)).
    st_step Ep. cbn [fst snd]. rewrite (bind_some _ _ _ _ _ (rd_some _ _ _ Ecd)). st_step E2. cbn [fst snd].
    rewrite length_app, Nat2Z.inj_add, Z.add_assoc. reflexivity.
  - apply seg_app. split; [|by rewrite <- Z.add_assoc]. apply (seg_same m1); [|done]. intros x Hx. apply Ho2. lia.
  - intros x Hx. rewrite length_app in Hx. rewrite Ho2, Ho1 by lia. done.
  - apply (rest_only m1 m2 _ _ (di + Z.of_nat (length p)) (Z.of_nat (length o))); [done|lia|lia|done].
  - apply (strings_away m1 m2 (di + Z.of_nat (length p)) (Z.of_nat (length o))); [done|lia|lia|done].
Qed.

Lemma loop_spec n : forall f p fuel proc di args out m,
  (length f <= n)%nat -> (length f < fuel)%nat -> pending m proc p -> rest_ok m (proc + Z.of_nat (length p)) f ->
  format string_at f None args = Some out -> strings_in m -> 0 <= di -> di + Z.of_nat (length (p ++ out)) <= room ->
  loop_result m proc di (p ++ out) (sprintf_loop fuel dest fmt (proc + Z.of_nat (length p)) proc di args m).
Proof using.
  induction n as [|n IH]; intros [|c f] p [|fuel] proc di args out m Hn Hf HP HR E Hm Hd Hr; cbn [length] in *; try lia;
    [injection E as <-; by apply loop_end..|]. cbn [format] in E. destruct (Z.eqb_spec c 37) as [->|Hne].
  - destruct (loop_percent fuel f p proc di args out m HP HR E Hm Hd Hr)
      as (r & o & args' & out' & np & m' & Hl & -> & Ef & -> & Hs & Ho & HR' & Hm').
    rewrite app_assoc in Hr |- *. rewrite length_app in Hr. apply (loop_result_after m m' proc np); [done|done|].
    pose proof (IH r [] fuel np (di + Z.of_nat (length (p ++ o))) args' out' m') as IH'. cbn [app length] in IH'. rewrite Z.add_0_r in IH'.
    apply IH'; try lia; try done. split; [apply seg_nil|constructor|]. destruct HR' as [_ _ Ha]. unfold away in *. cbn [length]. lia.
  - destruct (format string_at f None args) as [out'|] eqn:Ef; [|discriminate E]. injection E as <-.
    destruct (rest_tail _ _ _ _ HR) as (Ec & Hc & HR'). cbn [sprintf_loop]. rewrite (bind_some _ _ _ _ _ (rd_some _ _ _ Ec)).
    destruct (Z.eqb_spec c 0); [lia|]. destruct (Z.eqb_spec c 37); [lia|].
    replace (p ++ c :: out') with ((p ++ [c]) ++ out') in * by by rewrite <- app_assoc.
    replace (proc + Z.of_nat (length p) + 1) with (proc + Z.of_nat (length (p ++ [c]))) in * by (rewrite length_app; cbn [length]; lia).
    apply (IH f (p ++ [c])); try lia; try done. destruct HP as [Hp1 Hp2 Hp3], HR as [Hr1 Hr2 Hr3]. split.
    + apply seg_app. split; [done|]. rewrite <- Z.add_assoc. apply seg_cons. split; [done|apply seg_nil].
    + apply Forall_app. split; [done|]. constructor; [lia|constructor].
    + rewrite !length_app in *. cbn [length] in *. unfold away in *. lia.
Qed.

End Sprintf.

(** ** The theorem *)

Lemma sprintf_spec (dest fmt : Z) (string_at : Z -> option (list Z)) m f args out :
  str_at m fmt f -> format string_at f None args = Some out ->
  strings_in dest (Z.of_nat (length out) + 1) string_at m -> away dest (Z.of_nat (length out) + 1) fmt (Z.of_nat (length f) + 1) ->
  Z.of_nat (length out) < 2147483648 ->
  exists m', sprintf dest fmt args m = Some (Z.of_nat (length out), m') /\ seg m' dest (out ++ [0]) /\
    only m m' dest (Z.of_nat (length out) + 1).
Proof.
  intros [Hf Hc] E Hm Ha Hl. set (room := Z.of_nat (length out) + 1) in *.
  assert (Hfu : (length f < str_fuel m)%nat).
  { pose proof (seg_size _ _ _ Hf) as Hz. rewrite length_app in Hz. cbn in Hz. unfold str_fuel. lia. }
  assert (HR : rest_ok dest room fmt m (0 + Z.of_nat 0) f) by (split; [by rewrite Z.add_0_r|done|by rewrite Z.add_0_r]).
  assert (HP : pending dest room fmt m 0 []).
  { split; [apply seg_nil|constructor|]. unfold away in *. cbn [length]. lia. }
  destruct (loop_spec dest room fmt string_at (length f) f [] (str_fuel m) 0 0 args out m (le_n _) Hfu HP HR E Hm ltac:(lia) ltac:(cbn [app]; lia))
    as (q & w & p' & m1 & E1 & Hw & Hq & Hqb & Hqa & Hs1 & Ho1).
  cbn [app length] in *. change (0 + Z.of_nat 0) with 0 in *. rewrite Z.add_0_l in E1. rewrite Z.add_0_r in Hs1, Ho1.
  assert (Hlen : length out = (length w + length q)%nat) by (rewrite <- Hw; apply length_app).
  destruct (literal_appends dest room fmt q p' m1 (Z.of_nat (length w)) Hq Hqb Hqa ltac:(lia) ltac:(unfold room; lia)) as (m2 & E2 & Hs2 & Ho2).
  exists (<[dest + Z.of_nat (length out) := 0]> m2). rewrite Hlen, Nat2Z.inj_add. split_and!.
  - unfold sprintf. rewrite (bind_some _ _ _ _ _ (gets_run _ _)). st_step E1.
    replace (Z.to_nat (p' + Z.of_nat (length q) - p')) with (length q) by lia. st_step E2.
    rewrite (bind_some _ _ _ _ _ (wr_run _ _ _)). unfold ret. rewrite i32_small by lia. done.
  - rewrite <- Hw, <- app_assoc. apply seg_app. split; [|apply seg_app; split].
    + apply seg_insert; [lia|]. apply (seg_same m1); [|done]. intros x Hx. apply Ho2. lia.
    + apply seg_insert; [lia|done].
    + apply seg_cons. split; [|apply seg_nil]. rewrite <- Z.add_assoc. apply lookup_insert_eq.
  - intros x Hx. unfold room in *. rewrite lookup_insert_ne by lia. rewrite Ho2, Ho1 by lia. done.
Qed.

(** C25: [sprintf] is the reference formatter.  When the reference has a text for
    the format string and the arguments, the format string and the string
    arguments (shorter than the limit of [strlen]) lie outside the bytes written
    and the text is shorter than 2^31, [sprintf] returns the length of the text
    and leaves the text followed by a NUL byte at the destination, changing
    nothing else. *)
Theorem sprintf_correct (dest fmt : Z) (string_at : Z -> option (list Z)) m f args out :
  str_at m fmt f -> format string_at f None args = Some out ->
  strings_in dest (Z.of_nat (length out) + 1) string_at m -> away dest (Z.of_nat (length out) + 1) fmt (Z.of_nat (length f) + 1) ->
  Z.of_nat (length out) < 2147483648 ->
  exists m', sprintf dest fmt args m = Some (Z.of_nat (length out), m') /\ seg m' dest (out ++ [0]) /\
    only m m' dest (Z.of_nat (length out) + 1).
Proof. apply sprintf_spec. Qed.

(** "[%s] 0x%04x" with "mm" and 0xbee. *)
Definition example_format : list Z := [91; 37; 115; 93; 32; 48; 120; 37; 48; 52; 120].

Definition example_text : bytes :=
  list_to_map (zip (seqZ 100 12) (example_format ++ [0])) ∪ list_to_map (zip (seqZ 200 3) [109; 109; 0]).

Lemma sprintf_correct_witness : exists m', sprintf 300 100 [200; 0xbee] example_text = Some (11, m') /\
  seg m' 300 [91; 109; 109; 93; 32; 48; 120; 48; 98; 101; 101; 0].
Proof.
  destruct (sprintf_correct 300 100 (fun a => if a =? 200 then Some [109; 109] else None) example_text example_format [200; 0xbee]
    [91; 109; 109; 93; 32; 48; 120; 48; 98; 101; 101]) as (m' & E & Hs & _).
  - split; [|repeat (constructor; [lia|]); constructor]. repeat (apply seg_cons; split; [vm_compute; reflexivity|]). apply seg_nil.
  - vm_compute. reflexivity.
  - intros a s Ea. destruct (Z.eqb_spec a 200) as [->|]; [|discriminate Ea]. injection Ea as <-. split_and!.
    + split; [|repeat (constructor; [lia|]); constructor]. repeat (apply seg_cons; split; [vm_compute; reflexivity|]). apply seg_nil.
    + reflexivity.
    + left. cbn. lia.
  - left. cbn. lia.
  - reflexivity.
  - exists m'. split; [exact E|exact Hs].
Defined.
