(* ===== verification/PageDefs.v ===== *)
(** * Page arithmetic (arch/x86/include/arch/paging.h, ptable.h and
      include/rotary/mm/palloc.h)

    The address macros every memory-management component shares: alignment,
    page frame numbers, the linear mapping of low memory at
    [KERNEL_START_VIRT], directory and table indices, and the encoding of page
    directory and page table entries.  All addresses are 32-bit words. *)

From stdpp Require Import base numbers list gmap.
From Stdlib Require Import ZArith Lia.
From S2P Require Import Prelude.

#[local] Open Scope Z_scope.

Definition PAGE_SHIFT : Z := 12.

Definition PAGE_SIZE : Z := 4096.

Definition KERNEL_START_VIRT : Z := 0xC0000000.

Definition KMAP_START_VIRT : Z := 0xF0000000.

Definition LOWMEM_PLIMIT : Z := 0x40000000.

Definition VIR_TO_PHY (addr : Z) : Z := u32 (addr - KERNEL_START_VIRT).

Definition PHY_TO_VIR (addr : Z) : Z := u32 (addr + KERNEL_START_VIRT).

(** ** Alignment *)

Definition ALIGN (addr alignment : Z) : Z :=
  Z.land (u32 (addr + (alignment - 1))) (u32 (Z.lnot (u32 (alignment - 1)))).

Definition ALIGN_DOWN (addr alignment : Z) : Z :=
  Z.land addr (u32 (Z.lnot (u32 (alignment - 1)))).

Definition PAGE_ALIGN (addr : Z) : Z := ALIGN addr PAGE_SIZE.

Definition PAGE_ALIGN_DOWN (addr : Z) : Z := ALIGN_DOWN addr PAGE_SIZE.

Definition IS_PAGE_ALIGNED (addr : Z) : bool := Z.land addr (PAGE_SIZE - 1) =? 0.

Definition PAGE_FRAME (addr : Z) : Z := Z.land addr 0xFFFFF000.

(** ** Frame numbers *)

Definition PFN_TO_PA (pfn : Z) : Z := u32 (pfn * PAGE_SIZE).

Definition PFN_TO_VA (pfn : Z) : Z := PHY_TO_VIR (PFN_TO_PA pfn).

Definition PA_TO_PFN (pa : Z) : Z := Z.shiftr (u32 pa) 12.

Definition VA_TO_PFN (va : Z) : Z := PA_TO_PFN (VIR_TO_PHY va).

(** [SIZE_ORDER(size)]: the loop halves the page count (an [int]) until it is
    at most one.  31 iterations are enough for any non-negative [int]. *)
Fixpoint SIZE_ORDER_loop (fuel : nat) (pages order : Z) : Z :=
  match fuel with
  | O => order
  | S f => if 1 <? pages then SIZE_ORDER_loop f (Z.shiftr pages 1) (order + 1) else order
  end.

Definition SIZE_ORDER (size : Z) : Z := SIZE_ORDER_loop 32 (size / PAGE_SIZE) 0.

(** ** Page directory and page table entries *)

Definition PAGE_DIR_SIZE : Z := 1024.

Definition PAGE_TABLE_SIZE : Z := 1024.

Definition PDE_PRESENT : Z := 0x01.
Definition PDE_WRITABLE : Z := 0x02.
Definition PDE_USER : Z := 0x04.
Definition PDE_PAGE_SIZE_4M : Z := 0x80.
Definition PDE_GLOBAL : Z := 0x100.

Definition PTE_PRESENT : Z := 0x01.
Definition PTE_WRITABLE : Z := 0x02.
Definition PTE_USER : Z := 0x04.
Definition PTE_GLOBAL : Z := 0x100.

Definition PAGE_DIRECTORY_INDEX (addr : Z) : Z := Z.land (Z.shiftr (u32 addr) 22) 0x3FF.

Definition PAGE_TABLE_INDEX (addr : Z) : Z := Z.land (Z.shiftr (u32 addr) 12) 0x3FF.

Definition PDE_IDX_TO_ADDR (idx : Z) : Z := u32 (Z.shiftl idx 22).

Definition PTE_IDX_TO_ADDR (idx : Z) : Z := u32 (Z.shiftl idx 12).

(** An entry is its 32-bit word; the bit-field view of the C union is given by
    the accessors below. *)
Definition MAKE_PDE (addr flags : Z) : Z :=
  Z.lor (Z.land addr 0xFFFFF000) (Z.land flags 0xFFF).

Definition MAKE_PTE (addr flags : Z) : Z :=
  Z.lor (Z.land addr 0xFFFFF000) (Z.land flags 0xFFF).

Definition PDE_EXISTS (entry : Z) : bool := negb (Z.land entry PDE_PRESENT =? 0).

Definition PTE_EXISTS (entry : Z) : bool := negb (Z.land entry PTE_PRESENT =? 0).

Definition PDE_IS_HUGE (entry : Z) : bool := Z.testbit entry 7.

Definition PTE_SET_WRITABLE (entry : Z) : Z := Z.lor entry PTE_WRITABLE.

(** The bit-field stores [pte->present = 0] and [pte->address = 0]. *)
Definition pte_clear_present (entry : Z) : Z := Z.land entry (u32 (Z.lnot 1)).

Definition pte_clear_address (entry : Z) : Z := Z.land entry 0xFFF.

Definition pte_address (entry : Z) : Z := Z.shiftr entry 12.

Definition pte_present (entry : Z) : Z := Z.land entry 1.

(** ** Alignment *)

Lemma ALIGN_DOWN_pow2 addr k :
  0 <= addr < 4294967296 -> 0 <= k < 32 -> ALIGN_DOWN addr (2 ^ k) = addr - addr mod 2 ^ k.
Proof.
  intros Ha Hk. unfold ALIGN_DOWN.
  assert (0 < 2 ^ k) by (apply Z.pow_pos_nonneg; lia).
  assert (2 ^ k < 2 ^ 32) by (apply Z.pow_lt_mono_r; lia). change (2 ^ 32) with 4294967296 in *.
  rewrite land_u32_r, (u32_small (2 ^ k - 1)) by lia. apply land_lnot_ones. lia.
Qed.

Lemma ALIGN_pow2 addr k :
  0 <= addr < 4294967296 -> 0 <= k < 32 -> addr + (2 ^ k - 1) < 4294967296 ->
  ALIGN addr (2 ^ k) = addr + (- addr) mod 2 ^ k.
Proof.
  intros Ha Hk Hov. assert (0 < 2 ^ k) by (apply Z.pow_pos_nonneg; lia).
  unfold ALIGN. rewrite u32_small by lia.
  fold (ALIGN_DOWN (addr + (2 ^ k - 1)) (2 ^ k)). rewrite ALIGN_DOWN_pow2 by lia.
  generalize dependent (2 ^ k). intros m Hov Hm. clear k Hk.
  rewrite (Z.mod_eq (addr + (m - 1)) m), (Z.mod_eq (- addr) m) by lia.
  assert (Hd : (- (- addr) + (m - 1)) / m = - ((- addr) / m)).
  { symmetry. apply Z.div_unique with (r := m - 1 - (- addr) mod m).
    - left. assert (0 <= (- addr) mod m < m) by (apply Z.mod_pos_bound; lia). lia.
    - rewrite (Z.mod_eq (- addr) m) by lia. lia. }
  rewrite Z.opp_involutive in Hd. rewrite Hd. lia.
Qed.

Lemma PAGE_FRAME_eq addr : 0 <= addr < 4294967296 -> PAGE_FRAME addr = addr - addr mod 4096.
Proof.
  intros Ha. change 4096 with (2 ^ 12). rewrite <- ALIGN_DOWN_pow2 by lia. reflexivity.
Qed.

Lemma PAGE_ALIGN_DOWN_eq addr :
  0 <= addr < 4294967296 -> PAGE_ALIGN_DOWN addr = addr - addr mod 4096.
Proof.
  intros Ha. unfold PAGE_ALIGN_DOWN. change PAGE_SIZE with (2 ^ 12).
  rewrite ALIGN_DOWN_pow2 by lia. reflexivity.
Qed.

Lemma PAGE_ALIGN_eq addr :
  0 <= addr -> addr + 4095 < 4294967296 -> PAGE_ALIGN addr = addr + (- addr) mod 4096.
Proof.
  intros Ha Hov. unfold PAGE_ALIGN. change PAGE_SIZE with (2 ^ 12).
  rewrite ALIGN_pow2 by lia. reflexivity.
Qed.

Lemma PA_TO_PFN_eq pa : 0 <= pa < 4294967296 -> PA_TO_PFN pa = pa / 4096.
Proof. intros Hp. unfold PA_TO_PFN. rewrite u32_small, Z.shiftr_div_pow2 by lia. reflexivity. Qed.

Lemma PFN_TO_PA_eq pfn : 0 <= pfn < 1048576 -> PFN_TO_PA pfn = pfn * 4096.
Proof. intros Hp. unfold PFN_TO_PA, PAGE_SIZE. rewrite u32_small by lia. reflexivity. Qed.

Lemma PFN_roundtrip pfn : 0 <= pfn < 1048576 -> PA_TO_PFN (PFN_TO_PA pfn) = pfn.
Proof.
  intros Hp. rewrite PFN_TO_PA_eq, PA_TO_PFN_eq by lia. apply Z.div_mul. lia.
Qed.

Lemma VIR_PHY_roundtrip a : 0 <= a < 4294967296 -> VIR_TO_PHY (PHY_TO_VIR a) = a.
Proof.
  intros Ha. unfold VIR_TO_PHY, PHY_TO_VIR, u32. rewrite Zminus_mod_idemp_l.
  replace (a + KERNEL_START_VIRT - KERNEL_START_VIRT) with a by lia. by apply Z.mod_small.
Qed.

(** ** Entries *)

Lemma MAKE_PTE_eq addr flags :
  0 <= addr < 4294967296 -> 0 <= flags < 4096 -> MAKE_PTE addr flags = addr - addr mod 4096 + flags.
Proof.
  intros Ha Hf. unfold MAKE_PTE. fold (PAGE_FRAME addr). rewrite PAGE_FRAME_eq by done.
  change 0xFFF with (Z.ones 12). rewrite Z.land_ones by lia. change (2 ^ 12) with 4096.
  rewrite (Z.mod_small flags) by lia. apply (lor_disjoint _ _ 12); [lia| |lia].
  change (2 ^ 12) with 4096. rewrite Zminus_mod_idemp_r, Z.sub_diag.
  reflexivity.
Qed.
