(* ===== verification/Bootmem.v ===== *)
(** * The boot-time allocator (kernel/mm/bootmem.c)

    Before the page allocator exists, memory regions reported by the firmware
    are registered in a fixed array of [MAX_MEM_REGIONS] entries and handed out
    by moving a region's start address forward.  This file models the region
    array and the operations on it; [bootmem_mark_free], which feeds the
    regions to the page allocator, is in Boot.v. *)

From stdpp Require Import base numbers list gmap.
From Stdlib Require Import ZArith Lia.
From S2P Require Import Prelude PageDefs.

#[local] Open Scope Z_scope.

Definition MAX_MEM_REGIONS : Z := 16.

Definition MEM_REGION_RESERVED : Z := 0.

Definition MEM_REGION_AVAILABLE : Z := 1.

Definition BM_NO_ALIGN : Z := 1.

(** [struct mem_region] *)
Record mem_region : Type := MemRegion {
  start_addr : Z;
  end_addr : Z;
  orig_start_addr : Z;
  type : Z
}.

#[export] Instance mem_region_eq_dec : EqDecision mem_region.
Proof. solve_decision. Defined.

Definition zero_region : mem_region := MemRegion 0 0 0 0.

(** The file's globals. *)
Record bootmem : Type := Bootmem {
  mem_regions : list mem_region;
  highest_pfn : Z;
  region_count : Z
}.

Definition with_regions (l : list mem_region) (s : bootmem) : bootmem :=
  Bootmem l (highest_pfn s) (region_count s).

Definition with_highest (n : Z) (s : bootmem) : bootmem :=
  Bootmem (mem_regions s) n (region_count s).

Definition bootmem_reset (s : bootmem) : bootmem :=
  Bootmem (replicate (Z.to_nat MAX_MEM_REGIONS) zero_region) 0 0.

Definition bootmem_init : bootmem := bootmem_reset (Bootmem [] 0 0).

Definition bootmem_highest_pfn : ST bootmem Z := gets highest_pfn.

(** The search of [bootmem_add_mem_region] for a slot whose [start_addr] is 0. *)
Fixpoint find_slot (l : list mem_region) : option nat :=
  match l with
  | [] => None
  | r :: t => if start_addr r =? 0 then Some O else S <$> find_slot t
  end.

Section Kernel.
  (** The linker's [KERNEL_PHYS_START] and [KERNEL_PHYS_END]. *)
  Context (KERNEL_PHYS_START KERNEL_PHYS_END : Z).

(** The tail of [bootmem_add_mem_region], once the bounds are final. *)
Definition add_region_slot (start_a end_a ty : Z) (s : bootmem) : Z * bootmem :=
  let pfn := PA_TO_PFN end_a in
  let s := if highest_pfn s <? pfn then with_highest pfn s else s in
  match find_slot (mem_regions s) with
  | Some i =>
      (E_SUCCESS,
       Bootmem (<[i := MemRegion start_a end_a start_a ty]> (mem_regions s))
         (highest_pfn s) (u32 (region_count s + 1)))
  | None => (E_ERROR, s)
  end.

(** [bootmem_add_mem_region]: the only recursion is one level deep (the two
    parts of a region that surrounds the kernel do not surround it), so fuel 2
    always suffices: BootmemSpec.v proves that the call always returns. *)
Fixpoint add_mem_region (fuel : nat) (start_a end_a ty : Z) : ST bootmem Z :=
  fun s =>
  match fuel with
  | O => None
  | S f =>
      let start_a := PAGE_ALIGN start_a in
      let end_a := PAGE_ALIGN_DOWN end_a in
      let kernel_start := PAGE_ALIGN KERNEL_PHYS_START in
      let kernel_end := PAGE_ALIGN KERNEL_PHYS_END in
      if region_count s =? MAX_MEM_REGIONS then Some (E_ERROR, s)
      else if (kernel_start <=? start_a) && (end_a <? kernel_end) then Some (E_ERROR, s)
      else if negb (ty =? MEM_REGION_RESERVED) && negb (ty =? MEM_REGION_AVAILABLE)
      then Some (E_ERROR, s)
      else if end_a <? start_a then Some (E_ERROR, s)
      else if (start_a =? end_a) || (u32 (end_a - start_a) <? PAGE_SIZE) then Some (E_ERROR, s)
      else if (start_a <? kernel_start) && (kernel_end <? end_a) then
        (add_mem_region f start_a kernel_start ty ;;
         add_mem_region f kernel_end end_a ty ;;
         ret E_SUCCESS)%st s
      else if (start_a <? kernel_start) && (kernel_start <? end_a) then
        Some (add_region_slot start_a kernel_start ty s)
      else if (start_a <? kernel_end) && (kernel_end <? end_a) then
        Some (add_region_slot kernel_end end_a ty s)
      else Some (add_region_slot start_a end_a ty s)
  end.

Definition bootmem_add_mem_region (start_a end_a ty : Z) : ST bootmem Z :=
  add_mem_region 2 start_a end_a ty.

End Kernel.

(** The scan of [bootmem_alloc] over the [MAX_MEM_REGIONS] entries: the index
    of the first suitable region and the aligned start address in it. *)
Fixpoint alloc_scan (l : list mem_region) (size alignment : Z) : option (nat * Z) :=
  match l with
  | [] => None
  | r :: t =>
      let next := (fun '(i, a) => (S i, a)) <$> alloc_scan t size alignment in
      if negb (type r =? MEM_REGION_AVAILABLE) then next
      else
        let aligned_start := ALIGN (start_addr r) alignment in
        if end_addr r <=? aligned_start then next
        else
          let region_size := u32 (end_addr r - aligned_start) in
          if size <=? region_size then Some (O, aligned_start) else next
  end.

(** [bootmem_alloc]: a virtual address, or [None] for NULL. *)
Definition bootmem_alloc (size alignment : Z) : ST bootmem (option Z) :=
  fun s =>
  match alloc_scan (mem_regions s) size alignment with
  | Some (i, a) =>
      let regions := alter (fun r => MemRegion (u32 (a + size)) (end_addr r)
                                       (orig_start_addr r) (type r)) i (mem_regions s) in
      Some (Some (PHY_TO_VIR a), with_regions regions s)
  | None => Some (None, s)
  end.
