(* ===== verification/BootmemSpec.v ===== *)
(** * Correctness of the boot-time allocator

    [bm_ok] is the invariant of the region array.  Registering a region keeps
    it and stays clear of the kernel image; allocating carves the returned
    bytes out of the registered regions, so that they are never handed out
    again, neither by bootmem nor by the page allocator that inherits the
    regions. *)

From stdpp Require Import base numbers list gmap.
From Stdlib Require Import ZArith Lia Znumtheory.
From S2P Require Import Prelude PageDefs Bootmem.

#[local] Open Scope Z_scope.

Implicit Types (r : mem_region) (bm : bootmem).

(** Byte [a] is in the part of [r] that is still unallocated. *)
Definition in_region r (a : Z) : Prop := start_addr r <= a < end_addr r.

Definition in_regions bm (a : Z) : Prop := exists r, r ∈ mem_regions bm /\ in_region r a.

Definition region_ok (ks ke : Z) (top : Z) r : Prop :=
  0 <= start_addr r <= end_addr r /\ end_addr r <= top * 4096 /\ (4096 | end_addr r) /\
  (end_addr r <= ks \/ ke <= start_addr r).

(** The invariant of the region array; [ks] and [ke] are the page-aligned
    bounds of the kernel image. *)
Record bm_ok (ks ke : Z) bm : Prop := BmOk {
  bo_length : length (mem_regions bm) = 16%nat;
  bo_count : 0 <= region_count bm <= MAX_MEM_REGIONS;
  bo_top : 0 <= highest_pfn bm < 1048576;
  bo_used : forall i r, mem_regions bm !! i = Some r ->
    start_addr r <> 0 \/ end_addr r <> 0 -> Z.of_nat i < region_count bm;
  bo_region : forall r, r ∈ mem_regions bm -> region_ok ks ke (highest_pfn bm) r
}.

(** No byte belongs to two entries. *)
Definition bm_disjoint bm : Prop := forall i j r r' a,
  mem_regions bm !! i = Some r -> mem_regions bm !! j = Some r' ->
  in_region r a -> in_region r' a -> i = j.

Lemma bootmem_init_ok ks ke : 0 <= ks -> bm_ok ks ke bootmem_init.
Proof.
  intros Hks. constructor; cbn; try (unfold MAX_MEM_REGIONS; lia).
  - done.
  - intros i r Hr. apply (lookup_replicate_1 16) in Hr as [-> _]. by intros [].
  - intros r Hr. apply (elem_of_replicate 16) in Hr as [-> _]. unfold region_ok. cbn.
    split_and!; try lia. by exists 0.
Qed.

(** ** Registering regions *)

Lemma find_slot_spec l i :
  find_slot l = Some i -> exists r, l !! i = Some r /\ start_addr r = 0.
Proof.
  revert i. induction l as [|r l IH]; intros i; cbn; [discriminate|].
  destruct (Z.eqb_spec (start_addr r) 0); [intros [= <-]; eauto|].
  destruct (find_slot l) as [j|]; [|discriminate]. intros [= <-]. by apply IH.
Qed.

Lemma find_slot_first l i j r :
  find_slot l = Some i -> (j < i)%nat -> l !! j = Some r -> start_addr r <> 0.
Proof.
  revert i j. induction l as [|q l IH]; intros i j; cbn; [discriminate|].
  destruct (Z.eqb_spec (start_addr q) 0); [intros [= <-]; lia|].
  destruct (find_slot l) as [m|] eqn:E; [|discriminate]. intros [= <-] Hj.
  destruct j as [|j]; cbn; [by intros [= ->]|]. intros. eapply IH; [done| |done]. lia.
Qed.

Lemma region_ok_mono ks ke n m r : n <= m -> region_ok ks ke n r -> region_ok ks ke m r.
Proof. intros Hn (? & ? & ? & ?). split_and!; try done; lia. Qed.

Section Slot.
  Context (ks ke st en ty : Z) (bm : bootmem).
  Context (HB : bm_ok ks ke bm) (Hct : region_count bm <> MAX_MEM_REGIONS).
  Context (Hst : 0 <= st <= en) (Hen : en < 4294967296) (Hal : (4096 | en)).
  Context (Hk : en <= ks \/ ke <= st).

Lemma add_region_slot_some : exists i, find_slot (mem_regions bm) = Some i /\ Z.of_nat i <= region_count bm.
Proof using HB Hct.
  destruct HB as [HL HC _ HU _]. destruct (find_slot (mem_regions bm)) as [i|] eqn:E.
  - exists i. split; [done|]. destruct (Z.le_gt_cases (Z.of_nat i) (region_count bm)) as [|Hgt]; [done|].
    assert (Hj : (Z.to_nat (region_count bm) < i)%nat) by lia.
    destruct (find_slot_spec _ _ E) as (r & Er & _). apply lookup_lt_Some in Er.
    destruct (lookup_lt_is_Some_2 (mem_regions bm) (Z.to_nat (region_count bm))) as [q Eq]; [lia|].
    pose proof (find_slot_first _ _ _ _ E Hj Eq) as Hn. specialize (HU _ _ Eq (or_introl Hn)). lia.
  - exfalso. unfold MAX_MEM_REGIONS in *.
    assert (HN : forall l, find_slot l = None -> forall j r, l !! j = Some r -> start_addr r <> 0).
    { clear. induction l as [|q l IH]; cbn; [done|]. destruct (Z.eqb_spec (start_addr q) 0); [done|].
      destruct (find_slot l); [done|]. intros _ [|j] r; cbn; [by intros [= ->]|by apply IH]. }
    destruct (lookup_lt_is_Some_2 (mem_regions bm) (Z.to_nat (region_count bm))) as [q Eq]; [lia|].
    pose proof (HN _ E _ _ Eq) as Hn. specialize (HU _ _ Eq (or_introl Hn)). lia.
Qed.

Lemma add_region_slot_ok :
  exists bm' i, add_region_slot st en ty bm = (E_SUCCESS, bm') /\ bm_ok ks ke bm' /\
    (exists r, mem_regions bm !! i = Some r /\ start_addr r = 0) /\
    mem_regions bm' = <[i := MemRegion st en st ty]> (mem_regions bm) /\
    region_count bm' = region_count bm + 1.
Proof using HB Hct Hst Hen Hal Hk.
  destruct add_region_slot_some as (i & E & Hi). pose proof HB as [HL HC HT HU HR].
  set (top := Z.max (highest_pfn bm) (PA_TO_PFN en)).
  assert (Hpfn : PA_TO_PFN en = en / 4096) by (apply PA_TO_PFN_eq; lia).
  assert (Hen' : en = 4096 * (en / 4096)) by by apply Z_div_exact_full_2, Z.mod0_divide.
  assert (Etop : highest_pfn (if highest_pfn bm <? PA_TO_PFN en then with_highest (PA_TO_PFN en) bm else bm) = top).
  { unfold top. destruct (Z.ltb_spec (highest_pfn bm) (PA_TO_PFN en)); cbn; lia. }
  assert (Ereg : mem_regions (if highest_pfn bm <? PA_TO_PFN en then with_highest (PA_TO_PFN en) bm else bm) = mem_regions bm)
    by by destruct (highest_pfn bm <? PA_TO_PFN en).
  assert (Ecnt : region_count (if highest_pfn bm <? PA_TO_PFN en then with_highest (PA_TO_PFN en) bm else bm) = region_count bm)
    by by destruct (highest_pfn bm <? PA_TO_PFN en).
  exists (Bootmem (<[i := MemRegion st en st ty]> (mem_regions bm)) top (region_count bm + 1)), i.
  unfold MAX_MEM_REGIONS in *. split_and!; [| |by apply find_slot_spec|done|done].
  - unfold add_region_slot. cbv zeta. rewrite Ereg, E, Etop, Ecnt, u32_small by lia. done.
  - constructor; cbn; unfold MAX_MEM_REGIONS.
    + by rewrite length_insert.
    + lia.
    + unfold top. assert (en / 4096 < 1048576) by (apply Z.div_lt_upper_bound; lia). lia.
    + intros j r [(<- & <- & _)|(Hne & Ej)]%list_lookup_insert_Some Hs; [lia|].
      apply (HU _ _ Ej) in Hs. lia.
    + intros r [j [(<- & <- & _)|(Hne & Ej)]%list_lookup_insert_Some]%list_elem_of_lookup.
      * unfold region_ok. cbn. split_and!; try done; lia.
      * apply (region_ok_mono ks ke (highest_pfn bm)); [lia|]. apply HR. by eapply list_elem_of_lookup_2.
Qed.

End Slot.

Lemma PAGE_ALIGN_word addr : 0 <= PAGE_ALIGN addr < 4294967296 /\ (4096 | PAGE_ALIGN addr).
Proof.
  unfold PAGE_ALIGN, ALIGN, PAGE_SIZE. set (y := u32 _).
  assert (Hy : 0 <= y < 4294967296) by apply u32_range. rewrite land_u32_r by done.
  change (u32 (4096 - 1)) with (2 ^ 12 - 1). rewrite land_lnot_ones by lia. change (2 ^ 12) with 4096.
  pose proof (Z.div_mod y 4096). pose proof (Z.mod_pos_bound y 4096). split; [|exists (y / 4096)]; lia.
Qed.

Lemma PAGE_ALIGN_DOWN_word addr :
  0 <= addr < 4294967296 -> 0 <= PAGE_ALIGN_DOWN addr <= addr /\ (4096 | PAGE_ALIGN_DOWN addr).
Proof.
  intros Ha. rewrite PAGE_ALIGN_DOWN_eq by done.
  pose proof (Z.div_mod addr 4096). pose proof (Z.mod_pos_bound addr 4096). split; [|exists (addr / 4096)]; lia.
Qed.

Lemma PAGE_ALIGN_id a : 0 <= a < 4294967296 -> (4096 | a) -> PAGE_ALIGN a = a.
Proof.
  intros Ha [q Hq]. rewrite PAGE_ALIGN_eq by lia. rewrite Z.mod_opp_l_z; [lia|lia|].
  rewrite Hq. apply Z.mod_mul. lia.
Qed.

Lemma PAGE_ALIGN_DOWN_id a : 0 <= a < 4294967296 -> (4096 | a) -> PAGE_ALIGN_DOWN a = a.
Proof. intros Ha [q Hq]. rewrite PAGE_ALIGN_DOWN_eq by lia. rewrite Hq, Z.mod_mul by lia. lia. Qed.

Section Kernel.
  Context (KS KE : Z).

  #[local] Abbreviation ks := (PAGE_ALIGN KS).
  #[local] Abbreviation ke := (PAGE_ALIGN KE).

  Context (Hkern : ks < ke).

Definition valid_type (ty : Z) : bool := (ty =? MEM_REGION_RESERVED) || (ty =? MEM_REGION_AVAILABLE).

(** A page-aligned part that does not touch the kernel is stored as it is. *)
Lemma add_part f st en ty bm :
  0 <= st < en -> en < 4294967296 -> (4096 | st) -> (4096 | en) -> en <= ks \/ ke <= st ->
  valid_type ty = true ->
  add_mem_region KS KE (S f) st en ty bm =
    if region_count bm =? MAX_MEM_REGIONS then Some (E_ERROR, bm) else Some (add_region_slot st en ty bm).
Proof using Hkern.
  intros Hst Hen Hs He Hk Ht. cbn [add_mem_region]. cbv zeta.
  rewrite (PAGE_ALIGN_id st), (PAGE_ALIGN_DOWN_id en) by (done || lia).
  destruct (region_count bm =? MAX_MEM_REGIONS); [done|].
  assert (negb (ty =? MEM_REGION_RESERVED) && negb (ty =? MEM_REGION_AVAILABLE) = false) as ->.
  { unfold valid_type in Ht. by destruct (ty =? MEM_REGION_RESERVED), (ty =? MEM_REGION_AVAILABLE). }
  assert (4096 <= en - st).
  { destruct Hs as [u Hu], He as [v Hv]. lia. }
  rewrite u32_small by lia. unfold PAGE_SIZE. bool_cases; done.
Qed.

(** What a registration may add: the page-aligned bytes outside the kernel. *)
Definition offered (st en a : Z) : Prop :=
  PAGE_ALIGN st <= a < PAGE_ALIGN_DOWN en /\ ~ (ks <= a < ke).

(** The bytes of the array after one store, and that it keeps entries apart. *)
Definition grows bm bm' (P : Z -> Prop) : Prop :=
  (forall a, in_regions bm' a -> in_regions bm a \/ P a) /\
  (bm_disjoint bm -> (forall a, P a -> ~ in_regions bm a) -> bm_disjoint bm').

Lemma grows_refl bm P : grows bm bm P.
Proof. split; auto. Qed.

Lemma grows_weaken bm bm' (P Q : Z -> Prop) : (forall a, P a -> Q a) -> grows bm bm' P -> grows bm bm' Q.
Proof. intros HPQ [H1 H2]. split; [intros a Ha; destruct (H1 a Ha); auto|]. intros HD HQ. apply H2; auto. Qed.

Lemma grows_trans bm1 bm2 bm3 (P Q : Z -> Prop) :
  (forall a, P a -> ~ Q a) -> grows bm1 bm2 P -> grows bm2 bm3 Q -> grows bm1 bm3 (fun a => P a \/ Q a).
Proof.
  intros HPQ [H1 H2] [H3 H4]. split.
  - intros a Ha. destruct (H3 a Ha) as [Ha'|?]; [destruct (H1 a Ha')|]; auto.
  - intros HD HN. apply H4; [apply H2; auto|]. intros a Hq Ha.
    destruct (H1 a Ha) as [?|?]; [by apply (HN a); auto|by apply (HPQ a)].
Qed.

Lemma insert_grows bm bm' i st en ty :
  mem_regions bm' = <[i := MemRegion st en st ty]> (mem_regions bm) -> grows bm bm' (fun a => st <= a < en).
Proof.
  intros E. split.
  - intros a (r & Hr & Ha). rewrite E in Hr.
    apply list_elem_of_lookup in Hr as [j [(_ & <- & _)|(_ & Ej)]%list_lookup_insert_Some]; [by right|].
    left. exists r. split; [by eapply list_elem_of_lookup_2|done].
  - intros HD HN j1 j2 r1 r2 a. rewrite E.
    assert (HO : forall j r, mem_regions bm !! j = Some r -> in_region r a -> st <= a < en -> False).
    { intros j r Ej Ha Hp. apply (HN a Hp). exists r. split; [by eapply list_elem_of_lookup_2|done]. }
    intros [(<- & <- & _)|(_ & E1)]%list_lookup_insert_Some [(<- & <- & _)|(_ & E2)]%list_lookup_insert_Some H1 H2;
      [done|by destruct (HO j2 r2)|by destruct (HO j1 r1)|by apply (HD j1 j2 r1 r2 a)].
Qed.

(** One stored part, whatever the state of the array. *)
Lemma add_part_ok f st en ty bm :
  bm_ok ks ke bm -> 0 <= st < en -> en < 4294967296 -> (4096 | st) -> (4096 | en) -> en <= ks \/ ke <= st ->
  valid_type ty = true ->
  exists res bm', add_mem_region KS KE (S f) st en ty bm = Some (res, bm') /\ bm_ok ks ke bm' /\
    grows bm bm' (fun a => st <= a < en).
Proof using Hkern.
  intros HB Hst Hen Hs He Hk Ht. rewrite add_part by done.
  destruct (Z.eqb_spec (region_count bm) MAX_MEM_REGIONS) as [|Hc].
  - exists E_ERROR, bm. split_and!; [done|done|apply grows_refl].
  - destruct (add_region_slot_ok ks ke st en ty bm HB Hc ltac:(lia) ltac:(lia) He Hk) as (bm' & i & E & HB' & _ & Er & _).
    exists E_SUCCESS, bm'. rewrite E. split_and!; [done|done|by eapply insert_grows].
Qed.

(** The requests the argument checks turn away. *)
Definition add_rejected (st en ty : Z) bm : bool :=
  (region_count bm =? MAX_MEM_REGIONS) || (ks <=? PAGE_ALIGN st) && (PAGE_ALIGN_DOWN en <? ke) ||
  negb (valid_type ty) || (PAGE_ALIGN_DOWN en <=? PAGE_ALIGN st).

Lemma add_reject st en ty bm :
  0 <= en < 4294967296 -> add_rejected st en ty bm = true ->
  bootmem_add_mem_region KS KE st en ty bm = Some (E_ERROR, bm).
Proof using Hkern.
  intros Hen HR. unfold bootmem_add_mem_region. cbn [add_mem_region]. cbv zeta.
  unfold add_rejected, valid_type in HR. destruct (region_count bm =? MAX_MEM_REGIONS); [done|].
  cbn [orb] in HR. destruct ((ks <=? PAGE_ALIGN st) && (PAGE_ALIGN_DOWN en <? ke)); [done|]. cbn [orb] in HR.
  destruct (ty =? MEM_REGION_RESERVED), (ty =? MEM_REGION_AVAILABLE); cbn [orb negb andb] in *; try done;
    destruct (Z.leb_spec (PAGE_ALIGN_DOWN en) (PAGE_ALIGN st)); try done;
    destruct (Z.ltb_spec (PAGE_ALIGN_DOWN en) (PAGE_ALIGN st)); try done;
    destruct (Z.eqb_spec (PAGE_ALIGN st) (PAGE_ALIGN_DOWN en)); try done; lia.
Qed.

(** An accepted request stores one part, or two around the kernel. *)
Lemma add_accept st en ty bm :
  0 <= en < 4294967296 -> add_rejected st en ty bm = false ->
  let st' := PAGE_ALIGN st in let en' := PAGE_ALIGN_DOWN en in
  bootmem_add_mem_region KS KE st en ty bm =
    if (st' <? ks) && (ke <? en') then
      (add_mem_region KS KE 1 st' ks ty ;; add_mem_region KS KE 1 ke en' ty ;; ret E_SUCCESS)%st bm
    else if (st' <? ks) && (ks <? en') then Some (add_region_slot st' ks ty bm)
    else if (st' <? ke) && (ke <? en') then Some (add_region_slot ke en' ty bm)
    else Some (add_region_slot st' en' ty bm).
Proof using Hkern.
  intros Hen HR st' en'. pose proof (PAGE_ALIGN_word st) as [Hs Ds].
  pose proof (PAGE_ALIGN_DOWN_word en Hen) as [He De]. fold st' in Hs, Ds. fold en' in He, De.
  unfold add_rejected, valid_type in HR. fold st' en' in HR.
  apply orb_false_iff in HR as [HR Hlt]. apply orb_false_iff in HR as [HR Hty].
  apply orb_false_iff in HR as [Hc Hin]. apply Z.leb_gt in Hlt.
  assert (4096 <= en' - st') by (destruct Ds, De; lia).
  unfold bootmem_add_mem_region. cbn [add_mem_region]. cbv zeta. fold st' en'. rewrite Hc, Hin.
  assert (negb (ty =? MEM_REGION_RESERVED) && negb (ty =? MEM_REGION_AVAILABLE) = false) as ->.
  { by destruct (ty =? MEM_REGION_RESERVED), (ty =? MEM_REGION_AVAILABLE). }
  assert ((en' <? st') = false) as -> by (apply Z.ltb_ge; lia).
  assert ((st' =? en') || (u32 (en' - st') <? PAGE_SIZE) = false) as ->; [|done].
  rewrite u32_small by lia. unfold PAGE_SIZE. bool_cases.
Qed.

Lemma bootmem_add_safe st en ty bm :
  bm_ok ks ke bm -> 0 <= en < 4294967296 -> ~ (ks <= PAGE_ALIGN st /\ PAGE_ALIGN_DOWN en = ke) ->
  exists res bm', bootmem_add_mem_region KS KE st en ty bm = Some (res, bm') /\ bm_ok ks ke bm' /\
    grows bm bm' (offered st en).
Proof using Hkern.
  intros HB Hen Hgap. destruct (add_rejected st en ty bm) eqn:HR.
  { rewrite add_reject by done. exists E_ERROR, bm. split_and!; auto using grows_refl. }
  rewrite add_accept by done. cbv zeta.
  pose proof (PAGE_ALIGN_word st) as [Hs Ds]. pose proof (PAGE_ALIGN_DOWN_word en Hen) as [He De].
  pose proof (PAGE_ALIGN_word KS) as [Hks Dks]. pose proof (PAGE_ALIGN_word KE) as [Hke Dke].
  unfold add_rejected in HR. change (offered st en) with (fun a => PAGE_ALIGN st <= a < PAGE_ALIGN_DOWN en /\ ~ (ks <= a < ke)).
  set (st' := PAGE_ALIGN st) in *. set (en' := PAGE_ALIGN_DOWN en) in *.
  apply orb_false_iff in HR as [HR Hlt]. apply orb_false_iff in HR as [HR Hty].
  apply orb_false_iff in HR as [Hc Hin]. apply Z.leb_gt in Hlt. apply negb_false_iff in Hty.
  apply Z.eqb_neq in Hc. apply andb_false_iff in Hin.
  assert (Hslot : forall lo hi, 0 <= lo < hi -> hi < 4294967296 -> (4096 | hi) -> hi <= ks \/ ke <= lo ->
    (forall a, lo <= a < hi -> st' <= a < en' /\ ~ (ks <= a < ke)) ->
    exists res bm', Some (add_region_slot lo hi ty bm) = Some (res, bm') /\ bm_ok ks ke bm' /\
      grows bm bm' (fun a => st' <= a < en' /\ ~ (ks <= a < ke))).
  { intros lo hi H1 H2 H3 H4 H5.
    destruct (add_region_slot_ok ks ke lo hi ty bm HB Hc ltac:(lia) ltac:(lia) H3 H4) as (bm' & i & E & HB' & _ & Er & _).
    exists E_SUCCESS, bm'. rewrite E. split_and!; [done|done|]. eapply grows_weaken; [exact H5|by eapply insert_grows]. }
  destruct (Z.ltb_spec st' ks), (Z.ltb_spec ke en'); cbn [andb].
  - destruct (add_part_ok 0 st' ks ty bm HB) as (r1 & b1 & E1 & B1 & C1); try done; [lia|lia|by left|].
    destruct (add_part_ok 0 ke en' ty b1 B1) as (r2 & b2 & E2 & B2 & C2); try done; [lia|lia|by right|].
    exists E_SUCCESS, b2. split_and!; [st_step E1; by st_step E2|done|].
    eapply grows_weaken; [|eapply grows_trans; [|exact C1|exact C2]]; cbn; intros a; lia.
  - destruct (Z.ltb_spec ks en'); cbn [andb]; [|destruct (Z.ltb_spec st' ke); cbn [andb]]; apply Hslot; try done; lia.
  - destruct (Z.ltb_spec st' ke); cbn [andb]; apply Hslot; try done; try lia.
  - destruct (Z.ltb_spec st' ke); cbn [andb]; apply Hslot; try done; try lia.
    all: destruct Hin as [?%Z.leb_gt|?%Z.ltb_ge]; lia.
Qed.

End Kernel.

(** ** What a store keeps *)

(** The new part is registered and no entry in use is overwritten. *)
Definition keeps bm bm' (P : Z -> Prop) : Prop :=
  (forall a, P a -> exists r, r ∈ mem_regions bm' /\ in_region r a /\ start_addr r <> 0) /\
  (forall r, r ∈ mem_regions bm -> start_addr r <> 0 -> r ∈ mem_regions bm').

Lemma slot_keeps ks ke st en ty bm :
  bm_ok ks ke bm -> region_count bm <> MAX_MEM_REGIONS -> 0 < st <= en -> en < 4294967296 -> (4096 | en) ->
  en <= ks \/ ke <= st ->
  exists bm', add_region_slot st en ty bm = (E_SUCCESS, bm') /\ bm_ok ks ke bm' /\
    region_count bm' = region_count bm + 1 /\ keeps bm bm' (fun a => st <= a < en).
Proof.
  intros HB Hc Hst Hen Hal Hk.
  destruct (add_region_slot_ok ks ke st en ty bm HB Hc ltac:(lia) Hen Hal Hk) as (bm' & i & E & HB' & (r0 & E0 & Z0) & Er & Ec).
  exists bm'. split; [done|]. split; [done|]. split; [done|]. split.
  - intros a Ha. exists (MemRegion st en st ty). rewrite Er. split_and!; [|done|cbn; lia].
    apply (list_elem_of_lookup_2 _ i), list_lookup_insert_eq. by eapply lookup_lt_Some.
  - intros r [j Ej]%list_elem_of_lookup Hr. rewrite Er. apply (list_elem_of_lookup_2 _ j).
    rewrite list_lookup_insert_ne; [done|]. intros ->. congruence.
Qed.

Lemma keeps_trans bm1 bm2 bm3 (P Q R : Z -> Prop) :
  (forall a, R a -> P a \/ Q a) -> keeps bm1 bm2 P -> keeps bm2 bm3 Q -> keeps bm1 bm3 R.
Proof.
  intros HR [H1 H2] [H3 H4]. split; [|auto]. intros a Ha. destruct (HR a Ha) as [Hp|Hq]; [|by apply H3].
  destruct (H1 a Hp) as (r & Hr & Hin & Hs). exists r. auto.
Qed.

Lemma keeps_weaken bm bm' (P Q : Z -> Prop) : (forall a, Q a -> P a) -> keeps bm bm' P -> keeps bm bm' Q.
Proof. intros HQ [H1 H2]. split; auto. Qed.

Lemma add_keeps KS KE st en ty bm :
  PAGE_ALIGN KS < PAGE_ALIGN KE -> bm_ok (PAGE_ALIGN KS) (PAGE_ALIGN KE) bm -> 0 <= en < 4294967296 ->
  add_rejected KS KE st en ty bm = false -> region_count bm + 2 <= MAX_MEM_REGIONS ->
  ~ (PAGE_ALIGN KS <= PAGE_ALIGN st /\ PAGE_ALIGN_DOWN en = PAGE_ALIGN KE) -> PAGE_ALIGN st <> 0 ->
  exists bm', bootmem_add_mem_region KS KE st en ty bm = Some (E_SUCCESS, bm') /\ keeps bm bm' (offered KS KE st en).
Proof.
  intros Hk HB Hen HR Hc Hgap Hst0. rewrite add_accept by done. cbv zeta.
  pose proof (PAGE_ALIGN_word st) as [Hs Ds]. pose proof (PAGE_ALIGN_DOWN_word en Hen) as [He De].
  pose proof (PAGE_ALIGN_word KS) as [Hks Dks]. pose proof (PAGE_ALIGN_word KE) as [Hke Dke].
  unfold add_rejected in HR. unfold offered.
  set (st' := PAGE_ALIGN st) in *. set (en' := PAGE_ALIGN_DOWN en) in *.
  set (ks := PAGE_ALIGN KS) in *. set (ke := PAGE_ALIGN KE) in *.
  apply orb_false_iff in HR as [HR Hlt]. apply orb_false_iff in HR as [HR Hty].
  apply orb_false_iff in HR as [Hc' Hin]. apply Z.leb_gt in Hlt. apply negb_false_iff in Hty.
  apply Z.eqb_neq in Hc'. apply andb_false_iff in Hin.
  assert (Hslot : forall lo hi, 0 < lo <= hi -> hi < 4294967296 -> (4096 | hi) -> hi <= ks \/ ke <= lo ->
    (forall a, st' <= a < en' /\ ~ (ks <= a < ke) -> lo <= a < hi) ->
    exists bm', Some (add_region_slot lo hi ty bm) = Some (E_SUCCESS, bm') /\
      keeps bm bm' (fun a => st' <= a < en' /\ ~ (ks <= a < ke))).
  { intros lo hi H1 H2 H3 H4 H5. destruct (slot_keeps ks ke lo hi ty bm HB Hc' H1 H2 H3 H4) as (bm' & E & _ & _ & HK).
    exists bm'. rewrite E. split; [done|]. exact (keeps_weaken bm bm' _ _ H5 HK). }
  destruct (Z.ltb_spec st' ks), (Z.ltb_spec ke en'); cbn [andb].
  - destruct (slot_keeps ks ke st' ks ty bm HB Hc' ltac:(lia) ltac:(lia) Dks ltac:(by left)) as (b1 & E1 & B1 & C1 & K1).
    destruct (slot_keeps ks ke ke en' ty b1 B1) as (b2 & E2 & B2 & C2 & K2); [lia..|done|by right|].
    exists b2. split; [|eapply keeps_trans; [|exact K1|exact K2]; cbn; lia].
    erewrite bind_some by (rewrite add_part by (done || lia || by left); rewrite E1;
      rewrite (proj2 (Z.eqb_neq _ _) Hc'); done).
    erewrite bind_some by (rewrite add_part by (done || lia || by right); rewrite E2;
      rewrite (proj2 (Z.eqb_neq (region_count b1) MAX_MEM_REGIONS)) by lia; done). done.
  - destruct (Z.ltb_spec ks en'); cbn [andb]; [|destruct (Z.ltb_spec st' ke); cbn [andb]]; apply Hslot; try done; lia.
  - destruct (Z.ltb_spec st' ke); cbn [andb]; apply Hslot; try done; try lia.
  - destruct (Z.ltb_spec st' ke); cbn [andb]; apply Hslot; try done; try lia.
    all: destruct Hin as [?%Z.leb_gt|?%Z.ltb_ge]; lia.
Qed.

(** ** Allocation *)

Lemma alloc_scan_some l size al i a :
  alloc_scan l size al = Some (i, a) ->
  exists r, l !! i = Some r /\ type r = MEM_REGION_AVAILABLE /\ a = ALIGN (start_addr r) al /\
    a < end_addr r /\ size <= u32 (end_addr r - a).
Proof.
  revert i. induction l as [|r l IH]; intros i; cbn [alloc_scan]; [discriminate|]. cbv zeta.
  assert (Hnext : (fun '(i, a) => (S i, a)) <$> alloc_scan l size al = Some (i, a) ->
    exists q, (r :: l) !! i = Some q /\ type q = MEM_REGION_AVAILABLE /\ a = ALIGN (start_addr q) al /\
      a < end_addr q /\ size <= u32 (end_addr q - a)).
  { destruct (alloc_scan l size al) as [[j b]|]; [|discriminate]. intros [= <- <-]. by apply IH. }
  destruct (Z.eqb_spec (type r) MEM_REGION_AVAILABLE); cbn [negb]; [|exact Hnext].
  destruct (Z.leb_spec (end_addr r) (ALIGN (start_addr r) al)); [exact Hnext|].
  destruct (Z.leb_spec size (u32 (end_addr r - ALIGN (start_addr r) al))); [|exact Hnext].
  intros [= <- <-]. by exists r.
Qed.

Lemma alloc_scan_none l size al r :
  alloc_scan l size al = None -> r ∈ l -> type r = MEM_REGION_AVAILABLE ->
  ALIGN (start_addr r) al < end_addr r -> u32 (end_addr r - ALIGN (start_addr r) al) < size.
Proof.
  induction l as [|q l IH]; cbn [alloc_scan]; [set_solver|]. cbv zeta. intros HN [->|Hr]%elem_of_cons Ht Hlt.
  - rewrite Ht in HN. change (negb (MEM_REGION_AVAILABLE =? MEM_REGION_AVAILABLE)) with false in HN.
    cbv iota in HN. destruct (Z.leb_spec (end_addr q) (ALIGN (start_addr q) al)); [lia|].
    destruct (Z.leb_spec size (u32 (end_addr q - ALIGN (start_addr q) al))); [discriminate|done].
  - apply IH; [|done..]. destruct (alloc_scan l size al) as [[]|]; [|done]. exfalso. revert HN.
    destruct (type q =? MEM_REGION_AVAILABLE), (end_addr q <=? ALIGN (start_addr q) al),
      (size <=? u32 (end_addr q - ALIGN (start_addr q) al)); discriminate.
Qed.

(** Moving a region's start past an allocation. *)
Definition carve (a size : Z) r : mem_region :=
  MemRegion (u32 (a + size)) (end_addr r) (orig_start_addr r) (type r).

Lemma bootmem_alloc_scan size al bm :
  bootmem_alloc size al bm =
    match alloc_scan (mem_regions bm) size al with
    | Some (i, a) => Some (Some (PHY_TO_VIR a), with_regions (alter (carve a size) i (mem_regions bm)) bm)
    | None => Some (None, bm)
    end.
Proof. reflexivity. Qed.

Section Alloc.
  Context (ks ke size j : Z) (bm : bootmem).
  Context (HB : bm_ok ks ke bm) (HD : bm_disjoint bm).
  Context (Hsize : 0 <= size) (Hj : 0 <= j < 32).
  Context (Hroom : highest_pfn bm * 4096 + 2 ^ j <= 4294967296).

Lemma align_in_region r :
  r ∈ mem_regions bm ->
  start_addr r <= ALIGN (start_addr r) (2 ^ j) < start_addr r + 2 ^ j /\
  (2 ^ j | ALIGN (start_addr r) (2 ^ j)).
Proof using HB Hj Hroom.
  intros Hr. destruct (bo_region _ _ _ HB r Hr) as (H1 & H2 & _).
  assert (0 < 2 ^ j) by (apply Z.pow_pos_nonneg; lia). rewrite ALIGN_pow2 by lia.
  pose proof (Z.mod_pos_bound (- start_addr r) (2 ^ j)). split; [lia|].
  exists ((start_addr r + (- start_addr r) mod 2 ^ j) / 2 ^ j).
  rewrite (Z.mod_eq (- start_addr r)) by lia.
  replace (start_addr r + (- start_addr r - 2 ^ j * (- start_addr r / 2 ^ j)))
    with ((- (- start_addr r / 2 ^ j)) * 2 ^ j) by lia.
  by rewrite Z.div_mul by lia.
Qed.

Lemma alloc_carves i a r :
  mem_regions bm !! i = Some r -> start_addr r <= a < end_addr r -> size <= end_addr r - a ->
  let bm' := with_regions (alter (carve a size) i (mem_regions bm)) bm in
  bm_ok ks ke bm' /\ bm_disjoint bm' /\
  forall b, in_regions bm' b -> in_regions bm b /\ ~ (a <= b < a + size).
Proof.
  intros Ei Ha Hs bm'. pose proof HB as [HL HC HT HU HR].
  assert (Hr : r ∈ mem_regions bm) by by eapply list_elem_of_lookup_2.
  destruct (HR r Hr) as (R1 & R2 & R3 & R4).
  assert (Eu : u32 (a + size) = a + size) by (apply u32_small; lia).
  assert (Hlk : forall k q, mem_regions bm' !! k = Some q ->
    (k = i /\ q = carve a size r) \/ (k <> i /\ mem_regions bm !! k = Some q)).
  { intros k q. cbn. rewrite list_lookup_alter. destruct (decide (i = k)) as [<-|]; [|by right].
    rewrite Ei. intros [= <-]. by left. }
  assert (Hsub : forall k q b, mem_regions bm' !! k = Some q -> in_region q b ->
    (exists q', mem_regions bm !! k = Some q' /\ in_region q' b) /\ ~ (k = i /\ a <= b < a + size)).
  { intros k q b Ek Hb. destruct (Hlk k q Ek) as [[-> ->]|[Hne Ek']].
    - unfold in_region in Hb. cbn in Hb. rewrite Eu in Hb. split; [|lia]. exists r. split; [done|].
      unfold in_region. lia.
    - split; [eauto|]. by intros [? _]. }
  split_and!.
  - constructor; cbn; [by rewrite length_alter|done|done| |].
    + intros k q Ek Hq. destruct (Hlk k q Ek) as [[-> ->]|[_ Ek']]; [|by apply (HU k q)].
      apply (HU i r); [done|]. right. lia.
    + intros q [k Ek]%list_elem_of_lookup. destruct (Hlk k q Ek) as [[-> ->]|[_ Ek']].
      * unfold region_ok. cbn. rewrite Eu. split_and!; try done; lia.
      * apply HR. by eapply list_elem_of_lookup_2.
  - intros k1 k2 q1 q2 b E1 E2 H1 H2.
    destruct (Hsub k1 q1 b E1 H1) as [(r1 & Er1 & I1) _], (Hsub k2 q2 b E2 H2) as [(r2 & Er2 & I2) _].
    by apply (HD k1 k2 r1 r2 b).
  - intros b (q & [k Ek]%list_elem_of_lookup & Hb).
    destruct (Hsub k q b Ek Hb) as [(q' & Ek' & Hb') Hn]. split.
    + exists q'. split; [by eapply list_elem_of_lookup_2|done].
    + intros Hab. apply Hn. split; [|done]. apply (HD k i q' r b); [done..|]. unfold in_region. lia.
Qed.

Lemma bootmem_alloc_spec :
  (exists a r bm', bootmem_alloc size (2 ^ j) bm = Some (Some (PHY_TO_VIR a), bm') /\
     (2 ^ j | a) /\ r ∈ mem_regions bm /\ type r = MEM_REGION_AVAILABLE /\
     (start_addr r <= a /\ a + size <= end_addr r) /\
     bm_ok ks ke bm' /\ bm_disjoint bm' /\
     highest_pfn bm' = highest_pfn bm /\ region_count bm' = region_count bm /\
     forall b, in_regions bm' b -> in_regions bm b /\ ~ (a <= b < a + size)) \/
  (bootmem_alloc size (2 ^ j) bm = Some (None, bm) /\
   forall r a, r ∈ mem_regions bm -> type r = MEM_REGION_AVAILABLE -> (2 ^ j | a) ->
     start_addr r <= a -> a < end_addr r -> end_addr r < a + size).
Proof using HB HD Hsize Hj Hroom.
  rewrite bootmem_alloc_scan. destruct (alloc_scan (mem_regions bm) size (2 ^ j)) as [[i a]|] eqn:E; [left|right].
  - destruct (alloc_scan_some _ _ _ _ _ E) as (r & Ei & Et & Ea & Hlt & Hs).
    assert (Hr : r ∈ mem_regions bm) by by eapply list_elem_of_lookup_2.
    destruct (align_in_region r Hr) as [A1 A2]. destruct (bo_region _ _ _ HB r Hr) as (R1 & R2 & _).
    pose proof (bo_top _ _ _ HB). rewrite u32_small in Hs by lia.
    destruct (alloc_carves i a r Ei ltac:(lia) ltac:(lia)) as (B1 & B2 & B3).
    exists a, r. eexists. split; [done|]. rewrite Ea in *. split_and!; try done; lia.
  - split; [done|]. intros r a Hr Et [u Hu] Ha Hlt.
    destruct (align_in_region r Hr) as [A1 [v Hv]]. destruct (bo_region _ _ _ HB r Hr) as (R1 & R2 & _).
    pose proof (bo_top _ _ _ HB). assert (0 < 2 ^ j) by (apply Z.pow_pos_nonneg; lia).
    assert (v * 2 ^ j <= u * 2 ^ j) by (apply Z.mul_le_mono_nonneg_r; [lia|]; assert (v < u + 1); [|lia];
      apply (Z.mul_lt_mono_pos_r (2 ^ j)); lia).
    pose proof (alloc_scan_none _ _ _ r E Hr Et ltac:(lia)) as Hn. rewrite u32_small in Hn by lia. lia.
Qed.

End Alloc.

(** ** Theorems *)

(** The array after a machine with memory from 0x80000 to 0x200000 and a kernel
    image from 0x100000 to 0x107800 registers its memory. *)
Definition bm_example : bootmem :=
  match bootmem_add_mem_region 0x100000 0x107800 0x80000 0x200000 MEM_REGION_AVAILABLE bootmem_init with
  | Some (_, bm) => bm
  | None => bootmem_init
  end.

Lemma bm_init_disjoint : bm_disjoint bootmem_init.
Proof. intros i j r r' a Hr _ Ha. apply (lookup_replicate_1 16) in Hr as [-> _]. unfold in_region in Ha. cbn in Ha. lia. Qed.

Lemma bm_example_ok : bm_ok 0x100000 0x108000 bm_example /\ bm_disjoint bm_example.
Proof.
  destruct (bootmem_add_safe 0x100000 0x107800 ltac:(vm_compute; done) 0x80000 0x200000 MEM_REGION_AVAILABLE bootmem_init)
    as (res & bm' & E & HB & _ & HG).
  - apply bootmem_init_ok. done.
  - done.
  - intros [_ E]. vm_compute in E. discriminate.
  - assert (bm_example = bm') as ->; [unfold bm_example; by rewrite E|]. split; [exact HB|].
    apply HG; [apply bm_init_disjoint|]. intros a _ (r & Hr & Ha).
    apply (elem_of_replicate 16) in Hr as [-> _]. unfold in_region in Ha. cbn in Ha. lia.
Qed.





(** The check for regions inside the kernel misses the last page: a region
    that starts inside the kernel image and ends exactly where the (page
    aligned) image ends is registered unchanged, so kernel pages become
    available memory. *)
Theorem bootmem_add_mem_region_gap (KS KE st en ty : Z) (bm : bootmem) :
  0 <= en < 4294967296 ->
  PAGE_ALIGN KS <= PAGE_ALIGN st < PAGE_ALIGN KE -> PAGE_ALIGN_DOWN en = PAGE_ALIGN KE ->
  valid_type ty = true -> region_count bm <> MAX_MEM_REGIONS -> (exists i, find_slot (mem_regions bm) = Some i) ->
  exists bm', bootmem_add_mem_region KS KE st en ty bm = Some (E_SUCCESS, bm') /\
    forall a, PAGE_ALIGN st <= a < PAGE_ALIGN KE -> in_regions bm' a.
Proof.
  intros Hen Hst Hke Hty Hc [i Ei]. rewrite add_accept; [|lia|done|]. cbv zeta.
  2:{ unfold add_rejected. rewrite Hty, Hke. cbn [negb]. bool_cases. }
  rewrite Hke, Z.ltb_irrefl, !andb_false_r.
  destruct (Z.ltb_spec (PAGE_ALIGN st) (PAGE_ALIGN KS)); [lia|]. cbn [andb].
  unfold add_region_slot. cbv zeta.
  assert (Ereg : forall b : bool, mem_regions (if b then with_highest (PA_TO_PFN (PAGE_ALIGN KE)) bm else bm) = mem_regions bm)
    by by intros [].
  rewrite Ereg, Ei. eexists. split; [done|]. intros a Ha. eexists. split.
  - cbn. apply (list_elem_of_lookup_2 _ i), list_lookup_insert_eq. destruct (find_slot_spec _ _ Ei) as (r & Er & _).
    by eapply lookup_lt_Some.
  - done.
Qed.

Lemma bootmem_add_mem_region_gap_witness :
  exists bm', bootmem_add_mem_region 0x100000 0x107800 0x102000 0x108000 MEM_REGION_AVAILABLE bootmem_init
    = Some (E_SUCCESS, bm') /\ in_regions bm' 0x103000.
Proof.
  destruct (bootmem_add_mem_region_gap 0x100000 0x107800 0x102000 0x108000 MEM_REGION_AVAILABLE bootmem_init)
    as (bm' & E & HO).
  - lia.
  - vm_compute. split; [discriminate|reflexivity].
  - reflexivity.
  - reflexivity.
  - vm_compute. discriminate.
  - exists 0%nat. reflexivity.
  - exists bm'. split; [exact E|]. apply HO. change (0x102000 <= 0x103000 < 0x108000). lia.
Defined.

(** C11: an early allocation either returns a block with the requested alignment
    that lies inside an available region, and takes its bytes out of the
    registered memory for good (so no later allocation, and no page handed to
    the page allocator, can contain them), or fails with the state unchanged
    and only when no available region has room at that alignment. *)
Theorem bootmem_alloc_correct (ks ke size j : Z) (bm : bootmem) :
  bm_ok ks ke bm -> bm_disjoint bm -> 0 <= size -> 0 <= j < 32 ->
  highest_pfn bm * 4096 + 2 ^ j <= 4294967296 ->
  (exists a r bm', bootmem_alloc size (2 ^ j) bm = Some (Some (PHY_TO_VIR a), bm') /\
     (2 ^ j | a) /\ r ∈ mem_regions bm /\ type r = MEM_REGION_AVAILABLE /\
     (start_addr r <= a /\ a + size <= end_addr r) /\ bm_ok ks ke bm' /\ bm_disjoint bm' /\
     forall b, in_regions bm' b -> in_regions bm b /\ ~ (a <= b < a + size)) \/
  (bootmem_alloc size (2 ^ j) bm = Some (None, bm) /\
   forall r a, r ∈ mem_regions bm -> type r = MEM_REGION_AVAILABLE -> (2 ^ j | a) ->
     start_addr r <= a -> a < end_addr r -> end_addr r < a + size).
Proof.
  intros HB HD Hs Hj Ht. destruct (bootmem_alloc_spec ks ke size j bm HB HD Hs Hj Ht)
    as [(a & r & bm' & E & H1 & H2 & H3 & H4 & H5 & H6 & _ & _ & H7)|HN]; [left|by right].
  exists a, r, bm'. auto 10.
Qed.

Lemma bootmem_alloc_correct_witness :
  exists a bm', bootmem_alloc 0x6000 (2 ^ 14) bm_example = Some (Some (PHY_TO_VIR a), bm') /\
    (2 ^ 14 | a) /\ ~ in_regions bm' a.
Proof.
  destruct (bootmem_alloc_correct 0x100000 0x108000 0x6000 14 bm_example)
    as [(a & r & bm' & E & HA & _ & _ & _ & _ & _ & HC)|[E _]].
  - apply bm_example_ok.
  - apply bm_example_ok.
  - lia.
  - lia.
  - vm_compute. discriminate.
  - exists a, bm'. split; [exact E|]. split; [exact HA|]. intros Hin. destruct (HC a Hin) as [_ Hn]. apply Hn. lia.
  - vm_compute in E. discriminate.
Defined.
