(* ===== verification/Blocks.v ===== *)
(** * Aligned blocks of pages

    The geometry behind the buddy system, free of any allocator state.  A block
    is a pair of its first page and its order; an aligned block of order [k]
    starts at a multiple of [2^k].  Two aligned blocks are nested or disjoint,
    a block and its buddy make up the block one order higher, and a collection
    of free blocks in which no two buddies are both free is determined by the
    pages it covers. *)

From stdpp Require Import base numbers list gmap.
From Stdlib Require Import ZArith Lia Znumtheory.
From S2P Require Import Prelude.

#[local] Open Scope Z_scope.

Definition inb (x : Z) (b : Z * Z) : Prop := b.1 <= x < b.1 + 2 ^ b.2.

Definition aligned (b : Z * Z) : Prop := 0 <= b.1 /\ 0 <= b.2 /\ (2 ^ b.2 | b.1).

(** The buddy of block [(p, k)] and the first page of the pair. *)
Definition bud (p k : Z) : Z := Z.lxor p (2 ^ k).

Definition par (p k : Z) : Z := Z.land p (Z.lnot (2 ^ k)).

#[export] Instance inb_dec x b : Decision (inb x b).
Proof. unfold inb. apply _. Defined.

Lemma pow2_pos k : 0 <= k -> 0 < 2 ^ k.
Proof. intros. apply Z.pow_pos_nonneg; lia. Qed.

Lemma inb_head p k : 0 <= k -> inb p (p, k).
Proof. intros Hk. unfold inb. cbn. pose proof (pow2_pos k Hk). lia. Qed.

Lemma divide_pow2 j k : 0 <= j <= k -> (2 ^ j | 2 ^ k).
Proof. intros. exists (2 ^ (k - j)). rewrite <- Z.pow_add_r by lia. f_equal. lia. Qed.

(** Aligned blocks that share a page are nested. *)
Lemma aligned_nest b c x :
  aligned b -> aligned c -> inb x b -> inb x c -> b.2 <= c.2 -> forall y, inb y b -> inb y c.
Proof.
  destruct b as [p j], c as [q k]. unfold aligned, inb. cbn.
  intros (Hp & Hj & [u Hu]) (Hq & Hk & [v Hv]) Hx Hy Hjk y Hyb.
  destruct (divide_pow2 j k) as [w Hw]; [lia|]. pose proof (pow2_pos j Hj) as Hm.
  rewrite Hw in *. rewrite Hu, Hv in *. set (m := 2 ^ j) in *.
  assert (u < v * w + w) by (apply (Z.mul_lt_mono_pos_r m); lia).
  assert (v * w < u + 1) by (apply (Z.mul_lt_mono_pos_r m); lia).
  assert ((u + 1) * m <= (v * w + w) * m) by (apply Z.mul_le_mono_nonneg_r; lia).
  assert ((v * w) * m <= u * m) by (apply Z.mul_le_mono_nonneg_r; lia). lia.
Qed.

Lemma aligned_same b c x :
  aligned b -> aligned c -> inb x b -> inb x c -> b.2 = c.2 -> b = c.
Proof.
  intros Hb Hc Hx Hy E.
  assert (H1 : inb b.1 c).
  { eapply (aligned_nest b c x); try done; [lia|]. destruct b. apply inb_head. apply Hb. }
  assert (H2 : inb c.1 b).
  { eapply (aligned_nest c b x); try done; [lia|]. destruct c. apply inb_head. apply Hc. }
  destruct b, c. unfold inb in *. cbn in *. f_equal; lia.
Qed.

(** A smaller aligned block around the first page of a larger one starts there. *)
Lemma aligned_head b c : aligned b -> aligned c -> inb c.1 b -> b.2 <= c.2 -> b.1 = c.1.
Proof.
  intros Hb Hc Hx Hle.
  assert (H1 : inb b.1 c).
  { eapply (aligned_nest b c c.1); try done.
    - destruct c. apply inb_head. apply Hc.
    - destruct b. apply inb_head. apply Hb. }
  unfold inb in *. lia.
Qed.

(** ** Buddies *)

Lemma bud_eq p k : 0 <= k -> bud p k = if Z.testbit p k then p - 2 ^ k else p + 2 ^ k.
Proof. apply lxor_pow2. Qed.

Lemma par_eq p k : 0 <= k -> par p k = if Z.testbit p k then p - 2 ^ k else p.
Proof. apply land_lnot_pow2. Qed.

Lemma bud_bud p k : bud (bud p k) k = p.
Proof. unfold bud. rewrite Z.lxor_assoc, Z.lxor_nilpotent. apply Z.lxor_0_r. Qed.

Lemma par_bud p k : 0 <= k -> par (bud p k) k = par p k.
Proof.
  intros Hk. unfold par, bud. apply Z.bits_inj'. intros n Hn.
  rewrite !Z.land_spec, Z.lxor_spec, Z.lnot_spec by done.
  destruct (Z.eqb_spec n k) as [->|].
  - rewrite Z.pow2_bits_true by done. by rewrite !andb_false_r.
  - rewrite Z.pow2_bits_false by lia. by rewrite xorb_false_r.
Qed.

(** Either half of a pair reaches the other by flipping bit [k]. *)
Lemma bud_par p k : 0 <= k -> bud (par p k) k = par p k + 2 ^ k.
Proof.
  intros Hk. rewrite bud_eq by done. unfold par.
  rewrite Z.land_spec, Z.lnot_spec, Z.pow2_bits_true by done. by rewrite andb_false_r.
Qed.

Lemma aligned_mod p k : aligned (p, k) -> p mod 2 ^ k = 0.
Proof.
  intros (_ & Hk & Hd). cbn in *. apply Z.mod0_divide. done.
Qed.

Lemma aligned_par p k : aligned (p, k) -> aligned (par p k, k + 1).
Proof.
  intros Ha. pose proof (aligned_mod p k Ha) as Hm. destruct Ha as (Hp & Hk & _). cbn in *.
  pose proof (pow2_pos k Hk). pose proof (pow2_pos (k + 1) ltac:(lia)).
  assert (E : par p k = p - p mod 2 ^ (k + 1)).
  { rewrite testbit_add_pow2, par_eq by done. destruct (Z.testbit p k); cbn [Z.b2z]; lia. }
  pose proof (Z.mod_le p (2 ^ (k + 1))). split_and!; cbn; [lia|lia|].
  rewrite E. exists (p / 2 ^ (k + 1)). rewrite (Z.mod_eq p) by lia. lia.
Qed.

Lemma aligned_low p k : 0 <= k -> aligned (p, k + 1) -> aligned (p, k) /\ aligned (p + 2 ^ k, k).
Proof.
  intros Hk (Hp & _ & [u Hu]). cbn in *. pose proof (pow2_pos k Hk).
  rewrite Z.pow_add_r, Z.pow_1_r in Hu by lia.
  split; (split_and!; cbn; [lia|lia|]); [exists (2 * u)|exists (2 * u + 1)]; lia.
Qed.

Lemma inb_split x p k :
  0 <= k -> inb x (p, k + 1) <-> inb x (p, k) \/ inb x (p + 2 ^ k, k).
Proof.
  intros Hk. unfold inb. cbn. pose proof (pow2_pos k Hk).
  rewrite Z.pow_add_r, Z.pow_1_r by lia. lia.
Qed.

Lemma par_cases p k : 0 <= k -> par p k = p \/ par p k = bud p k.
Proof. intros Hk. rewrite par_eq, bud_eq by done. destruct (Z.testbit p k); auto. Qed.

(** A block and its buddy are the two halves of their parent. *)
Lemma inb_par x p k : 0 <= k -> inb x (par p k, k + 1) <-> inb x (p, k) \/ inb x (bud p k, k).
Proof.
  intros Hk. rewrite inb_split, <- bud_par by done.
  destruct (par_cases p k Hk) as [E|E]; rewrite E; [done|]. rewrite bud_bud. tauto.
Qed.

Lemma aligned_bud p k : aligned (p, k) -> aligned (bud p k, k).
Proof.
  intros Ha. assert (Hk : 0 <= k) by apply Ha. pose proof (aligned_par p k Ha) as Hp.
  apply aligned_low in Hp as [H1 H2]; [|done]. rewrite <- bud_par in H2 by done.
  destruct (par_cases p k Hk) as [E|E]; rewrite E in *; [done|]. done.
Qed.

Lemma bud_disjoint x p k : 0 <= k -> inb x (p, k) -> inb x (bud p k, k) -> False.
Proof.
  intros Hk. unfold inb. cbn. rewrite bud_eq by done. pose proof (pow2_pos k Hk).
  destruct (Z.testbit p k); lia.
Qed.

Lemma bud_ne p k : 0 <= k -> bud p k <> p.
Proof.
  intros Hk. rewrite bud_eq by done. pose proof (pow2_pos k Hk). destruct (Z.testbit p k); lia.
Qed.

(** ** Fully merged collections are canonical *)

Section Canonical.
  Context (max : Z) (D : Z * Z -> Prop).
  Context (D_wf : forall b, D b -> aligned b /\ b.2 <= max).
  Context (D_merged : forall p k, D (p, k) -> k < max -> ~ D (bud p k, k)).

(** A block whose pages are all covered lies inside one block of the collection. *)
Lemma covered_inside k p :
  0 <= k <= max -> aligned (p, k) ->
  (forall x, inb x (p, k) -> exists b, D b /\ inb x b) ->
  exists b, D b /\ k <= b.2 /\ forall x, inb x (p, k) -> inb x b.
Proof.
  intros [Hk Hm]. revert Hm p. pattern k. apply Zlt_0_ind; [|done].
  clear k Hk. intros k IH Hk Hm p Ha Hc. destruct (decide (k = 0)) as [->|Hk0].
  - destruct (Hc p) as (b & Hb & Hin); [by apply inb_head|]. exists b.
    destruct (D_wf b Hb) as [Hab _]. split_and!; [done|apply Hab|].
    apply (aligned_nest (p, 0) b p); [done..|by apply inb_head|done|apply Hab].
  - assert (Hk1 : 0 <= k - 1) by lia. replace k with (k - 1 + 1) in Ha |- * by lia.
    destruct (aligned_low p (k - 1) Hk1 Ha) as [Ha1 Ha2].
    assert (Hsp := fun x => inb_split x p (k - 1) Hk1).
    replace (k - 1 + 1) with k in Hsp by lia.
    destruct (IH (k - 1) ltac:(lia) ltac:(lia) p Ha1) as ([q1 j1] & D1 & J1 & I1).
    { intros x Hx. apply Hc, Hsp. by left. }
    destruct (IH (k - 1) ltac:(lia) ltac:(lia) _ Ha2) as ([q2 j2] & D2 & J2 & I2).
    { intros x Hx. apply Hc, Hsp. by right. }
    cbn in J1, J2. destruct (D_wf _ D1) as [A1 M1], (D_wf _ D2) as [A2 M2]. cbn in *.
    assert (P1 := inb_head p (k - 1) Hk1). assert (P2 := inb_head (p + 2 ^ (k - 1)) (k - 1) Hk1).
    destruct (decide (j1 = k - 1)) as [->|N1]; [destruct (decide (j2 = k - 1)) as [->|N2]|].
    + exfalso. assert (E1 : (q1, k - 1) = (p, k - 1)) by (eapply aligned_same; eauto).
      assert (E2 : (q2, k - 1) = (p + 2 ^ (k - 1), k - 1)) by (eapply aligned_same; eauto).
      injection E1 as ->. injection E2 as ->.
      assert (E : par p (k - 1) = p).
      { apply (aligned_head (par p (k - 1), k - 1 + 1) (p, k - 1 + 1)); cbn;
          [by apply aligned_par|done| |lia]. apply inb_par; [done|]. by left. }
      apply (D_merged p (k - 1)); [done|lia|]. rewrite <- E at 1. rewrite bud_par, E by done. done.
    + exists (q2, j2). split_and!; [done|cbn; lia|].
      eapply (aligned_nest (p, k - 1 + 1) (q2, j2)); [done|done| |by apply I2|cbn; lia].
      apply inb_split; [done|]. by right.
    + exists (q1, j1). split_and!; [done|cbn; lia|].
      eapply (aligned_nest (p, k - 1 + 1) (q1, j1)); [done|done| |by apply I1|cbn; lia].
      apply inb_split; [done|]. by left.
Qed.

End Canonical.

(** Two disjoint, fully merged collections that cover the same pages are equal. *)
Lemma merged_canonical max (D E : Z * Z -> Prop) :
  (forall b, D b -> aligned b /\ b.2 <= max) -> (forall b, E b -> aligned b /\ b.2 <= max) ->
  (forall p k, D (p, k) -> k < max -> ~ D (bud p k, k)) ->
  (forall p k, E (p, k) -> k < max -> ~ E (bud p k, k)) ->
  (forall b c x, D b -> D c -> inb x b -> inb x c -> b = c) ->
  (forall x, (exists b, D b /\ inb x b) -> exists b, E b /\ inb x b) ->
  (forall x, (exists b, E b /\ inb x b) -> exists b, D b /\ inb x b) ->
  forall b, D b -> E b.
Proof.
  intros WD WE MD ME DD HDE HED [p k] HD. destruct (WD _ HD) as [Ha Hm]. cbn in Hm.
  assert (Hk : 0 <= k) by apply Ha.
  destruct (covered_inside max E WE ME k p) as ([q j] & HE & Hj & Hin); [lia|done| |].
  { intros x Hx. apply HDE. eauto. }
  destruct (WE _ HE) as [Hae Hme]. cbn in Hj, Hme.
  destruct (covered_inside max D WD MD j q) as (c & HDc & Hjc & Hinc); [lia|done| |].
  { intros x Hx. apply HED. eauto. }
  assert (c = (p, k)) as ->.
  { apply (DD c (p, k) p); [done..| |by apply inb_head]. apply Hinc, Hin. by apply inb_head. }
  cbn in Hjc. assert (j = k) as -> by lia.
  assert ((q, k) = (p, k)) as <-; [|done].
  eapply (aligned_same _ _ p); [done..| | |done]; [apply Hin|]; by apply inb_head.
Qed.
