(* ===== verification/Palloc.v ===== *)
(** * The buddy page allocator (kernel/mm/palloc.c, include/rotary/mm/palloc.h)

    The state is the [struct page] array, the list heads and counters of the
    orders, and the list nodes embedded in both, kept as a pointer heap of
    LinkedList.v.  A [struct page *] is [Some i] for [page_area + i] and [None]
    for NULL; an access outside the array is a fault. *)

From stdpp Require Import base numbers list gmap.
From Stdlib Require Import ZArith Lia.
From S2P Require Import Prelude LinkedList PageDefs Bootmem.

#[local] Open Scope Z_scope.

Definition ORDER_USED : Z := -1.
Definition ORDER_MIN : Z := 0.
Definition ORDER_MAX : Z := 6.

Definition PR_KERNEL : Z := 1.

Definition PF_INVALID : Z := 0x01.
Definition PF_ZONE_LOWMEM : Z := 0x02.
Definition PF_ZONE_HIGHMEM : Z := 0x04.
Definition PF_KERNEL : Z := 0x08.

Definition SIZEOF_PAGE : Z := 24.

(** [struct page]; its [buddy_node] is the heap node [PageNode i]. *)
Record page : Type := Page {
  pfn : Z;
  use_count : Z;
  flags : Z;
  order : Z
}.

(** [struct block_list]; its [free_pages] is the heap node [HeadNode k]. *)
Record block_list : Type := BlockList {
  free_count : Z;
  used_count : Z
}.

Inductive bnode : Type :=
  | HeadNode (k : Z)
  | PageNode (i : Z).

#[export] Instance bnode_eq_dec : EqDecision bnode.
Proof. solve_decision. Defined.

#[export] Instance bnode_countable : Countable bnode.
Proof.
  refine (inj_countable'
    (fun n => match n with HeadNode k => inl k | PageNode i => inr i end)
    (fun s => match s with inl k => HeadNode k | inr i => PageNode i end) _).
  by intros [].
Defined.

(** [struct buddy_allocator] with the arrays it points to, and the two page
    counters of the file. *)
Record buddy : Type := Buddy {
  page_area : Z;
  page_count : Z;
  blocks : gmap Z block_list;
  max_order : Z;
  lock_flag : bool;
  pages : gmap Z page;
  nodes : gmap bnode (lnode bnode);
  low_pages : Z;
  high_pages : Z
}.

Definition with_blocks (b : gmap Z block_list) (s : buddy) : buddy :=
  Buddy (page_area s) (page_count s) b (max_order s) (lock_flag s) (pages s) (nodes s)
    (low_pages s) (high_pages s).

Definition with_lock (b : bool) (s : buddy) : buddy :=
  Buddy (page_area s) (page_count s) (blocks s) (max_order s) b (pages s) (nodes s)
    (low_pages s) (high_pages s).

Definition with_pages (p : gmap Z page) (s : buddy) : buddy :=
  Buddy (page_area s) (page_count s) (blocks s) (max_order s) (lock_flag s) p (nodes s)
    (low_pages s) (high_pages s).

Definition with_nodes (h : gmap bnode (lnode bnode)) (s : buddy) : buddy :=
  Buddy (page_area s) (page_count s) (blocks s) (max_order s) (lock_flag s) (pages s) h
    (low_pages s) (high_pages s).

Definition set_order (o : Z) (p : page) : page := Page (pfn p) (use_count p) (flags p) o.

Definition set_uses (n : Z) (p : page) : page := Page (pfn p) n (flags p) (order p).

Definition set_flags (f : Z) (p : page) : page := Page (pfn p) (use_count p) f (order p).

Definition set_free_count (n : Z) (b : block_list) : block_list := BlockList n (used_count b).

(** ** Memory accesses *)

Definition get_page (p : option Z) : ST buddy page :=
  fun s => match p ≫= (pages s !!.) with
           | Some pg => Some (pg, s)
           | None => None
           end.

Definition upd_page (p : option Z) (f : page -> page) : ST buddy unit :=
  fun s => match p with
           | Some i => match pages s !! i with
                       | Some pg => Some (tt, with_pages (<[i := f pg]> (pages s)) s)
                       | None => None
                       end
           | None => None
           end.

Definition get_free_count (k : Z) : ST buddy Z :=
  fun s => match blocks s !! k with
           | Some b => Some (free_count b, s)
           | None => None
           end.

Definition add_free_count (k d : Z) : ST buddy unit :=
  fun s => match blocks s !! k with
           | Some b => Some (tt, with_blocks (<[k := set_free_count (u32 (free_count b + d)) b]>
                                                (blocks s)) s)
           | None => None
           end.

Definition on_nodes {A} (m : ST (gmap bnode (lnode bnode)) A) : ST buddy A :=
  fun s => match m (nodes s) with
           | Some (a, h) => Some (a, with_nodes h s)
           | None => None
           end.

(** The spinlock on a single processor: taking it while it is held never
    returns. *)
Definition lock : ST buddy unit :=
  fun s => if lock_flag s then None else Some (tt, with_lock true s).

Definition unlock : ST buddy unit := modify (with_lock false).

Definition PAGE_INC_USES (p : option Z) : ST buddy unit :=
  upd_page p (fun pg => set_uses (u32 (use_count pg + 1)) pg).

Definition PAGE_DEC_USES (p : option Z) : ST buddy unit :=
  upd_page p (fun pg => set_uses (u32 (use_count pg - 1)) pg).

(** ** Operations *)

Definition page_from_pfn (n : Z) : option Z := Some n.

Definition buddy_get (p : option Z) (k : Z) : ST buddy (option Z) :=
  (pg <- get_page p ;;
   ret (page_from_pfn (Z.lxor (pfn pg) (u32 (Z.shiftl 1 k)))))%st.

Definition node_of (p : option Z) : option bnode := PageNode <$> p.

Definition buddy_add_block (block_page : option Z) (k : Z) : ST buddy unit :=
  (upd_page block_page (set_order (i32 k)) ;;
   on_nodes (clist_add (Some (HeadNode k)) (node_of block_page)) ;;
   add_free_count k 1)%st.

Definition buddy_remove_block (block_page : option Z) : ST buddy unit :=
  (on_nodes (clist_delete_node (node_of block_page)) ;;
   pg <- get_page block_page ;;
   add_free_count (order pg) (-1) ;;
   upd_page block_page (set_order ORDER_USED))%st.

(** [container_of(head->prev, struct page, buddy_node)].  On an empty list
    [head->prev] is the head, which is no page: the pointer would be wild, and
    the model faults. *)
Definition page_get_last (k : Z) : ST buddy (option Z) :=
  (p <- on_nodes (load_prev (Some (HeadNode k))) ;;
   match p with
   | None => ret None
   | Some (PageNode i) => ret (Some i)
   | Some (HeadNode _) => fault
   end)%st.

Fixpoint split_block (fuel : nat) (k : Z) : ST buddy Z :=
  match fuel with
  | O => fault
  | S f =>
      (if ORDER_MAX <? k then ret E_ERROR else
       fc <- get_free_count k ;;
       ok <- (if fc =? 0 then
                split_block f (u32 (k + 1)) ;;
                fc <- get_free_count k ;;
                ret (negb (fc =? 0))
              else ret true) ;;
       if negb ok then ret E_ERROR else
       target <- page_get_last k ;;
       match target with
       | None => ret E_ERROR
       | Some _ =>
           buddy_remove_block target ;;
           buddy <- buddy_get target (u32 (k - 1)) ;;
           buddy_add_block target (u32 (k - 1)) ;;
           buddy_add_block buddy (u32 (k - 1)) ;;
           ret E_SUCCESS
       end)%st
  end.

(** The recursion climbs one order per call and stops above [ORDER_MAX]. *)
Definition buddy_split_block (k : Z) : ST buddy Z := split_block 8 k.

Fixpoint merge_loop (fuel : nat) (block_page : option Z) (k : Z) : ST buddy (option Z * Z) :=
  match fuel with
  | O => fault
  | S f =>
      (if k <? ORDER_MAX then
         buddy <- buddy_get block_page k ;;
         b <- get_page buddy ;;
         if negb (u32 (order b) =? k) then ret (block_page, k)
         else if TEST_BIT (flags b) PF_INVALID then ret (block_page, k)
         else
           on_nodes (clist_delete_node (node_of buddy)) ;;
           add_free_count k (-1) ;;
           bp <- get_page block_page ;;
           (let block_page := page_from_pfn (Z.land (pfn bp) (u32 (Z.lnot (Z.shiftl 1 k)))) in
            p <- buddy_get block_page k ;;
            upd_page p (set_order (i32 k)) ;;
            merge_loop f block_page (u32 (k + 1)))
       else ret (block_page, k))%st
  end.

Definition buddy_merge_block (block_page : option Z) (k : Z) : ST buddy Z :=
  (r <- merge_loop 8 block_page k ;;
   buddy_add_block (fst r) (snd r) ;;
   ret E_SUCCESS)%st.

Definition page_alloc (k fl : Z) : ST buddy (option Z) :=
  (if (k <? ORDER_MIN) || (ORDER_MAX <? k) then ret None else
   lock ;;
   fc <- get_free_count k ;;
   ok <- (if fc =? 0 then
            buddy_split_block (u32 (k + 1)) ;;
            fc <- get_free_count k ;;
            ret (negb (fc =? 0))
          else ret true) ;;
   if negb ok then unlock ;; ret None else
   last_page <- page_get_last k ;;
   match last_page with
   | Some _ =>
       buddy_remove_block last_page ;;
       PAGE_INC_USES last_page ;;
       unlock ;;
       ret last_page
   | None => unlock ;; ret None
   end)%st.

Section Kernel.
  Context (KERNEL_PHYS_START KERNEL_PHYS_END : Z).

Definition page_is_critical (p : option Z) : ST buddy Z :=
  match p with
  | None => ret E_ERROR
  | Some _ =>
      (pg <- get_page p ;;
       let a := PFN_TO_PA (pfn pg) in
       ret (if (KERNEL_PHYS_START <=? a) && (a <? KERNEL_PHYS_END) then E_ERROR else E_SUCCESS))%st
  end.

Definition page_free (current_page : option Z) (k : Z) : ST buddy Z :=
  match current_page with
  | None => ret E_ERROR
  | Some _ =>
      (crit <- page_is_critical current_page ;;
       if negb (crit =? 0) then ret E_ERROR else
       pg <- get_page current_page ;;
       if 1 <? use_count pg then
         lock ;; PAGE_DEC_USES current_page ;; unlock ;; ret E_SUCCESS
       else
         lock ;;
         upd_page current_page (set_order (i32 k)) ;;
         buddy_merge_block current_page (u32 k) ;;
         PAGE_DEC_USES current_page ;;
         unlock ;;
         ret E_SUCCESS)%st
  end.

(** The inline wrappers of palloc.h.  [PAGE_PA(page_alloc(..))] dereferences the
    result without a NULL test. *)
Definition PAGE_PA (p : option Z) : ST buddy Z := (pg <- get_page p ;; ret (PFN_TO_PA (pfn pg)))%st.

Definition PAGE_VA (p : option Z) : ST buddy Z :=
  (pg <- get_page p ;; ret (PHY_TO_VIR (PFN_TO_PA (pfn pg))))%st.

Definition page_alloc_pa (k fl : Z) : ST buddy Z := (p <- page_alloc k fl ;; PAGE_PA p)%st.

Definition page_alloc_va (k fl : Z) : ST buddy Z := (p <- page_alloc k fl ;; PAGE_VA p)%st.

Definition page_free_pa (pa k : Z) : ST buddy Z := page_free (page_from_pfn (PA_TO_PFN pa)) k.

Definition page_free_va (va k : Z) : ST buddy Z := page_free (page_from_pfn (VA_TO_PFN va)) k.

Definition page_mark_invalid (p : option Z) : ST buddy unit :=
  upd_page p (fun pg => set_flags (SET_BIT (flags pg) PF_INVALID) pg).

Definition page_initial_free (p : option Z) : ST buddy unit :=
  (lock ;; buddy_merge_block p 0 ;; unlock)%st.

Definition page_area_end : ST buddy Z :=
  gets (fun s => u32 (page_area s + SIZEOF_PAGE * page_count s)).

(** ** Initialisation *)

(** One iteration of the page loop of [buddy_init]: the entry of page [i]. *)
Definition init_page (area_end i : Z) : page :=
  let a := PFN_TO_PA i in
  let f := SET_BIT 0 PF_INVALID in
  let f := if a <? LOWMEM_PLIMIT then SET_BIT f PF_ZONE_LOWMEM else SET_BIT f PF_ZONE_HIGHMEM in
  let f := if (KERNEL_PHYS_START <=? a) && (a <? area_end) then SET_BIT f PF_KERNEL else f in
  Page i 0 f 0.

Definition self_node (n : bnode) : lnode bnode := LNode (Some n) (Some n).

Fixpoint init_blocks (n : nat) (s : buddy) : buddy :=
  match n with
  | O => s
  | S m =>
      let s := init_blocks m s in
      let k := Z.of_nat m in
      with_nodes (<[HeadNode k := self_node (HeadNode k)]> (nodes s))
        (with_blocks (<[k := BlockList 0 0]> (blocks s)) s)
  end.

Fixpoint init_pages (area_end : Z) (n : nat) (s : buddy) : buddy :=
  match n with
  | O => s
  | S m =>
      let s := init_pages area_end m s in
      let i := Z.of_nat m in
      let low := PFN_TO_PA i <? LOWMEM_PLIMIT in
      Buddy (page_area s) (page_count s) (blocks s) (max_order s) (lock_flag s)
        (<[i := init_page area_end i]> (pages s))
        (<[PageNode i := self_node (PageNode i)]> (nodes s))
        (if low then u32 (low_pages s + 1) else low_pages s)
        (if low then high_pages s else u32 (high_pages s + 1))
  end.

(** [buddy_init]: a failing [bootmem_alloc] is a kernel panic. *)
Definition buddy_init (highest : Z) : ST (bootmem * buddy) Z :=
  fun '(bm, s) =>
    let bytes_req := u32 (highest * SIZEOF_PAGE) in
    match bootmem_alloc bytes_req BM_NO_ALIGN bm with
    | Some (Some area, bm) =>
        let area_end := u32 (area + SIZEOF_PAGE * highest) in
        let s := Buddy area highest ∅ ORDER_MAX false ∅ ∅ (low_pages s) (high_pages s) in
        let s := init_blocks (Z.to_nat (ORDER_MAX + 1)) s in
        let s := init_pages area_end (Z.to_nat highest) s in
        Some (E_SUCCESS, (bm, s))
    | _ => None
    end.

End Kernel.
