(* ===== verification/BuddyInv.v ===== *)
(** * The invariant of the buddy allocator

    [inv s F A L] relates an allocator state [s] to its abstract content:
    - [F k], the list of free blocks of order [k], from head to tail;
    - [A], the set of blocks handed out by [page_alloc] and not yet freed;
    - [L], the blocks an operation is holding in its hands.
    The blocks of [F], [A] and [L] tile the usable pages; the concrete lists,
    counters and [order] fields agree with them.  [merged F] says that no two
    buddies below the maximal order are both free. *)

From stdpp Require Import base numbers list gmap.
From Stdlib Require Import ZArith Lia Znumtheory.
From S2P Require Import Prelude LinkedList PageDefs Bootmem Blocks Palloc.

#[local] Open Scope Z_scope.

Implicit Types (F : Z -> list Z) (A L : gset (Z * Z)) (s : buddy) (p k x n : Z).

Definition freeb F (b : Z * Z) : Prop := 0 <= b.2 <= ORDER_MAX /\ b.1 ∈ F b.2.

Definition fupd F k (l : list Z) : Z -> list Z := fun j => if decide (j = k) then l else F j.

Definition tiles F A L (b : Z * Z) : Prop := freeb F b \/ b ∈ A \/ b ∈ L.

Definition valid_page (pg : page) : Prop := TEST_BIT (flags pg) PF_INVALID = false.

Definition valid (pgs : gmap Z page) x : Prop :=
  exists pg, pgs !! x = Some pg /\ valid_page pg.

(** The concrete free lists and their counters. *)
Record lists (h : gmap bnode (lnode bnode)) (bl : gmap Z block_list) n F : Prop := Lists {
  l_nodes : forall i, 0 <= i < n -> is_Some (h !! PageNode i);
  l_ring : forall k, 0 <= k <= ORDER_MAX -> clist h (HeadNode k) (PageNode <$> F k);
  l_count : forall k, 0 <= k <= ORDER_MAX ->
    exists b, bl !! k = Some b /\ free_count b = Z.of_nat (length (F k))
}.

(** The page array and the tiling of the usable pages. *)
Record geo (pgs : gmap Z page) n F A L : Prop := Geo {
  g_count : 0 <= n <= 1048576 /\ (64 | n);
  g_pages : forall i, 0 <= i < n -> exists pg, pgs !! i = Some pg /\ pfn pg = i;
  g_range : forall i pg, pgs !! i = Some pg -> 0 <= i < n;
  g_free : forall p k, freeb F (p, k) -> exists pg, pgs !! p = Some pg /\ order pg = k;
  g_alloc : forall p k, (p, k) ∈ A -> exists pg, pgs !! p = Some pg /\ order pg = ORDER_USED;
  g_wf : forall b, tiles F A L b -> aligned b /\ b.2 <= ORDER_MAX;
  g_valid : forall b x, tiles F A L b -> inb x b -> valid pgs x;
  g_tile : forall b c x, tiles F A L b -> tiles F A L c -> inb x b -> inb x c -> b = c;
  g_disj : forall b, (freeb F b -> b ∉ A ∪ L) /\ (b ∈ A -> b ∉ L);
  g_cover : forall x, valid pgs x -> exists b, tiles F A L b /\ inb x b
}.

Definition inv s F A L : Prop :=
  lists (nodes s) (blocks s) (page_count s) F /\ geo (pages s) (page_count s) F A L.

Definition merged F : Prop := forall p k, freeb F (p, k) -> k < ORDER_MAX -> ~ freeb F (bud p k, k).

(** Page [x] is in a free block. *)
Definition free_page F x : Prop := exists b, freeb F b /\ inb x b.

(** What no list operation touches: everything but lists, counters and the
    [order] fields. *)
Definition same_page (o o' : option page) : Prop :=
  match o, o' with
  | Some a, Some b => pfn a = pfn b /\ use_count a = use_count b /\ flags a = flags b
  | None, None => True
  | _, _ => False
  end.

Definition same_but_lists s s' : Prop :=
  page_area s' = page_area s /\ page_count s' = page_count s /\ max_order s' = max_order s /\
  lock_flag s' = lock_flag s /\ low_pages s' = low_pages s /\ high_pages s' = high_pages s /\
  forall i, same_page (pages s !! i) (pages s' !! i).

(** ** Elementary facts *)

Lemma same_page_refl o : same_page o o.
Proof. destruct o; cbn; auto. Qed.

Lemma same_refl s : same_but_lists s s.
Proof. unfold same_but_lists. split_and!; auto using same_page_refl. Qed.

Lemma same_trans s1 s2 s3 : same_but_lists s1 s2 -> same_but_lists s2 s3 -> same_but_lists s1 s3.
Proof.
  intros (H1 & H2 & H3 & H4 & H5 & H6 & H7) (K1 & K2 & K3 & K4 & K5 & K6 & K7).
  unfold same_but_lists. split_and!; try congruence. intros i. specialize (H7 i). specialize (K7 i).
  destruct (pages s1 !! i), (pages s2 !! i), (pages s3 !! i); cbn in *; intuition congruence.
Qed.

Lemma fupd_eq F k l : fupd F k l k = l.
Proof. unfold fupd. by rewrite decide_True. Qed.

Lemma fupd_ne F k l j : j <> k -> fupd F k l j = F j.
Proof. intros. unfold fupd. by rewrite decide_False. Qed.

Lemma freeb_fupd F k l b :
  freeb (fupd F k l) b <-> 0 <= b.2 <= ORDER_MAX /\ (if decide (b.2 = k) then b.1 ∈ l else b.1 ∈ F b.2).
Proof. unfold freeb, fupd. by destruct (decide (b.2 = k)). Qed.

Lemma freeb_remove F k l1 p l2 b :
  0 <= k <= ORDER_MAX -> F k = l1 ++ p :: l2 -> p ∉ l1 ++ l2 ->
  freeb (fupd F k (l1 ++ l2)) b <-> freeb F b /\ b <> (p, k).
Proof.
  intros Hk E Hp. rewrite freeb_fupd. unfold freeb. destruct b as [q j]. cbn.
  case_decide; [subst j; rewrite E|]; split; intros [H1 H2].
  - split; [split; [done|set_solver]|]. intros [= ->]. done.
  - split; [done|]. destruct H1 as [_ H1]. assert (q <> p) by congruence. set_solver.
  - split; [done|]. congruence.
  - exact H1.
Qed.

Lemma freeb_add F k p b :
  0 <= k <= ORDER_MAX -> freeb (fupd F k (p :: F k)) b <-> freeb F b \/ b = (p, k).
Proof.
  intros Hk. rewrite freeb_fupd. unfold freeb. destruct b as [q j]. cbn. case_decide.
  - subst j. rewrite elem_of_cons. split.
    + intros [H1 [->|H2]]; auto.
    + intros [[H1 H2]|[= ->]]; auto.
  - split; [tauto|]. intros [?|[= -> ->]]; [done|]. done.
Qed.

Lemma geo_free_unique pgs n F A L p j k :
  geo pgs n F A L -> freeb F (p, j) -> freeb F (p, k) -> j = k.
Proof.
  intros G H1 H2. destruct (g_free _ _ _ _ _ G p j H1) as (pg & E1 & <-).
  destruct (g_free _ _ _ _ _ G p k H2) as (pg' & E2 & <-). congruence.
Qed.

Lemma geo_in_range pgs n F A L b x :
  geo pgs n F A L -> tiles F A L b -> inb x b -> 0 <= x < n.
Proof.
  intros G Hb Hx. destruct (g_valid _ _ _ _ _ G b x Hb Hx) as (pg & E & _). by eapply g_range.
Qed.

Lemma geo_head_range pgs n F A L p k :
  geo pgs n F A L -> tiles F A L (p, k) -> 0 <= p < n.
Proof.
  intros G Hb. eapply geo_in_range; [done..|]. apply inb_head.
  by destruct (g_wf _ _ _ _ _ G _ Hb) as [(_ & ? & _) _].
Qed.

(** The block one order up stays inside the array: this is where the array's
    size being a multiple of the largest block matters. *)
Lemma par_in_range n p k x :
  (64 | n) -> 0 <= k < ORDER_MAX -> aligned (p, k) -> p < n -> inb x (par p k, k + 1) -> 0 <= x < n.
Proof.
  intros [m Hn] Hk Ha Hp Hx. unfold ORDER_MAX in *.
  destruct (aligned_par p k Ha) as (H0 & _ & [u Hu]). cbn in *.
  assert (Hin : inb p (par p k, k + 1)) by (apply inb_par; [lia|]; left; apply inb_head; lia).
  destruct (divide_pow2 (k + 1) 6) as [v Hv]; [lia|]. change (2 ^ 6) with 64 in Hv.
  assert (0 < 2 ^ (k + 1)) by (apply pow2_pos; lia). unfold inb in *. cbn in *.
  set (w := 2 ^ (k + 1)) in *. rewrite Hu, Hn, Hv in *.
  assert (u < m * v) by (apply (Z.mul_lt_mono_pos_r w); lia).
  assert ((u + 1) * w <= (m * v) * w) by (apply Z.mul_le_mono_nonneg_r; lia). lia.
Qed.

Lemma bud_in_range n p k :
  (64 | n) -> 0 <= k < ORDER_MAX -> aligned (p, k) -> p < n -> 0 <= bud p k < n.
Proof.
  intros. eapply (par_in_range n p k); try done. apply inb_par; [lia|]. right. apply inb_head. lia.
Qed.

Lemma length_free pgs n F A L k :
  geo pgs n F A L -> NoDup (F k) -> 0 <= k <= ORDER_MAX -> Z.of_nat (length (F k)) <= n.
Proof.
  intros G ND Hk. assert (Hn : 0 <= n) by apply G.
  rewrite <- (size_list_to_set (C := gset Z) (F k)) by done.
  transitivity (Z.of_nat (size (list_to_set (seqZ 0 n) : gset Z))).
  - apply Nat2Z.inj_le. apply subseteq_size. intros p Hp. apply elem_of_list_to_set in Hp.
    apply elem_of_list_to_set, elem_of_seqZ.
    assert (Hb : tiles F A L (p, k)) by (left; split; done).
    pose proof (geo_head_range _ _ _ _ _ _ _ G Hb). lia.
  - rewrite size_list_to_set by apply NoDup_seqZ. rewrite length_seqZ. lia.
Qed.

(** ** The free lists *)

Lemma elem_of_nodes (l : list Z) i : PageNode i ∈ PageNode <$> l <-> i ∈ l.
Proof.
  rewrite list_elem_of_fmap. split; [by intros (j & [= ->] & Hj)|eauto].
Qed.

Lemma head_not_node (l : list Z) k : HeadNode k ∉ PageNode <$> l.
Proof. rewrite list_elem_of_fmap. by intros (j & [= ] & _). Qed.

Lemma lists_nodup h bl n F k : lists h bl n F -> 0 <= k <= ORDER_MAX -> NoDup (F k).
Proof.
  intros Hl Hk. destruct (l_ring _ _ _ _ Hl k Hk) as [ND _]. apply NoDup_cons in ND as [_ ND].
  by apply NoDup_fmap_1 in ND.
Qed.

(** A ring of another order is untouched when its pages are. *)
Lemma ring_frame h h' F j (fs : list bnode) :
  frame h h' fs -> HeadNode j ∉ fs -> (forall q, q ∈ F j -> PageNode q ∉ fs) ->
  clist h (HeadNode j) (PageNode <$> F j) -> clist h' (HeadNode j) (PageNode <$> F j).
Proof.
  intros Hf H1 H2. apply clist_frame with (s := fs); [done|].
  intros y [->|Hy]%elem_of_cons; [done|]. apply list_elem_of_fmap in Hy as (q & -> & Hq). by apply H2.
Qed.

Lemma lists_remove h bl n F k l1 p l2 b :
  lists h bl n F -> 0 <= k <= ORDER_MAX -> F k = l1 ++ p :: l2 ->
  (forall j q, 0 <= j <= ORDER_MAX -> j <> k -> q ∈ F j -> q ∉ F k) ->
  bl !! k = Some b -> Z.of_nat (length (F k)) <= 1048576 ->
  exists h', clist_delete_node (Some (PageNode p)) h = Some (tt, h') /\
    lists h' (<[k := set_free_count (u32 (free_count b + -1)) b]> bl) n (fupd F k (l1 ++ l2)).
Proof.
  intros Hl Hk E Hdis Hb Hlen. pose proof (l_ring _ _ _ _ Hl k Hk) as C.
  rewrite E, fmap_app, fmap_cons in C.
  destruct (clist_delete_node_spec _ _ _ _ _ C) as (h' & Ed & C' & Fr).
  rewrite <- fmap_app in C', Fr. exists h'. split; [done|]. constructor.
  - intros i Hi. rewrite (frame_dom_elem _ _ _ _ Fr). by apply (l_nodes _ _ _ _ Hl).
  - intros j Hj. destruct (decide (j = k)) as [->|Hne]; [by rewrite fupd_eq|].
    rewrite fupd_ne by done. eapply ring_frame; [exact Fr| | |by apply (l_ring _ _ _ _ Hl)].
    + intros [[= ->]|Hin]%elem_of_cons; [done|]. by apply head_not_node in Hin.
    + intros q Hq [[= ]|Hin]%elem_of_cons. apply elem_of_nodes in Hin.
      apply (Hdis j q); [done..|]. rewrite E. set_solver.
  - intros j Hj. destruct (l_count _ _ _ _ Hl j Hj) as (bj & Ej & Cj).
    destruct (decide (j = k)) as [->|Hne].
    + exists (set_free_count (u32 (free_count b + -1)) b). rewrite lookup_insert_eq, fupd_eq.
      split; [done|]. assert (bj = b) as -> by congruence. cbn. rewrite Cj, E in *.
      rewrite !length_app in *. cbn [length] in *. rewrite u32_small by lia. lia.
    + exists bj. rewrite lookup_insert_ne, fupd_ne by done. done.
Qed.

Lemma lists_add h bl n F k p b :
  lists h bl n F -> 0 <= k <= ORDER_MAX -> 0 <= p < n ->
  (forall j, 0 <= j <= ORDER_MAX -> p ∉ F j) ->
  (forall j q, 0 <= j <= ORDER_MAX -> j <> k -> q ∈ F j -> q ∉ F k) ->
  bl !! k = Some b -> Z.of_nat (length (F k)) <= 1048576 ->
  exists h', clist_add (Some (HeadNode k)) (Some (PageNode p)) h = Some (tt, h') /\
    lists h' (<[k := set_free_count (u32 (free_count b + 1)) b]> bl) n (fupd F k (p :: F k)).
Proof.
  intros Hl Hk Hp Hnew Hdis Hb Hlen. pose proof (l_ring _ _ _ _ Hl k Hk) as C.
  destruct (clist_add_spec h (HeadNode k) (PageNode p) _ C) as (h' & Ea & C' & Fr).
  { intros [[= ]|Hin]%elem_of_cons. apply elem_of_nodes in Hin. by apply (Hnew k). }
  { by apply (l_nodes _ _ _ _ Hl). }
  exists h'. split; [done|]. constructor.
  - intros i Hi. rewrite (frame_dom_elem _ _ _ _ Fr). by apply (l_nodes _ _ _ _ Hl).
  - intros j Hj. destruct (decide (j = k)) as [->|Hne]; [by rewrite fupd_eq|].
    rewrite fupd_ne by done. eapply ring_frame; [exact Fr| | |by apply (l_ring _ _ _ _ Hl)].
    + intros [[= ->]|[[= ]|Hin]%elem_of_cons]%elem_of_cons; [done|]. by apply head_not_node in Hin.
    + intros q Hq [[= ]|[[= ->]|Hin]%elem_of_cons]%elem_of_cons; [by apply (Hnew j)|].
      apply elem_of_nodes in Hin. by apply (Hdis j q).
  - intros j Hj. destruct (l_count _ _ _ _ Hl j Hj) as (bj & Ej & Cj).
    destruct (decide (j = k)) as [->|Hne].
    + exists (set_free_count (u32 (free_count b + 1)) b). rewrite lookup_insert_eq, fupd_eq.
      split; [done|]. assert (bj = b) as -> by congruence. cbn. rewrite Cj.
      rewrite u32_small by lia. lia.
    + exists bj. rewrite lookup_insert_ne, fupd_ne by done. done.
Qed.

(** ** Moving blocks between [F], [A] and [L] *)

Lemma geo_dis pgs n F A L k :
  geo pgs n F A L -> 0 <= k <= ORDER_MAX ->
  forall j q, 0 <= j <= ORDER_MAX -> j <> k -> q ∈ F j -> q ∉ F k.
Proof.
  intros G Hk j q Hj Hne H1 H2. apply Hne.
  eapply (geo_free_unique _ _ _ _ _ q); [done|split; done|split; done].
Qed.

(** Only the three collections and what they say of [order] change. *)
Lemma geo_retile pgs n F A L F' A' L' :
  geo pgs n F A L ->
  (forall b, tiles F' A' L' b <-> tiles F A L b) ->
  (forall p k, freeb F' (p, k) -> exists pg, pgs !! p = Some pg /\ order pg = k) ->
  (forall p k, (p, k) ∈ A' -> exists pg, pgs !! p = Some pg /\ order pg = ORDER_USED) ->
  (forall b, (freeb F' b -> b ∉ A' ∪ L') /\ (b ∈ A' -> b ∉ L')) ->
  geo pgs n F' A' L'.
Proof.
  intros G HT HF HA HD. destruct G. constructor; try done.
  - intros b Hb. apply g_wf0. by apply HT.
  - intros b x Hb. apply g_valid0. by apply HT.
  - intros b c x Hb Hc. apply g_tile0; by apply HT.
  - intros x Hx. destruct (g_cover0 x Hx) as (b & Hb & Hin). exists b. by rewrite HT.
Qed.

Lemma geo_take_free pgs n F A L k l1 p l2 :
  geo pgs n F A L -> 0 <= k <= ORDER_MAX -> F k = l1 ++ p :: l2 -> NoDup (F k) ->
  geo pgs n (fupd F k (l1 ++ l2)) A (L ∪ {[(p, k)]}).
Proof.
  intros G Hk E ND.
  assert (Hp : p ∉ l1 ++ l2).
  { rewrite E in ND. assert (EP : l1 ++ p :: l2 ≡ₚ p :: l1 ++ l2) by solve_Permutation.
    rewrite EP in ND. by apply NoDup_cons in ND as [? _]. }
  assert (HF := fun b => freeb_remove F k l1 p l2 b Hk E Hp).
  assert (Hfp : freeb F (p, k)) by (split; [done|]; cbn; rewrite E; set_solver).
  eapply geo_retile; [exact G| | | |].
  - intros b. unfold tiles. rewrite HF, elem_of_union, elem_of_singleton.
    destruct (decide (b = (p, k))) as [->|]; [|tauto]. split; [by left|]. right. right. by right.
  - intros q j. rewrite HF. intros [Hq _]. by apply (g_free _ _ _ _ _ G).
  - apply (g_alloc _ _ _ _ _ G).
  - intros b. pose proof (g_disj _ _ _ _ _ G b) as [D1 D2]. rewrite HF. split.
    + intros [Hb Hne]. specialize (D1 Hb). set_solver.
    + intros HbA HbL. apply elem_of_union in HbL as [HbL|HbL]; [by apply D2|].
      apply elem_of_singleton in HbL as ->. apply (g_disj _ _ _ _ _ G (p, k)) in Hfp. set_solver.
Qed.

Lemma geo_put_free pgs n F A L k p :
  geo pgs n F A L -> 0 <= k <= ORDER_MAX -> (p, k) ∈ L ->
  (exists pg, pgs !! p = Some pg /\ order pg = k) ->
  geo pgs n (fupd F k (p :: F k)) A (L ∖ {[(p, k)]}).
Proof.
  intros G Hk HL Ho. assert (HF := fun b => freeb_add F k p b Hk).
  eapply geo_retile; [exact G| | | |].
  - intros b. unfold tiles. rewrite HF, elem_of_difference, elem_of_singleton.
    destruct (decide (b = (p, k))) as [->|]; tauto.
  - intros q j. rewrite HF. intros [Hq|[= -> ->]]; [by apply (g_free _ _ _ _ _ G)|done].
  - apply (g_alloc _ _ _ _ _ G).
  - intros b. pose proof (g_disj _ _ _ _ _ G b) as [D1 D2]. rewrite HF. split.
    + intros [Hb| ->]; [specialize (D1 Hb)|]; set_solver.
    + set_solver.
Qed.

Lemma geo_take_alloc pgs n F A L p k :
  geo pgs n F A L -> (p, k) ∈ A -> geo pgs n F (A ∖ {[(p, k)]}) (L ∪ {[(p, k)]}).
Proof.
  intros G HA. eapply geo_retile; [exact G| | | |].
  - intros b. unfold tiles. rewrite elem_of_difference, elem_of_union, !elem_of_singleton.
    destruct (decide (b = (p, k))) as [->|]; tauto.
  - apply (g_free _ _ _ _ _ G).
  - intros q j Hq. apply (g_alloc _ _ _ _ _ G q j). set_solver.
  - intros b. pose proof (g_disj _ _ _ _ _ G b) as [D1 D2]. split; [|set_solver].
    intros Hb. specialize (D1 Hb). set_solver.
Qed.

Lemma geo_put_alloc pgs n F A L p k :
  geo pgs n F A L -> (p, k) ∈ L -> (exists pg, pgs !! p = Some pg /\ order pg = ORDER_USED) ->
  geo pgs n F (A ∪ {[(p, k)]}) (L ∖ {[(p, k)]}).
Proof.
  intros G HL Ho. eapply geo_retile; [exact G| | | |].
  - intros b. unfold tiles. rewrite elem_of_difference, elem_of_union, !elem_of_singleton.
    destruct (decide (b = (p, k))) as [->|]; tauto.
  - apply (g_free _ _ _ _ _ G).
  - intros q j [Hq|Hq]%elem_of_union; [by apply (g_alloc _ _ _ _ _ G q j)|].
    apply elem_of_singleton in Hq as [= -> ->]. done.
  - intros b. pose proof (g_disj _ _ _ _ _ G b) as [D1 D2]. split; [|set_solver].
    intros Hb. specialize (D1 Hb). set_solver.
Qed.
