(* ===== verification/BuddySteps.v ===== *)
(** * Steps of the buddy allocator on its invariant

    Each primitive of palloc.c, run in a state that satisfies [inv], returns
    and moves one block between the free lists [F], the allocated blocks [A]
    and the blocks in hand [L]. *)

From stdpp Require Import base numbers list gmap.
From Stdlib Require Import ZArith Lia Znumtheory.
From S2P Require Import Prelude LinkedList PageDefs Bootmem Blocks Palloc BuddyInv.

#[local] Open Scope Z_scope.

Implicit Types (F : Z -> list Z) (A L : gset (Z * Z)) (s : buddy) (p k x n : Z).

(** ** Splitting, joining and relabelling blocks in hand *)

(** Replacing blocks of [L] by others that cover the same pages. *)
Lemma geo_relabel pgs n F A L L' :
  geo pgs n F A L ->
  (forall b, b ∈ L' -> aligned b /\ b.2 <= ORDER_MAX) ->
  (forall b c x, b ∈ L' -> c ∈ L' -> inb x b -> inb x c -> b = c) ->
  (forall x, (exists b, b ∈ L' /\ inb x b) <-> (exists b, b ∈ L /\ inb x b)) ->
  geo pgs n F A L'.
Proof.
  intros G Hwf Hdis Hcov.
  assert (HL : forall b x, b ∈ L' -> inb x b -> exists c, c ∈ L /\ inb x c).
  { intros b x Hb Hx. apply Hcov. eauto. }
  assert (Hno : forall b c x, freeb F b \/ b ∈ A -> c ∈ L' -> inb x b -> inb x c -> False).
  { intros b c x Hb Hc Hx Hx'. destruct (HL c x Hc Hx') as (d & Hd & Hxd).
    assert (b = d) as ->.
    { apply (g_tile _ _ _ _ _ G b d x); [unfold tiles; tauto|unfold tiles; tauto|done..]. }
    pose proof (g_disj _ _ _ _ _ G d) as [D1 D2]. set_solver. }
  constructor; try apply G.
  - intros b [Hb|[Hb|Hb]]; [apply (g_wf _ _ _ _ _ G); unfold tiles; tauto..|by apply Hwf].
  - intros b x Hb Hx. destruct Hb as [Hb|[Hb|Hb]].
    + apply (g_valid _ _ _ _ _ G b); [by left|done].
    + apply (g_valid _ _ _ _ _ G b); [by right; left|done].
    + destruct (HL b x Hb Hx) as (c & Hc & Hxc). apply (g_valid _ _ _ _ _ G c); [by right; right|done].
  - intros b c x Hb Hc Hxb Hxc.
    destruct (decide (b ∈ L')) as [Hb'|Hb'], (decide (c ∈ L')) as [Hc'|Hc'].
    + by apply (Hdis b c x).
    + exfalso. apply (Hno c b x); [unfold tiles in *; tauto|done..].
    + exfalso. apply (Hno b c x); [unfold tiles in *; tauto|done..].
    + apply (g_tile _ _ _ _ _ G b c x); unfold tiles in *; tauto.
  - intros b. pose proof (g_disj _ _ _ _ _ G b) as [D1 D2].
    assert (HbL : freeb F b \/ b ∈ A -> b ∉ L').
    { intros Hb Hb'. destruct b as [p k]. assert (inb p (p, k)) by (apply inb_head; by apply Hwf in Hb' as [(_ & ? & _) _]).
      by apply (Hno (p, k) (p, k) p). }
    split; [|tauto]. intros Hb. specialize (D1 Hb). specialize (HbL (or_introl Hb)). set_solver.
  - intros x Hx. destruct (g_cover _ _ _ _ _ G x Hx) as (b & [Hb|[Hb|Hb]] & Hin).
    + exists b. split; [by left|done].
    + exists b. split; [by right; left|done].
    + destruct (proj2 (Hcov x)) as (c & Hc & Hin'); [eauto|]. exists c. split; [by right; right|done].
Qed.

Lemma geo_join pgs n F A p k :
  geo pgs n F A {[(p, k); (bud p k, k)]} -> k < ORDER_MAX ->
  geo pgs n F A {[(par p k, k + 1)]}.
Proof.
  intros G Hk. destruct (g_wf _ _ _ _ _ G (p, k)) as [Ha _]; [right; right; set_solver|].
  assert (Hk0 : 0 <= k) by apply Ha. eapply geo_relabel; [exact G| | |].
  - intros b ->%elem_of_singleton. split; [by apply aligned_par|cbn; lia].
  - set_solver.
  - intros x. split.
    + intros (b & ->%elem_of_singleton & Hx). apply (inb_par x p k Hk0) in Hx as [Hx|Hx]; eexists; (split; [|exact Hx]); set_solver.
    + intros (b & Hb & Hx). exists (par p k, k + 1). split; [set_solver|]. apply inb_par; [done|].
      apply elem_of_union in Hb as [->%elem_of_singleton| ->%elem_of_singleton]; auto.
Qed.

Lemma geo_split pgs n F A p k :
  geo pgs n F A {[(p, k + 1)]} -> 0 <= k -> geo pgs n F A {[(p, k); (bud p k, k)]}.
Proof.
  intros G Hk. destruct (g_wf _ _ _ _ _ G (p, k + 1)) as [Ha Hm]; [right; right; set_solver|]. cbn in Hm.
  destruct (aligned_low p k Hk Ha) as [Ha1 Ha2].
  assert (E : par p k = p).
  { apply (aligned_head (par p k, k + 1) (p, k + 1)); cbn; [by apply aligned_par|done| |lia].
    apply inb_par; [done|]. left. by apply inb_head. }
  eapply geo_relabel; [exact G| | |].
  - intros b [->%elem_of_singleton| ->%elem_of_singleton]%elem_of_union; (split; [|cbn; lia]); [done|].
    by apply aligned_bud.
  - intros b c x [->%elem_of_singleton| ->%elem_of_singleton]%elem_of_union
      [->%elem_of_singleton| ->%elem_of_singleton]%elem_of_union Hb Hc; [done| | |done];
      exfalso; [apply (bud_disjoint x p k Hk Hb Hc)|apply (bud_disjoint x p k Hk Hc Hb)].
  - intros x. pose proof (inb_par x p k Hk) as HP. rewrite E in HP. split.
    + intros (b & Hb & Hx). exists (p, k + 1). split; [set_solver|]. apply HP.
      apply elem_of_union in Hb as [->%elem_of_singleton| ->%elem_of_singleton]; auto.
    + intros (b & ->%elem_of_singleton & Hx). apply HP in Hx as [Hx|Hx]; eexists; (split; [|exact Hx]); set_solver.
Qed.

(** Updating a page's counters, or the [order] of a page in hand. *)
Lemma geo_upd pgs n F A L x pg pg' :
  geo pgs n F A L -> pgs !! x = Some pg -> pfn pg' = pfn pg -> flags pg' = flags pg ->
  (order pg' = order pg \/ exists b, b ∈ L /\ inb x b) ->
  geo (<[x := pg']> pgs) n F A L.
Proof.
  intros G Ex Hp Hf Ho.
  assert (HV : forall y, valid (<[x := pg']> pgs) y <-> valid pgs y).
  { intros y. unfold valid, valid_page. destruct (decide (x = y)) as [->|].
    - rewrite lookup_insert_eq, Ex. split; intros (q & [= <-] & Hq); eexists; (split; [done|]); congruence.
    - by rewrite lookup_insert_ne. }
  assert (HO : forall p k o, tiles F A ∅ (p, k) -> (exists q, pgs !! p = Some q /\ order q = o) ->
    exists q, <[x := pg']> pgs !! p = Some q /\ order q = o).
  { intros p k o Hb (q & E & Eo). destruct (decide (x = p)) as [->|]; [|by exists q; rewrite lookup_insert_ne].
    exists pg'. rewrite lookup_insert_eq. split; [done|]. assert (q = pg) as -> by congruence.
    destruct Ho as [->|(b & Hb' & Hin)]; [done|]. exfalso.
    assert (Hb2 : tiles F A L (p, k)) by (unfold tiles in *; set_solver).
    assert (b = (p, k)) as ->.
    { apply (g_tile _ _ _ _ _ G b (p, k) p); [by right; right|done|done|]. apply inb_head.
      by destruct (g_wf _ _ _ _ _ G _ Hb2) as [(_ & ? & _) _]. }
    pose proof (g_disj _ _ _ _ _ G (p, k)) as [D1 D2]. unfold tiles in Hb. set_solver. }
  constructor; try apply G.
  - intros i Hi. destruct (g_pages _ _ _ _ _ G i Hi) as (q & E & Eq). destruct (decide (x = i)) as [->|].
    + exists pg'. rewrite lookup_insert_eq. split; [done|]. congruence.
    + exists q. by rewrite lookup_insert_ne.
  - intros i q. destruct (decide (x = i)) as [->|]; [|rewrite lookup_insert_ne by done];
      intros; by eapply (g_range _ _ _ _ _ G).
  - intros p k Hb. apply (HO p k); [by left|]. by apply (g_free _ _ _ _ _ G).
  - intros p k Hb. apply (HO p k); [by right; left|]. by apply (g_alloc _ _ _ _ _ G p k).
  - intros b y Hb Hy. apply HV. by apply (g_valid _ _ _ _ _ G b).
  - intros y Hy. apply (g_cover _ _ _ _ _ G). by apply HV.
Qed.

(** ** The primitives *)

Lemma inv_page s F A L b x :
  inv s F A L -> tiles F A L b -> inb x b -> exists pg, pages s !! x = Some pg /\ pfn pg = x.
Proof. intros [_ G] Hb Hx. eapply (g_pages _ _ _ _ _ G), geo_in_range; eauto. Qed.

Lemma inv_head s F A L p k :
  inv s F A L -> tiles F A L (p, k) -> exists pg, pages s !! p = Some pg /\ pfn pg = p.
Proof.
  intros HI Hb. eapply inv_page; [done..|]. apply inb_head.
  destruct HI as [_ G]. by destruct (g_wf _ _ _ _ _ G _ Hb) as [(_ & ? & _) _].
Qed.

Lemma get_page_some s p pg : pages s !! p = Some pg -> get_page (Some p) s = Some (pg, s).
Proof. intros E. unfold get_page. cbn. by rewrite E. Qed.

Lemma upd_page_some s p pg f :
  pages s !! p = Some pg ->
  upd_page (Some p) f s = Some (tt, with_pages (<[p := f pg]> (pages s)) s).
Proof. intros E. unfold upd_page. by rewrite E. Qed.

Lemma same_upd_order s p pg o :
  pages s !! p = Some pg ->
  same_but_lists s (with_pages (<[p := set_order o pg]> (pages s)) s).
Proof.
  intros E. unfold same_but_lists. cbn. split_and!; try done. intros i.
  destruct (decide (p = i)) as [->|]; [by rewrite E, lookup_insert_eq|].
  rewrite lookup_insert_ne by done. apply same_page_refl.
Qed.

Lemma same_lists s h bl : same_but_lists s (with_blocks bl (with_nodes h s)).
Proof. unfold same_but_lists. cbn. split_and!; try done. intros. apply same_page_refl. Qed.

(** Writing [order] of a page in hand. *)
Lemma upd_order_step s F A L x b o :
  inv s F A L -> b ∈ L -> inb x b ->
  exists s', upd_page (Some x) (set_order o) s = Some (tt, s') /\ inv s' F A L /\
    same_but_lists s s' /\ (exists pg, pages s' !! x = Some pg /\ order pg = o).
Proof.
  intros HI Hb Hx. destruct (inv_page s F A L b x HI) as (pg & E & Ep); [by right; right|done|].
  eexists. split; [by apply upd_page_some|]. split_and!.
  - destruct HI as [Hl G]. split; [done|]. cbn. eapply geo_upd; [done|done|done|done|]. right. eauto.
  - by apply same_upd_order.
  - exists (set_order o pg). cbn. by rewrite lookup_insert_eq.
Qed.

(** Unlinking a free block and counting it out. *)
Lemma unlist_step s F A L k l1 p l2 :
  inv s F A L -> 0 <= k <= ORDER_MAX -> F k = l1 ++ p :: l2 ->
  exists h' s', on_nodes (clist_delete_node (node_of (Some p))) s = Some (tt, with_nodes h' s) /\
    add_free_count k (-1) (with_nodes h' s) = Some (tt, s') /\
    inv s' (fupd F k (l1 ++ l2)) A (L ∪ {[(p, k)]}) /\ same_but_lists s s' /\ pages s' = pages s.
Proof.
  intros [Hl G] Hk E. assert (ND := lists_nodup _ _ _ _ _ Hl Hk).
  destruct (l_count _ _ _ _ Hl k Hk) as (b & Eb & _).
  assert (Hlen := length_free _ _ _ _ _ _ G ND Hk). assert (Hn : page_count s <= 1048576) by apply G.
  destruct (lists_remove _ _ _ F k l1 p l2 b Hl Hk E) as (h' & Ed & Hl'); [by eapply geo_dis|done|lia|].
  exists h'. eexists. split_and!.
  - unfold on_nodes. change (node_of (Some p)) with (Some (PageNode p)). by rewrite Ed.
  - unfold add_free_count. cbn. by rewrite Eb.
  - split; cbn; [done|]. by apply geo_take_free.
  - apply same_lists.
  - done.
Qed.

Lemma remove_block_step s F A L k l1 p l2 :
  inv s F A L -> 0 <= k <= ORDER_MAX -> F k = l1 ++ p :: l2 ->
  exists s', buddy_remove_block (Some p) s = Some (tt, s') /\
    inv s' (fupd F k (l1 ++ l2)) A (L ∪ {[(p, k)]}) /\ same_but_lists s s' /\
    (exists pg, pages s' !! p = Some pg /\ order pg = ORDER_USED).
Proof.
  intros HI Hk E. destruct (unlist_step s F A L k l1 p l2 HI Hk E) as (h' & s1 & E1 & E2 & HI1 & S1 & Ep).
  assert (Hf : freeb F (p, k)) by (split; [done|]; cbn; rewrite E; set_solver).
  destruct HI as [Hl G]. destruct (g_free _ _ _ _ _ G p k Hf) as (pg & Epg & Eo).
  destruct (upd_order_step s1 _ A (L ∪ {[(p, k)]}) p (p, k) ORDER_USED HI1) as (s2 & E3 & HI2 & S2 & O2);
    [set_solver|apply inb_head; lia|].
  exists s2. split_and!; [|done|by eapply same_trans|done].
  unfold buddy_remove_block. st_step E1.
  erewrite bind_some by (apply get_page_some; cbn; exact Epg). rewrite Eo. st_step E2. done.
Qed.

Lemma i32_order k : 0 <= k <= ORDER_MAX -> i32 k = k.
Proof. unfold ORDER_MAX, i32. intros. rewrite u32_small by lia. bool_cases. Qed.

Lemma add_block_step s F A L p k :
  inv s F A L -> (p, k) ∈ L ->
  exists s', buddy_add_block (Some p) k s = Some (tt, s') /\
    inv s' (fupd F k (p :: F k)) A (L ∖ {[(p, k)]}) /\ same_but_lists s s'.
Proof.
  intros HI HL. assert (Hb : tiles F A L (p, k)) by (by right; right).
  assert (Hk : 0 <= k <= ORDER_MAX).
  { destruct HI as [_ G]. destruct (g_wf _ _ _ _ _ G _ Hb) as [(_ & ? & _) ?]. done. }
  destruct (upd_order_step s F A L p (p, k) k HI) as (s1 & E1 & [Hl G] & S1 & O1); [done|apply inb_head; lia|].
  destruct (l_count _ _ _ _ Hl k Hk) as (b & Eb & _).
  assert (Hlen := length_free _ _ _ _ _ _ G (lists_nodup _ _ _ _ _ Hl Hk) Hk).
  assert (Hn : page_count s1 <= 1048576) by apply G.
  assert (Hnew : forall j, 0 <= j <= ORDER_MAX -> p ∉ F j).
  { intros j Hj Hin. assert (Hf : freeb F (p, j)) by by split.
    assert (E : (p, j) = (p, k)).
    { apply (g_tile _ _ _ _ _ G (p, j) (p, k) p); [by left|done|apply inb_head; lia..]. }
    rewrite E in Hf. apply (g_disj _ _ _ _ _ G) in Hf. set_solver. }
  destruct (lists_add _ _ _ F k p b Hl Hk) as (h' & Ea & Hl'); [by eapply geo_head_range|done|by eapply geo_dis|done|lia|].
  eexists. unfold buddy_add_block. rewrite i32_order by done. st_step E1. split_and!.
  - erewrite bind_some by (unfold on_nodes; change (node_of (Some p)) with (Some (PageNode p)); by rewrite Ea).
    unfold add_free_count. cbn. by rewrite Eb.
  - split; cbn; [done|]. by apply geo_put_free.
  - eapply same_trans; [exact S1|]. apply same_lists.
Qed.
