(* ===== verification/BuddyMerge.v ===== *)
(** * Coalescing and splitting

    [buddy_merge_block] gives a block in hand back to the free lists and leaves
    them fully merged; [buddy_split_block] breaks a larger free block down. *)

From stdpp Require Import base numbers list gmap.
From Stdlib Require Import ZArith Lia Znumtheory.
From S2P Require Import Prelude LinkedList PageDefs Bootmem Blocks Palloc BuddyInv BuddySteps.

#[local] Open Scope Z_scope.

Implicit Types (F : Z -> list Z) (A L : gset (Z * Z)) (s : buddy) (p k x n : Z).

Lemma shiftl_order k : 0 <= k <= ORDER_MAX -> u32 (Z.shiftl 1 k) = 2 ^ k.
Proof.
  unfold ORDER_MAX. intros Hk. rewrite Z.shiftl_1_l. apply u32_small.
  split; [pose proof (pow2_pos k); lia|]. apply Z.le_lt_trans with (2 ^ 6); [|done].
  apply Z.pow_le_mono_r; lia.
Qed.

Lemma buddy_get_step s p k pg :
  pages s !! p = Some pg -> pfn pg = p -> 0 <= k <= ORDER_MAX ->
  buddy_get (Some p) k s = Some (Some (bud p k), s).
Proof.
  intros E Ep Hk. unfold buddy_get. st_step (get_page_some _ _ _ E).
  by rewrite Ep, shiftl_order.
Qed.

(** ** The coalescing test

    A block's buddy that the code finds valid and of the same order is a free
    block of that order: an [order] field inside a block is stale, but the
    buddy of a block in hand is never inside another block. *)
Lemma buddy_test s F A p k :
  inv s F A {[(p, k)]} -> k < ORDER_MAX ->
  exists pg, pages s !! bud p k = Some pg /\
    (u32 (order pg) = k /\ valid_page pg <-> freeb F (bud p k, k)).
Proof.
  intros [_ G] Hk. set (q := bud p k).
  assert (HL : tiles F A {[(p, k)]} (p, k)) by (right; right; set_solver).
  destruct (g_wf _ _ _ _ _ G _ HL) as [Ha _]. assert (Hk0 : 0 <= k) by apply Ha.
  assert (Hq : 0 <= q < page_count s).
  { apply bud_in_range; [apply G|lia|done|]. by apply (geo_head_range _ _ _ _ _ _ _ G HL). }
  destruct (g_pages _ _ _ _ _ G q Hq) as (pg & E & _). exists pg. split; [done|].
  assert (Hin : inb q (q, k)) by by apply inb_head.
  split.
  - intros [Ho Hv]. destruct (g_cover _ _ _ _ _ G q) as ([r j] & Hb & Hx); [by exists pg|].
    destruct (g_wf _ _ _ _ _ G _ Hb) as [Hab Hm]. cbn in Hm.
    assert (Hne : (r, j) <> (p, k)).
    { intros [= -> ->]. by apply (bud_disjoint q p k). }
    assert (Hj : j <= k).
    { destruct (Z.le_gt_cases j k); [done|]. exfalso. apply Hne.
      apply (g_tile _ _ _ _ _ G _ _ p Hb HL); [|by apply inb_head].
      apply (aligned_nest (par p k, k + 1) (r, j) q); [by apply aligned_par|done| |done|cbn; lia|];
        (apply inb_par; [done|]); [by right|left; by apply inb_head]. }
    assert (r = q) as -> by (apply (aligned_head (r, j) (q, k)); [done|by apply aligned_bud|done|done]).
    destruct Hb as [Hb|[Hb|Hb]].
    + destruct (g_free _ _ _ _ _ G q j Hb) as (pg' & E' & Eo). assert (pg' = pg) as -> by congruence.
      rewrite Eo, u32_small in Ho by (destruct Hab as (_ & ? & _); unfold ORDER_MAX in *; cbn in *; lia). by subst j.
    + destruct (g_alloc _ _ _ _ _ G q j Hb) as (pg' & E' & Eo). assert (pg' = pg) as -> by congruence.
      rewrite Eo in Ho. unfold ORDER_MAX in *. vm_compute in Ho. lia.
    + apply elem_of_singleton in Hb. done.
  - intros Hf. destruct (g_free _ _ _ _ _ G q k Hf) as (pg' & E' & Eo). assert (pg' = pg) as -> by congruence.
    rewrite Eo, u32_small by (unfold ORDER_MAX in *; lia). split; [done|].
    destruct (g_valid _ _ _ _ _ G (q, k) q) as (pg' & E'' & Hv); [by left|done|]. congruence.
Qed.

Lemma freeb_split F p k : freeb F (p, k) -> exists l1 l2, F k = l1 ++ p :: l2.
Proof. intros [_ H]. by apply list_elem_of_split in H. Qed.

Lemma merged_sub F F' : (forall b, freeb F' b -> freeb F b) -> merged F -> merged F'.
Proof. intros Hs HM p k H1 Hk H2. apply (HM p k); auto. Qed.

(** Free blocks after one is taken off its list. *)
Lemma freeb_taken s F A L k l1 p l2 :
  inv s F A L -> 0 <= k <= ORDER_MAX -> F k = l1 ++ p :: l2 ->
  forall b, freeb (fupd F k (l1 ++ l2)) b <-> freeb F b /\ b <> (p, k).
Proof.
  intros [Hl _] Hk E b. apply freeb_remove; [done..|].
  assert (ND := lists_nodup _ _ _ _ _ Hl Hk). rewrite E in ND.
  assert (EP : l1 ++ p :: l2 ≡ₚ p :: l1 ++ l2) by solve_Permutation.
  rewrite EP in ND. by apply NoDup_cons in ND as [? _].
Qed.

(** Pages that are free or in hand, as blocks move. *)
Lemma free_page_taken F F' p k x :
  freeb F (p, k) -> (forall b, freeb F' b <-> freeb F b /\ b <> (p, k)) ->
  free_page F x <-> free_page F' x \/ inb x (p, k).
Proof.
  intros Hp HF. unfold free_page. split.
  - intros (b & Hb & Hx). destruct (decide (b = (p, k))) as [->|]; [by right|].
    left. exists b. by rewrite HF.
  - intros [(b & Hb & Hx)|Hx]; [|by exists (p, k)]. exists b. apply HF in Hb as [? _]. done.
Qed.

Lemma free_page_put F p k x :
  0 <= k <= ORDER_MAX -> free_page (fupd F k (p :: F k)) x <-> free_page F x \/ inb x (p, k).
Proof.
  intros Hk. unfold free_page. split.
  - intros (b & Hb & Hx). apply freeb_add in Hb as [Hb| ->]; [left; eauto|by right|done].
  - intros [(b & Hb & Hx)|Hx].
    + exists b. rewrite freeb_add by done. auto.
    + exists (p, k). rewrite freeb_add by done. auto.
Qed.

(** One round of the merge loop whose test succeeds. *)
Lemma merge_round s F A p k fuel :
  inv s F A {[(p, k)]} -> k < ORDER_MAX -> freeb F (bud p k, k) ->
  exists s' F', inv s' F' A {[(par p k, k + 1)]} /\ same_but_lists s s' /\
    (forall b, freeb F' b <-> freeb F b /\ b <> (bud p k, k)) /\
    merge_loop (S fuel) (Some p) k s = merge_loop fuel (Some (par p k)) (k + 1) s'.
Proof.
  intros HI Hk Hf. assert (HL : tiles F A {[(p, k)]} (p, k)) by (right; right; set_solver).
  destruct (g_wf _ _ _ _ _ (proj2 HI) _ HL) as [Ha _]. assert (Hk0 : 0 <= k) by apply Ha.
  assert (Hkr : 0 <= k <= ORDER_MAX) by lia.
  destruct (buddy_test s F A p k HI Hk) as (bg & Ebg & T). destruct (proj2 T Hf) as [To Tv].
  destruct (inv_head s F A _ p k HI HL) as (pg & Epg & Ep).
  destruct (freeb_split F _ k Hf) as (l1 & l2 & E).
  destruct (unlist_step s F A _ k l1 _ l2 HI Hkr E) as (h' & s1 & E1 & E2 & HI1 & S1 & P1).
  destruct HI1 as [Hl1 G1]. apply geo_join in G1; [|done].
  assert (HI2 : inv s1 (fupd F k (l1 ++ l2)) A {[(par p k, k + 1)]}) by by split.
  assert (Hup : inb (bud (par p k) k) (par p k, k + 1)).
  { rewrite inb_split by done. right. rewrite bud_par by done. by apply inb_head. }
  destruct (upd_order_step s1 _ A _ (bud (par p k) k) (par p k, k + 1) k HI2) as (s2 & E3 & HI3 & S2 & _);
    [set_solver|done|].
  destruct (inv_head s1 _ A _ (par p k) (k + 1) HI2) as (qg & Eqg & Eq); [right; right; set_solver|].
  exists s2, (fupd F k (l1 ++ l2)). split_and!; [done|by eapply same_trans|by eapply freeb_taken|].
  cbn [merge_loop]. destruct (Z.ltb_spec k ORDER_MAX); [|lia].
  st_step (buddy_get_step s p k pg Epg Ep Hkr). st_step (get_page_some _ _ _ Ebg).
  rewrite To, Z.eqb_refl. cbn [negb]. unfold valid_page in Tv. rewrite Tv. st_step E1. st_step E2.
  rewrite <- P1 in Epg. st_step (get_page_some _ _ _ Epg).
  assert (Epar : Z.land (pfn pg) (u32 (Z.lnot (Z.shiftl 1 k))) = par p k).
  { rewrite Ep. unfold par. rewrite <- Z.shiftl_1_l. apply land_u32_r.
    assert (0 <= p < page_count s) by (eapply geo_head_range; [apply HI|exact HL]).
    assert (page_count s <= 1048576) by apply HI. lia. }
  rewrite Epar. change (page_from_pfn (par p k)) with (Some (par p k)). cbn zeta.
  st_step (buddy_get_step s1 (par p k) k qg Eqg Eq Hkr). rewrite i32_order by done. st_step E3.
  rewrite u32_small by (unfold ORDER_MAX in *; lia). done.
Qed.

Lemma merge_stop s F A p k fuel :
  inv s F A {[(p, k)]} -> ~ (k < ORDER_MAX /\ freeb F (bud p k, k)) ->
  merge_loop (S fuel) (Some p) k s = Some ((Some p, k), s).
Proof.
  intros HI Hn. assert (HL : tiles F A {[(p, k)]} (p, k)) by (right; right; set_solver).
  destruct (g_wf _ _ _ _ _ (proj2 HI) _ HL) as [Ha _]. assert (Hk0 : 0 <= k) by apply Ha.
  cbn [merge_loop]. destruct (Z.ltb_spec k ORDER_MAX) as [Hk|]; [|done].
  destruct (buddy_test s F A p k HI Hk) as (bg & Ebg & T).
  destruct (inv_head s F A _ p k HI HL) as (pg & Epg & Ep).
  st_step (buddy_get_step s p k pg Epg Ep ltac:(lia)). st_step (get_page_some _ _ _ Ebg).
  destruct (Z.eqb_spec (u32 (order bg)) k) as [Eo|]; [|done]. cbn [negb].
  destruct (TEST_BIT (flags bg) PF_INVALID) eqn:Ef; [done|]. exfalso. apply Hn. split; [done|]. by apply T.
Qed.

(** The loop ends after at most [ORDER_MAX - k + 1] rounds. *)
Lemma merge_loop_spec fuel : forall s F A p k,
  inv s F A {[(p, k)]} -> merged F -> ORDER_MAX - k < Z.of_nat fuel ->
  exists s' F' p' k', merge_loop fuel (Some p) k s = Some ((Some p', k'), s') /\
    inv s' F' A {[(p', k')]} /\ same_but_lists s s' /\ merged F' /\
    ~ (k' < ORDER_MAX /\ freeb F' (bud p' k', k')) /\
    forall x, free_page F' x \/ inb x (p', k') <-> free_page F x \/ inb x (p, k).
Proof.
  induction fuel as [|fuel IH]; intros s F A p k HI HM Hf.
  - exfalso. destruct (g_wf _ _ _ _ _ (proj2 HI) (p, k)) as [_ ?]; [right; right; set_solver|]. cbn in *. lia.
  - assert (Hk0 : 0 <= k).
    { destruct (g_wf _ _ _ _ _ (proj2 HI) (p, k)) as [(_ & ? & _) _]; [right; right; set_solver|done]. }
    destruct (decide (k < ORDER_MAX /\ bud p k ∈ F k)) as [[Hk Hb]|Hn].
    + assert (Hfb : freeb F (bud p k, k)) by (split; [cbn; lia|done]).
      destruct (merge_round s F A p k fuel HI Hk Hfb) as (s1 & F1 & HI1 & S1 & HF & E).
      destruct (IH s1 F1 A _ _ HI1) as (s2 & F2 & p2 & k2 & E2 & HI2 & S2 & M2 & N2 & C2).
      { eapply merged_sub; [|exact HM]. intros b Hb'. by apply HF in Hb' as [? _]. }
      { lia. }
      exists s2, F2, p2, k2. split_and!; [by rewrite E|done|by eapply same_trans|done|done|].
      intros x. rewrite C2, (free_page_taken F F1 _ k x Hfb HF), inb_par by done. tauto.
    + assert (Hn' : ~ (k < ORDER_MAX /\ freeb F (bud p k, k))) by (intros [? [_ ?]]; apply Hn; done).
      exists s, F, p, k. split_and!; [by eapply merge_stop|done|apply same_refl|done|done|done].
Qed.

Lemma merged_put F p k :
  0 <= k <= ORDER_MAX -> merged F -> ~ (k < ORDER_MAX /\ freeb F (bud p k, k)) -> merged (fupd F k (p :: F k)).
Proof.
  intros Hk HM Hn q j. rewrite !freeb_add by done. intros [Hq|[= -> ->]] Hj [Hq'|E].
  - by apply (HM q j).
  - injection E as <- ->. apply Hn. by rewrite bud_bud.
  - by apply Hn.
  - injection E as E. by apply (bud_ne p k) in E; [|lia].
Qed.

(** [buddy_merge_block] returns a block in hand to the free lists: the free
    pages are the old ones and the block's, and the lists are fully merged. *)
Lemma merge_block_spec s F A p k :
  inv s F A {[(p, k)]} -> merged F ->
  exists s' F', buddy_merge_block (Some p) k s = Some (E_SUCCESS, s') /\
    inv s' F' A ∅ /\ same_but_lists s s' /\ merged F' /\
    forall x, free_page F' x <-> free_page F x \/ inb x (p, k).
Proof.
  intros HI HM. destruct (g_wf _ _ _ _ _ (proj2 HI) (p, k)) as [Ha Hm]; [right; right; set_solver|].
  destruct (merge_loop_spec 8 s F A p k HI HM) as (s1 & F1 & p1 & k1 & E1 & HI1 & S1 & M1 & N1 & C1).
  { destruct Ha as (_ & ? & _). unfold ORDER_MAX. cbn in *. lia. }
  destruct (g_wf _ _ _ _ _ (proj2 HI1) (p1, k1)) as [Ha1 Hm1]; [right; right; set_solver|].
  assert (Hk1 : 0 <= k1 <= ORDER_MAX) by (split; [apply Ha1|done]).
  destruct (add_block_step s1 F1 A {[(p1, k1)]} p1 k1 HI1) as (s2 & E2 & HI2 & S2); [set_solver|].
  replace ({[(p1, k1)]} ∖ {[(p1, k1)]} : gset (Z * Z)) with (∅ : gset (Z * Z)) in HI2 by set_solver.
  exists s2, (fupd F1 k1 (p1 :: F1 k1)). split_and!.
  - unfold buddy_merge_block. st_step E1. cbn [fst snd]. st_step E2. done.
  - done.
  - by eapply same_trans.
  - by apply merged_put.
  - intros x. rewrite free_page_put by done. apply C1.
Qed.

(** ** Splitting *)

Lemma get_last_step s F A L k l t :
  inv s F A L -> 0 <= k <= ORDER_MAX -> F k = l ++ [t] -> page_get_last k s = Some (Some t, s).
Proof.
  intros [Hl _] Hk E. pose proof (l_ring _ _ _ _ Hl k Hk) as C.
  rewrite E, fmap_app in C. cbn [fmap list_fmap] in C. apply clist_last in C.
  rewrite last_snoc in C. cbn [default] in C.
  unfold page_get_last. erewrite bind_some.
  2:{ unfold on_nodes. rewrite (load_prev_prv _ _ _ C). done. }
  cbn. by destruct s.
Qed.

Lemma free_count_step s F A L k :
  inv s F A L -> 0 <= k <= ORDER_MAX -> get_free_count k s = Some (Z.of_nat (length (F k)), s).
Proof.
  intros [Hl _] Hk. destruct (l_count _ _ _ _ Hl k Hk) as (b & E & <-).
  unfold get_free_count. by rewrite E.
Qed.

(** The state after a block of order [k + 1] was split for a request of order
    [k]: the two halves are the only free blocks of order [k] and the only
    buddies that are both free. *)
Record was_split s s' F F' A k (t : Z) : Prop := WasSplit {
  ws_inv : inv s' F' A ∅;
  ws_same : same_but_lists s s';
  ws_halves : F' k = [bud t k; t];
  ws_below : forall j, j < k -> F' j = F j;
  ws_merged : forall p j, freeb F' (p, j) -> j < ORDER_MAX -> freeb F' (bud p j, j) -> j = k;
  ws_pages : forall x, free_page F' x <-> free_page F x
}.

(** The tail of [buddy_split_block]: the last block of order [k + 1] is taken
    and its halves are listed one order below. *)
Lemma split_last s F A k l t :
  inv s F A ∅ -> 0 <= k -> k + 1 <= ORDER_MAX -> F k = [] -> F (k + 1) = l ++ [t] ->
  merged (fupd F (k + 1) l) ->
  exists s' F', was_split s s' F F' A k t /\
    (buddy_remove_block (Some t) ;;
     buddy <- buddy_get (Some t) k ;;
     buddy_add_block (Some t) k ;;
     buddy_add_block buddy k ;;
     ret E_SUCCESS)%st s = Some (E_SUCCESS, s').
Proof.
  intros HI Hk0 Hk E0 E HM.
  assert (Hf : freeb F (t, k + 1)) by (split; [cbn; lia|]; cbn; rewrite E; set_solver).
  destruct (g_wf _ _ _ _ _ (proj2 HI) (t, k + 1)) as [Ha _]; [by left|].
  destruct (remove_block_step s F A ∅ (k + 1) l t [] HI ltac:(lia) E) as (s1 & E1 & HI1 & S1 & _).
  assert (HF1 := freeb_taken s F A ∅ (k + 1) l t [] HI ltac:(lia) E). rewrite app_nil_r in HI1, HF1.
  replace (∅ ∪ {[(t, k + 1)]} : gset (Z * Z)) with ({[(t, k + 1)]} : gset (Z * Z)) in HI1 by set_solver.
  set (F1 := fupd F (k + 1) l) in *. destruct HI1 as [Hl1 G1]. apply geo_split in G1; [|done].
  assert (HI1 : inv s1 F1 A {[(t, k); (bud t k, k)]}) by by split.
  destruct (inv_head s1 _ A _ t k HI1) as (pg & Epg & Ep); [right; right; set_solver|].
  assert (Hne : bud t k <> t) by by apply bud_ne.
  destruct (add_block_step s1 F1 A _ t k HI1) as (s2 & E2 & HI2 & S2); [set_solver|].
  destruct (add_block_step s2 _ A _ (bud t k) k HI2) as (s3 & E3 & HI3 & S3).
  { apply elem_of_difference. split; [set_solver|]. intros [= ]%elem_of_singleton. done. }
  set (F2 := fupd F1 k (t :: F1 k)) in *.
  assert (HF : forall b, freeb (fupd F2 k (bud t k :: F2 k)) b <-> freeb F1 b \/ b = (t, k) \/ b = (bud t k, k)).
  { intros b. rewrite freeb_add by lia. unfold F2. rewrite freeb_add by lia. tauto. }
  exists s3, (fupd F2 k (bud t k :: F2 k)). split.
  - constructor.
    + replace (∅ : gset (Z * Z)) with ({[(t, k); (bud t k, k)]} ∖ {[(t, k)]} ∖ {[(bud t k, k)]} : gset (Z * Z))
        by set_solver. done.
    + eapply same_trans; [exact S1|]. by eapply same_trans.
    + rewrite fupd_eq. unfold F2, F1. rewrite fupd_eq, fupd_ne, E0 by lia. done.
    + intros j Hj. unfold F2, F1. rewrite !fupd_ne by lia. done.
    + intros p j. rewrite !HF. intros Hp Hj Hq. destruct (decide (j = k)) as [|Hjk]; [done|]. exfalso.
      apply (HM p j); [|done|]; [destruct Hp as [?|[[= -> ->]|[= -> ->]]]|destruct Hq as [?|[[= ? ?]|[= ? ?]]]]; done.
    + intros x. assert (Epar : par t k = t).
      { apply (aligned_head (par t k, k + 1) (t, k + 1)); cbn;
          [apply aligned_par; by apply aligned_low in Ha as [? _]|done| |lia].
        apply inb_par; [done|]. left. by apply inb_head. }
      pose proof (inb_par x t k Hk0) as HP. rewrite Epar in HP.
      rewrite (free_page_taken F F1 t (k + 1) x Hf HF1), HP, free_page_put by lia.
      unfold F2. rewrite free_page_put by lia. tauto.
  - st_step E1. st_step (buddy_get_step s1 t k pg Epg Ep ltac:(lia)). st_step E2. st_step E3. done.
Qed.

(** A free block of order [k] is at hand: [t] is the last one, and taking it
    leaves the lists fully merged. *)
Record ready s s' F F' A k (l : list Z) (t : Z) : Prop := Ready {
  rd_inv : inv s' F' A ∅;
  rd_same : same_but_lists s s';
  rd_last : F' k = l ++ [t];
  rd_merged : merged (fupd F' k l);
  rd_below : forall j, j < k -> F' j = F j;
  rd_pages : forall x, free_page F' x <-> free_page F x
}.

Definition split_ok (fuel : nat) : Prop := forall s F A k,
  inv s F A ∅ -> merged F -> 0 <= k <= ORDER_MAX -> F k = [] -> ORDER_MAX - k < Z.of_nat fuel ->
  (exists s' F' t, split_block fuel (k + 1) s = Some (E_SUCCESS, s') /\ was_split s s' F F' A k t) \/
  (split_block fuel (k + 1) s = Some (E_ERROR, s) /\ forall j, k <= j <= ORDER_MAX -> F j = []).

(** What both [page_alloc] and [buddy_split_block] do first: use a free block
    of the order at hand, or split a larger one. *)
Definition ensure (fuel : nat) k (fc : Z) : ST buddy bool :=
  (if fc =? 0 then
     split_block fuel (u32 (k + 1)) ;;
     fc <- get_free_count k ;;
     ret (negb (fc =? 0))
   else ret true)%st.

Lemma was_split_ready s s' F F' A k t : 0 <= k <= ORDER_MAX ->
  was_split s s' F F' A k t -> ready s s' F F' A k [bud t k] t.
Proof.
  intros Hk [WI WS WH WB WM WP]. constructor; try done.
  assert (HF := freeb_taken s' F' A ∅ k [bud t k] t [] WI Hk WH). rewrite app_nil_r in HF.
  intros p j. rewrite !HF. intros [Hp Np] Hj [Hq Nq]. assert (j = k) as -> by by apply (WM p j).
  destruct Hp as [_ Hp], Hq as [_ Hq]. cbn in Hp, Hq. rewrite WH in Hp, Hq.
  assert (p = bud t k) as -> by set_solver. apply Nq. by rewrite bud_bud.
Qed.

Lemma ensure_spec fuel s F A k :
  split_ok fuel -> inv s F A ∅ -> merged F -> 0 <= k <= ORDER_MAX -> ORDER_MAX - k < Z.of_nat fuel ->
  (exists s' F' l t, ensure fuel k (Z.of_nat (length (F k))) s = Some (true, s') /\ ready s s' F F' A k l t) \/
  (ensure fuel k (Z.of_nat (length (F k))) s = Some (false, s) /\ forall j, k <= j <= ORDER_MAX -> F j = []).
Proof.
  intros IH HI HM Hk Hf. unfold ensure.
  destruct (Z.eqb_spec (Z.of_nat (length (F k))) 0) as [E|Hne].
  - assert (E0 : F k = []) by (destruct (F k); [done|cbn in E; lia]).
    rewrite u32_small by (unfold ORDER_MAX in *; lia).
    destruct (IH s F A k HI HM Hk E0 Hf) as [(s1 & F1 & t & E1 & W)|[E1 HE]]; [left|right].
    + exists s1, F1, [bud t k], t. split; [|by apply was_split_ready]. st_step E1.
      st_step (free_count_step s1 F1 A ∅ k (ws_inv _ _ _ _ _ _ _ W) Hk). by rewrite (ws_halves _ _ _ _ _ _ _ W).
    + split; [|done]. st_step E1. st_step (free_count_step s F A ∅ k HI Hk). by rewrite E0.
  - left. destruct (exists_last (l := F k)) as (l & t & E); [by intros E; rewrite E in Hne|].
    exists s, F, l, t. split; [done|]. constructor; try done; [apply same_refl|].
    assert (HF := freeb_taken s F A ∅ k l t [] HI Hk E). rewrite app_nil_r in HF.
    eapply merged_sub; [|exact HM]. intros b Hb. by apply HF in Hb as [? _].
Qed.

(** The recursion of [buddy_split_block] climbs at most to [ORDER_MAX + 1]. *)
Lemma split_block_spec fuel : split_ok fuel.
Proof.
  induction fuel as [|fuel IH]; intros s F A k HI HM Hk E0 Hf; [lia|].
  cbn [split_block]. destruct (Z.ltb_spec ORDER_MAX (k + 1)) as [Hgt|Hle].
  { right. split; [done|]. intros j Hj. by assert (j = k) as -> by lia. }
  st_step (free_count_step s F A ∅ (k + 1) HI ltac:(lia)). fold (ensure fuel (k + 1) (Z.of_nat (length (F (k + 1))))).
  destruct (ensure_spec fuel s F A (k + 1) IH HI HM ltac:(lia) ltac:(lia))
    as [(s1 & F1 & l & t & E1 & [RI RS RL RM RB RP])|[E1 HE]]; st_step E1; cbn [negb].
  - left. rewrite u32_small by (unfold ORDER_MAX in *; lia). replace (k + 1 - 1) with k by lia.
    st_step (get_last_step s1 F1 A ∅ (k + 1) l t RI ltac:(lia) RL).
    destruct (split_last s1 F1 A k l t RI ltac:(lia) Hle) as (s2 & F2 & [WI WS WH WB WM WP] & E2);
      [rewrite RB by lia; done|done|done|].
    exists s2, F2, t. split; [exact E2|]. constructor; try done.
    + by eapply same_trans.
    + intros j Hj. rewrite WB, RB by lia. done.
    + intros x. by rewrite WP, RP.
  - right. split; [done|]. intros j Hj. destruct (decide (j = k)) as [->|]; [done|]. apply HE. lia.
Qed.
