(* ===== verification/PageAlloc.v ===== *)
(** * What the page allocator promises

    [allocator s F A] is the allocator at rest: its invariant with no block in
    hand, fully merged free lists, reference counts that agree with the
    allocated blocks, and the lock released.  The theorems say what
    [page_alloc] and [page_free] do to it on every branch. *)

From stdpp Require Import base numbers list gmap.
From Stdlib Require Import ZArith Lia Znumtheory.
From S2P Require Import Prelude LinkedList PageDefs Bootmem Blocks Palloc BuddyInv BuddySteps BuddyMerge.

#[local] Open Scope Z_scope.

Implicit Types (F : Z -> list Z) (A L : gset (Z * Z)) (s : buddy) (p k x n : Z).

(** Only the first page of an allocated block carries references. *)
Definition uses s A : Prop := forall x pg, pages s !! x = Some pg ->
  (exists k, (x, k) ∈ A) /\ 1 <= use_count pg < 4294967296 \/
  (forall k, (x, k) ∉ A) /\ use_count pg = 0.

Record allocator s F A : Prop := Allocator {
  al_inv : inv s F A ∅;
  al_merged : merged F;
  al_uses : uses s A;
  al_unlocked : lock_flag s = false
}.

(** ** Helpers *)

Lemma inv_lock s F A L b : inv s F A L <-> inv (with_lock b s) F A L.
Proof. done. Qed.

Lemma with_lock_id s b : lock_flag s = b -> with_lock b s = s.
Proof. intros <-. by destruct s. Qed.

Lemma lock_free s : lock_flag s = false -> lock s = Some (tt, with_lock true s).
Proof. unfold lock. by intros ->. Qed.

Lemma same_lookup s s' i pg :
  same_but_lists s s' -> pages s' !! i = Some pg ->
  exists pg0, pages s !! i = Some pg0 /\ pfn pg0 = pfn pg /\ use_count pg0 = use_count pg /\ flags pg0 = flags pg.
Proof.
  intros (_ & _ & _ & _ & _ & _ & H) E. specialize (H i). rewrite E in H.
  destruct (pages s !! i) as [pg0|]; [|done]. exists pg0. cbn in H. tauto.
Qed.

Lemma uses_same s s' A : same_but_lists s s' -> uses s A -> uses s' A.
Proof.
  intros HS HU x pg E. destruct (same_lookup _ _ _ _ HS E) as (pg0 & E0 & _ & <- & _). by apply HU.
Qed.

Lemma same_lock_true s s' :
  same_but_lists (with_lock true s) s' -> same_but_lists (with_lock false s) (with_lock false s').
Proof. unfold same_but_lists. cbn. tauto. Qed.

Lemma geo_alloc_head s F A p k j : inv s F A ∅ -> (p, k) ∈ A -> (p, j) ∈ A -> j = k.
Proof.
  intros [_ G] H1 H2.
  assert (HT : forall i, (p, i) ∈ A -> tiles F A ∅ (p, i)) by (intros; by right; left).
  assert (HH : forall i, (p, i) ∈ A -> inb p (p, i)).
  { intros i Hi. apply inb_head. by destruct (g_wf _ _ _ _ _ G _ (HT i Hi)) as [(_ & ? & _) _]. }
  assert (E : (p, j) = (p, k)) by (apply (g_tile _ _ _ _ _ G _ _ p); auto). congruence.
Qed.

Lemma free_not_alloc s F A p k :
  inv s F A ∅ -> freeb F (p, k) -> forall j, (p, j) ∉ A.
Proof.
  intros [_ G] Hf j Hj. assert (E : (p, k) = (p, j)).
  { apply (g_tile _ _ _ _ _ G _ _ p); [by left|by right; left| |]; apply inb_head.
    - apply Hf.
    - destruct (g_wf _ _ _ _ _ G (p, j)) as [(_ & ? & _) _]; [by right; left|done]. }
  rewrite <- E in Hj. apply (g_disj _ _ _ _ _ G) in Hf. set_solver.
Qed.

(** ** The effect of taking the last free block *)

(** The tail of [page_alloc], after a block of order [k] was made available. *)
Lemma take_last s s1 F F1 A k l t :
  ready (with_lock true s) s1 F F1 A k l t -> uses s A -> 0 <= k <= ORDER_MAX ->
  exists s', allocator s' (fupd F1 k l) (A ∪ {[(t, k)]}) /\
    (forall j, (t, j) ∉ A) /\ freeb F1 (t, k) /\
    (exists pg, pages s' !! t = Some pg /\ pfn pg = t /\ use_count pg = 1) /\
    (buddy_remove_block (Some t) ;; PAGE_INC_USES (Some t) ;; unlock ;; ret (Some t))%st s1
      = Some (Some t, s').
Proof.
  intros [RI RS RL RM _ _] HU Hk.
  assert (Hf : freeb F1 (t, k)) by (split; [done|]; cbn; rewrite RL; set_solver).
  assert (Hnew := free_not_alloc _ _ _ _ _ RI Hf).
  destruct (remove_block_step s1 F1 A ∅ k l t [] RI Hk RL) as (s2 & E2 & [Hl2 G2] & S2 & (pg & Epg & Eo)).
  rewrite app_nil_r in Hl2, G2.
  assert (HU2 : uses s2 A). { eapply uses_same; [exact S2|]. eapply uses_same; [exact RS|]. done. }
  assert (Ep : pfn pg = t /\ use_count pg = 0).
  { destruct (inv_head s2 _ A _ t k (conj Hl2 G2)) as (pg' & E' & Ep'); [right; right; set_solver|].
    destruct (HU2 t pg Epg) as [[[j Hj] _]|[_ ?]]; [by apply Hnew in Hj|]. split; [congruence|done]. }
  destruct Ep as [Ep Eu].
  set (pg1 := set_uses (u32 (use_count pg + 1)) pg).
  assert (Eu1 : use_count pg1 = 1) by (cbn; by rewrite Eu).
  exists (with_lock false (with_pages (<[t := pg1]> (pages s2)) s2)). split_and!.
  - constructor; [|done| |done].
    + split; cbn; [done|]. assert (G3 : geo (<[t := pg1]> (pages s2)) (page_count s2) (fupd F1 k l) A (∅ ∪ {[(t, k)]})).
      { eapply geo_upd; [exact G2|done..|by left]. }
      apply (geo_put_alloc _ _ _ _ _ t k) in G3; [|set_solver|exists pg1; by rewrite lookup_insert_eq].
      by replace ((∅ ∪ {[(t, k)]}) ∖ {[(t, k)]} : gset (Z * Z)) with (∅ : gset (Z * Z)) in G3 by set_solver.
    + intros x px. cbn. destruct (decide (t = x)) as [->|Hne].
      * rewrite lookup_insert_eq. intros [= <-]. left. rewrite Eu1. split; [|lia]. exists k. set_solver.
      * rewrite lookup_insert_ne by done. intros Ex. destruct (HU2 x px Ex) as [[[j Hj] ?]|[Hn ?]]; [left|right].
        -- split; [exists j; set_solver|done].
        -- split; [|done]. intros j [Hj|Hj]%elem_of_union; [by apply Hn in Hj|].
           apply elem_of_singleton in Hj as [= -> ->]. done.
  - done.
  - done.
  - exists pg1. cbn. by rewrite lookup_insert_eq.
  - st_step E2. unfold PAGE_INC_USES. st_step (upd_page_some _ _ _ (fun pg => set_uses (u32 (use_count pg + 1)) pg) Epg). done.
Qed.

Lemma page_alloc_spec s F A k fl :
  allocator s F A -> 0 <= k <= ORDER_MAX ->
  (exists p s' F', page_alloc k fl s = Some (Some p, s') /\ allocator s' F' (A ∪ {[(p, k)]}) /\
     (forall j, (p, j) ∉ A) /\
     (forall x, free_page F x <-> free_page F' x \/ inb x (p, k)) /\
     exists pg, pages s' !! p = Some pg /\ pfn pg = p /\ use_count pg = 1) \/
  (page_alloc k fl s = Some (None, s) /\ forall j, k <= j <= ORDER_MAX -> F j = []).
Proof.
  intros [HI HM HU HL] Hk. unfold page_alloc.
  assert ((k <? ORDER_MIN) || (ORDER_MAX <? k) = false) as -> by (unfold ORDER_MIN; bool_cases).
  st_step (lock_free s HL). set (s0 := with_lock true s). assert (HI0 : inv s0 F A ∅) by done.
  st_step (free_count_step s0 F A ∅ k HI0 Hk).
  change (if Z.of_nat (length (F k)) =? 0 then _ else _) with (ensure 8 k (Z.of_nat (length (F k)))).
  destruct (ensure_spec 8 s0 F A k (split_block_spec 8) HI0 HM Hk ltac:(unfold ORDER_MAX in *; lia))
    as [(s1 & F1 & l & t & E1 & R)|[E1 HE]]; st_step E1; cbn [negb].
  - left. destruct (take_last s s1 F F1 A k l t R HU Hk) as (s' & HA & Hnew & Hf & Hpg & E2).
    st_step (get_last_step s1 F1 A ∅ k l t (rd_inv _ _ _ _ _ _ _ _ R) Hk (rd_last _ _ _ _ _ _ _ _ R)).
    exists t, s', (fupd F1 k l). split_and!; try done. intros x.
    assert (HF := freeb_taken s1 F1 A ∅ k l t [] (rd_inv _ _ _ _ _ _ _ _ R) Hk (rd_last _ _ _ _ _ _ _ _ R)).
    rewrite app_nil_r in HF. rewrite <- (rd_pages _ _ _ _ _ _ _ _ R). by apply free_page_taken.
  - right. split; [|done]. change (Some (@None Z, with_lock false s) = Some (None, s)). by rewrite with_lock_id.
Qed.

(** ** Giving a block back *)

Lemma same_lookup' s s' i pg :
  same_but_lists s s' -> pages s !! i = Some pg ->
  exists pg', pages s' !! i = Some pg' /\ pfn pg' = pfn pg /\ use_count pg' = use_count pg /\ flags pg' = flags pg.
Proof.
  intros (_ & _ & _ & _ & _ & _ & H) E. specialize (H i). rewrite E in H.
  destruct (pages s' !! i) as [pg0|]; [|done]. exists pg0. cbn in H. intuition congruence.
Qed.

(** The counts after the last reference to block [(p, k)] is dropped. *)
Lemma uses_free s s' F A p k pg' pg'' :
  inv s F A ∅ -> uses s A -> (p, k) ∈ A -> same_but_lists (with_lock true s) s' ->
  pages s' !! p = Some pg' -> use_count pg'' = 0 ->
  uses (with_lock false (with_pages (<[p := pg'']> (pages s')) s')) (A ∖ {[(p, k)]}).
Proof.
  intros HI HU HA HS Ep E0 x px. cbn. destruct (decide (p = x)) as [->|Hne].
  - rewrite lookup_insert_eq. intros [= <-]. right. split; [|done].
    intros j [Hj Hne]%elem_of_difference. apply Hne.
    rewrite (geo_alloc_head s F A x k j HI HA Hj). set_solver.
  - rewrite lookup_insert_ne by done. intros Ex.
    assert (HU' : uses s' A) by (eapply uses_same; [exact HS|done]).
    destruct (HU' x px Ex) as [[[j Hj] ?]|[Hn ?]]; [left|right].
    + split; [|done]. exists j. apply elem_of_difference. split; [done|].
      intros [= -> ->]%elem_of_singleton. done.
    + split; [|done]. set_solver.
Qed.

Section Kernel.
  Context (KS KE : Z).

  #[local] Abbreviation page_free := (page_free KS KE).
  #[local] Abbreviation page_is_critical := (page_is_critical KS KE).

(** The page lies in the kernel image. *)
Definition kernel_page (x : Z) : bool := (KS <=? PFN_TO_PA x) && (PFN_TO_PA x <? KE).

Lemma page_is_critical_spec s p pg :
  pages s !! p = Some pg ->
  page_is_critical (Some p) s = Some (if kernel_page (pfn pg) then E_ERROR else E_SUCCESS, s).
Proof. intros E. unfold Palloc.page_is_critical. by st_step (get_page_some _ _ _ E). Qed.

Lemma page_free_enter s p pg k :
  pages s !! p = Some pg -> kernel_page (pfn pg) = false -> lock_flag s = false ->
  page_free (Some p) k s =
    (if 1 <? use_count pg then PAGE_DEC_USES (Some p) ;; unlock ;; ret E_SUCCESS
     else upd_page (Some p) (set_order (i32 k)) ;; buddy_merge_block (Some p) (u32 k) ;;
          PAGE_DEC_USES (Some p) ;; unlock ;; ret E_SUCCESS)%st (with_lock true s).
Proof.
  intros E Hc HL. unfold Palloc.page_free. st_step (page_is_critical_spec s p pg E). rewrite Hc. cbn.
  st_step (get_page_some _ _ _ E). destruct (1 <? use_count pg); by st_step (lock_free s HL).
Qed.

(** Decrementing the count of an allocated block's first page. *)
Lemma dec_uses_spec s p pg :
  pages s !! p = Some pg ->
  (PAGE_DEC_USES (Some p) ;; unlock ;; ret E_SUCCESS)%st s =
    Some (E_SUCCESS, with_lock false (with_pages (<[p := set_uses (u32 (use_count pg - 1)) pg]> (pages s)) s)).
Proof. intros E. unfold PAGE_DEC_USES. by st_step (upd_page_some _ _ _ (fun pg => set_uses (u32 (use_count pg - 1)) pg) E). Qed.

Lemma page_free_spec s F A p k pg :
  allocator s F A -> (p, k) ∈ A -> pages s !! p = Some pg -> use_count pg = 1 -> kernel_page p = false ->
  exists s' F', page_free (Some p) k s = Some (E_SUCCESS, s') /\
    allocator s' F' (A ∖ {[(p, k)]}) /\
    (forall x, free_page F' x <-> free_page F x \/ inb x (p, k)) /\
    (forall x, x <> p -> same_page (pages s !! x) (pages s' !! x)).
Proof.
  intros [HI HM HU HL] HA Epg Eu Hkp.
  assert (Ep : pfn pg = p).
  { destruct (inv_head s F A ∅ p k HI) as (pg' & E' & <-); [by right; left|]. congruence. }
  rewrite (page_free_enter s p pg k) by (rewrite ?Ep; done).
  assert ((1 <? use_count pg) = false) as -> by (rewrite Eu; done).
  assert (Hk : 0 <= k <= ORDER_MAX).
  { destruct (g_wf _ _ _ _ _ (proj2 HI) (p, k)) as [(_ & ? & _) ?]; [by right; left|]. done. }
  set (s0 := with_lock true s).
  assert (HI0 : inv s0 F (A ∖ {[(p, k)]}) {[(p, k)]}).
  { destruct HI as [Hl G]. split; [done|]. apply (geo_take_alloc _ _ _ _ _ p k) in G; [|done].
    by replace (∅ ∪ {[(p, k)]} : gset (Z * Z)) with ({[(p, k)]} : gset (Z * Z)) in G by set_solver. }
  destruct (upd_order_step s0 F _ _ p (p, k) (i32 k) HI0) as (s1 & E1 & HI1 & S1 & _);
    [set_solver|apply inb_head; lia|].
  destruct (merge_block_spec s1 F _ p k HI1 HM) as (s2 & F2 & E2 & HI2 & S2 & M2 & C2).
  rewrite (u32_small k) by (unfold ORDER_MAX in *; lia). st_step E1. st_step E2.
  assert (S12 := same_trans _ _ _ S1 S2).
  destruct (same_lookup' _ _ p pg S12 Epg) as (pg2 & Epg2 & _ & Eu2 & _).
  rewrite (dec_uses_spec s2 p pg2 Epg2). eexists. exists F2. split_and!; [done| |done|].
  - constructor; [|done| |done].
    + destruct HI2 as [Hl2 G2]. split; cbn; [done|]. eapply geo_upd; [exact G2|done..|by left].
    + eapply uses_free; [exact HI|exact HU|exact HA|exact S12|exact Epg2|]. by rewrite Eu2, Eu.
  - intros x Hx. cbn. rewrite lookup_insert_ne by done. apply S12.
Qed.

Lemma page_free_shared_spec s F A p k pg j :
  allocator s F A -> (p, k) ∈ A -> pages s !! p = Some pg -> 1 < use_count pg -> kernel_page p = false ->
  exists s', page_free (Some p) j s = Some (E_SUCCESS, s') /\ allocator s' F A /\
    s' = with_pages (<[p := set_uses (use_count pg - 1) pg]> (pages s)) s.
Proof.
  intros [HI HM HU HL] HA Epg Eu Hkp.
  assert (Ep : pfn pg = p).
  { destruct (inv_head s F A ∅ p k HI) as (pg' & E' & <-); [by right; left|]. congruence. }
  rewrite (page_free_enter s p pg j) by (rewrite ?Ep; done).
  destruct (HU p pg Epg) as [[_ Hr]|[Hn _]]; [|by apply Hn in HA].
  assert ((1 <? use_count pg) = true) as -> by bool_cases.
  rewrite (dec_uses_spec (with_lock true s) p pg Epg), u32_small by lia.
  eexists. split; [done|]. split; [|cbn; unfold with_pages, with_lock; cbn; by rewrite HL].
  constructor; [|done| |done].
  - destruct HI as [Hl G]. split; cbn; [done|]. eapply geo_upd; [exact G|done..|by left].
  - intros x px. cbn. destruct (decide (p = x)) as [->|Hne].
    + rewrite lookup_insert_eq. intros [= <-]. left. split; [by exists k|]. cbn. lia.
    + rewrite lookup_insert_ne by done. apply HU.
Qed.

End Kernel.
