(* ===== verification/PageSource.v ===== *)
(** * What clients of the page allocator rely on

    The slab allocator, the page tables and the scheduler take pages from
    palloc.c.  They are modelled against this interface: a source of pages with
    a representation predicate that names the live blocks, whose allocation
    returns a fresh aligned block or NULL and whose free gives a live block
    back.  The buddy allocator is an instance of it. *)

From stdpp Require Import base numbers list gmap.
From Stdlib Require Import ZArith Lia Znumtheory.
From S2P Require Import Prelude LinkedList PageDefs Bootmem Blocks Palloc BuddyInv BuddySteps BuddyMerge PageAlloc.

#[local] Open Scope Z_scope.

(** The frames the kernel reaches through its linear mapping, from
    [KERNEL_START_VIRT] up to the temporary mappings at [KMAP_START_VIRT]. *)
Definition LINEAR_FRAMES : Z := 0x30000.

(** [ps_alloc k] is [page_alloc(k, flags)] with the page's frame number,
    [ps_free p k] is [page_free] on that page. *)
Class PageSource (P : Type) := {
  ps_alloc : Z -> ST P (option Z);
  ps_free : Z -> Z -> ST P Z;
  ps_rep : P -> gset (Z * Z) -> Prop;
  ps_alloc_spec : forall s A k, ps_rep s A -> 0 <= k <= ORDER_MAX ->
    (exists p s', ps_alloc k s = Some (Some p, s') /\ ps_rep s' (A ∪ {[(p, k)]}) /\
       (forall b x, b ∈ A -> inb x b -> ~ inb x (p, k)) /\ aligned (p, k) /\ p + 2 ^ k <= LINEAR_FRAMES) \/
    (exists s', ps_alloc k s = Some (None, s') /\ ps_rep s' A);
  ps_free_spec : forall s A p k, ps_rep s A -> (p, k) ∈ A ->
    exists r s', ps_free p k s = Some (r, s') /\ (ps_rep s' (A ∖ {[(p, k)]}) \/ ps_rep s' A);
  ps_range : forall s A b, ps_rep s A -> b ∈ A -> aligned b /\ b.1 + 2 ^ b.2 <= LINEAR_FRAMES
}.

(** ** The size of the page array never changes *)

Definition same_size {X} (m : ST buddy X) : Prop :=
  forall s r s', m s = Some (r, s') -> page_count s' = page_count s.

Create HintDb pagecount.

Lemma same_size_bind {X Y} (m : ST buddy X) (f : X -> ST buddy Y) :
  same_size m -> (forall a, same_size (f a)) -> same_size (bind m f).
Proof.
  intros Hm Hf s r s' E. apply bind_inv in E as (a & s1 & E1 & E2).
  by rewrite (Hf _ _ _ _ E2), (Hm _ _ _ E1).
Qed.

Lemma same_size_ret {X} (a : X) : same_size (ret a).
Proof. by intros s r s' [= _ <-]. Qed.

Lemma same_size_fault {X} : same_size (fault (A := X)).
Proof. intros s r s'. discriminate. Qed.

Lemma same_size_get_page p : same_size (get_page p).
Proof. intros s r s'. unfold get_page. destruct (_ ≫= _); [by intros [= _ <-]|discriminate]. Qed.

Lemma same_size_upd_page p f : same_size (upd_page p f).
Proof.
  intros s r s'. unfold upd_page. destruct p as [i|]; [|discriminate].
  destruct (pages s !! i); [by intros [= _ <-]|discriminate].
Qed.

Lemma same_size_get_free_count k : same_size (get_free_count k).
Proof. intros s r s'. unfold get_free_count. destruct (blocks s !! k); [by intros [= _ <-]|discriminate]. Qed.

Lemma same_size_add_free_count k d : same_size (add_free_count k d).
Proof. intros s r s'. unfold add_free_count. destruct (blocks s !! k); [by intros [= _ <-]|discriminate]. Qed.

Lemma same_size_on_nodes {X} (m : ST (gmap bnode (lnode bnode)) X) : same_size (on_nodes m).
Proof. intros s r s'. unfold on_nodes. destruct (m (nodes s)) as [[]|]; [by intros [= _ <-]|discriminate]. Qed.

Lemma same_size_lock : same_size lock.
Proof. intros s r s'. unfold lock. destruct (lock_flag s); [discriminate|]. by intros [= _ <-]. Qed.

Lemma same_size_unlock : same_size unlock.
Proof. by intros s r s' [= _ <-]. Qed.

#[export] Hint Resolve same_size_bind same_size_ret same_size_fault same_size_get_page same_size_upd_page
  same_size_get_free_count same_size_add_free_count same_size_on_nodes same_size_lock same_size_unlock : pagecount.

Ltac same_size_tac :=
  repeat (apply same_size_bind; [auto with pagecount|intros ?]);
  repeat match goal with
  | |- same_size (match ?x with _ => _ end) => destruct x
  | |- same_size (bind _ _) => apply same_size_bind; [|intros ?]
  | |- same_size _ => solve [auto with pagecount]
  end.

Lemma same_size_remove p : same_size (buddy_remove_block p).
Proof. unfold buddy_remove_block. same_size_tac. Qed.

Lemma same_size_add p k : same_size (buddy_add_block p k).
Proof. unfold buddy_add_block. same_size_tac. Qed.

Lemma same_size_get p k : same_size (buddy_get p k).
Proof. unfold buddy_get. same_size_tac. Qed.

Lemma same_size_last k : same_size (page_get_last k).
Proof. unfold page_get_last. same_size_tac. Qed.

#[export] Hint Resolve same_size_remove same_size_add same_size_get same_size_last : pagecount.

Lemma same_size_split fuel k : same_size (split_block fuel k).
Proof.
  revert k. induction fuel as [|fuel IH]; intros k; cbn [split_block]; [auto with pagecount|].
  assert (forall j, same_size (split_block fuel j)) by done. same_size_tac.
Qed.

Lemma same_size_merge_loop fuel p k : same_size (merge_loop fuel p k).
Proof.
  revert p k. induction fuel as [|fuel IH]; intros p k; cbn [merge_loop]; [auto with pagecount|].
  cbv zeta. same_size_tac.
Qed.

#[export] Hint Resolve same_size_split same_size_merge_loop : pagecount.

Lemma same_size_page_alloc k fl : same_size (page_alloc k fl).
Proof. unfold page_alloc, buddy_split_block, PAGE_INC_USES. same_size_tac. Qed.

Lemma same_size_page_free KS KE p k : same_size (page_free KS KE p k).
Proof. unfold page_free, page_is_critical, buddy_merge_block, PAGE_DEC_USES. same_size_tac. Qed.

(** The live blocks of the buddy allocator, on a machine whose memory all lies
    in the linear mapping. *)
Definition buddy_rep (s : buddy) (A : gset (Z * Z)) : Prop :=
  page_count s <= LINEAR_FRAMES /\ exists F, allocator s F A.

Lemma block_in_array s F A L b :
  inv s F A L -> tiles F A L b -> aligned b /\ b.1 + 2 ^ b.2 <= page_count s.
Proof.
  intros [_ G] Hb. destruct (g_wf _ _ _ _ _ G b Hb) as [Ha _]. split; [done|].
  assert (0 < 2 ^ b.2) by (apply pow2_pos, Ha).
  assert (0 <= b.1 + 2 ^ b.2 - 1 < page_count s); [|lia].
  apply (geo_in_range _ _ _ _ _ b _ G Hb). unfold inb. lia.
Qed.

Lemma buddy_rep_range s A b : buddy_rep s A -> b ∈ A -> aligned b /\ b.1 + 2 ^ b.2 <= LINEAR_FRAMES.
Proof.
  intros [Hc [F HA]] Hb. destruct (block_in_array s F A ∅ b (al_inv _ _ _ HA)) as [? ?]; [by right; left|].
  split; [done|lia].
Qed.

Section Buddy.
  Context (KS KE : Z).

Lemma buddy_alloc_spec s A k : buddy_rep s A -> 0 <= k <= ORDER_MAX ->
  (exists p s', page_alloc k PR_KERNEL s = Some (Some p, s') /\ buddy_rep s' (A ∪ {[(p, k)]}) /\
     (forall b x, b ∈ A -> inb x b -> ~ inb x (p, k)) /\ aligned (p, k) /\ p + 2 ^ k <= LINEAR_FRAMES) \/
  (exists s', page_alloc k PR_KERNEL s = Some (None, s') /\ buddy_rep s' A).
Proof.
  intros [Hc [F HA]] Hk. destruct (page_alloc_spec s F A k PR_KERNEL HA Hk)
    as [(p & s' & F' & E & HA' & Hn & _)|[E _]]; [left|right; exists s; split; [done|by split; [|exists F]]].
  pose proof (same_size_page_alloc _ _ _ _ _ E) as Hs.
  assert (HR : buddy_rep s' (A ∪ {[(p, k)]})) by (split; [by rewrite Hs|by exists F']).
  exists p, s'. split_and!; [done|done| |..].
  - intros b x Hb Hx Hx'. destruct (al_inv _ _ _ HA') as [_ G].
    assert (b = (p, k)) as ->; [|by apply Hn in Hb].
    apply (g_tile _ _ _ _ _ G b (p, k) x); [right; left; set_solver..|done|done].
  - apply (buddy_rep_range _ _ (p, k) HR). set_solver.
  - apply (buddy_rep_range _ _ (p, k) HR). set_solver.
Qed.

Lemma buddy_free_spec s A p k : buddy_rep s A -> (p, k) ∈ A ->
  exists r s', page_free KS KE (Some p) k s = Some (r, s') /\
    (buddy_rep s' (A ∖ {[(p, k)]}) \/ buddy_rep s' A).
Proof.
  intros [Hc [F HA]] Hp.
  destruct (inv_head s F A ∅ p k (al_inv _ _ _ HA)) as (pg & Epg & Ep); [by right; left|].
  destruct (kernel_page KS KE p) eqn:Hk.
  { exists E_ERROR, s. split; [|right; split; [done|by exists F]].
    unfold page_free. st_step (page_is_critical_spec KS KE s p pg Epg). by rewrite Ep, Hk. }
  destruct (al_uses _ _ _ HA p pg Epg) as [[_ Hu]|[Hn _]]; [|by apply Hn in Hp].
  destruct (decide (use_count pg = 1)) as [H1|H1].
  - destruct (page_free_spec KS KE s F A p k pg HA Hp Epg H1 Hk) as (s' & F' & E & HA' & _).
    exists E_SUCCESS, s'. split; [done|]. left. split; [|by exists F'].
    by rewrite (same_size_page_free _ _ _ _ _ _ _ E).
  - destruct (page_free_shared_spec KS KE s F A p k pg k HA Hp Epg ltac:(lia) Hk) as (s' & E & HA' & _).
    exists E_SUCCESS, s'. split; [done|]. right. split; [|by exists F].
    by rewrite (same_size_page_free _ _ _ _ _ _ _ E).
Qed.

#[export] Instance buddy_source : PageSource buddy := {|
  ps_alloc k := page_alloc k PR_KERNEL;
  ps_free p k := page_free KS KE (Some p) k;
  ps_rep := buddy_rep;
  ps_alloc_spec := buddy_alloc_spec;
  ps_free_spec := buddy_free_spec;
  ps_range := buddy_rep_range
|}.

End Buddy.
