(* ===== verification/Boot.v ===== *)
(** * Handing the boot memory over to the page allocator

    [bootmem_mark_free] (kernel/mm/bootmem.c) walks the registered regions,
    clears the INVALID flag of every whole page in them and gives the page to
    the buddy allocator that [buddy_init] prepared.  Together they establish
    the allocator invariant: the free pages are exactly those of the regions. *)

From stdpp Require Import base numbers list gmap.
From Stdlib Require Import ZArith Lia Znumtheory.
From S2P Require Import Prelude LinkedList PageDefs Bootmem Blocks Palloc BuddyInv BuddySteps BuddyMerge PageAlloc.

#[local] Open Scope Z_scope.

Implicit Types (F : Z -> list Z) (A L : gset (Z * Z)) (s : buddy) (p k x n : Z).

Definition clear_invalid (pg : page) : page := set_flags (CLEAR_BIT (flags pg) PF_INVALID) pg.

(** The loop over the pages of one region.  [first_page] advances by a page per
    round and stays below [end_page], so it does not wrap. *)
Fixpoint mark_pages (fuel : nat) (first_page end_page : Z) : ST buddy unit :=
  match fuel with
  | O => fault
  | S f =>
      (if first_page <? end_page then
         let page := page_from_pfn (PA_TO_PFN first_page) in
         upd_page page clear_invalid ;;
         page_initial_free page ;;
         mark_pages f (u32 (first_page + PAGE_SIZE)) end_page
       else ret tt)%st
  end.

Definition mark_region (r : mem_region) : ST buddy unit :=
  if start_addr r =? 0 then ret tt
  else
    let first_page := PAGE_ALIGN (start_addr r) in
    let end_page := PAGE_ALIGN_DOWN (end_addr r) in
    mark_pages (S (Z.to_nat ((end_page - first_page) / PAGE_SIZE))) first_page end_page.

Fixpoint mark_regions (rs : list mem_region) : ST buddy unit :=
  match rs with
  | [] => ret tt
  | r :: t => (mark_region r ;; mark_regions t)%st
  end.

(** [bootmem_mark_free]; its panic is a fault, as is reading the array of
    regions past its end. *)
Definition bootmem_mark_free : ST (bootmem * buddy) Z :=
  fun '(bm, s) =>
    if (region_count bm =? 0) || (highest_pfn bm =? 0) then None
    else if Z.of_nat (length (mem_regions bm)) <? region_count bm then None
    else match mark_regions (take (Z.to_nat (region_count bm)) (mem_regions bm)) s with
         | Some (_, s') => Some (E_SUCCESS, (bm, s'))
         | None => None
         end.

(** ** One page *)

Lemma clear_invalid_valid pg : valid_page (clear_invalid pg).
Proof.
  unfold valid_page, TEST_BIT, clear_invalid, CLEAR_BIT. cbn [flags set_flags].
  rewrite <- Z.land_assoc. change (Z.land (u32 (Z.lnot PF_INVALID)) PF_INVALID) with 0.
  by rewrite Z.land_0_r.
Qed.

Lemma geo_validate pgs n F A x pg :
  geo pgs n F A ∅ -> pgs !! x = Some pg -> ~ valid pgs x ->
  geo (<[x := clear_invalid pg]> pgs) n F A {[(x, 0)]}.
Proof.
  intros G Ex Hx. set (pgs' := <[x := clear_invalid pg]> pgs).
  assert (HV : forall y, valid pgs' y <-> valid pgs y \/ y = x).
  { intros y. unfold pgs', valid. destruct (decide (x = y)) as [->|Hne].
    - rewrite lookup_insert_eq. split; [by right|]. intros _. eexists. split; [done|]. apply clear_invalid_valid.
    - rewrite lookup_insert_ne by done. naive_solver. }
  assert (HO : forall p q, pgs !! p = Some q -> exists q', pgs' !! p = Some q' /\ pfn q' = pfn q /\ order q' = order q).
  { intros p q Eq. unfold pgs'. destruct (decide (x = p)) as [->|Hne].
    - rewrite lookup_insert_eq. eexists. split; [done|]. by assert (q = pg) as -> by congruence.
    - rewrite lookup_insert_ne by done. eauto. }
  assert (HT : forall b, tiles F A {[(x, 0)]} b <-> tiles F A ∅ b \/ b = (x, 0)).
  { intros b. unfold tiles. rewrite elem_of_singleton. set_solver. }
  assert (Hin0 : forall y, inb y (x, 0) -> y = x) by (unfold inb; cbn; lia).
  assert (Hno : forall b, tiles F A ∅ b -> inb x b -> False).
  { intros b Hb Hin. apply Hx. by apply (g_valid _ _ _ _ _ G b). }
  constructor; try apply G.
  - intros i Hi. destruct (g_pages _ _ _ _ _ G i Hi) as (q & Eq & <-). apply HO in Eq as (q' & ? & ? & _). eauto.
  - intros i q. unfold pgs'. destruct (decide (x = i)) as [->|]; [|rewrite lookup_insert_ne by done];
      intros; by eapply (g_range _ _ _ _ _ G).
  - intros p k Hf. destruct (g_free _ _ _ _ _ G p k Hf) as (q & Eq & <-). apply HO in Eq as (q' & ? & _ & ?). eauto.
  - intros p k Hf. destruct (g_alloc _ _ _ _ _ G p k Hf) as (q & Eq & <-). apply HO in Eq as (q' & ? & _ & ?). eauto.
  - intros b. rewrite HT. intros [Hb| ->]; [by apply (g_wf _ _ _ _ _ G)|].
    assert (0 <= x) by by eapply (g_range _ _ _ _ _ G). unfold ORDER_MAX. split; [|cbn; lia].
    split_and!; cbn; [lia|lia|apply Z.divide_1_l].
  - intros b y. rewrite HT, HV. intros [Hb| ->] Hy; [left; by apply (g_valid _ _ _ _ _ G b)|right; by apply Hin0].
  - intros b c y. rewrite !HT. intros [Hb| ->] [Hc| ->] Hy Hy'; [by apply (g_tile _ _ _ _ _ G b c y)| | |done];
      exfalso; [apply Hin0 in Hy' as ->|apply Hin0 in Hy as ->]; eapply Hno; eauto.
  - intros b. pose proof (g_disj _ _ _ _ _ G b) as [D1 D2].
    assert (Hb : freeb F b \/ b ∈ A -> b <> (x, 0)).
    { intros Hb ->. apply (Hno (x, 0)); [unfold tiles; tauto|]. by apply inb_head. }
    split; intros Hb'; [specialize (D1 Hb'); specialize (Hb (or_introl Hb'))|specialize (Hb (or_intror Hb'))]; set_solver.
  - intros y. rewrite HV. intros [Hy| ->].
    + destruct (g_cover _ _ _ _ _ G y Hy) as (b & Hb & Hin). exists b. rewrite HT. auto.
    + exists (x, 0). rewrite HT. split; [by right|by apply inb_head].
Qed.

(** With nothing allocated, the usable pages are the free ones. *)
Lemma valid_free s F y : inv s F ∅ ∅ -> valid (pages s) y <-> free_page F y.
Proof.
  intros [_ G]. split.
  - intros Hy. destruct (g_cover _ _ _ _ _ G y Hy) as (b & [Hb|[Hb|Hb]] & Hin); [by exists b|set_solver..].
  - intros (b & Hb & Hin). apply (g_valid _ _ _ _ _ G b); [by left|done].
Qed.

(** Handing one invalid page over. *)
Lemma mark_page_spec s F x :
  allocator s F ∅ -> 0 <= x < page_count s -> ~ free_page F x ->
  exists s1 s' F', upd_page (Some x) clear_invalid s = Some (tt, s1) /\
    page_initial_free (Some x) s1 = Some (tt, s') /\
    allocator s' F' ∅ /\ page_count s' = page_count s /\
    (forall y, free_page F' y <-> free_page F y \/ y = x).
Proof.
  intros [HI HM HU HL] Hx Hn. destruct HI as [Hl G] eqn:HIe. clear HIe.
  destruct (g_pages _ _ _ _ _ G x Hx) as (pg & Epg & _).
  set (s1 := with_pages (<[x := clear_invalid pg]> (pages s)) s).
  assert (HI1 : inv (with_lock true s1) F ∅ {[(x, 0)]}).
  { split; [done|]. cbn. apply geo_validate; [done|done|]. by rewrite (valid_free s F). }
  destruct (merge_block_spec _ F ∅ x 0 HI1 HM) as (s2 & F2 & E2 & HI2 & S2 & M2 & C2).
  exists s1, (with_lock false s2), F2. split_and!.
  - by apply upd_page_some.
  - unfold page_initial_free. st_step (lock_free s1 HL). st_step E2. done.
  - constructor; [done|done| |done]. eapply (uses_same _ s2); [exact S2|].
    intros y py. cbn. destruct (decide (x = y)) as [->|]; [|rewrite lookup_insert_ne by done; apply HU].
    rewrite lookup_insert_eq. intros [= <-]. by apply (HU y pg).
  - by apply S2.
  - intros y. rewrite C2. unfold inb. cbn. split; (intros [?|?]; [by left|right; lia]).
Qed.

(** ** One region and all regions *)

Lemma mark_pages_spec m : forall s F a b,
  allocator s F ∅ -> 0 <= a -> b <= page_count s -> b < 1048576 -> Z.max 0 (b - a) < Z.of_nat m ->
  (forall y, a <= y < b -> ~ free_page F y) ->
  exists s' F', mark_pages m (a * 4096) (b * 4096) s = Some (tt, s') /\
    allocator s' F' ∅ /\ page_count s' = page_count s /\
    (forall y, free_page F' y <-> free_page F y \/ a <= y < b).
Proof.
  induction m as [|m IH]; intros s F a b HA Ha Hb Hb' Hm Hfree; [lia|].
  assert (Hn : page_count s <= 1048576) by apply (al_inv _ _ _ HA).
  cbn [mark_pages]. destruct (Z.ltb_spec (a * 4096) (b * 4096)) as [Hlt|Hge].
  - rewrite PA_TO_PFN_eq, Z.div_mul by lia. cbn zeta. change (page_from_pfn a) with (Some a).
    destruct (mark_page_spec s F a HA ltac:(lia) (Hfree a ltac:(lia))) as (s1 & s2 & F2 & E1 & E2 & HA2 & N2 & C2).
    destruct (IH s2 F2 (a + 1) b HA2 ltac:(lia) ltac:(lia) Hb' ltac:(lia)) as (s3 & F3 & E3 & HA3 & N3 & C3).
    { intros y Hy. rewrite C2. intros [Hf| ->]; [|lia]. by apply (Hfree y); [lia|]. }
    exists s3, F3. split_and!; [|done|congruence|].
    + st_step E1. st_step E2. unfold PAGE_SIZE. rewrite u32_small by lia.
      by replace (a * 4096 + 4096) with ((a + 1) * 4096) by lia.
    + intros y. rewrite C3, C2. split.
      * intros [[?| ->]|?]; [by left|right; lia..].
      * intros [?|?]; [by left; left|]. destruct (decide (y = a)); [left; by right|right; lia].
  - exists s, F. split_and!; try done. intros y. split; [by left|]. intros [?|?]; [done|lia].
Qed.

(** The whole pages of a region that [bootmem_mark_free] looks at. *)
Definition region_page (r : mem_region) x : Prop :=
  start_addr r <> 0 /\ PAGE_ALIGN (start_addr r) <= x * 4096 < PAGE_ALIGN_DOWN (end_addr r).

Lemma ALIGN_page_multiple addr : exists a, 0 <= a /\ PAGE_ALIGN addr = a * 4096.
Proof.
  unfold PAGE_ALIGN, ALIGN, PAGE_SIZE. set (y := u32 _).
  assert (Hy : 0 <= y < 4294967296) by apply u32_range. rewrite land_u32_r by done.
  change (u32 (4096 - 1)) with (2 ^ 12 - 1). rewrite land_lnot_ones by lia. change (2 ^ 12) with 4096.
  exists (y / 4096). pose proof (Z.div_mod y 4096). split; [apply Z.div_pos|]; lia.
Qed.

Lemma ALIGN_DOWN_page_multiple addr : 0 <= addr < 4294967296 -> exists b, b < 1048576 /\ PAGE_ALIGN_DOWN addr = b * 4096.
Proof.
  intros Ha. rewrite PAGE_ALIGN_DOWN_eq by done. exists (addr / 4096).
  pose proof (Z.div_mod addr 4096). split; [apply Z.div_lt_upper_bound|]; lia.
Qed.

Lemma mark_region_spec s F r :
  allocator s F ∅ -> 0 <= end_addr r < 4294967296 ->
  (forall x, region_page r x -> x < page_count s /\ ~ free_page F x) ->
  exists s' F', mark_region r s = Some (tt, s') /\
    allocator s' F' ∅ /\ page_count s' = page_count s /\
    (forall y, free_page F' y <-> free_page F y \/ region_page r y).
Proof.
  intros HA He Hr. unfold mark_region. destruct (Z.eqb_spec (start_addr r) 0) as [E0|Hne].
  { exists s, F. split_and!; try done. intros y. split; [by left|]. intros [?|[? _]]; done. }
  destruct (ALIGN_page_multiple (start_addr r)) as (a & Ha & Ea).
  destruct (ALIGN_DOWN_page_multiple (end_addr r) He) as (b & Hb & Eb).
  assert (HP : forall y, region_page r y <-> a <= y < b).
  { intros y. unfold region_page. rewrite Ea, Eb. split; [intros [_ ?]|intros ?; split; [done|]]; lia. }
  cbn zeta. rewrite Ea, Eb. replace ((b * 4096 - a * 4096) / PAGE_SIZE) with (b - a) by
    (unfold PAGE_SIZE; rewrite <- Z.mul_sub_distr_r; symmetry; apply Z.div_mul; lia).
  destruct (Z.le_gt_cases b a) as [Hba|Hba].
  - exists s, F. split_and!; try done.
    + cbn [mark_pages]. destruct (Z.ltb_spec (a * 4096) (b * 4096)); [lia|done].
    + intros y. rewrite HP. split; [by left|]. intros [?|?]; [done|lia].
  - destruct (mark_pages_spec (S (Z.to_nat (b - a))) s F a b HA Ha) as (s' & F' & E & HA' & N' & C').
    + destruct (Hr (b - 1)) as [? _]; [apply HP; lia|lia].
    + done.
    + lia.
    + intros y Hy. by apply Hr, HP.
    + exists s', F'. split_and!; try done. intros y. by rewrite C', HP.
Qed.

(** The regions do not share a page. *)
Definition regions_disjoint (rs : list mem_region) : Prop :=
  forall i j r r' x, rs !! i = Some r -> rs !! j = Some r' -> region_page r x -> region_page r' x -> i = j.

Lemma mark_regions_spec rs : forall s F,
  allocator s F ∅ -> regions_disjoint rs ->
  (forall r, r ∈ rs -> 0 <= end_addr r < 4294967296) ->
  (forall r x, r ∈ rs -> region_page r x -> x < page_count s /\ ~ free_page F x) ->
  exists s' F', mark_regions rs s = Some (tt, s') /\
    allocator s' F' ∅ /\ page_count s' = page_count s /\
    (forall y, free_page F' y <-> free_page F y \/ exists r, r ∈ rs /\ region_page r y).
Proof.
  induction rs as [|r rs IH]; intros s F HA HD He Hr.
  - exists s, F. split_and!; try done. intros y. split; [by left|]. intros [?|(? & ? & _)]; [done|set_solver].
  - destruct (mark_region_spec s F r HA) as (s1 & F1 & E1 & HA1 & N1 & C1); [apply He; set_solver| |].
    { intros x Hx. apply (Hr r x); [set_solver|done]. }
    destruct (IH s1 F1 HA1) as (s2 & F2 & E2 & HA2 & N2 & C2).
    + intros i j q q' x Hi Hj Hx Hx'. by apply (HD (S i) (S j) q q' x Hi Hj Hx) in Hx' as [= ->].
    + intros q Hq. apply He. set_solver.
    + intros q x Hq Hx. rewrite N1, C1. destruct (Hr q x) as [? Hn]; [set_solver|done|]. split; [done|].
      intros [?|Hx']; [done|]. apply list_elem_of_lookup in Hq as [j Hj].
      by specialize (HD 0%nat (S j) r q x eq_refl Hj Hx' Hx).
    + exists s2, F2. split_and!; [|done|congruence|].
      * cbn [mark_regions]. by st_step E1.
      * intros y. rewrite C2, C1. split.
        -- intros [[?|?]|(q & Hq & Hx)]; [by left|right; exists r; set_solver|right; exists q; set_solver].
        -- intros [?|(q & [->|Hq]%elem_of_cons & Hx)]; [by left; left|by left; right|right; by exists q].
Qed.

(** ** The state [buddy_init] leaves *)

Section Kernel.
  Context (KS KE : Z).

Lemma init_pages_fields area_end m s :
  let s' := init_pages KS area_end m s in
  page_area s' = page_area s /\ page_count s' = page_count s /\ blocks s' = blocks s /\
  lock_flag s' = lock_flag s.
Proof. induction m as [|m IH]; cbn; auto. Qed.

Lemma init_pages_pages area_end m s i :
  pages (init_pages KS area_end m s) !! i =
    if decide (0 <= i < Z.of_nat m) then Some (init_page KS area_end i) else pages s !! i.
Proof.
  induction m as [|m IH]; cbn [init_pages].
  - by rewrite decide_False by lia.
  - cbn [pages]. destruct (decide (i = Z.of_nat m)) as [->|].
    + by rewrite lookup_insert_eq, decide_True by lia.
    + rewrite lookup_insert_ne, IH by done. destruct (decide (0 <= i < Z.of_nat m)).
      * by rewrite decide_True by lia.
      * by rewrite decide_False by lia.
Qed.

Lemma init_pages_page_node area_end m s i :
  0 <= i < Z.of_nat m -> nodes (init_pages KS area_end m s) !! PageNode i = Some (self_node (PageNode i)).
Proof.
  induction m as [|m IH]; cbn [init_pages nodes]; [lia|]. intros Hi.
  destruct (decide (i = Z.of_nat m)) as [->|]; [by rewrite lookup_insert_eq|].
  rewrite !lookup_insert_ne by congruence. apply IH. lia.
Qed.

Lemma init_pages_head_node area_end m s k :
  nodes (init_pages KS area_end m s) !! HeadNode k = nodes s !! HeadNode k.
Proof. induction m as [|m IH]; cbn [init_pages nodes]; [done|]. by rewrite lookup_insert_ne. Qed.

Lemma init_blocks_spec m s k :
  0 <= k < Z.of_nat m ->
  blocks (init_blocks m s) !! k = Some (BlockList 0 0) /\
  nodes (init_blocks m s) !! HeadNode k = Some (self_node (HeadNode k)).
Proof.
  induction m as [|m IH]; cbn [init_blocks]; [lia|]. intros Hk. cbn [blocks nodes with_blocks with_nodes].
  destruct (decide (k = Z.of_nat m)) as [->|]; [by rewrite !lookup_insert_eq|].
  rewrite !lookup_insert_ne by congruence. apply IH. lia.
Qed.

Lemma init_blocks_fields m s :
  pages (init_blocks m s) = pages s /\ page_count (init_blocks m s) = page_count s /\
  lock_flag (init_blocks m s) = lock_flag s.
Proof. induction m as [|m IH]; cbn; auto. Qed.

Lemma init_page_invalid area_end i : ~ valid_page (init_page KS area_end i).
Proof.
  unfold valid_page, init_page. cbn [flags].
  destruct (PFN_TO_PA i <? LOWMEM_PLIMIT), ((KS <=? PFN_TO_PA i) && (PFN_TO_PA i <? area_end)); discriminate.
Qed.

Lemma some_pair_snd {X Y W} (a a' : X) (b b' : Y) (c c' : W) :
  Some (a, (b, c)) = Some (a', (b', c')) -> c = c'.
Proof. by intros [= _ _ ->]. Qed.

Lemma clist_self (h : gmap bnode (lnode bnode)) a : h !! a = Some (self_node a) -> clist h a [].
Proof.
  intros E. split; [apply NoDup_singleton|]. cbn. unfold nxt, prv. by rewrite E.
Qed.

(** After [buddy_init] every page is invalid and nothing is free. *)
Lemma buddy_init_inv bm s n bm' s' :
  buddy_init KS n (bm, s) = Some (E_SUCCESS, (bm', s')) -> 0 <= n <= 1048576 -> (64 | n) ->
  allocator s' (fun _ => []) ∅ /\ page_count s' = n.
Proof.
  intros E Hn Hd. unfold buddy_init in E.
  destruct (bootmem_alloc _ _ bm) as [[[area|] bm1]|]; [|discriminate..]. apply some_pair_snd in E as <-.
  set (ae := u32 (area + SIZEOF_PAGE * n)). set (s0 := Buddy area n ∅ _ _ _ _ _ _).
  set (s1 := init_blocks (Z.to_nat (ORDER_MAX + 1)) s0).
  destruct (init_pages_fields ae (Z.to_nat n) s1) as (_ & Ec & Eb & El).
  destruct (init_blocks_fields (Z.to_nat (ORDER_MAX + 1)) s0) as (Ep1 & Ec1 & El1).
  set (s2 := init_pages KS ae (Z.to_nat n) s1) in *. fold s1 in Ep1, Ec1, El1.
  assert (HP : forall i, pages s2 !! i = if decide (0 <= i < n) then Some (init_page KS ae i) else None).
  { intros i. unfold s2. rewrite init_pages_pages, Z2Nat.id by lia. by rewrite Ep1. }
  assert (EN : page_count s2 = n) by (rewrite Ec, Ec1; done).
  assert (HB : forall b, ~ tiles (fun _ => []) ∅ ∅ b).
  { intros b [[_ Hb]|[Hb|Hb]]; cbn in Hb; set_solver. }
  assert (HV : forall x, ~ valid (pages s2) x).
  { intros x (pg & Ex & Hv). rewrite HP in Ex. case_decide; [|done]. injection Ex as <-.
    by apply init_page_invalid in Hv. }
  split; [|done]. constructor.
  - split; rewrite EN.
    + constructor.
      * intros i Hi. unfold s2. rewrite init_pages_page_node by lia. eauto.
      * intros k Hk. apply clist_self. unfold s2. rewrite init_pages_head_node.
        apply init_blocks_spec. unfold ORDER_MAX in *. lia.
      * intros k Hk. rewrite Eb. exists (BlockList 0 0). split; [|done].
        apply init_blocks_spec. unfold ORDER_MAX in *. lia.
    + constructor; try done.
      * intros i Hi. rewrite HP, decide_True by done. eauto.
      * intros i pg. rewrite HP. case_decide; [done|discriminate].
      * intros p k [_ Hf]. cbn in Hf. set_solver.
      * intros b Hb. by destruct (HB b).
      * intros b x Hb. by destruct (HB b).
      * intros b c x Hb. by destruct (HB b).
      * intros x Hx. by apply HV in Hx.
  - intros p k [_ Hf]. cbn in Hf. set_solver.
  - intros x pg Ex. right. rewrite HP in Ex. case_decide; [|done]. injection Ex as <-. split; [set_solver|done].
  - rewrite El, El1. done.
Qed.

End Kernel.
