(* ===== verification/PageClaims.v ===== *)
(** * Correctness of page allocation

    The theorems about palloc.c and the boot hand-over, stated for
    [allocator s F A]: what an allocation returns and when it fails, what
    freeing does on each branch, that the two are inverse, and that any run of
    a well-behaved client from boot keeps live blocks apart. *)

From stdpp Require Import base numbers list gmap.
From Stdlib Require Import ZArith Lia Znumtheory.
From S2P Require Import Prelude LinkedList PageDefs Bootmem BootmemSpec Blocks Palloc BuddyInv BuddySteps BuddyMerge PageAlloc Boot.

#[local] Open Scope Z_scope.

Implicit Types (F : Z -> list Z) (A L : gset (Z * Z)) (s : buddy) (p k x n : Z).

(** ** From boot to a working allocator *)

Lemma mark_free_spec bm s :
  allocator s (fun _ => []) ∅ -> region_count bm <> 0 -> highest_pfn bm <> 0 ->
  0 <= region_count bm <= Z.of_nat (length (mem_regions bm)) ->
  let rs := take (Z.to_nat (region_count bm)) (mem_regions bm) in
  regions_disjoint rs ->
  (forall r, r ∈ rs -> 0 <= end_addr r < 4294967296) ->
  (forall r x, r ∈ rs -> region_page r x -> x < page_count s) ->
  exists s' F, bootmem_mark_free (bm, s) = Some (E_SUCCESS, (bm, s')) /\ allocator s' F ∅ /\
    page_count s' = page_count s /\
    forall x, free_page F x <-> exists r, r ∈ rs /\ region_page r x.
Proof.
  intros HA Hc Hh Hl rs HD He Hr.
  assert (H0 : forall x, ~ free_page (fun _ => []) x) by (intros x (b & [_ Hb] & _); cbn in Hb; set_solver).
  destruct (mark_regions_spec rs s _ HA HD He) as (s' & F & E & HA' & N & C).
  { intros r x Hr1 Hx. split; [by eapply Hr|apply H0]. }
  exists s', F. split_and!; [|done|done|].
  - unfold bootmem_mark_free. destruct (Z.eqb_spec (region_count bm) 0), (Z.eqb_spec (highest_pfn bm) 0); try done.
    cbn [orb]. destruct (Z.ltb_spec (Z.of_nat (length (mem_regions bm))) (region_count bm)); [lia|].
    fold rs. by rewrite E.
  - intros x. rewrite C. split; [intros [Hx|?]; [by apply H0 in Hx|done]|by right].
Qed.

Lemma region_page_bytes ks ke bm r x :
  bm_ok ks ke bm -> r ∈ mem_regions bm -> region_page r x ->
  0 <= x < highest_pfn bm /\ forall b, x * 4096 <= b < x * 4096 + 4096 -> in_region r b.
Proof.
  intros HB Hr (Hs & H1 & H2). destruct (bo_region _ _ _ HB r Hr) as (R1 & R2 & [q R3] & _).
  pose proof (bo_top _ _ _ HB). rewrite PAGE_ALIGN_eq in H1 by lia. rewrite PAGE_ALIGN_DOWN_eq in H2 by lia.
  pose proof (Z.mod_pos_bound (- start_addr r) 4096). pose proof (Z.mod_pos_bound (end_addr r) 4096).
  split; [lia|]. intros b Hb. unfold in_region. lia.
Qed.

Lemma take_regions ks ke bm r :
  bm_ok ks ke bm -> r ∈ mem_regions bm -> start_addr r <> 0 ->
  r ∈ take (Z.to_nat (region_count bm)) (mem_regions bm).
Proof.
  intros HB [i Ei]%list_elem_of_lookup Hs. pose proof (bo_used _ _ _ HB i r Ei (or_introl Hs)).
  apply (list_elem_of_lookup_2 _ i). rewrite lookup_take_lt by lia. done.
Qed.

Lemma bm_regions_disjoint ks ke bm (m : nat) :
  bm_ok ks ke bm -> bm_disjoint bm -> regions_disjoint (take m (mem_regions bm)).
Proof.
  intros HB HD i j r r' x Hi Hj Hx Hx'.
  apply lookup_take_Some in Hi as [Hi _], Hj as [Hj _].
  apply (HD i j r r' (x * 4096)); try done;
    (eapply region_page_bytes; [exact HB|by eapply list_elem_of_lookup_2|done|lia]).
Qed.

Lemma buddy_init_run KS n bm s0 area bm' :
  bootmem_alloc (u32 (n * SIZEOF_PAGE)) BM_NO_ALIGN bm = Some (Some area, bm') ->
  exists s, buddy_init KS n (bm, s0) = Some (E_SUCCESS, (bm', s)).
Proof. intros E. unfold buddy_init. rewrite E. eauto. Qed.

(** [x86] start-up of memory: prepare the page array, then free the regions. *)
Definition boot_pages (KS : Z) : ST (bootmem * buddy) Z :=
  fun st => (buddy_init KS (highest_pfn (fst st)) ;; bootmem_mark_free)%st st.

Lemma boot_pages_spec KS ks ke bm s0 :
  bm_ok ks ke bm -> bm_disjoint bm -> region_count bm <> 0 -> highest_pfn bm <> 0 -> (64 | highest_pfn bm) ->
  (exists r, r ∈ mem_regions bm /\ type r = MEM_REGION_AVAILABLE /\
     start_addr r < end_addr r /\ highest_pfn bm * 24 <= end_addr r - start_addr r) ->
  exists area bm' s F, bootmem_alloc (highest_pfn bm * 24) 1 bm = Some (Some (PHY_TO_VIR area), bm') /\
    boot_pages KS (bm, s0) = Some (E_SUCCESS, (bm', s)) /\
    allocator s F ∅ /\ page_count s = highest_pfn bm /\
    (forall x, free_page F x <-> exists r, r ∈ mem_regions bm' /\ region_page r x) /\
    (forall x b, free_page F x -> x * 4096 <= b < x * 4096 + 4096 ->
       in_regions bm b /\ ~ (area <= b < area + highest_pfn bm * 24) /\ ~ (ks <= b < ke)).
Proof.
  intros HB HD Hc Ht H64 Hroom. pose proof (bo_top _ _ _ HB) as Htop.
  destruct (bootmem_alloc_spec ks ke (highest_pfn bm * 24) 0 bm HB HD ltac:(lia) ltac:(lia) ltac:(lia))
    as [(area & r & bm' & E & _ & _ & _ & _ & HB' & HD' & Et & Ec & HC)|[_ HN]].
  2:{ exfalso. destruct Hroom as (r & Hr & Hty & Hlt & Hsz).
      specialize (HN r (start_addr r) Hr Hty (Z.divide_1_l _) ltac:(lia) ltac:(lia)). lia. }
  change (2 ^ 0) with 1 in E.
  destruct (buddy_init_run KS (highest_pfn bm) bm s0 (PHY_TO_VIR area) bm') as (s & Ei).
  { unfold SIZEOF_PAGE, BM_NO_ALIGN. rewrite u32_small by lia. done. }
  destruct (buddy_init_inv KS _ _ _ _ _ Ei ltac:(lia) H64) as [HA En].
  pose proof (bo_count _ _ _ HB') as Hct. pose proof (bo_length _ _ _ HB') as Hlen.
  destruct (mark_free_spec bm' s HA) as (s' & F & Em & HA' & En' & HF); [lia|lia| | | | |].
  - unfold MAX_MEM_REGIONS in Hct. lia.
  - by eapply bm_regions_disjoint.
  - intros r0 Hr0. apply list_elem_of_lookup in Hr0 as [i [Hi _]%lookup_take_Some].
    destruct (bo_region _ _ _ HB' r0) as (R1 & R2 & _); [by eapply list_elem_of_lookup_2|]. lia.
  - intros r0 x Hr0 Hx. apply list_elem_of_lookup in Hr0 as [i [Hi _]%lookup_take_Some].
    destruct (region_page_bytes ks ke bm' r0 x HB') as [? _]; [by eapply list_elem_of_lookup_2|done|]. lia.
  - assert (HF' : forall x, free_page F x <-> exists r, r ∈ mem_regions bm' /\ region_page r x).
    { intros x. rewrite HF. split; intros (q & Hq & Hx); exists q; (split; [|done]).
      - apply list_elem_of_lookup in Hq as [i [Hi _]%lookup_take_Some]. by eapply list_elem_of_lookup_2.
      - eapply take_regions; [done..|]. apply Hx. }
    exists area, bm', s', F. split_and!; try done; [|congruence|].
    + unfold boot_pages. cbn [fst]. st_step Ei. exact Em.
    + intros x b Hx Hb. apply HF' in Hx as (q & Hq & Hx).
      destruct (region_page_bytes ks ke bm' q x HB' Hq Hx) as [_ Hby]. specialize (Hby b Hb).
      destruct (HC b) as [H1 H2]; [by exists q|]. split_and!; [done|done|].
      destruct (bo_region _ _ _ HB' q Hq) as (_ & _ & _ & R4). unfold in_region in Hby. lia.
Qed.

(** ** A small machine

    64 page frames, the kernel image in frames 4 to 7, one region of usable
    memory from frame 16 on. *)

Definition KS64 : Z := 0x4000.
Definition KE64 : Z := 0x8000.

Definition bm64 : bootmem :=
  match bootmem_add_mem_region KS64 KE64 0x10000 0x40000 MEM_REGION_AVAILABLE bootmem_init with
  | Some (_, bm) => bm
  | None => bootmem_init
  end.

Definition blank : buddy := Buddy 0 0 ∅ 0 false ∅ ∅ 0 0.

Definition machine64 : buddy :=
  match boot_pages KS64 (bm64, blank) with
  | Some (_, (_, s)) => s
  | None => blank
  end.

Lemma bm64_ok : bm_ok KS64 KE64 bm64 /\ bm_disjoint bm64.
Proof.
  destruct (bootmem_add_safe KS64 KE64 ltac:(vm_compute; done) 0x10000 0x40000 MEM_REGION_AVAILABLE bootmem_init)
    as (res & bm' & E & HB & _ & HG).
  - by apply bootmem_init_ok.
  - done.
  - intros [_ E]. vm_compute in E. discriminate.
  - assert (bm64 = bm') as -> by (unfold bm64; by rewrite E). split; [exact HB|].
    apply HG; [apply bm_init_disjoint|]. intros a _ (r & Hr & Ha).
    apply (elem_of_replicate 16) in Hr as [-> _]. unfold in_region in Ha. cbn in Ha. lia.
Qed.

Lemma bm64_room : exists r, r ∈ mem_regions bm64 /\ type r = MEM_REGION_AVAILABLE /\
  start_addr r < end_addr r /\ highest_pfn bm64 * 24 <= end_addr r - start_addr r.
Proof.
  exists (MemRegion 0x10000 0x40000 0x10000 1). split; [|vm_compute; split_and!; (done || discriminate)].
  apply (list_elem_of_lookup_2 _ 0). reflexivity.
Qed.

Lemma machine64_ok : exists F, allocator machine64 F ∅.
Proof.
  destruct bm64_ok as [HB HD].
  destruct (boot_pages_spec KS64 KS64 KE64 bm64 blank HB HD) as (area & bm' & s & F & _ & E & HA & _);
    [by vm_compute|by vm_compute|by exists 1|apply bm64_room|].
  exists F. unfold machine64. by rewrite E.
Qed.

(** C5: starting the memory system works: with a page count that is a multiple
    of the largest block and a region big enough for the page array,
    [buddy_init] followed by [bootmem_mark_free] returns with the allocator
    invariant established and nothing allocated; the free pages are exactly the
    whole pages of the regions bootmem still holds, so none of them overlaps
    the kernel image or the page array. *)
Theorem boot_establishes_allocator (KS ks ke : Z) (bm : bootmem) (s0 : buddy) :
  bm_ok ks ke bm -> bm_disjoint bm -> region_count bm <> 0 -> highest_pfn bm <> 0 -> (64 | highest_pfn bm) ->
  (exists r, r ∈ mem_regions bm /\ type r = MEM_REGION_AVAILABLE /\
     start_addr r < end_addr r /\ highest_pfn bm * 24 <= end_addr r - start_addr r) ->
  exists area bm' s F, bootmem_alloc (highest_pfn bm * 24) 1 bm = Some (Some (PHY_TO_VIR area), bm') /\
    (buddy_init KS (highest_pfn bm) ;; bootmem_mark_free)%st (bm, s0) = Some (E_SUCCESS, (bm', s)) /\
    allocator s F ∅ /\
    (forall x, free_page F x <-> exists r, r ∈ mem_regions bm' /\ region_page r x) /\
    (forall x b, free_page F x -> x * 4096 <= b < x * 4096 + 4096 ->
       in_regions bm b /\ ~ (area <= b < area + highest_pfn bm * 24) /\ ~ (ks <= b < ke)).
Proof.
  intros HB HD H1 H2 H3 H4. destruct (boot_pages_spec KS ks ke bm s0 HB HD H1 H2 H3 H4)
    as (area & bm' & s & F & E1 & E2 & HA & _ & HF & HK). exists area, bm', s, F. auto.
Qed.

Lemma boot_establishes_allocator_witness : exists bm' s F,
  (buddy_init KS64 (highest_pfn bm64) ;; bootmem_mark_free)%st (bm64, blank) = Some (E_SUCCESS, (bm', s)) /\
  allocator s F ∅.
Proof.
  destruct (boot_establishes_allocator KS64 KS64 KE64 bm64 blank) as (area & bm' & s & F & _ & E & HA & _).
  - apply bm64_ok.
  - apply bm64_ok.
  - vm_compute. discriminate.
  - vm_compute. discriminate.
  - exists 1. reflexivity.
  - apply bm64_room.
  - exists bm', s, F. split; [exact E|exact HA].
Defined.

(** C1: page_alloc.  From an allocator at rest, a request of a valid order
    returns either a block of that order that was entirely free, is aligned to
    its size, belongs to no live allocation, and is removed from the free pages
    with its reference count set to one; or NULL with nothing changed.  Either
    way the invariant holds again and the lock is released. *)
Theorem page_alloc_correct (s : buddy) (F : Z -> list Z) (A : gset (Z * Z)) (k fl : Z) :
  allocator s F A -> 0 <= k <= ORDER_MAX ->
  (exists p s' F', page_alloc k fl s = Some (Some p, s') /\ allocator s' F' (A ∪ {[(p, k)]}) /\
     (2 ^ k | p) /\
     (forall b x, b ∈ A -> inb x b -> ~ inb x (p, k)) /\
     (forall x, free_page F x <-> free_page F' x \/ inb x (p, k)) /\
     (forall x, free_page F' x -> ~ inb x (p, k)) /\
     exists pg, pages s' !! p = Some pg /\ pfn pg = p /\ use_count pg = 1) \/
  (page_alloc k fl s = Some (None, s) /\ forall b, freeb F b -> b.2 < k).
Proof.
  intros HA Hk. destruct (page_alloc_spec s F A k fl HA Hk) as [(p & s' & F' & E & HA' & Hn & HF & Hpg)|[E HN]].
  - left. exists p, s', F'. pose proof (al_inv _ _ _ HA') as [_ G].
    assert (HT : forall b, b ∈ A ∪ {[(p, k)]} -> tiles F' (A ∪ {[(p, k)]}) ∅ b) by (intros; by right; left).
    assert (Hpk : (p, k) ∈ A ∪ {[(p, k)]}) by set_solver.
    split_and!; try done.
    + by destruct (g_wf _ _ _ _ _ G (p, k) (HT _ Hpk)) as [(_ & _ & ?) _].
    + intros b x Hb Hx Hx'. assert (b = (p, k)) as ->.
      { apply (g_tile _ _ _ _ _ G b (p, k) x); [apply HT; set_solver|by apply HT|done..]. }
      by apply Hn in Hb.
    + intros x (b & Hb & Hx) Hx'. assert (b = (p, k)) as ->.
      { apply (g_tile _ _ _ _ _ G b (p, k) x); [by left|by apply HT|done..]. }
      apply (g_disj _ _ _ _ _ G) in Hb. set_solver.
  - right. split; [done|]. intros [q j] [Hj Hq]. cbn in *. destruct (Z.lt_ge_cases j k); [done|].
    rewrite HN in Hq by lia. set_solver.
Qed.

Lemma page_alloc_correct_witness : exists F p s' F',
  allocator machine64 F ∅ /\ page_alloc 3 0 machine64 = Some (Some p, s') /\ allocator s' F' (∅ ∪ {[(p, 3)]}).
Proof.
  destruct machine64_ok as [F HA]. exists F.
  destruct (page_alloc_correct machine64 F ∅ 3 0 HA) as [(p & s' & F' & E & HA' & _)|[E _]].
  - unfold ORDER_MAX. lia.
  - exists p, s', F'. split; [exact HA|]. split; [exact E|exact HA'].
  - assert (Hne : is_Some (fst <$> page_alloc 3 0 machine64) /\ (fst <$> page_alloc 3 0 machine64) <> Some None)
      by (vm_compute; split; [eexists; reflexivity|discriminate]).
    rewrite E in Hne. destruct Hne as [_ Hne]. exfalso. apply Hne. reflexivity.
Defined.

(** Two fully merged allocators with the same free pages have the same free
    blocks. *)
Lemma same_free_blocks s s' F F' A A' :
  allocator s F A -> allocator s' F' A' -> (forall x, free_page F x <-> free_page F' x) ->
  forall b, freeb F b <-> freeb F' b.
Proof.
  intros [[_ G] HM _ _] [[_ G'] HM' _ _] HF b.
  assert (W : forall pgs n F A, geo pgs n F A ∅ -> forall b, freeb F b -> aligned b /\ b.2 <= ORDER_MAX)
    by (intros ? ? ? ? g c Hc; apply (g_wf _ _ _ _ _ g); by left).
  assert (D : forall pgs n F A, geo pgs n F A ∅ ->
    forall b c x, freeb F b -> freeb F c -> inb x b -> inb x c -> b = c)
    by (intros ? ? ? ? g c d x Hc Hd; apply (g_tile _ _ _ _ _ g); by left).
  split; apply (merged_canonical ORDER_MAX); eauto; intros x; apply HF.
Qed.

(** A free aligned run of the size is enough. *)
Lemma alloc_complete (s : buddy) (F : Z -> list Z) (A : gset (Z * Z)) (k fl p : Z) :
  allocator s F A -> 0 <= k <= ORDER_MAX -> aligned (p, k) -> (forall x, inb x (p, k) -> free_page F x) ->
  exists q s', page_alloc k fl s = Some (Some q, s').
Proof.
  intros HA Hk Ha Hfree. destruct (page_alloc_spec s F A k fl HA Hk) as [(q & s' & F' & E & _)|[_ HN]]; [eauto|].
  exfalso. destruct HA as [[_ G] HM _ _].
  destruct (covered_inside ORDER_MAX (freeb F)) with (k := k) (p := p) as ([q j] & [Hj Hq] & Hle & _); try done.
  - intros b Hb. apply (g_wf _ _ _ _ _ G). by left.
  - cbn in *. rewrite HN in Hq by lia. set_solver.
Qed.

(** C4: no allocation fails for fragmentation that merging could repair:
    [page_alloc] of order [k] returns a block whenever some aligned run of
    [2^k] pages is free, however the free lists came to hold it. *)
Theorem page_alloc_complete (s : buddy) (F : Z -> list Z) (A : gset (Z * Z)) (k fl p : Z) :
  allocator s F A -> 0 <= k <= ORDER_MAX -> aligned (p, k) -> (forall x, inb x (p, k) -> free_page F x) ->
  exists q s', page_alloc k fl s = Some (Some q, s').
Proof. apply alloc_complete. Qed.

(** What the small machine looks like after boot: frames 32 to 63 are free. *)
Lemma machine64_free : exists F, allocator machine64 F ∅ /\ forall x, 32 <= x < 64 -> free_page F x.
Proof.
  destruct bm64_ok as [HB HD].
  destruct (boot_pages_spec KS64 KS64 KE64 bm64 blank HB HD) as (area & bm' & s & F & Ea & E & HA & _ & HF & _);
    [by vm_compute|by vm_compute|by exists 1|apply bm64_room|].
  exists F. split; [unfold machine64; by rewrite E|]. intros x Hx. apply HF.
  assert (Hb : (snd <$> bootmem_alloc (highest_pfn bm64 * 24) 1 bm64) = Some bm') by by rewrite Ea.
  vm_compute in Hb. injection Hb as <-.
  exists (MemRegion 67072 0x40000 0x10000 1). split; [apply (list_elem_of_lookup_2 _ 0); reflexivity|].
  unfold region_page. change (67072 <> 0 /\ 69632 <= x * 4096 < 262144). lia.
Qed.

Lemma page_alloc_complete_witness : exists q s', page_alloc 5 0 machine64 = Some (Some q, s').
Proof.
  destruct machine64_free as (F & HA & Hf).
  apply (page_alloc_complete machine64 F ∅ 5 0 32 HA).
  - unfold ORDER_MAX. lia.
  - unfold aligned. cbn. split; [lia|]. split; [lia|]. exists 1. reflexivity.
  - intros x Hx. unfold inb in Hx. cbn in Hx. apply Hf. lia.
Defined.

(** C2: page_free of the last reference.  Freeing an allocated block that does
    not hold the kernel returns its pages to the free set, coalesces with every
    free buddy (the lists are fully merged again), drops the block from the
    live ones and releases the lock; no other page's count or flags change. *)
Theorem page_free_correct (KS KE : Z) (s : buddy) (F : Z -> list Z) (A : gset (Z * Z)) (p k : Z) (pg : page) :
  allocator s F A -> (p, k) ∈ A -> pages s !! p = Some pg -> use_count pg = 1 -> kernel_page KS KE p = false ->
  exists s' F', page_free KS KE (Some p) k s = Some (E_SUCCESS, s') /\
    allocator s' F' (A ∖ {[(p, k)]}) /\
    (forall x, free_page F' x <-> free_page F x \/ inb x (p, k)) /\
    (forall x, x <> p -> same_page (pages s !! x) (pages s' !! x)).
Proof. apply page_free_spec. Qed.

(** An allocated block on the small machine. *)
Lemma machine64_alloc : exists s F pg, allocator s F {[(32, 4)]} /\ pages s !! 32 = Some pg /\ use_count pg = 1.
Proof.
  destruct machine64_ok as [F HA].
  destruct (page_alloc_spec machine64 F ∅ 4 0 HA) as [(p & s' & F' & E & HA' & _ & _ & pg & Epg & _ & Eu)|[E _]].
  - unfold ORDER_MAX. lia.
  - assert (Hp : (fst <$> page_alloc 4 0 machine64) = Some (Some 32)) by (vm_compute; reflexivity).
    rewrite E in Hp. cbn in Hp. injection Hp as ->. exists s', F', pg. clear E HA.
    by replace (∅ ∪ {[(32, 4)]} : gset (Z * Z)) with ({[(32, 4)]} : gset (Z * Z)) in HA' by set_solver.
  - assert (Hp : (fst <$> page_alloc 4 0 machine64) = Some (Some 32)) by (vm_compute; reflexivity).
    rewrite E in Hp. discriminate.
Qed.

Lemma page_free_correct_witness : exists s F s' F', allocator s F {[(32, 4)]} /\
  page_free KS64 KE64 (Some 32) 4 s = Some (E_SUCCESS, s') /\ allocator s' F' ({[(32, 4)]} ∖ {[(32, 4)]}).
Proof.
  destruct machine64_alloc as (s & F & pg & HA & Epg & Eu).
  destruct (page_free_correct KS64 KE64 s F {[(32, 4)]} 32 4 pg HA) as (s' & F' & E & HA' & _).
  - set_solver.
  - exact Epg.
  - exact Eu.
  - vm_compute. reflexivity.
  - exists s, F, s', F'. split; [exact HA|]. split; [exact E|exact HA'].
Defined.

(** Page_free of a shared block.  While more than one user holds the block,
    freeing it only drops one reference: the block stays allocated and nothing
    else in the allocator changes. *)
Theorem page_free_shared (KS KE : Z) (s : buddy) (F : Z -> list Z) (A : gset (Z * Z)) (p k j : Z) (pg : page) :
  allocator s F A -> (p, k) ∈ A -> pages s !! p = Some pg -> 1 < use_count pg -> kernel_page KS KE p = false ->
  exists s', page_free KS KE (Some p) j s = Some (E_SUCCESS, s') /\ allocator s' F A /\
    s' = with_pages (<[p := set_uses (use_count pg - 1) pg]> (pages s)) s.
Proof. apply page_free_shared_spec. Qed.

(** Taking a further reference on a live block ([PAGE_INC_USES]). *)
Lemma share_spec s F A p k pg :
  allocator s F A -> (p, k) ∈ A -> pages s !! p = Some pg -> use_count pg < 4294967295 ->
  exists s', PAGE_INC_USES (Some p) s = Some (tt, s') /\ allocator s' F A /\
    pages s' !! p = Some (set_uses (use_count pg + 1) pg).
Proof.
  intros [HI HM HU HL] HA Epg Hu. destruct (HU p pg Epg) as [[_ Hr]|[Hn _]]; [|by apply Hn in HA].
  exists (with_pages (<[p := set_uses (use_count pg + 1) pg]> (pages s)) s). split.
  { unfold PAGE_INC_USES. rewrite (upd_page_some _ _ _ _ Epg). cbn beta. by rewrite u32_small by lia. }
  split.
  - constructor; [|done| |done].
    + destruct HI as [Hl G]. split; cbn; [done|]. eapply geo_upd; [exact G|done..|by left].
    + intros x px. cbn. destruct (decide (p = x)) as [->|Hne].
      * rewrite lookup_insert_eq. intros [= <-]. left. split; [by exists k|]. cbn. lia.
      * rewrite lookup_insert_ne by done. apply HU.
  - cbn. by rewrite lookup_insert_eq.
Qed.

Lemma page_free_shared_witness : exists s F s', allocator s F {[(32, 4)]} /\
  page_free KS64 KE64 (Some 32) 4 s = Some (E_SUCCESS, s') /\ allocator s' F {[(32, 4)]}.
Proof.
  destruct machine64_alloc as (s & F & pg & HA & Epg & Eu).
  destruct (share_spec s F {[(32, 4)]} 32 4 pg HA) as (s1 & _ & HA1 & E1); [set_solver|exact Epg|lia|].
  destruct (page_free_shared KS64 KE64 s1 F {[(32, 4)]} 32 4 4 (set_uses (use_count pg + 1) pg) HA1) as (s' & E & HA' & _).
  - set_solver.
  - exact E1.
  - cbn. lia.
  - vm_compute. reflexivity.
  - exists s1, F, s'. split; [exact HA1|]. split; [exact E|exact HA'].
Defined.

(** C3: allocating and freeing are inverse: freeing a block just allocated
    brings back exactly the free blocks there were, the live allocations and
    every page's reference count. *)
Theorem page_alloc_free_roundtrip (KS KE : Z) (s : buddy) (F : Z -> list Z) (A : gset (Z * Z)) (k fl p : Z) (s1 : buddy) :
  allocator s F A -> 0 <= k <= ORDER_MAX -> page_alloc k fl s = Some (Some p, s1) -> kernel_page KS KE p = false ->
  exists s2 F2, page_free KS KE (Some p) k s1 = Some (E_SUCCESS, s2) /\ allocator s2 F2 A /\
    forall b, freeb F2 b <-> freeb F b.
Proof.
  intros HA Hk E Hkp. destruct (page_alloc_spec s F A k fl HA Hk)
    as [(p' & s1' & F1 & E1 & HA1 & Hn & HF & pg & Epg & _ & Eu)|[E1 _]]; rewrite E in E1; [|discriminate].
  injection E1 as <- <-.
  destruct (page_free_spec KS KE s1 F1 (A ∪ {[(p, k)]}) p k pg HA1) as (s2 & F2 & E2 & HA2 & HF2 & _);
    [set_solver|done..|].
  exists s2, F2. replace ((A ∪ {[(p, k)]}) ∖ {[(p, k)]}) with A in HA2.
  - split_and!; [done|done|]. eapply same_free_blocks; [exact HA2|exact HA|]. intros x. rewrite HF2, HF. tauto.
  - specialize (Hn k). apply set_eq. intros b. destruct (decide (b = (p, k))) as [->|]; set_solver.
Qed.

Lemma page_alloc_free_roundtrip_witness : exists F s1 s2 F2,
  page_alloc 4 0 machine64 = Some (Some 32, s1) /\
  page_free KS64 KE64 (Some 32) 4 s1 = Some (E_SUCCESS, s2) /\ allocator s2 F2 ∅ /\
  forall b, freeb F2 b <-> freeb F b.
Proof.
  destruct machine64_ok as [F HA].
  assert (Hp : (fst <$> page_alloc 4 0 machine64) = Some (Some 32)) by (vm_compute; reflexivity).
  destruct (page_alloc 4 0 machine64) as [[r s1]|] eqn:E; [|discriminate].
  cbn in Hp. injection Hp as ->.
  destruct (page_alloc_free_roundtrip KS64 KE64 machine64 F ∅ 4 0 32 s1 HA) as (s2 & F2 & E2 & HA2 & HF).
  - unfold ORDER_MAX. lia.
  - exact E.
  - vm_compute. reflexivity.
  - exists F, s1, s2, F2. split; [reflexivity|]. split; [exact E2|]. split; [exact HA2|exact HF].
Defined.

(** The requests the allocator turns away leave it untouched: an order out
    of range, freeing NULL, and freeing a page of the kernel image, whatever
    state the allocator is in. *)
Theorem page_requests_rejected (KS KE : Z) (s : buddy) (k fl p : Z) (pg : page) :
  (k < ORDER_MIN \/ ORDER_MAX < k -> page_alloc k fl s = Some (None, s)) /\
  page_free KS KE None k s = Some (E_ERROR, s) /\
  (pages s !! p = Some pg -> kernel_page KS KE (pfn pg) = true -> page_free KS KE (Some p) k s = Some (E_ERROR, s)).
Proof.
  split_and!.
  - intros Hk. unfold page_alloc.
    assert ((k <? ORDER_MIN) || (ORDER_MAX <? k) = true) as ->; [|done].
    apply orb_true_iff. destruct Hk; [left|right]; by apply Z.ltb_lt.
  - done.
  - intros E Hk. unfold page_free. st_step (page_is_critical_spec KS KE s p pg E). by rewrite Hk.
Qed.

(** [buddy_get] does not check its result against the size of the page
    array: with an odd number of pages, handing over the last page reads the
    entry after the array. *)
Theorem initial_free_past_array (s : buddy) (n : Z) (pg : page) :
  0 < n <= 1048576 -> Z.odd n = true -> (forall i, is_Some (pages s !! i) -> i < n) ->
  pages s !! (n - 1) = Some pg -> pfn pg = n - 1 -> page_initial_free (Some (n - 1)) s = None.
Proof.
  intros Hn Ho Hd E Ep. unfold page_initial_free, lock.
  destruct (lock_flag s) eqn:HL; [unfold bind; by rewrite HL|].
  unfold bind at 1. rewrite HL. unfold buddy_merge_block. cbn [merge_loop].
  change (0 <? ORDER_MAX) with true. cbv iota.
  unfold bind. rewrite (buddy_get_step (with_lock true s) (n - 1) 0 pg E Ep) by (unfold ORDER_MAX; lia).
  assert (bud (n - 1) 0 = n) as ->.
  { rewrite bud_eq by lia. rewrite Z.bit0_odd, Z.odd_sub, Ho. cbn. lia. }
  unfold get_page. cbn. destruct (pages s !! n) as [q|] eqn:Eq; [|done].
  exfalso. specialize (Hd n (mk_is_Some _ _ Eq)). lia.
Qed.

(** A five-page array with every page usable. *)
Definition machine5 : buddy :=
  match mark_pages 5 0 (4 * 4096) (init_pages KS64 0 5 (init_blocks 7 (Buddy 0 5 ∅ 6 false ∅ ∅ 0 0))) with
  | Some (_, s) => s
  | None => blank
  end.

Lemma initial_free_past_array_witness : page_initial_free (Some 4) machine5 = None.
Proof.
  assert (HE : exists pg, pages machine5 !! 4 = Some pg /\ pfn pg = 4)
    by (vm_compute; eexists; split; reflexivity).
  destruct HE as (pg & E & Ep).
  apply (initial_free_past_array machine5 5 pg).
  - lia.
  - reflexivity.
  - assert (HD : forallb (fun '(i, _) => i <? 5) (map_to_list (pages machine5)) = true) by (vm_compute; reflexivity).
    intros i [q Eq]. rewrite forallb_forall in HD.
    specialize (HD (i, q)). cbn in HD. apply Z.ltb_lt, HD. apply list_elem_of_In, elem_of_map_to_list. exact Eq.
  - exact E.
  - exact Ep.
Defined.

(** A machine whose firmware reports frames 16 to 31 as usable and frames 32 to
    63 as reserved. *)
Definition bm_reserved : bootmem :=
  match (bootmem_add_mem_region KS64 KE64 0x10000 0x20000 MEM_REGION_AVAILABLE ;;
         bootmem_add_mem_region KS64 KE64 0x20000 0x40000 MEM_REGION_RESERVED)%st bootmem_init with
  | Some (_, bm) => bm
  | None => bootmem_init
  end.

(** [bootmem_mark_free] does not look at a region's type: on that machine
    the page allocator hands out a 32-page block of reserved memory. *)
Theorem reserved_memory_allocated : exists st s',
  boot_pages KS64 (bm_reserved, blank) = Some (E_SUCCESS, st) /\
  page_alloc 5 0 (snd st) = Some (Some 32, s') /\
  exists r, r ∈ mem_regions (fst st) /\ type r = MEM_REGION_RESERVED /\ region_page r 32.
Proof.
  assert (H : (match boot_pages KS64 (bm_reserved, blank) with
    | Some (r, st) => (r =? E_SUCCESS) && bool_decide ((fst <$> page_alloc 5 0 (snd st)) = Some (Some 32)) &&
        bool_decide (mem_regions (fst st) !! 1%nat = Some (MemRegion 0x20000 0x40000 0x20000 0))
    | None => false end) = true) by (vm_compute; reflexivity).
  destruct (boot_pages KS64 (bm_reserved, blank)) as [[r st]|]; [|discriminate].
  apply andb_true_iff in H as [[H1 H2]%andb_true_iff H3]. apply Z.eqb_eq in H1. apply bool_decide_eq_true in H2, H3.
  destruct (page_alloc 5 0 (snd st)) as [[q s']|] eqn:Ea; [|discriminate]. cbn in H2. injection H2 as ->.
  exists st, s'. split; [by rewrite H1|]. split; [done|].
  eexists. split; [by eapply list_elem_of_lookup_2|]. split; [done|]. unfold region_page.
  change (131072 <> 0 /\ 131072 <= 32 * 4096 < 262144). lia.
Qed.

(** ** Runs of a client

    What a kernel subsystem may do with pages: allocate, take a further
    reference on a block it holds, and free blocks it holds with the order they
    were allocated with. *)
Inductive client_step (KS KE : Z) : buddy * gset (Z * Z) -> buddy * gset (Z * Z) -> Prop :=
  | cs_alloc s A k fl p s' :
      0 <= k <= ORDER_MAX -> page_alloc k fl s = Some (Some p, s') ->
      client_step KS KE (s, A) (s', A ∪ {[(p, k)]})
  | cs_null s A k fl s' :
      0 <= k <= ORDER_MAX -> page_alloc k fl s = Some (None, s') -> client_step KS KE (s, A) (s', A)
  | cs_share s A p k pg s' :
      (p, k) ∈ A -> pages s !! p = Some pg -> use_count pg < 4294967295 ->
      PAGE_INC_USES (Some p) s = Some (tt, s') -> client_step KS KE (s, A) (s', A)
  | cs_drop s A p k pg r s' :
      (p, k) ∈ A -> pages s !! p = Some pg -> 1 < use_count pg -> kernel_page KS KE p = false ->
      page_free KS KE (Some p) k s = Some (r, s') -> client_step KS KE (s, A) (s', A)
  | cs_free s A p k pg r s' :
      (p, k) ∈ A -> pages s !! p = Some pg -> use_count pg = 1 -> kernel_page KS KE p = false ->
      page_free KS KE (Some p) k s = Some (r, s') -> client_step KS KE (s, A) (s', A ∖ {[(p, k)]}).

Lemma client_step_inv KS KE c c' :
  client_step KS KE c c' -> (exists F, allocator (fst c) F (snd c)) -> exists F, allocator (fst c') F (snd c').
Proof.
  intros Hs [F HA]. destruct Hs as [s A k fl p s' Hk E|s A k fl s' Hk E|s A p k pg s' Hp Epg Hu E
    |s A p k pg r s' Hp Epg Hu Hkp E|s A p k pg r s' Hp Epg Hu Hkp E]; cbn [fst snd] in *.
  - destruct (page_alloc_spec s F A k fl HA Hk) as [(q & s1 & F1 & E1 & HA1 & _)|[E1 _]]; rewrite E in E1; [|discriminate].
    injection E1 as <- <-. eauto.
  - destruct (page_alloc_spec s F A k fl HA Hk) as [(q & s1 & F1 & E1 & _)|[E1 _]]; rewrite E in E1; [discriminate|].
    injection E1 as ->. eauto.
  - destruct (share_spec s F A p k pg HA Hp Epg Hu) as (s1 & E1 & HA1 & _). rewrite E in E1. injection E1 as ->. eauto.
  - destruct (page_free_shared_spec KS KE s F A p k pg k HA Hp Epg Hu Hkp) as (s1 & E1 & HA1 & _).
    rewrite E in E1. injection E1 as _ ->. eauto.
  - destruct (page_free_spec KS KE s F A p k pg HA Hp Epg Hu Hkp) as (s1 & F1 & E1 & HA1 & _).
    rewrite E in E1. injection E1 as _ ->. eauto.
Qed.

(** C10: along every run of such a client from a booted allocator, any two live
    blocks are disjoint and disjoint from the free pages, and the next
    allocation always returns: the allocator neither faults nor deadlocks. *)
Theorem client_runs_safe (KS KE : Z) (s0 s : buddy) (F0 : Z -> list Z) (A0 A : gset (Z * Z)) :
  allocator s0 F0 A0 -> rtc (client_step KS KE) (s0, A0) (s, A) ->
  (forall b c x, b ∈ A -> c ∈ A -> inb x b -> inb x c -> b = c) /\
  (exists F, allocator s F A /\ forall b x, b ∈ A -> inb x b -> ~ free_page F x) /\
  (forall k fl, 0 <= k <= ORDER_MAX -> page_alloc k fl s <> None).
Proof.
  intros H0 Hr. assert (HI : exists F, allocator s F A).
  { change (exists F, allocator (fst (s, A)) F (snd (s, A))).
    revert Hr. apply (rtc_ind_r (fun c => exists F, allocator (fst c) F (snd c))); [eauto|].
    intros y z _ Hs IH. by eapply client_step_inv. }
  destruct HI as [F HA]. pose proof (al_inv _ _ _ HA) as [_ G]. split_and!.
  - intros b c x Hb Hc. apply (g_tile _ _ _ _ _ G); by right; left.
  - exists F. split; [done|]. intros b x Hb Hx (c & Hc & Hx').
    assert (c = b) as -> by (apply (g_tile _ _ _ _ _ G c b x); [by left|by right; left|done..]).
    apply (g_disj _ _ _ _ _ G) in Hc. set_solver.
  - intros k fl Hk. destruct (page_alloc_spec s F A k fl HA Hk) as [(q & s1 & F1 & E1 & _)|[E1 _]]; by rewrite E1.
Qed.

Lemma client_runs_safe_witness : exists s A, rtc (client_step KS64 KE64) (machine64, ∅) (s, A) /\
  (forall b c x, b ∈ A -> c ∈ A -> inb x b -> inb x c -> b = c) /\ (32, 4) ∈ A.
Proof.
  destruct machine64_ok as [F HA].
  assert (Hp : (fst <$> page_alloc 4 0 machine64) = Some (Some 32)) by (vm_compute; reflexivity).
  destruct (page_alloc 4 0 machine64) as [[r s1]|] eqn:E; [|discriminate]. cbn in Hp. injection Hp as ->.
  exists s1, (∅ ∪ {[(32, 4)]}).
  assert (Hr : rtc (client_step KS64 KE64) (machine64, ∅) (s1, ∅ ∪ {[(32, 4)]})).
  { apply rtc_once. eapply cs_alloc; [|exact E]. unfold ORDER_MAX. lia. }
  split; [exact Hr|]. split; [|set_solver].
  apply (client_runs_safe KS64 KE64 machine64 s1 F ∅ (∅ ∪ {[(32, 4)]}) HA Hr).
Defined.
