(* ===== verification/Slab.v ===== *)
(** * The slab allocator and kmalloc (kernel/mm/slab.c, kernel/mm/kmalloc.c)

    Kernel memory is a map from word addresses to 32-bit words; a load from an
    address that was never stored to is a fault.  A slab header occupies the
    first 40 bytes of its 16-page block, at the offsets of [slab_header_t];
    free objects hold the link of the free list in their first word.  Pages
    come from a [PageSource].  A pointer is its address, with 0 for NULL. *)

From stdpp Require Import base numbers list gmap.
From Stdlib Require Import ZArith Lia.
From S2P Require Import Prelude PageDefs Palloc PageSource.

#[local] Open Scope Z_scope.

Definition SLAB_DEFAULT_ORDER : Z := 4.

(** Offsets in [slab_header_t] on a 32-bit machine. *)
Definition NEXT_SLAB : Z := 0.
Definition START_ADDR : Z := 4.
Definition END_ADDR : Z := 8.
Definition OBJECT_COUNT : Z := 12.
Definition OBJECT_SIZE : Z := 16.
Definition FREE_COUNT : Z := 20.
Definition PAGE_ORDER : Z := 24.
Definition FREE_LIST : Z := 36.
Definition SIZEOF_HEADER : Z := 40.

(** [slab_cache_t]; the name and the unused lock and [max_objects] fields are
    left out. *)
Record slab_cache : Type := SlabCache {
  object_size : Z;
  total_size : Z;
  alloc_count : Z;
  first_slab : Z
}.

Definition INIT_SLAB_CACHE (obj_size : Z) : slab_cache := SlabCache obj_size 0 0 0.

(** The caches of kmalloc.c. *)
Definition slab_caches : list slab_cache :=
  INIT_SLAB_CACHE <$> [8; 16; 32; 64; 128; 256; 512; 1024; 2048; 4096; 8192; 16384; 32768].

Section Slab.
  Context {P : Type} `{PageSource P}.

Record heap : Type := Heap {
  kmem : gmap Z Z;
  caches : list slab_cache;
  source : P
}.

Definition with_kmem (m : gmap Z Z) (h : heap) : heap := Heap m (caches h) (source h).

Definition with_caches (c : list slab_cache) (h : heap) : heap := Heap (kmem h) c (source h).

Definition load (a : Z) : ST heap Z :=
  fun h => match kmem h !! a with
           | Some v => Some (v, h)
           | None => None
           end.

Definition store (a v : Z) : ST heap unit := modify (fun h => with_kmem (<[a := v]> (kmem h)) h).

(** [slab_caches[c]] *)
Definition get_cache (c : nat) : ST heap slab_cache :=
  fun h => match caches h !! c with
           | Some k => Some (k, h)
           | None => None
           end.

Definition set_cache (c : nat) (k : slab_cache) : ST heap unit :=
  modify (fun h => with_caches (<[c := k]> (caches h)) h).

Definition take_page (k : Z) : ST heap (option Z) :=
  fun h => match ps_alloc k (source h) with
           | Some (r, s) => Some (r, Heap (kmem h) (caches h) s)
           | None => None
           end.

(** ** Allocation *)

Definition slab_alloc_from_slab (header : Z) : ST heap Z :=
  (fc <- load (header + FREE_COUNT) ;;
   if fc =? 0 then ret 0 else
   fl <- load (header + FREE_LIST) ;;
   if fl =? 0 then ret 0 else
   new_obj <- load (header + FREE_LIST) ;;
   fl <- load (header + FREE_LIST) ;;
   nx <- load fl ;;
   store (header + FREE_LIST) nx ;;
   fc <- load (header + FREE_COUNT) ;;
   store (header + FREE_COUNT) (u32 (fc - 1)) ;;
   ret new_obj)%st.

(** The loop of [slab_alloc_from_cache] from [curr_slab] on. *)
Fixpoint alloc_walk (fuel : nat) (curr_slab : Z) : ST heap Z :=
  match fuel with
  | O => fault
  | S f =>
      (if curr_slab =? 0 then ret 0 else
       fc <- load (curr_slab + FREE_COUNT) ;;
       if 0 <? fc then slab_alloc_from_slab curr_slab else
       nx <- load (curr_slab + NEXT_SLAB) ;;
       alloc_walk f nx)%st
  end.

(** Every slab of a cache has its header in [kmem]: its size bounds the walk. *)
Definition walk_fuel (h : heap) : nat := S (size (kmem h)).

Definition slab_alloc_from_cache (c : nat) : ST heap Z :=
  (k <- get_cache c ;;
   fuel <- gets walk_fuel ;;
   alloc_walk fuel (first_slab k))%st.

(** The search of [slab_add_cache_frame] for the last slab, which gets linked to
    the new one. *)
Fixpoint link_walk (fuel : nat) (curr_slab new_slab : Z) : ST heap unit :=
  match fuel with
  | O => fault
  | S f =>
      (nx <- load (curr_slab + NEXT_SLAB) ;;
       if nx =? 0 then store (curr_slab + NEXT_SLAB) new_slab else link_walk f nx new_slab)%st
  end.

(** The free-list initialisation: [n] objects left, [prev_object] the previous
    one (0 before the first). *)
Fixpoint init_free_list (n : nat) (header prev_object current_object obj_size : Z) : ST heap unit :=
  match n with
  | O => (if prev_object =? 0 then ret tt else store prev_object 0)%st
  | S m =>
      ((if prev_object =? 0 then store (header + FREE_LIST) current_object
        else store prev_object current_object) ;;
       init_free_list m header current_object (u32 (current_object + obj_size)) obj_size)%st
  end.

Definition slab_add_cache_frame (c : nat) : ST heap unit :=
  (new_page <- take_page SLAB_DEFAULT_ORDER ;;
   match new_page with
   | None => ret tt
   | Some p =>
       k <- get_cache c ;;
       (let header := PHY_TO_VIR (PFN_TO_PA p) in
        let page_count := Z.shiftl 1 SLAB_DEFAULT_ORDER in
        let total := page_count * PAGE_SIZE in
        let usable := total - SIZEOF_HEADER in
        let object_count := usable / object_size k in
        store (header + PAGE_ORDER) SLAB_DEFAULT_ORDER ;;
        store (header + START_ADDR) (u32 (header + SIZEOF_HEADER)) ;;
        store (header + END_ADDR) (u32 (header + total)) ;;
        store (header + OBJECT_COUNT) object_count ;;
        store (header + OBJECT_SIZE) (object_size k) ;;
        store (header + FREE_COUNT) object_count ;;
        store (header + NEXT_SLAB) 0 ;;
        set_cache c (SlabCache (object_size k) (u32 (total_size k + total))
                       (u32 (alloc_count k + page_count)) (first_slab k)) ;;
        k <- get_cache c ;;
        (if first_slab k =? 0 then
           set_cache c (SlabCache (object_size k) (total_size k) (alloc_count k) header)
         else fuel <- gets walk_fuel ;; link_walk fuel (first_slab k) header) ;;
        start <- load (header + START_ADDR) ;;
        count <- load (header + OBJECT_COUNT) ;;
        init_free_list (Z.to_nat count) header 0 start (object_size k))
   end)%st.

Definition slab_malloc (c : nat) : ST heap Z :=
  (new_object <- slab_alloc_from_cache c ;;
   if negb (new_object =? 0) then ret new_object else
   slab_add_cache_frame c ;;
   new_object <- slab_alloc_from_cache c ;;
   if negb (new_object =? 0) then ret new_object else
   ret 0)%st.

(** ** Freeing *)

(** The insertion of [slab_free] into the ordered free list; [curr_obj] is the
    address of the link under inspection. *)
Fixpoint free_insert (fuel : nat) (curr_obj object : Z) : ST heap unit :=
  match fuel with
  | O => fault
  | S f =>
      (cur <- load curr_obj ;;
       if cur =? 0 then
         store object 0 ;; store curr_obj object
       else if object <? cur then
         store object cur ;; store curr_obj object
       else free_insert f cur object)%st
  end.

Fixpoint free_walk (fuel : nat) (curr_slab object : Z) : ST heap Z :=
  match fuel with
  | O => fault
  | S f =>
      (if curr_slab =? 0 then ret E_ERROR else
       start <- load (curr_slab + START_ADDR) ;;
       ord <- load (curr_slab + PAGE_ORDER) ;;
       (let end_addr := u32 (start + Z.shiftl PAGE_SIZE ord) in
        if (start <=? object) && (object <? end_addr) then
          fuel <- gets walk_fuel ;;
          free_insert fuel (curr_slab + FREE_LIST) object ;;
          fc <- load (curr_slab + FREE_COUNT) ;;
          store (curr_slab + FREE_COUNT) (u32 (fc + 1)) ;;
          ret E_SUCCESS
        else
          nx <- load (curr_slab + NEXT_SLAB) ;;
          free_walk f nx object))%st
  end.

Definition slab_free (c : nat) (object : Z) : ST heap Z :=
  (k <- get_cache c ;;
   fuel <- gets walk_fuel ;;
   free_walk fuel (first_slab k) object)%st.

Fixpoint has_addr_walk (fuel : nat) (curr_slab addr : Z) : ST heap bool :=
  match fuel with
  | O => fault
  | S f =>
      (if curr_slab =? 0 then ret false else
       start <- load (curr_slab + START_ADDR) ;;
       inside <- (if start <=? addr then
                    end_addr <- load (curr_slab + END_ADDR) ;; ret (addr <? end_addr)
                  else ret false) ;;
       if inside then ret true else
       nx <- load (curr_slab + NEXT_SLAB) ;;
       has_addr_walk f nx addr)%st
  end.

Definition slab_cache_has_addr (c : nat) (addr : Z) : ST heap bool :=
  (k <- get_cache c ;;
   fuel <- gets walk_fuel ;;
   has_addr_walk fuel (first_slab k) addr)%st.

(** ** kmalloc and kfree *)

(** The loop of [kmalloc] over the caches from index [i] on; [n] are left. *)
Fixpoint kmalloc_from (n i : nat) (size : Z) : ST heap Z :=
  match n with
  | O => ret 0
  | S m =>
      (k <- get_cache i ;;
       if size <=? object_size k then slab_malloc i else kmalloc_from m (S i) size)%st
  end.

Definition kmalloc (size : Z) : ST heap Z := kmalloc_from 13 0 size.

Fixpoint kfree_from (n i : nat) (addr : Z) : ST heap Z :=
  match n with
  | O => ret E_ERROR
  | S m =>
      (inside <- slab_cache_has_addr i addr ;;
       if inside then slab_free i addr ;; ret E_SUCCESS else kfree_from m (S i) addr)%st
  end.

Definition kfree (addr : Z) : ST heap Z := kfree_from 13 0 addr.

End Slab.

Arguments heap P : clear implicits.
