(* ===== verification/SlabInv.v ===== *)
(** * The slab representation

    [chain m sz first S] relates the words of kernel memory to a cache's slabs:
    [S] lists, for every slab, its base address and its free objects in address
    order.  Each walk and update of slab.c is proved on this representation,
    with the words it may change. *)

From stdpp Require Import base numbers list gmap sorting.
From Stdlib Require Import ZArith Lia Znumtheory.
From S2P Require Import Prelude PageDefs Palloc PageSource Slab.

#[local] Open Scope Z_scope.

Implicit Types (m : gmap Z Z) (sz b x loc : Z) (fl : list Z) (S : list (Z * list Z)).

(** The bytes of a slab, the objects it holds and where they are. *)
Definition SLAB_BYTES : Z := 65536.

Definition nobj sz : Z := (SLAB_BYTES - SIZEOF_HEADER) / sz.

Definition is_obj b sz x : Prop := exists i, 0 <= i < nobj sz /\ x = b + SIZEOF_HEADER + i * sz.

Definition base_ok b : Prop := KERNEL_START_VIRT <= b /\ b + 2 * SLAB_BYTES <= 4294967296 /\ (SLAB_BYTES | b).

Fixpoint flist m loc fl : Prop :=
  match fl with
  | [] => m !! loc = Some 0
  | x :: t => m !! loc = Some x /\ flist m x t
  end.

Record slab_ok m sz b (nx : Z) fl : Prop := SlabOk {
  so_base : base_ok b;
  so_next : m !! (b + NEXT_SLAB) = Some nx;
  so_start : m !! (b + START_ADDR) = Some (b + SIZEOF_HEADER);
  so_end : m !! (b + END_ADDR) = Some (b + SLAB_BYTES);
  so_count : m !! (b + OBJECT_COUNT) = Some (nobj sz);
  so_free : m !! (b + FREE_COUNT) = Some (Z.of_nat (length fl));
  so_order : m !! (b + PAGE_ORDER) = Some SLAB_DEFAULT_ORDER;
  so_list : flist m (b + FREE_LIST) fl;
  so_sorted : StronglySorted Z.lt fl;
  so_objs : Forall (is_obj b sz) fl
}.

Fixpoint chain m sz (first : Z) S : Prop :=
  match S with
  | [] => first = 0
  | (b, fl) :: t => first = b /\ exists nx, slab_ok m sz b nx fl /\ chain m sz nx t
  end.

Definition size_ok sz : Prop := 8 <= sz <= 32768.

(** The two memories agree on the block of slab [b]. *)
Definition agree_on m m' b : Prop := forall a, b <= a < b + SLAB_BYTES -> m' !! a = m !! a.

(** ** Arithmetic of slabs *)

Ltac slab_unfold :=
  unfold SLAB_BYTES, SIZEOF_HEADER, NEXT_SLAB, START_ADDR, END_ADDR, OBJECT_COUNT, OBJECT_SIZE, FREE_COUNT,
    PAGE_ORDER, FREE_LIST, KERNEL_START_VIRT, SLAB_DEFAULT_ORDER, PAGE_SIZE in *.

Ltac slab_lia := slab_unfold; lia.

Lemma nobj_bound sz : size_ok sz -> 0 < nobj sz /\ nobj sz * sz <= SLAB_BYTES - SIZEOF_HEADER.
Proof.
  unfold size_ok, nobj. intros Hs. split.
  - apply Z.div_str_pos. slab_lia.
  - rewrite Z.mul_comm. apply Z.mul_div_le. lia.
Qed.

Lemma nobj_small sz : size_ok sz -> nobj sz < 65536.
Proof. intros Hs. destruct (nobj_bound sz Hs). unfold size_ok in Hs. slab_unfold. nia. Qed.

(** All objects of a slab, in order. *)
Fixpoint objs_from (n : nat) (cur sz : Z) : list Z :=
  match n with
  | O => []
  | Datatypes.S m => cur :: objs_from m (cur + sz) sz
  end.

Definition all_objs b sz : list Z := objs_from (Z.to_nat (nobj sz)) (b + SIZEOF_HEADER) sz.

Lemma elem_objs_from n cur sz x :
  x ∈ objs_from n cur sz <-> exists i, 0 <= i < Z.of_nat n /\ x = cur + i * sz.
Proof.
  revert cur. induction n as [|n IH]; intros cur; cbn [objs_from].
  - split; [set_solver|]. intros (i & Hi & _). lia.
  - rewrite elem_of_cons, IH. split.
    + intros [->|(i & Hi & ->)]; [exists 0|exists (i + 1)]; lia.
    + intros (i & Hi & ->). destruct (decide (i = 0)) as [->|]; [left; lia|]. right. exists (i - 1). lia.
Qed.

Lemma length_objs_from n cur sz : length (objs_from n cur sz) = n.
Proof. revert cur. induction n as [|n IH]; intros cur; cbn; [done|]. by rewrite IH. Qed.

Lemma sorted_objs_from n cur sz : 0 < sz -> StronglySorted Z.lt (objs_from n cur sz).
Proof.
  intros Hs. revert cur. induction n as [|n IH]; intros cur; cbn; constructor; [done|].
  apply Forall_forall. intros x (i & Hi & ->)%elem_objs_from. nia.
Qed.

Lemma elem_all_objs b sz x : size_ok sz -> x ∈ all_objs b sz <-> is_obj b sz x.
Proof.
  intros Hs. destruct (nobj_bound sz Hs) as [Hn _]. unfold all_objs, is_obj. rewrite elem_objs_from, Z2Nat.id by lia.
  split; intros (i & Hi & ->); exists i; (split; [done|lia]).
Qed.

Lemma objs_length b sz fl :
  size_ok sz -> NoDup fl -> Forall (is_obj b sz) fl -> Z.of_nat (length fl) <= nobj sz.
Proof.
  intros Hs ND HO. destruct (nobj_bound sz Hs) as [Hn _].
  assert (Hlen : length (all_objs b sz) = Z.to_nat (nobj sz)) by apply length_objs_from.
  assert (Hsub : (length fl <= length (all_objs b sz))%nat); [|lia].
  apply submseteq_length, NoDup_submseteq; [done|]. intros x Hx. apply elem_all_objs; [done|].
  rewrite Forall_forall in HO. by apply HO.
Qed.

Lemma is_obj_range b sz x :
  size_ok sz -> is_obj b sz x -> b + SIZEOF_HEADER <= x /\ x + sz <= b + SLAB_BYTES.
Proof.
  intros Hs (i & Hi & ->). destruct (nobj_bound sz Hs) as [_ Hn]. unfold size_ok in Hs.
  assert (i * sz + sz <= nobj sz * sz) by (rewrite <- Z.mul_succ_l; apply Z.mul_le_mono_nonneg_r; lia).
  assert (0 <= i * sz) by (apply Z.mul_nonneg_nonneg; lia). lia.
Qed.

(** Different objects of a slab do not overlap. *)
Lemma is_obj_apart b sz x y : size_ok sz -> is_obj b sz x -> is_obj b sz y -> x < y -> x + sz <= y.
Proof.
  intros Hs (i & Hi & ->) (j & Hj & ->) Hlt. unfold size_ok in Hs.
  assert (i < j) by (apply (Z.mul_lt_mono_pos_r sz); lia).
  assert (i * sz + sz <= j * sz) by (rewrite <- Z.mul_succ_l; apply Z.mul_le_mono_nonneg_r; lia). lia.
Qed.

Lemma base_apart b b' a :
  base_ok b -> base_ok b' -> b <= a < b + SLAB_BYTES -> b' <= a < b' + SLAB_BYTES -> b = b'.
Proof.
  intros (_ & _ & [u Hu]) (_ & _ & [v Hv]) H1 H2. slab_unfold.
  assert (u = v) by lia. by subst.
Qed.

(** ** Frames *)

Lemma flist_frame m m' loc fl :
  (forall a, a = loc \/ a ∈ fl -> m' !! a = m !! a) -> flist m loc fl -> flist m' loc fl.
Proof.
  revert loc. induction fl as [|x fl IH]; intros loc Hf; cbn.
  - intros <-. apply Hf. by left.
  - intros [<- HF]. split; [apply Hf; by left|]. apply IH; [|done]. intros a [->|Ha]; apply Hf; right; set_solver.
Qed.

Lemma slab_frame m m' sz b nx fl :
  size_ok sz -> agree_on m m' b -> slab_ok m sz b nx fl -> slab_ok m' sz b nx fl.
Proof.
  intros Hs Ha [? ? ? ? ? ? ? HL ? HO]. constructor; try done; try (rewrite Ha by slab_lia; done).
  revert HL. apply flist_frame. intros a [->|Hin]; apply Ha; [slab_lia|].
  rewrite Forall_forall in HO. apply HO in Hin. apply (is_obj_range b sz a Hs) in Hin. unfold size_ok in Hs. slab_lia.
Qed.

Lemma chain_frame m m' sz first S :
  size_ok sz -> (forall b, b ∈ S.*1 -> agree_on m m' b) -> chain m sz first S -> chain m' sz first S.
Proof.
  intros Hs. revert first. induction S as [|[b fl] S IH]; intros first Ha; [done|].
  intros (-> & nx & H1 & H2). split; [done|]. exists nx. split.
  - eapply slab_frame; [done| |done]. apply Ha. set_solver.
  - apply IH; [|done]. intros c Hc. apply Ha. set_solver.
Qed.

Lemma agree_insert m b a v : ~ (b <= a < b + SLAB_BYTES) -> agree_on m (<[a := v]> m) b.
Proof. intros Ha c Hc. rewrite lookup_insert_ne; [done|]. lia. Qed.

Lemma agree_trans m1 m2 m3 b : agree_on m1 m2 b -> agree_on m2 m3 b -> agree_on m1 m3 b.
Proof. intros H1 H2 a Ha. rewrite H2, H1; done. Qed.

Lemma agree_refl m b : agree_on m m b.
Proof. done. Qed.

Lemma chain_app m sz first S1 b fl S2 :
  chain m sz first (S1 ++ (b, fl) :: S2) ->
  exists nx, slab_ok m sz b nx fl /\ chain m sz nx S2.
Proof.
  revert first. induction S1 as [|[c gl] S1 IH]; intros first; cbn.
  - intros (_ & nx & H1 & H2). eauto.
  - intros (_ & nx & _ & H2). by apply (IH nx).
Qed.

Lemma chain_base m sz first S b : chain m sz first S -> b ∈ S.*1 -> base_ok b.
Proof.
  revert first. induction S as [|[c gl] S IH]; intros first; cbn; [set_solver|].
  intros (_ & nx & HS & HC) [->|Hb]%elem_of_cons; [by destruct HS|by eapply IH].
Qed.

(** Replacing one slab of a chain, the others untouched. *)
Lemma chain_update m m' sz first S1 b fl fl' S2 :
  size_ok sz -> NoDup (S1 ++ (b, fl) :: S2).*1 ->
  chain m sz first (S1 ++ (b, fl) :: S2) ->
  (forall c, c ∈ (S1 ++ S2).*1 -> agree_on m m' c) ->
  (forall nx, slab_ok m sz b nx fl -> slab_ok m' sz b nx fl') ->
  chain m' sz first (S1 ++ (b, fl') :: S2).
Proof.
  intros Hs. revert first. induction S1 as [|[c gl] S1 IH]; intros first ND HC Ha HU; cbn in *.
  - destruct HC as (-> & nx & H1 & H2). split; [done|]. exists nx. split; [auto|]. by eapply chain_frame.
  - destruct HC as (-> & nx & H1 & H2). split; [done|]. exists nx. split.
    + eapply slab_frame; [done| |done]. apply Ha. set_solver.
    + apply NoDup_cons in ND as [_ ND]. apply IH; [done|done| |done]. intros d Hd. apply Ha. set_solver.
Qed.

(** ** The free list *)

Lemma flist_head m loc fl : flist m loc fl -> m !! loc = Some (default 0 (head fl)).
Proof. destruct fl; cbn; [done|]. by intros [? _]. Qed.

Lemma flist_pop m loc x fl :
  flist m loc (x :: fl) -> loc <> x -> loc ∉ fl -> flist (<[loc := default 0 (head fl)]> m) loc fl.
Proof.
  intros [_ HF] Hx Hl. destruct fl as [|y fl]; cbn in *.
  - by rewrite lookup_insert_eq.
  - split; [by rewrite lookup_insert_eq|]. destruct HF as [_ HF]. revert HF. apply flist_frame.
    intros a Ha. rewrite lookup_insert_ne; [done|]. set_solver.
Qed.

Lemma sorted_cons_lt x fl : StronglySorted Z.lt (x :: fl) -> StronglySorted Z.lt fl /\ Forall (Z.lt x) fl.
Proof. intros Hs. by apply StronglySorted_inv in Hs. Qed.

Lemma sorted_nodup fl : StronglySorted Z.lt fl -> NoDup fl.
Proof.
  induction fl as [|x fl IH]; intros Hs; [constructor|]. apply sorted_cons_lt in Hs as [Hs Hx].
  constructor; [|auto]. intros Hin. rewrite Forall_forall in Hx. apply Hx in Hin. lia.
Qed.

(** Address-ordered insertion. *)
Fixpoint sinsert x fl : list Z :=
  match fl with
  | [] => [x]
  | y :: t => if x <? y then x :: fl else y :: sinsert x t
  end.

Lemma elem_sinsert x y fl : y ∈ sinsert x fl <-> y = x \/ y ∈ fl.
Proof.
  induction fl as [|z fl IH]; cbn; [set_solver|]. destruct (x <? z); rewrite !elem_of_cons; [tauto|]. rewrite IH. tauto.
Qed.

Lemma length_sinsert x fl : length (sinsert x fl) = S (length fl).
Proof. induction fl as [|z fl IH]; cbn; [done|]. destruct (x <? z); cbn; lia. Qed.

Lemma sorted_sinsert x fl : x ∉ fl -> StronglySorted Z.lt fl -> StronglySorted Z.lt (sinsert x fl).
Proof.
  induction fl as [|z fl IH]; intros Hx Hs; cbn.
  - repeat constructor.
  - apply sorted_cons_lt in Hs as [Hs Hz]. rewrite Forall_forall in Hz. destruct (Z.ltb_spec x z).
    + constructor; [constructor; [done|by rewrite Forall_forall]|]. apply Forall_forall.
      intros y [->|Hy]%elem_of_cons; [done|]. apply Hz in Hy. lia.
    + constructor; [apply IH; set_solver|]. apply Forall_forall. intros y Hy. apply elem_sinsert in Hy as [->|Hy].
      * assert (x <> z) by set_solver. lia.
      * by apply Hz.
Qed.

(** ** The operations on one cache *)

Section Walks.
  Context {P : Type} `{PageSource P}.

  Implicit Types (h : heap P).

Lemma load_some h a v : kmem h !! a = Some v -> load a h = Some (v, h).
Proof. unfold load. by intros ->. Qed.

Lemma store_run h a v : store a v h = Some (tt, with_kmem (<[a := v]> (kmem h)) h).
Proof. done. Qed.

Lemma kmem_with m h : kmem (with_kmem m h) = m.
Proof. done. Qed.

(** The header words that popping or inserting a free object leaves alone. *)
Lemma slab_header_frame m m' sz b nx fl fl' :
  slab_ok m sz b nx fl ->
  (forall a, b <= a < b + SIZEOF_HEADER -> a <> b + FREE_COUNT -> a <> b + FREE_LIST -> m' !! a = m !! a) ->
  m' !! (b + FREE_COUNT) = Some (Z.of_nat (length fl')) -> flist m' (b + FREE_LIST) fl' ->
  StronglySorted Z.lt fl' -> Forall (is_obj b sz) fl' -> slab_ok m' sz b nx fl'.
Proof.
  intros [HB HN HSt HE HC HF HO HL HSo HOb] Ha Hc Hl Hs Ho.
  constructor; try done; rewrite Ha by slab_lia; done.
Qed.

Lemma slab_ok_length m sz b nx fl : size_ok sz -> slab_ok m sz b nx fl -> Z.of_nat (length fl) <= nobj sz.
Proof. intros Hs HS. apply (objs_length b); [done|apply sorted_nodup, HS|apply HS]. Qed.

Lemma slab_ok_above m sz b nx fl y : size_ok sz -> slab_ok m sz b nx fl -> y ∈ fl -> b + SIZEOF_HEADER <= y.
Proof.
  intros Hs HS Hy. apply (is_obj_range b sz y Hs). pose proof (so_objs _ _ _ _ _ HS) as HO.
  rewrite Forall_forall in HO. by apply HO.
Qed.

(** Popping the first free object of a slab. *)
Lemma alloc_from_slab_spec h sz b nx x fl :
  size_ok sz -> slab_ok (kmem h) sz b nx (x :: fl) ->
  exists m', slab_alloc_from_slab b h = Some (x, with_kmem m' h) /\ slab_ok m' sz b nx fl /\
    forall a, a <> b + FREE_COUNT -> a <> b + FREE_LIST -> m' !! a = kmem h !! a.
Proof.
  intros Hs HS. assert (Hr := fun y => slab_ok_above _ _ _ _ _ y Hs HS).
  pose proof (slab_ok_length _ _ _ _ _ Hs HS) as Hwid. pose proof (nobj_small sz Hs) as Hsm.
  pose proof HS as [HB _ _ _ _ HF _ HL HSo HOb]. pose proof HB as (B1 & _).
  pose proof (Hr x ltac:(set_solver)) as R1.
  assert (HL' := HL). destruct HL' as [E1 E2]. assert (Enx := flist_head _ _ _ E2).
  set (m1 := <[b + FREE_LIST := default 0 (head fl)]> (kmem h)).
  set (m2 := <[b + FREE_COUNT := Z.of_nat (length fl)]> m1). exists m2.
  assert (Hsame : forall a, a <> b + FREE_COUNT -> a <> b + FREE_LIST -> m2 !! a = kmem h !! a).
  { intros a N1 N2. unfold m2, m1. by rewrite !lookup_insert_ne by done. }
  split_and!; [| |done].
  - unfold slab_alloc_from_slab. st_step (load_some h _ _ HF). cbn [length] in *.
    destruct (Z.eqb_spec (Z.of_nat (Datatypes.S (length fl))) 0) as [|_]; [lia|].
    st_step (load_some h _ _ E1). destruct (Z.eqb_spec x 0) as [|_]; [slab_lia|].
    st_step (load_some h _ _ E1). st_step (load_some h _ _ E1). st_step (load_some h _ _ Enx).
    st_step (store_run h (b + FREE_LIST) (default 0 (head fl))).
    erewrite bind_some by (apply load_some; rewrite kmem_with, lookup_insert_ne by slab_lia; exact HF).
    erewrite bind_some by apply store_run. unfold ret. rewrite kmem_with. unfold m2, m1.
    rewrite u32_small by lia.
    by replace (Z.of_nat (Datatypes.S (length fl)) - 1) with (Z.of_nat (length fl)) by lia.
  - eapply slab_header_frame; [exact HS|auto|unfold m2; by rewrite lookup_insert_eq| | |].
    + unfold m2. apply (flist_frame m1).
      * intros a Ha. rewrite lookup_insert_ne; [done|]. destruct Ha as [->|Ha]; [slab_lia|].
        specialize (Hr a ltac:(set_solver)). slab_lia.
      * apply (flist_pop _ _ x); [done|slab_lia|]. intros Hin. specialize (Hr _ (list_elem_of_further _ _ _ Hin)). slab_lia.
    + by apply sorted_cons_lt in HSo as [? _].
    + by apply Forall_cons in HOb as [_ ?].
Qed.

(** [slab_alloc_from_cache] takes the first object of the first slab that has
    one, or finds every slab full. *)
Lemma alloc_walk_spec fuel : forall h sz first S,
  size_ok sz -> chain (kmem h) sz first S -> NoDup S.*1 -> (length S < fuel)%nat ->
  (exists S1 b x fl S2 m', S = S1 ++ (b, x :: fl) :: S2 /\ alloc_walk fuel first h = Some (x, with_kmem m' h) /\
     chain m' sz first (S1 ++ (b, fl) :: S2) /\
     (forall a, a <> b + FREE_COUNT -> a <> b + FREE_LIST -> m' !! a = kmem h !! a)) \/
  (alloc_walk fuel first h = Some (0, h) /\ forall b fl, (b, fl) ∈ S -> fl = []).
Proof.
  induction fuel as [|fuel IH]; intros h sz first S Hs HC ND Hf; [lia|].
  destruct S as [|[b fl] S].
  { right. cbn in HC. subst first. split; [done|]. set_solver. }
  destruct HC as (-> & nx & HS & HC). pose proof HS as [(B1 & _) HN _ _ _ HF _ _ _ _].
  assert (E0 : (b =? 0) = false) by (apply Z.eqb_neq; slab_lia).
  cbn [fmap list_fmap fst] in ND. pose proof ND as [Hb ND']%NoDup_cons.
  destruct fl as [|x fl].
  - destruct (IH h sz nx S Hs HC ND') as [(S1 & c & x & fl & S2 & m' & -> & E & HC' & Hsame)|[E HE]]; [cbn in Hf; lia|left|right].
    + exists ((b, []) :: S1), c, x, fl, S2, m'. split_and!; [done| | |done].
      * cbn [alloc_walk]. rewrite E0. st_step (load_some h _ _ HF). cbn [length Z.of_nat Z.ltb Z.compare].
        change (0 <? Z.of_nat 0) with false. cbv iota. st_step (load_some h _ _ HN). done.
      * split; [done|]. exists nx. split; [|done]. eapply slab_frame; [done| |done].
        intros a Ha. assert (base_ok c).
        { eapply chain_base; [exact HC|]. rewrite fmap_app, fmap_cons. set_solver. }
        assert (Hbc : b <> c) by (intros ->; apply Hb; rewrite fmap_app, fmap_cons; set_solver).
        apply Hsame; intros ->; apply Hbc; eapply base_apart; try done; try apply HS; slab_lia.
    + split; [|set_solver]. cbn [alloc_walk]. rewrite E0. st_step (load_some h _ _ HF).
      change (0 <? Z.of_nat (length [])) with false. cbv iota. by st_step (load_some h _ _ HN).
  - left. destruct (alloc_from_slab_spec h sz b nx x fl Hs HS) as (m' & E & HS' & Hsame).
    exists [], b, x, fl, S, m'. split_and!; [done| | |done].
    + cbn [alloc_walk]. rewrite E0. st_step (load_some h _ _ HF).
      destruct (Z.ltb_spec 0 (Z.of_nat (length (x :: fl)))); [done|cbn in *; lia].
    + split; [done|]. exists nx. split; [done|]. eapply chain_frame; [done| |done].
      intros c Hc a Ha. assert (base_ok c) by by eapply chain_base.
      assert (Hbc : b <> c) by (intros ->; done).
      apply Hsame; intros ->; apply Hbc; eapply base_apart; try done; try apply HS; slab_lia.
Qed.

(** ** Bounds on the walks *)

Lemma flist_keys m loc fl x : flist m loc fl -> x ∈ fl -> is_Some (m !! x).
Proof.
  revert loc. induction fl as [|y fl IH]; intros loc; cbn; [set_solver|].
  intros [_ HF] [->|Hx]%elem_of_cons; [|by eapply IH]. rewrite (flist_head _ _ _ HF). eauto.
Qed.

Lemma chain_keys m sz first S b : chain m sz first S -> b ∈ S.*1 -> is_Some (m !! b).
Proof.
  revert first. induction S as [|[c fl] S IH]; intros first; cbn; [set_solver|].
  intros (_ & nx & HS & HC) [->|Hb]%elem_of_cons; [|by eapply IH].
  pose proof (so_next _ _ _ _ _ HS) as E. replace (c + NEXT_SLAB) with c in E by slab_lia. eauto.
Qed.

Lemma chain_fuel h sz first S : chain (kmem h) sz first S -> NoDup S.*1 -> (length S < walk_fuel h)%nat.
Proof.
  intros HC ND. unfold walk_fuel. rewrite <- (length_fmap fst S).
  assert (length S.*1 <= size (kmem h))%nat; [|lia]. apply keys_length; [done|]. intros b Hb. by eapply chain_keys.
Qed.

Lemma flist_fuel h loc fl : flist (kmem h) loc fl -> NoDup fl -> (length fl < walk_fuel h)%nat.
Proof.
  intros HF ND. unfold walk_fuel. assert (length fl <= size (kmem h))%nat; [|lia].
  apply keys_length; [done|]. intros x Hx. by eapply flist_keys.
Qed.

(** ** Freeing *)

Lemma free_insert_spec fuel : forall h loc x fl,
  flist (kmem h) loc fl -> loc ∉ fl -> x <> loc -> x ∉ fl -> NoDup fl -> 0 ∉ fl -> (length fl < fuel)%nat ->
  exists m', free_insert fuel loc x h = Some (tt, with_kmem m' h) /\ flist m' loc (sinsert x fl) /\
    forall a, a <> x -> a <> loc -> a ∉ fl -> m' !! a = kmem h !! a.
Proof.
  induction fuel as [|fuel IH]; intros h loc x fl HF Hl Hxl Hx ND H0 Hf; [lia|].
  cbn [free_insert]. destruct fl as [|y fl].
  - exists (<[loc := x]> (<[x := 0]> (kmem h))). split_and!.
    + st_step (load_some h loc 0 HF). done.
    + split; [by rewrite lookup_insert_eq|]. cbn. by rewrite lookup_insert_ne, lookup_insert_eq.
    + intros a N1 N2 _. by rewrite !lookup_insert_ne.
  - destruct HF as [E HF]. apply NoDup_cons in ND as [Hy ND].
    st_step (load_some h loc y E). destruct (Z.eqb_spec y 0) as [->|_]; [set_solver|].
    cbn [sinsert]. destruct (Z.ltb_spec x y).
    + exists (<[loc := x]> (<[x := y]> (kmem h))). split_and!.
      * done.
      * split; [by rewrite lookup_insert_eq|]. split; [by rewrite lookup_insert_ne, lookup_insert_eq|].
        revert HF. apply flist_frame. intros a Ha. rewrite !lookup_insert_ne; [done|set_solver..].
      * intros a N1 N2 _. by rewrite !lookup_insert_ne.
    + destruct (IH h y x fl HF Hy) as (m' & E' & HF' & Hsame); [set_solver..|cbn in Hf; lia|].
      exists m'. split_and!; [done| |].
      * split; [|done]. rewrite Hsame; [done|congruence|set_solver..].
      * intros a N1 N2 N3. apply Hsame; set_solver.
Qed.

(** Only slab [b]'s test succeeds for one of its objects. *)
Lemma in_slab_test sz b c x :
  size_ok sz -> base_ok b -> base_ok c -> is_obj b sz x ->
  (c + SIZEOF_HEADER <=? x) && (x <? u32 (c + SIZEOF_HEADER + Z.shiftl PAGE_SIZE SLAB_DEFAULT_ORDER)) = bool_decide (c = b).
Proof.
  intros Hs HB HC Hx. destruct (is_obj_range b sz x Hs Hx) as [R1 R2]. unfold size_ok in Hs.
  pose proof HC as (C1 & C2 & _). change (Z.shiftl PAGE_SIZE SLAB_DEFAULT_ORDER) with SLAB_BYTES.
  rewrite u32_small by slab_lia. destruct (bool_decide_reflect (c = b)) as [->|Hne].
  - apply andb_true_iff. split; [apply Z.leb_le; lia|apply Z.ltb_lt; slab_lia].
  - apply andb_false_iff. destruct (Z.le_gt_cases (c + SIZEOF_HEADER) x); [right; apply Z.ltb_ge|left; by apply Z.leb_gt].
    destruct (Z.le_gt_cases (c + SIZEOF_HEADER + SLAB_BYTES) x); [done|]. exfalso. apply Hne.
    apply (base_apart c b (x - SIZEOF_HEADER)); try done; slab_lia.
Qed.

Lemma slab_insert_spec h sz b nx x fl :
  size_ok sz -> slab_ok (kmem h) sz b nx fl -> is_obj b sz x -> x ∉ fl ->
  exists m', (free_insert (walk_fuel h) (b + FREE_LIST) x ;;
     fc <- load (b + FREE_COUNT) ;; store (b + FREE_COUNT) (u32 (fc + 1)) ;; ret E_SUCCESS)%st h
       = Some (E_SUCCESS, with_kmem m' h) /\ slab_ok m' sz b nx (sinsert x fl) /\
    forall a, a <> x -> a ∉ fl -> a <> b + FREE_COUNT -> a <> b + FREE_LIST -> m' !! a = kmem h !! a.
Proof.
  intros Hs HS Hx Hn. assert (Hr := fun y => slab_ok_above _ _ _ _ _ y Hs HS).
  pose proof HS as [HB _ _ _ _ HF _ HL HSo HOb]. pose proof HB as (B1 & _).
  destruct (is_obj_range b sz x Hs Hx) as [R1 _].
  assert (HO' : Forall (is_obj b sz) (sinsert x fl)).
  { apply Forall_forall. intros y [->|Hy]%elem_sinsert; [done|]. rewrite Forall_forall in HOb. by apply HOb. }
  assert (HS' : StronglySorted Z.lt (sinsert x fl)) by by apply sorted_sinsert.
  assert (Hlen := objs_length b sz _ Hs (sorted_nodup _ HS') HO'). rewrite length_sinsert in Hlen.
  pose proof (nobj_small sz Hs).
  destruct (free_insert_spec (walk_fuel h) h (b + FREE_LIST) x fl HL) as (m1 & E1 & HL1 & Hs1).
  - intros Hin%Hr. slab_lia.
  - slab_lia.
  - done.
  - by apply sorted_nodup.
  - intros Hin%Hr. slab_lia.
  - eapply flist_fuel; [exact HL|]. by apply sorted_nodup.
  - assert (Hfc : m1 !! (b + FREE_COUNT) = Some (Z.of_nat (length fl))).
    { rewrite Hs1; [done|slab_lia|slab_lia|]. intros Hin%Hr. slab_lia. }
    exists (<[b + FREE_COUNT := Z.of_nat (length (sinsert x fl))]> m1). split_and!.
    + st_step E1. st_step (load_some (with_kmem m1 h) _ _ Hfc). rewrite length_sinsert, u32_small by lia.
      erewrite bind_some by apply store_run. unfold ret. rewrite kmem_with.
      by replace (Z.of_nat (Datatypes.S (length fl))) with (Z.of_nat (length fl) + 1) by lia.
    + eapply slab_header_frame; [exact HS| |by rewrite lookup_insert_eq| |done|done].
      * intros a Ha N1 N2. rewrite lookup_insert_ne by done. apply Hs1; [slab_lia|done|].
        intros Hin%Hr. slab_lia.
      * revert HL1. apply flist_frame. intros a Ha. rewrite lookup_insert_ne; [done|].
        destruct Ha as [->|[->|Ha]%elem_sinsert]; [slab_lia|slab_lia|apply Hr in Ha; slab_lia].
    + intros a N1 N2 N3 N4. rewrite lookup_insert_ne by done. by apply Hs1.
Qed.

Lemma free_walk_spec fuel : forall h sz first S1 b fl S2 x,
  size_ok sz -> chain (kmem h) sz first (S1 ++ (b, fl) :: S2) -> NoDup (S1 ++ (b, fl) :: S2).*1 ->
  is_obj b sz x -> x ∉ fl -> (length S1 < fuel)%nat ->
  exists m', free_walk fuel first x h = Some (E_SUCCESS, with_kmem m' h) /\
    chain m' sz first (S1 ++ (b, sinsert x fl) :: S2) /\
    forall a, a <> x -> a ∉ fl -> a <> b + FREE_COUNT -> a <> b + FREE_LIST -> m' !! a = kmem h !! a.
Proof.
  induction fuel as [|fuel IH]; intros h sz first S1 b fl S2 x Hs HC ND Hx Hn Hf; [lia|].
  assert (HB : base_ok b) by (eapply chain_base; [exact HC|]; rewrite fmap_app, fmap_cons; set_solver).
  destruct S1 as [|[c gl] S1]; cbn in HC; destruct HC as (-> & nx & HS & HC); pose proof HS as [HBc HN HSt _ _ HF HO _ _ _];
    (assert (E0 : forall d, base_ok d -> (d =? 0) = false) by (intros d (D1 & _); apply Z.eqb_neq; slab_lia));
    cbn [free_walk]; rewrite E0 by done; st_step (load_some h _ _ HSt); st_step (load_some h _ _ HO);
    rewrite (in_slab_test sz b) by done.
  - rewrite bool_decide_true by done. destruct (slab_insert_spec h sz b nx x fl Hs HS Hx Hn) as (m' & E & HS' & Hsame).
    exists m'. split_and!; [exact E| |done]. split; [done|]. exists nx. split; [done|]. eapply chain_frame; [done| |done].
    intros c Hc a Ha. cbn in ND. apply NoDup_cons in ND as [Hb _].
    assert (base_ok c) by by eapply chain_base. assert (Hbc : b <> c) by (intros ->; done).
    assert (Hout : ~ (b <= a < b + SLAB_BYTES)) by (intros Ha'; apply Hbc; by eapply base_apart).
    destruct (is_obj_range b sz x Hs Hx). unfold size_ok in Hs.
    apply Hsame; [slab_lia| |slab_lia|slab_lia]. intros Hin.
    pose proof (so_objs _ _ _ _ _ HS) as HOb. rewrite Forall_forall in HOb. apply HOb in Hin.
    apply (is_obj_range b sz a) in Hin; [slab_lia|done].
  - cbn in ND. apply NoDup_cons in ND as [Hc ND].
    assert (Hcb : c <> b) by (intros ->; apply Hc; rewrite fmap_app, fmap_cons; set_solver).
    rewrite bool_decide_false by done. st_step (load_some h _ _ HN).
    destruct (IH h sz nx S1 b fl S2 x Hs HC ND Hx Hn) as (m' & E & HC' & Hsame); [cbn in Hf; lia|].
    exists m'. split_and!; [done| |done]. split; [done|]. exists nx. split; [|done].
    eapply slab_frame; [done| |done]. intros a Ha.
    assert (Hout : ~ (b <= a < b + SLAB_BYTES)) by (intros Ha'; apply Hcb; by eapply base_apart).
    destruct (is_obj_range b sz x Hs Hx). unfold size_ok in Hs.
    apply Hsame; [slab_lia| |slab_lia|slab_lia]. intros Hin.
    destruct (chain_app _ _ _ _ _ _ _ HC) as (nx' & HSb & _).
    pose proof (so_objs _ _ _ _ _ HSb) as HOb. rewrite Forall_forall in HOb. apply HOb in Hin.
    apply (is_obj_range b sz a) in Hin; [slab_lia|done].
Qed.

(** [slab_cache_has_addr] finds an address in the object area of a slab. *)
Definition in_slabs (S : list (Z * list Z)) (addr : Z) : bool :=
  existsb (fun p => (fst p + SIZEOF_HEADER <=? addr) && (addr <? fst p + SLAB_BYTES)) S.

Lemma has_addr_spec fuel : forall h sz first S addr,
  chain (kmem h) sz first S -> (length S < fuel)%nat ->
  has_addr_walk fuel first addr h = Some (in_slabs S addr, h).
Proof.
  induction fuel as [|fuel IH]; intros h sz first S addr HC Hf; [lia|].
  destruct S as [|[b fl] S]; cbn in HC; [by subst|]. destruct HC as (-> & nx & HS & HC).
  pose proof HS as [(B1 & _) HN HSt HE _ _ _ _ _ _]. cbn [has_addr_walk in_slabs existsb fst].
  destruct (Z.eqb_spec b 0) as [|_]; [slab_lia|]. st_step (load_some h _ _ HSt).
  assert (E2 : (nx <- load (b + NEXT_SLAB) ;; has_addr_walk fuel nx addr)%st h = Some (in_slabs S addr, h)).
  { st_step (load_some h _ _ HN). apply (IH h sz); [done|cbn in Hf; lia]. }
  destruct (b + SIZEOF_HEADER <=? addr); cbn [andb].
  - erewrite bind_some by (st_step (load_some h _ _ HE); done). by destruct (addr <? b + SLAB_BYTES).
  - rewrite bind_ret. done.
Qed.

(** ** A new slab *)

Lemma link_walk_spec fuel : forall h sz first S1 b fl (new : Z),
  chain (kmem h) sz first (S1 ++ [(b, fl)]) -> (length S1 < fuel)%nat ->
  link_walk fuel first new h = Some (tt, with_kmem (<[b + NEXT_SLAB := new]> (kmem h)) h).
Proof.
  induction fuel as [|fuel IH]; intros h sz first S1 b fl new HC Hf; [lia|]. cbn [link_walk].
  destruct S1 as [|[c gl] S1]; cbn in HC; destruct HC as (-> & nx & HS & HC); pose proof HS as [_ HN _ _ _ _ _ _ _ _];
    st_step (load_some h _ _ HN).
  - cbn in HC. by subst nx.
  - destruct (Z.eqb_spec nx 0) as [->|_]; [|eapply (IH h sz nx S1); [done|cbn in Hf; lia]].
    exfalso. destruct S1 as [|[d dl] S1]; cbn in HC; destruct HC as (E & nx' & HS' & _);
      destruct (so_base _ _ _ _ _ HS') as (B1 & _); slab_lia.
Qed.

Lemma init_free_list_spec n : forall h hdr (prev_obj cur : Z) sz,
  let loc := if prev_obj =? 0 then hdr + FREE_LIST else prev_obj in
  8 <= sz -> 0 < cur -> loc < cur -> cur + Z.of_nat n * sz < 4294967296 -> (0 < n)%nat \/ prev_obj <> 0 ->
  exists m', init_free_list n hdr prev_obj cur sz h = Some (tt, with_kmem m' h) /\
    flist m' loc (objs_from n cur sz) /\
    forall a, a <> loc -> a ∉ objs_from n cur sz -> m' !! a = kmem h !! a.
Proof.
  induction n as [|n IH]; intros h hdr prev_obj cur sz loc Hs Hc Hl Hw Hn; cbn [init_free_list objs_from].
  - destruct Hn as [|Hp]; [lia|]. unfold loc. apply Z.eqb_neq in Hp. rewrite Hp.
    exists (<[prev_obj := 0]> (kmem h)). split_and!; [done| |].
    + cbn. by rewrite lookup_insert_eq.
    + intros a N1 _. by rewrite lookup_insert_ne.
  - set (h1 := with_kmem (<[loc := cur]> (kmem h)) h).
    assert (E1 : (if prev_obj =? 0 then store (hdr + FREE_LIST) cur else store prev_obj cur) h = Some (tt, h1))
      by (unfold h1, loc; by destruct (prev_obj =? 0)).
    rewrite (bind_some _ _ _ _ _ E1). rewrite u32_small by lia.
    assert (Ec : (cur =? 0) = false) by (apply Z.eqb_neq; lia).
    destruct (IH h1 hdr cur (cur + sz) sz) as (m' & E2 & HF & Hsame); rewrite ?Ec; try lia.
    rewrite Ec in HF, Hsame. exists m'. split_and!; [done| |].
    + split; [|done]. rewrite Hsame; [by unfold h1; rewrite kmem_with, lookup_insert_eq|lia|].
      intros (i & Hi & E)%elem_objs_from. nia.
    + intros a N1 N2. rewrite Hsame; [|set_solver..]. unfold h1. by rewrite kmem_with, lookup_insert_ne.
Qed.

(** A chain grows by a slab linked behind its last one. *)
Lemma chain_snoc m m' sz first S1 b fl nb (ofl : list Z) :
  size_ok sz -> NoDup (S1 ++ [(b, fl)]).*1 -> chain m sz first (S1 ++ [(b, fl)]) ->
  m' !! (b + NEXT_SLAB) = Some nb ->
  (forall c a, c ∈ (S1 ++ [(b, fl)]).*1 -> c <= a < c + SLAB_BYTES -> a <> b + NEXT_SLAB -> m' !! a = m !! a) ->
  slab_ok m' sz nb 0 ofl -> chain m' sz first ((S1 ++ [(b, fl)]) ++ [(nb, ofl)]).
Proof.
  intros Hs ND HC Eb Hsame HN. revert first ND HC Hsame. induction S1 as [|[c gl] S1 IH]; intros first ND HC Hsame; cbn in *.
  - destruct HC as (-> & nx & HS & _). split; [done|]. exists nb. split; [|by split; [|exists 0]].
    pose proof HS as [HB H1 H2 H3 H4 H5 H6 HL HSo HO].
    assert (Hb : b ∈ [b]) by constructor.
    constructor; try done; try (rewrite (Hsame b) by (exact Hb || slab_lia); done).
    revert HL. apply flist_frame. intros a [->|Ha]; apply (Hsame b); try exact Hb; try slab_lia.
    all: rewrite Forall_forall in HO; apply HO in Ha; apply (is_obj_range b sz a Hs) in Ha; unfold size_ok in Hs; slab_lia.
  - destruct HC as (-> & nx & HS & HC). apply NoDup_cons in ND as [Hc ND].
    assert (HB : base_ok b) by (eapply chain_base; [exact HC|]; rewrite fmap_app; set_solver).
    split; [done|]. exists nx. split.
    + eapply slab_frame; [done| |done]. intros a Ha. apply (Hsame c); [set_solver|done|]. intros ->.
      apply Hc. rewrite (base_apart c b (b + NEXT_SLAB)) by (done || apply HS || slab_lia). rewrite fmap_app. set_solver.
    + apply IH; [done|done|]. intros d a Hd. apply Hsame. by right.
Qed.

End Walks.
