(* ===== verification/SlabSpec.v ===== *)
(** * Correctness of the kernel heap

    [heap_rep h G A] relates the kernel heap to the slabs [G] of its caches and
    the page blocks [A] it draws from.  An object of a slab that is not on the
    slab's free list is live; [kmalloc] makes one more object live, [kfree] one
    less, and neither touches the contents of the others. *)

From stdpp Require Import base numbers list gmap sorting.
From Stdlib Require Import ZArith Lia Znumtheory.
From S2P Require Import Prelude PageDefs Blocks Palloc PageSource Slab SlabInv.

#[local] Open Scope Z_scope.

(** ** Adding a slab to a cache *)

Section Frame.
  Context {P : Type} `{PageSource P}.

  Implicit Types (h : heap P) (m : gmap Z Z) (sz b : Z).

(** Kernel memory after the header of a new slab is written. *)
Definition header_mem b sz m : gmap Z Z :=
  <[b + NEXT_SLAB := 0]> (<[b + FREE_COUNT := nobj sz]> (<[b + OBJECT_SIZE := sz]>
  (<[b + OBJECT_COUNT := nobj sz]> (<[b + END_ADDR := b + SLAB_BYTES]>
  (<[b + START_ADDR := b + SIZEOF_HEADER]> (<[b + PAGE_ORDER := SLAB_DEFAULT_ORDER]> m)))))).

Lemma header_mem_out b sz m a : ~ (b <= a < b + SIZEOF_HEADER) -> header_mem b sz m !! a = m !! a.
Proof. intros Ha. unfold header_mem. rewrite !lookup_insert_ne by slab_lia. done. Qed.

(** The new slab with its list of all objects, whatever else was stored outside
    its header. *)
Lemma new_slab_ok b sz m m' :
  size_ok sz -> base_ok b ->
  (forall a, b <= a < b + SIZEOF_HEADER -> a <> b + FREE_LIST -> m' !! a = header_mem b sz m !! a) ->
  flist m' (b + FREE_LIST) (all_objs b sz) -> slab_ok m' sz b 0 (all_objs b sz).
Proof.
  intros Hs HB Hm HL. destruct (nobj_bound sz Hs) as [Hn _]. unfold size_ok in Hs.
  assert (Hlk : forall o v, 0 <= o < SIZEOF_HEADER -> o <> FREE_LIST -> header_mem b sz m !! (b + o) = Some v ->
    m' !! (b + o) = Some v).
  { intros o v Ho Hne E. rewrite Hm by lia. done. }
  constructor; try done.
  1-6: apply Hlk; [slab_lia|slab_lia|]; unfold header_mem;
    repeat (rewrite lookup_insert_ne by slab_lia); rewrite lookup_insert_eq; rewrite ?length_objs_from; try done.
  - unfold all_objs. rewrite length_objs_from. f_equal. lia.
  - apply sorted_objs_from. lia.
  - apply Forall_forall. intros x Hx. by apply elem_all_objs in Hx.
Qed.

(** The seven stores of the header. *)
Lemma header_stores {X} h b sz (k : unit -> ST (heap P) X) :
  base_ok b ->
  (store (b + PAGE_ORDER) SLAB_DEFAULT_ORDER ;;
   store (b + START_ADDR) (u32 (b + SIZEOF_HEADER)) ;;
   store (b + END_ADDR) (u32 (b + Z.shiftl 1 SLAB_DEFAULT_ORDER * PAGE_SIZE)) ;;
   store (b + OBJECT_COUNT) ((Z.shiftl 1 SLAB_DEFAULT_ORDER * PAGE_SIZE - SIZEOF_HEADER) / sz) ;;
   store (b + OBJECT_SIZE) sz ;;
   store (b + FREE_COUNT) ((Z.shiftl 1 SLAB_DEFAULT_ORDER * PAGE_SIZE - SIZEOF_HEADER) / sz) ;;
   r <- store (b + NEXT_SLAB) 0 ;; k r)%st h
  = k tt (with_kmem (header_mem b sz (kmem h)) h).
Proof.
  intros (B1 & B2 & _). change (Z.shiftl 1 SLAB_DEFAULT_ORDER * PAGE_SIZE) with SLAB_BYTES.
  rewrite (u32_small (b + SIZEOF_HEADER)), (u32_small (b + SLAB_BYTES)) by slab_lia.
  unfold bind, store, modify. cbn. reflexivity.
Qed.

Lemma get_cache_some h c k : caches h !! c = Some k -> get_cache c h = Some (k, h).
Proof. unfold get_cache. by intros ->. Qed.

(** Linking the new slab from the cache or from its last slab. *)
Lemma link_spec h c k sz S b :
  caches h !! c = Some k -> object_size k = sz -> size_ok sz ->
  chain (kmem h) sz (first_slab k) S -> NoDup S.*1 -> base_ok b -> b ∉ S.*1 ->
  exists m2 k2,
    (if first_slab k =? 0 then set_cache c (SlabCache (object_size k) (total_size k) (alloc_count k) b)
     else fuel <- gets walk_fuel ;; link_walk fuel (first_slab k) b)%st h
      = Some (tt, Heap m2 (<[c := k2]> (caches h)) (source h)) /\
    object_size k2 = sz /\
    (forall a, (forall d, d ∈ S.*1 -> a <> d + NEXT_SLAB) -> m2 !! a = kmem h !! a) /\
    (forall m3, (forall a, ~ (b <= a < b + SLAB_BYTES) -> m3 !! a = m2 !! a) -> slab_ok m3 sz b 0 (all_objs b sz) ->
       chain m3 sz (first_slab k2) (S ++ [(b, all_objs b sz)])).
Proof.
  intros Ec Esz Hs HC ND HB Hb. destruct S as [|[d fl] S1 _] using rev_ind.
  - cbn in HC. rewrite HC. eexists _, _. split; [done|]. cbn. split_and!; try done.
    intros m3 _ HS. split; [done|]. by exists 0.
  - assert (HD : base_ok d) by (eapply chain_base; [exact HC|]; rewrite fmap_app; set_solver).
    assert (Hdb : d <> b) by (intros ->; apply Hb; rewrite fmap_app; set_solver).
    assert (Hf : first_slab k <> 0).
    { assert (base_ok (first_slab k)) as (B1 & _); [|slab_lia].
      destruct S1 as [|[e el] S1]; cbn in HC; destruct HC as (-> & nx & HS & _); apply HS. }
    apply Z.eqb_neq in Hf. rewrite Hf. exists (<[d + NEXT_SLAB := b]> (kmem h)), k. split_and!; [|done| |].
    + unfold gets. unfold bind at 1. rewrite (link_walk_spec _ h sz _ S1 d fl b HC).
      * unfold with_kmem. by rewrite list_insert_id.
      * pose proof (chain_fuel h sz _ _ HC ND) as HF. rewrite length_app in HF. cbn in HF. lia.
    + intros a Ha. rewrite lookup_insert_ne; [done|]. intros <-. apply (Ha d); [rewrite fmap_app; set_solver|done].
    + intros m3 Hm3 HS3. apply (chain_snoc (kmem h)); try done.
      * rewrite Hm3, lookup_insert_eq; [done|]. intros Ha. apply Hdb. apply (base_apart d b (d + NEXT_SLAB)); try done. slab_lia.
      * intros e a He Ha Hne. rewrite Hm3; [by rewrite lookup_insert_ne|]. intros Ha'. apply Hb.
        rewrite (base_apart b e a); try done. by eapply chain_base.
Qed.

(** A new frame is apart from the slabs of the cache, so that its header does not
    disturb them. *)
Lemma new_frame_apart m sz first S b : size_ok sz -> chain m sz first S -> base_ok b -> b ∉ S.*1 ->
  (forall d a, d ∈ S.*1 -> d <= a < d + SLAB_BYTES -> ~ (b <= a < b + SLAB_BYTES)) /\ chain (header_mem b sz m) sz first S.
Proof.
  intros Hs HC HB Hb. assert (Hout : forall d a, d ∈ S.*1 -> d <= a < d + SLAB_BYTES -> ~ (b <= a < b + SLAB_BYTES)).
  { intros d a Hd Ha Ha'. apply Hb. rewrite (base_apart b d a); try done. by eapply chain_base. }
  split; [exact Hout|]. eapply chain_frame; [done| |exact HC]. intros d Hd a Ha. apply header_mem_out. specialize (Hout d a Hd Ha). unfold size_ok in Hs. destruct HB as (B1 & B2 & _). slab_lia.
Qed.

Lemma add_frame_spec h c k sz S p s' :
  caches h !! c = Some k -> object_size k = sz -> size_ok sz ->
  chain (kmem h) sz (first_slab k) S -> NoDup S.*1 ->
  take_page SLAB_DEFAULT_ORDER h = Some (Some p, Heap (kmem h) (caches h) s') ->
  let b := PHY_TO_VIR (PFN_TO_PA p) in
  base_ok b -> b ∉ S.*1 ->
  exists m' k', slab_add_cache_frame c h = Some (tt, Heap m' (<[c := k']> (caches h)) s') /\
    object_size k' = sz /\ chain m' sz (first_slab k') (S ++ [(b, all_objs b sz)]) /\
    forall a, ~ (b <= a < b + SLAB_BYTES) -> (forall d, d ∈ S.*1 -> a <> d + NEXT_SLAB) -> m' !! a = kmem h !! a.
Proof.
  intros Ec Esz Hs HC ND Et b HB Hb. destruct (nobj_bound sz Hs) as [Hn Hn2].
  pose proof HB as (B1 & B2 & _). assert (Hs' := Hs). unfold size_ok in Hs'.
  assert (Hlen : (c < length (caches h))%nat) by by eapply lookup_lt_Some.
  set (k1 := SlabCache sz (u32 (total_size k + Z.shiftl 1 SLAB_DEFAULT_ORDER * PAGE_SIZE))
     (u32 (alloc_count k + Z.shiftl 1 SLAB_DEFAULT_ORDER)) (first_slab k)).
  set (m1 := header_mem b sz (kmem h)). set (h1 := Heap m1 (<[c := k1]> (caches h)) s').
  assert (Ek1 : caches h1 !! c = Some k1) by by apply list_lookup_insert_eq.
  destruct (new_frame_apart _ _ _ _ b Hs HC HB Hb) as [Hout HC1].
  destruct (link_spec h1 c k1 sz S b Ek1 eq_refl Hs HC1 ND HB Hb) as (m2 & k2 & E2 & Es2 & Hm2 & HC2).
  assert (Hm2b : forall a, b <= a < b + SLAB_BYTES -> m2 !! a = m1 !! a).
  { intros a Ha. apply Hm2. intros d Hd ->. by apply (Hout d (d + NEXT_SLAB) Hd); [slab_lia|]. }
  set (h2 := Heap m2 (<[c := k2]> (caches h)) s').
  assert (E2' : (if first_slab k1 =? 0 then set_cache c (SlabCache (object_size k1) (total_size k1) (alloc_count k1) b)
     else fuel <- gets walk_fuel ;; link_walk fuel (first_slab k1) b)%st h1 = Some (tt, h2)).
  { rewrite E2. unfold h2, h1. cbn [caches source]. by rewrite list_insert_insert_eq. }
  assert (Ws : forall o v, 0 <= o < SLAB_BYTES -> m1 !! (b + o) = Some v -> kmem h2 !! (b + o) = Some v).
  { intros o v Ho E. cbn. rewrite Hm2b by lia. done. }
  destruct (init_free_list_spec (Z.to_nat (nobj sz)) h2 b 0 (b + SIZEOF_HEADER) sz) as (m3 & E3 & HF3 & Hm3);
    cbn [Z.eqb]; try slab_lia.
  change (0 =? 0) with true in HF3, Hm3. cbv iota in HF3, Hm3.
  assert (Hobj : forall a, a ∈ all_objs b sz -> b + SIZEOF_HEADER <= a < b + SLAB_BYTES).
  { intros a Ha. apply elem_all_objs in Ha; [|done]. apply (is_obj_range b sz a Hs) in Ha. lia. }
  exists m3, k2. split_and!; [|done| |].
  - unfold slab_add_cache_frame. st_step Et. cbv iota.
    erewrite bind_some by (apply get_cache_some; exact Ec). rewrite Esz. cbv zeta. fold b.
    rewrite header_stores by done.
    change (with_kmem (header_mem b sz (kmem (Heap (kmem h) (caches h) s'))) (Heap (kmem h) (caches h) s'))
      with (Heap m1 (caches h) s').
    erewrite (bind_some (set_cache c _)) by reflexivity. fold k1.
    change (with_caches (<[c := k1]> (caches (Heap m1 (caches h) s'))) (Heap m1 (caches h) s')) with h1.
    st_step (get_cache_some h1 c k1 Ek1). st_step E2'.
    do 2 (erewrite bind_some by (apply load_some, Ws; [slab_lia|unfold m1, header_mem;
      repeat (rewrite lookup_insert_ne by slab_lia); by rewrite lookup_insert_eq])).
    exact E3.
  - apply HC2.
    + intros a Ha. apply Hm3; [slab_lia|]. intros Hin%Hobj. slab_lia.
    + apply (new_slab_ok b sz (kmem h)); [done|done| |exact HF3]. intros a Ha Hne. rewrite Hm3; [|done|].
      * apply Hm2b. slab_lia.
      * intros Hin%Hobj. slab_lia.
  - intros a Ha Hd. rewrite Hm3; [|slab_lia|intros Hin%Hobj; slab_lia]. cbn [kmem h2]. rewrite Hm2 by done.
    apply header_mem_out. slab_lia.
Qed.

End Frame.

(** ** The whole heap *)

Definition sizes : list Z := [8; 16; 32; 64; 128; 256; 512; 1024; 2048; 4096; 8192; 16384; 32768].

Implicit Types (G : list (list (Z * list Z))) (S : list (Z * list Z)) (A : gset (Z * Z)).

(** The base addresses of all slabs. *)
Definition bases G : list Z := (concat G).*1.

(** [x] is an allocated object of cache [i]. *)
Definition live G (i : nat) (x : Z) : Prop :=
  exists S sz b fl, G !! i = Some S /\ sizes !! i = Some sz /\ (b, fl) ∈ S /\ is_obj b sz x /\ x ∉ fl.

Record heap_rep {P} `{PageSource P} (h : heap P) G A : Prop := HeapRep {
  hr_caches : length (caches h) = 13%nat;
  hr_slabs : length G = 13%nat;
  hr_chain : forall i k S sz, caches h !! i = Some k -> G !! i = Some S -> sizes !! i = Some sz ->
    object_size k = sz /\ chain (kmem h) sz (first_slab k) S;
  hr_nodup : NoDup (bases G);
  hr_pages : forall b, b ∈ bases G -> exists p, (p, SLAB_DEFAULT_ORDER) ∈ A /\ b = KERNEL_START_VIRT + p * 4096;
  hr_source : ps_rep (source h) A
}.

Lemma sizes_ok i sz : sizes !! i = Some sz -> size_ok sz.
Proof.
  intros E. apply list_elem_of_lookup_2 in E. unfold size_ok, sizes in *. rewrite !elem_of_cons in E.
  destruct E as [->|[->|[->|[->|[->|[->|[->|[->|[->|[->|[->|[->|[->|E]]]]]]]]]]]]]; [lia..|set_solver].
Qed.

Lemma bases_split G i S S' :
  G !! i = Some S ->
  exists l1 l2, bases G = l1 ++ S.*1 ++ l2 /\ bases (<[i := S']> G) = l1 ++ S'.*1 ++ l2.
Proof.
  intros E. exists (bases (take i G)), (bases (drop (Datatypes.S i) G)).
  assert (Hlt : (i < length G)%nat) by by eapply lookup_lt_Some.
  unfold bases. rewrite insert_take_drop by done. rewrite <- (take_drop_middle G i S E) at 1.
  rewrite !concat_app. cbn [concat]. rewrite !fmap_app. done.
Qed.

Lemma bases_elem G i S b : G !! i = Some S -> b ∈ S.*1 -> b ∈ bases G.
Proof. intros E Hb. destruct (bases_split G i S S E) as (l1 & l2 & -> & _). set_solver. Qed.

Lemma bases_nodup G i S : G !! i = Some S -> NoDup (bases G) -> NoDup S.*1.
Proof.
  intros E ND. destruct (bases_split G i S S E) as (l1 & l2 & EB & _). rewrite EB in ND.
  apply NoDup_app in ND as (_ & _ & ND). by apply NoDup_app in ND as (ND & _ & _).
Qed.

Lemma bases_other G i j S S' b :
  G !! i = Some S -> G !! j = Some S' -> i <> j -> NoDup (bases G) -> b ∈ S.*1 -> b ∉ S'.*1.
Proof.
  intros Ei Ej Hij ND Hb Hb'. destruct (bases_split G i S [] Ei) as (l1 & l2 & EB & EB').
  assert (Hj : <[i := []]> G !! j = Some S') by by rewrite list_lookup_insert_ne.
  pose proof (bases_elem _ _ _ _ Hj Hb') as Hin. rewrite EB' in Hin. rewrite EB in ND.
  apply NoDup_app in ND as (_ & D1 & ND). apply NoDup_app in ND as (_ & D2 & _).
  cbn in Hin. apply elem_of_app in Hin as [Hin|Hin]; [apply (D1 b Hin); set_solver|by apply (D2 b Hb)].
Qed.

(** The same base is the same slab. *)
Lemma slab_unique S b fl gl : NoDup S.*1 -> (b, fl) ∈ S -> (b, gl) ∈ S -> fl = gl.
Proof.
  intros ND H1 H2. induction S as [|[c hl] S IH]; [set_solver|]. cbn in ND. apply NoDup_cons in ND as [Hc ND].
  apply elem_of_cons in H1 as [E1|H1]; apply elem_of_cons in H2 as [E2|H2]; simplify_eq; try done.
  - exfalso. apply Hc. apply list_elem_of_fmap. by exists (c, gl).
  - exfalso. apply Hc. apply list_elem_of_fmap. by exists (c, fl).
  - auto.
Qed.

Section Heap.
  Context {P : Type} `{PageSource P}.

  Implicit Types (h : heap P).

Lemma page_base s A p : ps_rep s A -> (p, SLAB_DEFAULT_ORDER) ∈ A ->
  base_ok (KERNEL_START_VIRT + p * 4096) /\ PHY_TO_VIR (PFN_TO_PA p) = KERNEL_START_VIRT + p * 4096.
Proof.
  intros HR Hp. destruct (ps_range s A (p, SLAB_DEFAULT_ORDER) HR Hp) as ((H0 & _ & [q Hq]) & Hr).
  cbn [fst snd] in *. unfold LINEAR_FRAMES, SLAB_DEFAULT_ORDER in *. change (2 ^ 4) with 16 in *.
  assert (0 <= p < 1048576) by lia. split.
  - unfold base_ok. split_and!; [slab_lia|slab_lia|]. exists (q + 49152). slab_lia.
  - rewrite PFN_TO_PA_eq by done. unfold PHY_TO_VIR. rewrite u32_small; slab_lia.
Qed.

Lemma heap_base h G A b : heap_rep h G A -> b ∈ bases G -> base_ok b.
Proof.
  intros HR Hb. destruct (hr_pages _ _ _ HR b Hb) as (p & Hp & ->). by eapply page_base, Hp; apply HR.
Qed.

(** One cache changes; every slab outside it keeps its words. *)
Lemma heap_update h G A i k S sz m' k' S' s' A' :
  heap_rep h G A -> caches h !! i = Some k -> G !! i = Some S -> sizes !! i = Some sz ->
  object_size k' = sz -> chain m' sz (first_slab k') S' ->
  (forall b, b ∈ bases G -> b ∉ S.*1 -> agree_on (kmem h) m' b) ->
  NoDup (bases (<[i := S']> G)) ->
  (forall b, b ∈ S'.*1 -> b ∈ S.*1 \/ exists p, (p, SLAB_DEFAULT_ORDER) ∈ A' /\ b = KERNEL_START_VIRT + p * 4096) ->
  A ⊆ A' -> ps_rep s' A' ->
  heap_rep (Heap m' (<[i := k']> (caches h)) s') (<[i := S']> G) A'.
Proof.
  intros HR Ek EG Esz Eo HC Hag ND Hb HA Hs. pose proof HR as [H1 H2 H3 H4 H5 H6]. constructor; cbn; try done.
  - by rewrite length_insert.
  - by rewrite length_insert.
  - intros j kj Sj szj Ekj EGj Eszj. destruct (decide (i = j)) as [<-|Hij].
    + rewrite list_lookup_insert_eq in Ekj by (by eapply lookup_lt_Some).
      rewrite list_lookup_insert_eq in EGj by (by eapply lookup_lt_Some).
      injection Ekj as <-. injection EGj as <-. assert (szj = sz) as -> by congruence. done.
    + rewrite list_lookup_insert_ne in Ekj by done. rewrite list_lookup_insert_ne in EGj by done. destruct (H3 j kj Sj szj Ekj EGj Eszj) as [Ho HCj].
      split; [done|]. eapply chain_frame; [by eapply sizes_ok| |done]. intros b Hbj. apply Hag.
      * by eapply bases_elem.
      * eapply (bases_other G j i); try done; congruence.
  - intros b HbG. destruct (bases_split G i S S' EG) as (l1 & l2 & EB & EB'). rewrite EB' in HbG.
    assert (Hold : b ∈ bases G -> exists p, (p, SLAB_DEFAULT_ORDER) ∈ A' /\ b = KERNEL_START_VIRT + p * 4096).
    { intros HbG'. destruct (H5 b HbG') as (p & Hp & ->). exists p. split; [by apply HA|done]. }
    rewrite EB in Hold. rewrite !elem_of_app in *. destruct HbG as [?|[HbS|?]]; [by auto| |by auto].
    destruct (Hb b HbS); auto.
Qed.

(** The contents of a live object lie in its slab's object area. *)
Lemma live_area h G A i x sz a :
  heap_rep h G A -> live G i x -> sizes !! i = Some sz -> x <= a < x + sz ->
  exists b, b ∈ bases G /\ base_ok b /\ b + SIZEOF_HEADER <= a < b + SLAB_BYTES.
Proof.
  intros HR (S & sz' & b & fl & EG & Esz & HS & Hx & _) Esz' Ha. assert (sz' = sz) as -> by congruence.
  assert (Hb : b ∈ bases G).
  { eapply bases_elem; [exact EG|]. apply list_elem_of_fmap. by exists (b, fl). }
  exists b. split_and!; [done|by eapply heap_base| |];
    destruct (is_obj_range b sz x (sizes_ok _ _ Esz) Hx); lia.
Qed.

Lemma area_not_header b d a o :
  base_ok b -> base_ok d -> b + SIZEOF_HEADER <= a < b + SLAB_BYTES -> 0 <= o < SIZEOF_HEADER -> a <> d + o.
Proof.
  intros HB HD Ha Ho ->. assert (b = d) as -> by (apply (base_apart b d (d + o)); try done; slab_lia). slab_lia.
Qed.

Lemma cache_facts h G A i :
  heap_rep h G A -> (i < 13)%nat ->
  exists k S sz, caches h !! i = Some k /\ G !! i = Some S /\ sizes !! i = Some sz /\ size_ok sz /\
    object_size k = sz /\ chain (kmem h) sz (first_slab k) S /\ NoDup S.*1.
Proof.
  intros HR Hi. pose proof HR as [H1 H2 H3 H4 _ _].
  destruct (lookup_lt_is_Some_2 (caches h) i) as [k Ek]; [lia|].
  destruct (lookup_lt_is_Some_2 G i) as [S EG]; [lia|].
  destruct (lookup_lt_is_Some_2 sizes i) as [sz Esz]; [exact Hi|].
  destruct (H3 i k S sz Ek EG Esz) as [Ho HC]. exists k, S, sz. split_and!; try done.
  - by eapply sizes_ok.
  - by eapply bases_nodup.
Qed.

Lemma bases_same_fst G i S S' : G !! i = Some S -> S'.*1 = S.*1 -> bases (<[i := S']> G) = bases G.
Proof. intros E E'. destruct (bases_split G i S S' E) as (l1 & l2 & -> & ->). by rewrite E'. Qed.

(** Taking [x] off the free list of its slab makes exactly [x] live. *)
Lemma live_swap G i S1 b fl fl' S2 sz x :
  G !! i = Some (S1 ++ (b, fl) :: S2) -> sizes !! i = Some sz -> is_obj b sz x ->
  (forall y, y ∈ fl <-> y = x \/ y ∈ fl') -> x ∉ fl' ->
  NoDup (S1 ++ (b, fl) :: S2).*1 -> (forall c, c ∈ (S1 ++ (b, fl) :: S2).*1 -> base_ok c) ->
  (forall j y, live (<[i := S1 ++ (b, fl') :: S2]> G) j y <-> live G j y \/ (j = i /\ y = x)) /\ ~ live G i x.
Proof.
  intros EG Esz Hx Hfl Hx' ND HB. assert (Hlt : (i < length G)%nat) by by eapply lookup_lt_Some.
  assert (Hin : (b, fl) ∈ S1 ++ (b, fl) :: S2) by set_solver.
  split.
  - intros j y. unfold live. split.
    + intros (S & szj & c & gl & E & Eszj & HS & Hy & Hn). destruct (decide (i = j)) as [<-|Hij].
      * rewrite list_lookup_insert_eq in E by done. injection E as <-. assert (szj = sz) as -> by congruence.
        destruct (decide ((c, gl) ∈ S1 ++ S2)) as [HS'|HS'].
        { left. exists (S1 ++ (b, fl) :: S2), sz, c, gl. split_and!; try done. set_solver. }
        assert (E : (c, gl) = (b, fl')) by set_solver. injection E as -> ->.
        destruct (decide (y = x)) as [->|Hyx]; [by right|]. left.
        exists (S1 ++ (b, fl) :: S2), sz, b, fl. split_and!; try done. rewrite Hfl. tauto.
      * rewrite list_lookup_insert_ne in E by done. left. by exists S, szj, c, gl.
    + intros [(S & szj & c & gl & E & Eszj & HS & Hy & Hn)|[-> ->]].
      * destruct (decide (i = j)) as [<-|Hij]; [|exists S, szj, c, gl; by rewrite list_lookup_insert_ne].
        rewrite EG in E. injection E as <-. assert (szj = sz) as -> by congruence.
        rewrite list_lookup_insert_eq by done.
        destruct (decide ((c, gl) ∈ S1 ++ S2)) as [HS'|HS'].
        { eexists _, sz, c, gl. split_and!; try done. set_solver. }
        assert (E : (c, gl) = (b, fl)) by set_solver. injection E as -> ->.
        eexists _, sz, b, fl'. split_and!; try done; [set_solver|]. intros Hf. apply Hn, Hfl. by right.
      * eexists _, sz, b, fl'. rewrite list_lookup_insert_eq by done. split_and!; try done. set_solver.
  - intros (S & szj & c & gl & E & Eszj & HS & Hy & Hn). rewrite EG in E. injection E as <-.
    assert (szj = sz) as -> by congruence. pose proof (sizes_ok _ _ Esz) as Hs.
    assert (Hf : forall d dl, (d, dl) ∈ S1 ++ (b, fl) :: S2 -> base_ok d).
    { intros d dl Hd. apply HB. apply list_elem_of_fmap. by exists (d, dl). }
    assert (c = b) as ->.
    { destruct (is_obj_range b sz x Hs Hx), (is_obj_range c sz x Hs Hy). unfold size_ok in Hs.
      apply (base_apart c b x); [by eapply Hf|by eapply Hf|slab_lia|slab_lia]. }
    rewrite (slab_unique _ b gl fl ND HS Hin) in Hn. apply Hn, Hfl. by left.
Qed.

(** ** Allocation and freeing in one cache *)

(** The step from [h] to [h'] makes object [x] of cache [i] live and keeps the
    contents of the live ones. *)
Definition made_live h h' G G' (i : nat) (x : Z) : Prop :=
  (forall j y, live G' j y <-> live G j y \/ (j = i /\ y = x)) /\ ~ live G i x /\
  (forall j y sz a, live G j y -> sizes !! j = Some sz -> y <= a < y + sz -> kmem h' !! a = kmem h !! a).

(** Only words of the slabs of [G] may differ. *)
Definition slab_word G (a : Z) : Prop := exists b, b ∈ bases G /\ b <= a < b + SLAB_BYTES.

Definition slabs_only h h' G : Prop := forall a, ~ slab_word G a -> kmem h' !! a = kmem h !! a.

(** The step from [h] to [h'] takes at most one more slab, at frame [p], from the
    page source, and changes no word outside the slabs. *)
Definition grown h h' G G' A A' : Prop :=
  (bases G' = bases G /\ A' = A /\ source h' = source h \/
   exists p, bases G' ≡ₚ (KERNEL_START_VIRT + p * 4096) :: bases G /\ A' = A ∪ {[(p, SLAB_DEFAULT_ORDER)]} /\
     ps_alloc SLAB_DEFAULT_ORDER (source h) = Some (Some p, source h')) /\
  slabs_only h h' G'.

Lemma alloc_from_cache_heap h G A i S :
  heap_rep h G A -> (i < 13)%nat -> G !! i = Some S ->
  (exists x h' G', slab_alloc_from_cache i h = Some (x, h') /\ x <> 0 /\ heap_rep h' G' A /\
     made_live h h' G G' i x /\ bases G' = bases G /\ source h' = source h /\ slabs_only h h' G) \/
  (slab_alloc_from_cache i h = Some (0, h) /\ forall b fl, (b, fl) ∈ S -> fl = []).
Proof.
  intros HR Hi EG. destruct (cache_facts h G A i HR Hi) as (k & S' & sz & Ek & EG' & Esz & Hs & Eo & HC & ND).
  rewrite EG in EG'. injection EG' as <-.
  assert (HBs : forall c, c ∈ S.*1 -> base_ok c) by (intros c Hc; eapply heap_base; [done|by eapply bases_elem]).
  assert (Erun : forall r h', alloc_walk (walk_fuel h) (first_slab k) h = Some (r, h') -> slab_alloc_from_cache i h = Some (r, h')).
  { intros r h' E. unfold slab_alloc_from_cache. erewrite bind_some by (apply get_cache_some; exact Ek). exact E. }
  destruct (alloc_walk_spec (walk_fuel h) h sz (first_slab k) S Hs HC ND (chain_fuel h sz _ S HC ND))
    as [(S1 & b & x & fl & S2 & m' & -> & E & HC' & Hsame)|[E HE]]; [left|right; split; [by apply Erun|done]].
  destruct (chain_app _ _ _ _ _ _ _ HC) as (nx & HS & _). pose proof (so_objs _ _ _ _ _ HS) as HO.
  pose proof (so_sorted _ _ _ _ _ HS) as HSo. apply Forall_cons in HO as [Hx _].
  assert (HBb : base_ok b) by (apply HBs; rewrite fmap_app, fmap_cons; set_solver).
  destruct (is_obj_range b sz x Hs Hx) as [R1 _]. pose proof HBb as (B1 & _).
  destruct (live_swap G i S1 b (x :: fl) fl S2 sz x EG Esz Hx) as [HL HN]; try done; [set_solver| |].
  { apply sorted_nodup in HSo. by apply NoDup_cons in HSo as [? _]. }
  exists x, (with_kmem m' h), (<[i := S1 ++ (b, fl) :: S2]> G). split_and!; [by apply Erun|slab_lia| | | |done|].
  4:{ intros a Ha. cbn. apply Hsame; intros ->; apply Ha; exists b;
      (split; [eapply bases_elem; [exact EG|]; rewrite fmap_app, fmap_cons; set_solver|slab_lia]). }
  3:{ apply (bases_same_fst G i _ _ EG). by rewrite !fmap_app. }
  - assert (with_kmem m' h = Heap m' (<[i := k]> (caches h)) (source h)) as -> by (unfold with_kmem; by rewrite list_insert_id).
    eapply heap_update; [exact HR|exact Ek|exact EG|exact Esz|done|exact HC'| | | |done|apply HR].
    + intros c Hc Hc' a Ha. assert (HBc : base_ok c) by by eapply heap_base.
      assert (Hbc : b <> c) by (intros ->; apply Hc'; rewrite fmap_app, fmap_cons; set_solver).
      apply Hsame; intros ->; apply Hbc; eapply base_apart; try done; slab_lia.
    + rewrite (bases_same_fst G i _ _ EG) by (by rewrite !fmap_app). apply HR.
    + intros c Hc. left. by rewrite !fmap_app in *.
  - split_and!; [exact HL|exact HN|]. intros j y szj a Hlv Eszj Ha. destruct (live_area h G A j y szj a HR Hlv Eszj Ha) as (c & _ & HBc & Hac).
    cbn. apply Hsame; eapply area_not_header; try done; slab_lia.
Qed.

(** The contents of the live objects are the same in both heaps. *)
Definition same_contents h h' G : Prop :=
  forall j y sz a, live G j y -> sizes !! j = Some sz -> y <= a < y + sz -> kmem h' !! a = kmem h !! a.

Lemma live_new_slab G i S b sz :
  G !! i = Some S -> sizes !! i = Some sz -> forall j y, live (<[i := S ++ [(b, all_objs b sz)]]> G) j y <-> live G j y.
Proof.
  intros EG Esz j y. assert (Hlt : (i < length G)%nat) by by eapply lookup_lt_Some. unfold live. split.
  - intros (S' & szj & c & gl & E & Eszj & HS & Hy & Hn). destruct (decide (i = j)) as [<-|Hij].
    + rewrite list_lookup_insert_eq in E by done. injection E as <-. assert (szj = sz) as -> by congruence.
      apply elem_of_app in HS as [HS|HS]; [by exists S, sz, c, gl|]. apply list_elem_of_singleton in HS as [= -> ->].
      exfalso. apply Hn. apply elem_all_objs; [by eapply sizes_ok|done].
    + rewrite list_lookup_insert_ne in E by done. by exists S', szj, c, gl.
  - intros (S' & szj & c & gl & E & Eszj & HS & Hy & Hn). destruct (decide (i = j)) as [<-|Hij].
    + rewrite EG in E. injection E as <-. eexists _, szj, c, gl. rewrite list_lookup_insert_eq by done.
      split_and!; try done. set_solver.
    + exists S', szj, c, gl. by rewrite list_lookup_insert_ne.
Qed.

Lemma add_frame_heap h G A i S :
  heap_rep h G A -> (i < 13)%nat -> G !! i = Some S ->
  (exists s', ps_alloc SLAB_DEFAULT_ORDER (source h) = Some (None, s') /\
     slab_add_cache_frame i h = Some (tt, Heap (kmem h) (caches h) s') /\ heap_rep (Heap (kmem h) (caches h) s') G A) \/
  (exists h' A' b sz, slab_add_cache_frame i h = Some (tt, h') /\ sizes !! i = Some sz /\
     heap_rep h' (<[i := S ++ [(b, all_objs b sz)]]> G) A' /\ same_contents h h' G /\
     grown h h' G (<[i := S ++ [(b, all_objs b sz)]]> G) A A').
Proof.
  intros HR Hi EG. destruct (cache_facts h G A i HR Hi) as (k & S' & sz & Ek & EG' & Esz & Hs & Eo & HC & ND).
  rewrite EG in EG'. injection EG' as <-.
  destruct (ps_alloc_spec (source h) A SLAB_DEFAULT_ORDER (hr_source _ _ _ HR)) as [(p & s' & E & Hrep & Hfresh & Hal & Hr)|(s' & E & Hrep)];
    [unfold SLAB_DEFAULT_ORDER, ORDER_MAX; lia| |].
  2:{ left. exists s'. split; [done|]. split.
      - unfold slab_add_cache_frame. erewrite bind_some by (unfold take_page; rewrite E; done). done.
      - destruct HR. by constructor. }
  right. assert (Hp : (p, SLAB_DEFAULT_ORDER) ∈ A ∪ {[(p, SLAB_DEFAULT_ORDER)]}) by set_solver.
  destruct (page_base s' _ p Hrep Hp) as [HB Eb]. set (b := KERNEL_START_VIRT + p * 4096) in *.
  assert (Hnew : b ∉ bases G).
  { intros Hb. destruct (hr_pages _ _ _ HR b Hb) as (q & Hq & Eq). assert (q = p) as -> by (unfold b in Eq; lia).
    apply (Hfresh (p, SLAB_DEFAULT_ORDER) p Hq); apply inb_head; unfold SLAB_DEFAULT_ORDER; lia. }
  destruct (add_frame_spec h i k sz S p s' Ek Eo Hs HC ND) as (m' & k' & Ea & Eo' & HC' & Hsame).
  { unfold take_page. by rewrite E. }
  { by rewrite Eb. }
  { rewrite Eb. intros Hb. apply Hnew. by eapply bases_elem. }
  rewrite Eb in HC', Hsame. exists (Heap m' (<[i := k']> (caches h)) s'), (A ∪ {[(p, SLAB_DEFAULT_ORDER)]}), b, sz.
  assert (HBs : forall c, c ∈ bases G -> base_ok c) by (intros; by eapply heap_base).
  assert (EP : bases (<[i := S ++ [(b, all_objs b sz)]]> G) ≡ₚ b :: bases G).
  { destruct (bases_split G i S (S ++ [(b, all_objs b sz)]) EG) as (l1 & l2 & -> & ->). rewrite fmap_app. cbn [fmap list_fmap fst]. solve_Permutation. }
  split_and!; [done|done| | |].
  3:{ split; [right; by exists p|]. intros a Ha. cbn. apply Hsame.
      - intros Ha'. apply Ha. exists b. split; [rewrite EP; set_solver|done].
      - intros d Hd ->. apply Ha. exists d. split; [rewrite EP; apply elem_of_cons; right; by eapply bases_elem|slab_lia]. }
  - eapply heap_update; [exact HR|exact Ek|exact EG|exact Esz|done|exact HC'| | | |set_solver|done].
    + intros c Hc Hc' a Ha. apply Hsame.
      * intros Ha'. apply Hnew. rewrite (base_apart b c a); try done. by apply HBs.
      * intros d Hd ->. apply Hc'. assert (base_ok d) by (apply HBs; by eapply bases_elem).
        rewrite (base_apart c d (d + NEXT_SLAB)); try done; [by apply HBs|slab_lia].
    + rewrite EP. constructor; [done|]. apply HR.
    + intros c. rewrite fmap_app. intros [Hc|Hc]%elem_of_app; [by left|]. apply list_elem_of_singleton in Hc as ->.
      right. exists p. split; [set_solver|done].
  - intros j y szj a Hlv Eszj Ha. destruct (live_area h G A j y szj a HR Hlv Eszj Ha) as (c & Hc & HBc & Hac).
    cbn. apply Hsame.
    + intros Ha'. apply Hnew. rewrite (base_apart b c a); try done. slab_lia.
    + intros d Hd. eapply area_not_header; [exact HBc|apply HBs; by eapply bases_elem|done|slab_lia].
Qed.

(** [slab_malloc] makes a fresh object live, or fails because the page allocator
    did, leaving slabs and memory as they were. *)
Lemma slab_malloc_heap h G A i :
  heap_rep h G A -> (i < 13)%nat ->
  (exists x h' G' A', slab_malloc i h = Some (x, h') /\ x <> 0 /\ heap_rep h' G' A' /\ made_live h h' G G' i x /\
     grown h h' G G' A A') \/
  (exists s', slab_malloc i h = Some (0, Heap (kmem h) (caches h) s') /\
     ps_alloc SLAB_DEFAULT_ORDER (source h) = Some (None, s') /\ heap_rep (Heap (kmem h) (caches h) s') G A).
Proof.
  intros HR Hi. destruct (cache_facts h G A i HR Hi) as (k & S & sz & Ek & EG & Esz & Hs & _).
  unfold slab_malloc. destruct (alloc_from_cache_heap h G A i S HR Hi EG) as [(x & h' & G' & E & Hx & HR' & HL & EB & Es & Ho)|[E HE]];
    rewrite (bind_some _ _ _ _ _ E); cbn beta.
  - left. exists x, h', G', A. apply Z.eqb_neq in Hx as Hx'. rewrite Hx'. split_and!; try done. split; [by left|]. unfold slabs_only, slab_word in *. by rewrite EB.
  - change (negb (0 =? 0)) with false. cbv iota.
    destruct (add_frame_heap h G A i S HR Hi EG) as [(s' & Ep & Ea & HR')|(h1 & A1 & b & sz' & Ea & Esz' & HR1 & Hsame & Hgr & Hfr)];
      rewrite (bind_some _ _ _ _ _ Ea); cbn beta.
    + right. exists s'. destruct (alloc_from_cache_heap _ G A i S HR' Hi EG) as [(x & h' & G' & E' & Hx & _)|[E' _]].
      * exfalso. clear E Ea. destruct (cache_facts _ G A i HR' Hi) as (k' & S' & sz1 & Ek' & EG' & _ & Hs' & _ & HC' & ND').
        rewrite EG in EG'. injection EG' as <-.
        destruct (alloc_walk_spec (walk_fuel (Heap (kmem h) (caches h) s')) _ sz1 _ S Hs' HC' ND' (chain_fuel _ _ _ _ HC' ND'))
          as [(S1 & b & y & fl & S2 & m' & -> & _)|[E2 _]].
        -- assert (Hin : (b, y :: fl) ∈ S1 ++ (b, y :: fl) :: S2) by set_solver. by apply HE in Hin.
        -- unfold slab_alloc_from_cache in E'. erewrite bind_some in E' by (apply get_cache_some; exact Ek').
           unfold bind, gets in E'. rewrite E2 in E'. congruence.
      * rewrite (bind_some _ _ _ _ _ E'). done.
    + left. assert (Hlt : (i < length G)%nat) by by eapply lookup_lt_Some.
      assert (EG1 : <[i := S ++ [(b, all_objs b sz')]]> G !! i = Some (S ++ [(b, all_objs b sz')])) by by apply list_lookup_insert_eq.
      destruct (alloc_from_cache_heap h1 _ A1 i _ HR1 Hi EG1) as [(x & h' & G' & E' & Hx & HR' & (HL1 & HL2 & HL3) & EB & Es & Ho)|[_ HE']].
      * rewrite (bind_some _ _ _ _ _ E'). apply Z.eqb_neq in Hx as Hx'. rewrite Hx'. exists x, h', G', A1.
        pose proof (live_new_slab G i S b sz' EG Esz') as HLn. split_and!; try done.
        2:{ split; [rewrite EB, Es; exact Hgr|]. intros a Ha. unfold slabs_only, slab_word in *. rewrite EB in Ha. by rewrite (Ho a Ha), (Hfr a Ha). }
        split_and!.
        -- intros j y. rewrite HL1, HLn. done.
        -- rewrite <- HLn. done.
        -- intros j y szj a Hlv Eszj Ha. rewrite (HL3 j y szj a), (Hsame j y szj a); try done. by apply HLn.
      * exfalso. assert (Hin : (b, all_objs b sz') ∈ S ++ [(b, all_objs b sz')]) by set_solver. apply HE' in Hin.
        pose proof (sizes_ok _ _ Esz') as Hs'. destruct (nobj_bound sz' Hs') as [Hn _].
        assert (Hlen : length (all_objs b sz') = Z.to_nat (nobj sz')) by apply length_objs_from. rewrite Hin in Hlen. cbn in Hlen. lia.
Qed.

(** ** Freeing *)

Lemma live_split G i x : live G i x ->
  exists S1 b fl S2 sz, G !! i = Some (S1 ++ (b, fl) :: S2) /\ sizes !! i = Some sz /\ is_obj b sz x /\ x ∉ fl.
Proof.
  intros (S & sz & b & fl & EG & Esz & HS & Hx & Hn). apply list_elem_of_split in HS as (S1 & S2 & ->).
  by exists S1, b, fl, S2, sz.
Qed.

(** A word of a live object [y] is no link or object start of another object. *)
Lemma live_word_apart h G A i b sz fl S1 S2 j y szj a z :
  heap_rep h G A -> G !! i = Some (S1 ++ (b, fl) :: S2) -> sizes !! i = Some sz ->
  live G j y -> sizes !! j = Some szj -> y <= a < y + szj ->
  is_obj b sz z -> (j, y) <> (i, z) -> a <> z.
Proof.
  intros HR EG Esz (S & szj' & c & gl & EGj & Eszj' & HS & Hy & Hn) Eszj Ha Hz Hne ->.
  assert (szj' = szj) as -> by congruence. pose proof (sizes_ok _ _ Esz) as Hs. pose proof (sizes_ok _ _ Eszj) as Hsj.
  assert (Hcm : c ∈ S.*1) by (apply list_elem_of_fmap; by exists (c, gl)).
  assert (Hbm : b ∈ (S1 ++ (b, fl) :: S2).*1) by (rewrite fmap_app, fmap_cons; set_solver).
  assert (HBc : base_ok c) by exact (heap_base h G A c HR (bases_elem G j S c EGj Hcm)).
  assert (HBb : base_ok b) by exact (heap_base h G A b HR (bases_elem G i _ b EG Hbm)).
  destruct (is_obj_range b sz z Hs Hz), (is_obj_range c szj y Hsj Hy). unfold size_ok in *.
  assert (c = b) as -> by (apply (base_apart c b z); [done|done|slab_lia|slab_lia]).
  destruct (decide (i = j)) as [<-|Hij].
  - assert (szj = sz) as -> by congruence. apply Hne. f_equal.
    destruct (Z.lt_trichotomy y z) as [Hlt|[?|Hlt]]; [|done|].
    + pose proof (is_obj_apart b sz y z Hs Hy Hz Hlt). lia.
    + lia.
  - exfalso. eapply (bases_other G j i); [exact EGj|exact EG|congruence|apply HR|exact Hcm|exact Hbm].
Qed.

(** An object on a free list is not live. *)
Lemma free_not_live h G A i S1 b fl S2 sz a : heap_rep h G A -> G !! i = Some (S1 ++ (b, fl) :: S2) -> sizes !! i = Some sz -> size_ok sz ->
  NoDup (S1 ++ (b, fl) :: S2).*1 -> is_obj b sz a -> a ∈ fl -> ~ live G i a.
Proof using.
  intros HR EG Esz Hs ND HO Hin Hlv. destruct (live_split G i a Hlv) as (T1 & c & gl & T2 & sz' & EG2 & Esz' & Hob & Hng).
  rewrite EG in EG2. injection EG2 as EG2. assert (sz' = sz) as -> by congruence.
  destruct (is_obj_range b sz a Hs HO), (is_obj_range c sz a Hs Hob). unfold size_ok in Hs.
  assert (Hbase : forall d, d ∈ (S1 ++ (b, fl) :: S2).*1 -> base_ok d) by (intros d Hd; eapply heap_base; [exact HR|by eapply bases_elem]).
  assert (Hbm : b ∈ (S1 ++ (b, fl) :: S2).*1) by (rewrite fmap_app, fmap_cons; set_solver).
  assert (Hcm : c ∈ (S1 ++ (b, fl) :: S2).*1) by (rewrite EG2, fmap_app, fmap_cons; set_solver).
  assert (c = b) as -> by (apply (base_apart c b a); [by apply Hbase|by apply Hbase|slab_lia|slab_lia]).
  apply Hng. rewrite (slab_unique (S1 ++ (b, fl) :: S2) b gl fl ND); [done|rewrite EG2; set_solver|set_solver].
Qed.

Lemma slab_free_heap h G A i x :
  heap_rep h G A -> (i < 13)%nat -> live G i x ->
  exists h' G', slab_free i x h = Some (E_SUCCESS, h') /\ heap_rep h' G' A /\
    (forall j y, live G j y <-> live G' j y \/ (j = i /\ y = x)) /\ ~ live G' i x /\
    (forall j y sz a, live G' j y -> sizes !! j = Some sz -> y <= a < y + sz -> kmem h' !! a = kmem h !! a).
Proof.
  intros HR Hi HLx. destruct (live_split G i x HLx) as (S1 & b & fl & S2 & sz & EG & Esz & Hx & Hn).
  destruct (cache_facts h G A i HR Hi) as (k & S' & sz' & Ek & EG' & Esz' & Hs & Eo & HC & ND).
  rewrite EG in EG'. injection EG' as <-. assert (sz' = sz) as -> by congruence. clear Esz'.
  assert (HBs : forall c, c ∈ bases G -> base_ok c) by (intros; by eapply heap_base).
  assert (Hbm : b ∈ (S1 ++ (b, fl) :: S2).*1) by (rewrite fmap_app, fmap_cons; set_solver).
  assert (HBb : base_ok b) by (apply HBs; by eapply bases_elem).
  destruct (free_walk_spec (walk_fuel h) h sz (first_slab k) S1 b fl S2 x Hs HC ND Hx Hn) as (m' & E & HC' & Hsame).
  { pose proof (chain_fuel h sz _ _ HC ND) as HF. rewrite length_app in HF. lia. }
  destruct (chain_app _ _ _ _ _ _ _ HC) as (nx & HS & _). pose proof (so_objs _ _ _ _ _ HS) as HO. rewrite Forall_forall in HO.
  set (S' := S1 ++ (b, sinsert x fl) :: S2). assert (Hlt : (i < length G)%nat) by by eapply lookup_lt_Some.
  assert (EG' : <[i := S']> G !! i = Some S') by by apply list_lookup_insert_eq.
  assert (ES : S'.*1 = (S1 ++ (b, fl) :: S2).*1) by (unfold S'; by rewrite !fmap_app).
  destruct (live_swap (<[i := S']> G) i S1 b (sinsert x fl) fl S2 sz x EG' Esz Hx) as [HL HN].
  { intros y. apply elem_sinsert. }
  { done. }
  { fold S'. by rewrite ES. }
  { fold S'. rewrite ES. intros c Hc. apply HBs. by eapply bases_elem. }
  rewrite list_insert_insert_eq, list_insert_id in HL by done.
  exists (with_kmem m' h), (<[i := S']> G). split_and!; [| |exact HL|exact HN|].
  - unfold slab_free. erewrite bind_some by (apply get_cache_some; exact Ek). exact E.
  - assert (with_kmem m' h = Heap m' (<[i := k]> (caches h)) (source h)) as -> by (unfold with_kmem; by rewrite list_insert_id).
    eapply heap_update; [exact HR|exact Ek|exact EG|exact Esz|done|exact HC'| | | |done|apply HR].
    + intros c Hc Hc' a Ha. assert (HBc := HBs c Hc). assert (Hbc : b <> c) by (intros ->; done).
      assert (Hout : ~ (b <= a < b + SLAB_BYTES)) by (intros Ha'; apply Hbc; by eapply base_apart).
      destruct (is_obj_range b sz x Hs Hx). unfold size_ok in Hs.
      apply Hsame; [slab_lia| |slab_lia|slab_lia]. intros Hin. apply HO in Hin. apply (is_obj_range b sz a) in Hin; [slab_lia|done].
    + rewrite (bases_same_fst G i _ _ EG) by done. apply HR.
    + intros c Hc. left. by rewrite <- ES.
  - intros j y szj a Hlv Eszj Ha. assert (Hlv0 : live G j y) by (apply HL; by left).
    destruct (live_area h G A j y szj a HR Hlv0 Eszj Ha) as (c & _ & HBc & Hac). cbn. apply Hsame.
    + eapply (live_word_apart h G A i b sz fl S1 S2 j y szj); try done. intros [= -> ->]. done.
    + intros Hin. eapply (live_word_apart h G A i b sz fl S1 S2 j y szj a a); try done; [by apply HO|].
      intros [= -> ->]. by apply (free_not_live h G A i S1 b fl S2 sz a HR EG Esz Hs ND (HO a Hin) Hin).
    + eapply area_not_header; try done; slab_lia.
    + eapply area_not_header; try done; slab_lia.
Qed.

End Heap.
