(* ===== verification/HeapClaims.v ===== *)
(** * Theorems about kmalloc and kfree

    Stated for any page source; the witnesses run them on the buddy allocator
    of the small machine of PageClaims.v. *)

From stdpp Require Import base numbers list gmap sorting.
From Stdlib Require Import ZArith Lia Znumtheory.
From S2P Require Import Prelude PageDefs Blocks Palloc PageAlloc PageSource PageClaims Slab SlabInv SlabSpec.

#[local] Open Scope Z_scope.

Section Claims.
  Context {P : Type} `{PageSource P}.

  Implicit Types (h : heap P) (G : list (list (Z * list Z))) (A : gset (Z * Z)).

(** The cache [kmalloc] serves a request from. *)
Definition cache_for (size : Z) (i : nat) : Prop :=
  exists sz, sizes !! i = Some sz /\ size <= sz /\ forall j sz', (j < i)%nat -> sizes !! j = Some sz' -> sz' < size.

Lemma kmalloc_from_spec n : forall h G A i size,
  heap_rep h G A -> (n + i = 13)%nat -> (forall j sz', (j < i)%nat -> sizes !! j = Some sz' -> sz' < size) ->
  (exists j, cache_for size j /\ (j < 13)%nat /\ kmalloc_from n i size h = slab_malloc j h) \/
  (kmalloc_from n i size h = Some (0, h) /\ forall j sz', sizes !! j = Some sz' -> sz' < size).
Proof.
  induction n as [|n IH]; intros h G A i size HR Hn Hlow; cbn [kmalloc_from].
  - right. split; [done|]. intros j sz' E. apply (Hlow j sz'); [|done]. assert (i = 13%nat) as -> by lia.
    by apply lookup_lt_Some in E.
  - destruct (cache_facts h G A i HR ltac:(lia)) as (k & S & sz & Ek & EG & Esz & _ & Eo & _).
    erewrite bind_some by (apply get_cache_some; exact Ek). rewrite Eo.
    destruct (Z.leb_spec size sz) as [Hle|Hgt].
    + left. exists i. split; [|split; [lia|done]]. by exists sz.
    + destruct (IH h G A (Datatypes.S i) size HR ltac:(lia)) as [(j & Hc & Hj & E)|[E HN]]; [|left; by exists j|by right].
      intros j sz' Hj Ej. destruct (decide (j = i)) as [->|]; [congruence|]. apply (Hlow j); [lia|done].
Qed.

Lemma live_index G i x : live G i x -> (i < 13)%nat.
Proof. intros (S & sz & b & fl & _ & Esz & _). by apply lookup_lt_Some in Esz. Qed.

(** An object's address is found in its own cache only. *)
Lemma in_slabs_live h G A i j S x :
  heap_rep h G A -> live G i x -> G !! j = Some S -> in_slabs S x = bool_decide (j = i).
Proof.
  intros HR HL EGj. destruct (live_split G i x HL) as (S1 & b & fl & S2 & sz & EG & Esz & Hx & Hn).
  pose proof (sizes_ok _ _ Esz) as Hs. destruct (is_obj_range b sz x Hs Hx) as [R1 R2]. unfold size_ok in Hs.
  assert (Hbm : b ∈ (S1 ++ (b, fl) :: S2).*1) by (rewrite fmap_app, fmap_cons; set_solver).
  assert (HBb := heap_base h G A b HR (bases_elem G i _ b EG Hbm)).
  destruct (bool_decide_reflect (j = i)) as [->|Hne].
  - rewrite EG in EGj. injection EGj as <-. unfold in_slabs. apply existsb_exists. exists (b, fl).
    split; [apply list_elem_of_In; set_solver|]. cbn. apply andb_true_iff. split; [by apply Z.leb_le|apply Z.ltb_lt; lia].
  - apply not_true_iff_false. intros (q & Hq & Ht)%existsb_exists. apply list_elem_of_In in Hq.
    apply andb_true_iff in Ht as [Ht1%Z.leb_le Ht2%Z.ltb_lt]. destruct q as [c gl]. cbn in *.
    assert (Hcm : c ∈ S.*1) by (apply list_elem_of_fmap; by exists (c, gl)).
    assert (HBc := heap_base h G A c HR (bases_elem G j S c EGj Hcm)).
    assert (c = b) as -> by (apply (base_apart c b x); [done|done|slab_lia|slab_lia]).
    by apply (bases_other G j i S _ b EGj EG Hne (hr_nodup _ _ _ HR) Hcm).
Qed.

Lemma has_addr_heap h G A i S x :
  heap_rep h G A -> (i < 13)%nat -> G !! i = Some S -> slab_cache_has_addr i x h = Some (in_slabs S x, h).
Proof.
  intros HR Hi EG. destruct (cache_facts h G A i HR Hi) as (k & S' & sz & Ek & EG' & _ & _ & _ & HC & ND).
  rewrite EG in EG'. injection EG' as <-. unfold slab_cache_has_addr.
  erewrite bind_some by (apply get_cache_some; exact Ek). unfold bind, gets.
  apply (has_addr_spec _ h sz); [done|by eapply chain_fuel].
Qed.

Lemma kfree_from_live n : forall h G A i c x,
  heap_rep h G A -> (n + i = 13)%nat -> (i <= c)%nat -> live G c x ->
  kfree_from n i x h = (slab_free c x ;; ret E_SUCCESS)%st h.
Proof.
  induction n as [|n IH]; intros h G A i c x HR Hn Hic HL; pose proof (live_index G c x HL) as Hc; [lia|].
  cbn [kfree_from]. destruct (cache_facts h G A i HR ltac:(lia)) as (k & S & sz & Ek & EG & _).
  erewrite bind_some by (eapply has_addr_heap; [exact HR|lia|exact EG]).
  rewrite (in_slabs_live h G A c i S x HR HL EG). destruct (bool_decide_reflect (i = c)) as [->|Hne]; [done|].
  apply (IH h G A); try done; lia.
Qed.

Lemma kfree_from_unknown n : forall h G A i x,
  heap_rep h G A -> (n + i = 13)%nat -> (forall j S, G !! j = Some S -> in_slabs S x = false) ->
  kfree_from n i x h = Some (E_ERROR, h).
Proof.
  induction n as [|n IH]; intros h G A i x HR Hn Hx; [done|].
  cbn [kfree_from]. destruct (cache_facts h G A i HR ltac:(lia)) as (k & S & sz & Ek & EG & _).
  erewrite bind_some by (eapply has_addr_heap; [exact HR|lia|exact EG]). rewrite (Hx i S EG).
  apply (IH h G A); try done; lia.
Qed.

(** Two live objects never share a byte. *)
Lemma live_disjoint h G A i j x y szi szj a :
  heap_rep h G A -> live G i x -> live G j y -> sizes !! i = Some szi -> sizes !! j = Some szj ->
  x <= a < x + szi -> y <= a < y + szj -> i = j /\ x = y.
Proof.
  intros HR HLx HLy Ei Ej Ha Ha'.
  destruct (live_split G i x HLx) as (S1 & b & fl & S2 & sz & EG & Esz & Hx & Hn).
  destruct (live_split G j y HLy) as (T1 & c & gl & T2 & sz' & EG' & Esz' & Hy & Hn').
  assert (sz = szi) as -> by congruence. assert (sz' = szj) as -> by congruence.
  pose proof (sizes_ok _ _ Ei) as Hsi. pose proof (sizes_ok _ _ Ej) as Hsj.
  destruct (is_obj_range b szi x Hsi Hx), (is_obj_range c szj y Hsj Hy). unfold size_ok in *.
  assert (Hbm : b ∈ (S1 ++ (b, fl) :: S2).*1) by (rewrite fmap_app, fmap_cons; set_solver).
  assert (Hcm : c ∈ (T1 ++ (c, gl) :: T2).*1) by (rewrite fmap_app, fmap_cons; set_solver).
  assert (HBb := heap_base h G A b HR (bases_elem G i _ b EG Hbm)).
  assert (HBc := heap_base h G A c HR (bases_elem G j _ c EG' Hcm)).
  assert (c = b) as -> by (apply (base_apart c b a); [done|done|slab_lia|slab_lia]).
  destruct (decide (i = j)) as [<-|Hij].
  - split; [done|]. assert (szj = szi) as -> by congruence.
    destruct (Z.lt_trichotomy x y) as [Hlt|[?|Hlt]]; [|done|].
    + pose proof (is_obj_apart b szi x y Hsi Hx Hy Hlt). lia.
    + pose proof (is_obj_apart b szi y x Hsi Hy Hx Hlt). lia.
  - exfalso. by apply (bases_other G i j _ _ b EG EG' Hij (hr_nodup _ _ _ HR) Hbm).
Qed.

(** The heap before the first allocation. *)
Definition empty_heap (s : P) : heap P := Heap ∅ slab_caches s.

Lemma empty_heap_rep s A : ps_rep s A -> heap_rep (empty_heap s) (replicate 13 []) A.
Proof.
  intros HR. constructor; try done.
  - intros i k S sz Ek EG Esz. apply (lookup_replicate_1 13) in EG as [-> _].
    unfold empty_heap, slab_caches in Ek. cbn [caches] in Ek. rewrite list_lookup_fmap in Ek. fold sizes in Ek.
    rewrite Esz in Ek. cbn in Ek. injection Ek as <-. done.
  - cbn. constructor.
  - cbn. set_solver.
Qed.

Lemma kmalloc_grows h G A size :
  heap_rep h G A -> size <= 32768 ->
  (exists x h' G' A' i, kmalloc size h = Some (x, h') /\ x <> 0 /\ heap_rep h' G' A' /\ cache_for size i /\
     made_live h h' G G' i x /\ grown h h' G G' A A') \/
  (exists s', kmalloc size h = Some (0, Heap (kmem h) (caches h) s') /\
     ps_alloc SLAB_DEFAULT_ORDER (source h) = Some (None, s') /\ heap_rep (Heap (kmem h) (caches h) s') G A).
Proof.
  intros HR Hs. destruct (kmalloc_from_spec 13 h G A 0 size HR eq_refl ltac:(lia)) as [(i & Hc & Hi & E)|[_ HN]].
  - unfold kmalloc. rewrite E. destruct (slab_malloc_heap h G A i HR Hi) as [(x & h' & G' & A' & E' & Hx & HR' & HL)|HF]; [left|by right].
    exists x, h', G', A', i. done.
  - exfalso. specialize (HN 12%nat 32768 eq_refl). lia.
Qed.

Lemma kmalloc_spec h G A size :
  heap_rep h G A -> size <= 32768 ->
  (exists x h' G' A' i, kmalloc size h = Some (x, h') /\ x <> 0 /\ heap_rep h' G' A' /\ cache_for size i /\
     made_live h h' G G' i x) \/
  (exists s', kmalloc size h = Some (0, Heap (kmem h) (caches h) s') /\
     ps_alloc SLAB_DEFAULT_ORDER (source h) = Some (None, s') /\ heap_rep (Heap (kmem h) (caches h) s') G A).
Proof.
  intros HR Hs. destruct (kmalloc_grows h G A size HR Hs) as [(x & h' & G' & A' & i & E & Hx & HR' & Hc & HL & _)|HF]; [left|by right].
  by exists x, h', G', A', i.
Qed.

(** C14: kmalloc.  A request of at most 32 KiB returns an object of the smallest
    cache that fits it, which was not allocated, overlaps no allocated object
    and becomes the one additional allocated object, with the contents of all
    others untouched; or NULL, and only when the page allocator has no page
    block left, with the heap unchanged. *)
Theorem kmalloc_correct h G A (size : Z) :
  heap_rep h G A -> size <= 32768 ->
  (exists x h' G' A' i sz, kmalloc size h = Some (x, h') /\ x <> 0 /\ heap_rep h' G' A' /\
     cache_for size i /\ sizes !! i = Some sz /\ size <= sz /\
     (forall j y, live G' j y <-> live G j y \/ (j = i /\ y = x)) /\
     (forall j y szj a, live G j y -> sizes !! j = Some szj -> y <= a < y + szj ->
        ~ (x <= a < x + sz) /\ kmem h' !! a = kmem h !! a)) \/
  (exists s', kmalloc size h = Some (0, Heap (kmem h) (caches h) s') /\
     ps_alloc SLAB_DEFAULT_ORDER (source h) = Some (None, s') /\ heap_rep (Heap (kmem h) (caches h) s') G A).
Proof.
  intros HR Hs. destruct (kmalloc_spec h G A size HR Hs) as [(x & h' & G' & A' & i & E & Hx & HR' & Hc & HL & HN & HC)|HF]; [left|by right].
  pose proof Hc as (sz & Esz & Hle & _). exists x, h', G', A', i, sz. split_and!; try done.
  intros j y szj a Hlv Ej Ha. split; [|by eapply HC]. intros Ha'.
  destruct (live_disjoint h' G' A' i j x y sz szj a HR') as [-> ->]; try done; apply HL; auto.
Qed.

(** C15: kfree.  Freeing an allocated object removes exactly it from the
    allocated objects, keeps the heap well formed and leaves the contents of
    every other allocated object untouched. *)
Theorem kfree_correct h G A (i : nat) (x : Z) :
  heap_rep h G A -> live G i x ->
  exists h' G', kfree x h = Some (E_SUCCESS, h') /\ heap_rep h' G' A /\
    (forall j y, live G' j y <-> live G j y /\ ~ (j = i /\ y = x)) /\
    (forall j y szj a, live G' j y -> sizes !! j = Some szj -> y <= a < y + szj -> kmem h' !! a = kmem h !! a).
Proof.
  intros HR HL. pose proof (live_index G i x HL) as Hi.
  destruct (slab_free_heap h G A i x HR Hi HL) as (h' & G' & E & HR' & HL1 & HN & HC).
  exists h', G'. split_and!; [|done| |done].
  - unfold kfree. rewrite (kfree_from_live 13 h G A 0 i x HR eq_refl ltac:(lia) HL). by rewrite (bind_some _ _ _ _ _ E).
  - intros j y. rewrite HL1. split; [|tauto]. intros Hlv. split; [by left|]. intros [-> ->]. done.
Qed.

(** Freeing what kmalloc just returned brings back the previous set of
    allocated objects. *)
Theorem kmalloc_kfree_roundtrip h G A (size x : Z) h1 :
  heap_rep h G A -> size <= 32768 -> kmalloc size h = Some (x, h1) -> x <> 0 ->
  exists h2 G2 A2, kfree x h1 = Some (E_SUCCESS, h2) /\ heap_rep h2 G2 A2 /\ forall j y, live G2 j y <-> live G j y.
Proof.
  intros HR Hs E Hx. destruct (kmalloc_spec h G A size HR Hs) as [(x' & h' & G' & A' & i & E' & _ & HR' & _ & HL & HN & _)|(s' & E' & _)];
    rewrite E in E'; injection E' as -> ->; [|done].
  assert (Hlv : live G' i x') by (apply HL; auto). pose proof (live_index G' i x' Hlv) as Hi.
  destruct (slab_free_heap h' G' A' i x' HR' Hi Hlv) as (h2 & G2 & E2 & HR2 & HL2 & HN2 & _).
  exists h2, G2, A'. split_and!; [|done|].
  - unfold kfree. rewrite (kfree_from_live 13 h' G' A' 0 i x' HR' eq_refl ltac:(lia) Hlv). by rewrite (bind_some _ _ _ _ _ E2).
  - intros j y. specialize (HL2 j y). specialize (HL j y). split.
    + intros Hlv2. assert (live G j y \/ j = i /\ y = x') as [?|[-> ->]] by (apply HL, HL2; by left); done.
    + intros Hlv0. assert (live G2 j y \/ j = i /\ y = x') as [?|[-> ->]] by (apply HL2, HL; by left); done.
Qed.

(** The requests the heap turns away: more than the largest cache holds, and
    freeing an address in no slab's object area.  Both leave it unchanged. *)
Theorem heap_requests_rejected h G A (size x : Z) :
  heap_rep h G A -> 32768 < size -> (forall j S, G !! j = Some S -> in_slabs S x = false) ->
  kmalloc size h = Some (0, h) /\ kfree x h = Some (E_ERROR, h).
Proof.
  intros HR Hs Hx. split; [|by apply (kfree_from_unknown 13 h G A)].
  destruct (kmalloc_from_spec 13 h G A 0 size HR eq_refl ltac:(lia)) as [(i & (sz & Esz & Hle & _) & _)|[E _]]; [|done].
  pose proof (sizes_ok _ _ Esz) as Hok. unfold size_ok in Hok. lia.
Qed.

End Claims.

(** ** On the small machine *)

#[local] Instance source64 : PageSource buddy := buddy_source KS64 KE64.

Definition heap64 : heap buddy := empty_heap machine64.

Lemma machine64_source : ps_rep machine64 ∅.
Proof.
  destruct machine64_ok as [F HA]. split; [|by exists F]. vm_compute. discriminate.
Qed.

Lemma heap64_rep : heap_rep heap64 (replicate 13 []) ∅.
Proof. apply empty_heap_rep. exact machine64_source. Qed.

(** The object the small machine returns for a first request of 100 bytes. *)
Lemma heap64_first : (fst <$> kmalloc 100 heap64) = Some 0xC0020028.
Proof. vm_compute. reflexivity. Qed.

Lemma kmalloc_correct_witness : exists h' G' A' i, kmalloc 100 heap64 = Some (0xC0020028, h') /\
  heap_rep h' G' A' /\ live G' i 0xC0020028.
Proof.
  pose proof heap64_first as Hf.
  destruct (kmalloc_correct heap64 (replicate 13 []) ∅ 100 heap64_rep) as [(x & h' & G' & A' & i & sz & E & Hx & HR & _ & _ & _ & HL & _)|(s' & E & _)].
  - lia.
  - rewrite E in Hf. cbn in Hf. injection Hf as ->. exists h', G', A', i. split; [exact E|]. split; [exact HR|]. apply HL. right. split; reflexivity.
  - rewrite E in Hf. cbn in Hf. discriminate Hf.
Defined.

(** A heap with one allocated object. *)
Lemma heap64_live : exists h G A i, kmalloc 100 heap64 = Some (0xC0020028, h) /\ heap_rep h G A /\ live G i 0xC0020028.
Proof.
  pose proof heap64_first as Hf.
  destruct (kmalloc_spec heap64 (replicate 13 []) ∅ 100 heap64_rep) as [(x & h' & G' & A' & i & E & Hx & HR & _ & HL & _)|(s' & E & _)].
  - lia.
  - rewrite E in Hf. cbn in Hf. injection Hf as ->. exists h', G', A', i. split; [exact E|]. split; [exact HR|]. apply HL. right. split; reflexivity.
  - rewrite E in Hf. cbn in Hf. discriminate Hf.
Qed.

Lemma kfree_correct_witness : exists h h' G' A i, kmalloc 100 heap64 = Some (0xC0020028, h) /\
  kfree 0xC0020028 h = Some (E_SUCCESS, h') /\ heap_rep h' G' A /\ ~ live G' i 0xC0020028.
Proof.
  destruct heap64_live as (h & G & A & i & E & HR & HL).
  destruct (kfree_correct h G A i 0xC0020028 HR HL) as (h' & G' & E' & HR' & HL' & _).
  exists h, h', G', A, i. split; [exact E|]. split; [exact E'|]. split; [exact HR'|].
  intros Hlv. apply HL' in Hlv as [_ Hn]. apply Hn. split; reflexivity.
Defined.

Lemma kmalloc_kfree_roundtrip_witness : exists h1 h2, kmalloc 100 heap64 = Some (0xC0020028, h1) /\
  kfree 0xC0020028 h1 = Some (E_SUCCESS, h2).
Proof.
  destruct heap64_live as (h & G & A & i & E & HR & HL).
  destruct (kmalloc_kfree_roundtrip heap64 (replicate 13 []) ∅ 100 0xC0020028 h heap64_rep) as (h2 & G2 & A2 & E2 & _).
  - lia.
  - exact E.
  - lia.
  - exists h, h2. split; [exact E|exact E2].
Defined.

Lemma heap_requests_rejected_witness :
  kmalloc 40000 heap64 = Some (0, heap64) /\ kfree 0x1234 heap64 = Some (E_ERROR, heap64).
Proof.
  apply (heap_requests_rejected heap64 (replicate 13 []) ∅ 40000 0x1234 heap64_rep).
  - lia.
  - intros j S E. apply (lookup_replicate_1 13) in E as [-> _]. reflexivity.
Defined.

(** A double free is not noticed: freeing the same object twice succeeds
    both times and ties the free list into a loop, so that the next two
    requests of its size return the same memory. *)
Theorem double_free_aliases : exists x h,
  (a <- kmalloc 2048 ;; r1 <- kfree a ;; r2 <- kfree a ;; b <- kmalloc 2048 ;; c <- kmalloc 2048 ;;
   ret [r1; r2; b; c])%st heap64 = Some ([E_SUCCESS; E_SUCCESS; x; x], h).
Proof.
  set (run := (a <- kmalloc 2048 ;; r1 <- kfree a ;; r2 <- kfree a ;; b <- kmalloc 2048 ;; c <- kmalloc 2048 ;;
   ret [r1; r2; b; c])%st heap64).
  assert (Hr : (fst <$> run) = Some [E_SUCCESS; E_SUCCESS; 0xC0020028; 0xC0020028]) by (vm_compute; reflexivity).
  destruct run as [[l h]|]; [|discriminate]. cbn in Hr. injection Hr as ->. by exists 0xC0020028, h.
Qed.
