(* ===== verification/Ptable.v ===== *)
(** * Page tables and address spaces (kernel/mm/ptable.c, kernel/mm/vm.c,
      arch/x86/kernel/paging.c)

    Page directories and page tables are 4 KiB pages of 32-bit entries in the
    kernel memory of Slab.v, addressed through the kernel's linear mapping.
    [mmu_walk] is the hardware's own reading of them, written from the x86 rules
    the entries' bit layout encodes, and independent of the code.  The TLB
    invalidation of [ptable_unmap] and the write to CR3 have no counterpart in
    this state. *)

From stdpp Require Import base numbers list gmap.
From Stdlib Require Import ZArith Lia.
From S2P Require Import Prelude LinkedList PageDefs Bootmem Palloc PageSource Slab.

#[local] Open Scope Z_scope.

Definition PTC_SHARE : Z := 0x01.
Definition PTC_COPY : Z := 0x02.
Definition PTC_COW : Z := 0x04.

Definition VM_MAP_READ : Z := 0x01.
Definition VM_MAP_WRITE : Z := 0x02.
Definition VM_MAP_EXEC : Z := 0x04.
Definition VM_MAP_SHARED : Z := 0x08.

(** The address of the entry for [va] in a directory or a table. *)
Definition GET_PDE (pgd va : Z) : Z := pgd + 4 * PAGE_DIRECTORY_INDEX va.

Definition GET_PTE (pgt va : Z) : Z := pgt + 4 * PAGE_TABLE_INDEX va.

Definition PDE_TO_PGT (entry : Z) : Z := PHY_TO_VIR (PAGE_FRAME entry).

Definition PDE_VA (entry : Z) : Z := PHY_TO_VIR (PAGE_FRAME entry).

Definition PTE_PA (entry : Z) : Z := PAGE_FRAME entry.

Definition PTE_VA (entry : Z) : Z := PHY_TO_VIR (PAGE_FRAME entry).

(** ** The hardware's page walk *)

(** The 4 KiB table entry or 4 MiB directory entry that translates [va]. *)
Definition mmu_walk (m : gmap Z Z) (pgd va : Z) : option Z :=
  match m !! GET_PDE pgd va with
  | None => None
  | Some pde =>
      if negb (Z.testbit pde 0) then None
      else if Z.testbit pde 7 then Some pde
      else match m !! GET_PTE (PHY_TO_VIR (pde - pde mod 4096)) va with
           | None => None
           | Some pte => if Z.testbit pte 0 then Some pte else None
           end
  end.

(** The physical address a 4 MiB or 4 KiB entry gives for [va]. *)
Definition mmu_address (m : gmap Z Z) (pgd va : Z) : option Z :=
  match m !! GET_PDE pgd va with
  | Some pde =>
      if negb (Z.testbit pde 0) then None
      else if Z.testbit pde 7 then Some (pde - pde mod 4194304 + va mod 4194304)
      else match mmu_walk m pgd va with
           | Some pte => Some (pte - pte mod 4096 + va mod 4096)
           | None => None
           end
  | None => None
  end.

Section Ptable.
  Context {P : Type} `{PageSource P}.

(** [PAGE_VA(page_alloc(k, PR_KERNEL))]: a NULL page is dereferenced. *)
Definition alloc_frame (k : Z) : ST (heap P) Z := (r <- take_page k ;; deref r)%st.

Definition page_alloc_va0 : ST (heap P) Z := (p <- alloc_frame 0 ;; ret (PHY_TO_VIR (PFN_TO_PA p)))%st.

Definition give_page (p k : Z) : ST (heap P) Z :=
  fun h => match ps_free p k (source h) with
           | Some (r, s) => Some (r, Heap (kmem h) (caches h) s)
           | None => None
           end.

(** [memset(dst, 0, n words)] and [memcpy] by words. *)
Fixpoint clear_words (n : nat) (dst : Z) : ST (heap P) unit :=
  match n with
  | O => ret tt
  | S m => (store dst 0 ;; clear_words m (dst + 4))%st
  end.

Fixpoint copy_words (n : nat) (dst src : Z) : ST (heap P) unit :=
  match n with
  | O => ret tt
  | S m => (w <- load src ;; store dst w ;; copy_words m (dst + 4) (src + 4))%st
  end.

(** ** Page tables *)

Section Kernel.
  (** The address of [kernel_pgd]. *)
  Context (kernel_pgd : Z).

Definition ptable_pgd_new : ST (heap P) Z :=
  (pgd <- page_alloc_va0 ;;
   if pgd =? 0 then ret 0 else
   clear_words 1024 pgd ;;
   copy_words 1024 pgd kernel_pgd ;;
   ret pgd)%st.

End Kernel.

Definition page_free_va_of (va : Z) : ST (heap P) Z := give_page (VA_TO_PFN va) 0.

(** The inner loop of [ptable_pgd_free] over a page table. *)
Fixpoint free_ptes (n : nat) (pte : Z) : ST (heap P) unit :=
  match n with
  | O => ret tt
  | S m =>
      (e <- load pte ;;
       (if negb (PTE_EXISTS e) then ret tt
        else page_free_va_of (PTE_VA e) ;; ret tt) ;;
       free_ptes m (pte + 4))%st
  end.

Fixpoint free_pdes (n : nat) (pde : Z) : ST (heap P) unit :=
  match n with
  | O => ret tt
  | S m =>
      (e <- load pde ;;
       (if negb (PDE_EXISTS e) then ret tt
        else
          (if PDE_IS_HUGE e then ret tt else free_ptes (Z.to_nat PAGE_TABLE_SIZE) (PDE_TO_PGT e)) ;;
          page_free_va_of (PDE_VA e) ;; ret tt) ;;
       free_pdes m (pde + 4))%st
  end.

Definition ptable_pgd_free (pgd : Z) : ST (heap P) unit :=
  (free_pdes (Z.to_nat (PAGE_DIRECTORY_INDEX KERNEL_START_VIRT)) pgd ;;
   page_free_va_of pgd ;;
   ret tt)%st.

Definition ptable_map (pgd virt_addr phys_addr fl : Z) : ST (heap P) unit :=
  (let entry := MAKE_PTE phys_addr (Z.lor PTE_PRESENT PTE_USER) in
   let entry := if TEST_BIT fl VM_MAP_WRITE then PTE_SET_WRITABLE entry else entry in
   let pde := GET_PDE pgd virt_addr in
   e <- load pde ;;
   (if negb (PDE_EXISTS e) then
      p <- alloc_frame 0 ;;
      clear_words 1024 (PHY_TO_VIR (PFN_TO_PA p)) ;;
      store pde (MAKE_PDE (PFN_TO_PA p) (Z.lor PDE_PRESENT (Z.lor PDE_WRITABLE PDE_USER)))
    else ret tt) ;;
   e <- load pde ;;
   store (GET_PTE (PDE_TO_PGT e) virt_addr) entry)%st.

(** [ptable_map_many]: [n] pages left.  Its loop compares an unsigned counter
    with [count], which makes a negative count a huge one. *)
Fixpoint map_many (n : nat) (pgd virt_addr phys_addr fl : Z) : ST (heap P) unit :=
  match n with
  | O => ret tt
  | S m =>
      (ptable_map pgd virt_addr phys_addr fl ;;
       map_many m pgd (u32 (virt_addr + PAGE_SIZE)) (u32 (phys_addr + PAGE_SIZE)) fl)%st
  end.

Definition ptable_map_many (pgd virt_addr phys_addr count fl : Z) : ST (heap P) unit :=
  map_many (Z.to_nat (u32 count)) pgd virt_addr phys_addr fl.

Definition ptable_unmap (pgd virt_addr : Z) (free : bool) : ST (heap P) unit :=
  (e <- load (GET_PDE pgd virt_addr) ;;
   if negb (PDE_EXISTS e) then ret tt else
   let pte := GET_PTE (PDE_TO_PGT e) virt_addr in
   e <- load pte ;;
   (if free then give_page (PA_TO_PFN (PTE_PA e)) 0 ;; ret tt else ret tt) ;;
   e <- load pte ;;
   store pte (pte_clear_address e) ;;
   e <- load pte ;;
   store pte (pte_clear_present e))%st.

Fixpoint unmap_many (n : nat) (pgd virt_addr : Z) (free : bool) : ST (heap P) unit :=
  match n with
  | O => ret tt
  | S m =>
      (ptable_unmap pgd virt_addr free ;;
       unmap_many m pgd (u32 (virt_addr + PAGE_SIZE)) free)%st
  end.

Definition ptable_unmap_many (pgd virt_addr count : Z) (free : bool) : ST (heap P) unit :=
  unmap_many (Z.to_nat count) pgd virt_addr free.

(** [PAGE_INC_USES] on the page at a physical address goes to the page array,
    which the page source owns. *)
Section Copy.
  Context (inc_uses : Z -> ST P unit).

Definition share_page (p : Z) : ST (heap P) unit :=
  fun h => match inc_uses p (source h) with
           | Some (_, s) => Some (tt, Heap (kmem h) (caches h) s)
           | None => None
           end.

(** The inner loop of [ptable_copy_range] over entries [i], ..., [i + n - 1]. *)
Fixpoint copy_ptes (n : nat) (pgt_new pgt_old i fl : Z) : ST (heap P) unit :=
  match n with
  | O => ret tt
  | S m =>
      (e <- load (pgt_old + 4 * i) ;;
       (if negb (PTE_EXISTS e) then ret tt
        else if TEST_BIT fl PTC_SHARE then
          share_page (PA_TO_PFN (PAGE_FRAME (PTE_PA e))) ;;
          store (pgt_new + 4 * i) e
        else if TEST_BIT fl PTC_COPY then
          copied_page <- page_alloc_va0 ;;
          copy_words 1024 copied_page (PTE_VA e) ;;
          store (pgt_new + 4 * i) (MAKE_PTE (VIR_TO_PHY copied_page) (Z.lor PTE_PRESENT PTE_USER))
        else ret tt) ;;
       copy_ptes m pgt_new pgt_old (i + 1) fl)%st
  end.

(** The outer loop over the directory entries [curr_pde], ..., [end_pde]. *)
Fixpoint copy_pdes (n : nat) (source_pgd dest_pgd curr_pde start_pde end_pde start_pte end_pte fl : Z)
  : ST (heap P) unit :=
  match n with
  | O => ret tt
  | S m =>
      (old <- load (source_pgd + 4 * curr_pde) ;;
       (if negb (PDE_EXISTS old) then ret tt
        else
          new <- load (dest_pgd + 4 * curr_pde) ;;
          (if negb (PDE_EXISTS new) then
             p <- alloc_frame 0 ;;
             store (dest_pgd + 4 * curr_pde)
               (MAKE_PDE (PFN_TO_PA p) (Z.lor PDE_PRESENT (Z.lor PDE_WRITABLE PDE_USER)))
           else ret tt) ;;
          new <- load (dest_pgd + 4 * curr_pde) ;;
          (let first := if curr_pde =? start_pde then start_pte else 0 in
           let last := if curr_pde =? start_pde then PAGE_TABLE_SIZE
                       else if curr_pde =? end_pde then end_pte else PAGE_TABLE_SIZE in
           copy_ptes (Z.to_nat (last - first)) (PDE_TO_PGT new) (PDE_TO_PGT old) first fl)) ;;
       copy_pdes m source_pgd dest_pgd (curr_pde + 1) start_pde end_pde start_pte end_pte fl)%st
  end.

Definition ptable_copy_range (source_pgd dest_pgd start_addr end_addr fl : Z) : ST (heap P) unit :=
  let start_pde := PAGE_DIRECTORY_INDEX start_addr in
  let end_pde := PAGE_DIRECTORY_INDEX end_addr in
  let start_pte := PAGE_TABLE_INDEX start_addr in
  let end_pte := PAGE_TABLE_INDEX end_addr in
  copy_pdes (Z.to_nat (end_pde - start_pde + 1)) source_pgd dest_pgd start_pde start_pde end_pde
    start_pte end_pte fl.

End Copy.

Fixpoint pgt_clear_from (n : nat) (pte : Z) : ST (heap P) bool :=
  match n with
  | O => ret true
  | S m =>
      (e <- load pte ;;
       if negb (pte_address e =? 0) || negb (pte_present e =? 0) then ret false
       else pgt_clear_from m (pte + 4))%st
  end.

Definition ptable_pgt_is_clear (pgt : Z) : ST (heap P) bool :=
  pgt_clear_from (Z.to_nat PAGE_TABLE_SIZE) pgt.

Definition ptable_get_pte (pgd virt_addr : Z) : ST (heap P) Z :=
  (e <- load (GET_PDE pgd virt_addr) ;;
   if negb (PDE_EXISTS e) then ret 0
   else ret (GET_PTE (PDE_TO_PGT e) virt_addr))%st.

(** ** Address spaces

    [struct vm_space] and [struct vm_map] are heap objects at the offsets of
    vm.h. *)

Definition VMS_PGD : Z := 0.
Definition VMS_MAPPINGS : Z := 4.
Definition SIZEOF_VM_SPACE : Z := 16.

Definition MAP_START : Z := 12.
Definition MAP_END : Z := 16.
Definition SIZEOF_VM_MAP : Z := 24.

(** [llist_init], [llist_add] and [llist_delete_node] on nodes in kernel memory:
    [next] at the node's address, [prev] four bytes on. *)
Definition mem_llist_init (node : Z) : ST (heap P) unit :=
  (if node =? 0 then ret tt else store node 0 ;; store (node + 4) 0)%st.

Definition mem_llist_add (node_head node_new : Z) : ST (heap P) unit :=
  (hn <- load node_head ;;
   (if hn =? 0 then ret tt else store (hn + 4) node_new) ;;
   hn <- load node_head ;;
   store node_new hn ;;
   store (node_new + 4) node_head ;;
   store node_head node_new)%st.

Definition mem_llist_delete_node (node : Z) : ST (heap P) unit :=
  (if node =? 0 then ret tt else
   p <- load (node + 4) ;;
   (if p =? 0 then ret tt else n <- load node ;; store p n) ;;
   n <- load node ;;
   (if n =? 0 then ret tt else p <- load (node + 4) ;; store (n + 4) p))%st.

Definition vm_space_new (kernel_pgd : Z) : ST (heap P) Z :=
  (vms <- kmalloc SIZEOF_VM_SPACE ;;
   if vms =? 0 then ret 0 else
   mem_llist_init (vms + VMS_MAPPINGS) ;;
   pgd <- ptable_pgd_new kernel_pgd ;;
   store (vms + VMS_PGD) (VIR_TO_PHY pgd) ;;
   ret vms)%st.

Definition vm_space_destroy (space : Z) : ST (heap P) unit :=
  (pgd <- load (space + VMS_PGD) ;;
   ptable_pgd_free (PHY_TO_VIR pgd) ;;
   kfree space ;;
   ret tt)%st.

Definition vm_space_add_map (space map : Z) : ST (heap P) unit := mem_llist_add (space + VMS_MAPPINGS) map.

Definition vm_space_delete_map (space map : Z) : ST (heap P) unit := mem_llist_delete_node map.

Definition vm_space_map_page (space addr : Z) : ST (heap P) Z :=
  (new_page <- take_page 0 ;;
   match new_page with
   | None => ret E_ERROR
   | Some p =>
       pgd <- load (space + VMS_PGD) ;;
       ptable_map (PHY_TO_VIR pgd) addr (PFN_TO_PA p) 0 ;;
       ret E_SUCCESS
   end)%st.

(** The search of [vm_space_page_fault] from list node [node] on. *)
Fixpoint fault_walk (fuel : nat) (space node fault_addr : Z) : ST (heap P) Z :=
  match fuel with
  | O => fault
  | S f =>
      (if node =? 0 then ret E_ERROR else
       start <- load (node + MAP_START) ;;
       inside <- (if start <=? fault_addr then
                    e <- load (node + MAP_END) ;; ret (fault_addr <? e)
                  else ret false) ;;
       if inside then vm_space_map_page space fault_addr else
       nx <- load node ;;
       fault_walk f space nx fault_addr)%st
  end.

Definition vm_space_page_fault (space fault_addr : Z) : ST (heap P) Z :=
  (first <- load (space + VMS_MAPPINGS) ;;
   fuel <- gets walk_fuel ;;
   fault_walk fuel space first fault_addr)%st.

Definition vm_map_new : ST (heap P) Z :=
  (map <- kmalloc SIZEOF_VM_MAP ;;
   clear_words 6 map ;;
   mem_llist_init map ;;
   ret map)%st.

Definition vm_map_destroy (map : Z) : ST (heap P) unit := (kfree map ;; ret tt)%st.

End Ptable.

(** ** The kernel's own directory (paging_setup_kernel_pgd)

    [pse] and [pge] are the processor features the code asks for. *)

(** The 4 MiB branch: directory entries [table_cur], ... of the linear map. *)
Fixpoint setup_huge (n : nat) (pgd table_cur pde_global : Z) (m : gmap Z Z) : gmap Z Z :=
  match n with
  | O => m
  | S k =>
      let phys_addr := PDE_IDX_TO_ADDR (table_cur - PAGE_DIRECTORY_INDEX KERNEL_START_VIRT) in
      let m := <[pgd + 4 * table_cur := MAKE_PDE phys_addr
                  (Z.lor PDE_PRESENT (Z.lor PDE_WRITABLE (Z.lor PDE_PAGE_SIZE_4M pde_global)))]> m in
      setup_huge k pgd (table_cur + 1) pde_global m
  end.

(** The 4 KiB branch: a table of 1024 entries for directory entry [table_cur]. *)
Fixpoint setup_table (n : nat) (pte table_cur page_cur pte_global : Z) (m : gmap Z Z) : gmap Z Z :=
  match n with
  | O => m
  | S k =>
      let phys_addr := u32 (PDE_IDX_TO_ADDR (table_cur - PAGE_DIRECTORY_INDEX KERNEL_START_VIRT)
                            + PTE_IDX_TO_ADDR page_cur) in
      let m := <[pte + 4 * page_cur := MAKE_PTE phys_addr
                  (Z.lor PTE_PRESENT (Z.lor PTE_WRITABLE pte_global))]> m in
      setup_table k pte table_cur (page_cur + 1) pte_global m
  end.

Fixpoint setup_tables (n : nat) (pgd table_cur pde_global pte_global : Z) : ST (bootmem * gmap Z Z) unit :=
  match n with
  | O => ret tt
  | S k => fun '(bm, m) =>
      match bootmem_alloc PAGE_SIZE PAGE_SIZE bm with
      | Some (Some pte, bm) =>
          let m := setup_table (Z.to_nat PAGE_TABLE_SIZE) pte table_cur 0 pte_global m in
          let m := <[pgd + 4 * table_cur := MAKE_PDE (VIR_TO_PHY pte)
                      (Z.lor PDE_PRESENT (Z.lor PDE_WRITABLE pde_global))]> m in
          setup_tables k pgd (table_cur + 1) pde_global pte_global (bm, m)
      | _ => None
      end
  end.

(** [memset(pte, 0, PAGE_SIZE)] on the bare memory. *)
Fixpoint zero_words (n : nat) (dst : Z) (m : gmap Z Z) : gmap Z Z :=
  match n with
  | O => m
  | S k => zero_words k (dst + 4) (<[dst := 0]> m)
  end.

Fixpoint setup_kmap (n : nat) (pgd table_cur pde_global : Z) : ST (bootmem * gmap Z Z) unit :=
  match n with
  | O => ret tt
  | S k => fun '(bm, m) =>
      match bootmem_alloc PAGE_SIZE PAGE_SIZE bm with
      | Some (Some pte, bm) =>
          let m := zero_words (Z.to_nat PAGE_TABLE_SIZE) pte m in
          let m := <[pgd + 4 * table_cur := MAKE_PDE (VIR_TO_PHY pte)
                      (Z.lor PDE_PRESENT (Z.lor PDE_WRITABLE pde_global))]> m in
          setup_kmap k pgd (table_cur + 1) pde_global (bm, m)
      | _ => None
      end
  end.

Definition paging_setup_kernel_pgd (pse pge : bool) (kernel_pgd : Z) : ST (bootmem * gmap Z Z) unit :=
  let table_start := PAGE_DIRECTORY_INDEX KERNEL_START_VIRT in
  let table_kmap := PAGE_DIRECTORY_INDEX KMAP_START_VIRT in
  let pde_global := if pge then PDE_GLOBAL else 0 in
  let pte_global := if pge then PTE_GLOBAL else 0 in
  ((if pse then
      modify (fun '(bm, m) =>
        (bm, setup_huge (Z.to_nat (table_kmap - table_start)) kernel_pgd table_start pde_global m))
    else setup_tables (Z.to_nat (table_kmap - table_start)) kernel_pgd table_start pde_global pte_global) ;;
   setup_kmap (Z.to_nat (PAGE_DIR_SIZE - table_kmap)) kernel_pgd table_kmap pde_global)%st.

(** [paging_switch_pgd] accepts a page-aligned, non-NULL directory; the CR3
    value it loads is the result. *)
Definition paging_switch_pgd (pgd cr3 : Z) : Z * Z :=
  if (pgd =? 0) || negb (IS_PAGE_ALIGNED pgd) then (E_ERROR, cr3) else (E_SUCCESS, pgd).

(** [paging_init]: the kernel's directory is built, then loaded. *)
Definition paging_init (pse pge : bool) (kernel_pgd cr3 : Z) : ST (bootmem * gmap Z Z) (Z * Z) :=
  (paging_setup_kernel_pgd pse pge kernel_pgd ;;
   let cr3 := (paging_switch_pgd (VIR_TO_PHY kernel_pgd) cr3).2 in
   ret (E_SUCCESS, cr3))%st.

(** [paging_handle_page_fault] for the task whose address space is [space]:
    [false] is the [debug_break] at its end. *)
Definition paging_handle_page_fault {P} `{PageSource P} (space cr2 : Z) : ST (heap P) bool :=
  (r <- vm_space_page_fault space cr2 ;;
   ret (SUCCESS r))%st.
