(* ===== verification/EntryBits.v ===== *)
(** * The bit fields of page table entries (arch/x86/include/arch/ptable.h)

    [struct pde] and [struct pte] are unions of a 32-bit word and a structure of
    bit fields, and the code uses both views of one entry.  The models of the page
    tables use the word; this file has the bit fields, as the compiler lays them
    out, and shows that every access through a field is the operation on the word
    that the models use. *)

From stdpp Require Import base numbers list.
From Stdlib Require Import ZArith Lia.
From S2P Require Import Prelude PageDefs Ptable.

#[local] Open Scope Z_scope.

(** ** Reading and writing a range of bits *)

(** A field: its lowest bit and its width. *)
Record range : Type := Range { low : Z; width : Z }.

Definition range_ok (r : range) : Prop := 0 <= low r /\ 0 < width r /\ low r + width r <= 32.

Definition get (r : range) (e : Z) : Z := Z.land (Z.shiftr e (low r)) (Z.ones (width r)).

Definition set (r : range) (v e : Z) : Z :=
  Z.lor (Z.ldiff e (Z.shiftl (Z.ones (width r)) (low r))) (Z.shiftl (Z.land v (Z.ones (width r))) (low r)).

Definition inside (r : range) (n : Z) : bool := (low r <=? n) && (n <? low r + width r).

Definition disjoint (r s : range) : Prop := low r + width r <= low s \/ low s + width s <= low r.

Lemma get_testbit r e n : range_ok r -> 0 <= n -> Z.testbit (get r e) n = (n <? width r) && Z.testbit e (n + low r).
Proof.
  intros (Hl & Hw & _) Hn. unfold get. rewrite Z.land_spec, Z.shiftr_spec by lia.
  destruct (Z.ltb_spec n (width r)); [rewrite Z.ones_spec_low by lia|rewrite Z.ones_spec_high by lia]; by rewrite ?andb_true_r, ?andb_false_r.
Qed.

Lemma set_testbit r v e n : range_ok r -> 0 <= n -> Z.testbit (set r v e) n = if inside r n then Z.testbit v (n - low r) else Z.testbit e n.
Proof.
  intros (Hl & Hw & _) Hn. unfold set, inside. rewrite Z.lor_spec, Z.ldiff_spec, !Z.shiftl_spec, Z.land_spec by lia.
  destruct (Z.leb_spec (low r) n); cbn [andb].
  - destruct (Z.ltb_spec n (low r + width r)); [rewrite Z.ones_spec_low by lia|rewrite Z.ones_spec_high by lia]; cbn [negb]; by rewrite ?andb_true_r, ?andb_false_r, ?orb_false_r.
  - rewrite !(Z.testbit_neg_r _ (n - low r)) by lia. cbn [andb negb]. by rewrite andb_true_r, orb_false_r.
Qed.

(** A field holds what was written to it, cut to its width; other fields keep
    what they held. *)
Lemma get_set_same r v e : range_ok r -> get r (set r v e) = Z.land v (Z.ones (width r)).
Proof.
  intros Hr. pose proof Hr as (Hl & Hw & _). apply Z.bits_inj'. intros n Hn. rewrite get_testbit, set_testbit, Z.land_spec by (done || lia). unfold inside.
  destruct (Z.ltb_spec n (width r)); [rewrite Z.ones_spec_low by lia|rewrite Z.ones_spec_high by lia; by rewrite andb_false_r].
  destruct (Z.leb_spec (low r) (n + low r)); [|lia]. destruct (Z.ltb_spec (n + low r) (low r + width r)); [|lia]. cbn [andb].
  rewrite andb_true_r. f_equal. lia.
Qed.

Lemma get_set_other r s v e : range_ok r -> range_ok s -> disjoint r s -> get r (set s v e) = get r e.
Proof.
  intros Hr Hs Hd. apply Z.bits_inj'. intros n Hn. pose proof Hr as (Hl & Hw & _). rewrite !get_testbit, set_testbit by (done || lia). unfold inside, disjoint in *.
  destruct (Z.ltb_spec n (width r)); [|done]. cbn [andb].
  destruct (Z.leb_spec (low s) (n + low r)), (Z.ltb_spec (n + low r) (low s + width s)); done || lia.
Qed.

Lemma set_range r v e : range_ok r -> 0 <= e < 4294967296 -> 0 <= set r v e < 4294967296.
Proof.
  intros Hr He. pose proof Hr as (Hl & Hw & Ht). assert (H0 : 0 <= set r v e).
  { unfold set. apply Z.lor_nonneg. split; [apply Z.ldiff_nonneg; lia|]. apply Z.shiftl_nonneg, Z.land_nonneg. right. rewrite Z.ones_equiv. pose proof (Z.pow_pos_nonneg 2 (width r)). lia. }
  split; [done|]. destruct (Z.le_gt_cases 4294967296 (set r v e)) as [Hge|]; [|done]. exfalso.
  assert (E : set r v e = set r v e mod 2 ^ 32); [|rewrite E in Hge; pose proof (Z.mod_pos_bound (set r v e) (2 ^ 32)); lia].
  apply Z.bits_inj'. intros n Hn. destruct (Z.lt_ge_cases n 32); [by rewrite Z.mod_pow2_bits_low|]. rewrite Z.mod_pow2_bits_high, set_testbit by (done || lia).
  unfold inside. destruct (Z.ltb_spec n (low r + width r)); [lia|]. rewrite andb_false_r. rewrite <- (Z.mod_small e (2 ^ 32)) by lia. by rewrite Z.mod_pow2_bits_high by lia.
Qed.

(** ** Structures of bit fields *)

(** The fields of a structure fill a 32-bit word without overlap. *)
Class Layout (F : Type) `{EqDecision F} := {
  place : F -> range;
  place_ok : forall f, range_ok (place f);
  place_apart : forall f g, f <> g -> disjoint (place f) (place g);
  place_cover : forall n, 0 <= n < 32 -> exists f, inside (place f) n = true
}.

Section Fields.
  Context {F : Type} `{Layout F}.
  Implicit Types (f g : F) (e v : Z).

(** [entry.f] and [entry.f = v] *)
Definition field f e : Z := get (place f) e.

Definition set_field f v e : Z := set (place f) v e.

Lemma field_set f g v e : field f (set_field g v e) = if decide (f = g) then Z.land v (Z.ones (width (place g))) else field f e.
Proof using.
  unfold field, set_field. destruct (decide (f = g)) as [->|Hne]; [by apply get_set_same, place_ok|].
  apply get_set_other; [apply place_ok..|by apply place_apart].
Qed.

(** The fields are all there is in an entry. *)
Lemma fields_determine e e' : 0 <= e < 4294967296 -> 0 <= e' < 4294967296 -> (forall f, field f e = field f e') -> e = e'.
Proof using.
  intros He He' Hf. rewrite <- (Z.mod_small e (2 ^ 32)), <- (Z.mod_small e' (2 ^ 32)) by lia. apply Z.bits_inj'. intros n Hn.
  destruct (Z.lt_ge_cases n 32); [|by rewrite !Z.mod_pow2_bits_high by lia]. rewrite !Z.mod_pow2_bits_low by lia.
  destruct (place_cover n) as [f Hi]; [lia|]. unfold inside in Hi. apply andb_true_iff in Hi as [H1%Z.leb_le H2%Z.ltb_lt].
  specialize (Hf f). apply (f_equal (fun x => Z.testbit x (n - low (place f)))) in Hf. unfold field in Hf.
  rewrite !get_testbit in Hf by (apply place_ok || lia). destruct (Z.ltb_spec (n - low (place f)) (width (place f))); [|lia].
  cbn [andb] in Hf. by replace (n - low (place f) + low (place f)) with n in Hf by lia.
Qed.

Lemma set_field_range f v e : 0 <= e < 4294967296 -> 0 <= set_field f v e < 4294967296.
Proof using. apply set_range, place_ok. Qed.

(** A word with the same bits is the result of an assignment. *)
Lemma set_field_is f v e w : 0 <= e < 4294967296 -> 0 <= w < 4294967296 -> field f w = Z.land v (Z.ones (width (place f))) ->
  (forall g, g <> f -> field g w = field g e) -> w = set_field f v e.
Proof using.
  intros He Hw E1 E2. apply fields_determine; [done|by apply set_field_range|]. intros g. rewrite field_set. destruct (decide (g = f)) as [->|]; auto.
Qed.

End Fields.

(** ** Directory entries *)

Module Pde.

Inductive pde : Type :=
  | present | writable | user | writethrough | cache_disable | accessed | ignored | page_size | ignored2 | address.

#[global] Instance pde_eq : EqDecision pde.
Proof. solve_decision. Defined.

Definition pde_range (f : pde) : range :=
  match f with
  | present => Range 0 1
  | writable => Range 1 1
  | user => Range 2 1
  | writethrough => Range 3 1
  | cache_disable => Range 4 1
  | accessed => Range 5 1
  | ignored => Range 6 1
  | page_size => Range 7 1
  | ignored2 => Range 8 4
  | address => Range 12 20
  end.

Definition pde_at (n : Z) : pde :=
  if n <? 1 then present else if n <? 2 then writable else if n <? 3 then user else if n <? 4 then writethrough
  else if n <? 5 then cache_disable else if n <? 6 then accessed else if n <? 7 then ignored else if n <? 8 then page_size
  else if n <? 12 then ignored2 else address.

#[global] Instance pde_layout : Layout pde.
Proof.
  refine {| place := pde_range |}.
  - intros []; unfold range_ok; cbn; lia.
  - intros [] []; unfold disjoint; cbn; intros Hne; lia || congruence.
  - intros n Hn. exists (pde_at n). unfold pde_at, inside. repeat (case_match; [cbn; apply andb_true_iff; split; lia|]). cbn. apply andb_true_iff. split; lia.
Defined.

Definition PDE_IS_WRITABLE (e : Z) : Z := field writable e.
Definition PDE_IS_USER (e : Z) : Z := field user e.
Definition PDE_SET_WRITABLE (e : Z) : Z := set_field writable 1 e.
Definition PDE_UNSET_WRITABLE (e : Z) : Z := set_field writable 0 e.
Definition PDE_SET_USER (e : Z) : Z := set_field user 1 e.
Definition PDE_UNSET_USER (e : Z) : Z := set_field user 0 e.

End Pde.

(** ** Table entries *)

Module Pte.

Inductive pte : Type :=
  | present | writable | user | writethrough | cache_disable | accessed | dirty | pat | global | ignored | address.

#[global] Instance pte_eq : EqDecision pte.
Proof. solve_decision. Defined.

Definition pte_range (f : pte) : range :=
  match f with
  | present => Range 0 1
  | writable => Range 1 1
  | user => Range 2 1
  | writethrough => Range 3 1
  | cache_disable => Range 4 1
  | accessed => Range 5 1
  | dirty => Range 6 1
  | pat => Range 7 1
  | global => Range 8 1
  | ignored => Range 9 3
  | address => Range 12 20
  end.

Definition pte_at (n : Z) : pte :=
  if n <? 1 then present else if n <? 2 then writable else if n <? 3 then user else if n <? 4 then writethrough
  else if n <? 5 then cache_disable else if n <? 6 then accessed else if n <? 7 then dirty else if n <? 8 then pat
  else if n <? 9 then global else if n <? 12 then ignored else address.

#[global] Instance pte_layout : Layout pte.
Proof.
  refine {| place := pte_range |}.
  - intros []; unfold range_ok; cbn; lia.
  - intros [] []; unfold disjoint; cbn; intros Hne; lia || congruence.
  - intros n Hn. exists (pte_at n). unfold pte_at, inside. repeat (case_match; [cbn; apply andb_true_iff; split; lia|]). cbn. apply andb_true_iff. split; lia.
Defined.

Definition PTE_IS_WRITABLE (e : Z) : Z := field writable e.
Definition PTE_IS_USER (e : Z) : Z := field user e.
Definition PTE_UNSET_WRITABLE (e : Z) : Z := set_field writable 0 e.
Definition PTE_SET_USER (e : Z) : Z := set_field user 1 e.
Definition PTE_UNSET_USER (e : Z) : Z := set_field user 0 e.

End Pte.

(** ** The word and the fields *)

(** A one-bit field is a bit of the word. *)
Lemma field_bit `{Layout F} (f : F) e : width (place f) = 1 -> field f e = Z.b2z (Z.testbit e (low (place f))).
Proof.
  intros Hw. unfold field, get. rewrite Hw. pose proof (place_ok f) as (Hl & _). apply Z.bits_inj'. intros n Hn.
  rewrite Z.land_spec, Z.shiftr_spec by lia. change (Z.ones 1) with (Z.b2z true). destruct (Z.eqb_spec n 0) as [->|].
  - rewrite !Z.b2z_bit0. cbn [andb]. by rewrite andb_true_r.
  - assert (Q : forall b, Z.testbit (Z.b2z b) n = false) by (intros []; [apply Z.bits_above_log2; cbn; lia|apply Z.bits_0]). by rewrite !Q, andb_false_r.
Qed.

Lemma high_bit e n : 0 <= e < 4294967296 -> 32 <= n -> Z.testbit e n = false.
Proof. intros He Hn. rewrite <- (Z.mod_small e (2 ^ 32)) by lia. apply Z.mod_pow2_bits_high. lia. Qed.

(** Assigning to a one-bit field sets or clears a bit. *)
Lemma set_bit `{Layout F} (f : F) e : width (place f) = 1 -> set_field f 1 e = Z.lor e (2 ^ low (place f)).
Proof.
  intros Hw. pose proof (place_ok f) as (Hl & _). apply Z.bits_inj'. intros n Hn. unfold set_field. rewrite set_testbit, Z.lor_spec by (apply place_ok || done).
  unfold inside. rewrite Hw. destruct (Z.eqb_spec n (low (place f))) as [->|Hne].
  - rewrite Z.pow2_bits_true, orb_true_r, Z.leb_refl by lia. destruct (Z.ltb_spec (low (place f)) (low (place f) + 1)); [|lia]. cbn [andb]. by rewrite Z.sub_diag.
  - rewrite Z.pow2_bits_false by lia. rewrite orb_false_r. bool_cases; done || lia.
Qed.

Lemma clear_field `{Layout F} (f : F) e : 0 <= e < 4294967296 ->
  set_field f 0 e = Z.land e (u32 (Z.lnot (Z.shiftl (Z.ones (width (place f))) (low (place f))))).
Proof.
  intros He. rewrite land_u32_r by done. unfold set_field, set. by rewrite Z.land_0_l, Z.shiftl_0_l, Z.lor_0_r, Z.ldiff_land.
Qed.

(** Every access of the code through a field is the operation on the word the
    models of the page tables use. *)
Theorem entry_views e : 0 <= e < 4294967296 ->
  (PDE_IS_HUGE e = (field Pde.page_size e =? 1) /\ PDE_EXISTS e = (field Pde.present e =? 1) /\ PTE_EXISTS e = (field Pte.present e =? 1)) /\
  PTE_SET_WRITABLE e = set_field Pte.writable 1 e /\
  pte_clear_address e = set_field Pte.address 0 e /\ pte_clear_present e = set_field Pte.present 0 e /\
  pte_address e = field Pte.address e /\ PTE_PA e = Z.shiftl (field Pte.address e) 12 /\ PDE_TO_PGT e = PHY_TO_VIR (Z.shiftl (field Pde.address e) 12).
Proof.
  intros He.
  assert (EA : forall b : bool, (Z.b2z b =? 1) = b) by by intros [].
  assert (EP : negb (Z.land e 1 =? 0) = Z.testbit e 0).
  { change (Z.land e 1) with (Z.land e (Z.ones 1)). rewrite Z.land_ones by lia. change (2 ^ 1) with 2. rewrite <- Z.bit0_mod. by destruct (Z.testbit e 0). }
  assert (EF : field Pte.address e = Z.shiftr e 12).
  { unfold field, get. cbn [place low width Pte.pte_layout Pte.pte_range]. rewrite Z.land_ones, Z.shiftr_div_pow2 by lia. apply Z.mod_small. split; [apply Z.div_pos; lia|apply Z.div_lt_upper_bound; lia]. }
  assert (EG : PAGE_FRAME e = Z.shiftl (Z.shiftr e 12) 12).
  { unfold PAGE_FRAME. apply Z.bits_inj'. intros n Hn. rewrite Z.land_spec, Z.shiftl_spec by lia.
    change 0xFFFFF000 with (Z.shiftl (Z.ones 20) 12). rewrite Z.shiftl_spec by lia. destruct (Z.lt_ge_cases n 12); [by rewrite !(Z.testbit_neg_r _ (n - 12)), andb_false_r by lia|].
    rewrite Z.shiftr_spec by lia. replace (n - 12 + 12) with n by lia. destruct (Z.lt_ge_cases n 32); [rewrite Z.ones_spec_low by lia; by rewrite andb_true_r|].
    by rewrite (high_bit e n He) by lia. }
  split; [split_and!|split_and!].
  - unfold PDE_IS_HUGE. by rewrite field_bit, EA by done.
  - unfold PDE_EXISTS, PDE_PRESENT. by rewrite field_bit, EA, EP by done.
  - unfold PTE_EXISTS, PTE_PRESENT. by rewrite field_bit, EA, EP by done.
  - by rewrite set_bit by done.
  - by rewrite clear_field by done.
  - by rewrite clear_field by done.
  - by rewrite EF.
  - unfold PTE_PA. by rewrite EF, EG.
  - unfold PDE_TO_PGT. change (field Pde.address e) with (field Pte.address e). by rewrite EF, EG.
Qed.

(** The settings the header offers undo each other, and touch nothing else. *)
Lemma pte_writable_roundtrip e : 0 <= e < 4294967296 -> field Pte.writable e = 0 -> Pte.PTE_UNSET_WRITABLE (PTE_SET_WRITABLE e) = e.
Proof.
  intros He Hw. destruct (entry_views e He) as (_ & -> & _). apply (fields_determine (F := Pte.pte)); [by apply set_field_range, set_field_range|done|]. intros f. unfold Pte.PTE_UNSET_WRITABLE.
  rewrite !field_set. by destruct (decide (f = Pte.writable)) as [->|].
Qed.

Lemma pde_user_roundtrip e : 0 <= e < 4294967296 -> field Pde.user e = 1 -> Pde.PDE_SET_USER (Pde.PDE_UNSET_USER e) = e.
Proof.
  intros He Hw. apply (fields_determine (F := Pde.pde)); [by apply set_field_range, set_field_range|done|]. intros f. unfold Pde.PDE_SET_USER, Pde.PDE_UNSET_USER.
  rewrite !field_set. by destruct (decide (f = Pde.user)) as [->|].
Qed.
