(* ===== verification/HeapClient.v ===== *)
(** * What clients of the heap may do

    The heap keeps its own words in the slabs: the headers, and one link in each
    free object.  A client that writes anywhere else, in particular inside an
    object it was given, leaves the heap as it is. *)

From stdpp Require Import base numbers list gmap sorting.
From Stdlib Require Import ZArith Lia.
From S2P Require Import Prelude PageDefs Bootmem BootmemSpec Blocks Palloc PageAlloc PageSource Boot PageClaims Slab SlabInv SlabSpec HeapClaims Ptable.

#[local] Open Scope Z_scope.

Section Client.
  Context {P : Type} `{PageSource P}.

  Implicit Types (h : heap P) (G : list (list (Z * list Z))) (A : gset (Z * Z)) (m : gmap Z Z).

(** The words the heap itself uses. *)
Definition meta G (a : Z) : Prop :=
  exists i S b fl, G !! i = Some S /\ (b, fl) ∈ S /\ (b <= a < b + SIZEOF_HEADER \/ a ∈ fl).

Lemma slab_meta m m' sz b nx fl :
  (forall a, b <= a < b + SIZEOF_HEADER \/ a ∈ fl -> m' !! a = m !! a) -> slab_ok m sz b nx fl -> slab_ok m' sz b nx fl.
Proof.
  intros Ha [? ? ? ? ? ? ? HL ? HO]. constructor; try done; try (rewrite Ha by slab_lia; done).
  revert HL. apply flist_frame. intros a [->|Hin]; apply Ha; [slab_lia|by right].
Qed.

Lemma chain_meta m m' sz first S :
  (forall b fl a, (b, fl) ∈ S -> b <= a < b + SIZEOF_HEADER \/ a ∈ fl -> m' !! a = m !! a) -> chain m sz first S -> chain m' sz first S.
Proof.
  revert first. induction S as [|[b fl] S IH]; intros first Ha; [done|]. intros (-> & nx & H1 & H2). split; [done|]. exists nx. split.
  - apply (slab_meta m); [|done]. intros a. apply Ha. set_solver.
  - apply IH; [|done]. intros c gl a Hc. apply Ha. set_solver.
Qed.

(** Memory outside the heap's own words may change freely. *)
Lemma heap_meta h G A m' :
  heap_rep h G A -> (forall a, meta G a -> m' !! a = kmem h !! a) -> heap_rep (with_kmem m' h) G A.
Proof.
  intros [H1 H2 H3 H4 H5 H6] Hm. constructor; cbn; try done. intros i k S sz Ek EG Esz. destruct (H3 i k S sz Ek EG Esz) as [Ho HC].
  split; [done|]. apply (chain_meta (kmem h)); [|done]. intros b fl a Hb Ha. apply Hm. by exists i, S, b, fl.
Qed.

(** No word of an allocated object is one of them. *)
Lemma live_not_meta h G A i x sz a : heap_rep h G A -> live G i x -> sizes !! i = Some sz -> x <= a < x + sz -> ~ meta G a.
Proof.
  intros HR HL Esz Ha (j & S & b & fl & EG & HS & Hin).
  assert (Hb : b ∈ bases G) by (eapply bases_elem; [exact EG|]; apply list_elem_of_fmap; by exists (b, fl)).
  destruct Hin as [Hh|Hfl].
  { destruct (live_area h G A i x sz a HR HL Esz Ha) as (c & _ & HBc & Hac).
    apply (area_not_header c b a (a - b) HBc (heap_base h G A b HR Hb) Hac); lia. }
  destruct (cache_facts h G A j HR) as (k & S' & szj & _ & EG' & Eszj & Hs & _ & HC & ND).
  { apply lookup_lt_Some in EG. rewrite (hr_slabs _ _ _ HR) in EG. done. }
  rewrite EG in EG'. injection EG' as <-. apply list_elem_of_split in HS as (S1 & S2 & ->).
  destruct (chain_app _ _ _ _ _ _ _ HC) as (nx & HS & _). pose proof (so_objs _ _ _ _ _ HS) as HO. rewrite Forall_forall in HO.
  apply (live_word_apart h G A j b szj fl S1 S2 i x sz a a HR EG Eszj HL Esz Ha (HO a Hfl)); [|done]. intros [= -> ->].
  destruct (live_split G j a HL) as (T1 & c & gl & T2 & sz' & EG2 & Esz' & Hob & Hng). rewrite EG in EG2. injection EG2 as EG2.
  assert (sz' = szj) as -> by congruence. destruct (is_obj_range b szj a Hs (HO a Hfl)), (is_obj_range c szj a Hs Hob). unfold size_ok in Hs.
  assert (Hcm : c ∈ (S1 ++ (b, fl) :: S2).*1) by (rewrite EG2, fmap_app, fmap_cons; set_solver).
  assert (c = b) as -> by (apply (base_apart c b a); [eapply heap_base, bases_elem; [exact HR|exact EG|done]|by eapply heap_base|slab_lia|slab_lia]).
  apply Hng. rewrite (slab_unique (S1 ++ (b, fl) :: S2) b gl fl ND); [done|rewrite EG2; set_solver|set_solver].
Qed.

(** A client's change: only the object [x] of [sz] bytes differs. *)
Definition only_object m m' (x sz : Z) : Prop := forall a, ~ (x <= a < x + sz) -> m' !! a = m !! a.

Lemma heap_write h G A i x sz m' :
  heap_rep h G A -> live G i x -> sizes !! i = Some sz -> only_object (kmem h) m' x sz -> heap_rep (with_kmem m' h) G A.
Proof.
  intros HR HL Esz Ho. apply (heap_meta h); [done|]. intros a Hm. apply Ho. intros Ha. by eapply live_not_meta.
Qed.

(** Other objects keep their contents. *)
Lemma object_apart h G A i j x y szi szj m' a :
  heap_rep h G A -> live G i x -> live G j y -> sizes !! i = Some szi -> sizes !! j = Some szj -> x <> y ->
  only_object (kmem h) m' x szi -> y <= a < y + szj -> m' !! a = kmem h !! a.
Proof.
  intros HR Hx Hy Ei Ej Hne Ho Ha. apply Ho. intros Ha'. destruct (live_disjoint h G A i j x y szi szj a HR Hx Hy Ei Ej Ha' Ha). done.
Qed.

Lemma only_object_insert m x sz a v : x <= a < x + sz -> only_object m (<[a := v]> m) x sz.
Proof. intros Ha b Hb. rewrite lookup_insert_ne; [done|]. lia. Qed.

Lemma only_object_trans m1 m2 m3 x sz : only_object m1 m2 x sz -> only_object m2 m3 x sz -> only_object m1 m3 x sz.
Proof. intros H1 H2 a Ha. by rewrite H2, H1. Qed.

(** The allocated objects of cache [i] have addresses in the kernel's half. *)
Lemma live_range h G A i x : heap_rep h G A -> live G i x -> KERNEL_START_VIRT < x /\ exists sz, sizes !! i = Some sz /\ 8 <= sz /\ x + sz <= 4294967296.
Proof.
  intros HR (S & sz & b & fl & EG & Esz & HS & Hx & _).
  assert (HB : base_ok b) by (eapply heap_base, bases_elem; [exact HR|exact EG|apply list_elem_of_fmap; by exists (b, fl)]).
  pose proof (sizes_ok _ _ Esz) as Hs. destruct (is_obj_range b sz x Hs Hx). unfold base_ok, size_ok in *. split; [slab_lia|]. exists sz.
  split; [done|]. slab_lia.
Qed.

(** The cache of 32-byte objects. *)
Lemma cache_for_32 i : cache_for 32 i -> i = 2%nat.
Proof.
  intros (sz & E & Hle & Hmin).
  destruct (decide (2 < i)%nat) as [Hi|Hi]; [specialize (Hmin 2%nat 32 Hi eq_refl); lia|].
  destruct i as [|[|[|i]]]; cbn in E; try injection E as <-; try lia.
Qed.

Lemma live_ne h G A i j x y : heap_rep h G A -> live G i x -> live G j y -> (i, x) <> (j, y) -> x <> y.
Proof.
  intros HR Hx Hy Hne ->. destruct (live_range h G A i y HR Hx) as (_ & szi & Ei & Hi & _), (live_range h G A j y HR Hy) as (_ & szj & Ej & Hj & _).
  destruct (live_disjoint h G A i j y y szi szj y HR Hx Hy Ei Ej) as [-> _]; [lia..|]. done.
Qed.

(** Storing in, or clearing, an object one owns. *)
Lemma store_owned h G A i x sz off v : heap_rep h G A -> live G i x -> sizes !! i = Some sz -> 0 <= off < sz ->
  store (x + off) v h = Some (tt, with_kmem (<[x + off := v]> (kmem h)) h) /\ heap_rep (with_kmem (<[x + off := v]> (kmem h)) h) G A.
Proof.
  intros HR HL E Ho. split; [apply store_run|]. apply (heap_write h G A i x sz); [done..|]. apply only_object_insert. lia.
Qed.

Lemma cache_for_unique size i j : cache_for size i -> cache_for size j -> i = j.
Proof.
  intros (si & Ei & Hi & Mi) (sj & Ej & Hj & Mj). destruct (lt_eq_lt_dec i j) as [[Hlt|]|Hlt]; [|done|].
  - specialize (Mj i si Hlt Ei). lia.
  - specialize (Mi j sj Hlt Ej). lia.
Qed.

End Client.

(** ** A small machine for the clients: 128 frames, the first 16 kept back *)

Definition bm128 : bootmem :=
  match bootmem_add_mem_region KS64 KE64 0x10000 0x80000 MEM_REGION_AVAILABLE bootmem_init with
  | Some (_, bm) => bm
  | None => bootmem_init
  end.

Definition machine128 : buddy :=
  match boot_pages KS64 (bm128, blank) with
  | Some (_, (_, s)) => s
  | None => blank
  end.

Lemma bm128_ok : bm_ok KS64 KE64 bm128 /\ bm_disjoint bm128.
Proof.
  destruct (bootmem_add_safe KS64 KE64 ltac:(vm_compute; done) 0x10000 0x80000 MEM_REGION_AVAILABLE bootmem_init)
    as (res & bm' & E & HB & _ & HG).
  - by apply bootmem_init_ok.
  - done.
  - intros [_ E]. vm_compute in E. discriminate.
  - unfold bm128. rewrite E. split; [done|]. apply HG; [apply bm_init_disjoint|].
    intros a _ (r & Hr & Ha). apply (elem_of_replicate 16) in Hr as [-> _]. unfold in_region in Ha. cbn in Ha. lia.
Qed.

#[local] Instance source128 : PageSource buddy := buddy_source KS64 KE64.

Definition heap128 : heap buddy := empty_heap machine128.

Lemma heap128_rep : heap_rep heap128 (replicate 13 []) ∅.
Proof.
  apply empty_heap_rep. destruct bm128_ok as [HB HD].
  destruct (boot_pages_spec KS64 KS64 KE64 bm128 blank HB HD) as (area & bm' & s & F & _ & E & HA & _);
    [vm_compute; discriminate..|by exists 2|eexists; split; [by apply (list_elem_of_lookup_2 _ 0)|vm_compute; done]|].
  split; [vm_compute; discriminate|]. exists F. unfold machine128. by rewrite E.
Qed.
