(* ===== verification/PtableSpec.v ===== *)
(** * Correctness of the page-table operations

    [user_rep h pgd T A]: [pgd] is the directory of an address space whose
    user-half tables are [T] (directory index to table address), all of them
    live pages of the allocator.  Under it, [ptable_map] and [ptable_unmap]
    change the hardware's translation of exactly one page. *)

From stdpp Require Import base numbers list gmap.
From Stdlib Require Import ZArith Lia Znumtheory.
From S2P Require Import Prelude LinkedList PageDefs Bootmem Blocks Palloc PageSource Slab SlabInv Ptable.

#[local] Open Scope Z_scope.

(** ** Indices and entries *)

Lemma PDI_eq va : 0 <= va < 4294967296 -> PAGE_DIRECTORY_INDEX va = va / 4194304.
Proof.
  intros Hv. unfold PAGE_DIRECTORY_INDEX. rewrite u32_small, Z.shiftr_div_pow2 by lia.
  change 0x3FF with (Z.ones 10). rewrite Z.land_ones by lia. change (2 ^ 22) with 4194304. change (2 ^ 10) with 1024.
  apply Z.mod_small. split; [apply Z.div_pos; lia|apply Z.div_lt_upper_bound; lia].
Qed.

Lemma PTI_eq va : 0 <= va < 4294967296 -> PAGE_TABLE_INDEX va = (va / 4096) mod 1024.
Proof.
  intros Hv. unfold PAGE_TABLE_INDEX. rewrite u32_small, Z.shiftr_div_pow2 by lia.
  change 0x3FF with (Z.ones 10). rewrite Z.land_ones by lia. done.
Qed.

Lemma PTI_range va : 0 <= va < 4294967296 -> 0 <= PAGE_TABLE_INDEX va < 1024.
Proof. intros Hv. rewrite PTI_eq by done. apply Z.mod_pos_bound. lia. Qed.

(** The two indices determine the page. *)
Lemma same_page_index va va' :
  0 <= va < 4294967296 -> 0 <= va' < 4294967296 ->
  PAGE_DIRECTORY_INDEX va = PAGE_DIRECTORY_INDEX va' -> PAGE_TABLE_INDEX va = PAGE_TABLE_INDEX va' ->
  va / 4096 = va' / 4096.
Proof.
  intros H1 H2. rewrite !PDI_eq, !PTI_eq by done. change 4194304 with (4096 * 1024).
  rewrite <- !Z.div_div by lia. intros Ed Em.
  rewrite (Z.div_mod (va / 4096) 1024), (Z.div_mod (va' / 4096) 1024) by lia. lia.
Qed.

Lemma index_same_page va va' :
  0 <= va < 4294967296 -> 0 <= va' < 4294967296 -> va / 4096 = va' / 4096 ->
  PAGE_DIRECTORY_INDEX va = PAGE_DIRECTORY_INDEX va' /\ PAGE_TABLE_INDEX va = PAGE_TABLE_INDEX va'.
Proof.
  intros H1 H2 E. rewrite !PDI_eq, !PTI_eq by done. rewrite E. split; [|done].
  change 4194304 with (4096 * 1024). by rewrite <- !Z.div_div, E by lia.
Qed.

Lemma present_bit e : PDE_EXISTS e = Z.testbit e 0.
Proof.
  unfold PDE_EXISTS, PDE_PRESENT. replace 0x01 with (Z.ones 1) by done. rewrite Z.land_ones by lia.
  change (2 ^ 1) with 2. rewrite Z.bit0_odd. rewrite Zmod_odd. by destruct (Z.odd e).
Qed.

Lemma pte_present_bit e : PTE_EXISTS e = Z.testbit e 0.
Proof. apply present_bit. Qed.

(** The frame number and flags of an entry made from frame [p]. *)
Lemma entry_eq p fl : 0 <= p < 1048576 -> 0 <= fl < 4096 -> MAKE_PTE (PFN_TO_PA p) fl = p * 4096 + fl.
Proof.
  intros Hp Hf. rewrite PFN_TO_PA_eq by done. rewrite MAKE_PTE_eq by lia. rewrite Z.mod_mul by lia. lia.
Qed.

Lemma entry_bits p fl i : 0 <= fl < 4096 -> 0 <= i < 12 -> Z.testbit (p * 4096 + fl) i = Z.testbit fl i.
Proof.
  intros Hf Hi. rewrite <- (Z.mod_pow2_bits_low (p * 4096 + fl) 12 i) by lia. change (2 ^ 12) with 4096.
  rewrite Z.add_comm, Z.mod_add by lia. by rewrite Z.mod_small.
Qed.

Lemma entry_frame p fl : 0 <= fl < 4096 -> p * 4096 + fl - (p * 4096 + fl) mod 4096 = p * 4096.
Proof. intros Hf. rewrite Z.add_comm, Z.mod_add by lia. rewrite Z.mod_small by lia. lia. Qed.

Lemma PDE_TO_PGT_entry p fl :
  0 <= p < 1048576 -> 0 <= fl < 4096 -> PDE_TO_PGT (p * 4096 + fl) = PHY_TO_VIR (p * 4096).
Proof.
  intros Hp Hf. unfold PDE_TO_PGT. rewrite PAGE_FRAME_eq by lia. by rewrite entry_frame.
Qed.

(** ** Clearing and copying pages *)

Lemma zero_words_in n : forall dst m i, 0 <= i < Z.of_nat n -> zero_words n dst m !! (dst + 4 * i) = Some 0.
Proof.
  induction n as [|n IH]; intros dst m i Hi; [lia|]. cbn [zero_words].
  destruct (decide (i = 0)) as [->|Hne].
  - assert (Hout : forall k d (m0 : gmap Z Z) a, a < d -> zero_words k d m0 !! a = m0 !! a).
    { clear. induction k as [|k IH]; intros d m0 a Ha; [done|]. cbn. rewrite IH by lia. by rewrite lookup_insert_ne by lia. }
    rewrite Hout by lia. replace (dst + 4 * 0) with dst by lia. by rewrite lookup_insert_eq.
  - replace (dst + 4 * i) with (dst + 4 + 4 * (i - 1)) by lia. apply IH. lia.
Qed.

Lemma zero_words_out n : forall dst m a, ~ (dst <= a < dst + 4 * Z.of_nat n) -> zero_words n dst m !! a = m !! a.
Proof.
  induction n as [|n IH]; intros dst m a Ha; [done|]. cbn [zero_words]. rewrite IH by lia.
  by rewrite lookup_insert_ne by lia.
Qed.

Section Words.
  Context {P : Type} `{PageSource P}.

  Implicit Types (h : heap P) (m : gmap Z Z).

Lemma clear_words_run n : forall dst h, clear_words n dst h = Some (tt, with_kmem (zero_words n dst (kmem h)) h).
Proof.
  induction n as [|n IH]; intros dst h; [by destruct h|]. cbn [clear_words]. rewrite (bind_some _ _ _ _ _ (store_run h dst 0)).
  by rewrite IH.
Qed.

(** The words [src], [src + 4], ... can be read and are copied in order. *)
Lemma copy_words_run n : forall dst src h,
  (forall i, 0 <= i < Z.of_nat n -> is_Some (kmem h !! (src + 4 * i))) ->
  (dst + 4 * Z.of_nat n <= src \/ src + 4 * Z.of_nat n <= dst) ->
  exists m', copy_words n dst src h = Some (tt, with_kmem m' h) /\
    (forall i, 0 <= i < Z.of_nat n -> m' !! (dst + 4 * i) = kmem h !! (src + 4 * i)) /\
    (forall a, ~ (dst <= a < dst + 4 * Z.of_nat n) -> m' !! a = kmem h !! a).
Proof.
  induction n as [|n IH]; intros dst src h Hr Hd; cbn [copy_words].
  - exists (kmem h). split_and!; [by destruct h|lia|done].
  - destruct (Hr 0 ltac:(lia)) as [w Ew]. replace (src + 4 * 0) with src in Ew by lia.
    rewrite (bind_some _ _ _ _ _ (load_some h src w Ew)), (bind_some _ _ _ _ _ (store_run h dst w)).
    set (h1 := with_kmem (<[dst := w]> (kmem h)) h).
    assert (Hs : forall i, 0 <= i < Z.of_nat n -> kmem h1 !! (src + 4 + 4 * i) = kmem h !! (src + 4 * (i + 1))).
    { intros i Hi. unfold h1. rewrite kmem_with, lookup_insert_ne by lia. f_equal. lia. }
    destruct (IH (dst + 4) (src + 4) h1) as (m' & E & Hin & Hout).
    { intros i Hi. rewrite Hs by done. apply Hr. lia. }
    { lia. }
    exists m'. split_and!; [done| |].
    + intros i Hi. destruct (decide (i = 0)) as [->|Hne].
      * rewrite Hout by lia. unfold h1. replace (dst + 4 * 0) with dst by lia. replace (src + 4 * 0) with src by lia.
        by rewrite kmem_with, lookup_insert_eq.
      * replace (dst + 4 * i) with (dst + 4 + 4 * (i - 1)) by lia. rewrite Hin, Hs by lia. f_equal. lia.
    + intros a Ha. rewrite Hout by lia. unfold h1. by rewrite kmem_with, lookup_insert_ne by lia.
Qed.

(** ** Address spaces *)

(** The linear address of page frame [p]. *)
Definition lin (p : Z) : Z := KERNEL_START_VIRT + p * 4096.

Definition USER_PDES : Z := 768.

Record user_rep h (pgd : Z) (T : gmap Z Z) (A : gset (Z * Z)) : Prop := UserRep {
  ur_pgd : exists q, (q, 0) ∈ A /\ pgd = lin q;
  ur_none : forall i, 0 <= i < USER_PDES -> T !! i = None ->
    exists e, kmem h !! (pgd + 4 * i) = Some e /\ Z.testbit e 0 = false;
  ur_some : forall i t, T !! i = Some t -> 0 <= i < USER_PDES /\ t <> pgd /\
    exists p fl, (p, 0) ∈ A /\ t = lin p /\ 0 <= fl < 4096 /\ Z.testbit fl 0 = true /\ Z.testbit fl 7 = false /\
      kmem h !! (pgd + 4 * i) = Some (p * 4096 + fl);
  ur_words : forall i t j, T !! i = Some t -> 0 <= j < 1024 -> is_Some (kmem h !! (t + 4 * j));
  ur_inj : forall i j t, T !! i = Some t -> T !! j = Some t -> i = j;
  ur_source : ps_rep (source h) A
}.

(** A live single page lies in the linear mapping. *)
Lemma lin_page s A p : ps_rep s A -> (p, 0) ∈ A -> 0 <= p < LINEAR_FRAMES /\ PHY_TO_VIR (p * 4096) = lin p.
Proof.
  intros HR Hp. destruct (ps_range s A (p, 0) HR Hp) as ((H0 & _) & Hr). cbn in *. change (2 ^ 0) with 1 in *.
  unfold LINEAR_FRAMES in *. split; [lia|]. unfold PHY_TO_VIR, lin, KERNEL_START_VIRT. rewrite u32_small; lia.
Qed.

Lemma user_index va : 0 <= va < KERNEL_START_VIRT -> 0 <= PAGE_DIRECTORY_INDEX va < USER_PDES.
Proof.
  unfold KERNEL_START_VIRT, USER_PDES. intros Hv. rewrite PDI_eq by lia.
  split; [apply Z.div_pos; lia|apply Z.div_lt_upper_bound; lia].
Qed.

(** What the hardware finds, in terms of the representation. *)
Lemma walk_rep h pgd T A va :
  user_rep h pgd T A -> 0 <= va < KERNEL_START_VIRT ->
  mmu_walk (kmem h) pgd va =
    match T !! PAGE_DIRECTORY_INDEX va with
    | None => None
    | Some t => match kmem h !! GET_PTE t va with
                | Some e => if Z.testbit e 0 then Some e else None
                | None => None
                end
    end.
Proof.
  intros HR Hv. pose proof (user_index va Hv) as Hi. unfold mmu_walk, GET_PDE.
  destruct (T !! PAGE_DIRECTORY_INDEX va) as [t|] eqn:ET.
  - destruct (ur_some _ _ _ _ HR _ t ET) as (_ & _ & p & fl & Hp & -> & Hfl & Hf0 & Hf7 & Ee).
    destruct (lin_page _ _ p (ur_source _ _ _ _ HR) Hp) as [Hpr El].
    rewrite Ee, !entry_bits by lia. rewrite Hf0, Hf7. cbn [negb]. by rewrite entry_frame, El.
  - destruct (ur_none _ _ _ _ HR _ Hi ET) as (e & Ee & He). by rewrite Ee, He.
Qed.

(** A word of the page at [lin x]. *)
Definition in_frame (x a : Z) : Prop := lin x <= a < lin x + 4096.

Lemma frames_apart x y a b : in_frame x a -> in_frame y b -> x <> y -> a <> b.
Proof. unfold in_frame, lin. lia. Qed.

Lemma pte_in_frame x va : 0 <= va < 4294967296 -> in_frame x (GET_PTE (lin x) va).
Proof. intros Hv. pose proof (PTI_range va Hv). unfold in_frame, GET_PTE. lia. Qed.

Lemma word_in_frame x j : 0 <= j < 1024 -> in_frame x (lin x + 4 * j).
Proof. unfold in_frame. lia. Qed.

(** What an operation on the address space leaves alone: the kernel half of the
    directory and every live page that is not one of its tables. *)
Definition outside_kept h h' (pgd : Z) (T : gmap Z Z) (A : gset (Z * Z)) : Prop :=
  caches h' = caches h /\
  (forall i, USER_PDES <= i < 1024 -> kmem h' !! (pgd + 4 * i) = kmem h !! (pgd + 4 * i)) /\
  (forall b x a, b ∈ A -> inb x b -> in_frame x a -> lin x <> pgd -> (forall i, T !! i <> Some (lin x)) ->
     kmem h' !! a = kmem h !! a).

Lemma inb_self p : inb p (p, 0).
Proof. unfold inb. cbn. change (2 ^ 0) with 1. lia. Qed.

(** *** Writing an entry of an existing table *)

Lemma store_pte_rep h pgd T A t va w :
  user_rep h pgd T A -> 0 <= va < KERNEL_START_VIRT -> T !! PAGE_DIRECTORY_INDEX va = Some t ->
  user_rep (with_kmem (<[GET_PTE t va := w]> (kmem h)) h) pgd T A.
Proof.
  intros HR Hv Et. pose proof HR as [(q & Hq & ->) Hn Hs Hw Hi Hp]. assert (Hv' : 0 <= va < 4294967296) by (unfold KERNEL_START_VIRT in Hv; lia).
  destruct (Hs _ _ Et) as (_ & Hne & p & fl & Hp' & -> & _).
  assert (Hk : forall i, 0 <= i < 1024 -> GET_PTE (lin p) va <> lin q + 4 * i).
  { intros i Hir. apply (frames_apart p q); [by apply pte_in_frame|by apply word_in_frame|congruence]. }
  assert (Hu : USER_PDES = 768) by done.
  constructor; [by exists q|..]; rewrite ?kmem_with; [|intros i t Ei|intros i t j Ei Hj|done|done].
  - intros i Hir Ei. rewrite lookup_insert_ne by (apply Hk; lia). by apply Hn.
  - destruct (Hs i t Ei) as (Hir & ?). rewrite lookup_insert_ne by (apply Hk; lia). done.
  - destruct (decide (GET_PTE (lin p) va = t + 4 * j)) as [E|E].
    + rewrite E, lookup_insert_eq. by eexists.
    + rewrite lookup_insert_ne by done. by apply (Hw i).
Qed.

Lemma store_pte_walk h pgd T A t va w va' :
  user_rep h pgd T A -> 0 <= va < KERNEL_START_VIRT -> 0 <= va' < KERNEL_START_VIRT ->
  T !! PAGE_DIRECTORY_INDEX va = Some t ->
  mmu_walk (<[GET_PTE t va := w]> (kmem h)) pgd va' =
    if decide (va' / 4096 = va / 4096) then (if Z.testbit w 0 then Some w else None)
    else mmu_walk (kmem h) pgd va'.
Proof.
  intros HR Hv Hv' Et. pose proof (store_pte_rep h pgd T A t va w HR Hv Et) as HR'.
  assert (B : 0 <= va < 4294967296 /\ 0 <= va' < 4294967296) by (unfold KERNEL_START_VIRT in *; lia).
  rewrite (walk_rep _ _ _ _ va' HR Hv').
  pose proof (walk_rep _ _ _ _ va' HR' Hv') as E. rewrite kmem_with in E. rewrite E. clear E.
  destruct (decide _) as [Es|Es].
  - destruct (index_same_page va' va) as [-> E2]; [lia..|done|]. rewrite Et.
    unfold GET_PTE. by rewrite E2, lookup_insert_eq.
  - destruct (T !! PAGE_DIRECTORY_INDEX va') as [t'|] eqn:Et'; [|done].
    rewrite lookup_insert_ne; [done|]. intros E.
    destruct (ur_some _ _ _ _ HR _ _ Et) as (_ & _ & p & _ & _ & -> & _).
    destruct (ur_some _ _ _ _ HR _ _ Et') as (_ & _ & p' & _ & _ & -> & _).
    destruct (decide (p = p')) as [->|Hne].
    + apply Es. pose proof (ur_inj _ _ _ _ HR _ _ _ Et Et') as Ei.
      apply same_page_index; [lia..|done|]. unfold GET_PTE in E. lia.
    + revert E. apply (frames_apart p p'); [apply pte_in_frame; lia..|done].
Qed.

Lemma store_pte_kept h pgd T A t va w :
  user_rep h pgd T A -> 0 <= va < KERNEL_START_VIRT -> T !! PAGE_DIRECTORY_INDEX va = Some t ->
  outside_kept h (with_kmem (<[GET_PTE t va := w]> (kmem h)) h) pgd T A.
Proof.
  intros HR Hv Et. destruct (ur_pgd _ _ _ _ HR) as (q & Hq & ->).
  destruct (ur_some _ _ _ _ HR _ _ Et) as (_ & Hne & p & _ & Hp & -> & _).
  assert (B : in_frame p (GET_PTE (lin p) va)) by (apply pte_in_frame; unfold KERNEL_START_VIRT in *; lia).
  assert (Hu : USER_PDES = 768) by done.
  split_and!; [done|intros i Hi|intros b x a Hb Hx Ha Hx1 Hx2]; rewrite kmem_with, lookup_insert_ne; try done.
  - apply (frames_apart p q); [done|apply word_in_frame; lia|congruence].
  - apply (frames_apart p x); [done|done|]. intros ->. by apply (Hx2 _ Et).
Qed.

(** *** Adding a table *)

#[local] Opaque zero_words.

Section NewTable.
  Context (h : heap P) (q : Z) (T : gmap Z Z) (A : gset (Z * Z)) (i p : Z) (s' : P) (fl : Z).
  Hypothesis HR : user_rep h (lin q) T A.
  Hypothesis Hi : 0 <= i < USER_PDES.
  Hypothesis Ti : T !! i = None.
  Hypothesis Hs' : ps_rep s' (A ∪ {[(p, 0)]}).
  Hypothesis Hfresh : forall b x, b ∈ A -> inb x b -> ~ inb x (p, 0).
  Hypothesis Hfl : 0 <= fl < 4096 /\ Z.testbit fl 0 = true /\ Z.testbit fl 7 = false.

Let m' := <[lin q + 4 * i := p * 4096 + fl]> (zero_words 1024 (lin p) (kmem h)).
Let T' := <[i := lin p]> T.

Lemma fresh_page b x : b ∈ A -> inb x b -> x <> p.
Proof. intros Hb Hx ->. apply (Hfresh b p Hb Hx). apply inb_self. Qed.

Lemma fresh_live x : (x, 0) ∈ A -> x <> p.
Proof. intros Hx. apply (fresh_page (x, 0) x Hx). apply inb_self. Qed.

Lemma directory_fresh : (q, 0) ∈ A /\ q <> p.
Proof.
  destruct (ur_pgd _ _ _ _ HR) as (q' & Hq & E). assert (q' = q) as -> by (unfold lin in E; lia).
  split; [done|by apply fresh_live].
Qed.

Lemma new_table_word j : 0 <= j < 1024 -> m' !! (lin p + 4 * j) = Some 0.
Proof.
  intros Hj. destruct directory_fresh as [_ Hq]. assert (USER_PDES = 768) by done. unfold m'. rewrite lookup_insert_ne.
  - apply zero_words_in. lia.
  - apply (frames_apart q p); [apply word_in_frame; lia..|done].
Qed.

Lemma new_table_other x a : in_frame x a -> x <> p -> a <> lin q + 4 * i -> m' !! a = kmem h !! a.
Proof.
  intros Ha Hx Hne. unfold m'. rewrite lookup_insert_ne by done. apply zero_words_out.
  unfold in_frame, lin in *. lia.
Qed.

Lemma new_table_rep : user_rep (Heap m' (caches h) s') (lin q) T' (A ∪ {[(p, 0)]}).
Proof.
  destruct directory_fresh as [Hq Hqp]. assert (Hu : USER_PDES = 768) by done.
  assert (Hdir : forall k, 0 <= k < USER_PDES -> k <> i -> m' !! (lin q + 4 * k) = kmem h !! (lin q + 4 * k)).
  { intros k Hk Hne. apply (new_table_other q); [apply word_in_frame; lia|done|lia]. }
  assert (Hold : forall k t, T !! k = Some t -> k <> i) by congruence.
  constructor; cbn [kmem source]; unfold T'.
  - exists q. split; [by apply elem_of_union_l|done].
  - intros k Hk. rewrite lookup_insert_None. intros [Ek Hne]. rewrite Hdir by done. by apply (ur_none _ _ _ _ HR).
  - intros k t. rewrite lookup_insert_Some. intros [[<- <-]|[Hne Ek]].
    + split_and!; [lia..|unfold lin; lia|]. exists p, fl. split_and!; [by apply elem_of_union_r, elem_of_singleton|done|lia|lia|apply Hfl|apply Hfl|].
      unfold m'. by rewrite lookup_insert_eq.
    + destruct (ur_some _ _ _ _ HR k t Ek) as (Hk & Ht & pp & f & Hpp & -> & Hf & Hf0 & Hf7 & Ee).
      split_and!; [lia..|done|]. exists pp, f. split_and!; try done; [by apply elem_of_union_l|lia|lia|]. by rewrite Hdir by done.
  - intros k t j. rewrite lookup_insert_Some. intros [[<- <-]|[Hne Ek]] Hj.
    + rewrite new_table_word by done. by eexists.
    + destruct (ur_some _ _ _ _ HR k t Ek) as (_ & Ht & pp & f & Hpp & -> & _).
      rewrite (new_table_other pp); [by apply (ur_words _ _ _ _ HR k)|by apply word_in_frame|by apply fresh_live|].
      apply (frames_apart pp q); [apply word_in_frame; lia..|congruence].
  - intros k1 k2 t. rewrite !lookup_insert_Some. intros [[<- <-]|[Hne Ek]] [[<- E]|[Hne' Ek']]; try done.
    + destruct (ur_some _ _ _ _ HR _ _ Ek') as (_ & _ & pp & _ & Hpp & E & _).
      destruct (fresh_live pp Hpp). unfold lin in E. lia.
    + subst t. destruct (ur_some _ _ _ _ HR _ _ Ek) as (_ & _ & pp & _ & Hpp & E & _).
      destruct (fresh_live pp Hpp). unfold lin in E. lia.
    + by apply (ur_inj _ _ _ _ HR _ _ t).
  - done.
Qed.

Lemma new_table_walk va : 0 <= va < KERNEL_START_VIRT -> mmu_walk m' (lin q) va = mmu_walk (kmem h) (lin q) va.
Proof.
  intros Hv. rewrite (walk_rep _ _ _ _ va HR Hv).
  pose proof (walk_rep _ _ _ _ va new_table_rep Hv) as E. cbn [kmem] in E. rewrite E. unfold T'.
  assert (Hv' : 0 <= va < 4294967296) by (unfold KERNEL_START_VIRT in Hv; lia).
  destruct (decide (PAGE_DIRECTORY_INDEX va = i)) as [->|Hne].
  - rewrite lookup_insert_eq, Ti. unfold GET_PTE. rewrite new_table_word by (apply PTI_range; exact Hv'). reflexivity.
  - rewrite lookup_insert_ne by done. destruct (T !! PAGE_DIRECTORY_INDEX va) as [t|] eqn:Et; [|done].
    destruct (ur_some _ _ _ _ HR _ _ Et) as (_ & Ht & pp & f & Hpp & -> & _).
    rewrite (new_table_other pp); [done|by apply pte_in_frame|by apply fresh_live|].
    apply (frames_apart pp q); [by apply pte_in_frame|apply word_in_frame; unfold USER_PDES in *; lia|congruence].
Qed.

Lemma new_table_kept : outside_kept h (Heap m' (caches h) s') (lin q) T A.
Proof.
  destruct directory_fresh as [Hq Hqp]. assert (Hu : USER_PDES = 768) by done.
  split_and!; [done|intros k Hk|intros b x a Hb Hx Ha Hx1 Hx2]; cbn [kmem].
  - apply (new_table_other q); [apply word_in_frame; lia|done|lia].
  - apply (new_table_other x); [done|by apply (fresh_page b)|].
    apply (frames_apart x q); [done|apply word_in_frame; lia|congruence].
Qed.

End NewTable.

(** ** Mapping a page *)

(** The entry [ptable_map] writes. *)
Definition map_entry (pa fl : Z) : Z :=
  if TEST_BIT fl VM_MAP_WRITE then PTE_SET_WRITABLE (MAKE_PTE pa (Z.lor PTE_PRESENT PTE_USER))
  else MAKE_PTE pa (Z.lor PTE_PRESENT PTE_USER).

Lemma map_entry_eq pa fl : 0 <= pa < 4294967296 ->
  map_entry pa fl = pa - pa mod 4096 + (if TEST_BIT fl VM_MAP_WRITE then 7 else 5).
Proof.
  intros Hp. unfold map_entry. rewrite MAKE_PTE_eq by (done || vm_compute; split; congruence).
  change (Z.lor PTE_PRESENT PTE_USER) with 5. destruct (TEST_BIT fl VM_MAP_WRITE); [|done].
  unfold PTE_SET_WRITABLE, PTE_WRITABLE.
  assert (Hd : (pa - pa mod 4096) mod 2 ^ 12 = 0) by (change (2 ^ 12) with 4096; rewrite Zminus_mod_idemp_r, Z.sub_diag; done).
  rewrite <- (lor_disjoint _ 5 12 ltac:(lia) Hd ltac:(lia)), <- Z.lor_assoc. change (Z.lor 5 2) with 7.
  by apply (lor_disjoint _ 7 12).
Qed.

Lemma outside_kept_refl h pgd T A : outside_kept h h pgd T A.
Proof. done. Qed.

(** The directory entry of [va] is made to exist. *)
Definition ensure_table (pgd va : Z) : ST (heap P) unit :=
  (e <- load (GET_PDE pgd va) ;;
   if negb (PDE_EXISTS e) then
     p <- alloc_frame 0 ;;
     clear_words 1024 (PHY_TO_VIR (PFN_TO_PA p)) ;;
     store (GET_PDE pgd va) (MAKE_PDE (PFN_TO_PA p) (Z.lor PDE_PRESENT (Z.lor PDE_WRITABLE PDE_USER)))
   else ret tt)%st.

Lemma ensure_table_spec h pgd T A va :
  user_rep h pgd T A -> 0 <= va < KERNEL_START_VIRT ->
  (exists h' T' A' t, ensure_table pgd va h = Some (tt, h') /\ user_rep h' pgd T' A' /\ A ⊆ A' /\ T ⊆ T' /\
     T' !! PAGE_DIRECTORY_INDEX va = Some t /\ outside_kept h h' pgd T A /\
     (forall i t', T' !! i = Some t' -> T !! i = Some t' \/
        forall b x, b ∈ A -> inb x b -> lin x <> t') /\
     (forall va', 0 <= va' < KERNEL_START_VIRT -> mmu_walk (kmem h') pgd va' = mmu_walk (kmem h) pgd va')) \/
  (T !! PAGE_DIRECTORY_INDEX va = None /\ ensure_table pgd va h = None /\
     exists s', ps_alloc 0 (source h) = Some (None, s')).
Proof.
  intros HR Hv. pose proof (user_index va Hv) as Hi. unfold ensure_table, GET_PDE.
  destruct (T !! PAGE_DIRECTORY_INDEX va) as [t|] eqn:Et.
  { left. destruct (ur_some _ _ _ _ HR _ _ Et) as (_ & _ & p & fl & _ & _ & Hfl & Hf0 & _ & Ee).
    rewrite (bind_some _ _ _ _ _ (load_some _ _ _ Ee)), present_bit, entry_bits, Hf0 by lia.
    exists h, T, A, t. split_and!; try done. by left. }
  destruct (ur_none _ _ _ _ HR _ Hi Et) as (e & Ee & He).
  rewrite (bind_some _ _ _ _ _ (load_some _ _ _ Ee)), present_bit, He. cbn [negb].
  destruct (ps_alloc_spec (source h) A 0 (ur_source _ _ _ _ HR) ltac:(done))
    as [(p & s' & E & HR' & Hf & _ & _)|(s' & E & _)].
  2:{ right. split_and!; [done| |by exists s']. unfold alloc_frame, take_page, bind. by rewrite E. }
  left. destruct (ur_pgd _ _ _ _ HR) as (q & Hq & ->).
  destruct (lin_page _ _ p HR' ltac:(by apply elem_of_union_r, elem_of_singleton)) as [Hp El].
  assert (Hp' : 0 <= p < 1048576) by (unfold LINEAR_FRAMES in Hp; lia).
  assert (Ha : alloc_frame 0 h = Some (p, Heap (kmem h) (caches h) s')).
  { unfold alloc_frame, take_page, bind. by rewrite E. }
  rewrite (bind_some _ _ _ _ _ Ha), PFN_TO_PA_eq, El by done.
  rewrite (bind_some _ _ _ _ _ (clear_words_run _ _ _)), store_run. unfold with_kmem. cbn [kmem caches source].
  rewrite <- (PFN_TO_PA_eq p Hp'). change MAKE_PDE with MAKE_PTE. rewrite entry_eq by done.
  change (Z.lor PDE_PRESENT (Z.lor PDE_WRITABLE PDE_USER)) with 7.
  assert (Hfl : 0 <= 7 < 4096 /\ Z.testbit 7 0 = true /\ Z.testbit 7 7 = false) by done.
  eexists _, (<[PAGE_DIRECTORY_INDEX va := lin p]> T), (A ∪ {[(p, 0)]}), (lin p). split; [done|].
  split_and!; [by apply new_table_rep|apply union_subseteq_l|by apply insert_subseteq|by rewrite lookup_insert_eq| | |].
  - by apply new_table_kept.
  - intros i t'. rewrite lookup_insert_Some. intros [[<- <-]|[_ ?]]; [right|by left].
    intros b x Hb Hx E'. apply (fresh_page A p Hf b x Hb Hx). unfold lin in E'. lia.
  - intros va' Hv'. by apply (new_table_walk h q T A _ p s' 7).
Qed.

Lemma ptable_map_split pgd va pa fl h :
  ptable_map pgd va pa fl h =
  (ensure_table pgd va ;; e <- load (GET_PDE pgd va) ;; store (GET_PTE (PDE_TO_PGT e) va) (map_entry pa fl))%st h.
Proof.
  unfold ptable_map, ensure_table, bind, map_entry. cbv zeta. destruct (load _ h) as [[e h1]|]; [|done].
  destruct (TEST_BIT fl VM_MAP_WRITE); destruct (negb (PDE_EXISTS e)); reflexivity.
Qed.

Lemma load_table h pgd T A va t :
  user_rep h pgd T A -> T !! PAGE_DIRECTORY_INDEX va = Some t ->
  exists e, kmem h !! GET_PDE pgd va = Some e /\ Z.testbit e 0 = true /\ PDE_TO_PGT e = t.
Proof.
  intros HR Et. destruct (ur_some _ _ _ _ HR _ _ Et) as (_ & _ & p & fl & Hp & -> & Hfl & Hf0 & _ & Ee).
  destruct (lin_page _ _ p (ur_source _ _ _ _ HR) Hp) as [Hpr El]. unfold LINEAR_FRAMES in Hpr.
  exists (p * 4096 + fl). split; [done|]. split; [by rewrite entry_bits by lia|].
  by rewrite PDE_TO_PGT_entry, El by lia.
Qed.

Lemma outside_kept_trans h h1 h' pgd T T' A A' :
  outside_kept h h1 pgd T A -> outside_kept h1 h' pgd T' A' -> A ⊆ A' ->
  (forall i t', T' !! i = Some t' -> T !! i = Some t' \/ forall b x, b ∈ A -> inb x b -> lin x <> t') ->
  outside_kept h h' pgd T A.
Proof.
  intros (C1 & K1 & O1) (C2 & K2 & O2) Hs Ht. split_and!; [congruence| |].
  - intros i Hi. by rewrite K2, K1.
  - intros b x a Hb Hx Ha Hp HT. rewrite (O2 b x), (O1 b x); try done; [set_solver|].
    intros i Ei. destruct (Ht i _ Ei) as [E|E]; [by apply (HT i)|by apply (E b x)].
Qed.

(** [ptable_map] maps exactly the page of [va]. *)
Lemma ptable_map_spec h pgd T A va pa fl :
  user_rep h pgd T A -> 0 <= va < KERNEL_START_VIRT -> 0 <= pa < 4294967296 ->
  (exists h' T' A', ptable_map pgd va pa fl h = Some (tt, h') /\ user_rep h' pgd T' A' /\ A ⊆ A' /\ T ⊆ T' /\
     outside_kept h h' pgd T A /\
     (forall i t', T' !! i = Some t' -> T !! i = Some t' \/ forall b x, b ∈ A -> inb x b -> lin x <> t') /\
     (forall va', 0 <= va' < KERNEL_START_VIRT -> mmu_walk (kmem h') pgd va' =
        if decide (va' / 4096 = va / 4096) then Some (map_entry pa fl) else mmu_walk (kmem h) pgd va')) \/
  (T !! PAGE_DIRECTORY_INDEX va = None /\ ptable_map pgd va pa fl h = None /\
     exists s', ps_alloc 0 (source h) = Some (None, s')).
Proof.
  intros HR Hv Hp. rewrite ptable_map_split.
  destruct (ensure_table_spec h pgd T A va HR Hv) as [(h1 & T' & A' & t & E & HR' & HA & HT & Et & Ho & Hn & Hw)|(HN & E & Hs)].
  2:{ right. split_and!; [done| |done]. unfold bind. by rewrite E. }
  left. rewrite (bind_some _ _ _ _ _ E).
  destruct (load_table h1 pgd T' A' va t HR' Et) as (e & Ee & _ & <-).
  rewrite (bind_some _ _ _ _ _ (load_some _ _ _ Ee)), store_run.
  eexists _, T', A'. split; [done|]. split_and!; [by apply store_pte_rep|done|done| |done|].
  - apply (outside_kept_trans h h1 _ pgd T T' A A'); try done. by apply store_pte_kept.
  - intros va' Hv'. rewrite kmem_with, (store_pte_walk h1 pgd T' A') by done. rewrite Hw by done.
    destruct (decide _); [|done]. assert (Z.testbit (map_entry pa fl) 0 = true) as ->; [|done].
    rewrite map_entry_eq by done. assert (pa - pa mod 4096 = pa / 4096 * 4096) as -> by (rewrite (Z.mod_eq pa 4096) by lia; lia).
    destruct (TEST_BIT fl VM_MAP_WRITE); by rewrite entry_bits by lia.
Qed.

(** ** Unmapping a page *)

Lemma unmapped_entry e : Z.testbit (pte_clear_present (pte_clear_address e)) 0 = false.
Proof. unfold pte_clear_present. rewrite Z.land_spec. change (Z.testbit (u32 (Z.lnot 1)) 0) with false. apply andb_false_r. Qed.

Lemma ptable_unmap_spec h pgd T A va :
  user_rep h pgd T A -> 0 <= va < KERNEL_START_VIRT ->
  exists h', ptable_unmap pgd va false h = Some (tt, h') /\ user_rep h' pgd T A /\ outside_kept h h' pgd T A /\
    source h' = source h /\
    forall va', 0 <= va' < KERNEL_START_VIRT -> mmu_walk (kmem h') pgd va' =
      if decide (va' / 4096 = va / 4096) then None else mmu_walk (kmem h) pgd va'.
Proof.
  intros HR Hv. unfold ptable_unmap. assert (Hv' : 0 <= va < 4294967296) by (unfold KERNEL_START_VIRT in Hv; lia).
  destruct (T !! PAGE_DIRECTORY_INDEX va) as [t|] eqn:Et.
  2:{ destruct (ur_none _ _ _ _ HR _ (user_index va Hv) Et) as (e & Ee & He).
      rewrite (bind_some _ _ _ _ _ (load_some _ _ _ Ee)), present_bit, He. exists h. split_and!; try done.
      intros va' Hva'. destruct (decide _) as [Es|]; [|done]. rewrite (walk_rep _ _ _ _ va' HR Hva').
      destruct (index_same_page va' va) as [-> _]; [unfold KERNEL_START_VIRT in *; lia..|done|]. by rewrite Et. }
  destruct (load_table h pgd T A va t HR Et) as (e & Ee & He & <-).
  rewrite (bind_some _ _ _ _ _ (load_some _ _ _ Ee)), present_bit, He. cbn [negb].
  destruct (ur_words _ _ _ _ HR _ _ (PAGE_TABLE_INDEX va) Et ltac:(by apply PTI_range)) as [w Ew]. fold (GET_PTE (PDE_TO_PGT e) va) in Ew.
  set (pte := GET_PTE (PDE_TO_PGT e) va) in *.
  rewrite (bind_some _ _ _ _ _ (load_some _ _ _ Ew)), bind_ret, (bind_some _ _ _ _ _ (load_some _ _ _ Ew)), (bind_some _ _ _ _ _ (store_run _ _ _)).
  set (h1 := with_kmem _ h). assert (E1 : kmem h1 !! pte = Some (pte_clear_address w)) by (unfold h1; by rewrite kmem_with, lookup_insert_eq).
  rewrite (bind_some _ _ _ _ _ (load_some _ _ _ E1)), store_run. unfold h1. rewrite kmem_with, insert_insert_eq.
  set (w' := pte_clear_present _).
  exists (with_kmem (<[pte := w']> (kmem h)) h). split; [done|]. split_and!; [by apply store_pte_rep|by apply store_pte_kept|done|].
  intros va' Hva'. rewrite kmem_with. unfold pte. rewrite (store_pte_walk h pgd T A) by done.
  unfold w'. by rewrite unmapped_entry.
Qed.

(** ** Translations of whole addresses *)

Lemma address_rep h pgd T A va :
  user_rep h pgd T A -> 0 <= va < KERNEL_START_VIRT ->
  mmu_address (kmem h) pgd va = (fun pte => pte - pte mod 4096 + va mod 4096) <$> mmu_walk (kmem h) pgd va.
Proof.
  intros HR Hv. unfold mmu_address. pose proof (user_index va Hv) as Hi.
  destruct (T !! PAGE_DIRECTORY_INDEX va) as [t|] eqn:Et.
  - destruct (ur_some _ _ _ _ HR _ _ Et) as (_ & _ & p & fl & _ & _ & Hfl & Hf0 & Hf7 & Ee). unfold GET_PDE.
    rewrite Ee, !entry_bits, Hf0, Hf7 by lia. cbn [negb]. by destruct (mmu_walk _ _ _).
  - destruct (ur_none _ _ _ _ HR _ Hi Et) as (e & Ee & He). unfold mmu_walk, GET_PDE. by rewrite Ee, He.
Qed.

Lemma map_entry_frame pa fl : 0 <= pa < 4294967296 -> pa mod 4096 = 0 ->
  map_entry pa fl - map_entry pa fl mod 4096 = pa.
Proof.
  intros Hp Hm. rewrite map_entry_eq by done. rewrite Hm, Z.sub_0_r.
  assert (pa = pa / 4096 * 4096) as -> by (rewrite (Z.div_mod pa 4096) at 1 by lia; lia).
  apply entry_frame. by destruct (TEST_BIT fl VM_MAP_WRITE).
Qed.

(** [n] pages from [va] on go to the [n] frames from [pa] on. *)
Definition maps_range h h' (pgd va pa : Z) (n : nat) (fl : Z) : Prop :=
  forall va', 0 <= va' < KERNEL_START_VIRT ->
    mmu_walk (kmem h') pgd va' =
      if decide (va / 4096 <= va' / 4096 < va / 4096 + Z.of_nat n)
      then Some (map_entry (pa + 4096 * (va' / 4096 - va / 4096)) fl)
      else mmu_walk (kmem h) pgd va'.

Lemma map_many_spec n : forall h pgd T A va pa fl h',
  user_rep h pgd T A -> 0 <= va -> va + 4096 * Z.of_nat n <= KERNEL_START_VIRT ->
  0 <= pa -> pa + 4096 * Z.of_nat n <= 4294967296 ->
  map_many n pgd va pa fl h = Some (tt, h') ->
  exists T' A', user_rep h' pgd T' A' /\ A ⊆ A' /\ outside_kept h h' pgd T A /\
    (forall i t', T' !! i = Some t' -> T !! i = Some t' \/ forall b x, b ∈ A -> inb x b -> lin x <> t') /\
    maps_range h h' pgd va pa n fl.
Proof.
  induction n as [|n IH]; intros h pgd T A va pa fl h' HR Hv0 Hv Hp0 Hp; cbn [map_many].
  - intros [= <-]. exists T, A. split_and!; try done; [by left|]. intros va' _. by destruct (decide _) as [D|D]; [lia|].
  - assert (Hk : KERNEL_START_VIRT = 3221225472) by done.
    destruct (ptable_map_spec h pgd T A va pa fl HR ltac:(lia) ltac:(lia))
      as [(h1 & T1 & A1 & E & HR1 & HA & HT & Ho & Hn & Hw)|(_ & E & _)].
    2:{ unfold bind. rewrite E. discriminate. }
    rewrite (bind_some _ _ _ _ _ E). destruct n as [|n'].
    { cbn [map_many]. intros [= <-]. exists T1, A1. split_and!; try done. intros va' Hva'. rewrite Hw by done.
      destruct (decide _) as [D|D], (decide _) as [D'|D']; try done; [|lia..]. by rewrite D, Z.sub_diag, Z.mul_0_r, Z.add_0_r.
      }
    unfold PAGE_SIZE. rewrite !u32_small by lia. intros E2.
    destruct (IH h1 pgd T1 A1 (va + 4096) (pa + 4096) fl h' HR1 ltac:(lia) ltac:(lia) ltac:(lia) ltac:(lia) E2)
      as (T' & A' & HR' & HA' & Ho' & Hn' & Hw'). exists T', A'.
    assert (Hd : (va + 4096) / 4096 = va / 4096 + 1) by (rewrite <- (Z.mul_1_l 4096) at 1; apply Z.div_add; lia).
    split_and!; [done|set_solver|by eapply outside_kept_trans| |].
    + intros i t' Ei. destruct (Hn' i t' Ei) as [E'|E']; [by apply Hn|]. right. intros b x Hb. apply E'. set_solver.
    + intros va' Hva'. rewrite Hw', Hw, Hd by done.
      destruct (decide _) as [D1|D1], (decide (va / 4096 <= _ < _)) as [D2|D2]; try lia.
      * do 2 f_equal. lia.
      * destruct (decide _) as [D3|D3]; [|lia]. by rewrite D3, Z.sub_diag, Z.mul_0_r, Z.add_0_r.
      * destruct (decide _) as [D3|D3]; [lia|done].
Qed.

End Words.
