(* ===== verification/HeapGrow.v ===== *)
(** * The heap beside other users of pages

    Creating a task takes objects from the heap and whole blocks from the page
    allocator.  [extends h h' G G' A A']: from [h] to [h'] blocks were taken from
    the page source and objects became live, and nothing that was there before
    changed: neither a live object nor any word outside the heap's slabs and the
    new blocks. *)

From stdpp Require Import base numbers list gmap.
From Stdlib Require Import ZArith Lia.
From S2P Require Import Prelude PageDefs Blocks Palloc PageSource Slab SlabInv SlabSpec HeapClaims Ptable HeapClient PtableSpec.

#[local] Open Scope Z_scope.

(** The words of the page block [b]. *)
Definition in_block (b : Z * Z) (a : Z) : Prop := lin b.1 <= a < lin b.1 + 4096 * 2 ^ b.2.

Lemma in_block_frame b a : in_block b a <-> exists x, inb x b /\ in_frame x a.
Proof.
  unfold in_block, inb, in_frame, lin. split.
  - intros Ha. exists ((a - KERNEL_START_VIRT) / 4096). pose proof (Z.div_mod (a - KERNEL_START_VIRT) 4096 ltac:(lia)).
    pose proof (Z.mod_pos_bound (a - KERNEL_START_VIRT) 4096 ltac:(lia)). lia.
  - intros (x & Hx & Ha). lia.
Qed.

Section Grow.
  Context {P : Type} `{PageSource P}.

  Implicit Types (h : heap P) (G : list (list (Z * list Z))) (A : gset (Z * Z)).

(** What [ps_alloc] promises of the block it returned. *)
Lemma alloc_fresh (s s' : P) A k p : ps_rep s A -> 0 <= k <= ORDER_MAX -> ps_alloc k s = Some (Some p, s') ->
  ps_rep s' (A ∪ {[(p, k)]}) /\ ((p, k) ∉ A) /\ (forall b x, b ∈ A -> inb x b -> ~ inb x (p, k)) /\ 0 <= p /\ p + 2 ^ k <= LINEAR_FRAMES.
Proof.
  intros HR Hk E. destruct (ps_alloc_spec s A k HR Hk) as [(p' & s1 & E1 & HR1 & Hf & Hal & Hr)|(s1 & E1 & _)]; rewrite E in E1; [|discriminate].
  injection E1 as <- <-. split_and!; try done; [|apply Hal]. intros Hin. apply (Hf (p, k) p Hin); apply inb_head; lia.
Qed.

Record extends h h' G G' A A' : Prop := Extends {
  ex_sub : A ⊆ A';
  ex_fresh : forall b b' x, b ∈ A -> b' ∈ A' -> b' ∉ A -> inb x b -> ~ inb x b';
  ex_live : forall j y, live G j y -> live G' j y;
  ex_slabs : forall a, slab_word G' a -> slab_word G a \/ exists b, b ∈ A' /\ (b ∉ A) /\ in_block b a;
  ex_same : same_contents h h' G;
  ex_out : forall a, ~ slab_word G a -> (forall b, b ∈ A' -> b ∉ A -> ~ in_block b a) -> kmem h' !! a = kmem h !! a
}.

Lemma extends_trans h1 h2 h3 G1 G2 G3 A1 A2 A3 :
  extends h1 h2 G1 G2 A1 A2 -> extends h2 h3 G2 G3 A2 A3 -> extends h1 h3 G1 G3 A1 A3.
Proof.
  intros [S1 F1 L1 W1 C1 O1] [S2 F2 L2 W2 C2 O2]. split.
  - by etrans.
  - intros b b' x Hb Hb' Hn. destruct (decide (b' ∈ A2)) as [H2|H2]; [by apply F1|]. apply F2; try done. by apply S1.
  - auto.
  - intros a Ha. destruct (W2 a Ha) as [Ha2|(b & Hb & Hn & Hab)].
    + destruct (W1 a Ha2) as [?|(b & Hb & Hn & Hab)]; [by left|]. right. exists b. split; [by apply S2|done].
    + right. exists b. split_and!; try done. intros Hb1. by apply Hn, S1.
  - intros j y sz a Hy Ej Ha. rewrite (C2 j y sz), (C1 j y sz); auto.
  - intros a Ha Hn. rewrite O2, O1; try done.
    + intros b Hb Hb1. apply Hn; [by apply S2|done].
    + intros Ha2. destruct (W1 a Ha2) as [?|(b & Hb & Hb1 & Hab)]; [done|]. apply (Hn b); [by apply S2|done|done].
    + intros b Hb Hb2. apply Hn; [done|]. intros Hb1. by apply Hb2, S1.
Qed.

(** The words of a slab are in a block of 16 pages. *)
Lemma slab_word_block h G A a : heap_rep h G A -> slab_word G a -> exists p, (p, SLAB_DEFAULT_ORDER) ∈ A /\ in_block (p, SLAB_DEFAULT_ORDER) a.
Proof.
  intros HR (b & Hb & Ha). destruct (hr_pages _ _ _ HR b Hb) as (p & Hp & ->). exists p. split; [done|].
  unfold in_block, lin, SLAB_DEFAULT_ORDER in *. cbn [fst snd]. change (2 ^ 4) with 16. unfold SLAB_BYTES in Ha. lia.
Qed.

Lemma live_slab_word h G A i x sz a : heap_rep h G A -> live G i x -> sizes !! i = Some sz -> x <= a < x + sz -> slab_word G a.
Proof. intros HR HL Esz Ha. destruct (live_area h G A i x sz a HR HL Esz Ha) as (b & Hb & _ & Hab). exists b. split; [done|]. unfold SIZEOF_HEADER in Hab. lia. Qed.

Lemma meta_slab_word h G A a : heap_rep h G A -> meta G a -> slab_word G a.
Proof.
  intros HR (i & S & b & fl & EG & HS & Hin). exists b.
  assert (Hb : b ∈ S.*1) by (apply list_elem_of_fmap; by exists (b, fl)).
  split; [by eapply bases_elem|]. destruct Hin as [Ha|Ha]; [unfold SIZEOF_HEADER, SLAB_BYTES in *; lia|].
  destruct (cache_facts h G A i HR) as (k & S' & sz & _ & EG' & Esz & Hs & _ & HC & _).
  { apply lookup_lt_Some in EG. by rewrite (hr_slabs _ _ _ HR) in EG. }
  rewrite EG in EG'. injection EG' as <-. apply list_elem_of_split in HS as (S1 & S2 & ->).
  destruct (chain_app _ _ _ _ _ _ _ HC) as (nx & HS & _). pose proof (so_objs _ _ _ _ _ HS) as HO. rewrite Forall_forall in HO.
  destruct (is_obj_range b sz a Hs (HO a Ha)). unfold size_ok in Hs. slab_lia.
Qed.

(** The heap does not mind changes outside its slabs, nor new blocks. *)
Lemma heap_outside h G A m' :
  heap_rep h G A -> (forall a, slab_word G a -> m' !! a = kmem h !! a) -> heap_rep (with_kmem m' h) G A.
Proof. intros HR Hm. apply (heap_meta h); [done|]. intros a Ha. apply Hm. by eapply meta_slab_word. Qed.

Lemma heap_source h G A s' A' : heap_rep h G A -> A ⊆ A' -> ps_rep s' A' -> heap_rep (Heap (kmem h) (caches h) s') G A'.
Proof. intros [H1 H2 H3 H4 H5 H6] HA HR. constructor; try done. intros b Hb. destruct (H5 b Hb) as (p & Hp & ->). exists p. split; [by apply HA|done]. Qed.

(** ** Extending steps *)

Lemma grown_extends h h' G G' A A' i x :
  heap_rep h G A -> heap_rep h' G' A' -> made_live h h' G G' i x -> grown h h' G G' A A' -> extends h h' G G' A A'.
Proof.
  intros HR HR' (HL & HN & HC) [Hg Ho]. assert (HLv : forall j y, live G j y -> live G' j y) by (intros j y Hy; apply HL; by left).
  destruct Hg as [(EB & -> & Es)|(p & EB & -> & Ep)].
  - assert (HW : forall a, slab_word G' a <-> slab_word G a) by (intros a; unfold slab_word; by rewrite EB).
    split; try done.
    + intros a Ha%HW. by left.
    + intros a Ha _. apply Ho. by rewrite HW.
  - destruct (alloc_fresh (source h) (source h') A SLAB_DEFAULT_ORDER p (hr_source _ _ _ HR) ltac:(done) Ep) as (_ & Hn & Hf & _).
    assert (HW : forall a, slab_word G' a -> slab_word G a \/ in_block (p, SLAB_DEFAULT_ORDER) a).
    { intros a (b & Hb & Ha). rewrite EB in Hb. apply elem_of_cons in Hb as [->|Hb]; [right|left; by exists b].
      unfold in_block, lin, SLAB_DEFAULT_ORDER in *. cbn [fst snd]. change (2 ^ 4) with 16. unfold SLAB_BYTES in Ha. lia. }
    split; try done.
    + set_solver.
    + intros b b' y Hb Hb' Hn' Hy. assert (b' = (p, SLAB_DEFAULT_ORDER)) as -> by set_solver. by apply (Hf b).
    + intros a [?|Ha]%HW; [by left|]. right. eexists. split; [|split; [exact Hn|exact Ha]]. set_solver.
    + intros a Ha Hb. apply Ho. intros [?|Ha']%HW; [done|]. apply (Hb (p, SLAB_DEFAULT_ORDER)); [set_solver|done|done].
Qed.

(** Taking a block changes nothing. *)
Lemma take_extends h G A k p s' :
  heap_rep h G A -> 0 <= k <= ORDER_MAX -> ps_alloc k (source h) = Some (Some p, s') ->
  take_page k h = Some (Some p, Heap (kmem h) (caches h) s') /\ heap_rep (Heap (kmem h) (caches h) s') G (A ∪ {[(p, k)]}) /\
  extends h (Heap (kmem h) (caches h) s') G G A (A ∪ {[(p, k)]}).
Proof.
  intros HR Hk E. destruct (alloc_fresh (source h) s' A k p (hr_source _ _ _ HR) Hk E) as (HR' & Hn & Hf & _). split_and!.
  - unfold take_page. by rewrite E.
  - apply (heap_source h G A); [done|set_solver|done].
  - split; try done; [set_solver| |by left]. intros b b' x Hb Hb' Hn' Hx. assert (b' = (p, k)) as -> by set_solver. by apply (Hf b).
Qed.

(** Writes into a new object or a new block. *)
Lemma extends_object h h' G G' A A' i x sz m' :
  extends h h' G G' A A' -> heap_rep h' G' A' -> live G' i x -> ~ live G i x -> sizes !! i = Some sz ->
  only_object (kmem h') m' x sz -> extends h (with_kmem m' h') G G' A A'.
Proof.
  intros [S F L W C O] HR Hx Hn Esz Ho. split; try done.
  - intros j y szj a Hy Ej Ha. cbn. rewrite <- (C j y szj a Hy Ej Ha).
    apply (object_apart h' G' A' i j x y sz szj); try done; [by apply L|].
    apply (live_ne h' G' A' i j); [done|done|by apply L|]. intros [= <- <-]. done.
  - intros a Ha Hb. cbn. rewrite <- (O a Ha Hb). apply Ho. intros Hin.
    destruct (W a (live_slab_word _ _ _ _ _ _ _ HR Hx Esz Hin)) as [?|(b & Hb1 & Hb2 & Hab)]; [done|]. by apply (Hb b).
Qed.

Lemma extends_block h h' G G' A A' b m' :
  heap_rep h G A -> extends h h' G G' A A' -> b ∈ A' -> b ∉ A -> (forall a, ~ in_block b a -> m' !! a = kmem h' !! a) ->
  extends h (with_kmem m' h') G G' A A'.
Proof.
  intros HR [S F L W C O] Hb Hn Ho. split; try done.
  - intros j y sz a Hy Ej Ha. cbn. rewrite <- (C j y sz a Hy Ej Ha). apply Ho. intros Hab.
    destruct (slab_word_block h G A a HR (live_slab_word _ _ _ _ _ _ _ HR Hy Ej Ha)) as (p & Hp & Hpa).
    apply in_block_frame in Hab as (x & Hx & Hxa), Hpa as (z & Hz & Hza). assert (z = x) as -> by (unfold in_frame, lin in *; lia).
    by apply (F _ b x Hp Hb Hn Hz).
  - intros a Ha Hnb. cbn. rewrite <- (O a Ha Hnb). apply Ho. by apply Hnb.
Qed.

(** A block that holds no slab stays free of slabs. *)
Definition no_slab G (b : Z * Z) : Prop := forall a, slab_word G a -> ~ in_block b a.

Lemma no_slab_extends h h' G G' A A' b : extends h h' G G' A A' -> b ∈ A -> no_slab G b -> no_slab G' b.
Proof.
  intros [S F L W C O] Hb Hs a Ha Hab. destruct (W a Ha) as [Ha'|(b' & Hb' & Hn & Ha')]; [by apply (Hs a)|].
  apply in_block_frame in Hab as (x & Hx & Hxa), Ha' as (z & Hz & Hza). assert (z = x) as -> by (unfold in_frame, lin in *; lia).
  by apply (F b b' x Hb Hb' Hn Hx).
Qed.

Lemma no_slab_new h G A b : heap_rep h G A -> (forall c x, c ∈ A -> inb x c -> ~ inb x b) -> no_slab G b.
Proof.
  intros HR Hf a Ha Hab. destruct (slab_word_block h G A a HR Ha) as (p & Hp & Hpa).
  apply in_block_frame in Hab as (x & Hx & Hxa), Hpa as (z & Hz & Hza). assert (z = x) as -> by (unfold in_frame, lin in *; lia).
  by apply (Hf _ x Hp Hz).
Qed.

(** ** A page source with room, off the kernel's own frames *)

(** No block of [A] contains a frame of [K]. *)
Definition clear_of (K : Z -> Prop) A : Prop := forall b x, b ∈ A -> inb x b -> ~ K x.

(** The source can supply [n] times a block of 16 pages or a single page,
    whichever is asked for, none of them with a frame of [K]. *)
Fixpoint roomy (K : Z -> Prop) (n : nat) (s : P) : Prop :=
  match n with
  | O => True
  | S k => forall o, o = 0 \/ o = SLAB_DEFAULT_ORDER ->
      exists p s', ps_alloc o s = Some (Some p, s') /\ (forall x, inb x (p, o) -> ~ K x) /\ roomy K k s'
  end.

Lemma roomy_le K n : forall s, roomy K (S n) s -> roomy K n s.
Proof.
  induction n as [|n IH]; intros s Hr; [done|]. intros o Ho. destruct (Hr o Ho) as (p & s' & E & Hk & Hs). exists p, s'. split_and!; try done. by apply IH.
Qed.

(** Room can be checked by running the source; [lo] is the first frame that is
    not kept back. *)
Fixpoint roomyb (lo : Z) (n : nat) (s : P) : bool :=
  match n with
  | O => true
  | S k => forallb (fun o => match ps_alloc o s with Some (Some p, s') => (lo <=? p) && roomyb lo k s' | _ => false end) [0; SLAB_DEFAULT_ORDER]
  end.

Lemma roomyb_spec lo n : forall s, roomyb lo n s = true -> roomy (fun x => x < lo) n s.
Proof.
  induction n as [|n IH]; intros s; [done|]. cbn [roomyb roomy]. rewrite forallb_forall. intros Hb o Ho.
  assert (Hin : In o [0; SLAB_DEFAULT_ORDER]) by (destruct Ho as [-> | ->]; cbn; auto). specialize (Hb o Hin). cbv beta in Hb.
  destruct (ps_alloc o s) as [[[p|] s']|]; try discriminate Hb. apply andb_true_iff in Hb as [H1%Z.leb_le H2].
  exists p, s'. split_and!; [done| |by apply IH]. intros x Hx. unfold inb in Hx. cbn in Hx. lia.
Qed.

Lemma clear_add K A b : clear_of K A -> (forall x, inb x b -> ~ K x) -> clear_of K (A ∪ {[b]}).
Proof. intros HA Hb c x [Hc|Hc%elem_of_singleton]%elem_of_union; [by apply HA|]. subst c. by apply Hb. Qed.

(** A request to the heap. *)
Lemma kmalloc_roomy K n h G A size :
  heap_rep h G A -> size <= 32768 -> roomy K (S n) (source h) -> clear_of K A ->
  exists x h' G' A' i, kmalloc size h = Some (x, h') /\ 0 < x /\ heap_rep h' G' A' /\ cache_for size i /\
    live G' i x /\ ~ live G i x /\ (forall j y, live G' j y <-> live G j y \/ (j = i /\ y = x)) /\
    extends h h' G G' A A' /\ roomy K n (source h') /\ clear_of K A'.
Proof.
  intros HR Hs Hp HK. destruct (Hp SLAB_DEFAULT_ORDER) as (p & s1 & Ep & Hk & Hr); [by right|].
  destruct (kmalloc_grows h G A size HR Hs) as [(x & h' & G' & A' & i & E & Hx & HR' & Hc & HM & HG)|(s' & _ & E & _)]; [|congruence].
  pose proof HM as (HL & HN & _). exists x, h', G', A', i. assert (Hlx : live G' i x) by (apply HL; by right).
  destruct (live_range h' G' A' i x HR' Hlx) as (Hx0 & _). split_and!; try done.
  - unfold KERNEL_START_VIRT in Hx0. lia.
  - by eapply grown_extends.
  - destruct HG as [[(_ & _ & ->)|(p' & _ & _ & Ep')] _]; [by apply roomy_le|]. rewrite Ep in Ep'. by injection Ep' as _ <-.
  - destruct HG as [[(_ & -> & _)|(p' & _ & -> & Ep')] _]; [done|]. rewrite Ep in Ep'. injection Ep' as <- _. by apply clear_add.
Qed.

(** The words of a frame of [K] are never touched. *)
Lemma extends_kernel K h h' G G' A A' f a :
  heap_rep h G A -> extends h h' G G' A A' -> clear_of K A' -> K f -> in_frame f a -> kmem h' !! a = kmem h !! a.
Proof.
  intros HR HE HK Hf Ha. assert (Hno : forall b, b ∈ A' -> ~ in_block b a).
  { intros b Hb Hab. apply in_block_frame in Hab as (x & Hx & Hxa). assert (x = f) as -> by (unfold in_frame, lin in *; lia). by apply (HK b f). }
  apply (ex_out _ _ _ _ _ _ HE); [|intros b Hb _; by apply Hno]. intros Hw. destruct (slab_word_block h G A a HR Hw) as (p & Hp & Hpa).
  apply (Hno (p, SLAB_DEFAULT_ORDER)); [|done]. by apply (ex_sub _ _ _ _ _ _ HE).
Qed.

End Grow.
