(* ===== verification/Spare.v ===== *)
(** * How long the page allocator lasts

    Creating tasks, terminals and super blocks asks the page allocator for blocks
    of 16 pages and for single pages, in an order that depends on the state of the
    heap.  With [n] separate aligned runs of 16 free pages the next [n] requests
    of either kind succeed, whatever their order: an aligned block of at most 16
    pages lies in one run, so a request spoils at most one. *)

From stdpp Require Import base numbers list gmap.
From Stdlib Require Import ZArith Lia.
From S2P Require Import Prelude PageDefs Blocks Palloc BuddyInv PageAlloc PageSource PageClaims Slab HeapGrow.

#[local] Open Scope Z_scope.

(** [n] first frames of disjoint aligned runs of 16 free pages. *)
Definition spare (F : Z -> list Z) (n : nat) : Prop :=
  exists R, (n <= length R)%nat /\ NoDup R /\ forall p, p ∈ R -> aligned (p, 4) /\ forall x, inb x (p, 4) -> free_page F x.

Lemma length_filter_notin (y : Z) R : y ∉ R -> length (filter (fun x => x <> y) R) = length R.
Proof.
  induction R as [|x R IH]; intros Hy; [done|]. apply not_elem_of_cons in Hy as [Hxy Hy]. rewrite filter_cons_True by congruence.
  cbn. by rewrite IH.
Qed.

Lemma length_filter_ne (y : Z) R : NoDup R -> (length R <= S (length (filter (fun x => x <> y) R)))%nat.
Proof.
  induction 1 as [|x R Hx HR IH]; [cbn; lia|]. destruct (decide (x = y)) as [->|E].
  - rewrite filter_cons_False by auto. cbn. by rewrite length_filter_notin.
  - rewrite filter_cons_True by done. cbn. lia.
Qed.

(** The run of 16 pages an aligned block of at most 16 pages is in. *)
Lemma run_of p o q x : 0 <= o <= 4 -> aligned (p, o) -> aligned (q, 4) -> inb x (p, o) -> inb x (q, 4) -> q = p - p mod 16.
Proof.
  intros Ho (_ & _ & [u Hu]) (_ & _ & [v Hv]) Hx Hq. unfold inb in *. cbn [fst snd] in *. change (2 ^ 4) with 16 in *.
  assert (E : 16 = 2 ^ (4 - o) * 2 ^ o) by (rewrite <- Z.pow_add_r by lia; change 16 with (2 ^ 4); f_equal; lia).
  assert (0 < 2 ^ o) by (apply Z.pow_pos_nonneg; lia). assert (0 < 2 ^ (4 - o)) by (apply Z.pow_pos_nonneg; lia).
  set (w := 2 ^ o) in *. set (c := 2 ^ (4 - o)) in *.
  assert (Ev : v * c * w = q) by (rewrite <- Z.mul_assoc, <- E; lia).
  assert (Ev1 : (v + 1) * c * w = q + 16) by (rewrite !Z.mul_add_distr_r, Ev; lia).
  assert (v * c < u + 1) by (apply (Z.mul_lt_mono_pos_r w); [done|]; lia).
  assert (u + 1 <= (v + 1) * c) by (apply Zlt_le_succ, (Z.mul_lt_mono_pos_r w); [done|]; lia).
  assert (v * c * w <= u * w) by (apply Z.mul_le_mono_nonneg_r; lia).
  assert ((u + 1) * w <= (v + 1) * c * w) by (apply Z.mul_le_mono_nonneg_r; lia).
  assert (q <= p < q + 16) by lia. pose proof (Z.div_mod p 16 ltac:(lia)). pose proof (Z.mod_pos_bound p 16 ltac:(lia)). lia.
Qed.

Section Spare.
  Context (KS KE : Z).

Lemma spare_alloc s F A n o fl :
  allocator s F A -> spare F (S n) -> 0 <= o <= 4 ->
  exists p s' F', page_alloc o fl s = Some (Some p, s') /\ allocator s' F' (A ∪ {[(p, o)]}) /\ spare F' n /\
    (forall x, inb x (p, o) -> free_page F x) /\ (forall x, free_page F' x -> free_page F x).
Proof using.
  intros HA (R & Hn & ND & HR) Ho. assert (Ho' : 0 <= o <= ORDER_MAX) by (unfold ORDER_MAX; lia).
  destruct (page_alloc_spec s F A o fl HA Ho') as [(p & s' & F' & E & HA' & Hnew & HF & _)|[E _]].
  2:{ exfalso. destruct R as [|r R]; [cbn in Hn; lia|]. destruct (HR r) as [(H0 & _ & Hd) Hfr]; [by left|].
      destruct (alloc_complete s F A o fl r HA Ho') as (q & s' & E'); [| |congruence].
      - split_and!; [done|cbn; lia|]. etrans; [|exact Hd]. cbn. exists (2 ^ (4 - o)). rewrite <- Z.pow_add_r by lia. f_equal. lia.
      - intros x Hx. apply Hfr. unfold inb in *. cbn in *. assert (2 ^ o <= 2 ^ 4) by (apply Z.pow_le_mono_r; lia). lia. }
  assert (Hal : aligned (p, o)).
  { destruct (al_inv _ _ _ HA') as [_ G]. apply (g_wf _ _ _ _ _ G). right; left. set_solver. }
  exists p, s', F'. split_and!; try done.
  - exists (filter (fun x => x <> p - p mod 16) R). split_and!; [|by apply NoDup_filter|].
    { pose proof (length_filter_ne (p - p mod 16) R ND). lia. }
    intros r [Hne Hr]%list_elem_of_filter. destruct (HR r Hr) as [Ha Hfr]. split; [done|]. intros x Hx.
    destruct (proj1 (HF x) (Hfr x Hx)) as [?|Hin]; [done|]. exfalso. apply Hne. by apply (run_of p o r x).
  - intros x Hx. apply HF. by right.
  - intros x Hx. apply HF. by left.
Qed.

Lemma spare_roomy K n : forall s F A, allocator s F A -> spare F n -> (forall x, free_page F x -> ~ K x) ->
  @roomy buddy (buddy_source KS KE) K n s.
Proof using.
  induction n as [|n IH]; intros s F A HA HS HK; [done|]. intros o Ho.
  destruct (spare_alloc s F A n o PR_KERNEL HA HS) as (p & s' & F' & E & HA' & HS' & Hin & Hsub);
    [destruct Ho as [-> | ->]; unfold SLAB_DEFAULT_ORDER; lia|].
  exists p, s'. split_and!; [exact E| |].
  - intros x Hx. by apply HK, Hin.
  - apply (IH s' F' _ HA' HS'). intros x Hx. by apply HK, Hsub.
Qed.

End Spare.

(** Consecutive free pages hold a run of 16 for each 16 of them, but for the
    first. *)
Lemma spare_interval F (n : nat) a : 0 <= a -> (forall x, a <= x < a + 16 * (Z.of_nat n + 1) -> free_page F x) -> spare F n.
Proof.
  intros Ha HF. set (b := a / 16 + 1). exists ((fun i => 16 * (b + Z.of_nat i)) <$> seq 0 n).
  pose proof (Z.div_mod a 16 ltac:(lia)). pose proof (Z.mod_pos_bound a 16 ltac:(lia)). assert (0 <= a / 16) by (apply Z.div_pos; lia).
  split_and!.
  - by rewrite length_fmap, length_seq.
  - apply NoDup_fmap_2; [intros i j; lia|apply NoDup_seq].
  - intros p (i & -> & Hi%elem_of_seq)%list_elem_of_fmap. unfold aligned, inb. cbn [fst snd]. change (2 ^ 4) with 16. split_and!; try lia.
    + exists (b + Z.of_nat i). lia.
    + intros x Hx. apply HF. unfold b in Hx. lia.
Qed.
