(* ===== verification/Tty.v ===== *)
(** * Terminals (kernel/drivers/tty/tty.c)

    A [struct tty] is a heap object: its fields are words of kernel memory at the
    offsets of tty.h, its list node is in [tty_nodes] under the same address.
    [tty_list_head] is statically allocated, no heap object.  Pointers are unsigned numbers, as
    the comparison in [SUCCESS(pointer)] takes them; writing through NULL is a
    fault. *)

From stdpp Require Import base numbers list gmap.
From Stdlib Require Import ZArith Lia.
From S2P Require Import Prelude LinkedList PageDefs Palloc PageSource PageClaims Slab SlabInv SlabSpec HeapClaims Ptable HeapClient PtableSpec HeapGrow.

#[local] Open Scope Z_scope.

Definition TTY_ID_DEFAULT : Z := 1.
Definition TTY_ID_INVALID : Z := 9999.
Definition TTY_DEFAULT_BUFFER_SIZE : Z := 4096.

(** Offsets in [struct tty]. *)
Definition TTY_ID : Z := 0.
Definition TTY_INPUT : Z := 4.
Definition TTY_OUTPUT : Z := 12.
Definition TTY_BUFSIZE : Z := 20.
Definition SIZEOF_TTY : Z := 32.

(** The list nodes: the one of [tty_list_head] and those of the objects. *)
Inductive tty_node : Type := TtyHead | TtyNode (t : Z).

#[export] Instance tty_node_eq_dec : EqDecision tty_node.
Proof. solve_decision. Defined.

#[export] Instance tty_node_countable : Countable tty_node.
Proof.
  refine (inj_countable' (fun k => match k with TtyHead => None | TtyNode t => Some t end)
    (fun o => match o with None => TtyHead | Some t => TtyNode t end) _). by intros [|t].
Defined.

Record ttys (P : Type) : Type := Ttys {
  tty_nodes : gmap tty_node (lnode tty_node);
  head_id : Z;
  tty_mem : heap P
}.

Arguments Ttys {P} _ _ _.
Arguments tty_nodes {P} _.
Arguments head_id {P} _.
Arguments tty_mem {P} _.

Section Tty.
  Context {P : Type} `{PageSource P}.

Definition on_tty_nodes {A} (f : ST (gmap tty_node (lnode tty_node)) A) : ST (ttys P) A :=
  fun s => match f (tty_nodes s) with Some (a, n) => Some (a, Ttys n (head_id s) (tty_mem s)) | None => None end.

Definition on_tty_mem {A} (f : ST (heap P) A) : ST (ttys P) A :=
  fun s => match f (tty_mem s) with Some (a, h) => Some (a, Ttys (tty_nodes s) (head_id s) h) | None => None end.

(** [memset(ptr, 0, n)] on kernel memory; the last word may be cleared in part. *)
Definition clear_bytes (ptr n : Z) : ST (heap P) unit :=
  (if (ptr =? 0) && (0 <? n) then fault else
   clear_words (Z.to_nat (n / 4)) ptr ;;
   if n mod 4 =? 0 then ret tt else
   modify (fun h => with_kmem (alter (fun w => w - w mod 2 ^ (8 * (n mod 4))) (ptr + 4 * (n / 4)) (kmem h)) h))%st.

(** [memset(tty, 0, sizeof(struct tty))] *)
Definition clear_tty (t : Z) : ST (ttys P) unit :=
  (on_tty_mem (clear_bytes t SIZEOF_TTY) ;;
   modify (fun s => Ttys (<[TtyNode t := LNode None None]> (tty_nodes s)) (head_id s) (tty_mem s)))%st.

Definition tty_create (id type buffer_size : Z) : ST (ttys P) Z :=
  (new_tty <- on_tty_mem (kmalloc SIZEOF_TTY) ;;
   if negb (SUCCESS new_tty) then ret (u32 E_ERROR) else
   clear_tty new_tty ;;
   on_tty_mem (store (new_tty + TTY_ID) id) ;;
   on_tty_mem (store (new_tty + TTY_BUFSIZE) buffer_size) ;;
   size <- on_tty_mem (load (new_tty + TTY_BUFSIZE)) ;;
   input <- on_tty_mem (kmalloc size) ;;
   on_tty_mem (store (new_tty + TTY_INPUT) input) ;;
   size <- on_tty_mem (load (new_tty + TTY_BUFSIZE)) ;;
   output <- on_tty_mem (kmalloc size) ;;
   on_tty_mem (store (new_tty + TTY_OUTPUT) output) ;;
   input <- on_tty_mem (load (new_tty + TTY_INPUT)) ;;
   output <- on_tty_mem (load (new_tty + TTY_OUTPUT)) ;;
   if negb (SUCCESS input) || negb (SUCCESS output) then ret (u32 E_ERROR) else
   size <- on_tty_mem (load (new_tty + TTY_BUFSIZE)) ;;
   on_tty_mem (clear_bytes input size) ;;
   size <- on_tty_mem (load (new_tty + TTY_BUFSIZE)) ;;
   on_tty_mem (clear_bytes output size) ;;
   on_tty_nodes (llist_add_after (Some TtyHead) (Some (TtyNode new_tty))) ;;
   ret new_tty)%st.

Definition tty_init : ST (ttys P) Z :=
  (on_tty_nodes (llist_init (Some TtyHead)) ;;
   modify (fun s => Ttys (tty_nodes s) TTY_ID_INVALID (tty_mem s)) ;;
   default_tty <- tty_create TTY_ID_DEFAULT 0 TTY_DEFAULT_BUFFER_SIZE ;;
   if negb (SUCCESS default_tty) then ret E_ERROR else
   ret E_SUCCESS)%st.

Definition tty_destroy (target : Z) : ST (ttys P) Z :=
  (on_tty_nodes (llist_delete_node (Some (TtyNode target))) ;;
   input <- on_tty_mem (load (target + TTY_INPUT)) ;;
   on_tty_mem (kfree input) ;;
   output <- on_tty_mem (load (target + TTY_OUTPUT)) ;;
   on_tty_mem (kfree output) ;;
   on_tty_mem (kfree target) ;;
   clear_tty target ;;
   ret E_SUCCESS)%st.

(** These only log, or do nothing yet. *)
Definition tty_write (target buffer count : Z) : ST (ttys P) Z := ret E_SUCCESS.

Definition tty_flush (target : Z) : ST (ttys P) Z := ret E_SUCCESS.

Definition tty_get_default : ST (ttys P) Z := ret 0.

End Tty.

(** ** Creation *)

Section Spec.
  Context {P : Type} `{PageSource P}.

  Implicit Types (h : heap P) (s : ttys P) (G : list (list (Z * list Z))) (A : gset (Z * Z)).

Lemma on_tty_mem_run {X} (f : ST (heap P) X) n d h a h' :
  f h = Some (a, h') -> on_tty_mem f (Ttys n d h) = Some (a, Ttys n d h').
Proof. intros E. unfold on_tty_mem. cbn. by rewrite E. Qed.

(** One step on kernel memory. *)
Ltac mem_step E := erewrite (bind_some (on_tty_mem _)) by (apply on_tty_mem_run; exact E); cbn beta.

Lemma on_tty_nodes_run {X} (f : ST (gmap tty_node (lnode tty_node)) X) n d h a n' :
  f n = Some (a, n') -> on_tty_nodes f (Ttys n d h) = Some (a, Ttys n' d h).
Proof. intros E. unfold on_tty_nodes. cbn. by rewrite E. Qed.

Lemma clear_bytes_run h ptr n : ptr <> 0 -> 0 <= n ->
  exists m', clear_bytes ptr n h = Some (tt, with_kmem m' h) /\ only_object (kmem h) m' ptr n /\
    forall k, 0 <= k < n / 4 -> m' !! (ptr + 4 * k) = Some 0.
Proof.
  intros Hp Hn. unfold clear_bytes. destruct (Z.eqb_spec ptr 0); [done|]. cbn [andb]. st_step (clear_words_run (Z.to_nat (n / 4)) ptr h).
  pose proof (Z.div_mod n 4 ltac:(lia)) as Hd. pose proof (Z.mod_pos_bound n 4 ltac:(lia)) as Hm.
  assert (Hq : 0 <= n / 4) by (apply Z.div_pos; lia). destruct (Z.eqb_spec (n mod 4) 0) as [E|E].
  - eexists. split; [done|]. split; [|intros k Hk; apply zero_words_in; lia]. intros a Ha. apply zero_words_out. lia.
  - eexists. split; [reflexivity|]. cbn [kmem with_kmem]. split.
    + intros a Ha. rewrite lookup_alter_ne by lia. apply zero_words_out. lia.
    + intros k Hk. rewrite lookup_alter_ne by lia. apply zero_words_in. lia.
Qed.

(** What creation has achieved. *)
Record created (l : list Z) (id size : Z) s s' G G' A A' (t input output : Z) (i : nat) : Prop := Created {
  cr_list : llist (tty_nodes s') TtyHead (TtyNode <$> (t :: l));
  cr_id : kmem (tty_mem s') !! (t + TTY_ID) = Some id;
  cr_input : kmem (tty_mem s') !! (t + TTY_INPUT) = Some input;
  cr_output : kmem (tty_mem s') !! (t + TTY_OUTPUT) = Some output;
  cr_size : kmem (tty_mem s') !! (t + TTY_BUFSIZE) = Some size;
  cr_cache : cache_for size i;
  cr_live : forall j y, live G' j y <-> live G j y \/ (j, y) = (2%nat, t) \/ (j, y) = (i, input) \/ (j, y) = (i, output);
  cr_fresh : ~ live G 2 t /\ ~ live G i input /\ ~ live G i output;
  cr_distinct : t <> input /\ t <> output /\ input <> output;
  cr_clear : forall k, 0 <= k < size / 4 ->
    kmem (tty_mem s') !! (input + 4 * k) = Some 0 /\ kmem (tty_mem s') !! (output + 4 * k) = Some 0;
  cr_head : head_id s' = head_id s;
  cr_frame : extends (tty_mem s) (tty_mem s') G G' A A'
}.

(** The object, cleared, with its id and buffer size. *)
Lemma object_stage K h G A id size k :
  heap_rep h G A -> roomy K (S k) (source h) -> clear_of K A ->
  exists t h1 m1 h' G' A', kmalloc SIZEOF_TTY h = Some (t, h1) /\ clear_bytes t SIZEOF_TTY h1 = Some (tt, with_kmem m1 h1) /\
    h' = with_kmem (<[t + TTY_BUFSIZE := size]> (<[t + TTY_ID := id]> m1)) h1 /\ 0 < t /\
    heap_rep h' G' A' /\ (forall j y, live G' j y <-> live G j y \/ (j = 2%nat /\ y = t)) /\ ~ live G 2 t /\
    extends h h' G G' A A' /\ roomy K k (source h') /\ clear_of K A' /\
    kmem h' !! (t + TTY_ID) = Some id /\ kmem h' !! (t + TTY_BUFSIZE) = Some size.
Proof.
  intros HR Hp HK. destruct (kmalloc_roomy K k h G A SIZEOF_TTY HR ltac:(done) Hp HK) as (t & h1 & G1 & A1 & i & E & Ht & HR1 & Hc & Hlt & HN & HL & HE & Hp1 & HK1).
  apply cache_for_32 in Hc as ->. destruct (clear_bytes_run h1 t SIZEOF_TTY ltac:(lia) ltac:(done)) as (m1 & E1 & Ho & _).
  set (m' := <[t + TTY_BUFSIZE := size]> (<[t + TTY_ID := id]> m1)). exists t, h1, m1, (with_kmem m' h1), G1, A1.
  assert (Ho' : only_object (kmem h1) m' t 32).
  { eapply only_object_trans; [exact Ho|]. eapply only_object_trans; apply only_object_insert; unfold TTY_ID, TTY_BUFSIZE; lia. }
  split_and!; try done.
  - apply (heap_write h1 G1 A1 2 t 32); done.
  - by apply (extends_object h h1 G G1 A A1 2 t 32 m').
  - cbn. unfold m'. rewrite lookup_insert_ne by (unfold TTY_ID, TTY_BUFSIZE; lia). by rewrite lookup_insert_eq.
  - cbn. unfold m'. by rewrite lookup_insert_eq.
Qed.

(** One buffer: allocated, with its address stored at [off] of the object. *)
Lemma buffer_stage K h0 G0 A0 h G A t size off k :
  heap_rep h G A -> extends h0 h G0 G A0 A -> live G 2 t -> ~ live G0 2 t -> roomy K (S k) (source h) -> clear_of K A ->
  size <= 32768 -> kmem h !! (t + TTY_BUFSIZE) = Some size -> 0 <= off < 32 -> off <> TTY_BUFSIZE ->
  exists b h1 h' G' A' i, kmalloc size h = Some (b, h1) /\ h' = with_kmem (<[t + off := b]> (kmem h1)) h1 /\
    0 < b /\ heap_rep h' G' A' /\ cache_for size i /\ (forall j y, live G' j y <-> live G j y \/ (j = i /\ y = b)) /\ ~ live G i b /\
    extends h0 h' G0 G' A0 A' /\ roomy K k (source h') /\ clear_of K A' /\ kmem h' !! (t + off) = Some b /\
    (forall a, t <= a < t + 32 -> a <> t + off -> kmem h' !! a = kmem h !! a).
Proof.
  intros HR H0 Ht Hn0 Hp HK Hs Esz Ho Hne.
  destruct (kmalloc_roomy K k h G A size HR Hs Hp HK) as (b & h1 & G1 & A1 & i & E & Hb & HR1 & Hc & Hlb & HN & HL & HE & Hp1 & HK1).
  assert (Ht1 : live G1 2 t) by (apply HL; by left). destruct (store_owned h1 G1 A1 2 t 32 off b HR1 Ht1 eq_refl ltac:(lia)) as [Es HR2].
  pose proof (extends_trans _ _ _ _ _ _ _ _ _ H0 HE) as HE1.
  exists b, h1, (with_kmem (<[t + off := b]> (kmem h1)) h1), G1, A1, i. split_and!; try done.
  - apply (extends_object h0 h1 G0 G1 A0 A1 2 t 32); try done. apply only_object_insert. lia.
  - cbn. by rewrite lookup_insert_eq.
  - intros a Ha Hao. cbn. rewrite lookup_insert_ne by lia. by apply (ex_same _ _ _ _ _ _ HE 2%nat t 32).
Qed.

(** Clearing a buffer leaves the object, the other buffer and the heap alone. *)
Lemma clear_stage h0 G0 A0 h G A i b size sz :
  heap_rep h G A -> extends h0 h G0 G A0 A -> live G i b -> ~ live G0 i b -> sizes !! i = Some sz -> 0 <= size <= sz -> 0 < b ->
  exists m', clear_bytes b size h = Some (tt, with_kmem m' h) /\ heap_rep (with_kmem m' h) G A /\ extends h0 (with_kmem m' h) G0 G A0 A /\
    (forall k, 0 <= k < size / 4 -> m' !! (b + 4 * k) = Some 0) /\
    (forall j y szj a, live G j y -> sizes !! j = Some szj -> y <> b -> y <= a < y + szj -> m' !! a = kmem h !! a).
Proof.
  intros HR HE Hb Hn Esz Hs H0. destruct (clear_bytes_run h b size ltac:(lia) ltac:(lia)) as (m' & E & Ho & Hz).
  assert (Ho' : only_object (kmem h) m' b sz) by (intros a Ha; apply Ho; lia).
  exists m'. split_and!; try done; [by apply (heap_write h G A i b sz)|by apply (extends_object h0 h G0 G A0 A i b sz)|].
  intros j y szj a Hy Ej Hne Ha. by apply (object_apart h G A i j b y sz szj).
Qed.

(** The state between operations: the terminals of the list are objects. *)
Record ttys_ok (l : list Z) s G A : Prop := TtysOk {
  to_heap : heap_rep (tty_mem s) G A;
  to_list : llist (tty_nodes s) TtyHead (TtyNode <$> l);
  to_live : Forall (live G 2) l
}.

(** The run of [tty_create], given its allocations. *)
Lemma create_run n d h id ty size t h1 m1 h2 b1 h3 h4 b2 h5 h6 m7 m8 n' :
  kmalloc SIZEOF_TTY h = Some (t, h1) -> clear_bytes t SIZEOF_TTY h1 = Some (tt, with_kmem m1 h1) ->
  h2 = with_kmem (<[t + TTY_BUFSIZE := size]> (<[t + TTY_ID := id]> m1)) h1 -> 0 < t ->
  kmalloc size h2 = Some (b1, h3) -> h4 = with_kmem (<[t + TTY_INPUT := b1]> (kmem h3)) h3 -> 0 < b1 ->
  kmalloc size h4 = Some (b2, h5) -> h6 = with_kmem (<[t + TTY_OUTPUT := b2]> (kmem h5)) h5 -> 0 < b2 ->
  kmem h2 !! (t + TTY_BUFSIZE) = Some size -> kmem h4 !! (t + TTY_BUFSIZE) = Some size -> kmem h6 !! (t + TTY_BUFSIZE) = Some size ->
  kmem h6 !! (t + TTY_INPUT) = Some b1 -> kmem h6 !! (t + TTY_OUTPUT) = Some b2 ->
  clear_bytes b1 size h6 = Some (tt, with_kmem m7 h6) -> m7 !! (t + TTY_BUFSIZE) = Some size ->
  clear_bytes b2 size (with_kmem m7 h6) = Some (tt, with_kmem m8 (with_kmem m7 h6)) ->
  llist_add_after (Some TtyHead) (Some (TtyNode t)) (<[TtyNode t := LNode None None]> n) = Some (tt, n') ->
  tty_create id ty size (Ttys n d h) = Some (t, Ttys n' d (with_kmem m8 (with_kmem m7 h6))).
Proof.
  intros E1 Ec -> Ht E3 -> Hb1 E5 -> Hb2 S2 S4 S6 I6 O6 E7 S7 E8 En. unfold tty_create.
  assert (HS : forall x, 0 < x -> SUCCESS x = true) by (intros x Hx; apply Z.leb_le; lia).
  assert (Ec' : clear_tty t (Ttys n d h1) = Some (tt, Ttys (<[TtyNode t := LNode None None]> n) d (with_kmem m1 h1))).
  { unfold clear_tty. by mem_step Ec. }
  mem_step E1. rewrite (HS t Ht). cbn [negb]. st_step Ec'.
  mem_step (store_run (with_kmem m1 h1) (t + TTY_ID) id).
  mem_step (store_run (with_kmem (<[t + TTY_ID := id]> m1) h1) (t + TTY_BUFSIZE) size).
  mem_step (load_some _ _ _ S2). mem_step E3. mem_step (store_run h3 (t + TTY_INPUT) b1).
  mem_step (load_some _ _ _ S4). mem_step E5. mem_step (store_run h5 (t + TTY_OUTPUT) b2).
  mem_step (load_some _ _ _ I6). mem_step (load_some _ _ _ O6). rewrite (HS b1 Hb1), (HS b2 Hb2). cbn [negb orb].
  mem_step (load_some _ _ _ S6). mem_step E7. mem_step (load_some (with_kmem m7 (with_kmem (<[t + TTY_OUTPUT := b2]> (kmem h5)) h5)) _ _ S7). mem_step E8.
  erewrite bind_some by (apply on_tty_nodes_run; exact En). done.
Qed.

(** The new node goes to the front of the list. *)
Lemma node_stage n l t : llist n TtyHead (TtyNode <$> l) -> t ∉ l ->
  exists n', llist_add_after (Some TtyHead) (Some (TtyNode t)) (<[TtyNode t := LNode None None]> n) = Some (tt, n') /\ llist n' TtyHead (TtyNode <$> (t :: l)).
Proof.
  intros HL Ht. assert (Hn : TtyNode t ∉ TtyHead :: (TtyNode <$> l)).
  { rewrite elem_of_cons. intros [?|(u & [= <-] & Hu)%list_elem_of_fmap]; done. }
  assert (HL' : llist (<[TtyNode t := LNode None None]> n) TtyHead (TtyNode <$> l)).
  { apply (llist_ext n); [|done]. intros j Hj. rewrite lookup_insert_ne; [done|]. by intros <-. }
  destruct (llist_add_after_spec _ TtyHead [] (TtyNode t) (TtyNode <$> l) TtyHead HL' eq_refl Hn) as (n' & E & HL2 & _).
  { rewrite lookup_insert_eq. by eexists. }
  by exists n'.
Qed.

(** The three allocations. *)
Lemma alloc_stages K n h G A id size :
  heap_rep h G A -> roomy K (3 + n) (source h) -> clear_of K A -> size <= 32768 ->
  exists t h1 m1 h2 b1 h3 h4 b2 h5 h6 G6 A6 i,
    (kmalloc SIZEOF_TTY h = Some (t, h1) /\ clear_bytes t SIZEOF_TTY h1 = Some (tt, with_kmem m1 h1) /\
     h2 = with_kmem (<[t + TTY_BUFSIZE := size]> (<[t + TTY_ID := id]> m1)) h1 /\ 0 < t /\
     kmalloc size h2 = Some (b1, h3) /\ h4 = with_kmem (<[t + TTY_INPUT := b1]> (kmem h3)) h3 /\ 0 < b1 /\
     kmalloc size h4 = Some (b2, h5) /\ h6 = with_kmem (<[t + TTY_OUTPUT := b2]> (kmem h5)) h5 /\ 0 < b2 /\
     kmem h2 !! (t + TTY_BUFSIZE) = Some size /\ kmem h4 !! (t + TTY_BUFSIZE) = Some size) /\
    heap_rep h6 G6 A6 /\ cache_for size i /\
    (forall j y, live G6 j y <-> live G j y \/ (j, y) = (2%nat, t) \/ (j, y) = (i, b1) \/ (j, y) = (i, b2)) /\
    (~ live G 2 t /\ ~ live G i b1 /\ ~ live G i b2) /\ (t <> b1 /\ t <> b2 /\ b1 <> b2) /\
    (kmem h6 !! (t + TTY_ID) = Some id /\ kmem h6 !! (t + TTY_INPUT) = Some b1 /\
     kmem h6 !! (t + TTY_OUTPUT) = Some b2 /\ kmem h6 !! (t + TTY_BUFSIZE) = Some size) /\
    extends h h6 G G6 A A6 /\ roomy K n (source h6) /\ clear_of K A6.
Proof.
  intros HR Hp HK Hs.
  destruct (object_stage K h G A id size (2 + n) HR Hp HK)
    as (t & h1 & m1 & h2 & G2 & A2 & E1 & Ec & Eh2 & Ht & HR2 & L2 & N2 & X2 & P2 & K2 & I2 & S2).
  assert (T2 : live G2 2 t) by (apply L2; by right).
  destruct (buffer_stage K h G A h2 G2 A2 t size TTY_INPUT (1 + n) HR2 X2 T2 N2 P2 K2 Hs S2 ltac:(done) ltac:(done))
    as (b1 & h3 & h4 & G4 & A4 & i & E3 & Eh4 & Hb1 & HR4 & Hc & L4 & N4 & X4 & P4 & K4 & I4 & O4).
  assert (T4 : live G4 2 t) by (apply L4; by left). assert (B4 : live G4 i b1) by (apply L4; by right).
  assert (S4 : kmem h4 !! (t + TTY_BUFSIZE) = Some size) by (rewrite O4; [done|unfold TTY_BUFSIZE; lia|unfold TTY_BUFSIZE, TTY_INPUT; lia]).
  destruct (buffer_stage K h G A h4 G4 A4 t size TTY_OUTPUT n HR4 X4 T4 N2 P4 K4 Hs S4 ltac:(done) ltac:(done))
    as (b2 & h5 & h6 & G6 & A6 & i' & E5 & Eh6 & Hb2 & HR6 & Hc' & L6 & N6 & X6 & P6 & K6 & I6 & O6).
  assert (i' = i) as -> by by eapply cache_for_unique. clear Hc'.
  exists t, h1, m1, h2, b1, h3, h4, b2, h5, h6, G6, A6, i. split; [by split_and!|]. split; [done|]. split; [done|].
  split; [intros j y; rewrite L6, L4, L2; rewrite !pair_equal_spec; tauto|]. split_and!; try done.
  - intros Hl. apply N4, L2. by left.
  - intros Hl. apply N6, L4. left. apply L2. by left.
  - apply (live_ne h4 G4 A4 2 i); [done..|]. intros [= Ei Et]. subst. by apply N4.
  - apply (live_ne h6 G6 A6 2 i); [done|apply L6; by left|apply L6; by right|]. intros [= Ei Et]. subst. by apply N6.
  - intros ->. by apply N6.
  - by rewrite O6, O4 by (unfold TTY_ID, TTY_INPUT, TTY_OUTPUT; lia).
  - by rewrite O6 by (unfold TTY_INPUT, TTY_OUTPUT; lia).
  - by rewrite O6, O4 by (unfold TTY_BUFSIZE, TTY_INPUT, TTY_OUTPUT; lia).
Qed.

(** [tty_create], with what it leaves of the page source. *)
Lemma tty_create_spec K n (id type size : Z) (l : list Z) s G A :
  ttys_ok l s G A -> roomy K (3 + n) (source (tty_mem s)) -> clear_of K A -> 0 <= size <= 32768 ->
  exists t input output i s' G' A', tty_create id type size s = Some (t, s') /\ 0 < t /\
    ttys_ok (t :: l) s' G' A' /\ created l id size s s' G G' A A' t input output i /\
    roomy K n (source (tty_mem s')) /\ clear_of K A'.
Proof.
  intros [HR HL HF] Hp HK Hs. destruct s as [nd d h]. cbn [tty_mem tty_nodes] in *.
  destruct (alloc_stages K n h G A id size HR Hp HK ltac:(lia)) as (t & h1 & m1 & h2 & b1 & h3 & h4 & b2 & h5 & h6 & G6 & A6 & i &
    (E1 & Ec & Eh2 & Ht & E3 & Eh4 & Hb1 & E5 & Eh6 & Hb2 & S2 & S4) & HR6 & Hc & HLv & (N1 & N2 & N3) & (D1 & D2 & D3) & (FI & FN & FO & FS) & HX & Hr6 & HK6).
  pose proof Hc as (sz & Esz & Hsz & _). assert (T6 : live G6 2 t) by (apply HLv; by right; left).
  assert (B1 : live G6 i b1) by (apply HLv; by right; right; left). assert (B2 : live G6 i b2) by (apply HLv; by right; right; right).
  destruct (clear_stage h G A h6 G6 A6 i b1 size sz HR6 HX B1 N2 Esz ltac:(lia) Hb1) as (m7 & E7 & HR7 & X7 & Z7 & C7).
  destruct (clear_stage h G A (with_kmem m7 h6) G6 A6 i b2 size sz HR7 X7 B2 N3 Esz ltac:(lia) Hb2) as (m8 & E8 & HR8 & X8 & Z8 & C8). cbn [kmem with_kmem] in C8.
  assert (F7 : forall o, 0 <= o < 32 -> m7 !! (t + o) = kmem h6 !! (t + o)) by (intros o Ho; apply (C7 2%nat t 32); [done|done|done|lia]).
  assert (F8 : forall o, 0 <= o < 32 -> m8 !! (t + o) = kmem h6 !! (t + o)) by (intros o Ho; rewrite (C8 2%nat t 32); [by apply F7|done|done|done|lia]).
  assert (Hnew : t ∉ l) by (intros Hin; rewrite Forall_forall in HF; by apply N1, HF).
  destruct (node_stage nd l t HL Hnew) as (n' & En & HL').
  exists t, b1, b2, i, (Ttys n' d (with_kmem m8 (with_kmem m7 h6))), G6, A6. split_and!; try done.
  - eapply create_run; try done. by rewrite F7.
  - split; cbn; [done|done|]. constructor; [done|]. eapply Forall_impl; [exact HF|]. intros y Hy. apply HLv. by left.
  - split; cbn [tty_mem tty_nodes kmem with_kmem]; try done; try by rewrite F8.
    intros k Hk. pose proof (Z.div_mod size 4 ltac:(lia)). pose proof (Z.mod_pos_bound size 4 ltac:(lia)). split; [|by apply Z8].
    rewrite (C8 i b1 sz); [by apply Z7|done|done|done|lia].
Qed.

(** Creating a terminal.  When the page allocator has three slabs to spare,
    [tty_create] with a buffer of at most 32 KiB returns a new object that heads
    the list of terminals, holds the id and the buffer size and points at two
    buffers of the cache for that size; the object and the buffers are new, they
    do not overlap, both buffers are cleared, and nothing older changes. *)
Theorem tty_create_correct (K : Z -> Prop) (id type size : Z) (l : list Z) s G A :
  ttys_ok l s G A -> roomy K 3 (source (tty_mem s)) -> clear_of K A -> 0 <= size <= 32768 ->
  exists t input output i s' G' A', tty_create id type size s = Some (t, s') /\
    ttys_ok (t :: l) s' G' A' /\ created l id size s s' G G' A A' t input output i.
Proof.
  intros HT Hp HK Hs. destruct (tty_create_spec K 0 id type size l s G A HT Hp HK Hs) as (t & b1 & b2 & i & s' & G' & A' & E & _ & HO & HC & _).
  by exists t, b1, b2, i, s', G', A'.
Qed.

(** [tty_init] leaves the default terminal alone in the list. *)
Lemma tty_init_spec K n s G A :
  heap_rep (tty_mem s) G A -> is_Some (tty_nodes s !! TtyHead) -> roomy K (3 + n) (source (tty_mem s)) -> clear_of K A ->
  exists t s' G' A', tty_init s = Some (E_SUCCESS, s') /\ ttys_ok [t] s' G' A' /\ head_id s' = TTY_ID_INVALID /\
    kmem (tty_mem s') !! (t + TTY_ID) = Some TTY_ID_DEFAULT /\ kmem (tty_mem s') !! (t + TTY_BUFSIZE) = Some TTY_DEFAULT_BUFFER_SIZE /\
    extends (tty_mem s) (tty_mem s') G G' A A' /\ roomy K n (source (tty_mem s')) /\ clear_of K A'.
Proof.
  intros HR [x Hx] Hp HK. destruct s as [nd d h]. cbn [tty_mem tty_nodes] in *.
  assert (exists nd1, llist_init (Some TtyHead) nd = Some (tt, nd1) /\ llist nd1 TtyHead []) as (nd1 & En & HL).
  { apply llist_init_spec. by eexists. }
  destruct (tty_create_spec K n TTY_ID_DEFAULT 0 TTY_DEFAULT_BUFFER_SIZE [] (Ttys nd1 TTY_ID_INVALID h) G A) as (t & b1 & b2 & i & s' & G' & A' & E & Ht & HO & HC & Hr & HK');
    [by split; [|done|constructor]|done|done|done|].
  exists t, s', G', A'. pose proof (cr_id _ _ _ _ _ _ _ _ _ _ _ _ _ HC). pose proof (cr_size _ _ _ _ _ _ _ _ _ _ _ _ _ HC). split_and!; try done; [|by rewrite (cr_head _ _ _ _ _ _ _ _ _ _ _ _ _ HC)|apply HC].
  unfold tty_init. erewrite bind_some by (apply on_tty_nodes_run; exact En). erewrite (bind_some (modify _)) by reflexivity. cbn [tty_nodes tty_mem].
  st_step E. assert (SUCCESS t = true) as -> by (apply Z.leb_le; lia). done.
Qed.

End Spec.

(** ** On the small machine *)

#[local] Existing Instance source128.

Definition ttys128 : ttys buddy := Ttys {[ TtyHead := LNode None None ]} TTY_ID_INVALID heap128.

Lemma ttys128_ok : ttys_ok [] ttys128 (replicate 13 []) ∅.
Proof. split; [exact heap128_rep|by apply llist_nil|constructor]. Qed.

Lemma tty_create_correct_witness : exists t s' G' A', tty_create 1 0 4096 ttys128 = Some (t, s') /\ ttys_ok [t] s' G' A'.
Proof.
  destruct (tty_create_correct (fun x => x < 16) 1 0 4096 [] ttys128 (replicate 13 []) ∅ ttys128_ok) as (t & input & output & i & s' & G' & A' & E & HO & _).
  - apply (roomyb_spec 16). vm_compute. reflexivity.
  - intros b x Hb. set_solver.
  - lia.
  - exists t, s', G', A'. split; [exact E|exact HO].
Defined.

(** [tty_destroy] clears the object after freeing it, and with it the link of the
    free list the object has become part of: of the more than two thousand free
    objects of its slab only this one is left, and after one more request of that
    size [kmalloc] fails although the slab has free objects. *)
Theorem tty_destroy_loses_memory : exists x s, (t <- tty_create 1 0 4096 ;; r <- tty_destroy t ;;
    a <- on_tty_mem (kmalloc 32) ;; b <- on_tty_mem (kmalloc 32) ;; ret [t; r; a; b])%st ttys128 = Some ([x; E_SUCCESS; x; 0], s) /\ x <> 0.
Proof.
  set (run := (t <- tty_create 1 0 4096 ;; r <- tty_destroy t ;; a <- on_tty_mem (kmalloc 32) ;; b <- on_tty_mem (kmalloc 32) ;;
    ret [t; r; a; b])%st ttys128).
  assert (Hr : (fst <$> run) = Some [0xC0020028; E_SUCCESS; 0xC0020028; 0]) by (vm_compute; reflexivity).
  destruct run as [[l s]|]; [|discriminate]. cbn in Hr. injection Hr as ->. by exists 0xC0020028, s.
Qed.
