(* ===== verification/Vfs.v ===== *)
(** * The virtual file system (kernel/fs/vfs, kernel/fs/testfs)

    The registry of file system types is a circular list of statically allocated
    structures: [fs_types] holds their fields and [fs_nodes] their list nodes,
    both by address, and [fs_list_head] is one more node of its own.  Names are
    C strings in byte memory.  Super blocks are heap objects at the offsets of
    super.h.  There is one processor: taking the held list lock never returns. *)

From stdpp Require Import base numbers list gmap.
From Stdlib Require Import ZArith Lia.
From S2P Require Import Prelude LinkedList CString CStringSpec PageDefs Palloc PageSource Slab SlabInv SlabSpec HeapClaims Ptable HeapClient PtableSpec.

#[local] Open Scope Z_scope.

(** The functions a type can have for allocating super blocks. *)
Inductive super_alloc_fn : Type := no_alloc | testfs_alloc.

(** [super_dealloc] is never called. *)
Record file_system_type : Type := FsType {
  fs_name : Z;
  fs_flags : Z;
  super_alloc : super_alloc_fn
}.

(** The list nodes: [fs_list_head] and the [fs_list_entry] of a type. *)
Inductive fs_node : Type := FsHead | FsEntry (t : Z).

#[export] Instance fs_node_eq_dec : EqDecision fs_node.
Proof. solve_decision. Defined.

#[export] Instance fs_node_countable : Countable fs_node.
Proof.
  refine (inj_countable' (fun k => match k with FsHead => None | FsEntry t => Some t end)
    (fun o => match o with None => FsHead | Some t => FsEntry t end) _). by intros [|t].
Defined.

(** Offsets in [struct super_block]. *)
Definition SB_FS_TYPE : Z := 16.
Definition SB_LIST_NODE : Z := 20.
Definition SIZEOF_SUPER_BLOCK : Z := 32.

Record vfs (P : Type) : Type := Vfs {
  fs_text : bytes;
  fs_types : gmap Z file_system_type;
  fs_nodes : gmap fs_node (lnode fs_node);
  fs_list_lock : bool;
  root_sb : Z;
  vfs_mem : heap P
}.

Arguments Vfs {P} _ _ _ _ _ _.
Arguments fs_text {P} _.
Arguments fs_types {P} _.
Arguments fs_nodes {P} _.
Arguments fs_list_lock {P} _.
Arguments root_sb {P} _.
Arguments vfs_mem {P} _.

Section Vfs.
  Context {P : Type} `{PageSource P}.

Definition with_fs_lock (v : bool) (s : vfs P) : vfs P := Vfs (fs_text s) (fs_types s) (fs_nodes s) v (root_sb s) (vfs_mem s).

Definition lock_fs : ST (vfs P) unit := fun s => if fs_list_lock s then None else Some (tt, with_fs_lock true s).

Definition unlock_fs : ST (vfs P) unit := modify (with_fs_lock false).

Definition get_fs (t : Z) : ST (vfs P) file_system_type :=
  fun s => match fs_types s !! t with Some x => Some (x, s) | None => None end.

Definition on_fs_nodes {A} (f : ST (gmap fs_node (lnode fs_node)) A) : ST (vfs P) A :=
  fun s => match f (fs_nodes s) with
           | Some (a, n) => Some (a, Vfs (fs_text s) (fs_types s) n (fs_list_lock s) (root_sb s) (vfs_mem s))
           | None => None
           end.

Definition on_vfs_mem {A} (f : ST (heap P) A) : ST (vfs P) A :=
  fun s => match f (vfs_mem s) with
           | Some (a, h) => Some (a, Vfs (fs_text s) (fs_types s) (fs_nodes s) (fs_list_lock s) (root_sb s) h)
           | None => None
           end.

(** [strcmp] on the names. *)
Definition compare_names (a b : Z) : ST (vfs P) Z :=
  fun s => match strcmp a b (fs_text s) with Some (r, _) => Some (r, s) | None => None end.

(** ** File system types (fs_type.c) *)

Definition file_system_type_register (fs_type : Z) : ST (vfs P) unit :=
  (lock_fs ;;
   on_fs_nodes (clist_add (Some FsHead) (Some (FsEntry fs_type))) ;;
   unlock_fs)%st.

(** The list nodes are in [fs_nodes]: its size bounds a walk over the list. *)
Definition fs_fuel (s : vfs P) : nat := S (size (fs_nodes s)).

(** [clist_for_each] reads the next node after the body has run. *)
Fixpoint unregister_walk (fuel : nat) (curr : option fs_node) (fs_type : Z) : ST (vfs P) unit :=
  match fuel with
  | O => fault
  | S f =>
      match curr with
      | None => fault
      | Some FsHead => ret tt
      | Some (FsEntry t) =>
          (x <- get_fs t ;;
           y <- get_fs fs_type ;;
           r <- compare_names (fs_name x) (fs_name y) ;;
           (if r =? 0 then on_fs_nodes (clist_delete_node (Some (FsEntry t))) else ret tt) ;;
           n <- on_fs_nodes (load_next (Some (FsEntry t))) ;;
           unregister_walk f n fs_type)%st
      end
  end.

Definition file_system_type_unregister (fs_type : Z) : ST (vfs P) unit :=
  (lock_fs ;;
   fuel <- gets fs_fuel ;;
   first <- on_fs_nodes (load_next (Some FsHead)) ;;
   unregister_walk fuel first fs_type ;;
   unlock_fs)%st.

(** NULL is 0. *)
Fixpoint get_walk (fuel : nat) (curr : option fs_node) (name : Z) : ST (vfs P) Z :=
  match fuel with
  | O => fault
  | S f =>
      match curr with
      | None => fault
      | Some FsHead => ret 0
      | Some (FsEntry t) =>
          (x <- get_fs t ;;
           r <- compare_names (fs_name x) name ;;
           if r =? 0 then ret t else
           n <- on_fs_nodes (load_next (Some (FsEntry t))) ;;
           get_walk f n name)%st
      end
  end.

(** Both returns release the lock first. *)
Definition file_system_type_get (name : Z) : ST (vfs P) Z :=
  (lock_fs ;;
   fuel <- gets fs_fuel ;;
   first <- on_fs_nodes (load_next (Some FsHead)) ;;
   t <- get_walk fuel first name ;;
   unlock_fs ;;
   ret t)%st.

(** ** Super blocks (super.c) *)

(** [memset(sb, 0, sizeof(struct super_block))] *)
Definition super_block_init (sb : Z) : ST (vfs P) unit := on_vfs_mem (clear_words 8 sb).

Definition super_block_alloc (fs : Z) : ST (vfs P) Z :=
  (sb <- on_vfs_mem (kmalloc SIZEOF_SUPER_BLOCK) ;;
   if sb =? 0 then ret 0 else
   super_block_init sb ;;
   on_vfs_mem (store (sb + SB_FS_TYPE) fs) ;;
   ret sb)%st.

(** [sb_list] is a list head in kernel memory. *)
Definition super_block_register (sb_list sb : Z) : ST (vfs P) unit :=
  on_vfs_mem (mem_llist_add sb_list (sb + SB_LIST_NODE)).

(** ** The test file system (testfs/super.c) and the root (root.c) *)

Section Root.
  (** The addresses of [testfs_type] and of the literal "testfs" in
      [mount_root_testing]. *)
  Context (testfs_type testfs_name : Z).

Definition testfs_init : ST (vfs P) unit := file_system_type_register testfs_type.

Definition testfs_super_alloc : ST (vfs P) Z := super_block_alloc testfs_type.

(** [fs->super_alloc()] *)
Definition call_super_alloc (f : super_alloc_fn) : ST (vfs P) Z :=
  match f with
  | no_alloc => fault
  | testfs_alloc => testfs_super_alloc
  end.

(** A panic never returns. *)
Definition mount_root_testing : ST (vfs P) unit :=
  (testfs_init ;;
   fs <- file_system_type_get testfs_name ;;
   if fs =? 0 then fault else
   x <- get_fs fs ;;
   sb <- call_super_alloc (super_alloc x) ;;
   if sb =? 0 then fault else
   modify (fun s => Vfs (fs_text s) (fs_types s) (fs_nodes s) (fs_list_lock s) sb (vfs_mem s)))%st.

End Root.

End Vfs.
