(* ===== verification/VfsSpec.v ===== *)
(** * The file system registry is a list of names

    The abstract registry is a list of types, newest first.  Registering puts a
    type in front, unregistering removes every type of that name, looking up
    finds the first type of a name; any sequence of operations of the code
    returns what the list says.  The walk of [file_system_type_unregister] goes
    on from nodes it has just removed, which is right because removal leaves the
    removed node's own links in place. *)

From stdpp Require Import base numbers list gmap.
From Stdlib Require Import ZArith Lia.
From S2P Require Import Prelude LinkedList CString CStringSpec PageDefs Palloc PageSource PageClaims Slab SlabInv SlabSpec HeapClaims Ptable HeapClient PtableSpec HeapGrow Vfs.

#[local] Open Scope Z_scope.

(** ** The abstract registry *)

(** [Lookup a n]: the caller's string at address [a] is [n]. *)
Inductive fs_op : Type :=
  | Register (t : Z)
  | Unregister (t : Z)
  | Lookup (a : Z) (n : list Z).

Section Spec.
  Context {P : Type} `{PageSource P}.
  (** The name of every type. *)
  Context (name_of : Z -> list Z).

  Implicit Types (s : vfs P) (l : list Z).

Definition lookup_spec (n : list Z) l : Z :=
  match list_find (fun t => name_of t = n) l with Some (_, t) => t | None => 0 end.

Definition spec_step (o : fs_op) l : list Z * list Z :=
  match o with
  | Register t => (t :: l, [])
  | Unregister t => (filter (fun u => name_of u <> name_of t) l, [])
  | Lookup _ n => (l, [lookup_spec n l])
  end.

(** The results of a sequence of operations and the registry they leave. *)
Fixpoint spec_run (os : list fs_op) l : list Z * list Z :=
  match os with
  | [] => (l, [])
  | o :: os => let '(l, r) := spec_step o l in let '(l, rs) := spec_run os l in (l, r ++ rs)
  end.

Definition code_step (o : fs_op) : ST (vfs P) (list Z) :=
  match o with
  | Register t => (file_system_type_register t ;; ret [])%st
  | Unregister t => (file_system_type_unregister t ;; ret [])%st
  | Lookup a _ => (r <- file_system_type_get a ;; ret [r])%st
  end.

Fixpoint code_run (os : list fs_op) : ST (vfs P) (list Z) :=
  match os with
  | [] => ret []
  | o :: os => (r <- code_step o ;; rs <- code_run os ;; ret (r ++ rs))%st
  end.

(** ** The representation *)

Definition known s (t : Z) : Prop :=
  exists x, fs_types s !! t = Some x /\ str_at (fs_text s) (fs_name x) (name_of t) /\ is_Some (fs_nodes s !! FsEntry t).

Record registry s l : Prop := Registry {
  rg_list : clist (fs_nodes s) FsHead (FsEntry <$> l);
  rg_lock : fs_list_lock s = false;
  rg_known : Forall (known s) l
}.

(** What no operation on the registry changes. *)
Definition same_static s s' : Prop :=
  fs_text s' = fs_text s /\ fs_types s' = fs_types s /\ dom (fs_nodes s') = dom (fs_nodes s) /\ root_sb s' = root_sb s /\ vfs_mem s' = vfs_mem s.

Lemma known_static s s' t : same_static s s' -> known s t -> known s' t.
Proof using.
  intros (E1 & E2 & E3 & _) (x & Ex & Hs & Hn). exists x. rewrite E1, E2. split_and!; [done|done|].
  apply elem_of_dom. rewrite E3. by apply elem_of_dom.
Qed.

(** The operations that may come next. *)
Definition op_ok s l (o : fs_op) : Prop :=
  match o with
  | Register t => known s t /\ t ∉ l
  | Unregister t => known s t
  | Lookup a n => str_at (fs_text s) a n
  end.

Fixpoint ops_ok s l (os : list fs_op) : Prop :=
  match os with
  | [] => True
  | o :: os => op_ok s l o /\ ops_ok s (spec_step o l).1 os
  end.

(** ** The walks *)

Lemma compare_spec s a b n k : str_at (fs_text s) a n -> str_at (fs_text s) b k ->
  exists r, compare_names a b s = Some (r, s) /\ (r = 0 <-> n = k).
Proof using.
  intros Ha Hb. destruct (strcmp_loop_spec n (str_fuel (fs_text s)) a b (fs_text s) k Ha Hb) as (r & E & Hr & _).
  { pose proof (seg_size _ _ _ (proj1 Ha)) as Hz. rewrite length_app in Hz. cbn in Hz. unfold str_fuel. lia. }
  exists r. split; [|done]. unfold compare_names, strcmp. unfold bind, gets. by rewrite E.
Qed.

Lemma entry_inj_elem l t : FsEntry t ∈ FsEntry <$> l <-> t ∈ l.
Proof using. rewrite list_elem_of_fmap. split; [intros (u & [= ->] & Hu); done|intros Ht; by exists t]. Qed.

(** The node after the list [l1], and the fuel of a walk. *)
Definition node_at l : option fs_node := Some (default FsHead (head (FsEntry <$> l))).

Lemma next_entry s l1 t l2 : clist (fs_nodes s) FsHead (FsEntry <$> (l1 ++ t :: l2)) ->
  on_fs_nodes (load_next (Some (FsEntry t))) s = Some (node_at l2, s).
Proof using.
  intros C. rewrite fmap_app, fmap_cons in C. unfold on_fs_nodes. rewrite (load_next_nxt _ _ _ (clist_next _ _ _ _ _ C)). by destruct s.
Qed.

Lemma first_entry s l : clist (fs_nodes s) FsHead (FsEntry <$> l) -> on_fs_nodes (load_next (Some FsHead)) s = Some (node_at l, s).
Proof using. intros C. unfold on_fs_nodes. rewrite (load_next_nxt _ _ _ (clist_first _ _ _ C)). by destruct s. Qed.

Lemma walk_fuel_ok s l : clist (fs_nodes s) FsHead (FsEntry <$> l) -> (length l < fs_fuel s)%nat.
Proof using. intros C. pose proof (clist_length_size _ _ _ C) as Hl. rewrite length_fmap in Hl. unfold fs_fuel. lia. Qed.

Lemma lookup_cons n t l : lookup_spec n (t :: l) = if decide (name_of t = n) then t else lookup_spec n l.
Proof using. unfold lookup_spec. simpl. destruct (decide (name_of t = n)); [done|]. by destruct (list_find _ l) as [[k u]|]. Qed.

Lemma get_walk_spec s a n l2 : forall l1 fuel,
  clist (fs_nodes s) FsHead (FsEntry <$> (l1 ++ l2)) -> Forall (known s) l2 -> str_at (fs_text s) a n -> (length l2 < fuel)%nat ->
  get_walk fuel (node_at l2) a s = Some (lookup_spec n l2, s).
Proof using.
  induction l2 as [|t l2 IH]; intros l1 [|fuel] C HK Ha Hf; cbn [length] in Hf; try lia; [done|].
  change (node_at (t :: l2)) with (Some (FsEntry t)). cbn [get_walk].
  apply Forall_cons in HK as [(x & Ex & Hs & _) HK].
  assert (Eg : get_fs t s = Some (x, s)) by (unfold get_fs; by rewrite Ex). st_step Eg.
  destruct (compare_spec s (fs_name x) a (name_of t) n Hs Ha) as (r & Er & Hr). st_step Er. rewrite lookup_cons.
  destruct (Z.eqb_spec r 0) as [E0|E0]; [by rewrite decide_True by (by apply Hr)|]. rewrite decide_False by (intros En; by apply E0, Hr).
  st_step (next_entry s l1 t l2 C). rewrite (IH (l1 ++ [t])); [done|by rewrite <- app_assoc|done|done|lia].
Qed.

(** The step relation between states inside a walk. *)
Lemma on_nodes_static s n' : dom n' = dom (fs_nodes s) ->
  same_static s (Vfs (fs_text s) (fs_types s) n' (fs_list_lock s) (root_sb s) (vfs_mem s)).
Proof using. by intros E. Qed.

Lemma same_static_trans s1 s2 s3 : same_static s1 s2 -> same_static s2 s3 -> same_static s1 s3.
Proof using. intros (? & ? & ? & ? & ?) (? & ? & ? & ? & ?). split_and!; by etrans. Qed.

(** Taking nodes off the list one after the other. *)
Fixpoint unlink (us : list Z) : ST (gmap fs_node (lnode fs_node)) unit :=
  match us with
  | [] => ret tt
  | u :: us => (clist_delete_node (Some (FsEntry u)) ;; unlink us)%st
  end.

Lemma unregister_walk_spec t l2 : forall s l1 fuel,
  clist (fs_nodes s) FsHead (FsEntry <$> (l1 ++ l2)) -> Forall (known s) l2 -> known s t -> (length l2 < fuel)%nat ->
  exists s', unregister_walk fuel (node_at l2) t s = Some (tt, s') /\
    clist (fs_nodes s') FsHead (FsEntry <$> (l1 ++ filter (fun u => name_of u <> name_of t) l2)) /\
    same_static s s' /\ fs_list_lock s' = fs_list_lock s /\ unlink (filter (fun u => name_of u = name_of t) l2) (fs_nodes s) = Some (tt, fs_nodes s').
Proof using.
  induction l2 as [|u l2 IH]; intros s l1 [|fuel] C HK Ht Hf; cbn [length] in Hf; try lia; [exists s; split_and!; done|].
  change (node_at (u :: l2)) with (Some (FsEntry u)). cbn [unregister_walk]. apply Forall_cons in HK as [(x & Ex & Hs & _) HK].
  assert (Eg : get_fs u s = Some (x, s)) by (unfold get_fs; by rewrite Ex). st_step Eg. pose proof Ht as (y & Ey & Hys & _).
  assert (Egy : get_fs t s = Some (y, s)) by (unfold get_fs; by rewrite Ey). st_step Egy.
  destruct (compare_spec s (fs_name x) (fs_name y) (name_of u) (name_of t) Hs Hys) as (r & Er & Hr). st_step Er. rewrite !filter_cons.
  destruct (Z.eqb_spec r 0) as [E0|E0].
  - rewrite decide_False, decide_True by (tauto || (intros Hn; by apply Hn, Hr)). pose proof C as C0. rewrite fmap_app, fmap_cons in C0.
    destruct (clist_delete_node_spec _ _ _ _ _ C0) as (n' & En & C' & [Hdom Hfr]). rewrite <- fmap_app in C'.
    set (s1 := Vfs (fs_text s) (fs_types s) n' (fs_list_lock s) (root_sb s) (vfs_mem s)).
    assert (E1 : on_fs_nodes (clist_delete_node (Some (FsEntry u))) s = Some (tt, s1)) by (unfold on_fs_nodes; by rewrite En). st_step E1.
    assert (Hu : fs_nodes s1 !! FsEntry u = fs_nodes s !! FsEntry u).
    { apply Hfr. destruct C as [ND _]. rewrite <- fmap_app, elem_of_cons, entry_inj_elem. intros [?|Hin]; [done|].
      apply NoDup_cons in ND as [_ ND]. apply NoDup_fmap_1 in ND. rewrite <- Permutation_middle in ND. by apply NoDup_cons in ND as [? _]. }
    assert (E2 : on_fs_nodes (load_next (Some (FsEntry u))) s1 = Some (node_at l2, s1)).
    { pose proof (clist_next _ _ _ _ _ C0) as Hnx. unfold nxt in Hnx. rewrite <- Hu in Hnx.
      unfold on_fs_nodes. rewrite (load_next_nxt _ _ (Some (default FsHead (head (FsEntry <$> l2))))); [by unfold s1|exact Hnx]. }
    st_step E2. pose proof (on_nodes_static s n' Hdom) as Hst. fold s1 in Hst.
    destruct (IH s1 l1 fuel C') as (s' & E & C2 & Hst2 & Hl & Hu'); [by eapply Forall_impl; [exact HK|]; intros v; apply known_static|by eapply known_static|lia|].
    exists s'. split_and!; [done|done|by eapply same_static_trans|done|]. cbn [unlink]. by st_step En.
  - rewrite decide_True, decide_False by (intros Hn; by apply E0, Hr). rewrite bind_ret. st_step (next_entry s l1 u l2 C).
    destruct (IH s (l1 ++ [u]) fuel) as (s' & E & C2 & Hst & Hl & Hu'); [by rewrite <- app_assoc|done|done|lia|].
    exists s'. rewrite <- app_assoc in C2. by split_and!.
Qed.

(** ** The operations *)

Lemma lock_run s : fs_list_lock s = false -> lock_fs s = Some (tt, with_fs_lock true s).
Proof using. intros E. unfold lock_fs. by rewrite E. Qed.

(** A computation between lock and unlock. *)
Lemma locked_known s b t : known s t <-> known (with_fs_lock b s) t.
Proof using. done. Qed.

Lemma registry_done s s' l : same_static s s' -> clist (fs_nodes s') FsHead (FsEntry <$> l) -> Forall (known s) l ->
  registry (with_fs_lock false s') l /\ same_static s (with_fs_lock false s').
Proof using.
  intros Hst C HK. split; [|done]. split; [done|done|]. eapply Forall_impl; [exact HK|]. intros t Ht. by apply locked_known, (known_static s).
Qed.

Lemma register_spec s l t : registry s l -> known s t -> t ∉ l ->
  exists s', file_system_type_register t s = Some (tt, s') /\ (registry s' (t :: l) /\ same_static s s') /\
    clist_add (Some FsHead) (Some (FsEntry t)) (fs_nodes s) = Some (tt, fs_nodes s').
Proof using.
  intros [C Hl HK] Ht Hn. unfold file_system_type_register. st_step (lock_run s Hl). pose proof Ht as (x & _ & _ & Hd).
  destruct (clist_add_spec (fs_nodes s) FsHead (FsEntry t) (FsEntry <$> l) C) as (n' & En & C' & [Hdom _]); [|done|].
  { rewrite elem_of_cons, entry_inj_elem. by intros [?|?]. }
  set (s1 := Vfs (fs_text s) (fs_types s) n' true (root_sb s) (vfs_mem s)).
  assert (E1 : on_fs_nodes (clist_add (Some FsHead) (Some (FsEntry t))) (with_fs_lock true s) = Some (tt, s1))
    by (unfold on_fs_nodes; cbn; by rewrite En).
  st_step E1. exists (with_fs_lock false s1). split; [done|]. split; [|exact En]. apply (registry_done s s1); [done|done|by constructor].
Qed.

Lemma unregister_spec s l t : registry s l -> known s t ->
  exists s', file_system_type_unregister t s = Some (tt, s') /\
    (registry s' (filter (fun u => name_of u <> name_of t) l) /\ same_static s s') /\
    unlink (filter (fun u => name_of u = name_of t) l) (fs_nodes s) = Some (tt, fs_nodes s').
Proof using.
  intros [C Hl HK] Ht. unfold file_system_type_unregister. st_step (lock_run s Hl). rewrite (bind_some _ _ _ _ _ (gets_run _ _)).
  set (s0 := with_fs_lock true s). st_step (first_entry s0 l C).
  destruct (unregister_walk_spec t l s0 [] (fs_fuel s0) C HK Ht (walk_fuel_ok s l C)) as (s1 & E & C1 & Hst & _ & Hul). st_step E.
  exists (with_fs_lock false s1). split; [done|]. split; [|exact Hul]. apply (registry_done s s1); [done|done|].
  apply Forall_forall. intros u Hu. apply list_elem_of_filter in Hu as [_ Hu]. rewrite Forall_forall in HK. by apply HK.
Qed.

Lemma get_spec s l a n : registry s l -> str_at (fs_text s) a n -> file_system_type_get a s = Some (lookup_spec n l, s).
Proof using.
  intros [C Hl HK] Ha. unfold file_system_type_get. st_step (lock_run s Hl). rewrite (bind_some _ _ _ _ _ (gets_run _ _)).
  set (s0 := with_fs_lock true s). st_step (first_entry s0 l C). st_step (get_walk_spec s0 a n l [] (fs_fuel s0) C HK Ha (walk_fuel_ok s l C)).
  unfold unlock_fs, modify, bind, ret. do 2 f_equal. destruct s. cbn in *. by subst.
Qed.

Lemma step_refines s l o : registry s l -> op_ok s l o ->
  exists s', code_step o s = Some ((spec_step o l).2, s') /\ registry s' (spec_step o l).1 /\ same_static s s'.
Proof using.
  intros HR Ho. destruct o as [t|t|a n]; cbn [code_step spec_step fst snd] in *.
  - destruct Ho as [Ht Hn]. destruct (register_spec s l t HR Ht Hn) as (s' & E & H' & _). exists s'. by st_step E.
  - destruct (unregister_spec s l t HR Ho) as (s' & E & H' & _). exists s'. by st_step E.
  - exists s. by st_step (get_spec s l a n HR Ho).
Qed.

Lemma ops_static s s' os : same_static s s' -> forall l, ops_ok s l os -> ops_ok s' l os.
Proof using.
  intros Hst. induction os as [|o os IH]; intros l; [done|]. intros [Ho Hos]. split; [|by apply IH].
  destruct o as [t|t|a n]; cbn in *; [destruct Ho; split; [by eapply known_static|done]|by eapply known_static|].
  by destruct Hst as (-> & _).
Qed.


(** ** The root file system *)

(** A fresh super block: cleared but for its type. *)
Lemma super_block_alloc_spec K n s G A fs :
  heap_rep (vfs_mem s) G A -> roomy K (S n) (source (vfs_mem s)) -> clear_of K A ->
  exists sb h' G' A', super_block_alloc fs s =
      Some (sb, Vfs (fs_text s) (fs_types s) (fs_nodes s) (fs_list_lock s) (root_sb s) h') /\ sb <> 0 /\
    heap_rep h' G' A' /\ extends (vfs_mem s) h' G G' A A' /\ roomy K n (source h') /\ clear_of K A' /\ live G' 2 sb /\ ~ live G 2 sb /\ kmem h' !! (sb + SB_FS_TYPE) = Some fs /\
    (forall i, 0 <= i < 8 -> 4 * i <> SB_FS_TYPE -> kmem h' !! (sb + 4 * i) = Some 0).
Proof using.
  intros HR Hp HK. destruct (kmalloc_roomy K n _ G A SIZEOF_SUPER_BLOCK HR ltac:(done) Hp HK)
    as (sb & h1 & G1 & A1 & i & E & Hsb & HR1 & Hc & Hl & N & L & HE & Hr1 & HK1). apply cache_for_32 in Hc as ->.
  set (m1 := zero_words 8 sb (kmem h1)). set (m2 := <[sb + SB_FS_TYPE := fs]> m1).
  assert (Ho : only_object (kmem h1) m2 sb 32).
  { apply (only_object_trans _ m1); [intros a Ha; apply zero_words_out; lia|apply only_object_insert; unfold SB_FS_TYPE; lia]. }
  exists sb, (with_kmem m2 h1), G1, A1. split_and!; try done; [|lia|by apply (heap_write h1 G1 A1 2 sb 32)|by apply (extends_object (vfs_mem s) h1 G G1 A A1 2 sb 32)| |].
  - unfold super_block_alloc, super_block_init.
    assert (E1 : on_vfs_mem (kmalloc SIZEOF_SUPER_BLOCK) s = Some (sb, Vfs (fs_text s) (fs_types s) (fs_nodes s) (fs_list_lock s) (root_sb s) h1))
      by (unfold on_vfs_mem; by rewrite E).
    st_step E1. destruct (Z.eqb_spec sb 0); [lia|]. unfold on_vfs_mem at 1. unfold bind at 1. cbn [vfs_mem]. by rewrite clear_words_run.
  - cbn. unfold m2. by rewrite lookup_insert_eq.
  - intros k Hk Hne. cbn. unfold m2, m1. rewrite lookup_insert_ne by lia. apply zero_words_in. lia.
Qed.

(** Mounting the test root.  With [testfs_type] known and not registered, no
    older type of its name, and a slab to spare, [mount_root_testing] registers
    the type, finds it again by name and leaves in [root_sb] a new super block
    that points at the type and is clear otherwise; nothing older changes. *)
Theorem mount_root_testing_correct (K : Z -> Prop) (n : nat) (testfs_type testfs_name : Z) s l G A x :
  registry s l -> known s testfs_type -> fs_types s !! testfs_type = Some x -> super_alloc x = testfs_alloc -> testfs_type <> 0 ->
  (forall u, u ∈ l -> name_of u <> name_of testfs_type) -> str_at (fs_text s) testfs_name (name_of testfs_type) ->
  heap_rep (vfs_mem s) G A -> roomy K (S n) (source (vfs_mem s)) -> clear_of K A ->
  exists s' G' A', mount_root_testing testfs_type testfs_name s = Some (tt, s') /\
    registry s' (testfs_type :: l) /\ fs_text s' = fs_text s /\ heap_rep (vfs_mem s') G' A' /\ root_sb s' <> 0 /\
    extends (vfs_mem s) (vfs_mem s') G G' A A' /\ roomy K n (source (vfs_mem s')) /\ clear_of K A' /\
    live G' 2 (root_sb s') /\ ~ live G 2 (root_sb s') /\
    kmem (vfs_mem s') !! (root_sb s' + SB_FS_TYPE) = Some testfs_type /\
    (forall i, 0 <= i < 8 -> 4 * i <> SB_FS_TYPE -> kmem (vfs_mem s') !! (root_sb s' + 4 * i) = Some 0).
Proof using.
  intros HR Ht Ex Ea H0 Hu Hs Hh Hp HK.
  destruct (register_spec s l testfs_type HR Ht) as (s1 & E1 & (HR1 & T1 & T2 & T3 & T4 & T5) & _); [intros Hin; by apply (Hu _ Hin)|].
  rewrite <- T1 in Hs. pose proof (get_spec s1 (testfs_type :: l) testfs_name _ HR1 Hs) as E2. rewrite lookup_cons, decide_True in E2 by done.
  rewrite <- T5 in Hh, Hp. destruct (super_block_alloc_spec K n s1 G A testfs_type Hh Hp HK) as (sb & h' & G' & A' & E3 & Hsb & Hh' & HM & Hr & HK' & Hl & Hn & Hf & Hz).
  rewrite T5 in HM. eexists _, G', A'. split.
  - unfold mount_root_testing, testfs_init. st_step E1. st_step E2. destruct (Z.eqb_spec testfs_type 0); [done|].
    assert (Eg : get_fs testfs_type s1 = Some (x, s1)) by (unfold get_fs; by rewrite T2, Ex). st_step Eg. rewrite Ea.
    unfold call_super_alloc, testfs_super_alloc. st_step E3. destruct (Z.eqb_spec sb 0); [done|]. reflexivity.
  - cbn. split_and!; try done. destruct HR1 as [R1 R2 R3]. split; [done|done|exact R3].
Qed.

End Spec.

(** ** Two types, one name each *)

Definition example_names (t : Z) : list Z := if t =? 100 then [101; 120; 116] else [116; 101; 115; 116; 102; 115].

(** "ext" at 10 and 30, "testfs" at 20 and 40. *)
Definition example_text : bytes :=
  list_to_map (zip (seqZ 10 4) [101; 120; 116; 0]) ∪ list_to_map (zip (seqZ 20 7) [116; 101; 115; 116; 102; 115; 0]) ∪
  list_to_map (zip (seqZ 30 4) [101; 120; 116; 0]) ∪ list_to_map (zip (seqZ 40 7) [116; 101; 115; 116; 102; 115; 0]).

#[local] Existing Instance source128.

Definition example_vfs : vfs buddy :=
  Vfs example_text {[ 100 := FsType 10 0 no_alloc; 200 := FsType 20 0 testfs_alloc ]}
    {[ FsHead := LNode (Some FsHead) (Some FsHead); FsEntry 100 := LNode None None; FsEntry 200 := LNode None None ]} false 0 heap128.

Ltac text_at := split; [repeat (apply seg_cons; split; [vm_compute; reflexivity|]); apply seg_nil|repeat (constructor; [lia|]); constructor].

Lemma example_registry : registry example_names example_vfs [].
Proof. split; [|reflexivity|constructor]. split; [apply NoDup_singleton|]. split; [reflexivity|]. split; [reflexivity|exact I]. Qed.

Lemma example_known : known example_names example_vfs 100 /\ known example_names example_vfs 200.
Proof.
  split; [exists (FsType 10 0 no_alloc)|exists (FsType 20 0 testfs_alloc)]; (split; [reflexivity|]; split; [|by eexists]).
  - change (example_names 100) with [101; 120; 116]. text_at.
  - change (example_names 200) with [116; 101; 115; 116; 102; 115]. text_at.
Qed.


Lemma mount_root_testing_correct_witness : exists s', mount_root_testing 200 40 example_vfs = Some (tt, s') /\ root_sb s' <> 0.
Proof.
  destruct example_known as [_ K2].
  destruct (mount_root_testing_correct example_names (fun x => x < 16) 0 200 40 example_vfs [] (replicate 13 []) ∅ (FsType 20 0 testfs_alloc)) as (s' & G' & A' & E & _ & _ & _ & H0 & _).
  - exact example_registry.
  - exact K2.
  - reflexivity.
  - reflexivity.
  - lia.
  - set_solver.
  - change (example_names 200) with [116; 101; 115; 116; 102; 115]. text_at.
  - exact heap128_rep.
  - apply (roomyb_spec 16). vm_compute. reflexivity.
  - intros b x Hb. set_solver.
  - exists s'. split; [exact E|exact H0].
Defined.
