(* ===== verification/VmSpec.v ===== *)
(** * The kernel's directory and address spaces

    What [paging_setup_kernel_pgd] builds from early memory, what
    [ptable_pgd_new] copies of it, and what [vm_space_page_fault] does with the
    mappings of an address space. *)

From stdpp Require Import base numbers list gmap.
From Stdlib Require Import ZArith Lia Znumtheory.
From S2P Require Import Prelude LinkedList PageDefs Bootmem BootmemSpec Blocks Palloc PageSource Slab SlabInv Ptable PtableSpec.

#[local] Open Scope Z_scope.

(** ** The linear map with 4 MiB pages *)

Definition huge_flags (pde_global : Z) : Z := Z.lor PDE_PRESENT (Z.lor PDE_WRITABLE (Z.lor PDE_PAGE_SIZE_4M pde_global)).

Lemma setup_huge_out n : forall pgd cur g m a,
  ~ (pgd + 4 * cur <= a < pgd + 4 * (cur + Z.of_nat n)) -> setup_huge n pgd cur g m !! a = m !! a.
Proof.
  induction n as [|n IH]; intros pgd cur g m a Ha; [done|]. cbn [setup_huge]. cbv zeta. rewrite IH by lia.
  by rewrite lookup_insert_ne by lia.
Qed.

Lemma setup_huge_in n : forall pgd cur g m i, cur <= i < cur + Z.of_nat n ->
  setup_huge n pgd cur g m !! (pgd + 4 * i) =
    Some (MAKE_PDE (PDE_IDX_TO_ADDR (i - PAGE_DIRECTORY_INDEX KERNEL_START_VIRT)) (huge_flags g)).
Proof.
  induction n as [|n IH]; intros pgd cur g m i Hi; [lia|]. cbn [setup_huge]. cbv zeta.
  destruct (decide (i = cur)) as [->|Hne]; [|apply IH; lia].
  rewrite setup_huge_out by lia. by rewrite lookup_insert_eq.
Qed.

(** ** The tables for temporary mappings *)

(** Room for [n] pages in one available region. *)
Definition room (n : nat) (bm : bootmem) : Prop :=
  exists r a, r ∈ mem_regions bm /\ type r = MEM_REGION_AVAILABLE /\ (4096 | a) /\ 0 < start_addr r <= a /\
    a + 4096 * Z.of_nat n <= end_addr r.

Section Kmap.
  Context (ks ke : Z).

(** Early memory usable for page tables. *)
Record early_ok (bm : bootmem) : Prop := EarlyOk {
  eo_ok : bm_ok ks ke bm;
  eo_disjoint : bm_disjoint bm;
  eo_linear : highest_pfn bm <= LINEAR_FRAMES
}.

(** Allocating early memory changes neither the number of regions nor the top. *)
Definition same_shape (bm bm' : bootmem) : Prop :=
  highest_pfn bm' = highest_pfn bm /\ region_count bm' = region_count bm.

(** An allocation leaves the rest of the room. *)
Lemma alloc_room j size m n bm a bm' :
  early_ok bm -> 0 <= j <= 12 -> 0 < size <= 4096 * Z.of_nat m -> room (m + n) bm ->
  bootmem_alloc size (2 ^ j) bm = Some (Some a, bm') -> room n bm'.
Proof.
  intros [HB HD HL] Hj Hsize (r & x & Hr & Ht & Hx & Hs & He).
  assert (Hpow : 1 <= 2 ^ j <= 4096) by (change 1 with (2 ^ 0); change 4096 with (2 ^ 12); split; apply Z.pow_le_mono_r; lia).
  assert (Htop : highest_pfn bm * 4096 + 2 ^ j <= 4294967296) by (unfold LINEAR_FRAMES in HL; lia).
  rewrite bootmem_alloc_scan.
  destruct (alloc_scan (mem_regions bm) size (2 ^ j)) as [[i a']|] eqn:Esc; [|discriminate].
  intros [= Ea <-]. destruct (alloc_scan_some _ _ _ _ _ Esc) as (q' & Ei & _ & Eal & Hlt & Hsz).
  assert (Hq' : q' ∈ mem_regions bm) by by eapply list_elem_of_lookup_2.
  destruct (align_in_region ks ke j bm HB ltac:(lia) Htop q' Hq') as [A1 A2]. rewrite <- Eal in A1, A2.
  destruct (bo_region _ _ _ HB q' Hq') as (Q1 & Q2 & _).
  apply list_elem_of_lookup in Hr as [k Ek]. destruct (decide (k = i)) as [->|Hne].
  - assert (q' = r) as -> by congruence. exists (carve a' size r), (x + 4096 * Z.of_nat m).
    assert (Hax : a' <= x).
    { assert (D : (2 ^ j | x)) by (etrans; [|exact Hx]; change 4096 with (2 ^ 12); exists (2 ^ (12 - j)); rewrite <- Z.pow_add_r by lia; f_equal; lia).
      destruct A2 as [u Hu], D as [v Hv]. assert (u < v + 1) by nia. nia. }
    rewrite u32_small in Hsz by (unfold LINEAR_FRAMES in HL; lia).
    assert (Eu : u32 (a' + size) = a' + size) by (apply u32_small; unfold LINEAR_FRAMES in HL; lia).
    split_and!; [|done|apply Z.divide_add_r; [done|by exists (Z.of_nat m); lia]|cbn; rewrite Eu; lia|cbn; rewrite Eu; lia|cbn; lia].
    apply (list_elem_of_lookup_2 _ i). cbn. by rewrite list_lookup_alter_eq, Ek.
  - exists r, x. split_and!; try done; [|lia..]. apply (list_elem_of_lookup_2 _ k). cbn. by rewrite list_lookup_alter_ne.
Qed.

Lemma early_page bm n : early_ok bm -> room (S n) bm ->
  exists a bm', bootmem_alloc PAGE_SIZE PAGE_SIZE bm = Some (Some (PHY_TO_VIR a), bm') /\
    (4096 | a) /\ (forall b, a <= b < a + 4096 -> in_regions bm b /\ ~ in_regions bm' b) /\
    (forall b, in_regions bm' b -> in_regions bm b) /\ early_ok bm' /\ room n bm' /\
    0 <= a /\ a + 4096 <= LINEAR_FRAMES * 4096 /\ same_shape bm bm'.
Proof.
  intros HE (r & x & Hr & Ht & Hx & Hs & He). pose proof HE as [HB HD HL]. change PAGE_SIZE with (2 ^ 12) at 2.
  assert (Htop : highest_pfn bm * 4096 + 2 ^ 12 <= 4294967296) by (unfold LINEAR_FRAMES in HL; lia).
  destruct (bootmem_alloc_spec ks ke PAGE_SIZE 12 bm HB HD ltac:(done) ltac:(lia) Htop)
    as [(a & q & bm' & E & Ha & Hq & Htq & Hin & HB' & HD' & Hh & Hcn & Hsub)|[_ HN]].
  2:{ exfalso. specialize (HN r x Hr Ht Hx (proj2 Hs)). unfold PAGE_SIZE in HN. lia. }
  exists a, bm'. change (2 ^ 12) with 4096 in *. unfold PAGE_SIZE in *.
  destruct (bo_region _ _ _ HB q Hq) as (R1 & R2 & _).
  split_and!; try done; [|intros b Hb; by apply Hsub|by constructor; [..|rewrite Hh]| |lia|lia].
  - intros b Hb. split; [exists q; split; [done|unfold in_region; lia]|]. intros Hb'. by apply (proj2 (Hsub b Hb')).
  - apply (alloc_room 12 4096 1 n bm (PHY_TO_VIR a) bm' HE ltac:(lia) ltac:(lia)); [by exists r, x|exact E].
Qed.

Lemma kmap_entry a g : 0 <= a -> (4096 | a) -> a + 4096 <= LINEAR_FRAMES * 4096 -> g = 0 \/ g = PDE_GLOBAL ->
  MAKE_PDE (VIR_TO_PHY (PHY_TO_VIR a)) (Z.lor PDE_PRESENT (Z.lor PDE_WRITABLE g)) = a + (3 + g) /\
  PHY_TO_VIR a = lin (a / 4096).
Proof.
  intros H0 Hd Ht Hg. unfold LINEAR_FRAMES in Ht. rewrite VIR_PHY_roundtrip by lia. change MAKE_PDE with MAKE_PTE.
  assert (Hm : a mod 4096 = 0) by by apply Z.mod_divide.
  split.
  - assert (Ef : Z.lor PDE_PRESENT (Z.lor PDE_WRITABLE g) = 3 + g) by (destruct Hg as [->| ->]; done).
    rewrite Ef, MAKE_PTE_eq, Hm; [lia|lia|]. destruct Hg as [->| ->]; unfold PDE_GLOBAL; lia.
  - unfold PHY_TO_VIR, lin. rewrite u32_small by (unfold KERNEL_START_VIRT; lia).
    pose proof (Z.div_mod a 4096 ltac:(lia)). lia.
Qed.

(** The directory at [lin q] and everything outside early memory stay put. *)
Lemma setup_kmap_spec k n : forall q cur g bm m,
  early_ok bm -> room (n + k) bm -> g = 0 \/ g = PDE_GLOBAL -> 0 <= cur -> cur + Z.of_nat n <= 1024 ->
  (forall b, q * 4096 <= b < (q + 1) * 4096 -> ~ in_regions bm b) ->
  exists bm' m', setup_kmap n (lin q) cur g (bm, m) = Some (tt, (bm', m')) /\ (early_ok bm' /\ room k bm' /\ same_shape bm bm') /\
    (forall b, in_regions bm' b -> in_regions bm b) /\
    (forall x a, in_frame x a -> (forall b, x * 4096 <= b < (x + 1) * 4096 -> ~ in_regions bm b) ->
       ~ (lin q + 4 * cur <= a < lin q + 4 * (cur + Z.of_nat n)) -> m' !! a = m !! a) /\
    (forall i, cur <= i < cur + Z.of_nat n -> exists t, 0 <= t < LINEAR_FRAMES /\ m' !! (lin q + 4 * i) = Some (t * 4096 + (3 + g)) /\
       forall j, 0 <= j < 1024 -> m' !! (lin t + 4 * j) = Some 0).
Proof.
  induction n as [|n IH]; intros q cur g bm m HE HR Hg Hc0 Hc Hq.
  { exists bm, m. split_and!; try done; lia. }
  destruct (early_page bm (n + k) HE HR) as (a & bm1 & E & Hd & Hout & Hsub & HE1 & HR1 & Ha0 & Ha & Sh1 & Sh2).
  destruct (kmap_entry a g Ha0 Hd Ha Hg) as [Ee El]. cbn [setup_kmap]. rewrite E, Ee, El.
  set (t := a / 4096) in *. assert (Eat : a = t * 4096) by (destruct Hd as [v ->]; unfold t; by rewrite Z.div_mul by lia).
  assert (Hqt : q <> t). { intros ->. apply (Hq a); [lia|]. apply Hout. lia. }
  set (m1 := <[_ := _]> _).
  assert (Hm1 : forall x b, in_frame x b -> x <> t -> b <> lin q + 4 * cur -> m1 !! b = m !! b).
  { intros x b Hb Hx Hne. unfold m1. rewrite lookup_insert_ne by done. apply zero_words_out. unfold in_frame, lin in *.
    unfold PAGE_TABLE_SIZE. lia. }
  destruct (IH q (cur + 1) g bm1 m1 HE1 HR1 Hg ltac:(lia) ltac:(lia)) as (bm' & m' & E' & (HE' & HR' & Sh3 & Sh4) & Hsub' & Hk & Hi).
  { intros b Hb Hb'. by apply (Hq b Hb), Hsub. }
  exists bm', m'. split_and!; [done|done|done|split; congruence|intros b Hb; by apply Hsub, Hsub'| |].
  - intros x b Hb Hx Hn. rewrite (Hk x b Hb), (Hm1 x b Hb); try done; try lia.
    + intros ->. apply (Hx a); [lia|]. apply Hout. lia.
    + intros c Hc' Hin. by apply (Hx c Hc'), Hsub.
  - intros i Hir. destruct (decide (i = cur)) as [->|Hne]; [|apply Hi; lia].
    assert (Hword : forall x b, in_frame x b -> x = q \/ x = t -> ~ (lin q + 4 * (cur + 1) <= b < lin q + 4 * (cur + 1 + Z.of_nat n)) ->
      m' !! b = m1 !! b).
    { intros x b Hb Hx Hn. apply (Hk x b Hb); [|done]. destruct Hx as [->| ->]; intros c Hc' Hin.
      - by apply (Hq c Hc'), Hsub. - by apply (proj2 (Hout c ltac:(lia))). }
    exists t. split_and!; [lia|unfold LINEAR_FRAMES in *; lia| |].
    + rewrite (Hword q); [|apply word_in_frame; lia|by left|lia]. unfold m1. by rewrite lookup_insert_eq, Eat.
    + intros j Hj. rewrite (Hword t); [|by apply word_in_frame|by right|unfold lin; lia].
      unfold m1. rewrite lookup_insert_ne by (unfold lin; lia). by apply zero_words_in.
Qed.

End Kmap.

(** ** The whole kernel directory *)

Lemma kernel_huge_entry i pge : 768 <= i < 960 ->
  MAKE_PDE (PDE_IDX_TO_ADDR (i - PAGE_DIRECTORY_INDEX KERNEL_START_VIRT)) (huge_flags (if pge : bool then PDE_GLOBAL else 0)) =
    (i - 768) * 4194304 + (if pge then 387 else 131).
Proof.
  intros Hi. change (PAGE_DIRECTORY_INDEX KERNEL_START_VIRT) with 768. unfold PDE_IDX_TO_ADDR.
  rewrite Z.shiftl_mul_pow2 by lia. change (2 ^ 22) with 4194304. rewrite u32_small by lia. change MAKE_PDE with MAKE_PTE.
  assert (Hm : ((i - 768) * 4194304) mod 4096 = 0) by (apply Z.mod_divide; [lia|]; exists ((i - 768) * 1024); lia).
  destruct pge; rewrite MAKE_PTE_eq, Hm, Z.sub_0_r; [done|lia|by vm_compute|done|lia|by vm_compute].
Qed.

Lemma huge_entry_bits x fl i : 0 <= fl < 4096 -> 0 <= i < 12 -> Z.testbit (x * 4194304 + fl) i = Z.testbit fl i.
Proof. intros Hf Hi. replace (x * 4194304) with ((x * 1024) * 4096) by lia. by apply entry_bits. Qed.

(** The entries of a directory for the kernel's linear addresses: pages of 4 MB. *)
Definition kernel_half (m : gmap Z Z) (pgd : Z) : Prop :=
  exists pge : bool, forall i, 768 <= i < 960 -> m !! (pgd + 4 * i) = Some ((i - 768) * 4194304 + (if pge then 387 else 131)).

(** A directory with these entries, whatever else it holds, maps the kernel's
    addresses linearly. *)
Lemma kernel_address m pgd va :
  kernel_half m pgd -> KERNEL_START_VIRT <= va < KMAP_START_VIRT -> mmu_address m pgd va = Some (va - KERNEL_START_VIRT).
Proof.
  intros [pge Hm] Hv. unfold KERNEL_START_VIRT, KMAP_START_VIRT in *. unfold mmu_address, GET_PDE.
  assert (Hi : 768 <= va / 4194304 < 960) by (split; [apply Z.div_le_lower_bound; lia|apply Z.div_lt_upper_bound; lia]).
  rewrite PDI_eq, Hm by lia. pose proof (Z.div_mod va 4194304 ltac:(lia)) as Ed.
  set (fl := if pge then 387 else 131). assert (Hf : 0 <= fl < 4096) by (by destruct pge).
  rewrite !huge_entry_bits by lia. assert (Z.testbit fl 0 = true /\ Z.testbit fl 7 = true) as [-> ->] by by destruct pge.
  cbn [negb]. f_equal. rewrite (Z.add_comm _ fl), Z.mod_add, (Z.mod_small fl) by lia. lia.
Qed.

Lemma kmap_unmapped m q va t fl :
  0 <= va < 4294967296 -> 0 <= t < LINEAR_FRAMES -> fl = 3 \/ fl = 259 ->
  m !! (lin q + 4 * PAGE_DIRECTORY_INDEX va) = Some (t * 4096 + fl) ->
  (forall j, 0 <= j < 1024 -> m !! (lin t + 4 * j) = Some 0) -> mmu_walk m (lin q) va = None.
Proof.
  intros Hv Ht Hfl Ee Hz. assert (Hf : 0 <= fl < 4096) by lia. unfold mmu_walk, GET_PDE.
  rewrite Ee, !entry_bits by lia. assert (Z.testbit fl 0 = true /\ Z.testbit fl 7 = false) as [-> ->] by (by destruct Hfl as [->| ->]).
  cbn [negb]. rewrite entry_frame by lia. unfold GET_PTE.
  assert (PHY_TO_VIR (t * 4096) = lin t) as -> by (unfold PHY_TO_VIR, lin, KERNEL_START_VIRT, LINEAR_FRAMES in *; rewrite u32_small; lia).
  by rewrite Hz by by apply PTI_range.
Qed.

Lemma kernel_pgd_spec k ks ke pge q bm m :
  early_ok ks ke bm -> room (64 + k) bm -> 0 <= q < LINEAR_FRAMES -> ks <= q * 4096 -> (q + 1) * 4096 <= ke ->
  exists bm' m', paging_setup_kernel_pgd true pge (lin q) (bm, m) = Some (tt, (bm', m')) /\
    (kernel_half m' (lin q) /\
     (forall va, KMAP_START_VIRT <= va < 4294967296 -> mmu_walk m' (lin q) va = None) /\
     (forall i, 0 <= i < 768 -> m' !! (lin q + 4 * i) = m !! (lin q + 4 * i)) /\
     (forall i, 768 <= i < 1024 -> is_Some (m' !! (lin q + 4 * i)))) /\
    early_ok ks ke bm' /\ room k bm' /\ same_shape bm bm' /\ (forall b, in_regions bm' b -> in_regions bm b).
Proof.
  intros HE HR Hq Hks Hke. unfold paging_setup_kernel_pgd. change (PAGE_DIRECTORY_INDEX KERNEL_START_VIRT) with 768.
  change (PAGE_DIRECTORY_INDEX KMAP_START_VIRT) with 960. unfold modify, bind. cbv iota beta.
  set (g := if pge then PDE_GLOBAL else 0). assert (Hg : g = 0 \/ g = PDE_GLOBAL) by (destruct pge; auto).
  set (m1 := setup_huge _ _ _ _ _).
  assert (Hout : forall b, q * 4096 <= b < (q + 1) * 4096 -> ~ in_regions bm b).
  { intros b Hb (r & Hr & Hin). destruct (bo_region _ _ _ (eo_ok _ _ _ HE) r Hr) as (_ & _ & _ & HK). unfold in_region in Hin. lia. }
  destruct (setup_kmap_spec ks ke k 64 q 960 g bm m1 HE HR Hg ltac:(lia) ltac:(lia) Hout) as (bm' & m' & E & (HE' & HR' & Sh1 & Sh2) & Hsub & Hk & Hi).
  assert (Hdir : forall i, 0 <= i < 960 -> m' !! (lin q + 4 * i) = m1 !! (lin q + 4 * i)).
  { intros i Hir. apply (Hk q); [apply word_in_frame; lia|done|lia]. }
  exists bm', m'. split_and!; [|clear E|clear E|clear E|clear E|done..].
  - change (Z.to_nat (PAGE_DIR_SIZE - 960)) with 64%nat. exact E.
  - exists pge. intros i Hir. rewrite Hdir by lia. unfold m1.
    rewrite setup_huge_in by (change (Z.to_nat (960 - 768)) with 192%nat; lia). exact (f_equal Some (kernel_huge_entry i pge Hir)).
  - intros va Hv. unfold KMAP_START_VIRT in Hv.
    assert (Hp : 960 <= PAGE_DIRECTORY_INDEX va < 960 + Z.of_nat 64).
    { rewrite PDI_eq by lia. split; [apply Z.div_le_lower_bound; lia|apply Z.div_lt_upper_bound; lia]. }
    destruct (Hi _ Hp) as (t & Ht & Ee & Hz). apply (kmap_unmapped m' q va t (3 + g)); [lia|done| |done|done].
    destruct Hg as [->| ->]; auto.
  - intros i Hir. rewrite Hdir by lia. unfold m1. rewrite setup_huge_out; [done|]. lia.
  - intros i Hir. destruct (Z.lt_ge_cases i 960).
    + rewrite Hdir by lia. unfold m1. rewrite setup_huge_in by (change (Z.to_nat (960 - 768)) with 192%nat; lia). by eexists.
    + destruct (Hi i ltac:(lia)) as (t & _ & Ee & _). by eexists.
Qed.

(** Once the directory is built, it is loaded. *)
Lemma paging_init_run pse pge q cr3 st st' :
  0 < q < LINEAR_FRAMES -> paging_setup_kernel_pgd pse pge (lin q) st = Some (tt, st') ->
  paging_init pse pge (lin q) cr3 st = Some ((E_SUCCESS, q * 4096), st').
Proof.
  intros Hq E. unfold paging_init. rewrite (bind_some _ _ _ _ _ E). cbv zeta.
  assert (VIR_TO_PHY (lin q) = q * 4096) as ->.
  { unfold VIR_TO_PHY, lin. rewrite u32_small by (unfold LINEAR_FRAMES in Hq; lia). lia. }
  unfold paging_switch_pgd, IS_PAGE_ALIGNED, PAGE_SIZE. change (4096 - 1) with (Z.ones 12). rewrite Z.land_ones by lia.
  change (2 ^ 12) with 4096. rewrite Z.mod_mul by lia. assert ((q * 4096 =? 0) = false) as -> by (apply Z.eqb_neq; lia). done.
Qed.

(** ** New address spaces *)

Section Spaces.
  Context {P : Type} `{PageSource P}.

  Implicit Types (h : heap P).

(** The kernel's directory at [lin q]: readable, its user half empty. *)
Definition kernel_directory h (q : Z) : Prop :=
  (forall i, 0 <= i < 1024 -> is_Some (kmem h !! (lin q + 4 * i))) /\
  (forall i e, 0 <= i < USER_PDES -> kmem h !! (lin q + 4 * i) = Some e -> Z.testbit e 0 = false).

Lemma page_alloc_va0_run h A :
  ps_rep (source h) A ->
  (exists p s', ps_alloc 0 (source h) = Some (Some p, s') /\ page_alloc_va0 h = Some (lin p, Heap (kmem h) (caches h) s') /\
     ps_rep s' (A ∪ {[(p, 0)]}) /\ (forall b x, b ∈ A -> inb x b -> x <> p) /\ 0 <= p < LINEAR_FRAMES) \/
  (exists s', ps_alloc 0 (source h) = Some (None, s') /\ page_alloc_va0 h = None).
Proof.
  intros HR. destruct (ps_alloc_spec (source h) A 0 HR ltac:(done)) as [(p & s' & E & HR' & Hf & _ & _)|(s' & E & _)].
  - left. destruct (lin_page _ _ p HR' ltac:(by apply elem_of_union_r, elem_of_singleton)) as [Hp El].
    exists p, s'. split_and!; try done; try lia.
    + unfold page_alloc_va0, alloc_frame, take_page, bind. rewrite E. cbn. rewrite PFN_TO_PA_eq, El by (unfold LINEAR_FRAMES in Hp; lia). done.
    + intros b x Hb Hx ->. apply (Hf b p Hb Hx). apply inb_self.
  - right. exists s'. split; [done|]. unfold page_alloc_va0, alloc_frame, take_page, bind. by rewrite E.
Qed.

Lemma ptable_pgd_new_spec h q A :
  ps_rep (source h) A -> kernel_directory h q -> 0 <= q < LINEAR_FRAMES ->
  (forall p s', ps_alloc 0 (source h) = Some (Some p, s') -> p <> q) ->
  (exists p h', ptable_pgd_new (lin q) h = Some (lin p, h') /\ user_rep h' (lin p) ∅ (A ∪ {[(p, 0)]}) /\
     (forall b x, b ∈ A -> inb x b -> x <> p) /\ 0 <= p < LINEAR_FRAMES /\
     (caches h' = caches h /\ ps_alloc 0 (source h) = Some (Some p, source h')) /\
     (forall i, 0 <= i < 1024 -> kmem h' !! (lin p + 4 * i) = kmem h !! (lin q + 4 * i)) /\
     (forall x a, in_frame x a -> x <> p -> kmem h' !! a = kmem h !! a)) \/
  (exists s', ps_alloc 0 (source h) = Some (None, s') /\ ptable_pgd_new (lin q) h = None).
Proof.
  intros HR [Hrd Hemp] Hq Hne. unfold ptable_pgd_new.
  destruct (page_alloc_va0_run h A HR) as [(p & s' & E & Ea & HR' & Hf & Hp)|(s' & E & Ea)].
  2:{ right. exists s'. split; [done|]. unfold bind. by rewrite Ea. }
  left. exists p. rewrite (bind_some _ _ _ _ _ Ea). specialize (Hne p s' E).
  assert ((lin p =? 0) = false) as -> by (unfold lin, KERNEL_START_VIRT; lia).
  rewrite (bind_some _ _ _ _ _ (clear_words_run 1024 (lin p) _)). cbn [kmem].
  set (h1 := with_kmem _ _).
  assert (H1 : forall x a, in_frame x a -> x <> p -> kmem h1 !! a = kmem h !! a).
  { intros x a Ha Hx. unfold h1. rewrite kmem_with. apply zero_words_out. unfold in_frame, lin in *. lia. }
  destruct (copy_words_run 1024 (lin p) (lin q) h1) as (m' & E' & Hin & Hout).
  { intros i Hi. rewrite (H1 q); [|apply word_in_frame; lia|done]. apply Hrd. lia. }
  { unfold lin. lia. }
  rewrite (bind_some _ _ _ _ _ E'). exists (with_kmem m' h1).
  assert (Hdir : forall i, 0 <= i < 1024 -> m' !! (lin p + 4 * i) = kmem h !! (lin q + 4 * i)).
  { intros i Hi. rewrite Hin by lia. apply (H1 q); [by apply word_in_frame|done]. }
  assert (Hu : USER_PDES = 768) by done.
  split; [done|]. split_and!; [|done|lia|lia|done|done|intros i Hi; rewrite kmem_with; by apply Hdir|].
  - assert (Hs : ps_rep (source h1) (A ∪ {[(p, 0)]})) by exact HR'. clearbody h1.
    constructor; rewrite ?kmem_with; [| |intros i t Ei|intros i t j Ei|intros i j t Ei|exact Hs]; try discriminate Ei.
    + exists p. split; [by apply elem_of_union_r, elem_of_singleton|done].
    + intros i Hi _. destruct (Hrd i ltac:(lia)) as [e Ee]. exists e. rewrite Hdir by lia. split; [done|by apply (Hemp i)].
  - intros x a Ha Hx. rewrite kmem_with, Hout by (unfold in_frame, lin in *; lia). by apply (H1 x).
Qed.

(** ** The page-fault handler *)

(** The mappings of an address space: node address, first and end address. *)
Fixpoint maps_chain (m : gmap Z Z) (node : Z) (ms : list (Z * (Z * Z))) : Prop :=
  match ms with
  | [] => node = 0
  | (a, (s, e)) :: r => node = a /\ a <> 0 /\ m !! (a + MAP_START) = Some s /\ m !! (a + MAP_END) = Some e /\
      exists nx, m !! a = Some nx /\ maps_chain m nx r
  end.

Definition covered (ms : list (Z * (Z * Z))) (addr : Z) : bool :=
  existsb (fun '(_, (s, e)) => (s <=? addr) && (addr <? e)) ms.

Lemma maps_chain_keys m ms : forall node x, maps_chain m node ms -> x ∈ ms.*1 -> is_Some (m !! x).
Proof.
  induction ms as [|[a [s e]] ms IH]; intros node x; cbn; [set_solver|].
  intros (_ & _ & _ & _ & nx & E & HC) [->|Hx]%elem_of_cons; [eauto|by apply (IH nx)].
Qed.

Lemma fault_walk_spec ms : forall fuel h space node addr,
  maps_chain (kmem h) node ms -> (length ms < fuel)%nat ->
  fault_walk fuel space node addr h =
    if covered ms addr then vm_space_map_page space addr h else Some (E_ERROR, h).
Proof.
  induction ms as [|[a [s e]] ms IH]; intros [|fuel] h space node addr HC Hf; cbn in Hf; [lia| |lia|]; cbn [fault_walk].
  - cbn in HC. subst node. done.
  - destruct HC as (-> & Hnz & Es & Ee & nx & En & HC). assert ((a =? 0) = false) as -> by by apply Z.eqb_neq.
    rewrite (bind_some _ _ _ _ _ (load_some _ _ _ Es)).
    assert (Hin : (if s <=? addr then e0 <- load (a + MAP_END);; ret (addr <? e0) else ret false)%st h =
      Some ((s <=? addr) && (addr <? e), h)).
    { destruct (s <=? addr); [|done]. by rewrite (bind_some _ _ _ _ _ (load_some _ _ _ Ee)). }
    rewrite (bind_some _ _ _ _ _ Hin). cbn [covered existsb]. destruct (_ && _); [done|]. cbn [orb].
    rewrite (bind_some _ _ _ _ _ (load_some _ _ _ En)). apply IH; [done|lia].
Qed.

Lemma page_fault_run h space ms first addr :
  kmem h !! (space + VMS_MAPPINGS) = Some first -> maps_chain (kmem h) first ms -> NoDup ms.*1 ->
  vm_space_page_fault space addr h =
    if covered ms addr then vm_space_map_page space addr h else Some (E_ERROR, h).
Proof.
  intros Ef HC ND. unfold vm_space_page_fault. rewrite (bind_some _ _ _ _ _ (load_some _ _ _ Ef)). unfold gets, bind.
  apply fault_walk_spec; [done|]. unfold walk_fuel. rewrite <- (length_fmap fst ms).
  assert (length ms.*1 <= size (kmem h))%nat; [|lia]. apply keys_length; [done|]. intros x Hx. by eapply maps_chain_keys.
Qed.

Lemma user_rep_source h m pgd T A A' s' :
  user_rep (Heap m (caches h) (source h)) pgd T A -> A ⊆ A' -> ps_rep s' A' -> user_rep (Heap m (caches h) s') pgd T A'.
Proof.
  intros [(q & Hq & E) H2 H3 H4 H5 H6] Hs HR. constructor; try done.
  - exists q. split; [by apply Hs|done].
  - intros i t Ei. destruct (H3 i t Ei) as (? & ? & p & fl & Hp & ?). split; [done|]. split; [done|]. exists p, fl. split; [by apply Hs|done].
Qed.

Lemma vm_space_map_page_spec h space phys T A addr :
  user_rep h (PHY_TO_VIR phys) T A -> kmem h !! (space + VMS_PGD) = Some phys -> 0 <= addr < KERNEL_START_VIRT ->
  (exists p h' T' A', vm_space_map_page space addr h = Some (E_SUCCESS, h') /\ user_rep h' (PHY_TO_VIR phys) T' A' /\
     A ⊆ A' /\ (p, 0) ∈ A' /\ (forall b x, b ∈ A -> inb x b -> x <> p) /\ outside_kept h h' (PHY_TO_VIR phys) T A /\
     forall va, 0 <= va < KERNEL_START_VIRT -> mmu_walk (kmem h') (PHY_TO_VIR phys) va =
       if decide (va / 4096 = addr / 4096) then Some (p * 4096 + 5) else mmu_walk (kmem h) (PHY_TO_VIR phys) va) \/
  (exists s', ps_alloc 0 (source h) = Some (None, s') /\
     vm_space_map_page space addr h = Some (E_ERROR, Heap (kmem h) (caches h) s')) \/
  (exists p s' s'', T !! PAGE_DIRECTORY_INDEX addr = None /\ ps_alloc 0 (source h) = Some (Some p, s') /\
     ps_alloc 0 s' = Some (None, s'') /\ vm_space_map_page space addr h = None).
Proof.
  intros HR Ep Ha. unfold vm_space_map_page.
  destruct (ps_alloc_spec (source h) A 0 (ur_source _ _ _ _ HR) ltac:(done)) as [(p & s' & E & HR' & Hf & _ & _)|(s' & E & _)].
  2:{ right. left. exists s'. split; [done|]. unfold take_page, bind. by rewrite E. }
  assert (Et : take_page 0 h = Some (Some p, Heap (kmem h) (caches h) s')) by (unfold take_page; by rewrite E).
  rewrite (bind_some _ _ _ _ _ Et). set (h1 := Heap (kmem h) (caches h) s').
  assert (Ep1 : kmem h1 !! (space + VMS_PGD) = Some phys) by done.
  rewrite (bind_some _ _ _ _ _ (load_some _ _ _ Ep1)).
  destruct (lin_page _ _ p HR' ltac:(by apply elem_of_union_r, elem_of_singleton)) as [Hp _]. unfold LINEAR_FRAMES in Hp.
  assert (HR1 : user_rep h1 (PHY_TO_VIR phys) T (A ∪ {[(p, 0)]})).
  { apply (user_rep_source h (kmem h) _ T A); [by destruct h|set_solver|done]. }
  rewrite (PFN_TO_PA_eq p) by lia.
  destruct (ptable_map_spec h1 _ T _ addr (p * 4096) 0 HR1 Ha ltac:(lia))
    as [(h' & T' & A' & Em & HR2 & HA & _ & Ho & _ & Hw)|(HN & Em & s'' & Es)].
  - left. exists p, h', T', A'. rewrite (bind_some _ _ _ _ _ Em). split_and!; try done; [set_solver|set_solver| | |].
    + intros b x Hb Hx ->. apply (Hf b p Hb Hx). apply inb_self.
    + destruct Ho as (? & ? & Hk). split_and!; try done. intros b x a Hb. apply (Hk b x a). set_solver.
    + intros va Hv. rewrite Hw by done. rewrite map_entry_eq, Z.mod_mul, Z.sub_0_r by lia. done.
  - right. right. exists p, s', s''. split_and!; try done. unfold bind. by rewrite Em.
Qed.

End Spaces.
