(* ===== verification/VmClaims.v ===== *)
(** * Theorems about page tables, address spaces and the kernel directory

    What the hardware's page walk finds after each operation; stated for any
    page source, with witnesses on the small machine of PageClaims.v. *)

From stdpp Require Import base numbers list gmap.
From Stdlib Require Import ZArith Lia Znumtheory.
From S2P Require Import Prelude PageDefs Bootmem BootmemSpec Blocks Palloc PageAlloc PageSource PageClaims Slab SlabInv HeapClaims Ptable PtableSpec VmSpec.

#[local] Open Scope Z_scope.

Section Claims.
  Context {P : Type} `{PageSource P}.

  Implicit Types (h : heap P) (T : gmap Z Z) (A : gset (Z * Z)).

(** A run of [map_many] that does not return stopped at an exhausted page
    source. *)
Lemma map_many_fault n : forall h pgd T A va pa fl,
  user_rep h pgd T A -> 0 <= va -> va + 4096 * Z.of_nat n <= KERNEL_START_VIRT ->
  0 <= pa -> pa + 4096 * Z.of_nat n <= 4294967296 ->
  map_many n pgd va pa fl h = None ->
  exists h1 T1 A1 s', user_rep h1 pgd T1 A1 /\ A ⊆ A1 /\ ps_alloc 0 (source h1) = Some (None, s').
Proof.
  induction n as [|n IH]; intros h pgd T A va pa fl HR Hv0 Hv Hp0 Hp; cbn [map_many]; [discriminate|].
  assert (Hk : KERNEL_START_VIRT = 3221225472) by done.
  destruct (ptable_map_spec h pgd T A va pa fl HR ltac:(lia) ltac:(lia))
    as [(h1 & T1 & A1 & E & HR1 & HA & _)|(_ & E & s' & Es)].
  - rewrite (bind_some _ _ _ _ _ E). destruct n as [|n']; [discriminate|].
    unfold PAGE_SIZE. rewrite !u32_small by lia. intros E2.
    destruct (IH h1 pgd T1 A1 (va + 4096) (pa + 4096) fl HR1 ltac:(lia) ltac:(lia) ltac:(lia) ltac:(lia) E2)
      as (h2 & T2 & A2 & s' & HR2 & HA2 & Es). exists h2, T2, A2, s'. split_and!; [done|set_solver|done].
  - intros _. exists h, T, A, s'. done.
Qed.

(** C16: mapping a page.  [ptable_map] on a user address makes the hardware
    translate that page, and only that page, to the given frame, user-readable
    and writable exactly when asked; a missing page table is taken from the
    page allocator and starts empty; the kernel half of the directory and every
    other live page keep their contents.  The one other outcome is a fault: no
    table for the address and no free page for one, where the code dereferences
    the NULL page. *)
Theorem ptable_map_correct h (pgd : Z) T A (va pa fl : Z) :
  user_rep h pgd T A -> 0 <= va < KERNEL_START_VIRT -> 0 <= pa < 4294967296 -> pa mod 4096 = 0 ->
  (exists h' T' A', ptable_map pgd va pa fl h = Some (tt, h') /\ user_rep h' pgd T' A' /\ A ⊆ A' /\
     outside_kept h h' pgd T A /\
     mmu_walk (kmem h') pgd va = Some (pa + (if TEST_BIT fl VM_MAP_WRITE then 7 else 5)) /\
     forall va', 0 <= va' < KERNEL_START_VIRT ->
       mmu_address (kmem h') pgd va' =
         if decide (va' / 4096 = va / 4096) then Some (pa + va' mod 4096) else mmu_address (kmem h) pgd va') \/
  (T !! PAGE_DIRECTORY_INDEX va = None /\ (exists s', ps_alloc 0 (source h) = Some (None, s')) /\
     ptable_map pgd va pa fl h = None).
Proof.
  intros HR Hv Hp Hm. destruct (ptable_map_spec h pgd T A va pa fl HR Hv Hp)
    as [(h' & T' & A' & E & HR' & HA & _ & Ho & _ & Hw)|(HN & E & Hs)]; [left|right; done].
  exists h', T', A'. split_and!; try done.
  - rewrite Hw, decide_True by done. rewrite map_entry_eq by done. by rewrite Hm, Z.sub_0_r.
  - intros va' Hv'. rewrite (address_rep h' pgd T' A'), (address_rep h pgd T A), Hw by done.
    destruct (decide _); [|done]. cbn. by rewrite map_entry_frame.
Qed.

(** Mapping a range.  [ptable_map_many] translates page [i] of the range to
    frame [i] of the physical range, for every [i], and leaves every other user
    page's translation as it was; it can only fail by running out of pages for
    tables. *)
Theorem ptable_map_many_correct h (pgd : Z) T A (va pa count fl : Z) :
  user_rep h pgd T A -> 0 <= va -> 0 <= count -> va + 4096 * count <= KERNEL_START_VIRT ->
  0 <= pa -> pa + 4096 * count <= 4294967296 -> pa mod 4096 = 0 ->
  (exists h' T' A', ptable_map_many pgd va pa count fl h = Some (tt, h') /\ user_rep h' pgd T' A' /\ A ⊆ A' /\
     outside_kept h h' pgd T A /\
     forall va', 0 <= va' < KERNEL_START_VIRT -> mmu_address (kmem h') pgd va' =
       if decide (va / 4096 <= va' / 4096 < va / 4096 + count)
       then Some (pa + 4096 * (va' / 4096 - va / 4096) + va' mod 4096) else mmu_address (kmem h) pgd va') \/
  (ptable_map_many pgd va pa count fl h = None /\
     exists h1 T1 A1 s', user_rep h1 pgd T1 A1 /\ A ⊆ A1 /\ ps_alloc 0 (source h1) = Some (None, s')).
Proof.
  intros HR Hv0 Hc Hv Hp0 Hp Hm. unfold ptable_map_many. assert (Hk : KERNEL_START_VIRT = 3221225472) by done.
  rewrite u32_small by lia. set (n := Z.to_nat count). assert (En : Z.of_nat n = count) by lia. rewrite <- En in Hv, Hp.
  destruct (map_many n pgd va pa fl h) as [[[] h']|] eqn:E; [left|right; split; [done|exact (map_many_fault n h pgd T A va pa fl HR Hv0 Hv Hp0 Hp E)]].
  destruct (map_many_spec n h pgd T A va pa fl h' HR Hv0 Hv Hp0 Hp E) as (T' & A' & HR' & HA & Ho & _ & Hw).
  exists h', T', A'. split_and!; try done. intros va' Hv'.
  rewrite (address_rep h' pgd T' A'), (address_rep h pgd T A), Hw, En by done. destruct (decide _) as [D|]; [|done].
  cbn. rewrite map_entry_frame; [done|lia|]. by rewrite Z.mul_comm, Z.mod_add by lia.
Qed.


(** Unmapping with [free] hands the frame number found in the entry to the
    page allocator whether or not the entry is present, so unmapping a page of
    an empty table frees page frame 0. *)
Theorem ptable_unmap_frees_absent h (pgd : Z) T A (va t : Z) (r : Z) (s' : P) :
  user_rep h pgd T A -> 0 <= va < KERNEL_START_VIRT -> T !! PAGE_DIRECTORY_INDEX va = Some t ->
  kmem h !! GET_PTE t va = Some 0 -> ps_free 0 0 (source h) = Some (r, s') ->
  mmu_address (kmem h) pgd va = None /\
  exists h', ptable_unmap pgd va true h = Some (tt, h') /\ source h' = s'.
Proof.
  intros HR Hv Et Ew Ef. split.
  { rewrite (address_rep h pgd T A), (walk_rep h pgd T A) by done. by rewrite Et, Ew. }
  unfold ptable_unmap. destruct (load_table h pgd T A va t HR Et) as (e & Ee & He & Eg).
  rewrite (bind_some _ _ _ _ _ (load_some _ _ _ Ee)), present_bit, He. cbn [negb]. rewrite Eg. cbv zeta.
  rewrite (bind_some _ _ _ _ _ (load_some _ _ _ Ew)).
  assert (Eg' : give_page (PA_TO_PFN (PTE_PA 0)) 0 h = Some (r, Heap (kmem h) (caches h) s')).
  { unfold give_page. change (PA_TO_PFN (PTE_PA 0)) with 0. by rewrite Ef. }
  unfold bind at 1 2. rewrite Eg'. cbn [ret]. set (h1 := Heap _ _ _). assert (E1 : kmem h1 !! GET_PTE t va = Some 0) by done.
  rewrite (bind_some _ _ _ _ _ (load_some h1 _ _ E1)), (bind_some _ _ _ _ _ (store_run _ _ _)).
  unfold load at 1, bind at 1. rewrite kmem_with, lookup_insert_eq, store_run. by eexists.
Qed.

(** A new address space starts as the kernel's: [ptable_pgd_new] returns a
    fresh page holding the kernel directory's 1024 entries, with the user half
    unmapped, and changes no other page.  With no page free it faults, although
    the code tests for a NULL result. *)
Theorem ptable_pgd_new_correct h (q : Z) A :
  ps_rep (source h) A -> kernel_directory h q -> 0 <= q < LINEAR_FRAMES ->
  (forall p s', ps_alloc 0 (source h) = Some (Some p, s') -> p <> q) ->
  (exists p h', ptable_pgd_new (lin q) h = Some (lin p, h') /\ user_rep h' (lin p) ∅ (A ∪ {[(p, 0)]}) /\
     (forall b x, b ∈ A -> inb x b -> x <> p) /\
     (forall va, 0 <= va < KERNEL_START_VIRT -> mmu_address (kmem h') (lin p) va = None) /\
     (forall i, 0 <= i < 1024 -> kmem h' !! (lin p + 4 * i) = kmem h !! (lin q + 4 * i)) /\
     (forall x a, in_frame x a -> x <> p -> kmem h' !! a = kmem h !! a)) \/
  ((exists s', ps_alloc 0 (source h) = Some (None, s')) /\ ptable_pgd_new (lin q) h = None).
Proof.
  intros HR HK Hq Hne. destruct (ptable_pgd_new_spec h q A HR HK Hq Hne)
    as [(p & h' & E & HU & Hf & _ & _ & Hd & Ho)|(s' & E & E')]; [left|right; split; [by exists s'|done]].
  exists p, h'. split_and!; try done. intros va Hv. rewrite (address_rep _ _ _ _ va HU Hv), (walk_rep _ _ _ _ va HU Hv).
  reflexivity.
Qed.

(** C18: the page-fault handler.  A fault at a user address inside one of the
    address space's mappings puts a newly allocated page there, for the user to
    read, leaves all other translations alone and reports success; with no page
    free it reports an error (or faults when only the table's page is missing).
    A fault outside every mapping reports an error and changes nothing.  The
    search returns on any NULL-terminated list of distinct mappings. *)
Theorem page_fault_correct h (space phys first addr : Z) (ms : list (Z * (Z * Z))) T A :
  user_rep h (PHY_TO_VIR phys) T A -> kmem h !! (space + VMS_PGD) = Some phys ->
  kmem h !! (space + VMS_MAPPINGS) = Some first -> maps_chain (kmem h) first ms -> NoDup ms.*1 ->
  0 <= addr < KERNEL_START_VIRT ->
  if covered ms addr then
    (exists p h' T' A', paging_handle_page_fault space addr h = Some (true, h') /\ user_rep h' (PHY_TO_VIR phys) T' A' /\
       (p, 0) ∈ A' /\ (forall b x, b ∈ A -> inb x b -> x <> p) /\ outside_kept h h' (PHY_TO_VIR phys) T A /\
       mmu_walk (kmem h') (PHY_TO_VIR phys) addr = Some (p * 4096 + 5) /\
       forall va, 0 <= va < KERNEL_START_VIRT -> va / 4096 <> addr / 4096 ->
         mmu_walk (kmem h') (PHY_TO_VIR phys) va = mmu_walk (kmem h) (PHY_TO_VIR phys) va) \/
    (exists s', ps_alloc 0 (source h) = Some (None, s') /\
       paging_handle_page_fault space addr h = Some (false, Heap (kmem h) (caches h) s')) \/
    (exists p s' s'', T !! PAGE_DIRECTORY_INDEX addr = None /\ ps_alloc 0 (source h) = Some (Some p, s') /\
       ps_alloc 0 s' = Some (None, s'') /\ paging_handle_page_fault space addr h = None)
  else paging_handle_page_fault space addr h = Some (false, h).
Proof.
  intros HR Ep Ef HC ND Ha. unfold paging_handle_page_fault. unfold bind. rewrite (page_fault_run h space ms first addr Ef HC ND).
  destruct (covered ms addr); [|done].
  destruct (vm_space_map_page_spec h space phys T A addr HR Ep Ha)
    as [(p & h' & T' & A' & E & HR' & HA & Hp & Hf & Ho & Hw)|[(s' & Es & E)|(p & s' & s'' & HN & E1 & E2 & E)]]; rewrite E.
  - left. exists p, h', T', A'. split_and!; try done; [by rewrite Hw, decide_True|].
    intros va Hv Hne. by rewrite Hw, decide_False.
  - right. left. by exists s'.
  - right. right. by exists p, s', s''.
Qed.

End Claims.

(** The kernel's own directory on a processor with 4 MiB pages.  With room
    for the 64 tables of the temporary-mapping area in one early region,
    [paging_init] returns, loads the directory, and the hardware then translates
    every kernel address below that area to the address minus
    [KERNEL_START_VIRT], maps nothing in the area itself, and sees the user
    half as it was. *)
Theorem kernel_directory_correct (ks ke : Z) (pge : bool) (q cr3 : Z) (bm : bootmem) (m : gmap Z Z) :
  early_ok ks ke bm -> room 64 bm -> 0 < q < LINEAR_FRAMES -> ks <= q * 4096 -> (q + 1) * 4096 <= ke ->
  exists bm' m', paging_init true pge (lin q) cr3 (bm, m) = Some ((E_SUCCESS, q * 4096), (bm', m')) /\
    (forall va, KERNEL_START_VIRT <= va < KMAP_START_VIRT -> mmu_address m' (lin q) va = Some (va - KERNEL_START_VIRT)) /\
    (forall va, KMAP_START_VIRT <= va < 4294967296 -> mmu_walk m' (lin q) va = None) /\
    (forall i, 0 <= i < 768 -> m' !! (lin q + 4 * i) = m !! (lin q + 4 * i)).
Proof.
  intros HE HR Hq Hks Hke. destruct (kernel_pgd_spec 0 ks ke pge q bm m HE HR ltac:(lia) Hks Hke) as (bm' & m' & E & (M1 & M2 & M3 & _) & _).
  exists bm', m'. split; [by apply paging_init_run|]. split; [|done]. intros va Hv. by apply kernel_address.
Qed.

(** ** On the small machine *)

#[local] Instance vm_source64 : PageSource buddy := buddy_source KS64 KE64.

(** The kernel directory is the first page of the kernel image. *)
Definition kheap64 : heap buddy := Heap (zero_words 1024 (lin 4) ∅) slab_caches machine64.

Definition dir64 : Z := match ptable_pgd_new (lin 4) kheap64 with Some (d, _) => d | None => 0 end.

Definition space64 : heap buddy := match ptable_pgd_new (lin 4) kheap64 with Some (_, h) => h | None => kheap64 end.

Lemma kheap64_directory : kernel_directory kheap64 4.
Proof.
  split.
  - intros i Hi. exists 0. apply zero_words_in. lia.
  - intros i e Hi. unfold USER_PDES in Hi. unfold kheap64. cbn [kmem]. rewrite zero_words_in by lia. by intros [= <-].
Qed.

Lemma kheap64_fresh p s' : ps_alloc 0 (source kheap64) = Some (Some p, s') -> p <> 4.
Proof.
  intros E. assert (Hf : fst <$> ps_alloc 0 (source kheap64) = Some (Some 17)) by (vm_compute; reflexivity).
  rewrite E in Hf. cbn in Hf. injection Hf as ->. done.
Qed.

Lemma kheap64_source : ps_rep (source kheap64) ∅.
Proof. unfold kheap64. cbn [source]. exact machine64_source. Qed.

Lemma kheap64_new : (fun _ => tt) <$> ptable_pgd_new (lin 4) kheap64 = Some tt.
Proof. vm_compute. reflexivity. Qed.

Lemma frame4 : 0 <= 4 < LINEAR_FRAMES.
Proof. unfold LINEAR_FRAMES. lia. Qed.

Lemma space64_rep : exists A, user_rep space64 dir64 ∅ A.
Proof.
  destruct (ptable_pgd_new_spec kheap64 4 ∅ kheap64_source kheap64_directory frame4 kheap64_fresh)
    as [(p & h' & E & HU & _)|(s' & _ & E)].
  - exists (∅ ∪ {[(p, 0)]}). unfold space64, dir64. rewrite E. exact HU.
  - pose proof kheap64_new as Hf. rewrite E in Hf. discriminate Hf.
Qed.

Lemma dir64_eq : dir64 = lin 17.
Proof. vm_compute. reflexivity. Qed.

(** Runs of the small machine that return. *)
Lemma space64_map : (fun _ => tt) <$> ptable_map dir64 0x400000 0x20000 VM_MAP_WRITE space64 = Some tt.
Proof. vm_compute. reflexivity. Qed.

Lemma space64_map_many : (fun _ => tt) <$> ptable_map_many dir64 0x3FF000 0x20000 2 0 space64 = Some tt.
Proof. vm_compute. reflexivity. Qed.

Lemma ptable_map_correct_witness : exists h', ptable_map dir64 0x400000 0x20000 VM_MAP_WRITE space64 = Some (tt, h') /\
  mmu_address (kmem h') dir64 0x400123 = Some 0x20123.
Proof.
  destruct space64_rep as [A HU]. pose proof space64_map as Hf.
  destruct (ptable_map_correct space64 dir64 ∅ A 0x400000 0x20000 VM_MAP_WRITE HU) as [(h' & T' & A' & E & _ & _ & _ & _ & Hw)|(_ & _ & E)].
  - unfold KERNEL_START_VIRT. lia.
  - lia.
  - reflexivity.
  - exists h'. split; [exact E|]. rewrite (Hw 0x400123); [reflexivity|unfold KERNEL_START_VIRT; lia].
  - rewrite E in Hf. discriminate Hf.
Defined.

Lemma ptable_map_many_correct_witness : exists h', ptable_map_many dir64 0x3FF000 0x20000 2 0 space64 = Some (tt, h') /\
  mmu_address (kmem h') dir64 0x400004 = Some 0x21004.
Proof.
  destruct space64_rep as [A HU]. pose proof space64_map_many as Hf.
  destruct (ptable_map_many_correct space64 dir64 ∅ A 0x3FF000 0x20000 2 0 HU) as [(h' & T' & A' & E & _ & _ & _ & Hw)|(E & _)].
  - lia.
  - lia.
  - unfold KERNEL_START_VIRT. lia.
  - lia.
  - lia.
  - reflexivity.
  - exists h'. split; [exact E|]. rewrite (Hw 0x400004); [reflexivity|unfold KERNEL_START_VIRT; lia].
  - rewrite E in Hf. discriminate Hf.
Defined.


(** A table exists for 0x400000 but nothing is mapped at 0x401000: freeing it
    frees frame 0, which on this machine is rejected as not allocated. *)
Definition table64 : heap buddy := match ensure_table dir64 0x401000 space64 with Some (_, h) => h | None => space64 end.

Lemma table64_ran : (fun _ => tt) <$> ensure_table dir64 0x401000 space64 = Some tt.
Proof. vm_compute. reflexivity. Qed.

Lemma table64_entry : kmem table64 !! GET_PTE (lin 18) 0x401000 = Some 0.
Proof. vm_compute. reflexivity. Qed.

Lemma table64_pde : kmem table64 !! (dir64 + 4 * PAGE_DIRECTORY_INDEX 0x401000) = Some (18 * 4096 + 7).
Proof. vm_compute. reflexivity. Qed.

Lemma table64_free : match ps_free 0 0 (source table64) with Some _ => true | None => false end = true.
Proof. vm_compute. reflexivity. Qed.

Lemma space64_table : exists T A t r s', user_rep table64 dir64 T A /\ T !! PAGE_DIRECTORY_INDEX 0x401000 = Some t /\
  kmem table64 !! GET_PTE t 0x401000 = Some 0 /\ ps_free 0 0 (source table64) = Some (r, s').
Proof.
  destruct space64_rep as [A HU]. pose proof table64_ran as Hf.
  destruct (ensure_table_spec space64 dir64 ∅ A 0x401000 HU ltac:(unfold KERNEL_START_VIRT; lia))
    as [(h & T & A' & t & E & HU' & _ & _ & Et & _)|(_ & E & _)]; rewrite E in Hf; [|discriminate Hf].
  assert (Eh : h = table64) by (unfold table64; rewrite E; reflexivity). clear E Hf. subst h.
  destruct (ur_some _ _ _ _ HU' _ _ Et) as (_ & _ & p & fl & _ & -> & Hfl & _ & _ & Ee). rewrite table64_pde in Ee.
  apply (f_equal (default 0)) in Ee. assert (Ee' : 18 * 4096 + 7 = p * 4096 + fl) by exact Ee. assert (p = 18) as -> by lia.
  pose proof table64_free as Hf. destruct (ps_free 0 0 (source table64)) as [[r s']|]; [|discriminate Hf].
  exists T, A', (lin 18), r, s'. split; [exact HU'|]. split; [exact Et|]. split; [exact table64_entry|reflexivity].
Qed.

Lemma ptable_unmap_frees_absent_witness : exists h' r s', ps_free 0 0 (source table64) = Some (r, s') /\
  mmu_address (kmem table64) dir64 0x401000 = None /\ ptable_unmap dir64 0x401000 true table64 = Some (tt, h') /\ source h' = s'.
Proof.
  destruct space64_table as (T & A & t & r & s' & HU & Et & Ew & Ef).
  destruct (ptable_unmap_frees_absent table64 dir64 T A 0x401000 t r s' HU) as (Hn & h' & E & Es).
  - unfold KERNEL_START_VIRT. lia.
  - exact Et.
  - exact Ew.
  - exact Ef.
  - exists h', r, s'. split; [exact Ef|]. split; [exact Hn|]. split; [exact E|exact Es].
Defined.

Lemma ptable_pgd_new_correct_witness : exists p h', ptable_pgd_new (lin 4) kheap64 = Some (lin p, h') /\
  mmu_address (kmem h') (lin p) 0 = None.
Proof.
  pose proof kheap64_new as Hf.
  destruct (ptable_pgd_new_correct kheap64 4 ∅ kheap64_source kheap64_directory frame4 kheap64_fresh)
    as [(p & h' & E & _ & _ & Hn & _)|[_ E]].
  - exists p, h'. split; [exact E|]. apply Hn. unfold KERNEL_START_VIRT. lia.
  - rewrite E in Hf. discriminate Hf.
Defined.

(** An address space object in the kernel image's second page, with one mapping
    of 0x400000 to 0x500000. *)
Definition vm64 : heap buddy :=
  with_kmem (<[lin 5 := VIR_TO_PHY dir64]> (<[lin 5 + VMS_MAPPINGS := lin 5 + 64]>
    (<[lin 5 + 64 := 0]> (<[lin 5 + 64 + MAP_START := 0x400000]>
    (<[lin 5 + 64 + MAP_END := 0x500000]> (kmem space64)))))) space64.

Lemma source_with_kmem (m : gmap Z Z) (h : heap buddy) : source (with_kmem m h) = source h.
Proof. reflexivity. Qed.

Lemma vm64_rep : exists A, user_rep vm64 (PHY_TO_VIR (VIR_TO_PHY dir64)) ∅ A.
Proof.
  destruct space64_rep as [A HU]. exists A. destruct HU as [H1 H2 H3 H4 H5 H6].
  assert (PHY_TO_VIR (VIR_TO_PHY dir64) = dir64) as -> by (rewrite dir64_eq; reflexivity). rewrite dir64_eq in *.
  constructor; [exact H1| |intros i t Ei|intros i t j Ei|intros i j t Ei|unfold vm64; rewrite source_with_kmem; exact H6]; try discriminate Ei.
  intros i Hi Ti. unfold vm64, USER_PDES in *. rewrite kmem_with. unfold VMS_MAPPINGS, MAP_START, MAP_END.
  rewrite !lookup_insert_ne by (unfold lin; lia). apply H2; [exact Hi|exact Ti].
Qed.

Lemma vm64_handles : match paging_handle_page_fault (lin 5) 0x400123 vm64 with Some (b, _) => b | None => false end = true.
Proof. vm_compute. reflexivity. Qed.

Lemma page_fault_correct_witness :
  (exists p h', paging_handle_page_fault (lin 5) 0x400123 vm64 = Some (true, h') /\
     mmu_walk (kmem h') (PHY_TO_VIR (VIR_TO_PHY dir64)) 0x400123 = Some (p * 4096 + 5)) /\
  paging_handle_page_fault (lin 5) 0x500000 vm64 = Some (false, vm64).
Proof.
  destruct vm64_rep as [A HU].
  assert (HC : maps_chain (kmem vm64) (lin 5 + 64) [(lin 5 + 64, (0x400000, 0x500000))]).
  { split; [reflexivity|]. split; [discriminate|]. split; [reflexivity|]. split; [reflexivity|]. exists 0. split; reflexivity. }
  assert (ND : NoDup [(lin 5 + 64, (0x400000, 0x500000))].*1) by (apply NoDup_singleton).
  split.
  - pose proof vm64_handles as Hf.
    destruct (page_fault_correct vm64 (lin 5) (VIR_TO_PHY dir64) (lin 5 + 64) 0x400123 _ ∅ A HU eq_refl eq_refl HC ND)
      as [(p & h' & T' & A' & E & _ & _ & _ & _ & Hw & _)|[(s' & _ & E)|(p & s' & s'' & _ & _ & _ & E)]].
    + unfold KERNEL_START_VIRT. lia.
    + exists p, h'. split; [exact E|exact Hw].
    + rewrite E in Hf. discriminate Hf.
    + rewrite E in Hf. discriminate Hf.
  - apply (page_fault_correct vm64 (lin 5) (VIR_TO_PHY dir64) (lin 5 + 64) 0x500000 _ ∅ A HU eq_refl eq_refl HC ND).
    unfold KERNEL_START_VIRT. lia.
Defined.

(** A machine with early memory for the kernel's tables. *)
Definition bm_tables : bootmem :=
  match bootmem_add_mem_region KS64 KE64 0x10000 0x100000 MEM_REGION_AVAILABLE bootmem_init with
  | Some (_, bm) => bm
  | None => bootmem_init
  end.

Lemma bm_tables_ok : early_ok KS64 KE64 bm_tables.
Proof.
  destruct (bootmem_add_safe KS64 KE64 ltac:(vm_compute; done) 0x10000 0x100000 MEM_REGION_AVAILABLE bootmem_init)
    as (res & bm' & E & HB & _ & HG).
  - by apply bootmem_init_ok.
  - done.
  - intros [_ E]. vm_compute in E. discriminate.
  - assert (bm_tables = bm') as Eb by (unfold bm_tables; by rewrite E).
    constructor; [by rewrite Eb| |vm_compute; discriminate]. rewrite Eb. apply HG; [apply bm_init_disjoint|].
    intros a _ (r & Hr & Ha). apply (elem_of_replicate 16) in Hr as [-> _]. unfold in_region in Ha. cbn in Ha. lia.
Qed.

Lemma kernel_directory_correct_witness : exists bm' m',
  paging_init true true (lin 4) 0 (bm_tables, ∅) = Some ((E_SUCCESS, 0x4000), (bm', m')) /\
  mmu_address m' (lin 4) 0xC0012345 = Some 0x12345.
Proof.
  destruct (kernel_directory_correct KS64 KE64 true 4 0 bm_tables ∅ bm_tables_ok) as (bm' & m' & E & Hl & _).
  - exists (MemRegion 0x10000 0x100000 0x10000 1), 0x10000. split_and!; [|done|by exists 16|done|done|done].
    apply (list_elem_of_lookup_2 _ 0). reflexivity.
  - unfold LINEAR_FRAMES. lia.
  - unfold KS64. lia.
  - unfold KE64. lia.
  - exists bm', m'. split; [exact E|]. apply (Hl 0xC0012345). unfold KERNEL_START_VIRT, KMAP_START_VIRT. lia.
Defined.
