(* ===== verification/Task.v ===== *)
(** * Tasks and the scheduler (kernel/sched/task.c, arch/x86/kernel/task.c)

    A [struct task] is a heap object: its fields are in [tasks] under its
    address, its list node in [tnodes] under the same address, and the memory
    behind it in the heap of Slab.v.  Freeing the object removes both entries,
    so that any later use of it is a fault.  [task_head] is the statically
    allocated list head.  There is one processor: its [cpu_info] fields are part
    of the state, taking a lock that is held never returns, and the assembly
    routine [task_context_switch] has no effect on this state beyond the switch
    recorded in [current_task]. *)

From stdpp Require Import base numbers list gmap.
From Stdlib Require Import ZArith Lia.
From S2P Require Import Prelude LinkedList PageDefs Palloc PageSource Slab Ptable.

#[local] Open Scope Z_scope.

Definition TASK_STATE_INVALID : Z := 0.
Definition TASK_STATE_RUNNING : Z := 1.
Definition TASK_STATE_WAITING : Z := 2.
Definition TASK_STATE_PAUSED : Z := 3.
Definition TASK_STATE_KILLED : Z := 4.

Definition TASK_NAME_LENGTH_MAX : nat := 16.

Definition TASK_KERNEL : Z := 0.
Definition TASK_USERMODE : Z := 1.

Definition TASK_PRIORITY_MIN : Z := 1.
Definition TASK_PRIORITY_MAX : Z := 5.

Definition TASK_KERNEL_STACK_ORDER : Z := 4.

Definition SIZEOF_TASK : Z := 68.

Record task : Type := Task {
  tid : Z;
  ttype : Z;
  tstate : Z;
  priority : Z;
  ticks : Z;
  kstack_top : Z;
  kstack_bot : Z;
  kstack_size : Z;
  vm_space : Z;
  tstart : Z;
  tname : list Z
}.

(** [memset(task, 0, sizeof(struct task))] *)
Definition blank_task : task := Task 0 0 0 0 0 0 0 0 0 0 (replicate TASK_NAME_LENGTH_MAX 0).

Definition set_state (v : Z) (t : task) : task :=
  Task (tid t) (ttype t) v (priority t) (ticks t) (kstack_top t) (kstack_bot t) (kstack_size t) (vm_space t) (tstart t) (tname t).

Definition set_ticks (v : Z) (t : task) : task :=
  Task (tid t) (ttype t) (tstate t) (priority t) v (kstack_top t) (kstack_bot t) (kstack_size t) (vm_space t) (tstart t) (tname t).

Definition set_top (v : Z) (t : task) : task :=
  Task (tid t) (ttype t) (tstate t) (priority t) (ticks t) v (kstack_bot t) (kstack_size t) (vm_space t) (tstart t) (tname t).

Definition set_stack (top bot size : Z) (t : task) : task :=
  Task (tid t) (ttype t) (tstate t) (priority t) (ticks t) top bot size (vm_space t) (tstart t) (tname t).

Definition set_vm (v : Z) (t : task) : task :=
  Task (tid t) (ttype t) (tstate t) (priority t) (ticks t) (kstack_top t) (kstack_bot t) (kstack_size t) v (tstart t) (tname t).

(** [strncpy] of a string into the 16 bytes of [name]. *)
Definition copy_name (name : list Z) : list Z :=
  take TASK_NAME_LENGTH_MAX (name ++ replicate TASK_NAME_LENGTH_MAX 0).

(** ** The stack of a new task (arch_task_create) *)

Definition GDT_KERNEL_CODE_OFFSET : Z := 0x08.
Definition GDT_KERNEL_DATA_OFFSET : Z := 0x10.
Definition GDT_USER_CODE_OFFSET : Z := 0x18.
Definition GDT_USER_DATA_OFFSET : Z := 0x20.
Definition RPL_KERNELMODE : Z := 0x00.
Definition RPL_USERMODE : Z := 0x03.
Definition EFLAGS_INTERRUPTS_ON : Z := 0x200.
Definition EFLAGS_IOPL_KERNELMODE : Z := 0x00.
Definition EFLAGS_IOPL_USERMODE : Z := 0x3000.

(** Offsets in [struct isr_registers] and [struct task_context]. *)
Definition REG_DS : Z := 0.
Definition REG_EIP : Z := 44.
Definition REG_CS : Z := 48.
Definition REG_EFLAGS : Z := 52.
Definition REG_USER_ESP : Z := 56.
Definition REG_USER_SS : Z := 60.
Definition SIZEOF_ISR_REGISTERS : Z := 64.

Definition CTX_EDI : Z := 0.
Definition CTX_ESI : Z := 4.
Definition CTX_EBX : Z := 8.
Definition CTX_EBP : Z := 12.
Definition CTX_EIP : Z := 16.
Definition SIZEOF_TASK_CONTEXT : Z := 20.

Record sched (P : Type) : Type := Sched {
  tasks : gmap Z task;
  tnodes : gmap Z (lnode Z);
  task_lock : bool;
  last_task_id : Z;
  current_task : Z;
  sched_enabled : bool;
  esp0 : Z;
  tmem : heap P
}.

Arguments Sched {P} _ _ _ _ _ _ _ _.
Arguments tasks {P} _.
Arguments tnodes {P} _.
Arguments task_lock {P} _.
Arguments last_task_id {P} _.
Arguments current_task {P} _.
Arguments sched_enabled {P} _.
Arguments esp0 {P} _.
Arguments tmem {P} _.

Section Sched.
  Context {P : Type} `{PageSource P}.

Definition with_tasks (v : gmap Z task) (s : sched P) : sched P :=
  Sched v (tnodes s) (task_lock s) (last_task_id s) (current_task s) (sched_enabled s) (esp0 s) (tmem s).

Definition with_tnodes (v : gmap Z (lnode Z)) (s : sched P) : sched P :=
  Sched (tasks s) v (task_lock s) (last_task_id s) (current_task s) (sched_enabled s) (esp0 s) (tmem s).

Definition with_task_lock (v : bool) (s : sched P) : sched P :=
  Sched (tasks s) (tnodes s) v (last_task_id s) (current_task s) (sched_enabled s) (esp0 s) (tmem s).

Definition with_last_id (v : Z) (s : sched P) : sched P :=
  Sched (tasks s) (tnodes s) (task_lock s) v (current_task s) (sched_enabled s) (esp0 s) (tmem s).

Definition with_current (v : Z) (s : sched P) : sched P :=
  Sched (tasks s) (tnodes s) (task_lock s) (last_task_id s) v (sched_enabled s) (esp0 s) (tmem s).

Definition with_enabled (v : bool) (s : sched P) : sched P :=
  Sched (tasks s) (tnodes s) (task_lock s) (last_task_id s) (current_task s) v (esp0 s) (tmem s).

Definition with_esp0 (v : Z) (s : sched P) : sched P :=
  Sched (tasks s) (tnodes s) (task_lock s) (last_task_id s) (current_task s) (sched_enabled s) v (tmem s).

Definition with_tmem (v : heap P) (s : sched P) : sched P :=
  Sched (tasks s) (tnodes s) (task_lock s) (last_task_id s) (current_task s) (sched_enabled s) (esp0 s) v.

(** ** Memory accesses *)

Definition get_task (t : Z) : ST (sched P) task :=
  fun s => match tasks s !! t with Some x => Some (x, s) | None => None end.

Definition upd_task (t : Z) (f : task -> task) : ST (sched P) unit :=
  fun s => match tasks s !! t with
           | Some x => Some (tt, with_tasks (<[t := f x]> (tasks s)) s)
           | None => None
           end.

Definition on_tnodes {A} (m : ST (gmap Z (lnode Z)) A) : ST (sched P) A :=
  fun s => match m (tnodes s) with Some (a, n) => Some (a, with_tnodes n s) | None => None end.

Definition on_heap {A} (m : ST (heap P) A) : ST (sched P) A :=
  fun s => match m (tmem s) with Some (a, h) => Some (a, with_tmem h s) | None => None end.

Definition lock_tasks : ST (sched P) unit :=
  fun s => if task_lock s then None else Some (tt, with_task_lock true s).

Definition unlock_tasks : ST (sched P) unit := modify (with_task_lock false).

(** [cpu_get_local()->current_task] *)
Definition task_get_current : ST (sched P) Z := gets current_task.

Definition task_enable_scheduler : ST (sched P) unit := modify (with_enabled true).

Definition task_disable_scheduler : ST (sched P) unit := modify (with_enabled false).

Section Kernel.
  (** The addresses of [task_head], [kernel_pgd], [KERNEL_STACK_BOTTOM] and
      [isr_exit]. *)
  Context (task_head kernel_pgd KERNEL_STACK_BOTTOM isr_exit : Z).

Definition task_add_to_scheduler (new_task : Z) : ST (sched P) unit :=
  on_tnodes (clist_add (Some task_head) (Some new_task)).

(** ** Creation *)

Definition task_alloc_struct (name : list Z) (ty start_addr prio st : Z) : ST (sched P) Z :=
  (task_id <- gets last_task_id ;;
   new_task <- on_heap (kmalloc SIZEOF_TASK) ;;
   if new_task =? 0 then ret 0 else
   modify (fun s => with_tasks (<[new_task := blank_task]> (tasks s))
                      (with_tnodes (<[new_task := LNode None None]> (tnodes s)) s)) ;;
   upd_task new_task (fun t => Task task_id ty st prio (ticks t) (kstack_top t) (kstack_bot t) (kstack_size t)
                                 (vm_space t) start_addr (tname t)) ;;
   on_tnodes (clist_init (Some new_task)) ;;
   modify (fun s => with_last_id (u32 (last_task_id s + 1)) s) ;;
   upd_task new_task (fun t => Task (tid t) (ttype t) (tstate t) (priority t) (ticks t) (kstack_top t) (kstack_bot t)
                                 (kstack_size t) (vm_space t) (tstart t)
                                 (<[(TASK_NAME_LENGTH_MAX - 1)%nat := 0]> (copy_name name))) ;;
   ret new_task)%st.

Definition task_create_vm_space (t : Z) : ST (sched P) Z :=
  (space <- on_heap (vm_space_new kernel_pgd) ;;
   upd_task t (set_vm space) ;;
   x <- get_task t ;;
   if vm_space x =? 0 then ret E_ERROR else ret E_SUCCESS)%st.

Definition task_destroy_vm_space (t : Z) : ST (sched P) unit :=
  (if t =? 0 then ret tt else
   x <- get_task t ;;
   if vm_space x =? 0 then ret tt else
   on_heap (vm_space_destroy (vm_space x)))%st.

Definition task_create_kernel_stack (t : Z) : ST (sched P) Z :=
  (page <- on_heap (take_page TASK_KERNEL_STACK_ORDER) ;;
   match page with
   | None => ret E_ERROR
   | Some p =>
       let size := Z.shiftl 1 TASK_KERNEL_STACK_ORDER * PAGE_SIZE in
       let va := PHY_TO_VIR (PFN_TO_PA p) in
       let bot := u32 (va + size) in
       upd_task t (set_stack bot bot size) ;;
       on_heap (clear_words (Z.to_nat (size / 4)) va) ;;
       ret E_SUCCESS
   end)%st.

Definition task_destroy_kernel_stack (t : Z) : ST (sched P) unit :=
  (if t =? 0 then ret tt else
   x <- get_task t ;;
   if kstack_bot x =? 0 then ret tt else
   let kstack_start := u32 (kstack_bot x - kstack_size x) in
   on_heap (give_page (VA_TO_PFN kstack_start) TASK_KERNEL_STACK_ORDER) ;;
   ret tt)%st.

(** [kfree(task)]: the object is gone. *)
Definition free_task (t : Z) : ST (sched P) unit :=
  (on_heap (kfree t) ;;
   modify (fun s => with_tasks (delete t (tasks s)) (with_tnodes (delete t (tnodes s)) s)))%st.

Definition arch_task_init (init_task : Z) : ST (sched P) Z := ret E_SUCCESS.

(** The initial stack: the registers [isr_exit] pops, then the registers
    [task_context_switch] pops. *)
Definition arch_task_create (new_task : Z) : ST (sched P) Z :=
  (upd_task new_task (fun t => set_top (u32 (kstack_top t - SIZEOF_ISR_REGISTERS)) t) ;;
   t <- get_task new_task ;;
   let registers := kstack_top t in
   on_heap (clear_words (Z.to_nat (SIZEOF_ISR_REGISTERS / 4)) registers ;;
            store (registers + REG_EIP) (tstart t) ;;
            if ttype t =? TASK_KERNEL then
              store (registers + REG_CS) (Z.lor GDT_KERNEL_CODE_OFFSET RPL_KERNELMODE) ;;
              store (registers + REG_DS) (Z.lor GDT_KERNEL_DATA_OFFSET RPL_KERNELMODE) ;;
              store (registers + REG_EFLAGS) (Z.lor EFLAGS_INTERRUPTS_ON EFLAGS_IOPL_KERNELMODE) ;;
              store (registers + REG_USER_SS) (Z.lor GDT_KERNEL_DATA_OFFSET RPL_KERNELMODE)
            else
              store (registers + REG_CS) (Z.lor GDT_USER_CODE_OFFSET RPL_USERMODE) ;;
              store (registers + REG_DS) (Z.lor GDT_USER_DATA_OFFSET RPL_USERMODE) ;;
              store (registers + REG_EFLAGS) (Z.lor EFLAGS_INTERRUPTS_ON EFLAGS_IOPL_USERMODE) ;;
              store (registers + REG_USER_SS) (Z.lor GDT_USER_DATA_OFFSET RPL_USERMODE) ;;
              store (registers + REG_USER_ESP) 0x440000) ;;
   upd_task new_task (fun t => set_top (u32 (kstack_top t - SIZEOF_TASK_CONTEXT)) t) ;;
   t <- get_task new_task ;;
   let context := kstack_top t in
   on_heap (clear_words (Z.to_nat (SIZEOF_TASK_CONTEXT / 4)) context ;;
            store (context + CTX_EDI) 0 ;;
            store (context + CTX_ESI) 0 ;;
            store (context + CTX_EBX) 0 ;;
            store (context + CTX_EBP) 0 ;;
            store (context + CTX_EIP) isr_exit) ;;
   ret E_SUCCESS)%st.

(** The [cleanup] label of [task_create]. *)
Definition create_cleanup (new_task : Z) : ST (sched P) Z :=
  (task_destroy_vm_space new_task ;;
   task_destroy_kernel_stack new_task ;;
   (if new_task =? 0 then on_heap (kfree 0) ;; ret tt else free_task new_task) ;;
   unlock_tasks ;;
   ret 0)%st.

Definition task_create (name : list Z) (ty start_addr prio st : Z) : ST (sched P) Z :=
  (if negb (st =? TASK_STATE_PAUSED) && negb (st =? TASK_STATE_WAITING) then ret 0 else
   if (prio <? TASK_PRIORITY_MIN) || (TASK_PRIORITY_MAX <? prio) then ret 0 else
   lock_tasks ;;
   new_task <- task_alloc_struct name ty start_addr prio st ;;
   if new_task =? 0 then create_cleanup new_task else
   r <- task_create_kernel_stack new_task ;;
   if negb (SUCCESS r) then create_cleanup new_task else
   r <- task_create_vm_space new_task ;;
   if negb (SUCCESS r) then create_cleanup new_task else
   r <- arch_task_create new_task ;;
   if negb (SUCCESS r) then unlock_tasks ;; ret 0 else
   on_tnodes (clist_add (Some task_head) (Some new_task)) ;;
   unlock_tasks ;;
   ret new_task)%st.

(** [task_init]; the idle task's memory is not cleared: [junk] is what it held. *)
Definition task_init (junk : task) : ST (sched P) Z :=
  (modify (fun s => with_tasks (<[task_head := blank_task]> (tasks s))
                      (with_tnodes (<[task_head := LNode None None]> (tnodes s)) s)) ;;
   on_tnodes (clist_init (Some task_head)) ;;
   idle_task <- on_heap (kmalloc SIZEOF_TASK) ;;
   if idle_task =? 0 then fault else
   modify (fun s => with_tasks (<[idle_task := junk]> (tasks s))
                      (with_tnodes (<[idle_task := LNode None None]> (tnodes s)) s)) ;;
   upd_task idle_task (fun t => Task 0 (ttype t) TASK_STATE_RUNNING (priority t) (ticks t) (kstack_top t)
                                  (PHY_TO_VIR KERNEL_STACK_BOTTOM) (kstack_size t) (vm_space t) (tstart t) (tname t)) ;;
   space <- on_heap (vm_space_new kernel_pgd) ;;
   upd_task idle_task (fun t => Task (tid t) (ttype t) (tstate t) (priority t) (ticks t) (kstack_top t) (kstack_bot t)
                                  (kstack_size t) space (tstart t)
                                  (copy_name [107; 101; 114; 110; 101; 108; 95; 105; 100; 108; 101])) ;;
   modify (with_current idle_task) ;;
   task_add_to_scheduler idle_task ;;
   cur <- task_get_current ;;
   arch_task_init cur ;;
   task_enable_scheduler ;;
   ret E_SUCCESS)%st.

(** ** Looking up and killing *)

(** The search of [task_get_from_id] from node [cur] on; NULL is 0. *)
Fixpoint find_task (fuel : nat) (cur : option Z) (task_id : Z) : ST (sched P) Z :=
  match fuel with
  | O => fault
  | S f =>
      match cur with
      | None => fault
      | Some t =>
          (if t =? task_head then ret 0 else
           x <- get_task t ;;
           if tid x =? task_id then ret t else
           n <- on_tnodes (load_next (Some t)) ;;
           find_task f n task_id)%st
      end
  end.

(** Every list node is in [tnodes]: its size bounds a walk over the list. *)
Definition tasks_fuel (s : sched P) : nat := S (size (tnodes s)).

Definition task_get_from_id (task_id : Z) : ST (sched P) Z :=
  (lock_tasks ;;
   first <- on_tnodes (load_next (Some task_head)) ;;
   fuel <- gets tasks_fuel ;;
   t <- find_task fuel first task_id ;;
   unlock_tasks ;;
   ret t)%st.

Definition task_kill (task_id : Z) : ST (sched P) Z :=
  (if task_id =? 0 then ret E_ERROR else
   t <- task_get_from_id task_id ;;
   if t =? 0 then ret E_ERROR else
   x <- get_task t ;;
   if tstate x =? TASK_STATE_INVALID then ret E_ERROR else
   if negb (tstate x =? TASK_STATE_RUNNING) && negb (tstate x =? TASK_STATE_WAITING)
      && negb (tstate x =? TASK_STATE_PAUSED) then ret E_ERROR else
   lock_tasks ;;
   upd_task t (set_state TASK_STATE_KILLED) ;;
   unlock_tasks ;;
   ret E_SUCCESS)%st.

Definition task_purge (task_id : Z) : ST (sched P) Z :=
  (if task_id =? 0 then ret E_ERROR else
   t <- task_get_from_id task_id ;;
   if t =? 0 then ret E_ERROR else
   x <- get_task t ;;
   if negb (tstate x =? TASK_STATE_KILLED) then ret E_ERROR else
   lock_tasks ;;
   on_tnodes (clist_delete_node (Some t)) ;;
   task_destroy_vm_space t ;;
   task_destroy_kernel_stack t ;;
   free_task t ;;
   unlock_tasks ;;
   ret E_SUCCESS)%st.

Definition task_exit_current : ST (sched P) Z :=
  (cur <- task_get_current ;;
   get_task cur ;;
   lock_tasks ;;
   cur <- task_get_current ;;
   upd_task cur (set_state TASK_STATE_KILLED) ;;
   unlock_tasks ;;
   ret E_SUCCESS)%st.

(** ** Scheduling *)

(** [clist_for_each_safe] of [task_purge_killed_tasks]: [tmp] is read before the
    body runs. *)
Fixpoint purge_walk (fuel : nat) (entry tmp : option Z) : ST (sched P) unit :=
  match fuel with
  | O => fault
  | S f =>
      match entry with
      | None => fault
      | Some t =>
          (if t =? task_head then ret tt else
           x <- get_task t ;;
           (if tstate x =? TASK_STATE_KILLED then task_purge (tid x) ;; ret tt else ret tt) ;;
           next_tmp <- on_tnodes (load_next tmp) ;;
           purge_walk f tmp next_tmp)%st
      end
  end.

Definition task_purge_killed_tasks : ST (sched P) unit :=
  (fuel <- gets tasks_fuel ;;
   entry <- on_tnodes (load_next (Some task_head)) ;;
   tmp <- on_tnodes (load_next entry) ;;
   purge_walk fuel entry tmp)%st.

(** The search loop of [task_schedule]: the first task from [next_node] on that
    can run. *)
Fixpoint find_next (fuel : nat) (next_node : option Z) : ST (sched P) Z :=
  match fuel with
  | O => fault
  | S f =>
      (let curr_task := match next_node with None => task_head | Some t => t end in
       x <- get_task curr_task ;;
       n <- on_tnodes (load_next (Some curr_task)) ;;
       if (tstate x =? TASK_STATE_WAITING) || (tstate x =? TASK_STATE_RUNNING) then ret curr_task
       else find_next f n)%st
  end.

Definition arch_task_switch (curr next : Z) : ST (sched P) Z :=
  (x <- get_task next ;;
   modify (with_esp0 (kstack_bot x)) ;;
   ret E_SUCCESS)%st.

Definition task_schedule : ST (sched P) unit :=
  (enabled <- gets sched_enabled ;;
   if negb enabled then ret tt else
   cur <- task_get_current ;;
   upd_task cur (fun t => set_ticks (u32 (ticks t + 1)) t) ;;
   task_purge_killed_tasks ;;
   prev <- task_get_current ;;
   next_node <- on_tnodes (load_next (Some prev)) ;;
   fuel <- gets tasks_fuel ;;
   next <- find_next fuel next_node ;;
   modify (with_current next) ;;
   x <- get_task prev ;;
   (if tstate x =? TASK_STATE_RUNNING then upd_task prev (set_state TASK_STATE_WAITING) else ret tt) ;;
   upd_task next (set_state TASK_STATE_RUNNING) ;;
   arch_task_switch prev next ;;
   ret tt)%st.

End Kernel.

End Sched.
