(* ===== verification/TaskSpec.v ===== *)
(** * The scheduler's invariant and the behaviour of its operations

    [sched_ok] ties the task list, the task records and the current task together;
    the lemmas give the result of looking a task up, killing, purging and of the
    search for the next task on a state that satisfies it. *)

From stdpp Require Import base numbers list gmap.
From Stdlib Require Import ZArith Lia.
From S2P Require Import Prelude LinkedList PageDefs Palloc PageSource Slab Ptable Task.

#[local] Open Scope Z_scope.

Definition runnable (x : task) : bool := (tstate x =? TASK_STATE_WAITING) || (tstate x =? TASK_STATE_RUNNING).

Definition killed (x : task) : Prop := tstate x = TASK_STATE_KILLED.

(** The first task of a sequence that can run. *)
Fixpoint first_runnable (ts : gmap Z task) (p : list Z) : option Z :=
  match p with
  | [] => None
  | t :: r => match ts !! t with
              | Some x => if runnable x then Some t else first_runnable ts r
              | None => None
              end
  end.

Section Spec.
  Context {P : Type} `{PageSource P}.
  Context (task_head : Z).

  Implicit Types (s : sched P) (l : list Z).

(** [l] is the scheduler's list. *)
Record sched_ok s l : Prop := SchedOk {
  so_list : clist (tnodes s) task_head l;
  so_tasks : forall t, t ∈ l -> is_Some (tasks s !! t);
  so_head : exists x, tasks s !! task_head = Some x /\ tstate x = TASK_STATE_INVALID;
  so_ids : forall t u x y, t ∈ l -> u ∈ l -> tasks s !! t = Some x -> tasks s !! u = Some y -> tid x = tid y -> t = u;
  so_null : 0 ∉ l;
  so_lock : task_lock s = false
}.

(** Same list and locks, other fields of the tasks changed. *)
Definition same_tasks (ts ts' : gmap Z task) : Prop :=
  dom ts' = dom ts /\ forall t x x', ts !! t = Some x -> ts' !! t = Some x' -> tid x' = tid x.

Lemma sched_ok_same s s' l :
  sched_ok s l -> tnodes s' = tnodes s -> task_lock s' = false -> same_tasks (tasks s) (tasks s') ->
  (exists x, tasks s' !! task_head = Some x /\ tstate x = TASK_STATE_INVALID) -> sched_ok s' l.
Proof.
  intros [H1 H2 H3 H4 H5 H6] En El [Ed Ei] Hh. constructor; try done; [by rewrite En| |].
  - intros t Ht. apply elem_of_dom. rewrite Ed. apply elem_of_dom. by apply H2.
  - intros t u x' y' Ht Hu Ex Ey E. destruct (H2 t Ht) as [x Ext], (H2 u Hu) as [y Eyu].
    apply (H4 t u x y Ht Hu Ext Eyu). by rewrite <- (Ei t x x'), <- (Ei u y y').
Qed.

Lemma same_tasks_refl ts : same_tasks ts ts.
Proof. split; [done|]. intros t x x' -> [= ->]. done. Qed.

Lemma same_tasks_trans a b c : same_tasks a b -> same_tasks b c -> same_tasks a c.
Proof.
  intros [D1 I1] [D2 I2]. split; [congruence|]. intros t x z Ex Ez.
  assert (is_Some (b !! t)) as [y Ey] by (apply elem_of_dom; rewrite D1; apply elem_of_dom; eauto).
  by rewrite (I2 t y z), (I1 t x y).
Qed.

Lemma same_tasks_insert ts t x f :
  ts !! t = Some x -> tid (f x) = tid x -> same_tasks ts (<[t := f x]> ts).
Proof.
  intros Et Hf. split.
  - rewrite dom_insert_L. apply elem_of_dom_2 in Et. set_solver.
  - intros u y y' Ey. destruct (decide (t = u)) as [<-|Hne].
    + rewrite lookup_insert_eq. intros [= <-]. congruence.
    + rewrite lookup_insert_ne by done. congruence.
Qed.

(** ** Running the primitives *)

Lemma get_task_some s t x : tasks s !! t = Some x -> get_task t s = Some (x, s).
Proof. unfold get_task. by intros ->. Qed.

Lemma upd_task_some s t f x : tasks s !! t = Some x -> upd_task t f s = Some (tt, with_tasks (<[t := f x]> (tasks s)) s).
Proof. unfold upd_task. by intros ->. Qed.

Lemma load_tnode s t v : nxt (tnodes s) t = Some v -> on_tnodes (load_next (Some t)) s = Some (v, s).
Proof. intros E. unfold on_tnodes. rewrite (load_next_nxt _ _ _ E). by destruct s. Qed.

Lemma task_lock_free s : task_lock s = false -> lock_tasks s = Some (tt, with_task_lock true s).
Proof. unfold lock_tasks. by intros ->. Qed.

Lemma head_not_member s l : sched_ok s l -> task_head ∉ l.
Proof. intros HS. destruct (so_list _ _ HS) as [ND _]. by apply NoDup_cons in ND as [? _]. Qed.

Lemma tasks_fuel_enough s l : sched_ok s l -> (length l < tasks_fuel s)%nat.
Proof. intros HS. pose proof (clist_length_size _ _ _ (so_list _ _ HS)). unfold tasks_fuel. lia. Qed.

(** ** Searching by identifier *)

Lemma find_task_spec s num l2 : forall l1 fuel,
  clist (tnodes s) task_head (l1 ++ l2) -> (forall t, t ∈ l2 -> is_Some (tasks s !! t)) -> (length l2 < fuel)%nat ->
  (exists t x, t ∈ l2 /\ tasks s !! t = Some x /\ tid x = num /\
     find_task task_head fuel (Some (default task_head (head l2))) num s = Some (t, s)) \/
  ((forall t x, t ∈ l2 -> tasks s !! t = Some x -> tid x <> num) /\
     find_task task_head fuel (Some (default task_head (head l2))) num s = Some (0, s)).
Proof.
  induction l2 as [|t l2 IH]; intros l1 [|fuel] C Hin Hf; cbn in Hf; try lia; cbn [find_task head default from_option id].
  - right. rewrite Z.eqb_refl. split; [set_solver|done].
  - assert (Hne : (t =? task_head) = false).
    { apply Z.eqb_neq. intros ->. destruct C as [ND _]. apply NoDup_cons in ND as [ND _]. set_solver. }
    change (match _ with Some _ => t | None => task_head end) with t. rewrite Hne.
    destruct (Hin t ltac:(set_solver)) as [x Ex].
    rewrite (bind_some _ _ _ _ _ (get_task_some s t x Ex)). destruct (Z.eqb_spec (tid x) num) as [Ei|Ei].
    + left. exists t, x. split_and!; try done. set_solver.
    + rewrite (bind_some _ _ _ _ _ (load_tnode _ _ _ (clist_next _ _ _ _ _ C))).
      destruct (IH (l1 ++ [t]) fuel) as [(u & y & Hu & Ey & Eu & E)|[HN E]].
      * by rewrite <- app_assoc.
      * intros u Hu. apply Hin. set_solver.
      * lia.
      * left. exists u, y. split_and!; try done. set_solver.
      * right. split; [|done]. intros u y [->|Hu]%elem_of_cons Ey; [congruence|by apply HN with u].
Qed.

Lemma with_lock_same s : task_lock s = false -> with_task_lock false (with_task_lock true s) = s.
Proof. destruct s. cbn. by intros ->. Qed.

(** [task_get_from_id] finds the one task with the identifier, or NULL. *)
Lemma task_get_from_id_spec s l num :
  sched_ok s l ->
  (exists t x, t ∈ l /\ tasks s !! t = Some x /\ tid x = num /\ task_get_from_id task_head num s = Some (t, s)) \/
  ((forall t x, t ∈ l -> tasks s !! t = Some x -> tid x <> num) /\ task_get_from_id task_head num s = Some (0, s)).
Proof.
  intros HS. unfold task_get_from_id. rewrite (bind_some _ _ _ _ _ (task_lock_free s (so_lock _ _ HS))).
  set (s1 := with_task_lock true s). assert (E1 : nxt (tnodes s1) task_head = Some (Some (default task_head (head l)))).
  { apply clist_first, (so_list _ _ HS). }
  rewrite (bind_some _ _ _ _ _ (load_tnode _ _ _ E1)), (bind_some _ _ _ _ _ (gets_run tasks_fuel s1)).
  assert (Hun : forall t : Z, ((unlock_tasks ;; ret t)%st : ST (sched P) Z) s1 = Some (t, s)).
  { intros t. unfold bind, unlock_tasks, modify, ret. unfold s1. by rewrite (with_lock_same s (so_lock _ _ HS)). }
  destruct (find_task_spec s1 num l [] (tasks_fuel s1) (so_list _ _ HS) (so_tasks _ _ HS) (tasks_fuel_enough s l HS))
    as [(t & x & Ht & Ex & Ei & E)|[HN E]]; [left|right].
  - exists t, x. split_and!; try done. by rewrite (bind_some _ _ _ _ _ E), Hun.
  - split; [done|]. by rewrite (bind_some _ _ _ _ _ E), Hun.
Qed.

(** ** The purging walk *)

Definition alive s (l : list Z) : Prop := forall t, t ∈ l -> exists x, tasks s !! t = Some x /\ ~ killed x.

(** The node after the first of [l2], or after the head when [l2] is empty. *)
Lemma ring_after (h : gmap Z (lnode Z)) hd l1 l2 :
  clist h hd (l1 ++ l2) -> exists n, nxt h (default hd (head l2)) = Some (Some n) /\
    match l2 with [] => True | _ :: r => n = default hd (head r) end.
Proof.
  intros C. destruct l2 as [|u l2].
  - exists (default hd (head (l1 ++ []))). split; [|done]. apply (clist_first _ _ _ C).
  - exists (default hd (head l2)). split; [|done]. apply (clist_next _ _ l1 u l2 C).
Qed.

Lemma purge_walk_clean s l2 : forall l1 fuel tmp,
  clist (tnodes s) task_head (l1 ++ l2) -> alive s l2 -> (length l2 < fuel)%nat ->
  match l2 with [] => True | _ :: r => tmp = Some (default task_head (head r)) end ->
  purge_walk task_head fuel (Some (default task_head (head l2))) tmp s = Some (tt, s).
Proof.
  induction l2 as [|t l2 IH]; intros l1 [|fuel] tmp C Ha Hf Htmp; cbn in Hf; try lia; cbn [purge_walk head default from_option id].
  - by rewrite Z.eqb_refl.
  - assert (Hne : (t =? task_head) = false).
    { apply Z.eqb_neq. intros ->. destruct C as [ND _]. apply NoDup_cons in ND as [ND _]. set_solver. }
    change (match _ with Some _ => t | None => task_head end) with t. rewrite Hne.
    destruct (Ha t ltac:(set_solver)) as (x & Ex & Hx). rewrite (bind_some _ _ _ _ _ (get_task_some s t x Ex)).
    assert ((tstate x =? TASK_STATE_KILLED) = false) as -> by (by apply Z.eqb_neq). rewrite bind_ret. subst tmp.
    assert (C' : clist (tnodes s) task_head ((l1 ++ [t]) ++ l2)) by by rewrite <- app_assoc.
    destruct (ring_after _ _ _ _ C') as (n & En & Hn).
    rewrite (bind_some _ _ _ _ _ (load_tnode _ _ _ En)). apply (IH (l1 ++ [t])); [done| |lia|].
    + intros u Hu. apply Ha. set_solver.
    + destruct l2; [done|]. by rewrite Hn.
Qed.

Lemma purge_none s l :
  sched_ok s l -> alive s l -> task_purge_killed_tasks task_head s = Some (tt, s).
Proof.
  intros HS Ha. unfold task_purge_killed_tasks. rewrite (bind_some _ _ _ _ _ (gets_run tasks_fuel s)). pose proof (so_list _ _ HS) as C.
  rewrite (bind_some _ _ _ _ _ (load_tnode _ _ _ (clist_first _ _ _ C))).
  destruct (ring_after _ _ [] l C) as (n & En & Hn).
  rewrite (bind_some _ _ _ _ _ (load_tnode _ _ _ En)).
  apply (purge_walk_clean s l []); [done|done|by apply tasks_fuel_enough|]. destruct l; [done|by rewrite Hn].
Qed.

(** ** Choosing the next task *)

Lemma find_next_spec s t p : forall fuel,
  first_runnable (tasks s) p = Some t -> links (tnodes s) p ->
  (forall u, u ∈ p -> exists n, nxt (tnodes s) u = Some (Some n)) -> (length p <= fuel)%nat ->
  find_next task_head fuel (head p) s = Some (t, s).
Proof.
  induction p as [|u p IH]; intros [|fuel] Hf HL Hs Hl; cbn in Hl; try lia; cbn [first_runnable head] in *; try discriminate Hf.
  cbn [find_next]. destruct (tasks s !! u) as [x|] eqn:Ex; [|discriminate Hf].
  rewrite (bind_some _ _ _ _ _ (get_task_some s u x Ex)). destruct (Hs u ltac:(set_solver)) as [n En].
  rewrite (bind_some _ _ _ _ _ (load_tnode _ _ _ En)). fold (runnable x). destruct (runnable x).
  - by injection Hf as ->.
  - destruct p as [|v p]; [discriminate Hf|]. destruct HL as (E & _ & HL). rewrite En in E. injection E as ->.
    apply (IH fuel); [done|done|intros w Hw; apply Hs; set_solver|lia].
Qed.

Lemma first_runnable_skip ts a h b x :
  ts !! h = Some x -> runnable x = false -> first_runnable ts (a ++ h :: b) = first_runnable ts (a ++ b).
Proof.
  intros Eh Hr. induction a as [|u a IH]; cbn; [by rewrite Eh, Hr|]. by rewrite IH.
Qed.

Lemma first_runnable_ext ts ts' p :
  (forall u, u ∈ p -> tstate <$> ts' !! u = tstate <$> ts !! u) -> first_runnable ts' p = first_runnable ts p.
Proof.
  induction p as [|u p IH]; intros Hp; [done|]. cbn. pose proof (Hp u ltac:(set_solver)) as E.
  rewrite IH by (intros w Hw; apply Hp; set_solver). destruct (ts' !! u), (ts !! u); cbn in E; try discriminate E; [|done].
  injection E as E. unfold runnable. by rewrite E.
Qed.

Lemma first_runnable_elem ts p t : first_runnable ts p = Some t -> t ∈ p /\ exists x, ts !! t = Some x /\ runnable x = true.
Proof.
  induction p as [|u p IH]; cbn; [discriminate|]. destruct (ts !! u) as [x|] eqn:E; [|discriminate].
  destruct (runnable x) eqn:Er; [intros [= ->]; split; [set_solver|eauto]|]. intros Ht. destruct (IH Ht) as [? ?]. split; [set_solver|done].
Qed.

(** The ring read from the node after [cur] back to [cur]. *)
Lemma ring_links h hd l1 cur l2 :
  clist h hd (l1 ++ cur :: l2) -> links h (l2 ++ hd :: l1 ++ [cur]) /\
  (forall u, u ∈ l2 ++ hd :: l1 ++ [cur] -> exists n, nxt h u = Some (Some n)) /\
  nxt h cur = Some (head (l2 ++ hd :: l1 ++ [cur])).
Proof.
  intros C. pose proof C as [ND L]. rewrite <- app_assoc in L. cbn [app] in L.
  change (links h ((hd :: l1) ++ cur :: l2 ++ [hd])) in L. apply links_app in L as [L1 L2].
  assert (L3 : links h (l2 ++ [hd])) by (destruct l2; [done|apply L2]).
  split; [apply links_app; split; [done|exact L1]|]. split.
  - intros u Hu. destruct (decide (u = hd)) as [->|Hne]; [exists (default hd (head (l1 ++ cur :: l2))); apply (clist_first _ _ _ C)|].
    assert (u ∈ l1 ++ cur :: l2) as (a & b & E)%list_elem_of_split by set_solver.
    rewrite E in C. exists (default hd (head b)). apply (clist_next _ _ a u b C).
  - rewrite (clist_next _ _ _ _ _ C). by destruct l2.
Qed.

(** ** One scheduling decision *)

(** The task [x] at [u] after a switch from [cur] to [t]. *)
Definition switched_task (cur t u : Z) (x : task) : task :=
  let x := if decide (u = cur) then set_ticks (u32 (ticks x + 1)) x else x in
  let x := if decide (u = cur) then (if tstate x =? TASK_STATE_RUNNING then set_state TASK_STATE_WAITING x else x) else x in
  if decide (u = t) then set_state TASK_STATE_RUNNING x else x.

(** The state after a switch to [t]. *)
Definition switched (t : Z) s : sched P :=
  let ts := map_imap (fun u x => Some (switched_task (current_task s) t u x)) (tasks s) in
  with_esp0 (match tasks s !! t with Some x => kstack_bot x | None => 0 end) (with_current t (with_tasks ts s)).

Lemma switched_lookup s t u : tasks (switched t s) !! u = switched_task (current_task s) t u <$> tasks s !! u.
Proof. unfold switched. cbn. rewrite map_lookup_imap. by destruct (tasks s !! u). Qed.

Lemma switched_bot cur t u x : kstack_bot (switched_task cur t u x) = kstack_bot x.
Proof. unfold switched_task. destruct (decide (u = cur)), (decide (u = t)); try done; by destruct (tstate (set_ticks (u32 (ticks x + 1)) x) =? TASK_STATE_RUNNING). Qed.

Lemma switched_tid cur t u x : tid (switched_task cur t u x) = tid x.
Proof. unfold switched_task. destruct (decide (u = cur)), (decide (u = t)); try done; by destruct (tstate (set_ticks (u32 (ticks x + 1)) x) =? TASK_STATE_RUNNING). Qed.

Lemma finish_switch s cur t x z :
  current_task s = cur -> tasks s !! cur = Some x -> tasks s !! t = Some z ->
  (modify (with_current t) ;;
   x <- get_task cur ;;
   (if tstate x =? TASK_STATE_RUNNING then upd_task cur (set_state TASK_STATE_WAITING) else ret tt) ;;
   upd_task t (set_state TASK_STATE_RUNNING) ;;
   arch_task_switch cur t ;;
   ret tt)%st (with_tasks (<[cur := set_ticks (u32 (ticks x + 1)) x]> (tasks s)) s) = Some (tt, switched t s).
Proof.
  intros Ec Ex Ez. set (x1 := set_ticks _ x). set (s1 := with_current t (with_tasks (<[cur := x1]> (tasks s)) s)).
  assert (E0 : modify (with_current t) (with_tasks (<[cur := x1]> (tasks s)) s) = Some (tt, s1)) by done.
  rewrite (bind_some _ _ _ _ _ E0). assert (E1 : tasks s1 !! cur = Some x1) by (cbn; by rewrite lookup_insert_eq).
  rewrite (bind_some _ _ _ _ _ (get_task_some s1 cur x1 E1)).
  set (x2 := if tstate x1 =? TASK_STATE_RUNNING then set_state TASK_STATE_WAITING x1 else x1).
  assert (E2 : (if tstate x1 =? TASK_STATE_RUNNING then upd_task cur (set_state TASK_STATE_WAITING) else ret tt) s1 =
    Some (tt, with_tasks (<[cur := x2]> (tasks s)) s1)).
  { unfold x2. destruct (_ =? _); [|done]. rewrite (upd_task_some s1 cur _ x1 E1). cbn. by rewrite insert_insert_eq. }
  rewrite (bind_some _ _ _ _ _ E2). set (s2 := with_tasks _ s1).
  set (z2 := if decide (t = cur) then x2 else z).
  assert (E3 : tasks s2 !! t = Some z2).
  { unfold z2. cbn. destruct (decide (t = cur)) as [->|]; [by rewrite lookup_insert_eq|by rewrite lookup_insert_ne]. }
  rewrite (bind_some _ _ _ _ _ (upd_task_some s2 t _ z2 E3)). set (s3 := with_tasks _ s2).
  assert (E4 : tasks s3 !! t = Some (set_state TASK_STATE_RUNNING z2)) by (cbn; by rewrite lookup_insert_eq).
  unfold arch_task_switch. unfold bind at 1. rewrite (bind_some _ _ _ _ _ (get_task_some s3 t _ E4)).
  unfold bind, modify, ret. f_equal. f_equal. unfold switched. rewrite Ec, Ez.
  assert (kstack_bot (set_state TASK_STATE_RUNNING z2) = kstack_bot z) as ->.
  { unfold z2, x2. destruct (decide (t = cur)) as [->|]; [|done]. assert (x = z) as <- by congruence. by destruct (_ =? _). }
  unfold with_esp0, with_current. cbn. f_equal. apply map_eq. intros u. rewrite map_lookup_imap.
  destruct (decide (u = t)) as [->|Ht].
  - rewrite lookup_insert_eq, Ez. cbn. unfold switched_task, z2. rewrite (decide_True _ _ (eq_refl t)).
    destruct (decide (t = cur)) as [->|]; [|done]. assert (x = z) as <- by congruence. done.
  - rewrite lookup_insert_ne by done. destruct (decide (u = cur)) as [->|Hu].
    + rewrite lookup_insert_eq, Ex. cbn. unfold switched_task. destruct (decide (cur = cur)); [|done]. destruct (decide (cur = t)); [done|]. reflexivity.
    + rewrite lookup_insert_ne by done. destruct (tasks s !! u); [|done]. cbn. unfold switched_task. by rewrite !decide_False by done.
Qed.

Lemma schedule_run s l1 l2 t :
  sched_ok s (l1 ++ current_task s :: l2) -> sched_enabled s = true -> alive s (l1 ++ current_task s :: l2) ->
  first_runnable (tasks s) (l2 ++ l1 ++ [current_task s]) = Some t ->
  task_schedule task_head s = Some (tt, switched t s).
Proof.
  intros HS He Ha Hf. set (cur := current_task s) in *. set (l := l1 ++ cur :: l2) in *.
  pose proof (head_not_member s l HS) as Hh. assert (Hcl : cur ∈ l) by (unfold l; set_solver).
  destruct (so_tasks _ _ HS cur Hcl) as [x Ex]. unfold task_schedule.
  rewrite (bind_some _ _ _ _ _ (gets_run sched_enabled s)), He. cbn [negb].
  rewrite (bind_some _ _ _ _ _ (gets_run current_task s)). fold cur.
  rewrite (bind_some _ _ _ _ _ (upd_task_some s cur _ x Ex)). set (s1 := with_tasks _ s).
  assert (Hst : forall u, tstate <$> tasks s1 !! u = tstate <$> tasks s !! u).
  { intros u. cbn. destruct (decide (cur = u)) as [<-|]; [rewrite lookup_insert_eq, Ex; done|by rewrite lookup_insert_ne]. }
  assert (HS1 : sched_ok s1 l).
  { apply (sched_ok_same s); [done|done|apply (so_lock _ _ HS)|by apply same_tasks_insert|].
    destruct (so_head _ _ HS) as (y & Ey & Hy). exists y. split; [|done]. cbn. rewrite lookup_insert_ne; [done|].
    intros E. apply Hh. by rewrite <- E. }
  assert (Ha1 : alive s1 l).
  { intros u Hu. destruct (Ha u Hu) as (y & Ey & Hy). pose proof (Hst u) as E. rewrite Ey in E.
    destruct (tasks s1 !! u) as [z|]; [|discriminate E]. exists z. split; [done|]. unfold killed in *. injection E as E. by rewrite E. }
  rewrite (bind_some _ _ _ _ _ (purge_none s1 l HS1 Ha1)), (bind_some _ _ _ _ _ (gets_run current_task s1)).
  change (current_task s1) with cur. destruct (ring_links _ _ _ _ _ (so_list _ _ HS1)) as (HL & Hn & Hc).
  rewrite (bind_some _ _ _ _ _ (load_tnode _ _ _ Hc)), (bind_some _ _ _ _ _ (gets_run tasks_fuel s1)).
  destruct (so_head _ _ HS1) as (y & Ey & Hy).
  assert (Hf1 : first_runnable (tasks s1) (l2 ++ task_head :: l1 ++ [cur]) = Some t).
  { rewrite (first_runnable_skip _ _ _ _ y Ey) by (unfold runnable; by rewrite Hy).
    rewrite (first_runnable_ext (tasks s)); [done|]. intros u _. apply Hst. }
  assert (Hfu : (length (l2 ++ task_head :: l1 ++ [cur]) <= tasks_fuel s1)%nat).
  { pose proof (tasks_fuel_enough s1 l HS1). unfold l in *. rewrite !length_app in *. cbn [length] in *. rewrite length_app. cbn [length]. lia. }
  rewrite (bind_some _ _ _ _ _ (find_next_spec s1 t _ _ Hf1 HL Hn Hfu)).
  destruct (first_runnable_elem _ _ _ Hf) as [_ (z & Ez & _)]. by apply (finish_switch s cur t x z).
Qed.

Lemma switched_state cur t u x :
  tstate (switched_task cur t u x) =
    if decide (u = t) then TASK_STATE_RUNNING
    else if decide (u = cur) then (if tstate x =? TASK_STATE_RUNNING then TASK_STATE_WAITING else tstate x) else tstate x.
Proof.
  unfold switched_task. destruct (decide (u = t)); [done|]. destruct (decide (u = cur)); [|done]. cbn. by destruct (_ =? _).
Qed.

Lemma switched_ok s l t :
  sched_ok s l -> current_task s ∈ l -> (exists z, tasks s !! t = Some z /\ runnable z = true) -> sched_ok (switched t s) l.
Proof.
  intros HS Hc (z & Ez & Hz). pose proof (head_not_member s l HS) as Hh.
  apply (sched_ok_same s); [done|done|apply (so_lock _ _ HS)|split|].
  - apply set_eq. intros u. rewrite !elem_of_dom, switched_lookup. by destruct (tasks s !! u).
  - intros u x x' Ex. rewrite switched_lookup, Ex. cbn. intros [= <-]. apply switched_tid.
  - destruct (so_head _ _ HS) as (y & Ey & Hy). exists (switched_task (current_task s) t task_head y).
    rewrite switched_lookup, Ey. split; [done|]. rewrite switched_state, !decide_False; [done|congruence|].
    intros <-. rewrite Ez in Ey. injection Ey as ->. unfold runnable in Hz. by rewrite Hy in Hz.
Qed.

(** ** Round robin *)

Definition ready s l : Prop := forall u, u ∈ l -> exists x, tasks s !! u = Some x /\ runnable x = true.

Lemma ready_alive s l : ready s l -> alive s l.
Proof.
  intros Hr u Hu. destruct (Hr u Hu) as (x & Ex & Hx). exists x. split; [done|]. unfold killed. intros E. unfold runnable in Hx. by rewrite E in Hx.
Qed.

Lemma switched_ready s l t : ready s l -> ready (switched t s) l.
Proof.
  intros Hr u Hu. destruct (Hr u Hu) as (x & Ex & Hx). exists (switched_task (current_task s) t u x).
  rewrite switched_lookup, Ex. split; [done|]. unfold runnable in *. rewrite switched_state.
  destruct (decide (u = t)); [done|]. destruct (decide (u = current_task s)); [|done].
  destruct (tstate x =? TASK_STATE_RUNNING) eqn:E; [done|]. by rewrite E.
Qed.

Lemma first_ready s l p t r : ready s l -> t ∈ l -> p = t :: r -> first_runnable (tasks s) p = Some t.
Proof. intros Hr Ht ->. cbn. destruct (Hr t Ht) as (x & Ex & Hx). by rewrite Ex, Hx. Qed.

(** The successor of position [i] in the ring. *)
Lemma ring_successor l (i : nat) cur :
  l !! i = Some cur -> exists t r, l !! ((i + 1) mod length l)%nat = Some t /\ drop (S i) l ++ take i l ++ [cur] = t :: r.
Proof.
  intros Ei. pose proof (lookup_lt_Some _ _ _ Ei) as Hi. destruct (decide (S i = length l)) as [El|Hne].
  - replace (i + 1)%nat with (length l) by lia. rewrite Nat.Div0.mod_same, drop_ge by lia. cbn [app].
    destruct l as [|y l]; [cbn in Hi; lia|]. destruct i as [|i]; cbn in *.
    + injection Ei as ->. by exists cur, [].
    + by eexists _, _.
  - rewrite Nat.mod_small by lia. destruct (lookup_lt_is_Some_2 l (i + 1)) as [t Et]; [lia|].
    exists t. replace (i + 1)%nat with (S i) in Et by lia. rewrite (drop_S l t (S i) Et). eexists. split; [|done]. by replace (i + 1)%nat with (S i) by lia.
Qed.

Lemma round_robin_step s l (i : nat) :
  sched_ok s l -> sched_enabled s = true -> ready s l -> l !! i = Some (current_task s) ->
  exists t, l !! ((i + 1) mod length l)%nat = Some t /\ task_schedule task_head s = Some (tt, switched t s) /\
    sched_ok (switched t s) l /\ ready (switched t s) l.
Proof.
  intros HS He Hr Ei. destruct (ring_successor l i _ Ei) as (t & r & Et & Ep).
  assert (Htl : t ∈ l) by by eapply list_elem_of_lookup_2.
  exists t. split; [done|]. split_and!; [|by apply switched_ok; [|eapply list_elem_of_lookup_2|apply Hr]|by apply switched_ready].
  pose proof (take_drop_middle l i _ Ei) as El.
  apply (schedule_run s (take i l) (drop (S i) l) t); rewrite ?El; [done|done|by apply ready_alive|].
  by apply (first_ready s l _ t r).
Qed.

(** [n] timer ticks. *)
Fixpoint run_ticks (n : nat) s : option (sched P) :=
  match n with
  | O => Some s
  | S k => match task_schedule task_head s with Some (_, s') => run_ticks k s' | None => None end
  end.

Lemma run_ticks_spec l n : forall s (i : nat),
  sched_ok s l -> sched_enabled s = true -> ready s l -> l !! i = Some (current_task s) ->
  exists s', run_ticks n s = Some s' /\ l !! ((i + n) mod length l)%nat = Some (current_task s') /\ sched_ok s' l /\ ready s' l.
Proof.
  induction n as [|n IH]; intros s i HS He Hr Ei.
  - exists s. split_and!; try done. rewrite Nat.add_0_r, Nat.mod_small; [done|]. by eapply lookup_lt_Some.
  - destruct (round_robin_step s l i HS He Hr Ei) as (t & Et & E & HS' & Hr'). cbn [run_ticks]. rewrite E.
    destruct (IH (switched t s) ((i + 1) mod length l)%nat HS' He Hr' Et) as (s' & E' & Ec & HS2 & Hr2).
    exists s'. split_and!; try done. rewrite <- Ec. f_equal. rewrite Nat.Div0.add_mod_idemp_l. f_equal. lia.
Qed.

(** ** Killing and purging *)

Lemma task_kill_spec s l num t x :
  sched_ok s l -> t ∈ l -> tasks s !! t = Some x -> tid x = num -> num <> 0 ->
  tstate x = TASK_STATE_RUNNING \/ tstate x = TASK_STATE_WAITING \/ tstate x = TASK_STATE_PAUSED ->
  task_kill task_head num s = Some (E_SUCCESS, with_tasks (<[t := set_state TASK_STATE_KILLED x]> (tasks s)) s).
Proof.
  intros HS Ht Ex Ei Hn Hst. unfold task_kill. assert ((num =? 0) = false) as -> by by apply Z.eqb_neq.
  destruct (task_get_from_id_spec s l num HS) as [(u & y & Hu & Ey & Eu & E)|[HN _]]; [|by destruct (HN t x Ht Ex)].
  assert (u = t) as -> by (apply (so_ids _ _ HS u t y x); try done; congruence). assert (y = x) as -> by congruence.
  rewrite (bind_some _ _ _ _ _ E). assert ((t =? 0) = false) as -> by (apply Z.eqb_neq; intros ->; by apply (so_null _ _ HS)).
  rewrite (bind_some _ _ _ _ _ (get_task_some s t x Ex)).
  assert ((tstate x =? TASK_STATE_INVALID) = false) as -> by (by destruct Hst as [->|[->| ->]]).
  assert (negb (tstate x =? TASK_STATE_RUNNING) && negb (tstate x =? TASK_STATE_WAITING) && negb (tstate x =? TASK_STATE_PAUSED) = false) as ->
    by (by destruct Hst as [->|[->| ->]]).
  rewrite (bind_some _ _ _ _ _ (task_lock_free s (so_lock _ _ HS))). set (s1 := with_task_lock true s).
  assert (E1 : tasks s1 !! t = Some x) by done. rewrite (bind_some _ _ _ _ _ (upd_task_some s1 t _ x E1)).
  unfold bind, unlock_tasks, modify, ret. do 2 f_equal. unfold s1. destruct s. cbn. pose proof (so_lock _ _ HS) as El. cbn in El. by rewrite El.
Qed.

(** The memory given back for a purged task. *)
Definition release (t : Z) (x : task) : ST (heap P) unit :=
  ((if vm_space x =? 0 then ret tt else vm_space_destroy (vm_space x)) ;;
   (if kstack_bot x =? 0 then ret tt
    else give_page (VA_TO_PFN (u32 (kstack_bot x - kstack_size x))) TASK_KERNEL_STACK_ORDER ;; ret tt) ;;
   kfree t ;; ret tt)%st.

(** Purging once the task is found: either the release faults, or the task is
    gone from the list and from memory. *)
Lemma task_purge_run s l1 t l2 x :
  sched_ok s (l1 ++ t :: l2) -> tasks s !! t = Some x -> tid x <> 0 -> killed x ->
  match release t x (tmem s) with
  | None => task_purge task_head (tid x) s = None
  | Some (_, h') => exists n', task_purge task_head (tid x) s =
      Some (E_SUCCESS, with_tmem h' (with_tasks (delete t (tasks s)) (with_tnodes (delete t n') s))) /\
      clist (delete t n') task_head (l1 ++ l2)
  end.
Proof.
  intros HS Ex Hn Hk. assert (Ht : t ∈ l1 ++ t :: l2) by set_solver. unfold task_purge.
  assert ((tid x =? 0) = false) as -> by by apply Z.eqb_neq.
  destruct (task_get_from_id_spec s _ (tid x) HS) as [(u & y & Hu & Ey & Eu & E)|[HN _]]; [|by destruct (HN t x Ht Ex)].
  assert (u = t) as -> by (by apply (so_ids _ _ HS u t y x)). rewrite (bind_some _ _ _ _ _ E).
  assert (Hz : (t =? 0) = false) by (apply Z.eqb_neq; intros ->; by apply (so_null _ _ HS)). rewrite Hz.
  rewrite (bind_some _ _ _ _ _ (get_task_some s t x Ex)). unfold killed in Hk. rewrite Hk, Z.eqb_refl. cbn [negb].
  rewrite (bind_some _ _ _ _ _ (task_lock_free s (so_lock _ _ HS))).
  destruct (clist_delete_node_spec _ _ _ _ _ (so_list _ _ HS)) as (n' & En & C' & _).
  set (s1 := with_tnodes n' (with_task_lock true s)).
  assert (E1 : on_tnodes (clist_delete_node (Some t)) (with_task_lock true s) = Some (tt, s1)).
  { unfold on_tnodes. cbn [tnodes with_task_lock]. by rewrite En. }
  rewrite (bind_some _ _ _ _ _ E1). pose proof (so_lock _ _ HS) as El.
  assert (C2 : clist (delete t n') task_head (l1 ++ l2)).
  { destruct (so_list _ _ HS) as [ND _]. destruct C' as [ND' L]. split; [done|]. revert L.
    assert (Hnt : t ∉ task_head :: (l1 ++ l2) ++ [task_head]).
    { assert (NoDup (t :: task_head :: l1 ++ l2)) as [Hn' _]%NoDup_cons by
        (assert (t :: task_head :: l1 ++ l2 ≡ₚ task_head :: l1 ++ t :: l2) as -> by solve_Permutation; done). set_solver. }
    apply links_ext; intros j Hj; unfold nxt, prv; rewrite lookup_delete_ne; try done; intros <-; apply Hnt.
    - change (t ∈ removelast ((task_head :: l1 ++ l2) ++ [task_head])) in Hj. rewrite removelast_last in Hj. set_solver.
    - set_solver. }
  unfold release, task_destroy_vm_space, task_destroy_kernel_stack, free_task. rewrite Hz.
  assert (Ex1 : forall h, tasks (with_tmem h s1) !! t = Some x) by done.
  unfold bind, ret, modify, unlock_tasks, on_heap. rewrite (get_task_some s1 t x (Ex1 (tmem s))).
  change (tmem s1) with (tmem s). destruct (vm_space x =? 0).
  - rewrite (get_task_some s1 t x (Ex1 (tmem s))). destruct (kstack_bot x =? 0).
    + cbn -[kfree give_page vm_space_destroy]. destruct (kfree t (tmem s)) as [[r h']|]; [|done]. exists n'. split; [|done]. unfold modify. destruct s. cbn -[kfree give_page vm_space_destroy] in *. by rewrite El.
    + cbn -[kfree give_page vm_space_destroy]. destruct (give_page _ _ (tmem s)) as [[r h']|]; [|done]. cbn -[kfree give_page vm_space_destroy].
      destruct (kfree t h') as [[r' h2]|]; [|done]. exists n'. split; [|done]. unfold modify. destruct s. cbn -[kfree give_page vm_space_destroy] in *. by rewrite El.
  - change (tmem s1) with (tmem s). destruct (vm_space_destroy _ (tmem s)) as [[r h']|]; [|done].
    rewrite (get_task_some _ t x (Ex1 h')). destruct (kstack_bot x =? 0).
    + cbn -[kfree give_page vm_space_destroy]. destruct (kfree t h') as [[r' h2]|]; [|done]. exists n'. split; [|done]. unfold modify. destruct s. cbn -[kfree give_page vm_space_destroy] in *. by rewrite El.
    + cbn -[kfree give_page vm_space_destroy]. destruct (give_page _ _ h') as [[r' h2]|]; [|done]. cbn -[kfree give_page vm_space_destroy].
      destruct (kfree t h2) as [[r2 h3]|]; [|done]. exists n'. split; [|done]. unfold modify. destruct s. cbn -[kfree give_page vm_space_destroy] in *. by rewrite El.
Qed.

(** ** A killed task in the ring *)

Lemma purge_walk_killed s t l2 x : forall l1 l0 fuel tmp,
  sched_ok s (l0 ++ l1 ++ t :: l2) -> alive s l1 -> alive s l2 -> tasks s !! t = Some x -> killed x -> tid x <> 0 ->
  (length (l1 ++ t :: l2) < fuel)%nat ->
  tmp = Some (default task_head (head (tail (l1 ++ t :: l2)))) ->
  purge_walk task_head fuel (head (l1 ++ t :: l2)) tmp s = None \/
  exists s', purge_walk task_head fuel (head (l1 ++ t :: l2)) tmp s = Some (tt, s') /\ tnodes s' !! t = None /\
    current_task s' = current_task s.
Proof.
  induction l1 as [|u l1 IH]; intros l0 [|fuel] tmp HS Ha1 Ha2 Ex Hk Hn Hf ->; cbn [app head tail length] in *; try lia; cbn [purge_walk].
  - assert (Hne : (t =? task_head) = false).
    { apply Z.eqb_neq. intros ->. apply (head_not_member s _ HS). set_solver. }
    rewrite Hne, (bind_some _ _ _ _ _ (get_task_some s t x Ex)). unfold killed in Hk. rewrite Hk, Z.eqb_refl.
    pose proof (task_purge_run s l0 t l2 x HS Ex Hn Hk) as HP. destruct (release t x (tmem s)) as [[[] h']|].
    2:{ left. unfold bind at 1 2. by rewrite HP. }
    right. destruct HP as (n' & E & C). set (s' := with_tmem _ _) in E. unfold bind at 1 2. rewrite E.
    destruct (ring_after _ _ _ _ C) as (n & En & Hnx). cbn [ret]. change (delete t n') with (tnodes s') in En, C.
    rewrite (bind_some _ _ _ _ _ (load_tnode s' _ _ En)). exists s'. split; [|split; [|done]].
    + apply (purge_walk_clean s' l2 l0); [done| |lia|destruct l2; [done|by rewrite Hnx]].
      intros w Hw. destruct (Ha2 w Hw) as (y & Ey & Hy). exists y. split; [|done]. cbn. rewrite lookup_delete_ne; [done|].
      intros <-. destruct (so_list _ _ HS) as [ND _]. apply NoDup_cons in ND as [_ ND]. apply NoDup_app in ND as (_ & _ & ND).
      by apply NoDup_cons in ND as [? _].
    + cbn. apply lookup_delete_eq.
  - assert (Hne : (u =? task_head) = false).
    { apply Z.eqb_neq. intros ->. apply (head_not_member s _ HS). set_solver. }
    rewrite Hne. destruct (Ha1 u ltac:(set_solver)) as (y & Ey & Hy). rewrite (bind_some _ _ _ _ _ (get_task_some s u y Ey)).
    assert ((tstate y =? TASK_STATE_KILLED) = false) as -> by (by apply Z.eqb_neq). rewrite bind_ret.
    assert (E2 : l0 ++ u :: l1 ++ t :: l2 = (l0 ++ [u]) ++ l1 ++ t :: l2) by by rewrite <- app_assoc. rewrite E2 in HS.
    destruct (ring_after _ _ _ _ (so_list _ _ HS)) as (n & En & Hnx). rewrite (bind_some _ _ _ _ _ (load_tnode s _ _ En)).
    assert (Hh : Some (default task_head (head (l1 ++ t :: l2))) = head (l1 ++ t :: l2)) by by destruct l1. rewrite Hh.
    apply (IH (l0 ++ [u])); try done; [intros w Hw; apply Ha1; set_solver|lia|]. by destruct l1; cbn in *; rewrite Hnx.
Qed.

(** Scheduling with the current task killed never returns normally: the purge
    frees it, and the code goes on to read it. *)
Lemma schedule_killed_current s l1 l2 x :
  sched_ok s (l1 ++ current_task s :: l2) -> sched_enabled s = true -> alive s l1 -> alive s l2 ->
  tasks s !! current_task s = Some x -> killed x -> tid x <> 0 -> task_schedule task_head s = None.
Proof.
  intros HS He Ha1 Ha2 Ex Hk Hn. set (cur := current_task s) in *. set (l := l1 ++ cur :: l2) in *. unfold task_schedule.
  rewrite (bind_some _ _ _ _ _ (gets_run sched_enabled s)), He. cbn [negb].
  rewrite (bind_some _ _ _ _ _ (gets_run current_task s)). fold cur.
  rewrite (bind_some _ _ _ _ _ (upd_task_some s cur _ x Ex)). set (s1 := with_tasks _ s).
  assert (Hcl : cur ∈ l) by (unfold l; set_solver). pose proof (head_not_member s l HS) as Hh.
  assert (HS1 : sched_ok s1 l).
  { apply (sched_ok_same s); [done|done|apply (so_lock _ _ HS)|by apply same_tasks_insert|].
    destruct (so_head _ _ HS) as (y & Ey & Hy). exists y. split; [|done]. cbn. rewrite lookup_insert_ne; [done|].
    intros E. apply Hh. by rewrite <- E. }
  assert (ND : cur ∉ l1 ++ l2).
  { destruct (so_list _ _ HS) as [ND _]. apply NoDup_cons in ND as [_ ND]. unfold l in ND.
    assert (NoDup (cur :: l1 ++ l2)) as [Hc _]%NoDup_cons by
      (assert (cur :: l1 ++ l2 ≡ₚ l1 ++ cur :: l2) as -> by solve_Permutation; done). done. }
  assert (Hal : forall k, alive s k -> cur ∉ k -> alive s1 k).
  { intros k Hak Hck u Hu. destruct (Hak u Hu) as (y & Ey & Hy). exists y. split; [|done]. cbn.
    rewrite lookup_insert_ne; [done|]. intros <-. done. }
  unfold bind at 1, task_purge_killed_tasks. rewrite (bind_some _ _ _ _ _ (gets_run tasks_fuel s1)).
  pose proof (so_list _ _ HS1) as C. rewrite (bind_some _ _ _ _ _ (load_tnode _ _ _ (clist_first _ _ _ C))).
  destruct (ring_after _ _ [] l C) as (n & En & Hnx). rewrite (bind_some _ _ _ _ _ (load_tnode _ _ _ En)).
  assert (Ehd : Some (default task_head (head l)) = head l) by (unfold l; by destruct l1). rewrite Ehd.
  destruct (purge_walk_killed s1 cur l2 (set_ticks (u32 (ticks x + 1)) x) l1 [] (tasks_fuel s1) (Some n))
    as [E|(s' & E & Hno & Hcur)]; try done.
  - apply Hal; [done|set_solver].
  - apply Hal; [done|set_solver].
  - cbn. by rewrite lookup_insert_eq.
  - by apply tasks_fuel_enough.
  - f_equal. unfold l in Hnx. by destruct l1; cbn in *.
  - change (l1 ++ cur :: l2) with l in E. rewrite E. done.
  - change (l1 ++ cur :: l2) with l in E. rewrite E. rewrite (bind_some _ _ _ _ _ (gets_run current_task s')), Hcur.
    change (current_task s1) with cur. unfold bind at 1, on_tnodes, load_next. cbn [mbind option_bind]. by rewrite Hno.
Qed.

End Spec.
