(* ===== verification/TaskCreate.v ===== *)
(** * Creating tasks

    [task_create] composes the heap (the task and its address space), the page
    allocator (the kernel stack and the page directory), the page tables and the
    scheduler's list.  The theorem says what the new task looks like, down to the
    words its first context switch pops, and that nothing older changes. *)

From stdpp Require Import base numbers list gmap.
From Stdlib Require Import ZArith Lia.
From S2P Require Import Prelude LinkedList PageDefs Blocks Palloc PageAlloc PageSource PageClaims Slab SlabInv SlabSpec HeapClaims Ptable HeapClient PtableSpec HeapGrow VmSpec Task TaskSpec.

#[local] Open Scope Z_scope.

#[local] Opaque zero_words.

Section Space.
  Context {P : Type} `{PageSource P}.

  Implicit Types (h : heap P) (G : list (list (Z * list Z))) (A : gset (Z * Z)).

(** The cache of 16-byte objects and that of 128-byte objects. *)
Lemma cache_for_vm_space i : cache_for SIZEOF_VM_SPACE i -> i = 1%nat.
Proof. intros Hc. apply (cache_for_unique SIZEOF_VM_SPACE); [done|]. exists 16. split_and!; [done|done|]. intros [|j] sz Hj E; [|lia]. cbn in E. injection E as <-. done. Qed.

Lemma cache_for_task i : cache_for SIZEOF_TASK i -> i = 4%nat.
Proof.
  intros Hc. apply (cache_for_unique SIZEOF_TASK); [done|]. exists 128. split_and!; [done|done|]. unfold SIZEOF_TASK.
  intros [|[|[|[|j]]]] sz Hj E; try lia; cbn in E; injection E as <-; lia.
Qed.

(** A new page directory, a copy of the kernel's. *)
Lemma pgd_stage (K : Z -> Prop) n h G A q :
  heap_rep h G A -> roomy K (S n) (source h) -> clear_of K A -> K q -> 0 <= q < LINEAR_FRAMES -> kernel_directory h q ->
  exists p h', ptable_pgd_new (lin q) h = Some (lin p, h') /\ heap_rep h' G (A ∪ {[(p, 0)]}) /\ ((p, 0) ∉ A) /\ 0 <= p < LINEAR_FRAMES /\
    user_rep h' (lin p) ∅ (A ∪ {[(p, 0)]}) /\ extends h h' G G A (A ∪ {[(p, 0)]}) /\ clear_of K (A ∪ {[(p, 0)]}) /\ roomy K n (source h') /\
    (forall i, 0 <= i < 1024 -> kmem h' !! (lin p + 4 * i) = kmem h !! (lin q + 4 * i)).
Proof.
  intros HR Hr HK Hq Hql HD. destruct (Hr 0) as (p0 & s0 & Ep & Hk0 & Hr0); [by left|].
  assert (Hk : ~ K p0) by apply Hk0, inb_self.
  destruct (ptable_pgd_new_spec h q A (hr_source _ _ _ HR) HD Hql) as [(p & h' & E & HU & Hf & Hp & [Ec Es] & Hcp & Ho)|(s' & Es & _)]; [| |congruence].
  { intros p s' E ->. rewrite Ep in E. injection E as -> _. done. }
  rewrite Ep in Es. injection Es as Ep0 Es0. subst p0 s0.
  destruct (alloc_fresh (source h) (source h') A 0 p (hr_source _ _ _ HR) ltac:(done) Ep) as (_ & Hn & Hfr & _).
  assert (Hblk : forall a, ~ in_block (p, 0) a -> kmem h' !! a = kmem h !! a).
  { intros a Ha. destruct (decide (in_frame ((a - KERNEL_START_VIRT) / 4096) a)) as [Hin|Hin].
    - apply (Ho ((a - KERNEL_START_VIRT) / 4096)); [done|]. intros Ex. apply Ha. rewrite Ex in Hin. unfold in_block, in_frame in *. cbn. lia.
    - exfalso. apply Hin. unfold in_frame, lin. pose proof (Z.div_mod (a - KERNEL_START_VIRT) 4096 ltac:(lia)).
      pose proof (Z.mod_pos_bound (a - KERNEL_START_VIRT) 4096 ltac:(lia)). lia. }
  assert (Hns : no_slab G (p, 0)) by (eapply no_slab_new; [exact HR|exact Hfr]).
  destruct (take_extends h G A 0 p (source h') HR ltac:(done) Ep) as (_ & HR1 & HE1).
  exists p, h'. split_and!; try done; try lia.
  - replace h' with (with_kmem (kmem h') (Heap (kmem h) (caches h) (source h'))) by (destruct h'; cbn in *; by subst).
    apply heap_outside; [|intros a Ha; cbn; apply Hblk; by apply Hns]. apply (heap_source h G A); [done|set_solver|apply HU].
  - pose proof (extends_block h (Heap (kmem h) (caches h) (source h')) G G A _ (p, 0) (kmem h') HR HE1 ltac:(set_solver) Hn Hblk) as [S F L W C O].
    by split.
  - apply clear_add; [done|]. intros x Hx. assert (x = p) as -> by (unfold inb in Hx; cbn in Hx; lia). done.
Qed.

(** A new address space. *)
Lemma space_stage (K : Z -> Prop) n h G A q :
  heap_rep h G A -> roomy K (S (S n)) (source h) -> clear_of K A -> K q -> 0 <= q < LINEAR_FRAMES -> kernel_directory h q ->
  exists v p h' G' A', vm_space_new (lin q) h = Some (v, h') /\ 0 < v /\ heap_rep h' G' A' /\ extends h h' G G' A A' /\ clear_of K A' /\ roomy K n (source h') /\
    (forall j y, live G' j y <-> live G j y \/ (j = 1%nat /\ y = v)) /\ ~ live G 1 v /\ (p, 0) ∈ A' /\ ((p, 0) ∉ A) /\
    user_rep h' (lin p) ∅ A' /\ kmem h' !! (v + VMS_PGD) = Some (p * 4096) /\ kmem h' !! (v + VMS_MAPPINGS) = Some 0 /\
    (forall i, 0 <= i < 1024 -> kmem h' !! (lin p + 4 * i) = kmem h !! (lin q + 4 * i)) /\ no_slab G' (p, 0).
Proof.
  intros HR Hr HK Hq Hql HD.
  destruct (kmalloc_roomy K (S n) h G A SIZEOF_VM_SPACE HR ltac:(done) Hr HK) as (v & h1 & G1 & A1 & i & E1 & Hv & HR1 & Hc & Lv & Nv & HL & HE1 & Hr1 & HK1).
  apply cache_for_vm_space in Hc as ->.
  set (m2 := <[v + VMS_MAPPINGS + 4 := 0]> (<[v + VMS_MAPPINGS := 0]> (kmem h1))). set (h2 := with_kmem m2 h1).
  assert (Ho2 : only_object (kmem h1) m2 v 16) by (eapply only_object_trans; apply only_object_insert; unfold VMS_MAPPINGS; lia).
  assert (HR2 : heap_rep h2 G1 A1) by (by apply (heap_write h1 G1 A1 1 v 16)).
  pose proof (extends_object h h1 G G1 A A1 1 v 16 m2 HE1 HR1 Lv Nv eq_refl Ho2) as HE2. fold h2 in HE2.
  assert (HD2 : kernel_directory h2 q).
  { assert (Hsame : forall i, 0 <= i < 1024 -> kmem h2 !! (lin q + 4 * i) = kmem h !! (lin q + 4 * i))
      by (intros j Hj; eapply extends_kernel; [exact HR|exact HE2|exact HK1|exact Hq|by apply word_in_frame]).
    destruct HD as [D1 D2]. split; [intros j Hj; rewrite Hsame by done; by apply D1|]. intros j e Hj. rewrite Hsame by (unfold USER_PDES in Hj; lia). by apply D2. }
  destruct (pgd_stage K n h2 G1 A1 q HR2 Hr1 HK1 Hq Hql HD2) as (p & h3 & E3 & HR3 & Np & Hp & HU & HE3 & HK3 & Hr3 & Hcp).
  pose proof (ex_same _ _ _ _ _ _ HE3) as Hsame3.
  assert (Hv3 : forall o, 0 <= o < 16 -> kmem h3 !! (v + o) = m2 !! (v + o)) by (intros o Ho; apply (Hsame3 1%nat v 16); [done|done|lia]).
  assert (Ev : VIR_TO_PHY (lin p) = p * 4096).
  { unfold VIR_TO_PHY, lin, KERNEL_START_VIRT, LINEAR_FRAMES in *. rewrite u32_small; lia. }
  set (m4 := <[v + VMS_PGD := p * 4096]> (kmem h3)). assert (Lv3 : live G1 1 v) by done.
  assert (Ho4 : only_object (kmem h3) m4 v 16) by (apply only_object_insert; unfold VMS_PGD; lia).
  pose proof (extends_trans _ _ _ _ _ _ _ _ _ HE2 HE3) as HE. pose proof (extends_object h h3 G G1 A _ 1 v 16 m4 HE HR3 Lv3 Nv eq_refl Ho4) as HE4.
  assert (Hns : no_slab G1 (p, 0)).
  { apply (no_slab_new h2 G1 A1 (p, 0) HR2). intros c x Hc Hx Hx'. apply (ex_fresh _ _ _ _ _ _ HE3 c (p, 0) x Hc); [set_solver|done|done|done]. }
  assert (Hdir : forall i, 0 <= i < 1024 -> m4 !! (lin p + 4 * i) = kmem h3 !! (lin p + 4 * i)).
  { intros j Hj. apply Ho4. intros Hin. apply (Hns (lin p + 4 * j)); [by eapply live_slab_word|unfold in_block; cbn; lia]. }
  exists v, p, (with_kmem m4 h3), G1, (A1 ∪ {[(p, 0)]}). split_and!; try done; try lia.
  - unfold vm_space_new. rewrite (bind_some _ _ _ _ _ E1). assert ((v =? 0) = false) as -> by lia. unfold mem_llist_init.
    assert ((v + VMS_MAPPINGS =? 0) = false) as -> by (unfold VMS_MAPPINGS; lia).
    erewrite bind_some by (erewrite bind_some by apply store_run; apply store_run). cbn [kmem with_kmem caches source].
    change (with_kmem (<[v + VMS_MAPPINGS + 4:=0]> (<[v + VMS_MAPPINGS:=0]> (kmem h1))) (with_kmem (<[v + VMS_MAPPINGS:=0]> (kmem h1)) h1)) with h2.
    rewrite (bind_some _ _ _ _ _ E3), (bind_some _ _ _ _ _ (store_run h3 (v + VMS_PGD) _)), Ev. done.
  - by apply (heap_write h3 G1 _ 1 v 16).
  - set_solver.
  - intros Hin. apply Np. by apply (ex_sub _ _ _ _ _ _ HE1).
  - destruct HU as [U1 U2 U3 U4 U5 U6]. split; try done. intros j Hj Ej. rewrite kmem_with, Hdir by (unfold USER_PDES in Hj; lia). by apply U2.
  - rewrite kmem_with. apply lookup_insert_eq.
  - rewrite kmem_with. unfold m4. rewrite lookup_insert_ne by (unfold VMS_MAPPINGS, VMS_PGD; lia). rewrite Hv3 by (unfold VMS_MAPPINGS; lia).
    unfold m2. rewrite lookup_insert_ne by lia. apply lookup_insert_eq.
  - intros j Hj. rewrite kmem_with, Hdir, Hcp by done. eapply extends_kernel; [exact HR|exact HE2|exact HK1|exact Hq|by apply word_in_frame].
Qed.

End Space.

(** ** The stack of a new task *)

(** The words a new task's stack holds from [kstack_top] on: what
    [task_context_switch] pops (EDI, ESI, EBX, EBP, the return address), then what
    [isr_exit] pops, up to the processor's IRET frame. *)
Definition initial_stack (ty start isr_exit : Z) : list Z :=
  [0; 0; 0; 0; isr_exit] ++
  (if ty =? TASK_KERNEL then 0x10 else 0x23) :: replicate 10 0 ++
  (if ty =? TASK_KERNEL then [start; 0x08; 0x200; 0; 0x10] else [start; 0x1B; 0x3200; 0x440000; 0x23]).

Definition KSTACK_BYTES : Z := 65536.

Section Create.
  Context {P : Type} `{PageSource P}.
  Context (task_head kernel_pgd isr_exit : Z).

  Implicit Types (h : heap P) (G : list (list (Z * list Z))) (A : gset (Z * Z)) (ts : gmap Z task) (ns : gmap Z (lnode Z)).

Lemma on_heap_run {X} (f : ST (heap P) X) ts ns lk last cur en e h a h' :
  f h = Some (a, h') -> on_heap f (Sched ts ns lk last cur en e h) = Some (a, Sched ts ns lk last cur en e h').
Proof. intros E. unfold on_heap. cbn [tmem]. by rewrite E. Qed.

Lemma on_nodes_run {X} (f : ST (gmap Z (lnode Z)) X) ts ns lk last cur en e h a ns' :
  f ns = Some (a, ns') -> on_tnodes f (Sched ts ns lk last cur en e h) = Some (a, Sched ts ns' lk last cur en e h).
Proof. intros E. unfold on_tnodes. cbn [tnodes]. by rewrite E. Qed.

Lemma upd_run ts ns lk last cur en e h t f x :
  ts !! t = Some x -> upd_task t f (Sched ts ns lk last cur en e h) = Some (tt, Sched (<[t := f x]> ts) ns lk last cur en e h).
Proof. intros E. unfold upd_task. cbn [tasks]. by rewrite E. Qed.

(** The fields [task_alloc_struct] sets. *)
Definition new_task (name : list Z) (id ty start prio st : Z) : task :=
  Task id ty st prio 0 0 0 0 0 start (<[(TASK_NAME_LENGTH_MAX - 1)%nat := 0]> (copy_name name)).

Lemma alloc_struct_run ts ns lk last cur en e h name ty start prio st t h' ns' :
  kmalloc SIZEOF_TASK h = Some (t, h') -> t <> 0 -> clist_init (Some t) (<[t := LNode None None]> ns) = Some (tt, ns') ->
  task_alloc_struct name ty start prio st (Sched ts ns lk last cur en e h) =
    Some (t, Sched (<[t := new_task name last ty start prio st]> ts) ns' lk (u32 (last + 1)) cur en e h').
Proof.
  intros E Ht En. unfold task_alloc_struct. rewrite (bind_some _ _ _ _ _ (gets_run last_task_id _)). cbn [last_task_id].
  rewrite (bind_some _ _ _ _ _ (on_heap_run _ _ _ _ _ _ _ _ _ _ _ E)). apply Z.eqb_neq in Ht. rewrite Ht.
  erewrite (bind_some (modify _)) by reflexivity. unfold with_tasks, with_tnodes. cbn [tasks tnodes task_lock last_task_id current_task sched_enabled esp0 tmem].
  erewrite bind_some by (apply upd_run, lookup_insert_eq). rewrite insert_insert_eq.
  erewrite bind_some by (apply on_nodes_run; exact En). erewrite (bind_some (modify _)) by reflexivity. unfold with_last_id.
  cbn [tasks tnodes task_lock last_task_id current_task sched_enabled esp0 tmem].
  erewrite bind_some by (apply upd_run, lookup_insert_eq). by rewrite insert_insert_eq.
Qed.

(** The frame [arch_task_create] builds below [bot]. *)
Definition stack_mem (ty start bot : Z) (m : gmap Z Z) : gmap Z Z :=
  let r := bot - SIZEOF_ISR_REGISTERS in
  let m1 := <[r + REG_EIP := start]> (zero_words (Z.to_nat (SIZEOF_ISR_REGISTERS / 4)) r m) in
  let m2 := if ty =? TASK_KERNEL
    then <[r + REG_USER_SS := 0x10]> (<[r + REG_EFLAGS := 0x200]> (<[r + REG_DS := 0x10]> (<[r + REG_CS := 0x08]> m1)))
    else <[r + REG_USER_ESP := 0x440000]> (<[r + REG_USER_SS := 0x23]> (<[r + REG_EFLAGS := 0x3200]> (<[r + REG_DS := 0x23]> (<[r + REG_CS := 0x1B]> m1)))) in
  let c := r - SIZEOF_TASK_CONTEXT in
  <[c + CTX_EIP := isr_exit]> (<[c + CTX_EBP := 0]> (<[c + CTX_EBX := 0]> (<[c + CTX_ESI := 0]> (<[c + CTX_EDI := 0]>
    (zero_words (Z.to_nat (SIZEOF_TASK_CONTEXT / 4)) c m2))))).

Lemma registers_run h ty start r :
  (clear_words (Z.to_nat (SIZEOF_ISR_REGISTERS / 4)) r ;;
   store (r + REG_EIP) start ;;
   if ty =? TASK_KERNEL then
     store (r + REG_CS) (Z.lor GDT_KERNEL_CODE_OFFSET RPL_KERNELMODE) ;;
     store (r + REG_DS) (Z.lor GDT_KERNEL_DATA_OFFSET RPL_KERNELMODE) ;;
     store (r + REG_EFLAGS) (Z.lor EFLAGS_INTERRUPTS_ON EFLAGS_IOPL_KERNELMODE) ;;
     store (r + REG_USER_SS) (Z.lor GDT_KERNEL_DATA_OFFSET RPL_KERNELMODE)
   else
     store (r + REG_CS) (Z.lor GDT_USER_CODE_OFFSET RPL_USERMODE) ;;
     store (r + REG_DS) (Z.lor GDT_USER_DATA_OFFSET RPL_USERMODE) ;;
     store (r + REG_EFLAGS) (Z.lor EFLAGS_INTERRUPTS_ON EFLAGS_IOPL_USERMODE) ;;
     store (r + REG_USER_SS) (Z.lor GDT_USER_DATA_OFFSET RPL_USERMODE) ;;
     store (r + REG_USER_ESP) 0x440000)%st h =
  Some (tt, with_kmem (let m1 := <[r + REG_EIP := start]> (zero_words (Z.to_nat (SIZEOF_ISR_REGISTERS / 4)) r (kmem h)) in
    if ty =? TASK_KERNEL
    then <[r + REG_USER_SS := 0x10]> (<[r + REG_EFLAGS := 0x200]> (<[r + REG_DS := 0x10]> (<[r + REG_CS := 0x08]> m1)))
    else <[r + REG_USER_ESP := 0x440000]> (<[r + REG_USER_SS := 0x23]> (<[r + REG_EFLAGS := 0x3200]> (<[r + REG_DS := 0x23]> (<[r + REG_CS := 0x1B]> m1)))))
    h).
Proof using. rewrite (bind_some _ _ _ _ _ (clear_words_run _ _ _)). cbv zeta. by destruct (ty =? TASK_KERNEL). Qed.

Lemma arch_create_run ts ns lk last cur en e h t x :
  ts !! t = Some x -> SIZEOF_ISR_REGISTERS + SIZEOF_TASK_CONTEXT <= kstack_top x < 4294967296 ->
  arch_task_create isr_exit t (Sched ts ns lk last cur en e h) =
    Some (E_SUCCESS, Sched (<[t := set_top (kstack_top x - SIZEOF_ISR_REGISTERS - SIZEOF_TASK_CONTEXT) x]> ts) ns lk last cur en e
      (with_kmem (stack_mem (ttype x) (tstart x) (kstack_top x) (kmem h)) h)).
Proof.
  intros Et Hr. unfold SIZEOF_ISR_REGISTERS, SIZEOF_TASK_CONTEXT in Hr. unfold arch_task_create.
  erewrite bind_some by (apply upd_run; exact Et). cbv beta. rewrite (u32_small (kstack_top x - SIZEOF_ISR_REGISTERS)) by (unfold SIZEOF_ISR_REGISTERS; lia).
  set (x1 := set_top _ x). erewrite bind_some by (apply get_task_some, lookup_insert_eq).
  cbv zeta. change (ttype x1) with (ttype x). change (tstart x1) with (tstart x). change (kstack_top x1) with (kstack_top x - SIZEOF_ISR_REGISTERS).
  erewrite bind_some by (apply on_heap_run, registers_run).
  erewrite bind_some by (apply upd_run, lookup_insert_eq). cbv beta. rewrite insert_insert_eq.
  change (kstack_top x1) with (kstack_top x - SIZEOF_ISR_REGISTERS).
  rewrite (u32_small (kstack_top x - SIZEOF_ISR_REGISTERS - SIZEOF_TASK_CONTEXT)) by (unfold SIZEOF_ISR_REGISTERS, SIZEOF_TASK_CONTEXT; lia).
  set (x2 := set_top _ x1). erewrite bind_some by (apply get_task_some, lookup_insert_eq).
  change (kstack_top x2) with (kstack_top x - SIZEOF_ISR_REGISTERS - SIZEOF_TASK_CONTEXT).
  erewrite bind_some; [reflexivity|]. apply on_heap_run. rewrite (bind_some _ _ _ _ _ (clear_words_run _ _ _)). reflexivity.
Qed.

(** What the frame holds, and that it touches nothing else. *)
Lemma stack_mem_out ty start bot m a : ~ (bot - 84 <= a < bot) -> stack_mem ty start bot m !! a = m !! a.
Proof using.
  intros Ha. unfold stack_mem. cbv zeta. change (Z.to_nat (SIZEOF_ISR_REGISTERS / 4)) with 16%nat. change (Z.to_nat (SIZEOF_TASK_CONTEXT / 4)) with 5%nat.
  unfold SIZEOF_ISR_REGISTERS, SIZEOF_TASK_CONTEXT, REG_EIP, REG_CS, REG_DS, REG_EFLAGS, REG_USER_SS, REG_USER_ESP, CTX_EDI, CTX_ESI, CTX_EBX, CTX_EBP, CTX_EIP.
  rewrite !lookup_insert_ne by lia. rewrite zero_words_out by lia. destruct (ty =? TASK_KERNEL);
  rewrite !lookup_insert_ne by lia; by rewrite zero_words_out by lia.
Qed.

Lemma stack_mem_words ty start bot m i w :
  initial_stack ty start isr_exit !! i = Some w -> stack_mem ty start bot m !! (bot - 84 + 4 * Z.of_nat i) = Some w.
Proof using.
  unfold stack_mem. cbv zeta. change (Z.to_nat (SIZEOF_ISR_REGISTERS / 4)) with 16%nat. change (Z.to_nat (SIZEOF_TASK_CONTEXT / 4)) with 5%nat.
  unfold initial_stack, SIZEOF_ISR_REGISTERS, SIZEOF_TASK_CONTEXT, REG_EIP, REG_CS, REG_DS, REG_EFLAGS, REG_USER_SS, REG_USER_ESP, CTX_EDI, CTX_ESI, CTX_EBX, CTX_EBP, CTX_EIP.
  assert (Hz : forall k, 0 <= k < 16 -> zero_words 16 (bot - 64) m !! (bot - 64 + 4 * k) = Some 0) by (intros k Hk; apply zero_words_in; lia).
  intros Ei. destruct (ty =? TASK_KERNEL); do 21 (try (destruct i as [|i]; [cbn in Ei; injection Ei as <-|])); try discriminate Ei;
    repeat first [rewrite lookup_insert_ne by lia | rewrite lookup_insert by lia; rewrite decide_True by lia; reflexivity
                 | rewrite zero_words_out by lia];
    match goal with |- _ !! (bot - 84 + 4 * Z.of_nat ?j) = _ => specialize (Hz (Z.of_nat j - 5) ltac:(lia));
      replace (bot - 84 + 4 * Z.of_nat j) with (bot - 64 + 4 * (Z.of_nat j - 5)) by lia; exact Hz end.
Qed.

(** A kernel stack: a new block of 16 cleared pages. *)
Lemma stack_stage (K : Z -> Prop) n h G A :
  heap_rep h G A -> roomy K (S n) (source h) -> clear_of K A ->
  exists p h', heap_rep h' G (A ∪ {[(p, 4)]}) /\ extends h h' G G A (A ∪ {[(p, 4)]}) /\ clear_of K (A ∪ {[(p, 4)]}) /\
    ((p, 4) ∉ A) /\ no_slab G (p, 4) /\ roomy K n (source h') /\ 0 <= p /\ p + 16 <= LINEAR_FRAMES /\
    (forall k, 0 <= k < 16384 -> kmem h' !! (lin p + 4 * k) = Some 0) /\
    forall ts ns lk last cur en e t x, ts !! t = Some x ->
      task_create_kernel_stack t (Sched ts ns lk last cur en e h) =
        Some (E_SUCCESS, Sched (<[t := set_stack (lin p + KSTACK_BYTES) (lin p + KSTACK_BYTES) KSTACK_BYTES x]> ts) ns lk last cur en e h').
Proof using.
  intros HR Hr0 HK. destruct (Hr0 SLAB_DEFAULT_ORDER) as (p & s1 & Ep & Hk & Hr); [by right|].
  destruct (alloc_fresh (source h) s1 A SLAB_DEFAULT_ORDER p (hr_source _ _ _ HR) ltac:(done) Ep) as (_ & Hn & Hf & Hp0 & Hp).
  destruct (take_extends h G A SLAB_DEFAULT_ORDER p s1 HR ltac:(done) Ep) as (Et & HR1 & HE1).
  change (2 ^ SLAB_DEFAULT_ORDER) with 16 in Hp. unfold SLAB_DEFAULT_ORDER in *.
  set (n0 := Z.to_nat (KSTACK_BYTES / 4)). assert (En : 4 * Z.of_nat n0 = 65536) by reflexivity.
  set (h1 := Heap (kmem h) (caches h) s1) in *. set (m' := zero_words n0 (lin p) (kmem h1)). exists p, (with_kmem m' h1).
  assert (Hns : no_slab G (p, 4)) by (eapply no_slab_new; [exact HR|exact Hf]).
  assert (Ho : forall a, ~ in_block (p, 4) a -> m' !! a = kmem h1 !! a).
  { intros a Ha. apply zero_words_out. rewrite En. unfold in_block in Ha. cbn [fst snd] in Ha. change (4096 * 2 ^ 4) with 65536 in Ha. lia. }
  split_and!; [| | |exact Hn|exact Hns|exact Hr|exact Hp0|exact Hp| |].
  - apply heap_outside; [exact HR1|]. intros a Ha. apply Ho. by apply Hns.
  - apply (extends_block h h1 G G A _ (p, 4)); [exact HR|exact HE1|apply elem_of_union_r, elem_of_singleton; reflexivity|exact Hn|exact Ho].
  - apply clear_add; [exact HK|exact Hk].
  - intros k Hk'. rewrite kmem_with. apply zero_words_in. lia.
  - intros ts ns lk last cur en e t x Ex. unfold task_create_kernel_stack.
    rewrite (bind_some _ _ _ _ _ (on_heap_run _ _ _ _ _ _ _ _ _ _ _ Et)). cbv zeta.
    assert (PHY_TO_VIR (PFN_TO_PA p) = lin p) as ->.
    { unfold LINEAR_FRAMES in Hp. rewrite PFN_TO_PA_eq by lia. unfold PHY_TO_VIR, lin, KERNEL_START_VIRT. rewrite u32_small; lia. }
    change (Z.shiftl 1 TASK_KERNEL_STACK_ORDER * PAGE_SIZE) with KSTACK_BYTES. rewrite u32_small by (unfold lin, KERNEL_START_VIRT, KSTACK_BYTES, LINEAR_FRAMES in *; lia).
    rewrite (bind_some _ _ _ _ _ (upd_run _ _ _ _ _ _ _ _ _ _ _ Ex)). fold n0.
    erewrite bind_some by (apply on_heap_run, clear_words_run). reflexivity.
Qed.

(** ** The system around the scheduler *)

(** The scheduler, the heap its tasks are in, the frames [K] of the kernel image
    with the kernel's directory [q] and the list head, and fresh identifiers. *)
Record system_ok (K : Z -> Prop) (q : Z) (s : sched P) (l : list Z) G A : Prop := SystemOk {
  sy_sched : sched_ok task_head s l;
  sy_heap : heap_rep (tmem s) G A;
  sy_live : Forall (live G 4) l;
  sy_clear : clear_of K A;
  sy_head : exists f, K f /\ in_frame f task_head;
  sy_dir : K q /\ 0 <= q < LINEAR_FRAMES /\ kernel_directory (tmem s) q;
  sy_ids : forall t x, t ∈ l -> tasks s !! t = Some x -> tid x < last_task_id s
}.

(** [t] is a new task with stack block [p] and the address space [v] with the
    directory in frame [d]. *)
Record task_made (s s' : sched P) G G' A A' (name : list Z) (ty start prio st t v p d q : Z) : Prop := TaskMade {
  tm_task : tasks s' !! t = Some (Task (last_task_id s) ty st prio 0 (lin p + KSTACK_BYTES - 84) (lin p + KSTACK_BYTES) KSTACK_BYTES v start
    (<[(TASK_NAME_LENGTH_MAX - 1)%nat := 0]> (copy_name name)));
  tm_others : forall u, u <> t -> tasks s' !! u = tasks s !! u;
  tm_id : last_task_id s' = last_task_id s + 1;
  tm_current : current_task s' = current_task s /\ sched_enabled s' = sched_enabled s /\ esp0 s' = esp0 s;
  tm_stack : forall i w, initial_stack ty start isr_exit !! i = Some w -> kmem (tmem s') !! (lin p + KSTACK_BYTES - 84 + 4 * Z.of_nat i) = Some w;
  tm_zero : forall k, 0 <= k < 16384 - 21 -> kmem (tmem s') !! (lin p + 4 * k) = Some 0;
  tm_space : kmem (tmem s') !! (v + VMS_PGD) = Some (d * 4096) /\ kmem (tmem s') !! (v + VMS_MAPPINGS) = Some 0;
  tm_directory : user_rep (tmem s') (lin d) ∅ A' /\ forall i, 0 <= i < 1024 -> kmem (tmem s') !! (lin d + 4 * i) = kmem (tmem s) !! (lin q + 4 * i);
  tm_blocks : (p, 4) ∈ A' /\ ((p, 4) ∉ A) /\ (d, 0) ∈ A' /\ ((d, 0) ∉ A);
  tm_live : forall j y, live G' j y <-> live G j y \/ (j, y) = (4%nat, t) \/ (j, y) = (1%nat, v);
  tm_fresh : ~ live G 4 t /\ ~ live G 1 v;
  tm_frame : extends (tmem s) (tmem s') G G' A A';
  tm_apart : no_slab G' (d, 0)
}.

(** A directory in a frame the heap never hands out survives its growth. *)
Lemma directory_extends (K : Z -> Prop) h h2 G G2 A A2 q : heap_rep h G A -> extends h h2 G G2 A A2 -> clear_of K A2 -> K q -> kernel_directory h q ->
  kernel_directory h2 q /\ forall i, 0 <= i < 1024 -> kmem h2 !! (lin q + 4 * i) = kmem h !! (lin q + 4 * i).
Proof using.
  intros HR HE HK Kq [D1 D2]. assert (Hsame : forall i, 0 <= i < 1024 -> kmem h2 !! (lin q + 4 * i) = kmem h !! (lin q + 4 * i))
    by (intros j Hj; eapply extends_kernel; [exact HR|exact HE|exact HK|exact Kq|by apply word_in_frame]).
  split; [|done]. split; [intros j Hj; rewrite Hsame by done; by apply D1|].
  intros j e Hj. rewrite Hsame by (unfold USER_PDES in Hj; lia). by apply D2.
Qed.

(** The heap's side of creating a task: [h1] after the task object, [h2] after
    the stack, [h3] after the address space, [h4] with the frame on the stack. *)
Lemma heap_stages (K : Z -> Prop) n h G A q ty start :
  heap_rep h G A -> clear_of K A -> roomy K (4 + n) (source h) -> K q -> 0 <= q < LINEAR_FRAMES -> kernel_directory h q -> kernel_pgd = lin q ->
  exists t h1 p h2 v d h3 h4 G' A', kmalloc SIZEOF_TASK h = Some (t, h1) /\ 0 < t /\ 0 <= p /\ p + 16 <= LINEAR_FRAMES /\
    (forall ts ns lk last cur en e x, ts !! t = Some x -> task_create_kernel_stack t (Sched ts ns lk last cur en e h1) =
        Some (E_SUCCESS, Sched (<[t := set_stack (lin p + KSTACK_BYTES) (lin p + KSTACK_BYTES) KSTACK_BYTES x]> ts) ns lk last cur en e h2)) /\
    vm_space_new kernel_pgd h2 = Some (v, h3) /\ 0 < v /\ h4 = with_kmem (stack_mem ty start (lin p + KSTACK_BYTES) (kmem h3)) h3 /\
    heap_rep h4 G' A' /\ clear_of K A' /\ roomy K n (source h4) /\ extends h h4 G G' A A' /\
    (forall j y, live G' j y <-> live G j y \/ (j, y) = (4%nat, t) \/ (j, y) = (1%nat, v)) /\ (~ live G 4 t /\ ~ live G 1 v) /\
    ((p, 4) ∈ A' /\ ((p, 4) ∉ A) /\ (d, 0) ∈ A' /\ ((d, 0) ∉ A)) /\
    (kmem h4 !! (v + VMS_PGD) = Some (d * 4096) /\ kmem h4 !! (v + VMS_MAPPINGS) = Some 0) /\
    (user_rep h4 (lin d) ∅ A' /\ forall i, 0 <= i < 1024 -> kmem h4 !! (lin d + 4 * i) = kmem h !! (lin q + 4 * i)) /\
    (forall k, 0 <= k < 16384 - 21 -> kmem h4 !! (lin p + 4 * k) = Some 0) /\
    (forall i w, initial_stack ty start isr_exit !! i = Some w -> kmem h4 !! (lin p + KSTACK_BYTES - 84 + 4 * Z.of_nat i) = Some w) /\ no_slab G' (d, 0).
Proof using.
  intros HR HK Hr Kq Hq HD ->.
  destruct (kmalloc_roomy K (3 + n) h G A SIZEOF_TASK HR ltac:(done) Hr HK) as (t & h1 & G1 & A1 & i & E1 & Ht & HR1 & Hc & Lt & Nt & HL1 & HE1 & Hr1 & HK1).
  apply cache_for_task in Hc as ->.
  destruct (stack_stage K (2 + n) h1 G1 A1 HR1 Hr1 HK1) as (p & h2 & HR2 & HE2 & HK2 & Np & Hns & Hr2 & Hp0 & Hp & Hz & Erun).
  pose proof (extends_trans _ _ _ _ _ _ _ _ _ HE1 HE2) as HE12.
  destruct (directory_extends _ _ _ _ _ _ _ q HR HE12 HK2 Kq HD) as [HD2 Hdq].
  destruct (space_stage K n h2 G1 _ q HR2 Hr2 HK2 Kq Hq HD2) as (v & d & h3 & G3 & A3 & E3 & Hv & HR3 & HE3 & HK3 & Hr3 & HL3 & Nv & Hd & Nd & HU & Vp & Vm & Hcp & Hnd).
  pose proof (extends_trans _ _ _ _ _ _ _ _ _ HE12 HE3) as HE.
  assert (Hp3 : (p, 4) ∈ A3) by (apply (ex_sub _ _ _ _ _ _ HE3); set_solver).
  assert (Hns3 : no_slab G3 (p, 4)) by (eapply no_slab_extends; [exact HE3|set_solver|done]).
  assert (Np' : (p, 4) ∉ A) by (intros Hin; apply Np; by apply (ex_sub _ _ _ _ _ _ HE1)).
  set (m4 := stack_mem ty start (lin p + KSTACK_BYTES) (kmem h3)).
  assert (Ho : forall a, ~ in_block (p, 4) a -> m4 !! a = kmem h3 !! a).
  { intros a Ha. apply stack_mem_out. unfold in_block in Ha. cbn [fst snd] in Ha. change (4096 * 2 ^ 4) with 65536 in Ha. unfold KSTACK_BYTES. lia. }
  assert (Hslab : forall a, slab_word G3 a -> m4 !! a = kmem h3 !! a) by (intros a Ha; apply Ho; by apply Hns3).
  assert (Hv4 : forall o, 0 <= o < 16 -> m4 !! (v + o) = kmem h3 !! (v + o)).
  { intros o Ho'. apply Hslab. apply (live_slab_word h3 G3 A3 1 v 16); [done|apply HL3; by right|done|lia]. }
  assert (Hd4 : forall i, 0 <= i < 1024 -> m4 !! (lin d + 4 * i) = kmem h3 !! (lin d + 4 * i)).
  { intros j Hj. apply Ho. intros Hin. apply in_block_frame in Hin as (x & Hx & Hxa). assert (x = d) as -> by (unfold in_frame, lin in *; lia).
    apply (ex_fresh _ _ _ _ _ _ HE3 (p, 4) (d, 0) d); [set_solver|done|done|done|]. apply inb_self. }
  exists t, h1, p, h2, v, d, h3, (with_kmem m4 h3), G3, A3. split_and!; try done; rewrite ?kmem_with.
  - intros. by apply Erun.
  - by apply heap_outside.
  - by apply (extends_block h h3 G G3 A A3 (p, 4)).
  - intros j y. rewrite HL3, HL1. rewrite !pair_equal_spec. tauto.
  - intros Hl. apply Nv. by apply (ex_live _ _ _ _ _ _ HE12).
  - intros Hin. apply Nd. by apply (ex_sub _ _ _ _ _ _ HE12).
  - by rewrite Hv4.
  - by rewrite Hv4.
  - destruct HU as [U1 U2 U3 U4 U5 U6]. split; try done. intros j Hj Ej. rewrite kmem_with, Hd4 by (unfold USER_PDES in Hj; lia). by apply U2.
  - intros j Hj. by rewrite Hd4, Hcp, Hdq.
  - intros k Hk. unfold m4. rewrite stack_mem_out by (unfold KSTACK_BYTES; lia). rewrite <- (Hz k) by lia.
    assert (Hin : in_block (p, 4) (lin p + 4 * k)) by (unfold in_block; cbn [fst snd]; change (4096 * 2 ^ 4) with 65536; lia).
    apply (ex_out _ _ _ _ _ _ HE3); [intros Hw; by apply (Hns _ Hw)|]. intros b Hb Hnb Hb'.
    apply in_block_frame in Hin as (x & Hx & Hxa), Hb' as (y & Hy & Hya). assert (y = x) as -> by (unfold in_frame, lin in *; lia).
    apply (ex_fresh _ _ _ _ _ _ HE3 (p, 4) b x); try done. set_solver.
  - intros j w Ej. by apply stack_mem_words.
Qed.

Definition valid_request (prio st : Z) : bool :=
  ((st =? TASK_STATE_PAUSED) || (st =? TASK_STATE_WAITING)) && ((TASK_PRIORITY_MIN <=? prio) && (prio <=? TASK_PRIORITY_MAX)).

Lemma invalid_request_run name ty start prio st (s : sched P) : valid_request prio st = false ->
  task_create task_head kernel_pgd isr_exit name ty start prio st s = Some (0, s).
Proof using.
  unfold valid_request, task_create. rewrite <- negb_orb, !Z.ltb_antisym, <- negb_andb. intros E.
  destruct ((st =? TASK_STATE_PAUSED) || (st =? TASK_STATE_WAITING)); cbn [andb negb] in *; [|done]. by rewrite E.
Qed.

(** The run of [task_create], given what its parts do. *)
Lemma create_task_run ts ns last cur en e h name ty start prio st t h1 p h2 v h3 ns1 ns2 :
  valid_request prio st = true -> kmalloc SIZEOF_TASK h = Some (t, h1) -> 0 < t -> 0 <= p -> p + 16 <= LINEAR_FRAMES ->
  (forall ts ns lk last cur en e x, ts !! t = Some x -> task_create_kernel_stack t (Sched ts ns lk last cur en e h1) =
     Some (E_SUCCESS, Sched (<[t := set_stack (lin p + KSTACK_BYTES) (lin p + KSTACK_BYTES) KSTACK_BYTES x]> ts) ns lk last cur en e h2)) ->
  vm_space_new kernel_pgd h2 = Some (v, h3) -> 0 < v ->
  clist_init (Some t) (<[t := LNode None None]> ns) = Some (tt, ns1) -> clist_add (Some task_head) (Some t) ns1 = Some (tt, ns2) ->
  task_create task_head kernel_pgd isr_exit name ty start prio st (Sched ts ns false last cur en e h) =
    Some (t, Sched (<[t := Task last ty st prio 0 (lin p + KSTACK_BYTES - 84) (lin p + KSTACK_BYTES) KSTACK_BYTES v start
        (<[(TASK_NAME_LENGTH_MAX - 1)%nat := 0]> (copy_name name))]> ts) ns2 false (u32 (last + 1)) cur en e
      (with_kmem (stack_mem ty start (lin p + KSTACK_BYTES) (kmem h3)) h3)).
Proof using.
  intros Hv E1 Ht Hp0 Hp Es E3 Hv0 En1 En2. unfold task_create.
  assert (negb (st =? TASK_STATE_PAUSED) && negb (st =? TASK_STATE_WAITING) = false /\ (prio <? TASK_PRIORITY_MIN) || (TASK_PRIORITY_MAX <? prio) = false) as [-> ->].
  { unfold valid_request in Hv. apply andb_true_iff in Hv as [H1 H2]. rewrite <- negb_orb, H1, !Z.ltb_antisym, <- negb_andb, H2. done. }
  erewrite (bind_some lock_tasks) by reflexivity. unfold with_task_lock. cbn [tasks tnodes last_task_id current_task sched_enabled esp0 tmem].
  rewrite (bind_some _ _ _ _ _ (alloc_struct_run _ _ _ _ _ _ _ _ _ _ _ _ _ _ _ _ E1 ltac:(lia) En1)).
  assert ((t =? 0) = false) as -> by lia.
  rewrite (bind_some _ _ _ _ _ (Es _ _ _ _ _ _ _ _ (lookup_insert_eq _ _ _))), insert_insert_eq. change (negb (SUCCESS E_SUCCESS)) with false. cbv iota.
  set (x2 := set_stack _ _ _ _). assert (Ev : forall T n lk last cur en e, T !! t = Some x2 -> task_create_vm_space kernel_pgd t (Sched T n lk last cur en e h2) =
    Some (E_SUCCESS, Sched (<[t := set_vm v x2]> T) n lk last cur en e h3)).
  { intros T n lk last' cur' en' e' ET. unfold task_create_vm_space. rewrite (bind_some _ _ _ _ _ (on_heap_run _ _ _ _ _ _ _ _ _ _ _ E3)).
    rewrite (bind_some _ _ _ _ _ (upd_run _ _ _ _ _ _ _ _ _ _ _ ET)). erewrite bind_some by (apply get_task_some, lookup_insert_eq).
    change (vm_space (set_vm v x2)) with v. assert ((v =? 0) = false) as -> by lia. reflexivity. }
  rewrite (bind_some _ _ _ _ _ (Ev _ _ _ _ _ _ _ (lookup_insert_eq _ _ _))), insert_insert_eq. change (negb (SUCCESS E_SUCCESS)) with false. cbv iota.
  assert (Htop : SIZEOF_ISR_REGISTERS + SIZEOF_TASK_CONTEXT <= kstack_top (set_vm v x2) < 4294967296).
  { change (kstack_top (set_vm v x2)) with (lin p + KSTACK_BYTES).
    unfold lin, KERNEL_START_VIRT, KSTACK_BYTES, LINEAR_FRAMES, SIZEOF_ISR_REGISTERS, SIZEOF_TASK_CONTEXT in *. lia. }
  rewrite (bind_some _ _ _ _ _ (arch_create_run _ _ _ _ _ _ _ _ _ _ (lookup_insert_eq _ _ _) Htop)), insert_insert_eq.
  change (negb (SUCCESS E_SUCCESS)) with false. cbv iota. rewrite (bind_some _ _ _ _ _ (on_nodes_run _ _ _ _ _ _ _ _ _ _ _ En2)).
  erewrite (bind_some unlock_tasks) by reflexivity. unfold with_task_lock, ret, x2, new_task, set_top, set_vm, set_stack.
  cbn [tasks tnodes last_task_id current_task sched_enabled esp0 tmem tid ttype tstate priority ticks kstack_top kstack_bot kstack_size vm_space tstart tname].
  unfold SIZEOF_ISR_REGISTERS, SIZEOF_TASK_CONTEXT. replace (lin p + KSTACK_BYTES - 64 - 20) with (lin p + KSTACK_BYTES - 84) by lia. reflexivity.
Qed.

(** The new node in the scheduler's list. *)
Lemma node_linked ns l t : clist ns task_head l -> t ∉ task_head :: l ->
  exists ns1 ns2, clist_init (Some t) (<[t := LNode None None]> ns) = Some (tt, ns1) /\ clist_add (Some task_head) (Some t) ns1 = Some (tt, ns2) /\
    clist ns2 task_head (t :: l).
Proof using.
  intros C Ht. destruct (clist_init_spec (<[t := LNode None None]> ns) t) as (ns1 & E1 & C1 & F1); [rewrite lookup_insert_eq; by eexists|].
  assert (C' : clist ns1 task_head l).
  { apply (clist_frame _ _ _ _ _ F1); [intros j Hj ->%list_elem_of_singleton; done|].
    destruct C as [ND L]. split; [done|]. revert L. apply links_ext; intros j Hj; unfold nxt, prv; rewrite lookup_insert_ne; try done; intros <-; apply Ht.
    - change (task_head :: l ++ [task_head]) with ((task_head :: l) ++ [task_head]) in Hj. by rewrite removelast_last in Hj.
    - cbn in Hj. set_solver. }
  destruct (clist_add_spec ns1 task_head t l C' Ht) as (ns2 & E2 & C2 & _); [by eapply (clist_is_Some ns1 t []), list_elem_of_here|].
  by exists ns1, ns2.
Qed.

(** A valid request, with everything it leaves behind. *)
Lemma task_create_spec (K : Z -> Prop) n (q : Z) (s : sched P) (l : list Z) G A (name : list Z) (ty start prio st : Z) :
  system_ok K q s l G A -> roomy K (4 + n) (source (tmem s)) -> kernel_pgd = lin q -> 0 <= last_task_id s < 4294967295 -> valid_request prio st = true ->
  exists t v p d s' G' A', task_create task_head kernel_pgd isr_exit name ty start prio st s = Some (t, s') /\
    system_ok K q s' (t :: l) G' A' /\ roomy K n (source (tmem s')) /\ task_made s s' G G' A A' name ty start prio st t v p d q.
Proof using.
  intros HS Hr Eq Hid Hv.
  destruct HS as [HS HR HF HK (f & Kf & Hf) (Kq & Hq & HD) Hids]. pose proof HS as [C Hts (y & Ey & Hy) Hui H0 Hlk].
  destruct s as [ts ns lk last cur en e h]. cbn [tasks tnodes task_lock last_task_id current_task sched_enabled esp0 tmem] in *. subst lk.
  destruct (heap_stages K n h G A q ty start HR HK Hr Kq Hq HD Eq) as (t & h1 & p & h2 & v & d & h3 & h4 & G' & A' & E1 & Ht & Hp0 & Hp & Es & E3 & Hv0 & E4 &
    HR4 & HK4 & Hr4 & HE & HL & (Nt & Nv) & HB & HV & HU & Hz & Hw & Hnd).
  assert (Lt : live G' 4 t) by (apply HL; by right; left).
  assert (Htl : t ∉ l) by (intros Hin; rewrite Forall_forall in HF; by apply Nt, HF).
  assert (Hth : t <> task_head).
  { intros ->. destruct (slab_word_block h4 G' A' task_head HR4 ltac:(eapply (live_slab_word _ _ _ 4 task_head 128); [exact HR4|exact Lt|done|lia])) as (b & Hb & Hab).
    apply in_block_frame in Hab as (x & Hx & Hxa). assert (x = f) as -> by (unfold in_frame, lin in *; lia). by apply (HK4 _ f Hb Hx). }
  destruct (node_linked ns l t C ltac:(set_solver)) as (ns1 & ns2 & En1 & En2 & C2).
  exists t, v, p, d. eexists _, G', A'. split; [by eapply create_task_run|]. rewrite u32_small by lia. split; [|split]; rewrite <- ?E4; [|done|].
  - assert (Hdir : kernel_directory h4 q).
    { assert (Hsame : forall i, 0 <= i < 1024 -> kmem h4 !! (lin q + 4 * i) = kmem h !! (lin q + 4 * i))
        by (intros j Hj; eapply extends_kernel; [exact HR|exact HE|exact HK4|exact Kq|by apply word_in_frame]).
      destruct HD as [D1 D2]. split; [intros j Hj; rewrite Hsame by done; by apply D1|].
      intros j w Hj. rewrite Hsame by (unfold USER_PDES in Hj; lia). by apply D2. }
    assert (Hoth : forall u, u ∈ l -> u <> t) by (intros u Hu ->; done).
    split; cbn; [split; cbn; [done| | | |set_solver by lia|done]|done| |done|by exists f|done|].
    + intros u [->|Hu]%elem_of_cons; [rewrite lookup_insert_eq; by eexists|]. rewrite lookup_insert_ne by (by apply not_eq_sym, Hoth). by apply Hts.
    + exists y. by rewrite lookup_insert_ne.
    + intros u w a b Hu Hw'. apply elem_of_cons in Hu as [->|Hu], Hw' as [->|Hw']; rewrite ?lookup_insert_eq, ?(lookup_insert_ne ts t) by (by apply not_eq_sym, Hoth); try done.
      * intros [= <-] Eb Ei. specialize (Hids w b Hw' Eb). cbn in Ei. lia.
      * intros Ea [= <-] Ei. specialize (Hids u a Hu Ea). cbn in Ei. lia.
      * by apply Hui.
    + constructor; [done|]. eapply Forall_impl; [exact HF|]. intros u Hu. apply HL. by left.
    + intros u x [->|Hu]%elem_of_cons; [rewrite lookup_insert_eq; intros [= <-]; cbn; lia|]. rewrite lookup_insert_ne by (by apply not_eq_sym, Hoth).
      intros Ex. specialize (Hids u x Hu Ex). lia.
  - split; cbn [tasks tnodes task_lock last_task_id current_task sched_enabled esp0 tmem]; try done; [apply lookup_insert_eq|].
    intros u Hu. by rewrite lookup_insert_ne.
Qed.


(** ** The first task *)

(** The fields of the idle task that [task_init] sets. *)
Definition idle_task (junk : task) (bottom v : Z) : task :=
  Task 0 (ttype junk) TASK_STATE_RUNNING (priority junk) (ticks junk) (kstack_top junk) (PHY_TO_VIR bottom) (kstack_size junk) v (tstart junk)
    (copy_name [107; 101; 114; 110; 101; 108; 95; 105; 100; 108; 101]).

Lemma task_init_run KERNEL_STACK_BOTTOM junk ts ns lk last cur en e h t h1 v h2 ns1 ns2 :
  clist_init (Some task_head) (<[task_head := LNode None None]> ns) = Some (tt, ns1) ->
  kmalloc SIZEOF_TASK h = Some (t, h1) -> 0 < t -> vm_space_new kernel_pgd h1 = Some (v, h2) ->
  clist_add (Some task_head) (Some t) (<[t := LNode None None]> ns1) = Some (tt, ns2) ->
  task_init task_head kernel_pgd KERNEL_STACK_BOTTOM junk (Sched ts ns lk last cur en e h) =
    Some (E_SUCCESS, Sched (<[t := idle_task junk KERNEL_STACK_BOTTOM v]> (<[task_head := blank_task]> ts)) ns2 lk last t true e h2).
Proof using.
  intros E1 E2 Ht E3 E4. unfold task_init. erewrite (bind_some (modify _)) by reflexivity. unfold with_tasks, with_tnodes.
  cbn [tasks tnodes task_lock last_task_id current_task sched_enabled esp0 tmem].
  erewrite bind_some by (apply on_nodes_run; exact E1). erewrite bind_some by (apply on_heap_run; exact E2). assert ((t =? 0) = false) as -> by lia.
  erewrite (bind_some (modify _)) by reflexivity. cbn [tasks tnodes task_lock last_task_id current_task sched_enabled esp0 tmem].
  erewrite bind_some by (apply upd_run, lookup_insert_eq). rewrite insert_insert_eq. erewrite bind_some by (apply on_heap_run; exact E3).
  erewrite bind_some by (apply upd_run, lookup_insert_eq). rewrite insert_insert_eq.
  erewrite (bind_some (modify _)) by reflexivity. unfold with_current. cbn [tasks tnodes task_lock last_task_id current_task sched_enabled esp0 tmem].
  unfold task_add_to_scheduler. erewrite bind_some by (apply on_nodes_run; exact E4). reflexivity.
Qed.

(** With room for two slabs and a page, [task_init] succeeds and establishes the
    invariant. *)
Lemma task_init_spec (K : Z -> Prop) n (q KERNEL_STACK_BOTTOM : Z) (junk : task) (s : sched P) G A :
  heap_rep (tmem s) G A -> clear_of K A -> roomy K (3 + n) (source (tmem s)) -> (exists f, K f /\ in_frame f task_head) ->
  K q -> 0 <= q < LINEAR_FRAMES -> kernel_directory (tmem s) q -> kernel_pgd = lin q -> task_lock s = false -> 0 < last_task_id s ->
  exists t v d s' G' A', task_init task_head kernel_pgd KERNEL_STACK_BOTTOM junk s = Some (E_SUCCESS, s') /\
    system_ok K q s' [t] G' A' /\ roomy K n (source (tmem s')) /\ last_task_id s' = last_task_id s /\ tasks s' !! t = Some (idle_task junk KERNEL_STACK_BOTTOM v) /\ current_task s' = t /\ sched_enabled s' = true /\
    kmem (tmem s') !! (v + VMS_PGD) = Some (d * 4096) /\ user_rep (tmem s') (lin d) ∅ A' /\
    (forall i, 0 <= i < 1024 -> kmem (tmem s') !! (lin d + 4 * i) = kmem (tmem s) !! (lin q + 4 * i)) /\
    extends (tmem s) (tmem s') G G' A A'.
Proof using.
  intros HR HK Hr (f & Kf & Hf) Kq Hq HD Eq Hlk Hid. destruct s as [ts ns lk last cur en e h].
  cbn [tasks tnodes task_lock last_task_id current_task sched_enabled esp0 tmem] in *. subst lk.
  destruct (kmalloc_roomy K (2 + n) h G A SIZEOF_TASK HR ltac:(done) Hr HK) as (t & h1 & G1 & A1 & i & E1 & Ht & HR1 & Hc & Lt & Nt & HL1 & HE1 & Hr1 & HK1).
  apply cache_for_task in Hc as ->.
  assert (Hdq : forall h' G' A' k, extends h h' G G' A A' -> clear_of K A' -> 0 <= k < 1024 -> kmem h' !! (lin q + 4 * k) = kmem h !! (lin q + 4 * k))
    by (intros h' G' A' k HE HK' Hk; eapply extends_kernel; [exact HR|exact HE|exact HK'|exact Kq|by apply word_in_frame]).
  assert (HDt : forall h' G' A', extends h h' G G' A A' -> clear_of K A' -> kernel_directory h' q).
  { intros h' G' A' HE HK'. destruct HD as [D1 D2]. split; [intros j Hj; rewrite (Hdq h' G' A') by done; by apply D1|].
    intros j w Hj. rewrite (Hdq h' G' A') by (try done; unfold USER_PDES in Hj; lia). by apply D2. }
  destruct (space_stage K n h1 G1 A1 q HR1 Hr1 HK1 Kq Hq (HDt _ _ _ HE1 HK1)) as (v & d & h2 & G2 & A2 & E2 & Hv & HR2 & HE2 & HK2 & Hr2 & HL2 & Nv & Hd & Nd & HU & Vp & Vm & Hcp & Hnd).
  pose proof (extends_trans _ _ _ _ _ _ _ _ _ HE1 HE2) as HE. rewrite <- Eq in E2.
  assert (Hth : t <> task_head).
  { intros ->. destruct (slab_word_block h1 G1 A1 task_head HR1 ltac:(eapply (live_slab_word _ _ _ 4 task_head 128); [exact HR1|exact Lt|done|lia])) as (b & Hb & Hab).
    apply in_block_frame in Hab as (x & Hx & Hxa). assert (x = f) as -> by (unfold in_frame, lin in *; lia). by apply (HK1 _ f Hb Hx). }
  destruct (clist_init_spec (<[task_head := LNode None None]> ns) task_head) as (ns1 & En1 & C1 & _); [rewrite lookup_insert_eq; by eexists|].
  assert (C1' : clist (<[t := LNode None None]> ns1) task_head []).
  { destruct C1 as [ND L]. split; [done|]. revert L. apply links_ext; intros j Hj; unfold nxt, prv; rewrite lookup_insert_ne; try done; intros <-; cbn in Hj; set_solver. }
  destruct (clist_add_spec _ task_head t [] C1' ltac:(set_solver)) as (ns2 & En2 & C2 & _); [rewrite lookup_insert_eq; by eexists|].
  exists t, v, d. eexists _, G2, A2. split; [by eapply task_init_run|].
  split; [|cbn [tasks tmem current_task sched_enabled]; split_and!; try done; [apply lookup_insert_eq|intros j Hj; rewrite Hcp by done; by apply (Hdq h1 G1 A1)]].
  split; cbn [tasks tnodes task_lock last_task_id current_task sched_enabled esp0 tmem]; [split; cbn| | | | | |].
  - done.
  - intros u ->%list_elem_of_singleton. rewrite lookup_insert_eq. by eexists.
  - exists blank_task. rewrite lookup_insert_ne by done. by rewrite lookup_insert_eq.
  - intros u w a b ->%list_elem_of_singleton ->%list_elem_of_singleton. done.
  - set_solver by lia.
  - done.
  - done.
  - constructor; [|constructor]. apply HL2. by left.
  - done.
  - by exists f.
  - split_and!; [done|lia|lia|]. by apply (HDt h2 G2 A2).
  - intros u x ->%list_elem_of_singleton. rewrite lookup_insert_eq. intros [= <-]. cbn. lia.
Qed.

(** Starting the scheduler.  With room for two slabs and a page,
    [task_init] succeeds: it leaves the scheduler's list with the idle task alone,
    which is running, current, has identifier 0 and a new address space copied from
    the kernel's directory; scheduling is enabled, nothing older has changed, and
    the system satisfies the invariant that creating tasks relies on and keeps. *)
Theorem task_init_correct (K : Z -> Prop) (q KERNEL_STACK_BOTTOM : Z) (junk : task) (s : sched P) G A :
  heap_rep (tmem s) G A -> clear_of K A -> roomy K 3 (source (tmem s)) -> (exists f, K f /\ in_frame f task_head) ->
  K q -> 0 <= q < LINEAR_FRAMES -> kernel_directory (tmem s) q -> kernel_pgd = lin q -> task_lock s = false -> 0 < last_task_id s ->
  exists t v d s' G' A', task_init task_head kernel_pgd KERNEL_STACK_BOTTOM junk s = Some (E_SUCCESS, s') /\
    system_ok K q s' [t] G' A' /\ tasks s' !! t = Some (idle_task junk KERNEL_STACK_BOTTOM v) /\ current_task s' = t /\ sched_enabled s' = true /\
    kmem (tmem s') !! (v + VMS_PGD) = Some (d * 4096) /\ user_rep (tmem s') (lin d) ∅ A' /\
    (forall i, 0 <= i < 1024 -> kmem (tmem s') !! (lin d + 4 * i) = kmem (tmem s) !! (lin q + 4 * i)) /\
    extends (tmem s) (tmem s') G G' A A'.
Proof using.
  intros HR HK Hr Hh Kq Hq HD Eq Hlk Hid.
  destruct (task_init_spec K 0 q KERNEL_STACK_BOTTOM junk s G A HR HK Hr Hh Kq Hq HD Eq Hlk Hid)
    as (t & v & d & s' & G' & A' & E & HS & _ & _ & HF). by exists t, v, d, s', G', A'.
Qed.

End Create.

(** ** On the small machine *)

#[local] Existing Instance source128.

(** The first 16 frames are the kernel's: frame 4 holds its directory, frame 5
    the head of the task list. *)
Definition low_frame (x : Z) : Prop := x < 16.

Definition kernel128 : heap buddy := with_kmem (zero_words 1024 (lin 4) ∅) heap128.

Definition sched128 : sched buddy :=
  Sched {[ lin 5 := blank_task ]} {[ lin 5 := LNode (Some (lin 5)) (Some (lin 5)) ]} false 1 0 false 0 kernel128.

Lemma sched128_ok : system_ok (lin 5) low_frame 4 sched128 [] (replicate 13 []) ∅.
Proof.
  split; cbn [tasks tmem last_task_id sched128].
  - split.
    + split; [apply NoDup_singleton|]. split_and!; reflexivity.
    + intros t Ht. by apply not_elem_of_nil in Ht.
    + exists blank_task. split; [apply lookup_singleton_eq|reflexivity].
    + intros t u x z Ht. by apply not_elem_of_nil in Ht.
    + apply not_elem_of_nil.
    + reflexivity.
  - apply heap_outside; [exact heap128_rep|]. intros a (b & Hb & _). vm_compute in Hb. exfalso. exact (not_elem_of_nil _ Hb).
  - constructor.
  - intros b x Hb. set_solver.
  - exists 5. split; [unfold low_frame; lia|]. unfold in_frame. lia.
  - split_and!; [unfold low_frame; lia|lia|unfold LINEAR_FRAMES; lia|split].
    + intros i Hi. exists 0. unfold kernel128. rewrite kmem_with. apply zero_words_in. lia.
    + intros i w Hi. unfold USER_PDES in Hi. unfold kernel128. rewrite kmem_with, zero_words_in by lia. by intros [= <-].
  - set_solver.
Qed.


Lemma task_init_correct_witness : exists t s' G' A', task_init (lin 5) (lin 4) 0x6000 blank_task sched128 = Some (E_SUCCESS, s') /\
  system_ok (lin 5) low_frame 4 s' [t] G' A' /\ current_task s' = t.
Proof.
  destruct (task_init_correct (lin 5) (lin 4) low_frame 4 0x6000 blank_task sched128 (replicate 13 []) ∅)
    as (t & v & d & s' & G' & A' & E & HS & _ & Hc & _).
  - apply sched128_ok.
  - apply (sy_clear _ _ _ _ _ _ _ sched128_ok).
  - apply (roomyb_spec 16). vm_compute. reflexivity.
  - apply (sy_head _ _ _ _ _ _ _ sched128_ok).
  - apply (sy_dir _ _ _ _ _ _ _ sched128_ok).
  - apply (sy_dir _ _ _ _ _ _ _ sched128_ok).
  - apply (sy_dir _ _ _ _ _ _ _ sched128_ok).
  - reflexivity.
  - reflexivity.
  - cbn. lia.
  - exists t, s', G', A'. split; [exact E|]. split; [exact HS|exact Hc].
Defined.
