(* ===== verification/TaskClaims.v ===== *)
(** * Theorems about the scheduler

    Scheduling, round-robin fairness, termination of the search for a runnable
    task, and killing and purging, each for the page source and heap of the
    allocators below. *)

From stdpp Require Import base numbers list gmap.
From Stdlib Require Import ZArith Lia.
From S2P Require Import Prelude LinkedList PageDefs Palloc PageSource PageClaims Slab HeapClaims Ptable Task TaskSpec.

#[local] Open Scope Z_scope.

Section Claims.
  Context {P : Type} `{PageSource P}.
  Context (task_head : Z).

  Implicit Types (s : sched P) (l : list Z).


(** C28: round robin.  While all tasks of the list are ready, the task at
    position [i + n] (modulo the number of tasks) runs after [n] timer ticks
    when the one at [i] runs now; every tick returns, and so every task gets the
    processor within as many ticks as there are tasks. *)
Theorem round_robin_fair s l (i : nat) :
  sched_ok task_head s l -> sched_enabled s = true -> ready s l -> l !! i = Some (current_task s) ->
  (forall n : nat, exists s', run_ticks task_head n s = Some s' /\ l !! ((i + n) mod length l)%nat = Some (current_task s') /\
     sched_ok task_head s' l) /\
  (forall u, u ∈ l -> exists (n : nat) s', (n < length l)%nat /\ run_ticks task_head n s = Some s' /\ current_task s' = u).
Proof.
  intros HS He Hr Ei. assert (HN : forall n : nat, exists s', run_ticks task_head n s = Some s' /\
    l !! ((i + n) mod length l)%nat = Some (current_task s') /\ sched_ok task_head s' l).
  { intros n. destruct (run_ticks_spec task_head l n s i HS He Hr Ei) as (s' & E & Ec & HS' & _). by exists s'. }
  split; [done|]. intros u Hu. apply list_elem_of_lookup in Hu as [j Ej].
  pose proof (lookup_lt_Some _ _ _ Ei) as Hi. pose proof (lookup_lt_Some _ _ _ Ej) as Hj.
  set (n := ((j + length l - i) mod length l)%nat). destruct (HN n) as (s' & E & Ec & _).
  exists n, s'. split_and!; [apply Nat.mod_upper_bound; lia|done|].
  assert ((i + n) mod length l = j)%nat as En.
  { unfold n. rewrite Nat.Div0.add_mod_idemp_r. replace (i + (j + length l - i))%nat with (j + 1 * length l)%nat by lia.
    rewrite Nat.Div0.mod_add. by apply Nat.mod_small. }
  rewrite En, Ej in Ec. by injection Ec.
Qed.

(** C27: when the scheduler's search ends.  Starting after any task of the list,
    the search for the next task returns within one round of the list if some task
    is waiting or running, and what it returns is such a task; if none is, it never
    returns, whatever the number of steps. *)
Theorem search_terminates s (l1 l2 : list Z) (u : Z) (start : option Z) :
  sched_ok task_head s (l1 ++ u :: l2) -> nxt (tnodes s) u = Some start ->
  ((exists t x, t ∈ l1 ++ u :: l2 /\ tasks s !! t = Some x /\ runnable x = true) ->
     exists t x, find_next task_head (S (length (l1 ++ u :: l2))) start s = Some (t, s) /\ tasks s !! t = Some x /\ runnable x = true) /\
  ((forall t x, t ∈ l1 ++ u :: l2 -> tasks s !! t = Some x -> runnable x = false) ->
     forall fuel, find_next task_head fuel start s = None).
Proof.
  intros HS En. destruct (ring_links _ _ _ _ _ (so_list _ _ _ HS)) as (HL & Hn & Hc). rewrite En in Hc. injection Hc as ->.
  set (p := l2 ++ task_head :: l1 ++ [u]) in *. destruct (so_head _ _ _ HS) as (y & Ey & Hy).
  assert (Hmem : forall t, t ∈ p -> t = task_head \/ t ∈ l1 ++ u :: l2) by (unfold p; set_solver).
  assert (Hin : forall t, t ∈ l1 ++ u :: l2 -> t ∈ p) by (unfold p; set_solver).
  assert (Hall : forall t, t ∈ p -> is_Some (tasks s !! t)).
  { intros t [->|Ht]%Hmem; [by eexists|]. by apply (so_tasks _ _ _ HS). }
  split.
  - intros (t & x & Ht & Ex & Hr). assert (exists t', first_runnable (tasks s) p = Some t') as [t' Hf].
    { apply Hin in Ht. clear -Ht Ex Hr Hall. induction p as [|w p IH]; [by apply not_elem_of_nil in Ht|]. cbn.
      destruct (Hall w ltac:(set_solver)) as [z Ez]. rewrite Ez. destruct (runnable z) eqn:Ew; [by eexists|].
      apply elem_of_cons in Ht as [->|Ht]; [congruence|]. apply IH; [|done]. intros v Hv. apply Hall. set_solver. }
    destruct (first_runnable_elem _ _ _ Hf) as [_ (z & Ez & Hz)]. exists t', z. split; [|done].
    apply (find_next_spec task_head s t' p); [done|done|done|]. unfold p. rewrite !length_app. cbn [length]. rewrite length_app. cbn [length]. lia.
  - intros Hno. assert (Hno' : forall t x, t ∈ p -> tasks s !! t = Some x -> runnable x = false).
    { intros t x [->|Ht]%Hmem Ex; [|by apply (Hno t)]. rewrite Ey in Ex. injection Ex as <-. unfold runnable. by rewrite Hy. }
    assert (Hcl : forall t, t ∈ p -> exists w, nxt (tnodes s) t = Some (Some w) /\ w ∈ p).
    { intros t Ht. destruct (Hmem t Ht) as [->|Hl].
      - exists (default task_head (head (l1 ++ u :: l2))). split; [apply (clist_first _ _ _ (so_list _ _ _ HS))|]. destruct l1; cbn; apply Hin; set_solver.
      - apply list_elem_of_split in Hl as (a & b & E). pose proof (so_list _ _ _ HS) as C. rewrite E in C. exists (default task_head (head b)).
        split; [apply (clist_next _ _ a t b C)|]. destruct b as [|w b]; cbn; [unfold p; set_solver|]. apply Hin. rewrite E. set_solver. }
    intros fuel. assert (exists w, head p = Some w /\ w ∈ p) as (w & -> & Hw) by (unfold p; destruct l2; cbn; eexists; (split; [reflexivity|set_solver])).
    revert w Hw. induction fuel as [|fuel IH]; intros w Hw; [done|]. cbn [find_next]. destruct (Hall w Hw) as [x Ex]. destruct (Hcl w Hw) as (v & Ev & Hv).
    rewrite (bind_some _ _ _ _ _ (get_task_some s w x Ex)), (bind_some _ _ _ _ _ (load_tnode _ _ _ Ev)). fold (runnable x). rewrite (Hno' w x Hw Ex). by apply IH.
Qed.


(** A task that exits.  [task_exit_current] marks the running task as killed;
    at the next tick [task_schedule] purges it and then reads the freed task to
    find its successor: the call has no well-defined return. *)
Theorem exit_uses_freed_task s (l1 l2 : list Z) (x : task) :
  sched_ok task_head s (l1 ++ current_task s :: l2) -> sched_enabled s = true ->
  alive s (l1 ++ current_task s :: l2) -> tasks s !! current_task s = Some x -> tid x <> 0 ->
  exists s1, task_exit_current s = Some (E_SUCCESS, s1) /\ task_schedule task_head s1 = None.
Proof.
  intros HS He Ha Ex Hn. set (cur := current_task s) in *. set (x1 := set_state TASK_STATE_KILLED x).
  exists (with_tasks (<[cur := x1]> (tasks s)) s). split.
  - unfold task_exit_current. rewrite (bind_some _ _ _ _ _ (gets_run current_task s)). fold cur.
    rewrite (bind_some _ _ _ _ _ (get_task_some s cur x Ex)), (bind_some _ _ _ _ _ (task_lock_free s (so_lock _ _ _ HS))).
    set (s1 := with_task_lock true s). rewrite (bind_some _ _ _ _ _ (gets_run current_task s1)). change (current_task s1) with cur.
    rewrite (bind_some _ _ _ _ _ (upd_task_some s1 cur _ x Ex)). unfold bind, unlock_tasks, modify, ret. do 2 f_equal.
    unfold s1. pose proof (so_lock _ _ _ HS) as El. destruct s. cbn in *. by rewrite El.
  - set (s1 := with_tasks _ s). assert (Hcl : cur ∈ l1 ++ cur :: l2) by set_solver. pose proof (head_not_member _ _ _ HS) as Hh.
    assert (Hal : forall k, alive s k -> cur ∉ k -> alive s1 k).
    { intros k Hak Hck u Hu. destruct (Hak u Hu) as (y & Ey & Hy). exists y. split; [|done]. cbn.
      rewrite lookup_insert_ne; [done|]. intros <-. done. }
    assert (NoDup (cur :: l1 ++ l2)) as [Hc _]%NoDup_cons.
    { destruct (so_list _ _ _ HS) as [ND _]. apply NoDup_cons in ND as [_ ND].
      assert (cur :: l1 ++ l2 ≡ₚ l1 ++ cur :: l2) as -> by solve_Permutation. done. }
    apply (schedule_killed_current task_head s1 l1 l2 x1); try done.
    + apply (sched_ok_same task_head s); [done|done|apply (so_lock _ _ _ HS)|by apply same_tasks_insert|].
      destruct (so_head _ _ _ HS) as (y & Ey & Hy). exists y. split; [|done]. cbn. rewrite lookup_insert_ne; [done|].
      intros E. apply Hh. by rewrite <- E.
    + apply Hal; [|set_solver]. intros u Hu. apply Ha. set_solver.
    + apply Hal; [|set_solver]. intros u Hu. apply Ha. set_solver.
    + cbn. by rewrite lookup_insert_eq.
Qed.

End Claims.

(** ** A machine with an idle task and two others *)

#[local] Instance task_source64 : PageSource buddy := buddy_source KS64 KE64.

Definition HEAD3 : Z := 0x1000.

Definition mk_task (i st : Z) : task := Task i TASK_KERNEL st 1 0 0 0 0 0 0 [].

Definition sched3 : sched buddy := Sched
  (<[HEAD3 := blank_task]> (<[0x2000 := mk_task 2 TASK_STATE_WAITING]> (<[0x3000 := mk_task 1 TASK_STATE_RUNNING]>
    (<[0x4000 := mk_task 0 TASK_STATE_WAITING]> ∅))))
  (<[HEAD3 := LNode (Some 0x2000) (Some 0x4000)]> (<[0x2000 := LNode (Some 0x3000) (Some HEAD3)]>
    (<[0x3000 := LNode (Some 0x4000) (Some 0x2000)]> (<[0x4000 := LNode (Some HEAD3) (Some 0x3000)]> ∅))))
  false 3 0x3000 true 0 heap64.

Definition list3 : list Z := [0x2000; 0x3000; 0x4000].

Lemma in_list3 u : u ∈ list3 -> u = 0x2000 \/ u = 0x3000 \/ u = 0x4000.
Proof. unfold list3. set_solver. Qed.

Lemma sched3_ready : ready sched3 list3.
Proof. intros u [->|[->| ->]]%in_list3; eexists; split; reflexivity. Qed.

Lemma sched3_ok : sched_ok HEAD3 sched3 list3.
Proof.
  constructor.
  - split; [apply (bool_decide_unpack _); reflexivity|]. cbn [links list3 app]. repeat split.
  - intros t Ht. destruct (sched3_ready t Ht) as (x & -> & _). eauto.
  - eexists. split; reflexivity.
  - intros t u x y [->|[->| ->]]%in_list3 [->|[->| ->]]%in_list3; intros [= <-] [= <-] E; (reflexivity || discriminate E).
  - intros [E|[E|E]]%in_list3; discriminate E.
  - reflexivity.
Qed.


Lemma search_terminates_witness : exists t x, find_next HEAD3 4 (Some 0x4000) sched3 = Some (t, sched3) /\ tasks sched3 !! t = Some x /\ runnable x = true.
Proof.
  destruct (search_terminates HEAD3 sched3 [0x2000] [0x4000] 0x3000 (Some 0x4000)) as [HT _].
  - exact sched3_ok.
  - reflexivity.
  - apply HT. eexists 0x2000, _. split; [by left|]. split; reflexivity.
Defined.

Lemma round_robin_fair_witness : exists n s', (n < 3)%nat /\ run_ticks HEAD3 n sched3 = Some s' /\ current_task s' = 0x2000.
Proof.
  destruct (round_robin_fair HEAD3 sched3 list3 1 sched3_ok eq_refl sched3_ready eq_refl) as [_ HF].
  apply HF. unfold list3. set_solver.
Defined.

Lemma sched3_release : exists h', release 0x2000 (mk_task 2 TASK_STATE_WAITING) (tmem sched3) = Some (tt, h').
Proof.
  assert (Hf : (fun _ => tt) <$> release 0x2000 (mk_task 2 TASK_STATE_WAITING) (tmem sched3) = Some tt) by (vm_compute; reflexivity).
  destruct (release _ _ _) as [[[] h']|]; [by exists h'|discriminate Hf].
Qed.


Lemma exit_uses_freed_task_witness : exists s1, task_exit_current sched3 = Some (E_SUCCESS, s1) /\ task_schedule HEAD3 s1 = None.
Proof.
  apply (exit_uses_freed_task HEAD3 sched3 [0x2000] [0x4000] (mk_task 1 TASK_STATE_RUNNING)).
  - exact sched3_ok.
  - reflexivity.
  - exact (ready_alive sched3 list3 sched3_ready).
  - reflexivity.
  - discriminate.
Defined.
