(* ===== verification/TaskTypes.v ===== *)
(** * What every scheduler operation preserves

    The code has no types for its tasks beyond words and arrays; this file states
    what it keeps anyway: states are among the enumerated ones, names are
    terminated strings of 16 bytes, identifiers, tick counts and stack addresses
    are words.  It also states how a task may change: a killed task stays killed, a
    paused one can only be killed, and identity, name, start and stack are fixed.
    An invariant that has the laws of [SchedInv] is kept by every operation that
    does not create tasks, whatever the state of the heap and of the list. *)

From stdpp Require Import base numbers list gmap.
From Stdlib Require Import ZArith Lia.
From S2P Require Import Prelude LinkedList PageDefs Palloc PageSource PageClaims Slab SlabInv SlabSpec HeapClaims Ptable HeapClient PtableSpec HeapGrow VmSpec Task TaskSpec TaskCreate.

#[local] Open Scope Z_scope.

(** ** Triples for the state monad *)

Definition triple {S A} (pre : S -> Prop) (m : ST S A) (post : A -> S -> Prop) : Prop :=
  forall s a s', pre s -> m s = Some (a, s') -> post a s'.

Lemma triple_bind {S A B} pre (m : ST S A) (k : A -> ST S B) mid post :
  triple pre m mid -> (forall a, triple (mid a) (k a) post) -> triple pre (bind m k) post.
Proof. intros Hm Hk s b s' Hs (a & s1 & E1 & E2)%bind_inv. eapply Hk; [by eapply Hm|exact E2]. Qed.

Lemma triple_ret {S A} (pre : S -> Prop) (a : A) (post : A -> S -> Prop) : (forall s, pre s -> post a s) -> triple pre (ret a) post.
Proof. intros Hp s b s' Hs [= <- <-]. by apply Hp. Qed.

Lemma triple_post {S A} pre (m : ST S A) (post post' : A -> S -> Prop) :
  triple pre m post -> (forall a s, post a s -> post' a s) -> triple pre m post'.
Proof. intros Hm Hp s a s' Hs E. by eapply Hp, Hm. Qed.

Lemma triple_pre {S A} (pre pre' : S -> Prop) (m : ST S A) post : triple pre m post -> (forall s, pre' s -> pre s) -> triple pre' m post.
Proof. intros Hm Hp s a s' Hs E. eapply Hm; [by apply Hp|exact E]. Qed.

(** [m] keeps [I]. *)
Definition keeps {S A} (I : S -> Prop) (m : ST S A) : Prop := triple I m (fun _ => I).

Lemma keeps_bind {S A B} (I : S -> Prop) (m : ST S A) (k : A -> ST S B) : keeps I m -> (forall a, keeps I (k a)) -> keeps I (bind m k).
Proof. apply triple_bind. Qed.

Lemma keeps_ret {S A} (I : S -> Prop) (a : A) : keeps I (ret a).
Proof. by apply triple_ret. Qed.

Lemma keeps_fault {S A} (I : S -> Prop) : keeps I (@fault S A).
Proof. by intros s a s' _. Qed.

Lemma keeps_gets {S A} (I : S -> Prop) (f : S -> A) : keeps I (gets f).
Proof. by intros s a s' Hs [= _ <-]. Qed.

Lemma keeps_if {S A} (I : S -> Prop) (b : bool) (m1 m2 : ST S A) : keeps I m1 -> keeps I m2 -> keeps I (if b then m1 else m2).
Proof. by destruct b. Qed.

Create HintDb keeps.
#[export] Hint Resolve keeps_bind keeps_ret keeps_fault keeps_gets keeps_if : keeps.

Section Inv.
  Context {P : Type} `{PageSource P}.

  Implicit Types (s : sched P) (x : task).

Definition with_task (t : Z) (x : task) (s : sched P) : sched P := with_tasks (<[t := x]> (tasks s)) s.

(** An invariant of the scheduler: it looks at the tasks, the last identifier and
    the stack pointer only, and admits the changes operations make to a task. *)
Class SchedInv (I : sched P -> Prop) : Prop := {
  si_frame : forall s s', I s -> tasks s' = tasks s -> last_task_id s' = last_task_id s -> esp0 s' = esp0 s -> I s';
  si_delete : forall s t, I s -> I (with_tasks (delete t (tasks s)) s);
  si_kill : forall s t x, I s -> tasks s !! t = Some x -> I (with_task t (set_state TASK_STATE_KILLED x) s);
  si_tick : forall s t x, I s -> tasks s !! t = Some x -> I (with_task t (set_ticks (u32 (ticks x + 1)) x) s);
  si_rest : forall s t x, I s -> tasks s !! t = Some x -> tstate x = TASK_STATE_RUNNING -> I (with_task t (set_state TASK_STATE_WAITING x) s);
  si_run : forall s t x, I s -> tasks s !! t = Some x -> runnable x = true -> I (with_task t (set_state TASK_STATE_RUNNING x) s);
  si_stack : forall s t x, I s -> tasks s !! t = Some x -> I (with_esp0 (kstack_bot x) s)
}.

Section Keeps.
  Context (I : sched P -> Prop) `{!SchedInv I} (task_head : Z).

Lemma keeps_get_task t : keeps I (get_task t).
Proof using. intros s a s' Hs. unfold get_task. destruct (tasks s !! t); [|done]. by intros [= _ <-]. Qed.

Lemma keeps_tnodes {A} (m : ST (gmap Z (lnode Z)) A) : keeps I (on_tnodes m).
Proof using SchedInv0. intros s a s' Hs. unfold on_tnodes. destruct (m (tnodes s)) as [[b n]|]; [|done]. intros [= _ <-]. by eapply si_frame. Qed.

Lemma keeps_heap {A} (m : ST (heap P) A) : keeps I (on_heap m).
Proof using SchedInv0. intros s a s' Hs. unfold on_heap. destruct (m (tmem s)) as [[b h]|]; [|done]. intros [= _ <-]. by eapply si_frame. Qed.

Lemma keeps_lock : keeps I lock_tasks.
Proof using SchedInv0. intros s a s' Hs. unfold lock_tasks. destruct (task_lock s); [done|]. intros [= _ <-]. by eapply si_frame. Qed.

Lemma keeps_modify (f : sched P -> sched P) : (forall s, I s -> I (f s)) -> keeps I (modify f).
Proof using. intros Hf s a s' Hs [= _ <-]. by apply Hf. Qed.

Lemma keeps_unlock : keeps I unlock_tasks.
Proof using SchedInv0. apply keeps_modify. intros s Hs. by eapply si_frame. Qed.

Lemma keeps_current t : keeps I (modify (with_current t)).
Proof using SchedInv0. apply keeps_modify. intros s Hs. by eapply si_frame. Qed.

Lemma keeps_update t f : (forall s x, I s -> tasks s !! t = Some x -> I (with_task t (f x) s)) -> keeps I (upd_task t f).
Proof using. intros Hf s a s' Hs. unfold upd_task. destruct (tasks s !! t) as [x|] eqn:E; [|done]. intros [= _ <-]. by apply Hf. Qed.

Lemma keeps_kill t : keeps I (upd_task t (set_state TASK_STATE_KILLED)).
Proof using SchedInv0. apply keeps_update. intros s x. apply si_kill. Qed.

Lemma keeps_tick t : keeps I (upd_task t (fun x => set_ticks (u32 (ticks x + 1)) x)).
Proof using SchedInv0. apply keeps_update. intros s x. apply si_tick. Qed.

Hint Resolve keeps_get_task keeps_tnodes keeps_heap keeps_lock keeps_unlock keeps_current keeps_kill keeps_tick : keeps.

(** The operations on one task. *)
Ltac keeps_auto := auto 40 with keeps.

Lemma keeps_free t : keeps I (free_task t).
Proof using SchedInv0.
  unfold free_task. apply keeps_bind; [keeps_auto|]. intros _. apply keeps_modify. intros s Hs.
  eapply (si_frame (with_tasks (delete t (tasks s)) s)); [by apply si_delete|done..].
Qed.

Lemma keeps_destroy_space t : keeps I (task_destroy_vm_space t).
Proof using SchedInv0. unfold task_destroy_vm_space. keeps_auto. Qed.

Lemma keeps_destroy_stack t : keeps I (task_destroy_kernel_stack t).
Proof using SchedInv0. unfold task_destroy_kernel_stack. keeps_auto. Qed.

Lemma keeps_find fuel : forall cur id, keeps I (find_task task_head fuel cur id).
Proof using SchedInv0.
  induction fuel as [|fuel IH]; intros cur id; cbn [find_task]; [keeps_auto|]. destruct cur as [t|]; [|keeps_auto]. keeps_auto.
Qed.

Lemma keeps_from_id id : keeps I (task_get_from_id task_head id).
Proof using SchedInv0. pose proof keeps_find. unfold task_get_from_id. keeps_auto. Qed.

Hint Resolve keeps_free keeps_destroy_space keeps_destroy_stack keeps_find keeps_from_id : keeps.

Lemma keeps_task_kill id : keeps I (task_kill task_head id).
Proof using SchedInv0. unfold task_kill. keeps_auto. Qed.

Lemma keeps_task_purge id : keeps I (task_purge task_head id).
Proof using SchedInv0. unfold task_purge. keeps_auto. Qed.

Lemma keeps_exit : keeps I task_exit_current.
Proof using SchedInv0. unfold task_exit_current, task_get_current. keeps_auto. Qed.

Hint Resolve keeps_task_kill keeps_task_purge keeps_exit : keeps.

Lemma keeps_purge_walk fuel : forall entry tmp, keeps I (purge_walk task_head fuel entry tmp).
Proof using SchedInv0.
  induction fuel as [|fuel IH]; intros entry tmp; cbn [purge_walk]; [keeps_auto|]. destruct entry as [t|]; keeps_auto.
Qed.

Lemma keeps_purge_killed : keeps I (task_purge_killed_tasks task_head).
Proof using SchedInv0. pose proof keeps_purge_walk. unfold task_purge_killed_tasks. keeps_auto. Qed.

(** The search returns a task that can run. *)
Definition can_run (t : Z) s : Prop := exists x, tasks s !! t = Some x /\ runnable x = true.

Lemma find_next_post fuel : forall node, triple I (find_next task_head fuel node) (fun t s => I s /\ can_run t s).
Proof using SchedInv0.
  induction fuel as [|fuel IH]; intros node; cbn [find_next]; [by intros s a s' _|]. set (t := match node with None => task_head | Some t => t end).
  intros s a s' Hs (x & s1 & E1 & (n & s2 & E2 & E3)%bind_inv)%bind_inv.
  unfold get_task in E1. destruct (tasks s !! t) as [y|] eqn:Ey; [|done]. injection E1 as -> <-.
  assert (HI : I s2) by (exact (keeps_tnodes _ s n s2 Hs E2)). assert (Et : tasks s2 = tasks s).
  { unfold on_tnodes in E2. destruct (load_next (Some t) (tnodes s)) as [[b nd]|]; [|done]. by injection E2 as _ <-. }
  destruct (_ || _) eqn:Er; [|by apply (IH n s2)]. injection E3 as <- <-. split; [done|]. exists x. by rewrite Et.
Qed.

(** Putting the current task aside does not stop another one from running. *)
Lemma rest_post prev next : triple (fun s => I s /\ can_run next s)
  (y <- get_task prev ;; if tstate y =? TASK_STATE_RUNNING then upd_task prev (set_state TASK_STATE_WAITING) else ret tt)%st
  (fun _ s => I s /\ can_run next s).
Proof using SchedInv0.
  intros s a s' [Hs (x & Ex & Hx)] (y & s1 & E1 & E2)%bind_inv. unfold get_task in E1. destruct (tasks s !! prev) as [z|] eqn:Ez; [|done]. injection E1 as -> <-.
  destruct (Z.eqb_spec (tstate y) TASK_STATE_RUNNING) as [Er|]; [|by injection E2 as _ <-; split; [|exists x]].
  unfold upd_task in E2. rewrite Ez in E2. injection E2 as _ <-. split; [by apply si_rest|]. cbn. destruct (decide (prev = next)) as [->|Hne].
  - exists (set_state TASK_STATE_WAITING y). cbn. by rewrite lookup_insert_eq.
  - exists x. cbn. by rewrite lookup_insert_ne.
Qed.

Lemma keeps_run next : triple (fun s => I s /\ can_run next s) (upd_task next (set_state TASK_STATE_RUNNING)) (fun _ => I).
Proof using SchedInv0. intros s a s' [Hs (x & Ex & Hx)]. unfold upd_task. rewrite Ex. intros [= _ <-]. by apply si_run. Qed.

Lemma keeps_switch prev next : keeps I (arch_task_switch prev next).
Proof using SchedInv0.
  intros s a s' Hs (x & s1 & E1 & E2)%bind_inv. unfold get_task in E1. destruct (tasks s !! next) as [y|] eqn:Ey; [|done]. injection E1 as -> <-.
  injection E2 as _ <-. by apply (si_stack s next).
Qed.

Lemma keeps_schedule : keeps I (task_schedule task_head).
Proof using SchedInv0.
  pose proof keeps_purge_killed. unfold task_schedule, task_get_current. apply keeps_bind; [keeps_auto|]. intros en. apply keeps_if; [keeps_auto|].
  do 5 (apply keeps_bind; [keeps_auto|intros ?]). apply keeps_bind; [keeps_auto|intros fuel].
  eapply triple_bind; [apply find_next_post|]. intros next.
  eapply (triple_bind _ _ _ (fun _ s => I s /\ can_run next s)).
  { intros s b s' [Hs Hr] [= _ <-]. split; [by apply (keeps_current next s tt (with_current next s))|exact Hr]. }
  intros u s b s' Hs E. rewrite bind_assoc in E. revert s b s' Hs E. eapply triple_bind; [apply rest_post|]. intros ?.
  eapply triple_bind; [apply keeps_run|]. intros ?. apply keeps_bind; [apply keeps_switch|]. intros ?. apply keeps_ret.
Qed.

End Keeps.
(** ** Types *)

Definition word (v : Z) : Prop := 0 <= v < 4294967296.

(** Conjunctions of such bounds, each known or the result of wrapping around. *)
Ltac words := cbn; repeat match goal with |- _ /\ _ => split end; first [assumption | apply u32_range | unfold word; lia].

Record task_typed x : Prop := TaskTyped {
  tt_state : tstate x ∈ [TASK_STATE_INVALID; TASK_STATE_RUNNING; TASK_STATE_WAITING; TASK_STATE_PAUSED; TASK_STATE_KILLED];
  tt_name : length (tname x) = TASK_NAME_LENGTH_MAX /\ last (tname x) = Some 0;
  tt_words : word (tid x) /\ word (ticks x) /\ word (kstack_top x) /\ word (kstack_bot x)
}.

Definition sched_typed s : Prop := map_Forall (fun _ => task_typed) (tasks s) /\ word (last_task_id s) /\ word (esp0 s).

Lemma typed_with_task t x s : sched_typed s -> task_typed x -> sched_typed (with_task t x s).
Proof using. intros (HF & HL & HE) Hx. split; [by apply map_Forall_insert_2|done]. Qed.

Lemma typed_state v x : task_typed x -> v ∈ [TASK_STATE_INVALID; TASK_STATE_RUNNING; TASK_STATE_WAITING; TASK_STATE_PAUSED; TASK_STATE_KILLED] ->
  task_typed (set_state v x).
Proof using. intros [H1 H2 H3] Hv. by split. Qed.

#[export] Instance typed_inv : SchedInv sched_typed.
Proof using.
  split.
  - intros s s' (HF & HL & HE) Et El Ee. split; [by rewrite Et|]. by rewrite El, Ee.
  - intros s t (HF & HL & HE). split; [by apply map_Forall_delete|done].
  - intros s t x Hs Ex. apply typed_with_task; [done|]. apply typed_state; [by apply (proj1 Hs t)|]. set_solver.
  - intros s t x Hs Ex. apply typed_with_task; [done|]. destruct (proj1 Hs t x Ex) as [H1 H2 (H3 & H4 & H5)]. split; [done|done|]. destruct H5. words.
  - intros s t x Hs Ex _. apply typed_with_task; [done|]. apply typed_state; [by apply (proj1 Hs t)|]. set_solver.
  - intros s t x Hs Ex _. apply typed_with_task; [done|]. apply typed_state; [by apply (proj1 Hs t)|]. set_solver.
  - intros s t x Hs Ex. destruct (proj1 Hs t x Ex) as [_ _ (_ & _ & _ & Hb)]. destruct Hs as (HF & HL & _). split; [done|]. words.
Qed.

Lemma blank_typed : task_typed blank_task.
Proof using. split; [set_solver|done|]. words. Qed.

(** A name cut to 16 bytes, with the last one cleared. *)
Lemma name_typed name : length (<[(TASK_NAME_LENGTH_MAX - 1)%nat := 0]> (copy_name name)) = TASK_NAME_LENGTH_MAX /\
  last (<[(TASK_NAME_LENGTH_MAX - 1)%nat := 0]> (copy_name name)) = Some 0.
Proof using.
  assert (El : length (copy_name name) = 16%nat) by (unfold copy_name, TASK_NAME_LENGTH_MAX; rewrite length_take, length_app, length_replicate; lia).
  split; [by rewrite length_insert|]. rewrite last_lookup, length_insert, El. change (TASK_NAME_LENGTH_MAX - 1)%nat with 15%nat. cbn [pred].
  apply list_lookup_insert_eq. lia.
Qed.

Section Create.
  Context (task_head kernel_pgd isr_exit : Z).

Hint Resolve keeps_get_task keeps_tnodes keeps_heap keeps_lock keeps_unlock keeps_current keeps_free keeps_destroy_space keeps_destroy_stack : keeps.
Hint Extern 1 (SchedInv sched_typed) => exact typed_inv : keeps.

Lemma typed_update t f : (forall x, task_typed x -> task_typed (f x)) -> keeps sched_typed (upd_task t f).
Proof using. intros Hf. apply keeps_update. intros s x Hs Ex. apply typed_with_task; [done|]. by apply Hf, (proj1 Hs t). Qed.

Lemma typed_add t x : task_typed x -> keeps sched_typed (modify (fun s => with_tasks (<[t := x]> (tasks s)) (with_tnodes (<[t := LNode None None]> (tnodes s)) s))).
Proof using. intros Hx. apply keeps_modify. intros s (HF & HL & HE). split; [by apply map_Forall_insert_2|done]. Qed.

Lemma typed_alloc name ty start prio st : st ∈ [TASK_STATE_WAITING; TASK_STATE_PAUSED] -> keeps sched_typed (task_alloc_struct name ty start prio st).
Proof using.
  intros Hst. unfold task_alloc_struct. eapply (triple_bind _ _ _ (fun id s => sched_typed s /\ word id)); [by intros s a s' Hs [= <- <-]; split; [|apply Hs]|].
  intros id s a s' [Hs Hid]. revert s a s' Hs. apply keeps_bind; [auto with keeps|]. intros t. apply keeps_if; [auto with keeps|].
  apply keeps_bind; [apply typed_add, blank_typed|]. intros _. apply keeps_bind.
  { apply typed_update. intros x [H1 H2 (H3 & H4 & H5 & H6)]. split; cbn; [set_solver|done|done]. }
  intros _. apply keeps_bind; [auto with keeps|]. intros _. apply keeps_bind.
  { apply keeps_modify. intros s (HF & HL & HE). split; [done|]. words. }
  intros _. apply keeps_bind; [|auto with keeps]. apply typed_update. intros x [H1 H2 H3]. split; cbn; [done|apply name_typed|done].
Qed.

Lemma typed_stack t : keeps sched_typed (task_create_kernel_stack t).
Proof using.
  unfold task_create_kernel_stack. apply keeps_bind; [auto with keeps|]. intros [p|]; [|auto with keeps]. apply keeps_bind; [|auto 10 with keeps].
  apply typed_update. intros x [H1 H2 (H3 & H4 & H5 & H6)]. split; cbn; [done|done|]. words.
Qed.

Lemma typed_space t : keeps sched_typed (task_create_vm_space kernel_pgd t).
Proof using.
  unfold task_create_vm_space. apply keeps_bind; [auto with keeps|]. intros v. apply keeps_bind; [|auto 10 with keeps].
  apply typed_update. intros x [H1 H2 H3]. by split.
Qed.

Lemma typed_top t f : (forall x, word (f x)) -> keeps sched_typed (upd_task t (fun x => set_top (f x) x)).
Proof using. intros Hf. apply typed_update. intros x [H1 H2 (H3 & H4 & H5 & H6)]. split; cbn; [done|done|]. specialize (Hf x). words. Qed.

Lemma typed_arch t : keeps sched_typed (arch_task_create isr_exit t).
Proof using.
  unfold arch_task_create. apply keeps_bind; [apply (typed_top t (fun x => u32 (kstack_top x - SIZEOF_ISR_REGISTERS))); intros x; apply u32_range|]. intros _.
  apply keeps_bind; [auto with keeps|]. intros x. apply keeps_bind; [auto with keeps|]. intros _.
  apply keeps_bind; [apply (typed_top t (fun x => u32 (kstack_top x - SIZEOF_TASK_CONTEXT))); intros y; apply u32_range|]. intros _. auto 10 with keeps.
Qed.

Hint Resolve typed_stack typed_space typed_arch : keeps.

Lemma typed_cleanup t : keeps sched_typed (create_cleanup t).
Proof using. unfold create_cleanup. auto 20 with keeps. Qed.

Hint Resolve typed_cleanup : keeps.

Lemma typed_create name ty start prio st : keeps sched_typed (task_create task_head kernel_pgd isr_exit name ty start prio st).
Proof using.
  unfold task_create. destruct (Z.eqb_spec st TASK_STATE_PAUSED) as [Ep|Ep], (Z.eqb_spec st TASK_STATE_WAITING) as [Ew|Ew]; cbn [negb andb]; [..|auto with keeps];
    (apply keeps_if; [auto with keeps|]; apply keeps_bind; [auto with keeps|]; intros _; apply keeps_bind; [apply typed_alloc; set_solver|]; intros t; auto 40 with keeps).
Qed.

Lemma typed_task_init bottom junk : task_typed junk -> keeps sched_typed (task_init task_head kernel_pgd bottom junk).
Proof using.
  intros Hj. unfold task_init, arch_task_init, task_get_current, task_add_to_scheduler, task_enable_scheduler.
  apply keeps_bind; [apply typed_add, blank_typed|]. intros _. apply keeps_bind; [auto with keeps|]. intros _. apply keeps_bind; [auto with keeps|]. intros t.
  apply keeps_if; [auto with keeps|]. apply keeps_bind; [by apply typed_add|]. intros _. apply keeps_bind.
  { apply typed_update. intros x [H1 H2 (H3 & H4 & H5 & H6)]. split; cbn; [set_solver|done|]. words. }
  intros _. apply keeps_bind; [auto with keeps|]. intros v. apply keeps_bind.
  { apply typed_update. intros x [H1 H2 H3]. by split. }
  intros _. do 4 (apply keeps_bind; [auto with keeps|intros ?]). apply keeps_bind; [|auto with keeps].
  apply keeps_modify. intros s Hs. by eapply si_frame.
Qed.

End Create.
(** ** The life of a task *)

(** From one state to another: nothing changes, the task is killed, or it goes
    from running or waiting to running or waiting. *)
Definition state_moves (a b : Z) : Prop :=
  b = a \/ b = TASK_STATE_KILLED \/
  ((a = TASK_STATE_WAITING \/ a = TASK_STATE_RUNNING) /\ (b = TASK_STATE_WAITING \/ b = TASK_STATE_RUNNING)).

Record task_moves x y : Prop := TaskMoves {
  tv_state : state_moves (tstate x) (tstate y);
  tv_same : (tid y, ttype y, priority y, tname y, tstart y, vm_space y, kstack_top y, kstack_bot y, kstack_size y) =
    (tid x, ttype x, priority x, tname x, tstart x, vm_space x, kstack_top x, kstack_bot x, kstack_size x)
}.

#[export] Instance state_moves_preorder : PreOrder state_moves.
Proof using.
  split; [by left|]. intros a b c [->|[->|[Ha Hb]]]; [done| |].
  - intros [->|[->|[[E|E] _]]]; [by right; left|by right; left|discriminate..].
  - intros [->|[->|[_ Hc]]]; [by right; right|by right; left|by right; right].
Qed.

#[export] Instance task_moves_preorder : PreOrder task_moves.
Proof using. split; [done|]. intros x y z [H1 H2] [H3 H4]. split; [by etrans|by rewrite H4]. Qed.

(** Every task of [s] was there in [s0] and has moved as tasks may. *)
Definition evolves s0 s : Prop := forall t y, tasks s !! t = Some y -> exists x, tasks s0 !! t = Some x /\ task_moves x y.

Lemma evolves_refl s : evolves s s.
Proof using. intros t y E. by exists y. Qed.

Lemma evolves_with_task s0 s t x y : evolves s0 s -> tasks s !! t = Some x -> task_moves x y -> evolves s0 (with_task t y s).
Proof using.
  intros HE Ex Hm u z. cbn. destruct (decide (t = u)) as [<-|Hne]; [|rewrite lookup_insert_ne by done; apply HE].
  rewrite lookup_insert_eq. intros [= <-]. destruct (HE t x Ex) as (x0 & E0 & H0). exists x0. split; [done|]. by etrans.
Qed.

#[export] Instance evolves_inv s0 : SchedInv (evolves s0).
Proof using.
  split.
  - intros s s' HE Et _ _ t y. rewrite Et. apply HE.
  - intros s t HE u y. cbn. intros [_ E]%lookup_delete_Some. by apply HE.
  - intros s t x HE Ex. eapply evolves_with_task; [done|done|]. split; [by right; left|done].
  - intros s t x HE Ex. by eapply evolves_with_task.
  - intros s t x HE Ex Er. eapply evolves_with_task; [done|done|]. split; [|done]. right; right. split; [by right|by left].
  - intros s t x HE Ex Er. eapply evolves_with_task; [done|done|]. split; [|done]. right; right. split; [|by right].
    unfold runnable in Er. apply orb_true_iff in Er as [E|E]; apply Z.eqb_eq in E; auto.
  - intros s t x HE _. exact HE.
Qed.

(** ** Any sequence of operations *)

Section Steps.
  Context (task_head kernel_pgd isr_exit : Z).

(** Operations that create no task. *)
Inductive quiet_step (s s' : sched P) : Prop :=
  | step_kill id r : task_kill task_head id s = Some (r, s') -> quiet_step s s'
  | step_purge id r : task_purge task_head id s = Some (r, s') -> quiet_step s s'
  | step_exit r : task_exit_current s = Some (r, s') -> quiet_step s s'
  | step_lookup id r : task_get_from_id task_head id s = Some (r, s') -> quiet_step s s'
  | step_schedule : task_schedule task_head s = Some (tt, s') -> quiet_step s s'.

Inductive sched_step (s s' : sched P) : Prop :=
  | step_quiet : quiet_step s s' -> sched_step s s'
  | step_create name ty start prio st r : task_create task_head kernel_pgd isr_exit name ty start prio st s = Some (r, s') -> sched_step s s'
  | step_init bottom junk r : task_typed junk -> task_init task_head kernel_pgd bottom junk s = Some (r, s') -> sched_step s s'.

Lemma quiet_keeps I `{!SchedInv I} s s' : quiet_step s s' -> I s -> I s'.
Proof using.
  intros [id r E|id r E|r E|id r E|E] Hs;
    [eapply keeps_task_kill|eapply keeps_task_purge|eapply keeps_exit|eapply keeps_from_id|eapply keeps_schedule]; eauto.
Qed.

(** C30: types of the scheduler's data.  Whatever operations run, in whatever order
    and on whatever heap, as long as they return: every task's state is one of the
    five, its name is 16 bytes that end in a terminator, its identifier, ticks and
    stack addresses are 32-bit words, and so are the last identifier and the stack
    pointer of the processor. *)
Theorem scheduler_typed s s' : rtc sched_step s s' -> sched_typed s -> sched_typed s'.
Proof using.
  induction 1 as [s|s1 s2 s3 H12 _ IH]; [done|]. intros Hs. apply IH.
  destruct H12 as [Hq|name ty start prio st r E|bottom junk r Hj E]; [exact (quiet_keeps sched_typed s1 s2 Hq Hs)| |].
  - exact (typed_create task_head kernel_pgd isr_exit name ty start prio st s1 r s2 Hs E).
  - exact (typed_task_init task_head kernel_pgd bottom junk Hj s1 r s2 Hs E).
Qed.


End Steps.
End Inv.

(** ** On the small machine *)

#[local] Existing Instance source128.

Lemma sched128_typed : sched_typed sched128.
Proof. split; [apply map_Forall_singleton, blank_typed|]. unfold word. cbn. lia. Qed.

Lemma scheduler_typed_witness : exists t s', task_create (lin 5) (lin 4) 0xC0100000 [105; 100; 108; 101] TASK_USERMODE 0x400000 1 TASK_STATE_WAITING sched128 = Some (t, s') /\
  sched_typed s'.
Proof.
  destruct (task_create (lin 5) (lin 4) 0xC0100000 [105; 100; 108; 101] TASK_USERMODE 0x400000 1 TASK_STATE_WAITING sched128) as [[t s']|] eqn:E.
  - exists t, s'. split; [reflexivity|]. apply (scheduler_typed (lin 5) (lin 4) 0xC0100000 sched128 s'); [|exact sched128_typed].
    eapply rtc_l; [eapply step_create; exact E|apply rtc_refl].
  - exfalso. assert (Hs : (fst <$> task_create (lin 5) (lin 4) 0xC0100000 [105; 100; 108; 101] TASK_USERMODE 0x400000 1 TASK_STATE_WAITING sched128) <> None)
      by (vm_compute; discriminate). apply Hs. rewrite E. reflexivity.
Defined.

(** One waiting task, which is killed. *)
Definition one_task : sched buddy :=
  Sched {[ 100 := blank_task; 200 := Task 7 0 TASK_STATE_WAITING 1 0 0 0 0 0 0 (replicate 16 0) ]}
    {[ 100 := LNode (Some 200) (Some 200); 200 := LNode (Some 100) (Some 100) ]} false 8 0 true 0 (Heap ∅ [] PageClaims.blank).

