(* ===== verification/Multiboot.v ===== *)
(** * The boot information (arch/x86/kernel/multiboot.c, cpuid.c)

    The 64-bit division and number formatting the 32-bit kernel brings along,
    the walk over the boot loader's memory map that registers memory with
    bootmem, and the processor feature tests.  Memory handed over by the boot
    loader is read byte by byte, little-endian; log lines are left out. *)

From stdpp Require Import base numbers list gmap.
From Stdlib Require Import ZArith Lia.
From S2P Require Import Prelude CString PageDefs Bootmem.

#[local] Open Scope Z_scope.

(** ** 64-bit division *)

(** The loop for bits [n - 1] down to 0. *)
Fixpoint udivmod64_loop (n : nat) (dividend divisor q r : Z) : Z * Z :=
  match n with
  | O => (q, r)
  | S i =>
      let r := u64 (Z.shiftl r 1) in
      let r := Z.lor r (Z.land (Z.shiftr dividend (Z.of_nat i)) 1) in
      if divisor <=? r
      then udivmod64_loop i dividend divisor (Z.lor q (Z.shiftl 1 (Z.of_nat i))) (u64 (r - divisor))
      else udivmod64_loop i dividend divisor q r
  end.

(** The quotient and the remainder. *)
Definition udivmod64 (dividend divisor : Z) : Z * Z := udivmod64_loop 64 dividend divisor 0 0.

(** "0123456789abcdef" *)
Definition radix_chars : list Z := hex_digit <$> (Z.of_nat <$> seq 0 16).

(** The do-while loop over the digits; the result is the final [ptr]. *)
Fixpoint u64_digit_loop (fuel : nat) (value base ptr : Z) : ST bytes Z :=
  match fuel with
  | O => fault
  | S f =>
      (let quotient := (udivmod64 value base).1 in
       let remainder := (udivmod64 value base).2 in
       c <- lit radix_chars remainder ;;
       wr ptr c ;;
       if negb (quotient =? 0) then u64_digit_loop f quotient base (ptr + 1) else ret (ptr + 1))%st
  end.

Fixpoint u64_reverse_loop (fuel : nat) (ptr1 ptr : Z) : ST bytes unit :=
  match fuel with
  | O => fault
  | S f =>
      (if ptr1 <? ptr then
         tmp_char <- rd ptr ;;
         b <- rd ptr1 ;;
         wr ptr b ;;
         wr ptr1 tmp_char ;;
         u64_reverse_loop f (ptr1 + 1) (ptr - 1)
       else ret tt)%st
  end.

(** [uint64_to_str]: a 64-bit number has at most 64 digits in any base of at
    least 2; with base 0 or 1 the loop does not end. *)
Definition uint64_to_str (value str base : Z) : ST bytes unit :=
  (ptr <- u64_digit_loop 64 value (u64 base) str ;;
   wr ptr 0 ;;
   u64_reverse_loop 65 str (ptr - 1))%st.

(** ** The memory map *)

Definition MULTIBOOT_BOOTLOADER_MAGIC : Z := 0x2BADB002.

Definition MULTIBOOT_INFO_MEM_MAP : Z := 0x00000040.

Definition MULTIBOOT_MEMORY_AVAILABLE : Z := 1.

(** [struct multiboot_info]; the union of the symbol tables is four words. *)
Record multiboot_info : Type := MultibootInfo {
  mb_flags : Z;
  mem_lower : Z;
  mem_upper : Z;
  boot_device : Z;
  cmdline : Z;
  mods_count : Z;
  mods_addr : Z;
  mb_syms : Z * Z * Z * Z;
  mmap_length : Z;
  mmap_addr : Z;
  drives_length : Z;
  drives_addr : Z;
  config_table : Z;
  boot_loader_name : Z;
  apm_table : Z;
  vbe_control_info : Z;
  vbe_mode_info : Z;
  vbe_mode : Z;
  vbe_interface_seg : Z;
  vbe_interface_off : Z;
  vbe_interface_len : Z
}.

Record multiboot_mmap_entry : Type := MmapEntry {
  e_size : Z;
  e_addr : Z;
  e_len : Z;
  e_type : Z
}.

(** [n] bytes from [a], least significant first. *)
Fixpoint read_le (n : nat) (m : bytes) (a : Z) : option Z :=
  match n with
  | O => Some 0
  | S k => match m !! a, read_le k m (a + 1) with
           | Some b, Some r => Some (b + 256 * r)
           | _, _ => None
           end
  end.

(** The packed entry at [a]. *)
Definition read_entry (m : bytes) (a : Z) : option multiboot_mmap_entry :=
  match read_le 4 m a, read_le 8 m (a + 4), read_le 8 m (a + 12), read_le 4 m (a + 20) with
  | Some s, Some ad, Some l, Some t => Some (MmapEntry s ad l t)
  | _, _, _, _ => None
  end.

Section Kernel.
  Context (KERNEL_PHYS_START KERNEL_PHYS_END : Z).

(** Available memory that contains the end of the kernel. *)
Definition appropriate (e : multiboot_mmap_entry) : bool :=
  (e_addr e <=? KERNEL_PHYS_END) && (KERNEL_PHYS_END <=? u64 (e_addr e + e_len e)) && (e_type e =? MULTIBOOT_MEMORY_AVAILABLE).

(** The region passed on: both bounds are cut to 32 bits. *)
Definition register_entry (e : multiboot_mmap_entry) : ST bootmem unit :=
  (if appropriate e then
     let start_addr := u32 (e_addr e) in
     let end_addr := u32 (u64 (e_addr e + e_len e)) in
     let region_type := if e_type e =? MULTIBOOT_MEMORY_AVAILABLE then MEM_REGION_AVAILABLE else MEM_REGION_RESERVED in
     bootmem_add_mem_region KERNEL_PHYS_START KERNEL_PHYS_END start_addr end_addr region_type ;;
     ret tt
   else ret tt)%st.

Fixpoint mmap_walk (fuel : nat) (m : bytes) (mmap limit : Z) : ST bootmem unit :=
  match fuel with
  | O => fault
  | S f =>
      (if mmap <? limit then
         e <- deref (read_entry m mmap) ;;
         register_entry e ;;
         mmap_walk f m (u32 (mmap + e_size e + 4)) limit
       else ret tt)%st
  end.

(** [multiboot_parse].  A walk that ends never reads an entry twice, so the
    size of the memory bounds its length. *)
Definition multiboot_parse (m : bytes) (mboot_magic : Z) (info : multiboot_info) : ST bootmem Z :=
  (if negb (mboot_magic =? MULTIBOOT_BOOTLOADER_MAGIC) then ret 0
   else if TEST_BIT (mb_flags info) MULTIBOOT_INFO_MEM_MAP then
     mmap_walk (str_fuel m) m (mmap_addr info) (u32 (mmap_addr info + mmap_length info)) ;;
     ret 1
   else ret 1)%st.

End Kernel.

(** ** Processor features (cpuid.c)

    The registers [cpuid] returns for a leaf are a parameter. *)

Definition CPUID_FEAT_ECX_X2APIC : Z := Z.shiftl 1 21.
Definition CPUID_FEAT_EDX_PSE : Z := Z.shiftl 1 3.
Definition CPUID_FEAT_EDX_APIC : Z := Z.shiftl 1 9.
Definition CPUID_FEAT_EDX_PGE : Z := Z.shiftl 1 13.

Record cpuid_leaf : Type := CpuidLeaf { leaf_eax : Z; leaf_ebx : Z; leaf_ecx : Z; leaf_edx : Z }.

Definition cpuid_check_pse (leaf1 : cpuid_leaf) : Z :=
  if negb (Z.land (leaf_edx leaf1) CPUID_FEAT_EDX_PSE =? 0) then 1 else 0.

Definition cpuid_check_pge (leaf1 : cpuid_leaf) : Z :=
  if negb (Z.land (leaf_edx leaf1) CPUID_FEAT_EDX_PGE =? 0) then 1 else 0.

Definition cpuid_check_apic (leaf1 : cpuid_leaf) : Z :=
  if negb (Z.land (leaf_edx leaf1) CPUID_FEAT_EDX_APIC =? 0) then 1 else 0.

Definition cpuid_check_x2apic (leaf1 : cpuid_leaf) : Z :=
  if negb (Z.land (leaf_edx leaf1) CPUID_FEAT_ECX_X2APIC =? 0) then 1 else 0.

Definition x86_paging_pse_enabled (leaf1 : cpuid_leaf) (cr4 : Z) : Z :=
  if cpuid_check_pse leaf1 =? 0 then 0 else if negb (Z.land cr4 0x10 =? 0) then 1 else 0.

Definition x86_paging_pge_enabled (leaf1 : cpuid_leaf) (cr4 : Z) : Z :=
  if cpuid_check_pge leaf1 =? 0 then 0 else if negb (Z.land cr4 0x80 =? 0) then 1 else 0.

(** The twelve characters of the vendor name, in the order they are printed. *)
Definition cpu_name_args (leaf0 : cpuid_leaf) : list Z :=
  let four r := [Z.land r 0xFF; Z.land (Z.shiftr r 8) 0xFF; Z.land (Z.shiftr r 16) 0xFF; Z.land (Z.shiftr r 24) 0xFF] in
  four (leaf_ebx leaf0) ++ four (leaf_edx leaf0) ++ four (leaf_ecx leaf0).

(** [cpuid_get_cpu_name]; the format string "%c...%c" is at [fmt]. *)
Definition cpuid_get_cpu_name (leaf0 : cpuid_leaf) (fmt dest_buf : Z) : ST bytes Z :=
  (sprintf dest_buf fmt (cpu_name_args leaf0) ;; ret E_SUCCESS)%st.
