(* ===== verification/MultibootSpec.v ===== *)
(** * Correctness of the boot information parser

    The bit-by-bit division is division, the formatter writes the digits of its
    number, and the walk over the memory map registers exactly the available
    memory around the kernel. *)

From stdpp Require Import base numbers list gmap.
From Stdlib Require Import ZArith Lia.
From S2P Require Import Prelude CString CStringSpec PageDefs Bootmem BootmemSpec Multiboot.

#[local] Open Scope Z_scope.

Implicit Types (m : bytes) (e : multiboot_mmap_entry) (bm : bootmem).

(** ** Division *)

Lemma u64_small x : 0 <= x < 18446744073709551616 -> u64 x = x.
Proof. unfold u64. apply Z.mod_small. Qed.

Lemma b2z_bound c : 0 <= Z.b2z c <= 1.
Proof. by destruct c. Qed.

Lemma div2_step a i : 0 <= i -> a / 2 ^ i = 2 * (a / 2 ^ (i + 1)) + Z.b2z (Z.testbit a i).
Proof.
  intros Hi. assert (0 < 2 ^ i) by (apply Z.pow_pos_nonneg; lia).
  rewrite Z.pow_add_r, Z.pow_1_r, <- Z.div_div, Z.testbit_spec' by lia.
  pose proof (Z.div_mod (a / 2 ^ i) 2 ltac:(lia)). lia.
Qed.

(** One round: [r] takes in the next bit of the dividend, without overflow. *)
Lemma next_bit a r i :
  0 <= a < 18446744073709551616 -> 0 <= i < 64 -> 0 <= r <= a / 2 ^ (i + 1) ->
  Z.lor (u64 (Z.shiftl r 1)) (Z.land (Z.shiftr a i) 1) = 2 * r + Z.b2z (Z.testbit a i) /\
  2 * r + Z.b2z (Z.testbit a i) < 18446744073709551616.
Proof.
  intros Ha Hi Hr. pose proof (div2_step a i ltac:(lia)) as Hd.
  assert (a / 2 ^ i <= a) by (apply Z.div_le_upper_bound; [apply Z.pow_pos_nonneg; lia|]; assert (0 < 2 ^ i) by (apply Z.pow_pos_nonneg; lia); nia).
  split; [|lia]. change 1 with (Z.ones 1) at 2. rewrite Z.land_ones, Z.shiftr_div_pow2, Z.shiftl_mul_pow2 by lia.
  assert (Hb : a / 2 ^ i mod 2 ^ 1 = Z.b2z (Z.testbit a i)) by (by rewrite Z.testbit_spec' by lia). rewrite Hb.
  rewrite u64_small by (change (2 ^ 1) with 2; pose proof (b2z_bound (Z.testbit a i)); lia).
  rewrite (lor_disjoint _ _ 1); [change (2 ^ 1) with 2; lia|lia|by rewrite Z.mod_mul|].
  change (2 ^ 1) with 2. destruct (Z.testbit a i); cbn; lia.
Qed.

Lemma udivmod64_loop_spec a d n : forall q r,
  0 <= a < 18446744073709551616 -> 0 < d < 18446744073709551616 -> (n <= 64)%nat ->
  q = a / 2 ^ Z.of_nat n / d * 2 ^ Z.of_nat n -> r = a / 2 ^ Z.of_nat n mod d ->
  udivmod64_loop n a d q r = (a / d, a mod d).
Proof.
  induction n as [|n IH]; intros q r Ha Hd Hn Hq Hr; cbn [udivmod64_loop].
  { change (2 ^ Z.of_nat 0) with 1 in *. rewrite Z.div_1_r in *. subst. f_equal. lia. }
  set (i := Z.of_nat n) in *. assert (Hi : 0 <= i < 64) by lia. rewrite Nat2Z.inj_succ in *. fold i in Hq, Hr.
  change (Z.succ i) with (i + 1) in *. set (p := a / 2 ^ (i + 1)) in *.
  assert (Hp : 0 <= p) by (apply Z.div_pos; [lia|apply Z.pow_pos_nonneg; lia]).
  assert (H2 : 0 < 2 ^ i) by (apply Z.pow_pos_nonneg; lia).
  pose proof (Z.mod_pos_bound p d ltac:(lia)) as Hb. pose proof (Z.div_mod p d ltac:(lia)) as Hdm.
  assert (Hq0 : 0 <= p / d) by (apply Z.div_pos; lia).
  destruct (next_bit a r i Ha Hi) as [-> Hlt]; [fold p; subst r; split; [lia|apply Z.mod_le; lia]|].
  pose proof (div2_step a i ltac:(lia)) as Hs. fold p in Hs. pose proof (b2z_bound (Z.testbit a i)) as Hbit.
  set (t := Z.b2z (Z.testbit a i)) in *. rewrite <- Hr in Hb, Hdm.
  assert (Hpow : 2 ^ (i + 1) = 2 * 2 ^ i) by (rewrite Z.pow_add_r, Z.pow_1_r by lia; lia).
  destruct (Z.leb_spec d (2 * r + t)); apply IH; try done; try lia.
  - rewrite Z.shiftl_1_l, (lor_disjoint q (2 ^ i) (i + 1)); [|lia|rewrite Hq; by apply Z.mod_mul; lia|lia].
    rewrite Hs. replace ((2 * p + t) / d) with (2 * (p / d) + 1); [rewrite Hq, Hpow; lia|].
    apply Z.div_unique with (r := 2 * r + t - d); lia.
  - rewrite u64_small by lia. rewrite Hs. apply Z.mod_unique with (q := 2 * (p / d) + 1); lia.
  - rewrite Hs. replace ((2 * p + t) / d) with (2 * (p / d)); [rewrite Hq, Hpow; lia|].
    apply Z.div_unique with (r := 2 * r + t); lia.
  - rewrite Hs. apply Z.mod_unique with (q := 2 * (p / d)); lia.
Qed.

Lemma udivmod64_spec a d :
  0 <= a < 18446744073709551616 -> 0 < d < 18446744073709551616 -> udivmod64 a d = (a / d, a mod d).
Proof.
  intros Ha Hd. apply udivmod64_loop_spec; [done|done|lia| |];
    change (2 ^ Z.of_nat 64) with 18446744073709551616; rewrite (Z.div_small a) by done.
  - by rewrite Z.div_0_l by lia.
  - by rewrite Z.mod_0_l by lia.
Qed.

(** ** Digits *)

(** The digits of [n] in base [b], least significant first. *)
Fixpoint radix_digits (fuel : nat) (b n : Z) : list Z :=
  match fuel with
  | O => []
  | S f => n mod b :: (if n / b =? 0 then [] else radix_digits f b (n / b))
  end.

(** The number a list of digits stands for, least significant first. *)
Fixpoint radix_value (b : Z) (l : list Z) : Z :=
  match l with
  | [] => 0
  | d :: r => d + b * radix_value b r
  end.

Section Radix.
  Context (b : Z) (Hb : 2 <= b).

Lemma radix_step n f : 0 <= n < b ^ Z.of_nat (S f) -> n / b <> 0 -> 0 <= n / b < b ^ Z.of_nat f.
Proof using Hb.
  intros Hn _. rewrite Nat2Z.inj_succ, Z.pow_succ_r in Hn by lia.
  split; [apply Z.div_pos; lia|apply Z.div_lt_upper_bound; lia].
Qed.

Lemma radix_digits_value f : forall n, 0 <= n < b ^ Z.of_nat f -> radix_value b (radix_digits f b n) = n.
Proof using Hb.
  induction f as [|f IH]; intros n Hn; [change (b ^ Z.of_nat 0) with 1 in Hn; cbn; lia|]. cbn.
  pose proof (Z.div_mod n b ltac:(lia)). destruct (Z.eqb_spec (n / b) 0); [cbn; lia|].
  rewrite IH by by apply radix_step. lia.
Qed.

Lemma radix_digits_range f : forall n, 0 <= n -> Forall (fun d => 0 <= d < b) (radix_digits f b n).
Proof using Hb.
  induction f as [|f IH]; intros n Hn; cbn; [constructor|]. constructor; [apply Z.mod_pos_bound; lia|].
  destruct (n / b =? 0); [constructor|]. apply IH, Z.div_pos; lia.
Qed.

Lemma radix_digits_last f : forall n, 0 < n < b ^ Z.of_nat f -> exists d, last (radix_digits f b n) = Some d /\ d <> 0.
Proof using Hb.
  induction f as [|f IH]; intros n Hn; [change (b ^ Z.of_nat 0) with 1 in Hn; lia|]. cbn [radix_digits].
  pose proof (Z.div_mod n b ltac:(lia)). destruct (Z.eqb_spec (n / b) 0) as [E|E].
  - exists (n mod b). split; [done|]. lia.
  - pose proof (radix_step n f ltac:(lia) E). destruct (IH (n / b)) as (d & El & Hd); [lia|]. exists d. split; [|done].
    rewrite last_cons, El. done.
Qed.

Lemma radix_digits_length f k : forall n, 0 <= n < b ^ Z.of_nat (S k) -> (length (radix_digits f b n) <= S k)%nat.
Proof using Hb.
  revert f. induction k as [|k IH]; intros [|f] n Hn; cbn [radix_digits length]; try lia.
  - change (Z.of_nat 1) with 1 in Hn. rewrite Z.pow_1_r in Hn. rewrite (Z.div_small n b) by lia. cbn. lia.
  - destruct (Z.eqb_spec (n / b) 0) as [E|E]; [cbn; lia|]. specialize (IH f (n / b) (radix_step n (S k) Hn E)). lia.
Qed.

End Radix.

(** ** Formatting *)

Lemma u64_reverse_swap f : forall p1 p m, u64_reverse_loop f p1 p m = swap_loop f 0 p1 p m.
Proof.
  induction f as [|f IH]; intros p1 p m; [done|]. cbn [u64_reverse_loop swap_loop].
  destruct (Z.ltb_spec p1 p); [|done]. unfold bind, rd, wr, modify. rewrite !Z.add_0_l.
  destruct (m !! p) as [x|] eqn:Ex, (m !! p1) as [y|] eqn:Ey; rewrite ?Ex, ?Ey; try done.
  rewrite IH. f_equal. apply insert_insert_ne. lia.
Qed.

Lemma fmap_rev (f : Z -> Z) l : rev (f <$> l) = f <$> rev l.
Proof. induction l as [|x l IH]; [done|]. cbn [rev]. by rewrite fmap_app, <- IH. Qed.

Lemma radix_char d : 0 <= d < 16 -> (radix_chars ++ [0]) !! Z.to_nat d = Some (hex_digit d).
Proof.
  intros Hd. rewrite lookup_app_l by (cbn; lia). unfold radix_chars. rewrite !list_lookup_fmap, lookup_seq_lt by lia.
  cbn. do 2 f_equal. lia.
Qed.

Lemma hex_digit_char d : 0 <= d < 16 -> 48 <= hex_digit d <= 102.
Proof. intros Hd. unfold hex_digit. destruct (Z.ltb_spec d 10); lia. Qed.

Lemma u64_digit_loop_spec b f : forall n ptr m,
  2 <= b <= 16 -> 0 <= n < b ^ Z.of_nat f -> n < 18446744073709551616 -> (0 < f)%nat ->
  exists m', u64_digit_loop f n b ptr m = Some (ptr + Z.of_nat (length (radix_digits f b n)), m') /\
    seg m' ptr (hex_digit <$> radix_digits f b n) /\ only m m' ptr (Z.of_nat (length (radix_digits f b n))).
Proof.
  induction f as [|f IH]; intros n ptr m Hb Hn Hn' Hf; [lia|]. cbn [u64_digit_loop radix_digits].
  rewrite udivmod64_spec by lia. cbn [fst snd]. pose proof (Z.mod_pos_bound n b ltac:(lia)) as Hm.
  unfold lit. rewrite radix_char by lia. cbn [deref]. rewrite bind_ret, (bind_some _ _ _ _ _ (wr_run _ _ _)).
  pose proof (hex_digit_char (n mod b) ltac:(lia)). rewrite u8_small by lia. set (m1 := <[ptr := _]> m).
  destruct (Z.eqb_spec (n / b) 0) as [E|E]; cbn [negb].
  - exists m1. cbn. split_and!; [done| |].
    + apply seg_cons. split; [apply lookup_insert_eq|apply seg_nil].
    + intros x Hx. apply lookup_insert_ne. lia.
  - pose proof (radix_step b ltac:(lia) n f Hn E) as Hr. pose proof (Z.div_le_upper_bound n b n ltac:(lia) ltac:(nia)).
    destruct f as [|f]; [change (b ^ Z.of_nat 0) with 1 in Hr; lia|].
    destruct (IH (n / b) (ptr + 1) m1) as (m' & -> & Hs & Ho); try lia; try done. exists m'.
    cbn [length]. split_and!.
    + do 2 f_equal. lia.
    + rewrite fmap_cons. apply seg_cons. split; [|done]. rewrite Ho by lia. apply lookup_insert_eq.
    + intros x Hx. rewrite Ho by lia. apply lookup_insert_ne. lia.
Qed.

Lemma base_64 b : 2 <= b -> 18446744073709551616 <= b ^ Z.of_nat 64.
Proof. intros Hb. change 18446744073709551616 with (2 ^ Z.of_nat 64). apply Z.pow_le_mono_l. lia. Qed.

(** Number formatting.  For every 64-bit number and every base from 2 to 16,
    [uint64_to_str] writes the digits of the number, most significant first, and
    a NUL byte: the digits are below the base, stand for the number, and do not
    start with a zero unless the number is 0; no more than [k] of them when the
    number is below [base ^ k]; no other memory changes. *)
Theorem uint64_to_str_correct (value str base : Z) (m : bytes) :
  0 <= value < 18446744073709551616 -> 2 <= base <= 16 ->
  exists m' ds, uint64_to_str value str base m = Some (tt, m') /\
    str_at m' str (hex_digit <$> rev ds) /\ only m m' str (Z.of_nat (length ds) + 1) /\
    radix_value base ds = value /\ Forall (fun d => 0 <= d < base) ds /\
    (0 < value -> exists d, last ds = Some d /\ d <> 0) /\
    (forall k : nat, value < base ^ Z.of_nat (S k) -> (length ds <= S k)%nat).
Proof.
  intros Hv Hb. pose proof (base_64 base ltac:(lia)) as H64. set (ds := radix_digits 64 base value).
  destruct (u64_digit_loop_spec base 64 value str m) as (m1 & E1 & Hs1 & Ho1); try lia. fold ds in E1, Hs1, Ho1.
  assert (Hr : Forall (fun d => 0 <= d < base) ds) by (apply radix_digits_range; lia).
  assert (Hc : Forall (fun c => 0 < c < 256) (hex_digit <$> ds)).
  { apply Forall_fmap. eapply Forall_impl; [exact Hr|]. cbn. intros d Hd. pose proof (hex_digit_char d ltac:(lia)). lia. }
  assert (Hl : (length ds <= 64)%nat) by (apply (radix_digits_length base ltac:(lia) 64 63); lia).
  set (m2 := <[str + Z.of_nat (length ds) := 0]> m1).
  destruct (swap_loop_spec 65 0 (hex_digit <$> ds) m2 str) as (m' & E3 & Hs3 & Ho3).
  { rewrite Z.add_0_l. apply seg_insert; [rewrite length_fmap; lia|done]. }
  { by apply str_byte_list. }
  { rewrite length_fmap. lia. }
  rewrite Z.add_0_l, length_fmap in *. exists m', ds. split_and!.
  - unfold uint64_to_str. rewrite u64_small by lia. st_step E1. rewrite (bind_some _ _ _ _ _ (wr_run _ _ _)).
    change (u8 0) with 0. fold m2. rewrite u64_reverse_swap. exact E3.
  - split; [|by rewrite <- fmap_rev; apply Forall_rev]. apply seg_app. rewrite <- fmap_rev. split; [done|].
    rewrite length_rev, length_fmap. apply seg_cons. split; [|apply seg_nil]. rewrite Ho3 by lia. apply lookup_insert_eq.
  - intros x Hx. rewrite Ho3 by lia. unfold m2. rewrite lookup_insert_ne by lia. apply Ho1. lia.
  - apply radix_digits_value; lia.
  - done.
  - intros H0. apply radix_digits_last; lia.
  - intros k Hk. apply radix_digits_length; lia.
Qed.

Lemma uint64_to_str_correct_witness : exists m' ds, uint64_to_str 0x123456789ABCDEF0 100 16 ∅ = Some (tt, m') /\
  str_at m' 100 (hex_digit <$> rev ds) /\ (length ds <= 16)%nat.
Proof.
  destruct (uint64_to_str_correct 0x123456789ABCDEF0 100 16 ∅) as (m' & ds & E & Hs & _ & _ & _ & _ & Hl).
  - lia.
  - lia.
  - exists m', ds. split; [exact E|]. split; [exact Hs|]. apply (Hl 15%nat). reflexivity.
Defined.

(** ** The memory map *)

(** The entries [es] lie one after the other from [a] on, each with at least
    the 20 bytes that follow its size field. *)
Fixpoint map_at m (a : Z) (es : list multiboot_mmap_entry) : Prop :=
  match es with
  | [] => True
  | e :: r => read_entry m a = Some e /\ 20 <= e_size e /\ map_at m (a + e_size e + 4) r
  end.

Fixpoint map_length (es : list multiboot_mmap_entry) : Z :=
  match es with
  | [] => 0
  | e :: r => e_size e + 4 + map_length r
  end.

Lemma map_length_nonneg es : forall m a, map_at m a es -> 0 <= map_length es.
Proof. induction es as [|e es IH]; intros m a; cbn; [lia|]. intros (_ & H & Hr). specialize (IH _ _ Hr). lia. Qed.

(** The addresses of the entries: distinct, and readable. *)
Fixpoint starts (a : Z) (es : list multiboot_mmap_entry) : list Z :=
  match es with
  | [] => []
  | e :: r => a :: starts (a + e_size e + 4) r
  end.

Lemma starts_length es : forall a, length (starts a es) = length es.
Proof. induction es as [|e es IH]; intros a; cbn; [done|]. by rewrite IH. Qed.

Lemma starts_spec es : forall m a, map_at m a es ->
  (forall x, x ∈ starts a es -> a <= x /\ is_Some (m !! x)) /\ NoDup (starts a es).
Proof.
  induction es as [|e es IH]; intros m a; cbn; [intros _; split; [intros x Hx; by apply elem_of_nil in Hx|constructor]|].
  intros (E & Hs & Hr). destruct (IH _ _ Hr) as [H1 H2]. split.
  - intros x [-> |Hx]%elem_of_cons; [|destruct (H1 x Hx); split; [lia|done]]. split; [lia|].
    unfold read_entry in E. cbn in E. destruct (m !! a); [eauto|discriminate E].
  - constructor; [|done]. intros Hx. destruct (H1 _ Hx). lia.
Qed.

Lemma map_fuel es m a : map_at m a es -> (length es < str_fuel m)%nat.
Proof.
  intros HM. destruct (starts_spec es m a HM) as [H1 H2]. rewrite <- (starts_length es a). unfold str_fuel.
  pose proof (keys_length m (starts a es) H2 (fun x Hx => proj2 (H1 x Hx))). lia.
Qed.

Section Walk.
  Context (KS KE : Z).

(** Registering entries one after the other: what the walk comes down to. *)
Fixpoint register_all (es : list multiboot_mmap_entry) : ST bootmem unit :=
  match es with
  | [] => ret tt
  | e :: r => (register_entry KS KE e ;; register_all r)%st
  end.

Lemma mmap_walk_spec es : forall fuel m a bm,
  map_at m a es -> 0 <= a -> a + map_length es < 4294967296 -> (length es < fuel)%nat ->
  mmap_walk KS KE fuel m a (a + map_length es) bm = register_all es bm.
Proof.
  induction es as [|e es IH]; intros [|fuel] m a bm HM Ha Hl Hf; cbn in Hf; try lia; cbn [mmap_walk map_length register_all].
  - destruct (Z.ltb_spec a (a + 0)); [lia|done].
  - destruct HM as (E & Hs & Hr). pose proof (map_length_nonneg _ _ _ Hr). cbn [map_length] in Hl.
    destruct (Z.ltb_spec a (a + (e_size e + 4 + map_length es))); [|lia]. rewrite E. cbn [deref]. rewrite bind_ret.
    unfold bind. destruct (register_entry KS KE e bm) as [[[] bm1]|]; [|done]. rewrite u32_small by lia.
    replace (a + (e_size e + 4 + map_length es)) with (a + e_size e + 4 + map_length es) by lia. apply IH; [done|lia|lia|lia].
Qed.

(** The bytes an entry offers to bootmem. *)
Definition entry_offers e (a : Z) : Prop :=
  appropriate KE e = true /\ offered KS KE (u32 (e_addr e)) (u32 (u64 (e_addr e + e_len e))) a.

(** The entry does not end exactly at the kernel's end from inside the kernel. *)
Definition no_gap e : Prop := appropriate KE e = true ->
  ~ (PAGE_ALIGN KS <= PAGE_ALIGN (u32 (e_addr e)) /\
     PAGE_ALIGN_DOWN (u32 (u64 (e_addr e + e_len e))) = PAGE_ALIGN KE).

Lemma appropriate_type e : appropriate KE e = true -> e_type e = MULTIBOOT_MEMORY_AVAILABLE.
Proof. unfold appropriate. intros H. apply andb_true_iff in H as [_ H]. by apply Z.eqb_eq. Qed.

Lemma register_entry_eq e bm : appropriate KE e = true ->
  register_entry KS KE e bm = (bootmem_add_mem_region KS KE (u32 (e_addr e)) (u32 (u64 (e_addr e + e_len e))) MEM_REGION_AVAILABLE ;; ret tt)%st bm.
Proof. intros H. unfold register_entry. by rewrite H, (appropriate_type e H). Qed.

Context (Hkern : PAGE_ALIGN KS < PAGE_ALIGN KE).

Lemma register_entry_ok e bm :
  bm_ok (PAGE_ALIGN KS) (PAGE_ALIGN KE) bm -> no_gap e ->
  exists bm', register_entry KS KE e bm = Some (tt, bm') /\ bm_ok (PAGE_ALIGN KS) (PAGE_ALIGN KE) bm' /\
    forall a, in_regions bm' a -> in_regions bm a \/ entry_offers e a.
Proof using Hkern.
  intros HB HG. destruct (appropriate KE e) eqn:Ea.
  - destruct (bootmem_add_safe KS KE Hkern (u32 (e_addr e)) (u32 (u64 (e_addr e + e_len e))) MEM_REGION_AVAILABLE bm HB
      (u32_range _) (HG Ea)) as (res & bm' & E & HB' & H1 & _).
    exists bm'. rewrite register_entry_eq by done. st_step E. split_and!; [done|done|].
    intros a Hin. destruct (H1 a Hin); [by left|right; by split].
  - exists bm. unfold register_entry. rewrite Ea. split_and!; [done|done|by left].
Qed.

Lemma register_all_ok es : forall bm,
  bm_ok (PAGE_ALIGN KS) (PAGE_ALIGN KE) bm -> Forall no_gap es ->
  exists bm', register_all es bm = Some (tt, bm') /\ bm_ok (PAGE_ALIGN KS) (PAGE_ALIGN KE) bm' /\
    forall a, in_regions bm' a -> in_regions bm a \/ exists e, e ∈ es /\ entry_offers e a.
Proof using Hkern.
  induction es as [|e es IH]; intros bm HB HG; cbn [register_all].
  { exists bm. split_and!; [done|done|by left]. }
  apply Forall_cons in HG as [Hg HG]. destruct (register_entry_ok e bm HB Hg) as (b1 & E1 & HB1 & H1).
  destruct (IH b1 HB1 HG) as (b2 & E2 & HB2 & H2). exists b2. split_and!; [by st_step E1|done|].
  intros a Ha. destruct (H2 a Ha) as [H|(e' & He' & Ho)].
  - destruct (H1 a H); [by left|right; exists e; split; [by left|done]].
  - right. exists e'. split; [by right|done].
Qed.

(** Entries that are not appropriate are passed over. *)
Lemma register_all_filter es : forall bm, register_all es bm = register_all (filter (fun e => appropriate KE e = true) es) bm.
Proof.
  induction es as [|e es IH]; intros bm; [done|]. cbn [register_all]. destruct (appropriate KE e) eqn:Ea.
  - rewrite filter_cons_True by done. cbn [register_all]. unfold bind. destruct (register_entry KS KE e bm) as [[[] b]|]; [apply IH|done].
  - rewrite filter_cons_False by congruence. unfold bind, register_entry. rewrite Ea. cbn. apply IH.
Qed.

End Walk.


(** An example: 639 KiB of low memory and memory from 1 MiB to 32 MiB. *)
Fixpoint write_le (n : nat) (v : Z) : list Z :=
  match n with
  | O => []
  | S k => v mod 256 :: write_le k (v / 256)
  end.

Definition entry_bytes e : list Z :=
  write_le 4 (e_size e) ++ write_le 8 (e_addr e) ++ write_le 8 (e_len e) ++ write_le 4 (e_type e).

Definition example_map : list multiboot_mmap_entry :=
  [MmapEntry 20 0 0x9FC00 1; MmapEntry 20 0x100000 0x1F00000 1].

Definition example_memory : bytes :=
  list_to_map (imap (fun i b => (0x9000 + Z.of_nat i, b)) (concat (entry_bytes <$> example_map))).

Definition example_info : multiboot_info :=
  MultibootInfo 0x40 639 31744 0 0 0 0 (0, 0, 0, 0) 48 0x9000 0 0 0 0 0 0 0 0 0 0 0.

Lemma example_map_at : map_at example_memory 0x9000 example_map.
Proof. vm_compute. repeat split; discriminate. Qed.

Lemma example_no_gap : Forall (no_gap 0x100000 0x107800) example_map.
Proof. repeat constructor; intros Ha [H1 H2]; [vm_compute in Ha; discriminate Ha|vm_compute in H2; discriminate H2]. Qed.


(** Any other magic number leaves everything as it was. *)
Lemma multiboot_bad_magic KS KE m magic info bm :
  magic <> MULTIBOOT_BOOTLOADER_MAGIC -> multiboot_parse KS KE m magic info bm = Some (0, bm).
Proof. intros Hm. unfold multiboot_parse. destruct (Z.eqb_spec magic MULTIBOOT_BOOTLOADER_MAGIC); [done|]. done. Qed.

(** Memory that reaches the 4 GiB boundary is lost: the end address is cut to 32
    bits, becomes 0, and bootmem refuses the region. *)
Theorem multiboot_4g_lost (KS KE : Z) e bm :
  PAGE_ALIGN KS < PAGE_ALIGN KE -> 0 <= e_addr e -> e_addr e + e_len e = 4294967296 ->
  register_entry KS KE e bm = Some (tt, bm).
Proof.
  intros Hk Ha Hl. destruct (appropriate KE e) eqn:Eap; [|by unfold register_entry; rewrite Eap].
  rewrite register_entry_eq, Hl by done. change (u32 (u64 4294967296)) with 0.
  assert (E : bootmem_add_mem_region KS KE (u32 (e_addr e)) 0 MEM_REGION_AVAILABLE bm = Some (E_ERROR, bm)).
  { apply add_reject; [done|lia|]. unfold add_rejected. change (PAGE_ALIGN_DOWN 0) with 0.
    pose proof (PAGE_ALIGN_word (u32 (e_addr e))) as [Hw _]. apply orb_true_iff. right. apply Z.leb_le. lia. }
  by st_step E.
Qed.

(** ** Processor features *)

(** The x2APIC test looks at EDX, where bit 21 says debug store: a processor
    with the x2APIC bit in ECX alone is reported as not having it. *)
Lemma x2apic_wrong_register :
  cpuid_check_x2apic (CpuidLeaf 0 0 CPUID_FEAT_ECX_X2APIC 0) = 0 /\
  cpuid_check_x2apic (CpuidLeaf 0 0 0 CPUID_FEAT_ECX_X2APIC) = 1.
Proof. done. Qed.

(** The format string of [cpuid_get_cpu_name], twelve times "%c". *)
Definition cpu_name_format : list Z := concat (replicate 12 [37; 99]) ++ [0].

(** The vendor name of the registers "Auth", "enti", "cAMD". *)
Lemma cpu_name_example :
  exists m', cpuid_get_cpu_name (CpuidLeaf 0 0x68747541 0x444D4163 0x69746E65) 0
      100 (list_to_map (imap (fun i b => (Z.of_nat i, b)) cpu_name_format)) = Some (E_SUCCESS, m') /\
    (fun i => m' !! (100 + Z.of_nat i)) <$> seq 0 13 =
      Some <$> [65; 117; 116; 104; 101; 110; 116; 105; 99; 65; 77; 68; 0].
Proof. eexists. split; vm_compute; reflexivity. Qed.
