(* ===== verification/BootEntry.v ===== *)
(** * The start-up assembly (arch/x86/boot/boot.asm)

    From the boot loader's jump to [_start] to the first instruction of
    [kernel_main], instruction by instruction.  Paging is off at first; the code
    fills one page table, puts it under two entries of a directory, turns paging
    on while it runs from low memory, moves the stack pointer to the higher half
    and calls the kernel there.  Every fetch, push and store goes through the
    processor's translation, so that code or a stack that fell out of the mapping
    would fault.  A word of physical memory at [pa] is kept under
    [PHY_TO_VIR pa], as in the models of the page tables. *)

From stdpp Require Import base numbers list gmap.
From Stdlib Require Import ZArith Lia.
From S2P Require Import Prelude PageDefs Ptable PtableSpec Multiboot.

#[local] Open Scope Z_scope.

(** ** The Multiboot header *)

Definition HEADER_MAGIC : Z := 0x1BADB002.
Definition FLAG_ALIGN : Z := Z.shiftl 1 0.
Definition FLAG_MEMINFO : Z := Z.shiftl 1 1.
Definition HEADER_FLAGS : Z := Z.lor FLAG_ALIGN FLAG_MEMINFO.
Definition CHECKSUM : Z := u32 (- (HEADER_MAGIC + HEADER_FLAGS)).

Definition multiboot_header : list Z := [HEADER_MAGIC; HEADER_FLAGS; CHECKSUM].

(** The loader takes a header whose three words add up to zero. *)
Lemma header_accepted : u32 (foldr Z.add 0 multiboot_header) = 0.
Proof. reflexivity. Qed.

(** ** The instructions used *)

Inductive reg : Type := EAX | EBX | ECX | ESP.

Inductive creg : Type := CR0 | CR3 | CR4.

Inductive instr : Type :=
  | MovImm (r : reg) (v : Z)
  | MovReg (r s : reg)
  | Push (r : reg)
  | OrImm (r : reg) (v : Z)
  | AddImm (r : reg) (v : Z)
  | Inc (r : reg)
  | CmpImm (r : reg) (v : Z)
  | Je (target : nat)
  | Jmp (target : nat)
  | StoreIndexed (base : Z) (r s : reg)
  | StoreImm (a v : Z)
  | FromControl (r : reg) (c : creg)
  | ToControl (c : creg) (r : reg)
  | Call (target : Z).

(** Where the processor is: at an instruction of boot.asm, or at the first
    instruction of a function that was called. *)
Inductive location : Type := At (i : nat) | Entered (f : Z).

Record processor : Type := Processor {
  eax : Z;
  ebx : Z;
  ecx : Z;
  esp : Z;
  cr0 : Z;
  cr3 : Z;
  cr4 : Z;
  zero_flag : bool;
  loc : location;
  phys : gmap Z Z
}.

Definition gpr (p : processor) (r : reg) : Z := match r with EAX => eax p | EBX => ebx p | ECX => ecx p | ESP => esp p end.

Definition ctl (p : processor) (c : creg) : Z := match c with CR0 => cr0 p | CR3 => cr3 p | CR4 => cr4 p end.

Definition set_gpr (r : reg) (v : Z) (p : processor) : processor :=
  let '(Processor a b c s c0 c3 c4 z l m) := p in
  match r with
  | EAX => Processor v b c s c0 c3 c4 z l m
  | EBX => Processor a v c s c0 c3 c4 z l m
  | ECX => Processor a b v s c0 c3 c4 z l m
  | ESP => Processor a b c v c0 c3 c4 z l m
  end.

Definition set_ctl (r : creg) (v : Z) (p : processor) : processor :=
  let '(Processor a b c s c0 c3 c4 z l m) := p in
  match r with
  | CR0 => Processor a b c s v c3 c4 z l m
  | CR3 => Processor a b c s c0 v c4 z l m
  | CR4 => Processor a b c s c0 c3 v z l m
  end.

Definition set_zero (z : bool) (p : processor) : processor :=
  let '(Processor a b c s c0 c3 c4 _ l m) := p in Processor a b c s c0 c3 c4 z l m.

Definition set_phys (m : gmap Z Z) (p : processor) : processor :=
  let '(Processor a b c s c0 c3 c4 z l _) := p in Processor a b c s c0 c3 c4 z l m.

Definition go (l : location) (p : processor) : processor :=
  let '(Processor a b c s c0 c3 c4 z _ m) := p in Processor a b c s c0 c3 c4 z l m.

(** ** The processor *)

Definition paging_on (p : processor) : bool := Z.testbit (cr0 p) 31.

(** The physical address of a linear one. *)
Definition translate (p : processor) (va : Z) : option Z :=
  if paging_on p then mmu_address (phys p) (PHY_TO_VIR (PAGE_FRAME (cr3 p))) va else Some va.

Definition write_word (va v : Z) (p : processor) : option processor :=
  match translate p va with
  | Some pa => Some (set_phys (<[PHY_TO_VIR pa := v]> (phys p)) p)
  | None => None
  end.

Definition read_word (va : Z) (p : processor) : option Z :=
  match translate p va with Some pa => phys p !! PHY_TO_VIR pa | None => None end.

Definition push_word (v : Z) (p : processor) : option processor :=
  let sp := u32 (esp p - 4) in write_word sp v (set_gpr ESP sp p).

Section Boot.
  (** The addresses of [page_directory], of the stack, of [kernel_main] and of
      the instructions. *)
  Context (page_directory KERNEL_STACK_BOTTOM kernel_main : Z) (address : nat -> Z).

(** [times 4096 dw 0] is 8192 bytes. *)
Definition page_table : Z := page_directory + 4096 * 2.

(** [resb 32768] *)
Definition KERNEL_STACK_TOP : Z := KERNEL_STACK_BOTTOM + 32768.

(** One instruction at index [i]; the result is where it leaves the processor. *)
Definition execute (i : nat) (c : instr) (p : processor) : option processor :=
  let next := go (At (S i)) in
  match c with
  | MovImm r v => Some (next (set_gpr r (u32 v) p))
  | MovReg r s => Some (next (set_gpr r (gpr p s) p))
  | Push r => next <$> push_word (gpr p r) p
  | OrImm r v => Some (next (set_gpr r (Z.lor (gpr p r) v) p))
  | AddImm r v => Some (next (set_gpr r (u32 (gpr p r + v)) p))
  | Inc r => Some (next (set_gpr r (u32 (gpr p r + 1)) p))
  | CmpImm r v => Some (next (set_zero (gpr p r =? v) p))
  | Je t => Some (go (At (if zero_flag p then t else S i)) p)
  | Jmp t => Some (go (At t) p)
  | StoreIndexed base r s => next <$> write_word (u32 (base + gpr p r * 4)) (gpr p s) p
  | StoreImm a v => next <$> write_word a v p
  | FromControl r c => Some (next (set_gpr r (ctl p c) p))
  | ToControl c r => Some (next (set_ctl c (gpr p r) p))
  | Call f => go (Entered f) <$> push_word (address (S i)) p
  end.

(** [_start] *)
Definition start_code : list instr :=
  [MovImm ESP KERNEL_STACK_TOP; Push EBX; Push EAX;
   MovImm EAX 0; MovImm EBX 0;
   (* .fill_table *)
   MovReg ECX EBX; OrImm ECX 3; StoreIndexed page_table EAX ECX; AddImm EBX 4096; Inc EAX; CmpImm EAX 1024; Je 13; Jmp 5;
   (* .end *)
   StoreImm (page_directory + 0 * 4) (page_table + 0x003);
   StoreImm (page_directory + 768 * 4) (page_table + 0x003);
   MovImm EAX page_directory; ToControl CR3 EAX;
   FromControl EAX CR4; OrImm EAX 0x90; ToControl CR4 EAX;
   FromControl EAX CR0; OrImm EAX 0x80000000; ToControl CR0 EAX;
   AddImm ESP 0xC0000000;
   Call kernel_main;
   Jmp 25].

(** The code is linked to its physical addresses: a fetch must translate to
    where the code is. *)
Definition step (p : processor) : option processor :=
  match loc p with
  | Entered _ => None
  | At i =>
      match start_code !! i, translate p (address i) with
      | Some c, Some pa => if pa =? address i then execute i c p else None
      | _, _ => None
      end
  end.

(** Up to the first instruction of a called function. *)
Fixpoint boot (fuel : nat) (p : processor) : option processor :=
  match fuel with
  | O => None
  | S f =>
      match loc p with
      | Entered _ => Some p
      | At _ => match step p with Some p' => boot f p' | None => None end
      end
  end.

(** Five instructions, eight per table entry less the last jump, and twelve. *)
Definition BOOT_FUEL : nat := 5 + 8 * 1024 + 12.

End Boot.

(** ** The memory it leaves *)

Section Boot.
  Context (page_directory KERNEL_STACK_BOTTOM kernel_main : Z) (address : nat -> Z).

#[local] Abbreviation table := (page_table page_directory).
#[local] Abbreviation stack_top := (KERNEL_STACK_TOP KERNEL_STACK_BOTTOM).

(** The low part of memory that is mapped. *)
Definition MAPPED : Z := 4194304.

(** Where the linker puts things: the directory and the table on pages of their
    own, the stack and the code below 4 MiB, the kernel in the higher half. *)
Record linked : Prop := Linked {
  lk_directory : exists d, page_directory = d * 4096 /\ 0 < d;
  lk_table : table + 8192 <= MAPPED;
  lk_stack : exists k, KERNEL_STACK_BOTTOM = 16 * k /\ 0 < k /\ stack_top <= MAPPED;
  lk_apart : stack_top <= page_directory \/ table + 8192 <= KERNEL_STACK_BOTTOM;
  lk_code : forall i, 0 <= address i < MAPPED
}.

(** The table after [n] entries, over memory [m]. *)
Fixpoint table_filled (n : nat) (m : gmap Z Z) : gmap Z Z :=
  match n with
  | O => m
  | S k => <[PHY_TO_VIR (table + Z.of_nat k * 4) := Z.of_nat k * 4096 + 3]> (table_filled k m)
  end.

Lemma vir_eq x : 0 <= x < 1073741824 -> PHY_TO_VIR x = x + KERNEL_START_VIRT.
Proof using. intros Hx. unfold PHY_TO_VIR. apply u32_small. unfold KERNEL_START_VIRT. lia. Qed.

Lemma vir_inj x y : 0 <= x < 4294967296 -> 0 <= y < 4294967296 -> PHY_TO_VIR x = PHY_TO_VIR y -> x = y.
Proof using.
  intros Hx Hy E. unfold PHY_TO_VIR, u32, KERNEL_START_VIRT in E. pose proof (Z.div_mod (x + 0xC0000000) 4294967296). pose proof (Z.div_mod (y + 0xC0000000) 4294967296).
  pose proof (Z.mod_pos_bound (x + 0xC0000000) 4294967296). lia.
Qed.

(** ** Executing *)

Lemma boot_at f p p' i : loc p = At i -> step page_directory KERNEL_STACK_BOTTOM kernel_main address p = Some p' ->
  boot page_directory KERNEL_STACK_BOTTOM kernel_main address (S f) p = boot page_directory KERNEL_STACK_BOTTOM kernel_main address f p'.
Proof using. intros El E. cbn [boot]. by rewrite El, E. Qed.

(** One instruction whose address translates to itself. *)
Lemma boot_execute f p p' i c : loc p = At i -> start_code page_directory KERNEL_STACK_BOTTOM kernel_main !! i = Some c -> translate p (address i) = Some (address i) ->
  execute address i c p = Some p' ->
  boot page_directory KERNEL_STACK_BOTTOM kernel_main address (S f) p = boot page_directory KERNEL_STACK_BOTTOM kernel_main address f p'.
Proof using. intros El Ec Et E. apply (boot_at _ _ _ i El). unfold step. by rewrite El, Ec, Et, Z.eqb_refl. Qed.

Lemma translate_off p va : paging_on p = false -> translate p va = Some va.
Proof using. intros E. unfold translate. by rewrite E. Qed.

Lemma write_off p va v : paging_on p = false -> write_word va v p = Some (set_phys (<[PHY_TO_VIR va := v]> (phys p)) p).
Proof using. intros E. unfold write_word. by rewrite translate_off. Qed.

#[local] Abbreviation run := (boot page_directory KERNEL_STACK_BOTTOM kernel_main address).

(** One instruction while paging is off, and the same when it writes memory. *)
Ltac instruction H := eapply eq_trans; [eapply boot_execute; [reflexivity|reflexivity|apply translate_off; exact H|reflexivity]|].

Ltac writing H := eapply eq_trans; [eapply boot_execute; [reflexivity|reflexivity|apply translate_off; exact H|
  cbn [execute]; unfold push_word; cbv zeta; rewrite write_off by exact H; reflexivity]|]; cbn [gpr ctl set_gpr set_ctl set_zero set_phys go phys eax ebx ecx esp cr0 cr3 cr4 zero_flag].

(** The stack pointer and the two pushes. *)
Lemma prologue_runs f a b c s c0 c3 c4 z m : Z.testbit c0 31 = false -> linked ->
  run (5 + f)%nat (Processor a b c s c0 c3 c4 z (At 0) m) =
  run f (Processor 0 0 c (stack_top - 8) c0 c3 c4 z (At 5) (<[PHY_TO_VIR (stack_top - 8) := a]> (<[PHY_TO_VIR (stack_top - 4) := b]> m))).
Proof using.
  intros Hp [_ _ (k & Hk & Hk0 & Ht) _ _]. assert (Hs : 16 <= KERNEL_STACK_BOTTOM) by lia. unfold MAPPED, KERNEL_STACK_TOP in *.
  change (5 + f)%nat with (S (S (S (S (S f))))). unfold KERNEL_STACK_TOP in *.
  instruction Hp. cbn [set_gpr go]. rewrite u32_small by (unfold KERNEL_STACK_TOP; lia).
  writing Hp. writing Hp. instruction Hp. instruction Hp.
  cbn [set_gpr go]. unfold KERNEL_STACK_TOP. rewrite (u32_small (KERNEL_STACK_BOTTOM + 32768 - 4)) by lia. rewrite (u32_small (_ - 4)) by lia.
  by replace (KERNEL_STACK_BOTTOM + 32768 - 4 - 4) with (KERNEL_STACK_BOTTOM + 32768 - 8) by lia.
Qed.

(** One turn of the loop, up to its conditional jump. *)
Lemma turn_runs f s c0 c3 c4 m c z k : Z.testbit c0 31 = false -> linked -> (k < 1024)%nat ->
  let last := Z.of_nat (S k) =? 1024 in
  run (7 + f)%nat (Processor (Z.of_nat k) (Z.of_nat k * 4096) c s c0 c3 c4 z (At 5) (table_filled k m)) =
  run f (Processor (Z.of_nat (S k)) (Z.of_nat (S k) * 4096) (Z.of_nat k * 4096 + 3) s c0 c3 c4 last (At (if last then 13 else 12)) (table_filled (S k) m)).
Proof using.
  intros Hp [(d & Hd & Hd0) Ht _ _ _] Hk last. unfold page_table, MAPPED in Ht.
  assert (E3 : Z.lor (Z.of_nat k * 4096) 3 = Z.of_nat k * 4096 + 3) by (apply (lor_disjoint _ _ 12); [lia|apply Z.mod_mul; lia|lia]).
  change (7 + f)%nat with (S (S (S (S (S (S (S f))))))).
  instruction Hp. instruction Hp. writing Hp. instruction Hp. instruction Hp. instruction Hp. instruction Hp.
  cbn [gpr ctl set_gpr set_ctl set_zero set_phys go phys eax ebx ecx esp cr0 cr3 cr4 zero_flag table_filled].
  rewrite E3, (u32_small (table + _)) by (unfold page_table; lia).
  rewrite !(u32_small (Z.of_nat k * 4096 + 4096)), !(u32_small (Z.of_nat k + 1)) by lia.
  replace (Z.of_nat k + 1) with (Z.of_nat (S k)) by lia. by replace (Z.of_nat k * 4096 + 4096) with (Z.of_nat (S k) * 4096) by lia.
Qed.

(** The loop over the table. *)
Lemma fill_runs f s c0 c3 c4 m : Z.testbit c0 31 = false -> linked -> forall n k c z, (S n + k = 1024)%nat ->
  run (8 * n + 7 + f)%nat (Processor (Z.of_nat k) (Z.of_nat k * 4096) c s c0 c3 c4 z (At 5) (table_filled k m)) =
  run f (Processor 1024 4194304 4190211 s c0 c3 c4 true (At 13) (table_filled 1024 m)).
Proof using.
  intros Hp HL. induction n as [|n IH]; intros k c z Hk.
  - change (8 * 0 + 7 + f)%nat with (7 + f)%nat. rewrite turn_runs by (done || lia). by assert (k = 1023%nat) as -> by lia.
  - replace (8 * S n + 7 + f)%nat with (7 + S (8 * n + 7 + f))%nat by lia. rewrite turn_runs by (done || lia).
    destruct (Z.eqb_spec (Z.of_nat (S k)) 1024); [lia|]. instruction Hp. cbn [go]. apply IH. lia.
Qed.

(** The directory entries and the control registers, up to turning paging on. *)
Definition directory_filled (m : gmap Z Z) : gmap Z Z :=
  <[PHY_TO_VIR (page_directory + 768 * 4) := table + 3]> (<[PHY_TO_VIR (page_directory + 0 * 4) := table + 3]> (table_filled 1024 m)).

Lemma control_runs f a b c s c0 c3 c4 z m : Z.testbit c0 31 = false -> linked ->
  run (10 + f)%nat (Processor a b c s c0 c3 c4 z (At 13) (table_filled 1024 m)) =
  run f (Processor (Z.lor c0 0x80000000) b c s (Z.lor c0 0x80000000) page_directory (Z.lor c4 0x90) z (At 23) (directory_filled m)).
Proof using.
  intros Hp [(d & Hd & Hd0) Ht _ _ _]. unfold page_table, MAPPED in Ht.
  change (10 + f)%nat with (S (S (S (S (S (S (S (S (S (S f)))))))))). writing Hp. writing Hp. do 8 (instruction Hp).
  cbn [gpr ctl set_gpr set_ctl set_zero set_phys go phys eax ebx ecx esp cr0 cr3 cr4 zero_flag]. by rewrite u32_small by lia.
Qed.

(** ** The translation *)

(** The words of the two structures. *)
Record boot_map (m : gmap Z Z) : Prop := BootMap {
  bt_table : forall k, 0 <= k < 1024 -> m !! PHY_TO_VIR (table + k * 4) = Some (k * 4096 + 3);
  bt_directory : forall k, 0 <= k < 1024 -> m !! PHY_TO_VIR (page_directory + k * 4) = Some (if (k =? 0) || (k =? 768) then table + 3 else 0)
}.

(** The first 4 MiB, twice. *)
Definition boot_address (va : Z) : option Z :=
  if va <? MAPPED then Some va
  else if (KERNEL_START_VIRT <=? va) && (va <? KERNEL_START_VIRT + MAPPED) then Some (va - KERNEL_START_VIRT)
  else None.

Lemma boot_map_address m va : linked -> boot_map m -> 0 <= va < 4294967296 ->
  mmu_address m (PHY_TO_VIR (PAGE_FRAME page_directory)) va = boot_address va.
Proof using.
  intros [(d & Hd & Hd0) Ht _ _ _] [HT HD] Hv. unfold page_table, MAPPED in Ht.
  assert (Ef : PAGE_FRAME page_directory = page_directory) by (rewrite PAGE_FRAME_eq by lia; rewrite Hd, Z.mod_mul; lia).
  set (i := va / 4194304). assert (Hi : 0 <= i < 1024) by (unfold i; split; [apply Z.div_pos|apply Z.div_lt_upper_bound]; lia).
  assert (Ep : m !! GET_PDE (PHY_TO_VIR (PAGE_FRAME page_directory)) va = Some (if (i =? 0) || (i =? 768) then table + 3 else 0)).
  { rewrite <- HD by done. unfold GET_PDE. rewrite PDI_eq, Ef by done. f_equal. fold i. rewrite !vir_eq by lia. lia. }
  unfold mmu_address, mmu_walk. rewrite Ep. unfold boot_address, MAPPED, KERNEL_START_VIRT.
  destruct ((i =? 0) || (i =? 768)) eqn:Ei.
  - unfold page_table in *. rewrite Hd. replace (d * 4096 + 4096 * 2 + 3) with ((d + 2) * 4096 + 3) by lia.
    rewrite (entry_bits (d + 2) 3 0), (entry_bits (d + 2) 3 7) by lia. change (Z.testbit 3 0) with true. change (Z.testbit 3 7) with false. cbn [negb].
    rewrite entry_frame by lia. set (j := PAGE_TABLE_INDEX va).
    assert (Hj : j = (va / 4096) mod 1024) by (apply PTI_eq; lia). assert (Hjr : 0 <= j < 1024) by (rewrite Hj; apply Z.mod_pos_bound; lia).
    assert (Eq : m !! GET_PTE (PHY_TO_VIR ((d + 2) * 4096)) va = Some (j * 4096 + 3)).
    { rewrite <- HT by done. unfold GET_PTE. fold j. f_equal. rewrite Hd, !vir_eq by lia. lia. }
    rewrite Eq, entry_bits by lia. change (Z.testbit 3 0) with true. cbv iota. rewrite entry_frame by lia.
    assert (Ev : va = 4194304 * i + j * 4096 + va mod 4096).
    { unfold i. rewrite Hj. change 4194304 with (4096 * 1024) at 2. rewrite <- Z.div_div by lia. pose proof (Z.div_mod va 4096). pose proof (Z.div_mod (va / 4096) 1024). lia. }
    pose proof (Z.mod_pos_bound va 4096). clearbody i j.
    apply orb_true_iff in Ei as [Ei%Z.eqb_eq|Ei%Z.eqb_eq].
    + destruct (Z.ltb_spec va 4194304); [|lia]. f_equal. lia.
    + destruct (Z.ltb_spec va 4194304); [lia|]. destruct (Z.leb_spec 0xC0000000 va); [|lia]. destruct (Z.ltb_spec va (0xC0000000 + 4194304)); [|lia]. cbn [andb]. f_equal. lia.
  - cbn. apply orb_false_iff in Ei as [E0%Z.eqb_neq E1%Z.eqb_neq]. assert (Ev : va = 4194304 * i + va mod 4194304) by (unfold i; apply Z.div_mod; lia). pose proof (Z.mod_pos_bound va 4194304). clearbody i.
    destruct (Z.ltb_spec va 4194304); [lia|]. destruct (Z.leb_spec 0xC0000000 va); [|done]. destruct (Z.ltb_spec va (0xC0000000 + 4194304)); [lia|done].
Qed.

(** ** The memory *)

Lemma table_filled_out n m a : linked -> 0 <= a < 4294967296 -> ~ (table <= a < table + 4096) -> (n <= 1024)%nat ->
  table_filled n m !! PHY_TO_VIR a = m !! PHY_TO_VIR a.
Proof using.
  intros [(d & Hd & Hd0) Ht _ _ _] Ha Hout. unfold page_table, MAPPED in *. induction n as [|n IH]; intros Hn; [done|]. cbn [table_filled].
  rewrite lookup_insert_ne; [apply IH; lia|]. intros E%vir_inj; unfold page_table in *; lia.
Qed.

Lemma table_filled_at n m k : linked -> 0 <= k < Z.of_nat n -> (n <= 1024)%nat -> table_filled n m !! PHY_TO_VIR (table + k * 4) = Some (k * 4096 + 3).
Proof using.
  intros HL. pose proof HL as [(d & Hd & Hd0) Ht _ _ _]. unfold page_table, MAPPED in *. induction n as [|n IH]; intros Hk Hn; [lia|]. cbn [table_filled].
  destruct (decide (k = Z.of_nat n)) as [->|]; [apply lookup_insert_eq|]. rewrite lookup_insert_ne; [apply IH; lia|]. intros E%vir_inj; unfold page_table in *; lia.
Qed.

Lemma filled_out m a : linked -> 0 <= a < 4294967296 -> ~ (page_directory <= a < page_directory + 4096) -> ~ (table <= a < table + 4096) ->
  directory_filled m !! PHY_TO_VIR a = m !! PHY_TO_VIR a.
Proof using.
  intros HL Ha H1 H2. pose proof HL as [(d & Hd & Hd0) Ht _ _ _]. unfold page_table, MAPPED in Ht. unfold directory_filled.
  rewrite !lookup_insert_ne by (intros E%vir_inj; lia). by apply table_filled_out.
Qed.

Lemma filled_map m : linked -> (forall k, 0 <= k < 1024 -> m !! PHY_TO_VIR (page_directory + k * 4) = Some 0) -> boot_map (directory_filled m).
Proof using.
  intros HL H0. pose proof HL as [(d & Hd & Hd0) Ht _ _ _]. unfold page_table, MAPPED in Ht. unfold directory_filled. split; intros k Hk.
  - rewrite !lookup_insert_ne by (intros E%vir_inj; unfold page_table in *; lia). apply table_filled_at; [done|lia|lia].
  - destruct (Z.eqb_spec k 768) as [->|]; [rewrite orb_true_r; apply lookup_insert_eq|]. rewrite lookup_insert_ne by (intros E%vir_inj; lia).
    destruct (Z.eqb_spec k 0) as [->|]; [apply lookup_insert_eq|]. rewrite lookup_insert_ne by (intros E%vir_inj; lia).
    cbn [orb]. rewrite table_filled_out; [by apply H0|done|lia|unfold page_table; lia|lia].
Qed.

(** A word of the stack is outside both structures. *)
Lemma stack_map m a v : linked -> boot_map m -> KERNEL_STACK_BOTTOM <= a < stack_top -> boot_map (<[PHY_TO_VIR a := v]> m).
Proof using.
  intros [(d & Hd & Hd0) Ht (k & Hk & Hk0 & Hs) Ha _] [HT HD] Hin. unfold page_table, MAPPED, KERNEL_STACK_TOP in *.
  split; intros i Hi; (rewrite lookup_insert_ne; [by auto|]); intros E%vir_inj; unfold page_table in *; lia.
Qed.

(** The two instructions after paging is on. *)
Lemma epilogue_runs f a b c c0 c4 z m : Z.testbit c0 31 = true -> linked -> boot_map m ->
  run (3 + f)%nat (Processor a b c (stack_top - 8) c0 page_directory c4 z (At 23) m) =
  Some (Processor a b c (stack_top - 12 + KERNEL_START_VIRT) c0 page_directory c4 z (Entered kernel_main) (<[PHY_TO_VIR (stack_top - 12) := address 25]> m)).
Proof using.
  intros Hp HL HM. pose proof HL as [_ _ (k & Hk & Hk0 & Hs) _ Hc]. unfold MAPPED, KERNEL_STACK_TOP in Hs.
  assert (HT : forall s l va, 0 <= va < 4294967296 -> translate (Processor a b c s c0 page_directory c4 z l m) va = boot_address va).
  { intros s l va Hva. unfold translate, paging_on. cbn [cr0 cr3 phys]. rewrite Hp. by apply boot_map_address. }
  assert (HF : forall s l i, translate (Processor a b c s c0 page_directory c4 z l m) (address i) = Some (address i)).
  { intros s l i. pose proof (Hc i) as Hi. unfold MAPPED in Hi. rewrite HT by lia. unfold boot_address, MAPPED. destruct (Z.ltb_spec (address i) 4194304); [done|lia]. }
  assert (Esp : u32 (stack_top - 8 + 0xC0000000) = stack_top - 8 + 0xC0000000) by (apply u32_small; unfold KERNEL_STACK_TOP; lia).
  change (3 + f)%nat with (S (S (S f))).
  eapply eq_trans; [eapply (boot_execute _ _ _ 23); [reflexivity|reflexivity|apply HF|reflexivity]|]. cbn [gpr set_gpr go esp]. rewrite Esp.
  eapply eq_trans; [eapply (boot_execute _ _ (Processor a b c (stack_top - 12 + KERNEL_START_VIRT) c0 page_directory c4 z (Entered kernel_main)
    (<[PHY_TO_VIR (stack_top - 12) := address 25]> m)) 24); [reflexivity|reflexivity|apply HF|]|reflexivity].
  cbn [execute]. unfold push_word, write_word. cbn [esp set_gpr]. rewrite u32_small by (unfold KERNEL_STACK_TOP; lia). rewrite HT by (unfold KERNEL_STACK_TOP; lia).
  unfold boot_address, MAPPED, KERNEL_START_VIRT, KERNEL_STACK_TOP.
  destruct (Z.ltb_spec (KERNEL_STACK_BOTTOM + 32768 - 8 + 0xC0000000 - 4) 4194304); [lia|].
  destruct (Z.leb_spec 0xC0000000 (KERNEL_STACK_BOTTOM + 32768 - 8 + 0xC0000000 - 4)); [|lia].
  destruct (Z.ltb_spec (KERNEL_STACK_BOTTOM + 32768 - 8 + 0xC0000000 - 4) (0xC0000000 + 4194304)); [|lia]. cbn [andb fmap option_fmap option_map go set_phys phys].
  by replace (KERNEL_STACK_BOTTOM + 32768 - 8 + 0xC0000000 - 4) with (KERNEL_STACK_BOTTOM + 32768 - 12 + 0xC0000000) by lia;
     replace (KERNEL_STACK_BOTTOM + 32768 - 12 + 0xC0000000 - 0xC0000000) with (KERNEL_STACK_BOTTOM + 32768 - 12) by lia.
Qed.

(** All of it. *)
Lemma start_runs p : linked -> loc p = At 0 -> paging_on p = false -> (forall k, 0 <= k < 1024 -> phys p !! PHY_TO_VIR (page_directory + k * 4) = Some 0) ->
  let m := directory_filled (<[PHY_TO_VIR (stack_top - 8) := eax p]> (<[PHY_TO_VIR (stack_top - 4) := ebx p]> (phys p))) in
  run BOOT_FUEL p = Some (Processor (Z.lor (cr0 p) 0x80000000) 4194304 4190211 (stack_top - 12 + KERNEL_START_VIRT)
    (Z.lor (cr0 p) 0x80000000) page_directory (Z.lor (cr4 p) 0x90) true (Entered kernel_main) (<[PHY_TO_VIR (stack_top - 12) := address 25]> m)) /\
  boot_map m.
Proof using.
  intros HL El Hp H0 m. pose proof HL as [(d & Hd & Hd0) Ht (k & Hk & Hk0 & Hs) Ha _]. unfold page_table, MAPPED, KERNEL_STACK_TOP in Ht, Hs, Ha.
  assert (HM : boot_map m).
  { apply filled_map; [done|]. intros i Hi. rewrite !lookup_insert_ne; [by apply H0|..]; unfold KERNEL_STACK_TOP; intros E%vir_inj; lia. }
  split; [|exact HM]. destruct p as [a b c s c0 c3 c4 z l w]. cbn [loc] in El. unfold paging_on in Hp. cbn [cr0 cr4 eax ebx phys] in *. subst l.
  assert (En : exists n, (S n + 0 = 1024)%nat /\ BOOT_FUEL = (5 + (8 * n + 7 + (10 + (3 + 0))))%nat) by (exists 1023%nat; by split).
  destruct En as (n & En & ->). rewrite prologue_runs by done. etransitivity; [exact (fill_runs _ _ _ _ _ _ Hp HL n 0 c z En)|]. rewrite control_runs by done. apply epilogue_runs; [|done|exact HM].
  by rewrite Z.lor_spec, orb_true_r.
Qed.

(** A read of the higher half. *)
Lemma read_high p a : linked -> boot_map (phys p) -> paging_on p = true -> cr3 p = page_directory -> 0 <= a < MAPPED ->
  read_word (a + KERNEL_START_VIRT) p = phys p !! PHY_TO_VIR a.
Proof using.
  intros HL HM Hp E3 Ha. unfold read_word, translate. rewrite Hp, E3. unfold MAPPED in Ha.
  rewrite boot_map_address by (done || (unfold KERNEL_START_VIRT; lia)). unfold boot_address, MAPPED, KERNEL_START_VIRT.
  destruct (Z.ltb_spec (a + 0xC0000000) 4194304); [lia|]. destruct (Z.leb_spec 0xC0000000 (a + 0xC0000000)); [|lia].
  destruct (Z.ltb_spec (a + 0xC0000000) (0xC0000000 + 4194304)); [|lia]. cbn [andb]. by replace (a + 0xC0000000 - 0xC0000000) with a by lia.
Qed.

(** The bits [or eax, 0x90] sets are those the paging code tests. *)
Lemma cr4_extensions c leaf1 :
  x86_paging_pse_enabled leaf1 (Z.lor c 0x90) = cpuid_check_pse leaf1 /\ x86_paging_pge_enabled leaf1 (Z.lor c 0x90) = cpuid_check_pge leaf1.
Proof using.
  assert (H : forall b, Z.land 0x90 b = b -> Z.land (Z.lor c 0x90) b = Z.lor (Z.land c b) b) by (intros b Hb; by rewrite Z.land_lor_distr_l, Hb).
  assert (N : forall x b, b <> 0 -> Z.lor x b <> 0) by (intros x b Hb E; by apply Z.lor_eq_0_iff in E as [_ ?]).
  unfold x86_paging_pse_enabled, x86_paging_pge_enabled, cpuid_check_pse, cpuid_check_pge. rewrite !H by reflexivity.
  destruct (Z.eqb_spec (Z.lor (Z.land c 0x10) 0x10) 0) as [E|_]; [by apply N in E|]. destruct (Z.eqb_spec (Z.lor (Z.land c 0x80) 0x80) 0) as [E|_]; [by apply N in E|].
  split; match goal with |- context [Z.land (leaf_edx leaf1) ?b =? 0] => by destruct (Z.land (leaf_edx leaf1) b =? 0) end.
Qed.

(** What [kernel_main] finds. *)
Lemma start_spec (p : processor) :
  linked -> loc p = At 0 -> paging_on p = false -> (forall k, 0 <= k < 1024 -> phys p !! PHY_TO_VIR (page_directory + k * 4) = Some 0) ->
  exists p', run BOOT_FUEL p = Some p' /\ loc p' = Entered kernel_main /\
    (esp p' = stack_top - 12 + KERNEL_START_VIRT /\ read_word (esp p') p' = Some (address 25) /\
     read_word (esp p' + 4) p' = Some (eax p) /\ read_word (esp p' + 8) p' = Some (ebx p)) /\
    (forall va, 0 <= va < 4294967296 -> translate p' va = boot_address va) /\
    (forall leaf1, x86_paging_pse_enabled leaf1 (cr4 p') = cpuid_check_pse leaf1 /\ x86_paging_pge_enabled leaf1 (cr4 p') = cpuid_check_pge leaf1) /\
    (forall a, 0 <= a < 4294967296 -> ~ (page_directory <= a < page_directory + 4096) -> ~ (table <= a < table + 4096) -> ~ (stack_top - 12 <= a < stack_top) ->
       phys p' !! PHY_TO_VIR a = phys p !! PHY_TO_VIR a).
Proof using.
  intros HL El Hp H0. destruct (start_runs p HL El Hp H0) as [E HM]. set (m := directory_filled _) in *. eexists. split; [exact E|].
  pose proof HL as [(d & Hd & Hd0) Ht (k & Hk & Hk0 & Hs) Ha _]. unfold page_table, MAPPED, KERNEL_STACK_TOP in Ht, Hs, Ha.
  assert (HM' : boot_map (<[PHY_TO_VIR (stack_top - 12) := address 25]> m)) by (apply stack_map; [done|done|unfold KERNEL_STACK_TOP; lia]).
  assert (HP : Z.testbit (Z.lor (cr0 p) 0x80000000) 31 = true) by by rewrite Z.lor_spec, orb_true_r.
  cbn [loc esp cr4 phys]. split; [done|]. split; [split; [done|]|].
  - replace (stack_top - 12 + KERNEL_START_VIRT + 4) with (stack_top - 8 + KERNEL_START_VIRT) by lia.
    replace (stack_top - 12 + KERNEL_START_VIRT + 8) with (stack_top - 4 + KERNEL_START_VIRT) by lia.
    rewrite !read_high; try done; unfold MAPPED, KERNEL_STACK_TOP; [|lia..]. cbn [phys]. split; [apply lookup_insert_eq|].
    split; (rewrite lookup_insert_ne by (intros Q%vir_inj; unfold KERNEL_STACK_TOP in *; lia)); unfold m; rewrite filled_out; unfold page_table, KERNEL_STACK_TOP; try lia; try done.
    + apply lookup_insert_eq.
    + rewrite lookup_insert_ne by (intros Q%vir_inj; lia). apply lookup_insert_eq.
  - split; [|split; [intros leaf1; apply cr4_extensions|]].
    + intros va Hva. unfold translate, paging_on. cbn [cr0 cr3 phys]. rewrite HP. by apply boot_map_address.
    + intros a Har N1 N2 N3. rewrite lookup_insert_ne by (intros Q%vir_inj; unfold KERNEL_STACK_TOP in *; lia). unfold m. rewrite filled_out by done.
      by rewrite !lookup_insert_ne by (intros Q%vir_inj; unfold KERNEL_STACK_TOP in *; lia).
Qed.

(** C9: start-up in assembly.  Entered with the loader's two values in EAX and EBX
    and paging off, the code reaches [kernel_main] without a fault.  The C
    function finds its return address and the two values as its arguments on the
    stack, read through the processor's new translation: the first 4 MiB of
    memory at their own addresses and again at 0xC0000000, and nothing else.  The
    page-size and global-page extensions are on wherever the processor has them,
    and memory outside the directory, the table and the three stack words is as
    it was. *)
Theorem start_correct (p : processor) :
  linked -> loc p = At 0 -> paging_on p = false -> (forall k, 0 <= k < 1024 -> phys p !! PHY_TO_VIR (page_directory + k * 4) = Some 0) ->
  exists p', run BOOT_FUEL p = Some p' /\ loc p' = Entered kernel_main /\
    (esp p' = stack_top - 12 + KERNEL_START_VIRT /\ read_word (esp p') p' = Some (address 25) /\
     read_word (esp p' + 4) p' = Some (eax p) /\ read_word (esp p' + 8) p' = Some (ebx p)) /\
    (forall va, 0 <= va < 4294967296 -> translate p' va = boot_address va) /\
    (forall leaf1, x86_paging_pse_enabled leaf1 (cr4 p') = cpuid_check_pse leaf1 /\ x86_paging_pge_enabled leaf1 (cr4 p') = cpuid_check_pge leaf1) /\
    (forall a, 0 <= a < 4294967296 -> ~ (page_directory <= a < page_directory + 4096) -> ~ (table <= a < table + 4096) -> ~ (stack_top - 12 <= a < stack_top) ->
       phys p' !! PHY_TO_VIR a = phys p !! PHY_TO_VIR a).
Proof using. exact (start_spec p). Qed.

End Boot.

(** An image at 1 MiB. *)
Definition image_address (i : nat) : Z := 0x105000 + 4 * Z.of_nat (i `min` 25).

Lemma image_linked : linked 0x101000 0x106000 image_address.
Proof.
  split; [by exists 0x101|done| |by right|]; unfold KERNEL_STACK_TOP, MAPPED, image_address; [by exists 0x10600|lia].
Qed.

Definition image_memory : gmap Z Z := list_to_map ((fun k => (PHY_TO_VIR (0x101000 + k * 4), 0)) <$> seqZ 0 1024).

Lemma image_directory k : 0 <= k < 1024 -> image_memory !! PHY_TO_VIR (0x101000 + k * 4) = Some 0.
Proof.
  intros Hk. assert (HF : forallb (fun k => bool_decide (image_memory !! PHY_TO_VIR (0x101000 + k * 4) = Some 0)) (seqZ 0 1024) = true) by (vm_compute; reflexivity).
  rewrite forallb_forall in HF. eapply bool_decide_eq_true_1, HF, list_elem_of_In, elem_of_seqZ. lia.
Qed.

(** The loader's magic number and a structure at 64 KiB. *)
Lemma start_correct_witness : exists p', boot 0x101000 0x106000 0xC0110000 image_address BOOT_FUEL
    (Processor MULTIBOOT_BOOTLOADER_MAGIC 0x10000 0 0 0x11 0 0 false (At 0) image_memory) = Some p' /\
  read_word 0xC010DFF8 p' = Some MULTIBOOT_BOOTLOADER_MAGIC /\ read_word 0xC010DFFC p' = Some 0x10000 /\ translate p' 0xC0110000 = Some 0x110000.
Proof.
  destruct (start_correct 0x101000 0x106000 0xC0110000 image_address
    (Processor MULTIBOOT_BOOTLOADER_MAGIC 0x10000 0 0 0x11 0 0 false (At 0) image_memory) image_linked eq_refl eq_refl image_directory)
    as (p' & E & _ & (Es & _ & E1 & E2) & HT & _). exists p'. rewrite Es in E1, E2. split; [exact E|]. split; [exact E1|]. split; [exact E2|].
  rewrite HT by lia. reflexivity.
Defined.
