(* ===== verification/StartUp.v ===== *)
(** * Starting the memory system (arch_init in arch/x86/kernel/init.c)

    The part of [arch_init] that brings memory up: the boot loader's memory map
    is parsed into bootmem, the kernel's page directory is built and loaded, the
    page array is set up, and the remaining memory goes to the page allocator.
    The theorem composes the components: from a memory map to an allocator. *)

From stdpp Require Import base numbers list gmap.
From Stdlib Require Import ZArith Lia.
From S2P Require Import Prelude LinkedList CString PageDefs Bootmem BootmemSpec Blocks Palloc BuddyInv PageAlloc Boot PageClaims PageSource Slab Ptable PtableSpec VmSpec Multiboot MultibootSpec.

#[local] Open Scope Z_scope.

(** The state these steps share: early memory, kernel memory, the page
    allocator and CR3. *)
Record boot_state : Type := BootState {
  bs_bootmem : bootmem;
  bs_words : gmap Z Z;
  bs_buddy : buddy;
  bs_cr3 : Z
}.

Definition on_bootmem {A} (f : ST bootmem A) : ST boot_state A :=
  fun s => match f (bs_bootmem s) with
           | Some (a, bm) => Some (a, BootState bm (bs_words s) (bs_buddy s) (bs_cr3 s))
           | None => None
           end.

(** [paging_init] also yields the new value of CR3. *)
Definition on_paging (f : Z -> ST (bootmem * gmap Z Z) (Z * Z)) : ST boot_state Z :=
  fun s => match f (bs_cr3 s) (bs_bootmem s, bs_words s) with
           | Some ((r, cr3), (bm, w)) => Some (r, BootState bm w (bs_buddy s) cr3)
           | None => None
           end.

Definition on_pages {A} (f : ST (bootmem * buddy) A) : ST boot_state A :=
  fun s => match f (bs_bootmem s, bs_buddy s) with
           | Some (a, (bm, b)) => Some (a, BootState bm (bs_words s) b (bs_cr3 s))
           | None => None
           end.

(** From [multiboot_parse] to [bootmem_mark_free]. *)
Definition init_memory (KERNEL_PHYS_START KERNEL_PHYS_END : Z) (m : bytes) (mboot_magic : Z) (info : multiboot_info)
    (pse pge : bool) (kernel_pgd : Z) : ST boot_state Z :=
  (r <- on_bootmem (multiboot_parse KERNEL_PHYS_START KERNEL_PHYS_END m mboot_magic info) ;;
   if r =? 0 then ret E_ERROR else
   r <- on_paging (paging_init pse pge kernel_pgd) ;;
   if negb (SUCCESS r) then ret E_ERROR else
   highest <- on_bootmem bootmem_highest_pfn ;;
   r <- on_pages (buddy_init KERNEL_PHYS_START highest) ;;
   if negb (SUCCESS r) then ret E_ERROR else
   r <- on_pages bootmem_mark_free ;;
   if negb (SUCCESS r) then ret E_ERROR else
   ret E_SUCCESS)%st.

(** ** One region of memory around the kernel *)

Section One.
  Context (KS KE : Z) (e : multiboot_mmap_entry).

  Abbreviation ks := (PAGE_ALIGN KS).
  Abbreviation ke := (PAGE_ALIGN KE).

(** The page-aligned bounds of the entry. *)
Definition entry_start : Z := PAGE_ALIGN (u32 (e_addr e)).

Definition entry_end : Z := PAGE_ALIGN_DOWN (u32 (u64 (e_addr e + e_len e))).

(** The entry surrounds the kernel's end and does not start at address 0. *)
Record surrounds : Prop := Surrounds {
  su_kernel : ks < ke;
  su_appropriate : appropriate KE e = true;
  su_start : 0 < entry_start < ke;
  su_end : ke < entry_end
}.

Context (HS : surrounds).

Lemma entry_end_word : 0 <= entry_end < 4294967296 /\ (4096 | entry_end).
Proof using.
  pose proof (u32_range (u64 (e_addr e + e_len e))) as Hr. destruct (PAGE_ALIGN_DOWN_word _ Hr) as [H1 H2].
  fold entry_end in H1, H2. split; [lia|done].
Qed.

Lemma slot_run st en ty bm i : find_slot (mem_regions bm) = Some i ->
  add_region_slot st en ty bm =
    (E_SUCCESS, Bootmem (<[i := MemRegion st en st ty]> (mem_regions bm)) (Z.max (highest_pfn bm) (PA_TO_PFN en))
                  (u32 (region_count bm + 1))).
Proof using.
  intros Ei. unfold add_region_slot. cbv zeta. destruct (Z.ltb_spec (highest_pfn bm) (PA_TO_PFN en)); cbn [mem_regions with_highest];
    rewrite Ei; cbn [highest_pfn region_count with_highest]; do 3 f_equal; lia.
Qed.

Lemma add_first : exists bm, bootmem_add_mem_region KS KE (u32 (e_addr e)) (u32 (u64 (e_addr e + e_len e))) MEM_REGION_AVAILABLE
    bootmem_init = Some (E_SUCCESS, bm) /\
  highest_pfn bm = entry_end / 4096 /\ region_count bm <> 0 /\
  MemRegion ke entry_end ke MEM_REGION_AVAILABLE ∈ mem_regions bm.
Proof using HS.
  destruct HS as [Hk Hap [Hs0 Hs] He]. pose proof entry_end_word as [Hen Hed].
  pose proof (PAGE_ALIGN_word KS) as [Hks Dks]. pose proof (PAGE_ALIGN_word KE) as [Hke Dke].
  pose proof (PAGE_ALIGN_word (u32 (e_addr e))) as [Hst Dst]. fold entry_start in Hst, Dst.
  rewrite (add_accept KS KE Hk); [|apply u32_range|]; fold entry_start entry_end.
  2:{ unfold add_rejected. fold entry_start entry_end. change (region_count bootmem_init =? MAX_MEM_REGIONS) with false.
      change (valid_type MEM_REGION_AVAILABLE) with true. bool_cases. }
  assert (Et : Z.max 0 (PA_TO_PFN entry_end) = entry_end / 4096).
  { rewrite PA_TO_PFN_eq by lia. apply Z.max_r, Z.div_pos; lia. }
  destruct (Z.ltb_spec entry_start ks), (Z.ltb_spec ke entry_end); try lia; cbn [andb].
  - rewrite (bind_some _ _ _ _ _ (eq_trans (add_part KS KE Hk 0 entry_start ks MEM_REGION_AVAILABLE bootmem_init
      ltac:(lia) ltac:(lia) Dst Dks ltac:(lia) eq_refl) (f_equal Some (slot_run _ _ _ bootmem_init 0%nat eq_refl)))).
    set (b1 := Bootmem _ _ _).
    assert (Hf : find_slot (mem_regions b1) = Some 1%nat).
    { unfold b1. cbn [mem_regions bootmem_init bootmem_reset]. change (replicate (Z.to_nat MAX_MEM_REGIONS) zero_region) with (replicate 16 zero_region). cbn [replicate insert list_insert find_slot start_addr]. destruct (Z.eqb_spec entry_start 0); [lia|vm_compute; reflexivity]. }
    rewrite (bind_some _ _ _ _ _ (eq_trans (add_part KS KE Hk 0 ke entry_end MEM_REGION_AVAILABLE b1
      ltac:(lia) ltac:(lia) Dke Hed ltac:(lia) eq_refl) (f_equal Some (slot_run _ _ _ b1 1%nat Hf)))).
    eexists. split; [done|]. split_and!; [|cbn; vm_compute; discriminate|by apply (list_elem_of_lookup_2 _ 1)].
    cbn [highest_pfn b1 bootmem_init bootmem_reset]. rewrite PA_TO_PFN_eq in Et by lia. rewrite !PA_TO_PFN_eq by lia.
    assert (ks / 4096 <= entry_end / 4096) by (apply Z.div_le_mono; lia). assert (0 <= ks / 4096) by (apply Z.div_pos; lia). lia.
  - destruct (Z.ltb_spec entry_start ke); [|lia]. cbn [andb].
    rewrite (slot_run _ _ _ bootmem_init 0%nat eq_refl). eexists. split; [done|].
    split_and!; [exact Et|cbn; vm_compute; discriminate|by apply (list_elem_of_lookup_2 _ 0)].
Qed.

(** The memory behind the kernel is one region of bootmem, and what is
    registered is what the entry offers. *)
Lemma register_first : exists bm, register_entry KS KE e bootmem_init = Some (tt, bm) /\
  bm_ok ks ke bm /\ bm_disjoint bm /\ (forall a, in_regions bm a -> entry_offers KS KE e a) /\
  highest_pfn bm = entry_end / 4096 /\ region_count bm <> 0 /\
  MemRegion ke entry_end ke MEM_REGION_AVAILABLE ∈ mem_regions bm.
Proof using HS.
  destruct HS as [Hk Hap [Hs0 Hs] He]. destruct add_first as (bm & E & H1 & H2 & H3).
  pose proof (PAGE_ALIGN_word KS) as [Hks _].
  assert (Hno : forall a, ~ in_regions bootmem_init a).
  { intros a (r & Hr & Ha). apply (elem_of_replicate 16) in Hr as [-> _]. unfold in_region in Ha. cbn in Ha. lia. }
  destruct (bootmem_add_safe KS KE Hk (u32 (e_addr e)) (u32 (u64 (e_addr e + e_len e))) MEM_REGION_AVAILABLE bootmem_init)
    as (res & bm' & E' & HB & HG1 & HG2).
  { apply bootmem_init_ok. lia. }
  { apply u32_range. }
  { fold entry_end. lia. }
  rewrite E in E'. injection E' as <- <-. exists bm. rewrite register_entry_eq by done. split_and!; try done.
  - by st_step E.
  - apply HG2; [apply bm_init_disjoint|]. intros a _. apply Hno.
  - intros a Ha. destruct (HG1 a Ha) as [Hi|Ho]; [by apply Hno in Hi|by split].
Qed.

End One.

(** Enough memory behind the kernel for the page tables, [k] pages of page array
    and [j] pages more, all of it inside the linear mapping, ending at a multiple
    of the largest block. *)
Record enough (KE : Z) (e : multiboot_mmap_entry) (k j : nat) : Prop := Enough {
  en_linear : entry_end e <= LINEAR_FRAMES * 4096;
  en_blocks : (64 | entry_end e / 4096);
  en_array : entry_end e / 4096 * 24 <= 4096 * Z.of_nat k;
  en_room : PAGE_ALIGN KE + 4096 * Z.of_nat (64 + (k + j)) <= entry_end e
}.

Lemma parse_single KS KE m info es e :
  surrounds KS KE e -> filter (fun e => appropriate KE e = true) es = [e] ->
  TEST_BIT (mb_flags info) MULTIBOOT_INFO_MEM_MAP = true ->
  map_at m (mmap_addr info) es -> mmap_length info = map_length es ->
  0 <= mmap_addr info -> mmap_addr info + map_length es < 4294967296 ->
  exists bm, multiboot_parse KS KE m MULTIBOOT_BOOTLOADER_MAGIC info bootmem_init = Some (1, bm) /\
    bm_ok (PAGE_ALIGN KS) (PAGE_ALIGN KE) bm /\ bm_disjoint bm /\ (forall a, in_regions bm a -> entry_offers KS KE e a) /\
    highest_pfn bm = entry_end e / 4096 /\ region_count bm <> 0 /\
    MemRegion (PAGE_ALIGN KE) (entry_end e) (PAGE_ALIGN KE) MEM_REGION_AVAILABLE ∈ mem_regions bm.
Proof.
  intros HS Hf Hfl HM Hlen Ha Hend. destruct (register_first KS KE e HS) as (bm & E & HF). exists bm. split; [|exact HF].
  unfold multiboot_parse. rewrite Z.eqb_refl, Hfl, Hlen, u32_small by (pose proof (map_length_nonneg _ _ _ HM); lia). cbn [negb].
  assert (Hw : mmap_walk KS KE (str_fuel m) m (mmap_addr info) (mmap_addr info + map_length es) bootmem_init = Some (tt, bm)).
  { rewrite mmap_walk_spec by (done || by eapply map_fuel). rewrite register_all_filter, Hf. cbn [register_all]. by st_step E. }
  by st_step Hw.
Qed.

Lemma some_fst {X Y} (a a' : X) (b b' : Y) : Some (a, b) = Some (a', b') -> a' = a.
Proof. by intros [= ->]. Qed.

Lemma buddy_init_code KS n st r st' : buddy_init KS n st = Some (r, st') -> r = E_SUCCESS.
Proof.
  destruct st as [bm s]. unfold buddy_init. destruct (bootmem_alloc _ _ _) as [[[?|] ?]|]; [|discriminate..].
  apply some_fst.
Qed.

(** The four steps, one after the other. *)
Lemma init_memory_run KS KE m info pge q w b0 cr3 bm1 bm2 w2 bm3 b3 :
  0 < q < LINEAR_FRAMES ->
  multiboot_parse KS KE m MULTIBOOT_BOOTLOADER_MAGIC info bootmem_init = Some (1, bm1) ->
  paging_setup_kernel_pgd true pge (lin q) (bm1, w) = Some (tt, (bm2, w2)) ->
  boot_pages KS (bm2, b0) = Some (E_SUCCESS, (bm3, b3)) ->
  init_memory KS KE m MULTIBOOT_BOOTLOADER_MAGIC info true pge (lin q) (BootState bootmem_init w b0 cr3) =
    Some (E_SUCCESS, BootState bm3 w2 b3 (q * 4096)).
Proof.
  intros Hq E1 E2 E3. unfold boot_pages in E3. cbn [fst] in E3. apply bind_inv in E3 as (r3 & [bm3' s3] & E4 & E5).
  assert (r3 = E_SUCCESS) as -> by by apply buddy_init_code in E4.
  assert (S1 : on_bootmem (multiboot_parse KS KE m MULTIBOOT_BOOTLOADER_MAGIC info) (BootState bootmem_init w b0 cr3)
    = Some (1, BootState bm1 w b0 cr3)) by (unfold on_bootmem; cbn [bs_bootmem]; by rewrite E1).
  assert (S2 : on_paging (paging_init true pge (lin q)) (BootState bm1 w b0 cr3) = Some (E_SUCCESS, BootState bm2 w2 b0 (q * 4096))).
  { unfold on_paging. cbn [bs_cr3 bs_bootmem bs_words]. by rewrite (paging_init_run _ _ _ _ _ _ Hq E2). }
  assert (S3 : on_bootmem bootmem_highest_pfn (BootState bm2 w2 b0 (q * 4096)) = Some (highest_pfn bm2, BootState bm2 w2 b0 (q * 4096)))
    by reflexivity.
  assert (S4 : on_pages (buddy_init KS (highest_pfn bm2)) (BootState bm2 w2 b0 (q * 4096)) = Some (E_SUCCESS, BootState bm3' w2 s3 (q * 4096)))
    by (unfold on_pages; cbn [bs_bootmem bs_buddy]; by rewrite E4).
  assert (S5 : on_pages bootmem_mark_free (BootState bm3' w2 s3 (q * 4096)) = Some (E_SUCCESS, BootState bm3 w2 b3 (q * 4096)))
    by (unfold on_pages; cbn [bs_bootmem bs_buddy]; by rewrite E5).
  unfold init_memory. st_step S1. change (1 =? 0) with false. cbv iota. st_step S2.
  change (negb (SUCCESS E_SUCCESS)) with false. cbv iota. st_step S3. st_step S4.
  change (negb (SUCCESS E_SUCCESS)) with false. cbv iota. by st_step S5.
Qed.

(** Room in a region is pages of it. *)
Lemma room_pages ks ke bm j : early_ok ks ke bm -> ks < ke -> room j bm ->
  exists a r, 0 <= a /\ r ∈ mem_regions bm /\ forall x, a <= x < a + Z.of_nat j -> region_page r x.
Proof.
  intros [HB _ HL] Hk (r & a & Hr & Ht & [u ->] & Hs & He). destruct (bo_region _ _ _ HB r Hr) as (R1 & R2 & _).
  destruct (decide (j = 0%nat)) as [->|Hj]; [exists 0, r; split_and!; [lia|done|lia]|].
  exists u, r. assert (0 <= u) by lia. split_and!; [done|done|]. intros x Hx. pose proof (bo_top _ _ _ HB). unfold LINEAR_FRAMES in HL.
  unfold region_page. rewrite PAGE_ALIGN_eq, PAGE_ALIGN_DOWN_eq by lia. destruct (bo_region _ _ _ HB r Hr) as (_ & _ & [e R3] & _).
  pose proof (Z.mod_pos_bound (- start_addr r) 4096 ltac:(lia)). pose proof (Z.div_mod (- start_addr r) 4096 ltac:(lia)).
  rewrite R3, Z.mod_mul by lia. split; [lia|]. split; [|lia]. nia.
Qed.

Lemma init_memory_spec (KS KE q : Z) (pge : bool) (k j : nat) (m : bytes) (info : multiboot_info)
    (es : list multiboot_mmap_entry) (e : multiboot_mmap_entry) (w : gmap Z Z) (b0 : buddy) (cr3 : Z) :
  surrounds KS KE e -> enough KE e k j -> (0 < k)%nat -> filter (fun e => appropriate KE e = true) es = [e] ->
  TEST_BIT (mb_flags info) MULTIBOOT_INFO_MEM_MAP = true ->
  map_at m (mmap_addr info) es -> mmap_length info = map_length es ->
  0 <= mmap_addr info -> mmap_addr info + map_length es < 4294967296 ->
  0 < q < LINEAR_FRAMES -> PAGE_ALIGN KS <= q * 4096 -> (q + 1) * 4096 <= PAGE_ALIGN KE ->
  exists bm1 bm2 w2 bm3 b3 F, multiboot_parse KS KE m MULTIBOOT_BOOTLOADER_MAGIC info bootmem_init = Some (1, bm1) /\
    paging_setup_kernel_pgd true pge (lin q) (bm1, w) = Some (tt, (bm2, w2)) /\
    boot_pages KS (bm2, b0) = Some (E_SUCCESS, (bm3, b3)) /\
    kernel_half w2 (lin q) /\
    (forall i, 0 <= i < 768 -> w2 !! (lin q + 4 * i) = w !! (lin q + 4 * i)) /\
    (forall i, 768 <= i < 1024 -> is_Some (w2 !! (lin q + 4 * i))) /\
    allocator b3 F ∅ /\ page_count b3 = entry_end e / 4096 /\
    (forall x, free_page F x <-> exists r, r ∈ mem_regions bm3 /\ region_page r x) /\
    (forall x b, free_page F x -> x * 4096 <= b < x * 4096 + 4096 -> entry_offers KS KE e b) /\
    exists a, 0 <= a /\ forall x, a <= x < a + Z.of_nat j -> free_page F x.
Proof.
  intros HS HN Hk0 Hf Hfl HM Hlen Ha Hend Hq Hks Hke. destruct HN as [N1 N2 N3 N4].
  destruct (parse_single KS KE m info es e HS Hf Hfl HM Hlen Ha Hend) as (bm1 & E1 & HB1 & HD1 & Hin1 & Htop & Hcnt & Hreg).
  assert (HE : early_ok (PAGE_ALIGN KS) (PAGE_ALIGN KE) bm1).
  { constructor; [done|done|]. rewrite Htop. apply Z.div_le_upper_bound; lia. }
  assert (HR : room (64 + (k + j)) bm1).
  { eexists _, (PAGE_ALIGN KE). split; [exact Hreg|]. cbn. split_and!; [done|apply PAGE_ALIGN_word|lia|lia|exact N4]. }
  destruct (kernel_pgd_spec (k + j) _ _ pge q bm1 w HE HR ltac:(lia) Hks Hke)
    as (bm2 & w2 & E2 & (Hmap & _ & Hu & Hkw) & HE2 & HR2 & [Sh1 Sh2] & Hsub).
  pose proof HE2 as [HB2 HD2 HL2]. pose proof HR2 as (r & x & Hr & Ht & Hx & Hs & He).
  destruct (boot_pages_spec KS _ _ bm2 b0 HB2 HD2) as (area & bm3 & b3 & F & Ea & E3 & HA & Epc & HF & Hfree);
    [by rewrite Sh2| | |exists r; split_and!; [done|done|lia|rewrite Sh1, Htop; lia]|].
  { rewrite Sh1, Htop. intros E0. pose proof (su_end _ _ _ HS). pose proof (PAGE_ALIGN_word KE) as [Hw _].
    pose proof (Z.div_str_pos (entry_end e) 4096). lia. }
  { by rewrite Sh1, Htop. }
  exists bm1, bm2, w2, bm3, b3, F. split_and!; try done.
  - by rewrite Epc, Sh1, Htop.
  - intros y b Hy Hb. destruct (Hfree y b Hy Hb) as (H1 & _). by apply Hin1, Hsub.
  - assert (HR3 : room j bm3).
    { assert (Hpc : highest_pfn bm2 = entry_end e / 4096) by (by rewrite Sh1, Htop).
      assert (0 < entry_end e / 4096).
      { pose proof (su_end _ _ _ HS). pose proof (PAGE_ALIGN_word KE) as [Hw _]. pose proof (entry_end_word e) as [? [u Eu]].
        rewrite Eu, Z.div_mul; lia. }
      apply (alloc_room _ _ 0 (highest_pfn bm2 * 24) k j bm2 (PHY_TO_VIR area) bm3 HE2); [lia|lia|exact HR2|exact Ea]. }
    assert (HE3 : early_ok (PAGE_ALIGN KS) (PAGE_ALIGN KE) bm3).
    { pose proof (bo_top _ _ _ HB2). destruct (bootmem_alloc_spec _ _ (highest_pfn bm2 * 24) 0 bm2 HB2 HD2) as [(a' & r' & bm' & E' & _ & _ & _ & _ & HB' & HD' & Eh & _)|[E' _]]; [lia..| |].
      - rewrite Z.pow_0_r, Ea in E'. injection E' as _ <-. by constructor; [done|done|rewrite Eh].
      - rewrite Z.pow_0_r, Ea in E'. discriminate E'. }
    destruct (room_pages _ _ bm3 j HE3 (su_kernel _ _ _ HS) HR3) as (a & r' & Ha0 & Hr' & Hp). exists a. split; [done|].
    intros y Hy. apply HF. exists r'. split; [done|]. by apply Hp.
Qed.

(** Memory start-up, end to end.  On a machine whose memory map has one
    available entry around the kernel with enough memory behind it, [arch_init]'s
    memory steps succeed: CR3 holds the kernel's directory, the hardware maps the
    kernel's addresses linearly, the page allocator is at rest with nothing
    allocated and a page for every frame up to the end of the entry, its free
    pages are the whole pages bootmem has left, and every byte of every free page
    is memory of that entry outside the kernel image, and [j] of them follow each
    other. *)
Theorem init_memory_correct (KS KE q : Z) (pge : bool) (k j : nat) (m : bytes) (info : multiboot_info)
    (es : list multiboot_mmap_entry) (e : multiboot_mmap_entry) (w : gmap Z Z) (b0 : buddy) (cr3 : Z) :
  surrounds KS KE e -> enough KE e k j -> (0 < k)%nat -> filter (fun e => appropriate KE e = true) es = [e] ->
  TEST_BIT (mb_flags info) MULTIBOOT_INFO_MEM_MAP = true ->
  map_at m (mmap_addr info) es -> mmap_length info = map_length es ->
  0 <= mmap_addr info -> mmap_addr info + map_length es < 4294967296 ->
  0 < q < LINEAR_FRAMES -> PAGE_ALIGN KS <= q * 4096 -> (q + 1) * 4096 <= PAGE_ALIGN KE ->
  exists s' F, init_memory KS KE m MULTIBOOT_BOOTLOADER_MAGIC info true pge (lin q) (BootState bootmem_init w b0 cr3)
      = Some (E_SUCCESS, s') /\
    bs_cr3 s' = q * 4096 /\
    (forall va, KERNEL_START_VIRT <= va < KMAP_START_VIRT -> mmu_address (bs_words s') (lin q) va = Some (va - KERNEL_START_VIRT)) /\
    allocator (bs_buddy s') F ∅ /\ page_count (bs_buddy s') = entry_end e / 4096 /\
    (forall x, free_page F x <-> exists r, r ∈ mem_regions (bs_bootmem s') /\ region_page r x) /\
    (forall x b, free_page F x -> x * 4096 <= b < x * 4096 + 4096 -> entry_offers KS KE e b) /\
    exists a, 0 <= a /\ forall x, a <= x < a + Z.of_nat j -> free_page F x.
Proof.
  intros HS HN Hk0 Hf Hfl HM Hlen Ha Hend Hq Hks Hke.
  destruct (init_memory_spec KS KE q pge k j m info es e w b0 cr3 HS HN Hk0 Hf Hfl HM Hlen Ha Hend Hq Hks Hke)
    as (bm1 & bm2 & w2 & bm3 & b3 & F & E1 & E2 & E3 & Hmap & _ & _ & HA & Epc & HF & Hoff & Hj).
  exists (BootState bm3 w2 b3 (q * 4096)), F. split; [by eapply init_memory_run|]. split_and!; try done. intros va Hv. by apply kernel_address.
Qed.

Lemma init_memory_correct_witness : exists s' F,
  init_memory 0x100000 0x107800 example_memory MULTIBOOT_BOOTLOADER_MAGIC example_info true true (lin 256)
    (BootState bootmem_init ∅ blank 0) = Some (E_SUCCESS, s') /\ allocator (bs_buddy s') F ∅ /\ page_count (bs_buddy s') = 8192.
Proof.
  destruct (init_memory_correct 0x100000 0x107800 256 true 48 1024 example_memory example_info example_map
    (MmapEntry 20 0x100000 0x1F00000 1) ∅ blank 0) as (s' & F & E & _ & _ & HA & Hp & _).
  - constructor; vm_compute; try split; reflexivity.
  - constructor; [vm_compute; discriminate|exists 128; reflexivity|vm_compute; discriminate|vm_compute; discriminate].
  - lia.
  - vm_compute. reflexivity.
  - reflexivity.
  - exact example_map_at.
  - reflexivity.
  - cbn. lia.
  - cbn. lia.
  - unfold LINEAR_FRAMES. lia.
  - vm_compute. discriminate.
  - vm_compute. discriminate.
  - exists s', F. split; [exact E|]. split; [exact HA|exact Hp].
Defined.
