(* ===== verification/Interrupts.v ===== *)
(** * Descriptor tables, interrupts and the keyboard

    arch/x86/kernel/gdt.c, cpu.c, interrupts.c, pic8259.c, timer.c, keyboard.c,
    kernel/drivers/input/keyboard/keyboard.c and the spinlock of sync.c.
    Interaction with the hardware is a trace of events, in the order the code
    produces them; text output is an event that names the message. *)

From stdpp Require Import base numbers list gmap strings.
From Stdlib Require Import ZArith Lia.
From S2P Require Import Prelude PageDefs Task.

#[local] Open Scope Z_scope.

(** ** The global descriptor table *)

Record gdt_entry : Type := GdtEntry {
  limit_low : Z;
  base_low : Z;
  base_middle : Z;
  access_flags : Z;
  granularity : Z;
  base_high : Z
}.

Definition gdt_encode_entry (base limit fl access : Z) : gdt_entry :=
  let base_low := Z.land base 0xFFFF in
  let base_middle := Z.land (Z.shiftr base 16) 0xFF in
  let base_high := Z.land (Z.shiftr base 24) 0xFF in
  let limit := if TEST_BIT fl 0x80 then Z.shiftr limit 12 else limit in
  let limit_low := Z.land limit 0xFFFF in
  let granularity := Z.land (Z.shiftr limit 16) 0x0F in
  let granularity := Z.lor granularity (Z.land fl 0xF0) in
  let granularity := Z.lor granularity (Z.land fl 0xF0) in
  GdtEntry limit_low base_low base_middle access granularity base_high.

(** The processor's reading of a descriptor: base, limit in bytes. *)
Definition gdt_base (e : gdt_entry) : Z := base_low e + 65536 * base_middle e + 16777216 * base_high e.

Definition gdt_limit (e : gdt_entry) : Z :=
  let raw := limit_low e + 65536 * (granularity e mod 16) in
  if Z.testbit (granularity e) 7 then raw * 4096 + 4095 else raw.

Definition GDT_ENTRY_COUNT : Z := 7.
Definition GDT_ENTRY_NULL : Z := 0.
Definition GDT_ENTRY_KERNEL_CODE : Z := 1.
Definition GDT_ENTRY_KERNEL_DATA : Z := 2.
Definition GDT_ENTRY_USER_CODE : Z := 3.
Definition GDT_ENTRY_USER_DATA : Z := 4.
Definition GDT_ENTRY_TSS : Z := 5.
Definition GDT_ENTRY_CPU_INFO : Z := 6.

Definition GDT_ACCESS_TYPE_SEGMENT : Z := 0x10.
Definition GDT_ACCESS_PRESENT : Z := 0x80.
Definition GDT_ACCESS_PRIV_KERNEL : Z := 0x00.
Definition GDT_ACCESS_PRIV_USER : Z := 0x60.
Definition GDT_ACCESS_EXECUTABLE : Z := 0x08.
Definition GDT_ACCESS_DATA : Z := 0x00.
Definition GDT_ACCESS_DIRECTION_UP : Z := 0x00.
Definition GDT_ACCESS_NONCONFORMING : Z := 0x00.
Definition GDT_ACCESS_READABLE : Z := 0x02.
Definition GDT_ACCESS_WRITABLE : Z := 0x02.

Definition lor_all (l : list Z) : Z := foldr Z.lor 0 l.

(** [sizeof(struct tss)] and [sizeof(struct cpu_info)]. *)
Definition SIZEOF_TSS : Z := 104.

(** The processor state [cpu_init] leaves: the table, the descriptor register
    and the selector in GS. *)
Record cpu_tables : Type := CpuTables {
  gdt : gmap Z gdt_entry;
  gdt_address : Z;
  gdt_size : Z;
  tss_ss0 : Z;
  gs : Z
}.

(** [cpu_init_gdt]: the addresses of the table, of the task state segment and of
    the self pointer, and the size of [struct cpu_info], are parameters. *)
Definition cpu_init_gdt (gdt_addr tss_addr self_addr sizeof_cpu_info : Z) (c : cpu_tables) : cpu_tables :=
  let g := gdt c in
  let g := <[GDT_ENTRY_KERNEL_CODE := gdt_encode_entry 0x00000000 0xFFFFFFFF 0xCF
              (lor_all [GDT_ACCESS_TYPE_SEGMENT; GDT_ACCESS_PRESENT; GDT_ACCESS_PRIV_KERNEL; GDT_ACCESS_EXECUTABLE;
                        GDT_ACCESS_NONCONFORMING; GDT_ACCESS_READABLE])]> g in
  let g := <[GDT_ENTRY_KERNEL_DATA := gdt_encode_entry 0x00000000 0xFFFFFFFF 0xCF
              (lor_all [GDT_ACCESS_TYPE_SEGMENT; GDT_ACCESS_PRESENT; GDT_ACCESS_PRIV_KERNEL; GDT_ACCESS_DATA;
                        GDT_ACCESS_DIRECTION_UP; GDT_ACCESS_WRITABLE])]> g in
  let g := <[GDT_ENTRY_USER_CODE := gdt_encode_entry 0x00000000 0xFFFFFFFF 0xCF
              (lor_all [GDT_ACCESS_TYPE_SEGMENT; GDT_ACCESS_PRESENT; GDT_ACCESS_PRIV_USER; GDT_ACCESS_EXECUTABLE;
                        GDT_ACCESS_NONCONFORMING; GDT_ACCESS_READABLE])]> g in
  let g := <[GDT_ENTRY_USER_DATA := gdt_encode_entry 0x00000000 0xFFFFFFFF 0xCF
              (lor_all [GDT_ACCESS_TYPE_SEGMENT; GDT_ACCESS_PRESENT; GDT_ACCESS_PRIV_USER; GDT_ACCESS_DATA;
                        GDT_ACCESS_DIRECTION_UP; GDT_ACCESS_WRITABLE])]> g in
  let g := <[GDT_ENTRY_TSS := gdt_encode_entry tss_addr SIZEOF_TSS 0x40 0x89]> g in
  let g := <[GDT_ENTRY_CPU_INFO := gdt_encode_entry self_addr (sizeof_cpu_info - 1) 0x4F
              (lor_all [GDT_ACCESS_TYPE_SEGMENT; GDT_ACCESS_PRESENT; GDT_ACCESS_PRIV_KERNEL; GDT_ACCESS_DATA;
                        GDT_ACCESS_DIRECTION_UP; GDT_ACCESS_WRITABLE])]> g in
  CpuTables g gdt_addr (u16 (8 * GDT_ENTRY_COUNT - 1)) GDT_KERNEL_DATA_OFFSET (u16 (Z.shiftl GDT_ENTRY_CPU_INFO 3)).

(** ** The interrupt descriptor table *)

Record idt_gate : Type := IdtGate {
  low_offset : Z;
  segment_selector : Z;
  gate_reserved : Z;
  gate_type : Z;
  gate_s : Z;
  dpl : Z;
  present : Z;
  high_offset : Z
}.

Definition LOW_16 (address : Z) : Z := Z.land address 0xFFFF.

Definition HIGH_16 (address : Z) : Z := Z.land (Z.shiftr address 16) 0xFFFF.

Definition IDT_TYPE_32_INT : Z := 0x0E.
Definition IDT_DPL_KERNEL : Z := 0x00.
Definition IDT_DPL_USER : Z := 0x03.

(** [idt[int_num] = ...]: the array has 256 gates. *)
Definition set_idt_gate (int_num handle_addr d : Z) (idt : list idt_gate) : option (list idt_gate) :=
  if (0 <=? int_num) && (int_num <? Z.of_nat (length idt)) then
    Some (<[Z.to_nat int_num := IdtGate (LOW_16 handle_addr) GDT_KERNEL_CODE_OFFSET 0 IDT_TYPE_32_INT 0
                                  (Z.land d 3) 1 (HIGH_16 handle_addr)]> idt)
  else None.

Fixpoint set_gates (l : list (Z * Z)) (isr : Z -> Z) (idt : list idt_gate) : option (list idt_gate) :=
  match l with
  | [] => Some idt
  | (i, d) :: r => match set_idt_gate i (isr i) d idt with Some idt => set_gates r isr idt | None => None end
  end.

(** [idt_init]; [isr i] is the address of the assembly stub [isr<i>]. *)
Definition idt_init (isr : Z -> Z) (idt : list idt_gate) : option (list idt_gate) :=
  set_gates (((fun i => (Z.of_nat i, IDT_DPL_KERNEL)) <$> seq 0 48) ++ [(64, IDT_DPL_USER)]) isr idt.

(** [idt_load]: the descriptor loaded with [lidt]; a gate has 8 bytes. *)
Definition idt_load (idt_addr : Z) : Z * Z := (idt_addr, u16 (256 * 8 - 1)).

(** The address a gate transfers control to. *)
Definition gate_target (g : idt_gate) : Z := low_offset g + 65536 * high_offset g.

(** ** Events *)

Inductive event : Type :=
  | PortOut (port data : Z)
  | CallHandler (addr : Z)
  | PageFault
  | Log (message : string)
  | LogWord (label : string) (v : Z)
  | DebugBreak.

Definition IO_PORT_PIC1_CMD : Z := 0x0020.
Definition IO_PORT_PIC1_DATA : Z := 0x0021.
Definition IO_PORT_PIC2_CMD : Z := 0x00A0.
Definition IO_PORT_PIC2_DATA : Z := 0x00A1.
Definition IO_PORT_PIT_CHAN_0 : Z := 0x40.
Definition IO_PORT_PIT_CMD : Z := 0x43.

Definition PIC_MASTER_OFFSET : Z := 32.
Definition PIC_SLAVE_OFFSET : Z := 40.
Definition IO_CMD_PIC_EOI : Z := 0x20.
Definition IO_CMD_PIC_ICW1_ICW4 : Z := 0x01.
Definition IO_CMD_PIC_ICW1_INIT : Z := 0x10.
Definition IO_CMD_PIC_ICW3_MASTER : Z := 0x04.
Definition IO_CMD_PIC_ICW3_SLAVE : Z := 0x02.
Definition IO_CMD_PIC_ICW4_8086_MODE : Z := 0x01.

Definition io_port_out (port data : Z) : event := PortOut (u16 port) (u8 data).

Definition pic_send_eoi (irq : Z) : list event :=
  (if 8 <=? u8 irq then [io_port_out IO_PORT_PIC2_CMD IO_CMD_PIC_EOI] else []) ++
  [io_port_out IO_PORT_PIC1_CMD IO_CMD_PIC_EOI].

Definition pic_init (master_offset slave_offset : Z) : list event :=
  [io_port_out IO_PORT_PIC1_CMD (Z.lor IO_CMD_PIC_ICW1_INIT IO_CMD_PIC_ICW1_ICW4);
   io_port_out IO_PORT_PIC2_CMD (Z.lor IO_CMD_PIC_ICW1_INIT IO_CMD_PIC_ICW1_ICW4);
   io_port_out IO_PORT_PIC1_DATA master_offset;
   io_port_out IO_PORT_PIC2_DATA slave_offset;
   io_port_out IO_PORT_PIC1_DATA IO_CMD_PIC_ICW3_MASTER;
   io_port_out IO_PORT_PIC2_DATA IO_CMD_PIC_ICW3_SLAVE;
   io_port_out IO_PORT_PIC1_DATA IO_CMD_PIC_ICW4_8086_MODE;
   io_port_out IO_PORT_PIC2_DATA IO_CMD_PIC_ICW4_8086_MODE;
   io_port_out IO_PORT_PIC1_DATA 0x00;
   io_port_out IO_PORT_PIC2_DATA 0x00].

(** ** Dispatching an interrupt *)

Definition MAX_INTERRUPT_HANDLERS : Z := 256.
Definition INT_PAGE_FAULT : Z := 14.
Definition INT_PIT : Z := 32.
Definition INT_KEYBOARD : Z := 33.
Definition INT_SYSCALL : Z := 64.

(** [interrupt_handlers], with 0 for NULL. *)
Definition register_interrupt_handler (int_num handler_addr : Z) (handlers : list Z) : option (list Z) :=
  if (0 <=? int_num) && (int_num <? Z.of_nat (length handlers))
  then Some (<[Z.to_nat int_num := handler_addr]> handlers) else None.

(** The message [isr_handler] prints for an exception, if it has one. *)
Definition exception_message (int_num : Z) : list event :=
  match nth_error
    ["[isr] Interrupt 0: Divide by Zero"; "[isr] Interrupt 1: Single Step"; "[isr] Interrupt 2: Non-Maskable (NMI)";
     "[isr] Interrupt 3: Breakpoint"; "[isr] Interrupt 4: Overflow Trap"; "[isr] Interrupt 5: Bound Range Exceeded";
     "[isr] Interrupt 6: Invalid Opcode"; "[isr] Interrupt 7: Coprocessor Not Available";
     "[isr] Interrupt 8: Double Fault Exception"; "[isr] Interrupt 9: Coprocessor Segment Overrun";
     "[isr] Interrupt 10: Invalid Task State Segment (TSS)"; "[isr] Interrupt 11: Segment Not Present";
     "[isr] Interrupt 12: Stack Exception"; "[isr] Interrupt 13: General Protection Exception";
     "[isr] Interrupt 14: Page Fault"]%string (Z.to_nat int_num) with
  | Some s => [Log s]
  | None => []
  end.

Record registers : Type := Registers {
  r_eax : Z; r_ebx : Z; r_ecx : Z; r_edx : Z; r_esi : Z; r_edi : Z;
  r_eip : Z; r_esp : Z; r_cs : Z; r_eflags : Z; r_int_num : Z; r_error_code : Z
}.

Definition register_dump (r : registers) : list event :=
  [LogWord "[isr] Error Code" (r_error_code r); Log "Registers"; Log "---------";
   LogWord "EAX" (r_eax r); LogWord "EBX" (r_ebx r); LogWord "ECX" (r_ecx r); LogWord "EDX" (r_edx r);
   LogWord "ESI" (r_esi r); LogWord "EDI" (r_edi r); LogWord "EIP" (r_eip r); LogWord "ESP" (r_esp r);
   LogWord "CS" (r_cs r); LogWord "EFLAGS" (r_eflags r)].

(** The page-fault part of the dump, [cr2] being the faulting address. *)
Definition page_fault_report (cr2 : Z) (r : registers) : list event :=
  let err := r_error_code r in
  let present := Z.land err 0x1 in
  let write := Z.land (Z.shiftr err 1) 0x1 in
  let user := Z.land (Z.shiftr err 2) 0x1 in
  let rsvd_write := Z.land (Z.shiftr err 3) 0x1 in
  let ins_fetch := Z.land (Z.shiftr err 4) 0x1 in
  let pkey := Z.land (Z.shiftr err 5) 0x1 in
  let shadow_stack := Z.land (Z.shiftr err 6) 0x1 in
  [LogWord "Unhandled page fault at" cr2] ++
  (if present =? 1 then [Log "The fault was caused by a page-level protection violation."]
   else [Log "The fault was caused by a non-present page."]) ++
  (if negb (write =? 0) then [Log "The access causing the fault was a write."]
   else [Log "The access causing the fault was a read."]) ++
  (if negb (user =? 0) then [Log "A user-mode access caused the fault."]
   else [Log "A supervisor-mode access caused the fault."]) ++
  (if negb (rsvd_write =? 0) then [Log "The fault was caused by a reserved bit set to 1 in some page entry."] else []) ++
  (if negb (ins_fetch =? 0) then [Log "The fault was caused by an instruction fetch."] else []) ++
  (if negb (pkey =? 0) then [Log "There was a protection-key violation."] else []) ++
  (if negb (shadow_stack =? 0) then [Log "The fault was caused by a shadow-stack access."] else []).

(** [isr_handler]; an interrupt number past the end of the handler array is an
    out-of-bounds read ([None]). *)
Definition isr_handler (handlers : list Z) (cr2 : Z) (r : registers) : option (list event) :=
  let int_num := r_int_num r in
  let early := if int_num =? INT_PIT then pic_send_eoi int_num else [] in
  match handlers !! Z.to_nat int_num with
  | None => None
  | Some handler =>
      let called := if negb (handler =? 0) then [CallHandler handler] else [] in
      if (0 <=? int_num) && (int_num <? 32) then
        if int_num =? INT_PAGE_FAULT then Some (early ++ called ++ [PageFault] ++ pic_send_eoi int_num)
        else Some (early ++ called ++ exception_message int_num ++ register_dump r ++
                   (if int_num =? INT_PAGE_FAULT then page_fault_report cr2 r else []) ++
                   [DebugBreak] ++ pic_send_eoi int_num)
      else Some (early ++ called ++ pic_send_eoi int_num)
  end.

(** ** The timer *)

Definition timer_divisor : Z := 1193180 / 1.

Definition timer_init (timer_tick : Z) (handlers : list Z) : option (list event * list Z) :=
  match register_interrupt_handler INT_PIT timer_tick handlers with
  | Some hs => Some ([io_port_out IO_PORT_PIT_CMD 0x36;
                      io_port_out IO_PORT_PIT_CHAN_0 (u8 (Z.land timer_divisor 0xFF));
                      io_port_out IO_PORT_PIT_CHAN_0 (u8 (Z.land (Z.shiftr timer_divisor 8) 0xFF))], hs)
  | None => None
  end.

(** The count the timer chip ends up with: two bytes. *)
Definition timer_programmed : Z := Z.land timer_divisor 0xFF + 256 * Z.land (Z.shiftr timer_divisor 8) 0xFF.

(** [timer_tick]: the tick count goes up, then the scheduler runs. *)
Definition timer_tick {P} `{PageSource.PageSource P} (task_head : Z) (ticks : Z) : ST (sched P) Z :=
  let ticks := u64 (ticks + 1) in
  (task_schedule task_head ;; ret ticks)%st.

(** ** The keyboard *)

Definition KEY_ENTER : Z := 0x1C.
Definition KEY_BACKSPACE : Z := 0x0E.

(** The characters of the rows of keys whose scan codes are consecutive. *)
Definition keyboard_translate_scan_code (scan_code : Z) : Z :=
  match scan_code with
  | 0x01 => 0x00 | 0x02 => 0x02
  | 0x03 => 50 | 0x04 => 51 | 0x05 => 52 | 0x06 => 53 | 0x07 => 54 | 0x08 => 55 | 0x09 => 56 | 0x0A => 57 | 0x0B => 48
  | 0x0C => 45 | 0x0D => 61 | 0x0E => 0x0E | 0x0F => 0x0F
  | 0x10 => 113 | 0x11 => 119 | 0x12 => 101 | 0x13 => 114 | 0x14 => 116 | 0x15 => 121 | 0x16 => 117 | 0x17 => 105
  | 0x18 => 111 | 0x19 => 112 | 0x1A => 91 | 0x1B => 93 | 0x1C => 0x1C | 0x1D => 0x1D
  | 0x1E => 97 | 0x1F => 115 | 0x20 => 100 | 0x21 => 102 | 0x22 => 103 | 0x23 => 104 | 0x24 => 106 | 0x25 => 107
  | 0x26 => 108 | 0x27 => 59 | 0x28 => 39 | 0x29 => 96 | 0x2A => 0x2A | 0x2B => 92
  | 0x2C => 122 | 0x2D => 120 | 0x2E => 99 | 0x2F => 118 | 0x30 => 98 | 0x31 => 110 | 0x32 => 109
  | 0x33 => 44 | 0x34 => 46 | 0x35 => 47 | 0x36 => 0x36 | 0x37 => 42 | 0x38 => 0x38 | 0x39 => 32
  | 0x3A => 0x3A | 0x3B => 0x3B | 0x3C => 0x3C
  | _ => 0x00
  end.

(** [keyboard_register_handler]: the first free slot of the 256, 0 being NULL;
    with no free slot it still reports success. *)
Fixpoint first_free (l : list Z) : option nat :=
  match l with
  | [] => None
  | h :: r => if h =? 0 then Some O else S <$> first_free r
  end.

Definition keyboard_register_handler (handler_addr : Z) (handlers : list Z) : Z * list Z :=
  match first_free handlers with
  | Some i => (E_SUCCESS, <[i := handler_addr]> handlers)
  | None => (E_SUCCESS, handlers)
  end.

(** [keyboard_handle_input]: the calls made, handler and key, in order. *)
Definition keyboard_handle_input (keypress : Z) (handlers : list Z) : list (Z * Z) :=
  let key := u8 (keyboard_translate_scan_code keypress) in
  (fun h => (h, key)) <$> filter (fun h => h <> 0) handlers.

Definition x86_driver_keyboard_isr (port_value : Z) (handlers : list Z) : list (Z * Z) :=
  let keypress := u8 port_value in
  keyboard_handle_input keypress handlers.

Definition arch_keyboard_init (isr : Z) (handlers : list Z) : option (list Z) :=
  register_interrupt_handler INT_KEYBOARD isr handlers.

Definition keyboard_init (isr : Z) (handlers : list Z) : option (Z * list Z) :=
  (fun hs => (E_SUCCESS, hs)) <$> arch_keyboard_init isr handlers.

(** ** The spinlock (arch/x86/kernel/sync.c)

    Processors that enter and leave critical sections with [lock] and [unlock]:
    each turn of the loop of [lock] is one atomic test-and-set. *)

Inductive spin_pc : Type := Outside | Spinning | Critical.

Record spin_state : Type := SpinState { flag : bool; pcs : gmap nat spin_pc }.

Inductive spin_step : spin_state -> spin_state -> Prop :=
  | spin_enter f m i : m !! i = Some Outside -> spin_step (SpinState f m) (SpinState f (<[i := Spinning]> m))
  | spin_fail m i : m !! i = Some Spinning -> spin_step (SpinState true m) (SpinState true m)
  | spin_acquire m i : m !! i = Some Spinning -> spin_step (SpinState false m) (SpinState true (<[i := Critical]> m))
  | spin_release f m i : m !! i = Some Critical -> spin_step (SpinState f m) (SpinState false (<[i := Outside]> m)).
