(* ===== verification/InterruptClaims.v ===== *)
(** * Theorems about descriptor tables, interrupt dispatch, the keyboard and the
      spinlock *)

From stdpp Require Import base numbers list gmap strings.
From Stdlib Require Import ZArith Lia.
From S2P Require Import Prelude PageDefs Task Interrupts.

#[local] Open Scope Z_scope.

(** ** Field arithmetic *)

Lemma land_mask x k : 0 <= k -> Z.land x (Z.ones k) = x mod 2 ^ k.
Proof. apply Z.land_ones. Qed.

Lemma split_word x : 0 <= x < 4294967296 ->
  Z.land x 0xFFFF + 65536 * Z.land (Z.shiftr x 16) 0xFF + 16777216 * Z.land (Z.shiftr x 24) 0xFF = x.
Proof.
  intros Hx. change 0xFFFF with (Z.ones 16). change 0xFF with (Z.ones 8). rewrite !land_mask, !Z.shiftr_div_pow2 by lia.
  change (2 ^ 16) with 65536. change (2 ^ 8) with 256. change (2 ^ 24) with 16777216.
  rewrite (Z.mod_small (x / 16777216)) by (split; [apply Z.div_pos; lia|apply Z.div_lt_upper_bound; lia]).
  change 16777216 with (65536 * 256). rewrite <- Z.div_div by lia.
  pose proof (Z.div_mod x 65536 ltac:(lia)). pose proof (Z.div_mod (x / 65536) 256 ltac:(lia)). lia.
Qed.

Lemma split_limit x : 0 <= x < 1048576 -> Z.land x 0xFFFF + 65536 * Z.land (Z.shiftr x 16) 0x0F = x.
Proof.
  intros Hx. change 0xFFFF with (Z.ones 16). change 0x0F with (Z.ones 4). rewrite !land_mask, !Z.shiftr_div_pow2 by lia.
  change (2 ^ 16) with 65536. change (2 ^ 4) with 16.
  rewrite (Z.mod_small (x / 65536)) by (split; [apply Z.div_pos; lia|apply Z.div_lt_upper_bound; lia]).
  pose proof (Z.div_mod x 65536 ltac:(lia)). lia.
Qed.


(** The low nibble from the limit, the high one from the flags. *)
Lemma granularity_split y fl : 0 <= y < 16 -> 0 <= fl < 256 ->
  Z.lor (Z.lor y (Z.land fl 0xF0)) (Z.land fl 0xF0) mod 16 = y /\
  Z.lor (Z.lor y (Z.land fl 0xF0)) (Z.land fl 0xF0) / 16 = fl / 16 /\
  Z.testbit (Z.lor (Z.lor y (Z.land fl 0xF0)) (Z.land fl 0xF0)) 7 = TEST_BIT fl 0x80.
Proof.
  intros Hy Hf.
  assert (HC : forallb (fun y => forallb (fun fl =>
    let g := Z.lor (Z.lor y (Z.land fl 0xF0)) (Z.land fl 0xF0) in
    (g mod 16 =? y) && (g / 16 =? fl / 16) && Bool.eqb (Z.testbit g 7) (TEST_BIT fl 0x80))
    (Z.of_nat <$> seq 0 256)) (Z.of_nat <$> seq 0 16) = true) by (vm_compute; reflexivity).
  assert (Hin : forall (k : nat) x, 0 <= x < Z.of_nat k -> In x (Z.of_nat <$> seq 0 k)).
  { intros k x Hx. apply list_elem_of_In, list_elem_of_fmap. exists (Z.to_nat x). split; [lia|]. apply elem_of_seq. lia. }
  rewrite forallb_forall in HC. specialize (HC y (Hin 16%nat y ltac:(lia))). rewrite forallb_forall in HC.
  specialize (HC fl (Hin 256%nat fl ltac:(lia))). cbv zeta in HC.
  apply andb_true_iff in HC as [HC H3]. apply andb_true_iff in HC as [H1 H2].
  apply Z.eqb_eq in H1, H2. apply Bool.eqb_prop in H3. done.
Qed.

(** Segment descriptors.  The processor reads back from the entry
    [gdt_encode_entry] writes exactly the base it was given, the limit (in whole
    4 KiB pages when the granularity flag is set), the flag nibble and the
    access byte. *)
Theorem gdt_encode_correct (base limit fl access : Z) :
  0 <= base < 4294967296 -> 0 <= limit < 4294967296 -> 0 <= fl < 256 ->
  TEST_BIT fl 0x80 = true \/ limit < 1048576 ->
  let e := gdt_encode_entry base limit fl access in
  gdt_base e = base /\
  gdt_limit e = (if TEST_BIT fl 0x80 then limit / 4096 * 4096 + 4095 else limit) /\
  granularity e / 16 = fl / 16 /\ access_flags e = access.
Proof.
  intros Hb Hl Hf HG e. set (l := if TEST_BIT fl 0x80 then Z.shiftr limit 12 else limit).
  assert (Hl' : 0 <= l < 1048576).
  { unfold l. destruct (TEST_BIT fl 0x80); [|lia]. rewrite Z.shiftr_div_pow2 by lia. change (2 ^ 12) with 4096.
    split; [apply Z.div_pos; lia|apply Z.div_lt_upper_bound; lia]. }
  assert (Hn : 0 <= Z.land (Z.shiftr l 16) 0x0F < 16) by (apply (land_range _ _ 4); lia).
  destruct (granularity_split _ fl Hn Hf) as (G1 & G2 & G3).
  split_and!; [by apply split_word| |done|done].
  unfold gdt_limit, e, gdt_encode_entry. cbn [limit_low granularity]. fold l. rewrite G1, G3, split_limit by done.
  unfold l. destruct (TEST_BIT fl 0x80); [|done]. rewrite Z.shiftr_div_pow2 by lia. done.
Qed.

Lemma gdt_encode_correct_witness :
  let e := gdt_encode_entry 0 0xFFFFFFFF 0xCF 0x9A in
  gdt_base e = 0 /\ gdt_limit e = 0xFFFFFFFF /\ granularity e / 16 = 0xC /\ access_flags e = 0x9A.
Proof.
  apply (gdt_encode_correct 0 0xFFFFFFFF 0xCF 0x9A); [lia|lia|lia|left; reflexivity].
Defined.

(** ** The interrupt descriptor table *)

Lemma set_gates_spec isr l : forall idt,
  length idt = 256%nat -> (forall i d, (i, d) ∈ l -> 0 <= i < 256) -> NoDup l.*1 ->
  exists idt', set_gates l isr idt = Some idt' /\ length idt' = 256%nat /\
    (forall i d, (i, d) ∈ l -> idt' !! Z.to_nat i = Some (IdtGate (LOW_16 (isr i)) GDT_KERNEL_CODE_OFFSET 0 IDT_TYPE_32_INT 0
       (Z.land d 3) 1 (HIGH_16 (isr i)))) /\
    (forall j : nat, Z.of_nat j ∉ l.*1 -> idt' !! j = idt !! j).
Proof.
  induction l as [|[i d] l IH]; intros idt Hl Hr ND; cbn [set_gates].
  { exists idt. split_and!; [done|done|set_solver|done]. }
  assert (Hi : 0 <= i < 256) by (apply (Hr i d); set_solver). apply NoDup_cons in ND as [Hn ND].
  unfold set_idt_gate. rewrite Hl. change (Z.of_nat 256) with 256.
  assert ((0 <=? i) && (i <? 256) = true) as ->. { apply andb_true_iff. split; [apply Z.leb_le; lia|apply Z.ltb_lt; lia]. }
  destruct (IH (<[Z.to_nat i := IdtGate (LOW_16 (isr i)) GDT_KERNEL_CODE_OFFSET 0 IDT_TYPE_32_INT 0 (Z.land d 3) 1 (HIGH_16 (isr i))]> idt))
    as (idt' & E & Hl' & Hin & Hout); [by rewrite length_insert|intros j e Hj; apply (Hr j e); set_solver|done|].
  exists idt'. split_and!; [done|done| |].
  - intros j e [[= -> ->]|Hj]%elem_of_cons; [|by apply Hin]. rewrite Hout by (rewrite Z2Nat.id by lia; exact Hn).
    rewrite list_lookup_insert_eq; [done|]. rewrite Hl. lia.
  - intros j Hj. rewrite Hout by set_solver. apply list_lookup_insert_ne. intros <-. apply Hj. cbn. rewrite Z2Nat.id by lia. set_solver.
Qed.

Lemma gate_target_eq a d : 0 <= a < 4294967296 ->
  gate_target (IdtGate (LOW_16 a) GDT_KERNEL_CODE_OFFSET 0 IDT_TYPE_32_INT 0 d 1 (HIGH_16 a)) = a.
Proof.
  intros Ha. unfold gate_target, LOW_16, HIGH_16. cbn [low_offset high_offset]. change 0xFFFF with (Z.ones 16).
  rewrite !land_mask, Z.shiftr_div_pow2 by lia. change (2 ^ 16) with 65536.
  rewrite (Z.mod_small (a / 65536)) by (split; [apply Z.div_pos; lia|apply Z.div_lt_upper_bound; lia]).
  pose proof (Z.div_mod a 65536 ltac:(lia)). lia.
Qed.

(** Interrupt gates.  [idt_init] succeeds on the 256-gate table; afterwards
    gates 0 to 47 are present kernel-only interrupt gates to their own stubs,
    gate 64 is the one gate user code may invoke, and no other gate changed. *)
Theorem idt_init_correct (isr : Z -> Z) (idt : list idt_gate) :
  length idt = 256%nat -> (forall i, 0 <= isr i < 4294967296) ->
  exists idt', idt_init isr idt = Some idt' /\ length idt' = 256%nat /\
    (forall i, 0 <= i < 48 \/ i = 64 -> exists g, idt' !! Z.to_nat i = Some g /\ gate_target g = isr i /\
       present g = 1 /\ gate_type g = IDT_TYPE_32_INT /\ segment_selector g = GDT_KERNEL_CODE_OFFSET /\
       dpl g = (if i =? 64 then IDT_DPL_USER else IDT_DPL_KERNEL)) /\
    (forall j : nat, (48 <= j)%nat -> j <> 64%nat -> idt' !! j = idt !! j).
Proof.
  intros Hl Hisr. set (l := ((fun i => (Z.of_nat i, IDT_DPL_KERNEL)) <$> seq 0 48) ++ [(64, IDT_DPL_USER)]).
  assert (Hm : forall i d, (i, d) ∈ l <-> (0 <= i < 48 /\ d = IDT_DPL_KERNEL) \/ (i = 64 /\ d = IDT_DPL_USER)).
  { intros i d. unfold l. rewrite elem_of_app, list_elem_of_fmap, list_elem_of_singleton. split.
    - intros [(k & [= -> ->] & Hk%elem_of_seq)|[= -> ->]]; [left; split; [lia|done]|by right].
    - intros [[Hi ->]|[-> ->]]; [|by right]. left. exists (Z.to_nat i). rewrite Z2Nat.id by lia. split; [done|]. apply elem_of_seq. lia. }
  assert (ND : NoDup l.*1) by (apply (bool_decide_unpack _); vm_compute; exact I).
  destruct (set_gates_spec isr l idt Hl) as (idt' & E & Hl' & Hin & Hout); [|done|].
  { intros i d Hid. apply Hm in Hid. lia. }
  exists idt'. split_and!; [exact E|done| |].
  - intros i Hi. assert (exists d, (i, d) ∈ l /\ Z.land d 3 = if i =? 64 then IDT_DPL_USER else IDT_DPL_KERNEL) as (d & Hd & Ed).
    { destruct Hi as [Hi| ->]; [|exists IDT_DPL_USER; split; [apply Hm; by right|done]].
      exists IDT_DPL_KERNEL. split; [apply Hm; by left|]. by destruct (Z.eqb_spec i 64); [lia|]. }
    eexists. split; [by apply Hin|]. by rewrite gate_target_eq.
  - intros j Hj Hj'. apply Hout. intros ([i d] & Ei & Hid)%list_elem_of_fmap. cbn in Ei. apply Hm in Hid. lia.
Qed.

Lemma idt_init_correct_witness : exists idt', idt_init (fun i => 0x100000 + 16 * u8 i) (replicate 256 (IdtGate 0 0 0 0 0 0 0 0)) = Some idt' /\
  length idt' = 256%nat.
Proof.
  destruct (idt_init_correct (fun i => 0x100000 + 16 * u8 i) (replicate 256 (IdtGate 0 0 0 0 0 0 0 0))) as (idt' & E & Hl & _).
  - reflexivity.
  - intros i. pose proof (u8_range i). lia.
  - exists idt'. split; [exact E|exact Hl].
Defined.

(** ** Dispatch *)

Definition eoi_pair : list event :=
  [PortOut IO_PORT_PIC2_CMD IO_CMD_PIC_EOI; PortOut IO_PORT_PIC1_CMD IO_CMD_PIC_EOI].

(** Interrupt dispatch.  Every interrupt from 32 to 255 runs its registered
    handler exactly once, or nothing when there is none, and then acknowledges
    both controllers, even one that only the master raised and even a system
    call; the timer's is acknowledged before its handler as well, so twice.  A
    page fault runs the fault handler and is acknowledged too; any other
    exception ends in a debug break. *)
Theorem isr_handler_correct (handlers : list Z) (cr2 : Z) (r : registers) (h : Z) :
  handlers !! Z.to_nat (r_int_num r) = Some h -> 0 <= r_int_num r < 256 ->
  let call := if h =? 0 then [] else [CallHandler h] in
  (32 <= r_int_num r -> r_int_num r <> INT_PIT -> isr_handler handlers cr2 r = Some (call ++ eoi_pair)) /\
  (r_int_num r = INT_PIT -> isr_handler handlers cr2 r = Some (eoi_pair ++ call ++ eoi_pair)) /\
  (r_int_num r = INT_PAGE_FAULT -> isr_handler handlers cr2 r = Some (call ++ [PageFault] ++ eoi_pair)) /\
  (r_int_num r < 32 -> r_int_num r <> INT_PAGE_FAULT -> exists tr, isr_handler handlers cr2 r = Some tr /\ DebugBreak ∈ tr /\ PageFault ∉ tr).
Proof.
  intros Eh Hr call. unfold isr_handler, INT_PIT, INT_PAGE_FAULT. rewrite Eh.
  assert (Ecall : (if negb (h =? 0) then [CallHandler h] else []) = call) by (unfold call; by destruct (h =? 0)). rewrite Ecall.
  assert (Hpic : 8 <= r_int_num r -> pic_send_eoi (r_int_num r) = eoi_pair).
  { intros H8. unfold pic_send_eoi. rewrite u8_small by lia. by destruct (Z.leb_spec 8 (r_int_num r)); [|lia]. }
  assert (Hc : forall e, e ∈ call -> e = CallHandler h) by (unfold call; destruct (h =? 0); set_solver).
  split_and!.
  - intros H32 Hne. rewrite Hpic by lia. destruct (Z.eqb_spec (r_int_num r) 32); [done|].
    destruct (Z.leb_spec 0 (r_int_num r)), (Z.ltb_spec (r_int_num r) 32); cbn [andb]; try lia. done.
  - intros E. rewrite Hpic by lia. rewrite E. done.
  - intros E. rewrite Hpic by lia. rewrite E. done.
  - intros Hlt Hne. destruct (Z.eqb_spec (r_int_num r) 32); [lia|].
    destruct (Z.leb_spec 0 (r_int_num r)), (Z.ltb_spec (r_int_num r) 32); cbn [andb]; try lia.
    destruct (Z.eqb_spec (r_int_num r) 14); [done|]. eexists. split; [done|]. split; [set_solver|].
    rewrite !elem_of_app. intros [Hx|[Hx|[Hx|[Hx|[Hx|Hx]]]]].
    + set_solver.
    + apply Hc in Hx. discriminate Hx.
    + unfold exception_message in Hx. destruct (nth_error _ _); set_solver.
    + unfold register_dump in Hx. set_solver.
    + set_solver.
    + unfold pic_send_eoi, io_port_out in Hx. destruct (_ <=? _); set_solver.
Qed.

Definition timer_registers : registers := Registers 0 0 0 0 0 0 0 0 0 0 32 0.

Lemma isr_handler_correct_witness : isr_handler (replicate 256 0x5000) 0 timer_registers =
  Some (eoi_pair ++ [CallHandler 0x5000] ++ eoi_pair).
Proof. apply (isr_handler_correct (replicate 256 0x5000) 0 timer_registers 0x5000); [reflexivity|cbn; lia|reflexivity]. Defined.

(** ** Keyboard *)

(** Key translation.  Exactly four pairs of keys give the same character:
    both shift keys, left Alt and F1 are reported as the digits or signs whose
    ASCII code happens to equal their scan code (left shift types an asterisk,
    right shift a 6, Alt an 8, F1 a semicolon), besides the codes that have no
    character at all; the key 1 has no digit. *)
Theorem keyboard_collisions (a b : Z) :
  0 <= a < 256 -> 0 <= b < 256 -> a < b -> keyboard_translate_scan_code a <> 0 ->
  keyboard_translate_scan_code a = keyboard_translate_scan_code b ->
  (a, b) ∈ [(0x07, 0x36); (0x09, 0x38); (0x27, 0x3B); (0x2A, 0x37)].
Proof.
  intros Ha Hb Hab Hn E.
  assert (HC : forallb (fun a => forallb (fun b =>
    negb ((a <? b) && negb (keyboard_translate_scan_code a =? 0) && (keyboard_translate_scan_code a =? keyboard_translate_scan_code b))
    || bool_decide ((a, b) ∈ [(0x07, 0x36); (0x09, 0x38); (0x27, 0x3B); (0x2A, 0x37)]))
    (Z.of_nat <$> seq 0 256)) (Z.of_nat <$> seq 0 256) = true) by (vm_compute; reflexivity).
  assert (Hin : forall x, 0 <= x < 256 -> In x (Z.of_nat <$> seq 0 256)).
  { intros x Hx. apply list_elem_of_In, list_elem_of_fmap. exists (Z.to_nat x). split; [lia|]. apply elem_of_seq. lia. }
  rewrite forallb_forall in HC. specialize (HC a (Hin a Ha)). rewrite forallb_forall in HC. specialize (HC b (Hin b Hb)).
  apply orb_true_iff in HC as [HC|HC]; [|by apply bool_decide_eq_true in HC]. exfalso. apply negb_true_iff in HC.
  rewrite E, Z.eqb_refl, andb_true_r in HC. destruct (Z.ltb_spec a b); [|lia]. cbn [andb] in HC.
  apply negb_false_iff, Z.eqb_eq in HC. congruence.
Qed.

Lemma keyboard_collisions_witness : (0x07, 0x36) ∈ [(0x07, 0x36); (0x09, 0x38); (0x27, 0x3B); (0x2A, 0x37)] /\
  keyboard_translate_scan_code 0x36 = 54 /\ keyboard_translate_scan_code 0x02 <> 49.
Proof.
  split; [|split; [reflexivity|discriminate]]. apply (keyboard_collisions 0x07 0x36); [lia|lia|lia|discriminate|reflexivity].
Defined.

(** ** The spinlock *)

(** At most one processor is inside, and the flag says whether one is. *)
Definition spin_inv (s : spin_state) : Prop :=
  (flag s = true <-> exists i, pcs s !! i = Some Critical) /\
  forall i j, pcs s !! i = Some Critical -> pcs s !! j = Some Critical -> i = j.

Lemma spin_step_inv s s' : spin_step s s' -> spin_inv s -> spin_inv s'.
Proof.
  intros HS [HF HU]. destruct HS as [f m i Ei|m i Ei|m i Ei|f m i Ei]; cbn in *.
  - assert (Hc : forall j, <[i := Spinning]> m !! j = Some Critical <-> m !! j = Some Critical).
    { intros j. destruct (decide (i = j)) as [<-|]; [rewrite lookup_insert_eq, Ei; split; discriminate|by rewrite lookup_insert_ne]. }
    split; cbn; [rewrite HF; by setoid_rewrite Hc|]. intros j k. rewrite !Hc. apply HU.
  - done.
  - assert (Hno : forall j, m !! j <> Some Critical) by (intros j E; by assert (false = true) by (apply HF; eauto)).
    split; cbn; [split; [intros _; exists i; by rewrite lookup_insert_eq|done]|].
    assert (Hc : forall j, <[i := Critical]> m !! j = Some Critical -> j = i).
    { intros j. destruct (decide (i = j)) as [<-|]; [done|]. rewrite lookup_insert_ne by done. intros E. by apply Hno in E. }
    intros j k Hj Hk. by rewrite (Hc j Hj), (Hc k Hk).
  - assert (Hc : forall j, <[i := Outside]> m !! j <> Some Critical).
    { intros j. destruct (decide (i = j)) as [<-|Hne]; [by rewrite lookup_insert_eq|]. rewrite lookup_insert_ne by done.
      intros E. by apply Hne, HU. }
    split; cbn; [split; [discriminate|intros [j Hj]; by apply Hc in Hj]|]. intros j k Hj. by apply Hc in Hj.
Qed.

(** C32: mutual exclusion.  In every state that processors starting outside the
    lock can reach by any interleaving of the steps of [lock] and [unlock], at
    most one is inside its critical section, and the flag is set exactly when
    one is. *)
Theorem spinlock_exclusion (m : gmap nat spin_pc) (s : spin_state) :
  (forall i p, m !! i = Some p -> p = Outside) -> rtc spin_step (SpinState false m) s ->
  (forall i j, pcs s !! i = Some Critical -> pcs s !! j = Some Critical -> i = j) /\
  (flag s = true <-> exists i, pcs s !! i = Some Critical).
Proof.
  intros Hm HR. assert (HI : spin_inv (SpinState false m)).
  { split; cbn; [split; [discriminate|intros [i Hi]; by apply Hm in Hi]|]. intros i j Hi. by apply Hm in Hi. }
  assert (HS : spin_inv s); [|by destruct HS]. clear Hm. induction HR as [s|s1 s2 s3 H12 _ IH]; [done|]. apply IH. by eapply spin_step_inv.
Qed.

(** Two processors, the first of which has taken the lock. *)
Definition one_inside : spin_state :=
  SpinState true (<[0%nat := Critical]> (<[0%nat := Spinning]> {[0%nat := Outside; 1%nat := Outside]})).

Lemma spinlock_exclusion_witness : pcs one_inside !! 0%nat = Some Critical /\
  (flag one_inside = true <-> exists i, pcs one_inside !! i = Some Critical).
Proof.
  split; [reflexivity|]. apply (spinlock_exclusion {[0%nat := Outside; 1%nat := Outside]} one_inside).
  - intros i p. rewrite lookup_insert_Some, lookup_singleton_Some. intros [[_ <-]|[_ [_ <-]]]; reflexivity.
  - eapply rtc_l; [apply (spin_enter false _ 0%nat); reflexivity|].
    eapply rtc_l; [apply (spin_acquire _ 0%nat); reflexivity|]. apply rtc_refl.
Defined.
