(* ===== verification/Cpu.v ===== *)
(** * Per-processor data (arch/x86/kernel/cpu.c, include/arch/cpu.h,
      reload-segments.asm)

    [cpu_init] clears the structure of the processor, builds its descriptor table
    and points GS at the structure's own address, so that [cpu_get_local] finds
    the structure with one load through GS.  How the processor turns a selector
    and an offset into an address is written from the architecture's rules. *)

From stdpp Require Import base numbers list gmap.
From Stdlib Require Import ZArith Lia.
From S2P Require Import Prelude PageDefs Task Interrupts InterruptClaims.

#[local] Open Scope Z_scope.

(** Offsets in [struct cpu_info]: the task state segment is packed and follows
    the byte [sched_enabled], the descriptors are aligned to 8. *)
Definition CPU_CURRENT_TASK : Z := 4.
Definition CPU_TSS : Z := 9.
Definition CPU_GDT_ENTRIES : Z := 128.
Definition CPU_SELF : Z := 184.
Definition SIZEOF_CPU_INFO : Z := 192.

(** [struct cpu_info]; [cpu_tables] holds the descriptors and the selector in GS. *)
Record cpu_info : Type := CpuInfo {
  cpu_id : Z;
  cpu_task : Z;
  cpu_sched_enabled : Z;
  cpu_esp0 : Z;
  cpu_desc : cpu_tables;
  cpu_self : Z
}.

Definition zero_entry : gdt_entry := GdtEntry 0 0 0 0 0 0.

(** [memset(&cpu0, 0, sizeof(struct cpu_info))]; GS is a register. *)
Definition cpu_cleared (gs : Z) : cpu_info :=
  CpuInfo 0 0 0 0 (CpuTables (list_to_map ((fun i => (Z.of_nat i, zero_entry)) <$> seq 0 7)) 0 0 0 gs) 0.

(** [cpu_init], the structure being at address [cpu0]. *)
Definition cpu_init (cpu0 : Z) (c : cpu_info) : Z * cpu_info :=
  let c := cpu_cleared (gs (cpu_desc c)) in
  let c := CpuInfo 0 (cpu_task c) (cpu_sched_enabled c) (cpu_esp0 c) (cpu_desc c) cpu0 in
  let t := cpu_init_gdt (cpu0 + CPU_GDT_ENTRIES) (cpu0 + CPU_TSS) (cpu0 + CPU_SELF) SIZEOF_CPU_INFO (cpu_desc c) in
  (E_SUCCESS, CpuInfo (cpu_id c) (cpu_task c) (cpu_sched_enabled c) (cpu_esp0 c) t (cpu_self c)).

(** ** The processor's view *)

(** The descriptor a selector names; selectors 0 to 3 name none. *)
Definition segment_of (g : gmap Z gdt_entry) (sel : Z) : option gdt_entry :=
  if Z.shiftr sel 3 =? 0 then None else g !! Z.shiftr sel 3.

Definition entry_present (e : gdt_entry) : bool := Z.testbit (access_flags e) 7.

Definition entry_dpl (e : gdt_entry) : Z := Z.land (Z.shiftr (access_flags e) 5) 3.

(** The linear address of [n] bytes at [off] of the segment; [None] is a general
    protection fault. *)
Definition segment_address (g : gmap Z gdt_entry) (sel off n : Z) : option Z :=
  match segment_of g sel with
  | Some e => if entry_present e && (off + n - 1 <=? gdt_limit e) then Some (u32 (gdt_base e + off)) else None
  | None => None
  end.

(** The words of the structure that hold pointers. *)
Definition cpu_word (cpu0 : Z) (c : cpu_info) (a : Z) : option Z :=
  if a =? cpu0 + CPU_CURRENT_TASK then Some (cpu_task c)
  else if a =? cpu0 + CPU_SELF then Some (cpu_self c) else None.

(** [movl %gs:0, %0] *)
Definition cpu_get_local (cpu0 : Z) (c : cpu_info) : option Z :=
  match segment_address (gdt (cpu_desc c)) (gs (cpu_desc c)) 0 4 with
  | Some a => cpu_word cpu0 c a
  | None => None
  end.

(** The privilege level of the segment a selector names in the kernel's table. *)
Definition selector_dpl (sel : Z) : Z :=
  match segment_of (gdt (cpu_init_gdt 0 0 0 1 (cpu_desc (cpu_cleared 0)))) sel with
  | Some e => entry_dpl e
  | None => 3
  end.

(** ** What [cpu_init] achieves *)

(** A segment over all memory for privilege level [d]. *)
Definition flat (g : gmap Z gdt_entry) (sel d : Z) : Prop :=
  exists e, segment_of g sel = Some e /\ entry_present e = true /\ gdt_base e = 0 /\ gdt_limit e = 0xFFFFFFFF /\ entry_dpl e = d.

Lemma init_gdt_lookup a t s z c c0 i e :
  gdt c = gdt c0 -> gdt (cpu_init_gdt 0 0 0 1 c0) !! i = Some e -> i <> GDT_ENTRY_TSS -> i <> GDT_ENTRY_CPU_INFO ->
  gdt (cpu_init_gdt a t s z c) !! i = Some e.
Proof.
  intros Ec E H5 H6. cbn [cpu_init_gdt gdt] in *. rewrite Ec. revert E. by rewrite !(lookup_insert_ne _ GDT_ENTRY_CPU_INFO), !(lookup_insert_ne _ GDT_ENTRY_TSS) by congruence.
Qed.

(** The privilege levels do not depend on where the structure is. *)
Lemma init_gdt_dpl a t s z c sel e : segment_of (gdt (cpu_init_gdt a t s z c)) sel = Some e ->
  gdt c = gdt (cpu_desc (cpu_cleared 0)) -> entry_dpl e = selector_dpl sel.
Proof.
  unfold selector_dpl, segment_of. destruct (Z.shiftr sel 3 =? 0); [discriminate|]. generalize (Z.shiftr sel 3). intros i E Ec.
  cbn [cpu_init_gdt gdt] in *. rewrite Ec in E. destruct (decide (i = GDT_ENTRY_CPU_INFO)) as [->|H6].
  - rewrite lookup_insert_eq in E. rewrite lookup_insert_eq. injection E as <-. reflexivity.
  - rewrite (lookup_insert_ne _ GDT_ENTRY_CPU_INFO) in E by congruence. rewrite (lookup_insert_ne _ GDT_ENTRY_CPU_INFO) by congruence. destruct (decide (i = GDT_ENTRY_TSS)) as [->|H5].
    + rewrite lookup_insert_eq in E. rewrite lookup_insert_eq. injection E as <-. reflexivity.
    + rewrite (lookup_insert_ne _ GDT_ENTRY_TSS) in E by congruence. rewrite (lookup_insert_ne _ GDT_ENTRY_TSS) by congruence. by rewrite E.
Qed.

(** A null selector names no memory. *)
Lemma null_segment g null off n : 0 <= null < 4 -> segment_address g null off n = None.
Proof.
  intros Hn. unfold segment_address, segment_of. assert (Z.shiftr null 3 = 0) as ->; [|done].
  rewrite Z.shiftr_div_pow2 by lia. apply Z.div_small. lia.
Qed.

(** GS leads to the structure, whatever its other fields hold. *)
Lemma get_local_spec cpu0 id t en e g0 : 0 <= cpu0 -> cpu0 + SIZEOF_CPU_INFO <= 4294967296 ->
  cpu_get_local cpu0 (CpuInfo id t en e (cpu_init_gdt (cpu0 + CPU_GDT_ENTRIES) (cpu0 + CPU_TSS) (cpu0 + CPU_SELF) SIZEOF_CPU_INFO (cpu_desc (cpu_cleared g0))) cpu0)
    = Some cpu0.
Proof.
  intros H0 H1. unfold SIZEOF_CPU_INFO in H1. set (t' := cpu_init_gdt _ _ _ _ _).
  assert (Eg : gdt t' !! GDT_ENTRY_CPU_INFO = Some (gdt_encode_entry (cpu0 + CPU_SELF) (SIZEOF_CPU_INFO - 1) 0x4F 0x92)).
  { unfold t'. cbn [cpu_init_gdt gdt]. apply lookup_insert_eq. }
  destruct (gdt_encode_correct (cpu0 + CPU_SELF) (SIZEOF_CPU_INFO - 1) 0x4F 0x92) as (Eb & El & _ & Ea);
    [unfold CPU_SELF; lia|unfold SIZEOF_CPU_INFO; lia|lia|right; unfold SIZEOF_CPU_INFO; lia|].
  unfold cpu_get_local. cbn [cpu_desc]. change (gs t') with 0x30. unfold segment_address, segment_of. change (Z.shiftr 0x30 3) with GDT_ENTRY_CPU_INFO.
  change (GDT_ENTRY_CPU_INFO =? 0) with false. cbv iota. rewrite Eg. unfold entry_present. rewrite Ea, Eb, El. cbn [negb andb]. change (Z.testbit 0x92 7) with true.
  change (TEST_BIT 0x4F 0x80) with false. cbv iota. change (0 + 4 - 1 <=? SIZEOF_CPU_INFO - 1) with true. cbn [andb].
  unfold CPU_SELF. rewrite Z.add_0_r, u32_small by lia. unfold cpu_word, CPU_CURRENT_TASK, CPU_SELF. cbn [cpu_self].
  destruct (Z.eqb_spec (cpu0 + 184) (cpu0 + 4)); [lia|]. by rewrite Z.eqb_refl.
Qed.

(** Per-processor data.  After [cpu_init] every field of the processor's
    structure is cleared but its identity, the descriptor table has flat code and
    data segments for the kernel (level 0) and for user tasks (level 3) and a task
    state segment at the structure's own, and [cpu_get_local], which loads through
    GS, returns the structure's address.  It does so only while GS holds the
    kernel's selector: with a null selector the load faults. *)
Theorem cpu_init_correct (cpu0 : Z) (c : cpu_info) : 0 <= cpu0 -> cpu0 + SIZEOF_CPU_INFO <= 4294967296 ->
  exists c', cpu_init cpu0 c = (E_SUCCESS, c') /\
    cpu_get_local cpu0 c' = Some cpu0 /\
    (cpu_id c' = 0 /\ cpu_task c' = 0 /\ cpu_sched_enabled c' = 0 /\ cpu_esp0 c' = 0 /\ tss_ss0 (cpu_desc c') = GDT_KERNEL_DATA_OFFSET) /\
    (gdt_address (cpu_desc c') = cpu0 + CPU_GDT_ENTRIES /\ gdt_size (cpu_desc c') = 8 * GDT_ENTRY_COUNT - 1) /\
    (flat (gdt (cpu_desc c')) 0x08 0 /\ flat (gdt (cpu_desc c')) 0x10 0 /\ flat (gdt (cpu_desc c')) 0x1B 3 /\ flat (gdt (cpu_desc c')) 0x23 3) /\
    (exists e, segment_of (gdt (cpu_desc c')) 0x28 = Some e /\ gdt_base e = cpu0 + CPU_TSS /\ access_flags e = 0x89) /\
    (forall sel e, segment_of (gdt (cpu_desc c')) sel = Some e -> entry_dpl e = selector_dpl sel) /\
    (forall null, 0 <= null < 4 -> segment_address (gdt (cpu_desc c')) null 0 4 = None).
Proof.
  intros H0 H1. unfold cpu_init. cbv zeta. eexists. split; [reflexivity|]. cbn [cpu_desc cpu_id cpu_task cpu_sched_enabled cpu_esp0].
  set (t := cpu_init_gdt _ _ _ _ _).
  assert (HL : forall i e, gdt (cpu_init_gdt 0 0 0 1 (cpu_desc (cpu_cleared 0))) !! i = Some e -> i <> GDT_ENTRY_TSS -> i <> GDT_ENTRY_CPU_INFO -> gdt t !! i = Some e)
    by (intros i e; by apply init_gdt_lookup).
  assert (HF : forall sel i d e, segment_of (gdt t) sel = gdt t !! i -> gdt (cpu_init_gdt 0 0 0 1 (cpu_desc (cpu_cleared 0))) !! i = Some e ->
    i <> GDT_ENTRY_TSS -> i <> GDT_ENTRY_CPU_INFO -> entry_present e = true /\ gdt_base e = 0 /\ gdt_limit e = 0xFFFFFFFF /\ entry_dpl e = d -> flat (gdt t) sel d).
  { intros sel i d e Es Ei H5 H6 He. exists e. rewrite Es. split; [by apply HL|done]. }
  split_and!; try reflexivity.
  - by apply get_local_spec.
  - eapply (HF 0x08 1); try reflexivity; try discriminate. by split_and!.
  - eapply (HF 0x10 2); try reflexivity; try discriminate. by split_and!.
  - eapply (HF 0x1B 3); try reflexivity; try discriminate. by split_and!.
  - eapply (HF 0x23 4); try reflexivity; try discriminate. by split_and!.
  - exists (gdt_encode_entry (cpu0 + CPU_TSS) SIZEOF_TSS 0x40 0x89). split; [reflexivity|].
    destruct (gdt_encode_correct (cpu0 + CPU_TSS) SIZEOF_TSS 0x40 0x89) as (Eb' & _ & _ & Ea');
      [unfold CPU_TSS, SIZEOF_CPU_INFO in *; lia|unfold SIZEOF_TSS; lia|lia|right; unfold SIZEOF_TSS; lia|]. done.
  - intros sel e E. eapply init_gdt_dpl; [exact E|reflexivity].
  - intros null Hn. by apply null_segment.
Qed.

Lemma cpu_init_correct_witness : exists c', cpu_init 0xC0105000 (cpu_cleared 0) = (E_SUCCESS, c') /\ cpu_get_local 0xC0105000 c' = Some 0xC0105000.
Proof.
  destruct (cpu_init_correct 0xC0105000 (cpu_cleared 0)) as (c' & E & Hl & _); [lia|unfold SIZEOF_CPU_INFO; lia|].
  exists c'. split; [exact E|exact Hl].
Defined.
