(* ===== verification/ContextSwitch.v ===== *)
(** * Switching stacks (arch/x86/kernel/isr.asm, context-switch.asm)

    The assembly between the hardware and the C code: the entry and exit paths of
    interrupts and system calls and the switch from one task's stack to another's,
    instruction by instruction over the registers and kernel memory.  What the
    processor itself does on an interrupt and on IRET is written from the
    architecture's rules.  A C function called from assembly is a computation on
    the kernel's state that may leave anything in EAX, ECX and EDX. *)

From stdpp Require Import base numbers list gmap.
From Stdlib Require Import ZArith Lia.
From S2P Require Import Prelude PageDefs Blocks Palloc PageSource Slab SlabInv SlabSpec Ptable PtableSpec HeapGrow VmSpec Task TaskSpec TaskCreate Interrupts Cpu.

#[local] Open Scope Z_scope.

Inductive reg : Type := EAX | EBX | ECX | EDX | ESI | EDI | EBP | ESP | EIP | CS | SS | DS | ES | FS | GS | EFLAGS | CR3.

Scheme Equality for reg.

Definition regfile : Type := reg -> Z.

Definition set_reg (r : reg) (v : Z) (c : regfile) : regfile := fun x => if reg_beq x r then v else c x.

(** Selectors and flags. *)
Definition KERNEL_CS : Z := 0x08.
Definition KERNEL_SS : Z := 0x10.
Definition CPU_GS : Z := 0x30.
Definition FLAG_IF : Z := 0x200.

(** The privilege level in a selector. *)
Definition rpl (sel : Z) : Z := Z.land sel 3.

(** ** System calls (arch/x86/kernel/syscall.c, kernel/syscalls/write.c) *)

Definition SYSCALL_WRITE : Z := 0x01.

(** Offsets in [struct syscall_regs]. *)
Definition SYS_EDX : Z := 8.
Definition SYS_ESI : Z := 12.
Definition SYS_EDI : Z := 16.
Definition SYS_NO : Z := 40.

(** What a system call asked for. *)
Inductive syscall_effect : Type :=
  | SysWrite (descriptor_id src_buffer size : Z)
  | SysInvalid (syscall_no : Z).

Section Syscall.
  Context {P : Type} `{PageSource P}.

(** [syscall_write] reports its arguments. *)
Definition syscall_write (descriptor_id src_buffer size : Z) : ST (sched P) syscall_effect :=
  (_ <- task_get_current ;; ret (SysWrite (i32 descriptor_id) src_buffer size))%st.

(** The name and the identifier of the current task go to the log. *)
Definition syscall_handler (regs : Z) : ST (sched P) syscall_effect :=
  (cur <- task_get_current ;;
   _ <- get_task cur ;;
   no <- on_heap (load (regs + SYS_NO)) ;;
   if no =? SYSCALL_WRITE then
     edi <- on_heap (load (regs + SYS_EDI)) ;;
     esi <- on_heap (load (regs + SYS_ESI)) ;;
     edx <- on_heap (load (regs + SYS_EDX)) ;;
     syscall_write edi esi edx
   else ret (SysInvalid no))%st.

End Syscall.

Record machine (P : Type) : Type := Machine { regs : regfile; kernel : sched P }.

Arguments Machine {P} _ _.
Arguments regs {P} _.
Arguments kernel {P} _.

Section Asm.
  Context {P : Type} `{PageSource P}.

Definition mread (a : Z) : ST (machine P) Z :=
  fun s => match kmem (tmem (kernel s)) !! a with Some v => Some (v, s) | None => None end.

Definition mwrite (a v : Z) : ST (machine P) unit :=
  modify (fun s => Machine (regs s) (with_tmem (with_kmem (<[a := v]> (kmem (tmem (kernel s)))) (tmem (kernel s))) (kernel s))).

Definition rd (r : reg) : ST (machine P) Z := gets (fun s => regs s r).

Definition mov (r : reg) (v : Z) : ST (machine P) unit := modify (fun s => Machine (set_reg r v (regs s)) (kernel s)).

Definition in_kernel {A} (f : ST (sched P) A) : ST (machine P) A :=
  fun s => match f (kernel s) with Some (a, k) => Some (a, Machine (regs s) k) | None => None end.

Definition pushv (v : Z) : ST (machine P) unit :=
  (sp <- rd ESP ;; mov ESP (u32 (sp - 4)) ;; mwrite (u32 (sp - 4)) v)%st.

Definition popv : ST (machine P) Z :=
  (sp <- rd ESP ;; v <- mread sp ;; mov ESP (u32 (sp + 4)) ;; ret v)%st.

Definition push (r : reg) : ST (machine P) unit := (v <- rd r ;; pushv v)%st.

Definition pop (r : reg) : ST (machine P) unit := (v <- popv ;; mov r v)%st.

Definition skip (n : Z) : ST (machine P) unit := (sp <- rd ESP ;; mov ESP (u32 (sp + n)))%st.

(** A segment register takes the low half of its source. *)
Definition mov_seg (r : reg) (v : Z) : ST (machine P) unit := mov r (u16 v).

(** ** The processor *)

(** Entering an interrupt gate: from user mode the stack is switched to the one
    in the task state segment. *)
Definition interrupt_enter : ST (machine P) unit :=
  (cpl <- rd CS ;; sp <- rd ESP ;; seg <- rd SS ;; fl <- rd EFLAGS ;; ip <- rd EIP ;;
   (if rpl cpl =? 0 then ret tt else
    top <- gets (fun s => esp0 (kernel s)) ;;
    mov ESP top ;; mov SS KERNEL_SS ;; pushv seg ;; pushv sp) ;;
   pushv fl ;; pushv cpl ;; pushv ip ;;
   mov CS KERNEL_CS ;;
   mov EFLAGS (Z.land fl (u32 (Z.lnot FLAG_IF))))%st.

(** The exceptions with an error code, and an interrupt with its code. *)
Definition processor_codes : list Z := [8; 10; 11; 12; 13; 14; 17; 21].

Definition interrupt_raise (num err : Z) : ST (machine P) unit :=
  (interrupt_enter ;; if bool_decide (num ∈ processor_codes) then pushv err else ret tt)%st.

(** What a data segment register holds once the processor runs at the level of
    [cs]: a segment of a more privileged level is replaced by the null selector. *)
Definition visible (cs sel : Z) : Z := if selector_dpl sel <? rpl cs then 0 else sel.

Definition drop_segment (cs : Z) (r : reg) : ST (machine P) unit := (v <- rd r ;; mov r (visible cs v))%st.

(** IRET, which takes a stack from the frame when it returns to user mode and
    then clears the data segment registers user code must not hold. *)
Definition iret : ST (machine P) unit :=
  (old <- rd CS ;;
   pop EIP ;; pop CS ;; pop EFLAGS ;;
   new <- rd CS ;;
   if rpl new =? rpl old then ret tt else
   sp <- popv ;; seg <- popv ;; mov ESP sp ;; mov SS seg ;;
   drop_segment new DS ;; drop_segment new ES ;; drop_segment new FS ;; drop_segment new GS)%st.

Definition pushad : ST (machine P) unit :=
  (sp <- rd ESP ;;
   push EAX ;; push ECX ;; push EDX ;; push EBX ;; pushv sp ;; push EBP ;; push ESI ;; push EDI)%st.

Definition popad : ST (machine P) unit :=
  (pop EDI ;; pop ESI ;; pop EBP ;; skip 4 ;; pop EBX ;; pop EDX ;; pop ECX ;; pop EAX)%st.

(** Calling a C function: the registers the calling convention does not preserve
    hold [junk] afterwards. *)
Definition call_c (junk : regfile) (return_address : Z) (f : ST (sched P) unit) : ST (machine P) unit :=
  (pushv return_address ;;
   in_kernel f ;;
   _ <- popv ;;
   mov EAX (junk EAX) ;; mov ECX (junk ECX) ;; mov EDX (junk EDX))%st.

(** ** isr.asm *)

Definition isr_exit_path : ST (machine P) unit :=
  (pop EAX ;;
   ax <- rd EAX ;;
   mov_seg DS ax ;; mov_seg ES ax ;; mov_seg FS ax ;;
   mov_seg GS CPU_GS ;;
   popad ;;
   skip 8 ;;
   fl <- rd EFLAGS ;; mov EFLAGS (Z.lor fl FLAG_IF) ;;
   iret)%st.

(** The part of [isr_dispatch] before the call: the address of the saved registers
    is on the stack as the argument. *)
Definition isr_save : ST (machine P) Z :=
  (fl <- rd EFLAGS ;; mov EFLAGS (Z.land fl (u32 (Z.lnot FLAG_IF))) ;;
   pushad ;;
   push DS ;;
   frame <- rd ESP ;;
   pushv frame ;;
   ret frame)%st.

(** [isr_dispatch], with the C handler given the address of the saved
    registers. *)
Definition isr_dispatch (junk : regfile) (return_address : Z) (isr_handler : Z -> ST (sched P) unit) : ST (machine P) unit :=
  (frame <- isr_save ;;
   call_c junk return_address (isr_handler frame) ;;
   skip 4 ;;
   isr_exit_path)%st.

(** What the stubs [isr0] to [isr47] push in the place of the error code: nothing
    for the exceptions that come with one, 0 for the others, and the number of
    its line for an interrupt of the controllers. *)
Definition isr_codes : list (option Z) :=
  [Some 0; Some 0; Some 0; Some 0; Some 0; Some 0; Some 0; Some 0; None; Some 0; None; None; None; None; None; Some 0;
   Some 0; None; Some 0; Some 0; Some 0; None; Some 0; Some 0; Some 0; Some 0; Some 0; Some 0; Some 0; Some 0; Some 0; Some 0;
   Some 0; Some 1; Some 2; Some 3; Some 4; Some 5; Some 6; Some 7; Some 8; Some 9; Some 10; Some 11; Some 12; Some 13; Some 14; Some 15].

(** The stub of interrupt [num]. *)
Definition isr_stub (num : Z) (junk : regfile) (return_address : Z) (isr_handler : Z -> ST (sched P) unit) : ST (machine P) unit :=
  (match isr_codes !! Z.to_nat num with
   | Some (Some code) => pushv code
   | Some None => ret tt
   | None => fault
   end ;;
   pushv num ;;
   isr_dispatch junk return_address isr_handler)%st.

(** [isr64], the system call gate. *)
Definition isr64 (junk : regfile) (return_address : Z) (handler : Z -> ST (sched P) unit) : ST (machine P) unit :=
  (fl <- rd EFLAGS ;; mov EFLAGS (Z.land fl (u32 (Z.lnot FLAG_IF))) ;;
   push EAX ;;
   push GS ;; push FS ;; push ES ;; push DS ;;
   push EBP ;; push EDI ;; push ESI ;; push EDX ;; push ECX ;; push EBX ;;
   frame <- rd ESP ;;
   pushv frame ;;
   call_c junk return_address (handler frame) ;;
   skip 4 ;;
   pop EBX ;; pop ECX ;; pop EDX ;; pop ESI ;; pop EDI ;; pop EBP ;;
   ds <- popv ;; mov_seg DS ds ;;
   es <- popv ;; mov_seg ES es ;;
   fs <- popv ;; mov_seg FS fs ;;
   gs <- popv ;; mov_seg GS gs ;;
   skip 4 ;;
   fl <- rd EFLAGS ;; mov EFLAGS (Z.lor fl FLAG_IF) ;;
   iret)%st.

(** ** context-switch.asm *)

(** [task_context_switch(current, next)], entered with its return address and its
    arguments on the stack; the final RET loads EIP. *)
Definition task_context_switch : ST (machine P) unit :=
  (sp <- rd ESP ;;
   cur <- mread (u32 (sp + 4)) ;; mov EAX cur ;;
   next <- mread (u32 (sp + 8)) ;; mov EDX next ;;
   push EBP ;; push EBX ;; push ESI ;; push EDI ;;
   sp <- rd ESP ;; in_kernel (upd_task cur (set_top sp)) ;;
   x <- in_kernel (get_task next) ;; mov ESP (kstack_top x) ;;
   pgd <- mread (vm_space x + VMS_PGD) ;; mov EBX pgd ;;
   old <- rd CR3 ;; mov ECX old ;;
   (if old =? pgd then ret tt else mov CR3 pgd) ;;
   pop EDI ;; pop ESI ;; pop EBX ;; pop EBP ;;
   pop EIP)%st.

End Asm.
