(* ===== verification/ContextSwitchSpec.v ===== *)
(** * Correctness of the assembly paths

    An interrupt is invisible to the interrupted code, a system call hands its
    registers over and gives them back, a task that is switched away from resumes
    where it was, and a new task starts at its entry point with the privileges of
    its type. *)

From stdpp Require Import base numbers list gmap.
From Stdlib Require Import ZArith Lia.
From S2P Require Import Prelude PageDefs Blocks Palloc PageSource PageClaims Slab SlabInv SlabSpec HeapClaims Ptable HeapClient PtableSpec HeapGrow VmSpec Task TaskSpec TaskCreate Interrupts InterruptClaims Cpu ContextSwitch.

#[local] Open Scope Z_scope.

(** The words [l] from address [a] on. *)
Definition words (m : gmap Z Z) (a : Z) (l : list Z) : Prop := forall i w, l !! i = Some w -> m !! (a + 4 * Z.of_nat i) = Some w.

Lemma words_cons m a w l : words m a (w :: l) <-> m !! a = Some w /\ words m (a + 4) l.
Proof.
  split.
  - intros Hw. split; [specialize (Hw 0%nat w eq_refl); by rewrite Z.add_0_r in Hw|]. intros i v Ei. specialize (Hw (S i) v Ei).
    by replace (a + 4 + 4 * Z.of_nat i) with (a + 4 * Z.of_nat (S i)) by lia.
  - intros [H1 H2] [|i] v Ei; cbn in Ei; [injection Ei as <-; by rewrite Z.add_0_r|]. specialize (H2 i v Ei).
    by replace (a + 4 * Z.of_nat (S i)) with (a + 4 + 4 * Z.of_nat i) by lia.
Qed.

Lemma words_same m m' a l : (forall x, a <= x < a + 4 * Z.of_nat (length l) -> m' !! x = m !! x) -> words m a l -> words m' a l.
Proof. intros Hs Hw i w Ei. rewrite Hs; [by apply Hw|]. apply lookup_lt_Some in Ei. lia. Qed.

Section Runs.
  Context {P : Type} `{PageSource P}.

  Implicit Types (c : regfile) (k : sched P) (m : gmap Z Z).

Definition mem k : gmap Z Z := kmem (tmem k).

(** The kernel's state with memory [m]. *)
Definition put m k : sched P := with_tmem (with_kmem m (tmem k)) k.

Lemma put_mem k : put (mem k) k = k.
Proof. by destruct k as [? ? ? ? ? ? ? []]. Qed.

Lemma mem_put m k : mem (put m k) = m.
Proof. done. Qed.

Lemma put_put m m' k : put m (put m' k) = put m k.
Proof. done. Qed.

Lemma rd_bind {X} r c k (f : Z -> ST (machine P) X) : bind (rd r) f (Machine c k) = f (c r) (Machine c k).
Proof. done. Qed.

Lemma mov_bind {X} r v c k (f : unit -> ST (machine P) X) : bind (mov r v) f (Machine c k) = f tt (Machine (set_reg r v c) k).
Proof. done. Qed.

Lemma mov_run r v c k : mov r v (Machine c k) = Some (tt, Machine (set_reg r v c) k).
Proof. done. Qed.

Lemma pushv_run v c k m sp : c ESP = sp -> 4 <= sp < 4294967296 ->
  pushv v (Machine c (put m k)) = Some (tt, Machine (set_reg ESP (sp - 4) c) (put (<[sp - 4 := v]> m) k)).
Proof. intros E Hs. unfold pushv. rewrite rd_bind, mov_bind, E, u32_small by lia. done. Qed.

Lemma popv_run c k m sp v : c ESP = sp -> 0 <= sp < 4294967292 -> m !! sp = Some v ->
  popv (Machine c (put m k)) = Some (v, Machine (set_reg ESP (sp + 4) c) (put m k)).
Proof.
  intros E Hs Ev. unfold popv. rewrite rd_bind, E. unfold bind at 1. unfold mread. cbn [kernel put with_tmem tmem with_kmem kmem].
  rewrite Ev, mov_bind, u32_small by lia. done.
Qed.

Lemma push_run r c k m sp : c ESP = sp -> 4 <= sp < 4294967296 ->
  push r (Machine c (put m k)) = Some (tt, Machine (set_reg ESP (sp - 4) c) (put (<[sp - 4 := c r]> m) k)).
Proof. intros E Hs. unfold push. rewrite rd_bind. by apply pushv_run. Qed.

Lemma pop_run r c k m sp v : c ESP = sp -> 0 <= sp < 4294967292 -> m !! sp = Some v ->
  pop r (Machine c (put m k)) = Some (tt, Machine (set_reg r v (set_reg ESP (sp + 4) c)) (put m k)).
Proof. intros E Hs Ev. unfold pop. by rewrite (bind_some _ _ _ _ _ (popv_run c k m sp v E Hs Ev)). Qed.

Lemma skip_run n c k m sp : c ESP = sp -> 0 <= sp + n < 4294967296 ->
  skip n (Machine c (put m k)) = Some (tt, Machine (set_reg ESP (sp + n) c) (put m k)).
Proof. intros E Hs. unfold skip. rewrite rd_bind, E, u32_small by lia. done. Qed.

Lemma in_kernel_run {X} (g : ST (sched P) X) c k k' a : g k = Some (a, k') -> in_kernel g (Machine c k) = Some (a, Machine c (put (mem k') k')).
Proof. intros E. unfold in_kernel. cbn [kernel regs]. by rewrite E, put_mem. Qed.

End Runs.

#[local] Opaque pushv popv push pop skip rd mov in_kernel.

Ltac reg_simpl := cbn [set_reg reg_beq regs kernel].

(** Finding a word in memory: through the newer stores, then in a hypothesis. *)
Ltac find_word :=
  repeat rewrite lookup_insert_ne by lia;
  first
    [ rewrite lookup_insert by lia; rewrite decide_True by lia; reflexivity
    | match goal with W : ?m !! ?a = Some _ |- ?m !! ?b = _ => replace b with a by lia; exact W end ].

(** One instruction. *)
Ltac run_bind := repeat (rewrite <- bind_assoc; cbv beta).

Ltac run_push := run_bind; erewrite bind_some by (first [eapply push_run | eapply pushv_run]; [reg_simpl; reflexivity|lia]); reg_simpl.

Ltac run_pop := run_bind; erewrite bind_some by (first [eapply pop_run | eapply popv_run]; [reg_simpl; reflexivity|lia|find_word]); reg_simpl.

Ltac run_skip := run_bind; erewrite bind_some by (eapply skip_run; [reg_simpl; reflexivity|lia]); reg_simpl.

Ltac run_reg := run_bind; first [rewrite rd_bind | rewrite mov_bind]; reg_simpl.

Section Exit.
  Context {P : Type} `{PageSource P}.

  Implicit Types (c f : regfile) (k : sched P) (m : gmap Z Z).

(** [struct isr_registers] for the saved registers [f]; the last two words are
    there when the interrupted code was in user mode.  [sp] is the stack pointer
    PUSHAD saves. *)
Definition isr_frame f (sp num code : Z) : list Z :=
  [f DS; f EDI; f ESI; f EBP; sp; f EBX; f EDX; f ECX; f EAX; num; code; f EIP; f CS; f EFLAGS] ++
  (if rpl (f CS) =? 0 then [] else [f ESP; f SS]).

(** The registers after leaving an interrupt whose frame, at [F], was [f]. *)
Definition restored f c (F : Z) (r : reg) : Z :=
  match r with
  | DS | ES | FS => if rpl (f CS) =? 0 then u16 (f DS) else visible (f CS) (u16 (f DS))
  | GS => if rpl (f CS) =? 0 then CPU_GS else 0
  | CR3 => c CR3
  | ESP => if rpl (f CS) =? 0 then F + 56 else f ESP
  | SS => if rpl (f CS) =? 0 then c SS else f SS
  | _ => f r
  end.

(** A segment of the own level stays. *)
Lemma visible_own cs sel : rpl cs <= selector_dpl sel -> visible cs sel = sel.
Proof. intros E. unfold visible. by destruct (Z.ltb_spec (selector_dpl sel) (rpl cs)); [lia|]. Qed.

(** User code never holds the processor's own segment. *)
Lemma gs_dropped cs : (rpl cs =? 0) = false -> visible cs (u16 CPU_GS) = 0.
Proof.
  intros E. unfold visible. change (selector_dpl (u16 CPU_GS)) with 0. apply Z.eqb_neq in E.
  assert (0 <= rpl cs) by (unfold rpl; apply Z.land_nonneg; lia). by destruct (Z.ltb_spec 0 (rpl cs)); [|lia].
Qed.

#[local] Opaque visible selector_dpl.

Lemma isr_exit_run c f k m F sp num code :
  c ESP = F -> 0 <= F -> F + 4 * Z.of_nat (length (isr_frame f sp num code)) < 4294967296 -> rpl (c CS) = 0 -> words m F (isr_frame f sp num code) ->
  exists c', isr_exit_path (Machine c (put m k)) = Some (tt, Machine c' (put m k)) /\ forall r, c' r = restored f c F r.
Proof.
  intros Es HF0 HF Hc Hw. unfold isr_frame in Hw, HF. rewrite length_app in HF. cbn [length] in HF.
  assert (Hu : (rpl (f CS) =? 0) = false -> F + 64 < 4294967296 /\ m !! (F + 56) = Some (f ESP) /\ m !! (F + 60) = Some (f SS)).
  { intros E. rewrite E in Hw, HF. split; [cbn [length] in HF; lia|]. split; [exact (Hw 14%nat _ eq_refl)|exact (Hw 15%nat _ eq_refl)]. }
  assert (Hword : forall i w, isr_frame f sp num code !! i = Some w -> m !! (F + 4 * Z.of_nat i) = Some w) by exact Hw.
  pose proof (Hword 0%nat _ eq_refl) as W0. pose proof (Hword 1%nat _ eq_refl) as W1. pose proof (Hword 2%nat _ eq_refl) as W2.
  pose proof (Hword 3%nat _ eq_refl) as W3. pose proof (Hword 5%nat _ eq_refl) as W5. pose proof (Hword 6%nat _ eq_refl) as W6.
  pose proof (Hword 7%nat _ eq_refl) as W7. pose proof (Hword 8%nat _ eq_refl) as W8. pose proof (Hword 11%nat _ eq_refl) as W11.
  pose proof (Hword 12%nat _ eq_refl) as W12. pose proof (Hword 13%nat _ eq_refl) as W13. clear Hword Hw.
  rewrite Z.add_0_r in W0.
  unfold isr_exit_path, popad, iret, mov_seg.
  run_pop. do 5 run_reg. do 3 run_pop. run_skip. do 4 run_pop. run_skip. do 3 run_reg. do 3 run_pop. run_reg. rewrite Hc.
  destruct (rpl (f CS) =? 0) eqn:Er.
  - eexists. split; [reflexivity|]. intros r. unfold restored. rewrite Er. destruct r; reg_simpl; try reflexivity. lia.
  - destruct (Hu eq_refl) as (HF' & W14 & W15). do 2 run_pop. do 2 run_reg. unfold drop_segment. do 6 run_reg. rewrite rd_bind. reg_simpl.
    eexists. split; [apply mov_run|]. intros r. unfold restored. rewrite Er. destruct r; try reflexivity. by apply gs_dropped.
Qed.

(** The handler, called with the address [F] of the saved registers, returns and
    leaves the words from its own stack frame up to [top] alone. *)
Definition keeps_frame (handler : Z -> ST (sched P) unit) (F top : Z) k (frame : list Z) : Prop :=
  forall m, (forall a, ~ (F - 8 <= a < top) -> m !! a = mem k !! a) -> words m F frame ->
    exists k', handler F (put m k) = Some (tt, k') /\ forall a, F - 8 <= a < top -> mem k' !! a = m !! a.

(** A C function called with nothing but its stack frame below [sp]. *)
Lemma call_run junk ra (g : ST (sched P) unit) c k m sp k' v :
  c ESP = sp -> 4 <= sp < 4294967296 -> g (put (<[sp - 4 := ra]> m) k) = Some (tt, k') -> mem k' !! (sp - 4) = Some v ->
  exists c', call_c junk ra g (Machine c (put m k)) = Some (tt, Machine c' (put (mem k') k')) /\
    forall r, c' r = match r with EAX => junk EAX | ECX => junk ECX | EDX => junk EDX | ESP => sp | _ => c r end.
Proof.
  intros Es Hs Eg Ev. unfold call_c. run_push. rewrite Es. run_bind. erewrite bind_some by (apply in_kernel_run; exact Eg). reg_simpl.
  run_pop. do 2 run_reg. eexists. split; [apply mov_run|]. intros r. destruct r; reg_simpl; try reflexivity. lia.
Qed.

(** The frame in memory [m], below the processor's part of it. *)
Definition frame_mem f (num code F : Z) m : gmap Z Z :=
  <[F := f DS]> (<[F + 4 := f EDI]> (<[F + 8 := f ESI]> (<[F + 12 := f EBP]> (<[F + 16 := F + 36]> (<[F + 20 := f EBX]>
    (<[F + 24 := f EDX]> (<[F + 28 := f ECX]> (<[F + 32 := f EAX]> (<[F + 36 := num]> (<[F + 40 := code]> m)))))))))).

(** A stub up to the call of the handler. *)
Definition isr_entry (num code : Z) : ST (machine P) Z := (pushv code ;; pushv num ;; isr_save)%st.

Lemma bind_assoc3 num code {X} (g : Z -> ST (machine P) X) s :
  (pushv code ;; pushv num ;; frame <- isr_save ;; g frame)%st s = (frame <- isr_entry num code ;; g frame)%st s.
Proof. unfold isr_entry, bind. by destruct (pushv code s) as [[[] s1]|]; [destruct (pushv num s1) as [[[] s2]|]|]. Qed.

Lemma save_run num code c f k m F :
  c ESP = F + 44 -> 8 <= F -> F + 44 < 4294967296 ->
  c EAX = f EAX -> c EBX = f EBX -> c ECX = f ECX -> c EDX = f EDX -> c ESI = f ESI -> c EDI = f EDI -> c EBP = f EBP -> c DS = f DS ->
  exists c1, isr_entry num code (Machine c (put m k)) = Some (F, Machine c1 (put (<[F - 4 := F]> (frame_mem f num code F m)) k)) /\
    c1 ESP = F - 4 /\ c1 CS = c CS /\ c1 SS = c SS /\ c1 CR3 = c CR3 /\ c1 GS = c GS.
Proof.
  intros Es HF Htop R1 R2 R3 R4 R5 R6 R7 R8. unfold isr_entry, isr_save, pushad. do 2 run_push. do 3 run_reg. do 8 run_push. run_push. run_reg. run_push.
  rewrite Es, R1, R2, R3, R4, R5, R6, R7, R8. unfold ret.
  eexists. split; [apply f_equal; refine (f_equal2 pair _ (f_equal2 Machine eq_refl _)); [lia|]; refine (f_equal2 put _ eq_refl); unfold frame_mem; repeat (f_equal; try lia)|].
  reg_simpl. split_and!; [lia|reflexivity..].
Qed.

(** A stub with [code] in the place of the error code. *)
Definition isr_common (num code : Z) (junk : regfile) (ra : Z) (handler : Z -> ST (sched P) unit) : ST (machine P) unit :=
  (pushv code ;; pushv num ;; isr_dispatch junk ra handler)%st.

(** The error code the handler sees: the processor's, or what the stub pushed. *)
Definition error_code (num err : Z) : Z := match isr_codes !! Z.to_nat num with Some (Some code) => code | _ => err end.

(** The stubs leave room for an error code exactly where the processor pushes
    one. *)
Lemma codes_agree num : 0 <= num < 48 ->
  (exists code, isr_codes !! Z.to_nat num = Some (Some code) /\ num ∉ processor_codes) \/ (isr_codes !! Z.to_nat num = Some None /\ num ∈ processor_codes).
Proof.
  intros Hn.
  assert (HC : forallb (fun i => match isr_codes !! i with Some (Some _) => bool_decide (Z.of_nat i ∉ processor_codes) | Some None => bool_decide (Z.of_nat i ∈ processor_codes) | None => false end)
    (seq 0 48) = true) by (vm_compute; reflexivity).
  rewrite forallb_forall in HC. specialize (HC (Z.to_nat num)). rewrite <- list_elem_of_In in HC. specialize (HC ltac:(apply elem_of_seq; lia)).
  rewrite Z2Nat.id in HC by lia. destruct (isr_codes !! Z.to_nat num) as [[code|]|]; [left; exists code|right|discriminate HC]; (split; [reflexivity|]);
    by apply bool_decide_eq_true in HC.
Qed.

Lemma raise_stub num err junk ra handler s : 0 <= num < 48 ->
  (interrupt_raise num err ;; isr_stub num junk ra handler)%st s = (interrupt_enter ;; isr_common num (error_code num err) junk ra handler)%st s.
Proof.
  intros Hn. unfold interrupt_raise, isr_stub, isr_common, error_code, bind. destruct (interrupt_enter s) as [[[] s1]|]; [|done].
  destruct (codes_agree num Hn) as [(code & -> & Hp)|[-> Hp]].
  - by rewrite bool_decide_eq_false_2.
  - by rewrite bool_decide_eq_true_2.
Qed.

(** The stub, from the processor's part of the frame on. *)
Lemma stub_run num code junk ra handler c f k m0 m F top :
  c ESP = F + 44 -> 8 <= F -> top = F + 4 * Z.of_nat (length (isr_frame f (F + 36) num code)) -> top < 4294967296 -> rpl (c CS) = 0 ->
  (forall r, match r with EAX | EBX | ECX | EDX | ESI | EDI | EBP | DS => c r = f r | _ => True end) ->
  (forall a, ~ (F - 8 <= a < top) -> m !! a = m0 !! a) ->
  words m (F + 44) ([f EIP; f CS; f EFLAGS] ++ (if rpl (f CS) =? 0 then [] else [f ESP; f SS])) ->
  keeps_frame handler F top (put m0 k) (isr_frame f (F + 36) num code) ->
  exists c' k', isr_common num code junk ra handler (Machine c (put m k)) = Some (tt, Machine c' k') /\ forall r, c' r = restored f c F r.
Proof.
  intros Es HF Ht Htop Hc Hr Ho Hw HK.
  assert (Hlen : 56 <= 4 * Z.of_nat (length (isr_frame f (F + 36) num code)) <= 64) by (unfold isr_frame; rewrite length_app; cbn [length]; destruct (rpl (f CS) =? 0); cbn [length]; lia).
  set (m1 := frame_mem f num code F m).
  set (m2 := <[F - 8 := ra]> (<[F - 4 := F]> m1)).
  assert (Hfr : forall x, F + 44 <= x -> m2 !! x = m !! x) by (intros x Hx; unfold m2, m1, frame_mem; by rewrite !lookup_insert_ne by lia).
  assert (Hw2 : words m2 F (isr_frame f (F + 36) num code)).
  { unfold isr_frame. cbn [app]. do 11 (apply words_cons; split; [unfold m2, m1, frame_mem; find_word|]).
    replace (F + 4 + 4 + 4 + 4 + 4 + 4 + 4 + 4 + 4 + 4 + 4) with (F + 44) by lia. revert Hw. apply words_same. intros x Hx. apply Hfr. lia. }
  destruct (HK m2) as (k' & Eh & Hk').
  { intros a Ha. cbn [mem put with_tmem tmem with_kmem kmem]. rewrite <- Ho by done. unfold m2, m1, frame_mem. rewrite !lookup_insert_ne by lia. done. }
  { exact Hw2. }
  rewrite put_put in Eh. pose proof (Hr EAX) as R1. pose proof (Hr EBX) as R2. pose proof (Hr ECX) as R3.
  pose proof (Hr EDX) as R4. pose proof (Hr ESI) as R5. pose proof (Hr EDI) as R6.
  pose proof (Hr EBP) as R7. pose proof (Hr DS) as R8. cbn beta iota in R1, R2, R3, R4, R5, R6, R7, R8. clear Hr.
  destruct (save_run num code c f k m F Es ltac:(lia) ltac:(lia) R1 R2 R3 R4 R5 R6 R7 R8) as (c1 & E1 & S1 & S2 & S3 & S4 & _). fold m1 in E1.
  unfold isr_common, isr_dispatch. rewrite (bind_assoc3 num code), (bind_some _ _ _ _ _ E1). clear E1.
  destruct (call_run junk ra (handler F) c1 k (<[F - 4 := F]> m1) (F - 4) k' ra S1 ltac:(lia)) as (c2 & E2 & Hc2).
  { by replace (F - 4 - 4) with (F - 8) by lia. }
  { replace (F - 4 - 4) with (F - 8) by lia. rewrite Hk' by lia. apply lookup_insert_eq. }
  rewrite (bind_some _ _ _ _ _ E2). pose proof (Hc2 ESP) as S5. cbn beta iota in S5. run_skip.
  destruct (isr_exit_run (set_reg ESP (c2 ESP + 4) c2) f k' (mem k') F (F + 36) num code) as (c3 & E3 & Hc3).
  - reg_simpl. lia.
  - lia.
  - lia.
  - reg_simpl. rewrite (Hc2 CS). by rewrite S2.
  - revert Hw2. apply words_same. intros x Hx. apply Hk'. lia.
  - exists c3, (put (mem k') k'). split; [exact E3|]. intros r. rewrite Hc3. pose proof (Hc2 SS) as S6. pose proof (Hc2 CR3) as S7. cbn beta iota in S6, S7.
    unfold restored. destruct r; try reflexivity; reg_simpl; by rewrite ?S6, ?S7, ?S3, ?S4.
Qed.


(** The processor's part of the frame. *)
Lemma enter_run c k top F :
  top = (if rpl (c CS) =? 0 then c ESP else esp0 k) -> F = top - (if rpl (c CS) =? 0 then 56 else 64) -> 8 <= F -> top < 4294967296 ->
  exists c1 m, interrupt_enter (Machine c k) = Some (tt, Machine c1 (put m k)) /\ c1 ESP = F + 44 /\ c1 CS = KERNEL_CS /\ c1 CR3 = c CR3 /\
    (forall r, match r with EAX | EBX | ECX | EDX | ESI | EDI | EBP | DS => c1 r = c r | _ => True end) /\
    (rpl (c CS) = 0 -> c1 SS = c SS) /\ (forall r, match r with ES | FS | GS => c1 r = c r | _ => True end) /\ (forall a, ~ (F - 8 <= a < top) -> m !! a = mem k !! a) /\
    words m (F + 44) ([c EIP; c CS; c EFLAGS] ++ (if rpl (c CS) =? 0 then [] else [c ESP; c SS])).
Proof.
  intros Et EF HF Ht. assert (Machine c k = Machine c (put (mem k) k)) as -> by by rewrite put_mem.
  unfold interrupt_enter. do 5 run_reg. destruct (Z.eqb_spec (rpl (c CS)) 0) as [E|E].
  - rewrite bind_ret. do 3 run_push. run_reg. eexists _, _. split; [apply mov_run|]. reg_simpl.
    split_and!; try reflexivity; try lia.
    + intros r. by destruct r.
    + intros r. by destruct r.
    + intros a Ha. rewrite !lookup_insert_ne by lia. done.
    + cbn [app]. do 3 (apply words_cons; split; [find_word|]). intros i w Ei. discriminate Ei.
  - run_bind. rewrite (bind_some _ _ _ _ _ (gets_run _ _)). cbv beta. change (esp0 (kernel (Machine c (put (mem k) k)))) with (esp0 k).
    do 2 run_reg. do 5 run_push. run_reg. eexists _, _. split; [apply mov_run|]. reg_simpl.
    split_and!; try reflexivity; try lia.
    + intros r. by destruct r.
    + intros r. by destruct r.
    + intros a Ha. rewrite !lookup_insert_ne by lia. done.
    + cbn [app]. do 5 (apply words_cons; split; [find_word|]). intros i w Ei. discriminate Ei.
Qed.

(** The round trip with the error code made explicit. *)
Lemma roundtrip_run num code ra junk (handler : Z -> ST (sched P) unit) c k top F :
  top = (if rpl (c CS) =? 0 then c ESP else esp0 k) -> F = top - (if rpl (c CS) =? 0 then 56 else 64) -> 8 <= F -> top < 4294967296 ->
  0 <= c DS < 65536 -> rpl (c CS) <= selector_dpl (c DS) -> keeps_frame handler F top k (isr_frame c (F + 36) num code) ->
  exists c' k', (interrupt_enter ;; isr_common num code junk ra handler)%st (Machine c k) = Some (tt, Machine c' k') /\
    forall r, c' r = match r with ES | FS => c DS | GS => if rpl (c CS) =? 0 then CPU_GS else 0 | _ => c r end.
Proof.
  intros Et EF HF Ht Hds Hdp HK. destruct (enter_run c k top F Et EF HF Ht) as (c1 & m & E1 & S1 & S2 & S3 & Hr & S4 & _ & Ho & Hw).
  destruct (stub_run num code junk ra handler c1 c k (mem k) m F top S1 HF) as (c2 & k2 & E2 & Hc2); [|exact Ht|by rewrite S2|exact Hr|exact Ho|exact Hw| |].
  - rewrite EF. unfold isr_frame. rewrite length_app. cbn [length]. destruct (rpl (c CS) =? 0); cbn [length]; lia.
  - rewrite put_mem. exact HK.
  - exists c2, k2. split; [by rewrite (bind_some _ _ _ _ _ E1)|]. intros r. rewrite Hc2. unfold restored.
    assert (Hu : u16 (c DS) = c DS) by by apply Z.mod_small. rewrite !Hu. pose proof (visible_own (c CS) (c DS) Hdp) as Hv.
    clear -Et EF Hu Hv S3 S4. destruct (Z.eqb_spec (rpl (c CS)) 0) as [E|E]; destruct r; try reflexivity; try exact Hv; try exact S3; try exact (S4 E); lia.
Qed.


(** C34: an interrupt of user code finds no processor data.  Leaving an interrupt
    or starting a task in user mode leaves GS null, because the segment of the
    processor's data is the kernel's; the next interrupt's entry path reaches the C
    handler without loading GS again, and there the load of [cpu_get_local],
    which [task_schedule] begins with, is a general protection fault. *)
Theorem user_interrupt_faults (num code num' code' cpu0 sp : Z) (ci : cpu_info) c f k m F :
  c ESP = F -> 0 <= F -> F + 64 < 4294967296 -> rpl (c CS) = 0 -> rpl (f CS) <> 0 -> words m F (isr_frame f sp num code) ->
  72 <= esp0 k < 4294967296 ->
  exists u frame s1, isr_exit_path (Machine c (put m k)) = Some (tt, Machine u (put m k)) /\ u EIP = f EIP /\ u CS = f CS /\
    (interrupt_enter ;; isr_entry num' code')%st (Machine u (put m k)) = Some (frame, s1) /\ regs s1 CS = KERNEL_CS /\ regs s1 GS = 0 /\
    segment_address (gdt (cpu_desc (snd (cpu_init cpu0 ci)))) (regs s1 GS) 0 4 = None.
Proof.
  intros Es HF0 HF Hc Hf Hw He. assert (Hf' : (rpl (f CS) =? 0) = false) by by apply Z.eqb_neq.
  destruct (isr_exit_run c f k m F sp num code Es HF0) as (u & E1 & Hu); [|done|done|].
  { unfold isr_frame. rewrite length_app, Hf'. cbn [length]. lia. }
  pose proof (Hu GS) as G1. pose proof (Hu CS) as C1. unfold restored in G1, C1. rewrite Hf' in G1.
  destruct (enter_run u (put m k) (esp0 k) (esp0 k - 64)) as (c1 & m1 & E2 & S1 & S2 & _ & Hr & _ & S5 & _); [by rewrite C1, Hf'..|lia|lia|].
  destruct (save_run num' code' c1 c1 (put m k) m1 (esp0 k - 64) S1) as (c2 & E3 & _ & S7 & _ & _ & S8); [lia|lia|done..|].
  exists u. eexists _, _. split; [exact E1|]. split; [exact (Hu EIP)|]. split; [exact C1|].
  split; [rewrite (bind_some _ _ _ _ _ E2); exact E3|]. cbn [regs]. pose proof (S5 GS) as S9. cbn beta iota in S9. rewrite S8, S9, G1, S7, S2.
  split; [reflexivity|]. split; [reflexivity|]. by apply null_segment.
Qed.

(** ** System calls *)

(** [struct syscall_regs], below the processor's frame. *)
Definition syscall_frame c : list Z :=
  [c EBX; c ECX; c EDX; c ESI; c EDI; c EBP; c DS; c ES; c FS; c GS; c EAX; c EIP; c CS; c EFLAGS] ++
  (if rpl (c CS) =? 0 then [] else [c ESP; c SS]).

(** The return to the caller, from the processor's part of the frame at [F]. *)
Lemma iret_run c f k m F :
  c ESP = F -> 0 <= F -> F + (if rpl (f CS) =? 0 then 12 else 20) < 4294967296 -> rpl (c CS) = 0 ->
  words m F ([f EIP; f CS; f EFLAGS] ++ (if rpl (f CS) =? 0 then [] else [f ESP; f SS])) ->
  exists c', iret (Machine c (put m k)) = Some (tt, Machine c' (put m k)) /\
    forall r, c' r = match r with
                     | EIP | CS | EFLAGS => f r
                     | ESP => if rpl (f CS) =? 0 then F + 12 else f ESP
                     | SS => if rpl (f CS) =? 0 then c SS else f SS
                     | DS | ES | FS | GS => if rpl (f CS) =? 0 then c r else visible (f CS) (c r)
                     | _ => c r
                     end.
Proof.
  intros Es H0 HF Hc Hw. cbn [app] in Hw. apply words_cons in Hw as [W0 Hw]. apply words_cons in Hw as [W1 Hw]. apply words_cons in Hw as [W2 Hw].
  unfold iret. destruct (rpl (f CS) =? 0) eqn:Er.
  - run_reg. do 3 run_pop. run_reg. rewrite Hc, Er. eexists. split; [reflexivity|]. intros r. destruct r; reg_simpl; try reflexivity. lia.
  - apply words_cons in Hw as [W3 Hw]. apply words_cons in Hw as [W4 _]. run_reg. do 3 run_pop. run_reg. rewrite Hc, Er.
    do 2 run_pop. do 2 run_reg. unfold drop_segment. do 6 run_reg. rewrite rd_bind. reg_simpl. eexists. split; [apply mov_run|]. intros r. by destruct r.
Qed.

(** Memory after the eleven registers were pushed, the last one to [F]. *)
Definition saved_registers (f : regfile) (F : Z) (m : gmap Z Z) : gmap Z Z :=
  <[F := f EBX]> (<[F + 4 := f ECX]> (<[F + 8 := f EDX]> (<[F + 12 := f ESI]> (<[F + 16 := f EDI]> (<[F + 20 := f EBP]>
    (<[F + 24 := f DS]> (<[F + 28 := f ES]> (<[F + 32 := f FS]> (<[F + 36 := f GS]> (<[F + 40 := f EAX]> m)))))))))).

(** They and the processor's words make up the frame of a system call; the
    argument and the return address of the call are below it. *)
Lemma saved_frame f F m ra : words m (F + 44) ([f EIP; f CS; f EFLAGS] ++ (if rpl (f CS) =? 0 then [] else [f ESP; f SS])) ->
  words (<[F - 8 := ra]> (<[F - 4 := F]> (saved_registers f F m))) F (syscall_frame f).
Proof.
  intros Hw. unfold syscall_frame. cbn [app]. do 11 (apply words_cons; split; [unfold saved_registers; find_word|]).
  replace (F + 4 + 4 + 4 + 4 + 4 + 4 + 4 + 4 + 4 + 4 + 4) with (F + 44) by lia. revert Hw. apply words_same.
  intros x Hx. unfold saved_registers. by rewrite !lookup_insert_ne by lia.
Qed.

Lemma isr64_run junk ra handler c f k m0 m F top :
  c ESP = F + 44 -> 8 <= F -> top = F + 4 * Z.of_nat (length (syscall_frame f)) -> top < 4294967296 -> rpl (c CS) = 0 ->
  (forall r, match r with CS | SS | ESP | EIP | EFLAGS | CR3 => True | _ => c r = f r end) ->
  (forall r, match r with DS | ES | FS | GS => 0 <= f r < 65536 | _ => True end) ->
  (forall a, ~ (F - 8 <= a < top) -> m !! a = m0 !! a) ->
  words m (F + 44) ([f EIP; f CS; f EFLAGS] ++ (if rpl (f CS) =? 0 then [] else [f ESP; f SS])) ->
  keeps_frame handler F top (put m0 k) (syscall_frame f) ->
  exists c' k', isr64 junk ra handler (Machine c (put m k)) = Some (tt, Machine c' k') /\
    forall r, c' r = match r with
                     | EAX => junk EAX
                     | ESP => if rpl (f CS) =? 0 then F + 56 else f ESP
                     | SS => if rpl (f CS) =? 0 then c SS else f SS
                     | CR3 => c CR3
                     | DS | ES | FS | GS => if rpl (f CS) =? 0 then f r else visible (f CS) (f r)
                     | _ => f r
                     end.
Proof.
  intros Es HF Ht Htop Hc Hr Hsg Ho Hw HK.
  assert (Hlen : 4 * Z.of_nat (length (syscall_frame f)) = 44 + (if rpl (f CS) =? 0 then 12 else 20))
    by (unfold syscall_frame; rewrite length_app; cbn [length]; destruct (rpl (f CS) =? 0); cbn [length]; lia).
  assert (Hge : 12 <= (if rpl (f CS) =? 0 then 12 else 20)) by (destruct (rpl (f CS) =? 0); lia).
  set (m1 := saved_registers f F m). set (m2 := <[F - 8 := ra]> (<[F - 4 := F]> m1)).
  assert (Hw2 : words m2 F (syscall_frame f)) by by apply saved_frame.
  destruct (HK m2) as (k' & Eh & Hk').
  { intros a Ha. cbn [mem put with_tmem tmem with_kmem kmem]. rewrite <- Ho by done. unfold m2, m1, saved_registers. rewrite !lookup_insert_ne by lia. done. }
  { exact Hw2. }
  rewrite put_put in Eh. assert (Hw3 : words (mem k') F (syscall_frame f)) by (revert Hw2; apply words_same; intros x Hx; apply Hk'; lia).
  pose proof (Hr EAX) as R1. pose proof (Hr EBX) as R2. pose proof (Hr ECX) as R3. pose proof (Hr EDX) as R4. pose proof (Hr ESI) as R5. pose proof (Hr EDI) as R6.
  pose proof (Hr EBP) as R7. pose proof (Hr DS) as R8. pose proof (Hr ES) as R9. pose proof (Hr FS) as R10. pose proof (Hr GS) as R11.
  cbn beta iota in R1, R2, R3, R4, R5, R6, R7, R8, R9, R10, R11. clear Hr HK Hw2 Ho Hw.
  unfold isr64. do 2 run_reg. do 11 run_push. run_reg. run_push. rewrite Es, R1, R2, R3, R4, R5, R6, R7, R8, R9, R10, R11.
  match goal with |- context [handler ?a] => replace a with F by lia end.
  match goal with |- context [put ?mm k] => replace mm with (<[F - 4 := F]> m1) by (unfold m1, saved_registers; repeat (f_equal; try lia)) end.
  match goal with |- context [Machine ?cc (put _ k)] => set (c1 := cc) end.
  assert (S1 : c1 ESP = F - 4) by (unfold c1; reg_simpl; lia). assert (S2 : c1 CS = c CS) by reflexivity. assert (S3 : c1 SS = c SS) by reflexivity.
  assert (S4 : c1 CR3 = c CR3) by reflexivity. clearbody c1.
  destruct (call_run junk ra (handler F) c1 k (<[F - 4 := F]> m1) (F - 4) k' ra S1 ltac:(lia)) as (c2 & E2 & Hc2).
  { by replace (F - 4 - 4) with (F - 8) by lia. }
  { replace (F - 4 - 4) with (F - 8) by lia. rewrite Hk' by lia. apply lookup_insert_eq. }
  rewrite (bind_some _ _ _ _ _ E2). pose proof (Hc2 ESP) as S5. cbn beta iota in S5. clear E2 Eh Hk'.
  assert (Hfw : words (mem k') (F + 44) ([f EIP; f CS; f EFLAGS] ++ (if rpl (f CS) =? 0 then [] else [f ESP; f SS]))).
  { intros i w Ei. specialize (Hw3 (11 + i)%nat w Ei). by replace (F + 44 + 4 * Z.of_nat i) with (F + 4 * Z.of_nat (11 + i)) by lia. }
  unfold syscall_frame in Hw3. cbn [app] in Hw3. clearbody m1. clear m2.
  do 11 (apply words_cons in Hw3 as [? Hw3]). clear Hw3. run_skip. do 6 run_pop. unfold mov_seg.
  do 4 (run_pop; run_reg). run_skip. do 2 run_reg.
  match goal with |- context [Machine ?cc (put _ k')] => destruct (iret_run cc f k' (mem k') (F + 44)) as (c3 & E3 & Hc3) end.
  - reg_simpl. lia.
  - lia.
  - lia.
  - reg_simpl. rewrite (Hc2 CS). by rewrite S2.
  - exact Hfw.
  - exists c3, (put (mem k') k'). split; [exact E3|]. intros r. rewrite Hc3. pose proof (Hc2 SS) as S6. pose proof (Hc2 CR3) as S7. pose proof (Hc2 EAX) as S8.
    cbn beta iota in S6, S7, S8. pose proof (Hsg DS). pose proof (Hsg ES). pose proof (Hsg FS). pose proof (Hsg GS). cbn beta iota in *.
    destruct r; reg_simpl; try reflexivity; try exact S8; rewrite ?S6, ?S7, ?S3, ?S4; try reflexivity; try (unfold u16; rewrite Z.mod_small by assumption; reflexivity).
    destruct (rpl (f CS) =? 0); [lia|reflexivity].
Qed.

(** [syscall_handler] on the saved registers of [c]. *)
Definition syscall_of c : syscall_effect := if c EAX =? SYSCALL_WRITE then SysWrite (i32 (c EDI)) (c ESI) (c EDX) else SysInvalid (c EAX).

Lemma handler_run c k F m x : tasks k !! current_task k = Some x -> words m F (syscall_frame c) ->
  syscall_handler F (put m k) = Some (syscall_of c, put m k).
Proof.
  intros Ex Hw. assert (Hl : forall i w, syscall_frame c !! i = Some w -> on_heap (load (F + 4 * Z.of_nat i)) (put m k) = Some (w, put m k)).
  { intros i w Ei. unfold on_heap, load. cbn [put with_tmem tmem with_kmem kmem]. rewrite (Hw i w Ei). done. }
  unfold syscall_handler. rewrite (bind_some _ _ _ _ _ (gets_run current_task (put m k))).
  rewrite (bind_some _ _ _ _ _ (get_task_some (put m k) (current_task k) x Ex)).
  change SYS_NO with (4 * Z.of_nat 10). rewrite (bind_some _ _ _ _ _ (Hl 10%nat (c EAX) eq_refl)). unfold syscall_of. destruct (c EAX =? SYSCALL_WRITE); [|done].
  change SYS_EDI with (4 * Z.of_nat 4). change SYS_ESI with (4 * Z.of_nat 3). change SYS_EDX with (4 * Z.of_nat 2).
  rewrite (bind_some _ _ _ _ _ (Hl 4%nat (c EDI) eq_refl)), (bind_some _ _ _ _ _ (Hl 3%nat (c ESI) eq_refl)), (bind_some _ _ _ _ _ (Hl 2%nat (c EDX) eq_refl)). done.
Qed.


End Exit.

(** ** Switching between tasks *)

Section Switch.
  Context {P : Type} `{PageSource P}.

  Implicit Types (c f : regfile) (k : sched P) (m : gmap Z Z).

(** Memory after the registers of [c] are saved below its stack pointer. *)
Definition saved_mem c m : gmap Z Z :=
  <[c ESP - 16 := c EDI]> (<[c ESP - 12 := c ESI]> (<[c ESP - 8 := c EBX]> (<[c ESP - 4 := c EBP]> m))).

(** The kernel's state after the first half of the switch. *)
Definition saved_kernel (cur : Z) (x : task) c k : sched P :=
  put (saved_mem c (mem k)) (with_tasks (<[cur := set_top (c ESP - 16) x]> (tasks k)) k).

(** A call of [task_context_switch(cur, next)] is about to start. *)
Record calls_switch c k (cur next : Z) (x : task) : Prop := CallsSwitch {
  cs_room : 16 <= c ESP < 4294967296 - 8;
  cs_current : mem k !! (c ESP + 4) = Some cur;
  cs_next : mem k !! (c ESP + 8) = Some next;
  cs_task : tasks k !! cur = Some x
}.

(** The stack and the address space [next] is switched to. *)
Record resumes k (next : Z) (top di si bx bp ip pgd : Z) : Prop := Resumes {
  rs_task : exists y, tasks k !! next = Some y /\ kstack_top y = top /\ mem k !! (vm_space y + VMS_PGD) = Some pgd;
  rs_range : 0 <= top < 4294967296 - 20;
  rs_words : words (mem k) top [di; si; bx; bp; ip]
}.

Lemma switch_run c k cur next x top di si bx bp ip pgd :
  calls_switch c k cur next x -> resumes (saved_kernel cur x c k) next top di si bx bp ip pgd ->
  exists c', task_context_switch (Machine c k) = Some (tt, Machine c' (saved_kernel cur x c k)) /\
    forall r, c' r = match r with
                     | EDI => di | ESI => si | EBX => bx | EBP => bp | EIP => ip | ESP => top + 20 | CR3 => pgd
                     | EAX => cur | EDX => next | ECX => c CR3
                     | _ => c r
                     end.
Proof.
  intros [Hs E1 E2 Ex] [(y & Ey & Et & Ep) Hr Hw].
  assert (Machine c k = Machine c (put (mem k) k)) as -> by by rewrite put_mem.
  assert (Hread : forall a v c0 m0, m0 !! a = Some v -> mread a (Machine c0 (put m0 k)) = Some (v, Machine c0 (put m0 k))).
  { intros a v c0 m0 E. unfold mread. cbn [kernel put with_tmem tmem with_kmem kmem]. by rewrite E. }
  unfold task_context_switch. run_reg. rewrite (u32_small (c ESP + 4)), (u32_small (c ESP + 8)) by lia.
  rewrite (bind_some _ _ _ _ _ (Hread _ _ _ _ E1)). run_reg. rewrite (bind_some _ _ _ _ _ (Hread _ _ _ _ E2)). run_reg.
  do 4 run_push. run_reg.
  match goal with |- context [put ?mm k] => replace mm with (saved_mem c (mem k)) by (unfold saved_mem; repeat (f_equal; try lia)) end.
  replace (c ESP - 4 - 4 - 4 - 4) with (c ESP - 16) by lia.
  erewrite bind_some by (apply in_kernel_run, upd_task_some; exact Ex).
  change (put (mem (with_tasks ?T (put ?mm k))) (with_tasks ?T (put ?mm k))) with (put mm (with_tasks T k)).
  change (put (saved_mem c (mem k)) (with_tasks _ k)) with (saved_kernel cur x c k). clear Hread.
  set (k1 := saved_kernel cur x c k) in *. assert (Hread : forall a v c0, mem k1 !! a = Some v -> mread a (Machine c0 k1) = Some (v, Machine c0 k1)).
  { intros a v c0 E. unfold mread. change (kmem (tmem (kernel (Machine c0 k1)))) with (mem k1). by rewrite E. }
  clearbody k1. erewrite bind_some by (apply in_kernel_run, get_task_some; exact Ey). rewrite put_mem. run_reg.
  rewrite (bind_some _ _ _ _ _ (Hread _ _ _ Ep)). do 3 run_reg. rewrite Et.
  apply words_cons in Hw as [W0 Hw]. apply words_cons in Hw as [W1 Hw]. apply words_cons in Hw as [W2 Hw]. apply words_cons in Hw as [W3 Hw]. apply words_cons in Hw as [W4 _].
  assert (Hk : forall c0, Machine c0 k1 = Machine c0 (put (mem k1) k1)) by (intros c0; by rewrite put_mem).
  destruct (Z.eqb_spec (c CR3) pgd) as [Eq|Eq].
  - rewrite bind_ret, Hk. do 4 run_pop. erewrite pop_run by (first [reg_simpl; reflexivity | lia | find_word]). rewrite put_mem.
    eexists. split; [reflexivity|]. intros r. destruct r; reg_simpl; try reflexivity; [lia|exact Eq].
  - run_reg. rewrite Hk. do 4 run_pop. erewrite pop_run by (first [reg_simpl; reflexivity | lia | find_word]). rewrite put_mem.
    eexists. split; [reflexivity|]. intros r. destruct r; reg_simpl; try reflexivity. lia.
Qed.

(** The task [a] that called [task_context_switch] with the registers [c] waits
    to be switched back to. *)
Definition suspended (a ra : Z) c k (pgd : Z) : Prop := resumes k a (c ESP - 16) (c EDI) (c ESI) (c EBX) (c EBP) ra pgd.

(** C22: a task that is switched away from resumes where it was.  When task [a]
    calls [task_context_switch], its registers are saved on its stack and its stack
    pointer in its structure; whatever happens in between, as long as these and
    its address space are left alone, a later switch to [a] returns from that same
    call, with EBX, ESI, EDI, EBP and the stack pointer as the calling convention
    wants them and with [a]'s page directory loaded. *)
Theorem switch_roundtrip c k (a b ra pgd top di si bx bp ip pgd' : Z) (x : task) :
  calls_switch c k a b x -> mem k !! c ESP = Some ra -> mem k !! (vm_space x + VMS_PGD) = Some pgd ->
  c ESP <= vm_space x \/ vm_space x < c ESP - 16 -> resumes (saved_kernel a x c k) b top di si bx bp ip pgd' ->
  exists c1 k1, task_context_switch (Machine c k) = Some (tt, Machine c1 k1) /\ suspended a ra c k1 pgd /\
    (c1 EBX = bx /\ c1 ESI = si /\ c1 EDI = di /\ c1 EBP = bp /\ c1 ESP = top + 20 /\ c1 EIP = ip /\ c1 CR3 = pgd') /\
    forall c2 k2 (b' : Z) (y : task), calls_switch c2 k2 b' a y -> suspended a ra c (saved_kernel b' y c2 k2) pgd ->
      exists c3, task_context_switch (Machine c2 k2) = Some (tt, Machine c3 (saved_kernel b' y c2 k2)) /\
        c3 EBX = c EBX /\ c3 ESI = c ESI /\ c3 EDI = c EDI /\ c3 EBP = c EBP /\ c3 ESP = c ESP + 4 /\ c3 EIP = ra /\ c3 CR3 = pgd.
Proof.
  intros HC Hra Hp Hv HR. pose proof HC as [Hs _ _ Ex].
  destruct (switch_run c k a b x top di si bx bp ip pgd' HC HR) as (c1 & E1 & Hc1). exists c1, (saved_kernel a x c k). split; [exact E1|]. split; [|split].
  - split; [|lia|].
    + exists (set_top (c ESP - 16) x). split_and!; [apply lookup_insert_eq|reflexivity|]. unfold VMS_PGD in *.
      change (saved_mem c (mem k) !! (vm_space x + 0) = Some pgd). unfold saved_mem. rewrite !lookup_insert_ne by lia. exact Hp.
    + change (words (saved_mem c (mem k)) (c ESP - 16) [c EDI; c ESI; c EBX; c EBP; ra]). unfold saved_mem.
      do 4 (apply words_cons; split; [find_word|]). apply words_cons. split; [find_word|]. intros i w Ei. discriminate Ei.
  - rewrite (Hc1 EBX), (Hc1 ESI), (Hc1 EDI), (Hc1 EBP), (Hc1 ESP), (Hc1 EIP), (Hc1 CR3). by split_and!.
  - intros c2 k2 b' y HC2 HS. destruct (switch_run c2 k2 b' a y _ _ _ _ _ _ _ HC2 HS) as (c3 & E3 & Hc3). exists c3.
    split; [exact E3|]. rewrite (Hc3 EBX), (Hc3 ESI), (Hc3 EDI), (Hc3 EBP), (Hc3 ESP), (Hc3 EIP), (Hc3 CR3). split_and!; try reflexivity. lia.
Qed.

(** The registers a new task starts with. *)
Definition start_registers (ty start : Z) (r : reg) : Z :=
  match r with
  | EIP => start
  | CS => if ty =? TASK_KERNEL then 0x08 else 0x1B
  | EFLAGS => if ty =? TASK_KERNEL then 0x200 else 0x3200
  | DS | ES | FS => if ty =? TASK_KERNEL then 0x10 else 0x23
  | GS => if ty =? TASK_KERNEL then CPU_GS else 0
  | SS => 0x23
  | ESP => 0x440000
  | _ => 0
  end.

Lemma initial_frame ty start isr_exit :
  exists rest, initial_stack ty start isr_exit = [0; 0; 0; 0; isr_exit] ++ isr_frame (start_registers ty start) 0 0 0 ++ rest.
Proof.
  unfold initial_stack, isr_frame, start_registers. destruct (ty =? TASK_KERNEL).
  - exists [0; 0x10]. reflexivity.
  - exists []. reflexivity.
Qed.

Lemma words_app m a l1 l2 : words m a (l1 ++ l2) -> words m a l1 /\ words m (a + 4 * Z.of_nat (length l1)) l2.
Proof.
  intros Hw. split; intros i w Ei; [apply Hw; by apply lookup_app_l_Some|].
  specialize (Hw (length l1 + i)%nat w). rewrite lookup_app_r in Hw by lia. replace (length l1 + i - length l1)%nat with i in Hw by lia.
  specialize (Hw Ei). by replace (a + 4 * Z.of_nat (length l1) + 4 * Z.of_nat i) with (a + 4 * Z.of_nat (length l1 + i)) by lia.
Qed.

(** The first switch to a task whose stack is still as [arch_task_create] left it. *)
Lemma fresh_run (isr_exit ty start t v p d : Z) k c (cur : Z) (x y : task) :
  tasks k !! t = Some y -> kstack_top y = lin p + KSTACK_BYTES - 84 -> vm_space y = v -> 0 <= p -> p + 16 <= LINEAR_FRAMES ->
  words (mem k) (lin p + KSTACK_BYTES - 84) (initial_stack ty start isr_exit) -> mem k !! (v + VMS_PGD) = Some (d * 4096) ->
  calls_switch c k cur t x -> cur <> t -> rpl (c CS) = 0 ->
  c ESP <= lin p \/ lin p + KSTACK_BYTES <= c ESP - 16 -> c ESP <= v \/ v < c ESP - 16 ->
  exists c1 k1 c2, task_context_switch (Machine c k) = Some (tt, Machine c1 k1) /\ c1 EIP = isr_exit /\
    isr_exit_path (Machine c1 k1) = Some (tt, Machine c2 k1) /\ k1 = saved_kernel cur x c k /\ c2 CR3 = d * 4096 /\
    (forall r, match r with
               | CR3 => True
               | SS => ty <> TASK_KERNEL -> c2 SS = 0x23
               | ESP => c2 ESP = if ty =? TASK_KERNEL then lin p + KSTACK_BYTES - 8 else 0x440000
               | _ => c2 r = start_registers ty start r
               end).
Proof.
  intros Ey Ety Evy Hp0 Hp1 Hw Hpgd HC Hne Hc Hst Hv.
  set (top := lin p + KSTACK_BYTES - 84) in *. assert (Htop : 3221225472 <= top < 4294967296 - 84) by (unfold top, lin, KERNEL_START_VIRT, KSTACK_BYTES, LINEAR_FRAMES in *; lia).
  assert (Hlen : length (initial_stack ty start isr_exit) = 21%nat) by (unfold initial_stack; by destruct (ty =? TASK_KERNEL)).
  set (k1 := saved_kernel cur x c k). assert (Hm : forall a, ~ (c ESP - 16 <= a < c ESP) -> mem k1 !! a = mem k !! a).
  { intros a Ha. change (saved_mem c (mem k) !! a = mem k !! a). unfold saved_mem. by rewrite !lookup_insert_ne by lia. }
  assert (Hw1 : words (mem k1) top (initial_stack ty start isr_exit)).
  { revert Hw. apply words_same. intros a Ha. rewrite Hlen in Ha. apply Hm. unfold top, KSTACK_BYTES in *. lia. }
  destruct (initial_frame ty start isr_exit) as [rest Ei]. rewrite Ei in Hw1. apply words_app in Hw1 as [Hw2 Hw3]. apply words_app in Hw3 as [Hw3 _].
  change (4 * Z.of_nat (length [0; 0; 0; 0; isr_exit])) with 20 in Hw3.
  destruct (switch_run c k cur t x top 0 0 0 0 isr_exit (d * 4096) HC) as (c1 & E1 & Hc1).
  { split; [|lia|exact Hw2]. exists y. split; [etrans; [exact (lookup_insert_ne _ _ _ _ Hne)|exact Ey]|].
    split; [exact Ety|]. rewrite Evy, Hm by (unfold VMS_PGD; lia). exact Hpgd. }
  destruct (isr_exit_run c1 (start_registers ty start) k1 (mem k1) (top + 20) 0 0 0) as (c2 & E2 & Hc2).
  - by rewrite (Hc1 ESP).
  - lia.
  - rewrite Ei, !length_app in Hlen. cbn [length] in Hlen. lia.
  - by rewrite (Hc1 CS).
  - exact Hw3.
  - rewrite put_mem in E2. exists c1, k1, c2. split_and!; [exact E1|by rewrite (Hc1 EIP)|exact E2|reflexivity|rewrite (Hc2 CR3); exact (Hc1 CR3)|].
    intros r. rewrite ?Hc2. unfold restored, start_registers. destruct r; try reflexivity; try done; destruct (Z.eqb_spec ty TASK_KERNEL); try reflexivity; try done.
    change (rpl 8 =? 0) with true. cbv iota. unfold top. lia.
Qed.

(** C21: a new task starts.  The first switch to a task made by [task_create]
    enters [isr_exit], and that path begins the task at its entry point with its
    page directory loaded, all general registers zero, interrupts enabled, the
    kernel's selectors and the rest of its own stack for a kernel task, and the
    user selectors, a null GS and the user stack for a user task. *)
Theorem new_task_starts (isr_exit : Z) (s s' : sched P) G G' A A' (name : list Z) (ty start prio st t v p d q : Z) c (cur : Z) (x : task) :
  task_made isr_exit s s' G G' A A' name ty start prio st t v p d q ->
  calls_switch c s' cur t x -> cur <> t -> rpl (c CS) = 0 ->
  c ESP <= lin p \/ lin p + KSTACK_BYTES <= c ESP - 16 -> c ESP <= v \/ v < c ESP - 16 ->
  exists c1 k1 c2, task_context_switch (Machine c s') = Some (tt, Machine c1 k1) /\ c1 EIP = isr_exit /\
    isr_exit_path (Machine c1 k1) = Some (tt, Machine c2 k1) /\ c2 CR3 = d * 4096 /\
    (forall r, match r with
               | CR3 => True
               | SS => ty <> TASK_KERNEL -> c2 SS = 0x23
               | ESP => c2 ESP = if ty =? TASK_KERNEL then lin p + KSTACK_BYTES - 8 else 0x440000
               | _ => c2 r = start_registers ty start r
               end).
Proof.
  intros HM HC Hne Hc Hst Hv. destruct HM as [M1 M2 M3 M4 M5 M6 [M7 _] [HU _] (Hp & _) M11 M12 M13].
  destruct (ps_range _ _ _ (ur_source _ _ _ _ HU) Hp) as [(Hp0 & _) Hp1]. cbn [fst snd] in Hp0, Hp1. change (2 ^ 4) with 16 in Hp1.
  destruct (fresh_run isr_exit ty start t v p d s' c cur x _ M1 eq_refl eq_refl Hp0 Hp1 M5 M7 HC Hne Hc Hst Hv) as (c1 & k1 & c2 & E1 & Ei & E2 & _ & HR).
  by exists c1, k1, c2.
Qed.

End Switch.

(** Words outside the heap and the kernel's directory may change. *)
Lemma system_put {P : Type} `{PageSource P} (hd : Z) (K : Z -> Prop) (q : Z) (k : sched P) l G A m :
  system_ok hd K q k l G A -> (forall a, slab_word G a -> m !! a = mem k !! a) ->
  (forall i, 0 <= i < 1024 -> m !! (lin q + 4 * i) = mem k !! (lin q + 4 * i)) -> system_ok hd K q (put m k) l G A.
Proof.
  intros [[S1 S2 S3 S4 S5 S6] H2 H3 H4 H5 (D1 & D2 & D3 & D4) H7] Hs Hd. split; [by split|by apply heap_outside|done|done|done| |done].
  split_and!; [done|lia|lia|]. split.
  - intros i Hi. cbn. rewrite Hd by done. by apply D3.
  - intros i e Hi. cbn. rewrite Hd by (unfold USER_PDES in Hi; lia). by apply D4.
Qed.

(** ** Examples on the small machine *)

#[local] Existing Instance source128.

(** Kernel code with its stack in frame 6, and user code of task 7. *)
Definition kernel_registers : regfile := fun r =>
  match r with EAX => 1 | EDI => 2 | ESI => 0x5000 | EDX => 64 | ESP => lin 6 + 0x800 | EIP => 0xC0102000 | CS => 0x08 | SS => 0x10 | DS => 0x10 | ES => 0x10
  | FS => 0x10 | GS => 0x30 | EFLAGS => 0x202 | CR3 => 0x4000 | _ => 3 end.

Definition user_registers : regfile := fun r =>
  match r with EAX => 1 | EDI => 2 | ESI => 0x5000 | EDX => 64 | ESP => 0x43FF00 | EIP => 0x400020 | CS => 0x1B | SS => 0x23 | DS => 0x23 | ES => 0x23
  | FS => 0x23 | GS => 0 | EFLAGS => 0x3202 | CR3 => 0x4000 | _ => 3 end.

Definition user_kernel : sched buddy := with_tasks {[ 7 := blank_task ]} (with_current 7 (with_esp0 (lin 6 + 0x1000) sched128)).


(** The frame of the user code above, in frame 6. *)
Definition user_frame_mem : gmap Z Z :=
  list_to_map (zip ((fun i => lin 6 + 4 * Z.of_nat i) <$> seq 0 16) (isr_frame user_registers (lin 6 + 36) 32 0)).

Lemma user_frame_words : words user_frame_mem (lin 6) (isr_frame user_registers (lin 6 + 36) 32 0).
Proof.
  intros i w Ei. do 16 (destruct i as [|i]; [vm_compute in Ei; injection Ei as <-; reflexivity|]). discriminate Ei.
Qed.

Lemma user_interrupt_faults_witness : exists u frame s1,
  isr_exit_path (Machine (set_reg ESP (lin 6) kernel_registers) (put user_frame_mem user_kernel)) = Some (tt, Machine u (put user_frame_mem user_kernel)) /\
  (interrupt_enter ;; isr_entry 32 0)%st (Machine u (put user_frame_mem user_kernel)) = Some (frame, s1) /\
  segment_address (gdt (cpu_desc (snd (cpu_init 0xC0105000 (cpu_cleared 0))))) (regs s1 GS) 0 4 = None.
Proof.
  destruct (user_interrupt_faults 32 0 32 0 0xC0105000 (lin 6 + 36) (cpu_cleared 0) (set_reg ESP (lin 6) kernel_registers) user_registers
    user_kernel user_frame_mem (lin 6)) as (u & frame & s1 & E1 & _ & _ & E2 & _ & _ & Hg).
  - reflexivity.
  - vm_compute. discriminate.
  - vm_compute. reflexivity.
  - reflexivity.
  - vm_compute. discriminate.
  - exact user_frame_words.
  - vm_compute. split; [discriminate|reflexivity].
  - exists u, frame, s1. split; [exact E1|]. split; [exact E2|exact Hg].
Defined.


(** Task 7, with its stack in frame 6, switches to task 8, with its stack in
    frame 7; both have their address space structure in frame 8. *)
Definition switch_kernel : sched buddy :=
  put (<[lin 6 + 0x800 := 0xC0103000]> (<[lin 6 + 0x804 := 7]> (<[lin 6 + 0x808 := 8]> (<[lin 8 := 0x9000]> (zero_words 8 (lin 7) ∅)))))
    (with_tasks {[ 7 := set_vm (lin 8) blank_task; 8 := set_top (lin 7) (set_vm (lin 8) blank_task) ]} sched128).

Lemma switch_roundtrip_witness : exists c1 k1, task_context_switch (Machine kernel_registers switch_kernel) = Some (tt, Machine c1 k1) /\
  suspended 7 0xC0103000 kernel_registers k1 0x9000.
Proof.
  destruct (switch_roundtrip kernel_registers switch_kernel 7 8 0xC0103000 0x9000 (lin 7) 0 0 0 0 0 0x9000 (set_vm (lin 8) blank_task))
    as (c1 & k1 & E & HS & _).
  - split; [vm_compute; split; [discriminate|reflexivity]|reflexivity|reflexivity|reflexivity].
  - reflexivity.
  - reflexivity.
  - left. vm_compute. discriminate.
  - split; [eexists; split_and!; [reflexivity|reflexivity|reflexivity]|vm_compute; split; [discriminate|reflexivity]|].
    do 5 (apply words_cons; split; [reflexivity|]). intros i w Ei. discriminate Ei.
  - exists c1, k1. split; [exact E|exact HS].
Defined.

(** A user task is created on the small machine and switched to from the code with
    its stack in frame 6. *)
Definition first_task : Z := 0xC0020028.

Definition starter : sched buddy :=
  put (<[lin 6 + 0x804 := lin 5]> (<[lin 6 + 0x808 := first_task]> (mem sched128))) sched128.

Lemma starter_ok : system_ok (lin 5) low_frame 4 starter [] (replicate 13 []) ∅.
Proof.
  apply system_put; [exact sched128_ok| |].
  - intros a (b & Hb & _). vm_compute in Hb. exfalso. exact (not_elem_of_nil _ Hb).
  - intros i Hi. rewrite !lookup_insert_ne by (unfold lin; lia). reflexivity.
Qed.

Lemma starter_task : fst <$> task_create (lin 5) (lin 4) 0xC0101000 [117] TASK_USERMODE 0x400000 1 TASK_STATE_WAITING starter = Some first_task.
Proof. vm_compute. reflexivity. Qed.

Lemma new_task_starts_witness : exists s' c1 k1 c2,
  task_create (lin 5) (lin 4) 0xC0101000 [117] TASK_USERMODE 0x400000 1 TASK_STATE_WAITING starter = Some (first_task, s') /\
  task_context_switch (Machine kernel_registers s') = Some (tt, Machine c1 k1) /\ isr_exit_path (Machine c1 k1) = Some (tt, Machine c2 k1) /\
  c2 EIP = 0x400000 /\ c2 CS = 0x1B.
Proof.
  destruct (task_create_spec (lin 5) (lin 4) 0xC0101000 low_frame 0 4 starter [] (replicate 13 []) ∅ [117] TASK_USERMODE 0x400000 1 TASK_STATE_WAITING
    starter_ok ltac:(apply (roomyb_spec 16); vm_compute; reflexivity) eq_refl ltac:(vm_compute; split; [discriminate|reflexivity]) eq_refl)
    as (t & v & p & d & s' & G' & A' & E & HS & _ & HM).
  pose proof starter_task as Et. rewrite E in Et. cbn [fmap option_fmap option_map fst] in Et. injection Et as ->.
  assert (Hlow : forall a x, in_frame x a -> x < 16 -> mem s' !! a = mem starter !! a).
  { intros a x Ha Hx. apply (extends_kernel low_frame (tmem starter) (tmem s') (replicate 13 []) G' ∅ A' x a);
      [apply starter_ok|apply (tm_frame _ _ _ _ _ _ _ _ _ _ _ _ _ _ _ _ _ HM)|apply HS|exact Hx|exact Ha]. }
  assert (Hp : 16 <= p).
  { apply Z.nlt_ge. intros Hlt. apply (sy_clear _ _ _ _ _ _ _ HS (p, 4) p); [apply (tm_blocks _ _ _ _ _ _ _ _ _ _ _ _ _ _ _ _ _ HM)|apply inb_head; done|exact Hlt]. }
  assert (Hv : lin 16 <= v).
  { assert (Hl : live G' 1 v) by (apply (tm_live _ _ _ _ _ _ _ _ _ _ _ _ _ _ _ _ _ HM); by right; right).
    destruct (slab_word_block _ _ _ v (sy_heap _ _ _ _ _ _ _ HS)) as (b & Hb & Hab); [eapply (live_slab_word _ _ _ 1 v 16); [apply HS|exact Hl|reflexivity|lia]|].
    apply in_block_frame in Hab as (x & Hx & Hxa). apply Z.nlt_ge. intros Hlt. apply (sy_clear _ _ _ _ _ _ _ HS _ x Hb Hx).
    unfold low_frame. unfold in_frame, lin in *. lia. }
  destruct (new_task_starts 0xC0101000 starter s' (replicate 13 []) G' ∅ A' [117] TASK_USERMODE 0x400000 1 TASK_STATE_WAITING first_task v p d 4
    kernel_registers (lin 5) blank_task HM) as (c1 & k1 & c2 & E1 & _ & E2 & _ & Hr).
  - split.
    + vm_compute. split; [discriminate|reflexivity].
    + rewrite (Hlow _ 6); [reflexivity|change (kernel_registers ESP) with (lin 6 + 0x800); unfold in_frame; lia|done].
    + rewrite (Hlow _ 6); [reflexivity|change (kernel_registers ESP) with (lin 6 + 0x800); unfold in_frame; lia|done].
    + rewrite (tm_others _ _ _ _ _ _ _ _ _ _ _ _ _ _ _ _ _ HM) by done. reflexivity.
  - done.
  - reflexivity.
  - left. change (kernel_registers ESP) with (lin 6 + 0x800). unfold lin in *. lia.
  - left. change (kernel_registers ESP) with (lin 6 + 0x800). unfold lin in *. lia.
  - exists s', c1, k1, c2. split_and!; [exact E|exact E1|exact E2|exact (Hr EIP)|exact (Hr CS)].
Defined.
