(* ===== verification/Console.v ===== *)
(** * The console: text screen and serial port

    arch/x86/kernel/vga.c, arch/x86/kernel/serial.c and
    kernel/drivers/tty/serial.c.  Video memory maps the address of a 16-bit cell
    to its contents, character in the low byte and colours in the high byte; an
    access outside the cells that are there is a fault.  Strings are read from a
    byte memory that the console does not change.  Output to I/O ports is a
    trace; bytes read from ports come from a list, in the order they are read. *)

From stdpp Require Import base numbers list gmap.
From Stdlib Require Import ZArith Lia.
From S2P Require Import Prelude CString Interrupts.

#[local] Open Scope Z_scope.

(** ** The text screen (vga.c) *)

Definition TOP_LINE : Z := 3.
Definition VGA_BUFFER : Z := 0xc00b8000.
Definition VGA_WIDTH : Z := 80.
Definition VGA_HEIGHT : Z := 25.

Definition VGA_COLOUR_BLACK : Z := 0.
Definition VGA_COLOUR_GREEN : Z := 2.
Definition VGA_COLOUR_RED : Z := 4.
Definition VGA_COLOUR_WHITE : Z := 7.

(** Video memory, [vga_state], [current_fg_colour] and the port trace. *)
Record vga : Type := Vga {
  video : gmap Z Z;
  cursor_x : Z;
  cursor_y : Z;
  current_fg_colour : Z;
  vga_ports : list event
}.

Definition with_video (v : gmap Z Z) (s : vga) : vga := Vga v (cursor_x s) (cursor_y s) (current_fg_colour s) (vga_ports s).
Definition with_cursor_x (x : Z) (s : vga) : vga := Vga (video s) x (cursor_y s) (current_fg_colour s) (vga_ports s).
Definition with_fg (c : Z) (s : vga) : vga := Vga (video s) (cursor_x s) (cursor_y s) c (vga_ports s).

(** The address of column [x] of line [y]. *)
Definition cell_addr (x y : Z) : Z := u32 (VGA_BUFFER + 2 * u32 (y * 80 + x)).

Definition read_cell (addr : Z) : ST vga Z := fun s => match video s !! addr with Some w => Some (w, s) | None => None end.

Definition write_cell (addr w : Z) : ST vga unit :=
  fun s => match video s !! addr with Some _ => Some (tt, with_video (<[addr := u16 w]> (video s)) s) | None => None end.

Definition vga_set_character (character fg_colour bg_colour x y : Z) : ST vga unit :=
  let attrib := u16 (Z.lor (Z.shiftl (u8 bg_colour) 4) (Z.land (u8 fg_colour) 0x0F)) in
  write_cell (cell_addr x y) (Z.lor (u8 character) (Z.shiftl attrib 8)).

(** [for(i = i0; i < i0 + n; i++) f(i)] *)
Fixpoint for_up (n : nat) (i : Z) (f : Z -> ST vga unit) : ST vga unit :=
  match n with
  | O => ret tt
  | S k => (f i ;; for_up k (i + 1) f)%st
  end.

Definition vga_clear_line (line : Z) : ST vga unit :=
  for_up 80 0 (fun i => vga_set_character 32 VGA_COLOUR_BLACK VGA_COLOUR_BLACK i (u32 line)).

Definition vga_clear_screen (colour : Z) : ST vga unit :=
  for_up 80 0 (fun x => for_up 25 0 (fun y => vga_set_character 32 VGA_COLOUR_BLACK colour x y)).

(** The body of the innermost loop of [vga_scroll_up]; the colour byte passes
    through a signed [char]. *)
Definition copy_up (line x : Z) : ST vga unit :=
  (w <- read_cell (u32 (VGA_BUFFER + u32 (line * 160 + x * 2))) ;;
   let character := Z.land w 0xFF in
   let colour := schar (Z.land (Z.shiftr w 8) 0xFF) in
   let bg_colour := u8 (Z.shiftr colour 4) in
   let fg_colour := u8 (Z.land colour 0x0F) in
   vga_set_character character fg_colour bg_colour x (u32 (line - 1)))%st.

(** [line_count] and [top_line] are compared as unsigned numbers. *)
Definition vga_scroll_up (line_count top_line : Z) : ST vga unit :=
  for_up (Z.to_nat (u32 line_count)) 0 (fun _ =>
    for_up (Z.to_nat (VGA_HEIGHT - u32 top_line)) (u32 top_line) (fun line =>
      (for_up (Z.to_nat VGA_WIDTH) 0 (copy_up line) ;;
       vga_clear_line line)%st)).

Definition vga_set_cursor (x y : Z) : ST vga unit :=
  fun s =>
    let position := u16 (y * VGA_WIDTH + x) in
    Some (tt, Vga (video s) x y (current_fg_colour s)
      (vga_ports s ++ [io_port_out 0x3D4 0x0F; io_port_out 0x3D5 (u8 (Z.land position 0xFF));
                       io_port_out 0x3D4 0x0E; io_port_out 0x3D5 (u8 (Z.land (Z.shiftr position 8) 0xFF))])).

(** The characters '\n', '\f', '\r' and '\v' are 10, 12, 13 and 11. *)
Definition vga_print_char_at_cursor (tchar : Z) : ST vga unit :=
  (if tchar =? 10 then
     modify (with_cursor_x 0) ;;
     vga_scroll_up 1 TOP_LINE
   else if tchar =? 12 then modify (with_fg VGA_COLOUR_GREEN)
   else if tchar =? 13 then modify (with_fg VGA_COLOUR_RED)
   else if tchar =? 11 then modify (with_fg VGA_COLOUR_WHITE)
   else
     x <- gets cursor_x ;;
     (if x =? VGA_WIDTH then modify (with_cursor_x 0) ;; vga_scroll_up 1 TOP_LINE else ret tt) ;;
     s <- gets (fun s => s) ;;
     vga_set_character tchar (current_fg_colour s) VGA_COLOUR_BLACK (cursor_x s) (cursor_y s) ;;
     modify (fun s => with_cursor_x (u32 (cursor_x s + 1)) s))%st.

(** [strlen(string)], from the byte memory [m]. *)
Definition length_of (m : bytes) (string : Z) : ST vga Z :=
  match strlen string m with Some (n, _) => ret n | None => fault end.

Definition vga_write (m : bytes) (string : Z) : ST vga unit :=
  (string_len <- length_of m string ;;
   for_up (Z.to_nat string_len) 0 (fun i => c <- deref (m !! (string + i)) ;; vga_print_char_at_cursor c))%st.

(** [vga_print_string_at_cursor] asks for the length in every round; the string
    does not change in between. *)
Definition vga_print_string_at_cursor (m : bytes) (string : Z) : ST vga unit :=
  (string_len <- length_of m string ;;
   for_up (Z.to_nat string_len) 0 (fun i => c <- deref (m !! (string + i)) ;; vga_print_char_at_cursor c))%st.

Definition vga_delete_char_at_cursor : ST vga unit :=
  (s <- gets (fun s => s) ;;
   if cursor_x s =? 0 then ret tt else
   vga_set_character 32 VGA_COLOUR_BLACK VGA_COLOUR_BLACK (cursor_x s - 1) (cursor_y s) ;;
   modify (with_cursor_x (cursor_x s - 1)))%st.

Definition vga_overwrite_line (m : bytes) (string fg_colour bg_colour y : Z) : ST vga unit :=
  (vga_clear_line y ;;
   string_len <- length_of m string ;;
   for_up (Z.to_nat string_len) 0 (fun i => c <- deref (m !! (string + i)) ;; vga_set_character c fg_colour bg_colour i (u32 y)))%st.

Definition vga_print_line (m : bytes) (string : Z) : ST vga unit :=
  (vga_scroll_up 1 TOP_LINE ;;
   vga_overwrite_line m string VGA_COLOUR_WHITE VGA_COLOUR_BLACK 24)%st.

(** ** The serial port (serial.c) *)

Definition UART_IER : Z := 1.
Definition UART_FCR : Z := 2.
Definition UART_LCR : Z := 3.
Definition UART_MCR : Z := 4.
Definition UART_LSR : Z := 5.
Definition UART_LSR_TX_HOLDING_EMPTY : Z := 0x20.
Definition UART_LCR_DLAB : Z := 0x80.
Definition UART_LCR_BREAK_DISABLE : Z := 0x00.
Definition UART_LCR_PARITY_NONE : Z := 0x00.
Definition UART_LCR_STOP_BIT_1 : Z := 0x00.
Definition UART_LCR_WORD_LENGTH_8B : Z := 0x03.
Definition UART_MCR_FORCE_DTR : Z := 0x01.
Definition UART_MCR_FORCE_RTS : Z := 0x02.
Definition UART_MCR_AUX_OUTPUT_1 : Z := 0x04.
Definition UART_MCR_AUX_OUTPUT_2 : Z := 0x08.
Definition UART_MCR_LOOPBACK_MODE : Z := 0x10.
Definition UART_FCR_BAUD_38400_HIGH : Z := 0x00.
Definition UART_FCR_BAUD_38400_LOW : Z := 0x03.
Definition UART_FCR_FIFO_ENABLE : Z := 0x01.
Definition UART_FCR_CLEAR_RX_FIFO : Z := 0x02.
Definition UART_FCR_CLEAR_TX_FIFO : Z := 0x04.
Definition UART_FCR_INT_TRIG_14B : Z := 0xC0.
Definition UART_FCR_FIFO64_DISABLE : Z := 0x00.
Definition IO_PORT_SERIAL_COM1 : Z := 0x3F8.
Definition IO_PORT_SERIAL_COM2 : Z := 0x2F8.

(** The bytes the ports will return, the bytes sent, and the two globals of
    kernel/drivers/tty/serial.c. *)
Record serial : Type := Serial {
  port_inputs : list Z;
  port_outputs : list event;
  serial_initialised : bool;
  serial_debug_port : Z
}.

Definition port_out (port data : Z) : ST serial unit :=
  modify (fun s => Serial (port_inputs s) (port_outputs s ++ [io_port_out port data]) (serial_initialised s) (serial_debug_port s)).

Definition port_in : ST serial Z :=
  fun s => match port_inputs s with
           | b :: r => Some (u8 b, Serial r (port_outputs s) (serial_initialised s) (serial_debug_port s))
           | [] => None
           end.

Definition x86_serial_init_port (port : Z) : ST serial Z :=
  (port_out (port + UART_IER) 0x00 ;;
   port_out (port + UART_LCR) UART_LCR_DLAB ;;
   port_out (port + 0) UART_FCR_BAUD_38400_LOW ;;
   port_out (port + 1) UART_FCR_BAUD_38400_HIGH ;;
   port_out (port + UART_LCR) (lor_all [UART_LCR_WORD_LENGTH_8B; UART_LCR_STOP_BIT_1; UART_LCR_PARITY_NONE; UART_LCR_BREAK_DISABLE]) ;;
   port_out (port + UART_FCR) (lor_all [UART_FCR_FIFO_ENABLE; UART_FCR_FIFO64_DISABLE; UART_FCR_CLEAR_RX_FIFO;
                                        UART_FCR_CLEAR_TX_FIFO; UART_FCR_INT_TRIG_14B]) ;;
   port_out (port + UART_MCR) (lor_all [UART_MCR_FORCE_DTR; UART_MCR_FORCE_RTS; UART_MCR_AUX_OUTPUT_2]) ;;
   port_out (port + UART_MCR) (lor_all [UART_MCR_FORCE_RTS; UART_MCR_AUX_OUTPUT_1; UART_MCR_AUX_OUTPUT_2; UART_MCR_LOOPBACK_MODE]) ;;
   port_out (port + 0) 0xAE ;;
   b <- port_in ;;
   if negb (b =? 0xAE) then ret 1 else
   port_out (port + UART_MCR) (lor_all [UART_MCR_FORCE_DTR; UART_MCR_FORCE_RTS; UART_MCR_AUX_OUTPUT_1; UART_MCR_AUX_OUTPUT_2]) ;;
   ret E_SUCCESS)%st.

Definition serial_set_debug_port (port_id : Z) : ST serial Z :=
  (modify (fun s => Serial (port_inputs s) (port_outputs s) (serial_initialised s) port_id) ;; ret E_SUCCESS)%st.

Definition serial_get_debug_port : ST serial Z := gets serial_debug_port.

(** The second port is initialised only when the first one reports success. *)
Definition arch_serial_init : ST serial Z :=
  (serial_set_debug_port IO_PORT_SERIAL_COM2 ;;
   r1 <- x86_serial_init_port IO_PORT_SERIAL_COM1 ;;
   if negb (SUCCESS r1) then ret E_ERROR else
   r2 <- x86_serial_init_port IO_PORT_SERIAL_COM2 ;;
   if negb (SUCCESS r2) then ret E_ERROR else ret E_SUCCESS)%st.

Definition serial_init : ST serial Z :=
  (r <- arch_serial_init ;;
   if negb (SUCCESS r) then ret E_ERROR else
   modify (fun s => Serial (port_inputs s) (port_outputs s) true (serial_debug_port s)) ;;
   ret E_SUCCESS)%st.

Definition x86_serial_is_transmit_empty (port : Z) : ST serial Z :=
  (b <- port_in ;;
   let thre := Z.land b UART_LSR_TX_HOLDING_EMPTY in
   if thre =? 0x20 then ret 1 else ret 0)%st.

(** [while(x86_serial_is_transmit_empty(port) == false);] uses up one input per
    round, so the inputs bound it. *)
Fixpoint wait_transmit (fuel : nat) (port : Z) : ST serial unit :=
  match fuel with
  | O => fault
  | S f => (r <- x86_serial_is_transmit_empty port ;; if r =? 0 then wait_transmit f port else ret tt)%st
  end.

Fixpoint write_line_loop (fuel : nat) (m : bytes) (port line : Z) : ST serial unit :=
  match fuel with
  | O => fault
  | S f =>
      (c <- deref (m !! line) ;;
       if c =? 0 then ret tt else
       n <- gets (fun s => length (port_inputs s)) ;;
       wait_transmit (S n) port ;;
       c <- deref (m !! line) ;;
       port_out port c ;;
       write_line_loop f m port (line + 1))%st
  end.

Definition arch_serial_write_line (m : bytes) (port line : Z) : ST serial Z :=
  (write_line_loop (str_fuel m) m port line ;; ret E_SUCCESS)%st.

Definition serial_write_line (m : bytes) (port line : Z) : ST serial Z :=
  (i <- gets serial_initialised ;;
   if negb i then ret E_ERROR else
   r <- arch_serial_write_line m port line ;;
   if negb (SUCCESS r) then ret E_ERROR else ret E_SUCCESS)%st.
