(* ===== verification/ConsoleSpec.v ===== *)
(** * Correctness of the console

    The text screen refines a terminal with a grid of cells, a cursor and a
    colour; the serial line sends exactly the bytes of its string. *)

From stdpp Require Import base numbers list gmap.
From Stdlib Require Import ZArith Lia.
From S2P Require Import Prelude CString CStringSpec Interrupts Console.

#[local] Open Scope Z_scope.

(** ** Grids *)

Abbreviation grid := (Z -> Z -> Z).

Implicit Types (g : grid) (v : gmap Z Z).

Definition on_screen (x y : Z) : Prop := 0 <= x < 80 /\ 0 <= y < 25.

(** Video memory [v] shows the cells of [g]. *)
Definition shows g v : Prop := forall x y, on_screen x y -> v !! cell_addr x y = Some (g x y) /\ 0 <= g x y < 65536.

Definition blank : Z := 32.

Definition put g (x0 y0 w : Z) : grid := fun x y => if (x =? x0) && (y =? y0) then w else g x y.

Lemma shows_ext g g' v : (forall x y, on_screen x y -> g x y = g' x y) -> shows g v -> shows g' v.
Proof. intros HE HS x y Hxy. rewrite <- HE by done. by apply HS. Qed.

Lemma cell_addr_eq x y : on_screen x y -> cell_addr x y = VGA_BUFFER + 2 * (y * 80 + x).
Proof. intros [Hx Hy]. unfold cell_addr, VGA_BUFFER. rewrite (u32_small (y * 80 + x)), u32_small by lia. done. Qed.

Lemma cell_addr_inj x y x' y' : on_screen x y -> on_screen x' y' -> cell_addr x y = cell_addr x' y' -> x = x' /\ y = y'.
Proof. intros H H'. rewrite !cell_addr_eq by done. destruct H, H'. lia. Qed.

Lemma shows_put g v x y w : shows g v -> on_screen x y -> 0 <= w < 65536 -> shows (put g x y w) (<[cell_addr x y := w]> v).
Proof.
  intros HS Hxy Hw x' y' H'. unfold put. destruct (Z.eqb_spec x' x), (Z.eqb_spec y' y); cbn [andb]; subst;
    try (rewrite lookup_insert_ne by (intros E; apply cell_addr_inj in E as []; [lia|done|done]); by apply HS).
  by rewrite lookup_insert_eq.
Qed.

Lemma set_character_spec g v s c f b x y w :
  shows g v -> on_screen x y ->
  w = u16 (Z.lor (u8 c) (Z.shiftl (u16 (Z.lor (Z.shiftl (u8 b) 4) (Z.land (u8 f) 0x0F))) 8)) ->
  exists v', vga_set_character c f b x y (with_video v s) = Some (tt, with_video v' s) /\ shows (put g x y w) v'.
Proof.
  intros HS Hxy ->. unfold vga_set_character, write_cell. cbn [video with_video]. destruct (HS x y Hxy) as [-> _].
  eexists. split; [reflexivity|]. apply shows_put; [done|done|]. unfold u16. apply Z.mod_pos_bound. lia.
Qed.

(** ** Loops over cells *)

(** Decide one comparison of the goal, and drop the case if it cannot be. *)
Ltac bool_case :=
  match goal with
  | |- context [ ?a <=? ?b ] => destruct (Z.leb_spec a b)
  | |- context [ ?a <? ?b ] => destruct (Z.ltb_spec a b)
  | |- context [ ?a =? ?b ] => destruct (Z.eqb_spec a b)
  end; cbn [andb]; try (exfalso; lia).

Fixpoint iter_up (n : nat) (i : Z) (step : Z -> grid -> grid) g : grid :=
  match n with
  | O => g
  | S k => iter_up k (i + 1) step (step i g)
  end.

Lemma for_up_spec f step n : forall i g v s,
  (forall j g v, i <= j < i + Z.of_nat n -> shows g v ->
     exists v', f j (with_video v s) = Some (tt, with_video v' s) /\ shows (step j g) v') ->
  shows g v ->
  exists v', for_up n i f (with_video v s) = Some (tt, with_video v' s) /\ shows (iter_up n i step g) v'.
Proof.
  induction n as [|n IH]; intros i g v s Hf HS; cbn [for_up iter_up]; [by exists v|].
  destruct (Hf i g v ltac:(lia) HS) as (v1 & E1 & H1). st_step E1. apply IH; [|done]. intros j g' v' Hj. apply Hf. lia.
Qed.

Lemma iter_clear l n : forall i g x y, iter_up n i (fun j g => put g j l blank) g x y =
  if (y =? l) && ((i <=? x) && (x <? i + Z.of_nat n)) then blank else g x y.
Proof.
  induction n as [|n IH]; intros i g x y; cbn [iter_up].
  { by repeat bool_case. }
  rewrite IH. unfold put. by repeat bool_case.
Qed.

Lemma iter_copy l n : forall i g x y, iter_up n i (fun j g => put g j (l - 1) (g j l)) g x y =
  if (y =? l - 1) && ((i <=? x) && (x <? i + Z.of_nat n)) then g x l else g x y.
Proof.
  induction n as [|n IH]; intros i g x y; cbn [iter_up].
  { by repeat bool_case. }
  rewrite IH. unfold put. destruct (Z.eqb_spec l (l - 1)); [lia|]. rewrite andb_false_r.
  repeat bool_case; subst; done.
Qed.

Lemma clear_line_spec g v s l :
  shows g v -> 0 <= l < 25 ->
  exists v', vga_clear_line l (with_video v s) = Some (tt, with_video v' s) /\
    shows (fun x y => if y =? l then blank else g x y) v'.
Proof.
  intros HS Hl. unfold vga_clear_line. rewrite u32_small by lia.
  edestruct (for_up_spec (fun i => vga_set_character 32 VGA_COLOUR_BLACK VGA_COLOUR_BLACK i l) (fun j g => put g j l blank) 80 0 g v s)
    as (v' & E & HV); [|done|].
  { intros j g' v' Hj HS'. by apply set_character_spec; [|split; lia|]. }
  exists v'. split; [exact E|]. eapply shows_ext; [|exact HV]. intros x y [Hx Hy]. rewrite iter_clear.
  by repeat bool_case.
Qed.

(** Taking a cell apart and putting it together again gives the same cell. *)
Lemma cell_roundtrip w : 0 <= w < 65536 ->
  let colour := schar (Z.land (Z.shiftr w 8) 0xFF) in
  u16 (Z.lor (u8 (Z.land w 0xFF))
    (Z.shiftl (u16 (Z.lor (Z.shiftl (u8 (u8 (Z.shiftr colour 4))) 4) (Z.land (u8 (u8 (Z.land colour 0x0F))) 0x0F))) 8)) = w.
Proof.
  intros Hw colour. set (hi := Z.land (Z.shiftr w 8) 0xFF) in *.
  assert (Hhi : 0 <= hi < 256) by (apply (land_range _ _ 8); lia).
  assert (HA : forall h, 0 <= h < 256 -> Z.land (u16 (Z.lor (Z.shiftl (u8 (u8 (Z.shiftr (schar h) 4))) 4)
    (Z.land (u8 (u8 (Z.land (schar h) 0x0F))) 0x0F))) 0xFF = h).
  { intros h Hh. assert (HC : forallb (fun h => Z.land (u16 (Z.lor (Z.shiftl (u8 (u8 (Z.shiftr (schar h) 4))) 4)
      (Z.land (u8 (u8 (Z.land (schar h) 0x0F))) 0x0F))) 0xFF =? h) (Z.of_nat <$> seq 0 256) = true) by (vm_compute; reflexivity).
    rewrite forallb_forall in HC. apply Z.eqb_eq, HC, list_elem_of_In, list_elem_of_fmap.
    exists (Z.to_nat h). split; [lia|]. apply elem_of_seq. lia. }
  specialize (HA hi Hhi). fold colour in HA. set (att := u16 _) in *.
  assert (El : u8 (Z.land w 0xFF) = w mod 256).
  { change 0xFF with (Z.ones 8). rewrite Z.land_ones by lia. change (2 ^ 8) with 256. apply u8_small, Z.mod_pos_bound. lia. }
  rewrite El. change 0xFF with (Z.ones 8) in HA. rewrite Z.land_ones in HA by lia. change (2 ^ 8) with 256 in HA.
  rewrite Z.lor_comm, (lor_disjoint _ _ 8), Z.shiftl_mul_pow2; try lia.
  - change (2 ^ 8) with 256. unfold u16. change 65536 with (256 * 256).
    rewrite Z.rem_mul_r by lia. rewrite (Z.add_comm _ (w mod 256)), Z.mod_add, Z.div_add, Z.mod_mod by lia.
    rewrite (Z.div_small (w mod 256)), Z.add_0_l, HA by (apply Z.mod_pos_bound; lia).
    unfold hi. change 0xFF with (Z.ones 8). rewrite Z.land_ones, Z.shiftr_div_pow2 by lia. change (2 ^ 8) with 256.
    rewrite (Z.mod_small (w / 256)) by (split; [apply Z.div_pos; lia|apply Z.div_lt_upper_bound; lia]).
    pose proof (Z.div_mod w 256 ltac:(lia)). lia.
  - rewrite Z.shiftl_mul_pow2 by lia. apply Z.mod_mul. lia.
  - apply Z.mod_pos_bound. lia.
Qed.

(** ** Scrolling *)

Lemma copy_up_spec g v s l x :
  shows g v -> 1 <= l < 25 -> 0 <= x < 80 ->
  exists v', copy_up l x (with_video v s) = Some (tt, with_video v' s) /\ shows (put g x (l - 1) (g x l)) v'.
Proof.
  intros HS Hl Hx. destruct (HS x l) as [Ev Hw]; [split; lia|].
  assert (Ea : u32 (VGA_BUFFER + u32 (l * 160 + x * 2)) = cell_addr x l).
  { rewrite cell_addr_eq by (split; lia). unfold VGA_BUFFER. rewrite (u32_small (l * 160 + x * 2)), u32_small by lia. lia. }
  assert (Er : read_cell (u32 (VGA_BUFFER + u32 (l * 160 + x * 2))) (with_video v s) = Some (g x l, with_video v s)).
  { rewrite Ea. unfold read_cell. cbn [video with_video]. by rewrite Ev. }
  unfold copy_up. st_step Er. rewrite (u32_small (l - 1)) by lia.
  apply set_character_spec; [done|split; lia|]. symmetry. by apply cell_roundtrip.
Qed.

(** One line of the loop: line [l] moves up, and is cleared. *)
Definition move_up (l : Z) g : grid := fun x y => if y =? l - 1 then g x l else if y =? l then blank else g x y.

Lemma move_up_spec g v s l :
  shows g v -> 1 <= l < 25 ->
  exists v', (for_up (Z.to_nat VGA_WIDTH) 0 (copy_up l) ;; vga_clear_line l)%st (with_video v s) = Some (tt, with_video v' s) /\
    shows (move_up l g) v'.
Proof.
  intros HS Hl. edestruct (for_up_spec (copy_up l) (fun j g => put g j (l - 1) (g j l)) (Z.to_nat VGA_WIDTH) 0 g v s)
    as (v1 & E1 & H1); [|done|].
  { intros j g' v' Hj HS'. apply copy_up_spec; [done|done|]. unfold VGA_WIDTH in Hj. lia. }
  st_step E1. destruct (clear_line_spec _ _ s l H1 ltac:(lia)) as (v' & E2 & H2). exists v'. split; [exact E2|].
  eapply shows_ext; [|exact H2]. intros x y [Hx Hy]. cbv beta. rewrite iter_copy. unfold move_up, VGA_WIDTH.
  by repeat bool_case.
Qed.

Lemma iter_move n : forall l g x y, iter_up n l move_up g x y =
  if (l - 1 <=? y) && (y <? l - 1 + Z.of_nat n) then g x (y + 1)
  else if (y =? l - 1 + Z.of_nat n) && (0 <? Z.of_nat n) then blank else g x y.
Proof.
  induction n as [|n IH]; intros l g x y; cbn [iter_up].
  { by repeat bool_case. }
  rewrite IH. unfold move_up. repeat bool_case; done || f_equal; lia.
Qed.

(** What scrolling by one line below the header does to the screen. *)
Definition scrolled g : grid := fun x y => if (2 <=? y) && (y <? 24) then g x (y + 1) else if y =? 24 then blank else g x y.

Lemma scroll_spec g v s :
  shows g v ->
  exists v', vga_scroll_up 1 TOP_LINE (with_video v s) = Some (tt, with_video v' s) /\ shows (scrolled g) v'.
Proof.
  intros HS. unfold vga_scroll_up. change (Z.to_nat (u32 1)) with 1%nat. cbn [for_up].
  change (Z.to_nat (VGA_HEIGHT - u32 TOP_LINE)) with 22%nat. change (u32 TOP_LINE) with 3.
  edestruct (for_up_spec (fun l => for_up (Z.to_nat VGA_WIDTH) 0 (copy_up l) ;; vga_clear_line l)%st move_up 22 3 g v s)
    as (v' & E & H); [|done|].
  { intros j g' v' Hj HS'. apply move_up_spec; [done|lia]. }
  exists v'. split; [by st_step E|]. eapply shows_ext; [|exact H]. intros x y _. rewrite iter_move. unfold scrolled.
  change (3 - 1) with 2. change (2 + Z.of_nat 22) with 24. change (0 <? Z.of_nat 22) with true. by rewrite andb_true_r.
Qed.

(** ** The terminal *)

Record term : Type := Term { t_grid : grid; t_x : Z; t_y : Z; t_fg : Z }.

(** The terminal's reaction to a character: a new line scrolls, three control
    characters choose the colour, any other is placed at the cursor, on a fresh
    line when the current one is full. *)
Definition new_line (t : term) : term := Term (scrolled (t_grid t)) 0 (t_y t) (t_fg t).

Definition term_char (t : term) (c : Z) : term :=
  if c =? 10 then new_line t
  else if c =? 12 then Term (t_grid t) (t_x t) (t_y t) VGA_COLOUR_GREEN
  else if c =? 13 then Term (t_grid t) (t_x t) (t_y t) VGA_COLOUR_RED
  else if c =? 11 then Term (t_grid t) (t_x t) (t_y t) VGA_COLOUR_WHITE
  else
    let t := if t_x t =? 80 then new_line t else t in
    Term (put (t_grid t) (t_x t) (t_y t) (c + 256 * t_fg t)) (t_x t + 1) (t_y t) (t_fg t).

Definition term_ok (t : term) : Prop := 0 <= t_x t <= 80 /\ 0 <= t_y t < 25 /\ 0 <= t_fg t < 16.

(** The driver's state is that of the terminal. *)
Definition refines (t : term) (s : vga) : Prop :=
  shows (t_grid t) (video s) /\ cursor_x s = t_x t /\ cursor_y s = t_y t /\ current_fg_colour s = t_fg t.

Lemma term_char_ok t c : term_ok t -> term_ok (term_char t c).
Proof.
  intros (Hx & Hy & Hf). unfold term_char, new_line, term_ok. bool_cases; cbn; unfold VGA_COLOUR_GREEN, VGA_COLOUR_RED, VGA_COLOUR_WHITE; lia.
Qed.

Lemma glyph_eq c fg : 0 <= c < 256 -> 0 <= fg < 16 ->
  c + 256 * fg = u16 (Z.lor (u8 c) (Z.shiftl (u16 (Z.lor (Z.shiftl (u8 VGA_COLOUR_BLACK) 4) (Z.land (u8 fg) 0x0F))) 8)).
Proof.
  intros Hc Hf. change (Z.shiftl (u8 VGA_COLOUR_BLACK) 4) with 0. rewrite Z.lor_0_l, !u8_small by lia.
  change 0x0F with (Z.ones 4). rewrite Z.land_ones by lia. change (2 ^ 4) with 16. rewrite (Z.mod_small fg) by lia.
  unfold u16. rewrite (Z.mod_small fg), Z.lor_comm, (lor_disjoint _ _ 8), Z.shiftl_mul_pow2; try lia.
  - change (2 ^ 8) with 256. rewrite Z.mod_small; lia.
  - rewrite Z.shiftl_mul_pow2 by lia. apply Z.mod_mul. lia.
Qed.

Lemma with_video_id s : with_video (video s) s = s.
Proof. by destruct s. Qed.

Lemma new_line_spec t s :
  refines t s -> exists s', (modify (with_cursor_x 0) ;; vga_scroll_up 1 TOP_LINE)%st s = Some (tt, s') /\ refines (new_line t) s'
    /\ vga_ports s' = vga_ports s.
Proof.
  intros (HS & _ & Ey & Ef). cbn [bind modify]. unfold bind, modify.
  rewrite <- (with_video_id (with_cursor_x 0 s)). cbn [video with_cursor_x].
  destruct (scroll_spec _ _ (with_cursor_x 0 s) HS) as (v' & -> & H'). eexists. split; [done|]. by split_and!.
Qed.

Lemma print_char_spec t s c :
  refines t s -> term_ok t -> 0 <= c < 256 ->
  exists s', vga_print_char_at_cursor c s = Some (tt, s') /\ refines (term_char t c) s' /\ vga_ports s' = vga_ports s.
Proof.
  intros HR (Hx & Hy & Hf) Hc. unfold vga_print_char_at_cursor, term_char. destruct (c =? 10); [by apply new_line_spec|].
  destruct HR as (HS & Ex & Ey & Ef) eqn:HRe. clear HRe.
  destruct (c =? 12); [by eexists; split; [done|]|]. destruct (c =? 13); [by eexists; split; [done|]|].
  destruct (c =? 11); [by eexists; split; [done|]|]. st_step (gets_run cursor_x s).
  set (t1 := if t_x t =? 80 then new_line t else t).
  assert (H1 : exists s1, (if cursor_x s =? VGA_WIDTH then modify (with_cursor_x 0) ;; vga_scroll_up 1 TOP_LINE else ret tt)%st s = Some (tt, s1) /\
    refines t1 s1 /\ vga_ports s1 = vga_ports s /\ 0 <= t_x t1 < 80 /\ t_y t1 = t_y t /\ t_fg t1 = t_fg t).
  { rewrite Ex. unfold t1, VGA_WIDTH. destruct (Z.eqb_spec (t_x t) 80).
    - destruct (new_line_spec t s HR) as (s1 & E & R1 & P1). exists s1. split_and!; try done; cbn; lia.
    - exists s. split_and!; try done; lia. }
  destruct H1 as (s1 & E1 & (HS1 & Ex1 & Ey1 & Ef1) & P1 & Hx1 & Ey' & Ef'). st_step E1.
  st_step (gets_run (fun s => s) s1). rewrite Ex1, Ey1, Ef1.
  destruct (set_character_spec _ _ s1 c (t_fg t1) VGA_COLOUR_BLACK (t_x t1) (t_y t1) _ HS1
    ltac:(split; lia) (glyph_eq c (t_fg t1) Hc ltac:(lia))) as (v' & E2 & H2).
  rewrite with_video_id in E2. st_step E2. eexists. split; [reflexivity|]. split; [|done].
  split_and!; try done. cbn. rewrite Ex1, u32_small by lia. done.
Qed.

Lemma write_loop_spec m cs : forall t s str i,
  refines t s -> term_ok t -> seg m (str + i) cs -> byte_list cs ->
  exists s', for_up (length cs) i (fun i => c <- deref (m !! (str + i)) ;; vga_print_char_at_cursor c)%st s = Some (tt, s') /\
    refines (foldl term_char t cs) s' /\ vga_ports s' = vga_ports s.
Proof.
  induction cs as [|c cs IH]; intros t s str i HR HO Hs Hb; cbn [length for_up foldl]; [by exists s|].
  apply seg_cons in Hs as [Ec Hs]. apply Forall_cons in Hb as [Hc Hb].
  destruct (print_char_spec t s c HR HO Hc) as (s1 & E1 & R1 & P1).
  assert (E1' : (c <- deref (m !! (str + i)) ;; vga_print_char_at_cursor c)%st s = Some (tt, s1)) by (rewrite Ec; exact E1).
  st_step E1'. destruct (IH _ s1 str (i + 1) R1 (term_char_ok t c HO)) as (s2 & E2 & R2 & P2); [|done|].
  { by replace (str + (i + 1)) with (str + i + 1) by lia. }
  exists s2. split_and!; [done|done|by rewrite P2].
Qed.

(** [vga_write] is the terminal's reaction to the characters, one by one. *)
Lemma vga_write_spec (t : term) (s : vga) (m : bytes) (str : Z) (cs : list Z) :
  refines t s -> term_ok t -> str_at m str cs -> (length cs < 512)%nat ->
  exists s', vga_write m str s = Some (tt, s') /\ refines (foldl term_char t cs) s' /\
    term_ok (foldl term_char t cs) /\ vga_ports s' = vga_ports s.
Proof.
  intros HR HO Hm Hl. destruct Hm as [Hs Hc] eqn:E. clear E. unfold vga_write, length_of, strlen.
  rewrite (strlen_loop_spec cs _ str 0 m) by (rewrite ?Z.add_0_r; done).
  rewrite bind_ret, Z.add_0_l, Nat2Z.id. apply seg_app in Hs as [Hs _].
  destruct (write_loop_spec m cs t s str 0 HR HO) as (s' & E & R & P); [by rewrite Z.add_0_r|by apply str_byte_list|].
  exists s'. split_and!; [done|done| |done].
  clear -HO. revert t HO. induction cs as [|c cs IH]; intros t HO; [done|]. apply IH. by apply term_char_ok.
Qed.

(** C38: text output.  Writing a string to the screen always returns, never
    touches memory outside the 80 by 25 cells, and does to the screen what a
    terminal does with the characters one after the other: new lines and full
    lines scroll the 23 lines below the header and leave the two header lines
    alone, control characters choose the colour, every other character appears
    at the cursor in the current colour. *)
Theorem vga_write_refines (t : term) (s : vga) (m : bytes) (str : Z) (cs : list Z) :
  refines t s -> term_ok t -> str_at m str cs -> (length cs < 512)%nat ->
  exists s', vga_write m str s = Some (tt, s') /\ refines (foldl term_char t cs) s' /\
    term_ok (foldl term_char t cs) /\ vga_ports s' = vga_ports s.
Proof. apply vga_write_spec. Qed.

(** A screen of dots with the cursor near the end of the last line. *)
Definition dots : grid := fun _ _ => 46 + 256 * 7.

Definition dots_video : gmap Z Z :=
  list_to_map ((fun i => (VGA_BUFFER + 2 * Z.of_nat i, 46 + 256 * 7)) <$> seq 0 2000).

Lemma dots_shown : shows dots dots_video.
Proof.
  intros x y Hxy. rewrite cell_addr_eq by done. destruct Hxy as [Hx Hy]. split; [|unfold dots; lia].
  apply elem_of_list_to_map_1.
  - rewrite <- list_fmap_compose. apply NoDup_fmap_2; [|apply NoDup_seq]. intros i j E. cbn in E. lia.
  - apply list_elem_of_fmap. exists (Z.to_nat (y * 80 + x)). split; [f_equal; lia|]. apply elem_of_seq. lia.
Qed.

Lemma vga_write_refines_witness :
  exists s', vga_write (<[1000 := 72]> (<[1001 := 105]> (<[1002 := 0]> ∅))) 1000 (Vga dots_video 79 24 7 []) = Some (tt, s') /\
    cursor_x s' = 1 /\ video s' !! cell_addr 0 24 = Some (105 + 256 * 7) /\ video s' !! cell_addr 79 23 = Some (72 + 256 * 7).
Proof.
  destruct (vga_write_refines (Term dots 79 24 7) (Vga dots_video 79 24 7 [])
    (<[1000 := 72]> (<[1001 := 105]> (<[1002 := 0]> ∅))) 1000 [72; 105]) as (s' & E & (HS & Ex & _) & _).
  - split; [exact dots_shown|]. repeat split; reflexivity.
  - unfold term_ok. cbn. lia.
  - split; [|repeat constructor; lia]. intros i c Hi. repeat (destruct i as [|i]; [cbn in Hi; injection Hi as <-; reflexivity|]).
    discriminate Hi.
  - cbn. lia.
  - exists s'. split; [exact E|]. split; [exact Ex|]. split.
    + apply (HS 0 24). split; lia.
    + apply (HS 79 23). split; lia.
Defined.

(** ** The serial line *)

Definition ready (b : Z) : bool := Z.testbit (u8 b) 5.

Lemma transmit_empty_spec port b r out i d :
  x86_serial_is_transmit_empty port (Serial (b :: r) out i d) = Some (if ready b then 1 else 0, Serial r out i d).
Proof.
  unfold x86_serial_is_transmit_empty, bind, port_in. cbn [port_inputs port_outputs serial_initialised serial_debug_port].
  unfold ready. pose proof (u8_range b) as Hb. generalize dependent (u8 b). clear b. intros b Hb.
  assert (HC : forallb (fun b => Bool.eqb (Z.land b UART_LSR_TX_HOLDING_EMPTY =? 0x20) (Z.testbit b 5)) (Z.of_nat <$> seq 0 256) = true)
    by (vm_compute; reflexivity).
  rewrite forallb_forall in HC. specialize (HC b). rewrite <- list_elem_of_In, list_elem_of_fmap in HC.
  rewrite (Bool.eqb_prop _ _ (HC ltac:(exists (Z.to_nat b); split; [lia|apply elem_of_seq; lia]))). by destruct (Z.testbit b 5).
Qed.

(** Waiting uses up the readings up to the first one that says ready. *)
Lemma wait_transmit_spec port out i d ins : forall rest b,
  Forall (fun b => ready b = false) ins -> ready b = true ->
  wait_transmit (S (length (ins ++ b :: rest))) port (Serial (ins ++ b :: rest) out i d) = Some (tt, Serial rest out i d).
Proof.
  induction ins as [|a ins IH]; intros rest b HF Hb; cbn [app length wait_transmit].
  - st_step (transmit_empty_spec port b rest out i d). by rewrite Hb.
  - apply Forall_cons in HF as [Ha HF]. st_step (transmit_empty_spec port a (ins ++ b :: rest) out i d). rewrite Ha. by apply IH.
Qed.

(** A device that reports ready at least [n] times, after busy readings. *)
Fixpoint device_serves (n : nat) (ins : list Z) : Prop :=
  match n with
  | O => True
  | S k => exists busy b rest, ins = busy ++ b :: rest /\ Forall (fun b => ready b = false) busy /\ ready b = true /\ device_serves k rest
  end.

(** The bytes of the string go out in order, each after a ready reading; [k] more
    readings are left. *)
Lemma write_line_loop_spec m port k cs : forall fuel line ins out i d,
  str_at m line cs -> device_serves (length cs + k) ins -> (length cs < fuel)%nat ->
  exists rest, write_line_loop fuel m port line (Serial ins out i d) =
    Some (tt, Serial rest (out ++ (io_port_out port <$> cs)) i d) /\ device_serves k rest.
Proof.
  induction cs as [|c cs IH]; intros [|fuel] line ins out i d Hs HD Hf; cbn in Hf; try lia; cbn [write_line_loop].
  - rewrite (str_at_nil _ _ Hs). exists ins. cbn [fmap list_fmap map]. split; [by rewrite app_nil_r|exact HD].
  - destruct (str_at_cons _ _ _ _ Hs) as (Ec & Hc & Hs'). rewrite Ec. cbn [deref]. rewrite bind_ret.
    destruct (Z.eqb_spec c 0); [lia|]. cbn in HD. destruct HD as (busy & b & rest & -> & HF & Hb & HD).
    st_step (gets_run (fun s => length (port_inputs s)) (Serial (busy ++ b :: rest) out i d)). cbn [port_inputs].
    st_step (wait_transmit_spec port out i d busy rest b HF Hb). rewrite bind_ret.
    destruct (IH fuel (line + 1) rest (out ++ [io_port_out port c]) i d Hs' HD ltac:(lia)) as (rest' & E & HD').
    exists rest'. rewrite fmap_cons, cons_middle, app_assoc. split; [exact E|exact HD'].
Qed.

Lemma serial_write_line_spec m port line cs k ins out d :
  str_at m line cs -> device_serves (length cs + k) ins ->
  exists rest, serial_write_line m port line (Serial ins out true d) =
    Some (E_SUCCESS, Serial rest (out ++ (io_port_out port <$> cs)) true d) /\ device_serves k rest.
Proof.
  intros Hs HD. pose proof (seg_size _ _ _ (proj1 Hs)) as Hsz. rewrite length_app in Hsz. cbn in Hsz.
  destruct (write_line_loop_spec m port k cs (str_fuel m) line ins out true d Hs HD ltac:(unfold str_fuel; lia)) as (rest & E & HD').
  exists rest. split; [|exact HD']. unfold serial_write_line, arch_serial_write_line. st_step (gets_run serial_initialised (Serial ins out true d)).
  cbn [serial_initialised negb]. unfold bind at 1 2. by rewrite E.
Qed.

(** Initialisation reports success whatever the loopback tests return: a failed
    test returns 1, which the callers take for success. *)
Theorem serial_init_ignores_failure b1 b2 rest out i d :
  exists out', serial_init (Serial (b1 :: b2 :: rest) out i d) = Some (E_SUCCESS, Serial rest out' true IO_PORT_SERIAL_COM2).
Proof.
  unfold serial_init, arch_serial_init, x86_serial_init_port, serial_set_debug_port, port_out, port_in, bind, modify, ret.
  cbn [port_inputs port_outputs serial_initialised serial_debug_port].
  destruct (u8 b1 =? 0xAE); cbn; destruct (u8 b2 =? 0xAE); cbn; eexists; reflexivity.
Qed.
