(* ===== verification/Logging.v ===== *)
(** * Log messages and panics (include/rotary/logging.h, kernel/core/logging.c,
      kernel/core/panic.c, the macros of include/rotary/vga.h)

    The messages go through byte memory to the screen and the serial port.  The
    local character arrays of the source are regions of that memory at addresses
    the theorems take as given. *)

From Stdlib Require Import String Ascii.
From stdpp Require Import base numbers list gmap.
From Stdlib Require Import ZArith Lia.
From S2P Require Import Prelude CString CStringSpec SprintfSpec Interrupts Console ConsoleSpec.

#[local] Open Scope Z_scope.

(** The characters of a string literal. *)
Definition chars (s : string) : list Z := (fun a => Z.of_N (N_of_ascii a)) <$> list_ascii_of_string s.

Definition LOG_TRACE : Z := 0.
Definition LOG_DEBUG : Z := 1.
Definition LOG_INFO : Z := 2.

(** Byte memory, the screen and the serial port. *)
Record console : Type := Console {
  text : bytes;
  screen : vga;
  port : serial
}.

Definition on_text {A} (f : ST bytes A) : ST console A :=
  fun s => match f (text s) with Some (a, m) => Some (a, Console m (screen s) (port s)) | None => None end.

(** A driver that reads strings from memory. *)
Definition on_display {A} (f : bytes -> ST vga A) : ST console A :=
  fun s => match f (text s) (screen s) with Some (a, v) => Some (a, Console (text s) v (port s)) | None => None end.

Definition on_port {A} (f : bytes -> ST serial A) : ST console A :=
  fun s => match f (text s) (port s) with Some (a, p) => Some (a, Console (text s) (screen s) p) | None => None end.

(** ** vga_printf and vga_printf_pos

    [tmp] is the macro's local array of 512 bytes. *)

Definition vga_printf (tmp fmt_str : Z) (args : list Z) : ST console unit :=
  (on_text (memset tmp 0 512) ;;
   on_text (sprintf tmp fmt_str args) ;;
   on_display (fun m => vga_write m tmp))%st.

Definition vga_printf_pos (tmp x y fmt_str : Z) (args : list Z) : ST console unit :=
  (on_text (memset tmp 0 512) ;;
   on_text (sprintf tmp fmt_str args) ;;
   on_display (fun _ => vga_set_cursor x y) ;;
   on_display (fun m => vga_write m tmp))%st.

(** The address of a string literal of the program. *)
Section Literals.
  Context (literal : list Z -> Z).

(** ** The log (logging.c) *)

(** The local arrays of [_printk] and of the macros around it. *)
Record log_buffers : Type := LogBuffers {
  lb_tmp : Z;
  lb_final : Z;
  lb_vga : Z;
  lb_tag : Z;
  lb_vga_tmp : Z
}.

Definition _printk (b : log_buffers) (level tag message : Z) : ST console unit :=
  (on_text (memset (lb_final b) 0 512) ;;
   on_text (memset (lb_tag b) 0 16) ;;
   on_text (memset (lb_vga b) 0 512) ;;
   on_text (sprintf (lb_final b) (literal (chars "[%s] %s")) [tag; message]) ;;
   n <- on_text (strlen message) ;;
   on_text (strncpy (lb_vga b) message (n + 1)) ;;
   (if LOG_INFO <=? level then vga_printf (lb_vga_tmp b) (lb_vga b) [] else ret tt) ;;
   (if level <=? LOG_DEBUG then
      p <- on_port (fun _ => serial_get_debug_port) ;;
      on_port (fun m => serial_write_line m p (lb_final b)) ;;
      ret tt
    else ret tt))%st.

(** The macro [printk]; [klog] is [printk] at level [LOG_DEBUG]. *)
Definition printk (b : log_buffers) (level file fmt_str : Z) (args : list Z) : ST console unit :=
  (on_text (memset (lb_tmp b) 0 512) ;;
   on_text (sprintf (lb_tmp b) fmt_str args) ;;
   _printk b level file (lb_tmp b))%st.

Definition klog (b : log_buffers) (file fmt_str : Z) (args : list Z) : ST console unit := printk b LOG_DEBUG file fmt_str args.

(** ** Panics (panic.c)

    What is on the screen when the final endless loop is entered. *)

Definition rule : list Z := chars "---------------------------------------".

Definition kernel_panic (tmp message source_file source_func bugcheck : Z) : ST console unit :=
  (on_display (fun _ => vga_clear_screen VGA_COLOUR_BLACK) ;;
   vga_printf_pos tmp 0 0 (literal rule) [] ;;
   vga_printf_pos tmp 0 1 (literal (chars "!!! Kernel panic !!!")) [] ;;
   vga_printf_pos tmp 0 2 (literal rule) [] ;;
   (if bugcheck =? 0
    then vga_printf_pos tmp 0 4 (literal (chars "The system encountered an unrecoverable error.")) []
    else vga_printf_pos tmp 0 4 (literal (chars "The system encountered a bugcheck.")) []) ;;
   vga_printf_pos tmp 0 6 (literal (chars "Error: %s")) [message] ;;
   vga_printf_pos tmp 0 8 (literal (chars "File:  %s")) [source_file] ;;
   vga_printf_pos tmp 0 9 (literal (chars "Func:  %s")) [source_func])%st.

End Literals.
