(* ===== verification/LoggingSpec.v ===== *)
(** * Where messages end up

    The log, from a format string to the bytes on the serial port or the
    characters on the screen, and the screen of a panic.  The theorems compose
    those about sprintf, the screen and the serial port. *)

From Stdlib Require Import String Ascii.
From stdpp Require Import base numbers list gmap.
From Stdlib Require Import ZArith Lia.
From S2P Require Import Prelude CString CStringSpec SprintfSpec Interrupts Console ConsoleSpec Logging.

#[local] Open Scope Z_scope.

Implicit Types (m : bytes) (l : list Z).

(** ** Regions of memory *)

(** [n] bytes at [a] and [k] bytes at [b] do not meet. *)
Definition apart (a n b k : Z) : Prop := a + n <= b \/ b + k <= a.

Lemma str_frame m m' a l d n :
  only m m' d n -> apart a (Z.of_nat (length l) + 1) d n -> str_at m a l -> str_at m' a l.
Proof.
  intros Ho Ha [Hs Hc]. split; [|done]. apply (seg_same m); [|done]. intros x Hx. apply Ho. unfold apart in Ha.
  rewrite length_app in Hx. cbn in Hx. lia.
Qed.

Lemma memset_loop_spec n : forall d m, exists m', memset_loop n d 0 m = Some (tt, m') /\ only m m' d (Z.of_nat n) /\
  forall i, 0 <= i < Z.of_nat n -> m' !! (d + i) = Some 0.
Proof.
  induction n as [|n IH]; intros d m; [exists m; split_and!; [done|done|lia]|]. cbn [memset_loop].
  rewrite (bind_some _ _ _ _ _ (wr_run _ _ _)). change (u8 0) with 0. destruct (IH (d + 1) (<[d := 0]> m)) as (m' & E & Ho & Hz).
  exists m'. split_and!; [done| |].
  - intros x Hx. rewrite Ho by lia. by rewrite lookup_insert_ne by lia.
  - intros i Hi. destruct (decide (i = 0)) as [->|]; [rewrite Ho by lia; rewrite Z.add_0_r; by rewrite lookup_insert_eq|].
    replace (d + i) with (d + 1 + (i - 1)) by lia. apply Hz. lia.
Qed.

Lemma memset_spec d n m : 0 <= n -> exists m', memset d 0 n m = Some (d, m') /\ only m m' d n.
Proof.
  intros Hn. destruct (memset_loop_spec (Z.to_nat n) d m) as (m' & E & Ho & _). rewrite Z2Nat.id in Ho by done.
  exists m'. split; [|done]. unfold memset. by st_step E.
Qed.

Lemma memset_empty d n m : 0 < n -> exists m', memset d 0 n m = Some (d, m') /\ only m m' d n /\ str_at m' d [].
Proof.
  intros Hn. destruct (memset_loop_spec (Z.to_nat n) d m) as (m' & E & Ho & Hz). rewrite Z2Nat.id in Ho by lia.
  exists m'. split; [unfold memset; by st_step E|]. split; [done|]. split; [|constructor]. apply seg_cons. split; [|apply seg_nil].
  rewrite <- (Z.add_0_r d). apply Hz. lia.
Qed.

Lemma strncpy_loop_spec l : forall d a i m,
  str_at m (a + i) l -> apart (a + i) (Z.of_nat (length l) + 1) (d + i) (Z.of_nat (length l) + 1) ->
  exists m', strncpy_loop (S (length l)) d a i m = Some ((i + Z.of_nat (length l), 1%nat), m') /\ seg m' (d + i) l /\
    only m m' (d + i) (Z.of_nat (length l)).
Proof.
  induction l as [|c l IH]; intros d a i m Hs Ha; cbn [length strncpy_loop] in *.
  - rewrite (bind_some _ _ _ _ _ (rd_some _ _ _ (str_at_nil _ _ Hs))). change (0 =? 0) with true. exists m.
    split_and!; [by rewrite Z.add_0_r|apply seg_nil|done].
  - destruct (str_at_cons _ _ _ _ Hs) as (Ec & Hc & Hs'). rewrite (bind_some _ _ _ _ _ (rd_some _ _ _ Ec)).
    destruct (Z.eqb_spec c 0); [lia|]. rewrite (bind_some _ _ _ _ _ (wr_run _ _ _)), u8_small by lia.
    destruct (IH d a (i + 1) (<[d + i := c]> m)) as (m' & E & Hw & Ho).
    + replace (a + (i + 1)) with (a + i + 1) by lia. destruct Hs' as [Hs' Hc']. split; [|done]. apply seg_insert; [|done].
      unfold apart in Ha. rewrite length_app. cbn. lia.
    + unfold apart in *. lia.
    + exists m'. split_and!.
      * cbn [length] in E. rewrite E. do 3 f_equal. lia.
      * apply seg_cons. split; [rewrite Ho by lia; by rewrite lookup_insert_eq|]. by replace (d + i + 1) with (d + (i + 1)) by lia.
      * intros x Hx. rewrite Ho by lia. by rewrite lookup_insert_ne by lia.
Qed.

Lemma strncpy_spec d a l m :
  str_at m a l -> apart a (Z.of_nat (length l) + 1) d (Z.of_nat (length l) + 1) ->
  exists m', strncpy d a (Z.of_nat (length l) + 1) m = Some (d, m') /\ str_at m' d l /\ only m m' d (Z.of_nat (length l) + 1).
Proof.
  intros Hs Ha. destruct (strncpy_loop_spec l d a 0 m) as (m1 & E1 & Hw & Ho1); [by rewrite Z.add_0_r|by rewrite !Z.add_0_r|].
  rewrite Z.add_0_r in Hw, Ho1. rewrite Z.add_0_l in E1.
  destruct (memset_loop_spec 1 (d + Z.of_nat (length l)) m1) as (m2 & E2 & Ho2 & Hz). specialize (Hz 0 ltac:(lia)). rewrite Z.add_0_r in Hz.
  exists m2. split_and!.
  - unfold strncpy. replace (Z.to_nat (Z.of_nat (length l) + 1)) with (S (length l)) by lia. st_step E1. cbn [fst snd]. by st_step E2.
  - split; [|apply Hs]. apply seg_app. split; [|apply seg_cons; split; [done|apply seg_nil]].
    apply (seg_same m1); [|done]. intros x Hx. apply Ho2. lia.
  - intros x Hx. rewrite Ho2, Ho1 by lia. done.
Qed.

(** A format string without '%' is its own text. *)
Lemma format_plain sa f args : 37 ∉ f -> format sa f None args = Some f.
Proof.
  induction f as [|c f IH]; intros Hn; [done|]. apply not_elem_of_cons in Hn as [Hc Hn]. cbn [format].
  destruct (Z.eqb_spec c 37); [congruence|]. by rewrite IH.
Qed.

Lemma padded_0 l : padded 0 l = l.
Proof. unfold padded. by replace (Z.to_nat (0 - Z.of_nat (length l))) with 0%nat by lia. Qed.

(** Text before a conversion, and the %s conversion. *)
Lemma format_text sa l r args out : 37 ∉ l -> format sa r None args = Some out -> format sa (l ++ r) None args = Some (l ++ out).
Proof.
  induction l as [|c l IH]; intros Hn E; [done|]. apply not_elem_of_cons in Hn as [Hc Hn]. cbn [app format].
  destruct (Z.eqb_spec c 37); [congruence|]. by rewrite IH.
Qed.

Lemma format_string sa a l r args out : sa a = Some l -> format sa r None args = Some out ->
  format sa (37 :: 115 :: r) None (a :: args) = Some (l ++ out).
Proof. intros Ea E. cbn [format]. change (37 =? 37) with true. change (digit_char 115) with false. cbv iota. unfold conversion. rewrite Ea. cbn. by rewrite E, padded_0. Qed.

Lemma format_last sa a l : sa a = Some l -> format sa [37; 115] None [a] = Some l.
Proof. intros Ea. rewrite <- (app_nil_r l). by apply (format_string sa a l [] [] []). Qed.

(** ** Printing to the screen *)

Definition screen_ok (t : term) (v : vga) : Prop := refines t v /\ term_ok t.

(** The string arguments of a call, outside the region [d], [n]. *)
Definition args_in m (d n : Z) (sa : Z -> option (list Z)) : Prop :=
  forall a l, sa a = Some l -> str_at m a l /\ Z.of_nat (length l) < MAX_STRING_LEN /\ apart a (Z.of_nat (length l) + 1) d n.

Lemma args_frame m m' d n d' n' sa : only m m' d' n' -> (forall a l, sa a = Some l -> apart a (Z.of_nat (length l) + 1) d' n') ->
  args_in m d n sa -> args_in m' d n sa.
Proof. intros Ho Hd Hm a l E. destruct (Hm a l E) as (H1 & H2 & H3). split_and!; [|done|done]. by eapply str_frame; [exact Ho|by apply Hd|]. Qed.

(** Clearing a buffer of 512 bytes and formatting into it. *)
Lemma format_spec m tmp fmt sa f args out :
  str_at m fmt f -> format sa f None args = Some out -> args_in m tmp 512 sa ->
  apart fmt (Z.of_nat (length f) + 1) tmp 512 -> Forall (fun c => 0 < c < 256) out -> Z.of_nat (length out) < 512 ->
  exists m1 m2 r, memset tmp 0 512 m = Some (tmp, m1) /\ sprintf tmp fmt args m1 = Some (r, m2) /\ str_at m2 tmp out /\ only m m2 tmp 512.
Proof.
  intros Hf E Ha Hd Hc Hl. destruct (memset_spec tmp 512 m ltac:(lia)) as (m1 & E1 & Ho1).
  destruct (sprintf_spec tmp fmt sa m1 f args out) as (m2 & E2 & Hs & Ho2); [by eapply str_frame|done| | |lia|].
  - intros a l Ea. destruct (args_frame m m1 tmp 512 tmp 512 sa Ho1 ltac:(intros b k Eb; by apply Ha) Ha a l Ea) as (H1 & H2 & H3).
    split_and!; [done|done|]. unfold away, apart in *. lia.
  - unfold away, apart in *. lia.
  - exists m1, m2, (Z.of_nat (length out)). split_and!; [done|done|by split|]. intros x Hx. rewrite Ho2, Ho1 by lia. done.
Qed.

Lemma vga_printf_spec s tmp fmt sa f args out t :
  str_at (text s) fmt f -> format sa f None args = Some out -> args_in (text s) tmp 512 sa ->
  apart fmt (Z.of_nat (length f) + 1) tmp 512 -> Forall (fun c => 0 < c < 256) out -> Z.of_nat (length out) < 512 -> screen_ok t (screen s) ->
  exists s', vga_printf tmp fmt args s = Some (tt, s') /\ only (text s) (text s') tmp 512 /\
    screen_ok (foldl term_char t out) (screen s') /\ port s' = port s.
Proof.
  intros Hf E Ha Hd Hc Hl [HR HO]. destruct (format_spec (text s) tmp fmt sa f args out Hf E Ha Hd Hc Hl) as (m1 & m2 & r & E1 & E2 & Hs & Ho).
  destruct (vga_write_spec t (screen s) m2 tmp out HR HO Hs ltac:(lia)) as (v' & E3 & HR' & HO' & _).
  exists (Console m2 v' (port s)). split_and!; try done.
  unfold vga_printf, on_text, on_display, bind. cbn [text screen port]. rewrite E1. cbn [text screen port]. rewrite E2. cbn [text screen port]. by rewrite E3.
Qed.

(** ** The log *)

(** Arithmetic on regions. *)
Ltac apart_lia := unfold apart, away, MAX_STRING_LEN in *; lia.


(** [n] bytes at [a] are outside all buffers of the log. *)
Definition off_buffers (b : log_buffers) (a n : Z) : Prop :=
  apart a n (lb_tmp b) 512 /\ apart a n (lb_final b) 512 /\ apart a n (lb_vga b) 512 /\ apart a n (lb_tag b) 16 /\ apart a n (lb_vga_tmp b) 512.

(** The buffers do not overlap. *)
Definition buffers_apart (b : log_buffers) : Prop :=
  apart (lb_tmp b) 512 (lb_final b) 512 /\ apart (lb_tmp b) 512 (lb_vga b) 512 /\ apart (lb_tmp b) 512 (lb_tag b) 16 /\
  apart (lb_vga b) 512 (lb_final b) 512 /\ apart (lb_vga b) 512 (lb_vga_tmp b) 512 /\ apart (lb_final b) 512 (lb_vga_tmp b) 512.

(** The line the log sends: the tag in brackets, then the message. *)
Definition log_line (tag message : list Z) : list Z := 91 :: tag ++ 93 :: 32 :: message.

Lemma format_log_line tag message lt lm : tag <> message ->
  format (fun a => if a =? tag then Some lt else if a =? message then Some lm else None) (chars "[%s] %s") None [tag; message] =
    Some (log_line lt lm).
Proof.
  intros Hne. change (chars "[%s] %s") with ([91] ++ 37 :: 115 :: [93; 32] ++ [37; 115]). unfold log_line.
  apply (format_text _ [91]); [set_solver by lia|]. apply format_string; [by rewrite Z.eqb_refl|]. apply (format_text _ [93; 32]); [set_solver by lia|].
  apply format_last. rewrite Z.eqb_refl. by destruct (Z.eqb_spec message tag); [congruence|].
Qed.

(** Writing only in one of two regions keeps the rest. *)
Definition outside_buffers (b : log_buffers) m m' : Prop := forall x, off_buffers b x 1 -> m' !! x = m !! x.

Lemma only_outside b m m' d n :
  (forall x, off_buffers b x 1 -> apart x 1 d n) -> only m m' d n -> outside_buffers b m m'.
Proof. intros Hd Ho x Hx. apply Ho. specialize (Hd x Hx). unfold apart in Hd. lia. Qed.

Lemma outside_trans b m1 m2 m3 : outside_buffers b m1 m2 -> outside_buffers b m2 m3 -> outside_buffers b m1 m3.
Proof. intros H1 H2 x Hx. by rewrite H2, H1. Qed.

(** A string outside the buffers stays. *)
Lemma str_kept b m m' a l : outside_buffers b m m' -> off_buffers b a (Z.of_nat (length l) + 1) -> str_at m a l -> str_at m' a l.
Proof.
  intros HO (O1 & O2 & O3 & O4 & O5) [Hs Hc]. split; [|done]. apply (seg_same m); [|done]. intros x Hx.
  rewrite length_app in Hx. cbn [length] in Hx. apply HO. unfold off_buffers, apart in *. lia.
Qed.

Section Log.
  Context (literal : list Z -> Z) (b : log_buffers).
  Context (HB : buffers_apart b).

(** [_printk] up to its output: the line and the message are in their buffers. *)
Lemma prepare_spec m tag message lt lm :
  str_at m tag lt -> off_buffers b tag (Z.of_nat (length lt) + 1) -> str_at m message lm -> message = lb_tmp b ->
  str_at m (literal (chars "[%s] %s")) (chars "[%s] %s") -> off_buffers b (literal (chars "[%s] %s")) 8 ->
  Z.of_nat (length lt) + Z.of_nat (length lm) + 3 < 512 ->
  exists m1 m2 m3 m4 m5 r, memset (lb_final b) 0 512 m = Some (lb_final b, m1) /\ memset (lb_tag b) 0 16 m1 = Some (lb_tag b, m2) /\
    memset (lb_vga b) 0 512 m2 = Some (lb_vga b, m3) /\
    sprintf (lb_final b) (literal (chars "[%s] %s")) [tag; message] m3 = Some (r, m4) /\
    strlen message m4 = Some (Z.of_nat (length lm), m4) /\
    strncpy (lb_vga b) message (Z.of_nat (length lm) + 1) m4 = Some (lb_vga b, m5) /\
    str_at m5 (lb_final b) (log_line lt lm) /\ str_at m5 (lb_vga b) lm /\ outside_buffers b m m5.
Proof using HB.
  intros Ht Hto Hm -> Hl Hlo Hlen. destruct HB as (B1 & B2 & B3 & B4 & B5 & B6).
  destruct Hto as (T1 & T2 & T3 & T4 & T5), Hlo as (L1 & L2 & L3 & L4 & L5). set (msg := lb_tmp b) in *.
  destruct (memset_spec (lb_final b) 512 m ltac:(lia)) as (m1 & E1 & O1). destruct (memset_spec (lb_tag b) 16 m1 ltac:(lia)) as (m2 & E2 & O2).
  destruct (memset_spec (lb_vga b) 512 m2 ltac:(lia)) as (m3 & E3 & O3).
  assert (K3 : forall a l, apart a (Z.of_nat (length l) + 1) (lb_final b) 512 -> apart a (Z.of_nat (length l) + 1) (lb_tag b) 16 ->
    apart a (Z.of_nat (length l) + 1) (lb_vga b) 512 -> str_at m a l -> str_at m3 a l).
  { intros a l A1 A2 A3 Hs. eapply str_frame; [exact O3|done|]. eapply str_frame; [exact O2|done|]. by eapply str_frame. }
  assert (Hm3 : str_at m3 msg lm) by (apply K3; [clear -B1 Hlen; apart_lia|clear -B3 Hlen; apart_lia|clear -B2 Hlen; apart_lia|exact Hm]).
  assert (Hne : tag <> msg) by (clear -T1; apart_lia).
  assert (Hlog : Z.of_nat (length (log_line lt lm)) = Z.of_nat (length lt) + Z.of_nat (length lm) + 3)
    by (unfold log_line; cbn [length]; rewrite length_app; cbn [length]; clear; lia).
  destruct (sprintf_spec (lb_final b) (literal (chars "[%s] %s")) _ m3 (chars "[%s] %s") [tag; msg] _ (K3 (literal (chars "[%s] %s")) (chars "[%s] %s") L2 L4 L3 Hl)
    (format_log_line tag msg lt lm Hne)) as (m4 & E4 & H4 & O4).
  { intros a l Ea. rewrite Hlog.
    destruct (Z.eqb_spec a tag) as [->|]; [injection Ea as <-; split_and!; [apply (K3 tag lt T2 T4 T3 Ht)|clear -Hlen; apart_lia|clear -T2 Hlen; apart_lia]|].
    destruct (Z.eqb_spec a msg) as [->|]; [injection Ea as <-; split_and!; [exact Hm3|clear -Hlen; apart_lia|clear -B1 Hlen; apart_lia]|discriminate Ea]. }
  { rewrite Hlog. change (Z.of_nat (length (chars "[%s] %s")) + 1) with 8. clear -L2 Hlen. apart_lia. }
  { rewrite Hlog. clear -Hlen. lia. }
  rewrite Hlog in E4, O4. assert (Hm4 : str_at m4 msg lm) by (eapply str_frame; [exact O4|clear -B1 Hlen; apart_lia|exact Hm3]).
  destruct (strncpy_spec (lb_vga b) msg lm m4 Hm4) as (m5 & E5 & H5 & O5); [clear -B2 Hlen; apart_lia|].
  exists m1, m2, m3, m4, m5, (Z.of_nat (length lt) + Z.of_nat (length lm) + 3).
  split; [exact E1|]. split; [exact E2|]. split; [exact E3|]. split; [exact E4|]. split; [|split; [exact E5|split; [|split; [exact H5|]]]].
  - apply strlen_spec; [exact Hm4|clear -Hlen; apart_lia].
  - eapply str_frame; [exact O5|rewrite Hlog; clear -B4 Hlen; apart_lia|]. split; [exact H4|]. apply Forall_cons. split; [lia|].
    apply Forall_app. split; [apply Ht|]. do 2 (apply Forall_cons; split; [lia|]). apply Hm.
  - intros x (X1 & X2 & X3 & X4 & X5). rewrite O5, O4, O3, O2, O1; [reflexivity|clear -X2 Hlen|clear -X4|clear -X3|clear -X2 Hlen|clear -X3 Hlen]; apart_lia.
Qed.

(** What a message of a given level does to the screen and the port. *)
Definition shown (level : Z) (t : term) (message : list Z) : term :=
  if LOG_INFO <=? level then foldl term_char t message else t.

Definition sent (level p : Z) (tag message : list Z) : list event :=
  if level <=? LOG_DEBUG then io_port_out p <$> log_line tag message else [].

(** The port after a message: [k] more readings of its device are ready. *)
Definition port_ready (k : nat) (p : serial) : Prop := serial_initialised p = true /\ device_serves k (port_inputs p).

Lemma printk_output s level tag message lt lm k t :
  str_at (text s) tag lt -> off_buffers b tag (Z.of_nat (length lt) + 1) -> str_at (text s) message lm -> message = lb_tmp b ->
  str_at (text s) (literal (chars "[%s] %s")) (chars "[%s] %s") -> off_buffers b (literal (chars "[%s] %s")) 8 ->
  Z.of_nat (length lt) + Z.of_nat (length lm) + 3 < 512 -> (LOG_INFO <= level -> 37 ∉ lm) -> screen_ok t (screen s) ->
  (level <= LOG_DEBUG -> port_ready (length (log_line lt lm) + k) (port s)) ->
  exists s', _printk literal b level tag message s = Some (tt, s') /\ screen_ok (shown level t lm) (screen s') /\
    port_outputs (port s') = port_outputs (port s) ++ sent level (serial_debug_port (port s)) lt lm /\
    (level <= LOG_DEBUG -> port_ready k (port s') /\ serial_debug_port (port s') = serial_debug_port (port s)) /\
    (LOG_DEBUG < level -> port s' = port s) /\ outside_buffers b (text s) (text s').
Proof using HB.
  intros Ht Hto Hm Em Hl Hlo Hlen Hp Hsc Hdev.
  destruct (prepare_spec (text s) tag message lt lm Ht Hto Hm Em Hl Hlo Hlen)
    as (m1 & m2 & m3 & m4 & m5 & r & E1 & E2 & E3 & E4 & E5 & E6 & Hf & Hv & Hout).
  assert (HV : exists s6, (if LOG_INFO <=? level then vga_printf (lb_vga_tmp b) (lb_vga b) [] else ret tt) (Console m5 (screen s) (port s)) = Some (tt, s6) /\
    screen_ok (shown level t lm) (screen s6) /\ port s6 = port s /\ only m5 (text s6) (lb_vga_tmp b) 512).
  { unfold shown. destruct (Z.leb_spec LOG_INFO level) as [HI|HI]; [|eexists; split; [reflexivity|]; done]. specialize (Hp HI).
    destruct (vga_printf_spec (Console m5 (screen s) (port s)) (lb_vga_tmp b) (lb_vga b) (fun _ => None) lm [] lm t Hv (format_plain _ _ _ Hp))
      as (s6 & E & Ho & HS & HP); [done| |apply Hm|clear -Hlen; lia|done|by exists s6]. destruct HB as (_ & _ & _ & _ & B5 & _). clear -B5 Hlen. apart_lia. }
  destruct HV as (s6 & E7 & HS & HP & HO6).
  assert (Hf6 : str_at (text s6) (lb_final b) (log_line lt lm)).
  { eapply str_frame; [exact HO6| |exact Hf]. destruct HB as (_ & _ & _ & _ & _ & B6). unfold log_line. cbn [length]. rewrite length_app. cbn [length].
    clear -B6 Hlen. apart_lia. }
  assert (Ho6 : outside_buffers b (text s) (text s6)).
  { eapply outside_trans; [exact Hout|]. eapply only_outside; [|exact HO6]. intros x (_ & _ & _ & _ & X). exact X. }
  unfold _printk, on_text, bind at 1 2 3 4 5 6. rewrite E1. cbn [text screen port]. rewrite E2. cbn [text screen port]. rewrite E3. cbn [text screen port].
  rewrite E4. cbn [text screen port]. rewrite E5. cbn [text screen port]. rewrite E6. cbn [text screen port]. st_step E7. unfold sent.
  destruct (Z.leb_spec level LOG_DEBUG) as [Hle|Hle].
  - destruct (Hdev Hle) as [Ei Hd]. clear Hdev. destruct (port s) as [ins out i d] eqn:Epo. cbn [serial_initialised port_inputs port_outputs serial_debug_port] in *. subst i.
    destruct (serial_write_line_spec (text s6) d (lb_final b) (log_line lt lm) k ins out d Hf6 Hd) as (rest & Ew & Hd').
    exists (Console (text s6) (screen s6) (Serial rest (out ++ (io_port_out d <$> log_line lt lm)) true d)). split_and!; try done; [|lia].
    unfold on_port, bind, serial_get_debug_port, gets. rewrite HP. cbn [serial_debug_port text screen port]. by rewrite Ew.
  - exists s6. split_and!; try done; [by rewrite app_nil_r, HP|lia].
Qed.

Lemma printk_spec (level file fmt : Z) (args : list Z) (sa : Z -> option (list Z)) (f lt lm : list Z) k s t :
  str_at (text s) fmt f -> off_buffers b fmt (Z.of_nat (length f) + 1) -> format sa f None args = Some lm ->
  args_in (text s) (lb_tmp b) 512 sa -> Forall (fun c => 0 < c < 256) lm -> (LOG_INFO <= level -> 37 ∉ lm) ->
  str_at (text s) file lt -> off_buffers b file (Z.of_nat (length lt) + 1) ->
  str_at (text s) (literal (chars "[%s] %s")) (chars "[%s] %s") -> off_buffers b (literal (chars "[%s] %s")) 8 ->
  Z.of_nat (length lt) + Z.of_nat (length lm) + 3 < 512 -> screen_ok t (screen s) ->
  (level <= LOG_DEBUG -> port_ready (length (log_line lt lm) + k) (port s)) ->
  exists s', printk literal b level file fmt args s = Some (tt, s') /\ screen_ok (shown level t lm) (screen s') /\
    port_outputs (port s') = port_outputs (port s) ++ sent level (serial_debug_port (port s)) lt lm /\
    (level <= LOG_DEBUG -> port_ready k (port s') /\ serial_debug_port (port s') = serial_debug_port (port s)) /\
    (LOG_DEBUG < level -> port s' = port s) /\ outside_buffers b (text s) (text s').
Proof using HB.
  intros Hf Hfo E Ha Hc Hp Ht Hto Hl Hlo Hlen Hsc Hdev.
  destruct (format_spec (text s) (lb_tmp b) fmt sa f args lm Hf E Ha (proj1 Hfo) Hc ltac:(lia)) as (m1 & m2 & r & E1 & E2 & Hs & Ho).
  destruct (printk_output (Console m2 (screen s) (port s)) level file (lb_tmp b) lt lm k t) as (s' & E3 & HS & HP & HD & HP' & HO);
    cbn [text screen port]; try done.
  - eapply str_frame; [exact Ho|apply Hto|exact Ht].
  - eapply str_frame; [exact Ho|apply Hlo|exact Hl].
  - exists s'. split_and!; try done.
    + unfold printk, on_text, bind at 1 2. rewrite E1. cbn [text screen port]. rewrite E2. exact E3.
    + eapply outside_trans; [|exact HO]. eapply only_outside; [|exact Ho]. intros x (X & _). exact X.
Qed.

(** The log.  A message whose text has no '%' and fits its buffer together
    with the tag goes, at level [LOG_INFO] and above, to the screen as a terminal
    would show it, and at level [LOG_DEBUG] and below to the serial debug port as
    "[tag] message", each byte after the device reported ready; no memory outside
    the buffers of the log changes. *)
Theorem printk_correct (level file fmt : Z) (args : list Z) (sa : Z -> option (list Z)) (f lt lm : list Z) s t ins out d :
  str_at (text s) fmt f -> off_buffers b fmt (Z.of_nat (length f) + 1) -> format sa f None args = Some lm ->
  args_in (text s) (lb_tmp b) 512 sa -> Forall (fun c => 0 < c < 256) lm -> 37 ∉ lm ->
  str_at (text s) file lt -> off_buffers b file (Z.of_nat (length lt) + 1) ->
  str_at (text s) (literal (chars "[%s] %s")) (chars "[%s] %s") -> off_buffers b (literal (chars "[%s] %s")) 8 ->
  Z.of_nat (length lt) + Z.of_nat (length lm) + 3 < 512 -> screen_ok t (screen s) ->
  port s = Serial ins out true d -> device_serves (length (log_line lt lm)) ins ->
  exists s', printk literal b level file fmt args s = Some (tt, s') /\ screen_ok (shown level t lm) (screen s') /\
    port_outputs (port s') = out ++ sent level d lt lm /\ outside_buffers b (text s) (text s').
Proof using HB.
  intros Hf Hfo E Ha Hc Hp Ht Hto Hl Hlo Hlen Hsc Epo Hdev.
  destruct (printk_spec level file fmt args sa f lt lm 0 s t Hf Hfo E Ha Hc ltac:(by intros _) Ht Hto Hl Hlo Hlen Hsc) as (s' & E' & HS & HP & _ & _ & HO);
    [rewrite Epo, Nat.add_0_r; by split|].
  exists s'. rewrite Epo in HP. by split_and!.
Qed.

End Log.

(** ** Panics *)

(** A text without control characters that fits on a line appears there. *)
Definition plain l : Prop := Forall (fun c => 0 < c < 256 /\ ~ (10 <= c <= 13)) l.

Lemma plain_chars l : plain l -> Forall (fun c => 0 < c < 256) l.
Proof. intros Hl. eapply Forall_impl; [exact Hl|]. by intros c [? _]. Qed.

(** Line [y] of [g] from column [k] on is replaced by [l]. *)
Definition with_text (g : grid) (k y fg : Z) l : grid :=
  fun a b => if (b =? y) && (k <=? a) then default (g a b) ((fun c => c + 256 * fg) <$> l !! Z.to_nat (a - k)) else g a b.

Lemma fold_plain l : forall g k y fg, plain l -> 0 <= k -> k + Z.of_nat (length l) <= 80 ->
  exists g', foldl term_char (Term g k y fg) l = Term g' (k + Z.of_nat (length l)) y fg /\ forall a b, g' a b = with_text g k y fg l a b.
Proof.
  induction l as [|c l IH]; intros g k y fg Hp Hk Hl; cbn [length foldl] in *.
  - exists g. split; [by rewrite Z.add_0_r|]. intros a b. unfold with_text. cbn. by destruct (_ && _).
  - apply Forall_cons in Hp as [[Hc Hn] Hp]. unfold term_char at 2. cbn [t_x t_y t_fg t_grid].
    destruct (Z.eqb_spec c 10); [lia|]. destruct (Z.eqb_spec c 12); [lia|]. destruct (Z.eqb_spec c 13); [lia|]. destruct (Z.eqb_spec c 11); [lia|].
    destruct (Z.eqb_spec k 80); [lia|]. cbn [t_x t_y t_fg t_grid].
    destruct (IH (put g k y (c + 256 * fg)) (k + 1) y fg Hp ltac:(lia) ltac:(lia)) as (g' & E & Hg). exists g'. split; [rewrite E; f_equal; lia|].
    intros a b. rewrite Hg. unfold with_text, put. destruct (Z.eqb_spec b y); cbn [andb]; [|by rewrite andb_false_r].
    destruct (Z.leb_spec k a), (Z.leb_spec (k + 1) a); try lia.
    + destruct (Z.eqb_spec a k); [lia|]. replace (Z.to_nat (a - k)) with (S (Z.to_nat (a - (k + 1)))) by lia. done.
    + assert (a = k) as -> by lia. rewrite Z.eqb_refl. cbn [andb]. by rewrite Z.sub_diag.
    + destruct (Z.eqb_spec a k); [lia|done].
Qed.

Lemma vga_printf_pos_spec s tmp y fmt sa f args out g x0 y0 fg :
  str_at (text s) fmt f -> format sa f None args = Some out -> args_in (text s) tmp 512 sa ->
  apart fmt (Z.of_nat (length f) + 1) tmp 512 -> plain out -> Z.of_nat (length out) <= 80 -> 0 <= y < 25 ->
  screen_ok (Term g x0 y0 fg) (screen s) ->
  exists s' g', vga_printf_pos tmp 0 y fmt args s = Some (tt, s') /\ only (text s) (text s') tmp 512 /\ port s' = port s /\
    screen_ok (Term g' (Z.of_nat (length out)) y fg) (screen s') /\ forall a b, g' a b = with_text g 0 y fg out a b.
Proof.
  intros Hf E Ha Hd Hp Hl Hy [(HG & _ & _ & Hfg) (_ & _ & Hfr)]. cbn [t_grid t_x t_y t_fg] in *.
  destruct (format_spec (text s) tmp fmt sa f args out Hf E Ha Hd (plain_chars _ Hp) ltac:(lia)) as (m1 & m2 & r & E1 & E2 & Hs & Ho).
  destruct (vga_set_cursor 0 y (screen s)) as [[[] v]|] eqn:Ec; [|discriminate Ec].
  assert (HR : refines (Term g 0 y fg) v) by (injection Ec as <-; by split_and!).
  assert (HO : term_ok (Term g 0 y fg)) by (unfold term_ok; cbn; lia).
  destruct (vga_write_spec _ v m2 tmp out HR HO Hs ltac:(lia)) as (v' & E3 & HR' & HO' & _).
  destruct (fold_plain out g 0 y fg Hp ltac:(lia) ltac:(lia)) as (g' & Eg & Hg). rewrite Eg, Z.add_0_l in HR', HO'.
  exists (Console m2 v' (port s)), g'. split_and!; try done.
  unfold vga_printf_pos, on_text, on_display, bind. rewrite E1. cbn [text screen port]. rewrite E2. cbn [text screen port]. rewrite Ec. cbn [text screen port].
  by rewrite E3.
Qed.

(** Clearing the screen. *)
Lemma clear_screen_spec g v s : shows g v ->
  exists v', vga_clear_screen VGA_COLOUR_BLACK (with_video v s) = Some (tt, with_video v' s) /\ shows (fun _ _ => blank) v'.
Proof.
  intros HS. unfold vga_clear_screen.
  edestruct (for_up_spec (fun x => for_up 25 0 (fun y => vga_set_character 32 VGA_COLOUR_BLACK VGA_COLOUR_BLACK x y))
    (fun j g x y => if x =? j then blank else g x y) 80 0 g v s) as (v' & E & HV); [|done|].
  - intros j g1 v1 Hj HS1.
    edestruct (for_up_spec (fun y => vga_set_character 32 VGA_COLOUR_BLACK VGA_COLOUR_BLACK j y) (fun i g => put g j i blank) 25 0 g1 v1 s) as (v2 & E2 & H2); [|done|].
    { intros i g2 v2 Hi HS2. by apply set_character_spec; [|split; lia|]. }
    exists v2. split; [exact E2|]. eapply shows_ext; [|exact H2]. intros x y [Hx Hy]. clear -Hy.
    assert (H : forall n i g x y, iter_up n i (fun i g => put g j i blank) g x y = if (x =? j) && (i <=? y) && (y <? i + Z.of_nat n) then blank else g x y).
    { induction n as [|n IH]; intros i g0 x0 y0; cbn [iter_up]; [|rewrite IH; unfold put]; repeat bool_case; done. }
    rewrite H. change (0 + Z.of_nat 25) with 25. destruct (Z.leb_spec 0 y), (Z.ltb_spec y 25); try lia. by rewrite !andb_true_r.
  - exists v'. split; [exact E|]. eapply shows_ext; [|exact HV]. intros x y [Hx Hy]. clear -Hx.
    assert (H : forall n i g x y, iter_up n i (fun j g x y => if x =? j then blank else g x y) g x y = if (i <=? x) && (x <? i + Z.of_nat n) then blank else g x y).
    { induction n as [|n IH]; intros i g0 x0 y0; cbn [iter_up]; [|rewrite IH]; repeat bool_case; done. }
    rewrite H. change (0 + Z.of_nat 80) with 80. destruct (Z.leb_spec 0 x), (Z.ltb_spec x 80); try lia. done.
Qed.

(** The lines of a panic, by their position on the screen. *)
Definition panic_lines (bugcheck : Z) (message file func : list Z) : list (Z * list Z) :=
  [(0, rule); (1, chars "!!! Kernel panic !!!"); (2, rule);
   (4, if bugcheck =? 0 then chars "The system encountered an unrecoverable error." else chars "The system encountered a bugcheck.");
   (6, chars "Error: " ++ message); (8, chars "File:  " ++ file); (9, chars "Func:  " ++ func)].

(** A page of lines on an empty screen. *)
Definition panic_page (fg : Z) (lines : list (Z * list Z)) : grid :=
  foldl (fun g '(y, l) => with_text g 0 y fg l) (fun _ _ => blank) lines.

(** The literals of [kernel_panic]. *)
Definition panic_literals : list (list Z) :=
  [rule; chars "!!! Kernel panic !!!"; chars "The system encountered an unrecoverable error."; chars "The system encountered a bugcheck.";
   chars "Error: %s"; chars "File:  %s"; chars "Func:  %s"].

Section Panic.
  Context (literal : list Z -> Z) (tmp fg : Z) (s0 : console).
  (** The literals are in memory, outside the formatting buffer. *)
  Context (HL : forall l, l ∈ panic_literals -> str_at (text s0) (literal l) l /\ apart (literal l) (Z.of_nat (length l) + 1) tmp 512).

(** Between two lines: [G] is on the screen. *)
Definition at_page s (G : grid) : Prop :=
  only (text s0) (text s) tmp 512 /\ port s = port s0 /\
  exists g x y, screen_ok (Term g x y fg) (screen s) /\ forall a b, g a b = G a b.

Lemma page_step s G y l sa args out :
  at_page s G -> l ∈ panic_literals -> format sa l None args = Some out -> args_in (text s0) tmp 512 sa -> plain out ->
  Z.of_nat (length out) <= 80 -> 0 <= y < 25 ->
  exists s', vga_printf_pos tmp 0 y (literal l) args s = Some (tt, s') /\ at_page s' (with_text G 0 y fg out).
Proof using HL.
  intros (Ho & Hpo & g & x & y0 & HS & Hg) Hl E Ha Hp Hlen Hy. destruct (HL l Hl) as [Hs Hd].
  destruct (vga_printf_pos_spec s tmp y (literal l) sa l args out g x y0 fg) as (s' & g' & E' & Ho' & Hpo' & HS' & Hg'); try done.
  - by eapply str_frame.
  - eapply args_frame; [exact Ho| |exact Ha]. intros a k Ea. by apply Ha.
  - exists s'. split; [done|]. split_and!; [by eapply only_trans|by rewrite Hpo'|]. eexists g', _, _. split; [exact HS'|].
    intros a b. rewrite Hg'. unfold with_text. by rewrite Hg.
Qed.

(** A line without arguments, and a line that ends in one string. *)
Lemma page_literal s G y l : at_page s G -> l ∈ panic_literals -> 37 ∉ l -> plain l -> Z.of_nat (length l) <= 80 -> 0 <= y < 25 ->
  exists s', vga_printf_pos tmp 0 y (literal l) [] s = Some (tt, s') /\ at_page s' (with_text G 0 y fg l).
Proof using HL. intros HA Hl Hn Hp Hlen Hy. apply (page_step s G y l (fun _ => None)); try done. by apply format_plain. Qed.

Lemma page_string s G y pre a la :
  at_page s G -> (pre ++ [37; 115]) ∈ panic_literals -> 37 ∉ pre -> plain pre -> plain la -> str_at (text s0) a la ->
  apart a (Z.of_nat (length la) + 1) tmp 512 -> Z.of_nat (length (pre ++ la)) <= 80 -> 0 <= y < 25 ->
  exists s', vga_printf_pos tmp 0 y (literal (pre ++ [37; 115])) [a] s = Some (tt, s') /\ at_page s' (with_text G 0 y fg (pre ++ la)).
Proof using HL.
  intros HA Hl Hn Hpp Hpa Hs Hd Hlen Hy. apply (page_step s G y _ (fun b => if b =? a then Some la else None)); try done.
  - apply format_text; [done|]. apply format_last. by rewrite Z.eqb_refl.
  - intros b lb Eb. destruct (Z.eqb_spec b a) as [->|]; [|discriminate Eb]. injection Eb as <-. split_and!; [done| |done].
    rewrite length_app in Hlen. unfold MAX_STRING_LEN. lia.
  - by apply Forall_app.
Qed.

(** Deciding [plain] for the literals. *)
Definition plainb l : bool := forallb (fun c => (0 <? c) && (c <? 256) && negb ((10 <=? c) && (c <=? 13))) l.

Lemma plainb_spec l : plainb l = true -> plain l.
Proof using.
  unfold plainb, plain. rewrite forallb_forall, Forall_forall. intros Hb c Hc. apply list_elem_of_In in Hc. specialize (Hb c Hc). bool_cases.
Qed.

Ltac page_lit := first [apply list_elem_of_In; cbn; tauto | apply plainb_spec; vm_compute; reflexivity | vm_compute; discriminate | lia
  | apply (bool_decide_unpack _); vm_compute; reflexivity].

(** An argument that can be shown after a seven-character label. *)
Definition short_text (a : Z) l : Prop := str_at (text s0) a l /\ plain l /\ (length l <= 73)%nat /\ apart a (Z.of_nat (length l) + 1) tmp 512.

(** The screen of a panic.  Whatever was on the screen, after [kernel_panic]
    has printed its report the screen shows the banner, the kind of the panic and
    the message, file and function, each on its line, in the current colour, and
    blanks everywhere else; the report needs no more than the formatting
    buffer. *)
Theorem kernel_panic_correct (message file func bugcheck : Z) (lm lf lu : list Z) t :
  screen_ok t (screen s0) -> t_fg t = fg -> short_text message lm -> short_text file lf -> short_text func lu ->
  exists s', kernel_panic literal tmp message file func bugcheck s0 = Some (tt, s') /\
    (forall x y, on_screen x y -> video (screen s') !! cell_addr x y = Some (panic_page fg (panic_lines bugcheck lm lf lu) x y)) /\
    only (text s0) (text s') tmp 512 /\ port s' = port s0.
Proof using HL.
  intros [(HG & Hx & Hy & Hf) HO] Efg (M1 & M2 & M3 & M4) (F1 & F2 & F3 & F4) (U1 & U2 & U3 & U4).
  destruct (clear_screen_spec (t_grid t) (video (screen s0)) (screen s0) HG) as (v & E0 & HV). rewrite with_video_id in E0.
  set (s1 := Console (text s0) (with_video v (screen s0)) (port s0)).
  assert (A1 : at_page s1 (fun _ _ => blank)).
  { split_and!; [done|done|]. eexists _, (t_x t), (t_y t). split; [|reflexivity].
    unfold term_ok in HO. rewrite Efg in Hf, HO. split; [by split_and!|exact HO]. }
  assert (S1 : on_display (fun _ => vga_clear_screen VGA_COLOUR_BLACK) s0 = Some (tt, s1)) by (unfold on_display; by rewrite E0).
  destruct (page_literal s1 _ 0 rule A1) as (s2 & S2 & A2); [page_lit..|].
  destruct (page_literal s2 _ 1 (chars "!!! Kernel panic !!!") A2) as (s3 & S3 & A3); [page_lit..|].
  destruct (page_literal s3 _ 2 rule A3) as (s4 & S4 & A4); [page_lit..|].
  set (kind := if bugcheck =? 0 then chars "The system encountered an unrecoverable error." else chars "The system encountered a bugcheck.").
  assert (HK : forall G, at_page s4 G -> exists s5, (if bugcheck =? 0 then vga_printf_pos tmp 0 4 (literal (chars "The system encountered an unrecoverable error.")) []
    else vga_printf_pos tmp 0 4 (literal (chars "The system encountered a bugcheck.")) []) s4 = Some (tt, s5) /\ at_page s5 (with_text G 0 4 fg kind)).
  { intros G HG4. unfold kind. destruct (bugcheck =? 0); apply (page_literal s4 _ 4 _ HG4); page_lit. }
  destruct (HK _ A4) as (s5 & S5 & A5).
  destruct (page_string s5 _ 6 (chars "Error: ") message lm A5) as (s6 & S6 & A6); [page_lit|page_lit|page_lit|exact M2|exact M1|exact M4|rewrite length_app; cbn; lia|lia|].
  destruct (page_string s6 _ 8 (chars "File:  ") file lf A6) as (s7 & S7 & A7); [page_lit|page_lit|page_lit|exact F2|exact F1|exact F4|rewrite length_app; cbn; lia|lia|].
  destruct (page_string s7 _ 9 (chars "Func:  ") func lu A7) as (s8 & S8 & (A8 & P8 & g & x & y & ((HG8 & _) & _) & Hg)); [page_lit|page_lit|page_lit|exact U2|exact U1|exact U4|rewrite length_app; cbn; lia|lia|].
  exists s8. split; [|split; [|split; [exact A8|exact P8]]].
  - unfold kernel_panic. st_step S1. st_step S2. st_step S3. st_step S4. st_step S5. st_step S6. st_step S7. exact S8.
  - intros a c Hac. destruct (HG8 a c Hac) as [-> _]. f_equal. apply Hg.
Qed.

End Panic.

(** ** An example console *)

(** The literals at fixed addresses. *)
Definition example_literal (l : list Z) : Z :=
  if decide (l = chars "[%s] %s") then 100
  else if decide (l = rule) then 200
  else if decide (l = chars "!!! Kernel panic !!!") then 300
  else if decide (l = chars "The system encountered an unrecoverable error.") then 400
  else if decide (l = chars "The system encountered a bugcheck.") then 500
  else if decide (l = chars "Error: %s") then 600
  else if decide (l = chars "File:  %s") then 700
  else 800.

Definition at_address (a : Z) (l : list Z) : bytes := list_to_map (zip (seqZ a (Z.of_nat (length l) + 1)) (l ++ [0])).

(** The literals, a format string at 1000, a file name at 1100 and a message at
    1200. *)
Definition example_strings : bytes :=
  foldr (fun l m => at_address (example_literal l) l ∪ m) ∅ (chars "[%s] %s" :: panic_literals) ∪
  (at_address 1000 (chars "frames: %d") ∪ (at_address 1100 (chars "mm.c") ∪ at_address 1200 (chars "no memory"))).

Definition example_console : console :=
  Console example_strings (Vga dots_video 0 24 7 []) (Serial (replicate 40 0x20) [] true IO_PORT_SERIAL_COM2).

Definition example_buffers : log_buffers := LogBuffers 10000 11000 12000 13000 14000.

Lemma example_screen : screen_ok (Term dots 0 24 7) (screen example_console).
Proof. split; [split; [exact dots_shown|]; repeat split; reflexivity|]. unfold term_ok. cbn. lia. Qed.

(** A string of the example is where it is said to be. *)
Definition strb m (a : Z) l : bool :=
  bool_decide (Forall (fun c => 0 < c < 256) l) && bool_decide ((fun i => m !! (a + Z.of_nat i)) <$> seq 0 (S (length l)) = Some <$> (l ++ [0])).

Lemma strb_spec m a l : strb m a l = true -> str_at m a l.
Proof.
  intros [H1%bool_decide_eq_true H2%bool_decide_eq_true]%andb_true_iff. split; [|exact H1].
  intros i c Ei. apply (f_equal (fun k => k !! i)) in H2. rewrite !list_lookup_fmap, Ei in H2.
  assert (Hi : (i < S (length l))%nat) by (apply lookup_lt_Some in Ei; rewrite length_app in Ei; cbn in Ei; lia).
  rewrite lookup_seq_lt in H2 by done. by injection H2.
Qed.

Lemma printk_correct_witness : exists s', printk example_literal example_buffers LOG_DEBUG 1100 1000 [64] example_console = Some (tt, s') /\
  port_outputs (port s') = io_port_out IO_PORT_SERIAL_COM2 <$> chars "[mm.c] frames: 64".
Proof.
  destruct (printk_correct example_literal example_buffers ltac:(unfold buffers_apart, apart; cbn; lia) LOG_DEBUG 1100 1000 [64] (fun _ => None)
    (chars "frames: %d") (chars "mm.c") (chars "frames: 64") example_console (Term dots 0 24 7) (replicate 40 0x20) [] IO_PORT_SERIAL_COM2)
    as (s' & E & _ & Hp & _).
  - apply strb_spec. vm_compute. reflexivity.
  - unfold off_buffers, apart. cbn. lia.
  - vm_compute. reflexivity.
  - intros a l Ea. discriminate Ea.
  - apply plain_chars, plainb_spec. vm_compute. reflexivity.
  - apply (bool_decide_unpack _). vm_compute. reflexivity.
  - apply strb_spec. vm_compute. reflexivity.
  - unfold off_buffers, apart. cbn. lia.
  - apply strb_spec. vm_compute. reflexivity.
  - unfold off_buffers, apart. vm_compute. intuition discriminate.
  - vm_compute. reflexivity.
  - exact example_screen.
  - reflexivity.
  - cbn. repeat (exists [], 0x20; eexists; split; [reflexivity|]; split; [constructor|]; split; [reflexivity|]). exact I.
  - exists s'. split; [exact E|exact Hp].
Defined.

Lemma kernel_panic_correct_witness : exists s', kernel_panic example_literal 10000 1200 1100 1100 0 example_console = Some (tt, s') /\
  video (screen s') !! cell_addr 7 6 = Some (110 + 256 * 7) /\ video (screen s') !! cell_addr 0 5 = Some 32.
Proof.
  destruct (kernel_panic_correct example_literal 10000 7 example_console
    ltac:(intros l Hl; assert (HF : forallb (fun l => strb example_strings (example_literal l) l
        && (example_literal l + Z.of_nat (length l) + 1 <=? 10000)) panic_literals = true) by (vm_compute; reflexivity);
      rewrite forallb_forall in HF; specialize (HF l (proj1 (list_elem_of_In _ _) Hl)); apply andb_true_iff in HF as [H1 H2];
      split; [by apply strb_spec|left; apply Z.leb_le in H2; lia])
    1200 1100 1100 0 (chars "no memory") (chars "mm.c") (chars "mm.c") (Term dots 0 24 7)) as (s' & E & HV & _).
  - exact example_screen.
  - reflexivity.
  - split; [apply strb_spec; vm_compute; reflexivity|]. split; [apply plainb_spec; vm_compute; reflexivity|]. split; [cbn; lia|left; cbn; lia].
  - split; [apply strb_spec; vm_compute; reflexivity|]. split; [apply plainb_spec; vm_compute; reflexivity|]. split; [cbn; lia|left; cbn; lia].
  - split; [apply strb_spec; vm_compute; reflexivity|]. split; [apply plainb_spec; vm_compute; reflexivity|]. split; [cbn; lia|left; cbn; lia].
  - exists s'. split; [exact E|]. split; [rewrite HV by (split; lia)|rewrite HV by (split; lia)]; vm_compute; reflexivity.
Defined.
