(* ===== verification/ArchInit.v ===== *)
(** * Starting the kernel (arch/x86/kernel/init.c, kernel/core/main.c)

    [arch_init] with every stage in its order, every message and every early
    return, over the state of all components at once: one screen and serial port,
    one kernel memory whose pages come from one page allocator, one processor.
    A component's operations run on their part of this state.  Interrupts are
    turned on in the middle but none arrives before [arch_init] has returned, and
    the debug messages the stages themselves send to the serial port are left
    out, as in the models of the components. *)

From Stdlib Require Import String Ascii.
From stdpp Require Import base numbers list gmap.
From Stdlib Require Import ZArith Lia.
From S2P Require Import Prelude LinkedList CString PageDefs Bootmem Palloc PageSource Boot Slab Ptable Task Tty Vfs Multiboot Interrupts Cpu Console Logging.

#[local] Open Scope Z_scope.

(** The processor and its tables: the leaves [cpuid_init] stores, CR3, the
    interrupt flag, the descriptor tables, the handlers, and what was written to
    the ports of the interrupt controller and the timer.  The remaining fields of
    [struct cpu_info] are those of the scheduler's state. *)
Record hardware : Type := Hardware {
  hw_leaves : list cpuid_leaf;
  hw_cr3 : Z;
  hw_if : bool;
  hw_cpu_id : Z;
  hw_desc : cpu_tables;
  hw_self : Z;
  hw_idt : list idt_gate;
  hw_idtr : Z * Z;
  hw_handlers : list Z;
  hw_events : list event
}.

(** Everything but the console.  Kernel memory and the page allocator are in
    [tmem] of the scheduler's state. *)
Record core : Type := Core {
  co_hw : hardware;
  co_bootmem : bootmem;
  co_sched : sched buddy;
  co_tty_nodes : gmap tty_node (lnode tty_node);
  co_tty_head : Z;
  co_fs_types : gmap Z file_system_type;
  co_fs_nodes : gmap fs_node (lnode fs_node);
  co_fs_lock : bool;
  co_root_sb : Z
}.

Record kernel : Type := Kernel { k_console : console; k_core : core }.

(** ** The parts of the state *)

Definition with_hw (h : hardware) (x : core) : core :=
  Core h (co_bootmem x) (co_sched x) (co_tty_nodes x) (co_tty_head x) (co_fs_types x) (co_fs_nodes x) (co_fs_lock x) (co_root_sb x).

Definition with_bootmem (bm : bootmem) (x : core) : core :=
  Core (co_hw x) bm (co_sched x) (co_tty_nodes x) (co_tty_head x) (co_fs_types x) (co_fs_nodes x) (co_fs_lock x) (co_root_sb x).

Definition with_sched (s : sched buddy) (x : core) : core :=
  Core (co_hw x) (co_bootmem x) s (co_tty_nodes x) (co_tty_head x) (co_fs_types x) (co_fs_nodes x) (co_fs_lock x) (co_root_sb x).

Definition core_heap (x : core) : heap buddy := tmem (co_sched x).

Definition with_heap (h : heap buddy) (x : core) : core := with_sched (with_tmem h (co_sched x)) x.

(** What the terminals and the file systems see of it. *)
Definition core_ttys (x : core) : ttys buddy := Ttys (co_tty_nodes x) (co_tty_head x) (core_heap x).

Definition with_ttys (t : ttys buddy) (x : core) : core :=
  Core (co_hw x) (co_bootmem x) (with_tmem (tty_mem t) (co_sched x)) (tty_nodes t) (head_id t)
    (co_fs_types x) (co_fs_nodes x) (co_fs_lock x) (co_root_sb x).

Definition core_vfs (m : bytes) (x : core) : vfs buddy :=
  Vfs m (co_fs_types x) (co_fs_nodes x) (co_fs_lock x) (co_root_sb x) (core_heap x).

Definition with_vfs (v : vfs buddy) (x : core) : core :=
  Core (co_hw x) (co_bootmem x) (with_tmem (vfs_mem v) (co_sched x)) (co_tty_nodes x) (co_tty_head x)
    (fs_types v) (fs_nodes v) (fs_list_lock v) (root_sb v).

(** [struct cpu_info] of the one processor. *)
Definition core_cpu (x : core) : cpu_info :=
  CpuInfo (hw_cpu_id (co_hw x)) (current_task (co_sched x)) (Z.b2z (sched_enabled (co_sched x))) (esp0 (co_sched x))
    (hw_desc (co_hw x)) (hw_self (co_hw x)).

Definition with_cpu (c : cpu_info) (x : core) : core :=
  let h := co_hw x in
  with_hw (Hardware (hw_leaves h) (hw_cr3 h) (hw_if h) (cpu_id c) (cpu_desc c) (cpu_self c) (hw_idt h) (hw_idtr h) (hw_handlers h) (hw_events h))
    (with_sched (with_current (cpu_task c) (with_enabled (negb (cpu_sched_enabled c =? 0)) (with_esp0 (cpu_esp0 c) (co_sched x)))) x).

(** Running an operation on a part. *)
Definition zoom {S X A} (get : S -> X) (set : X -> S -> S) (f : ST X A) : ST S A :=
  fun s => match f (get s) with Some (a, x) => Some (a, set x s) | None => None end.

Definition on_console {A} (f : ST console A) : ST kernel A := zoom k_console (fun c k => Kernel c (k_core k)) f.

Definition on_core {A} (f : ST core A) : ST kernel A := zoom k_core (fun x k => Kernel (k_console k) x) f.

Definition on_hw {A} (f : ST hardware A) : ST kernel A := on_core (zoom co_hw with_hw f).

Definition on_sched {A} (f : ST (sched buddy) A) : ST kernel A := on_core (zoom co_sched with_sched f).

(** Early memory together with kernel memory, or with the page allocator. *)
Definition on_early {A} (f : ST (bootmem * gmap Z Z) A) : ST kernel A :=
  on_core (zoom (fun x => (co_bootmem x, kmem (core_heap x)))
                (fun '(bm, w) x => with_bootmem bm (with_heap (with_kmem w (core_heap x)) x)) f).

Definition on_pages {A} (f : ST (bootmem * buddy) A) : ST kernel A :=
  on_core (zoom (fun x => (co_bootmem x, source (core_heap x)))
                (fun '(bm, b) x => with_bootmem bm (with_heap (Heap (kmem (core_heap x)) (caches (core_heap x)) b) x)) f).

(** An operation on the file systems reads names from the console's memory. *)
Definition on_vfs {A} (f : ST (vfs buddy) A) : ST kernel A :=
  fun k => zoom (fun k => core_vfs (text (k_console k)) (k_core k)) (fun v k => Kernel (k_console k) (with_vfs v (k_core k))) f k.


(** ** The texts *)

Definition OK_STR : list Z := chars "[ " ++ [12] ++ chars "OK" ++ [11] ++ chars " ]" ++ [10].
Definition FAIL_STR : list Z := chars "[" ++ [13] ++ chars "FAIL" ++ [11] ++ chars "]" ++ [10].

Definition banner : list Z :=
  [10; 10] ++
  chars " ######                                    " ++ [10] ++
  chars " #     #  ####  #####   ##   #####  #   #  " ++ [10] ++
  chars " #     # #    #   #    #  #  #    #  # #   " ++ [10] ++
  chars " ######  #    #   #   #    # #    #   #    " ++ [10] ++
  chars " #   #   #    #   #   ###### #####    #    " ++ [10] ++
  chars " #    #  #    #   #   #    # #   #    #    " ++ [10] ++
  chars " #     #  ####    #   #    # #    #   #    " ++ [10] ++
  chars "                                           " ++ [10] ++
  [10].

(** "%c" twelve times. *)
Definition vendor_format : list Z := concat (replicate 12 (chars "%c")).

Section Machine.
  Context (KERNEL_PHYS_START KERNEL_PHYS_END KERNEL_STACK_BOTTOM : Z).
  (** The boot loader's structures. *)
  Context (mboot : bytes) (info : multiboot_info).
  (** Addresses of literals, of the log's buffers, of the file name in the log
      and of the local array of [cpuid_init]. *)
  Context (literal : list Z -> Z) (buffers : log_buffers) (file cpu_name : Z).
  (** Addresses of static data and of code. *)
  Context (kernel_pgd task_head cpu0 idt_addr testfs_type testfs_name : Z).
  Context (isr : Z -> Z) (isr_exit timer_isr keyboard_isr shell_init : Z).
  (** What the processor reports: cpuid, where it has the leaf, and CR4. *)
  Context (cpuid : Z -> option cpuid_leaf) (cr4 : Z).
  (** The contents of the idle task's memory before it is filled in. *)
  Context (junk : task).

#[local] Instance pages : PageSource buddy := buddy_source KERNEL_PHYS_START KERNEL_PHYS_END.

Definition info_message (l : list Z) : ST kernel unit := on_console (printk literal buffers LOG_INFO file (literal l) []).

(** [__get_cpuid] leaves its results alone for a leaf the processor has not. *)
Definition cpuid_init : ST kernel Z :=
  (on_hw (modify (fun h =>
     Hardware ((fun '(i, old) => default old (cpuid i)) <$> zip [0; 1; 2; 3] (hw_leaves h))
       (hw_cr3 h) (hw_if h) (hw_cpu_id h) (hw_desc h) (hw_self h) (hw_idt h) (hw_idtr h) (hw_handlers h) (hw_events h))) ;;
   leaf0 <- deref (cpuid 0) ;;
   on_console (on_text (cpuid_get_cpu_name leaf0 (literal vendor_format) cpu_name)) ;;
   ret E_SUCCESS)%st.

Definition with_cr3 (v : Z) (h : hardware) : hardware :=
  Hardware (hw_leaves h) v (hw_if h) (hw_cpu_id h) (hw_desc h) (hw_self h) (hw_idt h) (hw_idtr h) (hw_handlers h) (hw_events h).

(** [paging_init] on the leaves that were stored. *)
Definition start_paging : ST kernel Z :=
  (leaves <- on_hw (gets hw_leaves) ;;
   leaf1 <- deref (leaves !! 1%nat) ;;
   cr3 <- on_hw (gets hw_cr3) ;;
   r <- on_early (paging_init (negb (x86_paging_pse_enabled leaf1 cr4 =? 0)) (negb (x86_paging_pge_enabled leaf1 cr4 =? 0)) kernel_pgd cr3) ;;
   on_hw (modify (with_cr3 r.2)) ;;
   ret r.1)%st.

Definition start_cpu : ST kernel Z :=
  on_core (fun x => let '(r, c) := cpu_init cpu0 (core_cpu x) in Some (r, with_cpu c x)).

Definition with_idt (g : list idt_gate) (h : hardware) : hardware :=
  Hardware (hw_leaves h) (hw_cr3 h) (hw_if h) (hw_cpu_id h) (hw_desc h) (hw_self h) g (hw_idtr h) (hw_handlers h) (hw_events h).

Definition with_idtr (v : Z * Z) (h : hardware) : hardware :=
  Hardware (hw_leaves h) (hw_cr3 h) (hw_if h) (hw_cpu_id h) (hw_desc h) (hw_self h) (hw_idt h) v (hw_handlers h) (hw_events h).

Definition with_handlers (l : list Z) (tr : list event) (h : hardware) : hardware :=
  Hardware (hw_leaves h) (hw_cr3 h) (hw_if h) (hw_cpu_id h) (hw_desc h) (hw_self h) (hw_idt h) (hw_idtr h) l (hw_events h ++ tr).

Definition start_idt : ST kernel Z :=
  on_hw (fun h => match idt_init isr (hw_idt h) with Some g => Some (E_SUCCESS, with_idt g h) | None => None end).

Definition load_idt : ST kernel Z := on_hw (fun h => Some (E_SUCCESS, with_idtr (idt_load idt_addr) h)).

Definition start_pic : ST kernel Z :=
  on_hw (fun h => Some (E_SUCCESS, with_handlers (hw_handlers h) (pic_init PIC_MASTER_OFFSET PIC_SLAVE_OFFSET) h)).

Definition start_timer : ST kernel Z :=
  on_hw (fun h => match timer_init timer_isr (hw_handlers h) with Some (tr, l) => Some (E_SUCCESS, with_handlers l tr h) | None => None end).

Definition start_keyboard : ST kernel Z :=
  on_hw (fun h => match keyboard_init keyboard_isr (hw_handlers h) with Some (r, l) => Some (r, with_handlers l [] h) | None => None end).

(** STI *)
Definition enable_hardware_interrupts : ST kernel unit :=
  on_hw (modify (fun h => Hardware (hw_leaves h) (hw_cr3 h) true (hw_cpu_id h) (hw_desc h) (hw_self h) (hw_idt h) (hw_idtr h) (hw_handlers h) (hw_events h))).

(** One stage: the message, the step, its outcome; a stage that failed ends
    [arch_init]. *)
Definition stage (message : list Z) (step : ST kernel bool) (rest : ST kernel Z) : ST kernel Z :=
  (info_message message ;;
   ok <- step ;;
   if negb ok then info_message FAIL_STR ;; ret E_ERROR else
   info_message OK_STR ;;
   rest)%st.

Definition succeeds (step : ST kernel Z) : ST kernel bool := (r <- step ;; ret (SUCCESS r))%st.

Definition arch_init (mboot_magic : Z) : ST kernel Z :=
  (on_console (on_display (fun _ => vga_clear_screen VGA_COLOUR_BLACK)) ;;
   on_console (on_display (fun _ => vga_set_cursor 0 23)) ;;
   stage (chars "Initialising serial ports..            ") (succeeds (on_console (on_port (fun _ => serial_init))))
   (p <- on_console (on_port (fun _ => serial_get_debug_port)) ;;
    on_console (on_port (fun m => serial_write_line m p (literal banner))) ;;
   stage (chars "Parsing Multiboot structs..            ")
     (r <- on_core (zoom co_bootmem with_bootmem (multiboot_parse KERNEL_PHYS_START KERNEL_PHYS_END mboot mboot_magic info)) ;; ret (negb (r =? 0)))
   (stage (chars "Retrieving CPUID..                     ") (succeeds cpuid_init)
   (stage (chars "Initialising paging..                  ") (succeeds start_paging)
   (stage (chars "Initialising buddy allocator..         ")
     (highest <- on_core (zoom co_bootmem with_bootmem bootmem_highest_pfn) ;; succeeds (on_pages (buddy_init KERNEL_PHYS_START highest)))
   (stage (chars "Initialising bootmem..                 ") (succeeds (on_pages bootmem_mark_free))
   (stage (chars "Setting up CPU..                       ") (succeeds start_cpu)
   (stage (chars "Assigning IDT gates..                  ") (succeeds start_idt)
   (stage (chars "Loading IDT..                          ") (succeeds load_idt)
   (stage (chars "Configuring legacy PIC..               ") (succeeds start_pic)
   (stage (chars "Initialising timer..                   ") (succeeds start_timer)
   (stage (chars "Initialising keyboard driver..         ") (succeeds start_keyboard)
   (info_message (chars "Enabling interrupts..                  ") ;;
    enable_hardware_interrupts ;;
    info_message OK_STR ;;
   stage (chars "Initialising task scheduler..          ") (succeeds (on_sched (task_init task_head kernel_pgd KERNEL_STACK_BOTTOM junk)))
   (stage (chars "Initialising default TTYs..            ") (succeeds (on_core (zoom core_ttys with_ttys tty_init)))
   (info_message (chars "Mounting root filesystem..             ") ;;
    on_vfs (mount_root_testing testfs_type testfs_name) ;;
    on_sched (task_create task_head kernel_pgd isr_exit (chars "shell") TASK_KERNEL shell_init TASK_PRIORITY_MIN TASK_STATE_WAITING) ;;
    ret 0)))))))))))))))%st.

(** [kernel_main] up to its endless loop: the result is not looked at. *)
Definition kernel_main (arg1 : Z) : ST kernel unit := (arch_init arg1 ;; ret tt)%st.

End Machine.
