(* ===== verification/ArchInitSpec.v ===== *)
(** * What the started kernel looks like

    The theorem about [arch_init] composes those about the components: on a
    machine with one memory region around the kernel, every stage succeeds, and
    the screen, the processor's tables, memory, the tasks, the terminal and the
    root file system are as the components' theorems say, all at once. *)

From Stdlib Require Import String Ascii.
From stdpp Require Import base numbers list gmap.
From Stdlib Require Import ZArith Lia.
From S2P Require Import Prelude LinkedList CString CStringSpec SprintfSpec PageDefs Bootmem BootmemSpec Blocks Palloc BuddyInv PageAlloc PageSource Boot PageClaims Slab SlabInv SlabSpec HeapClaims Ptable HeapClient PtableSpec HeapGrow Spare Tty Vfs VfsSpec VmSpec Task TaskSpec TaskCreate Multiboot MultibootSpec StartUp Interrupts InterruptClaims Cpu Console ConsoleSpec Logging LoggingSpec ArchInit.

#[local] Open Scope Z_scope.

(** ** Messages *)

Definition messages : list (list Z) := chars <$>
  ["Initialising serial ports..            "; "Parsing Multiboot structs..            "; "Retrieving CPUID..                     ";
   "Initialising paging..                  "; "Initialising buddy allocator..         "; "Initialising bootmem..                 ";
   "Setting up CPU..                       "; "Assigning IDT gates..                  "; "Loading IDT..                          ";
   "Configuring legacy PIC..               "; "Initialising timer..                   "; "Initialising keyboard driver..         ";
   "Enabling interrupts..                  "; "Initialising task scheduler..          "; "Initialising default TTYs..            "]%string.

Definition last_message : list Z := chars "Mounting root filesystem..             ".

Definition all_messages : list (list Z) := FAIL_STR :: last_message :: OK_STR :: messages.

Lemma in_all l : l ∈ messages \/ l ∈ [FAIL_STR; last_message; OK_STR] -> l ∈ all_messages.
Proof. unfold all_messages. change (FAIL_STR :: last_message :: OK_STR :: messages) with ([FAIL_STR; last_message; OK_STR] ++ messages). rewrite elem_of_app. tauto. Qed.

Lemma ok_message : OK_STR ∈ all_messages.
Proof. apply list_elem_of_further, list_elem_of_further, list_elem_of_here. Qed.

Lemma last_in : last_message ∈ all_messages.
Proof. apply list_elem_of_further, list_elem_of_here. Qed.

(** Everything a successful start prints. *)
Definition boot_text : list Z := concat ((fun l => l ++ OK_STR) <$> messages) ++ last_message.

Definition printable l : bool := forallb (fun c => (0 <? c) && (c <? 256) && negb (c =? 37)) l && (Z.of_nat (length l) <=? 60).

Lemma printable_spec l : printable l = true -> Forall (fun c => 0 < c < 256) l /\ (37 ∉ l) /\ Z.of_nat (length l) <= 60.
Proof.
  intros [H1 H2%Z.leb_le]%andb_true_iff. rewrite forallb_forall in H1. split_and!; [| |done].
  - apply Forall_forall. intros c Hc%list_elem_of_In. specialize (H1 c Hc). bool_cases.
  - intros Hc%list_elem_of_In. specialize (H1 37 Hc). discriminate H1.
Qed.

Section Texts.
  Context (literal : list Z -> Z) (buffers : log_buffers) (file cpu_name : Z) (file_name : list Z) (c0 : console) (t0 : term).

(** A string outside the buffers that start-up writes to. *)
Definition static (m : bytes) (a : Z) (l : list Z) : Prop :=
  str_at m a l /\ off_buffers buffers a (Z.of_nat (length l) + 1) /\ apart a (Z.of_nat (length l) + 1) cpu_name 24.

Definition kept (m m' : bytes) : Prop := forall x, off_buffers buffers x 1 -> apart x 1 cpu_name 24 -> m' !! x = m !! x.

Lemma static_kept m m' a l : kept m m' -> static m a l -> static m' a l.
Proof using.
  intros HK ([Hs Hc] & (O1 & O2 & O3 & O4 & O5) & Ha). split; [|done]. split; [|done]. apply (seg_same m); [|done]. intros x Hx.
  rewrite length_app in Hx. cbn [length] in Hx. apply HK; [split_and!|]; unfold apart in *; lia.
Qed.

Lemma kept_trans m1 m2 m3 : kept m1 m2 -> kept m2 m3 -> kept m1 m3.
Proof using. intros H1 H2 x Hx Hc. by rewrite H2, H1. Qed.

(** The texts of the program are in memory, outside those buffers. *)
Record texts_ok : Prop := TextsOk {
  tx_buffers : buffers_apart buffers;
  tx_file : static (text c0) file file_name /\ (length file_name <= 400)%nat;
  tx_literals : Forall (fun l => static (text c0) (literal l) l) ([chars "[%s] %s"; banner; vendor_format] ++ all_messages)
}.

Lemma fixed_texts : texts_ok -> static (text c0) (literal banner) banner /\ static (text c0) (literal vendor_format) vendor_format.
Proof using.
  intros [_ _ [HL _]%Forall_app]. apply Forall_cons in HL as [_ HL]. apply Forall_cons in HL as [HL [H _]%Forall_cons]. done.
Qed.

(** [out] has been printed on [t0], and the serial port is as [p]. *)
Record printed (out : list Z) (p : serial) (c : console) : Prop := Printed {
  pr_text : kept (text c0) (text c);
  pr_screen : screen_ok (foldl term_char t0 out) (screen c);
  pr_port : port c = p
}.

Context (HT : texts_ok).

Lemma info_spec l out p c x : l ∈ all_messages -> printed out p c ->
  exists c', info_message literal buffers file l (Kernel c x) = Some (tt, Kernel c' x) /\ printed (out ++ l) p c'.
Proof using HT.
  intros Hl [Hk Hs Hp]. destruct HT as [HB [Hf Hfl] [HL HM]%Forall_app].
  assert (HP : forallb printable all_messages = true) by (vm_compute; reflexivity).
  rewrite forallb_forall in HP. destruct (printable_spec l (HP l (proj1 (list_elem_of_In _ _) Hl))) as (P1 & P2 & P3). clear HP.
  rewrite Forall_forall in HM. destruct (static_kept _ _ _ _ Hk (HM l Hl)) as (L1 & L2 & _). apply Forall_cons in HL as [HL _].
  destruct (static_kept _ _ _ _ Hk HL) as (M1 & M2 & _).
  destruct (static_kept _ _ _ _ Hk Hf) as (F1 & F2 & _).
  destruct (printk_spec literal buffers HB LOG_INFO file (literal l) [] (fun _ => None) l file_name l 0 c (foldl term_char t0 out))
    as (c' & E & S' & _ & _ & P' & O'); [exact L1|exact L2|by apply format_plain|intros a k Ea; discriminate Ea|exact P1|by intros _|exact F1|exact F2|exact M1|exact M2|lia|exact Hs|unfold LOG_INFO, LOG_DEBUG; lia|].
  exists c'. split.
  - unfold info_message, on_console, zoom. cbn [k_console k_core]. by rewrite E.
  - split; [|by rewrite foldl_app|rewrite P' by (unfold LOG_INFO, LOG_DEBUG; lia); exact Hp]. eapply kept_trans; [exact Hk|]. intros y Hy _. by apply O'.
Qed.

(** A stage whose step succeeds. *)
Lemma stage_run l step out p p' c x x' : l ∈ messages -> printed out p c ->
  (forall c, printed (out ++ l) p c -> exists c', step (Kernel c x) = Some (true, Kernel c' x') /\ printed (out ++ l) p' c') ->
  exists c', (forall rest, stage literal buffers file l step rest (Kernel c x) = rest (Kernel c' x')) /\ printed (out ++ l ++ OK_STR) p' c'.
Proof using HT.
  intros Hl HP Hstep. destruct (info_spec l out p c x (in_all l (or_introl Hl)) HP) as (c1 & E1 & HP1).
  destruct (Hstep c1 HP1) as (c2 & E2 & HP2). destruct (info_spec OK_STR (out ++ l) p' c2 x' ok_message HP2) as (c3 & E3 & HP3).
  exists c3. split; [intros rest|by rewrite app_assoc]. unfold stage. st_step E1. st_step E2. cbn [negb]. by st_step E3.
Qed.

(** The usual case: the step does not touch the console. *)
Lemma stage_core l step out p c x x' : l ∈ messages -> printed out p c ->
  (forall c, step (Kernel c x) = Some (true, Kernel c x')) ->
  exists c', (forall rest, stage literal buffers file l step rest (Kernel c x) = rest (Kernel c' x')) /\ printed (out ++ l ++ OK_STR) p c'.
Proof using HT. intros Hl HP Hstep. apply (stage_run _ _ _ p); [done|done|]. intros c1 HP1. exists c1. split; [by apply Hstep|done]. Qed.

End Texts.

(** ** The screen and the serial port *)

Definition cleared (fg : Z) : term := Term (fun _ _ => ConsoleSpec.blank) 0 23 fg.

Lemma clear_run c x t : screen_ok t (screen c) ->
  exists c1 c2, on_console (on_display (fun _ => vga_clear_screen VGA_COLOUR_BLACK)) (Kernel c x) = Some (tt, Kernel c1 x) /\
    on_console (on_display (fun _ => vga_set_cursor 0 23)) (Kernel c1 x) = Some (tt, Kernel c2 x) /\
    text c2 = text c /\ port c2 = port c /\ screen_ok (cleared (t_fg t)) (screen c2).
Proof.
  intros [(HG & _ & _ & Hf) (_ & _ & Hfg)]. destruct (clear_screen_spec (t_grid t) (video (screen c)) (screen c) HG) as (v & E & HV).
  rewrite with_video_id in E. eexists _, _. split; [unfold on_console, zoom, on_display; cbn [k_console]; by rewrite E|].
  split; [reflexivity|]. split_and!; [done|done|]. split; [by split_and!|]. unfold term_ok. cbn. lia.
Qed.

Section Serial.
  Context (literal : list Z -> Z) (buffers : log_buffers) (file cpu_name : Z) (file_name : list Z) (c0 : console) (t0 : term).

Lemma serial_run out b1 b2 ins o i d x : exists o', forall c, printed buffers cpu_name c0 t0 out (Serial (b1 :: b2 :: ins) o i d) c ->
  exists c', succeeds (on_console (on_port (fun _ => serial_init))) (Kernel c x) = Some (true, Kernel c' x) /\
    printed buffers cpu_name c0 t0 out (Serial ins o' true IO_PORT_SERIAL_COM2) c'.
Proof.
  destruct (serial_init_ignores_failure b1 b2 ins o i d) as (o' & E). exists o'. intros c [Hk Hs Hp].
  exists (Console (text c) (screen c) (Serial ins o' true IO_PORT_SERIAL_COM2)). split; [|by split].
  unfold succeeds, on_console, zoom, on_port, bind. cbn [k_console k_core]. by rewrite Hp, E.
Qed.

Lemma banner_run out ins o c x : texts_ok literal buffers file cpu_name file_name c0 -> device_serves (length banner) ins ->
  printed buffers cpu_name c0 t0 out (Serial ins o true IO_PORT_SERIAL_COM2) c ->
  exists rest c', on_console (on_port (fun _ => serial_get_debug_port)) (Kernel c x) = Some (IO_PORT_SERIAL_COM2, Kernel c x) /\
    on_console (on_port (fun m => serial_write_line m IO_PORT_SERIAL_COM2 (literal banner))) (Kernel c x) = Some (E_SUCCESS, Kernel c' x) /\
    printed buffers cpu_name c0 t0 out (Serial rest (o ++ (io_port_out IO_PORT_SERIAL_COM2 <$> banner)) true IO_PORT_SERIAL_COM2) c'.
Proof.
  intros HT Hd [Hk Hs Hp]. destruct (static_kept _ _ _ _ _ _ Hk (proj1 (fixed_texts _ _ _ _ _ _ HT))) as (Hb & _ & _).
  destruct (serial_write_line_spec (text c) IO_PORT_SERIAL_COM2 (literal banner) banner 0 ins o IO_PORT_SERIAL_COM2 Hb) as (rest & E & _); [by rewrite Nat.add_0_r|].
  exists rest, (Console (text c) (screen c) (Serial rest (o ++ (io_port_out IO_PORT_SERIAL_COM2 <$> banner)) true IO_PORT_SERIAL_COM2)). split_and!.
  - unfold on_console, zoom, on_port, serial_get_debug_port, gets. cbn [k_console k_core]. rewrite Hp. cbn [serial_debug_port]. rewrite <- Hp. by destruct c.
  - unfold on_console, zoom, on_port. cbn [k_console k_core]. by rewrite Hp, E.
  - by split.
Qed.

(** Twelve characters into the local array. *)
Lemma vendor_name leaf0 : exists out, length out = 12%nat /\ format (fun _ => None) vendor_format None (cpu_name_args leaf0) = Some out.
Proof. eexists. split; [|reflexivity]. reflexivity. Qed.

Lemma cpuid_run (cpuid : Z -> option cpuid_leaf) leaf0 out p h bm s tn th ft fn fl rs :
  texts_ok literal buffers file cpu_name file_name c0 -> cpuid 0 = Some leaf0 -> forall c, printed buffers cpu_name c0 t0 out p c ->
  exists c', succeeds (cpuid_init literal cpu_name cpuid) (Kernel c (Core h bm s tn th ft fn fl rs)) = Some (true, Kernel c' (Core
      (Hardware ((fun '(i, old) => default old (cpuid i)) <$> zip [0; 1; 2; 3] (hw_leaves h))
       (hw_cr3 h) (hw_if h) (hw_cpu_id h) (hw_desc h) (hw_self h) (hw_idt h) (hw_idtr h) (hw_handlers h) (hw_events h)) bm s tn th ft fn fl rs)) /\
    printed buffers cpu_name c0 t0 out p c'.
Proof.
  intros HT E0 c [Hk Hs Hp]. destruct (static_kept _ _ _ _ _ _ Hk (proj2 (fixed_texts _ _ _ _ _ _ HT))) as (Hv & _ & Ha).
  destruct (vendor_name leaf0) as (name & Hn & Ef). unfold apart in Ha.
  destruct (sprintf_spec cpu_name (literal vendor_format) (fun _ => None) (text c) vendor_format (cpu_name_args leaf0) name Hv Ef) as (m' & E & _ & Ho).
  - intros a l Ea. discriminate Ea.
  - rewrite Hn. unfold away. lia.
  - rewrite Hn. lia.
  - exists (Console m' (screen c) (port c)). split; [|split; try done].
    + unfold succeeds, cpuid_init, cpuid_get_cpu_name, on_hw, on_core, on_console, on_text, zoom, modify, bind, ret. cbn [k_console k_core co_hw with_hw].
      rewrite E0. cbn [deref]. unfold ret. cbn [k_console text]. rewrite E. reflexivity.
    + eapply kept_trans; [exact Hk|]. intros y _ Hy. apply Ho. rewrite Hn. unfold apart in Hy. lia.
Qed.

End Serial.

(** ** The stages that do not touch the console *)

Section Steps.
  Context (KS KE : Z).

  Implicit Types (c : console) (x : core) (h : hardware) (s : sched buddy).

(** Unfolding the parts of the state down to the component's own function. *)
Ltac parts := unfold succeeds, on_pages, on_early, on_sched, on_hw, on_core, on_vfs, zoom, bind, ret;
  cbn [k_console k_core co_hw co_bootmem co_sched co_tty_nodes co_tty_head co_fs_types co_fs_nodes co_fs_lock co_root_sb
       core_ttys core_vfs core_cpu with_hw with_bootmem with_sched with_heap with_ttys with_vfs with_cpu
       tmem kmem source caches fst snd]; unfold core_heap.

Lemma parse_run m magic info c x bm : multiboot_parse KS KE m magic info (co_bootmem x) = Some (1, bm) ->
  (r <- on_core (zoom co_bootmem with_bootmem (multiboot_parse KS KE m magic info)) ;; ret (negb (r =? 0)))%st (Kernel c x)
    = Some (true, Kernel c (with_bootmem bm x)).
Proof using. intros E. parts. by rewrite E. Qed.

(** The state after the early page tables. *)
Definition paged (cr3 : Z) (bm : bootmem) (w : gmap Z Z) x : core :=
  with_hw (with_cr3 cr3 (co_hw x)) (with_bootmem bm (with_heap (with_kmem w (core_heap x)) x)).

Lemma paging_run q cr4 leaf1 c x bm w :
  hw_leaves (co_hw x) !! 1%nat = Some leaf1 -> x86_paging_pse_enabled leaf1 cr4 = 1 -> 0 < q < LINEAR_FRAMES ->
  paging_setup_kernel_pgd true (negb (x86_paging_pge_enabled leaf1 cr4 =? 0)) (lin q) (co_bootmem x, kmem (core_heap x)) = Some (tt, (bm, w)) ->
  succeeds (start_paging (lin q) cr4) (Kernel c x) = Some (true, Kernel c (paged (q * 4096) bm w x)).
Proof using.
  intros E1 Ep Hq E. unfold succeeds, start_paging.
  assert (R1 : on_hw (gets hw_leaves) (Kernel c x) = Some (hw_leaves (co_hw x), Kernel c x)) by by destruct x.
  assert (R2 : on_hw (gets hw_cr3) (Kernel c x) = Some (hw_cr3 (co_hw x), Kernel c x)) by by destruct x.
  assert (R3 : on_early (paging_init true (negb (x86_paging_pge_enabled leaf1 cr4 =? 0)) (lin q) (hw_cr3 (co_hw x))) (Kernel c x)
    = Some ((E_SUCCESS, q * 4096), Kernel c (with_bootmem bm (with_heap (with_kmem w (core_heap x)) x)))).
  { unfold on_early, on_core, zoom. cbn [k_core k_console]. by rewrite (paging_init_run _ _ _ (hw_cr3 (co_hw x)) _ _ Hq E). }
  unfold bind at 1. st_step R1. rewrite E1. cbn [deref]. rewrite bind_ret. st_step R2. rewrite Ep. change (negb (1 =? 0)) with true.
  by st_step R3.
Qed.

(** Early memory and the page allocator after a step on them. *)
Definition repaged (bm : bootmem) (b : buddy) x : core :=
  with_bootmem bm (with_heap (Heap (kmem (core_heap x)) (caches (core_heap x)) b) x).

Lemma buddy_run c x bm b : buddy_init KS (highest_pfn (co_bootmem x)) (co_bootmem x, source (core_heap x)) = Some (E_SUCCESS, (bm, b)) ->
  (highest <- on_core (zoom co_bootmem with_bootmem bootmem_highest_pfn) ;; succeeds (on_pages (buddy_init KS highest)))%st (Kernel c x)
    = Some (true, Kernel c (repaged bm b x)).
Proof using.
  intros E. assert (R1 : on_core (zoom co_bootmem with_bootmem bootmem_highest_pfn) (Kernel c x) = Some (highest_pfn (co_bootmem x), Kernel c x)) by by destruct x.
  st_step R1. parts. unfold core_heap in E. by rewrite E.
Qed.

Lemma free_run c x bm b : bootmem_mark_free (co_bootmem x, source (core_heap x)) = Some (E_SUCCESS, (bm, b)) ->
  succeeds (on_pages bootmem_mark_free) (Kernel c x) = Some (true, Kernel c (repaged bm b x)).
Proof using. intros E. parts. unfold core_heap in E. by rewrite E. Qed.

(** The processor's structure, cleared and with its tables. *)
Definition tabled (cpu0 : Z) x : core := with_cpu (cpu_init cpu0 (core_cpu x)).2 x.

Lemma cpu_run cpu0 c x : succeeds (start_cpu cpu0) (Kernel c x) = Some (true, Kernel c (tabled cpu0 x)).
Proof using. reflexivity. Qed.

Lemma idt_run isr idt_addr c x g : idt_init isr (hw_idt (co_hw x)) = Some g ->
  succeeds (start_idt isr) (Kernel c x) = Some (true, Kernel c (with_hw (with_idt g (co_hw x)) x)) /\
  succeeds (load_idt idt_addr) (Kernel c x) = Some (true, Kernel c (with_hw (with_idtr (idt_addr, 2047) (co_hw x)) x)) /\
  succeeds start_pic (Kernel c x) = Some (true, Kernel c (with_hw (with_handlers (hw_handlers (co_hw x)) (pic_init PIC_MASTER_OFFSET PIC_SLAVE_OFFSET) (co_hw x)) x)).
Proof using. intros E. split_and!; [|reflexivity|reflexivity]. unfold start_idt. parts. by rewrite E. Qed.

(** What the timer is sent. *)
Definition timer_setup : list event :=
  [io_port_out IO_PORT_PIT_CMD 0x36; io_port_out IO_PORT_PIT_CHAN_0 0xDC; io_port_out IO_PORT_PIT_CHAN_0 0x34].

Lemma timer_run isr c x : length (hw_handlers (co_hw x)) = 256%nat ->
  succeeds (start_timer isr) (Kernel c x) = Some (true, Kernel c (with_hw (with_handlers (<[32%nat := isr]> (hw_handlers (co_hw x))) timer_setup (co_hw x)) x)).
Proof using. intros El. unfold start_timer, timer_init, register_interrupt_handler. parts. rewrite El. reflexivity. Qed.

Lemma keyboard_run isr c x : length (hw_handlers (co_hw x)) = 256%nat ->
  succeeds (start_keyboard isr) (Kernel c x) = Some (true, Kernel c (with_hw (with_handlers (<[33%nat := isr]> (hw_handlers (co_hw x))) [] (co_hw x)) x)).
Proof using. intros El. unfold start_keyboard, keyboard_init, arch_keyboard_init, register_interrupt_handler. parts. rewrite El. reflexivity. Qed.

Lemma sched_run {A} (f : ST (sched buddy) A) a s' c x : f (co_sched x) = Some (a, s') -> on_sched f (Kernel c x) = Some (a, Kernel c (with_sched s' x)).
Proof using. intros E. parts. by rewrite E. Qed.

Lemma tasks_run (f : ST (sched buddy) Z) s' c x : f (co_sched x) = Some (E_SUCCESS, s') ->
  succeeds (on_sched f) (Kernel c x) = Some (true, Kernel c (with_sched s' x)).
Proof using. intros E. unfold succeeds. by st_step (sched_run f _ _ c x E). Qed.

Lemma ttys_run (f : ST (ttys buddy) Z) t' c x : f (core_ttys x) = Some (E_SUCCESS, t') ->
  succeeds (on_core (zoom core_ttys with_ttys f)) (Kernel c x) = Some (true, Kernel c (with_ttys t' x)).
Proof using. intros E. unfold succeeds, on_core, zoom, bind. cbn [k_core]. by rewrite E. Qed.

Lemma vfs_run (f : ST (vfs buddy) unit) v' c x : f (core_vfs (text c) x) = Some (tt, v') -> on_vfs f (Kernel c x) = Some (tt, Kernel c (with_vfs v' x)).
Proof using. intros E. unfold on_vfs, zoom. cbn [k_console k_core]. by rewrite E. Qed.

End Steps.

(** ** Memory after the memory stages *)

(** The frames of the kernel image. *)
Definition image (KS KE x : Z) : Prop := PAGE_ALIGN KS <= x * 4096 < PAGE_ALIGN KE.

Section Services.
  Context (KS KE : Z).

#[local] Instance source_of_pages : PageSource buddy := buddy_source KS KE.

  Implicit Types (x : core) (s : sched buddy) (G : list (list (Z * list Z))) (A : gset (Z * Z)).

(** Other users of the heap do not disturb the scheduler, the terminals or the
    registry. *)
Lemma system_extends task_head K q s l h' G G' A A' :
  system_ok task_head K q s l G A -> extends (tmem s) h' G G' A A' -> heap_rep h' G' A' -> clear_of K A' ->
  system_ok task_head K q (with_tmem h' s) l G' A'.
Proof using.
  intros [H1 H2 H3 H4 H5 (Kq & Hq & [D1 D2]) H7] HE HR HK.
  assert (Hd : forall i, 0 <= i < 1024 -> kmem h' !! (lin q + 4 * i) = kmem (tmem s) !! (lin q + 4 * i))
    by (intros i Hi; eapply extends_kernel; [exact H2|exact HE|exact HK|exact Kq|by apply word_in_frame]).
  split; cbn [tmem with_tmem tasks last_task_id]; try done.
  - destruct H1 as [S1 S2 S3 S4 S5 S6]. by split.
  - eapply Forall_impl; [exact H3|]. intros t Ht. by apply (ex_live _ _ _ _ _ _ HE).
  - split_and!; [done|lia|lia|]. split; [intros i Hi; rewrite Hd by done; by apply D1|].
    intros i w Hi. rewrite Hd by (unfold USER_PDES in Hi; lia). by apply D2.
Qed.

Lemma ttys_extends l (t : ttys buddy) h' G G' A A' :
  ttys_ok l t G A -> extends (tty_mem t) h' G G' A A' -> heap_rep h' G' A' -> ttys_ok l (Ttys (tty_nodes t) (head_id t) h') G' A'.
Proof using.
  intros [H1 H2 H3] HE HR. split; [done|done|]. eapply Forall_impl; [exact H3|]. intros y Hy. by apply (ex_live _ _ _ _ _ _ HE).
Qed.

Lemma kernel_half_extends K q h h' G G' A A' :
  heap_rep h G A -> extends h h' G G' A A' -> clear_of K A' -> K q -> kernel_half (kmem h) (lin q) -> kernel_half (kmem h') (lin q).
Proof using.
  intros HR HE HK Kq [pge Hp]. exists pge. intros i Hi. rewrite <- (Hp i Hi). eapply extends_kernel; [exact HR|exact HE|exact HK|exact Kq|].
  apply word_in_frame. lia.
Qed.

(** Memory as the memory stages leave it: a heap without slabs, the kernel's
    directory, and pages for [k] requests. *)
Lemma memory_ready q k (w2 : gmap Z Z) (b3 : buddy) F a e :
  allocator b3 F ∅ -> page_count b3 <= LINEAR_FRAMES ->
  (forall y b, free_page F y -> y * 4096 <= b < y * 4096 + 4096 -> entry_offers KS KE e b) ->
  0 <= a -> (forall y, a <= y < a + 16 * (Z.of_nat k + 1) -> free_page F y) ->
  (forall i, 0 <= i < 768 -> w2 !! (lin q + 4 * i) = Some 0) -> (forall i, 768 <= i < 1024 -> is_Some (w2 !! (lin q + 4 * i))) ->
  let h := Heap w2 slab_caches b3 in
  heap_rep h (replicate 13 []) ∅ /\ roomy (image KS KE) k (source h) /\ clear_of (image KS KE) ∅ /\ kernel_directory h q.
Proof using.
  intros HA Hpc Hoff Ha Hk Hu Hkw h. split_and!.
  - change h with (with_kmem w2 (empty_heap b3)). apply heap_outside; [apply empty_heap_rep; split; [done|by exists F]|].
    intros y (b & Hb & _). vm_compute in Hb. exfalso. exact (not_elem_of_nil _ Hb).
  - apply (spare_roomy KS KE _ _ _ F ∅ HA (spare_interval F k a Ha Hk)).
    intros y Hy Hi. destruct (Hoff y (y * 4096) Hy ltac:(lia)) as [_ [_ Ho]]. by apply Ho.
  - intros b y Hb. set_solver.
  - split.
    + intros i Hi. cbn [kmem h]. destruct (Z.lt_ge_cases i 768); [rewrite Hu by lia; by eexists|apply Hkw; lia].
    + intros i w Hi. unfold USER_PDES in Hi. cbn [kmem h]. rewrite Hu by lia. by intros [= <-].
Qed.

(** ** Tasks, terminals, file systems *)

Context (task_head q bottom isr_exit shell_init testfs_type testfs_name : Z) (junk : task) (type : file_system_type).

Definition testfs (_ : Z) : list Z := chars "testfs".

(** The task of the shell: waiting, on its own stack of 16 pages, which holds
    what its first switch pops, in its own address space, which maps the kernel. *)
Definition shell_task x (t id : Z) G A : Prop :=
  exists v p d, tasks (co_sched x) !! t = Some (Task id TASK_KERNEL TASK_STATE_WAITING TASK_PRIORITY_MIN 0 (lin p + KSTACK_BYTES - 84) (lin p + KSTACK_BYTES)
      KSTACK_BYTES v shell_init (<[(TASK_NAME_LENGTH_MAX - 1)%nat := 0]> (copy_name (chars "shell")))) /\
    (forall i w, initial_stack TASK_KERNEL shell_init isr_exit !! i = Some w -> kmem (core_heap x) !! (lin p + KSTACK_BYTES - 84 + 4 * Z.of_nat i) = Some w) /\
    kmem (core_heap x) !! (v + VMS_PGD) = Some (d * 4096) /\ user_rep (core_heap x) (lin d) ∅ A /\ kernel_half (kmem (core_heap x)) (lin d) /\
    (p, TASK_KERNEL_STACK_ORDER) ∈ A /\ (d, 0) ∈ A /\ live G 1 v.

(** The default terminal and the root super block. *)
Definition default_tty x (t : Z) G A : Prop :=
  ttys_ok [t] (core_ttys x) G A /\ head_id (core_ttys x) = TTY_ID_INVALID /\
  kmem (core_heap x) !! (t + TTY_ID) = Some TTY_ID_DEFAULT /\ kmem (core_heap x) !! (t + TTY_BUFSIZE) = Some TTY_DEFAULT_BUFFER_SIZE.

Definition root_mounted x (m : bytes) G : Prop :=
  registry testfs (core_vfs m x) [testfs_type] /\ live G 2 (co_root_sb x) /\ kmem (core_heap x) !! (co_root_sb x + SB_FS_TYPE) = Some testfs_type.

(** Before the scheduler starts: memory with room for [k] requests, and the
    static data. *)
Record unstarted (k : nat) x G A : Prop := Unstarted {
  un_heap : heap_rep (core_heap x) G A;
  un_clear : clear_of (image KS KE) A;
  un_room : roomy (image KS KE) k (source (core_heap x));
  un_dir : kernel_directory (core_heap x) q;
  un_half : kernel_half (kmem (core_heap x)) (lin q);
  un_tasks : task_lock (co_sched x) = false /\ 0 < last_task_id (co_sched x) < 4294967295;
  un_tty : is_Some (co_tty_nodes x !! TtyHead);
  un_fs : clist (co_fs_nodes x) FsHead [] /\ co_fs_lock x = false /\ co_fs_types x !! testfs_type = Some type /\ super_alloc type = testfs_alloc /\
    is_Some (co_fs_nodes x !! FsEntry testfs_type) /\ testfs_type <> 0
}.

(** Where the kernel's directory and the list head are. *)
Context (Hq : image KS KE q /\ 0 <= q < LINEAR_FRAMES) (Hh : exists f, image KS KE f /\ in_frame f task_head).

(** The scheduler and the terminals. *)
Lemma services_run n x G A : unstarted (11 + n) x G A ->
  exists idle v tty s1 t1 G' A', task_init task_head (lin q) bottom junk (co_sched x) = Some (E_SUCCESS, s1) /\
    tty_init (core_ttys (with_sched s1 x)) = Some (E_SUCCESS, t1) /\
    let x' := with_ttys t1 (with_sched s1 x) in
    system_ok task_head (image KS KE) q (co_sched x') [idle] G' A' /\ roomy (image KS KE) (5 + n) (source (core_heap x')) /\
    (tasks (co_sched x') !! idle = Some (idle_task junk bottom v) /\ current_task (co_sched x') = idle /\ sched_enabled (co_sched x') = true /\
     last_task_id (co_sched x') = last_task_id (co_sched x)) /\
    default_tty x' tty G' A' /\ kernel_half (kmem (core_heap x')) (lin q).
Proof using Hq Hh.
  intros [HR HK Hr HD Hhalf [Hl Hi] Ht _]. destruct Hq as [Kq Hq'].
  destruct (task_init_spec task_head (lin q) (image KS KE) (8 + n) q bottom junk (co_sched x) G A HR HK Hr Hh Kq Hq' HD eq_refl Hl (proj1 Hi))
    as (idle & v & d & s1 & G1 & A1 & E1 & HS1 & Hr1 & Hid & Hidle & Hcur & Hen & _ & _ & _ & HE1).
  destruct (tty_init_spec (image KS KE) (5 + n) (core_ttys (with_sched s1 x)) G1 A1) as (tty & t1 & G2 & A2 & E2 & HT & Hhd & W1 & W2 & HE2 & Hr2 & HK2);
    [apply HS1|done|done|apply HS1|].
  exists idle, v, tty, s1, t1, G2, A2. split; [exact E1|]. split; [exact E2|]. cbv zeta. split; [|split; [exact Hr2|split; [|split]]].
  - apply (system_extends task_head (image KS KE) q s1 [idle] (tty_mem t1) G1 G2 A1 A2); [done|done|apply HT|done].
  - by split_and!.
  - split_and!; try done. by destruct t1.
  - eapply (kernel_half_extends (image KS KE) q (core_heap x)); [exact HR|by eapply extends_trans|exact HK2|done|done].
Qed.

(** The root file system and the shell; [m] holds the names. *)
Lemma shell_run n m x idle tty G A :
  system_ok task_head (image KS KE) q (co_sched x) [idle] G A -> roomy (image KS KE) (5 + n) (source (core_heap x)) ->
  0 <= last_task_id (co_sched x) < 4294967295 -> default_tty x tty G A -> kernel_half (kmem (core_heap x)) (lin q) ->
  (clist (co_fs_nodes x) FsHead [] /\ co_fs_lock x = false /\ co_fs_types x !! testfs_type = Some type /\ super_alloc type = testfs_alloc /\
    is_Some (co_fs_nodes x !! FsEntry testfs_type) /\ testfs_type <> 0) ->
  str_at m testfs_name (chars "testfs") -> str_at m (fs_name type) (chars "testfs") ->
  exists shell v1 s2 G' A', mount_root_testing testfs_type testfs_name (core_vfs m x) = Some (tt, v1) /\
    task_create task_head (lin q) isr_exit (chars "shell") TASK_KERNEL shell_init TASK_PRIORITY_MIN TASK_STATE_WAITING (co_sched (with_vfs v1 x)) = Some (shell, s2) /\
    let x' := with_sched s2 (with_vfs v1 x) in
    system_ok task_head (image KS KE) q (co_sched x') [shell; idle] G' A' /\ roomy (image KS KE) n (source (core_heap x')) /\
    shell_task x' shell (last_task_id (co_sched x)) G' A' /\ default_tty x' tty G' A' /\ root_mounted x' m G' /\ kernel_half (kmem (core_heap x')) (lin q) /\
    (idle <> shell /\ tasks (co_sched x') !! idle = tasks (co_sched x) !! idle /\ current_task (co_sched x') = current_task (co_sched x) /\
     sched_enabled (co_sched x') = sched_enabled (co_sched x) /\ last_task_id (co_sched x') = last_task_id (co_sched x) + 1).
Proof using Hq Hh.
  intros HS Hr Hid (HT & Hhd & W1 & W2) Hhalf (F1 & F2 & F3 & F4 & F5 & F6) Hn Htn. pose proof (proj1 Hq) as Kq.
  assert (Hkn : known testfs (core_vfs m x) testfs_type) by (by exists type).
  destruct (mount_root_testing_correct testfs (image KS KE) (4 + n) testfs_type testfs_name (core_vfs m x) [] G A type)
    as (v1 & G1 & A1 & E1 & HRg & Etx & HR1 & Hsb & HE1 & Hr1 & HK1 & L1 & N1 & Ws & _); [by split|done|done|done|done|set_solver|done|apply HS|done|apply HS|].
  cbn [core_vfs vfs_mem fs_text] in *. set (x1 := with_vfs v1 x).
  assert (HS1 : system_ok task_head (image KS KE) q (co_sched x1) [idle] G1 A1)
    by (apply (system_extends task_head (image KS KE) q (co_sched x) [idle] (vfs_mem v1) G G1 A A1); done).
  destruct (task_create_spec task_head (lin q) isr_exit (image KS KE) n q (co_sched x1) [idle] G1 A1 (chars "shell") TASK_KERNEL shell_init TASK_PRIORITY_MIN TASK_STATE_WAITING
    HS1 Hr1 eq_refl Hid eq_refl) as (shell & v & p & d & s2 & G2 & A2 & E2 & HS2 & Hr2 & HM).
  pose proof (tm_frame _ _ _ _ _ _ _ _ _ _ _ _ _ _ _ _ _ HM) as HE2. pose proof (extends_trans _ _ _ _ _ _ _ _ _ HE1 HE2) as HE.
  pose proof (ex_same _ _ _ _ _ _ HE) as Hsame. pose proof (sy_heap _ _ _ _ _ _ _ HS2) as HR2.
  assert (Hk1 : kernel_half (kmem (core_heap x1)) (lin q)) by (eapply (kernel_half_extends (image KS KE) q (core_heap x)); [apply HS|exact HE1|done..]).
  assert (Hne : idle <> shell).
  { intros ->. pose proof (sy_live _ _ _ _ _ _ _ HS1) as [Hl _]%Forall_cons. exact (proj1 (tm_fresh _ _ _ _ _ _ _ _ _ _ _ _ _ _ _ _ _ HM) Hl). }
  assert (Ht : live G 2 tty) by (destruct HT as [_ _ HF]; by apply Forall_cons in HF as [? _]).
  exists shell, v1, s2, G2, A2. split; [exact E1|]. split; [exact E2|]. cbv zeta. split; [exact HS2|]. split; [exact Hr2|].
  split; [|split; [|split; [|split]]].
  - exists v, p, d. destruct HM as [M1 M2 M3 M4 M5 M6 [M7 _] [M8 M9] M10 M11 M12 M13]. do 4 (split; [assumption|]).
    split; [destruct Hk1 as [pge Hk1]; exists pge; intros i Hi; rewrite <- (Hk1 i Hi); apply M9; lia|].
    split; [apply M10|]. split; [apply M10|apply M11; by right; right].
  - split; [by apply (ttys_extends [tty] (core_ttys x) (tmem s2) G G2 A A2)|]. split; [exact Hhd|]. split.
    + rewrite <- W1. apply (Hsame 2%nat tty 32); [done|done|unfold TTY_ID; lia].
    + rewrite <- W2. apply (Hsame 2%nat tty 32); [done|done|unfold TTY_BUFSIZE; lia].
  - split; [|split].
    + destruct HRg as [R1 R2 R3]. split; [exact R1|exact R2|]. rewrite <- Etx. exact R3.
    + by apply (ex_live _ _ _ _ _ _ HE2).
    + rewrite <- Ws. apply (ex_same _ _ _ _ _ _ HE2 2%nat (root_sb v1) 32); [done|done|unfold SB_FS_TYPE; lia].
  - by apply (kernel_half_extends (image KS KE) q (core_heap x1) (tmem s2) G1 G2 A1 A2); [apply HS1|done|apply HS2|done|done].
  - destruct HM as [_ M2 M3 (M4 & M5 & _) _ _ _ _ _ _ _ _]. split_and!; try done. by apply M2.
Qed.

End Services.

(** ** The whole of [arch_init] *)

Section Start.
  Context (KS KE bottom : Z) (mboot : bytes) (info : multiboot_info).
  Context (literal : list Z -> Z) (buffers : log_buffers) (file cpu_name : Z) (file_name : list Z).
  Context (q task_head cpu0 idt_addr testfs_type testfs_name : Z).
  Context (isr : Z -> Z) (isr_exit timer_isr keyboard_isr shell_init : Z).
  Context (cpuid : Z -> option cpuid_leaf) (cr4 : Z) (junk : task).

#[local] Instance boot_source : PageSource buddy := buddy_source KS KE.

(** The memory map: one available entry around the kernel, with [k] pages for
    the page array and [j] more. *)
Record map_ready (k j : nat) (es : list multiboot_mmap_entry) (e : multiboot_mmap_entry) : Prop := MapReady {
  mr_surrounds : surrounds KS KE e;
  mr_enough : enough KE e k j;
  mr_array : (0 < k)%nat;
  mr_single : filter (fun e => appropriate KE e = true) es = [e];
  mr_flag : TEST_BIT (mb_flags info) MULTIBOOT_INFO_MEM_MAP = true;
  mr_map : map_at mboot (mmap_addr info) es;
  mr_length : mmap_length info = map_length es;
  mr_addr : 0 <= mmap_addr info /\ mmap_addr info + map_length es < 4294967296
}.

(** The processor, and where static data is. *)
Record machine_ready (leaf0 leaf1 : cpuid_leaf) : Prop := MachineReady {
  ma_leaf0 : cpuid 0 = Some leaf0;
  ma_leaf1 : cpuid 1 = Some leaf1;
  ma_pse : x86_paging_pse_enabled leaf1 cr4 = 1;
  ma_isr : forall i, 0 <= isr i < 4294967296;
  ma_cpu : 0 <= cpu0 /\ cpu0 + SIZEOF_CPU_INFO <= 4294967296;
  ma_pgd : image KS KE q /\ 0 < q < LINEAR_FRAMES;
  ma_head : exists f, image KS KE f /\ in_frame f task_head
}.

(** Static data as the image has it. *)
Record core_ready (x : core) (type : file_system_type) : Prop := CoreReady {
  cd_bootmem : co_bootmem x = bootmem_init;
  cd_caches : caches (core_heap x) = slab_caches;
  cd_pgd : forall i, 0 <= i < 768 -> kmem (core_heap x) !! (lin q + 4 * i) = Some 0;
  cd_tasks : task_lock (co_sched x) = false /\ 0 < last_task_id (co_sched x) < 4294967295;
  cd_tty : is_Some (co_tty_nodes x !! TtyHead);
  cd_fs : clist (co_fs_nodes x) FsHead [] /\ co_fs_lock x = false /\ co_fs_types x !! testfs_type = Some type /\ super_alloc type = testfs_alloc /\
    is_Some (co_fs_nodes x !! FsEntry testfs_type) /\ testfs_type <> 0;
  cd_tables : length (hw_idt (co_hw x)) = 256%nat /\ length (hw_handlers (co_hw x)) = 256%nat /\ length (hw_leaves (co_hw x)) = 4%nat
}.

(** The processor afterwards: the kernel's directory is loaded and maps the
    kernel, interrupts are on, every vector leads to its stub, the timer and the
    keyboard have their handlers, and GS leads to the processor's structure. *)
Record processor_up (tr : list event) (x : core) : Prop := ProcessorUp {
  pu_cr3 : hw_cr3 (co_hw x) = q * 4096 /\ kernel_half (kmem (core_heap x)) (lin q);
  pu_if : hw_if (co_hw x) = true;
  pu_idt : hw_idtr (co_hw x) = (idt_addr, 2047) /\
    forall i, 0 <= i < 48 \/ i = 64 -> exists g, hw_idt (co_hw x) !! Z.to_nat i = Some g /\ gate_target g = isr i /\ present g = 1;
  pu_handlers : hw_handlers (co_hw x) !! 32%nat = Some timer_isr /\ hw_handlers (co_hw x) !! 33%nat = Some keyboard_isr;
  pu_events : hw_events (co_hw x) = tr ++ pic_init PIC_MASTER_OFFSET PIC_SLAVE_OFFSET ++ timer_setup;
  pu_local : cpu_get_local cpu0 (core_cpu x) = Some cpu0
}.

(** The system afterwards: two tasks, the idle one current and the shell waiting
    for its first turn, a terminal, the root file system, and a page allocator
    good for [n] more requests. *)
Record system_up (n : nat) (x : core) (m : bytes) (id : Z) (G : list (list (Z * list Z))) (A : gset (Z * Z)) (idle shell tty : Z) : Prop := SystemUp {
  sp_system : system_ok task_head (image KS KE) q (co_sched x) [shell; idle] G A;
  sp_room : roomy (image KS KE) n (source (core_heap x));
  sp_idle : (exists v, tasks (co_sched x) !! idle = Some (idle_task junk bottom v)) /\ current_task (co_sched x) = idle /\ sched_enabled (co_sched x) = true;
  sp_shell : shell_task KS KE isr_exit shell_init x shell id G A;
  sp_tty : default_tty KS KE x tty G A;
  sp_root : root_mounted testfs_type x m G;
  sp_id : last_task_id (co_sched x) = id + 1
}.

(** *** Four parts *)

Abbreviation stage_ := (stage literal buffers file).
Abbreviation info_ := (info_message literal buffers file).
Abbreviation printed_ c0 t0 := (printed buffers cpu_name c0 t0).

Definition console_part (rest : ST kernel Z) : ST kernel Z :=
  (on_console (on_display (fun _ => vga_clear_screen VGA_COLOUR_BLACK)) ;;
   on_console (on_display (fun _ => vga_set_cursor 0 23)) ;;
   stage_ (chars "Initialising serial ports..            ") (succeeds (on_console (on_port (fun _ => serial_init))))
   (p <- on_console (on_port (fun _ => serial_get_debug_port)) ;;
    on_console (on_port (fun m => serial_write_line m p (literal banner))) ;;
    rest))%st.

Definition memory_part (magic : Z) (rest : ST kernel Z) : ST kernel Z :=
  (stage_ (chars "Parsing Multiboot structs..            ")
     (r <- on_core (zoom co_bootmem with_bootmem (multiboot_parse KS KE mboot magic info)) ;; ret (negb (r =? 0)))
   (stage_ (chars "Retrieving CPUID..                     ") (succeeds (cpuid_init literal cpu_name cpuid))
   (stage_ (chars "Initialising paging..                  ") (succeeds (start_paging (lin q) cr4))
   (stage_ (chars "Initialising buddy allocator..         ")
     (highest <- on_core (zoom co_bootmem with_bootmem bootmem_highest_pfn) ;; succeeds (on_pages (buddy_init KS highest)))
   (stage_ (chars "Initialising bootmem..                 ") (succeeds (on_pages bootmem_mark_free)) rest)))))%st.

Definition processor_part (rest : ST kernel Z) : ST kernel Z :=
  (stage_ (chars "Setting up CPU..                       ") (succeeds (start_cpu cpu0))
   (stage_ (chars "Assigning IDT gates..                  ") (succeeds (start_idt isr))
   (stage_ (chars "Loading IDT..                          ") (succeeds (load_idt idt_addr))
   (stage_ (chars "Configuring legacy PIC..               ") (succeeds start_pic)
   (stage_ (chars "Initialising timer..                   ") (succeeds (start_timer timer_isr))
   (stage_ (chars "Initialising keyboard driver..         ") (succeeds (start_keyboard keyboard_isr))
   (info_ (chars "Enabling interrupts..                  ") ;;
    enable_hardware_interrupts ;;
    info_ OK_STR ;;
    rest)))))))%st.

Definition service_part : ST kernel Z :=
  stage_ (chars "Initialising task scheduler..          ") (succeeds (on_sched (task_init task_head (lin q) bottom junk)))
   (stage_ (chars "Initialising default TTYs..            ") (succeeds (on_core (zoom core_ttys with_ttys tty_init)))
   (info_ last_message ;;
    on_vfs (mount_root_testing testfs_type testfs_name) ;;
    on_sched (task_create task_head (lin q) isr_exit (chars "shell") TASK_KERNEL shell_init TASK_PRIORITY_MIN TASK_STATE_WAITING) ;;
    ret 0)%st).

Lemma arch_init_parts magic :
  arch_init KS KE bottom mboot info literal buffers file cpu_name (lin q) task_head cpu0 idt_addr testfs_type testfs_name isr isr_exit timer_isr keyboard_isr
    shell_init cpuid cr4 junk magic = console_part (memory_part magic (processor_part service_part)).
Proof using. reflexivity. Qed.

(** The message of stage [i]. *)
Lemma nth_message i l : messages !! i = Some l -> l ∈ messages.
Proof using. apply list_elem_of_lookup_2. Qed.

Definition stages (i : nat) : list Z := concat ((fun l => l ++ OK_STR) <$> take i messages).

Lemma stages_S i l : messages !! i = Some l -> stages i ++ l ++ OK_STR = stages (S i).
Proof using. intros E. unfold stages. rewrite (take_S_r _ _ _ E), fmap_app, concat_app. cbn [fmap list_fmap map concat]. by rewrite app_nil_r. Qed.

(** Stage [i], when its step leaves the console alone. *)
Lemma next_stage c0 t0 i l step p c x x' : texts_ok literal buffers file cpu_name file_name c0 -> messages !! i = Some l -> printed_ c0 t0 (stages i) p c ->
  (forall c, step (Kernel c x) = Some (true, Kernel c x')) ->
  exists c', (forall rest, stage_ l step rest (Kernel c x) = rest (Kernel c' x')) /\ printed_ c0 t0 (stages (S i)) p c'.
Proof using. intros HT E HP Hs. rewrite <- (stages_S i l E). eapply stage_core; [exact HT|by eapply nth_message|exact HP|exact Hs]. Qed.

(** *** Memory *)

(** The state after the memory stages. *)
Definition memory_up (lv : list cpuid_leaf) (bm : bootmem) (w : gmap Z Z) (b : buddy) (x : core) : core :=
  let h := co_hw x in
  Core (Hardware lv (q * 4096) (hw_if h) (hw_cpu_id h) (hw_desc h) (hw_self h) (hw_idt h) (hw_idtr h) (hw_handlers h) (hw_events h)) bm
    (with_tmem (Heap w slab_caches b) (co_sched x)) (co_tty_nodes x) (co_tty_head x) (co_fs_types x) (co_fs_nodes x) (co_fs_lock x) (co_root_sb x).

Lemma memory_runs k n es e leaf0 leaf1 x type : map_ready k (16 * (n + 1)) es e -> machine_ready leaf0 leaf1 -> core_ready x type ->
  exists bm1 bm2 w bm3 b3 bm4 b4, multiboot_parse KS KE mboot MULTIBOOT_BOOTLOADER_MAGIC info bootmem_init = Some (1, bm1) /\
    paging_setup_kernel_pgd true (negb (x86_paging_pge_enabled leaf1 cr4 =? 0)) (lin q) (bm1, kmem (core_heap x)) = Some (tt, (bm2, w)) /\
    buddy_init KS (highest_pfn bm2) (bm2, source (core_heap x)) = Some (E_SUCCESS, (bm3, b3)) /\
    bootmem_mark_free (bm3, b3) = Some (E_SUCCESS, (bm4, b4)) /\ kernel_half w (lin q) /\
    heap_rep (Heap w slab_caches b4) (replicate 13 []) ∅ /\ roomy (image KS KE) n b4 /\ clear_of (image KS KE) ∅ /\ kernel_directory (Heap w slab_caches b4) q.
Proof using.
  intros [M1 M2 M3 M4 M5 M6 M7 [M8 M9]] [_ _ _ _ _ [[Q1 Q2] Q3] _] [_ _ Hu _ _ _ _].
  pose proof (PAGE_ALIGN_word KE) as [_ [u Hk]].
  destruct (init_memory_spec KS KE q (negb (x86_paging_pge_enabled leaf1 cr4 =? 0)) k (16 * (n + 1)) mboot info es e (kmem (core_heap x)) (source (core_heap x)) 0
    M1 M2 M3 M4 M5 M6 M7 M8 M9 Q3 Q1 ltac:(lia)) as (bm1 & bm2 & w & bm4 & b4 & F & E1 & E2 & E3 & Hh & Hw & Hkw & HA & Epc & _ & Hoff & a & Ha & Hfr).
  unfold boot_pages in E3. cbn [fst] in E3. apply bind_inv in E3 as (r & [bm3 b3] & E4 & E5).
  assert (r = E_SUCCESS) as -> by by apply buddy_init_code in E4.
  destruct (memory_ready KS KE q n w b4 F a e HA) as (R1 & R2 & R3 & R4); [|exact Hoff|exact Ha| | |exact Hkw|].
  - rewrite Epc. apply Z.div_le_upper_bound; [lia|]. pose proof (en_linear _ _ _ _ M2). lia.
  - intros y Hy. apply Hfr. lia.
  - intros i Hi. rewrite Hw by done. by apply Hu.
  - by exists bm1, bm2, w, bm3, b3, bm4, b4.
Qed.

Lemma console_part_run x c t b1 b2 ins o i d : texts_ok literal buffers file cpu_name file_name c ->
  screen_ok t (screen c) -> port c = Serial (b1 :: b2 :: ins) o i d -> device_serves (length banner) ins ->
  exists c' left o', (forall rest, console_part rest (Kernel c x) = rest (Kernel c' x)) /\
    printed_ c (cleared (t_fg t)) (stages 1) (Serial left (o' ++ (io_port_out IO_PORT_SERIAL_COM2 <$> banner)) true IO_PORT_SERIAL_COM2) c'.
Proof using.
  intros HT Hs Hp Hd. destruct (clear_run c x t Hs) as (c1 & c2 & R1 & R2 & Et & Ep & Hs2).
  assert (P0 : printed_ c (cleared (t_fg t)) (stages 0) (Serial (b1 :: b2 :: ins) o i d) c2) by (split; [intros y _ _; by rewrite Et|done|by rewrite Ep]).
  destruct (serial_run buffers cpu_name c (cleared (t_fg t)) (stages 0 ++ chars "Initialising serial ports..            ") b1 b2 ins o i d x) as (o' & Hser).
  destruct (stage_run literal buffers file cpu_name file_name c (cleared (t_fg t)) HT _ _ _ _ _ c2 _ _ (nth_message 0 _ eq_refl) P0 Hser) as (c3 & R3 & P3).
  rewrite (stages_S 0 _ eq_refl) in P3.
  destruct (banner_run literal buffers file cpu_name file_name c (cleared (t_fg t)) _ ins o' c3 x HT Hd P3) as (left & c4 & R4 & R5 & P4).
  exists c4, left, o'. split; [intros rest|exact P4]. unfold console_part. st_step R1. st_step R2. rewrite R3. st_step R4. by st_step R5.
Qed.

Lemma memory_part_run k n es e leaf0 leaf1 x type c0 t0 p c :
  map_ready k (16 * (n + 1)) es e -> machine_ready leaf0 leaf1 -> core_ready x type -> texts_ok literal buffers file cpu_name file_name c0 ->
  printed_ c0 t0 (stages 1) p c ->
  exists c' lv bm w b, (forall rest, memory_part MULTIBOOT_BOOTLOADER_MAGIC rest (Kernel c x) = rest (Kernel c' (memory_up lv bm w b x))) /\
    printed_ c0 t0 (stages 6) p c' /\
    kernel_half w (lin q) /\ heap_rep (Heap w slab_caches b) (replicate 13 []) ∅ /\ roomy (image KS KE) n b /\ clear_of (image KS KE) ∅ /\
    kernel_directory (Heap w slab_caches b) q.
Proof using.
  intros HM HA HC HT P4. destruct (memory_runs k n es e leaf0 leaf1 x type HM HA HC) as (bm1 & bm2 & w & bm3 & b3 & bm4 & b4 & E1 & E2 & E3 & E4 & HF).
  destruct x as [h bm0 s tn th ft fn fl rs]. destruct HA as [A0 A1 A2 _ _ [_ A5] _], HC as [C1 C2 _ _ _ _ (_ & _ & C3)]. cbn in C1, C3. subst bm0.
  destruct (next_stage _ _ 1 _ _ _ c _ _ HT eq_refl P4 (fun c => parse_run KS KE mboot _ info c (Core h bootmem_init s tn th ft fn fl rs) bm1 E1)) as (c5 & R6 & P5).
  destruct (stage_run literal buffers file cpu_name file_name c0 t0 HT _ _ _ _ _ c5 _ _ (nth_message 2 _ eq_refl) P5
    (cpuid_run literal buffers file cpu_name file_name c0 _ cpuid leaf0 _ _ h bm1 s tn th ft fn fl rs HT A0)) as (c6 & R7 & P6).
  rewrite (stages_S 2 _ eq_refl) in P6. set (lv := (fun '(i, old) => default old (cpuid i)) <$> zip [0; 1; 2; 3] (hw_leaves h)) in *.
  set (h' := Hardware lv (hw_cr3 h) (hw_if h) (hw_cpu_id h) (hw_desc h) (hw_self h) (hw_idt h) (hw_idtr h) (hw_handlers h) (hw_events h)) in *.
  assert (L1 : lv !! 1%nat = Some leaf1) by (unfold lv; destruct (hw_leaves h) as [|l0 [|l1 [|l2 l]]]; [done..| |]; cbn; by rewrite A1).
  destruct (next_stage _ _ 3 _ _ _ c6 _ _ HT eq_refl P6 (fun c => paging_run q cr4 leaf1 c (Core h' bm1 s tn th ft fn fl rs) bm2 w L1 A2 A5 E2)) as (c7 & R8 & P7).
  set (x3 := paged (q * 4096) bm2 w (Core h' bm1 s tn th ft fn fl rs)) in *.
  destruct (next_stage _ _ 4 _ _ _ c7 _ _ HT eq_refl P7 (fun c => buddy_run KS c x3 bm3 b3 E3)) as (c8 & R9 & P8).
  destruct (next_stage _ _ 5 _ _ _ c8 _ _ HT eq_refl P8 (fun c => free_run c (repaged bm3 b3 x3) bm4 b4 E4)) as (c9 & R10 & P9).
  exists c9, lv, bm4, w, b4. split; [intros rest|split; [exact P9|exact HF]].
  unfold memory_part. rewrite R6, R7, R8, R9, R10. unfold memory_up. rewrite <- C2. reflexivity.
Qed.

(** *** The processor *)

(** The state after the processor's stages. *)
Definition processor_done (g : list idt_gate) (x : core) : core :=
  let h := co_hw x in
  let y := tabled cpu0 x in
  with_hw (Hardware (hw_leaves h) (hw_cr3 h) true (hw_cpu_id (co_hw y)) (hw_desc (co_hw y)) (hw_self (co_hw y)) g (idt_addr, 2047)
    (<[33%nat := keyboard_isr]> (<[32%nat := timer_isr]> (hw_handlers h))) (hw_events h ++ pic_init PIC_MASTER_OFFSET PIC_SLAVE_OFFSET ++ timer_setup)) y.

Lemma processor_part_run c0 t0 p c x : texts_ok literal buffers file cpu_name file_name c0 -> printed_ c0 t0 (stages 6) p c ->
  length (hw_idt (co_hw x)) = 256%nat -> length (hw_handlers (co_hw x)) = 256%nat -> (forall i, 0 <= isr i < 4294967296) ->
  exists c' g, (forall rest, processor_part rest (Kernel c x) = rest (Kernel c' (processor_done g x))) /\ printed_ c0 t0 (stages 13) p c' /\
    forall i, 0 <= i < 48 \/ i = 64 -> exists t, g !! Z.to_nat i = Some t /\ gate_target t = isr i /\ present t = 1.
Proof using.
  intros HT P0 Hi Hl Hisr. destruct (idt_init_correct isr (hw_idt (co_hw x)) Hi Hisr) as (g & Eg & _ & Hg & _).
  destruct (next_stage _ _ 6 _ _ _ c x _ HT eq_refl P0 (fun c => cpu_run cpu0 c x)) as (c1 & R1 & P1). set (x1 := tabled cpu0 x) in *.
  destruct (next_stage _ _ 7 _ _ _ c1 x1 _ HT eq_refl P1 (fun c => proj1 (idt_run isr idt_addr c x1 g Eg))) as (c2 & R2 & P2). set (x2 := with_hw (with_idt g (co_hw x1)) x1) in *.
  destruct (next_stage _ _ 8 (chars "Loading IDT..                          ") (succeeds (load_idt idt_addr)) _ c2 x2
    (with_hw (with_idtr (idt_addr, 2047) (co_hw x2)) x2) HT eq_refl P2 (fun c => eq_refl)) as (c3 & R3 & P3).
  set (x3 := with_hw (with_idtr (idt_addr, 2047) (co_hw x2)) x2) in *.
  destruct (next_stage _ _ 9 (chars "Configuring legacy PIC..               ") (succeeds start_pic) _ c3 x3
    (with_hw (with_handlers (hw_handlers (co_hw x3)) (pic_init PIC_MASTER_OFFSET PIC_SLAVE_OFFSET) (co_hw x3)) x3) HT eq_refl P3 (fun c => eq_refl)) as (c4 & R4 & P4).
  set (x4 := with_hw (with_handlers _ (pic_init _ _) _) _) in *.
  destruct (next_stage _ _ 10 _ _ _ c4 x4 _ HT eq_refl P4 (fun c => timer_run timer_isr c x4 Hl)) as (c5 & R5 & P5). set (x5 := with_hw (with_handlers _ timer_setup _) _) in *.
  assert (Hl5 : length (hw_handlers (co_hw x5)) = 256%nat) by (cbn; by rewrite length_insert).
  destruct (next_stage _ _ 11 _ _ _ c5 x5 _ HT eq_refl P5 (fun c => keyboard_run keyboard_isr c x5 Hl5)) as (c6 & R6 & P6).
  set (x6 := with_hw (with_handlers _ [] _) _) in *.
  assert (Hin : chars "Enabling interrupts..                  " ∈ all_messages)
    by (apply in_all; left; apply (nth_message 12); reflexivity).
  destruct (info_spec literal buffers file cpu_name file_name c0 t0 HT _ _ p c6 x6 Hin P6) as (c7 & R7 & P7).
  destruct (info_spec literal buffers file cpu_name file_name c0 t0 HT OK_STR _ p c7 (processor_done g x)
    ok_message P7) as (c8 & R8 & P8).
  rewrite <- app_assoc, (stages_S 12 _ eq_refl) in P8.
  exists c8, g. split_and!; [intros rest|exact P8|].
  - unfold processor_part. rewrite R1, R2, R3, R4, R5, R6. st_step R7.
    assert (R9 : enable_hardware_interrupts (Kernel c7 x6) = Some (tt, Kernel c7 (processor_done g x))).
    { unfold enable_hardware_interrupts, on_hw, on_core, zoom, modify. cbn. by rewrite app_nil_r, <- app_assoc. }
    st_step R9. by st_step R8.
  - intros i Hir. destruct (Hg i Hir) as (t & E & Ht & Hp & _). by exists t.
Qed.

(** *** The services, and all of it *)

Lemma service_part_run n c0 t0 p c x type G A :
  unstarted KS KE q testfs_type type (11 + n) x G A -> texts_ok literal buffers file cpu_name file_name c0 -> printed_ c0 t0 (stages 13) p c ->
  image KS KE q /\ 0 <= q < LINEAR_FRAMES -> (exists f, image KS KE f /\ in_frame f task_head) ->
  static buffers cpu_name (text c0) testfs_name (chars "testfs") -> static buffers cpu_name (text c0) (fs_name type) (chars "testfs") ->
  exists idle shell tty c' x' G' A', service_part (Kernel c x) = Some (0, Kernel c' x') /\ printed_ c0 t0 boot_text p c' /\
    system_up n x' (text c') (last_task_id (co_sched x)) G' A' idle shell tty /\ kernel_half (kmem (core_heap x')) (lin q) /\
    co_hw x' = co_hw x.
Proof using.
  intros HU HT P0 Hq Hh S1 S2. pose proof HU as [_ _ _ _ _ [_ Hid] _ HF].
  destruct (services_run KS KE task_head q bottom testfs_type junk type Hq Hh n x G A HU) as (idle & v & tty & s1 & t1 & G1 & A1 & E1 & E2 & HS & Hr & (I1 & I2 & I3 & I4) & HY & Hk).
  destruct (next_stage _ _ 13 _ _ _ c x _ HT eq_refl P0 (fun c => tasks_run _ s1 c x E1)) as (c1 & R1 & P1).
  destruct (next_stage _ _ 14 _ _ _ c1 _ _ HT eq_refl P1 (fun c => ttys_run _ t1 c (with_sched s1 x) E2)) as (c2 & R2 & P2).
  set (x2 := with_ttys t1 (with_sched s1 x)) in *.
  destruct (info_spec literal buffers file cpu_name file_name c0 t0 HT last_message _ p c2 x2 last_in P2) as (c3 & R3 & P3).
  destruct (static_kept _ _ _ _ _ _ (pr_text _ _ _ _ _ _ _ P3) S1) as (N1 & _). destruct (static_kept _ _ _ _ _ _ (pr_text _ _ _ _ _ _ _ P3) S2) as (N2 & _).
  destruct (shell_run KS KE task_head q isr_exit shell_init testfs_type testfs_name type Hq Hh n (text c3) x2 idle tty G1 A1 HS Hr)
    as (shell & v1 & s2 & G2 & A2 & E3 & E4 & HS2 & Hr2 & HSh & HY2 & HRt & Hk2 & (Hne & J1 & J2 & J3 & J4)); [rewrite I4; lia|exact HY|exact Hk|exact HF|exact N1|exact N2|].
  exists idle, shell, tty, c3, (with_sched s2 (with_vfs v1 x2)), G2, A2. split; [|split; [exact P3|split; [|split; [exact Hk2|reflexivity]]]].
  - unfold service_part. rewrite R1, R2. st_step R3. st_step (vfs_run _ v1 c3 x2 E3). st_step (sched_run _ shell s2 c3 (with_vfs v1 x2) E4). reflexivity.
  - rewrite I4 in HSh, J4. split; try assumption. split; [exists v; by rewrite J1|]. by rewrite J2, J3.
Qed.

(** All the stages, one after the other. *)
Lemma arch_init_spec (k n : nat) (es : list multiboot_mmap_entry) (e : multiboot_mmap_entry) (leaf0 leaf1 : cpuid_leaf)
    (x : core) (type : file_system_type) (c : console) (t : term) (b1 b2 : Z) (ins : list Z) (o : list event) (i : bool) (d : Z) :
  map_ready k (16 * (11 + n + 1)) es e -> machine_ready leaf0 leaf1 -> core_ready x type -> texts_ok literal buffers file cpu_name file_name c ->
  static buffers cpu_name (text c) testfs_name (chars "testfs") -> static buffers cpu_name (text c) (fs_name type) (chars "testfs") ->
  screen_ok t (screen c) -> port c = Serial (b1 :: b2 :: ins) o i d -> device_serves (length banner) ins ->
  exists idle shell tty c' x' G A, arch_init KS KE bottom mboot info literal buffers file cpu_name (lin q) task_head cpu0 idt_addr testfs_type testfs_name
      isr isr_exit timer_isr keyboard_isr shell_init cpuid cr4 junk MULTIBOOT_BOOTLOADER_MAGIC (Kernel c x) = Some (0, Kernel c' x') /\
    screen_ok (foldl term_char (cleared (t_fg t)) boot_text) (screen c') /\
    (exists o', port_outputs (port c') = o' ++ (io_port_out IO_PORT_SERIAL_COM2 <$> banner)) /\
    processor_up (hw_events (co_hw x)) x' /\
    system_up n x' (text c') (last_task_id (co_sched x)) G A idle shell tty.
Proof using.
  intros HM HA HC HT S1 S2 Hs Hp Hd.
  destruct (console_part_run x c t b1 b2 ins o i d HT Hs Hp Hd) as (c0 & left & o' & R0 & P0).
  destruct (memory_part_run k (11 + n) es e leaf0 leaf1 x type c _ _ c0 HM HA HC HT P0) as (c1 & lv & bm & w & b & R1 & P1 & Hk & HR & Hr & HK & HD).
  destruct HA as [_ _ _ A4 [A5 A6] [A7 A8] A9], HC as [C1 C2 C3 [C4 C4'] C5 C6 (C7 & C8 & _)]. set (x1 := memory_up lv bm w b x) in *.
  destruct (processor_part_run c (cleared (t_fg t)) _ c1 x1 HT P1 C7 C8 A4) as (c2 & g & R2 & P2 & Hg). set (x2 := processor_done g x1) in *.
  assert (HU : unstarted KS KE q testfs_type type (11 + n) x2 (replicate 13 []) ∅) by by split.
  destruct (service_part_run n c _ _ c2 x2 type _ _ HU HT P2 ltac:(split; [exact A7|lia]) A9 S1 S2) as (idle & shell & tty & c3 & x3 & G & A & R3 & P3 & HSy & Hk3 & Ehw).
  exists idle, shell, tty, c3, x3, G, A. rewrite arch_init_parts, R0, R1, R2. split; [exact R3|]. destruct P3 as [_ P4 P5]. split; [exact P4|].
  split; [exists o'; by rewrite P5|]. split; [|exact HSy].
  split; rewrite ?Ehw; [done|done|split; [done|exact Hg]| |reflexivity|].
  - cbn. rewrite list_lookup_insert_ne by done. rewrite !list_lookup_insert_eq; [done|rewrite ?length_insert; lia..].
  - unfold core_cpu. rewrite Ehw. by apply get_local_spec.
Qed.

(** C6: starting the kernel.  On a machine with one available memory region around
    the kernel and enough memory behind it, with 4 MB pages enabled and a serial
    device that becomes ready, [arch_init] goes through all its stages and returns
    0.  The screen shows the message of every stage and its success, the banner has
    gone to the serial port, and the parts fit together: the kernel's directory is
    loaded and maps the kernel's addresses linearly, every interrupt vector leads to
    its stub, timer and keyboard have their handlers and GS leads to the processor's
    structure; the idle task runs, the shell waits with the stack and the address
    space its first switch needs, the default terminal is listed, the root super
    block is mounted, and the heap and the page allocator are at rest with room for
    [n] more requests. *)
Theorem arch_init_correct (k n : nat) (es : list multiboot_mmap_entry) (e : multiboot_mmap_entry) (leaf0 leaf1 : cpuid_leaf)
    (x : core) (type : file_system_type) (c : console) (t : term) (b1 b2 : Z) (ins : list Z) (o : list event) (i : bool) (d : Z) :
  map_ready k (16 * (11 + n + 1)) es e -> machine_ready leaf0 leaf1 -> core_ready x type -> texts_ok literal buffers file cpu_name file_name c ->
  static buffers cpu_name (text c) testfs_name (chars "testfs") -> static buffers cpu_name (text c) (fs_name type) (chars "testfs") ->
  screen_ok t (screen c) -> port c = Serial (b1 :: b2 :: ins) o i d -> device_serves (length banner) ins ->
  exists idle shell tty c' x' G A, arch_init KS KE bottom mboot info literal buffers file cpu_name (lin q) task_head cpu0 idt_addr testfs_type testfs_name
      isr isr_exit timer_isr keyboard_isr shell_init cpuid cr4 junk MULTIBOOT_BOOTLOADER_MAGIC (Kernel c x) = Some (0, Kernel c' x') /\
    screen_ok (foldl term_char (cleared (t_fg t)) boot_text) (screen c') /\
    (exists o', port_outputs (port c') = o' ++ (io_port_out IO_PORT_SERIAL_COM2 <$> banner)) /\
    processor_up (hw_events (co_hw x)) x' /\
    system_up n x' (text c') (last_task_id (co_sched x)) G A idle shell tty.
Proof using.
  intros HM HA HC HT S1 S2 Hs Hp Hd. exact (arch_init_spec k n es e leaf0 leaf1 x type c t b1 b2 ins o i d HM HA HC HT S1 S2 Hs Hp Hd).
Qed.

(** C37: a kernel that was not started by a Multiboot loader stops early.  With any
    other magic number, [arch_init] reports the failure on the screen and returns
    [E_ERROR] before anything but the console has changed: memory, the descriptor
    tables, the tasks and the interrupt flag are as they were. *)
Theorem arch_init_rejects (magic : Z) (x : core) (c : console) (t : term) (b1 b2 : Z) (ins : list Z) (o : list event) (i : bool) (d : Z) :
  magic <> MULTIBOOT_BOOTLOADER_MAGIC -> texts_ok literal buffers file cpu_name file_name c -> screen_ok t (screen c) ->
  port c = Serial (b1 :: b2 :: ins) o i d -> device_serves (length banner) ins ->
  exists c', arch_init KS KE bottom mboot info literal buffers file cpu_name (lin q) task_head cpu0 idt_addr testfs_type testfs_name
      isr isr_exit timer_isr keyboard_isr shell_init cpuid cr4 junk magic (Kernel c x) = Some (E_ERROR, Kernel c' x) /\
    screen_ok (foldl term_char (cleared (t_fg t)) (chars "Initialising serial ports..            " ++ OK_STR ++ chars "Parsing Multiboot structs..            " ++ FAIL_STR))
      (screen c').
Proof using.
  intros Hm HT Hs Hp Hd. destruct (console_part_run x c t b1 b2 ins o i d HT Hs Hp Hd) as (c0 & left & o' & R0 & P0).
  destruct (info_spec literal buffers file cpu_name file_name c _ HT _ _ _ c0 x (in_all _ (or_introl (nth_message 1 _ eq_refl))) P0) as (c1 & R1 & P1).
  destruct (info_spec literal buffers file cpu_name file_name c _ HT FAIL_STR _ _ c1 x (list_elem_of_here _ _) P1) as (c2 & R2 & P2).
  exists c2. rewrite arch_init_parts, R0. split.
  - unfold memory_part, stage. st_step R1.
    assert (Ep : (r <- on_core (zoom co_bootmem with_bootmem (multiboot_parse KS KE mboot magic info)) ;; ret (negb (r =? 0)))%st (Kernel c1 x) = Some (false, Kernel c1 x)).
    { unfold on_core, zoom, bind, multiboot_parse. cbn [k_core k_console]. destruct (Z.eqb_spec magic MULTIBOOT_BOOTLOADER_MAGIC); [done|]. by destruct x. }
    st_step Ep. cbn [negb]. st_step R2. reflexivity.
  - destruct P2 as [_ P2 _]. exact P2.
Qed.

End Start.

(** ** An example machine: 32 MB, the kernel at 1 MB *)

(** The texts, 512 bytes apart from 20000 on; the names of the file system. *)
Definition example_texts : list (list Z) := [chars "[%s] %s"; banner; vendor_format] ++ all_messages.

Definition boot_literal (l : list Z) : Z :=
  match list_find (fun k => k = l) example_texts with Some (i, _) => 20000 + 512 * Z.of_nat i | None => 0 end.

Definition boot_strings : bytes :=
  foldr (fun l m => at_address (boot_literal l) l ∪ m) ∅ example_texts ∪
  (at_address 1000 (chars "init.c") ∪ (at_address 1100 (chars "testfs") ∪ at_address 1200 (chars "testfs"))).

Definition boot_console : console := Console boot_strings (Vga dots_video 0 24 7 []) (Serial (0xAE :: 0xAE :: replicate 400 0x20) [] false 0).

Definition example_tables : cpu_tables := CpuTables ∅ 0 0 0 0.

Definition boot_core : core :=
  Core (Hardware (replicate 4 (CpuidLeaf 0 0 0 0)) 0 false 0 example_tables 0 (replicate 256 (IdtGate 0 0 0 0 0 0 0 0)) (0, 0) (replicate 256 0) [])
    bootmem_init (Sched ∅ ∅ false 1 0 false 0 (Heap (zero_words 768 (lin 256) ∅) slab_caches PageClaims.blank))
    {[ TtyHead := LNode None None ]} 0 {[ 5000 := FsType 1100 0 testfs_alloc ]}
    {[ FsHead := LNode (Some FsHead) (Some FsHead); FsEntry 5000 := LNode None None ]} false 0.

Definition boot_cpuid (i : Z) : option cpuid_leaf := 
  if i =? 0 then Some (CpuidLeaf 1 0x68747541 0x444D4163 0x69746E65) else if i =? 1 then Some (CpuidLeaf 0 0 0 0x2008) else None.

Definition boot_buffers : log_buffers := LogBuffers 10000 11000 12000 13000 14000.

(** A string, and its place outside the buffers below 15000 and the array at 15000. *)
Definition staticb m (a : Z) l : bool :=
  strb m a l && ((a + Z.of_nat (length l) + 1 <=? 10000) || (16000 <=? a)).

Lemma staticb_spec m a l : staticb m a l = true -> static boot_buffers 15000 m a l.
Proof.
  intros [H1%strb_spec H2]%andb_true_iff. split; [done|]. assert (a + Z.of_nat (length l) + 1 <= 10000 \/ 16000 <= a) by bool_cases.
  unfold off_buffers, apart. cbn. lia.
Qed.

Lemma boot_texts_ok : texts_ok boot_literal boot_buffers 1000 15000 (chars "init.c") boot_console.
Proof.
  split.
  - unfold buffers_apart, apart. cbn. lia.
  - split; [|cbn; lia]. apply staticb_spec. vm_compute. reflexivity.
  - apply Forall_forall. intros l Hl. apply staticb_spec.
    assert (HF : forallb (fun l => staticb boot_strings (boot_literal l) l) example_texts = true) by (vm_compute; reflexivity).
    rewrite forallb_forall in HF. by apply HF, list_elem_of_In.
Qed.

Lemma device_ready n m : (n <= m)%nat -> device_serves n (replicate m 0x20).
Proof.
  revert m. induction n as [|n IH]; intros m Hm; [done|]. destruct m as [|m]; [lia|]. exists [], 0x20, (replicate m 0x20).
  split_and!; [done|constructor|reflexivity|]. apply IH. lia.
Qed.

Lemma boot_screen : screen_ok (Term dots 0 24 7) (screen boot_console).
Proof. split; [split; [exact dots_shown|]; repeat split; reflexivity|]. unfold term_ok. cbn. lia. Qed.

Lemma boot_core_ready : core_ready 256 5000 boot_core (FsType 1100 0 testfs_alloc).
Proof.
  split.
  - reflexivity.
  - reflexivity.
  - intros i Hi. cbn [core_heap boot_core co_sched tmem kmem]. apply zero_words_in. lia.
  - split; [reflexivity|cbn; lia].
  - eexists. apply lookup_singleton_eq.
  - split_and!; try reflexivity; [|by eexists|done]. split; [apply NoDup_singleton|]. split_and!; reflexivity.
  - split_and!; reflexivity.
Qed.

(** The handlers' stubs of the example machine. *)
Definition boot_isr (i : Z) : Z := 0xC0100000 + 16 * u8 i.

Lemma boot_map_ready (n : nat) : (n <= 20)%nat -> map_ready 0x100000 0x107800 example_memory example_info 48 (16 * (11 + n + 1)) example_map (MmapEntry 20 0x100000 0x1F00000 1).
Proof.
  intros Hn.
  split.
  - constructor; vm_compute; try split; reflexivity.
  - constructor; [vm_compute; discriminate|exists 128; reflexivity|vm_compute; discriminate|].
    change (PAGE_ALIGN 0x107800) with 0x108000. change (entry_end _) with 0x2000000. lia.
  - lia.
  - vm_compute. reflexivity.
  - reflexivity.
  - exact example_map_at.
  - reflexivity.
  - cbn. lia.
Qed.

Lemma boot_machine_ready : machine_ready 0x100000 0x107800 256 (lin 257) 0xC0102000 boot_isr boot_cpuid 0x90
  (CpuidLeaf 1 0x68747541 0x444D4163 0x69746E65) (CpuidLeaf 0 0 0 0x2008).
Proof.
  split; try reflexivity.
  - intros i. unfold boot_isr. pose proof (u8_range i). lia.
  - unfold SIZEOF_CPU_INFO. lia.
  - split; [split; vm_compute; [discriminate|reflexivity]|unfold LINEAR_FRAMES; lia].
  - exists 257. split; [split; vm_compute; [discriminate|reflexivity]|]. unfold in_frame. lia.
Qed.

Lemma boot_name : static boot_buffers 15000 (text boot_console) 1200 (chars "testfs").
Proof. apply staticb_spec. vm_compute. reflexivity. Qed.

Lemma boot_type_name : static boot_buffers 15000 (text boot_console) 1100 (chars "testfs").
Proof. apply staticb_spec. vm_compute. reflexivity. Qed.

Lemma boot_device : device_serves (length banner) (replicate 400 0x20).
Proof. apply device_ready. apply Nat.leb_le. vm_compute. reflexivity. Qed.

(** What start-up makes of the example machine. *)
Lemma boot_system (n : nat) : (n <= 20)%nat -> exists idle shell tty m x G A,
  system_up 0x100000 0x107800 0x106000 256 (lin 257) 5000 0xC0104000 0xC0104300 blank_task n x m 1 G A idle shell tty.
Proof.
  intros Hn.
  destruct (arch_init_spec 0x100000 0x107800 0x106000 example_memory example_info boot_literal boot_buffers 1000 15000 (chars "init.c")
    256 (lin 257) 0xC0102000 0xC0103000 5000 1200 boot_isr 0xC0104000 0xC0104100 0xC0104200 0xC0104300 boot_cpuid 0x90 blank_task
    48 n example_map _ _ _ boot_core (FsType 1100 0 testfs_alloc) boot_console (Term dots 0 24 7) 0xAE 0xAE (replicate 400 0x20) [] false 0
    (boot_map_ready n Hn) boot_machine_ready boot_core_ready boot_texts_ok boot_name boot_type_name boot_screen eq_refl boot_device)
    as (idle & shell & tty & c' & x' & G & A & _ & _ & _ & _ & HS).
  by exists idle, shell, tty, (text c'), x', G, A.
Qed.

Lemma arch_init_correct_witness : exists idle shell tty c' x' G A,
  arch_init 0x100000 0x107800 0x106000 example_memory example_info boot_literal boot_buffers 1000 15000 (lin 256) (lin 257) 0xC0102000 0xC0103000 5000 1200
    boot_isr 0xC0104000 0xC0104100 0xC0104200 0xC0104300 boot_cpuid 0x90 blank_task MULTIBOOT_BOOTLOADER_MAGIC
    (Kernel boot_console boot_core) = Some (0, Kernel c' x') /\
  system_up 0x100000 0x107800 0x106000 256 (lin 257) 5000 0xC0104000 0xC0104300 blank_task 0 x' (text c') 1 G A idle shell tty.
Proof.
  destruct (arch_init_correct 0x100000 0x107800 0x106000 example_memory example_info boot_literal boot_buffers 1000 15000 (chars "init.c")
    256 (lin 257) 0xC0102000 0xC0103000 5000 1200 boot_isr 0xC0104000 0xC0104100 0xC0104200 0xC0104300 boot_cpuid 0x90 blank_task
    48 0 example_map _ _ _ boot_core (FsType 1100 0 testfs_alloc) boot_console (Term dots 0 24 7) 0xAE 0xAE (replicate 400 0x20) [] false 0
    (boot_map_ready 0 ltac:(lia)) boot_machine_ready boot_core_ready boot_texts_ok boot_name boot_type_name boot_screen eq_refl boot_device)
    as (idle & shell & tty & c' & x' & G & A & E & _ & _ & _ & HS).
  exists idle, shell, tty, c', x', G, A. split; [exact E|exact HS].
Defined.

Lemma arch_init_rejects_witness : exists c',
  arch_init 0x100000 0x107800 0x106000 example_memory example_info boot_literal boot_buffers 1000 15000 (lin 256) (lin 257) 0xC0102000 0xC0103000 5000 1200
    boot_isr 0xC0104000 0xC0104100 0xC0104200 0xC0104300 boot_cpuid 0x90 blank_task 0x1BADB002
    (Kernel boot_console boot_core) = Some (E_ERROR, Kernel c' boot_core).
Proof.
  destruct (arch_init_rejects 0x100000 0x107800 0x106000 example_memory example_info boot_literal boot_buffers 1000 15000 (chars "init.c")
    256 (lin 257) 0xC0102000 0xC0103000 5000 1200 boot_isr 0xC0104000 0xC0104100 0xC0104200 0xC0104300 boot_cpuid 0x90 blank_task
    0x1BADB002 boot_core boot_console (Term dots 0 24 7) 0xAE 0xAE (replicate 400 0x20) [] false 0) as (c' & E & _).
  - discriminate.
  - exact boot_texts_ok.
  - exact boot_screen.
  - reflexivity.
  - exact boot_device.
  - exists c'. exact E.
Defined.
