(* ===== verification/FirstTick.v ===== *)
(** * From the end of start-up to the shell

    The state [arch_init] leaves behind, taken by the first timer tick: the
    scheduler chooses the shell, and the switch to it enters its first
    instruction.  The theorem joins what is proved about start-up, the scheduler
    and the assembly of the context switch. *)

From stdpp Require Import base numbers list gmap.
From Stdlib Require Import ZArith Lia.
From S2P Require Import Prelude LinkedList PageDefs Blocks Palloc PageSource PageClaims Slab SlabInv SlabSpec HeapClaims Ptable HeapClient PtableSpec HeapGrow VmSpec Tty Vfs VfsSpec Task TaskSpec TaskCreate Interrupts Cpu ContextSwitch ContextSwitchSpec ArchInit ArchInitSpec.

#[local] Open Scope Z_scope.

Section Tick.
  Context (KS KE bottom q task_head testfs_type isr_exit shell_init : Z) (junk : task).

#[local] Instance tick_source : PageSource buddy := buddy_source KS KE.

  Implicit Types (x : core) (G : list (list (Z * list Z))) (A : gset (Z * Z)).

(** The words of the kernel image, the boot stack among them. *)
Definition in_image (a : Z) : Prop := exists f, image KS KE f /\ in_frame f a.

Lemma image_clear A b a : clear_of (image KS KE) A -> b ∈ A -> in_block b a -> ~ in_image a.
Proof using.
  intros HK Hb (y & Hy & Hya)%in_block_frame (f & Kf & Hf). assert (y = f) as -> by (unfold in_frame, lin in *; lia). by apply (HK b f).
Qed.

(** The two tasks of a switch between different tasks. *)
Lemma switched_pair cur t : cur <> t -> (forall y, switched_task cur t t y = set_state TASK_STATE_RUNNING y) /\
  (forall y, tstate y = TASK_STATE_RUNNING -> switched_task cur t cur y = set_state TASK_STATE_WAITING (set_ticks (u32 (ticks y + 1)) y)).
Proof using.
  intros Hne. unfold switched_task. split; intros y.
  - destruct (decide (t = cur)); [congruence|]. by destruct (decide (t = t)).
  - intros E. destruct (decide (cur = cur)); [|done]. destruct (decide (cur = t)); [done|]. cbn. by rewrite E.
Qed.

(** The tick after start-up. *)
Lemma tick_runs (n : nat) x (m : CString.bytes) (id ticks0 : Z) G A (idle shell tty : Z) :
  system_up KS KE bottom q task_head testfs_type isr_exit shell_init junk n x m id G A idle shell tty ->
  idle <> shell /\ timer_tick task_head ticks0 (co_sched x) = Some (u64 (ticks0 + 1), switched shell (co_sched x)) /\
  sched_ok task_head (switched shell (co_sched x)) [shell; idle].
Proof using.
  intros [HS _ ((v0 & Eidle) & Hcur & Hen) (v & p & d & Esh & _) _ _ _]. set (s := co_sched x) in *. pose proof HS as [HO _ _ _ _ _ _].
  assert (Hrun : first_runnable (tasks s) ([] ++ [shell] ++ [current_task s]) = Some shell) by (cbn; by rewrite Esh).
  assert (Hal : alive s ([shell] ++ current_task s :: [])).
  { rewrite Hcur. intros t [->|[->|Ht%not_elem_of_nil]%elem_of_cons]%elem_of_cons; [eexists; split; [exact Esh|done]|eexists; split; [exact Eidle|done]|done]. }
  assert (HO' : sched_ok task_head s ([shell] ++ current_task s :: [])) by (by rewrite Hcur).
  pose proof (schedule_run task_head s [shell] [] shell HO' Hen Hal Hrun) as E.
  split; [intros ->; rewrite Eidle in Esh; discriminate Esh|]. split; [unfold timer_tick; cbv zeta; by st_step E|].
  apply switched_ok; [done|set_solver|by eexists].
Qed.


End Tick.

(** The example machine of ArchInitSpec.v after start-up, with its stack in frame
    258. *)
Definition boot_registers : regfile := set_reg ESP (lin 258 + 0x800) kernel_registers.

Lemma boot_stack a : lin 258 <= a < lin 259 -> in_image 0x100000 0x107800 a.
Proof. intros Ha. exists 258. split; [split; vm_compute; [discriminate|reflexivity]|]. unfold in_frame. unfold lin in *. lia. Qed.

