(* ===== verification/FromLoader.v ===== *)
(** * From the boot loader to the shell

    The start-up assembly, the C start-up code and the first timer tick, one after
    the other on one memory: what the assembly leaves in the registers, in the
    control registers and on the stack is what [kernel_main] runs with. *)

From Stdlib Require Import String Ascii.
From stdpp Require Import base numbers list gmap.
From Stdlib Require Import ZArith Lia.
From S2P Require Import Prelude BootEntry LinkedList CString CStringSpec SprintfSpec PageDefs Bootmem BootmemSpec Blocks Palloc BuddyInv PageAlloc PageSource Boot PageClaims Slab SlabInv SlabSpec HeapClaims Ptable HeapClient PtableSpec HeapGrow Spare Tty Vfs VfsSpec VmSpec Task TaskSpec TaskCreate Multiboot MultibootSpec StartUp Interrupts InterruptClaims Cpu Console ConsoleSpec Logging LoggingSpec ArchInit ArchInitSpec FirstTick.

#[local] Open Scope Z_scope.

Section Loader.
  (** The image: the assembly's directory, the boot stack, the code. *)
  Context (KS KE page_directory bottom main : Z) (address : nat -> Z).
  Context (mboot : bytes) (info : multiboot_info).
  Context (literal : list Z -> Z) (buffers : log_buffers) (file cpu_name : Z) (file_name : list Z).
  Context (q task_head cpu0 idt_addr testfs_type testfs_name : Z).
  Context (isr : Z -> Z) (isr_exit timer_isr keyboard_isr shell_init : Z).
  Context (cpuid : Z -> option cpuid_leaf) (junk : task).
  Implicit Types (p : BootEntry.processor) (x : core).

#[local] Instance loader_pages : PageSource buddy := buddy_source KS KE.

(** The processor as the loader leaves it, at the first instruction of an image
    whose zeroed data is zero; [x] is the rest of the image. *)
Record loaded p x : Prop := Loaded {
  lo_linked : BootEntry.linked page_directory bottom address;
  lo_start : BootEntry.loc p = BootEntry.At 0;
  lo_paging : BootEntry.paging_on p = false;
  lo_magic : BootEntry.eax p = MULTIBOOT_BOOTLOADER_MAGIC;
  lo_directory : forall k, 0 <= k < 1024 -> BootEntry.phys p !! PHY_TO_VIR (page_directory + k * 4) = Some 0;
  lo_memory : kmem (core_heap x) = BootEntry.phys p;
  lo_pgd : q * 4096 + 4096 <= BootEntry.MAPPED
}.

(** The kernel's own directory shares no word with what the assembly writes. *)
Definition pgd_apart : Prop :=
  Forall (fun '(a, n) => q * 4096 + 4096 <= a \/ a + n <= q * 4096)
    [(page_directory, 4096); (BootEntry.page_table page_directory, 4096); (BootEntry.KERNEL_STACK_TOP bottom - 12, 12)].

(** A processor with 4 MiB pages, and where static data is. *)
Record equipped (leaf0 leaf1 : cpuid_leaf) : Prop := Equipped {
  eq_leaf0 : cpuid 0 = Some leaf0;
  eq_leaf1 : cpuid 1 = Some leaf1;
  eq_pse : cpuid_check_pse leaf1 = 1;
  eq_isr : forall i, 0 <= isr i < 4294967296;
  eq_cpu : 0 <= cpu0 /\ cpu0 + SIZEOF_CPU_INFO <= 4294967296;
  eq_pgd : image KS KE q /\ 0 < q < LINEAR_FRAMES;
  eq_head : exists f, image KS KE f /\ in_frame f task_head
}.

(** The state [kernel_main] is entered in: memory and CR3 are the assembly's. *)
Definition entered p x : core :=
  with_hw (with_cr3 (BootEntry.cr3 p) (co_hw x)) (with_heap (with_kmem (BootEntry.phys p) (core_heap x)) x).

(** The assembly does not touch the data [arch_init] relies on. *)
Lemma entered_ready p p' x type : loaded p x -> pgd_apart -> core_ready q testfs_type x type -> 0 < q ->
  (forall a, 0 <= a < 4294967296 -> ~ (page_directory <= a < page_directory + 4096) ->
     ~ (BootEntry.page_table page_directory <= a < BootEntry.page_table page_directory + 4096) ->
     ~ (BootEntry.KERNEL_STACK_TOP bottom - 12 <= a < BootEntry.KERNEL_STACK_TOP bottom) ->
     BootEntry.phys p' !! PHY_TO_VIR a = BootEntry.phys p !! PHY_TO_VIR a) ->
  core_ready q testfs_type (entered p' x) type.
Proof using.
  intros HL HA [C1 C2 C3 C4 C5 C6 C7] Hq HP. split; try done. intros i Hi. rewrite <- (C3 i Hi), (lo_memory _ _ HL). change (kmem (core_heap (entered p' x))) with (BootEntry.phys p').
  pose proof (lo_pgd _ _ HL) as Hm. unfold BootEntry.MAPPED in Hm. replace (lin q + 4 * i) with (PHY_TO_VIR (q * 4096 + 4 * i)) by (rewrite BootEntry.vir_eq by lia; unfold lin; lia).
  apply Forall_cons in HA as [A1 [A2 [A3 _]%Forall_cons]%Forall_cons]. apply HP; lia.
Qed.


End Loader.

(** The example machine with an image that goes on to 0x120000: the assembly's
    structures and stack up to 0x10E000, the kernel's directory behind them. *)
Definition loader_memory : gmap Z Z := zero_words 768 (lin 271) BootEntry.image_memory.

Definition loader_processor : BootEntry.processor :=
  BootEntry.Processor MULTIBOOT_BOOTLOADER_MAGIC 0x10000 0 0 0x11 0 0 false (BootEntry.At 0) loader_memory.

Definition loader_core : core := with_heap (with_kmem loader_memory (core_heap boot_core)) boot_core.

Lemma loader_loaded : loaded 0x101000 0x106000 BootEntry.image_address 271 loader_processor loader_core.
Proof.
  split; try reflexivity; [exact BootEntry.image_linked| |done].
  intros k Hk. rewrite <- (BootEntry.image_directory k Hk). change (BootEntry.phys loader_processor) with loader_memory. unfold loader_memory. apply zero_words_out.
  unfold lin, KERNEL_START_VIRT. rewrite BootEntry.vir_eq by lia. unfold KERNEL_START_VIRT. lia.
Qed.

Lemma loader_core_ready : core_ready 271 5000 loader_core (FsType 1100 0 testfs_alloc).
Proof.
  destruct boot_core_ready as [C1 C2 _ C4 C5 C6 C7]. split; try done.
  intros i Hi. change (kmem (core_heap loader_core)) with loader_memory. unfold loader_memory. apply zero_words_in. lia.
Qed.

Lemma loader_map_ready : map_ready 0x100000 0x120000 example_memory example_info 48 (16 * (11 + 0 + 1)) example_map (MmapEntry 20 0x100000 0x1F00000 1).
Proof.
  split.
  - constructor; vm_compute; try split; reflexivity.
  - constructor; [vm_compute; discriminate|exists 128; reflexivity|vm_compute; discriminate|].
    change (PAGE_ALIGN 0x120000) with 0x120000. change (entry_end _) with 0x2000000. lia.
  - lia.
  - vm_compute. reflexivity.
  - reflexivity.
  - exact example_map_at.
  - reflexivity.
  - cbn. lia.
Qed.

Lemma loader_equipped : equipped 0x100000 0x120000 271 (lin 272) 0xC0111000 boot_isr boot_cpuid
  (CpuidLeaf 1 0x68747541 0x444D4163 0x69746E65) (CpuidLeaf 0 0 0 0x2008).
Proof.
  split; try reflexivity.
  - intros i. unfold boot_isr. pose proof (u8_range i). lia.
  - unfold SIZEOF_CPU_INFO. lia.
  - split; [split; vm_compute; [discriminate|reflexivity]|unfold LINEAR_FRAMES; lia].
  - exists 272. split; [split; vm_compute; [discriminate|reflexivity]|]. unfold in_frame. lia.
Qed.

