(* ===== verification/ShellTasks.v ===== *)
(** * The tasks the shell starts (the commands "kt" and "ut" of
      kernel/core/shell.c)

    Both commands create a task and give its address space one mapping.  The pages
    of the mapping come with the first access: creation, the heap, the address
    space, the page tables and the page fault handler together. *)

From Stdlib Require Import String.
From stdpp Require Import base numbers list gmap sets.
From Stdlib Require Import ZArith Lia.
From S2P Require Import Prelude LinkedList PageDefs Blocks Palloc PageSource PageClaims Slab SlabInv SlabSpec HeapClaims Ptable HeapClient PtableSpec HeapGrow VmSpec Task TaskSpec TaskCreate Logging ArchInit ArchInitSpec.

#[local] Open Scope Z_scope.

Section Commands.
  Context {P : Type} `{PageSource P}.
  Context (task_head kernel_pgd isr_exit apple : Z).
  Implicit Types (s : sched P) (h : heap P) (G : list (list (Z * list Z))) (A : gset (Z * Z)).

(** A task with a mapping from [lo] to [hi]. *)
Definition start_mapped (name : list Z) (ty start lo hi : Z) : ST (sched P) Z :=
  (task <- task_create task_head kernel_pgd isr_exit name ty start TASK_PRIORITY_MIN TASK_STATE_WAITING ;;
   map <- on_heap vm_map_new ;;
   on_heap (store (map + MAP_START) lo) ;;
   on_heap (store (map + MAP_END) hi) ;;
   x <- get_task task ;;
   on_heap (vm_space_add_map (vm_space x) map) ;;
   ret task)%st.

(** "kt", which also keeps the task in [ktask1], and "ut". *)
Definition command_kt : ST (sched P) Z := start_mapped (chars "ktask_test1") TASK_KERNEL apple 0x300000 0x400000.

Definition command_ut : ST (sched P) Z := start_mapped (chars "utask_test1") TASK_USERMODE 0x400000 0x400000 0x600000.

(** ** The mapping *)

Lemma cache_for_vm_map i : cache_for SIZEOF_VM_MAP i -> i = 2%nat.
Proof using.
  intros Hc. apply (cache_for_unique SIZEOF_VM_MAP); [done|]. exists 32. split_and!; [done|done|]. unfold SIZEOF_VM_MAP.
  intros [|[|j]] sz Hj E; try lia; cbn in E; injection E as <-; lia.
Qed.

(** A new mapping object with its bounds, before it is put on a list. *)
Lemma map_stage (K : Z -> Prop) n h G A lo hi : heap_rep h G A -> roomy K (S n) (source h) -> clear_of K A ->
  exists map h1 h2 G' A', vm_map_new h = Some (map, h1) /\ 0 < map /\ store (map + MAP_START) lo h1 = Some (tt, with_kmem (<[map + MAP_START := lo]> (kmem h1)) h1) /\
    store (map + MAP_END) hi (with_kmem (<[map + MAP_START := lo]> (kmem h1)) h1) = Some (tt, h2) /\
    heap_rep h2 G' A' /\ extends h h2 G G' A A' /\ clear_of K A' /\ roomy K n (source h2) /\
    (forall j y, live G' j y <-> live G j y \/ (j = 2%nat /\ y = map)) /\ ~ live G 2 map /\
    kmem h2 !! map = Some 0 /\ kmem h2 !! (map + MAP_START) = Some lo /\ kmem h2 !! (map + MAP_END) = Some hi.
Proof using.
  intros HR Hr HK. destruct (kmalloc_roomy K n h G A SIZEOF_VM_MAP HR ltac:(done) Hr HK) as (map & h0 & G' & A' & i & E0 & Hm & HR0 & Hc & Lm & Nm & HL & HE & Hr0 & HK0).
  apply cache_for_vm_map in Hc as ->.
  set (m1 := <[map + 4 := 0]> (<[map := 0]> (zero_words 6 map (kmem h0)))). set (h1 := with_kmem m1 h0).
  set (m2 := <[map + MAP_END := hi]> (<[map + MAP_START := lo]> m1)).
  assert (HO : only_object (kmem h0) m2 map 32).
  { intros a Ha. unfold m2, m1, MAP_END, MAP_START. rewrite !lookup_insert_ne by lia. apply zero_words_out. lia. }
  exists map, h1, (with_kmem m2 h1), G', A'. split.
  - unfold vm_map_new. rewrite (bind_some _ _ _ _ _ E0), (bind_some _ _ _ _ _ (clear_words_run 6 map h0)). unfold mem_llist_init.
    destruct (Z.eqb_spec map 0); [lia|]. erewrite bind_some by (erewrite bind_some by apply store_run; apply store_run). reflexivity.
  - split; [exact Hm|]. split; [apply store_run|]. split; [exact (store_run (with_kmem (<[map + MAP_START := lo]> m1) h1) (map + MAP_END) hi)|]. split; [by apply (heap_write h0 G' A' 2 map 32)|].
    split; [by apply (extends_object h h0 G G' A A' 2 map 32)|]. split; [exact HK0|]. split; [exact Hr0|]. split; [exact HL|]. split; [exact Nm|].
    cbn [kmem with_kmem]. unfold m2, m1, MAP_END, MAP_START. split; [|split].
    + rewrite !lookup_insert_ne by lia. apply lookup_insert_eq.
    + rewrite lookup_insert_ne by lia. apply lookup_insert_eq.
    + apply lookup_insert_eq.
Qed.

(** Putting it on the empty list of the space [v]. *)
Lemma add_stage h G A v map : heap_rep h G A -> live G 1 v -> live G 2 map -> kmem h !! (v + VMS_MAPPINGS) = Some 0 ->
  let m := <[v + VMS_MAPPINGS := map]> (<[map + 4 := v + VMS_MAPPINGS]> (<[map := 0]> (kmem h))) in
  vm_space_add_map v map h = Some (tt, with_kmem m h) /\ heap_rep (with_kmem m h) G A /\
  forall a, ~ (v <= a < v + 16) -> ~ (map <= a < map + 32) -> m !! a = kmem h !! a.
Proof using.
  intros HR Lv Lm Ev m. split; [|split].
  - unfold vm_space_add_map, mem_llist_add. rewrite (bind_some _ _ _ _ _ (load_some _ _ _ Ev)). change (0 =? 0) with true. cbv iota. rewrite bind_ret.
    rewrite (bind_some _ _ _ _ _ (load_some _ _ _ Ev)), (bind_some _ _ _ _ _ (store_run h map 0)). erewrite bind_some by apply store_run. by rewrite store_run.
  - assert (HR1 : heap_rep (with_kmem (<[map + 4 := v + VMS_MAPPINGS]> (<[map := 0]> (kmem h))) h) G A).
    { apply (heap_write h G A 2 map 32); [done..|]. eapply only_object_trans; apply only_object_insert; lia. }
    apply (heap_write _ G A 1 v 16 m HR1); [done..|]. apply only_object_insert. unfold VMS_MAPPINGS. lia.
  - intros a Hv Hm. unfold m. rewrite !lookup_insert_ne; [done|unfold VMS_MAPPINGS; lia..].
Qed.

(** ** The task *)

(** The new task [t] has the address space [v] with the directory
    in frame [d] and one mapping. *)
Record mapped_task s' (name : list Z) (ty start lo hi id t v d map : Z) : Prop := MappedTask {
  mt_task : exists bot, tasks s' !! t = Some (Task id ty TASK_STATE_WAITING TASK_PRIORITY_MIN 0 (bot - 84) bot KSTACK_BYTES v start
    (<[(TASK_NAME_LENGTH_MAX - 1)%nat := 0]> (copy_name name)));
  mt_pgd : kmem (tmem s') !! (v + VMS_PGD) = Some (d * 4096);
  mt_first : kmem (tmem s') !! (v + VMS_MAPPINGS) = Some map;
  mt_chain : maps_chain (kmem (tmem s')) map [(map, (lo, hi))]
}.

Lemma on_heap_at {X} (f : ST (heap P) X) s a h' : f (tmem s) = Some (a, h') -> on_heap f s = Some (a, with_tmem h' s).
Proof using. intros E. unfold on_heap. by rewrite E. Qed.

(** A word of a live object is in no frame of the kernel, and not in a block
    without slabs. *)
Lemma live_off_frame (K : Z -> Prop) h G A i x sz a f : heap_rep h G A -> clear_of K A -> live G i x -> sizes !! i = Some sz -> K f -> in_frame f a -> ~ (x <= a < x + sz).
Proof using.
  intros HR HK Lx Esz Kf Hf Ha. destruct (slab_word_block h G A a HR (live_slab_word h G A i x sz a HR Lx Esz Ha)) as (b & Hb & Hab).
  apply in_block_frame in Hab as (y & Hy & Hya). assert (y = f) as -> by (unfold in_frame, lin in *; lia). by apply (HK _ f Hb Hy).
Qed.

Lemma live_off_block h G A i x sz a b : heap_rep h G A -> no_slab G b -> live G i x -> sizes !! i = Some sz -> in_block b a -> ~ (x <= a < x + sz).
Proof using. intros HR Hn Lx Esz Hb Ha. exact (Hn a (live_slab_word h G A i x sz a HR Lx Esz Ha) Hb). Qed.

(** A directory in a block of its own is not touched by growing the heap. *)
Lemma extends_page h h' G G' A A' d a : extends h h' G G' A A' -> (d, 0) ∈ A -> no_slab G (d, 0) -> in_block (d, 0) a -> kmem h' !! a = kmem h !! a.
Proof using.
  intros HE Hd Hn Ha. apply (ex_out _ _ _ _ _ _ HE); [intros Hw; by apply (Hn a Hw)|]. intros b Hb Hnb Hab.
  apply in_block_frame in Ha as (x & Hx & Hxa), Hab as (y & Hy & Hya). assert (y = x) as -> by (unfold in_frame, lin in *; lia).
  by apply (ex_fresh _ _ _ _ _ _ HE (d, 0) b x).
Qed.

Lemma start_mapped_spec (K : Z -> Prop) n (q : Z) s (l : list Z) G A (name : list Z) (ty start lo hi : Z) :
  system_ok task_head K q s l G A -> roomy K (5 + n) (source (tmem s)) -> kernel_pgd = lin q -> 0 <= last_task_id s < 4294967295 ->
  exists t v d map s' G' A', start_mapped name ty start lo hi s = Some (t, s') /\ system_ok task_head K q s' (t :: l) G' A' /\ roomy K n (source (tmem s')) /\
    mapped_task s' name ty start lo hi (last_task_id s) t v d map /\ user_rep (tmem s') (lin d) ∅ A' /\ (d, 0) ∈ A' /\
    (forall u, u <> t -> tasks s' !! u = tasks s !! u) /\ last_task_id s' = last_task_id s + 1.
Proof using.
  intros HS Hr Eq Hid.
  destruct (task_create_spec task_head kernel_pgd isr_exit K (S n) q s l G A name ty start TASK_PRIORITY_MIN TASK_STATE_WAITING HS Hr Eq Hid eq_refl)
    as (t & v & p & d & s1 & G1 & A1 & E1 & [S1 S2 S3 S4 S5 (S6 & S6' & S6d) S7] & Hr1 & [M1 M2 M3 M4 M5 M6 [M7 M7'] [M8 _] (_ & _ & M9 & _) M10 M11 M12 M13]).
  destruct (map_stage K n (tmem s1) G1 A1 lo hi S2 Hr1 S4) as (map & h2 & h3 & G3 & A3 & E2 & Hm & E3 & E4 & HR3 & HE & HK3 & Hr3 & HL & Nm & V1 & V2 & V3).
  assert (Lv1 : live G1 1 v) by (apply M10; by right; right). assert (Lv : live G3 1 v) by (apply HL; by left). assert (Lm : live G3 2 map) by (apply HL; by right).
  assert (Hv : forall o, 0 <= o < 16 -> kmem h3 !! (v + o) = kmem (tmem s1) !! (v + o)) by (intros o Ho; apply (ex_same _ _ _ _ _ _ HE 1%nat v 16); [done|done|lia]).
  destruct (add_stage h3 G3 A3 v map HR3 Lv Lm) as (E5 & HR4 & Hout); [rewrite Hv by (unfold VMS_MAPPINGS; lia); exact M7'|].
  set (m := <[v + VMS_MAPPINGS := map]> _) in *.
  assert (Hnd : no_slab G3 (d, 0)) by (by eapply no_slab_extends). assert (Hd3 : (d, 0) ∈ A3) by (by apply (ex_sub _ _ _ _ _ _ HE)).
  assert (Hq4 : forall j, 0 <= j < 1024 -> m !! (lin q + 4 * j) = kmem (tmem s1) !! (lin q + 4 * j)).
  { intros j Hj. rewrite Hout; [|by eapply live_off_frame; [exact HR3|exact HK3|done|done|exact S6|apply word_in_frame]..].
    eapply extends_kernel; [exact S2|exact HE|exact HK3|exact S6|by apply word_in_frame]. }
  assert (Hd4 : forall j, 0 <= j < 1024 -> m !! (lin d + 4 * j) = kmem (tmem s1) !! (lin d + 4 * j)).
  { intros j Hj. assert (Hin : in_block (d, 0) (lin d + 4 * j)) by (unfold in_block; cbn; lia).
    rewrite Hout; [|by eapply live_off_block..]. by eapply extends_page. }
  exists t, v, d, map, (with_tmem (with_kmem m h3) s1), G3, A3. split_and!.
  - unfold start_mapped. st_step E1. st_step (on_heap_at _ s1 _ _ E2). st_step (on_heap_at _ (with_tmem h2 s1) _ _ E3).
    st_step (on_heap_at _ (with_tmem (with_kmem (<[map + MAP_START := lo]> (kmem h2)) h2) s1) _ _ E4).
    st_step (get_task_some (with_tmem h3 s1) t _ M1). st_step (on_heap_at _ (with_tmem h3 s1) _ _ E5). reflexivity.
  - split; cbn [tmem with_tmem]; try done.
    + by destruct S1.
    + eapply Forall_impl; [exact S3|]. intros u Hu. apply HL. by left.
    + split; [exact S6|]. split; [exact S6'|]. destruct S6d as [D1 D2]. split; [intros j Hj; rewrite kmem_with, Hq4 by done; by apply D1|].
      intros j w Hj. rewrite kmem_with, Hq4 by (unfold USER_PDES in Hj; lia). by apply D2.
  - exact Hr3.
  - assert (Hne : forall o, 0 <= o < 32 -> ~ (v <= map + o < v + 16)).
    { intros o Ho Hin. destruct (live_disjoint h3 G3 A3 1 2 v map 16 32 (map + o) HR3 Lv Lm eq_refl eq_refl Hin ltac:(lia)) as [E _]. discriminate E. }
    pose proof (Hne 0 ltac:(lia)) as N0. pose proof (Hne 4 ltac:(lia)) as N4. pose proof (Hne 12 ltac:(lia)) as N12. pose proof (Hne 16 ltac:(lia)) as N16.
    split; cbn [tasks tmem with_tmem]; rewrite ?kmem_with.
    + eexists. exact M1.
    + unfold m. unfold VMS_PGD in *. rewrite !lookup_insert_ne by (unfold VMS_MAPPINGS; lia). rewrite Hv by lia. exact M7.
    + apply lookup_insert_eq.
    + cbn [maps_chain]. unfold VMS_MAPPINGS, MAP_START, MAP_END in *. split; [done|]. split; [lia|]. unfold m, VMS_MAPPINGS. split; [rewrite !lookup_insert_ne by lia; exact V2|].
      split; [rewrite !lookup_insert_ne by lia; exact V3|]. exists 0. split; [|done]. rewrite !lookup_insert_ne by lia. apply lookup_insert_eq.
  - destruct M8 as [_ U2 _ _ _ _]. split; try done; [by exists d| |apply (hr_source _ _ _ HR4)].
    intros j Hj Ej. cbn [tmem with_tmem]. rewrite kmem_with, Hd4 by (unfold USER_PDES in Hj; lia). by apply U2.
  - exact Hd3.
  - intros u Hu. by apply M2.
  - exact M3.
Qed.

(** A page fault in the space of the new task. *)
Lemma mapped_fault (K : Z -> Prop) n s' (name : list Z) (ty start lo hi id t v d map addr : Z) A : mapped_task s' name ty start lo hi id t v d map ->
  user_rep (tmem s') (lin d) ∅ A -> (d, 0) ∈ A -> roomy K (2 + n) (source (tmem s')) -> 0 <= addr < KERNEL_START_VIRT ->
  mmu_walk (kmem (tmem s')) (lin d) addr = None /\
  if (lo <=? addr) && (addr <? hi) then
    exists p h', paging_handle_page_fault v addr (tmem s') = Some (true, h') /\ (forall b x, b ∈ A -> inb x b -> x <> p) /\
      mmu_walk (kmem h') (lin d) addr = Some (p * 4096 + 5) /\
      forall va, 0 <= va < KERNEL_START_VIRT -> va / 4096 <> addr / 4096 -> mmu_walk (kmem h') (lin d) va = None
  else paging_handle_page_fault v addr (tmem s') = Some (false, tmem s').
Proof using.
  intros [_ Ep Ef HC] HU Hd Hr Ha. destruct (lin_page _ _ d (ur_source _ _ _ _ HU) Hd) as [Hdr El].
  assert (HN : forall va, 0 <= va < KERNEL_START_VIRT -> mmu_walk (kmem (tmem s')) (lin d) va = None).
  { intros va Hva. rewrite (walk_rep _ _ _ _ _ HU Hva). by rewrite lookup_empty. }
  split; [by apply HN|]. unfold paging_handle_page_fault, bind.
  rewrite (page_fault_run (tmem s') v [(map, (lo, hi))] map addr Ef HC ltac:(apply NoDup_singleton)).
  unfold covered. cbn [existsb]. rewrite orb_false_r. destruct ((lo <=? addr) && (addr <? hi)); [|done].
  rewrite <- El in HU. destruct (vm_space_map_page_spec (tmem s') v (d * 4096) ∅ A addr HU Ep Ha)
    as [(p & h' & T' & A' & E & _ & _ & _ & Hf & _ & Hw)|[(s2 & Es & _)|(p & s2 & s3 & _ & Es & Es' & _)]].
  - exists p, h'. rewrite E. rewrite El in Hw. split_and!; try done; [by rewrite Hw, decide_True|]. intros va Hva Hne. rewrite Hw, decide_False by done. by apply HN.
  - destruct (Hr 0 (or_introl eq_refl)) as (p & s3 & Es' & _). congruence.
  - destruct (Hr 0 (or_introl eq_refl)) as (p' & s4 & E4 & _ & Hr'). rewrite Es in E4. injection E4 as <- <-.
    destruct (Hr' 0 (or_introl eq_refl)) as (p'' & s5 & E5 & _). congruence.
Qed.


End Commands.

