(* ===== verification/DebugPrint.v ===== *)
(** * Debug printers (arch/x86/kernel/ptable.c, gdt.c, kernel/mm/palloc.c,
      bootmem.c, slab.c, kmalloc.c, kernel/sched/task.c, kernel/fs/vfs/fs_type.c)

    The routines that walk a component's data and report it in the log, over the
    state of all components (ArchInit.v).  They read the component's state and
    send lines to the serial port through [klog]. *)

From Stdlib Require Import String Ascii.
From stdpp Require Import base numbers list gmap.
From Stdlib Require Import ZArith Lia.
From S2P Require Import Prelude LinkedList CString PageDefs Bootmem Palloc PageSource Slab Ptable Task Vfs Interrupts Console Logging ArchInit.

#[local] Open Scope Z_scope.

(** The flags of entries that only the printers look at. *)
Definition PDE_WRITETHROUGH : Z := 0x08.
Definition PDE_CACHE_DISABLE : Z := 0x10.
Definition PDE_ACCESSED : Z := 0x20.
Definition PTE_WRITETHROUGH : Z := 0x08.
Definition PTE_CACHE_DISABLE : Z := 0x10.
Definition PTE_ACCESSED : Z := 0x20.
Definition PTE_DIRTY : Z := 0x40.
Definition PTE_PAT : Z := 0x80.

(** [name] in [struct task]; [slab_cache_t] begins with its name. *)
Definition TASK_NAME : Z := 48.
Definition SIZEOF_SLAB_CACHE : Z := 40.

Section Printers.
  (** Addresses of literals and of the log's buffers, the file name in the log,
      the local array [flag_str], and addresses of static data. *)
  Context (literal : list Z -> Z) (buffers : log_buffers) (file flag_str : Z).
  Context (task_head slab_caches_addr : Z).

Definition log (fmt_str : list Z) (args : list Z) : ST kernel unit := on_console (klog literal buffers file (literal fmt_str) args).

(** A read of a component's state; [None] is a fault. *)
Definition ask {A} (f : core -> option A) : ST kernel A :=
  on_core (fun x => match f x with Some a => Some (a, x) | None => None end).

Definition word (a : Z) : ST kernel Z := ask (fun x => kmem (core_heap x) !! a).

Fixpoint for_each (n : nat) (i : Z) (f : Z -> ST kernel unit) : ST kernel unit :=
  match n with
  | O => ret tt
  | S k => (f i ;; for_each k (i + 1) f)%st
  end.

(** ** Page tables (arch/x86/kernel/ptable.c) *)

Definition strcat_flags (s : list Z) : ST kernel unit := (on_console (on_text (strcat flag_str (literal s))) ;; ret tt)%st.

Definition flag (entry bit : Z) (s : list Z) : ST kernel unit :=
  (e <- word entry ;; if TEST_BIT e bit then strcat_flags s else ret tt)%st.

Definition flag_else (entry bit : Z) (s t : list Z) : ST kernel unit :=
  (e <- word entry ;; if TEST_BIT e bit then strcat_flags s else strcat_flags t)%st.

Definition ptable_print_pte (pte : Z) : ST kernel unit :=
  (on_console (on_text (memset flag_str 0 256)) ;;
   flag pte PTE_PRESENT (chars "Present, ") ;;
   flag_else pte PTE_WRITABLE (chars "Read/Write, ") (chars "Read, ") ;;
   flag_else pte PTE_USER (chars "Kernel & User, ") (chars "Kernel Only, ") ;;
   flag pte PTE_WRITETHROUGH (chars "Writethrough, ") ;;
   flag pte PTE_CACHE_DISABLE (chars "Cache Disable, ") ;;
   flag pte PTE_ACCESSED (chars "Accessed, ") ;;
   flag pte PTE_DIRTY (chars "Dirty, ") ;;
   flag pte PTE_PAT (chars "PAT, ") ;;
   flag pte PTE_GLOBAL (chars "Global, ") ;;
   n <- on_console (on_text (strlen flag_str)) ;;
   on_console (on_text (wr (flag_str + n) 0)) ;;
   n <- on_console (on_text (strlen flag_str)) ;;
   on_console (on_text (wr (flag_str + (n - 1)) 0)) ;;
   e <- word pte ;;
   log (chars "PTE[VA: 0x%x, Raw: 0x%x, Flags: %s]" ++ [10]) [pte; e; flag_str])%st.

Definition ptable_print_pde (pde : Z) : ST kernel unit :=
  (on_console (on_text (memset flag_str 0 256)) ;;
   flag pde PDE_PRESENT (chars "Present, ") ;;
   flag_else pde PDE_WRITABLE (chars "Read/Write, ") (chars "Read, ") ;;
   flag_else pde PDE_USER (chars "Kernel & User, ") (chars "Kernel Only, ") ;;
   flag pde PDE_WRITETHROUGH (chars "Writethrough, ") ;;
   flag pde PDE_CACHE_DISABLE (chars "Cache Disable, ") ;;
   flag pde PDE_ACCESSED (chars "Accessed, ") ;;
   flag pde PDE_PAGE_SIZE_4M (chars "4MB Page, ") ;;
   flag pde PDE_GLOBAL (chars "Global, ") ;;
   e <- word pde ;;
   log (chars "PDE[VA: 0x%x, Raw: 0x%x, Flags: %s]" ++ [10]) [pde; e; flag_str])%st.

(** The inner loop of [ptable_print_pgd]. *)
Definition print_entry (pgt pte_idx : Z) : ST kernel unit :=
  (let pte := pgt + 4 * pte_idx in
   e <- word pte ;;
   if negb (PTE_EXISTS e) then ret tt else ptable_print_pte pte)%st.

Definition print_directory_entry (pgd pde_idx : Z) : ST kernel unit :=
  (let pde := pgd + 4 * pde_idx in
   e <- word pde ;;
   if negb (PDE_EXISTS e) then ret tt else
   e <- word pde ;;
   if TEST_BIT e PDE_PAGE_SIZE_4M then ret tt else
   ptable_print_pde pde ;;
   e <- word pde ;;
   for_each (Z.to_nat PAGE_TABLE_SIZE) 0 (print_entry (PDE_TO_PGT e)))%st.

Definition ptable_print_pgd (pgd : Z) : ST kernel unit :=
  for_each (Z.to_nat PAGE_DIR_SIZE) 0 (print_directory_entry pgd).

(** ** Descriptors (gdt.c) *)

Definition gdt_print_debug_entry (name : Z) (entry : gdt_entry) : ST kernel unit :=
  (log (chars "%s:" ++ [10]) [name] ;;
   log (chars "    b_low: 0x%x b_mid: 0x%x b_high: 0x%x" ++ [10]) [base_low entry; base_middle entry; base_high entry] ;;
   log (chars "    gran: 0x%x access: 0x%x" ++ [10]) [granularity entry; access_flags entry])%st.

(** ** Pages (palloc.c) *)

Definition page_print_debug (page : option Z) : ST kernel unit :=
  (pg <- ask (fun x => fst <$> get_page page (source (core_heap x))) ;;
   log (chars "--- Page %d Info ---" ++ [10]) [pfn pg] ;;
   log (chars "Use Count:  %d" ++ [10]) [use_count pg] ;;
   log (chars "Flags:      0x%x" ++ [10]) [flags pg] ;;
   log (chars "Order:      %d" ++ [10]) [order pg] ;;
   pa <- ask (fun x => fst <$> PAGE_PA page (source (core_heap x))) ;;
   log (chars "Phys. Addr: 0x%x" ++ [10]) [pa] ;;
   va <- ask (fun x => fst <$> PAGE_VA page (source (core_heap x))) ;;
   log (chars "Virt. Addr: 0x%x" ++ [10]) [va])%st.

(** [page_area] is a pointer to [struct page], so that adding to it multiplies by
    the size of the structure once more. *)
Definition buddy_print_debug : ST kernel unit :=
  (b <- ask (fun x => Some (source (core_heap x))) ;;
   log (chars "--- Buddy Allocator Info ---" ++ [10]) [] ;;
   log (chars "Page Count:          %d" ++ [10]) [page_count b] ;;
   log (chars "Max Order:           %d" ++ [10]) [ORDER_MAX] ;;
   log (chars "Page Area Start:     0x%x" ++ [10]) [page_area b] ;;
   log (chars "Page Area End:       0x%x" ++ [10]) [u32 (page_area b + SIZEOF_PAGE * u32 (page_count b * SIZEOF_PAGE))] ;;
   for_each (Z.to_nat (ORDER_MAX + 1)) 0 (fun i =>
     bl <- ask (fun x => blocks (source (core_heap x)) !! i) ;;
     log (chars "Order[%d] Free: %d" ++ [10]) [i; free_count bl]))%st.

(** ** Early memory (bootmem.c) *)

Definition print_region (i : Z) : ST kernel unit :=
  (r <- ask (fun x => mem_regions (co_bootmem x) !! Z.to_nat i) ;;
   if start_addr r =? 0 then ret tt else
   let bytes_used := u32 (start_addr r - orig_start_addr r) in
   log (chars "Region[%d]: 0x%x -> 0x%x (%d bytes alloced.)" ++ [10]) [i; start_addr r; end_addr r; bytes_used])%st.

Definition bootmem_print_debug : ST kernel unit :=
  (bm <- ask (fun x => Some (co_bootmem x)) ;;
   log (chars "--- Bootmem Info ---" ++ [10]) [] ;;
   log (chars "Memory Regions:      %d" ++ [10]) [region_count bm] ;;
   log (chars "Highests Phys. Addr: 0x%x" ++ [10]) [PFN_TO_PA (highest_pfn bm)] ;;
   for_each (Z.to_nat MAX_MEM_REGIONS) 0 print_region)%st.

(** ** The heap (slab.c, kmalloc.c) *)

(** The loop of [slab_cache_print_debug] from [curr_slab] on. *)
Fixpoint print_slabs (fuel : nat) (curr_slab : Z) : ST kernel unit :=
  match fuel with
  | O => fault
  | S f =>
      (if curr_slab =? 0 then ret tt else
       k <- word (curr_slab + PAGE_ORDER) ;;
       let pages := u32 (Z.shiftl 1 k) in
       let total_bytes := u32 (pages * PAGE_SIZE) in
       let end_addr := u32 (curr_slab + total_bytes) in
       total <- word (curr_slab + OBJECT_COUNT) ;;
       free <- word (curr_slab + FREE_COUNT) ;;
       log (chars "  -> Slab[addr: 0x%x -> 0x%x, pages: %d, totalbytes: %d, order: %d, objtotal: %d, objfree: %d, objused: %d]" ++ [10])
         [curr_slab; end_addr; pages; total_bytes; k; total; free; u32 (total - free)] ;;
       nx <- word (curr_slab + NEXT_SLAB) ;;
       print_slabs f nx)%st
  end.

(** [&slab_caches[i]] *)
Definition cache_addr (i : Z) : Z := slab_caches_addr + i * SIZEOF_SLAB_CACHE.

Definition slab_cache_print_debug (i : Z) : ST kernel unit :=
  (c <- ask (fun x => caches (core_heap x) !! Z.to_nat i) ;;
   log (chars "Cache '%s' [addr: 0x%x, objsize: %d]" ++ [10]) [cache_addr i; cache_addr i; object_size c] ;;
   (if first_slab c =? 0 then log (chars "  No slabs!" ++ [10]) [] else ret tt) ;;
   fuel <- ask (fun x => Some (walk_fuel (core_heap x))) ;;
   print_slabs fuel (first_slab c) ;;
   log [10] [])%st.

Definition kmalloc_print_debug : ST kernel unit := for_each 13 0 slab_cache_print_debug.

(** ** Tasks (task.c) *)

Definition state_str (st : Z) : list Z :=
  if st =? TASK_STATE_INVALID then chars "EMPTY"
  else if st =? TASK_STATE_RUNNING then chars "RUNNING"
  else if st =? TASK_STATE_WAITING then chars "WAITING"
  else if st =? TASK_STATE_PAUSED then chars "PAUSED"
  else if st =? TASK_STATE_KILLED then chars "KILLED"
  else chars "UNKNOWN".

Definition print_task (t : Z) : ST kernel unit :=
  (x <- on_sched (get_task t) ;;
   log (chars "[%d] '%s' (%s, priority %d) " ++ [10]) [tid x; t + TASK_NAME; literal (state_str (tstate x)); priority x] ;;
   log (chars "      type:        %s" ++ [10]) [literal (if ttype x =? TASK_KERNEL then chars "Kernel" else chars "Usermode")] ;;
   log (chars "      kstack top:  0x%x | bot: 0x%x" ++ [10]) [kstack_top x; kstack_bot x] ;;
   log (chars "      kstack_size: %d bytes" ++ [10]) [kstack_size x] ;;
   log (chars "      stack_used:  %d bytes" ++ [10]) [kstack_bot x - kstack_top x] ;;
   log (chars "      vm_space:    0x%x" ++ [10]) [vm_space x] ;;
   log (chars "      ticks:  %d" ++ [10]) [ticks x])%st.

(** [clist_for_each] from [cur] on. *)
Fixpoint print_tasks (fuel : nat) (cur : option Z) : ST kernel unit :=
  match fuel with
  | O => fault
  | S f =>
      match cur with
      | None => fault
      | Some t =>
          (if t =? task_head then ret tt else
           print_task t ;;
           n <- on_sched (on_tnodes (load_next (Some t))) ;;
           print_tasks f n)%st
      end
  end.

Definition task_print : ST kernel unit :=
  (log (chars "Task List" ++ [10]) [] ;;
   log (chars "-----------------------------" ++ [10]) [] ;;
   on_sched lock_tasks ;;
   first <- on_sched (on_tnodes (load_next (Some task_head))) ;;
   fuel <- on_sched (gets tasks_fuel) ;;
   print_tasks fuel first ;;
   on_sched unlock_tasks ;;
   log [10] [])%st.

(** ** File systems (fs_type.c) *)

Fixpoint print_types (fuel : nat) (curr : option fs_node) : ST kernel unit :=
  match fuel with
  | O => fault
  | S f =>
      match curr with
      | None => fault
      | Some FsHead => ret tt
      | Some (FsEntry t) =>
          (ty <- ask (fun x => co_fs_types x !! t) ;;
           log (chars "  Type: %s (0x%x)" ++ [10]) [fs_name ty; t] ;;
           n <- ask (fun x => fst <$> load_next (Some (FsEntry t)) (co_fs_nodes x)) ;;
           print_types f n)%st
      end
  end.

Definition file_system_type_print_debug : ST kernel unit :=
  (log (chars "Registered filesystem types:" ++ [10]) [] ;;
   first <- ask (fun x => fst <$> load_next (Some FsHead) (co_fs_nodes x)) ;;
   fuel <- ask (fun x => Some (S (size (co_fs_nodes x)))) ;;
   print_types fuel first)%st.

End Printers.
