(* ===== verification/DebugPrintSpec.v ===== *)
(** * What the debug printers report

    Every printer returns, sends to the serial port exactly the lines that describe
    the data, in order, and changes nothing but the buffers it writes its text in:
    the format strings fit their arguments, no text outgrows its array, and the
    walks end. *)

From Stdlib Require Import String Ascii.
From stdpp Require Import base numbers list gmap.
From Stdlib Require Import ZArith Lia.
From S2P Require Import Prelude LinkedList CString CStringSpec SprintfSpec PageDefs Bootmem Palloc PageSource Slab SlabInv Ptable Task TaskSpec Vfs VfsSpec Interrupts Console ConsoleSpec Logging LoggingSpec ArchInit ArchInitSpec DebugPrint.

#[local] Open Scope Z_scope.

(** ** Messages *)

(** A message: text, and what its conversions print. *)
Inductive piece : Type :=
  | Lit (l : list Z)
  | Str (a : Z)
  | Dec (n : Z)
  | Hex (n : Z).

Definition piece_format (p : piece) : list Z :=
  match p with Lit l => l | Str _ => [37; 115] | Dec _ => [37; 100] | Hex _ => [37; 120] end.

Definition piece_args (p : piece) : list Z :=
  match p with Lit _ => [] | Str a => [a] | Dec n => [n] | Hex n => [n] end.

Definition fmt_of (m : list piece) : list Z := concat (piece_format <$> m).

Definition args_of (m : list piece) : list Z := concat (piece_args <$> m).

(** The strings of the program are at most this long. *)
Definition TEXT_MAX : nat := 120.

(** The most characters a message can have. *)
Definition piece_room (p : piece) : nat :=
  match p with Lit l => length l | Str _ => TEXT_MAX | Dec _ => 11 | Hex _ => 8 end.

Definition room_of (m : list piece) : nat := sum_list (piece_room <$> m).

(** The most negative number has no decimal text (see [int_to_str_min]). *)
Definition printable_number (n : Z) : Prop := i32 n <> -2147483648.

Definition lit_ok (l : list Z) : bool := forallb (fun c => (0 <? c) && (c <? 256) && negb (c =? 37)) l.

Lemma lit_ok_spec l : lit_ok l = true -> Forall (fun c => 0 < c < 256) l /\ 37 ∉ l.
Proof.
  unfold lit_ok. rewrite forallb_forall. intros H. split.
  - apply Forall_forall. intros c Hc. apply list_elem_of_In, H in Hc. bool_cases.
  - intros Hc. apply list_elem_of_In, H in Hc. discriminate Hc.
Qed.

Section Messages.
  (** The strings in memory. *)
  Context (K : Z -> option (list Z)).

Definition piece_text (p : piece) : list Z :=
  match p with Lit l => l | Str a => default [] (K a) | Dec n => decimal (i32 n) | Hex n => hexadecimal (u32 n) end.

Definition text_of (m : list piece) : list Z := concat (piece_text <$> m).

Definition piece_ok (p : piece) : Prop :=
  match p with Lit l => lit_ok l = true | Str a => is_Some (K a) | Dec n => printable_number n | Hex _ => True end.

Lemma format_number c v sa (a : Z) r args out : c = 100 /\ printable_number a /\ v = decimal (i32 a) \/ c = 120 /\ v = hexadecimal (u32 a) ->
  format sa r None args = Some out -> format sa (37 :: c :: r) None (a :: args) = Some (v ++ out).
Proof using.
  intros Hc E. cbn [format]. change (37 =? 37) with true. cbv iota. destruct Hc as [(-> & Hp & ->)|(-> & ->)].
  - change (digit_char 100) with false. cbv iota. unfold conversion. change (100 =? 115) with false. change (100 =? 100) with true. cbv iota.
    destruct (Z.eqb_spec (i32 a) (-2147483648)); [done|]. rewrite E, padded_0. reflexivity.
  - change (digit_char 120) with false. cbv iota. unfold conversion. change (120 =? 115) with false. change (120 =? 100) with false.
    change (120 =? 117) with false. change (120 =? 120) with true. cbv iota. rewrite E, padded_0. reflexivity.
Qed.

(** The reference formatter makes the message's text of its format string. *)
Lemma format_message m : Forall piece_ok m -> format K (fmt_of m) None (args_of m) = Some (text_of m).
Proof using.
  induction 1 as [|p m Hp _ IH]; [done|]. unfold fmt_of, args_of, text_of in *. cbn [fmap list_fmap map concat].
  destruct p as [l|a|n|n]; cbn [piece_format piece_args piece_text piece_ok app] in *.
  - apply format_text; [by apply lit_ok_spec|exact IH].
  - destruct Hp as [l El]. rewrite El. cbn [default]. by apply format_string.
  - apply format_number; [by left|exact IH].
  - apply format_number; [by right|exact IH].
Qed.

Lemma piece_spec p : piece_ok p -> (forall a l, K a = Some l -> Forall (fun c => 0 < c < 256) l /\ (length l <= TEXT_MAX)%nat) ->
  Forall (fun c => 0 < c < 256) (piece_text p) /\ (length (piece_text p) <= piece_room p)%nat.
Proof using.
  intros Hp HK. destruct p as [l|a|n|n]; cbn [piece_text piece_room piece_ok] in *.
  - split; [by apply lit_ok_spec|done].
  - destruct Hp as [l El]. rewrite El. by apply (HK a).
  - split; [apply decimal_chars|]. pose proof (i32_range n). unfold printable_number in Hp. apply decimal_length. lia.
  - apply hexadecimal_chars. pose proof (u32_range n). lia.
Qed.

Lemma message_spec m : Forall piece_ok m -> (forall a l, K a = Some l -> Forall (fun c => 0 < c < 256) l /\ (length l <= TEXT_MAX)%nat) ->
  Forall (fun c => 0 < c < 256) (text_of m) /\ (length (text_of m) <= room_of m)%nat.
Proof using.
  intros Hm HK. induction Hm as [|p m Hp _ IH]; [split; [constructor|done]|]. destruct (piece_spec p Hp HK), IH as [IH1 IH2].
  unfold text_of, room_of in *. cbn [fmap list_fmap map concat sum_list]. split; [by apply Forall_app|]. rewrite length_app. cbn. lia.
Qed.

End Messages.

(** ** Printing lines *)

Section Lines.
  Context (literal : list Z -> Z) (buffers : log_buffers) (file flag_str : Z) (file_name : list Z) (d : Z) (t0 : term).
  Implicit Types (K : Z -> option (list Z)) (c : console) (x : core) (ls : list (list Z)).

(** The strings [K] are in memory, outside the buffers of the log. *)
Definition strings_ok K (m : bytes) : Prop :=
  forall a l, K a = Some l -> str_at m a l /\ (length l <= TEXT_MAX)%nat /\ off_buffers buffers a (Z.of_nat (length l) + 1).

(** The console between two lines, with [k] more readings of the device ready. *)
Record log_ok K (k : nat) c : Prop := LogOk {
  lo_strings : strings_ok K (text c);
  lo_screen : screen_ok t0 (screen c);
  lo_port : port_ready k (port c);
  lo_debug : serial_debug_port (port c) = d
}.

(** [out] was sent; memory changed in the log's buffers and the array of flags only. *)
Definition wrote c c' (out : list Z) : Prop :=
  port_outputs (port c') = port_outputs (port c) ++ (io_port_out d <$> out) /\
  forall a, off_buffers buffers a 1 -> apart a 1 flag_str 256 -> text c' !! a = text c !! a.

(** The bytes of the lines, each with the file's name in front. *)
Definition lines_bytes ls : list Z := concat (log_line file_name <$> ls).

(** [f] takes [x] to [x'] and sends [ls]. *)
Definition emits K (f : ST kernel unit) x ls x' : Prop :=
  forall c k, log_ok K (length (lines_bytes ls) + k) c ->
  exists c', f (Kernel c x) = Some (tt, Kernel c' x') /\ log_ok K k c' /\ wrote c c' (lines_bytes ls).

Lemma wrote_trans c1 c2 c3 o1 o2 : wrote c1 c2 o1 -> wrote c2 c3 o2 -> wrote c1 c3 (o1 ++ o2).
Proof using. intros [E1 F1] [E2 F2]. split; [by rewrite E2, E1, fmap_app, app_assoc|]. intros a Ha Hf. by rewrite F2, F1. Qed.

Lemma emits_core K (f : ST core unit) x x' : f x = Some (tt, x') -> emits K (on_core f) x [] x'.
Proof using.
  intros E c k Hc. exists c. unfold on_core, zoom. cbn [k_core k_console]. rewrite E. split; [done|]. split; [exact Hc|].
  split; [by rewrite app_nil_r|done].
Qed.

Lemma emits_ret K x : emits K (ret tt) x [] x.
Proof using. intros c k Hc. exists c. split; [done|]. split; [exact Hc|]. split; [by rewrite app_nil_r|done]. Qed.

Lemma emits_bind K f (g : ST kernel unit) x ls1 x1 ls2 x2 :
  emits K f x ls1 x1 -> emits K g x1 ls2 x2 -> emits K (f ;; g)%st x (ls1 ++ ls2) x2.
Proof using.
  intros Hf Hg c k Hc. unfold lines_bytes in Hc. rewrite fmap_app, concat_app, length_app, <- Nat.add_assoc in Hc.
  destruct (Hf c _ Hc) as (c1 & E1 & H1 & W1). destruct (Hg c1 _ H1) as (c2 & E2 & H2 & W2). exists c2.
  split; [by rewrite (bind_some _ _ _ _ _ E1)|]. split; [exact H2|]. unfold lines_bytes. rewrite fmap_app, concat_app. by apply (wrote_trans c c1).
Qed.

(** Steps that only read. *)
Lemma emits_get {A} K (f : ST core A) a (g : A -> ST kernel unit) x ls x' :
  f x = Some (a, x) -> emits K (g a) x ls x' -> emits K (v <- on_core f ;; g v)%st x ls x'.
Proof using.
  intros E Hg c k Hc. destruct (Hg c k Hc) as (c' & E' & H'). exists c'. split; [|exact H'].
  assert (Ea : on_core f (Kernel c x) = Some (a, Kernel c x)) by (unfold on_core, zoom; cbn [k_core k_console]; by rewrite E).
  by rewrite (bind_some _ _ _ _ _ Ea).
Qed.

Lemma emits_ask {A} K (f : core -> option A) a (g : A -> ST kernel unit) x ls x' :
  f x = Some a -> emits K (g a) x ls x' -> emits K (v <- ask f ;; g v)%st x ls x'.
Proof using. intros E. apply emits_get. by rewrite E. Qed.

Lemma emits_loop K f x (L : Z -> list (list Z)) : forall n i, (forall j, i <= j < i + Z.of_nat n -> emits K (f j) x (L j) x) ->
  emits K (for_each n i f) x (concat (L <$> seqZ i (Z.of_nat n))) x.
Proof using.
  induction n as [|n IH]; intros i Hf; [apply emits_ret|]. cbn [for_each]. rewrite seqZ_cons by lia.
  replace (Z.pred (Z.of_nat (S n))) with (Z.of_nat n) by lia. cbn [fmap list_fmap map concat].
  apply (emits_bind K (f i) _ x (L i) x); [apply Hf; lia|]. apply IH. intros j Hj. apply Hf. lia.
Qed.

Context (HB : buffers_apart buffers) (Hfile : (length file_name <= 64)%nat).

(** A log message. *)
Lemma emits_log K fmt args m x : fmt = fmt_of m -> args = args_of m -> Forall (piece_ok K) m -> (room_of m <= 440)%nat ->
  K (literal fmt) = Some fmt -> K (literal (chars "[%s] %s")) = Some (chars "[%s] %s") -> K file = Some file_name ->
  emits K (log literal buffers file fmt args) x [text_of K m] x.
Proof using HB Hfile.
  intros -> -> Hm Hr Kf Kl Kn c k [HS Ht [Hi Hp] Hd]. assert (El : lines_bytes [text_of K m] = log_line file_name (text_of K m)).
  { unfold lines_bytes. cbn [fmap list_fmap map concat]. by rewrite app_nil_r. } rewrite El in Hp |- *.
  destruct (HS _ _ Kf) as (F1 & _ & F3). destruct (HS _ _ Kl) as (L1 & _ & L3). destruct (HS _ _ Kn) as (N1 & _ & N3).
  destruct (message_spec K m Hm) as [M1 M2]; [intros a l Ea; destruct (HS a l Ea) as ([_ H] & H' & _); by split|].
  destruct (printk_spec literal buffers HB LOG_DEBUG file (literal (fmt_of m)) (args_of m) K (fmt_of m) file_name (text_of K m) k c t0
    F1 F3 (format_message K m Hm)) as (c' & E & S' & P' & R' & _ & O'); [|exact M1|unfold LOG_INFO, LOG_DEBUG; lia|exact N1|exact N3|exact L1|exact L3|lia|exact Ht|by intros _|].
  { intros a l Ea. destruct (HS a l Ea) as (A1 & A2 & A3 & _). unfold TEXT_MAX, MAX_STRING_LEN in *. split_and!; [exact A1|lia|exact A3]. }
  destruct (R' ltac:(lia)) as [R1 R2]. exists c'. split; [|split].
  - unfold log, klog, on_console, zoom. cbn [k_console k_core]. by rewrite E.
  - split; [|exact S'|exact R1|by rewrite R2]. intros a l Ea. destruct (HS a l Ea) as (A1 & A2 & A3). split; [|by split].
    apply (str_kept buffers (text c) (text c') a l O' A3 A1).
  - split; [by rewrite P', Hd|]. intros a Ha _. by apply O'.
Qed.

End Lines.

(** ** Page tables *)

(** The flags of an entry: the bit, the text when it is set and when it is not. *)
Definition pte_table : list (Z * list Z * list Z) :=
  [(PTE_PRESENT, chars "Present, ", []); (PTE_WRITABLE, chars "Read/Write, ", chars "Read, ");
   (PTE_USER, chars "Kernel & User, ", chars "Kernel Only, "); (PTE_WRITETHROUGH, chars "Writethrough, ", []);
   (PTE_CACHE_DISABLE, chars "Cache Disable, ", []); (PTE_ACCESSED, chars "Accessed, ", []); (PTE_DIRTY, chars "Dirty, ", []);
   (PTE_PAT, chars "PAT, ", []); (PTE_GLOBAL, chars "Global, ", [])].

Definition pde_table : list (Z * list Z * list Z) :=
  [(PDE_PRESENT, chars "Present, ", []); (PDE_WRITABLE, chars "Read/Write, ", chars "Read, ");
   (PDE_USER, chars "Kernel & User, ", chars "Kernel Only, "); (PDE_WRITETHROUGH, chars "Writethrough, ", []);
   (PDE_CACHE_DISABLE, chars "Cache Disable, ", []); (PDE_ACCESSED, chars "Accessed, ", []);
   (PDE_PAGE_SIZE_4M, chars "4MB Page, ", []); (PDE_GLOBAL, chars "Global, ", [])].

Definition flag_text (e : Z) (f : Z * list Z * list Z) : list Z := if TEST_BIT e f.1.1 then f.1.2 else f.2.

Definition flags_text (table : list (Z * list Z * list Z)) (e : Z) : list Z := concat (flag_text e <$> table).

(** The lines of an entry at address [a].  A table entry loses the last character
    of its flags, the space after the comma; a directory entry keeps it. *)
Definition entry_line (kind : list Z) (a e : Z) (fl : list Z) : list Z :=
  kind ++ chars "[VA: 0x" ++ hexadecimal (u32 a) ++ chars ", Raw: 0x" ++ hexadecimal (u32 e) ++ chars ", Flags: " ++ fl ++ chars "]" ++ [10].

Definition pte_line (a e : Z) : list Z := entry_line (chars "PTE") a e (removelast (flags_text pte_table e)).

Definition pde_line (a e : Z) : list Z := entry_line (chars "PDE") a e (flags_text pde_table e).

(** The report on a directory in kernel memory [w]. *)
Definition table_lines (w : gmap Z Z) (pgt j : Z) : list (list Z) :=
  match w !! (pgt + 4 * j) with
  | Some e => if PTE_EXISTS e then [pte_line (pgt + 4 * j) e] else []
  | None => []
  end.

Definition directory_lines (w : gmap Z Z) (pgd i : Z) : list (list Z) :=
  match w !! (pgd + 4 * i) with
  | Some e =>
      if PDE_EXISTS e && negb (TEST_BIT e PDE_PAGE_SIZE_4M)
      then pde_line (pgd + 4 * i) e :: concat (table_lines w (PDE_TO_PGT e) <$> seqZ 0 1024) else []
  | None => []
  end.

Definition pgd_report (w : gmap Z Z) (pgd : Z) : list (list Z) := concat (directory_lines w pgd <$> seqZ 0 1024).

(** The directory and the tables it refers to are in memory. *)
Definition pgd_mapped (w : gmap Z Z) (pgd : Z) : Prop :=
  forall i, 0 <= i < 1024 -> exists e, w !! (pgd + 4 * i) = Some e /\
    (PDE_EXISTS e = true -> TEST_BIT e PDE_PAGE_SIZE_4M = false -> forall j, 0 <= j < 1024 -> is_Some (w !! (PDE_TO_PGT e + 4 * j))).

Definition table_texts (table : list (Z * list Z * list Z)) : list (list Z) :=
  filter (fun l => l <> []) (table.*1.*2 ++ table.*2).

Definition ptable_texts : list (list Z) :=
  [chars "[%s] %s"; chars "PTE[VA: 0x%x, Raw: 0x%x, Flags: %s]" ++ [10]; chars "PDE[VA: 0x%x, Raw: 0x%x, Flags: %s]" ++ [10]] ++
  table_texts pte_table ++ table_texts pde_table.

Section Tables.
  Context (literal : list Z -> Z) (buffers : log_buffers) (file flag_str : Z) (file_name : list Z) (d : Z) (t0 : term).
  Context (K : Z -> option (list Z)).
  Implicit Types (c : console) (x : core).

(** The strings keep away from the array of flags, which keeps away from the log. *)
Context (HF : forall a l, K a = Some l -> apart a (Z.of_nat (length l) + 1) flag_str 256).
Context (HO : off_buffers buffers flag_str 256).

(** Only the array of flags changed; it holds [s]. *)
Record flags_at c0 (s : list Z) c : Prop := FlagsAt {
  fa_text : str_at (text c) flag_str s;
  fa_only : only (text c0) (text c) flag_str 256;
  fa_screen : screen c = screen c0;
  fa_port : port c = port c0
}.

(** [f] adds [s] to the flags. *)
Definition adds (f : ST kernel unit) x (s : list Z) : Prop :=
  forall c0 c pre, strings_ok buffers K (text c0) -> flags_at c0 pre c -> Z.of_nat (length pre) + Z.of_nat (length s) <= 255 ->
  exists c', f (Kernel c x) = Some (tt, Kernel c' x) /\ flags_at c0 (pre ++ s) c'.

Lemma flags_string c0 c a l : strings_ok buffers K (text c0) -> only (text c0) (text c) flag_str 256 -> K a = Some l -> str_at (text c) a l.
Proof using HF.
  intros HS Ho Ea. destruct (HS a l Ea) as (H1 & _). eapply str_frame; [exact Ho|by apply HF|exact H1].
Qed.

Lemma adds_strcat x s : K (literal s) = Some s -> adds (strcat_flags literal flag_str s) x s.
Proof using HF.
  intros Ks c0 c pre HS [H1 H2 H3 H4] Hl. pose proof (HF _ _ Ks) as Ha.
  destruct (strcat_spec flag_str (literal s) (text c) pre s H1) as (m' & E & Hm & Ho);
    [by eapply flags_string|unfold MAX_STRING_LEN; lia|unfold apart in Ha; lia|].
  exists (Console m' (screen c) (port c)). split.
  - unfold strcat_flags, on_console, zoom, on_text, bind. cbn [k_console k_core]. by rewrite E.
  - split; [done| |done..]. intros y Hy. rewrite Ho by lia. by apply H2.
Qed.

Lemma adds_nil x : adds (ret tt) x [].
Proof using. intros c0 c pre _ H _. exists c. rewrite app_nil_r. by split. Qed.

Lemma adds_bind f g x s1 s2 : adds f x s1 -> adds g x s2 -> adds (f ;; g)%st x (s1 ++ s2).
Proof using.
  intros Hf Hg c0 c pre HS H Hl. rewrite length_app in Hl. destruct (Hf c0 c pre HS H ltac:(lia)) as (c1 & E1 & H1).
  destruct (Hg c0 c1 (pre ++ s1) HS H1) as (c2 & E2 & H2); [rewrite length_app; lia|].
  exists c2. rewrite app_assoc. split; [by rewrite (bind_some _ _ _ _ _ E1)|exact H2].
Qed.

Lemma word_run a e c x : kmem (core_heap x) !! a = Some e -> word a (Kernel c x) = Some (e, Kernel c x).
Proof using. intros E. unfold word, ask, on_core, zoom. cbn [k_core k_console]. by rewrite E. Qed.

Lemma adds_word a e x g s : kmem (core_heap x) !! a = Some e -> adds (g e) x s -> adds (v <- word a ;; g v)%st x s.
Proof using. intros E Hg c0 c pre HS H Hl. rewrite (bind_some _ _ _ _ _ (word_run a e c x E)). by apply Hg. Qed.

Lemma adds_flag a e x bit s t : kmem (core_heap x) !! a = Some e -> K (literal s) = Some s -> t = [] ->
  adds (flag literal flag_str a bit s) x (flag_text e (bit, s, t)).
Proof using HF. intros E Ks ->. apply (adds_word a e); [done|]. unfold flag_text. cbn. destruct (TEST_BIT e bit); [by apply adds_strcat|apply adds_nil]. Qed.

Lemma adds_flag_else a e x bit s t : kmem (core_heap x) !! a = Some e -> K (literal s) = Some s -> K (literal t) = Some t ->
  adds (flag_else literal flag_str a bit s t) x (flag_text e (bit, s, t)).
Proof using HF. intros E Ks Kt. apply (adds_word a e); [done|]. unfold flag_text. cbn. destruct (TEST_BIT e bit); by apply adds_strcat. Qed.

(** [g] sends the lines [L] of the flags so far, at most [n] characters, and [T]. *)
Definition flushes (n : nat) (g : ST kernel unit) x (T : list Z) (L : list Z -> list (list Z)) : Prop :=
  forall c0 c pre k, flags_at c0 pre c -> (length pre <= n)%nat -> pre ++ T <> [] ->
  log_ok buffers d t0 K (length (lines_bytes file_name (L (pre ++ T))) + k) c0 ->
  exists c', g (Kernel c x) = Some (tt, Kernel c' x) /\ log_ok buffers d t0 K k c' /\ wrote buffers flag_str d c0 c' (lines_bytes file_name (L (pre ++ T))).

Lemma flush_step w n f g x s T L : adds f x s -> (length s <= w)%nat -> (n + w <= 255)%nat -> flushes (n + w) g x T L -> flushes n (f ;; g)%st x (s ++ T) L.
Proof using.
  intros Hf Hs Hn Hg c0 c pre k HA Hp Hne HL. destruct (Hf c0 c pre (lo_strings _ _ _ _ _ _ HL) HA ltac:(lia)) as (c1 & E1 & H1).
  rewrite app_assoc in HL, Hne |- *. rewrite (bind_some _ _ _ _ _ E1). apply (Hg c0 c1 (pre ++ s) k); [done|rewrite length_app; lia|done|done].
Qed.

(** The strings together with the flags. *)
Definition and_flags (fl : list Z) (a : Z) : option (list Z) := if a =? flag_str then Some fl else K a.

Lemma flags_log_ok c0 c fl k : flags_at c0 fl c -> (length fl <= TEXT_MAX)%nat -> log_ok buffers d t0 K k c0 -> log_ok buffers d t0 (and_flags fl) k c.
Proof using HF HO.
  intros [H1 H2 H3 H4] Hl [HS L2 L3 L4]. split; [|by rewrite H3|by rewrite H4|by rewrite H4].
  intros a l Ea. unfold and_flags in Ea. destruct (Z.eqb_spec a flag_str) as [->|Hne].
  - injection Ea as <-. split; [exact H1|]. split; [exact Hl|]. destruct HO as (O1 & O2 & O3 & O4 & O5). unfold TEXT_MAX, off_buffers, apart in *. lia.
  - destruct (HS a l Ea) as (_ & S2 & S3). split; [by eapply flags_string|by split].
Qed.

Lemma on_text_run {A} (f : ST bytes A) r m c x : f (text c) = Some (r, m) ->
  on_console (on_text f) (Kernel c x) = Some (r, Kernel (Console m (screen c) (port c)) x).
Proof using. intros E. unfold on_console, zoom, on_text. cbn [k_console k_core]. by rewrite E. Qed.

(** Cutting the last character of the flags off. *)
Lemma cut_run c0 c s ch x : flags_at c0 (s ++ [ch]) c -> (length s <= 200)%nat ->
  exists c1 c', on_console (on_text (strlen flag_str)) (Kernel c x) = Some (Z.of_nat (length (s ++ [ch])), Kernel c x) /\
    on_console (on_text (wr (flag_str + Z.of_nat (length (s ++ [ch]))) 0)) (Kernel c x) = Some (tt, Kernel c1 x) /\
    on_console (on_text (strlen flag_str)) (Kernel c1 x) = Some (Z.of_nat (length (s ++ [ch])), Kernel c1 x) /\
    on_console (on_text (wr (flag_str + (Z.of_nat (length (s ++ [ch])) - 1)) 0)) (Kernel c1 x) = Some (tt, Kernel c' x) /\
    flags_at c0 s c'.
Proof using.
  intros [H1 H2 H3 H4] Hl. assert (El : length (s ++ [ch]) = S (length s)) by (rewrite length_app; cbn; lia).
  assert (HL : Z.of_nat (length (s ++ [ch])) < MAX_STRING_LEN) by (unfold MAX_STRING_LEN; lia). destruct H1 as [Hs Hc].
  set (n := Z.of_nat (length (s ++ [ch]))) in *. set (m1 := <[flag_str + n := u8 0]> (text c)).
  assert (H1' : str_at m1 flag_str (s ++ [ch])).
  { split; [|done]. pose proof Hs as Hs'. apply seg_app in Hs as [Hs _]. apply seg_app. split; [apply seg_insert; [unfold n; lia|done]|].
    apply seg_cons. split; [|apply seg_nil]. unfold m1, n. apply lookup_insert_eq. }
  exists (Console m1 (screen c) (port c)), (Console (<[flag_str + (n - 1) := u8 0]> m1) (screen c) (port c)).
  split; [rewrite (on_text_run _ n (text c)); [by destruct c|apply strlen_spec; [by split|done]]|].
  split; [exact (on_text_run _ tt _ c x (wr_run _ _ _))|].
  split; [exact (on_text_run _ n m1 (Console m1 (screen c) (port c)) x (strlen_spec _ _ _ H1' HL))|].
  split; [exact (on_text_run _ tt _ (Console m1 (screen c) (port c)) x (wr_run _ _ _))|].
  split; [|intros y Hy|done|done].
  - split; [|by apply Forall_app in Hc as [Hc _]]. destruct H1' as [Hs' _]. rewrite <- app_assoc in Hs'. apply seg_app in Hs' as [Hs' _].
    apply seg_app. split; [apply seg_insert; [unfold n; lia|done]|]. apply seg_cons. split; [|apply seg_nil]. cbn [text].
    replace (flag_str + Z.of_nat (length s)) with (flag_str + (n - 1)) by (unfold n; lia). apply lookup_insert_eq.
  - cbn [text]. unfold m1. rewrite !lookup_insert_ne by (unfold n; lia). by apply H2.
Qed.

(** From the cleared array on. *)
Lemma emits_flags g x T L : T <> [] -> flushes 0 g x T L ->
  emits buffers flag_str file_name d t0 K (on_console (on_text (memset flag_str 0 256)) ;; g)%st x (L T) x.
Proof using.
  intros Hne Hg c k HL. destruct (memset_empty flag_str 256 (text c) ltac:(lia)) as (m & E & Ho & Hs).
  st_step (on_text_run _ _ _ _ x E). exact (Hg c (Console m (screen c) (port c)) [] k (FlagsAt c [] (Console m (screen c) (port c)) Hs Ho eq_refl eq_refl) (le_n 0) Hne HL).
Qed.

Lemma flag_text_length e f : (length (flag_text e f) <= Nat.max (length f.1.2) (length f.2))%nat.
Proof using. unfold flag_text. destruct (TEST_BIT e f.1.1); lia. Qed.

Context (HB : buffers_apart buffers) (Hfile : (length file_name <= 64)%nat).
Context (HK : forall l, l ∈ ptable_texts -> K (literal l) = Some l) (HN : K file = Some file_name).

(** The log message with the flags. *)
Lemma flush_log a e x kind fl c0 c k : kmem (core_heap x) !! a = Some e -> lit_ok kind = true -> (length kind <= 3)%nat ->
  kind ++ chars "[VA: 0x%x, Raw: 0x%x, Flags: %s]" ++ [10] ∈ ptable_texts ->
  flags_at c0 fl c -> (length fl <= TEXT_MAX)%nat -> log_ok buffers d t0 K (length (lines_bytes file_name [entry_line kind a e fl]) + k) c0 ->
  exists c', (v <- word a ;; log literal buffers file (kind ++ chars "[VA: 0x%x, Raw: 0x%x, Flags: %s]" ++ [10]) [a; v; flag_str])%st (Kernel c x) = Some (tt, Kernel c' x) /\
    log_ok buffers d t0 K k c' /\ wrote buffers flag_str d c0 c' (lines_bytes file_name [entry_line kind a e fl]).
Proof using HB HF HK HN HO Hfile.
  intros Ew Hk Hkl Hin HA Hl HL. rewrite (bind_some _ _ _ _ _ (word_run a e c x Ew)).
  assert (HE : forall b l, K b = Some l -> and_flags fl b = Some l).
  { intros b l Eb. unfold and_flags. destruct (Z.eqb_spec b flag_str) as [->|]; [|done]. exfalso. pose proof (HF _ _ Eb) as Hx. unfold apart in Hx. lia. }
  set (m := [Lit (kind ++ chars "[VA: 0x"); Hex a; Lit (chars ", Raw: 0x"); Hex e; Lit (chars ", Flags: "); Str flag_str; Lit (chars "]" ++ [10])]).
  assert (Em : text_of (and_flags fl) m = entry_line kind a e fl).
  { unfold text_of, m, entry_line. cbn [fmap list_fmap map concat piece_text]. unfold and_flags. rewrite Z.eqb_refl. cbn [default]. by rewrite <- !app_assoc, app_nil_r. }
  destruct (emits_log literal buffers file flag_str file_name d t0 HB Hfile (and_flags fl) (kind ++ chars "[VA: 0x%x, Raw: 0x%x, Flags: %s]" ++ [10]) [a; e; flag_str] m x) with (c := c) (k := k)
    as (c' & E & [L1 L2 L3 L4] & [W1 W2]); rewrite ?Em in *.
  - unfold fmt_of, m. cbn [fmap list_fmap map concat piece_format]. rewrite <- !app_assoc. reflexivity.
  - reflexivity.
  - repeat constructor; try exact I; [|cbn; unfold and_flags; rewrite Z.eqb_refl; by eexists]. cbn [piece_ok]. unfold lit_ok in *. rewrite forallb_app, Hk. reflexivity.
  - unfold room_of, m. cbn [fmap list_fmap map sum_list piece_room]. rewrite length_app. cbn. unfold TEXT_MAX. lia.
  - apply HE, HK, Hin.
  - apply HE, HK. apply list_elem_of_here.
  - apply HE, HN.
  - by apply (flags_log_ok c0).
  - destruct HA as [A1 A2 A3 A4]. exists c'. split; [exact E|]. split; [split; [|exact L2|exact L3|exact L4]|split].
    + intros b l Eb. apply L1, HE, Eb.
    + by rewrite W1, A4.
    + intros y Hy Hf. rewrite W2 by done. apply A2. unfold apart in Hf. lia.
Qed.

(** The last steps of the two printers. *)
Lemma flush_pde a e x n : kmem (core_heap x) !! a = Some e -> (n <= TEXT_MAX)%nat ->
  flushes n (v <- word a ;; log literal buffers file (chars "PDE[VA: 0x%x, Raw: 0x%x, Flags: %s]" ++ [10]) [a; v; flag_str])%st x []
    (fun fl => [entry_line (chars "PDE") a e fl]).
Proof using HB HF HK HN HO Hfile.
  intros Ew Hn c0 c pre k HA Hp _ HL. rewrite app_nil_r in *. refine (flush_log a e x (chars "PDE") pre c0 c k Ew eq_refl _ _ HA _ HL); [cbn; lia| |lia].
  apply (bool_decide_unpack _). vm_compute. exact I.
Qed.

Lemma flush_pte a e x n : kmem (core_heap x) !! a = Some e -> (n <= TEXT_MAX)%nat ->
  flushes n (i <- on_console (on_text (strlen flag_str)) ;; on_console (on_text (wr (flag_str + i) 0)) ;;
             i <- on_console (on_text (strlen flag_str)) ;; on_console (on_text (wr (flag_str + (i - 1)) 0)) ;;
             v <- word a ;; log literal buffers file (chars "PTE[VA: 0x%x, Raw: 0x%x, Flags: %s]" ++ [10]) [a; v; flag_str])%st x []
    (fun fl => [entry_line (chars "PTE") a e (removelast fl)]).
Proof using HB HF HK HN HO Hfile.
  intros Ew Hn c0 c pre k HA Hp Hne HL. rewrite app_nil_r in *. destruct (exists_last Hne) as (s & ch & ->). rewrite removelast_last in *.
  rewrite length_app in Hp. cbn [length] in Hp. destruct (cut_run c0 c s ch x HA ltac:(unfold TEXT_MAX in *; lia)) as (c1 & c2 & E1 & E2 & E3 & E4 & H2).
  st_step E1. st_step E2. st_step E3. st_step E4.
  refine (flush_log a e x (chars "PTE") s c0 c2 k Ew eq_refl _ _ H2 _ HL); [cbn; lia| |lia]. apply (bool_decide_unpack _). vm_compute. exact I.
Qed.

(** One flag of a table. *)
Ltac flag_step add :=
  eapply flush_step; [apply add; [eassumption|apply HK, (bool_decide_unpack _); vm_compute; exact I|]|apply flag_text_length| |];
  [try reflexivity; apply HK, (bool_decide_unpack _); vm_compute; exact I|apply Nat.leb_le; vm_compute; reflexivity|].

Lemma emits_pte pte e x : kmem (core_heap x) !! pte = Some e -> emits buffers flag_str file_name d t0 K (ptable_print_pte literal buffers file flag_str pte) x [pte_line pte e] x.
Proof using HB HF HK HN HO Hfile.
  intros Ew. apply (emits_flags _ x (flags_text pte_table e) (fun fl => [entry_line (chars "PTE") pte e (removelast fl)])).
  - unfold flags_text, flag_text. cbn [pte_table fmap list_fmap map concat fst snd]. destruct (TEST_BIT e PTE_PRESENT); [discriminate|]. by destruct (TEST_BIT e PTE_WRITABLE).
  - unfold flags_text. cbn [pte_table fmap list_fmap map concat].
    flag_step adds_flag. flag_step adds_flag_else. flag_step adds_flag_else. do 6 flag_step adds_flag.
    apply flush_pte; [exact Ew|]. apply Nat.leb_le. vm_compute. reflexivity.
Qed.

Lemma emits_pde pde e x : kmem (core_heap x) !! pde = Some e -> emits buffers flag_str file_name d t0 K (ptable_print_pde literal buffers file flag_str pde) x [pde_line pde e] x.
Proof using HB HF HK HN HO Hfile.
  intros Ew. apply (emits_flags _ x (flags_text pde_table e) (fun fl => [entry_line (chars "PDE") pde e fl])).
  - unfold flags_text, flag_text. cbn [pde_table fmap list_fmap map concat fst snd]. destruct (TEST_BIT e PDE_PRESENT); [discriminate|]. by destruct (TEST_BIT e PDE_WRITABLE).
  - unfold flags_text. cbn [pde_table fmap list_fmap map concat].
    flag_step adds_flag. flag_step adds_flag_else. flag_step adds_flag_else. do 5 flag_step adds_flag.
    apply flush_pde; [exact Ew|]. apply Nat.leb_le. vm_compute. reflexivity.
Qed.

Lemma emits_pgd pgd x : pgd_mapped (kmem (core_heap x)) pgd ->
  emits buffers flag_str file_name d t0 K (ptable_print_pgd literal buffers file flag_str pgd) x (pgd_report (kmem (core_heap x)) pgd) x.
Proof using HB HF HK HN HO Hfile.
  intros HM. apply emits_loop. change (Z.of_nat (Z.to_nat PAGE_DIR_SIZE)) with 1024. intros i Hi. destruct (HM i ltac:(lia)) as (e & Ee & HT).
  unfold print_directory_entry, directory_lines. rewrite Ee. apply (emits_ask _ _ _ _ _ _ _ e); [exact Ee|].
  destruct (PDE_EXISTS e) eqn:Ep; cbn [negb andb]; [|apply emits_ret]. apply (emits_ask _ _ _ _ _ _ _ e); [exact Ee|].
  destruct (TEST_BIT e PDE_PAGE_SIZE_4M) eqn:E4; cbn [negb]; [apply emits_ret|].
  apply (emits_bind _ _ _ _ _ _ _ _ x [pde_line (pgd + 4 * i) e] x); [by apply emits_pde|]. apply (emits_ask _ _ _ _ _ _ _ e); [exact Ee|].
  apply emits_loop. change (Z.of_nat (Z.to_nat PAGE_TABLE_SIZE)) with 1024. intros j Hj. destruct (HT eq_refl eq_refl j ltac:(lia)) as [v Ev].
  unfold print_entry, table_lines. rewrite Ev. apply (emits_ask _ _ _ _ _ _ _ v); [exact Ev|].
  destruct (PTE_EXISTS v); cbn [negb]; [by apply emits_pte|apply emits_ret].
Qed.

End Tables.
