(* ===== verification/DebugReports.v ===== *)
(** * The reports of the debug printers

    The lines of each printer as a function of the data: the tasks in the order of
    the list, the slabs of every cache, the regions of early memory, the free
    blocks of every order, the registered file systems. *)

From Stdlib Require Import String Ascii.
From stdpp Require Import base numbers list gmap.
From Stdlib Require Import ZArith Lia.
From S2P Require Import Prelude LinkedList CString CStringSpec SprintfSpec PageDefs Bootmem BootmemSpec Blocks Palloc BuddyInv PageAlloc PageSource PageClaims Slab SlabInv SlabSpec HeapClaims Ptable Task TaskSpec Vfs VfsSpec Interrupts Console ConsoleSpec Logging LoggingSpec ArchInit ArchInitSpec DebugPrint DebugPrintSpec.

#[local] Open Scope Z_scope.

(** ** The messages *)

Definition line (s : string) : list Z := chars s ++ [10].

(** A message that ends a line. *)
Definition task_report (literal : list Z -> Z) (t : Z) (y : task) : list (list piece) :=
  [[Lit (chars "["); Dec (tid y); Lit (chars "] '"); Str (t + TASK_NAME); Lit (chars "' ("); Str (literal (state_str (tstate y)));
    Lit (chars ", priority "); Dec (priority y); Lit (line ") ")];
   [Lit (chars "      type:        "); Str (literal (if ttype y =? TASK_KERNEL then chars "Kernel" else chars "Usermode")); Lit [10]];
   [Lit (chars "      kstack top:  0x"); Hex (kstack_top y); Lit (chars " | bot: 0x"); Hex (kstack_bot y); Lit [10]];
   [Lit (chars "      kstack_size: "); Dec (kstack_size y); Lit (line " bytes")];
   [Lit (chars "      stack_used:  "); Dec (kstack_bot y - kstack_top y); Lit (line " bytes")];
   [Lit (chars "      vm_space:    0x"); Hex (vm_space y); Lit [10]];
   [Lit (chars "      ticks:  "); Dec (ticks y); Lit [10]]].

(** The numbers a task's lines print in decimal. *)
Definition task_printable (y : task) : Prop :=
  Forall printable_number [tid y; priority y; kstack_size y; kstack_bot y - kstack_top y; ticks y].

(** The characters of a name before its terminator. *)
Fixpoint name_text (l : list Z) : list Z :=
  match l with
  | [] => []
  | c :: r => if c =? 0 then [] else c :: name_text r
  end.

Definition slab_report (sz : Z) (slab : Z * list Z) : list piece :=
  [Lit (chars "  -> Slab[addr: 0x"); Hex slab.1; Lit (chars " -> 0x"); Hex (slab.1 + SLAB_BYTES); Lit (chars ", pages: "); Dec 16;
   Lit (chars ", totalbytes: "); Dec SLAB_BYTES; Lit (chars ", order: "); Dec SLAB_DEFAULT_ORDER; Lit (chars ", objtotal: "); Dec (nobj sz);
   Lit (chars ", objfree: "); Dec (Z.of_nat (length slab.2)); Lit (chars ", objused: "); Dec (nobj sz - Z.of_nat (length slab.2)); Lit (line "]")].

Definition cache_report (addr sz : Z) (S : list (Z * list Z)) : list (list piece) :=
  [Lit (chars "Cache '"); Str addr; Lit (chars "' [addr: 0x"); Hex addr; Lit (chars ", objsize: "); Dec sz; Lit (line "]")] ::
  (match S with [] => [[Lit (line "  No slabs!")]] | _ => slab_report sz <$> S end) ++ [[Lit [10]]].

Definition region_report (r : mem_region) (i : Z) : list (list piece) :=
  if start_addr r =? 0 then [] else
  [[Lit (chars "Region["); Dec i; Lit (chars "]: 0x"); Hex (start_addr r); Lit (chars " -> 0x"); Hex (end_addr r); Lit (chars " (");
    Dec (u32 (start_addr r - orig_start_addr r)); Lit (line " bytes alloced.)")]].

Definition type_report (t : Z) (ty : file_system_type) : list piece :=
  [Lit (chars "  Type: "); Str (fs_name ty); Lit (chars " (0x"); Hex t; Lit (line ")")].

(** The end of the page array is computed with the size of a page structure
    twice (see [buddy_print_debug]). *)
Definition buddy_report (b : buddy) : list (list piece) :=
  [[Lit (line "--- Buddy Allocator Info ---")];
   [Lit (chars "Page Count:          "); Dec (page_count b); Lit [10]];
   [Lit (chars "Max Order:           "); Dec 6; Lit [10]];
   [Lit (chars "Page Area Start:     0x"); Hex (page_area b); Lit [10]];
   [Lit (chars "Page Area End:       0x"); Hex (u32 (page_area b + 24 * u32 (page_count b * 24))); Lit [10]]].

Definition order_report (b : buddy) (i : Z) : list (list piece) :=
  match blocks b !! i with
  | Some bl => [[Lit (chars "Order["); Dec i; Lit (chars "] Free: "); Dec (free_count bl); Lit [10]]]
  | None => []
  end.

Definition page_report (pg : page) : list (list piece) :=
  [[Lit (chars "--- Page "); Dec (pfn pg); Lit (line " Info ---")];
   [Lit (chars "Use Count:  "); Dec (use_count pg); Lit [10]];
   [Lit (chars "Flags:      0x"); Hex (flags pg); Lit [10]];
   [Lit (chars "Order:      "); Dec (order pg); Lit [10]];
   [Lit (chars "Phys. Addr: 0x"); Hex (PFN_TO_PA (pfn pg)); Lit [10]];
   [Lit (chars "Virt. Addr: 0x"); Hex (PHY_TO_VIR (PFN_TO_PA (pfn pg))); Lit [10]]].

Definition descriptor_report (name : Z) (e : gdt_entry) : list (list piece) :=
  [[Str name; Lit (line ":")];
   [Lit (chars "    b_low: 0x"); Hex (base_low e); Lit (chars " b_mid: 0x"); Hex (base_middle e); Lit (chars " b_high: 0x"); Hex (base_high e); Lit [10]];
   [Lit (chars "    gran: 0x"); Hex (granularity e); Lit (chars " access: 0x"); Hex (access_flags e); Lit [10]]].

(** All format strings and literals of the printers. *)
Definition report_texts : list (list Z) :=
  [chars "[%s] %s"; [10]; line "Task List"; line "-----------------------------"; line "[%d] '%s' (%s, priority %d) "; line "      type:        %s";
   line "      kstack top:  0x%x | bot: 0x%x"; line "      kstack_size: %d bytes"; line "      stack_used:  %d bytes"; line "      vm_space:    0x%x";
   line "      ticks:  %d"; chars "EMPTY"; chars "RUNNING"; chars "WAITING"; chars "PAUSED"; chars "KILLED"; chars "UNKNOWN"; chars "Kernel"; chars "Usermode";
   line "Cache '%s' [addr: 0x%x, objsize: %d]"; line "  No slabs!";
   line "  -> Slab[addr: 0x%x -> 0x%x, pages: %d, totalbytes: %d, order: %d, objtotal: %d, objfree: %d, objused: %d]";
   line "--- Bootmem Info ---"; line "Memory Regions:      %d"; line "Highests Phys. Addr: 0x%x"; line "Region[%d]: 0x%x -> 0x%x (%d bytes alloced.)";
   line "--- Buddy Allocator Info ---"; line "Page Count:          %d"; line "Max Order:           %d"; line "Page Area Start:     0x%x";
   line "Page Area End:       0x%x"; line "Order[%d] Free: %d";
   line "--- Page %d Info ---"; line "Use Count:  %d"; line "Flags:      0x%x"; line "Order:      %d"; line "Phys. Addr: 0x%x"; line "Virt. Addr: 0x%x";
   line "%s:"; line "    b_low: 0x%x b_mid: 0x%x b_high: 0x%x"; line "    gran: 0x%x access: 0x%x"; line "Registered filesystem types:"; line "  Type: %s (0x%x)"].

Lemma fmap_concat {A B C} (f : B -> C) (g : A -> list B) (l : list A) : f <$> concat (g <$> l) = concat ((fun a => f <$> g a) <$> l).
Proof. induction l as [|a l IH]; [done|]. cbn [fmap list_fmap map concat]. by rewrite <- IH, <- fmap_app. Qed.

Lemma small_printable n : 0 <= n < 2147483648 -> printable_number n.
Proof. intros Hn. unfold printable_number. rewrite i32_small by lia. lia. Qed.

Section Reports.
  Context (literal : list Z -> Z) (buffers : log_buffers) (file flag_str : Z) (file_name : list Z) (d : Z) (t0 : term).
  Context (task_head slab_caches_addr : Z) (K : Z -> option (list Z)).
  Implicit Types (x : core) (l : list Z).
  Context (HB : buffers_apart buffers) (Hfile : (length file_name <= 64)%nat).
  Context (HK : forall l, l ∈ report_texts -> K (literal l) = Some l) (HN : K file = Some file_name).

(** The lines of a report. *)
Definition lines_of (r : list (list piece)) : list (list Z) := text_of K <$> r.

(** [f] takes [x] to [x'] and sends the report. *)
Definition sends (f : ST kernel unit) x (r : list (list piece)) x' : Prop := emits buffers flag_str file_name d t0 K f x (lines_of r) x'.

Lemma say fmt args m x : fmt ∈ report_texts -> fmt = fmt_of m -> args = args_of m -> Forall (piece_ok K) m -> (room_of m <= 440)%nat ->
  sends (log literal buffers file fmt args) x [m] x.
Proof using HB HK HN Hfile.
  intros Hin Ef Ea Hm Hr. apply emits_log; try done; [by apply HK|]. apply HK, list_elem_of_here.
Qed.

Lemma then_send f g r1 r2 x x1 x2 : sends f x r1 x1 -> sends g x1 r2 x2 -> sends (f ;; g)%st x (r1 ++ r2) x2.
Proof using. intros Hf Hg. unfold sends, lines_of. rewrite fmap_app. by apply (emits_bind _ _ _ _ _ _ _ _ _ _ x1). Qed.

(** A message, then the rest of the printer. *)
Lemma say_then fmt args m g x r x' : sends (log literal buffers file fmt args) x [m] x -> sends g x r x' ->
  sends (log literal buffers file fmt args ;; g)%st x (m :: r) x'.
Proof using. apply (then_send _ _ [m]). Qed.

Lemma ask_then {A} (f : core -> option A) a (g : A -> ST kernel unit) x r x' : f x = Some a -> sends (g a) x r x' -> sends (v <- ask f ;; g v)%st x r x'.
Proof using. apply emits_ask. Qed.

Lemma send_nothing x : sends (ret tt) x [] x.
Proof using. apply emits_ret. Qed.

Lemma send_loop f x (R : Z -> list (list piece)) n i : (forall j, i <= j < i + Z.of_nat n -> sends (f j) x (R j) x) ->
  sends (for_each n i f) x (concat (R <$> seqZ i (Z.of_nat n))) x.
Proof using.
  intros Hf. unfold sends, lines_of.
  rewrite fmap_concat. apply (emits_loop _ _ _ _ _ _ f x (fun j => text_of K <$> R j)). exact Hf.
Qed.

Lemma sched_then {A} (f : ST (sched buddy) A) a (g : A -> ST kernel unit) x r x' :
  f (co_sched x) = Some (a, co_sched x) -> sends (g a) x r x' -> sends (v <- on_sched f ;; g v)%st x r x'.
Proof using. intros E. apply emits_get. unfold zoom. rewrite E. by destruct x. Qed.

(** The side conditions of a message. *)
Ltac pieces := repeat apply Forall_cons_2; try apply Forall_nil_2; try exact I; try reflexivity; try assumption; try (eexists; eassumption).
Ltac saying := apply say; [apply (bool_decide_unpack _); vm_compute; exact I|reflexivity|reflexivity|pieces|apply Nat.leb_le; vm_compute; reflexivity].

(** ** Tasks *)

Lemma state_text st : K (literal (state_str st)) = Some (state_str st).
Proof using HK.
  apply HK. unfold state_str. repeat case_match; apply (bool_decide_unpack _); vm_compute; exact I.
Qed.

Lemma type_text b : K (literal (if b : bool then chars "Kernel" else chars "Usermode")) = Some (if b then chars "Kernel" else chars "Usermode").
Proof using HK. apply HK. destruct b; apply (bool_decide_unpack _); vm_compute; exact I. Qed.

Lemma send_task t y x : tasks (co_sched x) !! t = Some y -> K (t + TASK_NAME) = Some (name_text (tname y)) -> task_printable y ->
  sends (print_task literal buffers file t) x (task_report literal t y) x.
Proof using HB HK HN Hfile.
  intros Ey Kn Hp. apply Forall_cons in Hp as [P1 [P2 [P3 [P4 [P5 _]%Forall_cons]%Forall_cons]%Forall_cons]%Forall_cons].
  pose proof (state_text (tstate y)) as Ks. pose proof (type_text (ttype y =? TASK_KERNEL)) as Kt.
  apply (sched_then _ y); [unfold get_task; by rewrite Ey|]. unfold task_report. do 6 (apply say_then; [saying|]). saying.
Qed.

(** What the printer needs of the tasks. *)
Definition tasks_shown (s : sched buddy) l : Prop :=
  forall t y, t ∈ l -> tasks s !! t = Some y -> K (t + TASK_NAME) = Some (name_text (tname y)) /\ task_printable y.

Definition tasks_report (s : sched buddy) l : list (list piece) :=
  concat ((fun t => match tasks s !! t with Some y => task_report literal t y | None => [] end) <$> l).

Lemma send_tasks x l2 : forall l1 fuel, clist (tnodes (co_sched x)) task_head (l1 ++ l2) -> (forall t, t ∈ l2 -> is_Some (tasks (co_sched x) !! t)) ->
  tasks_shown (co_sched x) l2 -> (length l2 < fuel)%nat ->
  sends (print_tasks literal buffers file task_head fuel (Some (default task_head (head l2)))) x (tasks_report (co_sched x) l2) x.
Proof using HB HK HN Hfile.
  induction l2 as [|t l2 IH]; intros l1 [|fuel] C Hin Hs Hf; cbn in Hf; try lia; cbn [print_tasks head default from_option id].
  - rewrite Z.eqb_refl. apply send_nothing.
  - assert (Hne : (t =? task_head) = false).
    { apply Z.eqb_neq. intros ->. destruct C as [ND _]. apply NoDup_cons in ND as [ND _]. apply ND, elem_of_app. right. apply list_elem_of_here. }
    change (match _ with Some _ => t | None => task_head end) with t. rewrite Hne.
    destruct (Hin t (list_elem_of_here _ _)) as [y Ey]. destruct (Hs t y (list_elem_of_here _ _) Ey) as [Kn Hp].
    unfold tasks_report. cbn [fmap list_fmap map concat]. rewrite Ey. apply (then_send _ _ _ _ x x); [by apply send_task|].
    apply (sched_then _ (Some (default task_head (head l2)))); [apply (load_tnode _ _ _ (clist_next _ _ _ _ _ C))|].
    apply (IH (l1 ++ [t])); [by rewrite <- app_assoc|intros u Hu; apply Hin; by apply list_elem_of_further| |lia].
    intros u z Hu. apply Hs. by apply list_elem_of_further.
Qed.

Definition task_list_report (s : sched buddy) l : list (list piece) :=
  [Lit (line "Task List")] :: [Lit (line "-----------------------------")] :: tasks_report s l ++ [[Lit [10]]].

Lemma send_task_print x l : sched_ok task_head (co_sched x) l -> tasks_shown (co_sched x) l ->
  sends (task_print literal buffers file task_head) x (task_list_report (co_sched x) l) x.
Proof using HB HK HN Hfile.
  intros HS Hs. apply say_then; [saying|]. apply say_then; [saying|].
  set (x1 := with_sched (with_task_lock true (co_sched x)) x).
  apply (then_send _ _ [] _ x x1).
  { apply emits_core. unfold zoom, lock_tasks. by rewrite (so_lock _ _ _ HS). }
  apply (sched_then _ (Some (default task_head (head l)))); [apply load_tnode, clist_first, (so_list _ _ _ HS)|].
  apply (sched_then _ (tasks_fuel (co_sched x1))); [done|].
  apply (then_send _ _ (tasks_report (co_sched x) l) _ x1 x1).
  { apply (send_tasks x1 l []); [apply (so_list _ _ _ HS)|apply (so_tasks _ _ _ HS)|exact Hs|exact (tasks_fuel_enough _ _ _ HS)]. }
  apply (then_send _ _ [] _ x1 x); [|saying].
  apply emits_core. unfold zoom, unlock_tasks, modify. cbn [co_sched x1 with_sched]. rewrite with_lock_same by apply (so_lock _ _ _ HS). by destruct x.
Qed.

(** ** The heap *)

Lemma send_slab x sz b nx fl : size_ok sz -> slab_ok (kmem (core_heap x)) sz b nx fl ->
  sends (log literal buffers file (line "  -> Slab[addr: 0x%x -> 0x%x, pages: %d, totalbytes: %d, order: %d, objtotal: %d, objfree: %d, objused: %d]")
    [b; u32 (b + SLAB_BYTES); 16; SLAB_BYTES; SLAB_DEFAULT_ORDER; nobj sz; Z.of_nat (length fl); u32 (nobj sz - Z.of_nat (length fl))]) x
    [slab_report sz (b, fl)] x.
Proof using HB HK HN Hfile.
  intros Hs HS. pose proof (slab_ok_length _ _ _ _ _ Hs HS) as Hl. pose proof (nobj_small sz Hs) as Hn. destruct (so_base _ _ _ _ _ HS) as (B1 & B2 & _).
  rewrite (u32_small (b + SLAB_BYTES)) by (unfold KERNEL_START_VIRT, SLAB_BYTES in *; lia). rewrite (u32_small (nobj sz - _)) by lia.
  apply say; [apply (bool_decide_unpack _); vm_compute; exact I|reflexivity|reflexivity| |apply Nat.leb_le; vm_compute; reflexivity].
  unfold slab_report. cbn [fst snd]. pieces; apply small_printable; unfold SLAB_BYTES, SLAB_DEFAULT_ORDER; lia.
Qed.

Lemma send_slabs x sz S : size_ok sz -> forall fuel first, chain (kmem (core_heap x)) sz first S -> (length S < fuel)%nat ->
  sends (print_slabs literal buffers file fuel first) x (slab_report sz <$> S) x.
Proof using HB HK HN Hfile.
  intros Hs. induction S as [|[b fl] S IH]; intros [|fuel] first HC Hf; cbn [length] in Hf; try lia; cbn [chain print_slabs] in *.
  - subst first. apply send_nothing.
  - destruct HC as (-> & nx & HS & HC). pose proof (so_base _ _ _ _ _ HS) as (B1 & _).
    destruct (Z.eqb_spec b 0); [unfold KERNEL_START_VIRT in B1; lia|].
    apply (ask_then _ SLAB_DEFAULT_ORDER); [apply (so_order _ _ _ _ _ HS)|]. apply (ask_then _ (nobj sz)); [apply (so_count _ _ _ _ _ HS)|].
    apply (ask_then _ (Z.of_nat (length fl))); [apply (so_free _ _ _ _ _ HS)|].
    change (slab_report sz <$> (b, fl) :: S) with (slab_report sz (b, fl) :: (slab_report sz <$> S)).
    apply say_then; [exact (send_slab x sz b nx fl Hs HS)|]. apply (ask_then _ nx); [apply (so_next _ _ _ _ _ HS)|]. apply IH; [exact HC|lia].
Qed.

(** The names of the caches are known. *)
Definition cache_names : Prop := forall i, 0 <= i < 13 -> is_Some (K (cache_addr slab_caches_addr i)).

Definition heap_report (G : list (list (Z * list Z))) (i : Z) : list (list piece) :=
  match G !! Z.to_nat i, sizes !! Z.to_nat i with
  | Some slabs, Some sz => cache_report (cache_addr slab_caches_addr i) sz slabs
  | _, _ => []
  end.

Lemma send_cache `{!PageSource buddy} x G A i : heap_rep (core_heap x) G A -> cache_names -> 0 <= i < 13 ->
  sends (slab_cache_print_debug literal buffers file slab_caches_addr i) x (heap_report G i) x.
Proof using HB HK HN Hfile.
  intros HR HC Hi. destruct (HC i Hi) as [nm Kn].
  destruct (lookup_lt_is_Some_2 (caches (core_heap x)) (Z.to_nat i)) as [k Ek]; [rewrite (hr_caches _ _ _ HR); lia|].
  destruct (lookup_lt_is_Some_2 G (Z.to_nat i)) as [S ES]; [rewrite (hr_slabs _ _ _ HR); lia|].
  destruct (lookup_lt_is_Some_2 sizes (Z.to_nat i)) as [sz Esz]; [cbn; lia|].
  destruct (hr_chain _ _ _ HR _ _ _ _ Ek ES Esz) as [Eo HCh]. pose proof (sizes_ok _ _ Esz) as Hs. pose proof (bases_nodup _ _ _ ES (hr_nodup _ _ _ HR)) as ND.
  unfold heap_report. rewrite ES, Esz. apply (ask_then _ k); [exact Ek|]. rewrite Eo. unfold cache_report.
  apply say_then; [apply say; [apply (bool_decide_unpack _); vm_compute; exact I|reflexivity|reflexivity| |apply Nat.leb_le; vm_compute; reflexivity]|].
  { pieces. apply small_printable. unfold size_ok in Hs. lia. }
  assert (HW : sends (fuel <- ask (fun x => Some (walk_fuel (core_heap x))) ;; print_slabs literal buffers file fuel (first_slab k) ;; log literal buffers file [10] [])%st x
    ((slab_report sz <$> S) ++ [[Lit [10]]]) x).
  { apply (ask_then _ (walk_fuel (core_heap x))); [done|]. apply (then_send _ _ _ _ x x); [|saying].
    apply (send_slabs x sz S Hs); [exact HCh|exact (chain_fuel _ _ _ _ HCh ND)]. }
  destruct S as [|[b fl] S].
  - cbn [chain] in HCh. rewrite HCh in *. apply say_then; [saying|]. exact HW.
  - destruct HCh as (E & nx & HS & _). destruct (so_base _ _ _ _ _ HS) as (B1 & _). destruct (Z.eqb_spec (first_slab k) 0); [unfold KERNEL_START_VIRT in B1; lia|].
    apply (then_send _ _ [] _ x x); [apply send_nothing|exact HW].
Qed.

Lemma send_kmalloc `{!PageSource buddy} x G A : heap_rep (core_heap x) G A -> cache_names ->
  sends (kmalloc_print_debug literal buffers file slab_caches_addr) x (concat (heap_report G <$> seqZ 0 13)) x.
Proof using HB HK HN Hfile. intros HR HC. apply (send_loop _ _ (heap_report G) 13 0). intros j Hj. by apply (send_cache x G A). Qed.

(** ** Early memory, pages and descriptors *)

Definition early_report (bm : bootmem) : list (list piece) :=
  [Lit (line "--- Bootmem Info ---")] :: [Lit (chars "Memory Regions:      "); Dec (region_count bm); Lit [10]] ::
  [Lit (chars "Highests Phys. Addr: 0x"); Hex (PFN_TO_PA (highest_pfn bm)); Lit [10]] ::
  concat ((fun i => match mem_regions bm !! Z.to_nat i with Some r => region_report r i | None => [] end) <$> seqZ 0 MAX_MEM_REGIONS).

Lemma send_bootmem x : length (mem_regions (co_bootmem x)) = 16%nat -> printable_number (region_count (co_bootmem x)) ->
  Forall (fun r => printable_number (u32 (start_addr r - orig_start_addr r))) (mem_regions (co_bootmem x)) ->
  sends (bootmem_print_debug literal buffers file) x (early_report (co_bootmem x)) x.
Proof using HB HK HN Hfile.
  intros Hl Hc HF. apply (ask_then _ (co_bootmem x)); [done|]. apply say_then; [saying|]. apply say_then; [saying|]. apply say_then; [saying|].
  apply (send_loop _ _ _ 16 0). intros i Hi. destruct (lookup_lt_is_Some_2 (mem_regions (co_bootmem x)) (Z.to_nat i)) as [r Er]; [lia|].
  rewrite Er. apply (ask_then _ r); [exact Er|]. unfold region_report. destruct (start_addr r =? 0); [apply send_nothing|].
  apply Forall_lookup_1 with (i := Z.to_nat i) (x := r) in HF; [|exact Er]. assert (printable_number i) by (apply small_printable; lia). saying.
Qed.

Lemma send_buddy x : printable_number (page_count (source (core_heap x))) ->
  (forall i, 0 <= i < 7 -> exists bl, blocks (source (core_heap x)) !! i = Some bl /\ printable_number (free_count bl)) ->
  sends (buddy_print_debug literal buffers file) x
    (buddy_report (source (core_heap x)) ++ concat (order_report (source (core_heap x)) <$> seqZ 0 7)) x.
Proof using HB HK HN Hfile.
  intros Hc HF. apply (ask_then _ (source (core_heap x))); [done|]. unfold buddy_report. cbn [app]. assert (printable_number 6) by by apply small_printable.
  do 5 (apply say_then; [saying|]). apply (send_loop _ _ (order_report (source (core_heap x))) 7 0). intros i Hi. destruct (HF i ltac:(lia)) as (bl & Eb & Hb).
  unfold order_report. rewrite Eb. apply (ask_then _ bl); [exact Eb|]. assert (printable_number i) by (apply small_printable; lia). saying.
Qed.

Lemma send_page x p pg : get_page p (source (core_heap x)) = Some (pg, source (core_heap x)) -> Forall printable_number [pfn pg; use_count pg; order pg] ->
  sends (page_print_debug literal buffers file p) x (page_report pg) x.
Proof using HB HK HN Hfile.
  intros Eg HP. apply Forall_cons in HP as [P1 [P2 [P3 _]%Forall_cons]%Forall_cons]. apply (ask_then _ pg); [by rewrite Eg|].
  do 4 (apply say_then; [saying|]). apply (ask_then _ (PFN_TO_PA (pfn pg))); [unfold PAGE_PA; by rewrite (bind_some _ _ _ _ _ Eg)|].
  apply say_then; [saying|]. apply (ask_then _ (PHY_TO_VIR (PFN_TO_PA (pfn pg)))); [unfold PAGE_VA; by rewrite (bind_some _ _ _ _ _ Eg)|]. saying.
Qed.

Lemma send_descriptor x name nm e : K name = Some nm -> sends (gdt_print_debug_entry literal buffers file name e) x (descriptor_report name e) x.
Proof using HB HK HN Hfile. intros Kn. do 2 (apply say_then; [saying|]). saying. Qed.

(** ** File systems *)

Definition types_report x l : list (list piece) :=
  (fun t => match co_fs_types x !! t with Some ty => type_report t ty | None => [] end) <$> l.

Lemma send_types x l2 : forall l1 fuel, clist (co_fs_nodes x) FsHead (FsEntry <$> (l1 ++ l2)) ->
  (forall t, t ∈ l2 -> exists ty, co_fs_types x !! t = Some ty /\ is_Some (K (fs_name ty))) -> (length l2 < fuel)%nat ->
  sends (print_types literal buffers file fuel (node_at l2)) x (types_report x l2) x.
Proof using HB HK HN Hfile.
  induction l2 as [|t l2 IH]; intros l1 [|fuel] C Hin Hf; cbn [length] in Hf; try lia; [apply send_nothing|].
  change (node_at (t :: l2)) with (Some (FsEntry t)). cbn [print_types]. destruct (Hin t (list_elem_of_here _ _)) as (ty & Et & nm & Kn).
  unfold types_report. cbn [fmap list_fmap map]. rewrite Et. apply (ask_then _ ty); [exact Et|]. apply say_then; [saying|].
  apply (ask_then _ (node_at l2)).
  - rewrite fmap_app, fmap_cons in C. rewrite (load_next_nxt _ _ _ (clist_next _ _ _ _ _ C)). destruct l2; reflexivity.
  - apply (IH (l1 ++ [t])); [by rewrite <- app_assoc|intros u Hu; apply Hin; by apply list_elem_of_further|lia].
Qed.

Lemma send_fs_types x l : clist (co_fs_nodes x) FsHead (FsEntry <$> l) ->
  (forall t, t ∈ l -> exists ty, co_fs_types x !! t = Some ty /\ is_Some (K (fs_name ty))) ->
  sends (file_system_type_print_debug literal buffers file) x ([Lit (line "Registered filesystem types:")] :: types_report x l) x.
Proof using HB HK HN Hfile.
  intros C Hin. apply say_then; [saying|]. apply (ask_then _ (node_at l)).
  - rewrite (load_next_nxt _ _ _ (clist_first _ _ _ C)). destruct l; reflexivity.
  - apply (ask_then _ (S (size (co_fs_nodes x)))); [done|]. apply (send_types x l []); [exact C|exact Hin|].
    pose proof (clist_length_size _ _ _ C) as Hl. rewrite length_fmap in Hl. lia.
Qed.

End Reports.

(** ** The theorems *)

(** The program's texts for the log: the buffers, and the strings [K] among which
    are the format strings [texts] and the name of the file. *)
Record log_setup (literal : list Z -> Z) (buffers : log_buffers) (file : Z) (file_name : list Z) (texts : list (list Z)) (K : Z -> option (list Z)) : Prop := LogSetup {
  ls_buffers : buffers_apart buffers;
  ls_name : (length file_name <= 64)%nat;
  ls_texts : forall l, l ∈ texts -> K (literal l) = Some l;
  ls_file : K file = Some file_name
}.

(** The report on a page directory.  [ptable_print_pgd] goes through all 1024
    entries and the tables of those that are present and not 4 MB pages, and returns;
    on the serial port appears one line for each of these entries and for each
    present entry of their tables, in order, with its address, its word and the
    flags of its word as text; this text never outgrows its array of 256 bytes,
    and memory changes only there and in the buffers of the log. *)
Theorem ptable_print_pgd_correct (literal : list Z -> Z) (buffers : log_buffers) (file flag_str : Z) (file_name : list Z) (K : Z -> option (list Z))
    (pgd : Z) (x : core) (c : console) (t : term) (ins : list Z) (o : list event) (d : Z) :
  log_setup literal buffers file file_name ptable_texts K -> strings_ok buffers K (text c) -> screen_ok t (screen c) ->
  off_buffers buffers flag_str 256 -> (forall a l, K a = Some l -> apart a (Z.of_nat (length l) + 1) flag_str 256) ->
  pgd_mapped (kmem (core_heap x)) pgd -> port c = Serial ins o true d ->
  device_serves (length (lines_bytes file_name (pgd_report (kmem (core_heap x)) pgd))) ins ->
  exists c', ptable_print_pgd literal buffers file flag_str pgd (Kernel c x) = Some (tt, Kernel c' x) /\
    port_outputs (port c') = o ++ (io_port_out d <$> lines_bytes file_name (pgd_report (kmem (core_heap x)) pgd)) /\
    screen_ok t (screen c') /\
    (forall a, off_buffers buffers a 1 -> apart a 1 flag_str 256 -> text c' !! a = text c !! a).
Proof.
  intros [HB Hn HK HN] HS Ht HO HF HM Hp Hd.
  destruct (emits_pgd literal buffers file flag_str file_name d t K HF HO HB Hn HK HN pgd x HM c 0%nat) as (c' & E & [_ L2 _ _] & W1 & W2).
  - split; [done|done|rewrite Hp, Nat.add_0_r; by split|by rewrite Hp].
  - exists c'. rewrite Hp in W1. by split_and!.
Qed.

(** The free blocks of every order can be printed. *)
Lemma buddy_printable KS KE b A : @ps_rep _ (buddy_source KS KE) b A -> printable_number (page_count b) /\
  forall i, 0 <= i < 7 -> exists bl, blocks b !! i = Some bl /\ printable_number (free_count bl).
Proof.
  intros [_ [F HA]]. pose proof (al_inv _ _ _ HA) as [HL HG]. pose proof (g_count _ _ _ _ _ HG) as [Hn _].
  split; [apply small_printable; lia|]. intros i Hi. destruct (l_count _ _ _ _ HL i) as (bl & Eb & Ef); [unfold ORDER_MAX; lia|].
  exists bl. split; [exact Eb|]. rewrite Ef. apply small_printable.
  pose proof (length_free _ _ _ _ _ i HG (lists_nodup _ _ _ _ i HL ltac:(unfold ORDER_MAX; lia)) ltac:(unfold ORDER_MAX; lia)). lia.
Qed.

(** The reports on the kernel's state.  In every state in which the scheduler,
    the heap, the page allocator, early memory and the file system registry are
    well-formed, each of the printers the shell calls returns, leaves the state as
    it is (the lock of the tasks is free again), and sends one block of lines per
    task in the order of the list, one line per slab with its used and free objects
    under each of the 13 caches, the used regions, the number of free blocks of each
    order, and one line per registered file system. *)
Theorem state_reports_correct (KS KE : Z) (literal : list Z -> Z) (buffers : log_buffers) (file flag_str d : Z) (file_name : list Z) (t : term) (K : Z -> option (list Z))
    (task_head slab_caches_addr : Z) (x : core) (l types : list Z) (G : list (list (Z * list Z))) (A : gset (Z * Z)) ks ke :
  log_setup literal buffers file file_name report_texts K ->
  sched_ok task_head (co_sched x) l -> tasks_shown K (co_sched x) l ->
  @heap_rep _ (buddy_source KS KE) (core_heap x) G A -> cache_names slab_caches_addr K ->
  bm_ok ks ke (co_bootmem x) -> Forall (fun r => printable_number (u32 (start_addr r - orig_start_addr r))) (mem_regions (co_bootmem x)) ->
  clist (co_fs_nodes x) FsHead (FsEntry <$> types) -> (forall u, u ∈ types -> exists ty, co_fs_types x !! u = Some ty /\ is_Some (K (fs_name ty))) ->
  sends buffers flag_str file_name d t K (task_print literal buffers file task_head) x (task_list_report literal (co_sched x) l) x /\
  sends buffers flag_str file_name d t K (kmalloc_print_debug literal buffers file slab_caches_addr) x (concat (heap_report slab_caches_addr G <$> seqZ 0 13)) x /\
  sends buffers flag_str file_name d t K (bootmem_print_debug literal buffers file) x (early_report (co_bootmem x)) x /\
  sends buffers flag_str file_name d t K (buddy_print_debug literal buffers file) x
    (buddy_report (source (core_heap x)) ++ concat (order_report (source (core_heap x)) <$> seqZ 0 7)) x /\
  sends buffers flag_str file_name d t K (file_system_type_print_debug literal buffers file) x ([Lit (line "Registered filesystem types:")] :: types_report x types) x.
Proof.
  intros [HB Hn HK HN] HS Hs HR HC Hb Hbp CF HT. destruct (buddy_printable KS KE _ _ (hr_source _ _ _ HR)) as [P1 P2]. split_and!.
  - by apply send_task_print.
  - by eapply send_kmalloc.
  - apply send_bootmem; try done; [apply (bo_length _ _ _ Hb)|]. destruct (bo_count _ _ _ Hb). apply small_printable. unfold MAX_MEM_REGIONS in *. lia.
  - by apply send_buddy.
  - by apply send_fs_types.
Qed.

(** ** Examples *)

(** Strings at given addresses. *)
Definition table_string (tab : list (Z * list Z)) (a : Z) : option (list Z) := snd <$> (snd <$> list_find (fun p => p.1 = a) tab).

Definition table_memory (tab : list (Z * list Z)) : bytes := foldr (fun p m => at_address p.1 p.2 ∪ m) ∅ tab.

(** [n] texts, 256 bytes apart from 20000 on. *)
Definition text_table (texts : list (list Z)) : list (Z * list Z) := zip ((fun i => 20000 + 256 * Z.of_nat i) <$> seq 0 (length texts)) texts.

Definition text_address (texts : list (list Z)) (l : list Z) : Z :=
  match list_find (fun k => k = l) texts with Some (i, _) => 20000 + 256 * Z.of_nat i | None => 0 end.

Definition print_console (tab : list (Z * list Z)) : console :=
  Console (table_memory tab) (Vga dots_video 0 24 7 []) (Serial (replicate 500 0x20) [] true IO_PORT_SERIAL_COM2).

(** The strings are in memory, outside the buffers (below 15000) and the array of
    flags at 16000. *)
Definition table_okb (tab : list (Z * list Z)) : bool :=
  forallb (fun p => strb (table_memory tab) p.1 p.2 && (length p.2 <=? 120)%nat && ((p.1 + Z.of_nat (length p.2) + 1 <=? 10000) || (17000 <=? p.1))) tab.

Lemma table_ok tab a l : table_okb tab = true -> table_string tab a = Some l ->
  str_at (table_memory tab) a l /\ (length l <= 120)%nat /\ (a + Z.of_nat (length l) + 1 <= 10000 \/ 17000 <= a).
Proof.
  intros HT E. unfold table_string in E. destruct (list_find _ tab) as [[i [b k]]|] eqn:EF; [|discriminate E]. cbn in E. injection E as ->.
  apply list_find_Some in EF as (Ei & Eb & _). cbn in Eb. subst b. unfold table_okb in HT. rewrite forallb_forall in HT.
  specialize (HT (a, l) (proj1 (list_elem_of_In _ _) (list_elem_of_lookup_2 _ _ _ Ei))). cbn [fst snd] in HT.
  apply andb_true_iff in HT as [[H1%strb_spec H2%Nat.leb_le]%andb_true_iff H3]. split; [exact H1|]. split; [exact H2|]. bool_cases.
Qed.

Lemma table_strings tab : table_okb tab = true -> strings_ok boot_buffers (table_string tab) (table_memory tab).
Proof.
  intros HT a l E. destruct (table_ok tab a l HT E) as (H1 & H2 & H3). split; [exact H1|]. split; [exact H2|]. unfold off_buffers, apart. cbn. lia.
Qed.

Lemma table_setup texts tab name : (length name <= 64)%nat -> table_string tab 1000 = Some name ->
  forallb (fun l => bool_decide (table_string tab (text_address texts l) = Some l)) texts = true ->
  log_setup (text_address texts) boot_buffers 1000 name texts (table_string tab).
Proof.
  intros Hn En HF. split; [unfold buffers_apart, apart; cbn; lia|done| |done].
  intros l Hl. rewrite forallb_forall in HF. apply (bool_decide_eq_true_1 _ (HF l (proj1 (list_elem_of_In _ _) Hl))).
Qed.

(** One directory entry with a table of one entry. *)
Definition print_words : gmap Z Z :=
  <[0xC0100014 := 0x101003]> (<[0xC010101C := 0x200007]> (zero_words 1024 0xC0100000 (zero_words 1024 0xC0101000 ∅))).

Definition print_core : core := with_heap (Heap print_words slab_caches (source (core_heap boot_core))) boot_core.

Lemma print_mapped : pgd_mapped (kmem (core_heap print_core)) 0xC0100000.
Proof.
  assert (HF : forallb (fun i => match print_words !! (0xC0100000 + 4 * i) with
      | Some e => negb (PDE_EXISTS e) || (PDE_TO_PGT e =? 0xC0101000)
      | None => false
      end && bool_decide (is_Some (print_words !! (0xC0101000 + 4 * i)))) (seqZ 0 1024) = true) by (vm_compute; reflexivity).
  assert (Hin : forall i, 0 <= i < 1024 -> In i (seqZ 0 1024)) by (intros i Hi; apply list_elem_of_In, elem_of_seqZ; lia).
  rewrite forallb_forall in HF. intros i Hi. pose proof (HF i (Hin i Hi)) as [H _]%andb_true_iff.
  change (kmem (core_heap print_core)) with print_words. destruct (print_words !! (0xC0100000 + 4 * i)) as [e|]; [|discriminate H].
  exists e. split; [done|]. intros Hp _ j Hj. rewrite Hp in H. apply Z.eqb_eq in H. rewrite H.
  pose proof (HF j (Hin j Hj)) as [_ Hj']%andb_true_iff. exact (bool_decide_eq_true_1 _ Hj').
Qed.

Definition pt_table : list (Z * list Z) := (1000, chars "ptable.c") :: text_table ptable_texts.

Lemma ptable_print_pgd_correct_witness : exists c',
  ptable_print_pgd (text_address ptable_texts) boot_buffers 1000 16000 0xC0100000 (Kernel (print_console pt_table) print_core) = Some (tt, Kernel c' print_core) /\
  port_outputs (port c') = io_port_out IO_PORT_SERIAL_COM2 <$>
    line "[ptable.c] PDE[VA: 0xc0100014, Raw: 0x101003, Flags: Present, Read/Write, Kernel Only, ]" ++
    line "[ptable.c] PTE[VA: 0xc010101c, Raw: 0x200007, Flags: Present, Read/Write, Kernel & User,]".
Proof.
  assert (HT : table_okb pt_table = true) by (vm_compute; reflexivity).
  assert (ER : lines_bytes (chars "ptable.c") (pgd_report (kmem (core_heap print_core)) 0xC0100000) =
    line "[ptable.c] PDE[VA: 0xc0100014, Raw: 0x101003, Flags: Present, Read/Write, Kernel Only, ]" ++
    line "[ptable.c] PTE[VA: 0xc010101c, Raw: 0x200007, Flags: Present, Read/Write, Kernel & User,]") by (vm_compute; reflexivity).
  destruct (ptable_print_pgd_correct (text_address ptable_texts) boot_buffers 1000 16000 (chars "ptable.c") (table_string pt_table) 0xC0100000 print_core
    (print_console pt_table) (Term dots 0 24 7) (replicate 500 0x20) [] IO_PORT_SERIAL_COM2) as (c' & E & Ho & _).
  - apply table_setup; [cbn; lia|vm_compute; reflexivity|vm_compute; reflexivity].
  - apply (table_strings pt_table HT).
  - exact boot_screen.
  - unfold off_buffers, apart. cbn. lia.
  - intros a l Ea. destruct (table_ok pt_table a l HT Ea) as (_ & _ & H). unfold apart. lia.
  - exact print_mapped.
  - reflexivity.
  - rewrite ER. apply device_ready. apply Nat.leb_le. vm_compute. reflexivity.
  - exists c'. split; [exact E|]. rewrite Ho, ER. reflexivity.
Defined.

(** One task, an empty heap, no early memory, one file system. *)
Definition shell_example : task :=
  Task 2 TASK_KERNEL TASK_STATE_RUNNING 1 3 0xC0020000 0xC0030000 0x10000 0xC0040000 0xC0101000 (chars "shell" ++ replicate 11 0).

Definition report_core : core :=
  Core (co_hw boot_core) bootmem_init
    (Sched {[ 400 := blank_task; 500 := shell_example ]} {[ 400 := LNode (Some 500) (Some 500); 500 := LNode (Some 400) (Some 400) ]}
       false 2 500 true 0 (HeapClaims.heap64))
    (co_tty_nodes boot_core) 0 {[ 5000 := FsType 1100 0 testfs_alloc ]}
    {[ FsHead := LNode (Some (FsEntry 5000)) (Some (FsEntry 5000)); FsEntry 5000 := LNode (Some FsHead) (Some FsHead) ]} false 0.

Definition report_table : list (Z * list Z) :=
  [(1000, chars "task.c"); (548, chars "shell"); (1100, chars "testfs")] ++
  ((fun i => (3000 + 40 * Z.of_nat i, chars "kmalloc")) <$> seq 0 13) ++ text_table report_texts.

Lemma report_sched : sched_ok 400 (co_sched report_core) [500].
Proof.
  split.
  - split; [apply (bool_decide_unpack _); vm_compute; exact I|]. repeat split.
  - intros t ->%list_elem_of_singleton. by eexists.
  - exists blank_task. split; reflexivity.
  - intros t u y z ->%list_elem_of_singleton ->%list_elem_of_singleton. done.
  - apply (bool_decide_unpack _). vm_compute. exact I.
  - reflexivity.
Qed.

Lemma report_types : clist (co_fs_nodes report_core) FsHead (FsEntry <$> [5000]).
Proof. split; [apply (bool_decide_unpack _); vm_compute; exact I|]. repeat split. Qed.

Lemma state_reports_correct_witness : exists c',
  task_print (text_address report_texts) boot_buffers 1000 400 (Kernel (print_console report_table) report_core) = Some (tt, Kernel c' report_core) /\
  port_outputs (port c') = io_port_out IO_PORT_SERIAL_COM2 <$>
    line "[task.c] Task List" ++ line "[task.c] -----------------------------" ++ line "[task.c] [2] 'shell' (RUNNING, priority 1) " ++
    line "[task.c]       type:        Kernel" ++ line "[task.c]       kstack top:  0xc0020000 | bot: 0xc0030000" ++
    line "[task.c]       kstack_size: 65536 bytes" ++ line "[task.c]       stack_used:  65536 bytes" ++
    line "[task.c]       vm_space:    0xc0040000" ++ line "[task.c]       ticks:  3" ++ line "[task.c] ".
Proof.
  assert (HT : table_okb report_table = true) by (vm_compute; reflexivity).
  destruct (state_reports_correct KS64 KE64 (text_address report_texts) boot_buffers 1000 16000 IO_PORT_SERIAL_COM2 (chars "task.c")
    (Term dots 0 24 7) (table_string report_table) 400 3000 report_core [500] [5000] (replicate 13 []) ∅ 0 0) as (HP & _).
  - apply table_setup; [cbn; lia|vm_compute; reflexivity|vm_compute; reflexivity].
  - exact report_sched.
  - intros t y ->%list_elem_of_singleton Ey. injection Ey as <-. split; [vm_compute; reflexivity|].
    repeat constructor; unfold printable_number; vm_compute; discriminate.
  - exact HeapClaims.heap64_rep.
  - intros i Hi. assert (HF : forallb (fun i => bool_decide (is_Some (table_string report_table (cache_addr 3000 i)))) (seqZ 0 13) = true) by (vm_compute; reflexivity).
    rewrite forallb_forall in HF. apply (bool_decide_eq_true_1 _ (HF i (proj1 (list_elem_of_In _ _) (proj2 (elem_of_seqZ 0 13 i) ltac:(lia))))).
  - by apply bootmem_init_ok.
  - apply (bool_decide_unpack _). vm_compute. exact I.
  - exact report_types.
  - intros u ->%list_elem_of_singleton. exists (FsType 1100 0 testfs_alloc). split; [reflexivity|]. by eexists.
  - destruct (HP (print_console report_table) 0%nat) as (c' & E & _ & Ho & _).
    + split; [exact (table_strings report_table HT)|exact boot_screen| |reflexivity]. split; [reflexivity|]. apply device_ready. apply Nat.leb_le. vm_compute. reflexivity.
    + exists c'. split; [exact E|]. rewrite Ho. vm_compute. reflexivity.
Defined.

(** The end of the page array that [buddy_print_debug] reports is not the one
    [page_area_end] computes. *)
Lemma area_end_misreported : exists e e', page_area_end PageClaims.machine64 = Some (e, PageClaims.machine64) /\
  (buddy_report PageClaims.machine64 !! 4%nat) = Some [Lit (chars "Page Area End:       0x"); Hex e'; Lit [10]] /\ e <> e'.
Proof. eexists _, _. split; [reflexivity|]. split; [reflexivity|]. vm_compute. discriminate. Qed.
