(* ===== verification/Shell.v ===== *)
(** * The shell (kernel/core/shell.c)

    The line editor works on [input_buffer], 256 bytes of memory, and on the
    screen; a command runs on the state of all components (ArchInit.v).  The key of
    a keyboard event is an argument on the stack, at [key_slot], and the structure
    that "fstype" registers is a local one, at [fs_slot].  The two routines of the
    unit tests that some commands call are arguments. *)

From Stdlib Require Import String Ascii.
From stdpp Require Import base numbers list gmap.
From Stdlib Require Import ZArith Lia.
From S2P Require Import Prelude LinkedList CString PageDefs Palloc PageSource Slab Ptable Task Vfs Interrupts Console Logging ArchInit ShellTasks DebugPrint.

#[local] Open Scope Z_scope.

Definition INPUT_BUFFER_SIZE : Z := 256.

(** The names of the source files that appear in the log ([__FILE__]). *)
Record file_names : Type := FileNames {
  in_shell : Z;
  in_task : Z;
  in_palloc : Z;
  in_bootmem : Z;
  in_slab : Z;
  in_fs_type : Z
}.

Section Shell.
  Context (KERNEL_PHYS_START KERNEL_PHYS_END : Z).
  (** The addresses of [input_buffer], of the macro array [tmp], of the key
      argument, of the local [fs_type] and of the program's literals. *)
  Context (input_buffer tmp key_slot fs_slot : Z) (literal : list Z -> Z).
  (** The log's buffers, the file names and addresses of static data and code. *)
  Context (buffers : log_buffers) (files : file_names).
  Context (task_head kernel_pgd slab_caches_addr isr_exit apple : Z).
  (** [__DATE__] and [__TIME__] *)
  Context (build_date build_time : list Z).
  (** kernel/test/ktest.c *)
  Context (ktest_run_module : Z -> ST kernel unit) (ktest_run_all : ST kernel unit).

#[local] Instance shell_pages : PageSource buddy := buddy_source KERNEL_PHYS_START KERNEL_PHYS_END.

Definition sh_text {A} (f : ST bytes A) : ST kernel A := on_console (on_text f).

Definition sh_screen {A} (f : ST vga A) : ST kernel A := on_console (on_display (fun _ => f)).

(** [klog] in shell.c *)
Definition shell_log (fmt : list Z) (args : list Z) : ST kernel unit := log literal buffers (in_shell files) fmt args.

Definition shell_print_prompt : ST kernel unit :=
  (on_console (on_display (fun m => vga_overwrite_line m (literal (chars "shell> ")) VGA_COLOUR_WHITE VGA_COLOUR_BLACK 24)) ;;
   sh_screen (vga_set_cursor 7 24))%st.

Definition shell_delete_from_input_buffer : ST kernel unit :=
  (n <- sh_text (strlen input_buffer) ;;
   sh_text (wr (input_buffer + n) 0) ;;
   n <- sh_text (strlen input_buffer) ;;
   sh_text (wr (input_buffer + (n - 1)) 0))%st.

Definition shell_clear_input_buffer : ST kernel unit :=
  (sh_text (memset input_buffer 0 INPUT_BUFFER_SIZE) ;; ret tt)%st.

(** ** The commands *)

(** [strcmp(command, name) == 0] *)
Definition is_command (command : Z) (name : string) : ST kernel bool :=
  (r <- sh_text (strcmp command (literal (chars name))) ;; ret (r =? 0))%st.

(** [if(strcmp(command, name) == 0) { body; return; } rest] and the same without
    the return. *)
Definition on_command (command : Z) (name : string) (body rest : ST kernel unit) : ST kernel unit :=
  (b <- is_command command name ;; if b then body else rest)%st.

Definition also_command (command : Z) (name : string) (body rest : ST kernel unit) : ST kernel unit :=
  (b <- is_command command name ;; (if b : bool then body else ret tt) ;; rest)%st.

(** The name is a part of [struct task], which the scheduler's state keeps; the
    log reads it as bytes of memory. *)
Fixpoint write_bytes (a : Z) (l : list Z) : ST bytes unit :=
  match l with
  | [] => ret tt
  | c :: r => (wr a c ;; write_bytes (a + 1) r)%st
  end.

Definition name_in_memory (t : Z) : ST kernel unit :=
  (x <- on_sched (get_task t) ;; sh_text (write_bytes (t + TASK_NAME) (tname x)))%st.

(** "kt" and "ut" (ShellTasks.v) *)
Definition kt_body : ST kernel unit :=
  (t <- on_sched (command_kt task_head kernel_pgd isr_exit apple) ;; name_in_memory t)%st.

Definition ut_body : ST kernel unit :=
  (t <- on_sched (command_ut task_head kernel_pgd isr_exit) ;; name_in_memory t)%st.

(** The local structure: the members without an initialiser are zero. *)
Definition declare_fs_type (x : core) : core :=
  Core (co_hw x) (co_bootmem x) (co_sched x) (co_tty_nodes x) (co_tty_head x) (<[fs_slot := FsType (literal (chars "test123")) 0 no_alloc]> (co_fs_types x))
    (<[FsEntry fs_slot := LNode None None]> (co_fs_nodes x)) (co_fs_lock x) (co_root_sb x).

Definition print_fs_types : ST kernel unit := file_system_type_print_debug literal buffers (in_fs_type files).

Definition fstype_body : ST kernel unit :=
  (print_fs_types ;;
   on_core (modify declare_fs_type) ;;
   on_vfs (file_system_type_register fs_slot) ;;
   test <- on_vfs (file_system_type_get (literal (chars "test123"))) ;;
   shell_log (chars "found at: 0x%x" ++ [10]) [test] ;;
   print_fs_types ;;
   on_vfs (file_system_type_unregister fs_slot) ;;
   print_fs_types ;;
   test <- on_vfs (file_system_type_get (literal (chars "test123"))) ;;
   shell_log (chars "post unreg at: 0x%x" ++ [10]) [test])%st.

Definition print_heap : ST kernel unit := kmalloc_print_debug literal buffers (in_slab files) slab_caches_addr.
Definition print_pages : ST kernel unit := buddy_print_debug literal buffers (in_palloc files).

Definition mem_body : ST kernel unit :=
  (shell_log [10] [] ;;
   print_pages ;;
   shell_log [10] [] ;;
   bootmem_print_debug literal buffers (in_bootmem files) ;;
   shell_log [10] [])%st.

(** "clear" and "cls" *)
Definition clear_lines : ST kernel unit := sh_screen (for_up (Z.to_nat (VGA_HEIGHT - 4)) 4 vga_clear_line).

Definition shell_process_command (command : Z) : ST kernel unit :=
  on_command command "kt" kt_body (
  also_command command "fstype" fstype_body (
  also_command command "vm-test" (ktest_run_module (literal (chars "vm"))) (
  also_command command "string-test" (ktest_run_module (literal (chars "string"))) (
  also_command command "slab-test" (ktest_run_module (literal (chars "awodawd"))) (
  also_command command "palloc-test" (ktest_run_module (literal (chars "palloc"))) (
  also_command command "run-tests" ktest_run_all (
  also_command command "dump-kmalloc" print_heap (
  on_command command "ut" ut_body (
  on_command command "clear" clear_lines (
  on_command command "cls" clear_lines (
  on_command command "build"
    (on_console (vga_printf tmp (literal (chars "Kernel built: %s %s")) [literal build_date; literal build_time])) (
  on_command command "tasks" (task_print literal buffers (in_task files) task_head) (
  also_command command "slab" print_heap (
  also_command command "buddy" print_pages (
  also_command command "mem" mem_body (
  on_console (vga_printf tmp (literal (chars "Unknown command: %s")) [command])))))))))))))))))%st.

Definition shell_keyboard_handler (key : Z) : ST kernel unit :=
  (sh_text (wr key_slot key) ;;
   if key =? KEY_ENTER then
     sh_screen (vga_scroll_up 1 TOP_LINE) ;;
     sh_screen (modify (with_cursor_x 0)) ;;
     shell_process_command input_buffer ;;
     shell_clear_input_buffer ;;
     shell_print_prompt
   else if key =? KEY_BACKSPACE then
     shell_delete_from_input_buffer ;;
     sh_screen vga_delete_char_at_cursor
   else if negb (key =? 0) then
     sh_text (wr (key_slot + 1) 0) ;;
     sh_text (strcat input_buffer key_slot) ;;
     sh_screen (vga_print_char_at_cursor key)
   else ret tt)%st.

(** ** Keyboard events *)

(** The driver's table of handlers (keyboard.c) beside the kernel's state. *)
Definition on_kernel {A} (f : ST kernel A) : ST (list Z * kernel) A := zoom snd (fun k d => (d.1, k)) f.

(** [shell_init] up to its endless loop; [handler] is the address of
    [shell_keyboard_handler]. *)
Definition shell_init (handler : Z) : ST (list Z * kernel) unit :=
  (on_kernel (sh_screen (vga_scroll_up 1 TOP_LINE)) ;;
   modify (fun d => ((keyboard_register_handler handler d.1).2, d.2)) ;;
   on_kernel shell_print_prompt)%st.

(** The calls of [keyboard_handle_input]; only the shell's handler is known. *)
Fixpoint call_handlers (handler : Z) (calls : list (Z * Z)) : ST kernel unit :=
  match calls with
  | [] => ret tt
  | (h, key) :: rest => ((if h =? handler then shell_keyboard_handler key else fault) ;; call_handlers handler rest)%st
  end.

Definition keyboard_event (handler scan_code : Z) : ST (list Z * kernel) unit :=
  fun d => on_kernel (call_handlers handler (keyboard_handle_input scan_code d.1)) d.

(** ** The tasks the commands start *)

Definition APPLE_PERIOD : Z := 20000000.
Definition TEST1 : Z := 0x300100.

(** [apple]: its first message, and one turn of its loop from [magic]. *)
Definition apple_start : ST kernel unit :=
  on_console (printk literal buffers LOG_INFO (in_shell files) (literal (chars "APPLE initialised" ++ [10])) []).

Definition apple_turn (magic : Z) : ST kernel Z :=
  (let magic := i32 (magic + 1) in
   if magic =? APPLE_PERIOD then
     shell_log (chars "Message from kernel task APPLE!" ++ [10]) [] ;;
     sh_text (wr TEST1 65) ;;
     shell_log (chars "test1 (0x%x) is: %s" ++ [10]) [TEST1; TEST1] ;;
     ret 0
   else ret magic)%st.

(** [banana] up to its empty loop. *)
Definition banana : ST kernel unit :=
  on_console (printk literal buffers LOG_INFO (in_shell files) (literal (chars "BANANA initialised" ++ [10])) []).

End Shell.
