(* ===== verification/ShellSpec.v ===== *)
(** * The shell's line editor

    A sequence of keys edits an abstract line and submits lines.  What an operation
    of the shell does is stated for every console that holds the kernel's strings
    and the line: it returns, takes the components from one state to another, and
    sends given bytes to the serial port. *)

From Stdlib Require Import String Ascii.
From stdpp Require Import base numbers list gmap.
From Stdlib Require Import ZArith Lia.
From S2P Require Import Prelude CString CStringSpec SprintfSpec PageDefs PageSource Interrupts Console ConsoleSpec Logging LoggingSpec Task ArchInit ShellTasks DebugPrint DebugPrintSpec DebugReports Shell.

#[local] Open Scope Z_scope.

(** ** The screen stays usable *)

Definition usable (v : vga) : Prop := exists t, screen_ok t v.

(** A drawing operation that keeps the screen usable. *)
Definition draws (f : ST vga unit) : Prop := forall v, usable v -> exists v', f v = Some (tt, v') /\ usable v'.

(** An operation that only changes cells. *)
Lemma draws_cells (f : ST vga unit) :
  (forall g v s, shows g v -> exists v' g', f (with_video v s) = Some (tt, with_video v' s) /\ shows g' v') -> draws f.
Proof.
  intros Hf v ([g x y fg] & (HG & Hx & Hy & Hc) & HO). destruct (Hf g (video v) v HG) as (v' & g' & E & HG'). rewrite with_video_id in E.
  exists (with_video v' v). split; [done|]. exists (Term g' x y fg). by split; [split_and!|].
Qed.

Lemma draws_scroll : draws (vga_scroll_up 1 TOP_LINE).
Proof. apply draws_cells. intros g v s HG. destruct (scroll_spec g v s HG) as (v' & E & H'). eauto. Qed.

Lemma draws_clear_line l : 0 <= l < 25 -> draws (vga_clear_line l).
Proof. intros Hl. apply draws_cells. intros g v s HG. destruct (clear_line_spec g v s l HG Hl) as (v' & E & H'). eauto. Qed.

Lemma draws_bind f g : draws f -> draws g -> draws (f ;; g)%st.
Proof. intros Hf Hg v Hv. destruct (Hf v Hv) as (v1 & E & Hv1). st_step E. by apply Hg. Qed.

Lemma draws_for n : forall i f, (forall j, i <= j < i + Z.of_nat n -> draws (f j)) -> draws (for_up n i f).
Proof.
  induction n as [|n IH]; intros i f Hf; cbn [for_up]; [intros v Hv; by exists v|]. apply draws_bind; [apply Hf; lia|]. apply IH. intros j Hj. apply Hf. lia.
Qed.

Lemma draws_set c f b x y : on_screen x y -> draws (vga_set_character c f b x y).
Proof. intros Hxy. apply draws_cells. intros g v s HG. destruct (set_character_spec g v s c f b x y _ HG Hxy eq_refl) as (v' & E & H'). eauto. Qed.

Lemma draws_home : draws (modify (with_cursor_x 0)).
Proof.
  intros v ([g x y fg] & (HG & Hx & Hy & Hc) & HO). eexists. split; [reflexivity|]. exists (Term g 0 y fg). split; [by split_and!|]. unfold term_ok in *. cbn in *. lia.
Qed.

Lemma draws_cursor x y : 0 <= x <= 80 -> 0 <= y < 25 -> draws (vga_set_cursor x y).
Proof.
  intros Hx Hy v ([g x0 y0 fg] & (HG & _ & _ & Hc) & HO). eexists. split; [reflexivity|]. exists (Term g x y fg). split; [by split_and!|]. unfold term_ok in *. cbn in *. lia.
Qed.

Lemma draws_char c : 0 <= c < 256 -> draws (vga_print_char_at_cursor c).
Proof.
  intros Hc v (t & HR & HO). destruct (print_char_spec t v c HR HO Hc) as (v' & E & HR' & _). exists v'. split; [done|].
  exists (term_char t c). split; [done|by apply term_char_ok].
Qed.

Lemma draws_delete : draws vga_delete_char_at_cursor.
Proof.
  intros v Hv. pose proof Hv as ([g x y fg] & (HG & Hx & Hy & Hc) & HO). unfold term_ok in HO. cbn [t_grid t_x t_y t_fg] in *.
  unfold vga_delete_char_at_cursor. rewrite (bind_some _ _ _ _ _ (gets_run _ _)). rewrite Hx, Hy. destruct (Z.eqb_spec x 0); [by exists v|].
  destruct (set_character_spec g (video v) v 32 VGA_COLOUR_BLACK VGA_COLOUR_BLACK (x - 1) y _ HG ltac:(split; lia) eq_refl) as (v' & E & H').
  rewrite with_video_id in E. st_step E. eexists. split; [reflexivity|]. eexists (Term _ (x - 1) y fg).
  split; [split_and!; [exact H'|reflexivity|exact Hy|exact Hc]|unfold term_ok; cbn; lia].
Qed.

(** A line of text written over line [y]. *)
Lemma draws_overwrite m a l fg bg y : str_at m a l -> (length l <= 80)%nat -> 0 <= y < 25 -> draws (vga_overwrite_line m a fg bg y).
Proof.
  intros Hs Hl Hy. unfold vga_overwrite_line. apply draws_bind; [by apply draws_clear_line|]. unfold length_of.
  rewrite (strlen_spec a m l Hs) by (unfold MAX_STRING_LEN; lia). intros v Hv. rewrite bind_ret, Nat2Z.id. apply draws_for; [|done].
  intros j Hj. destruct (lookup_lt_is_Some_2 l (Z.to_nat j)) as [c Ec]; [lia|].
  assert (E : m !! (a + j) = Some c).
  { replace j with (Z.of_nat (Z.to_nat j)) by lia. apply (proj1 Hs). by apply lookup_app_l_Some. }
  rewrite E. intros w Hw. rewrite u32_small by lia. by apply draws_set; [split; lia|].
Qed.

(** ** The abstract editor *)

(** The line being edited and the lines submitted so far. *)
Record editor : Type := Editor { line : list Z; submitted : list (list Z) }.

Definition edit (e : editor) (key : Z) : editor :=
  if key =? KEY_ENTER then Editor [] (submitted e ++ [line e])
  else if key =? KEY_BACKSPACE then Editor (removelast (line e)) (submitted e)
  else if key =? 0 then e
  else Editor (line e ++ [key]) (submitted e).

Lemma edit_submitted e key : submitted (edit e key) = submitted e ++ (if key =? KEY_ENTER then [line e] else []).
Proof. unfold edit. destruct (key =? KEY_ENTER); [done|]. rewrite app_nil_r. destruct (key =? KEY_BACKSPACE); [done|]. by destruct (key =? 0). Qed.

(** Keys the 256-byte buffer has room for, and no backspace on an empty line. *)
Definition key_ok (e : editor) (key : Z) : Prop :=
  0 <= key < 256 /\
  if key =? KEY_ENTER then True
  else if key =? KEY_BACKSPACE then line e <> []
  else if key =? 0 then True
  else (length (line e) < 255)%nat.

Fixpoint keys_ok (e : editor) (keys : list Z) : Prop :=
  match keys with
  | [] => True
  | k :: ks => key_ok e k /\ keys_ok (edit e k) ks
  end.

(** The commands, and the texts the shell prints with. *)
Definition command_names : list string :=
  ["kt"; "fstype"; "vm-test"; "string-test"; "slab-test"; "palloc-test"; "run-tests"; "dump-kmalloc"; "ut"; "clear"; "cls"; "build"; "tasks"; "slab"; "buddy"; "mem"]%string.

Definition shell_texts : list (list Z) :=
  [chars "shell> "; chars "Kernel built: %s %s"; chars "Unknown command: %s"; chars "test123"; DebugReports.line "found at: 0x%x"; DebugReports.line "post unreg at: 0x%x"] ++
  (chars <$> command_names).

Section Editor.
  Context (KS KE input_buffer tmp key_slot fs_slot : Z) (literal : list Z -> Z).
  Context (buffers : log_buffers) (files : file_names) (slab_caches_addr d : Z) (build_date build_time : list Z).
  (** The strings of the image. *)
  Context (K0 : Z -> option (list Z)).
  Implicit Types (K : Z -> option (list Z)) (x : core) (c : console) (l out : list Z).

(** Inside the kernel image, as the kernel addresses it. *)
Definition in_image (a n : Z) : Prop := KERNEL_START_VIRT + PAGE_ALIGN KS <= a /\ a + n <= KERNEL_START_VIRT + PAGE_ALIGN KE.

(** Outside the three areas the shell writes to. *)
Definition off_shell (a n : Z) : Prop := apart a n input_buffer 256 /\ apart a n tmp 512 /\ apart a n key_slot 2.

Definition all_texts : list (list Z) := shell_texts ++ build_date :: build_time :: report_texts.

(** Static data: the strings and the areas are in the image and do not overlap. *)
Record static_ok : Prop := StaticOk {
  st_buffers : buffers_apart buffers;
  st_texts : forall l, l ∈ all_texts -> K0 (literal l) = Some l;
  st_files : Forall (fun a => exists n, K0 a = Some n /\ (length n <= 64)%nat)
    [in_shell files; in_task files; in_palloc files; in_bootmem files; in_slab files; in_fs_type files];
  st_caches : cache_names slab_caches_addr K0;
  st_strings : forall a l, K0 a = Some l -> in_image a (Z.of_nat (length l) + 1) /\ off_shell a (Z.of_nat (length l) + 1);
  st_areas : Forall (fun p => in_image p.1 p.2) [(input_buffer, 256); (tmp, 512); (key_slot, 2); (lb_tmp buffers, 512); (lb_final buffers, 512);
    (lb_vga buffers, 512); (lb_tag buffers, 16); (lb_vga_tmp buffers, 512)];
  st_apart : apart input_buffer 256 tmp 512 /\ apart input_buffer 256 key_slot 2 /\ off_buffers buffers input_buffer 256;
  st_build : (length build_date <= 100)%nat /\ (length build_time <= 100)%nat /\ literal build_date <> literal build_time
}.

Context (HY : static_ok).

(** A view of memory as strings that agrees with the image and stays clear of the
    shell's areas. *)
Record strings_env K : Prop := StringsEnv {
  se_static : forall a, in_image a 1 -> K a = K0 a;
  se_apart : forall a l, K a = Some l -> off_shell a (Z.of_nat (length l) + 1)
}.

(** The console with line [l] in the buffer and [k] more readings of the serial
    device ready. *)
Record console_ok K l (k : nat) c : Prop := ConsoleOk {
  cs_strings : strings_ok buffers K (text c);
  cs_line : str_at (text c) input_buffer l;
  cs_length : (length l <= 255)%nat;
  cs_screen : usable (screen c);
  cs_port : port_ready k (port c);
  cs_debug : serial_debug_port (port c) = d
}.

(** [f] takes the components from [x] to [x'], the strings from [K] to [K'] and
    the line from [l] to [l'], and sends [out]. *)
Definition does (f : ST kernel unit) x K l out x' K' l' : Prop :=
  forall c k, console_ok K l (length out + k) c ->
  exists c', f (Kernel c x) = Some (tt, Kernel c' x') /\ console_ok K' l' k c' /\
    port_outputs (port c') = port_outputs (port c) ++ (io_port_out d <$> out).

Lemma does_bind f g x x1 x2 K K1 K2 l l1 l2 o1 o2 : does f x K l o1 x1 K1 l1 -> does g x1 K1 l1 o2 x2 K2 l2 -> does (f ;; g)%st x K l (o1 ++ o2) x2 K2 l2.
Proof using.
  intros Hf Hg c k Hc. rewrite length_app, <- Nat.add_assoc in Hc. destruct (Hf c _ Hc) as (c1 & E1 & H1 & P1). destruct (Hg c1 _ H1) as (c2 & E2 & H2 & P2).
  exists c2. split; [by st_step E1|]. split; [exact H2|]. by rewrite P2, P1, fmap_app, app_assoc.
Qed.

Lemma does_nothing x K l : does (ret tt) x K l [] x K l.
Proof using. intros c k Hc. exists c. split; [done|]. split; [done|]. by rewrite app_nil_r. Qed.

Lemma does_out f x K l o o' x' K' l' : does f x K l o x' K' l' -> o = o' -> does f x K l o' x' K' l'.
Proof using. by intros H <-. Qed.

(** Drawing. *)
Lemma does_screen f x K l : draws f -> does (sh_screen f) x K l [] x K l.
Proof using.
  intros Hf c k [H1 H2 H3 H4 H5 H6]. destruct (Hf _ H4) as (v & E & Hv). unfold sh_screen, on_console, zoom, on_display. cbn [k_console k_core]. rewrite E.
  eexists. split; [reflexivity|]. split; [by split|]. by rewrite app_nil_r.
Qed.

(** Printing to the log. *)
Lemma does_emits f x K l ls x' name : strings_env K -> (forall t, emits buffers tmp name d t K f x ls x') -> does f x K l (lines_bytes name ls) x' K l.
Proof using HY.
  intros HE Hf c k [H1 H2 H3 (t & H4) H5 H6]. destruct (Hf t c k) as (c' & E & [L1 L2 L3 L4] & [W1 W2]); [by split|].
  exists c'. split; [exact E|]. split; [|exact W1]. split; try done; [|by exists t].
  destruct (st_apart HY) as (A1 & _ & (B1 & B2 & B3 & B4 & B5)). destruct H2 as [Hs Hc]. split; [|exact Hc].
  intros i v Ei. rewrite W2; [by apply Hs|..]; apply lookup_lt_Some in Ei; rewrite length_app in Ei; cbn in Ei; unfold off_buffers, apart in *; lia.
Qed.

Lemma text_env K l : strings_env K -> l ∈ all_texts -> K (literal l) = Some l.
Proof using HY.
  intros HE Hl. pose proof (st_texts HY l Hl) as E. destruct (st_strings HY _ _ E) as [[I1 I2] _]. rewrite (se_static _ HE); [exact E|]. unfold in_image. lia.
Qed.

(** Formatted output changes the buffer [tmp] and the screen only. *)
Lemma does_printf x K l fmt args sa out :
  strings_env K -> fmt ∈ all_texts -> format sa fmt None args = Some out -> Forall (fun b => 0 < b < 256) out -> Z.of_nat (length out) < 512 ->
  (forall c k, console_ok K l k c -> args_in (text c) tmp 512 sa) ->
  does (on_console (vga_printf tmp (literal fmt) args)) x K l [] x K l.
Proof using HY.
  intros HE Hf E Hc Hl Ha c k HS. pose proof (Ha c _ HS) as Has. destruct HS as [H1 H2 H3 (t & Ht) H5 H6].
  pose proof (text_env K fmt HE Hf) as Kf. destruct (se_apart _ HE _ _ Kf) as (_ & Hd & _).
  destruct (vga_printf_spec c tmp (literal fmt) sa fmt args out t (proj1 (H1 _ _ Kf)) E Has Hd Hc Hl Ht) as (c' & E' & Ho & Ht' & Hp).
  exists c'. unfold on_console, zoom. cbn [k_console k_core]. rewrite E'. split; [done|]. split; [|by rewrite app_nil_r, Hp]. rewrite <- Hp in H5, H6. split; try done.
  - intros a s Ea. destruct (H1 a s Ea) as (S1 & S2 & S3). split_and!; [|done|done]. eapply str_frame; [exact Ho|apply (se_apart _ HE a s Ea)|exact S1].
  - eapply str_frame; [exact Ho| |exact H2]. destruct (st_apart HY) as (A1 & _). unfold apart in *. lia.
  - by eexists.
Qed.


(** Testing the line for a command. *)
Lemma is_command_spec x c K l k name : strings_env K -> console_ok K l k c -> chars name ∈ all_texts ->
  is_command literal input_buffer name (Kernel c x) = Some (bool_decide (l = chars name), Kernel c x).
Proof using HY.
  intros HE [H1 H2 _ _ _ _] Hn. unfold is_command, sh_text, on_console, zoom, on_text. pose proof H2 as [Hs _].
  destruct (H1 _ _ (text_env K _ HE Hn)) as (S1 & _).
  destruct (strcmp_loop_spec l (str_fuel (text c)) input_buffer (literal (chars name)) (text c) (chars name) H2 S1) as (r & E & Hr & _).
  { apply seg_size in Hs. rewrite length_app in Hs. cbn in Hs. unfold str_fuel. lia. }
  assert (Er : (r =? 0) = bool_decide (l = chars name)) by (destruct (bool_decide_reflect (l = chars name)), (Z.eqb_spec r 0); tauto).
  unfold bind at 1. cbn [k_console k_core]. unfold strcmp, bind, gets. rewrite E, Er. cbn. by destruct c.
Qed.

Lemma does_on x K l name body rest o x' K' : strings_env K -> chars name ∈ all_texts ->
  (l = chars name -> does body x K l o x' K' l) -> (l <> chars name -> does rest x K l o x' K' l) ->
  does (on_command literal input_buffer name body rest) x K l o x' K' l.
Proof using HY.
  intros HE Hn H1 H2 c k HS. unfold on_command. st_step (is_command_spec x c K l _ name HE HS Hn).
  case_bool_decide as E; [by apply H1|by apply H2].
Qed.

Lemma does_skip x K l name body rest o x' K' : strings_env K -> chars name ∈ all_texts -> l <> chars name ->
  does rest x K l o x' K' l -> does (also_command literal input_buffer name body rest) x K l o x' K' l.
Proof using HY.
  intros HE Hn Hne H2 c k HS. unfold also_command. st_step (is_command_spec x c K l _ name HE HS Hn). rewrite bool_decide_eq_false_2 by done.
  rewrite bind_ret. by apply H2.
Qed.

Lemma does_also x K l name body rest o1 o2 x1 K1 x' K' : strings_env K -> chars name ∈ all_texts -> l = chars name ->
  does body x K l o1 x1 K1 l -> does rest x1 K1 l o2 x' K' l -> does (also_command literal input_buffer name body rest) x K l (o1 ++ o2) x' K' l.
Proof using HY.
  intros HE Hn E H1 H2 c k HS. unfold also_command. st_step (is_command_spec x c K l _ name HE HS Hn). rewrite bool_decide_eq_true_2 by done.
  exact (does_bind _ _ _ _ _ _ _ _ _ _ _ _ _ H1 H2 c k HS).
Qed.

Ltac decide_now := apply (bool_decide_unpack _); vm_compute; reflexivity.

(** Membership of a text, by position. *)
Ltac shell_text := unfold all_texts, shell_texts; cbn [app fmap list_fmap map command_names]; repeat first [apply list_elem_of_here | apply list_elem_of_further].

Lemma build_does x K l : strings_env K -> does (on_console (vga_printf tmp (literal (chars "Kernel built: %s %s")) [literal build_date; literal build_time])) x K l [] x K l.
Proof using HY.
  intros HE. destruct (st_build HY) as (Ld & Lt & Hne). set (sa := fun a => if a =? literal build_date then Some build_date else if a =? literal build_time then Some build_time else None).
  assert (Ed : sa (literal build_date) = Some build_date) by (unfold sa; rewrite Z.eqb_refl; reflexivity).
  assert (Et : sa (literal build_time) = Some build_time).
  { unfold sa. rewrite Z.eqb_refl. destruct (Z.eqb_spec (literal build_time) (literal build_date)); [congruence|reflexivity]. }
  assert (Hd : K (literal build_date) = Some build_date) by (apply text_env; [done|shell_text]). assert (Ht : K (literal build_time) = Some build_time) by (apply text_env; [done|shell_text]).
  intros c k HS. destruct (cs_strings _ _ _ _ HS _ _ Hd) as ([_ Hcd] & _), (cs_strings _ _ _ _ HS _ _ Ht) as ([_ Hct] & _). revert c k HS.
  apply (does_printf x K l (chars "Kernel built: %s %s") [literal build_date; literal build_time] sa (chars "Kernel built: " ++ build_date ++ 32 :: build_time)).
  - exact HE.
  - shell_text.
  - change (chars "Kernel built: %s %s") with (chars "Kernel built: " ++ 37 :: 115 :: [32] ++ [37; 115]).
    apply format_text; [decide_now|]. apply format_string; [exact Ed|]. apply (format_text _ [32]); [decide_now|]. by apply format_last.
  - apply Forall_app. split; [apply plain_chars, plainb_spec; vm_compute; reflexivity|]. apply Forall_app. split; [exact Hcd|]. constructor; [lia|exact Hct].
  - rewrite !length_app. cbn [length]. change (length (chars "Kernel built: ")) with 14%nat. lia.
  - intros c k [H1 _ _ _ _ _] a s Ea. unfold sa in Ea. unfold MAX_STRING_LEN.
    destruct (Z.eqb_spec a (literal build_date)) as [->|]; [injection Ea as <-; split; [apply (H1 _ _ Hd)|split; [lia|apply (se_apart _ HE _ _ Hd)]]|].
    destruct (Z.eqb_spec a (literal build_time)) as [->|]; [|discriminate Ea]. injection Ea as <-. split; [apply (H1 _ _ Ht)|split; [lia|apply (se_apart _ HE _ _ Ht)]].
Qed.

Lemma unknown_does x K l : strings_env K -> does (on_console (vga_printf tmp (literal (chars "Unknown command: %s")) [input_buffer])) x K l [] x K l.
Proof using HY.
  intros HE c k HS. pose proof (cs_length _ _ _ _ HS) as Hl. pose proof (proj2 (cs_line _ _ _ _ HS)) as Hc. revert c k HS.
  apply (does_printf x K l (chars "Unknown command: %s") [input_buffer] (fun a => if a =? input_buffer then Some l else None) (chars "Unknown command: " ++ l)).
  - exact HE.
  - shell_text.
  - change (chars "Unknown command: %s") with (chars "Unknown command: " ++ [37; 115]). apply format_text; [decide_now|]. apply format_last. by rewrite Z.eqb_refl.
  - apply Forall_app. split; [apply plain_chars, plainb_spec; vm_compute; reflexivity|exact Hc].
  - rewrite length_app. change (length (chars "Unknown command: ")) with 17%nat. lia.
  - intros c k [_ H2 _ _ _ _] a s Ea. destruct (Z.eqb_spec a input_buffer) as [->|]; [|discriminate Ea]. injection Ea as <-.
    split; [exact H2|]. destruct (st_apart HY) as (A1 & _). unfold MAX_STRING_LEN, apart in *. lia.
Qed.

Lemma clear_does x K l : does clear_lines x K l [] x K l.
Proof using. apply does_screen, draws_for. intros j Hj. apply draws_clear_line. change (Z.of_nat (Z.to_nat (VGA_HEIGHT - 4))) with 21 in Hj. lia. Qed.

(** ** Keys *)

Definition put_text c (m : bytes) : console := Console m (screen c) (port c).

Lemma text_run {X} (f : ST bytes X) c x a m : f (text c) = Some (a, m) -> sh_text f (Kernel c x) = Some (a, Kernel (put_text c m) x).
Proof using. intros E. unfold sh_text, on_console, zoom, on_text. cbn [k_console k_core]. by rewrite E. Qed.

(** Writing to the buffer or to the key's slot leaves the strings alone. *)
Lemma console_put K l k c m' l' a n : strings_env K ->
  console_ok K l k c -> only (text c) m' a n -> (a = key_slot /\ n = 2 \/ input_buffer <= a /\ a + n <= input_buffer + 256) ->
  str_at m' input_buffer l' -> (length l' <= 255)%nat -> console_ok K l' k (put_text c m').
Proof using.
  intros HE [H1 H2 H3 H4 H5 H6] Ho Hd Hs Hl. split; cbn; try done. intros b s Eb. destruct (H1 b s Eb) as (S1 & S2 & S3). split_and!; [|done|done].
  destruct (se_apart _ HE b s Eb) as (A1 & A2 & A3). eapply str_frame; [exact Ho| |exact S1]. clear -Hd A1 A3. unfold apart in *. destruct Hd as [[-> ->]|Hd]; lia.
Qed.

Lemma wr_only (m : bytes) a (v : Z) : only m (<[a := v]> m) a 1.
Proof using. intros b Hb. rewrite lookup_insert_ne; [done|]. lia. Qed.

Lemma removelast_split {X} (u : list X) : u <> [] -> exists y, u = removelast u ++ [y].
Proof using. destruct u as [|y u]; [done|]. intros Hu. exists (List.last (y :: u) y). by apply app_removelast_last. Qed.

(** Overwriting the last character with a NUL byte. *)
Lemma str_chop (m : bytes) a l : l <> [] -> str_at m a l -> str_at (<[a + (Z.of_nat (length l) - 1) := 0]> m) a (removelast l).
Proof using.
  intros Hl [Hs Hc]. destruct (removelast_split l Hl) as [y E]. rewrite E in Hs, Hc |- * at 1. rewrite length_app. cbn [length].
  apply Forall_app in Hc as [Hc _]. rewrite <- app_assoc in Hs. apply seg_app in Hs as [Hs _]. split; [|done]. apply seg_app. split.
  - apply seg_insert; [lia|done].
  - apply seg_cons. split; [|apply seg_nil]. replace (Z.of_nat (length (removelast l) + 1) - 1) with (Z.of_nat (length (removelast l))) by lia. apply lookup_insert_eq.
Qed.

Lemma delete_does x K l : strings_env K -> l <> [] -> does (shell_delete_from_input_buffer input_buffer) x K l [] x K (removelast l).
Proof using.
  intros HE Hl c k HS. pose proof HS as [_ H2 H3 _ _ _]. set (m := text c) in *. set (n := Z.of_nat (length l)).
  assert (Hlen : n < MAX_STRING_LEN) by (unfold n, MAX_STRING_LEN; lia).
  assert (Hsame : <[input_buffer + n := u8 0]> m = m).
  { apply insert_id. destruct H2 as [Hs _]. apply seg_app in Hs as [_ Hs]. by apply seg_cons in Hs as [? _]. }
  assert (E1 : strlen input_buffer m = Some (n, m)) by by apply strlen_spec.
  exists (put_text c (<[input_buffer + (n - 1) := 0]> m)). split; [|split; [|by rewrite app_nil_r]].
  - unfold shell_delete_from_input_buffer. st_step (text_run _ c x _ _ E1).
    st_step (text_run (wr (input_buffer + n) 0) (put_text c m) x _ _ (wr_run _ _ _)). cbn [put_text text]. rewrite Hsame.
    change (put_text (put_text c m) m) with (put_text c m). st_step (text_run (strlen input_buffer) (put_text c m) x _ _ E1).
    exact (text_run (wr (input_buffer + (n - 1)) 0) (put_text c m) x _ _ (wr_run _ _ _)).
  - eapply (console_put K l _ c _ _ (input_buffer + (n - 1)) 1 HE HS).
    + apply wr_only.
    + right. destruct l; [done|]. unfold n. cbn [length] in *. lia.
    + by apply str_chop.
    + destruct (removelast_split l Hl) as [y E]. rewrite E, length_app in H3. cbn in H3. lia.
Qed.

(** An ordinary key, already in its slot, is appended to the line. *)
Lemma append_spec x K l k c key : strings_env K -> console_ok K l k c -> 0 < key < 256 -> (length l < 255)%nat -> text c !! key_slot = Some key ->
  exists m m', wr (key_slot + 1) 0 (text c) = Some (tt, m) /\ strcat input_buffer key_slot m = Some (input_buffer, m') /\ console_ok K (l ++ [key]) k (put_text c m').
Proof using HY.
  intros HE HS Hk Hl Ek. pose proof HS as [_ H2 _ _ _ _]. set (m := text c) in *. destruct (st_apart HY) as (_ & Ay & _).
  set (m1 := <[key_slot + 1 := 0]> m).
  assert (HK : str_at m1 key_slot [key]).
  { split; [|constructor; [lia|constructor]]. apply seg_cons. split; [unfold m1; by rewrite lookup_insert_ne by lia|].
    apply seg_cons. split; [unfold m1; apply lookup_insert_eq|apply seg_nil]. }
  assert (HL : str_at m1 input_buffer l).
  { eapply (str_frame m _ _ _ (key_slot + 1) 1); [apply wr_only|unfold apart in *; lia|done]. }
  destruct (strcat_spec input_buffer key_slot m1 l [key] HL HK) as (m2 & E2 & HL2 & Ho2).
  - unfold MAX_STRING_LEN. lia.
  - cbn [length]. unfold apart in Ay. lia.
  - exists m1, m2. split; [apply wr_run|]. split; [exact E2|]. cbn [length] in Ho2. assert (HS1 : console_ok K l k (put_text c m1)).
    { eapply (console_put K l k c m1 l key_slot 2 HE HS); [|by left|done|lia]. intros b Hb. unfold m1. rewrite lookup_insert_ne by lia. done. }
    apply (console_put K l k (put_text c m1) m2 (l ++ [key]) (input_buffer + Z.of_nat (length l)) 2 HE HS1); [exact Ho2|right; lia|done|].
    rewrite length_app. cbn. lia.
Qed.

Lemma clear_buffer_does x K l : strings_env K -> does (shell_clear_input_buffer input_buffer) x K l [] x K [].
Proof using.
  intros HE c k HS. destruct (memset_loop_spec (Z.to_nat INPUT_BUFFER_SIZE) input_buffer (text c)) as (m' & E & Ho & Hz).
  change (Z.of_nat (Z.to_nat INPUT_BUFFER_SIZE)) with 256 in *. exists (put_text c m'). split; [|split; [|by rewrite app_nil_r]].
  - assert (E' : memset input_buffer 0 INPUT_BUFFER_SIZE (text c) = Some (input_buffer, m')) by (unfold memset; by st_step E).
    unfold shell_clear_input_buffer. by st_step (text_run _ c x _ _ E').
  - apply (console_put K l _ c m' [] input_buffer 256 HE HS Ho); [right; lia| |cbn; lia]. split; [|constructor].
    apply seg_cons. split; [|apply seg_nil]. specialize (Hz 0 ltac:(lia)). by rewrite Z.add_0_r in Hz.
Qed.

Lemma prompt_does x K l : strings_env K -> does (shell_print_prompt literal) x K l [] x K l.
Proof using HY.
  intros HE. apply (does_bind _ _ x x x K K K l l l [] []); [|apply does_screen, draws_cursor; lia]. intros c k [H1 H2 H3 H4 H5 H6].
  assert (Hp : K (literal (chars "shell> ")) = Some (chars "shell> ")) by (apply text_env; [done|shell_text]).
  destruct (draws_overwrite (text c) (literal (chars "shell> ")) (chars "shell> ") VGA_COLOUR_WHITE VGA_COLOUR_BLACK 24
    (proj1 (H1 _ _ Hp)) ltac:(cbn; lia) ltac:(lia) _ H4) as (v & E & Hv).
  unfold on_console, zoom, on_display. cbn [k_console k_core]. rewrite E. eexists. split; [reflexivity|]. split; [by split|]. by rewrite app_nil_r.
Qed.

End Editor.
