(* ===== verification/ShellSession.v ===== *)
(** * The shell on the whole kernel

    The commands run on the scheduler, the heap, the page tables, the registry of
    file systems and the log at once.  A session, from scan codes to the bytes on
    the serial port, is what the submitted lines ask for, one after the other. *)

From Stdlib Require Import String Ascii.
From stdpp Require Import base numbers list gmap sets.
From Stdlib Require Import ZArith Lia.
From S2P Require Import Prelude LinkedList CString CStringSpec SprintfSpec PageDefs Bootmem BootmemSpec Blocks Palloc BuddyInv PageAlloc PageSource PageClaims Slab SlabInv SlabSpec HeapClaims Ptable HeapClient PtableSpec HeapGrow VmSpec Task TaskSpec TaskCreate Vfs VfsSpec Interrupts Console ConsoleSpec Logging LoggingSpec ArchInit ArchInitSpec ShellTasks DebugPrint DebugPrintSpec DebugReports Shell ShellSpec.

#[local] Open Scope Z_scope.

(** The state of the components with the tasks in list order and the slabs and
    blocks of the heap. *)
Record view : Type := View {
  v_core : core;
  v_tasks : list Z;
  v_slabs : list (list (Z * list Z));
  v_blocks : gset (Z * Z)
}.

Section Session.
  Context (KS KE input_buffer tmp key_slot fs_slot : Z) (literal : list Z -> Z).
  Context (buffers : log_buffers) (files : file_names) (task_head q slab_caches_addr isr_exit apple d : Z) (build_date build_time : list Z).
  Context (K0 : Z -> option (list Z)).
  (** The registered file systems. *)
  Context (types : list Z).
  Context (ktest_run_module : Z -> ST kernel unit) (ktest_run_all : ST kernel unit).
  Implicit Types (K : Z -> option (list Z)) (x : core) (c : console) (l out : list Z) (s : sched buddy) (v : view) (n : nat).

#[local] Instance session_pages : PageSource buddy := buddy_source KS KE.

#[local] Abbreviation static := (static_ok KS KE input_buffer tmp key_slot literal buffers files slab_caches_addr build_date build_time K0).
#[local] Abbreviation env := (strings_env KS KE input_buffer tmp key_slot K0).
#[local] Abbreviation act := (does input_buffer buffers d).

Context (HY : static).

(** ** The names of the tasks *)

(** The strings of the image, and the name in every task's structure. *)
Definition names_of s l (a : Z) : option (list Z) :=
  match list_find (fun t => t + TASK_NAME = a) l with
  | Some (_, t) => match tasks s !! t with Some y => Some (name_text (tname y)) | None => None end
  | None => K0 a
  end.

(** A task's name ends inside its array. *)
Definition name_ok (y : task) : Prop := (length (name_text (tname y)) <= 15)%nat /\ Forall (fun b => 0 < b < 256) (name_text (tname y)).

(** A task's structure is not in the image. *)
Lemma task_off_image s l G A t : system_ok task_head (image KS KE) q s l G A -> t ∈ l ->
  forall b, t <= b < t + 128 -> ~ in_image KS KE b 1.
Proof using.
  intros [_ HR HF HK _ _ _] Ht b Hb [I1 I2]. rewrite Forall_forall in HF.
  destruct (PAGE_ALIGN_word KS) as [R1 [u1 U1]], (PAGE_ALIGN_word KE) as [R2 [u2 U2]]. unfold KERNEL_START_VIRT in *.
  set (f := (b - 0xC0000000) / 4096). assert (Hf : b - 0xC0000000 = 4096 * f + (b - 0xC0000000) mod 4096) by (apply Z.div_mod; lia).
  pose proof (Z.mod_pos_bound (b - 0xC0000000) 4096 ltac:(lia)) as Hm. clearbody f.
  apply (live_off_frame (image KS KE) (tmem s) G A 4 t 128 b f HR HK (HF t Ht) eq_refl); [| |exact Hb].
  - unfold image. lia.
  - unfold in_frame, lin, KERNEL_START_VIRT. lia.
Qed.

(** Nor does it meet an area of the image. *)
Lemma task_apart s l G A t a k : system_ok task_head (image KS KE) q s l G A -> t ∈ l -> in_image KS KE a k -> 0 < k -> apart (t + TASK_NAME) 16 a k.
Proof using.
  intros HS Ht [I1 I2] Hk. destruct (decide (t + 64 <= a)); [left; unfold TASK_NAME; lia|]. destruct (decide (a + k <= t + 48)); [right; unfold TASK_NAME; lia|].
  destruct (task_off_image s l G A t HS Ht (Z.max a (t + 48))); [lia|]. unfold in_image. lia.
Qed.

Lemma name_apart s l G A t (r : list Z) a k : system_ok task_head (image KS KE) q s l G A -> t ∈ l -> (length r <= 15)%nat -> in_image KS KE a k -> 0 < k ->
  apart (t + TASK_NAME) (Z.of_nat (length r) + 1) a k.
Proof using. intros HS Ht Hr Ha Hk. pose proof (task_apart s l G A t a k HS Ht Ha Hk). unfold apart in *. lia. Qed.

Lemma tasks_apart s l G A t u : system_ok task_head (image KS KE) q s l G A -> t ∈ l -> u ∈ l -> t <> u -> apart (t + TASK_NAME) 16 (u + TASK_NAME) 16.
Proof using.
  intros [_ HR HF _ _ _ _] Ht Hu Hne. rewrite Forall_forall in HF. unfold TASK_NAME.
  destruct (decide (t + 64 <= u + 48)); [left; lia|]. destruct (decide (u + 64 <= t + 48)); [right; lia|].
  destruct (live_disjoint (tmem s) G A 4 4 t u 128 128 (Z.max t u + 48) HR (HF t Ht) (HF u Hu) eq_refl eq_refl) as [_ E]; [lia|lia|done].
Qed.

Lemma find_name l t : t ∈ l -> exists i, list_find (fun u => u + TASK_NAME = t + TASK_NAME) l = Some (i, t).
Proof using.
  intros Ht. destruct (list_find_elem_of (fun u => u + TASK_NAME = t + TASK_NAME) l t Ht eq_refl) as [[i u] E].
  exists i. rewrite E. apply list_find_Some in E as (_ & Eu & _). by assert (u = t) as -> by lia.
Qed.

Lemma names_of_task s l t y : t ∈ l -> tasks s !! t = Some y -> names_of s l (t + TASK_NAME) = Some (name_text (tname y)).
Proof using. intros Ht Ey. unfold names_of. destruct (find_name l t Ht) as [i ->]. by rewrite Ey. Qed.

(** A string is one of the image's or a task's name. *)
Lemma names_of_inv s l a r : names_of s l a = Some r ->
  (exists t y, t ∈ l /\ a = t + TASK_NAME /\ tasks s !! t = Some y /\ r = name_text (tname y)) \/ (K0 a = Some r /\ forall t, t ∈ l -> t + TASK_NAME <> a).
Proof using.
  unfold names_of. destruct (list_find _ l) as [[i t]|] eqn:E.
  - apply list_find_Some in E as (Ei & Ea & _). destruct (tasks s !! t) as [y|] eqn:Ey; [|done]. intros [= <-]. left. exists t, y. split_and!; try done.
    by apply list_elem_of_lookup_2 in Ei.
  - intros Er. right. split; [done|]. intros t Ht Ea. apply list_find_None in E. rewrite Forall_forall in E. by apply (E t Ht).
Qed.

Definition names_ok s l : Prop := forall t y, t ∈ l -> tasks s !! t = Some y -> name_ok y.

Lemma names_env s l G A : system_ok task_head (image KS KE) q s l G A -> names_ok s l -> env (names_of s l).
Proof using HY.
  intros HS HN. split.
  - intros a Ha. unfold names_of. destruct (list_find _ l) as [[i t]|] eqn:E; [|done]. apply list_find_Some in E as (Ei & Ea & _).
    exfalso. apply (task_off_image s l G A t HS (list_elem_of_lookup_2 _ _ _ Ei) a); [unfold TASK_NAME in Ea; lia|exact Ha].
  - intros a r [(t & y & Ht & -> & Ey & ->)|[E _]]%names_of_inv; [|apply (st_strings _ _ _ _ _ _ _ _ _ _ _ _ HY a r E)].
    destruct (HN t y Ht Ey) as [Hl _]. pose proof (st_areas _ _ _ _ _ _ _ _ _ _ _ _ HY) as HA. apply Forall_cons in HA as [A1 [A2 [A3 _]%Forall_cons]%Forall_cons]. cbn [fst snd] in *.
    split_and!; (eapply name_apart; [exact HS|exact Ht|exact Hl|assumption|lia]).
Qed.

(** Writing a new task's name makes it one more string. *)
Lemma write_bytes_spec (r : list Z) : forall (m : bytes) a, Forall (fun b => 0 <= b < 256) r ->
  exists m', write_bytes a r m = Some (tt, m') /\ only m m' a (Z.of_nat (length r)) /\ seg m' a r.
Proof using.
  induction r as [|b r IH]; intros m a Hb; [exists m; split; [done|]; split; [done|apply seg_nil]|].
  apply Forall_cons in Hb as [Hb Hr]. cbn [write_bytes]. destruct (IH (<[a := b]> m) (a + 1) Hr) as (m' & E & Ho & Hs). exists m'.
  split; [|split].
  - st_step (wr_run m a b). by rewrite u8_small by lia.
  - intros y Hy. cbn [length] in Hy. rewrite Ho by lia. rewrite lookup_insert_ne by lia. done.
  - apply seg_cons. split; [|exact Hs]. rewrite Ho by lia. apply lookup_insert_eq.
Qed.

(** The text of a name in its array. *)
Lemma name_text_spec (r : list Z) : 0 ∈ r -> exists r', r = name_text r ++ 0 :: r'.
Proof using.
  induction r as [|b r IH]; intros H0; [by apply not_elem_of_nil in H0|]. cbn [name_text]. destruct (Z.eqb_spec b 0) as [->|Hb]; [by exists r|].
  apply elem_of_cons in H0 as [H0|H0]; [congruence|]. destruct (IH H0) as [r' E]. exists r'. cbn. by rewrite <- E.
Qed.

Lemma publish s s' l G' A' t y (m : bytes) : system_ok task_head (image KS KE) q s' (t :: l) G' A' -> names_ok s' (t :: l) ->
  (forall u, u <> t -> tasks s' !! u = tasks s !! u) -> tasks s' !! t = Some y -> length (tname y) = 16%nat -> 0 ∈ tname y -> Forall (fun b => 0 <= b < 256) (tname y) ->
  strings_ok buffers (names_of s l) m ->
  exists m', write_bytes (t + TASK_NAME) (tname y) m = Some (tt, m') /\ only m m' (t + TASK_NAME) 16 /\ strings_ok buffers (names_of s' (t :: l)) m'.
Proof using HY.
  intros HS HN Ho Ey Hl H0 Hb Hm. destruct (write_bytes_spec (tname y) m (t + TASK_NAME) Hb) as (m' & E & Hm' & Hseg). rewrite Hl in Hm'.
  exists m'. split; [exact E|]. split; [exact Hm'|]. intros a r Ea. pose proof Ea as Ea'. apply names_of_inv in Ea' as [(u & z & Hu & -> & Ez & ->)|[E0 Hne]].
  - destruct (HN u z Hu Ez) as [Hlen Hc]. destruct (decide (u = t)) as [->|Hut].
    + rewrite Ey in Ez. injection Ez as <-. destruct (name_text_spec (tname y) H0) as [r' Er]. split; [|split].
      * split; [|exact Hc]. rewrite Er in Hseg. change (0 :: r') with ([0] ++ r') in Hseg. rewrite app_assoc in Hseg. by apply seg_app in Hseg as [? _].
      * unfold TEXT_MAX. lia.
      * pose proof (st_areas _ _ _ _ _ _ _ _ _ _ _ _ HY) as HA. do 8 (apply Forall_cons in HA as [? HA]). cbn [fst snd] in *.
        unfold off_buffers. split_and!; (eapply name_apart; [exact HS|exact Hu|exact Hlen|assumption|lia]).
    + apply elem_of_cons in Hu as [|Hu]; [done|]. rewrite Ho in Ez by done.
      destruct (Hm _ _ (names_of_task s l u z Hu Ez)) as (S1 & S2 & S3). split_and!; [|done|done].
      eapply str_frame; [exact Hm'| |exact S1]. pose proof (tasks_apart s' (t :: l) G' A' u t HS (list_elem_of_further _ _ _ Hu) (list_elem_of_here _ _) Hut).
      unfold apart in *. lia.
  - assert (E1 : names_of s l a = Some r).
    { unfold names_of. rewrite (proj2 (list_find_None _ l)); [exact E0|]. apply Forall_forall. intros u Hu. apply Hne. by apply list_elem_of_further. }
    destruct (Hm _ _ E1) as (S1 & S2 & S3). split_and!; [|done|done]. eapply str_frame; [exact Hm'| |exact S1].
    destruct (st_strings _ _ _ _ _ _ _ _ _ _ _ _ HY a r E0) as [Hi _].
    pose proof (task_apart s' (t :: l) G' A' t a _ HS (list_elem_of_here _ _) Hi ltac:(lia)). unfold apart in *. lia.
Qed.

(** The name [task_create] stores. *)
Lemma stored_name (r : list Z) : (length r <= 15)%nat -> Forall (fun b => 0 < b < 256) r ->
  let stored := <[(TASK_NAME_LENGTH_MAX - 1)%nat := 0]> (copy_name r) in
  length stored = 16%nat /\ 0 ∈ stored /\ Forall (fun b => 0 <= b < 256) stored /\ name_text stored = r.
Proof using.
  intros Hr Hb stored.
  assert (E : stored = r ++ replicate (16 - length r) 0).
  { unfold stored, copy_name. change TASK_NAME_LENGTH_MAX with 16%nat. rewrite take_app_ge, take_replicate by lia. replace (Init.Nat.min (16 - length r) 16) with (16 - length r)%nat by lia.
    rewrite insert_app_r_alt by lia. f_equal. apply list_eq. intros i. destruct (decide (i = (16 - 1 - length r)%nat)) as [->|Hi].
    - rewrite list_lookup_insert_eq by (rewrite length_replicate; lia). symmetry. apply lookup_replicate_2. lia.
    - by rewrite list_lookup_insert_ne. }
  rewrite E. destruct (16 - length r)%nat as [|k] eqn:Ek; [lia|]. cbn [replicate]. split_and!.
  - rewrite length_app. cbn [length]. rewrite length_replicate. lia.
  - apply elem_of_app. right. apply list_elem_of_here.
  - apply Forall_app. split; [eapply Forall_impl; [exact Hb|]; cbn; lia|]. constructor; [lia|]. apply Forall_replicate. lia.
  - clear -Hb. induction r as [|b r IH]; [done|]. apply Forall_cons in Hb as [Hb Hr]. cbn. destruct (Z.eqb_spec b 0); [lia|]. by rewrite (IH Hr).
Qed.

(** ** Well-formed states *)

(** The registry, without the name the shell uses for its own type. *)
Definition fs_ok x : Prop :=
  clist (co_fs_nodes x) FsHead (FsEntry <$> types) /\ co_fs_lock x = false /\ ~ (fs_slot ∈ types) /\ fs_slot <> 0 /\
  forall u, u ∈ types -> exists ty r, co_fs_types x !! u = Some ty /\ K0 (fs_name ty) = Some r /\ r <> chars "test123".

(** Everything the commands work on, with room for [n] more tasks. *)
Record view_ok n v : Prop := ViewOk {
  vo_system : system_ok task_head (image KS KE) q (co_sched (v_core v)) (v_tasks v) (v_slabs v) (v_blocks v);
  vo_room : roomy (image KS KE) (5 * n) (source (core_heap (v_core v)));
  vo_ids : 0 <= last_task_id (co_sched (v_core v)) /\ last_task_id (co_sched (v_core v)) + Z.of_nat n <= 2147483647;
  vo_tasks : forall t y, t ∈ v_tasks v -> tasks (co_sched (v_core v)) !! t = Some y -> task_printable y /\ name_ok y;
  vo_early : exists ks ke, bm_ok ks ke (co_bootmem (v_core v)) /\
    Forall (fun r => printable_number (u32 (start_addr r - orig_start_addr r))) (mem_regions (co_bootmem (v_core v)));
  vo_fs : fs_ok (v_core v)
}.

Definition strings v : Z -> option (list Z) := names_of (co_sched (v_core v)) (v_tasks v).

Lemma view_env n v : view_ok n v -> env (strings v).
Proof using HY. intros HV. eapply names_env; [apply HV|]. intros t y Ht Ey. by apply (vo_tasks _ _ HV t y). Qed.

(** ** Starting a task *)

(** [op] started the task at the head of the list. *)
Definition started (op : ST (sched buddy) Z) v v' : Prop :=
  exists t s', op (co_sched (v_core v)) = Some (t, s') /\ v_core v' = with_sched s' (v_core v) /\ v_tasks v' = t :: v_tasks v.

Lemma start_does n v (name : list Z) (ty start lo hi : Z) : view_ok (S n) v -> (length name <= 15)%nat -> Forall (fun b => 0 < b < 256) name ->
  exists v', started (start_mapped task_head (lin q) isr_exit name ty start lo hi) v v' /\ view_ok n v' /\
    forall l, act (t <- on_sched (start_mapped task_head (lin q) isr_exit name ty start lo hi) ;; name_in_memory t)%st (v_core v) (strings v) l [] (v_core v') (strings v') l.
Proof using HY.
  intros [V1 V2 [V3 V4] V5 V6 V7] Hn Hb. destruct v as [x ts G A]. cbn [v_core v_tasks v_slabs v_blocks] in *.
  destruct (start_mapped_spec task_head (lin q) isr_exit (image KS KE) (5 * n) q (co_sched x) ts G A name ty start lo hi V1)
    as (t & w & dd & map & s' & G' & A' & E & HS' & Hr' & [(bot & Et) _ _ _] & _ & _ & Ho & Hid); [replace (5 + 5 * n)%nat with (5 * S n)%nat by lia; exact V2|done|lia|].
  destruct (stored_name name Hn Hb) as (N1 & N2 & N3 & N4). set (y := Task _ _ _ _ _ _ _ _ _ _ _) in Et.
  assert (HT : forall u z, u ∈ t :: ts -> tasks s' !! u = Some z -> task_printable z /\ name_ok z).
  { intros u z Hu Ez. destruct (decide (u = t)) as [->|Hut].
    - rewrite Et in Ez. injection Ez as <-. split; [|unfold name_ok; cbn [tname y]; by rewrite N4].
      unfold task_printable. cbn [tid priority kstack_size kstack_bot kstack_top ticks y]. replace (bot - (bot - 84)) with 84 by lia.
      repeat (apply Forall_cons; split; [apply small_printable; unfold TASK_PRIORITY_MIN, KSTACK_BYTES; lia|]). constructor.
    - apply elem_of_cons in Hu as [|Hu]; [done|]. rewrite Ho in Ez by done. by apply (V5 u z). }
  exists (View (with_sched s' x) (t :: ts) G' A'). split; [by exists t, s'|]. split.
  - split; cbn [v_core v_tasks v_slabs v_blocks co_sched with_sched]; try done. rewrite Hid. lia.
  - intros l c k [H1 H2 H3 H4 H5 H6].
    destruct (publish (co_sched x) s' ts G' A' t y (text c) HS') as (m' & Em & Hm & HM); try done; [intros u z Hu Ez; by apply (HT u z)|].
    exists (put_text c m'). split; [|split; [|by rewrite app_nil_r]].
    + assert (E1 : on_sched (start_mapped task_head (lin q) isr_exit name ty start lo hi) (Kernel c x) = Some (t, Kernel c (with_sched s' x))).
      { unfold on_sched, on_core, zoom. cbn [k_core k_console]. by rewrite E. }
      st_step E1. unfold name_in_memory.
      assert (E2 : on_sched (get_task t) (Kernel c (with_sched s' x)) = Some (y, Kernel c (with_sched s' x))).
      { unfold on_sched, on_core, zoom, get_task. cbn [k_core k_console co_sched with_sched]. by rewrite Et. }
      st_step E2. by apply text_run.
    + split; try done. eapply str_frame; [exact Hm| |exact H2].
      pose proof (st_areas _ _ _ _ _ _ _ _ _ _ _ _ HY) as HA. apply Forall_cons in HA as [A1 _]. cbn [fst snd] in A1.
      pose proof (task_apart s' (t :: ts) G' A' t input_buffer 256 HS' (list_elem_of_here _ _) A1 ltac:(lia)). unfold apart in *. lia.
Qed.

(** ** The log *)

(** What a report puts on the serial port. *)
Definition said K (file : Z) (r : list (list piece)) : list Z := lines_bytes (default [] (K0 file)) (lines_of K r).

Definition known_files : list Z := [in_shell files; in_task files; in_palloc files; in_bootmem files; in_slab files; in_fs_type files].

Lemma static_env K a r : env K -> K0 a = Some r -> K a = Some r.
Proof using HY.
  intros HE E. destruct (st_strings _ _ _ _ _ _ _ _ _ _ _ _ HY a r E) as [[I1 I2] _]. rewrite (se_static _ _ _ _ _ _ _ HE); [exact E|]. unfold in_image. lia.
Qed.

Lemma sends_does f x K l r x' file : env K -> file ∈ known_files ->
  (forall name t, (length name <= 64)%nat -> K file = Some name -> sends buffers tmp name d t K f x r x') -> act f x K l (said K file r) x' K l.
Proof using HY.
  intros HE Hf Hs. pose proof (st_files _ _ _ _ _ _ _ _ _ _ _ _ HY) as HF. rewrite Forall_forall in HF. destruct (HF file Hf) as (name & E & Hn).
  unfold said. rewrite E. cbn [default from_option id]. eapply (does_emits KS KE input_buffer tmp key_slot literal buffers files slab_caches_addr d build_date build_time K0); [exact HY|exact HE|].
  intros t. apply Hs; [exact Hn|]. by apply static_env.
Qed.

Lemma report_env K : env K -> forall r, r ∈ report_texts -> K (literal r) = Some r.
Proof using HY.
  intros HE r Hr. eapply text_env; [exact HY|exact HE|]. unfold all_texts. apply elem_of_app. right. by do 2 apply list_elem_of_further.
Qed.

(** A message of the shell itself. *)
Lemma shell_log_does x K l fmt args m : env K -> fmt ∈ all_texts build_date build_time -> fmt = fmt_of m -> args = args_of m -> Forall (piece_ok K) m -> (room_of m <= 440)%nat ->
  act (shell_log literal buffers files fmt args) x K l (said K (in_shell files) [m]) x K l.
Proof using HY.
  intros HE Hin Ef Ea Hm Hr. apply sends_does; [exact HE|apply list_elem_of_here|]. intros name t Hn Kn.
  apply emits_log; try done; [apply (st_buffers _ _ _ _ _ _ _ _ _ _ _ _ HY)|eapply text_env; [exact HY|exact HE|exact Hin]|].
  apply report_env; [exact HE|]. apply list_elem_of_here.
Qed.

Lemma newline_does x K l : env K -> act (shell_log literal buffers files [10] []) x K l (said K (in_shell files) [[Lit [10]]]) x K l.
Proof using HY.
  intros HE. apply shell_log_does; try done.
  - unfold all_texts. apply elem_of_app. right. do 2 apply list_elem_of_further. apply list_elem_of_further, list_elem_of_here.
  - by repeat constructor.
  - apply Nat.leb_le. reflexivity.
Qed.

Ltac known := unfold known_files; repeat first [apply list_elem_of_here | apply list_elem_of_further].
Ltac printer HE := intros name t Hn Kn; pose proof (st_buffers _ _ _ _ _ _ _ _ _ _ _ _ HY); pose proof (report_env _ HE).

Definition heap_lines v : list (list piece) := concat (heap_report slab_caches_addr (v_slabs v) <$> seqZ 0 13).

Definition page_lines v : list (list piece) :=
  let b := source (core_heap (v_core v)) in buddy_report b ++ concat (order_report b <$> seqZ 0 7).

Lemma tasks_does n v l : view_ok n v ->
  act (task_print literal buffers (in_task files) task_head) (v_core v) (strings v) l
    (said (strings v) (in_task files) (task_list_report literal (co_sched (v_core v)) (v_tasks v))) (v_core v) (strings v) l.
Proof using HY.
  intros HV. pose proof (view_env n v HV) as HE. apply sends_does; [exact HE|known|]. printer HE. apply send_task_print; try done; [apply HV|].
  intros t' y Ht Ey. split; [by apply names_of_task|]. by apply (vo_tasks _ _ HV t' y).
Qed.

Lemma heap_does n v l : view_ok n v ->
  act (print_heap literal buffers files slab_caches_addr) (v_core v) (strings v) l (said (strings v) (in_slab files) (heap_lines v)) (v_core v) (strings v) l.
Proof using HY.
  intros HV. pose proof (view_env n v HV) as HE. apply sends_does; [exact HE|known|]. printer HE. eapply send_kmalloc; try done; [apply (sy_heap _ _ _ _ _ _ _ (vo_system _ _ HV))|].
  intros i Hi. destruct (st_caches _ _ _ _ _ _ _ _ _ _ _ _ HY i Hi) as [r E]. exists r. by apply static_env.
Qed.

Lemma pages_does n v l : view_ok n v ->
  act (print_pages literal buffers files) (v_core v) (strings v) l (said (strings v) (in_palloc files) (page_lines v)) (v_core v) (strings v) l.
Proof using HY.
  intros HV. pose proof (view_env n v HV) as HE. apply sends_does; [exact HE|known|]. printer HE.
  destruct (buddy_printable KS KE _ _ (hr_source _ _ _ (sy_heap _ _ _ _ _ _ _ (vo_system _ _ HV)))) as [P1 P2]. by apply send_buddy.
Qed.

Lemma early_does n v l : view_ok n v ->
  act (bootmem_print_debug literal buffers (in_bootmem files)) (v_core v) (strings v) l (said (strings v) (in_bootmem files) (early_report (co_bootmem (v_core v)))) (v_core v) (strings v) l.
Proof using HY.
  intros HV. pose proof (view_env n v HV) as HE. apply sends_does; [exact HE|known|]. printer HE. destruct (vo_early _ _ HV) as (ks & ke & Hb & Hp).
  apply send_bootmem; try done; [apply (bo_length _ _ _ Hb)|]. destruct (bo_count _ _ _ Hb). apply small_printable. unfold MAX_MEM_REGIONS in *. lia.
Qed.

(** "mem" *)
Definition mem_output v : list Z :=
  let K := strings v in
  let newline := said K (in_shell files) [[Lit [10]]] in
  newline ++ said K (in_palloc files) (page_lines v) ++ newline ++ said K (in_bootmem files) (early_report (co_bootmem (v_core v))) ++ newline.

Lemma mem_does n v l : view_ok n v -> act (mem_body literal buffers files) (v_core v) (strings v) l (mem_output v) (v_core v) (strings v) l.
Proof using HY.
  intros HV. pose proof (view_env n v HV) as HE. unfold mem_output, mem_body.
  eapply does_bind; [by apply newline_does|]. eapply does_bind; [by eapply pages_does|]. eapply does_bind; [by apply newline_does|].
  eapply does_bind; [by eapply early_does|]. by apply newline_does.
Qed.

(** ** The registry *)

(** The list [ts] of registered types, with their names in the image. *)
Definition fs_view x (ts : list Z) : Prop :=
  clist (co_fs_nodes x) FsHead (FsEntry <$> ts) /\ co_fs_lock x = false /\
  forall u, u ∈ ts -> exists ty r, co_fs_types x !! u = Some ty /\ K0 (fs_name ty) = Some r.

Definition type_name x (u : Z) : list Z := match co_fs_types x !! u with Some ty => default [] (K0 (fs_name ty)) | None => [] end.

Lemma known_view x c K l k u ty r : env K -> console_ok input_buffer buffers d K l k c -> co_fs_types x !! u = Some ty -> K0 (fs_name ty) = Some r ->
  is_Some (co_fs_nodes x !! FsEntry u) -> known (type_name x) (core_vfs (text c) x) u.
Proof using HY.
  intros HE HC Et Er Hn. exists ty. cbn [core_vfs fs_types fs_text fs_nodes]. split; [exact Et|]. split; [|exact Hn]. unfold type_name. rewrite Et, Er. cbn [default from_option id].
  by apply (cs_strings _ _ _ _ _ _ _ HC), static_env.
Qed.

Lemma registry_view x c K l k ts : env K -> console_ok input_buffer buffers d K l k c -> fs_view x ts -> registry (type_name x) (core_vfs (text c) x) ts.
Proof using HY.
  intros HE HC (C & Hl & HT). split; [exact C|exact Hl|]. apply Forall_forall. intros u Hu. destruct (HT u Hu) as (ty & r & Et & Er).
  eapply known_view; try done. apply (clist_is_Some _ _ _ _ C). apply list_elem_of_further. by apply entry_inj_elem.
Qed.

Definition with_fs_nodes (ns : gmap fs_node (lnode fs_node)) x : core :=
  Core (co_hw x) (co_bootmem x) (co_sched x) (co_tty_nodes x) (co_tty_head x) (co_fs_types x) ns (co_fs_lock x) (co_root_sb x).

(** An operation on the registry changes its nodes only. *)
Lemma on_vfs_run {X} (f : ST (vfs buddy) X) c x a (s' : vfs buddy) : f (core_vfs (text c) x) = Some (a, s') -> same_static (core_vfs (text c) x) s' -> fs_list_lock s' = co_fs_lock x ->
  on_vfs f (Kernel c x) = Some (a, Kernel c (with_fs_nodes (fs_nodes s') x)).
Proof using.
  intros E (E1 & E2 & _ & E4 & E5) E6. unfold on_vfs, zoom. cbn [k_console k_core]. rewrite E. unfold with_vfs. rewrite E2, E4, E5, E6.
  by destruct x as [? ? [] ? ? ? ? ? ?].
Qed.

Definition fs_lines x (ts : list Z) : list (list piece) := [Lit (DebugReports.line "Registered filesystem types:")] :: types_report x ts.

Lemma fs_print_does x K l ts : env K -> fs_view x ts -> act (print_fs_types literal buffers files) x K l (said K (in_fs_type files) (fs_lines x ts)) x K l.
Proof using HY.
  intros HE (C & _ & HT). apply sends_does; [exact HE|known|]. printer HE. apply send_fs_types; try done.
  intros u Hu. destruct (HT u Hu) as (ty & r & Et & Er). exists ty. split; [done|]. exists r. by apply static_env.
Qed.

(** A step of the registry that returns [a], then the rest. *)
Lemma does_vfs {X} (f : ST (vfs buddy) X) (g : X -> ST kernel unit) x x1 x2 K l a out :
  (forall c k, console_ok input_buffer buffers d K l k c -> on_vfs f (Kernel c x) = Some (a, Kernel c x1)) -> act (g a) x1 K l out x2 K l ->
  act (r <- on_vfs f ;; g r)%st x K l out x2 K l.
Proof using. intros Hf Hg c k Hc. destruct (Hg c k Hc) as (c' & E & H'). exists c'. split; [|exact H']. by rewrite (bind_some _ _ _ _ _ (Hf c _ Hc)). Qed.

Lemma does_core (f : ST core unit) (g : ST kernel unit) x x1 x2 K l out : f x = Some (tt, x1) -> act g x1 K l out x2 K l -> act (on_core f ;; g)%st x K l out x2 K l.
Proof using.
  intros E Hg c k Hc. destruct (Hg c k Hc) as (c' & E' & H'). exists c'. split; [|exact H'].
  assert (E1 : on_core f (Kernel c x) = Some (tt, Kernel c x1)) by (unfold on_core, zoom; cbn [k_core k_console]; by rewrite E). by st_step E1.
Qed.

(** What "fstype" reports: the list, the address of its own type, the list with
    it and without it, and NULL. *)
Definition fstype_output v : list Z :=
  let K := strings v in
  let x1 := declare_fs_type fs_slot literal (v_core v) in
  said K (in_fs_type files) (fs_lines (v_core v) types) ++
  said K (in_shell files) [[Lit (chars "found at: 0x"); Hex fs_slot; Lit [10]]] ++
  said K (in_fs_type files) (fs_lines x1 (fs_slot :: types)) ++
  said K (in_fs_type files) (fs_lines x1 types) ++
  said K (in_shell files) [[Lit (chars "post unreg at: 0x"); Hex 0; Lit [10]]].

Lemma test_static : K0 (literal (chars "test123")) = Some (chars "test123").
Proof using HY.
  apply (st_texts _ _ _ _ _ _ _ _ _ _ _ _ HY). unfold all_texts, shell_texts. cbn [app]. repeat first [apply list_elem_of_here | apply list_elem_of_further].
Qed.

(** The registry while the shell's type is in it, and after. *)
Lemma declared_view x : fs_ok x -> let x1 := declare_fs_type fs_slot literal x in
  type_name x1 fs_slot = chars "test123" /\ Forall (fun u => type_name x1 u <> chars "test123") types /\
  exists ns1 ns2, clist_add (Some FsHead) (Some (FsEntry fs_slot)) (co_fs_nodes x1) = Some (tt, ns1) /\
    clist_delete_node (Some (FsEntry fs_slot)) ns1 = Some (tt, ns2) /\
    fs_view x1 types /\ fs_view (with_fs_nodes ns1 x1) (fs_slot :: types) /\ fs_view (with_fs_nodes ns2 x1) types.
Proof using HY.
  intros (C & Hl & Hs & _ & HT) x1.
  pose proof test_static as H123.
  assert (Et : co_fs_types x1 !! fs_slot = Some (FsType (literal (chars "test123")) 0 no_alloc)) by apply lookup_insert_eq.
  assert (HT1 : forall u, u ∈ types -> exists ty r, co_fs_types x1 !! u = Some ty /\ K0 (fs_name ty) = Some r /\ r <> chars "test123").
  { intros u Hu. destruct (HT u Hu) as (ty & r & E1 & E2). exists ty, r. split; [|done]. cbn. rewrite lookup_insert_ne; [exact E1|]. by intros ->. }
  assert (HT2 : forall u, u ∈ fs_slot :: types -> exists ty r, co_fs_types x1 !! u = Some ty /\ K0 (fs_name ty) = Some r).
  { intros u [->|Hu]%elem_of_cons; [by eexists _, _|]. destruct (HT1 u Hu) as (ty & r & E1 & E2 & _). by exists ty, r. }
  assert (HN : FsEntry fs_slot ∉ FsHead :: (FsEntry <$> types)) by (rewrite elem_of_cons, entry_inj_elem; by intros [?|?]).
  assert (C1 : clist (co_fs_nodes x1) FsHead (FsEntry <$> types)).
  { eapply clist_ext; [|exact C]. intros j Hj. cbn. rewrite lookup_insert_ne; [done|]. by intros <-. }
  destruct (clist_add_spec _ _ _ _ C1 HN) as (ns1 & E1 & C2 & _); [cbn; rewrite lookup_insert_eq; by eexists|].
  destruct (clist_delete_node_spec ns1 FsHead [] (FsEntry fs_slot) (FsEntry <$> types) C2) as (ns2 & E2 & C3 & _).
  assert (HV : forall u, u ∈ types -> exists ty r, co_fs_types x1 !! u = Some ty /\ K0 (fs_name ty) = Some r) by (intros u Hu; apply HT2; by apply list_elem_of_further).
  split; [unfold type_name; rewrite Et; cbn [fs_name]; by rewrite H123|]. split; [|by exists ns1, ns2].
  apply Forall_forall. intros u Hu. destruct (HT1 u Hu) as (ty & r & F1 & F2 & F3). unfold type_name. by rewrite F1, F2.
Qed.

Lemma filter_none {X} (P : X -> Prop) `{!forall u, Decision (P u)} (r : list X) : Forall (fun u => ~ P u) r -> filter P r = [] /\ filter (fun u => ~ P u) r = r.
Proof using. induction 1 as [|u r Hu _ [IH1 IH2]]; [done|]. rewrite !filter_cons, decide_False, decide_True by done. by rewrite IH1, IH2. Qed.

Lemma test_text K : env K -> K (literal (chars "test123")) = Some (chars "test123").
Proof using HY. intros HE. by apply static_env, test_static. Qed.

(** The three operations of the shell on the registry. *)
Lemma fs_get_run x K l ts c k : env K -> console_ok input_buffer buffers d K l k c -> fs_view x ts ->
  on_vfs (file_system_type_get (literal (chars "test123"))) (Kernel c x) = Some (lookup_spec (type_name x) (chars "test123") ts, Kernel c x).
Proof using HY.
  intros HE HC HV. pose proof (registry_view x c K l k ts HE HC HV) as HR. destruct (cs_strings _ _ _ _ _ _ _ HC _ _ (test_text K HE)) as (Hs & _).
  rewrite (on_vfs_run _ c x _ _ (get_spec _ _ _ _ _ HR Hs)); [by destruct x|done|done].
Qed.

Lemma fs_register_run x K l ts c k u ty r ns : env K -> console_ok input_buffer buffers d K l k c -> fs_view x ts -> ~ (u ∈ ts) ->
  co_fs_types x !! u = Some ty -> K0 (fs_name ty) = Some r -> is_Some (co_fs_nodes x !! FsEntry u) -> clist_add (Some FsHead) (Some (FsEntry u)) (co_fs_nodes x) = Some (tt, ns) ->
  on_vfs (file_system_type_register u) (Kernel c x) = Some (tt, Kernel c (with_fs_nodes ns x)).
Proof using HY.
  intros HE HC HV Hu Et Er Hn Ea. pose proof (registry_view x c K l k ts HE HC HV) as HR.
  destruct (register_spec _ _ _ u HR ltac:(by eapply known_view) Hu) as (s' & Es & [HR' Hst] & En).
  cbn [core_vfs fs_nodes] in En. rewrite Ea in En. injection En as ->. apply on_vfs_run; [exact Es|exact Hst|]. rewrite (rg_lock _ _ _ HR'). symmetry. apply HV.
Qed.

Lemma fs_unregister_run x K l ts c k u ns : env K -> console_ok input_buffer buffers d K l k c -> fs_view x ts -> u ∈ ts ->
  unlink (filter (fun w => type_name x w = type_name x u) ts) (co_fs_nodes x) = Some (tt, ns) ->
  on_vfs (file_system_type_unregister u) (Kernel c x) = Some (tt, Kernel c (with_fs_nodes ns x)).
Proof using HY.
  intros HE HC HV Hu Ea. pose proof (registry_view x c K l k ts HE HC HV) as HR.
  pose proof (rg_known _ _ _ HR) as HK. rewrite Forall_forall in HK. destruct (unregister_spec _ _ _ u HR (HK u Hu)) as (s' & Es & [HR' Hst] & En).
  cbn [core_vfs fs_nodes] in En. rewrite Ea in En. injection En as ->. apply on_vfs_run; [exact Es|exact Hst|]. rewrite (rg_lock _ _ _ HR'). symmetry. apply HV.
Qed.

Lemma chars_app (a b : string) : chars (a ++ b) = chars a ++ chars b.
Proof using. unfold chars. rewrite <- fmap_app. f_equal. induction a as [|h a IH]; [done|]. exact (f_equal (cons h) IH). Qed.

Lemma fs_message x K l (text_ : string) (a : Z) : env K -> DebugReports.line (text_ ++ "%x") ∈ shell_texts -> lit_ok (chars text_) = true -> (length (chars text_) <= 40)%nat ->
  act (shell_log literal buffers files (DebugReports.line (text_ ++ "%x")) [a]) x K l (said K (in_shell files) [[Lit (chars text_); Hex a; Lit [10]]]) x K l.
Proof using HY.
  intros HE Hin Ht Hl. apply shell_log_does; try done.
  - unfold all_texts. apply elem_of_app. by left.
  - unfold fmt_of, DebugReports.line. cbn [fmap list_fmap map concat piece_format]. rewrite app_nil_r. by rewrite chars_app, <- app_assoc.
  - by repeat constructor.
  - unfold room_of. cbn [fmap list_fmap map sum_list piece_room]. cbn. lia.
Qed.

Lemma fstype_does n v l : view_ok n v -> exists ns, let x' := with_fs_nodes ns (declare_fs_type fs_slot literal (v_core v)) in
  fs_ok x' /\ act (fstype_body fs_slot literal buffers files) (v_core v) (strings v) l (fstype_output v) x' (strings v) l.
Proof using HY.
  intros HV. pose proof (view_env n v HV) as HE. pose proof (vo_fs _ _ HV) as HF. pose proof HF as (C & Hl & Hs & H0 & HT).
  set (x := v_core v) in *. set (x1 := declare_fs_type fs_slot literal x). set (K := strings v) in *.
  destruct (declared_view x HF) as (N1 & N2 & ns1 & ns2 & E1 & E2 & V1 & V2 & V3). fold x1 in N1, N2, E1, E2, V1, V2, V3.
  set (x2 := with_fs_nodes ns1 x1) in *. set (x3 := with_fs_nodes ns2 x1) in *.
  assert (V0 : fs_view x types) by (split; [exact C|]; split; [exact Hl|]; intros u Hu; destruct (HT u Hu) as (ty & r & F1 & F2 & _); by exists ty, r).
  destruct (filter_none (fun u => type_name x1 u = type_name x1 fs_slot) types) as [F1 _]; [by rewrite N1|].
  assert (Eu : unlink (filter (fun w => type_name x2 w = type_name x2 fs_slot) (fs_slot :: types)) ns1 = Some (tt, ns2)).
  { rewrite filter_cons, decide_True by done. change (type_name x2) with (type_name x1). rewrite F1. cbn [unlink]. by st_step E2. }
  assert (L2 : lookup_spec (type_name x2) (chars "test123") (fs_slot :: types) = fs_slot) by (rewrite lookup_cons; by rewrite decide_True).
  assert (L3 : lookup_spec (type_name x3) (chars "test123") types = 0) by (unfold lookup_spec; by rewrite (proj2 (list_find_None _ types))).
  exists ns2. split.
  { split; [apply V3|]. split; [apply V3|]. split; [done|]. split; [done|]. intros u Hu. destruct (HT u Hu) as (ty & r & G1 & G2). exists ty, r. split; [|done].
    cbn. rewrite lookup_insert_ne; [exact G1|]. by intros ->. }
  unfold fstype_body, fstype_output. fold x K x1. cbv zeta. eapply does_bind; [by apply fs_print_does|]. eapply (does_core _ _ _ x1); [done|].
  eapply (does_vfs _ _ x1 x2); [intros c k Hc; eapply (fs_register_run x1 K l types); try done;
    [apply lookup_insert_eq|apply test_static|cbn; rewrite lookup_insert_eq; by eexists]|].
  eapply (does_vfs _ _ x2 x2); [intros c k Hc; by apply (fs_get_run x2 K l (fs_slot :: types) c k)|]. rewrite L2.
  eapply does_bind; [apply (fs_message x2 K l "found at: 0x"); try done; [apply (bool_decide_unpack _); vm_compute; exact I|apply Nat.leb_le; reflexivity]|].
  eapply does_bind; [exact (fs_print_does x2 K l (fs_slot :: types) HE V2)|].
  eapply (does_vfs _ _ x2 x3); [intros c k Hc; by apply (fs_unregister_run x2 K l (fs_slot :: types) c k fs_slot ns2 HE Hc V2 (list_elem_of_here _ _))|].
  eapply does_bind; [exact (fs_print_does x3 K l types HE V3)|].
  eapply (does_vfs _ _ x3 x3); [intros c k Hc; by apply (fs_get_run x3 K l types c k)|]. rewrite L3.
  apply (fs_message x3 K l "post unreg at: 0x"); try done; [apply (bool_decide_unpack _); vm_compute; exact I|apply Nat.leb_le; reflexivity].
Qed.

(** ** The commands *)

#[local] Abbreviation kt := (command_kt task_head (lin q) isr_exit apple).
#[local] Abbreviation ut := (command_ut task_head (lin q) isr_exit).

(** Every command: whether it returns from [shell_process_command], and its body. *)
Definition commands : list (string * (bool * ST kernel unit)) :=
  [("kt", (true, kt_body KS KE task_head (lin q) isr_exit apple)); ("fstype", (false, fstype_body fs_slot literal buffers files));
   ("vm-test", (false, ktest_run_module (literal (chars "vm")))); ("string-test", (false, ktest_run_module (literal (chars "string"))));
   ("slab-test", (false, ktest_run_module (literal (chars "awodawd")))); ("palloc-test", (false, ktest_run_module (literal (chars "palloc"))));
   ("run-tests", (false, ktest_run_all)); ("dump-kmalloc", (false, print_heap literal buffers files slab_caches_addr));
   ("ut", (true, ut_body KS KE task_head (lin q) isr_exit)); ("clear", (true, clear_lines)); ("cls", (true, clear_lines));
   ("build", (true, on_console (vga_printf tmp (literal (chars "Kernel built: %s %s")) [literal build_date; literal build_time])));
   ("tasks", (true, task_print literal buffers (in_task files) task_head)); ("slab", (false, print_heap literal buffers files slab_caches_addr));
   ("buddy", (false, print_pages literal buffers files)); ("mem", (false, mem_body literal buffers files))]%string.

Definition test_command (e : string * (bool * ST kernel unit)) (rest : ST kernel unit) : ST kernel unit :=
  if e.2.1 then on_command literal input_buffer e.1 e.2.2 rest else also_command literal input_buffer e.1 e.2.2 rest.

#[local] Abbreviation unknown := (on_console (vga_printf tmp (literal (chars "Unknown command: %s")) [input_buffer])).
#[local] Abbreviation process := (shell_process_command KS KE tmp fs_slot literal buffers files task_head (lin q) slab_caches_addr isr_exit apple build_date build_time
  ktest_run_module ktest_run_all input_buffer).

(** The chain of tests is the table. *)
Lemma process_chain : process = foldr test_command unknown commands.
Proof using. reflexivity. Qed.

Lemma command_text name : name ∈ command_names -> chars name ∈ all_texts build_date build_time.
Proof using.
  intros Hn. unfold all_texts, shell_texts. apply elem_of_app. left. apply elem_of_app. right. by apply list_elem_of_fmap_2.
Qed.

Lemma chain_none tab x K l rest o x' K' : env K -> Forall (fun e => e.1 ∈ command_names /\ l <> chars e.1) tab -> act rest x K l o x' K' l ->
  act (foldr test_command rest tab) x K l o x' K' l.
Proof using HY.
  intros HE HF Hr. induction HF as [|[name [ret body]] tab [Hn Hl] _ IH]; [exact Hr|]. cbn [foldr]. unfold test_command. cbn [fst snd].
  destruct ret; [eapply does_on; [exact HY|exact HE|by apply command_text|done|done]|eapply does_skip; [exact HY|exact HE|by apply command_text|done|done]].
Qed.

(** The line names the command [e]: its body runs, and "Unknown command" follows
    unless it returns. *)
Lemma chain_hit t1 t2 name ret body x K o x' K' : env K -> env K' -> name ∈ command_names -> Forall (fun e => e.1 ∈ command_names /\ chars name <> chars e.1) (t1 ++ t2) ->
  act body x K (chars name) o x' K' (chars name) -> act (foldr test_command unknown (t1 ++ (name, (ret, body)) :: t2)) x K (chars name) o x' K' (chars name).
Proof using HY.
  intros HE HE' Hn [H1 H2]%Forall_app Hb. rewrite foldr_app. apply chain_none; [done|done|]. cbn [foldr]. unfold test_command. cbn [fst snd]. destruct ret.
  - eapply does_on; [exact HY|exact HE|by apply command_text|by intros _|done].
  - rewrite <- (app_nil_r o). eapply does_also; [exact HY|exact HE|by apply command_text|done|exact Hb|]. apply chain_none; [done|done|]. by eapply unknown_does.
Qed.

(** The commands that run unit tests. *)
Definition test_names : list string := ["vm-test"; "string-test"; "slab-test"; "palloc-test"; "run-tests"]%string.

(** The tasks a line starts. *)
Definition starts l : nat := if decide (l = chars "kt" \/ l = chars "ut") then 1 else 0.

(** What a line that starts no task and leaves the registry alone reports. *)
Definition command_output l v : list Z :=
  let K := strings v in
  if decide (l = chars "dump-kmalloc" \/ l = chars "slab") then said K (in_slab files) (heap_lines v)
  else if decide (l = chars "tasks") then said K (in_task files) (task_list_report literal (co_sched (v_core v)) (v_tasks v))
  else if decide (l = chars "buddy") then said K (in_palloc files) (page_lines v)
  else if decide (l = chars "mem") then mem_output v
  else [].

(** What a submitted line does to the components and sends to the serial port. *)
Definition effect l v out v' : Prop :=
  if decide (l = chars "kt") then out = [] /\ started kt v v'
  else if decide (l = chars "ut") then out = [] /\ started ut v v'
  else if decide (l = chars "fstype") then
    out = fstype_output v /\ exists ns, v' = View (with_fs_nodes ns (declare_fs_type fs_slot literal (v_core v))) (v_tasks v) (v_slabs v) (v_blocks v)
  else out = command_output l v /\ v' = v.

(** [l] is submitted in state [v]. *)
Definition line_runs n v l : Prop :=
  exists out v', effect l v out v' /\ view_ok n v' /\ act process (v_core v) (strings v) l out (v_core v') (strings v') l.

Lemma hit_runs n v v' name ret body i out : view_ok n v' -> env (strings v) -> effect (chars name) v out v' ->
  commands = take i commands ++ (name, (ret, body)) :: drop (S i) commands ->
  forallb (fun e => bool_decide (e.1 ∈ command_names) && negb (bool_decide (chars name = chars e.1))) (take i commands ++ drop (S i) commands) = true ->
  name ∈ command_names -> act body (v_core v) (strings v) (chars name) out (v_core v') (strings v') (chars name) -> line_runs n v (chars name).
Proof using HY.
  intros HV HE He Ec HF Hn Hb. exists out, v'. split; [exact He|]. split; [exact HV|]. rewrite process_chain, Ec.
  apply chain_hit; [exact HE|by eapply view_env|exact Hn| |exact Hb].
  apply Forall_forall. intros e Hin. rewrite forallb_forall in HF. specialize (HF e (proj1 (list_elem_of_In _ _) Hin)). apply andb_true_iff in HF as [H1 H2].
  split; [by apply bool_decide_eq_true_1 in H1|]. apply negb_true_iff in H2. by apply bool_decide_eq_false_1 in H2.
Qed.

Ltac now_hit HV HE i := eapply (hit_runs _ _ _ _ _ _ i); [exact HV|exact HE| |reflexivity|vm_compute; reflexivity|apply (bool_decide_unpack _); vm_compute; exact I|].

(** The commands that change no component. *)
Lemma report_runs n v l : view_ok n v -> l ∈ chars <$> ["dump-kmalloc"; "slab"; "tasks"; "buddy"; "mem"; "clear"; "cls"; "build"]%string -> line_runs n v l.
Proof using HY.
  intros HV Hl. pose proof (view_env n v HV) as HE. cbn [fmap list_fmap map] in Hl.
  repeat (apply elem_of_cons in Hl as [->|Hl]); [..|by apply not_elem_of_nil in Hl].
  - now_hit HV HE 7%nat; [by split|by eapply heap_does].
  - now_hit HV HE 13%nat; [by split|by eapply heap_does].
  - now_hit HV HE 12%nat; [by split|by eapply tasks_does].
  - now_hit HV HE 14%nat; [by split|by eapply pages_does].
  - now_hit HV HE 15%nat; [by split|by eapply mem_does].
  - now_hit HV HE 9%nat; [by split|apply clear_does].
  - now_hit HV HE 10%nat; [by split|apply clear_does].
  - now_hit HV HE 11%nat; [by split|by eapply build_does].
Qed.

Lemma unknown_runs n v l : view_ok n v -> ~ (l ∈ chars <$> command_names) -> line_runs n v l.
Proof using HY.
  intros HV Hl. pose proof (view_env n v HV) as HE.
  assert (Hne : forall name, name ∈ command_names -> l <> chars name) by (intros name Hn ->; by apply Hl, list_elem_of_fmap_2).
  exists [], v. split; [|split; [exact HV|]].
  - unfold effect, command_output. rewrite !decide_False; [by split|..]; try intros [E|E]; try intros E; revert E; apply Hne, (bool_decide_unpack _); vm_compute; exact I.
  - rewrite process_chain. apply chain_none; [exact HE| |by eapply unknown_does].
    apply Forall_forall. intros [name e] Hin. cbn [fst]. assert (Hn : name ∈ command_names) by (change command_names with (fst <$> commands); by apply (list_elem_of_fmap_2 fst) in Hin).
    split; [exact Hn|by apply Hne].
Qed.

Lemma line_does n v l : view_ok (starts l + n) v -> ~ (l ∈ chars <$> test_names) -> line_runs n v l.
Proof using HY.
  intros HV Ht. pose proof (view_env _ v HV) as HE. unfold starts in HV.
  destruct (decide (l = chars "kt")) as [->|N1].
  { rewrite decide_True in HV by by left. destruct (start_does n v (chars "ktask_test1") TASK_KERNEL apple 0x300000 0x400000 HV) as (v' & Hs & HV' & Ha);
      [cbn; lia|repeat constructor|]. now_hit HV' HE 0%nat; [by split|apply Ha]. }
  destruct (decide (l = chars "ut")) as [->|N2].
  { rewrite decide_True in HV by by right. destruct (start_does n v (chars "utask_test1") TASK_USERMODE 0x400000 0x400000 0x600000 HV) as (v' & Hs & HV' & Ha);
      [cbn; lia|repeat constructor|]. now_hit HV' HE 8%nat; [by split|apply Ha]. }
  rewrite decide_False in HV by tauto. cbn [Nat.add] in HV.
  destruct (decide (l = chars "fstype")) as [->|N3].
  { destruct (fstype_does n v (chars "fstype") HV) as (ns & HF & Ha).
    assert (HV' : view_ok n (View (with_fs_nodes ns (declare_fs_type fs_slot literal (v_core v))) (v_tasks v) (v_slabs v) (v_blocks v))) by (by destruct HV).
    now_hit HV' HE 1%nat; [split; [done|by exists ns]|exact Ha]. }
  destruct (decide (l ∈ chars <$> ["dump-kmalloc"; "slab"; "tasks"; "buddy"; "mem"; "clear"; "cls"; "build"]%string)) as [Hr|Hr]; [by apply report_runs|].
  apply unknown_runs; [exact HV|]. intros Hl. cbn [fmap list_fmap map command_names test_names] in *. repeat (apply elem_of_cons in Hl as [->|Hl]); try (by apply not_elem_of_nil in Hl);
    first [done | by apply Ht; apply (bool_decide_unpack _); vm_compute; exact I | by apply Hr; apply (bool_decide_unpack _); vm_compute; exact I].
Qed.

(** ** Keys *)

#[local] Abbreviation press := (shell_keyboard_handler KS KE input_buffer tmp key_slot fs_slot literal buffers files task_head (lin q) slab_caches_addr isr_exit apple build_date build_time
  ktest_run_module ktest_run_all).

Lemma slot_put K l k c key : env K -> console_ok input_buffer buffers d K l k c -> console_ok input_buffer buffers d K l k (put_text c (<[key_slot := u8 key]> (text c))).
Proof using HY.
  intros HE HC. pose proof (cs_length _ _ _ _ _ _ _ HC) as Hl. destruct (st_apart _ _ _ _ _ _ _ _ _ _ _ _ HY) as (_ & A2 & _).
  eapply (console_put KS KE input_buffer tmp key_slot buffers d K0 K l k c _ l key_slot 2 HE HC); [|by left| |exact Hl].
  - intros b Hb. rewrite lookup_insert_ne by lia. done.
  - eapply (str_frame _ _ _ _ key_slot 1); [apply wr_only| |exact (cs_line _ _ _ _ _ _ _ HC)]. unfold apart in *. lia.
Qed.

(** A key other than Enter edits the line and changes no component. *)
Lemma edit_does x K l key : env K -> key_ok (Editor l []) key -> key <> KEY_ENTER -> act (press key) x K l [] x K (line (edit (Editor l []) key)).
Proof using HY.
  intros HE [Hb Hk] Hne c k HC. pose proof (slot_put K l k c key HE HC) as HC1. set (c1 := put_text c _) in HC1. unfold key_ok, shell_keyboard_handler, edit in *. cbn [line] in *.
  st_step (text_run (wr key_slot key) c x _ _ (wr_run _ _ _)). fold c1. destruct (Z.eqb_spec key KEY_ENTER); [done|]. destruct (key =? KEY_BACKSPACE); cbn [line].
  - exact (does_bind _ _ _ _ _ _ _ _ _ _ _ _ _ _ [] [] (delete_does _ _ _ _ _ _ _ _ x K l HE Hk) (does_screen _ _ _ _ x K _ draws_delete) c1 k HC1).
  - destruct (Z.eqb_spec key 0) as [->|Hz]; cbn [negb line]; [exists c1; split; [done|]; split; [done|]; by rewrite app_nil_r|].
    destruct (append_spec _ _ _ _ _ _ _ _ _ _ _ _ _ HY x K l k c1 key HE HC1 ltac:(lia) Hk) as (m & m' & E1 & E2 & HC2).
    { cbn. rewrite u8_small by lia. apply lookup_insert_eq. }
    destruct (does_screen input_buffer buffers d _ x K (l ++ [key]) (draws_char key Hb) (put_text c1 m') k HC2) as (c3 & E3 & HC3 & HP).
    exists c3. split; [|by split]. st_step (text_run _ c1 x _ _ E1). by st_step (text_run _ (put_text c1 m) x _ _ E2).
Qed.

Lemma submit_does x x' K K' l out : env K -> env K' -> act process x K l out x' K' l ->
  act (sh_screen (vga_scroll_up 1 TOP_LINE) ;; sh_screen (modify (with_cursor_x 0)) ;; process ;; shell_clear_input_buffer input_buffer ;; shell_print_prompt literal)%st x K l out x' K' [].
Proof using HY.
  intros HE HE' Hp. apply (does_out _ _ _ _ _ _ _ ([] ++ [] ++ out ++ [] ++ [])); [|by rewrite !app_nil_r].
  eapply does_bind; [apply does_screen, draws_scroll|]. eapply does_bind; [apply does_screen, draws_home|]. eapply does_bind; [exact Hp|].
  eapply does_bind; [by eapply clear_buffer_does|by eapply prompt_does].
Qed.

Lemma enter_does x x' K K' l out : env K -> env K' -> act process x K l out x' K' l -> act (press KEY_ENTER) x K l out x' K' [].
Proof using HY.
  intros HE HE' Hp c k HC. pose proof (slot_put K l _ c KEY_ENTER HE HC) as HC1.
  destruct (submit_does x x' K K' l out HE HE' Hp _ _ HC1) as (c' & E & H'). exists c'. split; [|exact H'].
  unfold shell_keyboard_handler. st_step (text_run (wr key_slot KEY_ENTER) c x _ _ (wr_run _ _ _)). exact E.
Qed.

(** ** Sessions *)

(** The lines of a session, one after the other. *)
Inductive session : view -> list (list Z) -> list Z -> view -> Prop :=
  | session_end v : session v [] [] v
  | session_line v l out v1 lines out' v' : effect l v out v1 -> session v1 lines out' v' -> session v (l :: lines) (out ++ out') v'.

(** The lines entered and the line left in the buffer. *)
Definition entered l (keys : list Z) : list (list Z) := submitted (foldl edit (Editor l []) keys).
Definition remaining l (keys : list Z) : list Z := line (foldl edit (Editor l []) keys).

Lemma edit_shift keys : forall l sub, foldl edit (Editor l sub) keys = Editor (remaining l keys) (sub ++ entered l keys).
Proof using.
  induction keys as [|key keys IH]; intros l sub; [unfold remaining, entered; cbn; by rewrite app_nil_r|]. unfold remaining, entered. cbn [foldl].
  assert (E : forall w, edit (Editor l w) key = Editor (line (edit (Editor l []) key)) (w ++ submitted (edit (Editor l []) key))).
  { intros w. unfold edit. repeat case_match; cbn; by rewrite ?app_nil_r. }
  rewrite (E sub). destruct (edit (Editor l []) key) as [w u]. cbn [line submitted]. rewrite (IH w (sub ++ u)), (IH w u). cbn [line submitted]. by rewrite app_assoc.
Qed.

Lemma entered_cons l key keys : entered l (key :: keys) = (if key =? KEY_ENTER then [l] else []) ++ entered (line (edit (Editor l []) key)) keys.
Proof using.
  unfold entered at 1. cbn [foldl]. destruct (edit (Editor l []) key) as [l' sub] eqn:E. rewrite edit_shift. cbn [submitted line]. f_equal.
  pose proof (edit_submitted (Editor l []) key) as Es. rewrite E in Es. exact Es.
Qed.

(** Whether keys may be typed depends on the line only. *)
Lemma keys_ok_line keys : forall w sub sub', keys_ok (Editor w sub) keys -> keys_ok (Editor w sub') keys.
Proof using.
  induction keys as [|a keys IH]; intros w sub sub'; [done|]. cbn [keys_ok]. unfold key_ok. cbn [line]. intros [H1 H2]. split; [exact H1|].
  assert (E : forall u, edit (Editor w u) a = Editor (line (edit (Editor w []) a)) (submitted (edit (Editor w u) a))) by (intros u; unfold edit; repeat case_match; done).
  rewrite E in H2 |- *. by eapply IH.
Qed.

Fixpoint type_keys (keys : list Z) : ST kernel unit :=
  match keys with
  | [] => ret tt
  | key :: keys => (press key ;; type_keys keys)%st
  end.

Definition tasks_started (lines : list (list Z)) : nat := sum_list (starts <$> lines).

Lemma keys_does keys : forall n v l, view_ok (tasks_started (entered l keys) + n) v -> keys_ok (Editor l []) keys ->
  Forall (fun r => ~ (r ∈ chars <$> test_names)) (entered l keys) ->
  exists out v', session v (entered l keys) out v' /\ view_ok n v' /\ act (type_keys keys) (v_core v) (strings v) l out (v_core v') (strings v') (remaining l keys).
Proof using HY.
  induction keys as [|key keys IH]; intros n v l HV HK HT; [exists [], v; split; [constructor|]; split; [exact HV|apply does_nothing]|].
  destruct HK as [Hk HK]. rewrite entered_cons in HV, HT |- *. cbn [type_keys]. set (l' := line (edit (Editor l []) key)) in *.
  assert (Er : remaining l (key :: keys) = remaining l' keys).
  { unfold remaining at 1. cbn [foldl]. unfold l'. destruct (edit (Editor l []) key) as [w sub]. by rewrite edit_shift. }
  assert (HK' : keys_ok (Editor l' []) keys) by (unfold l'; destruct (edit (Editor l []) key) as [w sub]; by eapply keys_ok_line).
  rewrite Er. destruct (Z.eqb_spec key KEY_ENTER) as [->|Hne].
  - cbn [app] in *. apply Forall_cons in HT as [Ht HT]. unfold tasks_started in HV. cbn [fmap list_fmap map sum_list] in HV. cbn in HV. rewrite <- Nat.add_assoc in HV.
    destruct (line_does _ v l HV Ht) as (o1 & v1 & He & HV1 & Ha). destruct (IH n v1 [] HV1 HK' HT) as (o2 & v2 & Hs & HV2 & Hb).
    exists (o1 ++ o2), v2. split; [by econstructor|]. split; [exact HV2|]. eapply does_bind; [|exact Hb]. apply enter_does; [by eapply view_env|by eapply view_env|exact Ha].
  - destruct (IH n v l' HV HK' HT) as (o2 & v2 & Hs & HV2 & Hb). exists o2, v2. split; [exact Hs|]. split; [exact HV2|].
    apply (does_bind _ _ _ _ _ _ (v_core v) _ _ (strings v) _ _ l' _ [] o2); [|exact Hb]. apply edit_does; [by eapply view_env|exact Hk|exact Hne].
Qed.

(** ** From scan codes *)

#[local] Abbreviation event := (keyboard_event KS KE input_buffer tmp key_slot fs_slot literal buffers files task_head (lin q) slab_caches_addr isr_exit apple build_date build_time
  ktest_run_module ktest_run_all).

Definition keys_of (scans : list Z) : list Z := (fun code => u8 (keyboard_translate_scan_code code)) <$> scans.

Fixpoint scan_codes (handler : Z) (scans : list Z) : ST (list Z * kernel) unit :=
  match scans with
  | [] => ret tt
  | code :: scans => (event handler code ;; scan_codes handler scans)%st
  end.

(** The shell's handler is the only one in the table. *)
Definition table (handler : Z) : list Z := handler :: replicate 255 0.

Lemma table_calls handler code : handler <> 0 -> keyboard_handle_input code (table handler) = [(handler, u8 (keyboard_translate_scan_code code))].
Proof using.
  intros Hh. unfold keyboard_handle_input, table. rewrite filter_cons, decide_True by done. cbn [fmap list_fmap map]. f_equal.
Qed.

(** An event is a key of the handler. *)
Lemma event_run handler code k0 k1 : handler <> 0 -> press (u8 (keyboard_translate_scan_code code)) k0 = Some (tt, k1) ->
  event handler code (table handler, k0) = Some (tt, (table handler, k1)).
Proof using.
  intros Hh E. unfold keyboard_event. cbn [fst]. rewrite table_calls by done. unfold on_kernel, zoom. cbn [fst snd call_handlers]. rewrite Z.eqb_refl. by st_step E.
Qed.

Lemma scans_run handler scans : handler <> 0 -> forall k0 k1, type_keys (keys_of scans) k0 = Some (tt, k1) ->
  scan_codes handler scans (table handler, k0) = Some (tt, (table handler, k1)).
Proof using.
  intros Hh. induction scans as [|code scans IH]; intros k0 k1 E; cbn [scan_codes keys_of fmap list_fmap map type_keys] in *; [by injection E as ->|].
  apply bind_inv in E as ([] & k2 & E1 & E2). st_step (event_run handler code k0 k2 Hh E1). by apply IH.
Qed.

(** The first thing the shell does: its handler is in the table, the prompt on the
    screen. *)
Lemma init_run handler x K l c k : env K -> handler <> 0 -> console_ok input_buffer buffers d K l k c ->
  exists c', shell_init literal handler (replicate 256 0, Kernel c x) = Some (tt, (table handler, Kernel c' x)) /\ console_ok input_buffer buffers d K l k c' /\
    port_outputs (port c') = port_outputs (port c).
Proof using HY.
  intros HE Hh HC. destruct (does_screen input_buffer buffers d _ x K l draws_scroll c k HC) as (c1 & E1 & HC1 & P1).
  destruct (prompt_does _ _ _ _ _ _ _ _ _ d _ _ _ HY x K l HE c1 k HC1) as (c2 & E2 & HC2 & P2). exists c2. rewrite app_nil_r in P1, P2.
  split; [|split; [exact HC2|by rewrite P2]]. unfold shell_init, on_kernel, zoom.
  erewrite bind_some by (cbn [snd fst]; rewrite E1; reflexivity). erewrite bind_some by reflexivity. cbn [snd fst]. by rewrite E2.
Qed.


End Session.

(** ** The task that "kt" starts *)

Section Apple.
  Context (literal : list Z -> Z) (buffers : log_buffers) (files : file_names) (d : Z) (file_name : list Z) (K : Z -> option (list Z)).

#[local] Abbreviation turn := (apple_turn literal buffers files).

Fixpoint apple_turns (n : nat) (magic : Z) : ST kernel Z :=
  match n with
  | O => ret magic
  | S n => (magic <- turn magic ;; apple_turns n magic)%st
  end.

(** It only counts for most of its period. *)
Lemma apple_counts n : forall magic k, 0 <= magic -> magic + Z.of_nat n < APPLE_PERIOD -> apple_turns n magic k = Some (magic + Z.of_nat n, k).
Proof using.
  induction n as [|n IH]; intros magic k H0 Hn; [by rewrite Z.add_0_r|]. cbn [apple_turns]. unfold APPLE_PERIOD in Hn.
  assert (E : turn magic k = Some (magic + 1, k)).
  { unfold apple_turn. cbv zeta. rewrite i32_small by lia. unfold APPLE_PERIOD. destruct (Z.eqb_spec (magic + 1) 20000000); [lia|done]. }
  st_step E. rewrite IH by (unfold APPLE_PERIOD; lia). by replace (magic + 1 + Z.of_nat n) with (magic + Z.of_nat (S n)) by lia.
Qed.

(** At the end of a period it writes a character to its own page and reports it as
    a string: a string of one character if the next byte is zero, which nothing
    in the code sees to. *)
Lemma apple_reports c x t k :
  let message := [Lit (DebugReports.line "Message from kernel task APPLE!")] in
  let report := [Lit (chars "test1 (0x"); Hex TEST1; Lit (chars ") is: "); Lit [65]; Lit [10]] in
  buffers_apart buffers -> (length file_name <= 64)%nat ->
  K (literal (fmt_of message)) = Some (fmt_of message) -> K (literal (DebugReports.line "test1 (0x%x) is: %s")) = Some (DebugReports.line "test1 (0x%x) is: %s") ->
  K (literal (chars "[%s] %s")) = Some (chars "[%s] %s") -> K (in_shell files) = Some file_name ->
  (forall a r, K a = Some r -> apart a (Z.of_nat (length r) + 1) TEST1 1 /\ a <> TEST1) -> off_buffers buffers TEST1 2 -> text c !! (TEST1 + 1) = Some 0 ->
  log_ok buffers d t K (length (lines_bytes file_name [text_of K message; text_of K report]) + k) c ->
  exists c', turn (APPLE_PERIOD - 1) (Kernel c x) = Some (0, Kernel c' x) /\
    port_outputs (port c') = port_outputs (port c) ++ (io_port_out d <$> lines_bytes file_name [text_of K message; text_of K report]).
Proof using.
  intros message report HB Hn K1 K2 K3 K4 HK HO H0 HL. set (K' := fun a => if a =? TEST1 then Some [65] else K a).
  assert (HK' : forall a r, K a = Some r -> K' a = Some r) by (intros a r E; unfold K'; destruct (Z.eqb_spec a TEST1) as [->|]; [by destruct (HK _ _ E)|done]).
  set (r2 := [Lit (chars "test1 (0x"); Hex TEST1; Lit (chars ") is: "); Str TEST1; Lit [10]]).
  assert (Hb : lines_bytes file_name [text_of K message; text_of K report] = lines_bytes file_name [text_of K message] ++ lines_bytes file_name [text_of K' r2])
    by (change (text_of K' r2) with (text_of K report); unfold lines_bytes; cbn [fmap list_fmap map concat]; by rewrite !app_nil_r).
  rewrite Hb in HL |- *. rewrite length_app, <- Nat.add_assoc in HL. clear Hb.
  destruct (emits_log literal buffers (in_shell files) (TEST1 + 2) file_name d t HB Hn K (fmt_of message) [] message x) with (c := c) (k := (length (lines_bytes file_name [text_of K' r2]) + k)%nat)
    as (c1 & E1 & [L1 L2 L3 L4] & [W1 W2]); try done; [by repeat constructor|apply Nat.leb_le; reflexivity|].
  set (c2 := Console (<[TEST1 := u8 65]> (text c1)) (screen c1) (port c1)).
  assert (HL2 : log_ok buffers d t K' (length (lines_bytes file_name [text_of K' r2]) + k) c2).
  { split; try done. intros a r Ea. unfold K' in Ea. destruct (Z.eqb_spec a TEST1) as [->|].
    - injection Ea as <-. split; [|split; [unfold TEXT_MAX; cbn; lia|exact HO]]. split; [|repeat constructor]. apply seg_cons. split; [apply lookup_insert_eq|].
      apply seg_cons. split; [|apply seg_nil]. cbn [text c2]. rewrite lookup_insert_ne by lia. rewrite W2; [exact H0| |].
      + destruct HO as (O1 & O2 & O3 & O4 & O5). unfold off_buffers, apart in *. lia.
      + unfold apart. lia.
    - destruct (L1 a r Ea) as (S1 & S2 & S3). split_and!; [|done|done]. eapply (str_frame _ _ _ _ TEST1 1); [apply wr_only|apply (HK a r Ea)|exact S1]. }
  destruct (emits_log literal buffers (in_shell files) (TEST1 + 2) file_name d t HB Hn K' (fmt_of r2) (args_of r2) r2 x) with (c := c2) (k := k) as (c3 & E3 & _ & [W3 _]); try done.
  - repeat constructor. by eexists.
  - apply Nat.leb_le. reflexivity.
  - by apply HK'.
  - by apply HK'.
  - by apply HK'.
  - exists c3. split; [|by rewrite W3, fmap_app, app_assoc, <- W1].
    unfold apple_turn. cbv zeta. change (i32 (APPLE_PERIOD - 1 + 1) =? APPLE_PERIOD) with true. cbv iota. unfold shell_log. st_step E1.
    st_step (text_run (wr TEST1 65) c1 x _ _ (wr_run _ _ _)). by st_step E3.
Qed.

End Apple.

(** ** An example *)

(** Static data from the third page of the image on: the buffers, then the texts
    128 bytes apart, the names of the files, of the caches and of a file system. *)
Definition example_buffers : log_buffers := LogBuffers 0xC0102000 0xC0102200 0xC0102400 0xC0102800 0xC0102600.

Definition example_files : file_names := FileNames 0xC0106000 0xC0106080 0xC0106100 0xC0106180 0xC0106200 0xC0106280.

Definition example_texts : list (list Z) := all_texts (chars "Jan  1 2024") (chars "12:00:00").

Definition example_literal (r : list Z) : Z :=
  match list_find (fun w => w = r) example_texts with Some (i, _) => 0xC0103000 + 128 * Z.of_nat i | None => 0 end.

Definition example_table : list (Z * list Z) :=
  ((fun r => (example_literal r, r)) <$> example_texts) ++
  zip [0xC0106000; 0xC0106080; 0xC0106100; 0xC0106180; 0xC0106200; 0xC0106280]
    (chars <$> ["shell.c"; "task.c"; "palloc.c"; "bootmem.c"; "slab.c"; "fs_type.c"]%string) ++
  ((fun i => (0xC0106800 + 40 * Z.of_nat i, chars "kmalloc")) <$> seq 0 13) ++ [(0xC0107000, chars "testfs")].

Definition example_okb : bool :=
  let m := table_memory example_table in
  forallb (fun p => strb m p.1 p.2 && (length p.2 <=? 120)%nat &&
    (0xC0103000 <=? p.1) && (p.1 + Z.of_nat (length p.2) + 1 <=? 0xC0108000)) example_table.

Lemma example_strings a r : table_string example_table a = Some r ->
  str_at (table_memory example_table) a r /\ (length r <= 120)%nat /\ 0xC0103000 <= a /\ a + Z.of_nat (length r) + 1 <= 0xC0108000.
Proof.
  assert (HF : example_okb = true) by (vm_compute; reflexivity). unfold example_okb in HF. cbv zeta in HF. rewrite forallb_forall in HF. unfold table_string.
  destruct (list_find _ example_table) as [[i [b w]]|] eqn:E; [|discriminate]. intros [= <-]. apply list_find_Some in E as (Ei & Eb & _). cbn in Eb. subst b.
  specialize (HF (a, w) (proj1 (list_elem_of_In _ _) (list_elem_of_lookup_2 _ _ _ Ei))). cbn [fst snd] in HF.
  apply andb_true_iff in HF as [[[H1 H2%Nat.leb_le]%andb_true_iff H3%Z.leb_le]%andb_true_iff H4%Z.leb_le]. split; [by apply strb_spec|]. by split.
Qed.

Lemma example_static : static_ok 0x100000 0x107800 0xC0102900 0xC0102A00 0xC0102C00 example_literal example_buffers example_files 0xC0106800
  (chars "Jan  1 2024") (chars "12:00:00") (table_string example_table).
Proof.
  split.
  - unfold buffers_apart, apart. cbn. lia.
  - intros r Hr. assert (HF : forallb (fun r => bool_decide (table_string example_table (example_literal r) = Some r)) example_texts = true) by (vm_compute; reflexivity).
    rewrite forallb_forall in HF. apply (bool_decide_eq_true_1 _ (HF r (proj1 (list_elem_of_In _ _) Hr))).
  - repeat (apply Forall_cons; split; [eexists; split; [vm_compute; reflexivity|cbn; lia]|]). constructor.
  - intros i Hi. assert (HF : forallb (fun i => bool_decide (is_Some (table_string example_table (cache_addr 0xC0106800 i)))) (seqZ 0 13) = true) by (vm_compute; reflexivity).
    rewrite forallb_forall in HF. apply (bool_decide_eq_true_1 _ (HF i (proj1 (list_elem_of_In _ _) (proj2 (elem_of_seqZ 0 13 i) ltac:(lia))))).
  - intros a r E. destruct (example_strings a r E) as (_ & _ & H1 & H2). unfold in_image, off_shell, apart.
    change (KERNEL_START_VIRT + PAGE_ALIGN 0x100000) with 0xC0100000. change (KERNEL_START_VIRT + PAGE_ALIGN 0x107800) with 0xC0108000. lia.
  - unfold in_image. change (KERNEL_START_VIRT + PAGE_ALIGN 0x100000) with 0xC0100000. change (KERNEL_START_VIRT + PAGE_ALIGN 0x107800) with 0xC0108000.
    repeat (apply Forall_cons; split; [cbn; lia|]). constructor.
  - unfold off_buffers, apart. cbn. lia.
  - vm_compute. split_and!; [lia|lia|discriminate].
Qed.

(** A view of memory as the image's strings and the names of tasks. *)
Lemma strings_of_tasks KS KE input_buffer tmp key_slot literal buffers files task_head q slab_caches_addr build_date build_time K0 (s : sched buddy) l G A (m : bytes) :
  static_ok KS KE input_buffer tmp key_slot literal buffers files slab_caches_addr build_date build_time K0 ->
  @system_ok _ (buddy_source KS KE) task_head (image KS KE) q s l G A -> names_ok s l -> strings_ok buffers K0 m ->
  (forall t y, t ∈ l -> tasks s !! t = Some y -> str_at m (t + TASK_NAME) (name_text (tname y))) -> strings_ok buffers (names_of K0 s l) m.
Proof.
  intros HY HS HN Hm HT a r Ea. apply names_of_inv in Ea as [(t & y & Ht & -> & Ey & ->)|[E0 _]]; [|by apply Hm].
  destruct (HN t y Ht Ey) as [Hl _]. split; [by apply HT|]. split; [unfold TEXT_MAX; lia|].
  pose proof (st_areas _ _ _ _ _ _ _ _ _ _ _ _ HY) as HA. do 8 (apply Forall_cons in HA as [? HA]). cbn [fst snd] in *.
  unfold off_buffers. split_and!; (eapply name_apart; [exact HS|exact Ht|exact Hl|assumption|lia]).
Qed.

(** The machine that was started, with the file system of the example. *)
Definition example_core (x : core) : core :=
  Core (co_hw x) bootmem_init (co_sched x) (co_tty_nodes x) (co_tty_head x) {[ 5000 := FsType 0xC0107000 0 testfs_alloc ]}
    {[ FsHead := LNode (Some (FsEntry 5000)) (Some (FsEntry 5000)); FsEntry 5000 := LNode (Some FsHead) (Some FsHead) ]} false (co_root_sb x).

Lemma example_view : exists idle shell x G A,
  view_ok 0x100000 0x107800 0xC0102D00 (lin 257) 256 (table_string example_table) [5000] 1 (View (example_core x) [shell; idle] G A) /\
  Forall (fun t => exists y, tasks (co_sched x) !! t = Some y /\ length (tname y) = 16%nat /\ 0 ∈ tname y /\ Forall (fun b => 0 <= b < 256) (tname y)) [shell; idle].
Proof.
  destruct (boot_system 5 ltac:(lia)) as (idle & shell & tty & m & x & G & A & [HS Hr [(w & Ei) _] (w' & p & dd & Es & _) _ _ Hid]).
  exists idle, shell, x, G, A. split.
  2: { constructor; [eexists; split; [exact Es|]|constructor; [eexists; split; [exact Ei|]|constructor]]; apply (bool_decide_unpack _); vm_compute; exact I. }
  split; cbn [v_core v_tasks v_slabs v_blocks example_core co_sched co_bootmem core_heap].
  - exact HS.
  - exact Hr.
  - rewrite Hid. lia.
  - intros t y [->| ->%list_elem_of_singleton]%elem_of_cons E; [rewrite Es in E|rewrite Ei in E]; injection E as <-.
    + split; [|split; [cbn; lia|repeat constructor]]. unfold task_printable. cbn [tid priority kstack_size kstack_bot kstack_top ticks].
      replace (lin p + KSTACK_BYTES - (lin p + KSTACK_BYTES - 84)) with 84 by lia. repeat (apply Forall_cons; split; [by apply small_printable|]). constructor.
    + split; [|split; [cbn; lia|repeat constructor]]. repeat (apply Forall_cons; split; [unfold printable_number; vm_compute; discriminate|]). constructor.
  - exists 0, 0. split; [by apply bootmem_init_ok|]. apply (bool_decide_unpack _). vm_compute. exact I.
  - split; [split; [apply (bool_decide_unpack _); vm_compute; exact I|repeat split]|]. split; [done|]. split; [intros E%list_elem_of_singleton; discriminate E|]. split; [done|].
    intros u ->%list_elem_of_singleton. eexists _, (chars "testfs"). split; [reflexivity|]. split; [vm_compute; reflexivity|discriminate].
Qed.

Lemma example_memory_ok : strings_ok example_buffers (table_string example_table) (<[0xC0102900 := 0]> (table_memory example_table)) .
Proof.
  intros a r E. destruct (example_strings a r E) as (H1 & H2 & H3 & H4). split_and!; [|exact H2|unfold off_buffers, apart; cbn; lia].
  eapply (str_frame _ _ _ _ 0xC0102900 1); [apply wr_only|unfold apart; lia|exact H1].
Qed.

Lemma example_console x idle shell G A : let v := View (example_core x) [shell; idle] G A in
  view_ok 0x100000 0x107800 0xC0102D00 (lin 257) 256 (table_string example_table) [5000] 1 v ->
  Forall (fun t => exists y, tasks (co_sched x) !! t = Some y /\ length (tname y) = 16%nat /\ 0 ∈ tname y /\ Forall (fun b => 0 <= b < 256) (tname y)) [shell; idle] ->
  exists c, console_ok 0xC0102900 example_buffers IO_PORT_SERIAL_COM2 (strings (table_string example_table) v) [] 0 c.
Proof.
  intros v HV HT. apply Forall_cons in HT as [(ys & Es & S1 & S2 & S3) [(yi & Ei & I1 & I2 & I3) _]%Forall_cons].
  pose proof (vo_system _ _ _ _ _ _ _ _ _ HV) as HS. cbn [v v_core v_tasks v_slabs v_blocks example_core co_sched] in HS.
  destruct (write_bytes_spec (tname yi) (<[0xC0102900 := 0]> (table_memory example_table)) (idle + TASK_NAME) I3) as (m1 & _ & O1 & N1).
  destruct (write_bytes_spec (tname ys) m1 (shell + TASK_NAME) S3) as (m2 & _ & O2 & N2). rewrite I1 in O1. rewrite S1 in O2.
  assert (Hne : shell <> idle) by (destruct HS as [[[ND _] _ _ _ _ _] _ _ _ _ _ _]; apply NoDup_cons in ND as [_ ND]; apply NoDup_cons in ND as [ND _]; by intros ->; apply ND, list_elem_of_here).
  assert (Hname : forall m t y, seg m (t + TASK_NAME) (tname y) -> 0 ∈ tname y -> name_ok y -> str_at m (t + TASK_NAME) (name_text (tname y))).
  { intros m t y Hs H0 [_ Hc]. split; [|exact Hc]. destruct (name_text_spec (tname y) H0) as [r' Er]. rewrite Er in Hs. change (0 :: r') with ([0] ++ r') in Hs.
    rewrite app_assoc in Hs. by apply seg_app in Hs as [? _]. }
  assert (Hin : forall a k, in_image 0x100000 0x107800 a k -> 0 < k -> forall y, y = idle \/ y = shell -> apart (y + TASK_NAME) 16 a k).
  { intros a k Ha Hk y Hy. eapply task_apart; [exact HS| |exact Ha|exact Hk]. destruct Hy as [->| ->]; [apply list_elem_of_further|]; apply list_elem_of_here. }
  assert (HF : forall a r, str_at (<[0xC0102900 := 0]> (table_memory example_table)) a r -> in_image 0x100000 0x107800 a (Z.of_nat (length r) + 1) -> str_at m2 a r).
  { intros a r Hs Ha. eapply str_frame; [exact O2|pose proof (Hin _ _ Ha ltac:(lia) shell (or_intror eq_refl)); unfold apart in *; lia|].
    eapply str_frame; [exact O1|pose proof (Hin _ _ Ha ltac:(lia) idle (or_introl eq_refl)); unfold apart in *; lia|exact Hs]. }
  exists (Console m2 (Vga dots_video 0 24 7 []) (Serial [] [] true IO_PORT_SERIAL_COM2)). split.
  - eapply strings_of_tasks; [exact example_static|exact HS|intros t y Ht Ey; by apply (vo_tasks _ _ _ _ _ _ _ _ _ HV t y)| |].
    + intros a r E. destruct (example_memory_ok a r E) as (H1 & H2 & H3). split_and!; [|exact H2|exact H3]. apply HF; [exact H1|].
      destruct (example_strings a r E) as (_ & _ & H4 & H5). unfold in_image. change (KERNEL_START_VIRT + PAGE_ALIGN 0x100000) with 0xC0100000. change (KERNEL_START_VIRT + PAGE_ALIGN 0x107800) with 0xC0108000. lia.
    + intros t y Ht Ey. pose proof (proj2 (vo_tasks _ _ _ _ _ _ _ _ _ HV t y Ht Ey)) as Hok. change (tasks (co_sched x) !! t = Some y) in Ey. apply elem_of_cons in Ht as [->| ->%list_elem_of_singleton].
      * rewrite Es in Ey. injection Ey as <-. by apply Hname.
      * rewrite Ei in Ey. injection Ey as <-. eapply str_frame; [exact O2| |by apply Hname].
        pose proof (tasks_apart _ _ _ _ _ _ _ _ idle shell HS (list_elem_of_further _ _ _ (list_elem_of_here _ _)) (list_elem_of_here _ _) ltac:(congruence)) as Ha.
        destruct Hok as [Hl _]. unfold apart in *. lia.
  - apply HF; [split; [|constructor]; apply seg_cons; split; [apply lookup_insert_eq|apply seg_nil]|]. unfold in_image. vm_compute. by split.
  - cbn. lia.
  - exists (Term dots 0 24 7). exact boot_screen.
  - by split.
  - reflexivity.
Qed.

